(* ===== verification/_CoqProject ===== *)
-Q . S2P
Prelude.v
Riscv.v
KString.v
Thread.v
Spinlock.v
Kalloc.v
Vm.v
VmSpec.v
AddrSpace.v
UvmSpec.v
GrowSpec.v
CopySpec.v
FreeSpec.v
VmTheorems.v
Proc.v
Sched.v
SleepWakeup.v
Sleeplock.v
Kern.v
Blocks.v
Virtio.v
VirtioSpec.v
Lru.v
Bio.v
BioSpec.v
BioOps.v
Log.v
LogSpec.v
Crash.v
Txn.v
ProcMem.v
Fs.v
Balloc.v
Files.v
ReadWrite.v
FileTheorems.v
Inodes.v
Trunc.v
Dirs.v
DirLink.v
Paths.v
Uart.v
Printf.v
ProcInfo.v
Console.v
ConsoleSpec.v
Pipe.v
PipeSpec.v
UserIO.v
File.v
FileRefs.v
ProcOps.v
UserSpace.v
AllocProc.v
Exec.v
Syscall.v
GrowProc.v
ForkSpec.v
WaitSpec.v
ExecMem.v
ExecLoad.v
ExecStack.v
ExecSpec.v
Trap.v
Main.v
Mkfs.v
MkfsSpec.v
MkfsTheorems.v
MkfsImage.v
MkfsTree.v
User.v
Ulib.v
UPrintf.v
Grep.v
UProgs.v
Grind.v
Sh.v
ShSpec.v
ShPrint.v
Umalloc.v
