(* ===== verification/Prelude.v ===== *)
(** * A verification library for the xv6 (RISC-V) kernel, its user programs and mkfs

    ** The program

    The sources are an operating system kernel in C for a multi-hart RISC-V
    machine ([src/kernel]), the programs that run on it ([src/user]) and the
    tool that builds its file system image ([src/mkfs]).  The kernel's layers
    call downwards:
    - [string.c], [spinlock.c], [kalloc.c] (physical pages), [vm.c] (page tables);
    - [proc.c], [sleeplock.c] (processes, scheduling, sleep and wakeup);
    - [virtio_disk.c], [bio.c], [log.c], [fs.c] (disk driver, buffer cache,
      write-ahead log, inodes, directories and paths);
    - [file.c], [pipe.c], [console.c], [uart.c], [printf.c];
    - [exec.c], [syscall.c], [sysproc.c], [sysfile.c], [trap.c], [plic.c],
      [start.c], [main.c] (system calls, traps, boot).
    User programs reach the kernel through the calls of [user.h] and share
    [ulib.c], [printf.c] and [umalloc.c].  [mkfs.c] writes the disk that
    [fs.c] later reads.

    ** How code becomes definitions

    A kernel function is a definition of the same name in the monad [M]: it
    takes a fuel number and a state and gives a value and a state ([Ret]), a
    panic, a context switch ([Yield], which waits for what the other threads
    do), or nothing for lack of fuel ([NoFuel]).  A loop of the source is
    [mloop body] or [meach], its body a definition [..._body]; [goto bad] is
    a definition of its own.  The state has the threads and locks ([T] of
    Thread.v) and the global variables ([kern] of Kern.v), one record field
    per variable or table.  A pointer into a table is an index, a null pointer
    is [None], and dereferencing it is a panic.  Integers are [Z] with [u8],
    [u16], [u32], [u64], [i32] and [i16] where the C code wraps or
    converts.  Memory and disk blocks are bytes; structures on disk and page
    tables are encoded and decoded as in the headers.  User programs are
    trees of system calls ([prog] of User.v).

    Fuel bounds the iterations of every [mloop].  Each theorem says how much
    is enough: a constant for the loops over tables, pages or blocks (65536
    for [exec], whose file has a 16-bit number of program headers), the length of the input for the parsers and the user
    programs, the number of polls for a device.  The theorems show that the
    code returns with that fuel, not only what holds if it does.

    ** Files

    - Prelude: integers, records, the monad and its loops, shared lemmas.
      Riscv: [riscv.h], [memlayout.h], [param.h].  KString: [string.c].
    - Thread: lock names, processes, [spinlock.c] on one hart.  Spinlock: the
      atomic steps of [acquire] and [release] on many harts.
    - Kalloc: [kalloc.c].  Vm: [vm.c].  VmSpec, AddrSpace, UvmSpec, GrowSpec,
      CopySpec, FreeSpec, VmTheorems: a page table as a finite map of pages,
      user memory as bytes, and the operations of [vm.c] on that view.
    - Proc: scheduling part of [proc.c].  Sched: the contract of [swtch].
      SleepWakeup: interleaved sleepers and wakers.  Sleeplock:
      [sleeplock.c].  ProcMem, ProcOps: the rest of [proc.c].  UserSpace,
      AllocProc, GrowProc, ForkSpec, WaitSpec: a process entry with its user
      memory, and the life of a process on that view.
    - Kern: the kernel's global variables and their structures.  Blocks:
      bytes of a block.
    - Virtio, VirtioSpec: [virtio_disk.c] and the device's contract.
    - Lru, Bio, BioSpec, BioOps: [bio.c] as a cache of a logical disk.
    - Log, LogSpec, Crash, Txn: [log.c], crashes and recovery.
    - Fs: [fs.c].  Balloc, Files, ReadWrite, FileTheorems, Inodes, Trunc,
      Dirs, DirLink, Paths, UserIO: its theorems, on files as functions from
      offsets to bytes and on paths as walks along directories.
    - Uart, Printf, ProcInfo, Console, ConsoleSpec: [uart.c],
      [printf.c], [procinfo] of [proc.c], [console.c].
    - Pipe, PipeSpec: [pipe.c].  File, FileRefs: [file.c] and [pipealloc].
    - Exec, Syscall, Trap, Main: [exec.c]; [syscall.c], [sysproc.c],
      [sysfile.c]; [trap.c], [plic.c]; [main.c], [start.c].  ExecMem,
      ExecLoad, ExecStack, ExecSpec: [exec] against the image an ELF file
      stands for.
    - Mkfs, MkfsSpec, MkfsTheorems, MkfsImage: [mkfs.c].  MkfsTree: the
      kernel's [namei] on its image.
    - User: the system calls of [user.h] as events, with a weakest
      precondition for a given kernel specification.  Ulib, UPrintf, Umalloc:
      the user library.  Grep, Grind, Sh, ShSpec, ShPrint: [grep.c],
      [grind.c], [sh.c].  UProgs: one Module per remaining program.

    ** What the theorems show

    - Crash safety: a crash between any two disk writes of [end_op] leaves, after
      recovery, all of a transaction or none of it; recovery may itself be
      interrupted and repeated (Txn).  The log's reservation is one block
      short of what [begin_op] promises (Txn).
    - File system: [writei], [readi], [balloc], [bfree], [iget], [ilock],
      [iput], [dirlookup], [dirlink], [skipelem] refine operations on files,
      the bitmap, the inode table and directories, frames and error branches
      included (FileTheorems, Inodes, Trunc, Dirs, DirLink); [namex] is the
      walk along a path and leaves no reference behind but its result (Paths).
    - Processes: [fork] makes a copy of the process out of free pages, or
      leaves everything as it was; [wait] collects an exited child and gives
      its pages back; [sbrk] for every increment; [exec] replaces user memory
      by the image of a program with its arguments, or leaves no trace
      (ForkSpec, WaitSpec, GrowProc, ExecSpec).  The theorems say how many free
      pages are enough to succeed.  The file table's reference counts
      (FileRefs).
    - Buffer cache and disk: [bread] and [brelse] keep the cache coherent with
      the logical disk; a driver request with its interrupt is one atomic
      transfer (BioOps, VirtioSpec).
    - Memory: no page is handed out twice, address spaces are created, grown,
      copied and freed without leaks, and copies between kernel and user
      memory touch exactly the user's bytes (Kalloc, VmTheorems).
    - Concurrency: mutual exclusion of spin locks, no lost wakeup, the
      contract of context switches, wakeup and kill (Spinlock, SleepWakeup,
      Sched).
    - Devices and pipes: a pipe is a bounded queue (PipeSpec), console input a
      line editor (ConsoleSpec); [getprocs] copies nothing (ProcInfo).
    - mkfs: the image is the file system it was asked for (MkfsImage), and the
      kernel finds every file of it by its name (MkfsTree).
    - User programs: the shell's parser is total and inverts a printer of
      commands (ShSpec, ShPrint), grep's matcher decides the language of its
      pattern (Grep), [malloc] and [free] keep the heap in order (Umalloc),
      [printf] prints numerals [atoi] reads (UPrintf), string functions
      (KString, Ulib), [cat], [wc] and the random numbers of grind.

    ** Assumptions

    Code outside the sources enters as arguments with stated contracts: the
    linker's symbols ([Layout], [Symbols]), the disk ([Device], [BlockDev]),
    other threads at a context switch ([swtch_ok], the environment of [runs]),
    device registers (an oracle; where a theorem needs the serial port to
    drain it says so), the kernel under a user program ([kspec]).  Witnesses
    instantiate each of them.

    ** Not modelled

    - Assembly ([entry.S], [swtch.S], [trampoline.S], [kernelvec.S],
      [initcode.S], the generated [usys.S]): register-level code; [swtch] is
      an operation with a contract, and traps are modelled between entering
      and leaving the C code.
    - [usertests.c]: test programs of the kernel, not part of it.
      [ramdisk.c]: not built, and refers to fields that no longer exist.
    - The TLB, caches and the weak memory order: stores are visible at once.
      In the kernel functions other harts run only at context switches;
      interleaving on several harts is in Spinlock and SleepWakeup.
    - Register accessors of [riscv.h] that nothing calls, prototypes of
      [defs.h], the host's files and messages in mkfs.
    - Modelled without theorems of their own: the reading and writing side of
      [file.c], the system call handlers but [sbrk], the trap
      and boot code, and the test-like programs forktest, stressfs and grind's
      [go]. *)

From Stdlib Require Export ZArith Lia ZifyBool ZifyNat.
From stdpp Require Export base numbers list list_numbers gmap strings.
#[global] Open Scope Z_scope.

(** ** Machine integers

    The kernel is compiled for RV64: [int]/[uint] have 32 bits, [long],
    [uint64] and pointers 64, and plain [char] is unsigned.  A w-bit unsigned
    value is a [Z] in [0, 2^w); every operation that can leave that range is
    followed by the wrap below. *)

Definition u8 (x : Z) : Z := x mod 2 ^ 8.
Definition u16 (x : Z) : Z := x mod 2 ^ 16.
Definition u32 (x : Z) : Z := x mod 2 ^ 32.
Definition u64 (x : Z) : Z := x mod 2 ^ 64.

(** Conversion to [int] and to [short]: two's complement. *)
Definition i32 (x : Z) : Z :=
  let y := u32 x in if y <? 2 ^ 31 then y else y - 2 ^ 32.
Definition i16 (x : Z) : Z :=
  let y := u16 x in if y <? 2 ^ 15 then y else y - 2 ^ 16.

(** ** Functional record update

    [s <| f := v |>] replaces the field [f] of [s].  A record type opts in with
    an [Eta] instance that rebuilds a record from its projections. *)

Class Eta (R : Type) := eta : R -> R.

Class Setter {R E : Type} (getter : R -> E) := upd : (E -> E) -> R -> R.

Ltac solve_setter :=
  match goal with
  | |- @Setter ?R ?E ?g =>
      let e := constr:(_ : Eta R) in
      let e' := eval red in e in
      let f := fresh "f" in let r := fresh "r" in
      intros f r;
      let t := eval cbv beta in (e' r) in
      match t with
      | context C [g r] => let t' := context C [f (g r)] in exact t'
      end
  end.

#[export] Hint Extern 1 (Setter _) => solve_setter : typeclass_instances.

Declare Scope record_scope.
#[global] Open Scope record_scope.
Notation "s <| f ::= g |>" := (upd (getter := f) g s)
  (at level 1, left associativity, f at level 99, g at level 99,
   format "s  <| f  ::=  g |>") : record_scope.
Notation "s <| f := v |>" := (upd (getter := f) (fun _ => v) s)
  (at level 1, left associativity, f at level 99, v at level 99,
   format "s  <| f  :=  v |>") : record_scope.

Ltac rsimpl := cbn [upd] in *.

(** ** Effects

    Kernel code runs as a computation over a state [S] that may return, call
    [panic], or give up the CPU.  Giving up the CPU is [Yield s k]: [s] is the
    state at the context switch and [k] is what the thread does when the
    scheduler switches back to it in a state the other threads have changed.
    The [nat] every computation reads bounds the iterations of the loops whose
    number of rounds is not known on entry; a loop that uses it up is
    [NoFuel], a result no theorem about termination accepts. *)

Inductive res (S A : Type) : Type :=
| Ret (a : A) (s : S)
| Panic (msg : string)
| Yield (s : S) (k : S -> res S A)
| NoFuel.
Arguments Ret {S A} a s.
Arguments Panic {S A} msg.
Arguments Yield {S A} s k.
Arguments NoFuel {S A}.

Fixpoint bind_res {S A B} (r : res S A) (f : A -> S -> res S B) : res S B :=
  match r with
  | Ret a s => f a s
  | Panic m => Panic m
  | Yield s k => Yield s (fun s' => bind_res (k s') f)
  | NoFuel => NoFuel
  end.

Definition M (S A : Type) : Type := nat -> S -> res S A.

#[export] Instance M_ret {S} : MRet (M S) := fun A a _ s => Ret a s.
#[export] Instance M_bind {S} : MBind (M S) :=
  fun A B f m n s => bind_res (m n s) (fun a s' => f a n s').

Definition get {S} : M S S := fun _ s => Ret s s.
Definition gets {S A} (f : S -> A) : M S A := fun _ s => Ret (f s) s.
Definition modify {S} (f : S -> S) : M S () := fun _ s => Ret tt (f s).
Definition panic {S A} (msg : string) : M S A := fun _ _ => Panic msg.
(** A loop the thread never leaves on its own. *)
Definition spin {S A} : M S A := fun _ _ => NoFuel.
(** An access outside an array: C gives it no meaning, so no theorem may
    depend on what happens. *)
Definition undef {S A} : M S A := fun _ _ => Panic "undefined behaviour".
Definition mwhen {S} (b : bool) (m : M S ()) : M S () :=
  if b then m else mret tt.

(** [for(...)] over a range known on entry, with early exit: the body returns
    [Some r] to leave the loop with [r]. *)
Fixpoint mfor {S R} (k : nat) (i : Z) (body : Z -> M S (option R)) : M S (option R) :=
  match k with
  | O => mret None
  | S k' => r ← body i;
            match r with
            | Some x => mret (Some x)
            | None => mfor k' (i + 1) body
            end
  end.

(** [for(...)] without early exit. *)
Fixpoint meach {S} (k : nat) (i : Z) (body : Z -> M S ()) : M S () :=
  match k with
  | O => mret tt
  | S k' => _ ← body i; meach k' (i + 1) body
  end.

(** A loop with local variables [L]; the body returns [inl] to go on and
    [inr] to leave. *)
Fixpoint mwhile {S L R} (k : nat) (body : L -> M S (L + R)) (l : L) : M S R :=
  match k with
  | O => fun _ _ => NoFuel
  | S k' => x ← body l;
            match x with
            | inl l' => mwhile k' body l'
            | inr r => mret r
            end
  end.

Definition mloop {S L R} (body : L -> M S (L + R)) (l : L) : M S R :=
  fun n s => mwhile n body l n s.

(** Running a computation on a part of the state. *)
Fixpoint zoom_res {S S' A} (prj : S -> S') (put : S' -> S -> S)
    (s0 : S) (r : res S' A) : res S A :=
  match r with
  | Ret a s' => Ret a (put s' s0)
  | Panic m => Panic m
  | Yield s' k => Yield (put s' s0) (fun s1 => zoom_res prj put s1 (k (prj s1)))
  | NoFuel => NoFuel
  end.

Definition zoom {S S' A} (prj : S -> S') (put : S' -> S -> S) (m : M S' A) : M S A :=
  fun n s => zoom_res prj put s (m n (prj s)).

(** What a computation guarantees when every context switch hands it back a
    state related by the rely [R] to the one it left: on return the
    postcondition holds, at every switch the guarantee [G] holds, and it
    neither panics nor runs out of fuel. *)
Fixpoint safe {S A} (G : S -> Prop) (R : S -> S -> Prop) (Q : A -> S -> Prop)
    (r : res S A) : Prop :=
  match r with
  | Ret a s => Q a s
  | Panic _ => False
  | Yield s k => G s /\ forall s', R s s' -> safe G R Q (k s')
  | NoFuel => False
  end.

(** What a computation does when it runs alone: at every context switch the
    environment [env] (devices, interrupts, the scheduler) decides the state
    in which the thread goes on, or [None] if it would never be resumed. *)
Fixpoint solo {S A} (env : S -> option S) (r : res S A) : option (A * S) :=
  match r with
  | Ret a s => Some (a, s)
  | Panic _ => None
  | Yield s k => match env s with Some s' => solo env (k s') | None => None end
  | NoFuel => None
  end.

(** ** Lemmas on computations *)

Lemma bind_ret {S A B} (m : M S A) (f : A -> M S B) n s a s' :
  m n s = Ret a s' -> (m ≫= f) n s = f a n s'.
Proof. unfold mbind, M_bind. intros ->. reflexivity. Qed.

Lemma bind_panic {S A B} (m : M S A) (f : A -> M S B) n s msg :
  m n s = Panic msg -> (m ≫= f) n s = Panic msg.
Proof. unfold mbind, M_bind. intros ->. reflexivity. Qed.

Lemma bind_yield {S A B} (m : M S A) (f : A -> M S B) n s s1 k :
  m n s = Yield s1 k -> (m ≫= f) n s = Yield s1 (fun s' => bind_res (k s') (fun a s2 => f a n s2)).
Proof. unfold mbind, M_bind. intros ->. reflexivity. Qed.

Lemma bind_inv {S A B} (m : M S A) (f : A -> M S B) n s b s' :
  (m ≫= f) n s = Ret b s' ->
  exists a s1, m n s = Ret a s1 /\ f a n s1 = Ret b s'.
Proof.
  unfold mbind, M_bind. destruct (m n s) as [a s1| | |]; simpl; try discriminate.
  eauto.
Qed.

Lemma zoom_ret {S S' A} (prj : S -> S') put (m : M S' A) n s a s' :
  m n (prj s) = Ret a s' -> zoom prj put m n s = Ret a (put s' s).
Proof. unfold zoom. intros ->. reflexivity. Qed.

Lemma zoom_panic {S S' A} (prj : S -> S') put (m : M S' A) n s msg :
  m n (prj s) = Panic msg -> zoom prj put m n s = Panic msg.
Proof. unfold zoom. intros ->. reflexivity. Qed.

Lemma mwhile_inl {S L R} k (body : L -> M S (L + R)) l n s l' s' :
  body l n s = Ret (inl l') s' ->
  mwhile (Datatypes.S k) body l n s = mwhile k body l' n s'.
Proof. intros H. cbn [mwhile]. by rewrite (bind_ret _ _ _ _ _ _ H). Qed.

Lemma mwhile_inr {S L R} k (body : L -> M S (L + R)) l n s r s' :
  body l n s = Ret (inr r) s' -> mwhile (Datatypes.S k) body l n s = Ret r s'.
Proof. intros H. cbn [mwhile]. by rewrite (bind_ret _ _ _ _ _ _ H). Qed.

Lemma mloop_inr {S L R} (body : L -> M S (L + R)) l n s r s' :
  n <> 0%nat -> body l n s = Ret (inr r) s' -> mloop body l n s = Ret r s'.
Proof. unfold mloop. intros Hn H. destruct n as [|n'] eqn:E; [done|]. rewrite <- E in *. subst. by apply mwhile_inr. Qed.

Lemma mloop_twice {S L R} (body : L -> M S (L + R)) l l1 n s s1 r s2 :
  (1 < n)%nat -> body l n s = Ret (inl l1) s1 -> body l1 n s1 = Ret (inr r) s2 -> mloop body l n s = Ret r s2.
Proof.
  unfold mloop. intros Hn H1 H2. assert (exists m, n = Datatypes.S (Datatypes.S m)) as [m E] by (exists (n - 2)%nat; lia).
  rewrite E at 1. rewrite (mwhile_inl _ _ _ _ _ _ _ H1). by apply mwhile_inr.
Qed.

Lemma mfor_next {S R} k i (body : Z -> M S (option R)) n s s' :
  body i n s = Ret None s' -> mfor (Datatypes.S k) i body n s = mfor k (i + 1) body n s'.
Proof. intros H. cbn [mfor]. by rewrite (bind_ret _ _ _ _ _ _ H). Qed.

Lemma mfor_exit {S R} k i (body : Z -> M S (option R)) n s r s' :
  body i n s = Ret (Some r) s' -> mfor (Datatypes.S k) i body n s = Ret (Some r) s'.
Proof. intros H. cbn [mfor]. by rewrite (bind_ret _ _ _ _ _ _ H). Qed.

Lemma meach_next {S} k i (body : Z -> M S ()) n s s' :
  body i n s = Ret tt s' -> meach (Datatypes.S k) i body n s = meach k (i + 1) body n s'.
Proof. intros H. cbn [meach]. by rewrite (bind_ret _ _ _ _ _ _ H). Qed.

Lemma solo_bind {S A B} env (r : res S A) (f : A -> S -> res S B) :
  solo env (bind_res r f) = match solo env r with Some (a, s) => solo env (f a s) | None => None end.
Proof.
  induction r as [a s|msg|s k IH|]; simpl; try done. destruct (env s); [apply IH|done].
Qed.

Lemma solo_ret {S A B} env (m : M S A) (f : A -> M S B) n s a s' :
  solo env (m n s) = Some (a, s') -> solo env ((m ≫= f) n s) = solo env (f a n s').
Proof. intros H. unfold mbind, M_bind. by rewrite solo_bind, H. Qed.

(** [runs env r Q]: alone in the environment, the computation returns and
    its result satisfies [Q]. *)
Definition runs {S A} (env : S -> option S) (r : res S A) (Q : A -> S -> Prop) : Prop :=
  match solo env r with Some (a, s) => Q a s | None => False end.

Lemma runs_bind {S A B} env (m : M S A) (f : A -> M S B) n s Q :
  runs env (m n s) (fun a s' => runs env (f a n s') Q) -> runs env ((m ≫= f) n s) Q.
Proof. unfold runs, mbind, M_bind. rewrite solo_bind. by destruct (solo env (m n s)) as [[a s']|]. Qed.

Lemma runs_mono {S A} env (r : res S A) (Q Q' : A -> S -> Prop) :
  (forall a s, Q a s -> Q' a s) -> runs env r Q -> runs env r Q'.
Proof. unfold runs. destruct (solo env r) as [[a s]|]; auto. Qed.

Lemma runs_some {S A} env (r : res S A) Q :
  runs env r Q <-> exists a s, solo env r = Some (a, s) /\ Q a s.
Proof.
  unfold runs. split; [|by intros (a & s & -> & H)]. destruct (solo env r) as [[a s]|]; [eauto|done].
Qed.

Lemma runs_ret {S A} env (m : M S A) n s a s' (Q : A -> S -> Prop) :
  m n s = Ret a s' -> Q a s' -> runs env (m n s) Q.
Proof. unfold runs. intros -> H. exact H. Qed.

(** Alone in the environment, the computation panics. *)
Fixpoint panics {S A} (env : S -> option S) (r : res S A) (msg : string) : Prop :=
  match r with
  | Panic m => m = msg
  | Yield s k => match env s with Some s' => panics env (k s') msg | None => False end
  | Ret _ _ | NoFuel => False
  end.

Lemma panics_bind {S A B} env (m : M S A) (f : A -> M S B) n s msg :
  runs env (m n s) (fun a s' => panics env (f a n s') msg) -> panics env ((m ≫= f) n s) msg.
Proof.
  unfold runs, mbind, M_bind. generalize (m n s) as r. induction r as [a s1|msg1|s1 k IH|]; cbn; try done.
  destruct (env s1); [apply IH|done].
Qed.

(** A loop whose body runs alone. *)
Lemma runs_mwhile_inl {S L R} env k (body : L -> M S (L + R)) l n s Q :
  runs env (body l n s) (fun x s' => match x with
    | inl l' => runs env (mwhile k body l' n s') Q
    | inr r => Q r s' end) ->
  runs env (mwhile (Datatypes.S k) body l n s) Q.
Proof. intros H. cbn [mwhile]. apply runs_bind. eapply runs_mono; [|exact H]. intros [l'|r] s' Hs; exact Hs. Qed.

(** A counting loop that keeps an invariant. *)
Lemma runs_count {S} env (body : Z -> M S (Z + ())) n N (I : nat -> S -> Prop) :
  (forall i s, (i < N)%nat -> I i s -> runs env (body (Z.of_nat i) n s) (fun r s' => r = inl (Z.of_nat i + 1) /\ I (Datatypes.S i) s')) ->
  (forall s, I N s -> runs env (body (Z.of_nat N) n s) (fun r s' => r = inr tt /\ I N s')) ->
  forall m i fuel s, (i + m = N)%nat -> (m < fuel)%nat -> I i s -> runs env (mwhile fuel body (Z.of_nat i) n s) (fun _ s' => I N s').
Proof.
  intros Hstep Hend. induction m as [|m IH]; intros i fuel s Hi Hf Hs; (destruct fuel as [|fuel]; [lia|]); apply runs_mwhile_inl.
  - replace i with N in * by lia. eapply runs_mono; [|by apply Hend]. intros r s' [-> Hs']. exact Hs'.
  - eapply runs_mono; [|apply Hstep; [lia|exact Hs]]. intros r s' [-> Hs'].
    replace (Z.of_nat i + 1) with (Z.of_nat (Datatypes.S i)) by lia. apply IH; [lia|lia|done].
Qed.

Lemma safe_bind {S A B} G R (Q : B -> S -> Prop) (r : res S A) f :
  safe G R (fun a s => safe G R Q (f a s)) r -> safe G R Q (bind_res r f).
Proof.
  induction r as [a s|msg|s k IH|]; simpl; try done.
  intros [HG Hk]. split; [done|]. intros s' HR. apply IH, Hk, HR.
Qed.

Lemma safe_mono {S A} G R (Q Q' : A -> S -> Prop) (r : res S A) :
  (forall a s, Q a s -> Q' a s) -> safe G R Q r -> safe G R Q' r.
Proof.
  intros HQ. induction r as [a s|msg|s k IH|]; simpl; try done; [apply HQ|].
  intros [HG Hk]. split; [done|]. intros s' HR. apply IH, Hk, HR.
Qed.

Lemma safe_meach {S} G R (I : S -> Prop) n k : forall i (body : Z -> M S ()) s,
  (forall i s, I s -> safe G R (fun _ => I) (body i n s)) -> I s ->
  safe G R (fun _ => I) (meach k i body n s).
Proof.
  induction k as [|k IH]; intros i body s Hb Hs; [done|]. cbn [meach]. apply safe_bind.
  eapply safe_mono; [|by apply Hb]. intros [] s' Hs'. by apply IH.
Qed.

(** ** Lemmas on machine integers *)

Lemma u8_range x : 0 <= u8 x < 2 ^ 8.
Proof. apply Z.mod_pos_bound. lia. Qed.
Lemma u16_range x : 0 <= u16 x < 2 ^ 16.
Proof. apply Z.mod_pos_bound. lia. Qed.
Lemma u32_range x : 0 <= u32 x < 2 ^ 32.
Proof. apply Z.mod_pos_bound. lia. Qed.
Lemma u64_range x : 0 <= u64 x < 2 ^ 64.
Proof. apply Z.mod_pos_bound. lia. Qed.
Lemma u8_small x : 0 <= x < 2 ^ 8 -> u8 x = x.
Proof. apply Z.mod_small. Qed.
Lemma u16_small x : 0 <= x < 2 ^ 16 -> u16 x = x.
Proof. apply Z.mod_small. Qed.
Lemma u32_small x : 0 <= x < 2 ^ 32 -> u32 x = x.
Proof. apply Z.mod_small. Qed.
Lemma u64_small x : 0 <= x < 2 ^ 64 -> u64 x = x.
Proof. apply Z.mod_small. Qed.

Lemma i32_small x : - 2 ^ 31 <= x < 2 ^ 31 -> i32 x = x.
Proof.
  intros Hx. unfold i32, u32. destruct (Z.ltb_spec (x mod 2 ^ 32) (2 ^ 31)) as [H|H].
  - destruct (Z_lt_le_dec x 0) as [Hn|Hp].
    + exfalso. rewrite <- (Z_mod_plus_full x 1) in H.
      rewrite Z.mod_small in H; lia.
    + apply Z.mod_small. lia.
  - destruct (Z_lt_le_dec x 0) as [Hn|Hp].
    + rewrite <- (Z_mod_plus_full x 1). rewrite Z.mod_small; lia.
    + rewrite Z.mod_small in H; lia.
Qed.

Lemma i32_range x : - 2 ^ 31 <= i32 x < 2 ^ 31.
Proof.
  unfold i32. pose proof (u32_range x) as H.
  destruct (Z.ltb_spec (u32 x) (2 ^ 31)); lia.
Qed.

Create HintDb xv6 discriminated.
#[export] Hint Resolve u8_range u16_range u32_range u64_range i32_range : xv6.

(** ** Little-endian encoding of a [n]-byte integer *)

Fixpoint le_bytes (n : nat) (x : Z) : list Z :=
  match n with
  | O => []
  | S n' => x mod 256 :: le_bytes n' (x / 256)
  end.

Fixpoint le_val (l : list Z) : Z :=
  match l with
  | [] => 0
  | b :: l' => b + 256 * le_val l'
  end.

Lemma le_bytes_length n x : length (le_bytes n x) = n.
Proof. revert x. induction n; intros; simpl; auto. Qed.

Lemma le_val_bytes n x : 0 <= x < 256 ^ Z.of_nat n -> le_val (le_bytes n x) = x.
Proof.
  revert x. induction n as [|n IH]; intros x Hx; simpl.
  - simpl in Hx. lia.
  - rewrite IH.
    + rewrite (Z.div_mod x 256) at 3 by lia. lia.
    + split; [apply Z.div_pos; lia|].
      apply Z.div_lt_upper_bound; [lia|].
      replace (256 * 256 ^ Z.of_nat n) with (256 ^ Z.of_nat (S n)); [lia|].
      rewrite Nat2Z.inj_succ, Z.pow_succ_r by lia. reflexivity.
Qed.

Lemma le_bytes_bytes n x : Forall (fun b => 0 <= b < 256) (le_bytes n x).
Proof.
  revert x. induction n as [|n IH]; intros x; simpl; constructor; [|apply IH].
  apply Z.mod_pos_bound. lia.
Qed.

Lemma le_bytes_val l n :
  length l = n -> Forall (fun b => 0 <= b < 256) l -> le_bytes n (le_val l) = l.
Proof.
  intros <-. induction 1 as [|b l Hb Hl IH]; [done|]. simpl.
  rewrite (Z.mul_comm 256), Z_mod_plus_full, Z.mod_small by lia.
  rewrite Z_div_plus_full, Z.div_small, Z.add_0_l by lia. by rewrite IH.
Qed.

(** ** Lists updated by index *)

Lemma alter_alter {A} (f g : A -> A) i (l : list A) : alter f i (alter g i l) = alter (fun x => f (g x)) i l.
Proof. revert i. induction l as [|x l IH]; intros [|i]; cbn; try done. by rewrite (IH i). Qed.

Lemma alter_insert {A} (f : A -> A) i (l : list A) x : l !! i = Some x -> alter f i l = <[i := f x]> l.
Proof. revert i. induction l as [|y l IH]; intros [|i] H; cbn in *; simplify_eq; [done|]. by rewrite (IH i). Qed.

(** ** Tactics *)

(** Runs the head of a monadic goal or hypothesis once its result is known. *)
Ltac mstep H := erewrite bind_ret by (exact H || apply H).

(** Unfolds the pure monadic glue. *)
Ltac mred :=
  repeat (progress (unfold mbind, M_bind, mret, M_ret, get, gets, modify, mwhen;
                    simpl bind_res; cbv beta)).

Ltac minv H :=
  match type of H with
  | (_ ≫= _) _ _ = Ret _ _ =>
      let a := fresh "a" in let s := fresh "s" in let H1 := fresh H in
      apply bind_inv in H as (a & s & H1 & H)
  end.
