(* ===== verification/Riscv.v ===== *)
(** * The machine: page arithmetic, page-table entries, layout constants

    Models the macros of [kernel/riscv.h] and the constants of
    [kernel/param.h] and [kernel/memlayout.h].  The macros work on [uint64]
    values; each is a function on [Z] with the 64-bit wrap where the C
    expression can overflow. *)

From Stdlib Require Import ZArith Lia.
From S2P Require Import Prelude.

(** ** param.h *)

Definition NPROC : Z := 64.
Definition NCPU : Z := 8.
Definition NOFILE : Z := 16.
Definition NFILE : Z := 100.
Definition NINODE : Z := 50.
Definition NDEV : Z := 10.
Definition ROOTDEV : Z := 1.
Definition MAXARG : Z := 32.
Definition MAXOPBLOCKS : Z := 10.
Definition LOGSIZE : Z := MAXOPBLOCKS * 3.
Definition NBUF : Z := MAXOPBLOCKS * 3.
Definition FSSIZE : Z := 1000.
Definition MAXPATH : Z := 128.

(** ** riscv.h: paging *)

Definition PGSIZE : Z := 4096.
Definition PGSHIFT : Z := 12.

Definition PGROUNDUP (sz : Z) : Z := Z.land (u64 (sz + PGSIZE - 1)) (Z.lnot (PGSIZE - 1)).
Definition PGROUNDDOWN (a : Z) : Z := Z.land a (Z.lnot (PGSIZE - 1)).

Definition PTE_V : Z := Z.shiftl 1 0.
Definition PTE_R : Z := Z.shiftl 1 1.
Definition PTE_W : Z := Z.shiftl 1 2.
Definition PTE_X : Z := Z.shiftl 1 3.
Definition PTE_U : Z := Z.shiftl 1 4.

Definition PA2PTE (pa : Z) : Z := u64 (Z.shiftl (Z.shiftr pa 12) 10).
Definition PTE2PA (pte : Z) : Z := u64 (Z.shiftl (Z.shiftr pte 10) 12).
Definition PTE_FLAGS (pte : Z) : Z := Z.land pte 0x3FF.

Definition PXMASK : Z := 0x1FF.
Definition PXSHIFT (level : Z) : Z := PGSHIFT + 9 * level.
Definition PX (level va : Z) : Z := Z.land (Z.shiftr va (PXSHIFT level)) PXMASK.

Definition MAXVA : Z := Z.shiftl 1 (9 + 9 + 9 + 12 - 1).

Definition SATP_SV39 : Z := Z.shiftl 8 60.
Definition MAKE_SATP (pagetable : Z) : Z := Z.lor SATP_SV39 (Z.shiftr pagetable 12).

(** ** memlayout.h *)

Definition UART0 : Z := 0x10000000.
Definition UART0_IRQ : Z := 10.
Definition VIRTIO0 : Z := 0x10001000.
Definition VIRTIO0_IRQ : Z := 1.
Definition CLINT : Z := 0x2000000.
Definition CLINT_MTIMECMP (hartid : Z) : Z := CLINT + 0x4000 + 8 * hartid.
Definition CLINT_MTIME : Z := CLINT + 0xBFF8.
Definition PLIC : Z := 0x0c000000.
Definition PLIC_SENABLE (hart : Z) : Z := PLIC + 0x2080 + hart * 0x100.
Definition PLIC_SPRIORITY (hart : Z) : Z := PLIC + 0x201000 + hart * 0x2000.
Definition PLIC_SCLAIM (hart : Z) : Z := PLIC + 0x201004 + hart * 0x2000.
Definition KERNBASE : Z := 0x80000000.
Definition PHYSTOP : Z := KERNBASE + 128 * 1024 * 1024.
Definition TRAMPOLINE : Z := MAXVA - PGSIZE.
Definition KSTACK (p : Z) : Z := TRAMPOLINE - (p + 1) * 2 * PGSIZE.
Definition TRAPFRAME : Z := TRAMPOLINE - PGSIZE.

(** ** Arithmetic readings of the bit operations *)

Lemma land_lnot_4095 a : Z.land a (Z.lnot 4095) = a - a mod 4096.
Proof.
  rewrite <- Z.ldiff_land. change 4095 with (Z.ones 12).
  rewrite Z.ldiff_ones_r by lia. rewrite Z.shiftl_mul_pow2, Z.shiftr_div_pow2 by lia.
  change (2 ^ 12) with 4096. rewrite (Z.div_mod a 4096) at 2 by lia. lia.
Qed.

Lemma PGROUNDDOWN_eq a : PGROUNDDOWN a = a - a mod 4096.
Proof. apply land_lnot_4095. Qed.

Lemma PGROUNDUP_eq sz :
  0 <= sz <= 2 ^ 64 - 4096 -> PGROUNDUP sz = (sz + 4095) / 4096 * 4096.
Proof.
  intros H. unfold PGROUNDUP, PGSIZE. change (4096 - 1) with 4095.
  rewrite land_lnot_4095, u64_small by lia.
  replace (sz + 4096 - 1) with (sz + 4095) by lia.
  rewrite (Z.div_mod (sz + 4095) 4096) at 1 by lia. lia.
Qed.

Lemma PX_eq level va : 0 <= level -> PX level va = (va / 2 ^ (12 + 9 * level)) mod 512.
Proof.
  intros H. unfold PX, PXSHIFT, PXMASK, PGSHIFT. change 0x1FF with (Z.ones 9).
  rewrite Z.land_ones, Z.shiftr_div_pow2 by lia. reflexivity.
Qed.

Lemma PX_range level va : 0 <= level -> 0 <= PX level va < 512.
Proof. intros H. rewrite PX_eq by done. apply Z.mod_pos_bound. lia. Qed.

Lemma PTE_FLAGS_eq pte : PTE_FLAGS pte = pte mod 1024.
Proof. unfold PTE_FLAGS. change 0x3FF with (Z.ones 10). by rewrite Z.land_ones by lia. Qed.

Lemma PA2PTE_eq pa :
  0 <= pa < 2 ^ 56 -> PA2PTE pa = pa / 4096 * 1024.
Proof.
  intros H. unfold PA2PTE. rewrite Z.shiftl_mul_pow2, Z.shiftr_div_pow2 by lia.
  change (2 ^ 12) with 4096. change (2 ^ 10) with 1024. apply u64_small.
  pose proof (Z.div_lt_upper_bound pa 4096 (2 ^ 44)).
  pose proof (Z.div_pos pa 4096). lia.
Qed.

Lemma PTE2PA_eq pte :
  0 <= pte < 2 ^ 54 -> PTE2PA pte = pte / 1024 * 4096.
Proof.
  intros H. unfold PTE2PA. rewrite Z.shiftl_mul_pow2, Z.shiftr_div_pow2 by lia.
  change (2 ^ 12) with 4096. change (2 ^ 10) with 1024. apply u64_small.
  pose proof (Z.div_lt_upper_bound pte 1024 (2 ^ 44)).
  pose proof (Z.div_pos pte 1024). lia.
Qed.

(** A leaf entry built by [mappages]: the frame bits and the flag bits do not
    overlap, so the [|] of the code is an addition. *)
Lemma lor_flags_add x fl :
  0 <= x -> x mod 1024 = 0 -> 0 <= fl < 1024 -> Z.lor x fl = x + fl.
Proof.
  intros Hx Hm Hf. rewrite Z.add_nocarry_lxor, Z.lxor_lor; [done| |];
  apply Z.bits_inj'; intros n Hn; rewrite Z.land_spec, Z.bits_0;
  (destruct (Z_lt_le_dec n 10) as [Hlt|Hge];
   [ replace (Z.testbit x n) with (Z.testbit (x mod 2 ^ 10) n)
       by (apply Z.mod_pow2_bits_low; lia);
     change (2 ^ 10) with 1024; rewrite Hm, Z.bits_0; done
   | replace fl with (fl mod 2 ^ 10) by (apply Z.mod_small; lia);
     rewrite (Z.mod_pow2_bits_high fl 10 n) by lia; apply andb_false_r ]).
Qed.

Definition mk_pte (pa perm : Z) : Z := Z.lor (Z.lor (PA2PTE pa) perm) PTE_V.

Section pte.
Context (pa fl : Z).
Context (Hpa : 0 <= pa < 2 ^ 56) (Hal : pa mod 4096 = 0) (Hfl : 0 <= fl < 1024).

Lemma pte_add : Z.lor (PA2PTE pa) fl = pa / 4096 * 1024 + fl.
Proof.
  clear Hal.
  rewrite PA2PTE_eq by done. apply lor_flags_add; [|apply Z_mod_mult|done].
  pose proof (Z.div_pos pa 4096). lia.
Qed.

Lemma pte_bound : 0 <= pa / 4096 * 1024 + fl < 2 ^ 54.
Proof.
  clear Hal.
  pose proof (Z.div_lt_upper_bound pa 4096 (2 ^ 44)).
  pose proof (Z.div_pos pa 4096). lia.
Qed.

Lemma PTE2PA_PA2PTE : PTE2PA (Z.lor (PA2PTE pa) fl) = pa.
Proof.
  rewrite pte_add, PTE2PA_eq by apply pte_bound.
  rewrite (Z.add_comm _ fl), Z_div_plus_full, (Z.div_small fl) by lia.
  rewrite (Z.div_mod pa 4096) at 2 by lia. lia.
Qed.

Lemma PTE_FLAGS_PA2PTE : PTE_FLAGS (Z.lor (PA2PTE pa) fl) = fl.
Proof.
  rewrite pte_add, PTE_FLAGS_eq, Z.add_comm, Z_mod_plus_full.
  apply Z.mod_small. done.
Qed.
End pte.

(** A virtual address below 2^39 is its three table indices and its offset. *)
Lemma va_split va :
  0 <= va < 2 ^ 39 ->
  va = PX 2 va * 2 ^ 30 + PX 1 va * 2 ^ 21 + PX 0 va * 2 ^ 12 + va mod 4096.
Proof.
  intros H. rewrite !PX_eq by lia.
  change (12 + 9 * 2) with 30. change (12 + 9 * 1) with 21. change (12 + 9 * 0) with 12.
  rewrite (Z.mod_small (va / 2 ^ 30)).
  2: { split; [apply Z.div_pos; lia|apply Z.div_lt_upper_bound; lia]. }
  pose proof (Z.div_mod va 4096). pose proof (Z.div_mod (va / 4096) 512).
  pose proof (Z.div_mod (va / 2 ^ 21) 512).
  replace (2 ^ 30) with (2 ^ 21 * 512) by lia.
  replace (2 ^ 21) with (4096 * 512) in * by lia.
  change (2 ^ 12) with 4096.
  rewrite <- !Z.div_div in * by lia. lia.
Qed.

(** ** Flags of an entry *)

Lemma has_testbit v k : 0 <= k -> negb (Z.land v (Z.shiftl 1 k) =? 0) = Z.testbit v k.
Proof.
  intros Hk. rewrite Z.shiftl_1_l. destruct (Z.testbit v k) eqn:E.
  - destruct (Z.eqb_spec (Z.land v (2 ^ k)) 0) as [H|]; [|done].
    apply (f_equal (fun x => Z.testbit x k)) in H.
    by rewrite Z.land_spec, Z.pow2_bits_true, E, Z.bits_0 in H.
  - destruct (Z.eqb_spec (Z.land v (2 ^ k)) 0) as [|H]; [done|]. exfalso. apply H.
    apply Z.bits_inj_0. intros i. rewrite Z.land_spec, Z.pow2_bits_eqb by done.
    destruct (Z.eqb_spec k i) as [<-|]; [by rewrite E|apply andb_false_r].
Qed.

Lemma PA2PTE_low pa k : 0 <= k < 10 -> Z.testbit (PA2PTE pa) k = false.
Proof.
  intros Hk. unfold PA2PTE, u64. rewrite Z.mod_pow2_bits_low by lia.
  rewrite Z.shiftl_spec by lia. apply Z.testbit_neg_r. lia.
Qed.

Section mk_pte.
Context (pa perm : Z) (Hpa : 0 <= pa < 2 ^ 56) (Hal : pa mod 4096 = 0) (Hfl : 0 <= perm < 1024).

Lemma mk_pte_flags : 0 <= Z.lor perm PTE_V < 1024.
Proof. clear Hal Hpa.
  split; [apply Z.lor_nonneg; split; [lia|done]|].
  destruct (Z.eq_dec perm 0) as [->|]; [done|]. apply Z.log2_lt_pow2 with (b := 10).
  - assert (Z.lor perm PTE_V <> 0) by (intros [? ?]%Z.lor_eq_0_iff; done).
    assert (0 <= Z.lor perm PTE_V) by (apply Z.lor_nonneg; split; [lia|done]). lia.
  - rewrite Z.log2_lor by (lia || done). change (Z.log2 PTE_V) with 0.
    assert (Z.log2 perm < 10) by (apply Z.log2_lt_pow2; lia). lia.
Qed.

Lemma mk_pte_eq : mk_pte pa perm = Z.lor (PA2PTE pa) (Z.lor perm PTE_V).
Proof. unfold mk_pte. by rewrite Z.lor_assoc. Qed.

Lemma mk_pte_range : 0 <= mk_pte pa perm < 2 ^ 54.
Proof. clear Hal. rewrite mk_pte_eq, pte_add by (done || apply mk_pte_flags). apply pte_bound; [done|apply mk_pte_flags]. Qed.

Lemma mk_pte_PA : PTE2PA (mk_pte pa perm) = pa.
Proof. rewrite mk_pte_eq. apply PTE2PA_PA2PTE; done || apply mk_pte_flags. Qed.

Lemma mk_pte_FLAGS : PTE_FLAGS (mk_pte pa perm) = Z.lor perm PTE_V.
Proof. rewrite mk_pte_eq. apply PTE_FLAGS_PA2PTE; done || apply mk_pte_flags. Qed.

Lemma mk_pte_bit k : 0 <= k < 10 -> Z.testbit (mk_pte pa perm) k = Z.testbit (Z.lor perm PTE_V) k.
Proof. intros Hk. by rewrite mk_pte_eq, Z.lor_spec, PA2PTE_low. Qed.
End mk_pte.
