(* ===== verification/KString.v ===== *)
(** * Byte memory and [kernel/string.c]

    Memory is a finite map from addresses to bytes; an address that was never
    written reads as 0.  Each function of string.c is the loop of the source on
    this memory.  The second half gives the functions on byte lists that the
    rest of the kernel model uses for [char] arrays inside structures
    ([de.name], [p->name]) and proves that the loops compute them. *)

From Stdlib Require Import ZArith Lia Ascii String.
From S2P Require Import Prelude.

(** ** Memory *)

Definition ld (m : gmap Z Z) (a : Z) : Z := u8 (default 0 (m !! a)).
Definition st (m : gmap Z Z) (a v : Z) : gmap Z Z := <[a := u8 v]> m.

Definition mem_read (m : gmap Z Z) (a : Z) (n : nat) : list Z :=
  (fun i => ld m (a + Z.of_nat i)) <$> seq 0 n.

Fixpoint mem_write (m : gmap Z Z) (a : Z) (l : list Z) : gmap Z Z :=
  match l with
  | [] => m
  | b :: l' => mem_write (st m a b) (a + 1) l'
  end.

Definition ld64 (m : gmap Z Z) (a : Z) : Z := le_val (mem_read m a 8).
Definition st64 (m : gmap Z Z) (a v : Z) : gmap Z Z := mem_write m a (le_bytes 8 v).

#[global] Arguments ld : simpl never.
#[global] Arguments st : simpl never.
#[global] Arguments ld64 : simpl never.
#[global] Arguments st64 : simpl never.

(** ** string.c *)

Fixpoint memset_loop (k : nat) (m : gmap Z Z) (cdst i c : Z) : gmap Z Z :=
  match k with
  | O => m
  | S k' => memset_loop k' (st m (cdst + i) c) cdst (i + 1) c
  end.
Definition memset (m : gmap Z Z) (dst c n : Z) : gmap Z Z :=
  memset_loop (Z.to_nat n) m dst 0 c.

Fixpoint memcmp_loop (k : nat) (m : gmap Z Z) (s1 s2 : Z) : Z :=
  match k with
  | O => 0
  | S k' => if ld m s1 =? ld m s2 then memcmp_loop k' m (s1 + 1) (s2 + 1)
            else ld m s1 - ld m s2
  end.
Definition memcmp (m : gmap Z Z) (v1 v2 n : Z) : Z := memcmp_loop (Z.to_nat n) m v1 v2.

(** [while(n-- > 0) *--d = *--s;] *)
Fixpoint move_down (k : nat) (m : gmap Z Z) (d s : Z) : gmap Z Z :=
  match k with
  | O => m
  | S k' => move_down k' (st m (d - 1) (ld m (s - 1))) (d - 1) (s - 1)
  end.
(** [while(n-- > 0) *d++ = *s++;] *)
Fixpoint move_up (k : nat) (m : gmap Z Z) (d s : Z) : gmap Z Z :=
  match k with
  | O => m
  | S k' => move_up k' (st m d (ld m s)) (d + 1) (s + 1)
  end.
Definition memmove (m : gmap Z Z) (dst src n : Z) : gmap Z Z :=
  if n =? 0 then m
  else if (src <? dst) && (src + n >? dst)
  then move_down (Z.to_nat n) m (dst + n) (src + n)
  else move_up (Z.to_nat n) m dst src.

Definition memcpy (m : gmap Z Z) (dst src n : Z) : gmap Z Z := memmove m dst src n.

Fixpoint strncmp_loop (k : nat) (m : gmap Z Z) (p q : Z) : Z :=
  match k with
  | O => 0
  | S k' => if negb (ld m p =? 0) && (ld m p =? ld m q)
            then strncmp_loop k' m (p + 1) (q + 1)
            else ld m p - ld m q
  end.
Definition strncmp (m : gmap Z Z) (p q n : Z) : Z := strncmp_loop (Z.to_nat n) m p q.

Fixpoint strncpy_pad (k : nat) (m : gmap Z Z) (s : Z) : gmap Z Z :=
  match k with
  | O => m
  | S k' => strncpy_pad k' (st m s 0) (s + 1)
  end.
Fixpoint strncpy_loop (k : nat) (m : gmap Z Z) (s t : Z) : gmap Z Z :=
  match k with
  | O => m
  | S k' => let c := ld m t in
            let m' := st m s c in
            if c =? 0 then strncpy_pad k' m' (s + 1)
            else strncpy_loop k' m' (s + 1) (t + 1)
  end.
Definition strncpy (m : gmap Z Z) (s t n : Z) : gmap Z Z := strncpy_loop (Z.to_nat n) m s t.

(** [k] counts the bytes the [--n > 0] guard still allows. *)
Fixpoint safestrcpy_loop (k : nat) (m : gmap Z Z) (s t : Z) : gmap Z Z :=
  match k with
  | O => st m s 0
  | S k' => let c := ld m t in
            let m' := st m s c in
            if c =? 0 then st m' (s + 1) 0
            else safestrcpy_loop k' m' (s + 1) (t + 1)
  end.
Definition safestrcpy (m : gmap Z Z) (s t n : Z) : gmap Z Z :=
  if n <=? 0 then m else safestrcpy_loop (Z.to_nat (n - 1)) m s t.

Fixpoint strlen_loop (fuel : nat) (m : gmap Z Z) (s n : Z) : option Z :=
  match fuel with
  | O => None
  | S f => if ld m (s + n) =? 0 then Some n else strlen_loop f m s (n + 1)
  end.
Definition strlen (fuel : nat) (m : gmap Z Z) (s : Z) : option Z := strlen_loop fuel m s 0.

#[global] Arguments memset : simpl never.
#[global] Arguments memmove : simpl never.

(** ** The same functions on byte arrays

    A [char[n]] inside a structure is the list of its [n] bytes; [strcut] is
    the C string it holds (up to the first NUL, if any). *)

Fixpoint strcut (l : list Z) : list Z :=
  match l with
  | [] => []
  | c :: l' => if c =? 0 then [] else c :: strcut l'
  end.

(** The bytes of a string literal. *)
Fixpoint chars (s : string) : list Z :=
  match s with
  | EmptyString => []
  | String a s' => Z.of_N (N_of_ascii a) :: chars s'
  end.

Fixpoint strncmp_l (k : nat) (p q : list Z) : Z :=
  match k with
  | O => 0
  | S k' => let a := hd 0 p in let b := hd 0 q in
            if negb (a =? 0) && (a =? b) then strncmp_l k' (tl p) (tl q) else a - b
  end.

(** The [k] bytes [strncpy] leaves in its destination. *)
Definition strncpy_l (k : nat) (t : list Z) : list Z :=
  let s := take k (strcut t) in s ++ replicate (k - length s) 0.

(** The bytes [safestrcpy] leaves in a destination that held [old]. *)
Definition safestrcpy_l (k : nat) (t old : list Z) : list Z :=
  let s := take (k - 1) (strcut t) in
  let w := if (length s <? k - 1)%nat then s ++ [0; 0] else s ++ [0] in
  w ++ drop (length w) old.

(** ** Loads and stores *)

Lemma ld_range m a : 0 <= ld m a < 256.
Proof. apply u8_range. Qed.
#[export] Hint Resolve ld_range : xv6.

Lemma ld_st m a v b : ld (st m a v) b = if b =? a then u8 v else ld m b.
Proof.
  unfold ld, st. destruct (Z.eqb_spec b a) as [->|H].
  - rewrite lookup_insert_eq. simpl. unfold u8. rewrite Z.mod_mod; lia.
  - by rewrite lookup_insert_ne.
Qed.

Lemma u8_ld m a : u8 (ld m a) = ld m a.
Proof. apply u8_small. apply (ld_range m a). Qed.

Lemma mem_write_ld l : forall m a b,
  ld (mem_write m a l) b =
  if (a <=? b) && (b <? a + Z.of_nat (length l)) then u8 (nth (Z.to_nat (b - a)) l 0) else ld m b.
Proof.
  induction l as [|x l IH]; intros m a b.
  - simpl. replace (a + Z.of_nat 0) with a by lia.
    destruct (Z.leb_spec a b), (Z.ltb_spec b a); simpl; done || lia.
  - cbn [mem_write length]. rewrite IH, ld_st.
    destruct (Z.eqb_spec b a) as [->|Hne].
    + replace (a - a) with 0 by lia.
      destruct (Z.leb_spec (a + 1) a), (Z.leb_spec a a), (Z.ltb_spec a (a + Z.of_nat (S (length l))));
        simpl; lia || done.
    + destruct (Z.leb_spec (a + 1) b), (Z.leb_spec a b),
        (Z.ltb_spec b (a + 1 + Z.of_nat (length l))), (Z.ltb_spec b (a + Z.of_nat (S (length l))));
        simpl; try lia; try done.
      replace (Z.to_nat (b - a)) with (S (Z.to_nat (b - (a + 1)))) by lia. done.
Qed.

Lemma mem_read_length m a n : length (mem_read m a n) = n.
Proof. unfold mem_read. by rewrite length_fmap, length_seq. Qed.

Lemma mem_read_S m a n : mem_read m a (S n) = ld m a :: mem_read m (a + 1) n.
Proof.
  unfold mem_read. simpl. replace (a + Z.of_nat 0) with a by lia. f_equal.
  rewrite <- fmap_S_seq, <- list_fmap_compose. apply list_fmap_ext.
  intros i x _. simpl. f_equal. lia.
Qed.

Lemma mem_read_nth m a n i d : (i < n)%nat -> nth i (mem_read m a n) d = ld m (a + Z.of_nat i).
Proof.
  revert a i. induction n as [|n IH]; intros a i H; [lia|].
  rewrite mem_read_S. destruct i; simpl; [f_equal; lia|]. rewrite IH by lia. f_equal. lia.
Qed.

Lemma mem_read_ext m m' a n :
  (forall b, a <= b < a + Z.of_nat n -> ld m' b = ld m b) -> mem_read m' a n = mem_read m a n.
Proof.
  revert a. induction n as [|n IH]; intros a H; [done|].
  rewrite !mem_read_S. f_equal; [apply H; lia|]. apply IH. intros b Hb. apply H. lia.
Qed.

Lemma mem_read_bytes m a n : Forall (fun b => 0 <= b < 256) (mem_read m a n).
Proof.
  revert a. induction n as [|n IH]; intros a; [constructor|].
  rewrite mem_read_S. constructor; [apply ld_range|apply IH].
Qed.

Lemma mem_read_write m a l :
  Forall (fun b => 0 <= b < 256) l -> mem_read (mem_write m a l) a (length l) = l.
Proof.
  intros H. apply (nth_ext _ _ 0 0); rewrite mem_read_length; [done|].
  intros i Hi. rewrite mem_read_nth by done. rewrite mem_write_ld.
  destruct (Z.leb_spec a (a + Z.of_nat i)), (Z.ltb_spec (a + Z.of_nat i) (a + Z.of_nat (length l)));
    simpl; try lia.
  replace (Z.to_nat (a + Z.of_nat i - a)) with i by lia.
  apply u8_small. rewrite Forall_nth in H. by apply H.
Qed.

Lemma ld64_range m a : 0 <= ld64 m a < 2 ^ 64.
Proof.
  unfold ld64. do 8 rewrite mem_read_S.
  pose proof (ld_range m a). pose proof (ld_range m (a+1)). pose proof (ld_range m (a+1+1)).
  pose proof (ld_range m (a+1+1+1)). pose proof (ld_range m (a+1+1+1+1)).
  pose proof (ld_range m (a+1+1+1+1+1)). pose proof (ld_range m (a+1+1+1+1+1+1)).
  pose proof (ld_range m (a+1+1+1+1+1+1+1)). cbn [mem_read seq fmap list_fmap le_val]. lia.
Qed.
#[export] Hint Resolve ld64_range : xv6.

Lemma ld64_st64_eq m a v : 0 <= v < 2 ^ 64 -> ld64 (st64 m a v) a = v.
Proof.
  intros H. unfold ld64, st64.
  rewrite <- (le_bytes_length 8 v) at 1. rewrite mem_read_write by apply le_bytes_bytes.
  apply le_val_bytes. simpl. lia.
Qed.

Lemma st64_ld m a v b : b < a \/ a + 8 <= b -> ld (st64 m a v) b = ld m b.
Proof.
  intros H. unfold st64. rewrite mem_write_ld, le_bytes_length.
  destruct (Z.leb_spec a b), (Z.ltb_spec b (a + Z.of_nat 8)); simpl; done || lia.
Qed.

Lemma ld64_ext m m' a :
  (forall b, a <= b < a + 8 -> ld m' b = ld m b) -> ld64 m' a = ld64 m a.
Proof. intros H. unfold ld64. f_equal. apply mem_read_ext. intros b Hb. apply H. lia. Qed.

Lemma ld64_st64_ne m a v b : b + 8 <= a \/ a + 8 <= b -> ld64 (st64 m a v) b = ld64 m b.
Proof. intros H. apply ld64_ext. intros c Hc. apply st64_ld. lia. Qed.

(** ** memset, memmove *)

Lemma memset_loop_ld k m cdst i c a :
  ld (memset_loop k m cdst i c) a =
  if (cdst + i <=? a) && (a <? cdst + i + Z.of_nat k) then u8 c else ld m a.
Proof.
  revert m i. induction k as [|k IH]; intros m i; cbn [memset_loop].
  - destruct (Z.leb_spec (cdst + i) a), (Z.ltb_spec a (cdst + i + Z.of_nat 0)); simpl; done || lia.
  - rewrite IH, ld_st. destruct (Z.eqb_spec a (cdst + i));
    destruct (Z.leb_spec (cdst + (i + 1)) a), (Z.leb_spec (cdst + i) a),
      (Z.ltb_spec a (cdst + (i + 1) + Z.of_nat k)), (Z.ltb_spec a (cdst + i + Z.of_nat (S k)));
      simpl; done || lia.
Qed.

Lemma memset_ld m dst c n a :
  0 <= n ->
  ld (memset m dst c n) a = if (dst <=? a) && (a <? dst + n) then u8 c else ld m a.
Proof.
  intros H. unfold memset. rewrite memset_loop_ld, Z.add_0_r, Z2Nat.id by done. done.
Qed.

Lemma move_up_ld k m d s a :
  d <= s \/ s + Z.of_nat k <= d ->
  ld (move_up k m d s) a =
  if (d <=? a) && (a <? d + Z.of_nat k) then ld m (s + (a - d)) else ld m a.
Proof.
  revert m d s. induction k as [|k IH]; intros m d s H; cbn [move_up].
  - destruct (Z.leb_spec d a), (Z.ltb_spec a (d + Z.of_nat 0)); simpl; done || lia.
  - rewrite IH by lia. rewrite !ld_st, u8_ld.
    destruct (Z.leb_spec (d + 1) a), (Z.leb_spec d a),
      (Z.ltb_spec a (d + 1 + Z.of_nat k)), (Z.ltb_spec a (d + Z.of_nat (S k))),
      (Z.eqb_spec (s + 1 + (a - (d + 1))) d), (Z.eqb_spec a d);
      simpl; try lia; f_equal; lia.
Qed.

Lemma move_down_ld k m d s a :
  s <= d ->
  ld (move_down k m d s) a =
  if (d - Z.of_nat k <=? a) && (a <? d) then ld m (s - (d - a)) else ld m a.
Proof.
  revert m d s. induction k as [|k IH]; intros m d s H; cbn [move_down].
  - destruct (Z.leb_spec (d - Z.of_nat 0) a), (Z.ltb_spec a d); simpl; done || lia.
  - rewrite IH by lia. rewrite !ld_st, u8_ld.
    destruct (Z.leb_spec (d - 1 - Z.of_nat k) a), (Z.leb_spec (d - Z.of_nat (S k)) a),
      (Z.ltb_spec a (d - 1)), (Z.ltb_spec a d),
      (Z.eqb_spec (s - 1 - (d - 1 - a)) (d - 1)), (Z.eqb_spec a (d - 1));
      simpl; try lia; f_equal; lia.
Qed.

Lemma memmove_ld m dst src n a :
  0 <= n ->
  ld (memmove m dst src n) a =
  if (dst <=? a) && (a <? dst + n) then ld m (src + (a - dst)) else ld m a.
Proof.
  intros Hn. unfold memmove. destruct (Z.eqb_spec n 0) as [->|Hn0].
  - destruct (Z.leb_spec dst a), (Z.ltb_spec a (dst + 0)); simpl; done || lia.
  - destruct ((src <? dst) && (src + n >? dst)) eqn:E.
    + rewrite move_down_ld by lia. rewrite Z2Nat.id by lia.
      destruct (Z.leb_spec (dst + n - n) a), (Z.leb_spec dst a), (Z.ltb_spec a (dst + n));
        simpl; try lia; f_equal; lia.
    + rewrite move_up_ld by lia. by rewrite Z2Nat.id by lia.
Qed.

(** ** Comparing and copying strings *)

Lemma strncmp_loop_list k m p q :
  strncmp_loop k m p q = strncmp_l k (mem_read m p k) (mem_read m q k).
Proof.
  revert p q. induction k as [|k IH]; intros p q; [done|].
  rewrite !mem_read_S. cbn [strncmp_loop strncmp_l hd tl]. rewrite IH. done.
Qed.

Lemma strcut_take_S a k p : a <> 0 -> strcut (take (S k) (a :: p)) = a :: strcut (take k p).
Proof. intros H. simpl. destruct (Z.eqb_spec a 0); [done|]. done. Qed.

(** Two byte arrays compare equal exactly when the C strings in their first
    [k] bytes are the same. *)
Lemma strncmp_l_zero k p q :
  strncmp_l k p q = 0 <-> strcut (take k p) = strcut (take k q).
Proof.
  revert p q. induction k as [|k IH]; intros p q; [done|].
  cbn [strncmp_l].
  destruct (Z.eqb_spec (hd 0 p) 0) as [Ha|Ha]; simpl (negb _); cbn [andb].
  - rewrite Ha. assert (strcut (take (S k) p) = []) as ->.
    { destruct p as [|x p]; [done|]. simpl in *. by rewrite Ha. }
    destruct q as [|y q]; simpl; [done|].
    destruct (Z.eqb_spec y 0); split; intros; try done; lia.
  - destruct p as [|x p]; simpl in Ha; [done|]. cbn [hd tl].
    rewrite strcut_take_S by done.
    destruct (Z.eqb_spec x (hd 0 q)) as [Hb|Hb].
    + destruct q as [|y q]; simpl in Hb; [done|]. subst y. cbn [tl].
      rewrite strcut_take_S by done. rewrite IH. split; [by intros ->|by intros [=]].
    + split; [intros; lia|]. destruct q as [|y q]; simpl; [done|]. simpl in Hb.
      destruct (Z.eqb_spec y 0); [done|]. intros [=]. done.
Qed.

Lemma strncpy_pad_ld k m s a :
  ld (strncpy_pad k m s) a = if (s <=? a) && (a <? s + Z.of_nat k) then 0 else ld m a.
Proof.
  revert m s. induction k as [|k IH]; intros m s; cbn [strncpy_pad].
  - destruct (Z.leb_spec s a), (Z.ltb_spec a (s + Z.of_nat 0)); simpl; done || lia.
  - rewrite IH, ld_st.
    destruct (Z.leb_spec (s + 1) a), (Z.leb_spec s a), (Z.ltb_spec a (s + 1 + Z.of_nat k)),
      (Z.ltb_spec a (s + Z.of_nat (S k))), (Z.eqb_spec a s); simpl; done || lia.
Qed.

Lemma strncpy_l_cons k c t :
  strncpy_l (S k) (c :: t) = if c =? 0 then 0 :: replicate k 0 else c :: strncpy_l k t.
Proof.
  unfold strncpy_l. simpl. destruct (Z.eqb_spec c 0); simpl; [|done].
  replace (k - 0)%nat with k by lia. done.
Qed.

Lemma strncpy_l_length k t : length (strncpy_l k t) = k.
Proof. unfold strncpy_l. rewrite length_app, length_replicate, length_take. lia. Qed.

Lemma strncpy_loop_frame k m s t a :
  a < s \/ s + Z.of_nat k <= a -> ld (strncpy_loop k m s t) a = ld m a.
Proof.
  revert m s t. induction k as [|k IH]; intros m s t H; cbn [strncpy_loop]; [done|].
  destruct (Z.eqb_spec (ld m t) 0).
  - rewrite strncpy_pad_ld, ld_st. destruct (Z.eqb_spec a s); [lia|].
    destruct (Z.leb_spec (s + 1) a), (Z.ltb_spec a (s + 1 + Z.of_nat k)); simpl; done || lia.
  - rewrite IH by lia. rewrite ld_st. destruct (Z.eqb_spec a s); [lia|done].
Qed.

Lemma strncpy_loop_list k m s t :
  s + Z.of_nat k <= t \/ t + Z.of_nat k <= s ->
  mem_read (strncpy_loop k m s t) s k = strncpy_l k (mem_read m t k).
Proof.
  revert m s t. induction k as [|k IH]; intros m s t H; [done|].
  rewrite (mem_read_S m t), strncpy_l_cons, mem_read_S. cbn [strncpy_loop].
  destruct (Z.eqb_spec (ld m t) 0) as [E|E].
  - f_equal.
    + rewrite strncpy_pad_ld, ld_st, Z.eqb_refl.
      destruct (Z.leb_spec (s + 1) s); [lia|]. simpl. by rewrite E.
    + apply (nth_ext _ _ 0 0); rewrite mem_read_length, ?length_replicate; [done|].
      intros i Hi. rewrite mem_read_nth, nth_lookup, lookup_replicate_2 by done. rewrite strncpy_pad_ld.
      destruct (Z.leb_spec (s + 1) (s + 1 + Z.of_nat i)),
        (Z.ltb_spec (s + 1 + Z.of_nat i) (s + 1 + Z.of_nat k)); simpl; done || lia.
  - f_equal.
    + rewrite strncpy_loop_frame by lia. rewrite ld_st, Z.eqb_refl. apply u8_ld.
    + rewrite IH by lia. f_equal. apply mem_read_ext. intros b Hb. rewrite ld_st.
      destruct (Z.eqb_spec b s); [lia|done].
Qed.

Lemma safestrcpy_loop_frame k m s t a :
  a < s \/ s + Z.of_nat k < a -> ld (safestrcpy_loop k m s t) a = ld m a.
Proof.
  revert m s t. induction k as [|k IH]; intros m s t H; cbn [safestrcpy_loop].
  - rewrite ld_st. destruct (Z.eqb_spec a s); lia || done.
  - destruct (Z.eqb_spec (ld m t) 0).
    + rewrite !ld_st. destruct (Z.eqb_spec a (s + 1)), (Z.eqb_spec a s); lia || done.
    + rewrite IH by lia. rewrite ld_st. destruct (Z.eqb_spec a s); lia || done.
Qed.

Lemma safestrcpy_loop_list k m s t :
  s + Z.of_nat k < t \/ t + Z.of_nat k <= s ->
  strcut (mem_read (safestrcpy_loop k m s t) s (S k)) = strcut (mem_read m t k).
Proof.
  revert m s t. induction k as [|k IH]; intros m s t H.
  - cbn [safestrcpy_loop]. rewrite mem_read_S, ld_st, Z.eqb_refl. done.
  - rewrite (mem_read_S m t), mem_read_S. cbn [safestrcpy_loop].
    destruct (Z.eqb_spec (ld m t) 0) as [E|E].
    + rewrite !ld_st, Z.eqb_refl. destruct (Z.eqb_spec s (s + 1)); [lia|].
      rewrite E. cbn [strcut]. by change (u8 0 =? 0) with true.
    + rewrite safestrcpy_loop_frame by lia. rewrite ld_st, Z.eqb_refl, u8_ld.
      cbn [strcut]. destruct (Z.eqb_spec (ld m t) 0); [done|]. f_equal.
      rewrite IH by lia. f_equal. apply mem_read_ext. intros b Hb. rewrite ld_st.
      destruct (Z.eqb_spec b s); [lia|done].
Qed.

Lemma strcut_take k l : strcut (take k l) = take k (strcut l).
Proof. revert k. induction l as [|c l IH]; intros [|k]; try done. cbn [take strcut]. destruct (c =? 0); [done|]. by rewrite IH. Qed.

Lemma strcut_nonzero l : Forall (fun c => c <> 0) (strcut l).
Proof. induction l as [|c l IH]; simpl; [done|]. destruct (Z.eqb_spec c 0); by constructor. Qed.

Lemma strcut_idem l : Forall (fun c => c <> 0) l -> strcut l = l.
Proof.
  induction 1 as [|c l Hc _ IH]; [done|]. simpl. destruct (Z.eqb_spec c 0); [done|]. by rewrite IH.
Qed.

Lemma strcut_app_nul l r : Forall (fun c => c <> 0) l -> strcut (l ++ 0 :: r) = l.
Proof.
  induction 1 as [|c l Hc _ IH]; [done|]. simpl. destruct (Z.eqb_spec c 0); [done|]. by rewrite IH.
Qed.

Lemma strncpy_l_strcut k t : strcut (strncpy_l k t) = take k (strcut t).
Proof.
  unfold strncpy_l. assert (Forall (fun c => c <> 0) (take k (strcut t))) as H
    by (apply Forall_take, strcut_nonzero).
  destruct (k - length (take k (strcut t)))%nat as [|j].
  - rewrite app_nil_r. by apply strcut_idem.
  - simpl. by apply strcut_app_nul.
Qed.

Lemma strlen_loop_spec f m s n r :
  strlen_loop f m s n = Some r ->
  n <= r /\ ld m (s + r) = 0 /\ forall i, n <= i < r -> ld m (s + i) <> 0.
Proof.
  revert n. induction f as [|f IH]; intros n; cbn [strlen_loop]; [done|].
  destruct (Z.eqb_spec (ld m (s + n)) 0) as [E|E].
  - intros [= <-]. repeat split; [lia|done|lia].
  - intros H. apply IH in H as (H1 & H2 & H3). repeat split; [lia|done|].
    intros i Hi. destruct (decide (i = n)) as [->|]; [done|]. apply H3. lia.
Qed.

Lemma strlen_loop_total f m s n r :
  n <= r -> ld m (s + r) = 0 -> (Z.to_nat (r - n) < f)%nat ->
  exists r', strlen_loop f m s n = Some r' /\ r' <= r.
Proof.
  revert n. induction f as [|f IH]; intros n Hn Hr Hf; [lia|]. cbn [strlen_loop].
  destruct (Z.eqb_spec (ld m (s + n)) 0) as [E|E]; [eauto|].
  apply IH; [|done|]; assert (n <> r) by (intros ->; done); lia.
Qed.

(** ** Correctness of string.c *)

(** [memmove] copies [n] bytes as if through a temporary buffer: whatever
    the overlap of source and destination, every destination byte gets the
    byte the source held on entry and every other byte is unchanged. *)
Theorem memmove_correct m dst src n :
  0 <= n ->
  mem_read (memmove m dst src n) dst (Z.to_nat n) = mem_read m src (Z.to_nat n) /\
  (forall a, a < dst \/ dst + n <= a -> ld (memmove m dst src n) a = ld m a).
Proof.
  intros Hn. split.
  - apply (nth_ext _ _ 0 0); rewrite !mem_read_length; [done|]. intros i Hi.
    rewrite !mem_read_nth, memmove_ld by done.
    destruct (Z.leb_spec dst (dst + Z.of_nat i)), (Z.ltb_spec (dst + Z.of_nat i) (dst + n));
      simpl; try lia. f_equal. lia.
  - intros a Ha. rewrite memmove_ld by done.
    destruct (Z.leb_spec dst a), (Z.ltb_spec a (dst + n)); simpl; done || lia.
Qed.

Lemma memmove_correct_witness :
  mem_read (memmove (mem_write ∅ 10 [1;2;3;4;5]) 12 10 4) 12 4 = [1;2;3;4].
Proof.
  destruct (memmove_correct (mem_write ∅ 10 [1;2;3;4;5]) 12 10 4) as [H _]; [lia|].
  change (Z.to_nat 4) with 4%nat in H. rewrite H. vm_compute. reflexivity.
Defined.

(** On separate buffers [strncpy] leaves in its destination exactly the
    source string cut to [n] bytes and padded with NULs, [safestrcpy] leaves a
    NUL-terminated copy of the source string cut to [n-1] bytes, neither
    writes outside its [n] bytes, and [strncmp] of two buffers is zero exactly
    when their strings agree up to [n] bytes. *)
Theorem string_copies_correct m s t n :
  0 < n -> s + n <= t \/ t + n <= s ->
  let k := Z.to_nat n in
  mem_read (strncpy m s t n) s k = strncpy_l k (mem_read m t k) /\
  strcut (mem_read (safestrcpy m s t n) s k) = strcut (mem_read m t (k - 1)) /\
  (length (strcut (mem_read (safestrcpy m s t n) s k)) < k)%nat /\
  (forall a, a < s \/ s + n <= a ->
     ld (strncpy m s t n) a = ld m a /\ ld (safestrcpy m s t n) a = ld m a) /\
  (strncmp m s t n = 0 <-> strcut (mem_read m s k) = strcut (mem_read m t k)).
Proof.
  intros Hn Hd k. unfold safestrcpy. destruct (Z.leb_spec n 0); [lia|].
  assert (k = S (Z.to_nat (n - 1))) as Hk by lia.
  assert (strcut (mem_read (safestrcpy_loop (Z.to_nat (n - 1)) m s t) s k)
          = strcut (mem_read m t (k - 1))) as Hs.
  { rewrite Hk. replace (S (Z.to_nat (n - 1)) - 1)%nat with (Z.to_nat (n - 1)) by lia.
    apply safestrcpy_loop_list. lia. }
  split_and!.
  - apply strncpy_loop_list. lia.
  - done.
  - rewrite Hs. enough (forall l, (length (strcut l) <= length l)%nat) as He.
    { specialize (He (mem_read m t (k - 1))). rewrite mem_read_length in He. lia. }
    induction l as [|c l IH]; simpl; [lia|]. destruct (c =? 0); simpl; lia.
  - intros a Ha. split; [apply strncpy_loop_frame; lia|apply safestrcpy_loop_frame; lia].
  - unfold strncmp. fold k. rewrite strncmp_loop_list, strncmp_l_zero.
    rewrite !take_ge by (rewrite mem_read_length; lia). done.
Qed.

Lemma string_copies_correct_witness :
  mem_read (strncpy (mem_write ∅ 100 [104;105;0;9]) 200 100 4) 200 4 = [104;105;0;0].
Proof.
  destruct (string_copies_correct (mem_write ∅ 100 [104;105;0;9]) 200 100 4) as [H _];
    [lia|lia|].
  change (Z.to_nat 4) with 4%nat in H. rewrite H. vm_compute. reflexivity.
Defined.
