(* ===== verification/Thread.v ===== *)
(** * The running kernel thread: CPU, spin locks, process table

    [kernel/proc.h], [kernel/spinlock.h], [kernel/sleeplock.h] (the data) and
    [kernel/spinlock.c] with [cpuid], [mycpu], [myproc] of [kernel/proc.c]
    (the operations).  Every component of the kernel runs on a state [kst X]:
    [thr] is what all kernel code shares (this hart, the spin locks, the
    process table) and [own] is the component's own data.

    A spin lock is [locked]/[cpu] of the C structure as one map entry: absent
    for [locked == 0], [Some h] for [locked == 1] and [cpu == &cpus[h]] (the
    moment between the atomic swap and the store to [cpu] is modelled
    separately, on several harts, in Spinlock.v).  A lock held by another hart
    makes [acquire] spin, which is [NoFuel].  A sleep lock is [locked]/[pid]
    in the same way: absent when free, the holder's pid when locked. *)

From Stdlib Require Import ZArith Lia.
From S2P Require Import Prelude Riscv.

(** ** Names of kernel objects *)

(** The sleep locks of the kernel: one per buffer and one per in-memory inode. *)
Inductive slock := SLBuf (i : nat) | SLInode (i : nat).

Inductive lockid :=
| LkKmem | LkPid | LkWait | LkProc (i : nat) | LkTicks | LkBcache | LkLog
| LkItable | LkFtable | LkPipe (pi : Z) | LkCons | LkUart | LkPr | LkVdisk
| LkSleep (l : slock).

(** Addresses used as sleep channels ([void *chan]). *)
Inductive chan :=
| ChNone | ChProc (i : nat) | ChLog | ChBuf (i : nat) | ChPipeR (pi : Z)
| ChPipeW (pi : Z) | ChTicks | ChCons | ChUartTx | ChDiskFree | ChSleep (l : slock).

#[export] Instance slock_eq_dec : EqDecision slock.
Proof. solve_decision. Defined.
#[export] Instance lockid_eq_dec : EqDecision lockid.
Proof. solve_decision. Defined.
#[export] Instance chan_eq_dec : EqDecision chan.
Proof. solve_decision. Defined.

#[export] Instance slock_countable : Countable slock.
Proof.
  apply (inj_countable' (fun l => match l with SLBuf i => inl i | SLInode i => inr i end)
    (fun x => match x with inl i => SLBuf i | inr i => SLInode i end)). by intros [?|?].
Defined.

Definition slock_enc (l : slock) : nat * nat :=
  match l with SLBuf i => (0, i)%nat | SLInode i => (1, i)%nat end.

Definition lockid_enc (l : lockid) : nat * (nat * nat) * Z :=
  match l with
  | LkKmem => (0%nat, (0%nat, 0%nat), 0) | LkPid => (1%nat, (0%nat, 0%nat), 0)
  | LkWait => (2%nat, (0%nat, 0%nat), 0) | LkProc i => (3%nat, (i, 0%nat), 0)
  | LkTicks => (4%nat, (0%nat, 0%nat), 0) | LkBcache => (5%nat, (0%nat, 0%nat), 0)
  | LkLog => (6%nat, (0%nat, 0%nat), 0) | LkItable => (7%nat, (0%nat, 0%nat), 0)
  | LkFtable => (8%nat, (0%nat, 0%nat), 0) | LkPipe p => (9%nat, (0%nat, 0%nat), p)
  | LkCons => (10%nat, (0%nat, 0%nat), 0) | LkUart => (11%nat, (0%nat, 0%nat), 0)
  | LkPr => (12%nat, (0%nat, 0%nat), 0) | LkVdisk => (13%nat, (0%nat, 0%nat), 0)
  | LkSleep l => (14%nat, slock_enc l, 0)
  end.

Definition lockid_dec (x : nat * (nat * nat) * Z) : lockid :=
  match x with
  | (0%nat, _, _) => LkKmem | (1%nat, _, _) => LkPid | (2%nat, _, _) => LkWait
  | (3%nat, (i, _), _) => LkProc i | (4%nat, _, _) => LkTicks
  | (5%nat, _, _) => LkBcache | (6%nat, _, _) => LkLog | (7%nat, _, _) => LkItable
  | (8%nat, _, _) => LkFtable | (9%nat, _, p) => LkPipe p | (10%nat, _, _) => LkCons
  | (11%nat, _, _) => LkUart | (12%nat, _, _) => LkPr | (13%nat, _, _) => LkVdisk
  | (_, (0%nat, i), _) => LkSleep (SLBuf i)
  | (_, (_, i), _) => LkSleep (SLInode i)
  end.

#[export] Instance lockid_countable : Countable lockid.
Proof. apply (inj_countable' lockid_enc lockid_dec). by intros [| | |?| | | | | |?| | | | |[?|?]]. Defined.

(** ** proc.h *)

Inductive procstate := UNUSED | USED | SLEEPING | RUNNABLE | RUNNING | ZOMBIE.
#[export] Instance procstate_eq_dec : EqDecision procstate.
Proof. solve_decision. Defined.

Record context := MkContext { ctx_ra : Z; ctx_sp : Z; ctx_s : list Z }.
#[export] Instance eta_context : Eta context :=
  fun c => MkContext (ctx_ra c) (ctx_sp c) (ctx_s c).

(** [ofile] and [cwd] are indices into the file and inode tables, [parent] an
    index into the process table; [None] is the null pointer. *)
Record proc := MkProc {
  p_state : procstate;
  p_chan : chan;
  p_killed : Z;
  p_xstate : Z;
  p_pid : Z;
  p_parent : option nat;
  p_kstack : Z;
  p_sz : Z;
  p_pagetable : Z;
  p_trapframe : Z;
  p_context : context;
  p_ofile : list (option nat);
  p_cwd : option nat;
  p_name : list Z
}.
#[export] Instance eta_proc : Eta proc := fun p =>
  MkProc (p_state p) (p_chan p) (p_killed p) (p_xstate p) (p_pid p) (p_parent p)
    (p_kstack p) (p_sz p) (p_pagetable p) (p_trapframe p) (p_context p)
    (p_ofile p) (p_cwd p) (p_name p).

(** A table entry as the loader leaves it: all zero. *)
Definition proc0 : proc :=
  MkProc UNUSED ChNone 0 0 0 None 0 0 0 0 (MkContext 0 0 (replicate 12 0))
    (replicate (Z.to_nat NOFILE) None) None (replicate 16 0).

Record T := MkT {
  hart : Z;                (* tp: this hart's number *)
  sie : bool;              (* sstatus.SIE: interrupts enabled on this hart *)
  noff : Z;                (* cpus[hart].noff *)
  intena : bool;           (* cpus[hart].intena *)
  cpu_proc : option nat;   (* cpus[hart].proc *)
  lks : gmap lockid Z;     (* the spin locks that are held, and by which hart *)
  procs : list proc;       (* proc[NPROC] *)
  nextpid : Z;
  initproc : option nat;
  slks : gmap slock Z      (* the sleep locks that are held, and by which pid *)
}.
#[export] Instance eta_T : Eta T := fun t =>
  MkT (hart t) (sie t) (noff t) (intena t) (cpu_proc t) (lks t) (procs t)
    (nextpid t) (initproc t) (slks t).

Record kst (X : Type) := MkK { thr : T; own : X }.
Arguments MkK {X} thr own.
Arguments thr {X} _.
Arguments own {X} _.
#[export] Instance eta_kst {X} : Eta (kst X) := fun k => MkK (thr k) (own k).

Notation KM X := (M (kst X)).

(** ** Access to the two halves of the state *)

Section access.
Context {X : Type}.

Definition getT {A} (f : T -> A) : KM X A := gets (fun s => f (thr s)).
Definition modT (f : T -> T) : KM X () := modify (fun s => MkK (f (thr s)) (own s)).
Definition getX {A} (f : X -> A) : KM X A := gets (fun s => f (own s)).
Definition modX (f : X -> X) : KM X () := modify (fun s => MkK (thr s) (f (own s))).

(** Following a null pointer: page 0 is not mapped in the kernel page
    table, so the load faults and [kerneltrap] panics. *)
Definition deref (o : option nat) : KM X nat :=
  match o with Some i => mret i | None => panic "kerneltrap" end.

Definition getp (i : nat) : KM X proc := getT (fun t => default proc0 (procs t !! i)).
Definition modp (i : nat) (f : proc -> proc) : KM X () :=
  modT (fun t => t <| procs ::= alter f i |>).
End access.

(** A component whose data is a part of another's. *)
Definition kzoom {X Y A} (prj : X -> Y) (put : Y -> X -> X) (m : KM Y A) : KM X A :=
  zoom (fun s => MkK (thr s) (prj (own s)))
       (fun s' s => MkK (thr s') (put (own s') (own s))) m.

(** ** spinlock.c and the accessors of proc.c *)

Section spinlock.
Context {X : Type}.
Implicit Type lk : lockid.

Definition intr_get : KM X bool := getT sie.
Definition intr_on : KM X () := modT (fun t => t <| sie := true |>).
Definition intr_off : KM X () := modT (fun t => t <| sie := false |>).
Definition cpuid : KM X Z := getT hart.

Definition push_off : KM X () :=
  old ← intr_get;
  intr_off ;;
  n ← getT noff;
  mwhen (n =? 0) (modT (fun t => t <| intena := old |>)) ;;
  modT (fun t => t <| noff ::= fun n => n + 1 |>).

Definition pop_off : KM X () :=
  i ← intr_get;
  if i : bool then panic "pop_off - interruptible" else
  n ← getT noff;
  if n <? 1 then panic "pop_off" else
  modT (fun t => t <| noff := n - 1 |>) ;;
  e ← getT intena;
  mwhen ((n - 1 =? 0) && e) intr_on.

Definition holding lk : KM X bool :=
  getT (fun t => match lks t !! lk with Some h => h =? hart t | None => false end).

Definition initlock lk : KM X () := modT (fun t => t <| lks ::= delete lk |>).

Definition acquire lk : KM X () :=
  push_off ;;
  h ← holding lk;
  if h : bool then panic "acquire" else
  o ← getT (fun t => lks t !! lk);
  match o with
  | Some _ => spin     (* while(__sync_lock_test_and_set(...)) ; *)
  | None => me ← cpuid; modT (fun t => t <| lks ::= <[lk := me]> |>)
  end.

Definition release lk : KM X () :=
  h ← holding lk;
  if negb h then panic "release" else
  modT (fun t => t <| lks ::= delete lk |>) ;;
  pop_off.

Definition myproc : KM X (option nat) :=
  push_off ;;
  p ← getT cpu_proc;
  pop_off ;;
  mret p.
End spinlock.

(** ** Lock sections *)

(** What [push_off] keeps: with interrupts on, nothing is pushed and [intena]
    already records the current setting. *)
Definition cpu_ok (t : T) : Prop :=
  0 <= noff t /\ (noff t = 0 -> intena t = sie t) /\ (0 < noff t -> sie t = false).

(** The state after [push_off], and after [acquire lk]. *)
Definition t_off (t : T) : T :=
  t <| sie := false |> <| intena := if noff t =? 0 then sie t else intena t |>
    <| noff := noff t + 1 |>.
Definition t_acq (lk : lockid) (t : T) : T :=
  (t_off t) <| lks := <[lk := hart t]> (lks t) |>.

Lemma cpu_ok_acq lk t : cpu_ok t -> cpu_ok (t_acq lk t).
Proof. unfold cpu_ok, t_acq, t_off. cbn. intros. split_and!; lia || done. Qed.
#[export] Hint Resolve cpu_ok_acq : xv6.

Lemma push_off_spec {X} n t (x : X) :
  push_off n (MkK t x) = Ret tt (MkK (t_off t) x).
Proof.
  unfold push_off, t_off. mred. cbn. destruct t as [h si nf ie cp lk ps np ip sl]. cbn.
  destruct (Z.eqb_spec nf 0); done.
Qed.

Lemma pop_off_spec {X} n t (x : X) :
  cpu_ok t -> pop_off n (MkK (t_off t) x) = Ret tt (MkK t x).
Proof.
  destruct t as [h si nf ie cp lk ps np ip sl]. unfold cpu_ok, pop_off, t_off. cbn.
  intros (H1 & H2 & H3). mred. cbn.
  destruct (Z.ltb_spec (nf + 1) 1); [lia|]. mred. cbn.
  replace (nf + 1 - 1) with nf by lia.
  destruct (Z.eqb_spec nf 0) as [E|E].
  - rewrite (H2 E). destruct si; done.
  - assert (si = false) as -> by (apply H3; lia). done.
Qed.

Lemma acquire_spec {X} lk n t (x : X) :
  lks t !! lk = None ->
  acquire lk n (MkK t x) = Ret tt (MkK (t_acq lk t) x).
Proof.
  intros Hf. unfold acquire.
  erewrite bind_ret by apply push_off_spec. unfold holding, t_acq. mred. cbn.
  rewrite Hf. mred. cbn. rewrite Hf. done.
Qed.

Lemma t_acq_delete lk t : lks t !! lk = None -> (t_acq lk t) <| lks ::= delete lk |> = t_off t.
Proof.
  intros H. unfold t_acq. destruct t as [h si nf ie cp lk0 ps np ip sl]. cbn in *.
  unfold t_off, upd. cbn. by rewrite delete_insert_id.
Qed.

(** Releasing what was acquired gives back the thread state exactly, whatever
    the section did to the rest of the state. *)
Lemma release_spec {X} lk n t (x : X) :
  cpu_ok t -> lks t !! lk = None ->
  release lk n (MkK (t_acq lk t) x) = Ret tt (MkK t x).
Proof.
  intros Ho Hf. unfold release, holding. mred. cbn.
  rewrite lookup_insert_eq, Z.eqb_refl. cbn. mred. cbn.
  rewrite t_acq_delete by done. by apply pop_off_spec.
Qed.

Lemma release_panic {X} lk n t (x : X) :
  lks t !! lk = None -> release lk n (MkK t x) = Panic "release".
Proof. intros H. unfold release, holding. mred. cbn. by rewrite H. Qed.

Lemma myproc_spec {X} n t (x : X) :
  cpu_ok t -> myproc n (MkK t x) = Ret (cpu_proc t) (MkK t x).
Proof.
  intros H. unfold myproc. erewrite bind_ret by apply push_off_spec. mred. cbn.
  rewrite pop_off_spec by done. done.
Qed.

Lemma kzoom_ret {X Y A} (prj : X -> Y) put (m : KM Y A) n t x a t' y' :
  m n (MkK t (prj x)) = Ret a (MkK t' y') ->
  kzoom prj put m n (MkK t x) = Ret a (MkK t' (put y' x)).
Proof. intros H. unfold kzoom, zoom. cbn. by rewrite H. Qed.
