(* ===== verification/Spinlock.v ===== *)
(** * Spin locks on several harts

    [kernel/spinlock.c] at the granularity of its atomic accesses.  Each hart
    has a program counter inside [acquire]/[release]; a step of any hart is
    one access to shared memory.  The theorems give what the one-thread model
    of Thread.v assumes: a lock has at most one owner, the owner runs with
    interrupts off, and [pop_off] at the end of [release] never panics. *)

From Stdlib Require Import ZArith Lia.
From stdpp Require Import functions relations.
From S2P Require Import Prelude Thread.

(** ** State *)

Record spinlock := MkLk { lk_locked : Z; lk_cpu : option nat }.

(** Where a hart is in the code of spinlock.c. *)
Inductive pc :=
| PRun                    (* outside acquire and release *)
| PSpin (l : lockid)      (* acquire: in the test-and-set loop, line 32 *)
| PGot (l : lockid)       (* acquire: swapped in 1, before lk->cpu = mycpu() *)
| PRel (l : lockid)       (* release: lk->cpu = 0 done, before lock_release *)
| PPop.                   (* release: before pop_off() *)

Record hartst := MkHart { h_pc : pc; h_noff : Z; h_intena : bool; h_sie : bool }.

Record smp := MkSmp { harts : nat -> hartst; spins : lockid -> spinlock }.

(** [push_off()] and [pop_off()] on the hart's own [struct cpu]. *)
Definition h_push_off (h : hartst) (p : pc) : hartst :=
  MkHart p (h_noff h + 1) (if h_noff h =? 0 then h_sie h else h_intena h) false.

Definition h_pop_off (h : hartst) : option hartst :=
  if h_sie h then None
  else if h_noff h <? 1 then None
  else Some (MkHart PRun (h_noff h - 1) (h_intena h)
               (if (h_noff h - 1 =? 0) && h_intena h then true else false)).

Definition h_holding (s : smp) (h : nat) (l : lockid) : bool :=
  negb (lk_locked (spins s l) =? 0) && bool_decide (lk_cpu (spins s l) = Some h).

Definition set_pc (h : hartst) (p : pc) : hartst :=
  MkHart p (h_noff h) (h_intena h) (h_sie h).

(** ** Steps *)

Inductive step : smp -> smp -> Prop :=
| step_acquire s h l :
    h_pc (harts s h) = PRun -> h_holding s h l = false ->
    step s (MkSmp (<[h := h_push_off (harts s h) (PSpin l)]> (harts s)) (spins s))
| step_swap_busy s h l :
    h_pc (harts s h) = PSpin l -> lk_locked (spins s l) <> 0 ->
    step s (MkSmp (harts s) (<[l := MkLk 1 (lk_cpu (spins s l))]> (spins s)))
| step_swap_free s h l :
    h_pc (harts s h) = PSpin l -> lk_locked (spins s l) = 0 ->
    step s (MkSmp (<[h := set_pc (harts s h) (PGot l)]> (harts s))
                  (<[l := MkLk 1 (lk_cpu (spins s l))]> (spins s)))
| step_set_cpu s h l :
    h_pc (harts s h) = PGot l ->
    step s (MkSmp (<[h := set_pc (harts s h) PRun]> (harts s))
                  (<[l := MkLk (lk_locked (spins s l)) (Some h)]> (spins s)))
| step_release s h l :
    h_pc (harts s h) = PRun -> h_holding s h l = true ->
    step s (MkSmp (<[h := set_pc (harts s h) (PRel l)]> (harts s))
                  (<[l := MkLk (lk_locked (spins s l)) None]> (spins s)))
| step_store_zero s h l :
    h_pc (harts s h) = PRel l ->
    step s (MkSmp (<[h := set_pc (harts s h) PPop]> (harts s))
                  (<[l := MkLk 0 (lk_cpu (spins s l))]> (spins s)))
| step_pop_off s h h' :
    h_pc (harts s h) = PPop -> h_pop_off (harts s h) = Some h' ->
    step s (MkSmp (<[h := h']> (harts s)) (spins s))
| step_intr s h b :
    (* intr_on()/intr_off() in code that holds no lock *)
    h_pc (harts s h) = PRun -> h_noff (harts s h) = 0 ->
    step s (MkSmp (<[h := MkHart PRun 0 (h_intena (harts s h)) b]> (harts s)) (spins s)).

Definition smp_init (sie0 : nat -> bool) : smp :=
  MkSmp (fun h => MkHart PRun 0 false (sie0 h)) (fun _ => MkLk 0 None).

Definition reachable (sie0 : nat -> bool) (s : smp) : Prop := rtc step (smp_init sie0) s.

(** A hart owns a lock from the successful swap to the store of zero. *)
Definition owns (s : smp) (h : nat) (l : lockid) : Prop :=
  h_pc (harts s h) = PGot l \/ h_pc (harts s h) = PRel l \/ lk_cpu (spins s l) = Some h.

(** ** Invariant *)

Definition pending (p : pc) : Z := match p with PRun => 0 | _ => 1 end.

Record inv (s : smp) (hl : nat -> list lockid) : Prop := {
  inv_free : forall l h, lk_locked (spins s l) = 0 -> ~ owns s h l;
  inv_uniq : forall l h h', owns s h l -> owns s h' l -> h = h';
  inv_nocpu : forall l h, h_pc (harts s h) = PGot l \/ h_pc (harts s h) = PRel l ->
              lk_cpu (spins s l) = None;
  inv_held : forall l h, l ∈ hl h <-> lk_cpu (spins s l) = Some h;
  inv_nodup : forall h, NoDup (hl h);
  inv_noff : forall h, h_noff (harts s h) = Z.of_nat (length (hl h)) + pending (h_pc (harts s h));
  inv_sie : forall h, 0 < h_noff (harts s h) -> h_sie (harts s h) = false
}.

Ltac fn := unfold insert, fn_insert in *; cbn in *; repeat case_decide; subst; cbn in *.

Lemma inv_init sie0 : inv (smp_init sie0) (fun _ => []).
Proof.
  unfold smp_init, owns. split; cbn; unfold owns; cbn; try naive_solver.
  - intros l h. split; [inversion 1|done].
  - constructor.
  - lia.
Qed.

Lemma filter_ne_id (l : lockid) (xs : list lockid) : l ∉ xs -> filter (fun x => x <> l) xs = xs.
Proof.
  induction xs as [|y ys IH]; [done|]. intros [? ?]%not_elem_of_cons.
  rewrite filter_cons, decide_True by done. by rewrite IH.
Qed.

Lemma length_filter_ne (l : lockid) (xs : list lockid) :
  NoDup xs -> l ∈ xs -> (length (filter (fun x => x <> l) xs) + 1 = length xs)%nat.
Proof.
  induction 1 as [|x xs Hx Hnd IH]; intros Hin; [by apply not_elem_of_nil in Hin|].
  rewrite filter_cons. apply elem_of_cons in Hin. case_decide as E; cbn.
  - destruct Hin; [congruence|]. rewrite IH by done. lia.
  - assert (x = l) as -> by (destruct (decide (x = l)); tauto).
    rewrite filter_ne_id by done. lia.
Qed.

(** One lemma per step: the witness for the lists of held locks changes only
    when [lk->cpu] is written. *)
Section steps.
Context (s : smp) (hl : nat -> list lockid) (Hi : inv s hl) (h : nat) (l : lockid).

(** The bookkeeping facts of the invariant at arbitrary harts. *)
Local Ltac facts :=
  pose proof Hi as [I1 I2 I3 I4 I5 I6 I7]; unfold owns in *; split; unfold owns; cbn;
  [ intros l0 h0 H0; pose proof (I1 l0 h0); pose proof (I2 l0 h0 h)
  | intros l0 h0 h1; pose proof (I2 l0 h0 h1); pose proof (I2 l0 h0 h); pose proof (I2 l0 h1 h);
    pose proof (I1 l0 h0); pose proof (I1 l0 h1)
  | intros l0 h0; pose proof (I3 l0 h0); pose proof (I2 l0 h0 h); pose proof (I1 l0 h0)
  | intros l0 h0; pose proof (I4 l0 h0); pose proof (I2 l0 h0 h)
  | intros h0; pose proof (I5 h0)
  | intros h0; pose proof (I6 h0) as I6h
  | intros h0; pose proof (I7 h0) ];
  clear I1 I2 I3 I4 I5 I6 I7.

(** A step that changes neither [locked] nor [cpu] of any lock, and moves
    this hart between program counters that own nothing. *)
Lemma inv_local hs :
  (forall l0, h_pc (harts s h) <> PGot l0 /\ h_pc (harts s h) <> PRel l0) ->
  (forall l0, h_pc hs <> PGot l0 /\ h_pc hs <> PRel l0) ->
  h_noff hs = Z.of_nat (length (hl h)) + pending (h_pc hs) ->
  (0 < h_noff hs -> h_sie hs = false) ->
  inv (MkSmp (<[h := hs]> (harts s)) (spins s)) hl.
Proof.
  intros Hold Hnew Hn Hs. facts; fn; try done; try (clear Hi; naive_solver).
Qed.

Lemma inv_swap_busy :
  lk_locked (spins s l) <> 0 ->
  inv (MkSmp (harts s) (<[l := MkLk 1 (lk_cpu (spins s l))]> (spins s))) hl.
Proof. intros Hl. facts; fn; try done; try (clear Hi; naive_solver). Qed.

Lemma free_no_cpu : lk_locked (spins s l) = 0 -> lk_cpu (spins s l) = None.
Proof.
  intros Hl. destruct (lk_cpu (spins s l)) as [n|] eqn:E; [|done].
  exfalso. apply (inv_free _ _ Hi l n Hl). unfold owns. auto.
Qed.

Lemma inv_swap_free :
  h_pc (harts s h) = PSpin l -> lk_locked (spins s l) = 0 ->
  inv (MkSmp (<[h := set_pc (harts s h) (PGot l)]> (harts s))
             (<[l := MkLk 1 (lk_cpu (spins s l))]> (spins s))) hl.
Proof.
  intros Hp Hl. pose proof (free_no_cpu Hl) as Hc. rewrite Hc.
  facts; fn; try done; try (clear Hi; naive_solver). rewrite Hp in I6h. done.
Qed.

Lemma inv_set_cpu :
  h_pc (harts s h) = PGot l ->
  inv (MkSmp (<[h := set_pc (harts s h) PRun]> (harts s))
             (<[l := MkLk (lk_locked (spins s l)) (Some h)]> (spins s)))
      (<[h := l :: hl h]> hl).
Proof.
  intros Hp. assert (lk_cpu (spins s l) = None) as Hc by (apply (inv_nocpu _ _ Hi l h); auto).
  facts; fn; rewrite ?elem_of_cons; try done; try (clear Hi; naive_solver).
  - constructor; [|done]. rewrite (inv_held _ _ Hi), Hc. done.
  - rewrite Hp in I6h. cbn in I6h. lia.
Qed.

Lemma inv_release :
  h_pc (harts s h) = PRun -> h_holding s h l = true ->
  inv (MkSmp (<[h := set_pc (harts s h) (PRel l)]> (harts s))
             (<[l := MkLk (lk_locked (spins s l)) None]> (spins s)))
      (<[h := filter (fun x => x <> l) (hl h)]> hl).
Proof.
  intros Hp Hh. assert (lk_locked (spins s l) <> 0 /\ lk_cpu (spins s l) = Some h) as [Hl Hc].
  { unfold h_holding in Hh. destruct (Z.eqb_spec (lk_locked (spins s l)) 0); [done|].
    by apply bool_decide_eq_true_1 in Hh. }
  pose proof (length_filter_ne l (hl h) (inv_nodup _ _ Hi h)) as Hlen.
  rewrite (inv_held _ _ Hi) in Hlen. specialize (Hlen Hc).
  facts; fn; rewrite ?list_elem_of_filter; try done; try (clear Hi; naive_solver).
  - by apply NoDup_filter.
  - rewrite Hp in I6h. cbn in I6h. lia.
Qed.

Lemma inv_store_zero :
  h_pc (harts s h) = PRel l ->
  inv (MkSmp (<[h := set_pc (harts s h) PPop]> (harts s))
             (<[l := MkLk 0 (lk_cpu (spins s l))]> (spins s))) hl.
Proof.
  intros Hp. assert (lk_cpu (spins s l) = None) as Hc by (apply (inv_nocpu _ _ Hi l h); auto).
  rewrite Hc. facts; fn; try done; try (clear Hi; naive_solver). rewrite Hp in I6h. done.
Qed.
End steps.

Lemma inv_step s s' hl : inv s hl -> step s s' -> exists hl', inv s' hl'.
Proof.
  intros Hi Hst. pose proof (inv_noff _ _ Hi) as Hn. pose proof (inv_sie _ _ Hi) as Hs.
  destruct Hst as [s h l Hp Hh|s h l Hp Hl|s h l Hp Hl|s h l Hp|s h l Hp Hh|s h l Hp|s h h' Hp Ho|s h b Hp Hn0];
    specialize (Hn h); specialize (Hs h); rewrite Hp in Hn; cbn in Hn.
  - eexists. apply inv_local; [done|by rewrite Hp|done|cbn; lia|done].
  - eexists. by apply inv_swap_busy.
  - eexists. by apply inv_swap_free.
  - eexists. by apply inv_set_cpu.
  - eexists. by apply inv_release.
  - eexists. by apply inv_store_zero.
  - unfold h_pop_off in Ho. rewrite Hs in Ho by lia.
    destruct (Z.ltb_spec (h_noff (harts s h)) 1); [done|]. injection Ho as <-.
    eexists. apply inv_local; [done|rewrite Hp; done|done|cbn; lia|cbn; intros].
    destruct (Z.eqb_spec (h_noff (harts s h) - 1) 0); [lia|done].
  - eexists. apply inv_local; [done|rewrite Hp; done|done|cbn; lia|cbn; lia].
Qed.

Lemma inv_reachable sie0 s : reachable sie0 s -> exists hl, inv s hl.
Proof.
  intros H. unfold reachable in H. remember (smp_init sie0) as s0.
  assert (exists hl, inv s0 hl) as H0 by (subst; eexists; apply inv_init).
  clear Heqs0. induction H as [|s0 s1 s2 Hst _ IH]; [done|].
  destruct H0 as [hl Hi]. apply IH. by eapply inv_step.
Qed.

(** ** Theorems *)

(** C37: In every state the harts can reach by interleaving their accesses, a
    spin lock has at most one owner; while a hart owns a lock the lock word is
    set and the hart's interrupts are off; and a hart about to run the
    [pop_off] of [release] can run it without panicking. *)
Theorem spinlock_mutual_exclusion sie0 s :
  reachable sie0 s ->
  (forall l h h', owns s h l -> owns s h' l -> h = h') /\
  (forall l h, owns s h l -> lk_locked (spins s l) <> 0 /\ h_sie (harts s h) = false) /\
  (forall h, h_pc (harts s h) = PPop -> is_Some (h_pop_off (harts s h))).
Proof.
  intros [hl Hi]%inv_reachable. split_and!.
  - apply Hi.
  - intros l h Ho. split; [intros E; by eapply (inv_free _ _ Hi)|].
    apply (inv_sie _ _ Hi). rewrite (inv_noff _ _ Hi).
    destruct Ho as [E|[E|E]]; [rewrite E; cbn; lia|rewrite E; cbn; lia|].
    apply (inv_held _ _ Hi) in E. destruct (hl h); [by apply not_elem_of_nil in E|].
    destruct (h_pc _); cbn; lia.
  - intros h E. unfold h_pop_off.
    pose proof (inv_noff _ _ Hi h) as Hn. rewrite E in Hn. cbn in Hn.
    rewrite (inv_sie _ _ Hi) by lia. destruct (Z.ltb_spec (h_noff (harts s h)) 1); [lia|eauto].
Qed.

Definition smp_demo0 : smp := smp_init (fun _ => true).
Definition smp_demo1 : smp :=
  MkSmp (<[0%nat := h_push_off (harts smp_demo0 0%nat) (PSpin LkKmem)]> (harts smp_demo0)) (spins smp_demo0).
Definition smp_demo2 : smp :=
  MkSmp (<[0%nat := set_pc (harts smp_demo1 0%nat) (PGot LkKmem)]> (harts smp_demo1))
        (<[LkKmem := MkLk 1 (lk_cpu (spins smp_demo1 LkKmem))]> (spins smp_demo1)).

Lemma spinlock_mutual_exclusion_witness :
  reachable (fun _ => true) smp_demo2 /\ owns smp_demo2 0 LkKmem /\
  h_sie (harts smp_demo2 0%nat) = false.
Proof.
  assert (reachable (fun _ => true) smp_demo2) as Hr.
  { eapply rtc_l; [apply (step_acquire smp_demo0 0 LkKmem); reflexivity|].
    eapply rtc_l; [|apply rtc_refl].
    apply (step_swap_free smp_demo1 0 LkKmem); reflexivity. }
  assert (owns smp_demo2 0 LkKmem) as Ho by (left; reflexivity).
  split; [exact Hr|]. split; [exact Ho|].
  destruct (spinlock_mutual_exclusion _ _ Hr) as (_ & H & _).
  apply (H LkKmem 0%nat Ho).
Defined.
