(* ===== verification/Kalloc.v ===== *)
(** * Physical page allocator ([kernel/kalloc.c])

    The free list is threaded through the free pages themselves: the first
    eight bytes of a free page hold the address of the next one.  The model
    keeps that representation, on the byte memory of KString.v; the abstract
    allocator is the list (or set) of free pages it stands for. *)

From Stdlib Require Import ZArith Lia.
From S2P Require Import Prelude Riscv KString Thread.

(** Addresses that kernel.ld and the linker choose: [end] (first address after
    the kernel image), [etext] (end of kernel text), [trampoline] (physical
    address of the trampoline page). *)
Class Layout := { kend : Z; etext : Z; trampoline : Z }.

(** What the linker script guarantees of them. *)
Class LayoutOk (L : Layout) := {
  kend_range : KERNBASE < kend /\ kend + PGSIZE <= PHYSTOP;
  etext_range : KERNBASE < etext /\ etext <= kend;
  etext_aligned : etext mod PGSIZE = 0;
  trampoline_range : KERNBASE <= trampoline /\ trampoline + PGSIZE <= etext;
  trampoline_aligned : trampoline mod PGSIZE = 0
}.

(** ** State: physical memory and [kmem.freelist] *)

Record kmem := MkKmem { mem : gmap Z Z; freelist : Z }.
#[export] Instance eta_kmem : Eta kmem := fun k => MkKmem (mem k) (freelist k).

(** ** kalloc.c *)

Section kalloc_c.
Context {L : Layout}.

Definition kfree (pa : Z) : KM kmem () :=
  if negb (pa mod PGSIZE =? 0) || (pa <? kend) || (pa >=? PHYSTOP) then panic "kfree" else
  (* Fill with junk to catch dangling refs. *)
  modX (fun k => k <| mem := memset (mem k) pa 1 PGSIZE |>) ;;
  acquire LkKmem ;;
  modX (fun k => k <| mem := st64 (mem k) pa (freelist k) |>) ;;
  modX (fun k => k <| freelist := pa |>) ;;
  release LkKmem.

Definition kalloc : KM kmem Z :=
  acquire LkKmem ;;
  r ← getX freelist;
  mwhen (negb (r =? 0)) (modX (fun k => k <| freelist := ld64 (mem k) r |>)) ;;
  release LkKmem ;;
  mwhen (negb (r =? 0)) (modX (fun k => k <| mem := memset (mem k) r 5 PGSIZE |>)) ;;
  mret r.

Definition freerange (pa_start pa_end : Z) : KM kmem () :=
  mloop (fun p => if p + PGSIZE <=? pa_end
                  then kfree p ;; mret (inl (p + PGSIZE))
                  else mret (inr tt))
        (PGROUNDUP pa_start).

Definition kinit : KM kmem () :=
  initlock LkKmem ;;
  freerange kend PHYSTOP.
End kalloc_c.

(** ** What the memory represents *)

(** [h] heads a list of free pages linked through memory. *)
Fixpoint fl_rep (m : gmap Z Z) (h : Z) (l : list Z) : Prop :=
  match l with
  | [] => h = 0
  | p :: l' => h = p /\ fl_rep m (ld64 m p) l'
  end.

Definition valid_page {L : Layout} (p : Z) : Prop :=
  p mod PGSIZE = 0 /\ kend <= p /\ p < PHYSTOP.

Record kmem_inv {L : Layout} (k : kmem) (l : list Z) : Prop := {
  ki_rep : fl_rep (mem k) (freelist k) l;
  ki_nodup : NoDup l;
  ki_valid : Forall valid_page l
}.

(** Memory agrees outside the page at [p]. *)
Definition same_outside (p : Z) (m m' : gmap Z Z) : Prop :=
  forall a, a < p \/ p + PGSIZE <= a -> ld m' a = ld m a.

Section facts.
Context {L : Layout} {LO : LayoutOk L}.

Lemma valid_page_pos p : valid_page p -> KERNBASE < p.
Proof. pose proof kend_range. unfold valid_page. lia. Qed.

Lemma valid_page_disj p q :
  valid_page p -> valid_page q -> p <> q -> p + PGSIZE <= q \/ q + PGSIZE <= p.
Proof.
  unfold valid_page, PGSIZE. intros (Hp & _) (Hq & _) Hne.
  apply Z.mod_divide in Hp as [a ->]; [|lia]. apply Z.mod_divide in Hq as [b ->]; [|lia]. lia.
Qed.

Lemma valid_page_fits p : valid_page p -> p + PGSIZE <= PHYSTOP.
Proof.
  unfold valid_page, PGSIZE. intros (Hp & _ & Hq).
  apply Z.mod_divide in Hp as [a ->]; [|lia].
  unfold PHYSTOP, KERNBASE in *. lia.
Qed.

Lemma fl_rep_ext m m' h l :
  (forall p, p ∈ l -> ld64 m' p = ld64 m p) -> fl_rep m h l -> fl_rep m' h l.
Proof.
  revert h. induction l as [|p l IH]; intros h He; cbn; [done|].
  intros [-> Hr]. split; [done|]. rewrite He by set_solver. apply IH; [set_solver|done].
Qed.

(** Changing a page that is not free does not disturb the free list. *)
Lemma fl_rep_outside m m' h l p :
  valid_page p -> Forall valid_page l -> p ∉ l -> same_outside p m m' ->
  fl_rep m h l -> fl_rep m' h l.
Proof.
  intros Hp Hv Hn Hs. apply fl_rep_ext. intros q Hq. apply ld64_ext. intros b Hb.
  apply Hs. rewrite Forall_forall in Hv. specialize (Hv q Hq).
  assert (p <> q) as Hne by set_solver.
  pose proof (valid_page_disj p q Hp Hv Hne). unfold PGSIZE in *. lia.
Qed.

Lemma memset_same_outside m p c : same_outside p m (memset m p c PGSIZE).
Proof.
  intros a Ha. rewrite memset_ld by (unfold PGSIZE; lia).
  destruct (Z.leb_spec p a), (Z.ltb_spec a (p + PGSIZE)); cbn; done || lia.
Qed.

Lemma st64_same_outside m p o v : 0 <= o <= PGSIZE - 8 -> same_outside p m (st64 m (p + o) v).
Proof. intros Ho a Ha. apply st64_ld. lia. Qed.

Lemma same_outside_trans p m1 m2 m3 :
  same_outside p m1 m2 -> same_outside p m2 m3 -> same_outside p m1 m3.
Proof. intros H1 H2 a Ha. rewrite H2, H1; done. Qed.

Lemma kmem_inv_outside k m' l p :
  valid_page p -> p ∉ l -> same_outside p (mem k) m' -> kmem_inv k l ->
  kmem_inv (k <| mem := m' |>) l.
Proof.
  intros Hp Hn Hs [H1 H2 H3]. split; cbn; try done. by eapply fl_rep_outside.
Qed.

(** ** Specifications *)

Lemma kfree_spec n t k l pa :
  cpu_ok t -> lks t !! LkKmem = None -> kmem_inv k l -> valid_page pa -> pa ∉ l ->
  exists k', kfree pa n (MkK t k) = Ret tt (MkK t k') /\
    kmem_inv k' (pa :: l) /\ same_outside pa (mem k) (mem k').
Proof.
  intros Ho Hl Hi Hv Hn. pose proof Hv as (Hv1 & Hv2 & Hv3).
  pose proof (valid_page_pos _ Hv) as Hpos.
  unfold kfree.
  replace (negb (pa mod PGSIZE =? 0) || (pa <? kend) || (pa >=? PHYSTOP)) with false.
  2: { rewrite Hv1. cbn. lia. }
  mred. cbn. rewrite acquire_spec by done. mred. cbn.
  rewrite release_spec by done. eexists. split; [reflexivity|]. cbn.
  set (m1 := memset (mem k) pa 1 PGSIZE).
  assert (same_outside pa (mem k) (st64 m1 pa (freelist k))) as Hs.
  { eapply same_outside_trans; [apply memset_same_outside|].
    pose proof (st64_same_outside m1 pa 0 (freelist k)) as H. rewrite Z.add_0_r in H.
    apply H. unfold PGSIZE. lia. }
  split; [|done]. destruct Hi as [H1 H2 H3]. split; cbn.
  - split; [done|]. rewrite ld64_st64_eq.
    + eapply fl_rep_outside; [| | |exact Hs|]; done.
    + destruct l as [|q l]; cbn in H1; [lia|]. destruct H1 as [-> _].
      apply Forall_inv in H3 as (_ & Hq & Hq'). pose proof kend_range.
      unfold PHYSTOP, KERNBASE in *. lia.
  - by constructor.
  - by constructor.
Qed.

Lemma kfree_invalid n t k pa :
  ~ valid_page pa -> kfree pa n (MkK t k) = Panic "kfree".
Proof.
  intros Hv. unfold kfree.
  replace (negb (pa mod PGSIZE =? 0) || (pa <? kend) || (pa >=? PHYSTOP)) with true; [done|].
  unfold valid_page in Hv. destruct (Z.eqb_spec (pa mod PGSIZE) 0), (Z.ltb_spec pa kend);
    cbn; try done. destruct (pa >=? PHYSTOP) eqn:E; [done|]. lia.
Qed.

Lemma kalloc_spec n t k l :
  cpu_ok t -> lks t !! LkKmem = None -> kmem_inv k l ->
  match l with
  | [] => kalloc n (MkK t k) = Ret 0 (MkK t k)
  | p :: l' => exists k', kalloc n (MkK t k) = Ret p (MkK t k') /\
      kmem_inv k' l' /\ same_outside p (mem k) (mem k') /\
      (forall a, p <= a < p + PGSIZE -> ld (mem k') a = 5)
  end.
Proof.
  intros Ho Hl Hi. unfold kalloc. erewrite bind_ret by (apply acquire_spec; done).
  destruct l as [|p l].
  - destruct Hi as [H1 _ _]. cbn in H1. destruct k as [m fl]; cbn in *. subst fl. mred. cbn.
    rewrite release_spec by done. done.
  - pose proof Hi as [H1 H2 H3]. cbn in H1. destruct H1 as [H1 Hr].
    apply NoDup_cons in H2 as [H2 H2'].
    pose proof (Forall_inv H3) as Hp. pose proof (valid_page_pos _ Hp) as Hpos.
    mred. cbn. destruct (Z.eqb_spec (freelist k) 0) as [E|E].
    { exfalso. unfold KERNBASE in *. lia. }
    cbn. mred. cbn. rewrite release_spec by done. mred. cbn.
    rewrite H1. eexists. split; [reflexivity|]. cbn. split_and!.
    + apply (kmem_inv_outside (MkKmem (mem k) (ld64 (mem k) p)) _ l p); cbn; try done.
      * apply memset_same_outside.
      * split; cbn; try done. by eapply Forall_inv_tail.
    + apply memset_same_outside.
    + intros a Ha. rewrite memset_ld by (unfold PGSIZE; lia).
      destruct (Z.leb_spec p a), (Z.ltb_spec a (p + PGSIZE)); cbn; done || lia.
Qed.
End facts.

(** ** Initialisation *)

Section init.
Context {L : Layout} {LO : LayoutOk L}.

Definition freerange_body (pa_end p : Z) : KM kmem (Z + ()) :=
  if p + PGSIZE <=? pa_end then kfree p ;; mret (inl (p + PGSIZE)) else mret (inr tt).

Lemma PHYSTOP_pages p : p mod PGSIZE = 0 -> p < PHYSTOP -> p + PGSIZE <= PHYSTOP.
Proof.
  unfold PHYSTOP, KERNBASE, PGSIZE. intros Hp Hlt.
  apply Z.mod_divide in Hp as [a ->]; [|lia]. lia.
Qed.

Lemma freerange_loop cnt : forall fuel n t k l p,
  cpu_ok t -> lks t !! LkKmem = None -> kmem_inv k l ->
  p mod PGSIZE = 0 -> kend <= p -> p + Z.of_nat cnt * PGSIZE = PHYSTOP -> (cnt < fuel)%nat ->
  (forall q, q ∈ l -> q < p) ->
  exists k' l', mwhile fuel (freerange_body PHYSTOP) p n (MkK t k) = Ret tt (MkK t k') /\
    kmem_inv k' l' /\ forall q, q ∈ l' <-> q ∈ l \/ (valid_page q /\ p <= q).
Proof.
  induction cnt as [|cnt IH]; intros fuel n t k l p Ho Hl Hi Hp Hk Hc Hf Hq;
    (destruct fuel as [|fuel]; [lia|]).
  - exists k, l. split_and!; [|done|].
    { apply mwhile_inr. unfold freerange_body.
      destruct (Z.leb_spec (p + PGSIZE) PHYSTOP); [unfold PGSIZE in *; lia|done]. }
    intros q. split; [auto|].
    intros [?|[(_ & _ & ?) ?]]; [done|]. unfold PGSIZE in *. lia.
  - assert (valid_page p) as Hv by (unfold valid_page, PGSIZE in *; lia).
    destruct (kfree_spec n t k l p) as (k1 & H1 & H2 & _); try done.
    { intros Hin. specialize (Hq p Hin). lia. }
    rewrite (mwhile_inl fuel _ p n (MkK t k) (p + PGSIZE) (MkK t k1)).
    2: { unfold freerange_body. destruct (Z.leb_spec (p + PGSIZE) PHYSTOP);
           [|unfold PGSIZE in *; lia]. by rewrite (bind_ret _ _ _ _ _ _ H1). }
    destruct (IH fuel n t k1 (p :: l) (p + PGSIZE)) as (k' & l' & H4 & H5 & H6); try done.
    { unfold PGSIZE in *. rewrite <- Zplus_mod_idemp_r. by rewrite Z.add_0_r. }
    { unfold PGSIZE. lia. } { lia. } { lia. }
    { intros q [->|Hin]%elem_of_cons; [unfold PGSIZE; lia|].
      specialize (Hq q Hin). unfold PGSIZE. lia. }
    exists k', l'. split_and!; [done|done|]. intros q. rewrite H6, elem_of_cons.
    split.
    { intros [[->|?]|[? ?]]; [right; split; [done|lia]|by left|].
      right; split; [done|unfold PGSIZE in *; lia]. }
    intros [?|[Hvq Hle]]; [auto|].
    destruct (Z.eq_dec p q) as [->|Hne]; [auto|].
    pose proof (valid_page_disj p q Hv Hvq Hne). right. split; [done|unfold PGSIZE in *; lia].
Qed.

(** The number of pages [kinit] frees; any larger fuel is enough. *)
Definition kinit_pages : nat := Z.to_nat ((PHYSTOP - PGROUNDUP kend) / PGSIZE).

Lemma kend_round :
  PGROUNDUP kend mod PGSIZE = 0 /\ kend <= PGROUNDUP kend /\
  PGROUNDUP kend + Z.of_nat kinit_pages * PGSIZE = PHYSTOP /\
  (forall q, valid_page q -> PGROUNDUP kend <= q).
Proof.
  pose proof kend_range as Hk. unfold kinit_pages, valid_page.
  rewrite PGROUNDUP_eq by (unfold PHYSTOP, KERNBASE, PGSIZE in *; lia).
  unfold PHYSTOP, KERNBASE, PGSIZE in *.
  pose proof (Z.div_mod (kend + 4095) 4096). pose proof (Z.mod_pos_bound (kend + 4095) 4096).
  replace (2147483648 + 128 * 1024 * 1024) with (557056 * 4096) in * by lia.
  rewrite <- Z.mul_sub_distr_r, Z.div_mul by lia.
  split_and!; [apply Z_mod_mult|lia|lia|].
  intros q (Hq & Hq' & _). apply Z.mod_divide in Hq as [a ->]; [|lia]. lia.
Qed.

Lemma kinit_spec n t k :
  cpu_ok t -> lks t !! LkKmem = None -> freelist k = 0 -> (kinit_pages < n)%nat ->
  exists k' l, kinit n (MkK t k) = Ret tt (MkK t k') /\
    kmem_inv k' l /\ forall q, q ∈ l <-> valid_page q.
Proof.
  intros Ho Hl Hf Hn. unfold kinit, initlock, freerange, mloop. mred. cbn.
  destruct kend_round as (H1 & H2 & H3 & H4).
  destruct (freerange_loop kinit_pages n n t k [] (PGROUNDUP kend)) as (k' & l' & R1 & R2 & R3);
    try done.
  { split; cbn; try done. constructor. }
  { intros q Hq. by apply not_elem_of_nil in Hq. }
  exists k', l'. split_and!; [|done|].
  - rewrite <- R1. f_equal. f_equal. destruct t; cbn in *. unfold upd. cbn.
    by rewrite delete_id.
  - intros q. rewrite R3. split; [|auto].
    intros [Hq|[? _]]; [by apply not_elem_of_nil in Hq|done].
Qed.
End init.

(** ** Any client of the allocator

    A client calls [kalloc], frees pages it got, and writes what it likes in
    the pages it holds; [a] is the list of pages handed out and not freed. *)

Inductive kstep {L : Layout} (n : nat) (t : T) : kmem * list Z -> kmem * list Z -> Prop :=
| ks_alloc k k' a r :
    kalloc n (MkK t k) = Ret r (MkK t k') -> r <> 0 -> kstep n t (k, a) (k', r :: a)
| ks_alloc_fails k k' a :
    kalloc n (MkK t k) = Ret 0 (MkK t k') -> kstep n t (k, a) (k', a)
| ks_free k k' a1 p a2 :
    kfree p n (MkK t k) = Ret tt (MkK t k') -> kstep n t (k, a1 ++ p :: a2) (k', a1 ++ a2)
| ks_write k m' a p :
    p ∈ a -> same_outside p (mem k) m' -> kstep n t (k, a) (k <| mem := m' |>, a).

Section client.
Context {L : Layout} {LO : LayoutOk L}.
Context (n : nat) (t : T) (Ho : cpu_ok t) (Hl : lks t !! LkKmem = None).

(** Free and handed-out pages together are the pages that were free at the
    start. *)
Definition conserved (all : list Z) (s : kmem * list Z) : Prop :=
  exists l, kmem_inv s.1 l /\ (l ++ s.2) ≡ₚ all.

Lemma kstep_conserved all s s' :
  NoDup all -> Forall valid_page all ->
  conserved all s -> kstep n t s s' -> conserved all s'.
Proof.
  intros Hnd Hval (l & Hi & Hp) Hst.
  assert (NoDup (l ++ s.2)) as Hnd' by (by rewrite Hp).
  assert (Forall valid_page (l ++ s.2)) as Hval' by (by rewrite Hp).
  destruct Hst as [k k' a r Hk Hr|k k' a Hk|k k' a1 p a2 Hk|k m' a p Hin Hs]; cbn in *.
  - pose proof (kalloc_spec n t k l Ho Hl Hi) as Hspec. destruct l as [|q l].
    { rewrite Hk in Hspec. by injection Hspec as ->. }
    destruct Hspec as (k1 & H1 & H2 & _). rewrite Hk in H1. injection H1 as -> ->.
    exists l. split; [done|]. cbn. rewrite <- Hp. cbn. by rewrite Permutation_middle.
  - pose proof (kalloc_spec n t k l Ho Hl Hi) as Hspec. destruct l as [|q l].
    { rewrite Hk in Hspec. injection Hspec as ->. by exists []. }
    destruct Hspec as (k1 & H1 & _). rewrite Hk in H1. injection H1 as Hq _.
    apply Forall_app in Hval' as [Hv _]. apply Forall_inv in Hv.
    pose proof (valid_page_pos _ Hv). unfold KERNBASE in *. lia.
  - assert (valid_page p) as Hv.
    { rewrite Forall_forall in Hval'. apply Hval'. set_solver. }
    assert (p ∉ l) as Hn by (apply NoDup_app in Hnd' as (_ & Hd & _); set_solver).
    destruct (kfree_spec n t k l p Ho Hl Hi Hv Hn) as (k1 & H1 & H2 & _).
    rewrite Hk in H1. injection H1 as ->. exists (p :: l). split; [done|]. cbn.
    rewrite <- Hp. rewrite <- Permutation_middle. cbn. by rewrite <- Permutation_middle.
  - exists l. split; [|done]. apply (kmem_inv_outside k m' l p); [| |done|done].
    + rewrite Forall_forall in Hval'. apply Hval'. set_solver.
    + apply NoDup_app in Hnd' as (_ & Hd & _). set_solver.
Qed.

Lemma ksteps_conserved all s s' :
  NoDup all -> Forall valid_page all ->
  conserved all s -> rtc (kstep n t) s s' -> conserved all s'.
Proof. intros H1 H2 H3 Hr. induction Hr; [done|]. eauto using kstep_conserved. Qed.
End client.

(** C38: The page allocator neither hands out a page twice nor loses one.  After
    [kinit] and any sequence of allocations, frees of held pages and writes
    into held pages, the pages handed out are distinct whole pages between
    [end] and [PHYSTOP], none of them is on the free list, and together with
    the free list they are exactly all such pages.  [kinit] itself returns,
    given fuel for one more round than it has pages to free. *)
Theorem kalloc_no_double_alloc {L : Layout} {LO : LayoutOk L} n t k0 :
  cpu_ok t -> lks t !! LkKmem = None -> freelist k0 = 0 -> (kinit_pages < n)%nat ->
  exists k1, kinit n (MkK t k0) = Ret tt (MkK t k1) /\
    forall k a, rtc (kstep n t) (k1, []) (k, a) ->
      NoDup a /\ Forall valid_page a /\
      exists l, kmem_inv k l /\ (forall p, p ∈ a -> p ∉ l) /\
        forall p, p ∈ a \/ p ∈ l <-> valid_page p.
Proof.
  intros Ho Hl Hf Hn. destruct (kinit_spec n t k0 Ho Hl Hf Hn) as (k1 & all & H1 & H2 & H3).
  exists k1. split; [done|]. intros k a Hr.
  assert (conserved all (k, a)) as (l & Hi & Hp).
  { eapply (ksteps_conserved n t); [done|done|apply H2|apply H2| |done].
    exists all. split; [done|]. by rewrite app_nil_r. }
  cbn in *. pose proof (ki_nodup _ _ H2) as Hnd. rewrite <- Hp in Hnd.
  pose proof (ki_valid _ _ H2) as Hv. rewrite <- Hp in Hv.
  apply NoDup_app in Hnd as (Hn1 & Hd & Hn2). apply Forall_app in Hv as [_ Hv].
  split_and!; [done|done|]. exists l. split_and!; [done|set_solver|].
  intros p. rewrite <- H3. rewrite <- Hp, elem_of_app. tauto.
Qed.

(** A concrete machine: the kernel image ends 16 pages below [PHYSTOP]. *)
Definition demo_layout : Layout :=
  {| kend := PHYSTOP - 16 * PGSIZE - 100; etext := KERNBASE + 8 * PGSIZE;
     trampoline := KERNBASE + 7 * PGSIZE |}.
Lemma demo_layout_ok : LayoutOk demo_layout.
Proof. by split; vm_compute. Qed.

Definition demo_T : T :=
  MkT 0 true 0 true (Some 0%nat) ∅
    (proc0 <| p_state := RUNNING |> <| p_pid := 1 |> :: replicate 63 proc0) 2 (Some 0%nat) ∅.

Lemma demo_T_ok : cpu_ok demo_T.
Proof. by split_and!. Qed.

Lemma kalloc_no_double_alloc_witness :
  exists k1, @kinit demo_layout 100%nat (MkK demo_T (MkKmem ∅ 0)) = Ret tt (MkK demo_T k1) /\
    exists k r, kalloc 100%nat (MkK demo_T k1) = Ret r (MkK demo_T k) /\ NoDup [r].
Proof.
  pose proof demo_layout_ok as LO.
  destruct (kalloc_no_double_alloc (L := demo_layout) 100%nat demo_T (MkKmem ∅ 0) demo_T_ok) as (k1 & H1 & H2);
    [reflexivity|reflexivity|vm_compute; lia|].
  exists k1. split; [exact H1|].
  destruct (kinit_spec (L := demo_layout) 100%nat demo_T (MkKmem ∅ 0) demo_T_ok) as (k1' & l & R1 & R2 & R3);
    [reflexivity|reflexivity|vm_compute; lia|].
  rewrite H1 in R1. injection R1 as <-.
  assert (PHYSTOP - PGSIZE ∈ l) as Hin.
  { apply R3. unfold valid_page. cbn [kend demo_layout]. unfold PHYSTOP, KERNBASE, PGSIZE.
    split_and!; [reflexivity|lia|lia]. }
  destruct l as [|r l]; [exfalso; exact (not_elem_of_nil _ Hin)|].
  destruct (kalloc_spec (L := demo_layout) 100%nat demo_T k1 (r :: l) demo_T_ok) as (k2 & K1 & K2 & _);
    [reflexivity|exact R2|].
  exists k2, r. split; [exact K1|].
  apply (H2 k2 [r]). apply rtc_once. apply ks_alloc; [exact K1|].
  intros ->. apply ki_valid, Forall_inv in R2. destruct R2 as (_ & R2 & _). revert R2.
  cbn [kend demo_layout]. unfold PHYSTOP, KERNBASE, PGSIZE. lia.
Defined.
