(* ===== verification/Vm.v ===== *)
(** * Virtual memory ([kernel/vm.c])

    Page tables live in physical memory: a page-table page is 512 eight-byte
    entries, read and written with [ld64]/[st64] at the addresses the code
    computes.  A kernel buffer that [copyout] reads or [copyin] fills is the
    list of its bytes; [copyin] and [copyinstr] return the C result with the
    bytes they stored. *)

From Stdlib Require Import ZArith Lia.
From S2P Require Import Prelude Riscv KString Thread Kalloc.

Definition has (pte flag : Z) : bool := negb (Z.land pte flag =? 0).

Section vm_c.
Context {L : Layout}.

(** Memory accesses of the code. *)
Definition load64 (a : Z) : KM kmem Z := getX (fun k => ld64 (mem k) a).
Definition store64 (a v : Z) : KM kmem () := modX (fun k => k <| mem := st64 (mem k) a v |>).
(** Address 0 is not mapped: a store through a null pointer faults. *)
Definition kmemset (a c n : Z) : KM kmem () :=
  if a =? 0 then panic "kerneltrap"
  else modX (fun k => k <| mem := memset (mem k) a c n |>).
Definition kmemmove (d s n : Z) : KM kmem () := modX (fun k => k <| mem := memmove (mem k) d s n |>).
(** [memmove] from a kernel buffer. *)
Definition kmemwrite (d : Z) (l : list Z) : KM kmem () :=
  modX (fun k => k <| mem := mem_write (mem k) d l |>).

(** The loop [for(int level = 2; level > 0; level--)]. *)
Fixpoint walk_loop (level : nat) (pagetable va : Z) (alloc : bool) : KM kmem Z :=
  match level with
  | O => mret (pagetable + 8 * PX 0 va)
  | S level' =>
      let pte := pagetable + 8 * PX (Z.of_nat level) va in
      v ← load64 pte;
      if has v PTE_V then walk_loop level' (PTE2PA v) va alloc
      else if negb alloc then mret 0 else
      pagetable ← kalloc;
      if pagetable =? 0 then mret 0 else
      kmemset pagetable 0 PGSIZE ;;
      store64 pte (Z.lor (PA2PTE pagetable) PTE_V) ;;
      walk_loop level' pagetable va alloc
  end.

Definition walk (pagetable va : Z) (alloc : bool) : KM kmem Z :=
  if va >=? MAXVA then panic "walk" else walk_loop 2 pagetable va alloc.

Definition walkaddr (pagetable va : Z) : KM kmem Z :=
  if va >=? MAXVA then mret 0 else
  pte ← walk pagetable va false;
  if pte =? 0 then mret 0 else
  v ← load64 pte;
  if negb (has v PTE_V) then mret 0 else
  if negb (has v PTE_U) then mret 0 else
  mret (PTE2PA v).

(** Bodies of the loops, over the local variables they change. *)
Definition mappages_body (pagetable perm last : Z) : Z * Z -> KM kmem ((Z * Z) + Z) :=
  fun '(a, pa) =>
  pte ← walk pagetable a true;
  if pte =? 0 then mret (inr (-1)) else
  v ← load64 pte;
  if has v PTE_V then panic "mappages: remap" else
  store64 pte (Z.lor (Z.lor (PA2PTE pa) perm) PTE_V) ;;
  if a =? last then mret (inr 0) else
  mret (inl (u64 (a + PGSIZE), u64 (pa + PGSIZE))).

Definition mappages (pagetable va size pa perm : Z) : KM kmem Z :=
  if size =? 0 then panic "mappages: size" else
  let a := PGROUNDDOWN va in
  let last := PGROUNDDOWN (u64 (va + size - 1)) in
  mloop (mappages_body pagetable perm last) (a, pa).

Definition kvmmap (kpgtbl va pa sz perm : Z) : KM kmem () :=
  r ← mappages kpgtbl va sz pa perm;
  if negb (r =? 0) then panic "kvmmap" else mret tt.

Definition uvmunmap_body (pagetable last : Z) (do_free : bool) (a : Z) : KM kmem (Z + ()) :=
  if negb (a <? last) then mret (inr tt) else
  pte ← walk pagetable a false;
  if pte =? 0 then panic "uvmunmap: walk" else
  v ← load64 pte;
  if negb (has v PTE_V) then panic "uvmunmap: not mapped" else
  if PTE_FLAGS v =? PTE_V then panic "uvmunmap: not a leaf" else
  mwhen do_free (kfree (PTE2PA v)) ;;
  store64 pte 0 ;;
  mret (inl (u64 (a + PGSIZE))).

Definition uvmunmap (pagetable va npages : Z) (do_free : bool) : KM kmem () :=
  if negb (va mod PGSIZE =? 0) then panic "uvmunmap: not aligned" else
  mloop (uvmunmap_body pagetable (u64 (va + npages * PGSIZE)) do_free) va.

Definition uvmcreate : KM kmem Z :=
  pagetable ← kalloc;
  if pagetable =? 0 then mret 0 else
  kmemset pagetable 0 PGSIZE ;;
  mret pagetable.

Definition uvminit (pagetable : Z) (src : list Z) (sz : Z) : KM kmem () :=
  if sz >=? PGSIZE then panic "inituvm: more than a page" else
  mem ← kalloc;
  kmemset mem 0 PGSIZE ;;
  _ ← mappages pagetable 0 PGSIZE mem (Z.lor (Z.lor (Z.lor PTE_W PTE_R) PTE_X) PTE_U);
  kmemwrite mem (take (Z.to_nat sz) src).

Definition uvmdealloc (pagetable oldsz newsz : Z) : KM kmem Z :=
  if newsz >=? oldsz then mret oldsz else
  mwhen (PGROUNDUP newsz <? PGROUNDUP oldsz)
    (let npages := i32 ((PGROUNDUP oldsz - PGROUNDUP newsz) / PGSIZE) in
     uvmunmap pagetable (PGROUNDUP newsz) npages true) ;;
  mret newsz.

Definition uvmalloc_body (pagetable oldsz newsz a : Z) : KM kmem (Z + Z) :=
  if negb (a <? newsz) then mret (inr newsz) else
  mem ← kalloc;
  if mem =? 0 then
    _ ← uvmdealloc pagetable a oldsz; mret (inr 0)
  else
  kmemset mem 0 PGSIZE ;;
  r ← mappages pagetable a PGSIZE mem (Z.lor (Z.lor (Z.lor PTE_W PTE_X) PTE_R) PTE_U);
  if negb (r =? 0) then
    kfree mem ;;
    _ ← uvmdealloc pagetable a oldsz; mret (inr 0)
  else mret (inl (u64 (a + PGSIZE))).

Definition uvmalloc (pagetable oldsz newsz : Z) : KM kmem Z :=
  if newsz <? oldsz then mret oldsz else
  let oldsz := PGROUNDUP oldsz in
  mloop (uvmalloc_body pagetable oldsz newsz) oldsz.

Definition freewalk_body (rec : Z -> KM kmem ()) (pagetable i : Z) : KM kmem () :=
  pte ← load64 (pagetable + 8 * i);
  if has pte PTE_V && (Z.land pte (Z.lor (Z.lor PTE_R PTE_W) PTE_X) =? 0) then
    rec (PTE2PA pte) ;;
    store64 (pagetable + 8 * i) 0
  else if has pte PTE_V then panic "freewalk: leaf"
  else mret tt.

(** [depth] bounds the recursion; a three-level table needs 3. *)
Fixpoint freewalk_rec (depth : nat) (pagetable : Z) : KM kmem () :=
  match depth with
  | O => spin
  | S depth' =>
      meach 512 0 (freewalk_body (freewalk_rec depth') pagetable) ;;
      kfree pagetable
  end.
Definition freewalk (pagetable : Z) : KM kmem () := fun n s => freewalk_rec n pagetable n s.

Definition uvmfree (pagetable sz : Z) : KM kmem () :=
  mwhen (0 <? sz) (uvmunmap pagetable 0 (PGROUNDUP sz / PGSIZE) true) ;;
  freewalk pagetable.

Definition uvmcopy_body (old new sz i : Z) : KM kmem (Z + Z) :=
  let err := (uvmunmap new 0 (i / PGSIZE) true ;; mret (inr (-1))) in
  if negb (i <? sz) then mret (inr 0) else
  pte ← walk old i false;
  if pte =? 0 then panic "uvmcopy: pte should exist" else
  v ← load64 pte;
  if negb (has v PTE_V) then panic "uvmcopy: page not present" else
  let pa := PTE2PA v in
  let flags := PTE_FLAGS v in
  mem ← kalloc;
  if mem =? 0 then err else
  kmemmove mem pa PGSIZE ;;
  r ← mappages new i PGSIZE mem flags;
  if negb (r =? 0) then kfree mem ;; err
  else mret (inl (u64 (i + PGSIZE))).

Definition uvmcopy (old new sz : Z) : KM kmem Z := mloop (uvmcopy_body old new sz) 0.

Definition uvmclear (pagetable va : Z) : KM kmem () :=
  pte ← walk pagetable va false;
  if pte =? 0 then panic "uvmclear" else
  v ← load64 pte;
  store64 pte (Z.land v (Z.lnot PTE_U)).

(** Locals of the copy loops: the buffer position is the list still to copy
    (or copied so far), [dstva]/[srcva] and [len]. *)
Definition copyout_body (pagetable : Z) : Z * list Z * Z -> KM kmem ((Z * list Z * Z) + Z) :=
  fun '(dstva, src, len) =>
  if negb (0 <? len) then mret (inr 0) else
  let va0 := PGROUNDDOWN dstva in
  pa0 ← walkaddr pagetable va0;
  if pa0 =? 0 then mret (inr (-1)) else
  let n := Z.min (PGSIZE - (dstva - va0)) len in
  kmemwrite (pa0 + (dstva - va0)) (take (Z.to_nat n) src) ;;
  mret (inl (u64 (va0 + PGSIZE), drop (Z.to_nat n) src, len - n)).

Definition copyout (pagetable dstva : Z) (src : list Z) (len : Z) : KM kmem Z :=
  mloop (copyout_body pagetable) (dstva, src, len).

Definition copyin_body (pagetable : Z) :
    Z * list Z * Z -> KM kmem ((Z * list Z * Z) + (Z * list Z)) :=
  fun '(srcva, dst, len) =>
  if negb (0 <? len) then mret (inr (0, dst)) else
  let va0 := PGROUNDDOWN srcva in
  pa0 ← walkaddr pagetable va0;
  if pa0 =? 0 then mret (inr (-1, dst)) else
  let n := Z.min (PGSIZE - (srcva - va0)) len in
  b ← getX (fun k => mem_read (mem k) (pa0 + (srcva - va0)) (Z.to_nat n));
  mret (inl (u64 (va0 + PGSIZE), dst ++ b, len - n)).

Definition copyin (pagetable srcva len : Z) : KM kmem (Z * list Z) :=
  mloop (copyin_body pagetable) (srcva, [], len).

(** The inner loop of [copyinstr] over the [n] bytes at [p]: the bytes
    stored and whether a NUL was found. *)
Fixpoint copyinstr_bytes (m : gmap Z Z) (n : nat) (p : Z) : list Z * bool :=
  match n with
  | O => ([], false)
  | S n' => if ld m p =? 0 then ([0], true)
            else let '(l, got_null) := copyinstr_bytes m n' (p + 1) in (ld m p :: l, got_null)
  end.

Definition copyinstr_body (pagetable : Z) :
    Z * list Z * Z * bool -> KM kmem ((Z * list Z * Z * bool) + (Z * list Z)) :=
  fun '(srcva, dst, max, got_null) =>
  if got_null || negb (0 <? max) then mret (inr (if got_null then 0 else -1, dst)) else
  let va0 := PGROUNDDOWN srcva in
  pa0 ← walkaddr pagetable va0;
  if pa0 =? 0 then mret (inr (-1, dst)) else
  let n := Z.min (PGSIZE - (srcva - va0)) max in
  '(b, g) ← getX (fun k => copyinstr_bytes (mem k) (Z.to_nat n) (pa0 + (srcva - va0)));
  mret (inl (u64 (va0 + PGSIZE), dst ++ b,
             if (g : bool) then max - (Z.of_nat (length b) - 1) else max - n, g)).

Definition copyinstr (pagetable srcva max : Z) : KM kmem (Z * list Z) :=
  mloop (copyinstr_body pagetable) (srcva, [], max, false).

(** Kernel page table. *)
Definition proc_mapstacks (kpgtbl : Z) : KM kmem () :=
  meach (Z.to_nat NPROC) 0 (fun p =>
    pa ← kalloc;
    if pa =? 0 then panic "kalloc" else
    kvmmap kpgtbl (KSTACK p) pa PGSIZE (Z.lor PTE_R PTE_W)).

Definition kvmmake : KM kmem Z :=
  kpgtbl ← kalloc;
  kmemset kpgtbl 0 PGSIZE ;;
  kvmmap kpgtbl UART0 UART0 PGSIZE (Z.lor PTE_R PTE_W) ;;
  kvmmap kpgtbl VIRTIO0 VIRTIO0 PGSIZE (Z.lor PTE_R PTE_W) ;;
  kvmmap kpgtbl PLIC PLIC 0x400000 (Z.lor PTE_R PTE_W) ;;
  kvmmap kpgtbl KERNBASE KERNBASE (etext - KERNBASE) (Z.lor PTE_R PTE_X) ;;
  kvmmap kpgtbl etext etext (PHYSTOP - etext) (Z.lor PTE_R PTE_W) ;;
  kvmmap kpgtbl TRAMPOLINE trampoline PGSIZE (Z.lor PTE_R PTE_X) ;;
  proc_mapstacks kpgtbl ;;
  mret kpgtbl.

(** proc.c: a process's page table. *)
Definition proc_pagetable (trapframe : Z) : KM kmem Z :=
  pagetable ← uvmcreate;
  if pagetable =? 0 then mret 0 else
  r ← mappages pagetable TRAMPOLINE PGSIZE trampoline (Z.lor PTE_R PTE_X);
  if r <? 0 then uvmfree pagetable 0 ;; mret 0 else
  r ← mappages pagetable TRAPFRAME PGSIZE trapframe (Z.lor PTE_R PTE_W);
  if r <? 0 then
    uvmunmap pagetable TRAMPOLINE 1 false ;;
    uvmfree pagetable 0 ;; mret 0
  else mret pagetable.

Definition proc_freepagetable (pagetable sz : Z) : KM kmem () :=
  uvmunmap pagetable TRAMPOLINE 1 false ;;
  uvmunmap pagetable TRAPFRAME 1 false ;;
  uvmfree pagetable sz.
End vm_c.
