(* ===== verification/VmSpec.v ===== *)
(** * Correctness of the page-table code

    The abstract view of a page table is a finite map from paths (the table
    indices followed from the root) to page-table pages; [pt_rep] says that
    memory holds that tree.  Above it a page table is just the function
    [pte_of] from virtual addresses to leaf entries, which the operations of
    vm.c update pointwise. *)

From Stdlib Require Import ZArith Lia.
From S2P Require Import Prelude Riscv KString Thread Kalloc Vm.

(** ** Representation *)

(** Table indices; addresses below [MAXVA] use half of the root table. *)
Definition idx_ok (π : list Z) (i : Z) : Prop := 0 <= i < match π with [] => 256 | _ => 512 end.

Record pt_rep {L : Layout} (m : gmap Z Z) (t : gmap (list Z) Z) (root : Z) : Prop := {
  pr_root : t !! [] = Some root;
  pr_valid : forall π p, t !! π = Some p -> valid_page p /\ (length π <= 2)%nat;
  pr_inj : forall π π' p, t !! π = Some p -> t !! π' = Some p -> π = π';
  pr_closed : forall π i q, t !! (π ++ [i]) = Some q -> is_Some (t !! π) /\ idx_ok π i;
  pr_slot : forall π p i, t !! π = Some p -> (length π < 2)%nat -> 0 <= i < 512 ->
    match t !! (π ++ [i]) with
    | Some q => ld64 m (p + 8 * i) = Z.lor (PA2PTE q) PTE_V
    | None => has (ld64 m (p + 8 * i)) PTE_V = false
    end
}.

Definition pt_owns (t : gmap (list Z) Z) (p : Z) : Prop := exists π, t !! π = Some p.

(** The address of the leaf entry for [va], if its table exists. *)
Definition leaf (t : gmap (list Z) Z) (va : Z) : option Z :=
  (fun p => p + 8 * PX 0 va) <$> t !! [PX 2 va; PX 1 va].

(** The leaf entry for [va]; 0 (not valid) where no table exists. *)
Definition pte_of (m : gmap Z Z) (t : gmap (list Z) Z) (va : Z) : Z :=
  match leaf t va with Some a => ld64 m a | None => 0 end.

Record vm_inv {L : Layout} (k : kmem) (l : list Z) (t : gmap (list Z) Z) (root : Z) : Prop := {
  vi_free : kmem_inv k l;
  vi_rep : pt_rep (mem k) t root;
  vi_sep : forall p, pt_owns t p -> p ∉ l
}.

(** Pages that are neither free nor page-table pages keep their content. *)
Definition data_same {L : Layout} (l : list Z) (t : gmap (list Z) Z) (m m' : gmap Z Z) : Prop :=
  forall p, valid_page p -> p ∉ l -> ~ pt_owns t p ->
    forall a, p <= a < p + PGSIZE -> ld m' a = ld m a.

(** What an operation that may add page-table pages does to the rest: it takes
    pages from the front of the free list and touches no data page. *)
Record vm_grow {L : Layout} (l : list Z) (t : gmap (list Z) Z) (m : gmap Z Z)
    (l' : list Z) (t' : gmap (list Z) Z) (m' : gmap Z Z) : Prop := {
  vg_sub : t ⊆ t';
  vg_free : exists d, l = d ++ l' /\ forall p, pt_owns t' p <-> pt_owns t p \/ p ∈ d;
  vg_data : data_same l t m m'
}.

Section vmspec.
Context {L : Layout} {LO : LayoutOk L}.

Lemma valid_page_pte p : valid_page p -> 0 <= p < 2 ^ 56 /\ p mod 4096 = 0 /\ p <> 0.
Proof.
  intros H. pose proof (valid_page_pos p H). destruct H as (H1 & H2 & H3).
  unfold PGSIZE, PHYSTOP, KERNBASE in *. lia.
Qed.

Lemma pte_table_pa q : valid_page q -> PTE2PA (Z.lor (PA2PTE q) PTE_V) = q.
Proof. intros (H1 & H2 & _)%valid_page_pte. by apply PTE2PA_PA2PTE. Qed.

Lemma has_V_table q : has (Z.lor (PA2PTE q) PTE_V) PTE_V = true.
Proof.
  unfold has, PTE_V. change (Z.shiftl 1 0) with (Z.ones 1).
  rewrite Z.land_lor_distr_l, Z.land_diag. destruct (Z.eqb_spec (Z.lor (Z.land (PA2PTE q) (Z.ones 1)) (Z.ones 1)) 0) as [E|E]; [|done].
  apply Z.lor_eq_0_iff in E as [_ E]. done.
Qed.

Lemma slot_in_page p i : 0 <= i < 512 -> p <= p + 8 * i /\ p + 8 * i + 8 <= p + PGSIZE.
Proof. unfold PGSIZE. lia. Qed.

Lemma same_outside_ld64 p m m' a :
  same_outside p m m' -> a + 8 <= p \/ p + PGSIZE <= a -> ld64 m' a = ld64 m a.
Proof. intros Hs Ha. apply ld64_ext. intros b Hb. apply Hs. lia. Qed.

(** Slots of different pages, or different slots of a page, do not overlap. *)
Lemma slots_disjoint p q i j :
  valid_page p -> valid_page q -> 0 <= i < 512 -> 0 <= j < 512 -> (p <> q \/ i <> j) ->
  p + 8 * i + 8 <= q + 8 * j \/ q + 8 * j + 8 <= p + 8 * i.
Proof.
  intros Hp Hq Hi Hj Hne. destruct (Z.eq_dec p q) as [->|Hpq]; [lia|].
  pose proof (valid_page_disj p q Hp Hq Hpq). unfold PGSIZE in *. lia.
Qed.

Lemma leaf_closed m t root i2 i1 q :
  pt_rep m t root -> t !! [i2; i1] = Some q -> is_Some (t !! [i2]).
Proof. intros Hr H. apply (pr_closed _ _ _ Hr [i2] i1 q H). Qed.

(** ** walk *)

Lemma walk_find n th k t root va :
  pt_rep (mem k) t root -> 0 <= va < MAXVA ->
  walk root va false n (MkK th k) = Ret (default 0 (leaf t va)) (MkK th k).
Proof.
  intros Hr Hva. unfold walk. destruct (va >=? MAXVA) eqn:E; [lia|].
  pose proof (pr_slot _ _ _ Hr [] root (PX 2 va) (pr_root _ _ _ Hr)) as S2.
  cbn in S2. specialize (S2 ltac:(lia) (PX_range 2 va ltac:(lia))).
  cbn [walk_loop]. unfold load64. mred. cbn [thr own]. unfold leaf.
  change (Z.of_nat 2) with 2. change (Z.of_nat 1) with 1.
  destruct (t !! [PX 2 va]) as [q|] eqn:E2.
  - rewrite S2, has_V_table. rewrite pte_table_pa by apply (pr_valid _ _ _ Hr _ _ E2).
    mred. cbn [thr own].
    pose proof (pr_slot _ _ _ Hr [PX 2 va] q (PX 1 va) E2 ltac:(cbn; lia) (PX_range 1 va ltac:(lia))) as S1.
    cbn [app] in S1.
    destruct (t !! [PX 2 va; PX 1 va]) as [q1|] eqn:E1.
    + rewrite S1, has_V_table. rewrite pte_table_pa by apply (pr_valid _ _ _ Hr _ _ E1). done.
    + rewrite S1. done.
  - rewrite S2. cbn. destruct (t !! [PX 2 va; PX 1 va]) as [q1|] eqn:E1; [|done].
    destruct (leaf_closed _ _ _ _ _ _ Hr E1). congruence.
Qed.

(** Adding a zeroed table page [q] at slot [i] of the page [p] on path [π]. *)
Section add.
Context (m m1 : gmap Z Z) (t : gmap (list Z) Z) (root : Z) (π : list Z) (p i q : Z).
Context (Hr : pt_rep m t root) (Hp : t !! π = Some p) (Hlen : (length π < 2)%nat)
  (Hi : 0 <= i < 512) (Hix : idx_ok π i) (Hnew : t !! (π ++ [i]) = None) (Hq : valid_page q)
  (Hnq : ~ pt_owns t q) (Hout : same_outside q m m1)
  (Hz : forall j, 0 <= j < 512 -> ld64 m1 (q + 8 * j) = 0).
Let m2 := st64 m1 (p + 8 * i) (Z.lor (PA2PTE q) PTE_V).
Let t2 := <[π ++ [i] := q]> t.

Lemma add_valid_p : valid_page p.
Proof. apply (pr_valid _ _ _ Hr _ _ Hp). Qed.

Lemma add_p_ne_q : p <> q.
Proof. intros ->. apply Hnq. by exists π. Qed.

Lemma table_pte_range : 0 <= Z.lor (PA2PTE q) PTE_V < 2 ^ 64.
Proof.
  destruct (valid_page_pte q Hq) as (H1 & H2 & _).
  rewrite pte_add by done. pose proof (pte_bound q PTE_V H1 ltac:(done)). lia.
Qed.

Lemma add_slot_self : ld64 m2 (p + 8 * i) = Z.lor (PA2PTE q) PTE_V.
Proof. apply ld64_st64_eq, table_pte_range. Qed.

Lemma add_slot_q j : 0 <= j < 512 -> ld64 m2 (q + 8 * j) = 0.
Proof.
  intros Hj. unfold m2. rewrite ld64_st64_ne; [by apply Hz|].
  apply slots_disjoint; try done; [apply add_valid_p|]. left. intros E. by apply add_p_ne_q.
Qed.

(** Every other slot of every table keeps its value. *)
Lemma add_slot_old π' p' j :
  t !! π' = Some p' -> 0 <= j < 512 -> (π' <> π \/ j <> i) ->
  ld64 m2 (p' + 8 * j) = ld64 m (p' + 8 * j).
Proof.
  intros Hp' Hj Hne. assert (valid_page p') as Hv by apply (pr_valid _ _ _ Hr _ _ Hp').
  assert (p' <> q) as Hpq by (intros ->; apply Hnq; by exists π').
  unfold m2. rewrite ld64_st64_ne.
  - eapply same_outside_ld64; [apply Hout|].
    pose proof (valid_page_disj p' q Hv Hq Hpq). pose proof (slot_in_page p' j Hj). lia.
  - apply slots_disjoint; try done; [apply add_valid_p|].
    destruct (Z.eq_dec p' p) as [->|]; [|by left]. right.
    rewrite (pr_inj _ _ _ Hr _ _ _ Hp' Hp) in Hne. by destruct Hne.
Qed.

Lemma add_rep : pt_rep m2 t2 root.
Proof.
  split; unfold t2.
  - rewrite lookup_insert_ne by (by destruct π). apply Hr.
  - intros π' p' [[<- <-]|[Hne H]]%lookup_insert_Some.
    + split; [done|]. rewrite length_app. cbn. lia.
    + by apply (pr_valid _ _ _ Hr).
  - intros π1 π2 p' [[<- <-]|[N1 H1]]%lookup_insert_Some [[<- E]|[N2 H2]]%lookup_insert_Some; try done.
    + exfalso. apply Hnq. by exists π2.
    + exfalso. subst. apply Hnq. by exists π1.
    + by eapply (pr_inj _ _ _ Hr).
  - intros π' j q' [[E <-]|[N H]]%lookup_insert_Some.
    + apply app_inj_2 in E as [-> [=->]]; [|done]. split; [|done].
      rewrite lookup_insert_ne; [eauto|]. intros E%(f_equal length). rewrite length_app in E. cbn in E. lia.
    + destruct (pr_closed _ _ _ Hr _ _ _ H) as [Hs Hj]. split; [|done].
      rewrite lookup_insert_is_Some. destruct (decide (π ++ [i] = π')); auto.
  - intros π' p' j H Hl' Hj. apply lookup_insert_Some in H as [[<- <-]|[N H]].
    + rewrite lookup_insert_ne.
      2: { intros E%(f_equal length). rewrite !length_app in E. cbn in E. lia. }
      destruct (t !! ((π ++ [i]) ++ [j])) as [q'|] eqn:E.
      * exfalso. destruct (pr_closed _ _ _ Hr _ _ _ E) as [[? Hs] _]. congruence.
      * by rewrite add_slot_q.
    + destruct (decide (π' = π /\ j = i)) as [[-> ->]|Hne].
      * rewrite lookup_insert_eq. assert (p' = p) as -> by congruence. apply add_slot_self.
      * assert (π' <> π \/ j <> i) as Hne' by (destruct (decide (π' = π)); [right|left]; naive_solver).
        assert (π ++ [i] <> π' ++ [j]) by
          (intros [-> [=->]]%app_inj_2; [naive_solver|done]).
        rewrite lookup_insert_ne, (add_slot_old π' p' j) by done.
        by apply (pr_slot _ _ _ Hr).
Qed.

Lemma add_pte_of va : pte_of m2 t2 va = pte_of m t va.
Proof.
  unfold pte_of, leaf, t2. pose proof (PX_range 0 va ltac:(lia)) as H0.
  destruct (decide (π ++ [i] = [PX 2 va; PX 1 va])) as [E|E].
  - rewrite <- E, lookup_insert_eq, Hnew. cbn. by apply add_slot_q.
  - rewrite lookup_insert_ne by done. destruct (t !! [PX 2 va; PX 1 va]) as [p'|] eqn:Ep; [|done].
    cbn. eapply add_slot_old; [exact Ep|done|]. left. intros Eπ. rewrite <- Eπ in Hlen. cbn in Hlen. lia.
Qed.
End add.

Lemma vm_grow_refl l t m : vm_grow l t m l t m.
Proof. split; [done| |by intros ?]. exists []. split; [done|set_solver]. Qed.

Lemma vm_grow_trans l t m l1 t1 m1 l2 t2 m2 :
  vm_grow l t m l1 t1 m1 -> vm_grow l1 t1 m1 l2 t2 m2 -> vm_grow l t m l2 t2 m2.
Proof.
  intros [S1 (d1 & -> & O1) D1] [S2 (d2 & -> & O2) D2]. split.
  - by etrans.
  - exists (d1 ++ d2). rewrite assoc by apply _. split; [done|].
    intros p. rewrite O2, O1, elem_of_app. naive_solver.
  - intros p Hv Hnl Hnt a Ha. rewrite (D2 p); [by apply (D1 p)|done|set_solver| |done].
    intros [H|H]%O1; [done|set_solver].
Qed.

Lemma zeroed_slot m q j :
  0 <= j < 512 -> (forall a, q <= a < q + PGSIZE -> ld m a = 0) -> ld64 m (q + 8 * j) = 0.
Proof.
  intros Hj Hz. rewrite (ld64_ext ∅ m); [reflexivity|].
  intros b Hb. rewrite Hz by (unfold PGSIZE; lia). reflexivity.
Qed.

Lemma mret_bind {A B} (a : A) (f : A -> KM kmem B) n s : (mret a ≫= f) n s = f a n s.
Proof. reflexivity. Qed.

Lemma load64_bind {B} a (f : Z -> KM kmem B) n th k :
  (load64 a ≫= f) n (MkK th k) = f (ld64 (mem k) a) n (MkK th k).
Proof. reflexivity. Qed.

Lemma store64_bind {B} a v (f : () -> KM kmem B) n th k :
  (store64 a v ≫= f) n (MkK th k) = f tt n (MkK th (MkKmem (st64 (mem k) a v) (freelist k))).
Proof. reflexivity. Qed.

(** Clearing a page. *)
Lemma kmemset_zero n th k q l :
  valid_page q -> q ∉ l -> kmem_inv k l ->
  exists m1, kmemset q 0 PGSIZE n (MkK th k) = Ret tt (MkK th (MkKmem m1 (freelist k))) /\
    kmem_inv (MkKmem m1 (freelist k)) l /\ same_outside q (mem k) m1 /\
    forall a, q <= a < q + PGSIZE -> ld m1 a = 0.
Proof.
  intros Hq Hql Hf. exists (memset (mem k) q 0 PGSIZE).
  pose proof (valid_page_pte q Hq) as (_ & _ & Hq0). split_and!.
  - unfold kmemset. destruct (q =? 0) eqn:E0; [lia|reflexivity].
  - exact (kmem_inv_outside k _ l q Hq Hql (memset_same_outside _ _ _) Hf).
  - apply memset_same_outside.
  - intros a Ha. rewrite memset_ld by (unfold PGSIZE; lia).
    destruct (_ && _) eqn:E'; [done|lia].
Qed.

(** Storing in a page that is not free. *)
Lemma store64_inv k l p o v :
  valid_page p -> p ∉ l -> 0 <= o <= PGSIZE - 8 -> kmem_inv k l ->
  kmem_inv (MkKmem (st64 (mem k) (p + o) v) (freelist k)) l.
Proof.
  intros Hp Hl Ho Hf. exact (kmem_inv_outside k _ l p Hp Hl (st64_same_outside _ _ _ _ Ho) Hf).
Qed.

(** The allocation branch of [walk]: take a page, clear it, link it. *)
Lemma walk_alloc_page n th k q l t root π p i (K : Z -> KM kmem Z) :
  cpu_ok th -> lks th !! LkKmem = None -> vm_inv k (q :: l) t root ->
  t !! π = Some p -> (length π < 2)%nat -> 0 <= i < 512 -> idx_ok π i -> t !! (π ++ [i]) = None ->
  exists k',
    (pagetable ← kalloc;
     if pagetable =? 0 then mret 0 else
     kmemset pagetable 0 PGSIZE ;;
     store64 (p + 8 * i) (Z.lor (PA2PTE pagetable) PTE_V) ;;
     K pagetable) n (MkK th k) = K q n (MkK th k') /\
    vm_inv k' l (<[π ++ [i] := q]> t) root /\
    vm_grow (q :: l) t (mem k) l (<[π ++ [i] := q]> t) (mem k') /\
    forall va, pte_of (mem k') (<[π ++ [i] := q]> t) va = pte_of (mem k) t va.
Proof.
  intros Hc Hlk [Hf Hr Hs] Hp Hlen Hi Hix Hnew.
  destruct (kalloc_spec n th k (q :: l) Hc Hlk Hf) as (k1 & E & Hf1 & Ho & _).
  assert (valid_page q) as Hq by (destruct Hf as [_ _ ?%Forall_cons_1]; naive_solver).
  assert (~ pt_owns t q) as Hnq by (intros H; apply (Hs q H); set_solver).
  assert (q ∉ l) as Hql by (destruct Hf as [_ ?%NoDup_cons_1_1 _]; done).
  destruct (kmemset_zero n th k1 q l Hq Hql Hf1) as (m1 & Em & Hf2 & Ho1 & Hz).
  assert (forall j, 0 <= j < 512 -> ld64 m1 (q + 8 * j) = 0) as Hz8
    by (intros j Hj; by apply zeroed_slot).
  pose proof (same_outside_trans _ _ _ _ Ho Ho1) as Ho'.
  pose proof (valid_page_pte q Hq) as (_ & _ & Hq0).
  assert (valid_page p) as Hvp by apply (pr_valid _ _ _ Hr _ _ Hp).
  assert (0 <= 8 * i <= PGSIZE - 8) as Hi8 by (unfold PGSIZE; lia).
  assert (p ∉ l) as Hpl by (intros H; apply (Hs p); [by exists π|set_solver]).
  exists (MkKmem (st64 m1 (p + 8 * i) (Z.lor (PA2PTE q) PTE_V)) (freelist k1)).
  split_and!; [| |split|].
  - rewrite (bind_ret _ _ _ _ _ _ E). destruct (q =? 0) eqn:E0; [lia|].
    rewrite (bind_ret _ _ _ _ _ _ Em). reflexivity.
  - split; cbn [mem].
    + exact (store64_inv _ l p (8 * i) _ Hvp Hpl Hi8 Hf2).
    + by apply (add_rep (mem k)).
    + intros p' [π' [[<- <-]|[_ H]]%lookup_insert_Some]; [done|].
      intros H'. apply (Hs p'); [by exists π'|]. set_solver.
  - by apply insert_subseteq.
  - exists [q]. split; [done|]. intros p'. split.
    + intros [π' [[<- <-]|[_ H]]%lookup_insert_Some]; [set_solver|]. left. by exists π'.
    + intros [[π' H]| ->%list_elem_of_singleton]; [|exists (π ++ [i]); apply lookup_insert_eq].
      exists π'. rewrite lookup_insert_ne; [done|]. intros E'. congruence.
  - intros p' Hp' Hnl Hnt a Ha. cbn [mem own]. rewrite st64_ld, Ho'; [done| |].
    + pose proof (valid_page_disj p' q Hp' Hq ltac:(set_solver)). lia.
    + assert (p' <> p) as Hpp by (intros ->; apply Hnt; by exists π).
      pose proof (valid_page_disj p' p Hp' Hvp Hpp). lia.
  - intros va. cbn [mem own]. by apply (add_pte_of (mem k) m1 t root).
Qed.

(** The path to the table at [level] on the way to [va]. *)
Lemma path_snoc va level :
  (level < 2)%nat ->
  take (2 - level) [PX 2 va; PX 1 va] =
  take (2 - S level) [PX 2 va; PX 1 va] ++ [PX (Z.of_nat (S level)) va].
Proof. destruct level as [|[|]]; cbn; done || lia. Qed.

Section ops.
Context (n : nat) (th : T) (Hcpu : cpu_ok th) (Hlk : lks th !! LkKmem = None).

Lemma PX_top va : 0 <= va < MAXVA -> PX 2 va < 256.
Proof.
  unfold MAXVA. change (Z.shiftl 1 _) with (2 ^ 38). intros H. rewrite PX_eq by lia.
  change (12 + 9 * 2) with 30. rewrite Z.mod_small.
  - apply Z.div_lt_upper_bound; lia.
  - split; [apply Z.div_pos; lia|apply Z.div_lt_upper_bound; lia].
Qed.

Lemma idx_ok_512 π i : idx_ok π i -> 0 <= i < 512.
Proof. unfold idx_ok. destruct π; lia. Qed.

(** Every combination of indices is the path of an address. *)
Lemma va_of_path i2 i1 i0 :
  0 <= i2 < 256 -> 0 <= i1 < 512 -> 0 <= i0 < 512 ->
  exists va, 0 <= va < MAXVA /\ PX 2 va = i2 /\ PX 1 va = i1 /\ PX 0 va = i0.
Proof.
  intros H2 H1 H0. exists (i2 * 2 ^ 30 + i1 * 2 ^ 21 + i0 * 2 ^ 12).
  assert (forall q r d, 0 < d -> 0 <= r < d -> (q * d + r) / d = q) as Hdiv.
  { intros q r d Hd Hr. rewrite Z.div_add_l by lia. rewrite Z.div_small; lia. }
  split; [unfold MAXVA; change (Z.shiftl 1 _) with (2 ^ 38); lia|].
  rewrite !PX_eq by lia. change (12 + 9 * 2) with 30. change (12 + 9 * 1) with 21. change (12 + 9 * 0) with 12.
  split_and!.
  - replace (i2 * 2 ^ 30 + i1 * 2 ^ 21 + i0 * 2 ^ 12) with (i2 * 2 ^ 30 + (i1 * 2 ^ 21 + i0 * 2 ^ 12)) by lia.
    rewrite Hdiv by lia. apply Z.mod_small. lia.
  - replace (i2 * 2 ^ 30 + i1 * 2 ^ 21 + i0 * 2 ^ 12) with ((i1 + i2 * 512) * 2 ^ 21 + i0 * 2 ^ 12) by lia.
    rewrite Hdiv by lia. rewrite Z_mod_plus_full. apply Z.mod_small. lia.
  - replace (i2 * 2 ^ 30 + i1 * 2 ^ 21 + i0 * 2 ^ 12) with ((i0 + (i2 * 512 + i1) * 512) * 2 ^ 12 + 0) by lia.
    rewrite Hdiv by lia. rewrite Z_mod_plus_full. apply Z.mod_small. lia.
Qed.

Lemma path_idx va level : 0 <= va < MAXVA -> (level < 2)%nat ->
  idx_ok (take (2 - S level) [PX 2 va; PX 1 va]) (PX (Z.of_nat (S level)) va).
Proof.
  intros Hva Hl. pose proof (PX_range (Z.of_nat (S level)) va ltac:(lia)).
  unfold idx_ok. destruct level as [|[|]]; cbn [take Nat.sub]; [done| |lia].
  pose proof (PX_top va Hva). change (Z.of_nat 2) with 2 in *. lia.
Qed.

Lemma walk_loop_alloc va root level :
  0 <= va < MAXVA -> (level <= 2)%nat -> forall k l t p, vm_inv k l t root ->
  t !! take (2 - level) [PX 2 va; PX 1 va] = Some p ->
  exists r k' l' t', walk_loop level p va true n (MkK th k) = Ret r (MkK th k') /\
    vm_inv k' l' t' root /\ vm_grow l t (mem k) l' t' (mem k') /\ (length l <= length l' + level)%nat /\
    (forall v, pte_of (mem k') t' v = pte_of (mem k) t v) /\
    (r = 0 /\ l' = [] \/ leaf t' va = Some r).
Proof.
  intros Hva. induction level as [|level IH]; intros Hle k l t p Hi Hp.
  { exists (p + 8 * PX 0 va), k, l, t. split_and!; auto using vm_grow_refl; [lia|].
    right. unfold leaf. cbn in Hp. by rewrite Hp. }
  specialize (IH ltac:(lia)). rewrite (path_snoc va level) in IH by lia.
  set (π := take (2 - S level) _) in *. set (i := PX (Z.of_nat (S level)) va) in *.
  assert (0 <= i < 512) as Hir by (apply PX_range; lia).
  assert (idx_ok π i) as Hix by (apply path_idx; [done|lia]).
  assert (length π < 2)%nat as Hlen by (unfold π; rewrite length_take; cbn; lia).
  pose proof (pr_slot _ _ _ (vi_rep _ _ _ _ Hi) π p i Hp Hlen Hir) as Hslot.
  cbn [walk_loop]. rewrite load64_bind. fold i.
  destruct (t !! (π ++ [i])) as [q|] eqn:Eq.
  - rewrite Hslot, has_V_table, pte_table_pa by apply (pr_valid _ _ _ (vi_rep _ _ _ _ Hi) _ _ Eq).
    destruct (IH k l t q) as (r & k' & l' & t' & E & Hi' & Hg & Hlen' & Hpte & Hr); [done..|].
    exists r, k', l', t'. split_and!; try done. lia.
  - rewrite Hslot. cbn [negb]. destruct l as [|q l].
    + pose proof (kalloc_spec n th k [] Hcpu Hlk (vi_free _ _ _ _ Hi)) as E. cbn in E.
      rewrite (bind_ret _ _ _ _ _ _ E). exists 0, k, [], t. split_and!; auto using vm_grow_refl. cbn. lia.
    + destruct (walk_alloc_page n th k q l t root π p i (fun q => walk_loop level q va true))
        as (k1 & E & Hi1 & Hg1 & Hpte1); try done.
      rewrite E. clear E.
      destruct (IH k1 l _ q Hi1 ltac:(by rewrite lookup_insert_eq)) as (r & k' & l' & t' & E & Hi' & Hg & Hlen' & Hpte & Hr).
      exists r, k', l', t'. split_and!; try done; [by eapply vm_grow_trans|cbn; lia|].
      intros v. by rewrite Hpte, Hpte1.
Qed.

Lemma walk_alloc va k l t root :
  0 <= va < MAXVA -> vm_inv k l t root ->
  exists r k' l' t', walk root va true n (MkK th k) = Ret r (MkK th k') /\
    vm_inv k' l' t' root /\ vm_grow l t (mem k) l' t' (mem k') /\ (length l <= length l' + 2)%nat /\
    (forall v, pte_of (mem k') t' v = pte_of (mem k) t v) /\
    (r = 0 /\ l' = [] \/ leaf t' va = Some r).
Proof.
  intros Hva Hi. unfold walk. destruct (va >=? MAXVA) eqn:E; [lia|].
  apply walk_loop_alloc; [done|lia|done|]. cbn. apply (pr_root _ _ _ (vi_rep _ _ _ _ Hi)).
Qed.
End ops.

(** ** Leaf entries *)

Lemma va_page_eq v w :
  0 <= v < MAXVA -> 0 <= w < MAXVA ->
  PX 2 v = PX 2 w -> PX 1 v = PX 1 w -> PX 0 v = PX 0 w -> v / PGSIZE = w / PGSIZE.
Proof.
  unfold MAXVA. change (Z.shiftl 1 _) with (2 ^ 38). intros Hv Hw H2 H1 H0. unfold PGSIZE.
  pose proof (va_split v ltac:(lia)). pose proof (va_split w ltac:(lia)).
  pose proof (Z.div_mod v 4096). pose proof (Z.div_mod w 4096). lia.
Qed.

Lemma PX_page v w : v / PGSIZE = w / PGSIZE -> forall level, 0 <= level -> PX level v = PX level w.
Proof.
  unfold PGSIZE. intros H level Hl. rewrite !PX_eq by done.
  rewrite !Z.pow_add_r by lia. rewrite <- !Z.div_div by lia. change (2 ^ 12) with 4096. by rewrite H.
Qed.

Lemma leaf_page t v w : v / PGSIZE = w / PGSIZE -> leaf t v = leaf t w.
Proof. intros H. unfold leaf. by rewrite !(PX_page v w H) by lia. Qed.

Lemma pte_of_page m t v w : v / PGSIZE = w / PGSIZE -> pte_of m t v = pte_of m t w.
Proof. intros H. unfold pte_of. by rewrite (leaf_page t v w H). Qed.

(** Writing a leaf entry changes the translation of one page and nothing else. *)
Lemma store_leaf k l t root va x w :
  vm_inv k l t root -> 0 <= va < MAXVA -> leaf t va = Some x -> 0 <= w < 2 ^ 64 ->
  let k' := MkKmem (st64 (mem k) x w) (freelist k) in
  vm_inv k' l t root /\ data_same l t (mem k) (mem k') /\ x <> 0 /\
  forall v, 0 <= v < MAXVA ->
    pte_of (mem k') t v = if v / PGSIZE =? va / PGSIZE then w else pte_of (mem k) t v.
Proof.
  intros [Hf Hr Hs] Hva Hx Hw k'. unfold leaf in Hx.
  destruct (t !! _) as [p|] eqn:Ep; [|done]. cbn in Hx. injection Hx as <-.
  pose proof (PX_range 0 va ltac:(lia)) as H0.
  destruct (pr_valid _ _ _ Hr _ _ Ep) as [Hvp _].
  assert (0 <= 8 * PX 0 va <= PGSIZE - 8) as Ho by (unfold PGSIZE; lia).
  assert (p ∉ l) as Hpl by (apply Hs; by exists [PX 2 va; PX 1 va]).
  assert (forall π' p' j, t !! π' = Some p' -> 0 <= j < 512 ->
    (π' <> [PX 2 va; PX 1 va] \/ j <> PX 0 va) ->
    ld64 (mem k') (p' + 8 * j) = ld64 (mem k) (p' + 8 * j)) as Hold.
  { intros π' p' j Hp' Hj Hne. cbn [mem k']. apply ld64_st64_ne.
    apply slots_disjoint; try done; [apply (pr_valid _ _ _ Hr _ _ Hp')|].
    destruct (Z.eq_dec p' p) as [->|]; [|by left]. right.
    rewrite (pr_inj _ _ _ Hr _ _ _ Hp' Ep) in Hne. by destruct Hne. }
  split_and!.
  - split; [by apply store64_inv| |done]. destruct Hr as [R1 R2 R3 R4 R5]. split; try done.
    intros π' p' j Hp' Hl Hj. rewrite (Hold π' p' j); [by apply R5|done..|].
    left. intros ->. cbn in Hl. lia.
  - intros p' Hv Hnl Hnt a Ha. cbn [mem k']. apply st64_ld.
    assert (p' <> p) as Hne by (intros ->; apply Hnt; by eexists).
    pose proof (valid_page_disj p' p Hv Hvp Hne). lia.
  - pose proof (valid_page_pte p Hvp). lia.
  - intros v Hv. destruct (Z.eqb_spec (v / PGSIZE) (va / PGSIZE)) as [E|E].
    + rewrite (pte_of_page _ _ _ _ E). unfold pte_of, leaf. rewrite Ep. cbn. by apply ld64_st64_eq.
    + unfold pte_of, leaf. destruct (t !! [PX 2 v; PX 1 v]) as [p'|] eqn:E'; [|done].
      cbn [fmap option_fmap option_map]. apply (Hold [PX 2 v; PX 1 v]); [done|apply PX_range; lia|].
      destruct (decide (PX 0 v = PX 0 va)); [left|by right].
      intros [= ? ?]. apply E. by apply va_page_eq.
Qed.
End vmspec.
