(* ===== verification/AddrSpace.v ===== *)
(** * User address spaces

    The contract of vm.c towards the rest of the kernel: a page table is a
    finite map from page numbers to physical pages with permissions
    ([as_inv]), user memory is a byte function over it ([ubyte]), and every
    physical page is at every moment on the free list, a page-table page or
    a page of one address space.  The operations of vm.c are proved against
    this view. *)

From Stdlib Require Import ZArith Lia.
From S2P Require Import Prelude Riscv KString Thread Kalloc Vm VmSpec.

(** A mapped page: physical address, permission bits, and whether the page
    belongs to the address space (it was allocated for it and is freed with
    it; the trampoline and the trapframe are mapped but not owned). *)
Record upage := MkUp { up_pa : Z; up_perm : Z; up_own : bool }.

(** Permissions of a leaf: the flag bits, not [PTE_V] alone (which would be
    a pointer to the next level). *)
Definition perm_ok (perm : Z) : Prop := 0 <= perm < 1024 /\ Z.lor perm PTE_V <> PTE_V.

Definition own_in (pgs : gmap Z upage) (p : Z) : Prop :=
  exists vpn u, pgs !! vpn = Some u /\ up_own u = true /\ up_pa u = p.

Record as_inv {L : Layout} (k : kmem) (l : list Z) (t : gmap (list Z) Z) (root : Z)
    (pgs : gmap Z upage) : Prop := {
  as_vm : vm_inv k l t root;
  as_pte : forall v, 0 <= v < MAXVA ->
    match pgs !! (v / PGSIZE) with
    | Some u => pte_of (mem k) t v = mk_pte (up_pa u) (up_perm u)
    | None => has (pte_of (mem k) t v) PTE_V = false
    end;
  as_wf : forall vpn u, pgs !! vpn = Some u ->
    0 <= vpn < MAXVA / PGSIZE /\ 0 <= up_pa u < 2 ^ 56 /\ up_pa u mod 4096 = 0 /\
    perm_ok (up_perm u);
  as_own : forall p, own_in pgs p -> valid_page p /\ p ∉ l /\ ~ pt_owns t p;
  as_inj : forall v1 v2 u1 u2, pgs !! v1 = Some u1 -> pgs !! v2 = Some u2 ->
    up_own u1 = true -> up_own u2 = true -> up_pa u1 = up_pa u2 -> v1 = v2
}.

(** Pages a user program can access belong to the address space. *)
Definition user_owned (pgs : gmap Z upage) : Prop :=
  forall vpn u, pgs !! vpn = Some u -> has (up_perm u) PTE_U = true -> up_own u = true.

(** The byte a user program reads at [va]. *)
Definition ubyte (m : gmap Z Z) (pgs : gmap Z upage) (va : Z) : option Z :=
  match pgs !! (va / PGSIZE) with
  | Some u => if has (up_perm u) PTE_U then Some (ld m (up_pa u + va mod PGSIZE)) else None
  | None => None
  end.

(** A page that can be added as an owned page. *)
Definition fresh_page {L : Layout} (l : list Z) (t : gmap (list Z) Z) (pgs : gmap Z upage)
    (p : Z) : Prop :=
  valid_page p /\ p ∉ l /\ ~ pt_owns t p /\ ~ own_in pgs p.

(** Every page accounted for: free, page-table page or owned user page. *)
Definition accounted (l : list Z) (t : gmap (list Z) Z) (pgs : gmap Z upage) (p : Z) : Prop :=
  p ∈ l \/ pt_owns t p \/ own_in pgs p.

(** ** Flag facts *)

Lemma has_V_bit v : has v PTE_V = Z.testbit v 0.
Proof. by apply has_testbit. Qed.
Lemma has_U_bit v : has v PTE_U = Z.testbit v 4.
Proof. by apply has_testbit. Qed.

Lemma mk_pte_V pa perm : has (mk_pte pa perm) PTE_V = true.
Proof. rewrite has_V_bit. unfold mk_pte. rewrite Z.lor_spec. apply orb_true_r. Qed.

Lemma mk_pte_U pa perm : has (mk_pte pa perm) PTE_U = has perm PTE_U.
Proof.
  rewrite !has_U_bit. unfold mk_pte. rewrite !Z.lor_spec, PA2PTE_low by lia.
  by rewrite orb_false_r.
Qed.

Section addrspace.
Context {L : Layout} {LO : LayoutOk L}.

Lemma as_frame k l t root pgs k' l' t' :
  as_inv k l t root pgs -> vm_inv k' l' t' root -> vm_grow l t (mem k) l' t' (mem k') ->
  (forall v, 0 <= v < MAXVA -> pte_of (mem k') t' v = pte_of (mem k) t v) ->
  as_inv k' l' t' root pgs.
Proof.
  intros [A1 A2 A3 A4 A5] Hvm [_ (d & -> & Ho) _] Hpte. split; try done.
  - intros v Hv. rewrite Hpte by done. by apply A2.
  - intros p Hp. destruct (A4 p Hp) as (? & ? & ?). split_and!; [done|set_solver|].
    rewrite Ho. set_solver.
Qed.

Lemma fresh_frame l t m pgs l' t' m' p :
  vm_grow l t m l' t' m' -> fresh_page l t pgs p -> fresh_page l' t' pgs p.
Proof.
  intros [_ (d & -> & Ho) _] (? & ? & ? & ?). split_and!; [done|set_solver| |done].
  rewrite Ho. set_solver.
Qed.

Lemma accounted_grow l t m pgs l' t' m' p :
  vm_grow l t m l' t' m' -> accounted l' t' pgs p <-> accounted l t pgs p.
Proof.
  intros [_ (d & -> & Ho) _]. unfold accounted. rewrite Ho, elem_of_app. naive_solver.
Qed.

Lemma own_in_insert pgs vpn u p :
  pgs !! vpn = None -> own_in (<[vpn := u]> pgs) p <-> (up_own u = true /\ up_pa u = p) \/ own_in pgs p.
Proof.
  intros Hn. split.
  - intros (v & u' & [[<- <-]|[_ H]]%lookup_insert_Some & H1 & H2); [by left|right; by exists v, u'].
  - intros [[H1 H2]|(v & u' & H & H1 & H2)]; [exists vpn, u; by rewrite lookup_insert_eq|].
    exists v, u'. rewrite lookup_insert_ne; [done|congruence].
Qed.

Lemma own_in_delete pgs vpn u p :
  pgs !! vpn = Some u ->
  own_in pgs p <-> (up_own u = true /\ up_pa u = p) \/ own_in (delete vpn pgs) p.
Proof.
  intros Hu. rewrite <- (own_in_insert (delete vpn pgs) vpn u p) by apply lookup_delete_eq.
  by rewrite insert_delete_id.
Qed.

(** Adding a mapping. *)
Lemma as_insert k l t root pgs a u x :
  as_inv k l t root pgs -> 0 <= a < MAXVA -> pgs !! (a / PGSIZE) = None ->
  0 <= up_pa u < 2 ^ 56 -> up_pa u mod 4096 = 0 -> perm_ok (up_perm u) ->
  (up_own u = true -> fresh_page l t pgs (up_pa u)) ->
  leaf t a = Some x ->
  let k' := MkKmem (st64 (mem k) x (mk_pte (up_pa u) (up_perm u))) (freelist k) in
  as_inv k' l t root (<[a / PGSIZE := u]> pgs) /\ data_same l t (mem k) (mem k') /\ x <> 0.
Proof.
  intros [A1 A2 A3 A4 A5] Ha Hn H1 H2 H3 H5 Hx k'.
  pose proof (mk_pte_range (up_pa u) (up_perm u) H1 (proj1 H3)) as Hw.
  destruct (store_leaf k l t root a x (mk_pte (up_pa u) (up_perm u)) A1 Ha Hx ltac:(lia))
    as (B1 & B2 & B3 & B4). fold k' in B1, B2, B4.
  split; [|done]. split; [done|..].
  - intros v Hv. rewrite B4 by done. destruct (Z.eqb_spec (v / PGSIZE) (a / PGSIZE)) as [->|E].
    + by rewrite lookup_insert_eq.
    + rewrite lookup_insert_ne by done. by apply A2.
  - intros vpn u' [[<- <-]|[_ H]]%lookup_insert_Some; [|by eapply A3]. split_and!; try done; try lia.
    + apply Z.div_pos; [lia|done].
    + apply Z.div_lt_upper_bound; [done|]. rewrite <- Z_div_exact_2 by done. lia.
  - intros p [[Ho <-]|H]%own_in_insert; [destruct (H5 Ho) as (? & ? & ? & ?)|apply A4|]; done.
  - intros v1 v2 u1 u2 [[<- <-]|[_ E1]]%lookup_insert_Some [[<- <-]|[_ E2]]%lookup_insert_Some O1 O2 E; try done.
    + exfalso. apply (H5 O1). by exists v2, u2.
    + exfalso. apply (H5 O2). by exists v1, u1.
    + by eapply A5.
Qed.

(** Removing a mapping. *)
Lemma as_delete k l t root pgs a u x :
  as_inv k l t root pgs -> 0 <= a < MAXVA -> pgs !! (a / PGSIZE) = Some u -> leaf t a = Some x ->
  let k' := MkKmem (st64 (mem k) x 0) (freelist k) in
  as_inv k' l t root (delete (a / PGSIZE) pgs) /\ data_same l t (mem k) (mem k').
Proof.
  intros [A1 A2 A3 A4 A5] Ha Hu Hx k'.
  destruct (store_leaf k l t root a x 0 A1 Ha Hx ltac:(lia)) as (B1 & B2 & B3 & B4).
  fold k' in B1, B2, B4. split; [|done]. split; [done|..].
  - intros v Hv. rewrite B4 by done. destruct (Z.eqb_spec (v / PGSIZE) (a / PGSIZE)) as [->|E].
    + by rewrite lookup_delete_eq.
    + rewrite lookup_delete_ne by done. by apply A2.
  - intros vpn u' [_ H]%lookup_delete_Some. by eapply A3.
  - intros p H. apply A4. rewrite (own_in_delete _ _ _ _ Hu). by right.
  - intros v1 v2 u1 u2 [_ E1]%lookup_delete_Some [_ E2]%lookup_delete_Some. by eapply A5.
Qed.

Lemma as_leaf k l t root pgs a u :
  as_inv k l t root pgs -> 0 <= a < MAXVA -> pgs !! (a / PGSIZE) = Some u ->
  exists x, leaf t a = Some x /\ x <> 0 /\ ld64 (mem k) x = mk_pte (up_pa u) (up_perm u).
Proof.
  intros A Ha Hu. pose proof (as_pte _ _ _ _ _ A a Ha) as Hp. rewrite Hu in Hp.
  unfold pte_of in Hp. destruct (leaf t a) as [x|] eqn:E.
  - exists x. split_and!; [done| |done]. unfold leaf in E.
    destruct (t !! _) as [p|] eqn:Ep; [|done]. cbn in E. injection E as <-.
    destruct (pr_valid _ _ _ (vi_rep _ _ _ _ (as_vm _ _ _ _ _ A)) _ _ Ep) as [(?&?&?)%valid_page_pte _].
    pose proof (PX_range 0 a). lia.
  - pose proof (mk_pte_V (up_pa u) (up_perm u)) as HV. rewrite <- Hp in HV. done.
Qed.

(** Changing one page that is not a page-table page, and possibly putting it
    on or taking it off the free list. *)
Lemma vm_outside k l t root k' l' p :
  vm_inv k l t root -> kmem_inv k' l' -> same_outside p (mem k) (mem k') -> valid_page p ->
  ~ pt_owns t p -> (forall q, q ∈ l' -> q ∈ l \/ q = p) ->
  vm_inv k' l' t root /\ forall v, pte_of (mem k') t v = pte_of (mem k) t v.
Proof.
  intros [V1 V2 V3] Hk Hs Hp Hn Hl.
  assert (forall π q i, t !! π = Some q -> 0 <= i < 512 ->
    ld64 (mem k') (q + 8 * i) = ld64 (mem k) (q + 8 * i)) as Hold.
  { intros π q i Hq Hi. apply (same_outside_ld64 p); [done|].
    assert (q <> p) as Hne by (intros ->; apply Hn; by exists π).
    pose proof (valid_page_disj q p (proj1 (pr_valid _ _ _ V2 _ _ Hq)) Hp Hne).
    pose proof (slot_in_page q i Hi). lia. }
  split; [split; [done| |]|].
  - destruct V2 as [R1 R2 R3 R4 R5]. split; try done.
    intros π q i Hq Hlen Hi. rewrite (Hold π) by done. by apply R5.
  - intros q Hq [H| ->]%Hl; [by apply (V3 q)|done].
  - intros v. unfold pte_of, leaf. destruct (t !! _) as [q|] eqn:E; [|done]. cbn.
    eapply Hold; [done|]. apply PX_range. lia.
Qed.

Lemma as_outside k l t root pgs k' l' p :
  as_inv k l t root pgs -> kmem_inv k' l' -> same_outside p (mem k) (mem k') -> valid_page p ->
  ~ pt_owns t p -> (forall q, q ∈ l' -> q ∈ l \/ q = p) -> (own_in pgs p -> p ∉ l') ->
  as_inv k' l' t root pgs.
Proof.
  intros [A1 A2 A3 A4 A5] Hk Hs Hp Hn Hl Ho.
  destruct (vm_outside k l t root k' l' p) as [B1 B2]; try done. split; try done.
  - intros v Hv. rewrite B2. by apply A2.
  - intros q Hq. destruct (A4 q Hq) as (? & H & ?). split_and!; try done.
    intros Hin. destruct (Hl q Hin) as [| ->]; [done|by apply Ho].
Qed.

Section ops.
Context (n : nat) (th : T) (Hcpu : cpu_ok th) (Hlk : lks th !! LkKmem = None).

Lemma kfree_as k l t root pgs p :
  as_inv k l t root pgs -> fresh_page l t pgs p ->
  exists k', kfree p n (MkK th k) = Ret tt (MkK th k') /\
    as_inv k' (p :: l) t root pgs /\ same_outside p (mem k) (mem k').
Proof.
  intros A (Hv & Hl & Ht & Ho).
  destruct (kfree_spec n th k l p Hcpu Hlk (vi_free _ _ _ _ (as_vm _ _ _ _ _ A)) Hv Hl) as (k' & E & Hk & Hs).
  exists k'. split_and!; [done| |done]. eapply as_outside; try done.
  intros q [->|?]%elem_of_cons; auto.
Qed.

Lemma kalloc_as k q l t root pgs :
  as_inv k (q :: l) t root pgs ->
  exists k', kalloc n (MkK th k) = Ret q (MkK th k') /\
    as_inv k' l t root pgs /\ same_outside q (mem k) (mem k') /\ fresh_page l t pgs q /\ q <> 0.
Proof.
  intros A. pose proof (as_vm _ _ _ _ _ A) as V. pose proof (vi_free _ _ _ _ V) as F.
  destruct (kalloc_spec n th k (q :: l) Hcpu Hlk F) as (k' & E & Hk & Hs & _).
  assert (valid_page q) as Hq by (destruct F as [_ _ ?%Forall_cons_1]; naive_solver).
  assert (q ∉ l) as Hql by (destruct F as [_ ?%NoDup_cons_1_1 _]; done).
  assert (~ pt_owns t q) as Ht by (intros H; apply (vi_sep _ _ _ _ V q H); set_solver).
  assert (~ own_in pgs q) as Ho by (intros H; destruct (as_own _ _ _ _ _ A q H) as (_ & ? & _); set_solver).
  exists k'. split_and!; try done; [|by apply valid_page_pte].
  eapply as_outside; try done.
  intros q' ?. left. by apply elem_of_cons; right.
Qed.

Lemma kalloc_empty k t root pgs :
  as_inv k [] t root pgs -> kalloc n (MkK th k) = Ret 0 (MkK th k).
Proof. intros A. exact (kalloc_spec n th k [] Hcpu Hlk (vi_free _ _ _ _ (as_vm _ _ _ _ _ A))). Qed.

(** ** walkaddr *)

Definition uaddr (pgs : gmap Z upage) (va : Z) : Z :=
  match pgs !! (va / PGSIZE) with
  | Some u => if has (up_perm u) PTE_U then up_pa u else 0
  | None => 0
  end.

Lemma walkaddr_as k l t root pgs va :
  as_inv k l t root pgs -> 0 <= va ->
  walkaddr root va n (MkK th k) = Ret (uaddr pgs va) (MkK th k).
Proof.
  intros A Hva. unfold walkaddr, uaddr. destruct (va >=? MAXVA) eqn:E.
  { destruct (pgs !! _) as [u|] eqn:Eu; [|done]. exfalso.
    destruct (as_wf _ _ _ _ _ A _ _ Eu) as (H & _).
    assert (MAXVA / PGSIZE <= va / PGSIZE) by (apply Z.div_le_mono; [done|lia]). lia. }
  assert (0 <= va < MAXVA) as Hr by lia.
  rewrite (bind_ret _ _ _ _ _ _ (walk_find n th k t root va (vi_rep _ _ _ _ (as_vm _ _ _ _ _ A)) Hr)).
  pose proof (as_pte _ _ _ _ _ A va Hr) as Hp.
  destruct (pgs !! _) as [u|] eqn:Eu.
  - destruct (as_leaf k l t root pgs va u A Hr Eu) as (x & Ex & Hx0 & Hx).
    destruct (as_wf _ _ _ _ _ A _ _ Eu) as (_ & W1 & W2 & W3 & _).
    rewrite Ex. change (default 0 (Some x)) with x. destruct (Z.eqb_spec x 0); [lia|].
    rewrite load64_bind, Hx, mk_pte_V, mk_pte_U. cbn [negb].
    destruct (has (up_perm u) PTE_U); cbn [negb]; [|done]. by rewrite mk_pte_PA.
  - unfold pte_of in Hp. destruct (leaf t va) as [x|]; [|done].
    change (default 0 (Some x)) with x. destruct (x =? 0); [done|]. by rewrite load64_bind, Hp.
Qed.

(** ** mappages *)

(** One iteration of the loop. *)
Lemma mappages_step k l t root pgs perm last a pa own :
  as_inv k l t root pgs -> 0 <= a < MAXVA -> pgs !! (a / PGSIZE) = None ->
  0 <= pa < 2 ^ 56 -> pa mod 4096 = 0 -> perm_ok perm ->
  (own = true -> fresh_page l t pgs pa) ->
  exists k' l' t', vm_grow l t (mem k) l' t' (mem k') /\ (length l <= length l' + 2)%nat /\
    ((l' = [] /\ as_inv k' l' t' root pgs /\
      mappages_body root perm last (a, pa) n (MkK th k) = Ret (inr (-1)) (MkK th k')) \/
     (as_inv k' l' t' root (<[a / PGSIZE := MkUp pa perm own]> pgs) /\
      mappages_body root perm last (a, pa) n (MkK th k) =
        Ret (if a =? last then inr 0 else inl (u64 (a + PGSIZE), u64 (pa + PGSIZE))) (MkK th k'))).
Proof.
  intros A Ha Hn Hpa Hal Hperm Hf.
  destruct (walk_alloc n th Hcpu Hlk a k l t root Ha (as_vm _ _ _ _ _ A))
    as (r & k1 & l1 & t1 & E & Hv1 & Hg1 & Hlen & Hpte & Hr).
  assert (as_inv k1 l1 t1 root pgs) as A1 by (eapply as_frame; eauto).
  unfold mappages_body. rewrite (bind_ret _ _ _ _ _ _ E).
  destruct Hr as [[-> ->]|Hx].
  { exists k1, [], t1. do 2 (split; [done|]). left. done. }
  destruct (as_insert k1 l1 t1 root pgs a (MkUp pa perm own) r A1) as (A2 & D2 & Hr0); try done.
  { intros Ho. cbn. eapply fresh_frame; eauto. }
  destruct (Z.eqb_spec r 0); [done|]. rewrite load64_bind.
  pose proof (as_pte _ _ _ _ _ A1 a Ha) as Hp. rewrite Hn in Hp. unfold pte_of in Hp.
  rewrite Hx in Hp. rewrite Hp, store64_bind.
  eexists (MkKmem _ _), l1, t1. split; [|split; [done|right; split; [exact A2|]]].
  - destruct Hg1 as [G1 (d & -> & G2) G3]. split; [done|by exists d|].
    intros p Hp1 Hp2 Hp3 b Hb. etrans; [|by apply (G3 p)]. apply (D2 p); try done; [set_solver|].
    rewrite G2. set_solver.
  - by destruct (a =? last).
Qed.
End ops.
End addrspace.
