(* ===== verification/UvmSpec.v ===== *)
(** * The operations on user address spaces

    Specifications, against the view of [AddrSpace], of [mappages],
    [uvmunmap], [uvmdealloc], [uvmalloc], [uvmcopy], [copyout], [copyin],
    [copyinstr], [freewalk] and [uvmfree]. *)

From Stdlib Require Import ZArith Lia.
From S2P Require Import Prelude Riscv KString Thread Kalloc Vm VmSpec AddrSpace.

(** Number of pages below [MAXVA]. *)
Definition NPG : Z := 2 ^ 26.

(** [N] consecutive pages from [vpn], mapped to consecutive frames. *)
Fixpoint map_range (N : nat) (vpn pa perm : Z) (pgs : gmap Z upage) : gmap Z upage :=
  match N with
  | O => pgs
  | S N' => map_range N' (vpn + 1) (pa + PGSIZE) perm (<[vpn := MkUp pa perm false]> pgs)
  end.

Fixpoint unmap_range (N : nat) (vpn : Z) (pgs : gmap Z upage) : gmap Z upage :=
  match N with
  | O => pgs
  | S N' => unmap_range N' (vpn + 1) (delete vpn pgs)
  end.

Definition page_same (p : Z) (m m' : gmap Z Z) : Prop :=
  forall a, p <= a < p + PGSIZE -> ld m' a = ld m a.

Lemma MAXVA_NPG : MAXVA = NPG * PGSIZE.
Proof. reflexivity. Qed.

Lemma vpn_va vpn : 0 <= vpn < NPG -> 0 <= vpn * PGSIZE < MAXVA /\ vpn * PGSIZE / PGSIZE = vpn.
Proof. rewrite MAXVA_NPG, Z.div_mul by done. unfold PGSIZE. lia. Qed.

Lemma vpn_next vpn : 0 <= vpn < NPG -> u64 (vpn * PGSIZE + PGSIZE) = (vpn + 1) * PGSIZE.
Proof. unfold PGSIZE, NPG. intros H. rewrite u64_small; lia. Qed.

Lemma map_range_lookup N : forall vpn pa perm pgs v,
  map_range N vpn pa perm pgs !! v =
  if (vpn <=? v) && (v <? vpn + Z.of_nat N) then Some (MkUp (pa + (v - vpn) * PGSIZE) perm false)
  else pgs !! v.
Proof.
  induction N as [|N IH]; intros vpn pa perm pgs v; cbn [map_range].
  - destruct (_ && _) eqn:E; [lia|done].
  - rewrite IH. destruct (decide (v = vpn)) as [->|Hne].
    + rewrite lookup_insert_eq. destruct (_ && _) eqn:E1; [lia|].
      destruct ((vpn <=? vpn) && _) eqn:E2; [|lia]. do 2 f_equal. lia.
    + rewrite lookup_insert_ne by done.
      destruct (_ && _) eqn:E1, ((vpn <=? v) && _) eqn:E2; try lia; [|done]. do 2 f_equal. lia.
Qed.

Lemma unmap_range_lookup N : forall vpn pgs v,
  unmap_range N vpn pgs !! v = if (vpn <=? v) && (v <? vpn + Z.of_nat N) then None else pgs !! v.
Proof.
  induction N as [|N IH]; intros vpn pgs v; cbn [unmap_range].
  - destruct (_ && _) eqn:E; [lia|done].
  - rewrite IH. destruct (decide (v = vpn)) as [->|Hne].
    + rewrite lookup_delete_eq. destruct (_ && _) eqn:E1; [lia|].
      destruct ((vpn <=? vpn) && _) eqn:E2; [done|lia].
    + rewrite lookup_delete_ne by done.
      destruct (_ && _) eqn:E1, ((vpn <=? v) && _) eqn:E2; try lia; done.
Qed.

Section uvm.
Context {L : Layout} {LO : LayoutOk L}.
Context (n : nat) (th : T) (Hcpu : cpu_ok th) (Hlk : lks th !! LkKmem = None).

(** ** mappages *)

Lemma mappages_loop root perm N : forall fuel k l t pgs vpn pa,
  as_inv k l t root pgs -> 0 <= vpn -> vpn + Z.of_nat N < NPG ->
  (forall v, vpn <= v <= vpn + Z.of_nat N -> pgs !! v = None) ->
  0 <= pa -> pa + (Z.of_nat N + 1) * PGSIZE <= 2 ^ 56 -> pa mod 4096 = 0 -> perm_ok perm ->
  (N < fuel)%nat ->
  exists r k' l' t' N',
    mwhile fuel (mappages_body root perm ((vpn + Z.of_nat N) * PGSIZE)) (vpn * PGSIZE, pa) n (MkK th k) =
      Ret r (MkK th k') /\ vm_grow l t (mem k) l' t' (mem k') /\
    as_inv k' l' t' root (map_range N' vpn pa perm pgs) /\
    (r = 0 /\ N' = S N \/ r = -1 /\ l' = [] /\ (N' <= N)%nat).
Proof.
  induction N as [|N IH]; intros fuel k l t pgs vpn pa A Hv0 Hv1 Hn Hpa0 Hpa1 Hal Hperm Hf;
    (destruct fuel as [|fuel]; [lia|]); destruct (vpn_va vpn ltac:(lia)) as [Hva Hdiv].
  - destruct (mappages_step n th Hcpu Hlk k l t root pgs perm ((vpn + Z.of_nat 0) * PGSIZE)
      (vpn * PGSIZE) pa false A Hva) as (k1 & l1 & t1 & G1 & Hlen & [(-> & A1 & E)|(A1 & E)]); try done.
    { rewrite Hdiv. apply Hn. lia. } { unfold PGSIZE in *. lia. }
    + exists (-1), k1, [], t1, 0%nat. split_and!; [by apply mwhile_inr|done..|right; done].
    + rewrite Hdiv in A1. destruct (_ =? _) eqn:E'; [|unfold PGSIZE in *; lia].
      exists 0, k1, l1, t1, 1%nat. split_and!; [by apply mwhile_inr|done..|left; done].
  - destruct (mappages_step n th Hcpu Hlk k l t root pgs perm ((vpn + Z.of_nat (S N)) * PGSIZE)
      (vpn * PGSIZE) pa false A Hva) as (k1 & l1 & t1 & G1 & Hlen & [(-> & A1 & E)|(A1 & E)]); try done.
    { rewrite Hdiv. apply Hn. lia. } { unfold PGSIZE in *. lia. }
    { exists (-1), k1, [], t1, 0%nat. split_and!; [by apply mwhile_inr|done..|right]. auto with lia. }
    rewrite Hdiv in A1. destruct (_ =? _) eqn:E'; [unfold PGSIZE in *; lia|].
    rewrite vpn_next in E by lia. rewrite (u64_small (pa + PGSIZE)) in E by (unfold PGSIZE in *; lia).
    rewrite (mwhile_inl _ _ _ _ _ _ _ E).
    replace (vpn + Z.of_nat (S N)) with (vpn + 1 + Z.of_nat N) by lia.
    destruct (IH fuel k1 l1 t1 _ (vpn + 1) (pa + PGSIZE) A1)
      as (r & k' & l' & t' & N' & E2 & G2 & A2 & Hr); try done; try (unfold PGSIZE in *; lia).
    { intros v Hv. rewrite lookup_insert_ne by lia. apply Hn. lia. }
    exists r, k', l', t', (S N'). split_and!; [done|by eapply vm_grow_trans|done|].
    destruct Hr as [[-> ->]|(-> & -> & ?)]; [by left|right]. auto with lia.
Qed.

(** Mapping a page-aligned range: the range is added, nothing else changes;
    when memory for page tables runs out a prefix has been mapped. *)
Lemma mappages_spec k l t root pgs vpn N pa perm :
  as_inv k l t root pgs -> 0 <= vpn -> vpn + Z.of_nat N < NPG ->
  (forall v, vpn <= v <= vpn + Z.of_nat N -> pgs !! v = None) ->
  0 <= pa -> pa + (Z.of_nat N + 1) * PGSIZE <= 2 ^ 56 -> pa mod 4096 = 0 -> perm_ok perm ->
  (N < n)%nat ->
  exists r k' l' t' N',
    mappages root (vpn * PGSIZE) ((Z.of_nat N + 1) * PGSIZE) pa perm n (MkK th k) = Ret r (MkK th k') /\
    vm_grow l t (mem k) l' t' (mem k') /\
    as_inv k' l' t' root (map_range N' vpn pa perm pgs) /\
    (r = 0 /\ N' = S N \/ r = -1 /\ l' = [] /\ (N' <= N)%nat).
Proof.
  intros A Hv0 Hv1 Hn Hpa0 Hpa1 Hal Hperm Hf. unfold mappages, mloop.
  destruct (_ =? 0) eqn:E; [unfold PGSIZE in *; lia|].
  rewrite !PGROUNDDOWN_eq, u64_small by (unfold PGSIZE, NPG in *; lia).
  replace (vpn * PGSIZE - _) with (vpn * PGSIZE) by (unfold PGSIZE; rewrite Z.mod_mul; lia).
  replace (_ - _ mod 4096) with ((vpn + Z.of_nat N) * PGSIZE).
  2: { unfold PGSIZE. replace (vpn * 4096 + (Z.of_nat N + 1) * 4096 - 1) with
         (4095 + (vpn + Z.of_nat N) * 4096) by lia.
       rewrite Z_mod_plus_full, Z.mod_small; lia. }
  by apply mappages_loop.
Qed.

(** One page, possibly owned by the address space. *)
Lemma mappages_page k l t root pgs vpn pa perm own :
  as_inv k l t root pgs -> 0 <= vpn < NPG -> pgs !! vpn = None ->
  0 <= pa < 2 ^ 56 -> pa mod 4096 = 0 -> perm_ok perm ->
  (own = true -> fresh_page l t pgs pa) -> n <> 0%nat ->
  exists r k' l' t',
    mappages root (vpn * PGSIZE) PGSIZE pa perm n (MkK th k) = Ret r (MkK th k') /\
    vm_grow l t (mem k) l' t' (mem k') /\ (length l <= length l' + 2)%nat /\
    (r = 0 /\ as_inv k' l' t' root (<[vpn := MkUp pa perm own]> pgs) \/
     r = -1 /\ l' = [] /\ as_inv k' l' t' root pgs).
Proof.
  intros A Hv Hn Hpa Hal Hperm Hf Hn0. destruct (vpn_va vpn Hv) as [Hva Hdiv].
  assert (PGROUNDDOWN (vpn * PGSIZE) = vpn * PGSIZE) as E1
    by (rewrite PGROUNDDOWN_eq; unfold PGSIZE; rewrite Z.mod_mul; lia).
  assert (PGROUNDDOWN (u64 (vpn * PGSIZE + PGSIZE - 1)) = vpn * PGSIZE) as E2.
  { rewrite u64_small by (unfold PGSIZE, NPG in *; lia). rewrite PGROUNDDOWN_eq. unfold PGSIZE.
    replace (vpn * 4096 + 4096 - 1) with (4095 + vpn * 4096) by lia.
    rewrite Z_mod_plus_full, Z.mod_small; lia. }
  unfold mappages. change (PGSIZE =? 0) with false. cbv iota beta zeta. rewrite E1, E2.
  destruct (mappages_step n th Hcpu Hlk k l t root pgs perm (vpn * PGSIZE)
    (vpn * PGSIZE) pa own A Hva) as (k1 & l1 & t1 & G1 & Hlen & [(-> & A1 & E)|(A1 & E)]); try done.
  { by rewrite Hdiv. }
  - exists (-1), k1, [], t1. split_and!; [by apply mloop_inr|done|done|by right].
  - rewrite Z.eqb_refl in E. rewrite Hdiv in A1.
    exists 0, k1, l1, t1. split_and!; [by apply mloop_inr|done|done|by left].
Qed.

(** ** uvmunmap *)

Lemma as_disown k l t root pgs vpn u :
  as_inv k l t root pgs -> pgs !! vpn = Some u -> up_own u = true ->
  let pgs' := <[vpn := MkUp (up_pa u) (up_perm u) false]> pgs in
  as_inv k l t root pgs' /\ fresh_page l t pgs' (up_pa u).
Proof.
  intros A Hu Ho pgs'.
  assert (forall p, own_in pgs' p -> own_in pgs p /\ p <> up_pa u) as Hown.
  { intros p (v & u' & [[<- <-]|[Hne H]]%lookup_insert_Some & H1 & H2); [done|].
    split; [by exists v, u'|]. intros ->. apply Hne. by eapply (as_inj _ _ _ _ _ A). }
  destruct A as [A1 A2 A3 A4 A5]. split.
  - split; [done|..].
    + intros v Hv. specialize (A2 v Hv). unfold pgs'.
      destruct (decide (v / PGSIZE = vpn)) as [E|E].
      * rewrite E, lookup_insert_eq. by rewrite E, Hu in A2.
      * by rewrite lookup_insert_ne.
    + intros v u' [[<- <-]|[_ H]]%lookup_insert_Some; [by apply (A3 vpn u)|by eapply A3].
    + intros p [H _]%Hown. by apply A4.
    + intros v1 v2 u1 u2 [[<- <-]|[_ E1]]%lookup_insert_Some [[<- <-]|[_ E2]]%lookup_insert_Some;
        try done. by eapply A5.
  - destruct (A4 (up_pa u)) as (? & ? & ?); [by exists vpn, u|].
    split_and!; try done. intros [_ Hc]%Hown. done.
Qed.

(** One iteration of the loop. *)
Lemma uvmunmap_step k l t root pgs vpn last (do_free : bool) u :
  as_inv k l t root pgs -> 0 <= vpn < NPG -> pgs !! vpn = Some u -> up_own u = do_free ->
  vpn * PGSIZE < last ->
  exists k', uvmunmap_body root last do_free (vpn * PGSIZE) n (MkK th k) =
      Ret (inl ((vpn + 1) * PGSIZE)) (MkK th k') /\
    as_inv k' (if do_free then up_pa u :: l else l) t root (delete vpn pgs) /\
    forall p, valid_page p -> p ∉ l -> ~ pt_owns t p -> (do_free = true -> p <> up_pa u) ->
      page_same p (mem k) (mem k').
Proof.
  intros A Hv Hu Ho Hlast. destruct (vpn_va vpn Hv) as [Hva Hdiv].
  destruct (as_leaf k l t root pgs (vpn * PGSIZE) u A Hva ltac:(by rewrite Hdiv)) as (x & Hx & Hx0 & Ex).
  destruct (as_wf _ _ _ _ _ A _ _ Hu) as (_ & W1 & W2 & W3 & W4).
  unfold uvmunmap_body. destruct (_ <? last) eqn:E; [|lia]. cbn [negb].
  rewrite (bind_ret _ _ _ _ _ _ (walk_find n th k t root _ (vi_rep _ _ _ _ (as_vm _ _ _ _ _ A)) Hva)), Hx.
  change (default 0 (Some x)) with x. destruct (Z.eqb_spec x 0); [done|].
  rewrite load64_bind, Ex, mk_pte_V, mk_pte_FLAGS, mk_pte_PA by done. cbn [negb].
  destruct (Z.eqb_spec (Z.lor (up_perm u) PTE_V) PTE_V); [done|].
  rewrite vpn_next by done. destruct do_free; cbn [mwhen].
  - destruct (as_disown k l t root pgs vpn u A Hu Ho) as [A1 F1].
    destruct (kfree_as n th Hcpu Hlk _ _ _ _ _ _ A1 F1) as (k1 & E1 & A2 & S1).
    rewrite (bind_ret _ _ _ _ _ _ E1), store64_bind.
    destruct (as_delete k1 _ t root _ (vpn * PGSIZE) (MkUp (up_pa u) (up_perm u) false) x A2 Hva)
      as [A3 D3]; [by rewrite Hdiv, lookup_insert_eq|done|].
    rewrite Hdiv, delete_insert_eq in A3. eexists. split_and!; [reflexivity|exact A3|].
    intros p P1 P2 P3 P4 a Ha. specialize (P4 eq_refl).
    etrans; [apply (D3 p); try done; set_solver|]. apply S1.
    destruct (valid_page_disj p (up_pa u) P1 (proj1 F1) P4); lia.
  - rewrite mret_bind, store64_bind.
    destruct (as_delete k l t root pgs (vpn * PGSIZE) u x A Hva) as [A3 D3]; [by rewrite Hdiv|done|].
    rewrite Hdiv in A3. eexists. split_and!; [reflexivity|exact A3|].
    intros p P1 P2 P3 P4. exact (D3 p P1 P2 P3).
Qed.

Lemma accounted_unmap l t pgs vpn u (do_free : bool) p :
  pgs !! vpn = Some u -> up_own u = do_free ->
  accounted (if do_free then up_pa u :: l else l) t (delete vpn pgs) p <-> accounted l t pgs p.
Proof.
  intros Hu Ho. unfold accounted. rewrite (own_in_delete pgs vpn u p Hu), Ho.
  destruct do_free; [rewrite elem_of_cons|]; naive_solver.
Qed.

Definition range_owned (pgs : gmap Z upage) (vpn : Z) (N : nat) (own : bool) : Prop :=
  forall v, vpn <= v < vpn + Z.of_nat N -> exists u, pgs !! v = Some u /\ up_own u = own.

Lemma uvmunmap_loop root t (do_free : bool) N : forall fuel k l pgs vpn,
  as_inv k l t root pgs -> 0 <= vpn -> vpn + Z.of_nat N <= NPG ->
  range_owned pgs vpn N do_free -> (N < fuel)%nat ->
  exists k' fr,
    mwhile fuel (uvmunmap_body root ((vpn + Z.of_nat N) * PGSIZE) do_free) (vpn * PGSIZE) n (MkK th k) =
      Ret tt (MkK th k') /\
    as_inv k' (fr ++ l) t root (unmap_range N vpn pgs) /\
    (forall p, accounted (fr ++ l) t (unmap_range N vpn pgs) p <-> accounted l t pgs p) /\
    (forall p, valid_page p -> p ∉ fr ++ l -> ~ pt_owns t p -> page_same p (mem k) (mem k')).
Proof.
  induction N as [|N IH]; intros fuel k l pgs vpn A Hv0 Hv1 Hr Hf; (destruct fuel as [|fuel]; [lia|]).
  - exists k, []. split_and!; [apply mwhile_inr|done..|by intros].
    unfold uvmunmap_body. destruct (_ <? _) eqn:E; [lia|done].
  - destruct (Hr vpn ltac:(lia)) as (u & Hu & Ho).
    destruct (uvmunmap_step k l t root pgs vpn ((vpn + Z.of_nat (S N)) * PGSIZE) do_free u)
      as (k1 & E1 & A1 & S1); try done; try (unfold PGSIZE; lia).
    rewrite (mwhile_inl _ _ _ _ _ _ _ E1).
    replace (vpn + Z.of_nat (S N)) with (vpn + 1 + Z.of_nat N) by lia.
    destruct (IH fuel k1 _ _ (vpn + 1) A1) as (k' & fr & E2 & A2 & Ac2 & S2); try lia.
    { intros v Hv. rewrite lookup_delete_ne by lia. apply Hr. lia. }
    exists k', (fr ++ (if do_free then [up_pa u] else [])).
    assert ((fr ++ (if do_free then [up_pa u] else [])) ++ l =
            fr ++ (if do_free then up_pa u :: l else l)) as ->
      by (rewrite <- app_assoc; by destruct do_free).
    split_and!; [done|done|..].
    + intros p. cbn [unmap_range]. rewrite Ac2. by apply accounted_unmap.
    + intros p P1 P2 P3 a Ha. rewrite (S2 p P1 P2 P3 a Ha). apply (S1 p); try done.
      * destruct do_free; set_solver.
      * intros -> ->. set_solver.
Qed.

(** Unmapping [N] pages removes exactly them; with [do_free] their pages go
    to the free list, and the content of every other page is untouched. *)
Lemma uvmunmap_spec k l t root pgs vpn N (do_free : bool) :
  as_inv k l t root pgs -> 0 <= vpn -> vpn + Z.of_nat N <= NPG ->
  range_owned pgs vpn N do_free -> (N < n)%nat ->
  exists k' fr,
    uvmunmap root (vpn * PGSIZE) (Z.of_nat N) do_free n (MkK th k) = Ret tt (MkK th k') /\
    as_inv k' (fr ++ l) t root (unmap_range N vpn pgs) /\
    (forall p, accounted (fr ++ l) t (unmap_range N vpn pgs) p <-> accounted l t pgs p) /\
    (forall p, valid_page p -> p ∉ fr ++ l -> ~ pt_owns t p -> page_same p (mem k) (mem k')).
Proof.
  intros A Hv0 Hv1 Hr Hf. unfold uvmunmap, mloop.
  destruct (vpn * PGSIZE mod PGSIZE =? 0) eqn:E; [|rewrite Z.mod_mul in E; done]. cbn [negb].
  rewrite u64_small by (unfold PGSIZE, NPG in *; lia).
  replace (vpn * PGSIZE + Z.of_nat N * PGSIZE) with ((vpn + Z.of_nat N) * PGSIZE) by lia.
  by apply uvmunmap_loop.
Qed.

(** ** uvmclear *)

(** Other permissions for a page. *)
Lemma as_perm k l t root pgs a u x perm :
  as_inv k l t root pgs -> 0 <= a < MAXVA -> pgs !! (a / PGSIZE) = Some u -> perm_ok perm -> leaf t a = Some x ->
  let k' := MkKmem (st64 (mem k) x (mk_pte (up_pa u) perm)) (freelist k) in
  as_inv k' l t root (<[a / PGSIZE := MkUp (up_pa u) perm (up_own u)]> pgs) /\ data_same l t (mem k) (mem k').
Proof.
  intros [A1 A2 A3 A4 A5] Ha Hu Hp Hx k'. destruct (A3 _ _ Hu) as (W0 & W1 & W2 & W3).
  pose proof (mk_pte_range (up_pa u) perm W1 (proj1 Hp)) as Hw.
  destruct (store_leaf k l t root a x (mk_pte (up_pa u) perm) A1 Ha Hx ltac:(lia)) as (B1 & B2 & B3 & B4). fold k' in B1, B2, B4.
  assert (forall v u', <[a / PGSIZE := MkUp (up_pa u) perm (up_own u)]> pgs !! v = Some u' -> exists w, pgs !! v = Some w /\ up_own u' = up_own w /\ up_pa u' = up_pa w) as Hback.
  { intros v u' [[<- <-]|[_ H]]%lookup_insert_Some; [by exists u|by exists u']. }
  split; [|done]. split; [done|..].
  - intros v Hv. rewrite B4 by done. destruct (Z.eqb_spec (v / PGSIZE) (a / PGSIZE)) as [->|E]; [by rewrite lookup_insert_eq|].
    rewrite lookup_insert_ne by done. by apply A2.
  - intros v u' [[<- <-]|[_ H]]%lookup_insert_Some; [done|by eapply A3].
  - intros p (v & u' & (w & Hw' & Eo & Ep)%Hback & Ho & <-). apply A4. exists v, w. by rewrite <- Eo, Ep.
  - intros v1 v2 u1 u2 (w1 & H1 & O1 & P1)%Hback (w2 & H2 & O2 & P2)%Hback. rewrite O1, O2, P1, P2. by apply A5.
Qed.

Lemma pte_clear_u pa perm : Z.land (mk_pte pa perm) (Z.lnot PTE_U) = mk_pte pa (Z.land perm (Z.lnot PTE_U)).
Proof.
  unfold mk_pte. apply Z.bits_inj'. intros i Hi. rewrite Z.land_spec, Z.lnot_spec, !Z.lor_spec, Z.land_spec, Z.lnot_spec by done.
  change PTE_U with (2 ^ 4). change PTE_V with (2 ^ 0). rewrite !Z.pow2_bits_eqb by lia. destruct (Z.eqb_spec 4 i) as [<-|Hne]; [|by rewrite !andb_true_r].
  rewrite PA2PTE_low by lia. cbn. by rewrite !andb_false_r.
Qed.

(** A page is taken from the user. *)
Lemma uvmclear_spec k l t root pgs vpn u : as_inv k l t root pgs -> 0 <= vpn < NPG -> pgs !! vpn = Some u -> perm_ok (Z.land (up_perm u) (Z.lnot PTE_U)) ->
  exists k', uvmclear root (vpn * PGSIZE) n (MkK th k) = Ret tt (MkK th k') /\
    as_inv k' l t root (<[vpn := MkUp (up_pa u) (Z.land (up_perm u) (Z.lnot PTE_U)) (up_own u)]> pgs) /\ data_same l t (mem k) (mem k').
Proof.
  intros A Hv Hu Hp. destruct (vpn_va vpn Hv) as [Hva Hdiv].
  destruct (as_leaf k l t root pgs (vpn * PGSIZE) u A Hva ltac:(by rewrite Hdiv)) as (x & Hx & Hx0 & Ex).
  destruct (as_perm k l t root pgs (vpn * PGSIZE) u x _ A Hva ltac:(by rewrite Hdiv) Hp Hx) as [A' D]. rewrite Hdiv in A'.
  eexists. split; [|split; [exact A'|exact D]].
  unfold uvmclear. rewrite (bind_ret _ _ _ _ _ _ (walk_find n th k t root _ (vi_rep _ _ _ _ (as_vm _ _ _ _ _ A)) Hva)), Hx.
  change (default 0 (Some x)) with x. destruct (Z.eqb_spec x 0); [done|]. by rewrite load64_bind, Ex, pte_clear_u.
Qed.

(** A range with a page that is not mapped stops the kernel. *)
Lemma uvmunmap_missing k l t root pgs vpn N (do_free : bool) :
  as_inv k l t root pgs -> 0 <= vpn -> vpn + Z.of_nat (S N) <= NPG -> n <> 0%nat ->
  pgs !! vpn = None ->
  uvmunmap root (vpn * PGSIZE) (Z.of_nat (S N)) do_free n (MkK th k) = Panic "uvmunmap: walk" \/
  uvmunmap root (vpn * PGSIZE) (Z.of_nat (S N)) do_free n (MkK th k) = Panic "uvmunmap: not mapped".
Proof.
  intros A Hv0 Hv1 Hn Hu. unfold uvmunmap.
  destruct (vpn * PGSIZE mod PGSIZE =? 0) eqn:E; [|rewrite Z.mod_mul in E; done]. cbn [negb].
  rewrite u64_small by (unfold PGSIZE, NPG in *; lia).
  destruct (vpn_va vpn ltac:(lia)) as [Hva Hdiv].
  pose proof (as_pte _ _ _ _ _ A _ Hva) as Hp. rewrite Hdiv, Hu in Hp.
  set (body := uvmunmap_body _ _ _).
  assert (body (vpn * PGSIZE) n (MkK th k) = Panic "uvmunmap: walk" \/
          body (vpn * PGSIZE) n (MkK th k) = Panic "uvmunmap: not mapped") as Hb.
  { unfold body, uvmunmap_body. destruct (_ <? _) eqn:E2; [|unfold PGSIZE in *; lia]. cbn [negb].
    rewrite (bind_ret _ _ _ _ _ _ (walk_find n th k t root _ (vi_rep _ _ _ _ (as_vm _ _ _ _ _ A)) Hva)).
    unfold pte_of in Hp. destruct (leaf t _) as [x|]; [|by left].
    change (default 0 (Some x)) with x. destruct (x =? 0); [by left|].
    rewrite load64_bind, Hp. by right. }
  unfold mloop. destruct n as [|n'] eqn:En; [done|]. rewrite <- En in *.
  replace (mwhile n body) with (mwhile (S n') body) by (by rewrite En). cbn [mwhile].
  destruct Hb as [Hb|Hb]; rewrite (bind_panic _ _ _ _ _ Hb); auto.
Qed.
End uvm.
