(* ===== verification/GrowSpec.v ===== *)
(** * Growing, shrinking and copying user memory

    [uvmdealloc], [uvmalloc] and [uvmcopy] against the address-space view:
    the pages below the process size are mapped and owned, new memory reads
    as zeros, a failed call undoes what it did, and no page is lost. *)

From Stdlib Require Import ZArith Lia.
From S2P Require Import Prelude Riscv KString Thread Kalloc Vm VmSpec AddrSpace UvmSpec.

(** Number of pages of a process of [sz] bytes. *)
Definition npages (sz : Z) : Z := PGROUNDUP sz / PGSIZE.

(** The pages of a process of size [sz]: everything below is mapped and
    owned, the gap up to the trapframe is empty. *)
Definition heap (pgs : gmap Z upage) (sz : Z) : Prop :=
  range_owned pgs 0 (Z.to_nat (npages sz)) true /\
  forall v, npages sz <= v < TRAPFRAME / PGSIZE -> pgs !! v = None.

(** What the operations keep: pages that were neither free nor page-table
    pages have the same content afterwards. *)
Definition data_kept {L : Layout} (l : list Z) (t : gmap (list Z) Z) (m m' : gmap Z Z) : Prop :=
  forall p, valid_page p -> p ∉ l -> ~ pt_owns t p -> page_same p m m'.

(** A state in which the [j] pages from [base] have been added to [pgs], page
    [v] with permissions [perm v] and bytes [content v]. *)
Record grown {L : Layout} (root : Z) (perm : Z -> Z) (content : Z -> Z -> Z)
    (k0 : kmem) (l0 : list Z) (t0 : gmap (list Z) Z) (pgs : gmap Z upage) (base j : Z)
    (k : kmem) (l : list Z) (t : gmap (list Z) Z) (pj : gmap Z upage) : Prop := {
  gr_as : as_inv k l t root pj;
  gr_out : forall v, v < base \/ base + j <= v -> pj !! v = pgs !! v;
  gr_new : forall v, base <= v < base + j -> exists pa, pj !! v = Some (MkUp pa (perm v) true) /\
    forall o, 0 <= o < PGSIZE -> ld (mem k) (pa + o) = content v o;
  gr_acc : forall p, accounted l t pj p <-> accounted l0 t0 pgs p;
  gr_data : data_kept l0 t0 (mem k0) (mem k)
}.

Definition UPERM : Z := Z.lor (Z.lor (Z.lor PTE_W PTE_X) PTE_R) PTE_U.

Lemma round_npages sz : 0 <= sz <= TRAPFRAME -> PGROUNDUP sz = npages sz * PGSIZE.
Proof.
  intros H. unfold npages, TRAPFRAME, TRAMPOLINE in *. rewrite MAXVA_NPG in H.
  unfold PGSIZE, NPG in *. rewrite PGROUNDUP_eq by lia. by rewrite Z.div_mul by lia.
Qed.

Lemma npages_bound sz : 0 <= sz <= TRAPFRAME -> 0 <= npages sz <= NPG - 2 /\ sz <= npages sz * PGSIZE < sz + PGSIZE.
Proof.
  intros H. pose proof (round_npages sz H) as E.
  unfold TRAPFRAME, TRAMPOLINE in *. rewrite MAXVA_NPG in H. unfold PGSIZE, NPG in *.
  rewrite PGROUNDUP_eq in E by lia. pose proof (Z.div_mod (sz + 4095) 4096). lia.
Qed.

Lemma npages_mono a b : 0 <= a <= b -> b <= TRAPFRAME -> npages a <= npages b.
Proof.
  intros H1 H2. pose proof (npages_bound a ltac:(lia)). pose proof (npages_bound b ltac:(lia)).
  unfold PGSIZE in *. lia.
Qed.

Lemma npages_pages j : 0 <= j <= NPG -> npages (j * PGSIZE) = j.
Proof. intros H. unfold npages, PGSIZE, NPG in *. rewrite PGROUNDUP_eq by lia. lia. Qed.

Lemma UPERM_ok : perm_ok UPERM.
Proof. by split. Qed.

Lemma accounted_cons q l t pgs p : accounted (q :: l) t pgs p <-> p = q \/ accounted l t pgs p.
Proof. unfold accounted. rewrite elem_of_cons. naive_solver. Qed.

Lemma accounted_insert l t pgs vpn q perm p :
  pgs !! vpn = None ->
  accounted l t (<[vpn := MkUp q perm true]> pgs) p <-> p = q \/ accounted l t pgs p.
Proof. intros H. unfold accounted. rewrite own_in_insert by done. cbn. naive_solver. Qed.

Lemma page_same_trans p m1 m2 m3 : page_same p m1 m2 -> page_same p m2 m3 -> page_same p m1 m3.
Proof. intros H1 H2 a Ha. by rewrite H2, H1. Qed.

Lemma same_outside_page {L : Layout} {LO : LayoutOk L} p q m m' :
  same_outside q m m' -> valid_page p -> valid_page q -> p <> q -> page_same p m m'.
Proof.
  intros H Hp Hq Hne a Ha. apply H. destruct (valid_page_disj p q Hp Hq Hne); lia.
Qed.

Section grow.
Context {L : Layout} {LO : LayoutOk L}.
Context (n : nat) (th : T) (Hcpu : cpu_ok th) (Hlk : lks th !! LkKmem = None).

(** [uvmdealloc] of whole pages, as [uvmalloc] and [growproc] call it. *)
Lemma uvmdealloc_spec k l t root pgs oldsz newsz :
  as_inv k l t root pgs -> 0 <= newsz <= oldsz -> oldsz <= TRAPFRAME ->
  range_owned pgs (npages newsz) (Z.to_nat (npages oldsz - npages newsz)) true ->
  (Z.to_nat (npages oldsz - npages newsz) < n)%nat ->
  exists k' l',
    uvmdealloc root oldsz newsz n (MkK th k) = Ret newsz (MkK th k') /\
    let pgs' := unmap_range (Z.to_nat (npages oldsz - npages newsz)) (npages newsz) pgs in
    as_inv k' l' t root pgs' /\
    (forall p, accounted l' t pgs' p <-> accounted l t pgs p) /\ data_kept l' t (mem k) (mem k').
Proof.
  intros A Hs Hb Hr Hf. unfold uvmdealloc.
  pose proof (npages_mono newsz oldsz Hs Hb) as Hm.
  pose proof (npages_bound oldsz ltac:(lia)) as Bo. pose proof (npages_bound newsz ltac:(lia)) as Bn.
  assert (forall N, N = 0%nat ->
    exists k' l', Ret newsz (MkK th k) = Ret newsz (MkK th k') /\
    let pgs' := unmap_range N (npages newsz) pgs in
    as_inv k' l' t root pgs' /\
    (forall p, accounted l' t pgs' p <-> accounted l t pgs p) /\ data_kept l' t (mem k) (mem k'))
    as Hnop by (intros N ->; exists k, l; split_and!; try done; intros p ? ? ? a ?; done).
  destruct (newsz >=? oldsz) eqn:E.
  { replace oldsz with newsz by lia. rewrite Z.sub_diag. by apply (Hnop 0%nat). }
  rewrite !round_npages by lia.
  destruct (_ <? _) eqn:E2; cbn [mwhen]; rewrite ?mret_bind.
  - assert (i32 ((npages oldsz * PGSIZE - npages newsz * PGSIZE) / PGSIZE) =
            Z.of_nat (Z.to_nat (npages oldsz - npages newsz))) as ->.
    { rewrite <- Z.mul_sub_distr_r, Z.div_mul by done. rewrite i32_small; unfold NPG in *; lia. }
    destruct (uvmunmap_spec n th Hcpu Hlk k l t root pgs (npages newsz)
      (Z.to_nat (npages oldsz - npages newsz)) true A) as (k' & fr & E3 & A3 & Ac & S3); try done; try lia.
    rewrite (bind_ret _ _ _ _ _ _ E3). by exists k', (fr ++ l).
  - apply Hnop. unfold PGSIZE in *. lia.
Qed.

(** A fresh page [q] with content given by [k2] is mapped at [vpn]. *)
Lemma map_fresh k1 q l t root pgs vpn perm m2 :
  as_inv k1 l t root pgs -> fresh_page l t pgs q -> 0 <= vpn < NPG -> pgs !! vpn = None ->
  perm_ok perm -> n <> 0%nat -> same_outside q (mem k1) m2 ->
  exists r k' l' t',
    mappages root (vpn * PGSIZE) PGSIZE q perm n (MkK th (MkKmem m2 (freelist k1))) = Ret r (MkK th k') /\
    (forall p, valid_page p -> p ∉ l -> ~ pt_owns t p -> p <> q -> page_same p (mem k1) (mem k')) /\
    page_same q m2 (mem k') /\
    (forall p, accounted l' t' pgs p <-> accounted l t pgs p) /\
    fresh_page l' t' pgs q /\ vm_grow l t m2 l' t' (mem k') /\ (length l' <= length l <= length l' + 2)%nat /\
    (r = 0 /\ as_inv k' l' t' root (<[vpn := MkUp q perm true]> pgs) \/
     r = -1 /\ l' = [] /\ as_inv k' l' t' root pgs).
Proof.
  intros A F Hv Hn Hp Hn0 Ho. destruct F as (F1 & F2 & F3 & F4).
  assert (as_inv (MkKmem m2 (freelist k1)) l t root pgs) as A2.
  { eapply (as_outside k1 l t root pgs _ l q); try done; [|auto].
    by eapply (kmem_inv_outside k1 m2 l q), A. }
  destruct (valid_page_pte q F1) as (Q1 & Q2 & _).
  destruct (mappages_page n th Hcpu Hlk _ l t root pgs vpn q perm true A2 Hv Hn Q1 Q2 Hp)
    as (r & k' & l' & t' & E & G & Hlen & Hr); [done|done|].
  assert (fresh_page l t pgs q) as F by done.
  exists r, k', l', t'. split_and!; try done.
  - intros p P1 P2 P3 Hne a Ha.
    rewrite (vg_data _ _ _ _ _ _ G p P1 P2 P3 a Ha). apply Ho.
    destruct (valid_page_disj p q P1 F1 Hne); lia.
  - exact (vg_data _ _ _ _ _ _ G q F1 F2 F3).
  - intros p. by eapply accounted_grow.
  - by eapply fresh_frame.
  - destruct (vg_free _ _ _ _ _ _ G) as (d & -> & _). rewrite length_app. lia.
Qed.

Section loop.
Context (root : Z) (perm : Z -> Z) (content : Z -> Z -> Z).
Context (k0 : kmem) (l0 : list Z) (t0 : gmap (list Z) Z) (pgs : gmap Z upage) (base : Z).
Context (Hbase : 0 <= base).

Notation G := (grown root perm content k0 l0 t0 pgs base).

Lemma grown_0 : as_inv k0 l0 t0 root pgs -> G 0 k0 l0 t0 pgs.
Proof. intros A. split; try done. intros; lia. Qed.

(** Pages that were free or page-table pages before are the only ones that
    can be so now. *)
Lemma grown_sub j k l t pj p :
  (forall v, base <= v < base + j -> pgs !! v = None) ->
  G j k l t pj -> p ∈ l \/ pt_owns t p -> p ∈ l0 \/ pt_owns t0 p.
Proof.
  intros Hn [A Ho Hnew Hac _] Hp.
  assert (accounted l t pj p) as Ha by (unfold accounted; tauto).
  apply Hac in Ha as [?|[?|(v & u & Hv & H1 & H2)]]; [by left|by right|exfalso].
  assert (own_in pj p) as Hown.
  { exists v, u. rewrite Ho; [done|]. destruct (decide (base <= v < base + j)) as [H|H]; [|lia].
    rewrite Hn in Hv; done. }
  destruct (as_own _ _ _ _ _ A p Hown) as (_ & ? & ?). by destruct Hp.
Qed.

(** The pages added so far keep their bytes when another page [q] changes. *)
Lemma grown_new_frame j k l t pj q k' :
  G j k (q :: l) t pj -> valid_page q ->
  (forall p, valid_page p -> p ∉ l -> ~ pt_owns t p -> p <> q -> page_same p (mem k) (mem k')) ->
  (forall v, base <= v < base + j -> exists pa, pj !! v = Some (MkUp pa (perm v) true) /\
     forall o, 0 <= o < PGSIZE -> ld (mem k') (pa + o) = content v o) /\
  ((forall v, base <= v < base + j -> pgs !! v = None) -> data_kept l0 t0 (mem k0) (mem k')).
Proof.
  intros HG Hq Hs. pose proof HG as [A Ho Hnew Hac Hd]. split.
  - intros v Hv. destruct (Hnew v Hv) as (pa & Hpa & Hc). exists pa. split; [done|].
    intros o Hoo. rewrite <- Hc by done.
    destruct (as_own _ _ _ _ _ A pa) as (P1 & P2 & P3); [by exists v, (MkUp pa (perm v) true)|].
    apply (Hs pa); [done|set_solver..|lia].
  - intros Hn p P1 P2 P3. eapply page_same_trans; [by apply Hd|].
    assert (p ∉ q :: l /\ ~ pt_owns t p) as [? ?].
    { split; intros H; destruct (grown_sub j k (q :: l) t pj p Hn HG); tauto. }
    apply Hs; set_solver.
Qed.

(** One more page: allocated, filled by [init] and mapped; or, without
    memory, everything as before. *)
Lemma grown_step {B} j k l t pj (init : Z -> KM kmem ()) (F C : KM kmem B) :
  G j k l t pj -> 0 <= j -> base + j < NPG ->
  (forall v, base <= v <= base + j -> pgs !! v = None) -> perm_ok (perm (base + j)) -> n <> 0%nat ->
  (forall q k1, q ∈ l0 \/ pt_owns t0 q -> valid_page q -> same_outside q (mem k) (mem k1) -> exists m2,
    init q n (MkK th k1) = Ret tt (MkK th (MkKmem m2 (freelist k1))) /\
    same_outside q (mem k1) m2 /\
    forall o, 0 <= o < PGSIZE -> ld m2 (q + o) = content (base + j) o) ->
  exists k' l' t' pj',
    let r := (mem ← kalloc;
      if mem =? 0 then F else
      init mem ;;
      r ← mappages root ((base + j) * PGSIZE) PGSIZE mem (perm (base + j));
      if negb (r =? 0) then kfree mem ;; F else C) n (MkK th k) in
    r = C n (MkK th k') /\ G (j + 1) k' l' t' pj' /\ (length l' < length l <= length l' + 3)%nat \/
    r = F n (MkK th k') /\ G j k' l' t' pj' /\ (length l <= 3)%nat.
Proof.
  intros HG Hj Hb Hn Hperm Hn0 Hinit. pose proof HG as [A Ho Hnew Hac Hd].
  assert (forall v, base <= v < base + j -> pgs !! v = None) as Hn' by (intros; apply Hn; lia).
  destruct l as [|q l].
  { exists k, [], t, pj. right. split; [|split; [done|cbn; lia]]. by rewrite (bind_ret _ _ _ _ _ _ (kalloc_empty n th Hcpu Hlk _ _ _ _ A)). }
  destruct (kalloc_as n th Hcpu Hlk k q l t root pj A) as (k1 & E1 & A1 & S1 & F1 & Hq0).
  pose proof F1 as (Q1 & Q2 & Q3 & Q4).
  destruct (Hinit q k1) as (m2 & E2 & S2 & C2); [|done..|].
  { apply (grown_sub j k (q :: l) t pj q Hn' HG). set_solver. }
  assert (pj !! (base + j) = None) as Hpj by (rewrite Ho by lia; apply Hn; lia).
  destruct (map_fresh k1 q l t root pj (base + j) (perm (base + j)) m2 A1 F1)
    as (r & k' & l' & t' & E3 & S3 & S3q & Ac3 & F3 & _ & Hlen & Hr); try done; [lia|].
  assert (forall p, valid_page p -> p ∉ l -> ~ pt_owns t p -> p <> q -> page_same p (mem k) (mem k')) as S4.
  { intros p P1 P2 P3 P4. eapply page_same_trans; [|by apply S3]. by eapply same_outside_page. }
  assert (forall p, accounted (q :: l') t' pj p <-> accounted l0 t0 pgs p) as Ac4.
  { intros p. by rewrite <- Hac, !accounted_cons, Ac3. }
  rewrite (bind_ret _ _ _ _ _ _ E1). destruct (Z.eqb_spec q 0); [done|].
  rewrite (bind_ret _ _ _ _ _ _ E2), (bind_ret _ _ _ _ _ _ E3).
  destruct Hr as [[-> A3]|(-> & -> & A3)]; change (negb (_ =? 0)) with false || change (negb (_ =? 0)) with true; cbv iota.
  - exists k', l', t', (<[base + j := MkUp q (perm (base + j)) true]> pj). left. split; [done|]. split; [|cbn; lia].
    destruct (grown_new_frame j k l t pj q k' HG Q1 S4) as [N1 N2]. split; [done|..|by apply N2].
    + intros v Hv. rewrite lookup_insert_ne by lia. apply Ho. lia.
    + intros v Hv. destruct (decide (v = base + j)) as [->|Hne].
      * exists q. split; [apply lookup_insert_eq|]. intros o Hoo. rewrite (S3q (q + o)) by lia. by apply C2.
      * rewrite lookup_insert_ne by done. apply N1. lia.
    + intros p. rewrite <- Ac4, accounted_cons. by apply accounted_insert.
  - destruct (kfree_as n th Hcpu Hlk k' [] t' root pj q A3 F3) as (k2 & E4 & A4 & S5).
    exists k2, [q], t', pj. right. rewrite (bind_ret _ _ _ _ _ _ E4). split; [done|]. split; [|cbn in *; lia].
    destruct (grown_new_frame j k l t pj q k2 HG Q1) as [N1 N2].
    { intros p P1 P2 P3 P4. eapply page_same_trans; [by apply S4|]. by eapply same_outside_page. }
    split; try done. by apply N2.
Qed.

(** Unmapping the added pages restores the address space. *)
Lemma grown_undo j k l t pj k' l' :
  G j k l t pj -> 0 <= j -> (forall v, base <= v < base + j -> pgs !! v = None) ->
  let pgs' := unmap_range (Z.to_nat j) base pj in
  as_inv k' l' t root pgs' -> (forall p, accounted l' t pgs' p <-> accounted l t pj p) ->
  data_kept l' t (mem k) (mem k') -> G 0 k' l' t pgs.
Proof.
  intros HG Hj Hn pgs' A' Ac' D'. pose proof HG as [A Ho Hnew Hac Hd].
  assert (pgs' = pgs) as E.
  { apply map_eq. intros v. unfold pgs'. rewrite unmap_range_lookup.
    destruct (_ && _) eqn:E; [symmetry; apply Hn; lia|apply Ho; lia]. }
  rewrite E in *. clearbody pgs'. split; try done.
  - intros; lia.
  - intros p. by rewrite Ac', Hac.
  - intros p P1 P2 P3. eapply page_same_trans; [by apply Hd|]. apply D'; [done|..].
    + intros H. assert (accounted l' t pgs p) as [?|[?|Hown]]%Ac'%Hac by (by left); [done|done|].
      destruct (as_own _ _ _ _ _ A' p Hown) as (_ & ? & _). done.
    + intros H. destruct (grown_sub j k l t pj p Hn HG); auto.
Qed.

Lemma grown_range j k l t pj :
  G j k l t pj -> 0 <= j -> range_owned pj base (Z.to_nat j) true.
Proof.
  intros HG Hj v Hv. destruct (gr_new _ _ _ _ _ _ _ _ _ _ _ _ _ HG v) as (pa & Hpa & _); [lia|]. eauto.
Qed.
End loop.

(** ** uvmalloc *)

Lemma zero_page_init q k1 : valid_page q -> exists m2,
  kmemset q 0 PGSIZE n (MkK th k1) = Ret tt (MkK th (MkKmem m2 (freelist k1))) /\
  same_outside q (mem k1) m2 /\ forall o, 0 <= o < PGSIZE -> ld m2 (q + o) = 0.
Proof.
  intros Hq. destruct (valid_page_pte q Hq) as (_ & _ & Hq0). exists (memset (mem k1) q 0 PGSIZE).
  split_and!; [|apply memset_same_outside|].
  - unfold kmemset. destruct (Z.eqb_spec q 0); [done|reflexivity].
  - intros o Ho. rewrite memset_ld by done. destruct (_ && _) eqn:E; [done|lia].
Qed.

(** Adding [j] pages takes at least [j] free pages and at most [3 * j], two
    of three for page tables. *)
Definition spent (l0 l : list Z) (j : Z) : Prop :=
  Z.of_nat (length l) + j <= Z.of_nat (length l0) <= Z.of_nat (length l) + 3 * j.

(** The loop gets to page [top], or runs out of memory before. *)
Lemma uvmalloc_loop root k0 l0 t0 pgs base newsz top N : forall fuel k l t pj j,
  grown root (fun _ => UPERM) (fun _ _ => 0) k0 l0 t0 pgs base j k l t pj -> spent l0 l j ->
  0 <= base -> 0 <= j -> base + j <= top <= NPG - 2 -> (top - 1) * PGSIZE < newsz ->
  (forall v, base <= v < top -> pgs !! v = None) ->
  Z.of_nat N = top - (base + j) -> (N < fuel)%nat -> top - base < Z.of_nat n ->
  let run : res (kst kmem) Z := mwhile fuel (uvmalloc_body root (base * PGSIZE) newsz) ((base + j) * PGSIZE) n (MkK th k) in
  exists k' l' t' pj',
    (exists f : nat, run = mwhile (S f) (uvmalloc_body root (base * PGSIZE) newsz) (top * PGSIZE) n (MkK th k') /\
       grown root (fun _ => UPERM) (fun _ _ => 0) k0 l0 t0 pgs base (top - base) k' l' t' pj' /\ spent l0 l' (top - base)) \/
    run = Ret 0 (MkK th k') /\ grown root (fun _ => UPERM) (fun _ _ => 0) k0 l0 t0 pgs base 0 k' l' t' pj' /\
      Z.of_nat (length l0) <= 3 * (top - base).
Proof.
  induction N as [|N IH]; intros fuel k l t pj j HG HS Hb Hj Hle Hsz Hn HN Hf Hfu run; unfold run; clear run;
    (destruct fuel as [|fuel]; [lia|]).
  - exists k, l, t, pj. left. exists fuel. replace (top - base) with j by lia. replace (base + j) with top by lia. done.
  - destruct (grown_step root (fun _ => UPERM) (fun _ _ => 0) k0 l0 t0 pgs base Hb j k l t pj
      (fun q => kmemset q 0 PGSIZE)
      (_ ← uvmdealloc root ((base + j) * PGSIZE) (base * PGSIZE); mret (inr 0))
      (mret (inl (u64 ((base + j) * PGSIZE + PGSIZE)))) HG)
      as (k1 & l1 & t1 & pj1 & Hr); try done; try (unfold NPG in *; lia).
    { intros v Hv. apply Hn. lia. } { intros q k1 _ Hq _. by apply zero_page_init. }
    set (body := uvmalloc_body root (base * PGSIZE) newsz).
    lazymatch type of Hr with
    | (let r := ?X in _) => assert (body ((base + j) * PGSIZE) n (MkK th k) = X) as Hbody
    end.
    { unfold body, uvmalloc_body. destruct (_ <? newsz) eqn:E; [reflexivity|unfold PGSIZE in *; lia]. }
    cbn zeta in Hr. rewrite <- Hbody in Hr. clear Hbody. unfold spent in HS. destruct Hr as [(E & HG1 & Hlen)|(E & HG1 & Hlen)].
    + rewrite vpn_next in E by lia. rewrite (mwhile_inl _ _ _ _ _ _ _ E).
      replace (base + j + 1) with (base + (j + 1)) by lia. apply (IH fuel k1 l1 t1 pj1); try done; unfold spent; lia.
    + assert (npages ((base + j) * PGSIZE) = base + j) as E1 by (apply npages_pages; lia).
      assert (npages (base * PGSIZE) = base) as E2 by (apply npages_pages; lia).
      destruct (uvmdealloc_spec k1 l1 t1 root pj1 ((base + j) * PGSIZE) (base * PGSIZE))
        as (k2 & l2 & E3 & A3 & Ac3 & D3).
      { apply (gr_as _ _ _ _ _ _ _ _ _ _ _ _ _ HG1). } { unfold PGSIZE; lia. }
      { unfold TRAPFRAME, TRAMPOLINE. rewrite MAXVA_NPG. unfold PGSIZE in *; lia. }
      { rewrite E1, E2, Z.add_simpl_l. by eapply grown_range. } { rewrite E1, E2. lia. }
      rewrite E1, E2, Z.add_simpl_l in A3, Ac3.
      rewrite (bind_ret _ _ _ _ _ _ E3) in E.
      exists k2, l2, t1, pgs. right. split_and!; [by apply mwhile_inr| |lia].
      apply (grown_undo root (fun _ => UPERM) (fun _ _ => 0) k0 l0 t0 pgs base j k1 l1 t1 pj1);
        try done. intros; apply Hn; lia.
Qed.

(** ** uvmcopy *)

(** An address space is unaffected by what does not touch its page table or
    free its pages. *)
Lemma as_keep k l t root pgs k' l' :
  as_inv k l t root pgs -> kmem_inv k' l' -> (forall p, pt_owns t p \/ own_in pgs p -> p ∉ l') ->
  (forall p, pt_owns t p -> page_same p (mem k) (mem k')) -> as_inv k' l' t root pgs.
Proof.
  intros A Hk Hl Hp.
  assert (forall π p i, t !! π = Some p -> 0 <= i < 512 -> ld64 (mem k') (p + 8 * i) = ld64 (mem k) (p + 8 * i)) as Hslot.
  { intros π p i Hπ Hi. apply ld64_ext. intros b Hb. apply (Hp p); [by exists π|]. unfold PGSIZE. lia. }
  destruct A as [[V1 [R1 R2 R3 R4 R5] V3] A2 A3 A4 A5]. split; try done.
  - split; [done| |auto]. split; try done.
    intros π p i Hπ Hlen Hi. rewrite (Hslot π p i) by done. by apply R5.
  - intros v Hv. replace (pte_of (mem k') t v) with (pte_of (mem k) t v); [by apply A2|].
    unfold pte_of, leaf. destruct (t !! [PX 2 v; PX 1 v]) as [p|] eqn:E; [|done]. cbn. symmetry.
    eapply Hslot; [done|]. apply PX_range. lia.
  - intros p Ho. destruct (A4 p Ho) as (? & ? & ?). split_and!; auto.
Qed.

(** A second address space that shares no page with the one being grown is
    unaffected. *)
Lemma as_other root perm content k0 l0 t0 pgs base j k l t pj told old pold :
  grown root perm content k0 l0 t0 pgs base j k l t pj ->
  (forall v, base <= v < base + j -> pgs !! v = None) ->
  as_inv k0 l0 told old pold ->
  (forall p, pt_owns told p \/ own_in pold p -> ~ pt_owns t0 p) ->
  as_inv k l told old pold.
Proof.
  intros HG Hn A Hd. pose proof HG as [Ac _ _ _ D].
  assert (forall p, pt_owns told p \/ own_in pold p -> p ∉ l0) as Hl0.
  { intros p [H|H]; [by apply (vi_sep _ _ _ _ (as_vm _ _ _ _ _ A))|by apply (as_own _ _ _ _ _ A)]. }
  apply (as_keep _ _ _ _ _ _ _ A); [apply Ac| |].
  - intros p Hp Hin. destruct (grown_sub _ _ _ _ _ _ _ _ j k l t pj p Hn HG (or_introl Hin)) as [H|H];
      [by apply (Hl0 p)|by apply (Hd p)].
  - intros p Hp. apply D; [|auto..]. destruct Hp as [π Hπ]. apply (pr_valid _ _ _ (vi_rep _ _ _ _ (as_vm _ _ _ _ _ A)) _ _ Hπ).
Qed.

Section copy.
Context (old new : Z) (k0 : kmem) (l0 : list Z) (told tnew : gmap (list Z) Z) (pold pnew : gmap Z upage) (sz : Z).
Context (Aold : as_inv k0 l0 told old pold) (Anew : as_inv k0 l0 tnew new pnew).
Context (Hdisj : forall p, pt_owns told p \/ own_in pold p -> ~ pt_owns tnew p).
Context (Hheap : heap pold sz) (Hempty : forall v, 0 <= v < npages sz -> pnew !! v = None).
Context (Hsz : 0 <= sz <= TRAPFRAME) (Hfuel : npages sz < Z.of_nat n).

(** The parent's page [v]. *)
Definition par_page (v : Z) : upage := default (MkUp 0 0 false) (pold !! v).
Definition par_perm (v : Z) : Z := Z.lor (up_perm (par_page v)) PTE_V.
Definition par_byte (v o : Z) : Z := ld (mem k0) (up_pa (par_page v) + o).

Lemma par_page_in v : 0 <= v < npages sz ->
  pold !! v = Some (par_page v) /\ up_own (par_page v) = true /\ own_in pold (up_pa (par_page v)).
Proof.
  intros Hv. destruct Hheap as [Hr _]. destruct (Hr v ltac:(lia)) as (u & Hu & Ho).
  unfold par_page. rewrite Hu. cbn. split_and!; [done|done|by exists v, u].
Qed.

Lemma par_perm_ok v : 0 <= v < npages sz -> perm_ok (par_perm v).
Proof.
  intros Hv. destruct (par_page_in v Hv) as (Hu & _).
  destruct (as_wf _ _ _ _ _ Aold _ _ Hu) as (_ & _ & _ & H1 & H2).
  split; [by apply mk_pte_flags|]. unfold par_perm. by rewrite <- Z.lor_assoc, Z.lor_diag.
Qed.

Notation G := (grown new par_perm par_byte k0 l0 tnew pnew 0).

Lemma copy_page_init j k l t pj q k1 :
  G j k l t pj -> 0 <= j < npages sz -> q ∈ l0 \/ pt_owns tnew q -> valid_page q ->
  same_outside q (mem k) (mem k1) -> exists m2,
    kmemmove q (up_pa (par_page j)) PGSIZE n (MkK th k1) = Ret tt (MkK th (MkKmem m2 (freelist k1))) /\
    same_outside q (mem k1) m2 /\ forall o, 0 <= o < PGSIZE -> ld m2 (q + o) = par_byte (0 + j) o.
Proof.
  intros HG Hj Hq Hv Ho. destruct (par_page_in j Hj) as (Hu & _ & Hown).
  destruct (as_own _ _ _ _ _ Aold _ Hown) as (P1 & P2 & P3).
  assert (up_pa (par_page j) <> q) as Hne.
  { intros <-. destruct Hq as [?|?]; [done|]. by apply (Hdisj (up_pa (par_page j))); [right|]. }
  exists (memmove (mem k1) q (up_pa (par_page j)) PGSIZE). split_and!; [reflexivity|..].
  - intros a Ha. rewrite memmove_ld by done. destruct (_ && _) eqn:E; [lia|done].
  - intros o Hoo. rewrite memmove_ld by done. destruct (_ && _) eqn:E; [|lia].
    replace (_ + (q + o - q)) with (up_pa (par_page j) + o) by lia. unfold par_byte.
    rewrite (same_outside_page _ q _ _ Ho P1 Hv Hne) by lia.
    rewrite Z.add_0_l. apply (gr_data _ _ _ _ _ _ _ _ _ _ _ _ _ HG _ P1 P2); [|lia]. apply Hdisj. by right.
Qed.

Lemma uvmcopy_loop N : forall fuel k l t pj j,
  G j k l t pj -> spent l0 l j -> 0 <= j <= npages sz -> Z.of_nat N = npages sz - j -> (N < fuel)%nat ->
  exists r k' l' t' pj',
    mwhile fuel (uvmcopy_body old new sz) (j * PGSIZE) n (MkK th k) = Ret r (MkK th k') /\
    (r = 0 /\ G (npages sz) k' l' t' pj' /\ spent l0 l' (npages sz) \/
     r = -1 /\ G 0 k' l' t' pj' /\ Z.of_nat (length l0) <= 3 * npages sz).
Proof.
  pose proof (npages_bound sz Hsz) as Bn.
  induction N as [|N IH]; intros fuel k l t pj j HG HS Hj HN Hf; (destruct fuel as [|fuel]; [lia|]).
  - assert (j = npages sz) as -> by lia. exists 0, k, l, t, pj. split; [|by left].
    apply mwhile_inr. unfold uvmcopy_body. destruct (_ <? _) eqn:E; [lia|done].
  - assert (forall v, 0 <= v < 0 + j -> pnew !! v = None) as Hnj by (intros; apply Hempty; lia).
    pose proof (as_other _ _ _ _ _ _ _ _ j k l t pj told old pold HG Hnj Aold Hdisj) as A.
    destruct (par_page_in j ltac:(lia)) as (Hu & Ho & _).
    destruct (vpn_va j ltac:(lia)) as [Hva Hdiv].
    destruct (as_leaf k l told old pold (j * PGSIZE) (par_page j) A Hva ltac:(by rewrite Hdiv)) as (x & Hx & Hx0 & Ex).
    destruct (as_wf _ _ _ _ _ A _ _ Hu) as (_ & W1 & W2 & W3 & W4).
    destruct (grown_step new par_perm par_byte k0 l0 tnew pnew 0 ltac:(lia) j k l t pj
      (fun q => kmemmove q (up_pa (par_page j)) PGSIZE)
      (uvmunmap new 0 (j * PGSIZE / PGSIZE) true ;; mret (inr (-1)))
      (mret (inl (u64 (j * PGSIZE + PGSIZE)))) HG)
      as (k1 & l1 & t1 & pj1 & Hr); try (unfold NPG in *; lia).
    { intros v Hv. apply Hempty. lia. } { apply par_perm_ok. lia. }
    { intros q k1 Hq Hvq Hs. by apply (copy_page_init j k l t pj); [|lia|..]. }
    set (body := uvmcopy_body old new sz).
    lazymatch type of Hr with
    | (let r := ?X in _) => assert (body (j * PGSIZE) n (MkK th k) = X) as Hbody
    end.
    { unfold body, uvmcopy_body. destruct (_ <? sz) eqn:E; [|unfold PGSIZE in *; lia]. cbn [negb].
      rewrite (bind_ret _ _ _ _ _ _ (walk_find n th k told old _ (vi_rep _ _ _ _ (as_vm _ _ _ _ _ A)) Hva)), Hx.
      change (default 0 (Some x)) with x. destruct (Z.eqb_spec x 0); [done|].
      rewrite load64_bind, Ex, mk_pte_V, mk_pte_FLAGS, mk_pte_PA by done. reflexivity. }
    cbn zeta in Hr. rewrite <- Hbody in Hr. clear Hbody. unfold spent in HS. destruct Hr as [(E & HG1 & Hlen)|(E & HG1 & Hlen)].
    + rewrite vpn_next in E by lia. rewrite (mwhile_inl _ _ _ _ _ _ _ E).
      apply (IH fuel k1 l1 t1 pj1); try done; unfold spent; lia.
    + destruct (uvmunmap_spec n th Hcpu Hlk k1 l1 t1 new pj1 0 (Z.to_nat j) true)
        as (k2 & fr & E3 & A3 & Ac3 & D3); try lia.
      { apply (gr_as _ _ _ _ _ _ _ _ _ _ _ _ _ HG1). }
      { apply (grown_range _ _ _ _ _ _ _ _ _ _ _ _ _ HG1). lia. }
      rewrite Z2Nat.id, Z.mul_0_l in E3 by lia. rewrite Hdiv, (bind_ret _ _ _ _ _ _ E3) in E.
      exists (-1), k2, (fr ++ l1), t1, pnew. split; [by apply mwhile_inr|right; split_and!; [done| |lia]].
      by apply (grown_undo new par_perm par_byte k0 l0 tnew pnew 0 j k1 l1 t1 pj1); [|lia|..].
Qed.
End copy.
End grow.
