(* ===== verification/CopySpec.v ===== *)
(** * Copying between kernel and user memory

    [copyout], [copyin] and [copyinstr] against the byte view of user
    memory: they transfer exactly the accessible prefix of the requested
    range, report whether that was all of it, and never touch a byte outside
    it, whatever addresses and lengths the user passed. *)

From Stdlib Require Import ZArith Lia.
From S2P Require Import Prelude Riscv KString Thread Kalloc Vm VmSpec AddrSpace UvmSpec GrowSpec.

Section copy.
Context {L : Layout} {LO : LayoutOk L}.
Context (n : nat) (th : T).
Context (l : list Z) (t : gmap (list Z) Z) (root : Z) (pgs : gmap Z upage) (Hown : user_owned pgs).

Lemma page_split va : 0 <= va ->
  PGROUNDDOWN va = va / PGSIZE * PGSIZE /\ va = va / PGSIZE * PGSIZE + va mod PGSIZE /\
  0 <= va mod PGSIZE < PGSIZE.
Proof.
  intros H. rewrite PGROUNDDOWN_eq. unfold PGSIZE.
  pose proof (Z.div_mod va 4096). pose proof (Z.mod_pos_bound va 4096). lia.
Qed.

Lemma uaddr_ubyte m va :
  ubyte m pgs va = None <->
  match pgs !! (va / PGSIZE) with Some u => has (up_perm u) PTE_U = false | None => True end.
Proof. unfold ubyte. destruct (pgs !! _) as [u|]; [|done]. by destruct (has _ _). Qed.

Lemma uaddr_page va : 0 <= va -> uaddr pgs (PGROUNDDOWN va) = uaddr pgs va.
Proof.
  intros H. destruct (page_split va H) as (-> & _). unfold uaddr. by rewrite Z.div_mul.
Qed.

(** A user page: its frame is an owned page, never 0. *)
Lemma uaddr_user k va :
  as_inv k l t root pgs -> uaddr pgs va <> 0 ->
  exists u, pgs !! (va / PGSIZE) = Some u /\ has (up_perm u) PTE_U = true /\ uaddr pgs va = up_pa u /\
    own_in pgs (up_pa u).
Proof.
  unfold uaddr. intros A. destruct (pgs !! _) as [u|] eqn:E; [|done].
  destruct (has _ _) eqn:EU; [|done]. intros _. exists u. split_and!; try done.
  exists (va / PGSIZE), u. eauto.
Qed.

Lemma uaddr_none k va :
  as_inv k l t root pgs -> uaddr pgs va = 0 <-> ubyte (mem k) pgs va = None.
Proof.
  intros A. unfold uaddr, ubyte. destruct (pgs !! _) as [u|] eqn:E; [|done].
  destruct (has _ _) eqn:EU; [|done]. split; [|done]. intros H0.
  destruct (as_own _ _ _ _ _ A (up_pa u)) as (Hv & _); [by exists (va / PGSIZE), u; eauto|].
  apply valid_page_pte in Hv. lia.
Qed.

(** Two user addresses share a frame only if they share a page. *)
Lemma frame_inj k va vb ua ub :
  as_inv k l t root pgs -> pgs !! (va / PGSIZE) = Some ua -> pgs !! (vb / PGSIZE) = Some ub ->
  has (up_perm ua) PTE_U = true -> has (up_perm ub) PTE_U = true ->
  va / PGSIZE <> vb / PGSIZE ->
  up_pa ua + PGSIZE <= up_pa ub \/ up_pa ub + PGSIZE <= up_pa ua.
Proof.
  intros A Ha Hb Ua Ub Hne.
  apply valid_page_disj.
  - apply (as_own _ _ _ _ _ A). exists (va / PGSIZE), ua. eauto.
  - apply (as_own _ _ _ _ _ A). exists (vb / PGSIZE), ub. eauto.
  - intros E. apply Hne. eapply (as_inj _ _ _ _ _ A); eauto.
Qed.

(** Writing the bytes [bs] into the page of [va] at the offset of [va]. *)
Lemma write_user k va u bs :
  as_inv k l t root pgs -> 0 <= va -> pgs !! (va / PGSIZE) = Some u -> has (up_perm u) PTE_U = true ->
  va mod PGSIZE + Z.of_nat (length bs) <= PGSIZE ->
  let k' := MkKmem (mem_write (mem k) (up_pa u + va mod PGSIZE) bs) (freelist k) in
  as_inv k' l t root pgs /\ same_outside (up_pa u) (mem k) (mem k') /\
  forall vb, 0 <= vb -> ubyte (mem k') pgs vb =
    if (va <=? vb) && (vb <? va + Z.of_nat (length bs)) then Some (u8 (nth (Z.to_nat (vb - va)) bs 0))
    else ubyte (mem k) pgs vb.
Proof.
  intros A Hva Hu HU Hlen k'. destruct (page_split va Hva) as (_ & Hs & Hm).
  assert (own_in pgs (up_pa u)) as Ho by (exists (va / PGSIZE), u; eauto).
  destruct (as_own _ _ _ _ _ A _ Ho) as (P1 & P2 & P3).
  assert (same_outside (up_pa u) (mem k) (mem k')) as Hso.
  { intros a Ha. cbn [mem k']. rewrite mem_write_ld. destruct (_ && _) eqn:E; [lia|done]. }
  split_and!; [|done|].
  - eapply (as_outside k l t root pgs k' l (up_pa u)); try done; [|auto].
    apply (kmem_inv_outside k (mem k') l (up_pa u)); try done. apply A.
  - intros vb Hvb. destruct (page_split vb Hvb) as (_ & Hsb & Hmb). unfold ubyte.
    destruct (Z.eq_dec (vb / PGSIZE) (va / PGSIZE)) as [E|E].
    + rewrite E, Hu, HU. cbn [mem k']. rewrite mem_write_ld.
      replace (up_pa u + vb mod PGSIZE - (up_pa u + va mod PGSIZE)) with (vb - va) by lia.
      destruct (_ && _) eqn:E1, ((va <=? vb) && _) eqn:E2; try done; lia.
    + destruct ((va <=? vb) && _) eqn:E2.
      { exfalso. unfold PGSIZE in *. lia. }
      destruct (pgs !! (vb / PGSIZE)) as [ub|] eqn:Eb; [|done].
      destruct (has (up_perm ub) PTE_U) eqn:EUb; [|done]. f_equal. apply Hso.
      destruct (frame_inj k vb va ub u A Eb Hu EUb HU E); lia.
Qed.

(** ** copyout *)

(** One iteration of the loop. *)
Lemma copyout_step k dstva src :
  as_inv k l t root pgs -> 0 <= dstva -> src <> [] ->
  copyout_body root (dstva, src, Z.of_nat (length src)) n (MkK th k) =
  if uaddr pgs dstva =? 0 then Ret (inr (-1)) (MkK th k) else
  let c := Z.min (PGSIZE - dstva mod PGSIZE) (Z.of_nat (length src)) in
  Ret (inl (u64 (PGROUNDDOWN dstva + PGSIZE), drop (Z.to_nat c) src, Z.of_nat (length src) - c))
    (MkK th (MkKmem (mem_write (mem k) (uaddr pgs dstva + dstva mod PGSIZE) (take (Z.to_nat c) src))
                    (freelist k))).
Proof.
  intros A Hd Hne. destruct (page_split dstva Hd) as (Epg & Hs & Hm).
  assert (0 <= PGROUNDDOWN dstva) as Hpg by (rewrite Epg; unfold PGSIZE in *; lia).
  assert (0 < Z.of_nat (length src)) as Hlen by (destruct src; [done|cbn; lia]).
  unfold copyout_body. destruct (0 <? _) eqn:E0; [|lia]. cbn [negb].
  rewrite (bind_ret _ _ _ _ _ _ (walkaddr_as n th k l t root pgs _ A Hpg)), uaddr_page by done.
  replace (dstva - PGROUNDDOWN dstva) with (dstva mod PGSIZE) by lia.
  destruct (_ =? 0); reflexivity.
Qed.

(** The address of the next page does not wrap: [dstva] is below [MAXVA]. *)
Lemma next_page k va :
  as_inv k l t root pgs -> 0 <= va -> uaddr pgs va <> 0 ->
  u64 (PGROUNDDOWN va + PGSIZE) = va + (PGSIZE - va mod PGSIZE).
Proof.
  intros A Hva Hu. destruct (uaddr_user k va A Hu) as (u & Eu & _).
  destruct (as_wf _ _ _ _ _ A _ _ Eu) as (Hb & _). change (MAXVA / PGSIZE) with NPG in Hb.
  destruct (page_split va Hva) as (-> & Hs & Hm). unfold PGSIZE, NPG in *. rewrite u64_small; lia.
Qed.

Lemma take_byte (src : list Z) c i :
  Forall (fun b => 0 <= b < 256) src -> (i < c)%nat -> (i < length src)%nat ->
  Some (u8 (nth i (take c src) 0)) = src !! i.
Proof.
  intros Hf Hi Hl. destruct (lookup_lt_is_Some_2 src i Hl) as [b Hb].
  rewrite nth_lookup, lookup_take, decide_True, Hb by done. cbn.
  rewrite Forall_lookup in Hf. by rewrite u8_small by exact (Hf i b Hb).
Qed.

Lemma copyout_loop fuel : forall k dstva src,
  as_inv k l t root pgs -> 0 <= dstva -> (length src < fuel)%nat -> Forall (fun b => 0 <= b < 256) src ->
  exists r k' c,
    mwhile fuel (copyout_body root) (dstva, src, Z.of_nat (length src)) n (MkK th k) = Ret r (MkK th k') /\
    as_inv k' l t root pgs /\ 0 <= c <= Z.of_nat (length src) /\
    (forall p, valid_page p -> ~ own_in pgs p -> page_same p (mem k) (mem k')) /\
    (forall va, 0 <= va -> ubyte (mem k') pgs va =
       if (dstva <=? va) && (va <? dstva + c) then src !! Z.to_nat (va - dstva) else ubyte (mem k) pgs va) /\
    (r = 0 /\ c = Z.of_nat (length src) \/
     r = -1 /\ c < Z.of_nat (length src) /\ ubyte (mem k) pgs (dstva + c) = None).
Proof.
  induction fuel as [|fuel IH]; intros k dstva src A Hd Hf Hby; [lia|].
  destruct (decide (src = [])) as [->|Hne].
  { exists 0, k, 0. split_and!; try done; [|by left].
    by intros va _; destruct (_ && _) eqn:E; [lia|]. }
  assert (0 < Z.of_nat (length src)) as Hlen by (destruct src; [done|cbn; lia]).
  pose proof (copyout_step k dstva src A Hd Hne) as Estep. destruct (page_split dstva Hd) as (_ & _ & Hm).
  destruct (Z.eqb_spec (uaddr pgs dstva) 0) as [E0|E0].
  { exists (-1), k, 0. split_and!; try done; [by apply mwhile_inr|lia|..].
    - by intros va _; destruct (_ && _) eqn:E; [lia|].
    - right. split_and!; [done|lia|]. rewrite Z.add_0_r. by apply (uaddr_none k). }
  cbv zeta in Estep. set (c := Z.min _ _) in Estep.
  destruct (uaddr_user k dstva A E0) as (u & Eu & HU & Ea & Ho).
  assert (length (take (Z.to_nat c) src) = Z.to_nat c) as Hltk by (rewrite length_take; lia).
  rewrite Ea, (next_page k) in Estep by done.
  destruct (write_user k dstva u (take (Z.to_nat c) src) A Hd Eu HU) as (A1 & S1 & U1); [lia|].
  replace (Z.of_nat (length src) - c) with (Z.of_nat (length (drop (Z.to_nat c) src))) in Estep
    by (rewrite length_drop; lia).
  rewrite (mwhile_inl _ _ _ _ _ _ _ Estep). clear Estep.
  destruct (IH _ (dstva + (PGSIZE - dstva mod PGSIZE)) (drop (Z.to_nat c) src) A1)
    as (r & k' & c' & E2 & A2 & Hc' & S2 & U2 & Hr); [lia|rewrite length_drop; lia|by apply Forall_drop|].
  rewrite length_drop in Hc', Hr. exists r, k', (c + c'). split_and!; try done; try lia.
  - intros p P1 P2. eapply page_same_trans; [|by apply S2].
    eapply same_outside_page; [exact S1|done|by apply (as_own _ _ _ _ _ A)|].
    intros ->. done.
  - intros va Hva. rewrite U2, U1, lookup_drop, Hltk by done.
    set (nx := dstva + (PGSIZE - dstva mod PGSIZE)).
    destruct ((nx <=? va) && (va <? nx + c')) eqn:E3.
    { destruct ((dstva <=? va) && (va <? dstva + (c + c'))) eqn:E4; [f_equal; lia|lia]. }
    destruct ((dstva <=? va) && (va <? dstva + Z.of_nat (Z.to_nat c))) eqn:E5;
      destruct ((dstva <=? va) && (va <? dstva + (c + c'))) eqn:E4; try lia; [|done].
    apply take_byte; [done|lia..].
  - destruct Hr as [[-> ->]|(-> & Hlt & Hn)]; [left; lia|right]. split_and!; [done|lia|].
    apply uaddr_ubyte. apply uaddr_ubyte in Hn.
    by replace (dstva + (c + c')) with (dstva + (PGSIZE - dstva mod PGSIZE) + c') by lia.
Qed.

(** ** copyin *)

(** The bytes read in one page. *)
Lemma read_user k va u c i :
  0 <= va -> pgs !! (va / PGSIZE) = Some u -> has (up_perm u) PTE_U = true ->
  va mod PGSIZE + Z.of_nat c <= PGSIZE -> (i < c)%nat ->
  mem_read (mem k) (up_pa u + va mod PGSIZE) c !! i = ubyte (mem k) pgs (va + Z.of_nat i).
Proof.
  intros Hva Hu HU Hc Hi. destruct (page_split va Hva) as (_ & Hs & Hm).
  unfold ubyte. assert ((va + Z.of_nat i) / PGSIZE = va / PGSIZE) as E.
  { symmetry. apply (Z.div_unique _ _ _ (va mod PGSIZE + Z.of_nat i)); lia. }
  assert ((va + Z.of_nat i) mod PGSIZE = va mod PGSIZE + Z.of_nat i) as E'.
  { rewrite Z.mod_eq by done. rewrite E. lia. }
  rewrite E, Hu, HU, E'. unfold mem_read. rewrite list_lookup_fmap, lookup_seq_lt by done.
  cbn. do 2 f_equal. lia.
Qed.

Lemma copyin_loop k fuel : as_inv k l t root pgs -> forall srcva dst len,
  0 <= srcva -> 0 <= len -> (Z.to_nat len < fuel)%nat ->
  exists r bs,
    mwhile fuel (copyin_body root) (srcva, dst, len) n (MkK th k) = Ret (r, dst ++ bs) (MkK th k) /\
    (forall i, (i < length bs)%nat -> bs !! i = ubyte (mem k) pgs (srcva + Z.of_nat i)) /\
    (r = 0 /\ Z.of_nat (length bs) = len \/
     r = -1 /\ Z.of_nat (length bs) < len /\ ubyte (mem k) pgs (srcva + Z.of_nat (length bs)) = None).
Proof.
  intros A. induction fuel as [|fuel IH]; intros srcva dst len Hs Hl Hf; [lia|].
  destruct (page_split srcva Hs) as (Epg & Hsp & Hm).
  assert (0 <= PGROUNDDOWN srcva) as Hpg by (rewrite Epg; unfold PGSIZE in *; lia).
  destruct (decide (len = 0)) as [->|Hne].
  { exists 0, []. rewrite app_nil_r. split_and!; [done| |by left]. cbn. intros; lia. }
  assert (copyin_body root (srcva, dst, len) n (MkK th k) =
    if uaddr pgs srcva =? 0 then Ret (inr (-1, dst)) (MkK th k) else
    let c := Z.min (PGSIZE - srcva mod PGSIZE) len in
    Ret (inl (u64 (PGROUNDDOWN srcva + PGSIZE),
              dst ++ mem_read (mem k) (uaddr pgs srcva + srcva mod PGSIZE) (Z.to_nat c), len - c))
      (MkK th k)) as Estep.
  { unfold copyin_body. destruct (0 <? _) eqn:E0; [|lia]. cbn [negb].
    rewrite (bind_ret _ _ _ _ _ _ (walkaddr_as n th k l t root pgs _ A Hpg)), uaddr_page by done.
    replace (srcva - PGROUNDDOWN srcva) with (srcva mod PGSIZE) by lia.
    destruct (_ =? 0); reflexivity. }
  destruct (Z.eqb_spec (uaddr pgs srcva) 0) as [E0|E0].
  { exists (-1), []. rewrite app_nil_r. split_and!; [by apply mwhile_inr|cbn; intros; lia|].
    right. split_and!; [done|cbn; lia|]. rewrite Z.add_0_r. by apply (uaddr_none k). }
  cbv zeta in Estep. destruct (uaddr_user k srcva A E0) as (u & Eu & HU & Ea & _).
  rewrite Ea, (next_page k) in Estep by done. set (c := Z.min _ _) in Estep.
  rewrite (mwhile_inl _ _ _ _ _ _ _ Estep). clear Estep Epg Hpg Hsp.
  set (b := mem_read _ _ _). assert (length b = Z.to_nat c) as Hb by apply mem_read_length.
  destruct (IH (srcva + (PGSIZE - srcva mod PGSIZE)) (dst ++ b) (len - c)) as (r & bs & E & Hbs & Hr); try lia.
  exists r, (b ++ bs). rewrite app_assoc, length_app, Hb. split_and!; [done|..].
  - intros i Hi. destruct (decide (i < Z.to_nat c)%nat) as [Hic|Hic].
    + rewrite lookup_app_l by lia. apply read_user; [done..|lia|done].
    + rewrite lookup_app_r, Hb, Hbs by lia. f_equal. lia.
  - destruct Hr as [[-> Hr]|(-> & Hr & Hn)]; [left; lia|right]. split_and!; [done|lia|].
    rewrite <- Hn. f_equal. lia.
Qed.

(** ** copyinstr *)

Lemma copyinstr_bytes_spec m c : forall p,
  let '(b, g) := copyinstr_bytes m c p in
  if (g : bool)
  then exists j, (j < c)%nat /\ b = mem_read m p j ++ [0] /\ ld m (p + Z.of_nat j) = 0 /\
    Forall (fun x => x <> 0) (mem_read m p j)
  else b = mem_read m p c /\ Forall (fun x => x <> 0) b.
Proof.
  induction c as [|c IH]; intros p; cbn [copyinstr_bytes]; [done|].
  destruct (Z.eqb_spec (ld m p) 0) as [E|E].
  { exists 0%nat. split_and!; [lia|done| |done]. by rewrite Z.add_0_r. }
  specialize (IH (p + 1)). destruct (copyinstr_bytes m c (p + 1)) as [b g]. destruct g.
  - destruct IH as (j & Hj & -> & Hz & Hf). exists (S j). rewrite mem_read_S. split_and!; [lia|done| |].
    + rewrite <- Hz. f_equal. lia.
    + by constructor.
  - destruct IH as [-> Hf]. rewrite mem_read_S. split; [done|by constructor].
Qed.

Lemma copyinstr_step k srcva dst max :
  as_inv k l t root pgs -> 0 <= srcva -> 0 < max ->
  copyinstr_body root (srcva, dst, max, false) n (MkK th k) =
  if uaddr pgs srcva =? 0 then Ret (inr (-1, dst)) (MkK th k) else
  let c := Z.min (PGSIZE - srcva mod PGSIZE) max in
  let '(b, g) := copyinstr_bytes (mem k) (Z.to_nat c) (uaddr pgs srcva + srcva mod PGSIZE) in
  Ret (inl (u64 (PGROUNDDOWN srcva + PGSIZE), dst ++ b,
            if g then max - (Z.of_nat (length b) - 1) else max - c, g)) (MkK th k).
Proof.
  intros A Hs Hmax. destruct (page_split srcva Hs) as (Epg & Hsp & Hm).
  assert (0 <= PGROUNDDOWN srcva) as Hpg by (rewrite Epg; unfold PGSIZE in *; lia).
  unfold copyinstr_body. destruct (0 <? _) eqn:E0; [|lia]. cbn [negb orb].
  rewrite (bind_ret _ _ _ _ _ _ (walkaddr_as n th k l t root pgs _ A Hpg)), uaddr_page by done.
  replace (srcva - PGROUNDDOWN srcva) with (srcva mod PGSIZE) by lia.
  destruct (_ =? 0); [reflexivity|]. cbv zeta. unfold getX, gets. mred. cbn [own thr].
  by destruct (copyinstr_bytes _ _ _).
Qed.

Lemma copyinstr_loop k fuel : as_inv k l t root pgs -> forall srcva dst max,
  0 <= srcva -> 0 <= max -> (Z.to_nat max < fuel)%nat ->
  exists r bs,
    mwhile fuel (copyinstr_body root) (srcva, dst, max, false) n (MkK th k) = Ret (r, dst ++ bs) (MkK th k) /\
    (forall i, (i < length bs)%nat -> bs !! i = ubyte (mem k) pgs (srcva + Z.of_nat i)) /\
    (r = 0 /\ (exists s, bs = s ++ [0] /\ Forall (fun x => x <> 0) s) /\ Z.of_nat (length bs) <= max \/
     r = -1 /\ Forall (fun x => x <> 0) bs /\
       (Z.of_nat (length bs) = max \/
        Z.of_nat (length bs) < max /\ ubyte (mem k) pgs (srcva + Z.of_nat (length bs)) = None)).
Proof.
  intros A. induction fuel as [|fuel IH]; intros srcva dst max Hs Hl Hf; [lia|].
  destruct (decide (max = 0)) as [->|Hne].
  { exists (-1), []. rewrite app_nil_r. split_and!; [done|cbn; intros; lia|right]. auto. }
  pose proof (copyinstr_step k srcva dst max A Hs ltac:(lia)) as Estep.
  destruct (Z.eqb_spec (uaddr pgs srcva) 0) as [E0|E0].
  { exists (-1), []. rewrite app_nil_r. split_and!; [by apply mwhile_inr|cbn; intros; lia|].
    right. split_and!; [done..|right]. split; [cbn; lia|]. rewrite Z.add_0_r. by apply (uaddr_none k). }
  cbv zeta in Estep. destruct (uaddr_user k srcva A E0) as (u & Eu & HU & Ea & _).
  rewrite Ea, (next_page k) in Estep by done. set (c := Z.min _ _) in Estep.
  destruct (page_split srcva Hs) as (_ & _ & Hm).
  pose proof (copyinstr_bytes_spec (mem k) (Z.to_nat c) (up_pa u + srcva mod PGSIZE)) as Hcb.
  destruct (copyinstr_bytes _ _ _) as [b g]. rewrite (mwhile_inl _ _ _ _ _ _ _ Estep). clear Estep.
  destruct g.
  - destruct Hcb as (j & Hj & -> & Hz & Hnz). exists 0, (mem_read (mem k) (up_pa u + srcva mod PGSIZE) j ++ [0]).
    rewrite length_app, mem_read_length. split_and!.
    + destruct fuel as [|fuel]; [lia|]. by apply mwhile_inr.
    + cbn. intros i Hi. destruct (decide (i = j)) as [->|Hij].
      * rewrite lookup_app_r, mem_read_length, Nat.sub_diag by (rewrite mem_read_length; lia).
        rewrite <- (read_user k srcva u (S j) j) by (done || lia).
        unfold mem_read. rewrite list_lookup_fmap, lookup_seq_lt by lia. cbn. by rewrite Hz.
      * rewrite lookup_app_l by (rewrite mem_read_length; lia). apply read_user; [done..|lia|lia].
    + left. split_and!; [done|by eexists|cbn; lia].
  - destruct Hcb as [-> Hnz]. set (b := mem_read _ _ _) in *.
    assert (length b = Z.to_nat c) as Hb by apply mem_read_length.
    destruct (IH (srcva + (PGSIZE - srcva mod PGSIZE)) (dst ++ b) (max - c)) as (r & bs & E & Hbs & Hr); try lia.
    exists r, (b ++ bs). rewrite app_assoc, length_app, Hb. split_and!; [done|..].
    + intros i Hi. destruct (decide (i < Z.to_nat c)%nat) as [Hic|Hic].
      * rewrite lookup_app_l by lia. apply read_user; [done..|lia|done].
      * rewrite lookup_app_r, Hb, Hbs by lia. f_equal. lia.
    + destruct Hr as [(-> & (s & -> & Hs') & Hlen)|(-> & Hf' & Hr)]; [left|right].
      * split_and!; [done| |lia]. exists (b ++ s). rewrite app_assoc. split; [done|by apply Forall_app].
      * split_and!; [done|by apply Forall_app|]. destruct Hr as [Hr|[Hr Hn]]; [left; lia|right].
        split; [lia|]. rewrite <- Hn. f_equal. lia.
Qed.
End copy.
