(* ===== verification/FreeSpec.v ===== *)
(** * Tearing down an address space

    [freewalk] returns every page-table page to the allocator, and
    [uvmfree] and [proc_freepagetable] give back everything the address
    space owned: nothing leaks and nothing is freed twice. *)

From Stdlib Require Import ZArith Lia.
From S2P Require Import Prelude Riscv KString Thread Kalloc Vm VmSpec AddrSpace UvmSpec GrowSpec.

(** The slot [i] of the table at [π], as an empty address space has it:
    tables point to tables and leaf entries are invalid. *)
Definition slot_ok (m : gmap Z Z) (t : gmap (list Z) Z) (π : list Z) (i : Z) : Prop :=
  forall p, t !! π = Some p ->
    match t !! (π ++ [i]) with
    | Some q => ld64 m (p + 8 * i) = Z.lor (PA2PTE q) PTE_V
    | None => has (ld64 m (p + 8 * i)) PTE_V = false
    end.

(** The pages of the tables below [π]. *)
Definition below (t : gmap (list Z) Z) (π : list Z) (p : Z) : Prop := exists σ, t !! (π ++ σ) = Some p.

Section free.
Context {L : Layout} {LO : LayoutOk L}.
Context (n : nat) (th : T) (Hcpu : cpu_ok th) (Hlk : lks th !! LkKmem = None).
Context (t : gmap (list Z) Z)
  (Hvalid : forall π p, t !! π = Some p -> valid_page p /\ (length π <= 2)%nat)
  (Hinj : forall π π' p, t !! π = Some p -> t !! π' = Some p -> π = π')
  (Hclosed : forall π i q, t !! (π ++ [i]) = Some q -> is_Some (t !! π) /\ idx_ok π i).

Lemma table_not_leaf q : valid_page q ->
  Z.land (Z.lor (PA2PTE q) PTE_V) (Z.lor (Z.lor PTE_R PTE_W) PTE_X) = 0.
Proof.
  intros Hq. apply Z.bits_inj_0. intros i. rewrite Z.land_spec, Z.lor_spec.
  destruct (Z.testbit (Z.lor (Z.lor PTE_R PTE_W) PTE_X) i) eqn:E; [|apply andb_false_r].
  assert (i = 1 \/ i = 2 \/ i = 3) as Hi.
  { change (Z.lor (Z.lor PTE_R PTE_W) PTE_X) with 14 in E.
    destruct (Z.lt_ge_cases i 0) as [H|H]; [by rewrite Z.testbit_neg_r in E|].
    destruct (Z.lt_ge_cases i 4) as [H'|H'].
    - assert (i = 0 \/ i = 1 \/ i = 2 \/ i = 3) as [->|?] by lia; [done|lia].
    - rewrite Z.bits_above_log2 in E; [done|lia|]. change (Z.log2 14) with 3. lia. }
  rewrite PA2PTE_low by lia. by destruct Hi as [->|[->| ->]].
Qed.

Lemma below_closed π p : below t π p -> is_Some (t !! π).
Proof.
  intros [σ H]. revert p H. induction σ as [|i σ IH] using rev_ind; intros p H.
  - rewrite app_nil_r in H. eauto.
  - rewrite app_assoc in H. apply Hclosed in H as [[q Hq] _]. eauto.
Qed.

Lemma below_cons π i p : below t (π ++ [i]) p -> 0 <= i < 512.
Proof. intros [q Hq]%below_closed. eapply idx_ok_512. by eapply Hclosed. Qed.

(** What is below [π]: its own page and what is below its slots. *)
Lemma below_split π p r : t !! π = Some r -> below t π p <-> p = r \/ exists i, 0 <= i < 512 /\ below t (π ++ [i]) p.
Proof.
  intros Hr. split.
  - intros [σ H]. destruct σ as [|i σ]; [rewrite app_nil_r in H; left; congruence|right].
    assert (below t (π ++ [i]) p) as Hb by (exists σ; by rewrite <- app_assoc).
    exists i. split; [by eapply below_cons|done].
  - intros [->|(i & _ & σ & H)]; [exists []; by rewrite app_nil_r|]. exists (i :: σ). by rewrite <- app_assoc in H.
Qed.

(** Subtrees of different slots, and the table itself, are apart. *)
Lemma below_apart π i j p q :
  i <> j -> below t (π ++ [i]) p -> below t (π ++ [j]) q -> p <> q.
Proof.
  intros Hne [σ H1] [σ' H2] ->. apply (Hinj _ _ _ H1) in H2.
  rewrite <- !app_assoc in H2. apply app_inv_head in H2. by injection H2.
Qed.

Lemma below_self π i r q : t !! π = Some r -> below t (π ++ [i]) q -> q <> r.
Proof.
  intros H1 [σ H2] ->. apply (Hinj _ _ _ H1) in H2. apply (f_equal length) in H2.
  rewrite !length_app in H2. cbn in H2. lia.
Qed.

(** The slots from [j] on of the table at [π], and everything below them. *)
Definition todo (m : gmap Z Z) (π : list Z) (j : Z) : Prop :=
  (forall i, j <= i < 512 -> slot_ok m t π i) /\
  (forall i σ i', j <= i < 512 -> 0 <= i' < 512 -> slot_ok m t ((π ++ [i]) ++ σ) i').

Lemma slot_ok_same m m' π i p :
  t !! π = Some p -> 0 <= i < 512 -> (forall a, p + 8 * i <= a < p + 8 * i + 8 -> ld m' a = ld m a) ->
  slot_ok m t π i -> slot_ok m' t π i.
Proof.
  intros Hp Hi Hs H p' Hp'. assert (p' = p) as -> by congruence.
  rewrite (ld64_ext m m') by done. by apply H.
Qed.

Lemma todo_frame m m' π p j :
  t !! π = Some p -> 0 <= j ->
  (forall a, p + 8 * j <= a < p + PGSIZE -> ld m' a = ld m a) ->
  (forall i q, j <= i < 512 -> below t (π ++ [i]) q -> page_same q m m') ->
  todo m π j -> todo m' π j.
Proof.
  intros Hp Hj Hs Hb [T1 T2]. split.
  - intros i Hi. eapply (slot_ok_same m m'); [done|lia| |by apply T1].
    intros a Ha. apply Hs. unfold PGSIZE. lia.
  - intros i σ i' Hi Hi' q Hq. specialize (T2 i σ i' Hi Hi').
    eapply (slot_ok_same m m'); [done..| |done|done].
    intros a Ha. apply (Hb i q Hi); [by exists σ|]. unfold PGSIZE. lia.
Qed.

(** The specification of [freewalk_rec] at depth [d]. *)
Definition freewalk_ok (d : nat) : Prop := forall π p k l,
  (3 <= length π + d)%nat -> t !! π = Some p -> kmem_inv k l ->
  (forall σ i, 0 <= i < 512 -> slot_ok (mem k) t (π ++ σ) i) ->
  (forall q, below t π q -> q ∉ l) ->
  exists k' l', freewalk_rec d p n (MkK th k) = Ret tt (MkK th k') /\ kmem_inv k' l' /\
    (forall q, q ∈ l' <-> q ∈ l \/ below t π q) /\
    (forall q, valid_page q -> q ∉ l -> ~ below t π q -> page_same q (mem k) (mem k')).

Lemma freewalk_loop d π p : freewalk_ok d -> (3 <= length π + S d)%nat -> t !! π = Some p ->
  forall cnt j k l, Z.of_nat cnt = 512 - j -> 0 <= j -> kmem_inv k l -> todo (mem k) π j ->
  (forall i q, j <= i < 512 -> below t (π ++ [i]) q -> q ∉ l) -> p ∉ l ->
  exists k' l', meach cnt j (freewalk_body (freewalk_rec d) p) n (MkK th k) = Ret tt (MkK th k') /\ kmem_inv k' l' /\
    (forall q, q ∈ l' <-> q ∈ l \/ (exists i, j <= i < 512 /\ below t (π ++ [i]) q)) /\
    (forall q, valid_page q -> q ∉ l -> q <> p -> (forall i, j <= i < 512 -> ~ below t (π ++ [i]) q) ->
       page_same q (mem k) (mem k')).
Proof.
  intros Hd Hlen Hp. destruct (Hvalid _ _ Hp) as [Hvp _].
  induction cnt as [|cnt IH]; intros j k l Hc Hj Hk [T1 T2] Hl Hpl.
  { exists k, l. split_and!; try done. intros q. split; [auto|]. intros [?|(i & ? & _)]; [done|lia]. }
  assert (todo (mem k) π (j + 1)) as T' by (split; intros; [apply T1|apply T2]; lia).
  assert (exists k1 l1, freewalk_body (freewalk_rec d) p j n (MkK th k) = Ret tt (MkK th k1) /\ kmem_inv k1 l1 /\
    (forall q, q ∈ l1 <-> q ∈ l \/ below t (π ++ [j]) q) /\ todo (mem k1) π (j + 1) /\
    (forall q, valid_page q -> q ∉ l -> q <> p -> ~ below t (π ++ [j]) q -> page_same q (mem k) (mem k1)))
    as (k1 & l1 & E1 & Hk1 & Hl1 & T & S1).
  - unfold freewalk_body. rewrite load64_bind. specialize (T1 j ltac:(lia) p Hp).
    destruct (t !! (π ++ [j])) as [q|] eqn:Eq.
    + destruct (Hvalid _ _ Eq) as [Hvq _].
      rewrite T1, has_V_table, table_not_leaf, pte_table_pa by done. cbn [andb Z.eqb].
      destruct (Hd (π ++ [j]) q k l) as (k1 & l1 & E1 & Hk1 & Hl1 & S1); try done.
      { rewrite length_app. cbn. lia. } { intros σ i Hi. by apply T2; [lia|]. } { intros q'. apply Hl. lia. }
      rewrite (bind_ret _ _ _ _ _ _ E1).
      assert (p ∉ l1) as Hpl1 by (rewrite Hl1; intros [?|Hb]; [done|by eapply (below_self π j)]).
      assert (~ below t (π ++ [j]) p) as Hpb by (intros Hb; by eapply (below_self π j)).
      exists (MkKmem (st64 (mem k1) (p + 8 * j) 0) (freelist k1)), l1. split_and!; try done.
      * apply store64_inv; try done. unfold PGSIZE. lia.
      * apply (todo_frame (mem k) _ π p (j + 1)); try done; [lia|..].
        { intros a Ha. cbn [mem]. rewrite st64_ld by lia. by apply (S1 p); [..|lia]. }
        intros i q' Hi Hb a Ha. cbn [mem].
        assert (valid_page q') as Hvq' by (destruct Hb as [σ Hb]; by eapply Hvalid).
        rewrite st64_ld.
        { apply (S1 q'); try done; [by apply (Hl i); [lia|]|]. intros Hb'.
          by apply (below_apart π i j q' q'); [lia|..]. }
        destruct (valid_page_disj q' p Hvq' Hvp); [by eapply (below_self π i)|unfold PGSIZE in *; lia..].
      * intros q' P1 P2 P3 P4 a Ha. cbn [mem]. rewrite st64_ld; [by apply (S1 q')|].
        destruct (valid_page_disj q' p P1 Hvp P3); unfold PGSIZE in *; lia.
    + rewrite T1. exists k, l. split_and!; try done. intros q. split; [auto|].
      intros [?|Hb]; [done|]. apply below_closed in Hb as [? ?]. congruence.
  - rewrite (meach_next _ _ _ _ _ _ E1).
    destruct (IH (j + 1) k1 l1) as (k' & l' & E2 & Hk' & Hl' & S2); try done; try lia.
    { intros i q Hi Hb. rewrite Hl1. intros [?|?]; [by apply (Hl i q); [lia|..]|].
      by apply (below_apart π i j q q); [lia|..]. }
    { rewrite Hl1. intros [?|?]; [done|]. by eapply (below_self π j). }
    exists k', l'. split_and!; try done.
    + intros q. rewrite Hl', Hl1. split.
      * intros [[?|?]|(i & ? & ?)]; [by left|right; exists j; split; [lia|done]|right; exists i; split; [lia|done]].
      * intros [?|(i & ? & ?)]; [auto|]. destruct (decide (i = j)) as [->|]; [auto|].
        right. exists i. split; [lia|done].
    + intros q P1 P2 P3 P4. eapply page_same_trans; [apply S1; try done; apply P4; lia|].
      apply S2; try done; [rewrite Hl1; intros [?|?]; [done|]; by apply (P4 j); [lia|]|].
      intros i Hi. apply P4. lia.
Qed.

Lemma freewalk_rec_ok d : freewalk_ok d.
Proof.
  induction d as [|d IH]; intros π p k l Hlen Hp Hk Hs Hl.
  { destruct (Hvalid _ _ Hp). lia. }
  destruct (Hvalid _ _ Hp) as [Hvp _].
  assert (p ∉ l) as Hpl by (apply Hl; exists []; by rewrite app_nil_r).
  assert (forall i q, 0 <= i < 512 -> below t (π ++ [i]) q -> below t π q) as Hsub.
  { intros i q Hi Hb. rewrite (below_split π q p Hp). right. by exists i. }
  destruct (freewalk_loop d π p IH Hlen Hp 512 0 k l) as (k1 & l1 & E1 & Hk1 & Hl1 & S1); try done.
  { split; [intros i Hi; specialize (Hs [] i Hi); by rewrite app_nil_r in Hs|].
    intros i σ i' Hi Hi'. rewrite <- app_assoc. by apply Hs. }
  { intros i q Hi Hb. apply Hl. by eapply Hsub. }
  assert (p ∉ l1) as Hpl1.
  { rewrite Hl1. intros [?|(i & _ & Hb)]; [done|]. by eapply (below_self π i). }
  destruct (kfree_spec n th k1 l1 p Hcpu Hlk Hk1 Hvp Hpl1) as (k2 & E2 & Hk2 & S2).
  exists k2, (p :: l1). split_and!; try done.
  - cbn [freewalk_rec].
    by rewrite (bind_ret _ _ _ _ _ _ E1).
  - intros q. rewrite elem_of_cons, Hl1, (below_split π q p Hp).
    split; intros [?|[?|?]]; auto.
  - intros q P1 P2 P3. assert (q <> p) as Hqp by (intros ->; apply P3; exists []; by rewrite app_nil_r).
    eapply page_same_trans; [apply S1; try done; intros i Hi Hb; apply P3; by eapply Hsub|].
    by eapply same_outside_page.
Qed.
End free.

Section uvmfree.
Context {L : Layout} {LO : LayoutOk L}.
Context (n : nat) (th : T) (Hcpu : cpu_ok th) (Hlk : lks th !! LkKmem = None).

(** [freewalk] of an address space in which nothing is mapped. *)
Lemma freewalk_spec k l t root :
  as_inv k l t root ∅ -> (3 <= n)%nat ->
  exists k' l', freewalk root n (MkK th k) = Ret tt (MkK th k') /\ kmem_inv k' l' /\
    (forall q, q ∈ l' <-> q ∈ l \/ pt_owns t q) /\ data_kept l t (mem k) (mem k').
Proof.
  intros A Hn. pose proof (as_vm _ _ _ _ _ A) as V. pose proof (vi_rep _ _ _ _ V) as [R1 R2 R3 R4 R5].
  assert (forall p, below t [] p <-> pt_owns t p) as Hb by done.
  destruct (freewalk_rec_ok n th Hcpu Hlk t R2 R3 R4 n [] root k l) as (k' & l' & E & Hk & Hl & Hs); try done.
  - apply V.
  - intros π i Hi p Hp. cbn [app] in *. destruct (R2 _ _ Hp) as [_ Hle].
    destruct (decide (length π < 2)%nat) as [Hlt|Hlt]; [by apply R5|].
    destruct π as [|i2 [|i1 [|]]]; try (cbn in *; lia).
    destruct (t !! ([i2; i1] ++ [i])) as [q|] eqn:Eq; [apply R2 in Eq as [_ Eq]; cbn in Eq; lia|].
    destruct (R4 [i2] i1 p Hp) as [[p1 Hp1] H1]. destruct (R4 [] i2 p1 Hp1) as [_ H2].
    apply idx_ok_512 in H1.
    destruct (va_of_path i2 i1 i H2 H1 Hi) as (va & Hva & E2 & E1 & E0).
    pose proof (as_pte _ _ _ _ _ A va Hva) as Hpte. rewrite lookup_empty in Hpte.
    unfold pte_of, leaf in Hpte. by rewrite E2, E1, Hp, E0 in Hpte.
  - intros q Hq. by apply V.
  - by exists k', l'.
Qed.

(** The address space holds the [npages sz] user pages and nothing else. *)
Lemma uvmfree_spec k l t root pgs sz :
  as_inv k l t root pgs -> 0 <= sz <= TRAPFRAME -> range_owned pgs 0 (Z.to_nat (npages sz)) true ->
  (forall v, is_Some (pgs !! v) -> 0 <= v < npages sz) -> (3 <= n)%nat -> npages sz < Z.of_nat n ->
  exists k' l', uvmfree root sz n (MkK th k) = Ret tt (MkK th k') /\ kmem_inv k' l' /\
    (forall q, q ∈ l' <-> accounted l t pgs q) /\
    (forall q, valid_page q -> ~ accounted l t pgs q -> page_same q (mem k) (mem k')).
Proof.
  intros A Hsz Hr Honly Hn3 Hfu. pose proof (npages_bound sz Hsz) as Bn. unfold uvmfree.
  assert (exists k1 l1, mwhen (0 <? sz) (uvmunmap root 0 (PGROUNDUP sz / PGSIZE) true) n (MkK th k) =
      Ret tt (MkK th k1) /\ as_inv k1 l1 t root ∅ /\ (forall q, accounted l1 t ∅ q <-> accounted l t pgs q) /\
      data_kept l1 t (mem k) (mem k1)) as (k1 & l1 & E1 & A1 & Ac1 & D1).
  { assert (unmap_range (Z.to_nat (npages sz)) 0 pgs = ∅) as Hempty.
    { apply map_eq. intros v. rewrite unmap_range_lookup, lookup_empty.
      destruct (_ && _) eqn:E; [done|]. destruct (pgs !! v) eqn:Ev; [|done].
      specialize (Honly v). rewrite Ev in Honly. specialize (Honly ltac:(eauto)). lia. }
    destruct (uvmunmap_spec n th Hcpu Hlk k l t root pgs 0 (Z.to_nat (npages sz)) true A)
      as (k1 & fr & E & A1 & Ac & D); try done; try lia.
    rewrite Hempty in A1, Ac. destruct (0 <? sz) eqn:E0; cbn [mwhen].
    - exists k1, (fr ++ l). split_and!; try done. unfold npages in E. by rewrite Z2Nat.id in E by (fold (npages sz); lia).
    - assert (sz = 0) as -> by lia. change (pgs = ∅) in Hempty. rewrite Hempty in *.
      by exists k, l. }
  destruct (freewalk_spec k1 l1 t root A1 Hn3) as (k2 & l2 & E2 & Hk2 & Hl2 & D2).
  assert (forall q, q ∈ l2 <-> accounted l t pgs q) as Hq.
  { intros q. rewrite Hl2, <- Ac1. unfold accounted.
    assert (~ own_in ∅ q) by (intros (v & u & Hv & _); by rewrite lookup_empty in Hv). naive_solver. }
  rewrite (bind_ret _ _ _ _ _ _ E1). exists k2, l2. split_and!; try done.
  intros q P1 P2. rewrite <- Hq, Hl2 in P2. eapply page_same_trans; [apply D1|apply D2]; auto.
Qed.
End uvmfree.
