(* ===== verification/VmTheorems.v ===== *)
(** * Theorems on virtual memory

    The properties of vm.c and of the page-table functions of proc.c, stated
    over the address-space view, with concrete address spaces at which they
    apply. *)

From Stdlib Require Import ZArith Lia.
From S2P Require Import Prelude Riscv KString Thread Kalloc Vm VmSpec AddrSpace UvmSpec GrowSpec CopySpec FreeSpec.

(** The mappings every process has beside its own memory. *)
Definition sys_pages {L : Layout} (tf : Z) : gmap Z upage :=
  <[NPG - 2 := MkUp tf (Z.lor PTE_R PTE_W) false]>
    (<[NPG - 1 := MkUp trampoline (Z.lor PTE_R PTE_X) false]> ∅).

Section procpt.
Context {L : Layout} {LO : LayoutOk L}.
Context (n : nat) (th : T) (Hcpu : cpu_ok th) (Hlk : lks th !! LkKmem = None).

Lemma trampoline_pa : 0 <= trampoline < 2 ^ 56 /\ trampoline mod 4096 = 0.
Proof.
  pose proof trampoline_range. pose proof trampoline_aligned. pose proof etext_range. pose proof kend_range.
  unfold KERNBASE, PHYSTOP, PGSIZE in *. split; [unfold KERNBASE in *; lia|done].
Qed.

(** An empty page table: one zeroed page. *)
Lemma as_empty k l q :
  kmem_inv k l -> valid_page q -> q ∉ l -> (forall a, q <= a < q + PGSIZE -> ld (mem k) a = 0) ->
  as_inv k l {[ [] := q ]} q ∅.
Proof.
  intros Hk Hq Hl Hz. split.
  - split; [done|split|].
    + by rewrite lookup_singleton_eq.
    + intros π p [<- <-]%lookup_singleton_Some. split; [done|cbn; lia].
    + by intros π π' p [<- _]%lookup_singleton_Some [<- _]%lookup_singleton_Some.
    + intros π i p [E _]%lookup_singleton_Some. by destruct π.
    + intros π p i [<- <-]%lookup_singleton_Some _ Hi. rewrite lookup_singleton_ne by done.
      by rewrite (zeroed_slot (mem k) q i Hi Hz).
    + by intros p [π [_ <-]%lookup_singleton_Some].
  - intros v Hv. rewrite lookup_empty. unfold pte_of, leaf. by rewrite lookup_singleton_ne.
  - intros vpn u H. by rewrite lookup_empty in H.
  - intros p (v & u & H & _). by rewrite lookup_empty in H.
  - intros v1 v2 u1 u2 H. by rewrite lookup_empty in H.
Qed.

Lemma accounted_empty l q p : accounted l {[ [] := q ]} ∅ p <-> p = q \/ p ∈ l.
Proof.
  unfold accounted, pt_owns, own_in. split.
  - intros [?|[[π [_ <-]%lookup_singleton_Some]|(v & u & H & _)]]; [auto|auto|by rewrite lookup_empty in H].
  - intros [->|?]; [right; left; exists []; apply lookup_singleton_eq|auto].
Qed.

(** [uvmcreate] takes one page off the free list, or fails without change. *)
Lemma uvmcreate_spec k l :
  kmem_inv k l ->
  match l with
  | [] => uvmcreate n (MkK th k) = Ret 0 (MkK th k)
  | q :: l' => exists k', uvmcreate n (MkK th k) = Ret q (MkK th k') /\ as_inv k' l' {[ [] := q ]} q ∅ /\
      same_outside q (mem k) (mem k') /\ q <> 0
  end.
Proof.
  intros Hk. pose proof (kalloc_spec n th k l Hcpu Hlk Hk) as E. unfold uvmcreate.
  destruct l as [|q l]; [by rewrite (bind_ret _ _ _ _ _ _ E)|].
  destruct E as (k1 & E & Hk1 & S1 & _).
  assert (valid_page q) as Hq by (destruct Hk as [_ _ ?%Forall_cons_1]; naive_solver).
  assert (q ∉ l) as Hql by (destruct Hk as [_ ?%NoDup_cons_1_1 _]; done).
  destruct (kmemset_zero n th k1 q l Hq Hql Hk1) as (m1 & Em & Hf2 & Ho1 & Hz).
  pose proof (valid_page_pte q Hq) as (_ & _ & Hq0).
  exists (MkKmem m1 (freelist k1)). rewrite (bind_ret _ _ _ _ _ _ E).
  destruct (Z.eqb_spec q 0); [done|]. rewrite (bind_ret _ _ _ _ _ _ Em).
  split_and!; [done|by apply as_empty|by eapply same_outside_trans|done].
Qed.

Lemma own_in_sys tf p : ~ own_in (sys_pages tf) p.
Proof.
  unfold sys_pages. intros (v & u & [[_ <-]|[_ [[_ <-]|[_ H]]%lookup_insert_Some]]%lookup_insert_Some & Ho & _); try done.
Qed.

Lemma accounted_nofree l t pgs pgs' :
  (forall p, ~ own_in pgs p) -> (forall p, ~ own_in pgs' p) ->
  forall p, accounted l t pgs p <-> accounted l t pgs' p.
Proof. intros H1 H2 p. unfold accounted. specialize (H1 p). specialize (H2 p). tauto. Qed.

(** Giving up an address space in which nothing is owned. *)
Lemma uvmfree_empty k l t root :
  as_inv k l t root ∅ -> (3 <= n)%nat ->
  exists k' l', uvmfree root 0 n (MkK th k) = Ret tt (MkK th k') /\ kmem_inv k' l' /\
    (forall q, q ∈ l' <-> accounted l t ∅ q) /\
    (forall q, valid_page q -> ~ accounted l t ∅ q -> page_same q (mem k) (mem k')).
Proof.
  intros A Hn. apply uvmfree_spec; try done; try lia.
  - intros v Hv. change (Z.to_nat (npages 0)) with 0%nat in Hv. lia.
  - intros v [u Hu]. by rewrite lookup_empty in Hu.
  - change (npages 0) with 0. lia.
Qed.

Lemma map_sys k l t root pgs vpn pa perm :
  as_inv k l t root pgs -> 0 <= vpn < NPG -> pgs !! vpn = None -> 0 <= pa < 2 ^ 56 -> pa mod 4096 = 0 ->
  perm_ok perm -> n <> 0%nat ->
  exists r k' l' t', mappages root (vpn * PGSIZE) PGSIZE pa perm n (MkK th k) = Ret r (MkK th k') /\
    (forall p, accounted l' t' pgs p <-> accounted l t pgs p) /\
    (forall p, valid_page p -> ~ accounted l t pgs p -> page_same p (mem k) (mem k')) /\
    (r = 0 /\ as_inv k' l' t' root (<[vpn := MkUp pa perm false]> pgs) /\ (length l <= length l' + 2)%nat \/
     r = -1 /\ as_inv k' l' t' root pgs /\ (length l <= 2)%nat).
Proof.
  intros A Hv Hn Hpa Hal Hp Hn0.
  destruct (mappages_page n th Hcpu Hlk k l t root pgs vpn pa perm false A)
    as (r & k' & l' & t' & E & G & Hlen & Hr); try done.
  exists r, k', l', t'. split_and!; [done|..].
  - intros p. by eapply accounted_grow.
  - intros p P1 P2 a Ha. apply (vg_data _ _ _ _ _ _ G p P1);
      [intros ?; apply P2; unfold accounted; auto..|done].
  - destruct Hr as [[-> ?]|(-> & -> & ?)]; auto.
Qed.

Lemma proc_pagetable_spec k l tf :
  kmem_inv k l -> 0 <= tf < 2 ^ 56 -> tf mod 4096 = 0 -> (3 <= n)%nat ->
  exists r k' l', proc_pagetable tf n (MkK th k) = Ret r (MkK th k') /\
    (forall p, valid_page p -> p ∉ l -> page_same p (mem k) (mem k')) /\
    (r = 0 /\ kmem_inv k' l' /\ (forall p, p ∈ l' <-> p ∈ l) /\ (length l <= 5)%nat \/
     r <> 0 /\ (length l <= length l' + 5)%nat /\ exists t, as_inv k' l' t r (sys_pages tf) /\ forall p, accounted l' t (sys_pages tf) p <-> p ∈ l).
Proof.
  intros Hk Htf Hal Hn. destruct trampoline_pa as [Ht1 Ht2]. unfold proc_pagetable.
  pose proof (uvmcreate_spec k l Hk) as E. destruct l as [|q l].
  { rewrite (bind_ret _ _ _ _ _ _ E). exists 0, k, []. split_and!; try done. left. split_and!; try done. cbn. lia. }
  destruct E as (k1 & E1 & A1 & S1 & Hq0). rewrite (bind_ret _ _ _ _ _ _ E1).
  destruct (Z.eqb_spec q 0); [done|].
  assert (valid_page q) as Hq by (destruct Hk as [_ _ ?%Forall_cons_1]; naive_solver).
  assert (forall p, accounted l {[ [] := q ]} ∅ p <-> p ∈ q :: l) as Ac1
    by (intros p; by rewrite accounted_empty, elem_of_cons).
  assert (forall p, valid_page p -> p ∉ q :: l -> page_same p (mem k) (mem k1)) as D1
    by (intros p P1 P2; eapply same_outside_page; [done..|set_solver]).
  destruct (map_sys k1 l {[ [] := q ]} q ∅ (NPG - 1) trampoline (Z.lor PTE_R PTE_X) A1)
    as (r2 & k2 & l2 & t2 & E2 & Ac2 & D2 & Hr2); try done; [lia|].
  change ((NPG - 1) * PGSIZE) with TRAMPOLINE in E2. rewrite (bind_ret _ _ _ _ _ _ E2).
  assert (forall p, valid_page p -> p ∉ q :: l -> page_same p (mem k) (mem k2)) as D2'.
  { intros p P1 P2. eapply page_same_trans; [by apply D1|]. apply D2; [done|]. by rewrite Ac1. }
  destruct Hr2 as [(-> & A2 & Hlen2)|(-> & A2 & Hlen2)]; cbn [Z.ltb Z.compare].
  2: { destruct (uvmfree_empty k2 l2 t2 q A2 Hn) as (k3 & l3 & E3 & Hk3 & Hl3 & D3).
       rewrite (bind_ret _ _ _ _ _ _ E3). exists 0, k3, l3. split_and!; [done| |left].
       - intros p P1 P2. eapply page_same_trans; [by apply D2'|]. apply D3; [done|]. by rewrite Ac2, Ac1.
       - split_and!; try done; [intros p; by rewrite Hl3, Ac2, Ac1|cbn; lia]. }
  set (pg1 := <[NPG - 1 := _]> ∅) in A2.
  assert (forall p, accounted l2 t2 pg1 p <-> p ∈ q :: l) as Ac2'.
  { intros p. rewrite <- Ac1, <- Ac2. apply accounted_nofree; intros p' (v & u & Hv & Ho & _).
    - by apply lookup_insert_Some in Hv as [[_ <-]|[_ Hv]].
    - by rewrite lookup_empty in Hv. }
  destruct (map_sys k2 l2 t2 q pg1 (NPG - 2) tf (Z.lor PTE_R PTE_W) A2)
    as (r3 & k3 & l3 & t3 & E3 & Ac3 & D3 & Hr3); try done; [lia|].
  change ((NPG - 2) * PGSIZE) with TRAPFRAME in E3. rewrite (bind_ret _ _ _ _ _ _ E3).
  assert (forall p, valid_page p -> p ∉ q :: l -> page_same p (mem k) (mem k3)) as D3'.
  { intros p P1 P2. eapply page_same_trans; [by apply D2'|]. apply D3; [done|]. by rewrite Ac2'. }
  destruct Hr3 as [(-> & A3 & Hlen3)|(-> & A3 & Hlen3)]; cbn [Z.ltb Z.compare].
  { exists q, k3, l3. split_and!; [done..|right]. split; [done|]. split; [cbn; lia|]. exists t3. split; [exact A3|].
    intros p. rewrite <- Ac2', <- Ac3. apply accounted_nofree; [apply own_in_sys|].
    intros p' (v & u & Hv & Ho & _). by apply lookup_insert_Some in Hv as [[_ <-]|[_ Hv]]. }
  destruct (uvmunmap_spec n th Hcpu Hlk k3 l3 t3 q pg1 (NPG - 1) 1 false A3)
    as (k4 & fr & E4 & A4 & Ac4 & D4); try done; try lia.
  { intros v Hv. assert (v = NPG - 1) as -> by lia. eexists. by split; [apply lookup_insert_eq|]. }
  change ((NPG - 1) * PGSIZE) with TRAMPOLINE in E4. change (Z.of_nat 1) with 1 in E4.
  change (unmap_range 1 (NPG - 1) pg1) with (delete (NPG - 1) pg1) in A4, Ac4.
  assert (delete (NPG - 1) pg1 = ∅) as Hdel by (unfold pg1; by rewrite delete_insert_eq, delete_empty).
  rewrite Hdel in A4, Ac4.
  rewrite (bind_ret _ _ _ _ _ _ E4).
  destruct (uvmfree_empty k4 _ t3 q A4 Hn) as (k5 & l5 & E5 & Hk5 & Hl5 & D5).
  rewrite (bind_ret _ _ _ _ _ _ E5).
  assert (forall p, accounted (fr ++ l3) t3 ∅ p <-> p ∈ q :: l) as Ac5 by (intros p; by rewrite Ac4, Ac3, Ac2').
  exists 0, k5, l5. split_and!; [done| |left].
  - intros p P1 P2. eapply page_same_trans; [by apply D3'|]. rewrite <- Ac5 in P2.
    eapply page_same_trans; [apply D4|apply D5]; try done; intros ?; apply P2; unfold accounted; auto.
  - split_and!; try done; [intros p; by rewrite Hl5, Ac5|cbn; lia].
Qed.

Lemma uvmunmap_one k l t root pgs vpn u :
  as_inv k l t root pgs -> 0 <= vpn < NPG -> pgs !! vpn = Some u -> up_own u = false -> (1 < n)%nat ->
  exists k', uvmunmap root (vpn * PGSIZE) 1 false n (MkK th k) = Ret tt (MkK th k') /\
    exists l', as_inv k' l' t root (delete vpn pgs) /\
    (forall p, accounted l' t (delete vpn pgs) p <-> accounted l t pgs p) /\
    (forall p, valid_page p -> ~ accounted l t pgs p -> page_same p (mem k) (mem k')).
Proof.
  intros A Hv Hu Ho Hn.
  destruct (uvmunmap_spec n th Hcpu Hlk k l t root pgs vpn 1 false A)
    as (k' & fr & E & A1 & Ac & D); try done; try lia.
  { intros v Hv'. assert (v = vpn) as -> by lia. eauto. }
  exists k'. split; [done|]. exists (fr ++ l). split_and!; try done.
  intros p P1 P2. rewrite <- Ac in P2. apply D; try done; intros ?; apply P2; unfold accounted; auto.
Qed.

(** Freeing a process's address space returns every page it used. *)
Lemma proc_freepagetable_spec k l t root pgs sz utr utf :
  as_inv k l t root pgs -> 0 <= sz <= TRAPFRAME -> range_owned pgs 0 (Z.to_nat (npages sz)) true ->
  pgs !! (NPG - 1) = Some utr -> up_own utr = false -> pgs !! (NPG - 2) = Some utf -> up_own utf = false ->
  (forall v, is_Some (pgs !! v) -> 0 <= v < npages sz \/ v = NPG - 2 \/ v = NPG - 1) ->
  (3 <= n)%nat -> npages sz < Z.of_nat n ->
  exists k' l', proc_freepagetable root sz n (MkK th k) = Ret tt (MkK th k') /\ kmem_inv k' l' /\
    (forall q, q ∈ l' <-> accounted l t pgs q) /\
    (forall q, valid_page q -> ~ accounted l t pgs q -> page_same q (mem k) (mem k')).
Proof.
  intros A Hsz Hr H1 O1 H2 O2 Honly Hn Hfu. pose proof (npages_bound sz Hsz) as Bn.
  destruct (uvmunmap_one k l t root pgs (NPG - 1) utr A) as (k1 & E1 & l1 & A1 & Ac1 & D1); try done; [lia|].
  destruct (uvmunmap_one k1 l1 t root _ (NPG - 2) utf A1) as (k2 & E2 & l2 & A2 & Ac2 & D2); try done; [|lia|].
  { by rewrite lookup_delete_ne by lia. }
  destruct (uvmfree_spec n th Hcpu Hlk k2 l2 t root _ sz A2 Hsz) as (k3 & l3 & E3 & Hk3 & Hl3 & D3); try done.
  { intros v Hv. rewrite !lookup_delete_ne by lia. by apply Hr. }
  { intros v [u [N2 [N1 Hu]%lookup_delete_Some]%lookup_delete_Some]. destruct (Honly v); [eauto|done|lia]. }
  unfold proc_freepagetable. change TRAMPOLINE with ((NPG - 1) * PGSIZE). change TRAPFRAME with ((NPG - 2) * PGSIZE).
  rewrite (bind_ret _ _ _ _ _ _ E1), (bind_ret _ _ _ _ _ _ E2). exists k3, l3. split_and!; try done.
  - intros q. by rewrite Hl3, Ac2, Ac1.
  - intros q P1 P2. eapply page_same_trans; [by apply D1|].
    rewrite <- Ac1 in P2. eapply page_same_trans; [by apply D2|]. apply D3; [done|]. by rewrite Ac2.
Qed.
End procpt.

(** User memory is the bytes of the owned pages. *)
Lemma ubyte_same (m m' : gmap Z Z) pgs : user_owned pgs -> (forall p, own_in pgs p -> page_same p m m') -> forall va, ubyte m' pgs va = ubyte m pgs va.
Proof.
  intros Hu Hk va. unfold ubyte. destruct (pgs !! _) as [u|] eqn:E; [|done].
  destruct (has _ _) eqn:EU; [|done]. f_equal. apply (Hk (up_pa u)); [exists (va / PGSIZE), u; eauto|].
  pose proof (Z.mod_pos_bound va PGSIZE eq_refl). lia.
Qed.

(** User memory of an address space none of whose pages is free or a
    page-table page of the other. *)
Lemma parent_same {L : Layout} {LO : LayoutOk L} k l told old tnew pold m' :
  as_inv k l told old pold -> user_owned pold ->
  (forall p, pt_owns told p \/ own_in pold p -> ~ pt_owns tnew p) ->
  data_kept l tnew (mem k) m' -> forall va, ubyte m' pold va = ubyte (mem k) pold va.
Proof.
  intros A Hu Hd Hk. apply ubyte_same; [done|]. intros p Ho.
  destruct (as_own _ _ _ _ _ A _ Ho) as (P1 & P2 & P3). apply Hk; [done|done|apply Hd; by right].
Qed.

(** The pages the kernel can hand out. *)
Definition PHYS_PAGES : Z := 32768.

Lemma pages_few {L : Layout} {LO : LayoutOk L} (ps : list Z) : NoDup ps -> Forall valid_page ps -> Z.of_nat (length ps) <= PHYS_PAGES.
Proof.
  intros Hnd Hv. pose proof kend_range as [Hk _].
  assert (ps ⊆+ ((fun i => KERNBASE + PGSIZE * i) <$> seqZ 0 PHYS_PAGES)) as Hs.
  { apply NoDup_submseteq; [done|]. intros p Hp. rewrite Forall_forall in Hv. destruct (Hv p Hp) as (H1 & H2 & H3).
    apply list_elem_of_fmap. exists ((p - KERNBASE) / PGSIZE). rewrite elem_of_seqZ. unfold PHYSTOP, KERNBASE, PHYS_PAGES, PGSIZE in *. lia. }
  apply submseteq_length in Hs. rewrite length_fmap, length_seqZ in Hs. unfold PHYS_PAGES in *. lia.
Qed.

(** User memory and free pages fit in physical memory. *)
Lemma heap_fits {L : Layout} {LO : LayoutOk L} k l t root pgs sz : as_inv k l t root pgs -> range_owned pgs 0 (Z.to_nat (npages sz)) true ->
  0 <= sz <= TRAPFRAME -> npages sz + Z.of_nat (length l) <= PHYS_PAGES.
Proof.
  intros A Hr Hsz. pose proof (npages_bound sz Hsz) as [B _]. set (pa := fun v => up_pa (default (MkUp 0 0 false) (pgs !! v))).
  assert (forall v, 0 <= v < npages sz -> exists u, pgs !! v = Some u /\ up_own u = true /\ pa v = up_pa u) as Hpa.
  { intros v Hv. destruct (Hr v ltac:(lia)) as (u & Hu & Ho). exists u. unfold pa. by rewrite Hu. }
  pose proof (vi_free _ _ _ _ (as_vm _ _ _ _ _ A)) as [_ Hnd Hval].
  pose proof (pages_few ((pa <$> seqZ 0 (npages sz)) ++ l)) as Hfew. rewrite length_app, length_fmap, length_seqZ, Nat2Z.inj_add, Z2Nat.id in Hfew by lia. apply Hfew.
  - apply NoDup_app. split_and!; [|intros p (v & -> & Hv)%list_elem_of_fmap|done].
    + apply NoDup_fmap_2_strong; [|apply NoDup_seqZ]. intros v1 v2 H1 H2 E. apply elem_of_seqZ in H1, H2.
      destruct (Hpa v1 ltac:(lia)) as (u1 & U1 & O1 & E1), (Hpa v2 ltac:(lia)) as (u2 & U2 & O2 & E2). eapply (as_inj _ _ _ _ _ A); [done..|congruence].
    + apply elem_of_seqZ in Hv. destruct (Hpa v ltac:(lia)) as (u & U & O & ->). by apply (as_own _ _ _ _ _ A (up_pa u)); exists v, u.
  - apply Forall_app. split; [|done]. apply Forall_forall. intros p (v & -> & Hv)%list_elem_of_fmap. apply elem_of_seqZ in Hv.
    destruct (Hpa v ltac:(lia)) as (u & U & O & ->). by apply (as_own _ _ _ _ _ A (up_pa u)); exists v, u.
Qed.

(** What [uvmalloc] does: the pages are there, or memory ran out. *)
Definition uvm_grown {L : Layout} (root : Z) (k : kmem) (l : list Z) (t : gmap (list Z) Z) (pgs : gmap Z upage) (oldsz newsz r : Z) (k' : kmem) : Prop :=
  exists l' t' pgs', as_inv k' l' t' root pgs' /\ (forall p, accounted l' t' pgs' p <-> accounted l t pgs p) /\
    data_kept l t (mem k) (mem k') /\
    (r = newsz /\ newsz <= TRAPFRAME /\ heap pgs' newsz /\
       (forall v, v < npages oldsz \/ npages newsz <= v -> pgs' !! v = pgs !! v) /\
       (forall va, npages oldsz * PGSIZE <= va < npages newsz * PGSIZE -> ubyte (mem k') pgs' va = Some 0) /\
       spent l l' (npages newsz - npages oldsz) /\
       (forall v, npages oldsz <= v < npages newsz -> up_perm <$> pgs' !! v = Some UPERM)
     \/ r = 0 /\ pgs' = pgs /\ (newsz <= TRAPFRAME -> Z.of_nat (length l) <= 3 * (npages newsz - npages oldsz))).

Section uvmalloc.
Context {L : Layout} {LO : LayoutOk L} (n : nat) (th : T) (k : kmem) (l : list Z) (t : gmap (list Z) Z) (root : Z) (pgs : gmap Z upage) (oldsz newsz : Z).
Context (Hcpu : cpu_ok th) (Hlk : lks th !! LkKmem = None) (A : as_inv k l t root pgs) (Hheap : heap pgs oldsz) (Hs : 0 <= oldsz <= newsz).

Lemma uvmalloc_spec : newsz <= TRAPFRAME -> npages newsz < Z.of_nat n ->
  exists r k', uvmalloc root oldsz newsz n (MkK th k) = Ret r (MkK th k') /\ uvm_grown root k l t pgs oldsz newsz r k'.
Proof.
  intros Ht Hf. destruct Hheap as [H1 H2].
  pose proof (npages_mono oldsz newsz Hs Ht) as Hm.
  pose proof (npages_bound oldsz ltac:(lia)) as Bo. pose proof (npages_bound newsz ltac:(lia)) as Bn.
  change (TRAPFRAME / PGSIZE) with (NPG - 2) in H2.
  destruct (decide (npages oldsz = npages newsz)) as [Ee|Hne].
  { exists newsz, k. split.
    - unfold uvmalloc. destruct (newsz <? oldsz) eqn:E0; [lia|]. rewrite round_npages by lia. unfold mloop. destruct n as [|n']; [lia|].
      apply mwhile_inr. unfold uvmalloc_body. destruct (_ <? newsz) eqn:E; [lia|done].
    - exists l, t, pgs. split_and!; [done|done|by intros p ? ? ? a ?|]. left. unfold spent, heap. rewrite <- Ee. split_and!; try done; [intros; lia|lia|lia|intros; lia]. }
  destruct (uvmalloc_loop n th Hcpu Hlk root k l t pgs (npages oldsz) newsz (npages newsz)
    (Z.to_nat (npages newsz - npages oldsz)) n k l t pgs 0) as (k' & l' & t' & pj & Hr); try (unfold spent; lia).
  { by apply grown_0. } { intros v Hv. apply H2. lia. }
  assert (uvmalloc root oldsz newsz n (MkK th k) = mwhile n (uvmalloc_body root (npages oldsz * PGSIZE) newsz) ((npages oldsz + 0) * PGSIZE) n (MkK th k)) as ->.
  { unfold uvmalloc. destruct (newsz <? oldsz) eqn:E0; [lia|]. rewrite Z.add_0_r. by rewrite round_npages by lia. }
  destruct Hr as [(f & -> & G & HS)|(-> & G & HS)]; pose proof G as [G1 G2 G3 G4 G5].
  - exists newsz, k'. split; [apply mwhile_inr; unfold uvmalloc_body; destruct (_ <? newsz) eqn:E; [lia|done]|].
    exists l', t', pj. split_and!; try done. left. rewrite (Zplus_minus (npages oldsz)) in G2, G3. split_and!; try done; [split| |].
    + intros v Hv. destruct (decide (v < npages oldsz)) as [Hlt|Hge].
      * rewrite G2 by lia. apply H1. lia.
      * destruct (G3 v ltac:(lia)) as (pa & -> & _). eauto.
    + intros v Hv. change (TRAPFRAME / PGSIZE) with (NPG - 2) in Hv. rewrite G2 by lia. apply H2. lia.
    + intros va Hva. destruct (page_split va ltac:(unfold PGSIZE in *; lia)) as (_ & Es & Em).
      destruct (G3 (va / PGSIZE)) as (pa & Hpa & Hz); [unfold PGSIZE in *; lia|].
      unfold ubyte. rewrite Hpa. change (has _ _) with true. cbn iota. by rewrite Hz.
    + intros v Hv. by destruct (G3 v ltac:(lia)) as (pa & -> & _).
  - exists 0, k'. split; [done|]. exists l', t', pj. split_and!; try done. right. split; [done|]. split; [|done]. apply map_eq. intros v. apply G2. lia.
Qed.

(** Any size, with fuel for the physical memory. *)
Lemma uvmalloc_any : oldsz <= TRAPFRAME -> PHYS_PAGES + 1 < Z.of_nat n ->
  exists r k', uvmalloc root oldsz newsz n (MkK th k) = Ret r (MkK th k') /\ uvm_grown root k l t pgs oldsz newsz r k'.
Proof.
  intros Ht Hf. pose proof (npages_bound oldsz ltac:(lia)) as Bo. destruct Hheap as [H1 H2]. pose proof (heap_fits k l t root pgs oldsz A H1 ltac:(lia)) as Hfit.
  assert (PHYS_PAGES * PGSIZE < TRAPFRAME /\ PHYS_PAGES + 1 <= NPG - 2) as [HT HN] by (by split; vm_compute).
  destruct (decide (newsz <= PHYS_PAGES * PGSIZE)) as [Hsm|Hbig].
  { apply uvmalloc_spec; [lia|]. pose proof (npages_bound newsz ltac:(lia)) as Bn. unfold PGSIZE in *. lia. }
  change (TRAPFRAME / PGSIZE) with (NPG - 2) in H2.
  destruct (uvmalloc_loop n th Hcpu Hlk root k l t pgs (npages oldsz) newsz (npages oldsz + Z.of_nat (length l) + 1)
    (length l + 1) n k l t pgs 0) as (k' & l' & t' & pj & Hr); try (unfold spent; unfold PGSIZE in *; lia).
  { by apply grown_0. } { intros v Hv. apply H2. lia. }
  exists 0, k'. destruct Hr as [(f & _ & _ & HS)|(E & G & _)]; [unfold spent in HS; lia|]. split.
  { unfold uvmalloc. destruct (newsz <? oldsz) eqn:E0; [lia|]. rewrite round_npages by lia. by rewrite Z.add_0_r in E. }
  pose proof G as [G1 G2 G3 G4 G5]. exists l', t', pj. split_and!; try done. right. split_and!; [done|apply map_eq; intros v; apply G2; lia|].
  intros Hsz. pose proof (npages_bound newsz ltac:(lia)) as Bn. unfold PGSIZE in *. lia.
Qed.
End uvmalloc.

(** ** Theorems *)

Lemma uvmcopy_spec {L : Layout} {LO : LayoutOk L} n th k l old new told tnew pold pnew sz :
  cpu_ok th -> lks th !! LkKmem = None ->
  as_inv k l told old pold -> as_inv k l tnew new pnew ->
  (forall p, pt_owns told p \/ own_in pold p -> ~ pt_owns tnew p) ->
  user_owned pold -> heap pold sz -> (forall v, 0 <= v < npages sz -> pnew !! v = None) ->
  0 <= sz <= TRAPFRAME -> npages sz < Z.of_nat n ->
  exists r k' l' t' pgs',
    uvmcopy old new sz n (MkK th k) = Ret r (MkK th k') /\
    as_inv k' l' told old pold /\ as_inv k' l' t' new pgs' /\
    (forall p, accounted l' t' pgs' p <-> accounted l tnew pnew p) /\
    data_kept l tnew (mem k) (mem k') /\ (forall va, ubyte (mem k') pold va = ubyte (mem k) pold va) /\
    (r = 0 /\ range_owned pgs' 0 (Z.to_nat (npages sz)) true /\ (forall va, 0 <= va < npages sz * PGSIZE -> ubyte (mem k') pgs' va = ubyte (mem k) pold va) /\
       (forall v, v < 0 \/ npages sz <= v -> pgs' !! v = pnew !! v) /\ spent l l' (npages sz)
     \/ r = -1 /\ pgs' = pnew /\ Z.of_nat (length l) <= 3 * npages sz).
Proof.
  intros Hcpu Hlk Ao An Hd Hu Hh He Hsz Hf. pose proof (npages_bound sz Hsz) as Bn.
  destruct (uvmcopy_loop n th Hcpu Hlk old new k l told tnew pold pnew sz Ao Hd Hh He Hsz Hf
    (Z.to_nat (npages sz)) n k l tnew pnew 0) as (r & k' & l' & t' & pj & E & Hr); try (unfold spent; lia).
  { by apply grown_0. }
  assert (exists j, 0 <= j <= npages sz /\ grown new (par_perm pold) (par_byte k pold) k l tnew pnew 0 j k' l' t' pj)
    as (j & Hj & G) by (destruct Hr as [(_ & G & _)|(_ & G & _)]; eexists; (split; [|exact G]); lia).
  assert (as_inv k' l' told old pold) as Ao'.
  { eapply as_other; [exact G| |exact Ao|exact Hd]. intros v Hv. apply He. lia. }
  exists r, k', l', t', pj. split_and!; [done|done|apply G|apply G|apply G| |].
  - intros va. apply (parent_same k l told old tnew pold _ Ao Hu Hd). apply G.
  - destruct Hr as [(-> & G' & HS)|(-> & G' & HS)]; [left|right]; (split; [done|]).
    + split; [|split; [|split; [intros v Hv; apply (gr_out _ _ _ _ _ _ _ _ _ _ _ _ _ G'); lia|done]]].
      { intros v Hv. destruct (gr_new _ _ _ _ _ _ _ _ _ _ _ _ _ G' v ltac:(lia)) as (pa & Hpa & _). by eexists. }
      intros va Hva. destruct (page_split va ltac:(unfold PGSIZE in *; lia)) as (_ & Es & Em).
      assert (0 <= va / PGSIZE < npages sz) as Hv by (unfold PGSIZE in *; lia).
      destruct (gr_new _ _ _ _ _ _ _ _ _ _ _ _ _ G' (va / PGSIZE)) as (pa & Hpa & Hc); [lia|].
      destruct (par_page_in n pold sz Hh _ Hv) as (Hp & _). unfold ubyte. rewrite Hpa, Hp.
      cbn [up_perm up_pa]. rewrite Hc by done. unfold par_perm, par_byte.
      rewrite !has_U_bit, Z.lor_spec. by rewrite orb_false_r.
    + split; [|done]. apply map_eq. intros v. apply (gr_out _ _ _ _ _ _ _ _ _ _ _ _ _ G'). lia.
Qed.



(** [copyinstr] fetches a NUL-terminated string, the whole string and
    nothing but the string.  It returns 0 exactly when a NUL occurs within
    the first [max] accessible bytes, having stored the bytes up to and
    including the first NUL; otherwise it returns -1 after storing only
    nonzero bytes, [max] of them or up to the first inaccessible address. *)
Theorem copyinstr_correct {L : Layout} {LO : LayoutOk L} n th k l t root pgs srcva max :
  as_inv k l t root pgs -> user_owned pgs -> 0 <= srcva -> 0 <= max -> (Z.to_nat max < n)%nat ->
  exists r bs,
    copyinstr root srcva max n (MkK th k) = Ret (r, bs) (MkK th k) /\
    (forall i, (i < length bs)%nat -> bs !! i = ubyte (mem k) pgs (srcva + Z.of_nat i)) /\
    (r = 0 /\ (exists s, bs = s ++ [0] /\ Forall (fun x => x <> 0) s) /\ Z.of_nat (length bs) <= max \/
     r = -1 /\ Forall (fun x => x <> 0) bs /\
       (Z.of_nat (length bs) = max \/
        Z.of_nat (length bs) < max /\ ubyte (mem k) pgs (srcva + Z.of_nat (length bs)) = None)).
Proof.
  intros A Hu Hs Hm Hf.
  exact (copyinstr_loop n th l t root pgs Hu k n A srcva [] max Hs Hm Hf).
Qed.

(** The life of an address space: created, grown to [sz] bytes if memory
    allows, and freed, as [allocproc], [exec] and [freeproc] do. *)
Definition as_life {L : Layout} (tf sz : Z) : KM kmem Z :=
  pagetable ← proc_pagetable tf;
  if pagetable =? 0 then mret 0 else
  newsz ← uvmalloc pagetable 0 sz;
  proc_freepagetable pagetable newsz ;;
  mret newsz.


(** ** Concrete address spaces *)

Definition demo_pg (i : Z) : Z := PHYSTOP - (i + 1) * PGSIZE.

(** Eight free pages, linked in memory; all other memory is zero. *)
Definition demo_free : list Z := demo_pg <$> [1; 2; 3; 4; 5; 6; 7; 8].
Definition demo_k : kmem :=
  MkKmem (fold_left (fun m i => st64 m (demo_pg i) (demo_pg (i + 1))) [1; 2; 3; 4; 5; 6; 7] ∅) (demo_pg 1).

Lemma demo_kmem : @kmem_inv demo_layout demo_k demo_free.
Proof.
  split.
  - vm_compute. repeat split.
  - apply (bool_decide_unpack _). vm_compute. exact I.
  - repeat constructor; vm_compute; done.
Qed.

Lemma demo_zero a : demo_pg 0 <= a < demo_pg 0 + PGSIZE -> ld (mem demo_k) a = 0.
Proof.
  unfold demo_pg, PHYSTOP, KERNBASE, PGSIZE. intros Ha. unfold demo_k. cbn [mem fold_left].
  unfold demo_pg, PHYSTOP, KERNBASE, PGSIZE.
  repeat (rewrite st64_ld; [|lia]). reflexivity.
Qed.

Lemma demo_as : @as_inv demo_layout demo_k demo_free {[ [] := demo_pg 0 ]} (demo_pg 0) ∅.
Proof.
  pose proof demo_layout_ok. apply as_empty; [apply demo_kmem|by vm_compute| |apply demo_zero].
  apply (bool_decide_unpack _). vm_compute. exact I.
Qed.

Lemma demo_heap : heap ∅ 0.
Proof. split; [intros v Hv; change (Z.to_nat (npages 0)) with 0%nat in Hv; lia|done]. Qed.

(** The value a run returns. *)
Definition ret_val {S A} (r : res S A) : option A := match r with Ret a _ => Some a | _ => None end.

(** An address space with one page of user memory. *)
Lemma demo_parent : exists k1 l1 t1 pgs1,
  @uvmalloc demo_layout (demo_pg 0) 0 4096 10%nat (MkK demo_T demo_k) = Ret 4096 (MkK demo_T k1) /\
  @as_inv demo_layout k1 l1 t1 (demo_pg 0) pgs1 /\ heap pgs1 4096 /\ user_owned pgs1 /\
  is_Some (pgs1 !! 0) /\ forall va, 0 <= va < 4096 -> ubyte (mem k1) pgs1 va = Some 0.
Proof.
  assert (ret_val (@uvmalloc demo_layout (demo_pg 0) 0 4096 10%nat (MkK demo_T demo_k)) = Some 4096) as Hrun
    by (vm_compute; reflexivity).
  destruct (@uvmalloc_spec demo_layout demo_layout_ok 10%nat demo_T demo_k demo_free {[ [] := demo_pg 0 ]}
    (demo_pg 0) ∅ 0 4096 demo_T_ok eq_refl demo_as demo_heap)
    as (r & k' & E & l' & t' & pgs' & A & Ac & D & Hr).
  { lia. } { by vm_compute. } { by vm_compute. }
  rewrite E in Hrun. injection Hrun as ->. exists k', l', t', pgs'.
  destruct Hr as [(_ & _ & Hh & Hout & Hz & _)|[H0 _]]; [|discriminate H0].
  assert (exists u, pgs' !! 0 = Some u /\ up_own u = true) as (u & Hu & Ho).
  { destruct Hh as [Hh _]. apply Hh. change (Z.to_nat (npages 4096)) with 1%nat. lia. }
  split_and!; [exact E|exact A|exact Hh| |eauto|exact Hz].
  intros v u' Hv HU. destruct (decide (v = 0)) as [->|Hne]; [congruence|].
  rewrite Hout in Hv; [discriminate Hv|]. change (npages 0) with 0. change (npages 4096) with 1. lia.
Qed.

(** That address space and a second, empty one. *)
Lemma demo_child : exists k2 l2 q t1 pgs1,
  (@uvmalloc demo_layout (demo_pg 0) 0 4096 ;; uvmcreate) 10%nat (MkK demo_T demo_k) = Ret q (MkK demo_T k2) /\
  @as_inv demo_layout k2 l2 t1 (demo_pg 0) pgs1 /\ @as_inv demo_layout k2 l2 {[ [] := q ]} q ∅ /\
  (forall p, pt_owns t1 p \/ own_in pgs1 p -> ~ pt_owns {[ [] := q ]} p) /\
  heap pgs1 4096 /\ user_owned pgs1.
Proof.
  pose proof demo_layout_ok as LO. destruct demo_parent as (k1 & l1 & t1 & pgs1 & E1 & A1 & H1 & U1 & _).
  assert (exists q, ret_val ((@uvmalloc demo_layout (demo_pg 0) 0 4096 ;; uvmcreate) 10%nat (MkK demo_T demo_k)) = Some q /\ q <> 0)
    as (q0 & Hrun & Hq0) by (eexists; split; [vm_compute; reflexivity|discriminate]).
  pose proof (bind_ret _ (fun _ => uvmcreate) _ _ _ _ E1) as E. rewrite E in Hrun. rewrite E. clear E E1.
  pose proof (@uvmcreate_spec demo_layout LO 10%nat demo_T demo_T_ok eq_refl k1 l1
    (vi_free _ _ _ _ (as_vm _ _ _ _ _ A1))) as E2.
  destruct l1 as [|q l1]; [rewrite E2 in Hrun; injection Hrun as <-; done|].
  destruct E2 as (k2 & E2 & A2 & S2 & _).
  pose proof (as_vm _ _ _ _ _ A1) as V1.
  assert (forall p, pt_owns t1 p \/ own_in pgs1 p -> p ∉ q :: l1) as Hfree.
  { intros p [Hp|Hp]; [exact (vi_sep _ _ _ _ V1 p Hp)|exact (proj1 (proj2 (as_own _ _ _ _ _ A1 p Hp)))]. }
  assert (@valid_page demo_layout q) as Hq by (destruct (vi_free _ _ _ _ V1) as [_ _ Hv%Forall_cons_1]; exact (proj1 Hv)).
  exists k2, l1, q, t1, pgs1. split_and!; [exact E2| |exact A2| |exact H1|exact U1].
  - apply (as_outside k1 (q :: l1) t1 (demo_pg 0) pgs1 k2 l1 q A1); [apply A2|exact S2|exact Hq| |set_solver|].
    + intros Hp. apply (Hfree q); [by left|set_solver].
    + intros Hp. exfalso. apply (Hfree q); [by right|set_solver].
  - intros p Hp [π [_ ->]%lookup_singleton_Some]. apply (Hfree p Hp). set_solver.
Qed.



Lemma copyinstr_correct_witness :
  exists k r bs, copyinstr (demo_pg 0) 7 5 10%nat (MkK demo_T k) = Ret (r, bs) (MkK demo_T k).
Proof.
  destruct demo_parent as (k1 & l1 & t1 & pgs1 & _ & A1 & _ & U1 & _).
  destruct (@copyinstr_correct demo_layout demo_layout_ok 10%nat demo_T k1 l1 t1 (demo_pg 0) pgs1 7 5 A1 U1)
    as (r & bs & E & _); [lia|lia|lia|]. exists k1, r, bs. exact E.
Defined.

