(* ===== verification/Proc.v ===== *)
(** * Scheduling: the part of [kernel/proc.c] that needs only the process table

    [procinit], [allocpid], [scheduler], [sched], [yield], [sleep], [wakeup],
    [kill] and [reparent].  [swtch] is the context switch: the thread stops
    in the current state and goes on in whatever state it is handed back. *)

From Stdlib Require Import ZArith Lia.
From S2P Require Import Prelude Riscv Thread.

Section proc_c.
Context {X : Type}.

(** [swtch(&old, &new)]: control leaves this thread. *)
Definition swtch : KM X () := fun _ s => Yield s (fun s' => Ret tt s').

Definition procinit : KM X () :=
  initlock LkPid ;;
  initlock LkWait ;;
  meach (Z.to_nat NPROC) 0 (fun p =>
    initlock (LkProc (Z.to_nat p)) ;;
    modp (Z.to_nat p) (fun q => q <| p_kstack := KSTACK p |>)).

Definition allocpid : KM X Z :=
  acquire LkPid ;;
  pid ← getT nextpid;
  modT (fun t => t <| nextpid ::= fun n => i32 (n + 1) |>) ;;
  release LkPid ;;
  mret pid.

Definition sched : KM X () :=
  p ← myproc;
  p ← deref p;
  h ← holding (LkProc p);
  if negb h then panic "sched p->lock" else
  n ← getT noff;
  if negb (n =? 1) then panic "sched locks" else
  q ← getp p;
  if bool_decide (p_state q = RUNNING) then panic "sched running" else
  i ← intr_get;
  if i : bool then panic "sched interruptible" else
  ie ← getT intena;
  swtch ;;
  modT (fun t => t <| intena := ie |>).

Definition yield : KM X () :=
  p ← myproc;
  p ← deref p;
  acquire (LkProc p) ;;
  modp p (fun q => q <| p_state := RUNNABLE |>) ;;
  sched ;;
  release (LkProc p).

Definition sleep (ch : chan) (lk : lockid) : KM X () :=
  p ← myproc;
  p ← deref p;
  acquire (LkProc p) ;;
  release lk ;;
  modp p (fun q => q <| p_chan := ch |>) ;;
  modp p (fun q => q <| p_state := SLEEPING |>) ;;
  sched ;;
  modp p (fun q => q <| p_chan := ChNone |>) ;;
  release (LkProc p) ;;
  acquire lk.

(** The body of [wakeup]'s loop for the process [p]. *)
Definition wakeup_body (ch : chan) (p : Z) : KM X () :=
  me ← myproc;
  if bool_decide (Some (Z.to_nat p) = me) then mret tt else
  acquire (LkProc (Z.to_nat p)) ;;
  q ← getp (Z.to_nat p);
  mwhen (bool_decide (p_state q = SLEEPING) && bool_decide (p_chan q = ch))
    (modp (Z.to_nat p) (fun q => q <| p_state := RUNNABLE |>)) ;;
  release (LkProc (Z.to_nat p)).

Definition wakeup (ch : chan) : KM X () := meach (Z.to_nat NPROC) 0 (wakeup_body ch).

Definition kill_body (pid p : Z) : KM X (option Z) :=
  acquire (LkProc (Z.to_nat p)) ;;
  q ← getp (Z.to_nat p);
  if p_pid q =? pid then
    modp (Z.to_nat p) (fun q => q <| p_killed := 1 |>) ;;
    mwhen (bool_decide (p_state q = SLEEPING))
      (modp (Z.to_nat p) (fun q => q <| p_state := RUNNABLE |>)) ;;
    release (LkProc (Z.to_nat p)) ;;
    mret (Some 0)
  else
    release (LkProc (Z.to_nat p)) ;;
    mret None.

Definition kill (pid : Z) : KM X Z :=
  r ← mfor (Z.to_nat NPROC) 0 (kill_body pid);
  mret (default (-1) r).

Definition reparent (p : nat) : KM X () :=
  meach (Z.to_nat NPROC) 0 (fun pp =>
    q ← getp (Z.to_nat pp);
    if bool_decide (p_parent q = Some p) then
      ip ← getT initproc;
      modp (Z.to_nat pp) (fun q => q <| p_parent := ip |>) ;;
      ch ← getT (fun t => match initproc t with Some i => ChProc i | None => ChNone end);
      wakeup ch
    else mret tt).

(** One pass of the scheduler over the process table. *)
Definition scheduler_body (p : Z) : KM X () :=
  acquire (LkProc (Z.to_nat p)) ;;
  q ← getp (Z.to_nat p);
  mwhen (bool_decide (p_state q = RUNNABLE))
    (modp (Z.to_nat p) (fun q => q <| p_state := RUNNING |>) ;;
     modT (fun t => t <| cpu_proc := Some (Z.to_nat p) |>) ;;
     swtch ;;
     modT (fun t => t <| cpu_proc := None |>)) ;;
  release (LkProc (Z.to_nat p)).

Definition scheduler_pass : KM X () :=
  intr_on ;;
  meach (Z.to_nat NPROC) 0 scheduler_body.

(** [for(;;)]: every further pass needs fuel, so it never returns. *)
Definition scheduler : KM X () :=
  modT (fun t => t <| cpu_proc := None |>) ;;
  mloop (fun _ => scheduler_pass ;; mret (inl tt)) tt.
End proc_c.

(** ** Lock sections around a process entry *)

(** Acquiring does not look at the process table. *)
Lemma t_acq_procs lk t f : t_acq lk (t <| procs ::= f |>) = (t_acq lk t) <| procs ::= f |>.
Proof. by destruct t. Qed.

Section specs.
Context {X : Type}.
Implicit Type x : X.

Lemma getp_bind {B} i (f : proc -> KM X B) n t x :
  (getp i ≫= f) n (MkK t x) = f (default proc0 (procs t !! i)) n (MkK t x).
Proof. reflexivity. Qed.

Lemma modp_bind {B} i g (f : () -> KM X B) n t x :
  (modp i g ≫= f) n (MkK t x) = f tt n (MkK (t <| procs ::= alter g i |>) x).
Proof. reflexivity. Qed.

Lemma getT_bind {A B} (g : T -> A) (f : A -> KM X B) n t x :
  (getT g ≫= f) n (MkK t x) = f (g t) n (MkK t x).
Proof. reflexivity. Qed.

Lemma modT_bind {B} g (f : () -> KM X B) n t x : (modT g ≫= f) n (MkK t x) = f tt n (MkK (g t) x).
Proof. reflexivity. Qed.

Lemma acquire_bind {B} lk (f : () -> KM X B) n t x :
  lks t !! lk = None -> (acquire lk ≫= f) n (MkK t x) = f tt n (MkK (t_acq lk t) x).
Proof. intros H. by rewrite (bind_ret _ _ _ _ _ _ (acquire_spec lk n t x H)). Qed.

Lemma release_bind {B} lk (f : () -> KM X B) n t x :
  cpu_ok t -> lks t !! lk = None -> (release lk ≫= f) n (MkK (t_acq lk t) x) = f tt n (MkK t x).
Proof. intros H1 H2. by rewrite (bind_ret _ _ _ _ _ _ (release_spec lk n t x H1 H2)). Qed.

Lemma myproc_bind {B} (f : option nat -> KM X B) n t x :
  cpu_ok t -> (myproc ≫= f) n (MkK t x) = f (cpu_proc t) n (MkK t x).
Proof. intros H. by rewrite (bind_ret _ _ _ _ _ _ (myproc_spec n t x H)). Qed.
End specs.

Lemma cpu_ok_procs t f : cpu_ok (t <| procs ::= f |>) <-> cpu_ok t.
Proof. by destruct t. Qed.

(** ** wakeup *)

(** The effect of [wakeup ch] on the entry [q] of process [i], called by [me]. *)
Definition woken (ch : chan) (me : option nat) (i : nat) (q : proc) : proc :=
  if bool_decide (Some i = me) then q
  else if bool_decide (p_state q = SLEEPING) && bool_decide (p_chan q = ch)
  then q <| p_state := RUNNABLE |> else q.

Definition locks_free (t : T) : Prop := forall i, lks t !! LkProc i = None.

(** Entries [i], ..., [i + k - 1] rewritten by [f]. *)
Fixpoint alter_range (f : nat -> proc -> proc) (k : nat) (i : Z) (l : list proc) : list proc :=
  match k with
  | O => l
  | S k' => alter_range f k' (i + 1) (alter (f (Z.to_nat i)) (Z.to_nat i) l)
  end.

Lemma alter_range_lookup f k : forall i l j, 0 <= i ->
  alter_range f k i l !! j =
  if (i <=? Z.of_nat j) && (Z.of_nat j <? i + Z.of_nat k) then f j <$> l !! j else l !! j.
Proof.
  induction k as [|k IH]; intros i l j Hi; cbn [alter_range].
  - destruct (_ && _) eqn:E; [lia|done].
  - rewrite IH by lia. destruct (decide (Z.to_nat i = j)) as [<-|Hne].
    + rewrite list_lookup_alter_eq. destruct (_ && _) eqn:E1; [lia|].
      destruct ((i <=? _) && _) eqn:E2; [done|lia].
    + rewrite list_lookup_alter_ne by done.
      destruct (_ && _) eqn:E1, ((i <=? _) && _) eqn:E2; done || lia.
Qed.

Lemma alter_range_all f l : length l = Z.to_nat NPROC -> alter_range f (Z.to_nat NPROC) 0 l = imap f l.
Proof.
  intros Hl. apply list_eq. intros j. rewrite alter_range_lookup, list_lookup_imap by lia.
  destruct (_ && _) eqn:E; [done|]. rewrite lookup_ge_None_2; [done|]. rewrite Hl. lia.
Qed.

(** An update of one entry inside its lock section. *)
Lemma proc_section {X} (f : proc -> proc) i n t (x : X) :
  cpu_ok t -> lks t !! LkProc i = None ->
  release (LkProc i) n (MkK ((t_acq (LkProc i) t) <| procs ::= alter f i |>) x) =
  Ret tt (MkK (t <| procs ::= alter f i |>) x).
Proof. intros Hc Hl. rewrite <- t_acq_procs. by apply release_spec; [apply cpu_ok_procs|]. Qed.

Lemma procs_id t i f :
  (forall q, procs t !! i = Some q -> f q = q) -> t <| procs ::= alter f i |> = t.
Proof.
  intros H. destruct t as [h si nf ie cp lk ps np ip sl]. unfold upd. cbn in *. f_equal.
  apply list_eq. intros j. destruct (decide (i = j)) as [<-|Hne].
  - rewrite list_lookup_alter_eq. destruct (ps !! i) eqn:E; [|done]. cbn. by rewrite H.
  - by rewrite list_lookup_alter_ne.
Qed.

Lemma procs_ext t i f g :
  (forall q, procs t !! i = Some q -> f q = g q) ->
  t <| procs ::= alter f i |> = t <| procs ::= alter g i |>.
Proof.
  intros H. destruct t as [h si nf ie cp lk ps np ip sl]. unfold upd. cbn in *. f_equal.
  apply list_eq. intros j. destruct (decide (i = j)) as [<-|Hne].
  - rewrite !list_lookup_alter_eq. destruct (ps !! i) eqn:E; [|done]. cbn. by rewrite H.
  - by rewrite !list_lookup_alter_ne.
Qed.

Section wakeup.
Context {X : Type}.
Implicit Type x : X.

Lemma wakeup_body_spec ch p n t x :
  cpu_ok t -> locks_free t ->
  wakeup_body ch p n (MkK t x) =
  Ret tt (MkK (t <| procs ::= alter (woken ch (cpu_proc t) (Z.to_nat p)) (Z.to_nat p) |>) x).
Proof.
  intros Hc Hl. unfold wakeup_body. rewrite myproc_bind by done. set (i := Z.to_nat p).
  destruct (bool_decide (Some i = cpu_proc t)) eqn:Eme.
  { rewrite procs_id; [done|]. intros q _. unfold woken. by rewrite Eme. }
  rewrite acquire_bind by apply Hl. rewrite getp_bind.
  change (procs (t_acq _ t)) with (procs t). set (q := default proc0 (procs t !! i)).
  destruct (bool_decide (p_state q = SLEEPING) && bool_decide (p_chan q = ch)) eqn:E; cbn [mwhen].
  - rewrite modp_bind, proc_section by done. f_equal. f_equal. apply procs_ext.
    intros q' Hq'. unfold woken, q in *. rewrite Hq' in E. cbn in E. by rewrite Eme, E.
  - rewrite (bind_ret (mret tt) _ _ _ _ _ eq_refl), release_spec by done. rewrite procs_id; [done|].
    intros q' Hq'. unfold woken, q in *. rewrite Hq' in E. cbn in E. by rewrite Eme, E.
Qed.

Lemma wakeup_loop ch k : forall p n t x,
  cpu_ok t -> locks_free t ->
  meach k p (wakeup_body ch) n (MkK t x) =
  Ret tt (MkK (t <| procs ::= alter_range (woken ch (cpu_proc t)) k p |>) x).
Proof.
  induction k as [|k IH]; intros p n t x Hc Hl; [by destruct t|].
  rewrite (meach_next _ _ _ _ _ _ (wakeup_body_spec ch p n t x Hc Hl)), IH by (by destruct t).
  by destruct t.
Qed.

(** [wakeup ch] makes exactly the other processes that sleep on [ch]
    runnable. *)
Lemma wakeup_spec ch n t x :
  cpu_ok t -> locks_free t -> length (procs t) = Z.to_nat NPROC ->
  wakeup ch n (MkK t x) = Ret tt (MkK (t <| procs := imap (woken ch (cpu_proc t)) (procs t) |>) x).
Proof.
  intros Hc Hl Hn. unfold wakeup. rewrite wakeup_loop by done. do 2 f_equal.
  destruct t. unfold upd. cbn in *. f_equal. by apply alter_range_all.
Qed.
End wakeup.

(** What [wakeup] leaves of the threads. *)
Definition woke (ch : chan) (t : T) : T := t <| procs := imap (woken ch (cpu_proc t)) (procs t) |>.

(** ** kill *)

Definition killed_proc (q : proc) : proc :=
  if bool_decide (p_state q = SLEEPING) then q <| p_killed := 1 |> <| p_state := RUNNABLE |>
  else q <| p_killed := 1 |>.

Section kill.
Context {X : Type}.
Implicit Type x : X.

Lemma procs_alter_alter t i f g :
  t <| procs ::= alter f i |> <| procs ::= alter g i |> = t <| procs ::= alter (fun q => g (f q)) i |>.
Proof.
  destruct t. unfold upd. cbn. f_equal. apply list_eq. intros j.
  destruct (decide (i = j)) as [<-|Hne].
  - rewrite !list_lookup_alter_eq. by rewrite <- option_fmap_compose.
  - by rewrite !list_lookup_alter_ne.
Qed.

Lemma kill_body_spec pid p n t x q :
  cpu_ok t -> locks_free t -> procs t !! Z.to_nat p = Some q ->
  kill_body pid p n (MkK t x) =
  if p_pid q =? pid then Ret (Some 0) (MkK (t <| procs ::= alter killed_proc (Z.to_nat p) |>) x)
  else Ret None (MkK t x).
Proof.
  intros Hc Hl Hq. unfold kill_body. rewrite acquire_bind by apply Hl. rewrite getp_bind.
  change (procs (t_acq _ t)) with (procs t). rewrite Hq. change (default proc0 (Some q)) with q.
  destruct (p_pid q =? pid).
  - rewrite modp_bind.
    assert (forall f, (forall q', q' = q -> f (q' <| p_killed := 1 |>) = killed_proc q') ->
      (release (LkProc (Z.to_nat p)) ;; mret (Some 0)) n
        (MkK ((t_acq (LkProc (Z.to_nat p)) t) <| procs ::= alter (fun q => q <| p_killed := 1 |>) (Z.to_nat p) |>
                <| procs ::= alter f (Z.to_nat p) |>) x) =
      Ret (Some 0) (MkK (t <| procs ::= alter killed_proc (Z.to_nat p) |>) x)) as H.
    { intros f Hf. rewrite procs_alter_alter, <- t_acq_procs.
      rewrite (bind_ret _ _ _ _ _ _ (release_spec _ n _ x (proj2 (cpu_ok_procs t _) Hc) (Hl _))).
      unfold mret, M_ret. do 2 f_equal. apply procs_ext. intros q' Hq'. apply Hf. congruence. }
    destruct (bool_decide (p_state q = SLEEPING)) eqn:E; cbn [mwhen].
    + rewrite modp_bind. apply H. intros q' ->. unfold killed_proc. by rewrite E.
    + rewrite (bind_ret (mret tt) _ _ _ _ _ eq_refl). specialize (H id).
      rewrite (procs_id _ _ id) in H by done. apply H. intros q' ->. unfold killed_proc. by rewrite E.
  - by rewrite release_bind by done.
Qed.

Lemma kill_loop pid k : forall p n t x,
  cpu_ok t -> locks_free t -> 0 <= p -> p + Z.of_nat k = Z.of_nat (length (procs t)) ->
  (exists i q, (Z.to_nat p <= i)%nat /\ procs t !! i = Some q /\ p_pid q = pid /\
     (forall j q', (Z.to_nat p <= j < i)%nat -> procs t !! j = Some q' -> p_pid q' <> pid) /\
     mfor k p (kill_body pid) n (MkK t x) = Ret (Some 0) (MkK (t <| procs ::= alter killed_proc i |>) x)) \/
  ((forall j q, (Z.to_nat p <= j)%nat -> procs t !! j = Some q -> p_pid q <> pid) /\
   mfor k p (kill_body pid) n (MkK t x) = Ret None (MkK t x)).
Proof.
  induction k as [|k IH]; intros p n t x Hc Hl Hp Hk.
  { right. split; [|done]. intros j q Hj Hq. apply lookup_lt_Some in Hq. lia. }
  destruct (lookup_lt_is_Some_2 (procs t) (Z.to_nat p)) as [q Hq]; [lia|].
  pose proof (kill_body_spec pid p n t x q Hc Hl Hq) as Hb. destruct (Z.eqb_spec (p_pid q) pid) as [E|E].
  - left. exists (Z.to_nat p), q. split_and!; try done; [intros j q' ?; lia|]. by rewrite (mfor_exit _ _ _ _ _ _ _ Hb).
  - rewrite (mfor_next _ _ _ _ _ _ Hb).
    destruct (IH (p + 1) n t x Hc Hl) as [(i & q' & H1 & H2 & H3 & H4 & H5)|[H1 H2]]; [lia|lia|left|right].
    + exists i, q'. split_and!; try done; [lia|]. intros j q2 Hj Hq2.
      destruct (decide (j = Z.to_nat p)) as [->|]; [congruence|]. apply (H4 j); [lia|done].
    + split; [|done]. intros j q2 Hj Hq2. destruct (decide (j = Z.to_nat p)) as [->|]; [congruence|].
      apply (H1 j); [lia|done].
Qed.

(** [kill pid] marks the first process with that pid and wakes it if it
    sleeps, or returns -1 if there is none. *)
Lemma kill_spec pid n t x :
  cpu_ok t -> locks_free t -> length (procs t) = Z.to_nat NPROC ->
  (exists i q, procs t !! i = Some q /\ p_pid q = pid /\
     (forall j q', (j < i)%nat -> procs t !! j = Some q' -> p_pid q' <> pid) /\
     kill pid n (MkK t x) = Ret 0 (MkK (t <| procs ::= alter killed_proc i |>) x)) \/
  ((forall j q, procs t !! j = Some q -> p_pid q <> pid) /\
   kill pid n (MkK t x) = Ret (-1) (MkK t x)).
Proof.
  intros Hc Hl Hn. unfold kill.
  destruct (kill_loop pid (Z.to_nat NPROC) 0 n t x Hc Hl) as [(i & q & _ & H2 & H3 & H4 & H5)|[H1 H2]];
    [lia|lia|left|right].
  - exists i, q. split_and!; try done; [intros j q' ?; apply H4; lia|]. by rewrite (bind_ret _ _ _ _ _ _ H5).
  - split; [intros j q; apply H1; lia|]. by rewrite (bind_ret _ _ _ _ _ _ H2).
Qed.
End kill.
