(* ===== verification/Sched.v ===== *)
(** * The hand-off between processes and the scheduler

    [swtch] moves a hart between a process's kernel thread and the
    scheduler.  Each side relies on what the other guarantees at the switch:
    the process's lock is held by this hart and no other lock is, exactly one
    [push_off] is pending, interrupts are off.  Here both sides are proved
    against that contract, so that each side's assumption is the other
    side's theorem. *)

From Stdlib Require Import ZArith Lia.
From S2P Require Import Prelude Riscv Thread Proc.

(** The state of the hart whenever [swtch] is called, in either direction. *)
Record swtch_ok (p : nat) (t : T) : Prop := {
  so_proc : cpu_proc t = Some p;
  so_lock : lks t !! LkProc p = Some (hart t);
  so_only : forall lk, lks t !! lk = Some (hart t) -> lk = LkProc p;
  so_noff : noff t = 1;
  so_sie : sie t = false;
  so_entry : (p < length (procs t))%nat
}.

Definition pstate (p : nat) (t : T) : procstate := p_state (default proc0 (procs t !! p)).

(** A process hands the hart to the scheduler; the scheduler hands it back. *)
Definition to_sched (p : nat) (t : T) : Prop := swtch_ok p t /\ pstate p t <> RUNNING.
Definition to_proc (p : nat) (t : T) : Prop := swtch_ok p t /\ pstate p t = RUNNING.

(** A kernel thread of process [p] that holds no spin lock. *)
Record at_rest (p : nat) (t : T) : Prop := {
  ar_proc : cpu_proc t = Some p;
  ar_none : forall lk, lks t !! lk <> Some (hart t);
  ar_noff : noff t = 0;
  ar_ok : cpu_ok t;
  ar_entry : (p < length (procs t))%nat;
  ar_run : pstate p t = RUNNING
}.

(** The scheduler's own loop, between processes. *)
Record idle (t : T) : Prop := {
  id_none : forall lk, lks t !! lk <> Some (hart t);
  id_noff : noff t = 0;
  id_proc : cpu_proc t = None
}.

(** Releasing a lock this hart holds. *)
Definition t_rel (lk : lockid) (t : T) : T :=
  t <| lks ::= delete lk |> <| noff := noff t - 1 |> <| sie := (noff t - 1 =? 0) && intena t |>.

Lemma release_held {X} lk n t (x : X) :
  lks t !! lk = Some (hart t) -> sie t = false -> 1 <= noff t ->
  release lk n (MkK t x) = Ret tt (MkK (t_rel lk t) x).
Proof.
  intros Hl Hs Hn. unfold release, holding. rewrite getT_bind, Hl, Z.eqb_refl. cbn [negb].
  rewrite modT_bind. unfold pop_off, intr_get. rewrite getT_bind.
  destruct t as [h si nf ie cp lk0 ps np ip sl]. cbn in *. subst si. rewrite getT_bind. cbn.
  destruct (Z.ltb_spec nf 1); [lia|]. rewrite modT_bind, getT_bind. cbn.
  destruct ((nf - 1 =? 0) && ie) eqn:E; unfold t_rel, upd; cbn; by rewrite E.
Qed.

Lemma t_acq_mk lk h si nf ie cp lk0 ps np ip sl :
  t_acq lk (MkT h si nf ie cp lk0 ps np ip sl) =
  MkT h false (nf + 1) (if nf =? 0 then si else ie) cp (<[lk := h]> lk0) ps np ip sl.
Proof. reflexivity. Qed.

Lemma lks_acq lk t : lks (t_acq lk t) = <[lk := hart t]> (lks t).
Proof. reflexivity. Qed.

Lemma t_acq_comm l1 l2 t : l1 <> l2 -> t_acq l1 (t_acq l2 t) = t_acq l2 (t_acq l1 t).
Proof.
  intros Hne. destruct t as [h si nf ie cp lk0 ps np ip sl]. rewrite !t_acq_mk.
  rewrite insert_insert_ne by done. by destruct (nf + 1 =? 0), (nf =? 0).
Qed.

Lemma pstate_alter p f t :
  (p < length (procs t))%nat ->
  pstate p (t <| procs ::= alter f p |>) = p_state (f (default proc0 (procs t !! p))).
Proof.
  intros Hp. unfold pstate. destruct t. unfold upd. cbn in *.
  rewrite list_lookup_alter_eq. by destruct (lookup_lt_is_Some_2 _ _ Hp) as [q ->].
Qed.

Section handoff.
Context {X : Type} (n : nat).
Implicit Type x : X.

(** [sched], called with the right lock and a state other than RUNNING,
    switches in the agreed state and comes back with [intena] restored. *)
Lemma sched_eq p t x :
  to_sched p t ->
  sched n (MkK t x) =
  Yield (MkK t x) (fun s' => Ret tt (MkK ((thr s') <| intena := intena t |>) (own s'))).
Proof.
  intros [[H1 H2 H3 H4 H5 H6] Hst]. unfold sched.
  assert (cpu_ok t) as Hc by (split_and!; [lia|lia|done]).
  rewrite myproc_bind, H1 by done. change (deref (Some p)) with (mret p : KM X nat).
  rewrite (bind_ret (mret p) _ _ _ _ _ eq_refl). unfold holding. rewrite getT_bind, H2, Z.eqb_refl.
  cbn [negb]. rewrite getT_bind, H4. change (negb (1 =? 1)) with false. cbn iota.
  rewrite getp_bind. fold (pstate p t). rewrite bool_decide_false by done.
  unfold intr_get. rewrite getT_bind, H5. by rewrite getT_bind.
Qed.

(** Back from the scheduler: the process drops its own lock. *)
Lemma resume_at_rest p t ie f x :
  to_proc p t -> (forall q, p_state (f q) = p_state q) ->
  let t' := t <| intena := ie |> <| procs ::= alter f p |> in
  release (LkProc p) n (MkK t' x) = Ret tt (MkK (t_rel (LkProc p) t') x) /\
  at_rest p (t_rel (LkProc p) t') /\ lks (t_rel (LkProc p) t') = delete (LkProc p) (lks t).
Proof.
  intros [[H1 H2 H3 H4 H5 H6] Hst] Hf t'.
  assert (pstate p (t_rel (LkProc p) t') = RUNNING) as Hrun.
  { rewrite <- Hst. unfold t_rel, t'. destruct t as [h si nf ie0 cp lk0 ps np ip sl]. unfold pstate. cbn in *.
    rewrite list_lookup_alter_eq. destruct (ps !! p) as [q|]; cbn; [apply Hf|done]. }
  assert ((p < length (procs (t_rel (LkProc p) t')))%nat) as Hlen.
  { unfold t_rel, t'. destruct t. cbn in *. by rewrite length_alter. }
  destruct t as [h si nf ie0 cp lk0 ps np ip sl]. cbn in *. subst.
  split_and!; [apply release_held; done|split; try done|done].
  intros lk. cbn. destruct (decide (lk = LkProc p)) as [->|Hne]; [by rewrite lookup_delete_eq|].
  rewrite lookup_delete_ne by done. intros E. by apply Hne, H3.
Qed.

Definition sleep_post (p : nat) (lk : lockid) (s : kst X) : Prop :=
  exists t, thr s = t_acq lk t /\ at_rest p t /\ lks t !! lk = None /\ lks t !! LkProc p = None.

Lemma sleep_safe p ch lk t x :
  at_rest p t -> lks t !! lk = None -> lks t !! LkProc p = None -> lk <> LkProc p ->
  safe (fun s => to_sched p (thr s) /\ pstate p (thr s) = SLEEPING /\
                 p_chan (default proc0 (procs (thr s) !! p)) = ch /\ lks (thr s) !! lk = None)
       (fun _ s' => to_proc p (thr s') /\ lks (thr s') !! lk = None)
       (fun _ => sleep_post p lk)
       (sleep ch lk n (MkK (t_acq lk t) x)).
Proof.
  intros [A1 A2 A3 A4 A5 A6] Hlk Hp Hne. unfold sleep.
  rewrite myproc_bind by (by apply cpu_ok_acq). change (cpu_proc (t_acq lk t)) with (cpu_proc t). rewrite A1.
  change (deref (Some p)) with (mret p : KM X nat). rewrite (bind_ret (mret p) _ _ _ _ _ eq_refl).
  assert (LkProc p <> lk) as Hne' by congruence.
  rewrite acquire_bind by (rewrite lks_acq; by rewrite lookup_insert_ne).
  rewrite (t_acq_comm (LkProc p) lk) by done.
  rewrite release_bind by (by apply cpu_ok_acq || (rewrite lks_acq; by rewrite lookup_insert_ne)).
  rewrite !modp_bind, procs_alter_alter. set (t1 := _ <| procs ::= _ |>).
  assert (pstate p t1 = SLEEPING /\ p_chan (default proc0 (procs t1 !! p)) = ch) as [Hst Hch].
  { unfold t1, pstate. destruct t as [h si nf ie cp lk0 ps np ip sl]. cbn in *.
    rewrite list_lookup_alter_eq. by destruct (lookup_lt_is_Some_2 _ _ A5) as [q ->]. }
  assert (to_sched p t1 /\ lks t1 !! lk = None) as [Hts Hl1].
  { split; [split; [|by rewrite Hst]|]; destruct t as [h si nf ie cp lk0 ps np ip sl]; cbn in *; subst.
    - split; cbn; try done; [by rewrite lookup_insert_eq| |by rewrite length_alter].
      intros lk' [[<- _]|[_ E]]%lookup_insert_Some; [done|]. by apply A2 in E.
    - by rewrite lookup_insert_ne. }
  rewrite (bind_yield _ _ _ _ _ _ (sched_eq p t1 x Hts)). cbn [safe bind_res]. split; [done|].
  intros s' [Hto Hl']. destruct s' as [t' x']. cbn [thr own] in *.
  destruct (resume_at_rest p t' (intena t1) (fun q => q <| p_chan := ChNone |>) x' Hto ltac:(done))
    as (E1 & E2 & E3).
  rewrite modp_bind, (bind_ret _ _ _ _ _ _ E1), acquire_spec by (rewrite E3; by rewrite lookup_delete_ne).
  cbn [safe]. eexists. split_and!; [done|done|rewrite E3; by rewrite lookup_delete_ne|rewrite E3; apply lookup_delete_eq].
Qed.

Lemma yield_safe p t x :
  at_rest p t -> lks t !! LkProc p = None ->
  safe (fun s => to_sched p (thr s) /\ pstate p (thr s) = RUNNABLE)
       (fun _ s' => to_proc p (thr s'))
       (fun _ s => at_rest p (thr s) /\ lks (thr s) !! LkProc p = None)
       (yield n (MkK t x)).
Proof.
  intros [A1 A2 A3 A4 A5 A6] Hp. unfold yield. rewrite myproc_bind, A1 by done.
  change (deref (Some p)) with (mret p : KM X nat). rewrite (bind_ret (mret p) _ _ _ _ _ eq_refl).
  rewrite acquire_bind, modp_bind by done. set (t1 := _ <| procs ::= _ |>).
  assert (pstate p t1 = RUNNABLE) as Hst.
  { unfold t1, pstate. destruct t as [h si nf ie cp lk0 ps np ip sl]. cbn in *.
    rewrite list_lookup_alter_eq. by destruct (lookup_lt_is_Some_2 _ _ A5) as [q ->]. }
  assert (to_sched p t1) as Hts.
  { split; [|by rewrite Hst]. destruct t as [h si nf ie cp lk0 ps np ip sl]; cbn in *; subst.
    split; cbn; try done; [by rewrite lookup_insert_eq| |by rewrite length_alter].
    intros lk' [[<- _]|[_ E]]%lookup_insert_Some; [done|]. by apply A2 in E. }
  rewrite (bind_yield _ _ _ _ _ _ (sched_eq p t1 x Hts)). cbn [safe bind_res]. split; [done|].
  intros s' Hto. destruct s' as [t' x']. cbn [thr own] in *.
  destruct (resume_at_rest p t' (intena t1) id x' Hto ltac:(done)) as (E1 & E2 & E3).
  rewrite procs_id in E1, E2, E3 by done. rewrite E1. cbn [safe thr]. split; [done|].
  rewrite E3. apply lookup_delete_eq.
Qed.

(** What the scheduler relies on: the process it switched to gives the hart
    back in the agreed state, and no other process lock is held then. *)
Definition sched_rely (s s' : kst X) : Prop :=
  forall p, to_proc p (thr s) ->
    to_sched p (thr s') /\ forall i, i <> p -> lks (thr s') !! LkProc i = None.

Definition sched_inv (s : kst X) : Prop := idle (thr s) /\ locks_free (thr s).

(** The scheduler drops the lock of the process it looked at. *)
Lemma release_idle p t x :
  lks t !! LkProc p = Some (hart t) -> (forall lk, lks t !! lk = Some (hart t) -> lk = LkProc p) ->
  noff t = 1 -> sie t = false -> cpu_proc t = None -> (forall i, i <> p -> lks t !! LkProc i = None) ->
  exists t', release (LkProc p) n (MkK t x) = Ret tt (MkK t' x) /\ idle t' /\ locks_free t'.
Proof.
  intros H1 H2 H3 H4 H5 H6. exists (t_rel (LkProc p) t). split; [apply release_held; [done..|lia]|].
  destruct t as [h si nf ie cp lk0 ps np ip sl]. cbn in *. subst. split; [split; cbn; try done|].
  - intros lk. destruct (decide (lk = LkProc p)) as [->|Hne]; [by rewrite lookup_delete_eq|].
    rewrite lookup_delete_ne by done. intros E. by apply Hne, H2.
  - intros i. cbn. destruct (decide (i = p)) as [->|Hne]; [by rewrite lookup_delete_eq|].
    rewrite lookup_delete_ne by congruence. by apply H6.
Qed.

Lemma scheduler_body_safe i s :
  sched_inv s -> safe (fun s => exists p, to_proc p (thr s)) sched_rely (fun _ => sched_inv) (scheduler_body i n s).
Proof.
  destruct s as [t x]. intros [[I1 I2 I3] Hl]. cbn [thr] in *. unfold scheduler_body. set (p := Z.to_nat i).
  rewrite acquire_bind, getp_bind by apply Hl. change (procs (t_acq _ t)) with (procs t).
  destruct (bool_decide _) eqn:E; cbn [mwhen].
  - apply bool_decide_eq_true in E.
    assert (p < length (procs t))%nat as Hp.
    { destruct (procs t !! p) eqn:Eq; [by eapply lookup_lt_Some|done]. }
    apply safe_bind.
    rewrite modp_bind, modT_bind.
    set (t1 := _ <| cpu_proc := Some p |>).
    assert (to_proc p t1) as Ht1.
    { destruct t as [h si nf ie cp lk0 ps np ip sl]. cbn in *. subst. split; [split; cbn; try done|].
      - by rewrite lookup_insert_eq.
      - intros lk' [[<- _]|[_ E']]%lookup_insert_Some; [done|]. by apply I1 in E'.
      - by rewrite length_alter.
      - unfold pstate, t1. cbn. rewrite list_lookup_alter_eq.
        by destruct (lookup_lt_is_Some_2 _ _ Hp) as [q ->]. }
    rewrite (bind_yield swtch _ n (MkK t1 x) _ _ eq_refl). cbn [safe bind_res]. split; [by exists p|].
    intros s' Hs'. destruct (Hs' p Ht1) as [[[S1 S2 S3 S4 S5 S6] _] S7]. destruct s' as [t' x']. cbn [thr own] in *.
    unfold modT, modify. cbn [safe thr own].
    destruct (release_idle p (t' <| cpu_proc := None |>) x') as (t2 & E2 & Hi & Hf); try (by destruct t').
    rewrite E2. by split.
  - rewrite (bind_ret (mret tt) _ _ _ _ _ eq_refl).
    destruct (release_idle p (t_acq (LkProc p) t) x) as (t2 & E2 & Hi & Hf);
      try (rewrite lks_acq); try done.
    + by rewrite lookup_insert_eq.
    + intros lk' [[<- _]|[_ E']]%lookup_insert_Some; [done|]. by apply I1 in E'.
    + by destruct t as [h si nf ie cp lk0 ps np ip sl]; cbn in *; subst.
    + intros j Hj. rewrite lookup_insert_ne by congruence. apply Hl.
    + rewrite E2. by split.
Qed.

Lemma scheduler_pass_safe s :
  sched_inv s -> safe (fun s => exists p, to_proc p (thr s)) sched_rely (fun _ => sched_inv) (scheduler_pass n s).
Proof.
  intros [[I1 I2 I3] Hl]. unfold scheduler_pass, intr_on. destruct s as [t x]. rewrite modT_bind.
  apply safe_meach; [apply scheduler_body_safe|]. split; cbn [thr]; by destruct t.
Qed.
End handoff.

(** ** Theorems *)

(** C40: Both sides of the context switch keep the contract the other side
    relies on.  A process that sleeps (having released the lock it was
    called with) or yields reaches the scheduler only holding its own lock
    and no other, with one [push_off] pending, interrupts off and a state
    other than RUNNING; the scheduler switches to a process only in that same
    situation with the process marked RUNNING.  If each gets back what the
    other guarantees, none of the panics of [sched], [acquire] and [release]
    can occur, [sleep] returns holding its lock again and nothing else, and
    the scheduler finishes its pass with no lock held. *)
Theorem swtch_handoff {X} n p ch lk t (x : X) ts (xs : X) :
  at_rest p t -> lks t !! lk = None -> lks t !! LkProc p = None -> lk <> LkProc p ->
  sched_inv (MkK ts xs) ->
  safe (fun s => to_sched p (thr s) /\ pstate p (thr s) = SLEEPING /\
                 p_chan (default proc0 (procs (thr s) !! p)) = ch /\ lks (thr s) !! lk = None)
       (fun _ s' => to_proc p (thr s') /\ lks (thr s') !! lk = None)
       (fun _ => sleep_post p lk) (sleep ch lk n (MkK (t_acq lk t) x)) /\
  safe (fun s => to_sched p (thr s) /\ pstate p (thr s) = RUNNABLE)
       (fun _ s' => to_proc p (thr s'))
       (fun _ s => at_rest p (thr s) /\ lks (thr s) !! LkProc p = None) (yield n (MkK t x)) /\
  safe (fun s => exists p, to_proc p (thr s)) sched_rely (fun _ => sched_inv) (scheduler_pass n (MkK ts xs)).
Proof. intros H1 H2 H3 H4 H5. split_and!; [by apply sleep_safe|by apply yield_safe|by apply scheduler_pass_safe]. Qed.

Definition demo_run : T :=
  MkT 0 true 0 true (Some 1%nat) ∅ [proc0 <| p_state := RUNNABLE |>; proc0 <| p_state := RUNNING |>] 3 (Some 0%nat) ∅.
Definition demo_idle : T :=
  MkT 1 true 0 true None ∅ [proc0 <| p_state := RUNNABLE |>; proc0 <| p_state := SLEEPING |>] 3 (Some 0%nat) ∅.

Lemma swtch_handoff_witness :
  safe (fun s => to_sched 1 (thr s) /\ pstate 1 (thr s) = RUNNABLE)
       (fun _ s' => to_proc 1 (thr s'))
       (fun _ s => at_rest 1 (thr s) /\ lks (thr s) !! LkProc 1 = None) (yield 5%nat (MkK demo_run tt)) /\
  safe (fun s => exists p, to_proc p (thr s)) sched_rely (fun _ => sched_inv) (scheduler_pass 5%nat (MkK demo_idle tt)).
Proof.
  destruct (swtch_handoff 5%nat 1%nat ChTicks LkTicks demo_run tt demo_idle tt) as (_ & H2 & H3);
    [|reflexivity|reflexivity|discriminate| |split; [exact H2|exact H3]].
  - split; [reflexivity|discriminate|reflexivity|split_and!; cbn; [lia|reflexivity|lia]|cbn; lia|reflexivity].
  - split; [split; [discriminate|reflexivity|reflexivity]|intros i; reflexivity].
Defined.

(** [wakeup] and [kill] do what their callers count on, in one table
    scan and whatever the table holds: [wakeup ch] makes exactly the other
    processes sleeping on [ch] runnable and changes nothing else; [kill pid]
    marks the first entry with that pid killed, waking it if it sleeps, and
    returns -1 without change if there is none.  Both leave every lock and
    the interrupt state as they were. *)
Theorem wakeup_kill_correct {X} n ch pid t (x : X) :
  cpu_ok t -> locks_free t -> length (procs t) = Z.to_nat NPROC ->
  wakeup ch n (MkK t x) = Ret tt (MkK (t <| procs := imap (woken ch (cpu_proc t)) (procs t) |>) x) /\
  ((exists i q, procs t !! i = Some q /\ p_pid q = pid /\
      (forall j q', (j < i)%nat -> procs t !! j = Some q' -> p_pid q' <> pid) /\
      kill pid n (MkK t x) = Ret 0 (MkK (t <| procs ::= alter killed_proc i |>) x)) \/
   ((forall j q, procs t !! j = Some q -> p_pid q <> pid) /\ kill pid n (MkK t x) = Ret (-1) (MkK t x))).
Proof. intros H1 H2 H3. split; [by apply wakeup_spec|by apply kill_spec]. Qed.

Definition demo_table : T :=
  MkT 0 true 0 true (Some 1%nat) ∅ (proc0 <| p_state := SLEEPING |> <| p_chan := ChTicks |> <| p_pid := 7 |> :: replicate 63 proc0) 8 (Some 0%nat) ∅.

Lemma wakeup_kill_correct_witness :
  exists t, wakeup ChTicks 0%nat (MkK demo_table tt) = Ret tt (MkK t tt) /\
    p_state <$> procs t !! 0%nat = Some RUNNABLE.
Proof.
  destruct (wakeup_kill_correct 0%nat ChTicks 7 demo_table tt) as [H _];
    [split_and!; cbn; [lia|reflexivity|lia]|intros i; reflexivity|reflexivity|].
  eexists. split; [exact H|reflexivity].
Defined.
