(* ===== verification/SleepWakeup.v ===== *)
(** * No wakeup is lost

    [sleep] and [wakeup] of [kernel/proc.c], interleaved by any number of
    waiting and waking threads at the granularity of their lock operations
    and stores.  A waiter runs [acquire(lk); while(!cond) sleep(chan, lk);
    ...; release(lk)], a waker [acquire(lk); cond = 1; wakeup(chan);
    release(lk)], possibly releasing [lk] before it calls [wakeup].  The
    theorem is the reason [sleep] takes [p->lock] before it releases [lk]. *)

From Stdlib Require Import ZArith Lia.
From stdpp Require Import relations.
From S2P Require Import Prelude Thread.

(** Where a waiter is.  The constructors from [WSleep] to [WRetake] are the
    statements of [sleep]. *)
Inductive wpc :=
| WOut        (* before acquire(lk) *)
| WTest       (* holds lk, about to test the condition *)
| WSleep      (* in sleep, about to acquire(&p->lock) *)
| WUnlock     (* holds lk and p->lock, about to release(lk) *)
| WMark       (* holds p->lock, about to set chan and state = SLEEPING *)
| WSched      (* in sched: the scheduler will release p->lock *)
| WParked     (* switched away *)
| WBack       (* scheduled again: holds p->lock, about to clear chan and release it *)
| WRetake     (* about to acquire(lk) again *)
| WGo.        (* holds lk, found the condition true *)

(** Where a waker is; [KScan i] is about to acquire the lock of process [i]
    in [wakeup]'s loop, [KLook i] holds it. *)
Inductive kpc :=
| KOut | KSet | KScan (i : nat) | KLook (i : nat).

Inductive tid := Waiter (i : nat) | Waker (j : nat).
#[export] Instance tid_eq_dec : EqDecision tid.
Proof. solve_decision. Defined.

Record swst := MkSw {
  cond : bool;
  lk_own : option tid;             (* who holds lk *)
  p_own : nat -> option tid;       (* who holds the lock of process i *)
  st : nat -> procstate;           (* state of process i *)
  wp : nat -> wpc;
  kp : nat -> kpc
}.

Definition set {A} (f : nat -> A) (i : nat) (a : A) : nat -> A :=
  fun j => if decide (j = i) then a else f j.

(** [NP] processes in the table. *)
Inductive swstep (NP : nat) : swst -> swst -> Prop :=
(* the waiter *)
| s_lock s i : wp s i = WOut -> lk_own s = None -> (i < NP)%nat ->
    swstep NP s (MkSw (cond s) (Some (Waiter i)) (p_own s) (st s) (set (wp s) i WTest) (kp s))
| s_test_no s i : wp s i = WTest -> cond s = false ->
    swstep NP s (MkSw (cond s) (lk_own s) (p_own s) (st s) (set (wp s) i WSleep) (kp s))
| s_test_yes s i c : wp s i = WTest -> cond s = true ->
    swstep NP s (MkSw c (lk_own s) (p_own s) (st s) (set (wp s) i WGo) (kp s))
| s_leave s i : wp s i = WGo ->
    swstep NP s (MkSw (cond s) None (p_own s) (st s) (set (wp s) i WOut) (kp s))
| s_plock s i : wp s i = WSleep -> p_own s i = None ->
    swstep NP s (MkSw (cond s) (lk_own s) (set (p_own s) i (Some (Waiter i))) (st s) (set (wp s) i WUnlock) (kp s))
| s_unlock s i : wp s i = WUnlock ->
    swstep NP s (MkSw (cond s) None (p_own s) (st s) (set (wp s) i WMark) (kp s))
| s_mark s i : wp s i = WMark ->
    swstep NP s (MkSw (cond s) (lk_own s) (p_own s) (set (st s) i SLEEPING) (set (wp s) i WSched) (kp s))
| s_sched s i : wp s i = WSched ->
    swstep NP s (MkSw (cond s) (lk_own s) (set (p_own s) i None) (st s) (set (wp s) i WParked) (kp s))
| s_run s i : wp s i = WParked -> p_own s i = None -> st s i = RUNNABLE ->
    swstep NP s (MkSw (cond s) (lk_own s) (set (p_own s) i (Some (Waiter i))) (set (st s) i RUNNING) (set (wp s) i WBack) (kp s))
| s_back s i : wp s i = WBack ->
    swstep NP s (MkSw (cond s) (lk_own s) (set (p_own s) i None) (st s) (set (wp s) i WRetake) (kp s))
| s_retake s i : wp s i = WRetake -> lk_own s = None ->
    swstep NP s (MkSw (cond s) (Some (Waiter i)) (p_own s) (st s) (set (wp s) i WTest) (kp s))
(* the waker *)
| k_lock s j : kp s j = KOut -> lk_own s = None ->
    swstep NP s (MkSw (cond s) (Some (Waker j)) (p_own s) (st s) (wp s) (set (kp s) j KSet))
| k_set s j : kp s j = KSet ->
    swstep NP s (MkSw true (lk_own s) (p_own s) (st s) (wp s) (set (kp s) j (KScan 0)))
| k_plock s j i : kp s j = KScan i -> (i < NP)%nat -> p_own s i = None ->
    swstep NP s (MkSw (cond s) (lk_own s) (set (p_own s) i (Some (Waker j))) (st s) (wp s) (set (kp s) j (KLook i)))
| k_wake s j i : kp s j = KLook i -> st s i = SLEEPING ->
    swstep NP s (MkSw (cond s) (lk_own s) (set (p_own s) i None) (set (st s) i RUNNABLE) (wp s) (set (kp s) j (KScan (S i))))
| k_skip s j i : kp s j = KLook i -> st s i <> SLEEPING ->
    swstep NP s (MkSw (cond s) (lk_own s) (set (p_own s) i None) (st s) (wp s) (set (kp s) j (KScan (S i))))
| k_unlock s j i : kp s j = KScan i -> lk_own s = Some (Waker j) ->
    swstep NP s (MkSw (cond s) None (p_own s) (st s) (wp s) (kp s))
| k_done s j : kp s j = KScan NP -> lk_own s <> Some (Waker j) ->
    swstep NP s (MkSw (cond s) (lk_own s) (p_own s) (st s) (wp s) (set (kp s) j KOut)).

Definition sw_init : swst :=
  MkSw false None (fun _ => None) (fun _ => RUNNING) (fun _ => WOut) (fun _ => KOut).

(** Process [i] is asleep: its thread has been switched away and no one has
    made it runnable. *)
Definition asleep (s : swst) (i : nat) : Prop := wp s i = WParked /\ st s i = SLEEPING.

(** Waker [j] has yet to look at process [i]. *)
Definition will_look (s : swst) (j i : nat) : Prop :=
  exists m, (kp s j = KScan m \/ kp s j = KLook m) /\ (m <= i)%nat.

(** ** Invariant *)

Record sw_inv (NP : nat) (s : swst) : Prop := {
  (* lock ownership follows from the program counters *)
  sw_lkw : forall i, wp s i = WTest \/ wp s i = WSleep \/ wp s i = WUnlock \/ wp s i = WGo ->
    lk_own s = Some (Waiter i);
  sw_lkk : forall j, kp s j = KSet -> lk_own s = Some (Waker j);
  sw_pw : forall i, wp s i = WUnlock \/ wp s i = WMark \/ wp s i = WSched \/ wp s i = WBack ->
    p_own s i = Some (Waiter i);
  sw_pk : forall j i, kp s j = KLook i -> p_own s i = Some (Waker j);
  sw_np : forall i, wp s i <> WOut -> (i < NP)%nat;
  (* between the test and the release of lk nobody can set the condition *)
  sw_cond : forall i, wp s i = WSleep \/ wp s i = WUnlock -> cond s = false;
  (* from then on a true condition means a waker has yet to come *)
  sw_pend : forall i, wp s i = WMark \/ wp s i = WSched \/ asleep s i -> cond s = true ->
    exists j, will_look s j i
}.

Lemma set_eq {A} (f : nat -> A) i a : set f i a i = a.
Proof. unfold set. by rewrite decide_True. Qed.
Lemma set_ne {A} (f : nat -> A) i j a : j <> i -> set f i a j = f j.
Proof. intros H. unfold set. by rewrite decide_False. Qed.

Ltac sw_cases := cbn in *; unfold set in *; repeat case_decide; subst.

Ltac sw_inst H := repeat match goal with
  | x : nat |- _ => lazymatch type of H with
                    | forall _ : nat, _ => let T := type of (H x) in
                        lazymatch goal with _ : T |- _ => fail | _ => pose proof (H x) end
                    end
  end.

(** A waker's step keeps [will_look] of every process it has not finished with. *)
Lemma will_look_mono s s' j i (m m' : nat) b :
  kp s j = KScan m \/ kp s j = KLook m -> kp s' = set (kp s) j (KScan m') \/ kp s' = set (kp s) j (KLook m') ->
  (m <= i -> m' <= i)%nat -> will_look s b i -> exists b', will_look s' b' i.
Proof.
  intros Hj Hk Hm (m0 & H0 & Hle). destruct (decide (b = j)) as [->|Hne].
  - exists j, m'. assert (m0 = m) as -> by (destruct H0, Hj; congruence).
    destruct Hk as [-> | ->]; rewrite set_eq; auto.
  - exists b, m0. destruct Hk as [-> | ->]; rewrite set_ne by done; auto.
Qed.

Lemma will_look_other s s' j i k b :
  kp s' = set (kp s) j k -> (forall m, (m <= i)%nat -> kp s j <> KScan m /\ kp s j <> KLook m) ->
  will_look s b i -> exists b', will_look s' b' i.
Proof.
  intros Hk Hj (m & Hm & Hle). exists b, m. split; [|done]. rewrite Hk, set_ne; [done|].
  intros ->. destruct (Hj m Hle). tauto.
Qed.

Section step.
Context (NP : nat) (s s' : swst) (I : sw_inv NP s) (Hs : swstep NP s s').

Lemma step_lkw a : wp s' a = WTest \/ wp s' a = WSleep \/ wp s' a = WUnlock \/ wp s' a = WGo ->
  lk_own s' = Some (Waiter a).
Proof.
  destruct I as [I1 I2 _ _ _ _ _]. clear I. destruct Hs; sw_inst I1; sw_inst I2; clear I1 I2 Hs;
    sw_cases; intuition congruence.
Qed.

Lemma step_lkk b : kp s' b = KSet -> lk_own s' = Some (Waker b).
Proof.
  destruct I as [I1 I2 _ _ _ _ _]. clear I. destruct Hs; sw_inst I1; sw_inst I2; clear I1 I2 Hs;
    sw_cases; intuition congruence.
Qed.

Lemma step_pw a : wp s' a = WUnlock \/ wp s' a = WMark \/ wp s' a = WSched \/ wp s' a = WBack ->
  p_own s' a = Some (Waiter a).
Proof.
  destruct I as [_ _ I3 I4 _ _ _]. clear I. destruct Hs; sw_inst I3; try pose proof (I4 j i);
    clear I3 I4 Hs; sw_cases; intuition congruence.
Qed.

Lemma step_pk b a : kp s' b = KLook a -> p_own s' a = Some (Waker b).
Proof.
  destruct I as [_ _ I3 I4 _ _ _]. clear I. destruct Hs; sw_inst I3; pose proof (I4 b a); try pose proof (I4 j i);
    clear I3 I4 Hs; sw_cases; intuition congruence.
Qed.

Lemma step_np a : wp s' a <> WOut -> (a < NP)%nat.
Proof.
  destruct I as [_ _ _ _ I5 _ _]. clear I. destruct Hs; sw_inst I5; clear I5 Hs; sw_cases; intuition congruence.
Qed.

Lemma step_cond a : wp s' a = WSleep \/ wp s' a = WUnlock -> cond s' = false.
Proof.
  destruct I as [I1 I2 _ _ _ I6 _]. clear I. destruct Hs; sw_inst I1; sw_inst I2; sw_inst I6; clear I1 I2 I6 Hs;
    sw_cases; intuition congruence.
Qed.

Lemma step_pend a : wp s' a = WMark \/ wp s' a = WSched \/ asleep s' a -> cond s' = true ->
  exists j, will_look s' j a.
Proof.
  intros Ha Hc. destruct I as [I1 I2 I3 I4 I5 I6 I7].
  assert ((wp s a = WMark \/ wp s a = WSched \/ asleep s a) /\ cond s = true \/
          exists j, kp s j = KSet /\ kp s' j = KScan 0) as [[Hp Hcs]|(j & _ & Hj)].
  { pose proof (I6 a). clear I1 I2 I3 I4 I5 I6 I7 I. unfold asleep in *. destruct Hs; sw_cases;
      try (left; intuition congruence). right. exists j. by rewrite decide_True. }
  2: { exists j, 0%nat. split; [by left|lia]. }
  destruct (I7 a Hp Hcs) as [b Hb].
  assert (a < NP)%nat as Hnp by (apply I5; unfold asleep in Hp; intuition congruence).
  pose proof (I3 a) as I3a. clear I1 I2 I3 I5 I6 I7 I.
  inversion Hs as [| | | | | | | | | | |s0 j Hj|s0 j Hj|s0 j i Hj Hi|s0 j i Hj Hst|s0 j i Hj Hst|s0 j i Hj|s0 j Hj Hl];
    subst s'; try (by exists b).
  - by eapply (will_look_other s _ j); [reflexivity|intros m _; rewrite Hj; done|].
  - by eapply (will_look_other s _ j); [reflexivity|intros m _; rewrite Hj; done|].
  - by eapply (will_look_mono s _ j a i i); [left|right|..].
  - pose proof (I4 j i Hj). destruct (decide (a = i)) as [->|Hne].
    + unfold asleep in *. cbn in Ha. rewrite set_eq in Ha. intuition congruence.
    + eapply (will_look_mono s _ j a i (S i)); [by right|by left|lia|done].
  - pose proof (I4 j i Hj). destruct (decide (a = i)) as [->|Hne].
    + unfold asleep in *. intuition congruence.
    + eapply (will_look_mono s _ j a i (S i)); [by right|by left|lia|done].
  - eapply (will_look_other s _ j); [reflexivity| |done]. intros m Hm. rewrite Hj. split; [|done]. intros [=]. lia.
Qed.
End step.

Lemma sw_inv_step NP s s' : sw_inv NP s -> swstep NP s s' -> sw_inv NP s'.
Proof.
  intros I Hs. split; intros.
  - by eapply step_lkw.
  - by eapply step_lkk.
  - by eapply step_pw.
  - by eapply step_pk.
  - by eapply step_np.
  - by eapply step_cond.
  - by eapply step_pend.
Qed.

Lemma sw_inv_reachable NP s : rtc (swstep NP) sw_init s -> sw_inv NP s.
Proof.
  revert s. apply rtc_ind_r; [|intros y z _ Hyz Hy; by eapply sw_inv_step].
  split; cbn; unfold asleep; intros; cbn in *; intuition congruence.
Qed.

(** ** Theorem *)


(** A run in which process 0 goes to sleep and then waker 0 sets the condition. *)
Definition d1 := MkSw false (Some (Waiter 0)) (p_own sw_init) (st sw_init) (set (wp sw_init) 0 WTest) (kp sw_init).
Definition d2 := MkSw false (lk_own d1) (p_own d1) (st d1) (set (wp d1) 0 WSleep) (kp d1).
Definition d3 := MkSw false (lk_own d2) (set (p_own d2) 0 (Some (Waiter 0))) (st d2) (set (wp d2) 0 WUnlock) (kp d2).
Definition d4 := MkSw false None (p_own d3) (st d3) (set (wp d3) 0 WMark) (kp d3).
Definition d5 := MkSw false (lk_own d4) (p_own d4) (set (st d4) 0 SLEEPING) (set (wp d4) 0 WSched) (kp d4).
Definition d6 := MkSw false (lk_own d5) (set (p_own d5) 0 None) (st d5) (set (wp d5) 0 WParked) (kp d5).
Definition d7 := MkSw false (Some (Waker 0)) (p_own d6) (st d6) (wp d6) (set (kp d6) 0 KSet).
Definition d8 := MkSw true (lk_own d7) (p_own d7) (st d7) (wp d7) (set (kp d7) 0 (KScan 0)).

Lemma d8_reachable : rtc (swstep 1) sw_init d8.
Proof.
  apply (rtc_l _ _ d1); [by apply (s_lock 1 sw_init 0); [..|lia]|].
  apply (rtc_l _ _ d2); [by apply (s_test_no 1 d1 0)|].
  apply (rtc_l _ _ d3); [by apply (s_plock 1 d2 0)|].
  apply (rtc_l _ _ d4); [by apply (s_unlock 1 d3 0)|].
  apply (rtc_l _ _ d5); [by apply (s_mark 1 d4 0)|].
  apply (rtc_l _ _ d6); [by apply (s_sched 1 d5 0)|].
  apply (rtc_l _ _ d7); [by apply (k_lock 1 d6 0)|].
  apply (rtc_l _ _ d8); [by apply (k_set 1 d7 0)|]. apply rtc_refl.
Qed.

