(* ===== verification/Sleeplock.v ===== *)
(** * Sleep locks: [kernel/sleeplock.c]

    A sleep lock is held by a process, across context switches.  [locked] and
    [pid] are the entry of [slks]; the spin lock inside is [LkSleep lk] and
    the lock's address is the channel [ChSleep lk]. *)

From Stdlib Require Import ZArith Lia.
From S2P Require Import Prelude Riscv Thread Proc.

Section sleeplock_c.
Context {X : Type}.
Implicit Type lk : slock.

Definition initsleeplock lk : KM X () :=
  initlock (LkSleep lk) ;;
  modT (fun t => t <| slks ::= delete lk |>).

(** [while (lk->locked) sleep(lk, &lk->lk);] *)
Definition acquiresleep_body lk (_ : ()) : KM X (() + ()) :=
  o ← getT (fun t => slks t !! lk);
  match o with
  | Some _ => sleep (ChSleep lk) (LkSleep lk) ;; mret (inl tt)
  | None => mret (inr tt)
  end.

Definition acquiresleep lk : KM X () :=
  acquire (LkSleep lk) ;;
  mloop (acquiresleep_body lk) tt ;;
  p ← myproc;
  p ← deref p;
  q ← getp p;
  modT (fun t => t <| slks ::= <[lk := p_pid q]> |>) ;;
  release (LkSleep lk).

Definition releasesleep lk : KM X () :=
  acquire (LkSleep lk) ;;
  modT (fun t => t <| slks ::= delete lk |>) ;;
  wakeup (ChSleep lk) ;;
  release (LkSleep lk).

Definition holdingsleep lk : KM X bool :=
  acquire (LkSleep lk) ;;
  o ← getT (fun t => slks t !! lk);
  r ← match o with
      | Some pid =>
          p ← myproc;
          p ← deref p;
          q ← getp p;
          mret (pid =? p_pid q)
      | None => mret false
      end;
  release (LkSleep lk) ;;
  mret r.
End sleeplock_c.

(** ** A thread that no one else disturbs

    [calm p t]: process [p] runs on this hart, no process lock is held and no
    other process sleeps on a channel of the file system, so that the
    [wakeup]s below wake nobody.  [rest p t]: in addition no spin lock is held
    at all. *)

Definition fs_chan (ch : chan) : bool :=
  match ch with ChSleep _ | ChBuf _ | ChDiskFree | ChLog => true | _ => false end.

Record calm (p : nat) (t : T) : Prop := {
  ca_proc : cpu_proc t = Some p;
  ca_ok : cpu_ok t;
  ca_free : locks_free t;
  ca_len : length (procs t) = Z.to_nat NPROC;
  ca_quiet : forall j q, j <> p -> procs t !! j = Some q -> p_state q = SLEEPING -> fs_chan (p_chan q) = false
}.

Record rest (p : nat) (t : T) : Prop := {
  re_calm : calm p t;
  re_lks : lks t = ∅;
  re_noff : noff t = 0;
  re_run : exists q, procs t !! p = Some q /\ p_state q = RUNNING /\ p_chan q = ChNone
}.

Definition my_pid (p : nat) (t : T) : Z := p_pid (default proc0 (procs t !! p)).
Definition hold (lk : slock) (p : nat) (t : T) : T := t <| slks ::= <[lk := my_pid p t]> |>.
Definition drop_sl (lk : slock) (t : T) : T := t <| slks ::= delete lk |>.

Lemma calm_acq p lk t : (forall i, lk <> LkProc i) -> calm p t -> calm p (t_acq lk t).
Proof.
  intros Hlk [H1 H2 H3 H4 H5]. split; try done; [by apply cpu_ok_acq|].
  intros i. change (lks (t_acq lk t)) with (<[lk := hart t]> (lks t)). rewrite lookup_insert_ne by done. apply H3.
Qed.

Lemma calm_slks p t f : calm p (t <| slks ::= f |>) <-> calm p t.
Proof. destruct t. split; intros []; by split. Qed.

Lemma rest_slks p t f : rest p (t <| slks ::= f |>) <-> rest p t.
Proof. split; intros [H1 H2 H3 H4]; (split; [by apply calm_slks in H1 || by apply calm_slks|by destruct t..]). Qed.

Lemma t_acq_slks lk t f : t_acq lk (t <| slks ::= f |>) = (t_acq lk t) <| slks ::= f |>.
Proof. by destruct t. Qed.

Lemma cpu_ok_slks t f : cpu_ok (t <| slks ::= f |>) <-> cpu_ok t.
Proof. by destruct t. Qed.

Lemma woken_quiet p t ch : calm p t -> fs_chan ch = true -> imap (woken ch (cpu_proc t)) (procs t) = procs t.
Proof.
  intros [H1 H2 H3 H4 H5] Hch. apply list_eq. intros i. rewrite list_lookup_imap.
  destruct (procs t !! i) as [q|] eqn:E; [|done]. cbn. f_equal. unfold woken. rewrite H1.
  destruct (decide (i = p)) as [->|Hne]; [by rewrite bool_decide_true|].
  rewrite bool_decide_false by congruence.
  destruct (bool_decide_reflect (p_state q = SLEEPING)); [|done].
  destruct (bool_decide_reflect (p_chan q = ch)) as [<-|]; [|done]. by rewrite (H5 i q) in Hch.
Qed.

Lemma wakeup_quiet {X} p t ch n (x : X) :
  calm p t -> fs_chan ch = true -> wakeup ch n (MkK t x) = Ret tt (MkK t x).
Proof.
  intros Hc Hch. pose proof Hc as [H1 H2 H3 H4 H5]. rewrite wakeup_spec by done.
  rewrite (woken_quiet p) by done. by destruct t.
Qed.

Section sleeplock_spec.
Context {X : Type}.
Implicit Type x : X.

Lemma slks_release lk l f n t x :
  cpu_ok t -> lks t !! l = None -> lk = l ->
  release lk n (MkK ((t_acq l t) <| slks ::= f |>) x) = Ret tt (MkK (t <| slks ::= f |>) x).
Proof.
  intros Hc Hl ->. rewrite <- t_acq_slks. apply release_spec; [by apply cpu_ok_slks|by destruct t].
Qed.

(** A free sleep lock is taken at once. *)
Lemma acquiresleep_spec p lk n t x :
  calm p t -> lks t !! LkSleep lk = None -> slks t !! lk = None -> n <> 0%nat ->
  acquiresleep lk n (MkK t x) = Ret tt (MkK (hold lk p t) x).
Proof.
  intros Hc Hl Hs Hn. pose proof Hc as [H1 H2 H3 H4 H5]. unfold acquiresleep.
  rewrite acquire_bind by done.
  assert (acquiresleep_body lk tt n (MkK (t_acq (LkSleep lk) t) x) = Ret (inr tt) (MkK (t_acq (LkSleep lk) t) x)) as Hb.
  { unfold acquiresleep_body. rewrite getT_bind. change (slks (t_acq _ t)) with (slks t). by rewrite Hs. }
  rewrite (bind_ret _ _ _ _ _ _ (mloop_inr _ _ _ _ _ _ Hn Hb)), myproc_bind by (by apply cpu_ok_acq).
  change (cpu_proc (t_acq _ t)) with (cpu_proc t). rewrite H1. cbn [deref].
  rewrite (bind_ret (mret p) _ _ _ _ _ eq_refl), getp_bind, modT_bind.
  by apply slks_release.
Qed.

Lemma holdingsleep_spec p lk n t x :
  calm p t -> lks t !! LkSleep lk = None ->
  holdingsleep lk n (MkK t x) =
  Ret (match slks t !! lk with Some pid => pid =? my_pid p t | None => false end) (MkK t x).
Proof.
  intros Hc Hl. pose proof Hc as [H1 H2 H3 H4 H5]. unfold holdingsleep.
  rewrite acquire_bind, getT_bind by done. change (slks (t_acq _ t)) with (slks t).
  destruct (slks t !! lk) as [pid|]; cbn iota.
  - match goal with |- ((?m ≫= ?f) n ?s) = _ => assert (m n s = Ret (pid =? my_pid p t) s) as E end.
    { rewrite myproc_bind by (by apply cpu_ok_acq). change (cpu_proc (t_acq _ t)) with (cpu_proc t).
      rewrite H1. done. }
    rewrite (bind_ret _ _ _ _ _ _ E). by rewrite release_bind.
  - rewrite (bind_ret (mret false) _ _ _ _ _ eq_refl). by rewrite release_bind.
Qed.

Lemma releasesleep_spec p lk n t x :
  calm p t -> lks t !! LkSleep lk = None ->
  releasesleep lk n (MkK t x) = Ret tt (MkK (drop_sl lk t) x).
Proof.
  intros Hc Hl. pose proof Hc as [H1 H2 H3 H4 H5]. unfold releasesleep.
  rewrite acquire_bind, modT_bind by done.
  assert (calm p (t_acq (LkSleep lk) t)) as Hc' by (by apply calm_acq).
  rewrite (bind_ret _ _ _ _ _ _ (wakeup_quiet p _ (ChSleep lk) n x (proj2 (calm_slks p _ (delete lk)) Hc') eq_refl)).
  by apply slks_release.
Qed.
End sleeplock_spec.

Lemma hold_drop lk p t : slks t !! lk = None -> drop_sl lk (hold lk p t) = t.
Proof. intros H. destruct t. unfold drop_sl, hold, upd. cbn in *. f_equal. by rewrite delete_insert_id. Qed.
