(* ===== verification/Kern.v ===== *)
(** * The kernel's data

    The global variables of the kernel, as one record [kern]: physical memory
    and the free list ([kalloc.c]), the buffer cache ([bio.c]), the disk
    driver's rings ([virtio_disk.c]), the log ([log.c]), the superblock and
    the inode table ([fs.c]), the file table ([file.c]), pipes ([pipe.c]),
    console and UART buffers ([console.c], [uart.c], [printf.c]) and the
    clock ([trap.c]).  Structures the code reaches through pointers into
    these tables are named by their index; a null pointer is [None].

    Devices are not part of the source.  A read of a device register is
    answered by an arbitrary oracle [io_rd], a write is appended to the trace
    [io_wr]; what the disk holds is [dsk], which only the device changes. *)

From Stdlib Require Import ZArith Lia.
From S2P Require Import Prelude Riscv KString Thread Kalloc.

(** ** Constants of fs.h, stat.h, fcntl.h, file.h *)

Definition BSIZE : Z := 1024.
Definition ROOTINO : Z := 1.
Definition FSMAGIC : Z := 0x10203040.
Definition NDIRECT : Z := 12.
Definition NINDIRECT : Z := BSIZE / 4.
Definition MAXFILE : Z := NDIRECT + NINDIRECT.
(** sizeof(struct dinode), sizeof(struct dirent), sizeof(struct superblock) *)
Definition DINODE_SIZE : Z := 64.
Definition DIRENT_SIZE : Z := 16.
Definition SB_SIZE : Z := 32.
Definition IPB : Z := BSIZE / DINODE_SIZE.
Definition BPB : Z := BSIZE * 8.
Definition DIRSIZ : Z := 14.
Definition T_DIR : Z := 1.
Definition T_FILE : Z := 2.
Definition T_DEVICE : Z := 3.
Definition O_RDONLY : Z := 0x000.
Definition O_WRONLY : Z := 0x001.
Definition O_RDWR : Z := 0x002.
Definition O_CREATE : Z := 0x200.
Definition O_TRUNC : Z := 0x400.
Definition CONSOLE : Z := 1.

(** ** Structures *)

(** [struct buf]; [prev] and [next] are indices, [NBUF] for [&bcache.head]. *)
Record buf := MkBuf {
  b_valid : Z; b_disk : Z; b_dev : Z; b_blockno : Z; b_refcnt : Z;
  b_prev : nat; b_next : nat; b_data : list Z
}.
#[export] Instance eta_buf : Eta buf := fun b =>
  MkBuf (b_valid b) (b_disk b) (b_dev b) (b_blockno b) (b_refcnt b) (b_prev b) (b_next b) (b_data b).
Definition buf0 : buf := MkBuf 0 0 0 0 0 0 0 (replicate (Z.to_nat BSIZE) 0).

(** [struct logheader] and [struct log] (the lock is [LkLog]). *)
Record logst := MkLog {
  lg_start : Z; lg_size : Z; lg_outstanding : Z; lg_committing : Z; lg_dev : Z;
  lh_n : Z; lh_block : list Z
}.
#[export] Instance eta_logst : Eta logst := fun l =>
  MkLog (lg_start l) (lg_size l) (lg_outstanding l) (lg_committing l) (lg_dev l) (lh_n l) (lh_block l).

Record superblock := MkSb {
  sb_magic : Z; sb_size : Z; sb_nblocks : Z; sb_ninodes : Z;
  sb_nlog : Z; sb_logstart : Z; sb_inodestart : Z; sb_bmapstart : Z
}.

(** [struct inode] (the lock is [SLInode i]). *)
Record inode := MkInode {
  i_dev : Z; i_inum : Z; i_ref : Z; i_valid : Z;
  i_type : Z; i_major : Z; i_minor : Z; i_nlink : Z; i_size : Z; i_addrs : list Z
}.
#[export] Instance eta_inode : Eta inode := fun i =>
  MkInode (i_dev i) (i_inum i) (i_ref i) (i_valid i) (i_type i) (i_major i) (i_minor i)
    (i_nlink i) (i_size i) (i_addrs i).
Definition inode0 : inode := MkInode 0 0 0 0 0 0 0 0 0 (replicate 13 0).

Inductive fdtype := FD_NONE | FD_PIPE | FD_INODE | FD_DEVICE.
#[export] Instance fdtype_eq_dec : EqDecision fdtype.
Proof. solve_decision. Defined.

(** [struct file]; [f_pipe] is the address of the pipe's page. *)
Record file := MkFile {
  f_type : fdtype; f_ref : Z; f_readable : Z; f_writable : Z;
  f_pipe : Z; f_ip : option nat; f_off : Z; f_major : Z
}.
#[export] Instance eta_file : Eta file := fun f =>
  MkFile (f_type f) (f_ref f) (f_readable f) (f_writable f) (f_pipe f) (f_ip f) (f_off f) (f_major f).
Definition file0 : file := MkFile FD_NONE 0 0 0 0 None 0 0.

(** [struct pipe], which lives in a page of its own. *)
Record pipe := MkPipe {
  pi_data : list Z; pi_nread : Z; pi_nwrite : Z; pi_readopen : Z; pi_writeopen : Z
}.
#[export] Instance eta_pipe : Eta pipe := fun p =>
  MkPipe (pi_data p) (pi_nread p) (pi_nwrite p) (pi_readopen p) (pi_writeopen p).

(** The function table [devsw]: the only driver is the console. *)
Inductive devfns := ConsoleFns.

(** virtio.h: descriptors, with the objects their addresses point to. *)
Inductive dma := DmaNull | DmaReq (i : nat) | DmaData (b : nat) | DmaStatus (i : nat).
Record virtq_desc := MkDesc { d_addr : dma; d_len : Z; d_flags : Z; d_next : Z }.
#[export] Instance eta_desc : Eta virtq_desc := fun d => MkDesc (d_addr d) (d_len d) (d_flags d) (d_next d).
Definition desc0 : virtq_desc := MkDesc DmaNull 0 0 0.
Record blk_req := MkReq { rq_type : Z; rq_reserved : Z; rq_sector : Z }.
Definition req0 : blk_req := MkReq 0 0 0.
Record dinfo := MkInfo { in_b : option nat; in_status : Z }.
#[export] Instance eta_dinfo : Eta dinfo := fun i => MkInfo (in_b i) (in_status i).
Definition info0 : dinfo := MkInfo None 0.

(** [struct disk] of virtio_disk.c (the lock is [LkVdisk]); [vq_used] and
    [vq_used_idx] are written by the device. *)
Record virtio := MkVirtio {
  vq_desc : list virtq_desc;
  vq_avail : list Z; vq_avail_idx : Z;
  vq_used : list Z; vq_used_idx : Z;
  vq_free : list Z; used_idx : Z;
  vq_info : list dinfo; vq_ops : list blk_req
}.
#[export] Instance eta_virtio : Eta virtio := fun v =>
  MkVirtio (vq_desc v) (vq_avail v) (vq_avail_idx v) (vq_used v) (vq_used_idx v) (vq_free v)
    (used_idx v) (vq_info v) (vq_ops v).

Record conss := MkCons { c_buf : list Z; c_r : Z; c_w : Z; c_e : Z }.
#[export] Instance eta_conss : Eta conss := fun c => MkCons (c_buf c) (c_r c) (c_w c) (c_e c).

Record uarts := MkUart { tx_buf : list Z; tx_w : Z; tx_r : Z }.
#[export] Instance eta_uarts : Eta uarts := fun u => MkUart (tx_buf u) (tx_w u) (tx_r u).

(** The supervisor registers of this hart.  The interrupt enable bit of
    [sstatus] is [sie] of the thread state; [r_sstatus] puts it in place. *)
Record csrs := MkCsr {
  stvec : Z; sepc : Z; scause : Z; stval : Z; sstatus : Z; satp : Z; sip : Z
}.
#[export] Instance eta_csrs : Eta csrs := fun c =>
  MkCsr (stvec c) (sepc c) (scause c) (stval c) (sstatus c) (satp c) (sip c).

Record kern := MkKern {
  km : kmem;
  bufs : list buf;
  vd : virtio;
  lg : logst;
  sb : superblock;
  itable : list inode;
  ftable : list file;
  pipes : gmap Z pipe;
  devsw : list (option devfns);
  cons : conss;
  uart : uarts;
  panicked : Z;
  pr_locking : Z;
  ticks : Z;
  fs_first : Z;                  (* forkret's static int first *)
  kernel_pagetable : Z;
  started : Z;
  csr : csrs;
  io_rd : nat -> Z -> Z;
  io_n : nat;
  io_wr : list (Z * Z);
  dsk : gmap Z (list Z);
  dtr : list (Z * list Z)        (* block writes the device has done, oldest first *)
}.
#[export] Instance eta_kern : Eta kern := fun k =>
  MkKern (km k) (bufs k) (vd k) (lg k) (sb k) (itable k) (ftable k) (pipes k) (devsw k) (cons k)
    (uart k) (panicked k) (pr_locking k) (ticks k) (fs_first k)
    (kernel_pagetable k) (started k) (csr k) (io_rd k) (io_n k) (io_wr k) (dsk k) (dtr k).

Notation KK := (KM kern).

(** ** Access *)

(** The memory functions of kalloc.c and vm.c, on the kernel's state. *)
Definition kmm {A} (m : KM kmem A) : KK A := kzoom km (fun k' k => k <| km := k' |>) m.

Definition getb (b : nat) : KK buf := getX (fun k => default buf0 (bufs k !! b)).
Definition modb (b : nat) (f : buf -> buf) : KK () := modX (fun k => k <| bufs ::= alter f b |>).
Definition geti (i : nat) : KK inode := getX (fun k => default inode0 (itable k !! i)).
Definition modi (i : nat) (f : inode -> inode) : KK () := modX (fun k => k <| itable ::= alter f i |>).
Definition getf (f : nat) : KK file := getX (fun k => default file0 (ftable k !! f)).
Definition modf (f : nat) (g : file -> file) : KK () := modX (fun k => k <| ftable ::= alter g f |>).
(** The pipe in the page at [a]; the page may not be used once it is freed. *)
Definition getpi (a : Z) : KK pipe :=
  o ← getX (fun k => pipes k !! a);
  match o with Some p => mret p | None => undef end.
Definition modpi (a : Z) (g : pipe -> pipe) : KK () := modX (fun k => k <| pipes ::= alter g a |>).
Definition getl {A} (f : logst -> A) : KK A := getX (fun k => f (lg k)).
Definition modl (f : logst -> logst) : KK () := modX (fun k => k <| lg ::= f |>).
Definition getv {A} (f : virtio -> A) : KK A := getX (fun k => f (vd k)).
Definition modv (f : virtio -> virtio) : KK () := modX (fun k => k <| vd ::= f |>).

(** Memory-mapped device registers. *)
Definition mmio_read (a : Z) : KK Z :=
  v ← getX (fun k => io_rd k (io_n k) a);
  modX (fun k => k <| io_n ::= S |>) ;;
  mret v.
Definition mmio_write (a v : Z) : KK () := modX (fun k => k <| io_wr ::= fun l => l ++ [(a, v)] |>).

(** ** Bytes of a block *)

Definition splice (off : Z) (new data : list Z) : list Z :=
  take (Z.to_nat off) data ++ new ++ drop (Z.to_nat off + length new) data.
Definition slice (off n : Z) (data : list Z) : list Z := take (Z.to_nat n) (drop (Z.to_nat off) data).
Definition rd_u32 (data : list Z) (off : Z) : Z := le_val (slice off 4 data).
Definition rd_u16 (data : list Z) (off : Z) : Z := le_val (slice off 2 data).
Definition wr_u32 (data : list Z) (off v : Z) : list Z := splice off (le_bytes 4 v) data.
Definition wr_u16 (data : list Z) (off v : Z) : list Z := splice off (le_bytes 2 v) data.

(** ** Running the accessors *)

Section accessors.
Context {X : Type}.
Implicit Type x : X.

Lemma getX_bind {A B} (g : X -> A) (f : A -> KM X B) n t x :
  (getX g ≫= f) n (MkK t x) = f (g x) n (MkK t x).
Proof. reflexivity. Qed.
Lemma modX_bind {B} g (f : () -> KM X B) n t x : (modX g ≫= f) n (MkK t x) = f tt n (MkK t (g x)).
Proof. reflexivity. Qed.
Lemma ret_bind {A B} (a : A) (f : A -> KM X B) n (s : kst X) : (mret a ≫= f) n s = f a n s.
Proof. reflexivity. Qed.
Lemma deref_bind {B} i (f : nat -> KM X B) n (s : kst X) : (deref (Some i) ≫= f) n s = f i n s.
Proof. reflexivity. Qed.
End accessors.

Section kern_accessors.
Context {B : Type} (n : nat) (t : T) (k : kern).

Lemma getb_bind b (f : buf -> KK B) x :
  bufs k !! b = Some x -> (getb b ≫= f) n (MkK t k) = f x n (MkK t k).
Proof. intros H. unfold getb. rewrite getX_bind. by rewrite H. Qed.
Lemma modb_bind b g (f : () -> KK B) :
  (modb b g ≫= f) n (MkK t k) = f tt n (MkK t (k <| bufs ::= alter g b |>)).
Proof. reflexivity. Qed.
Lemma geti_bind i (f : inode -> KK B) x :
  itable k !! i = Some x -> (geti i ≫= f) n (MkK t k) = f x n (MkK t k).
Proof. intros H. unfold geti. rewrite getX_bind. by rewrite H. Qed.
Lemma modi_bind i g (f : () -> KK B) :
  (modi i g ≫= f) n (MkK t k) = f tt n (MkK t (k <| itable ::= alter g i |>)).
Proof. reflexivity. Qed.
Lemma getl_bind {A} (g : logst -> A) (f : A -> KK B) :
  (getl g ≫= f) n (MkK t k) = f (g (lg k)) n (MkK t k).
Proof. reflexivity. Qed.
Lemma modl_bind g (f : () -> KK B) :
  (modl g ≫= f) n (MkK t k) = f tt n (MkK t (k <| lg ::= g |>)).
Proof. reflexivity. Qed.
Lemma getv_bind {A} (g : virtio -> A) (f : A -> KK B) :
  (getv g ≫= f) n (MkK t k) = f (g (vd k)) n (MkK t k).
Proof. reflexivity. Qed.
Lemma modv_bind g (f : () -> KK B) :
  (modv g ≫= f) n (MkK t k) = f tt n (MkK t (k <| vd ::= g |>)).
Proof. reflexivity. Qed.
Lemma mmio_read_bind a (f : Z -> KK B) :
  (mmio_read a ≫= f) n (MkK t k) = f (io_rd k (io_n k) a) n (MkK t (k <| io_n ::= S |>)).
Proof. reflexivity. Qed.
Lemma mmio_write_bind a v (f : () -> KK B) :
  (mmio_write a v ≫= f) n (MkK t k) = f tt n (MkK t (k <| io_wr ::= fun l => l ++ [(a, v)] |>)).
Proof. reflexivity. Qed.
End kern_accessors.
