(* ===== verification/Blocks.v ===== *)
(** * Bytes of a disk block

    Lemmas on the byte-level accessors of Kern.v ([splice], [slice] and the
    little-endian reads and writes) that the log header, the on-disk inodes
    and the directory entries share. *)

From Stdlib Require Import ZArith Lia.
From S2P Require Import Prelude Kern.

Lemma splice_length off new data :
  0 <= off -> off + Z.of_nat (length new) <= Z.of_nat (length data) -> length (splice off new data) = length data.
Proof. intros H1 H2. unfold splice. rewrite !length_app, length_take, length_drop. lia. Qed.

Lemma slice_length off n data :
  0 <= off -> 0 <= n -> off + n <= Z.of_nat (length data) -> length (slice off n data) = Z.to_nat n.
Proof. intros H1 H2 H3. unfold slice. rewrite length_take, length_drop. lia. Qed.

Lemma splice_lookup off new data i :
  0 <= off -> off + Z.of_nat (length new) <= Z.of_nat (length data) ->
  splice off new data !! i =
  if decide (Z.to_nat off <= i < Z.to_nat off + length new)%nat then new !! (i - Z.to_nat off)%nat else data !! i.
Proof.
  intros H1 H2. unfold splice. assert (length (take (Z.to_nat off) data) = Z.to_nat off) as E by (rewrite length_take; lia).
  destruct (decide (i < Z.to_nat off)%nat) as [Hi|Hi].
  - rewrite decide_False, lookup_app_l, lookup_take_lt by lia. done.
  - rewrite lookup_app_r, E by lia. destruct (decide _) as [Hd|Hd].
    + by rewrite lookup_app_l by lia.
    + rewrite lookup_app_r, lookup_drop by lia. f_equal. lia.
Qed.

Lemma slice_lookup off n data i :
  slice off n data !! i = if decide (i < Z.to_nat n)%nat then data !! (Z.to_nat off + i)%nat else None.
Proof.
  unfold slice. destruct (decide _).
  - by rewrite lookup_take_lt, lookup_drop by lia.
  - by rewrite lookup_take_ge by lia.
Qed.

(** Reading back what was written, and what was not touched. *)
Lemma slice_splice_eq off n new data :
  0 <= off -> off + n <= Z.of_nat (length data) -> Z.of_nat (length new) = n ->
  slice off n (splice off new data) = new.
Proof.
  intros H1 H2 <-. apply list_eq. intros i. rewrite slice_lookup. destruct (decide _) as [Hd|Hd].
  - rewrite splice_lookup, decide_True by lia. f_equal. lia.
  - symmetry. apply lookup_ge_None. lia.
Qed.

Lemma slice_splice_ne off n off' new data :
  0 <= off -> 0 <= off' -> off' + Z.of_nat (length new) <= Z.of_nat (length data) ->
  off + n <= off' \/ off' + Z.of_nat (length new) <= off ->
  slice off n (splice off' new data) = slice off n data.
Proof.
  intros H1 H2 H3 H4. apply list_eq. intros i. rewrite !slice_lookup. destruct (decide _) as [Hd|Hd]; [|done].
  rewrite splice_lookup, decide_False by lia. done.
Qed.

(** Writing back what is there changes nothing. *)
Lemma splice_slice off n data :
  0 <= off -> 0 <= n -> off + n <= Z.of_nat (length data) -> splice off (slice off n data) data = data.
Proof.
  intros H1 H2 H3. apply list_eq. intros i. pose proof (slice_length off n data H1 H2 H3) as E.
  rewrite splice_lookup by lia. destruct (decide _) as [Hd|Hd]; [|done].
  rewrite slice_lookup, decide_True by lia. f_equal. lia.
Qed.

Lemma wr_u32_length data off v :
  0 <= off -> off + 4 <= Z.of_nat (length data) -> length (wr_u32 data off v) = length data.
Proof. intros H1 H2. apply splice_length; [done|]. rewrite le_bytes_length. lia. Qed.

Lemma rd_wr_u32_eq data off v :
  0 <= off -> off + 4 <= Z.of_nat (length data) -> 0 <= v < 2 ^ 32 -> rd_u32 (wr_u32 data off v) off = v.
Proof.
  intros H1 H2 H3. unfold rd_u32, wr_u32. rewrite slice_splice_eq by (rewrite ?le_bytes_length; lia).
  apply le_val_bytes. cbn. lia.
Qed.

Lemma rd_wr_u32_ne data off off' v :
  0 <= off -> 0 <= off' -> off' + 4 <= Z.of_nat (length data) -> off + 4 <= off' \/ off' + 4 <= off ->
  rd_u32 (wr_u32 data off' v) off = rd_u32 data off.
Proof.
  intros H1 H2 H3 H4. unfold rd_u32, wr_u32. rewrite slice_splice_ne; [done|done|done|..]; rewrite le_bytes_length; lia.
Qed.
