(* ===== verification/Virtio.v ===== *)
(** * The disk driver: [kernel/virtio_disk.c] and [kernel/virtio.h]

    The rings shared with the device, the descriptors and their allocation,
    [virtio_disk_rw] and the interrupt handler.  The device itself is not in
    the source. *)

From Stdlib Require Import ZArith Lia.
From S2P Require Import Prelude Riscv KString Thread Proc Sleeplock Kern.

(** ** virtio.h *)

Definition VIRTIO_MMIO_MAGIC_VALUE : Z := 0x000.
Definition VIRTIO_MMIO_VERSION : Z := 0x004.
Definition VIRTIO_MMIO_DEVICE_ID : Z := 0x008.
Definition VIRTIO_MMIO_VENDOR_ID : Z := 0x00c.
Definition VIRTIO_MMIO_DEVICE_FEATURES : Z := 0x010.
Definition VIRTIO_MMIO_DRIVER_FEATURES : Z := 0x020.
Definition VIRTIO_MMIO_GUEST_PAGE_SIZE : Z := 0x028.
Definition VIRTIO_MMIO_QUEUE_SEL : Z := 0x030.
Definition VIRTIO_MMIO_QUEUE_NUM_MAX : Z := 0x034.
Definition VIRTIO_MMIO_QUEUE_NUM : Z := 0x038.
Definition VIRTIO_MMIO_QUEUE_PFN : Z := 0x040.
Definition VIRTIO_MMIO_QUEUE_NOTIFY : Z := 0x050.
Definition VIRTIO_MMIO_INTERRUPT_STATUS : Z := 0x060.
Definition VIRTIO_MMIO_INTERRUPT_ACK : Z := 0x064.
Definition VIRTIO_MMIO_STATUS : Z := 0x070.
Definition VIRTIO_CONFIG_S_ACKNOWLEDGE : Z := 1.
Definition VIRTIO_CONFIG_S_DRIVER : Z := 2.
Definition VIRTIO_CONFIG_S_DRIVER_OK : Z := 4.
Definition VIRTIO_CONFIG_S_FEATURES_OK : Z := 8.
Definition VIRTIO_BLK_F_RO : Z := 5.
Definition VIRTIO_BLK_F_SCSI : Z := 7.
Definition VIRTIO_BLK_F_CONFIG_WCE : Z := 11.
Definition VIRTIO_BLK_F_MQ : Z := 12.
Definition VIRTIO_F_ANY_LAYOUT : Z := 27.
Definition VIRTIO_RING_F_INDIRECT_DESC : Z := 28.
Definition VIRTIO_RING_F_EVENT_IDX : Z := 29.
Definition NUM : Z := 8.
Definition VRING_DESC_F_NEXT : Z := 1.
Definition VRING_DESC_F_WRITE : Z := 2.
Definition VIRTIO_BLK_T_IN : Z := 0.
Definition VIRTIO_BLK_T_OUT : Z := 1.

Definition R (r : Z) : Z := VIRTIO0 + r.

(** ** virtio_disk.c *)

Definition getd (i : Z) : KK virtq_desc := getv (fun v => default desc0 (vq_desc v !! Z.to_nat i)).
Definition modd (i : Z) (f : virtq_desc -> virtq_desc) : KK () :=
  modv (fun v => v <| vq_desc ::= alter f (Z.to_nat i) |>).
Definition is_free (i : Z) : KK bool := getv (fun v => negb (default 0 (vq_free v !! Z.to_nat i) =? 0)).
Definition set_free (i c : Z) : KK () := modv (fun v => v <| vq_free ::= <[Z.to_nat i := c]> |>).
Definition mod_info (i : Z) (f : dinfo -> dinfo) : KK () :=
  modv (fun v => v <| vq_info ::= alter f (Z.to_nat i) |>).

(** [features &= ~(1 << bit)] for each feature the driver declines. *)
Definition declined (features : Z) : Z :=
  foldl (fun f bit => Z.land f (Z.lnot (Z.shiftl 1 bit))) features
    [VIRTIO_BLK_F_RO; VIRTIO_BLK_F_SCSI; VIRTIO_BLK_F_CONFIG_WCE; VIRTIO_BLK_F_MQ;
     VIRTIO_F_ANY_LAYOUT; VIRTIO_RING_F_EVENT_IDX; VIRTIO_RING_F_INDIRECT_DESC].

(** [pages] is the address of [disk.pages]. *)
Definition virtio_disk_init (pages : Z) : KK () :=
  initlock LkVdisk ;;
  magic ← mmio_read (R VIRTIO_MMIO_MAGIC_VALUE);
  if negb (magic =? 0x74726976) then panic "could not find virtio disk" else
  version ← mmio_read (R VIRTIO_MMIO_VERSION);
  if negb (version =? 1) then panic "could not find virtio disk" else
  device ← mmio_read (R VIRTIO_MMIO_DEVICE_ID);
  if negb (device =? 2) then panic "could not find virtio disk" else
  vendor ← mmio_read (R VIRTIO_MMIO_VENDOR_ID);
  if negb (vendor =? 0x554d4551) then panic "could not find virtio disk" else
  let status := Z.lor 0 VIRTIO_CONFIG_S_ACKNOWLEDGE in
  mmio_write (R VIRTIO_MMIO_STATUS) status ;;
  let status := Z.lor status VIRTIO_CONFIG_S_DRIVER in
  mmio_write (R VIRTIO_MMIO_STATUS) status ;;
  features ← mmio_read (R VIRTIO_MMIO_DEVICE_FEATURES);
  mmio_write (R VIRTIO_MMIO_DRIVER_FEATURES) (u32 (declined features)) ;;
  let status := Z.lor status VIRTIO_CONFIG_S_FEATURES_OK in
  mmio_write (R VIRTIO_MMIO_STATUS) status ;;
  let status := Z.lor status VIRTIO_CONFIG_S_DRIVER_OK in
  mmio_write (R VIRTIO_MMIO_STATUS) status ;;
  mmio_write (R VIRTIO_MMIO_GUEST_PAGE_SIZE) PGSIZE ;;
  mmio_write (R VIRTIO_MMIO_QUEUE_SEL) 0 ;;
  max ← mmio_read (R VIRTIO_MMIO_QUEUE_NUM_MAX);
  if max =? 0 then panic "virtio disk has no queue 0" else
  if max <? NUM then panic "virtio disk max queue too short" else
  mmio_write (R VIRTIO_MMIO_QUEUE_NUM) NUM ;;
  modv (fun v => v <| vq_desc := replicate 8 desc0 |> <| vq_avail := replicate 8 0 |>
                   <| vq_avail_idx := 0 |> <| vq_used := replicate 8 0 |> <| vq_used_idx := 0 |>) ;;
  mmio_write (R VIRTIO_MMIO_QUEUE_PFN) (u32 (Z.shiftr pages PGSHIFT)) ;;
  meach (Z.to_nat NUM) 0 (fun i => set_free i 1).

Definition alloc_desc : KK Z :=
  r ← mfor (Z.to_nat NUM) 0 (fun i =>
    f ← is_free i;
    if f : bool then set_free i 0 ;; mret (Some i) else mret None);
  mret (default (-1) r).

Definition free_desc (i : Z) : KK () :=
  if i >=? NUM then panic "free_desc 1" else
  f ← is_free i;
  if f : bool then panic "free_desc 2" else
  modd i (fun _ => MkDesc DmaNull 0 0 0) ;;
  set_free i 1 ;;
  wakeup ChDiskFree.

Definition free_chain_body (i : Z) : KK (Z + ()) :=
  d ← getd i;
  free_desc i ;;
  if negb (Z.land (d_flags d) VRING_DESC_F_NEXT =? 0) then mret (inl (d_next d)) else mret (inr tt).

Definition free_chain (i : Z) : KK () := mloop free_chain_body i.

(** [Some idx] for the return value 0, [None] for -1. *)
Definition alloc3_body (idx : list Z) : KK (list Z + option (list Z)) :=
  if (length idx <? 3)%nat then
    d ← alloc_desc;
    if d <? 0 then
      meach (length idx) 0 (fun j => free_desc (default 0 (idx !! Z.to_nat j))) ;;
      mret (inr None)
    else mret (inl (idx ++ [d]))
  else mret (inr (Some idx)).

Definition alloc3_desc : KK (option (list Z)) := mwhile 4 alloc3_body [].

(** Waiting for three descriptors. *)
Definition rw_alloc_body (_ : ()) : KK (() + list Z) :=
  o ← alloc3_desc;
  match o with
  | Some idx => mret (inr idx)
  | None => sleep ChDiskFree LkVdisk ;; mret (inl tt)
  end.

(** Formatting the chain and handing it to the device. *)
Definition rw_submit (b : nat) (write : bool) (sector i0 i1 i2 : Z) : KK () :=
  modv (fun v => v <| vq_ops ::= <[Z.to_nat i0 :=
    MkReq (if write then VIRTIO_BLK_T_OUT else VIRTIO_BLK_T_IN) 0 sector]> |>) ;;
  modd i0 (fun _ => MkDesc (DmaReq (Z.to_nat i0)) 16 VRING_DESC_F_NEXT i1) ;;
  modd i1 (fun _ => MkDesc (DmaData b) BSIZE
    (Z.lor (if write then 0 else VRING_DESC_F_WRITE) VRING_DESC_F_NEXT) i2) ;;
  mod_info i0 (fun f => f <| in_status := 0xff |>) ;;
  modd i2 (fun _ => MkDesc (DmaStatus (Z.to_nat i0)) 1 VRING_DESC_F_WRITE 0) ;;
  modb b (fun x => x <| b_disk := 1 |>) ;;
  mod_info i0 (fun f => f <| in_b := Some b |>) ;;
  a ← getv vq_avail_idx;
  modv (fun v => v <| vq_avail ::= <[Z.to_nat (a mod NUM) := i0]> |>) ;;
  modv (fun v => v <| vq_avail_idx := u16 (a + 1) |>) ;;
  mmio_write (R VIRTIO_MMIO_QUEUE_NOTIFY) 0.

(** [while(b->disk == 1) sleep(b, &disk.vdisk_lock);] *)
Definition rw_wait_body (b : nat) (_ : ()) : KK (() + ()) :=
  x ← getb b;
  if b_disk x =? 1 then sleep (ChBuf b) LkVdisk ;; mret (inl tt) else mret (inr tt).

Definition virtio_disk_rw (b : nat) (write : bool) : KK () :=
  x ← getb b;
  let sector := u32 (b_blockno x * (BSIZE / 512)) in
  acquire LkVdisk ;;
  idx ← mloop rw_alloc_body tt;
  let i0 := default 0 (idx !! 0%nat) in
  let i1 := default 0 (idx !! 1%nat) in
  let i2 := default 0 (idx !! 2%nat) in
  rw_submit b write sector i0 i1 i2 ;;
  mloop (rw_wait_body b) tt ;;
  mod_info i0 (fun f => f <| in_b := None |>) ;;
  free_chain i0 ;;
  release LkVdisk.

Definition intr_body (_ : ()) : KK (() + ()) :=
  u ← getv used_idx;
  d ← getv vq_used_idx;
  if u =? d then mret (inr tt) else
  id ← getv (fun v => default 0 (vq_used v !! Z.to_nat (u mod NUM)));
  f ← getv (fun v => default info0 (vq_info v !! Z.to_nat id));
  if negb (in_status f =? 0) then panic "virtio_disk_intr status" else
  b ← deref (in_b f);
  modb b (fun x => x <| b_disk := 0 |>) ;;
  wakeup (ChBuf b) ;;
  modv (fun v => v <| used_idx := u16 (u + 1) |>) ;;
  mret (inl tt).

Definition virtio_disk_intr : KK () :=
  acquire LkVdisk ;;
  st ← mmio_read (R VIRTIO_MMIO_INTERRUPT_STATUS);
  mmio_write (R VIRTIO_MMIO_INTERRUPT_ACK) (Z.land st 0x3) ;;
  mloop intr_body tt ;;
  release LkVdisk.
