(* ===== verification/VirtioSpec.v ===== *)
(** * What the disk driver does for the buffer cache

    The promise of [virtio_disk_rw] to its caller, [BlockDev], as a type
    class, and the proof that the driver keeps it on top of any device that
    serves a request as the virtio specification says ([Device]).  The
    environment of the run is the idle hart: when the caller sleeps, the
    device serves the queue, the completion interrupt runs
    [virtio_disk_intr], and the scheduler resumes the process that made
    runnable. *)

From Stdlib Require Import ZArith Lia.
From S2P Require Import Prelude Riscv KString Thread Proc Sched Sleeplock Kern Virtio.

(** ** The interface *)

(** Nothing is in flight. *)
Record disk_idle (v : virtio) : Prop := {
  di_free : vq_free v = replicate 8 1;
  di_desc : length (vq_desc v) = 8%nat;
  di_avail : length (vq_avail v) = 8%nat;
  di_used : length (vq_used v) = 8%nat;
  di_info : length (vq_info v) = 8%nat;
  di_ops : length (vq_ops v) = 8%nat;
  di_idx1 : vq_avail_idx v = vq_used_idx v;
  di_idx2 : used_idx v = vq_used_idx v;
  di_range : 0 <= vq_used_idx v < 2 ^ 16
}.

(** The effect of a completed request on buffers and disk. *)
Definition transferred (b : nat) (write : bool) (bno : Z) (d : list Z) (k : kern) : kern :=
  if write then k <| dsk ::= <[bno := d]> |> <| dtr ::= fun l => l ++ [(bno, d)] |>
  else k <| bufs ::= alter (fun x => x <| b_data := d |>) b |>.

(** The state apart from what belongs to the driver: its rings and the
    device registers. *)
Record same_but_driver (k k' : kern) : Prop := {
  sd_km : km k' = km k; sd_bufs : bufs k' = bufs k; sd_lg : lg k' = lg k; sd_sb : sb k' = sb k;
  sd_itable : itable k' = itable k; sd_ftable : ftable k' = ftable k; sd_pipes : pipes k' = pipes k;
  sd_devsw : devsw k' = devsw k; sd_cons : cons k' = cons k; sd_uart : uart k' = uart k;
  sd_panicked : panicked k' = panicked k; sd_pr : pr_locking k' = pr_locking k; sd_ticks : ticks k' = ticks k;
  sd_first : fs_first k' = fs_first k; sd_kpt : kernel_pagetable k' = kernel_pagetable k;
  sd_started : started k' = started k; sd_csr : csr k' = csr k; sd_io : io_rd k' = io_rd k;
  sd_dsk : dsk k' = dsk k; sd_dtr : dtr k' = dtr k
}.

Class BlockDev (env : kst kern -> option (kst kern)) : Prop := {
  bd_rw : forall n p t k b (write : bool) x d,
    (4 < n)%nat -> rest p t -> disk_idle (vd k) -> bufs k !! b = Some x -> b_disk x = 0 ->
    0 <= b_blockno x < 2 ^ 31 -> dsk k !! b_blockno x = Some d ->
    runs env (virtio_disk_rw b write n (MkK t k)) (fun _ s =>
      thr s = t /\ disk_idle (vd (own s)) /\
      same_but_driver (transferred b write (b_blockno x) (if write then b_data x else d) k) (own s))
}.

(** ** The device *)

(** Descriptor chain [0, 1, 2] describes a transfer of block [bno] from or to
    buffer [b], and it is the only one the device has not yet served. *)
Record pending (b : nat) (write : bool) (bno : Z) (k : kern) : Prop := {
  pe_avail : vq_avail_idx (vd k) = u16 (vq_used_idx (vd k) + 1);
  pe_ring : vq_avail (vd k) !! Z.to_nat (vq_used_idx (vd k) mod NUM) = Some 0;
  pe_d0 : vq_desc (vd k) !! 0%nat = Some (MkDesc (DmaReq 0) 16 VRING_DESC_F_NEXT 1);
  pe_d1 : vq_desc (vd k) !! 1%nat =
    Some (MkDesc (DmaData b) BSIZE (Z.lor (if write then 0 else VRING_DESC_F_WRITE) VRING_DESC_F_NEXT) 2);
  pe_d2 : vq_desc (vd k) !! 2%nat = Some (MkDesc (DmaStatus 0) 1 VRING_DESC_F_WRITE 0);
  pe_op : vq_ops (vd k) !! 0%nat =
    Some (MkReq (if write then VIRTIO_BLK_T_OUT else VIRTIO_BLK_T_IN) 0 (2 * bno))
}.

(** The device has put the chain on the used ring with status 0. *)
Definition completed (v : virtio) : virtio :=
  v <| vq_info ::= alter (fun f => f <| in_status := 0 |>) 0%nat |>
    <| vq_used ::= <[Z.to_nat (vq_used_idx v mod NUM) := 0]> |>
    <| vq_used_idx := u16 (vq_used_idx v + 1) |>.

(** A block device, section 5.2 of the virtio specification: it serves a
    request for a block it has. *)
Class Device (device : kern -> kern) : Prop := {
  dev_serve : forall b (write : bool) bno k x d,
    pending b write bno k -> bufs k !! b = Some x -> dsk k !! bno = Some d ->
    device k = (transferred b write bno (if write then b_data x else d) k) <| vd := completed (vd k) |>
}.

(** The idle hart, from the moment a process has given it up. *)
Definition intr_T (p : nat) (t : T) : T :=
  t <| lks ::= delete (LkProc p) |> <| noff := 0 |> <| cpu_proc := None |> <| intena := false |>.
Definition resume_T (p : nat) (t : T) : T :=
  t <| procs ::= alter (fun q => q <| p_state := RUNNING |>) p |> <| cpu_proc := Some p |>
    <| noff := 1 |> <| lks ::= <[LkProc p := hart t]> |>.

Definition disk_env (device : kern -> kern) (fuel : nat) (s : kst kern) : option (kst kern) :=
  match cpu_proc (thr s) with
  | None => None
  | Some p =>
      match virtio_disk_intr fuel (MkK (intr_T p (thr s)) (device (own s))) with
      | Ret _ s' => if bool_decide (pstate p (thr s') = RUNNABLE)
                    then Some (MkK (resume_T p (thr s')) (own s')) else None
      | _ => None
      end
  end.

(** ** Sleeping and being resumed *)

Definition asleep (p : nat) (ch : chan) (t : T) : T :=
  (t_acq (LkProc p) t) <| procs ::= alter (fun q => q <| p_chan := ch |> <| p_state := SLEEPING |>) p |>.
Definition awake (p : nat) (ch : chan) (t : T) : T :=
  (t_acq (LkProc p) t) <| intena := false |>
    <| procs ::= alter (fun q => q <| p_chan := ch |> <| p_state := RUNNING |>) p |>.

Lemma rest_at_rest p t : rest p t -> at_rest p t.
Proof.
  intros [[H1 H2 H3 H4 H5] H6 H7 (q & Hq & Hr & _)]. split; try done.
  - intros lk. by rewrite H6, lookup_empty.
  - rewrite H4. apply lookup_lt_Some in Hq. lia.
  - unfold pstate. by rewrite Hq.
Qed.

Lemma awake_mk p ch ie h si nf ie0 cp lk0 ps np ip sl :
  (awake p ch (MkT h si nf ie0 cp lk0 ps np ip sl)) <| intena := ie |>
    <| procs ::= alter (fun q => q <| p_chan := ChNone |>) p |> =
  MkT h false (nf + 1) ie cp (<[LkProc p := h]> lk0)
    (alter (fun q => q <| p_chan := ChNone |>) p
       (alter (fun q => q <| p_chan := ch |> <| p_state := RUNNING |>) p ps)) np ip sl.
Proof. reflexivity. Qed.

Lemma asleep_mk p ch h si nf ie0 cp lk0 ps np ip sl :
  asleep p ch (MkT h si nf ie0 cp lk0 ps np ip sl) =
  MkT h false (nf + 1) (if nf =? 0 then si else ie0) cp (<[LkProc p := h]> lk0)
    (alter (fun q => q <| p_chan := ch |> <| p_state := SLEEPING |>) p ps) np ip sl.
Proof. reflexivity. Qed.

(** Back from the scheduler, before the process lock is released. *)
Lemma awake_back p ch t :
  rest p t ->
  (awake p ch t) <| intena := intena (asleep p ch t) |>
    <| procs ::= alter (fun q => q <| p_chan := ChNone |>) p |> = t_acq (LkProc p) t.
Proof.
  intros [[H1 H2 H3 H4 H5] H6 H7 (q & Hq & Hrun & Hch)]. destruct t as [h si nf ie cp lk0 ps np ip sl].
  rewrite asleep_mk, awake_mk, t_acq_mk. cbn [intena procs] in *. f_equal. apply list_eq. intros j.
  destruct (decide (p = j)) as [<-|Hj]; [|by rewrite !list_lookup_alter_ne].
  rewrite !list_lookup_alter_eq, Hq. cbn. destruct q. cbn in *. by subst.
Qed.

Lemma asleep_to_sched p ch t : rest p t -> to_sched p (asleep p ch t).
Proof.
  intros [[H1 H2 H3 H4 H5] H6 H7 (q & Hq & Hrun & Hch)]. destruct t as [h si nf ie cp lk0 ps np ip sl].
  rewrite asleep_mk. cbn in *. subst. split.
  - split; cbn; try done; [by rewrite lookup_insert_eq| |rewrite length_alter; apply lookup_lt_Some in Hq; lia].
    intros lk'. destruct (decide (lk' = LkProc p)); [done|]. by rewrite lookup_insert_ne.
  - unfold pstate. cbn. rewrite list_lookup_alter_eq, Hq. done.
Qed.

(** [sleep] yields the hart, and runs on when the process is resumed in any
    state [t']. *)
Lemma sleep_yields {X} p t lk ch n (x : X) :
  rest p t -> lk <> LkProc p ->
  exists K, sleep ch lk n (MkK (t_acq lk t) x) = Yield (MkK (asleep p ch t) x) K /\
    forall t' x', rest p t' -> sie t' = sie t -> K (MkK (awake p ch t') x') = Ret tt (MkK (t_acq lk t') x').
Proof.
  intros Hr Hne. pose proof Hr as [[H1 H2 H3 H4 H5] H6 H7 _].
  unfold sleep. rewrite myproc_bind by (by apply cpu_ok_acq). change (cpu_proc (t_acq lk t)) with (cpu_proc t).
  rewrite H1. cbn [deref]. rewrite (bind_ret (mret p) _ _ _ _ _ eq_refl).
  assert (LkProc p <> lk) as Hne' by congruence.
  rewrite acquire_bind by (rewrite lks_acq, H6; by rewrite lookup_insert_ne, lookup_empty).
  rewrite (t_acq_comm (LkProc p) lk) by done.
  rewrite release_bind; [|by apply cpu_ok_acq|rewrite lks_acq, H6; by rewrite lookup_insert_ne, lookup_empty].
  rewrite !modp_bind, procs_alter_alter. fold (asleep p ch t).
  rewrite (bind_yield _ _ _ _ _ _ (sched_eq n p _ x (asleep_to_sched p ch t Hr))). eexists. split; [reflexivity|].
  intros t' x' Hr' Hs. pose proof Hr' as [[_ Hc' _ _ _] Hl' Hn' _]. cbn [bind_res thr own].
  replace (intena (asleep p ch t)) with (intena (asleep p ch t')) by (cbn; by rewrite H7, Hn', Hs).
  rewrite modp_bind, awake_back, release_bind by (done || by rewrite Hl').
  by rewrite acquire_spec by (by rewrite Hl').
Qed.

(** What the process sees: [sleep] as if nothing had happened to the thread. *)
Lemma sleep_solo {X} env p t lk ch n (x x' : X) :
  rest p t -> lk <> LkProc p ->
  env (MkK (asleep p ch t) x) = Some (MkK (awake p ch t) x') ->
  solo env (sleep ch lk n (MkK (t_acq lk t) x)) = Some (tt, MkK (t_acq lk t) x').
Proof.
  intros Hr Hne Henv. destruct (sleep_yields p t lk ch n x Hr Hne) as (K & -> & HK). cbn [solo]. by rewrite Henv, HK.
Qed.

(** ** The interrupt handler *)

Lemma u16_succ_ne u : 0 <= u < 2 ^ 16 -> u16 (u + 1) <> u.
Proof.
  intros Hu. unfold u16. destruct (decide (u = 2 ^ 16 - 1)) as [->|]; [done|]. rewrite Z.mod_small; lia.
Qed.

(** The state after the handler has processed one completion. *)
Definition intr_done (b : nat) (k : kern) (st : Z) : kern :=
  k <| io_n ::= S |> <| io_wr ::= fun l => l ++ [(R VIRTIO_MMIO_INTERRUPT_ACK, st)] |>
    <| bufs ::= alter (fun x => x <| b_disk := 0 |>) b |>
    <| vd ::= fun v => v <| used_idx := vq_used_idx v |> |>.

Lemma intr_body_one n t k b :
  cpu_ok t -> locks_free t -> length (procs t) = Z.to_nat NPROC ->
  0 <= used_idx (vd k) < 2 ^ 16 -> vq_used_idx (vd k) = u16 (used_idx (vd k) + 1) ->
  vq_used (vd k) !! Z.to_nat (used_idx (vd k) mod NUM) = Some 0 ->
  vq_info (vd k) !! 0%nat = Some (MkInfo (Some b) 0) ->
  intr_body tt n (MkK t k) =
  Ret (inl tt) (MkK (t <| procs := imap (woken (ChBuf b) (cpu_proc t)) (procs t) |>)
    (k <| bufs ::= alter (fun x => x <| b_disk := 0 |>) b |>
       <| vd ::= fun v => v <| used_idx := u16 (used_idx (vd k) + 1) |> |>)).
Proof.
  intros Hc Hl Hn Hu Hd Hr Hi. unfold intr_body. rewrite !getv_bind, Hd.
  destruct (Z.eqb_spec (used_idx (vd k)) (u16 (used_idx (vd k) + 1))) as [E|_].
  { by destruct (u16_succ_ne _ Hu). }
  rewrite getv_bind, Hr. change (default 0 (Some 0)) with 0. rewrite getv_bind.
  change (Z.to_nat 0) with 0%nat. rewrite Hi. change (default info0 (Some ?i)) with i.
  cbn [in_status in_b]. change (negb (0 =? 0)) with false. cbn iota. rewrite deref_bind, modb_bind.
  rewrite (bind_ret _ _ _ _ _ _ (wakeup_spec (ChBuf b) n t _ Hc Hl Hn)). by rewrite modv_bind.
Qed.

Lemma intr_spec n t k b :
  cpu_ok t -> lks t = ∅ -> length (procs t) = Z.to_nat NPROC -> (1 < n)%nat ->
  0 <= used_idx (vd k) < 2 ^ 16 -> vq_used_idx (vd k) = u16 (used_idx (vd k) + 1) ->
  vq_used (vd k) !! Z.to_nat (used_idx (vd k) mod NUM) = Some 0 ->
  vq_info (vd k) !! 0%nat = Some (MkInfo (Some b) 0) ->
  exists st, virtio_disk_intr n (MkK t k) =
  Ret tt (MkK (t <| procs := imap (woken (ChBuf b) (cpu_proc t)) (procs t) |>) (intr_done b k st)).
Proof.
  intros Hc Hl Hn Hf Hu Hd Hr Hi. exists (Z.land (io_rd k (io_n k) (R VIRTIO_MMIO_INTERRUPT_STATUS)) 3).
  unfold virtio_disk_intr.
  assert (forall lk, lks t !! lk = None) as Hl' by (intros lk; by rewrite Hl).
  rewrite acquire_bind, mmio_read_bind, mmio_write_bind by done.
  set (k1 := k <| io_n ::= S |> <| io_wr ::= _ |>).
  set (t1 := t_acq LkVdisk t).
  pose proof (intr_body_one n t1 k1 b (cpu_ok_acq _ _ Hc)) as E. specialize (E ltac:(intros i; unfold t1; rewrite lks_acq, lookup_insert_ne by done; apply Hl') Hn).
  specialize (E Hu Hd Hr Hi). set (t2 := t1 <| procs := _ |>) in E. set (k2 := k1 <| bufs ::= _ |> <| vd ::= _ |>) in E.
  assert (intr_body tt n (MkK t2 k2) = Ret (inr tt) (MkK t2 k2)) as E2.
  { unfold intr_body. rewrite !getv_bind. change (used_idx (vd k2)) with (u16 (used_idx (vd k) + 1)).
    change (vq_used_idx (vd k2)) with (vq_used_idx (vd k)). by rewrite Hd, Z.eqb_refl. }
  rewrite (bind_ret _ _ _ _ _ _ (mloop_twice _ _ _ _ _ _ _ _ Hf E E2)).
  change t2 with (t_acq LkVdisk (t <| procs := imap (woken (ChBuf b) (cpu_proc t)) (procs t) |>)).
  rewrite release_spec; [|by apply cpu_ok_procs|apply Hl'].
  unfold k2. change (used_idx (vd k1)) with (used_idx (vd k)). rewrite <- Hd. reflexivity.
Qed.

Lemma intr_T_mk p ch h si nf ie0 cp lk0 ps np ip sl :
  intr_T p (asleep p ch (MkT h si nf ie0 cp lk0 ps np ip sl)) =
  MkT h false 0 false None (delete (LkProc p) (<[LkProc p := h]> lk0))
    (alter (fun q => q <| p_chan := ch |> <| p_state := SLEEPING |>) p ps) np ip sl.
Proof. reflexivity. Qed.

Lemma resume_T_mk p h si nf ie0 cp lk0 ps ps' np ip sl :
  resume_T p ((MkT h si nf ie0 cp lk0 ps np ip sl) <| procs := ps' |>) =
  MkT h si 1 ie0 (Some p) (<[LkProc p := h]> lk0) (alter (fun q => q <| p_state := RUNNING |>) p ps') np ip sl.
Proof. reflexivity. Qed.

Lemma awake_mk0 p ch h si nf ie0 cp lk0 ps np ip sl :
  awake p ch (MkT h si nf ie0 cp lk0 ps np ip sl) =
  MkT h false (nf + 1) false cp (<[LkProc p := h]> lk0)
    (alter (fun q => q <| p_chan := ch |> <| p_state := RUNNING |>) p ps) np ip sl.
Proof. reflexivity. Qed.

(** The completion interrupt wakes the sleeper and nobody else. *)
Lemma woken_sleeper p b (ps : list proc) q :
  ps !! p = Some q ->
  (forall j q', j <> p -> ps !! j = Some q' -> p_state q' = SLEEPING -> fs_chan (p_chan q') = false) ->
  imap (woken (ChBuf b) None) (alter (fun q => q <| p_chan := ChBuf b |> <| p_state := SLEEPING |>) p ps) =
  alter (fun q => q <| p_chan := ChBuf b |> <| p_state := RUNNABLE |>) p ps.
Proof.
  intros Hq Hquiet. apply list_eq. intros j. rewrite list_lookup_imap. destruct (decide (p = j)) as [<-|Hne].
  - rewrite !list_lookup_alter_eq, Hq. unfold woken. cbn [fmap option_fmap option_map].
    rewrite (bool_decide_false (Some p = None)) by done. by rewrite !bool_decide_true.
  - rewrite !list_lookup_alter_ne by done. destruct (ps !! j) as [q'|] eqn:E; [|done]. cbn. f_equal.
    unfold woken. rewrite bool_decide_false by done.
    destruct (bool_decide_reflect (p_state q' = SLEEPING)); [|done].
    destruct (bool_decide_reflect (p_chan q' = ChBuf b)) as [Hc|]; [|done].
    assert (fs_chan (p_chan q') = false) as H by (eapply Hquiet; [by apply not_eq_sym|done..]). by rewrite Hc in H.
Qed.

Lemma intr_T_wake p b t :
  rest p t ->
  let t1 := (intr_T p (asleep p (ChBuf b) t)) in
  let t2 := t1 <| procs := imap (woken (ChBuf b) (cpu_proc t1)) (procs t1) |> in
  pstate p t2 = RUNNABLE /\ resume_T p t2 = awake p (ChBuf b) t.
Proof.
  intros [[H1 H2 H3 H4 H5] H6 H7 (q & Hq & Hrun & Hch)].
  destruct t as [h si nf ie cp lk0 ps np ip sl]. cbn zeta. rewrite intr_T_mk, resume_T_mk, awake_mk0.
  cbn [cpu_proc lks procs noff slks hart] in *. subst. unfold pstate.
  change (procs (?t <| procs := ?l |>)) with l.
  rewrite (woken_sleeper p b ps q) by done. split; [by rewrite list_lookup_alter_eq, Hq|].
  rewrite delete_insert_eq, delete_empty. f_equal. apply list_eq. intros j.
  destruct (decide (p = j)) as [<-|Hne]; [by rewrite !list_lookup_alter_eq, Hq|by rewrite !list_lookup_alter_ne].
Qed.

Lemma intr_T_ok p ch t :
  rest p t -> let t1 := intr_T p (asleep p ch t) in
  cpu_ok t1 /\ lks t1 = ∅ /\ length (procs t1) = Z.to_nat NPROC.
Proof.
  intros [[H1 H2 H3 H4 H5] H6 H7 _]. destruct t as [h si nf ie cp lk0 ps np ip sl]. cbn zeta. rewrite intr_T_mk.
  cbn in *. subst. rewrite delete_insert_eq, delete_empty, length_alter. split_and!; cbn; done || lia.
Qed.

(** The environment of a process asleep on its buffer: the request is served
    and the process goes on. *)
Lemma disk_env_serves device fuel p t k b (write : bool) bno x d st0 :
  Device device -> (1 < fuel)%nat -> rest p t ->
  pending b write bno k -> bufs k !! b = Some x -> dsk k !! bno = Some d ->
  0 <= vq_used_idx (vd k) < 2 ^ 16 -> used_idx (vd k) = vq_used_idx (vd k) ->
  length (vq_used (vd k)) = 8%nat -> vq_info (vd k) !! 0%nat = Some (MkInfo (Some b) st0) ->
  exists st, disk_env device fuel (MkK (asleep p (ChBuf b) t) k) =
    Some (MkK (awake p (ChBuf b) t) (intr_done b
      ((transferred b write bno (if write then b_data x else d) k) <| vd := completed (vd k) |>) st)).
Proof.
  intros HD Hf Hr Hp Hb Hd Hu Hi Hlen Hst. destruct (intr_T_ok p (ChBuf b) t Hr) as (T1 & T2 & T3).
  unfold disk_env. change (cpu_proc (thr _)) with (cpu_proc t). rewrite (ca_proc _ _ (re_calm _ _ Hr)). cbn [thr own].
  rewrite (dev_serve b write bno k x d Hp Hb Hd).
  set (k1 := _ <| vd := completed (vd k) |>).
  assert (vd k1 = completed (vd k)) as Hv by (unfold k1; by destruct k).
  destruct (intr_spec fuel (intr_T p (asleep p (ChBuf b) t)) k1 b) as [st E]; rewrite ?Hv; try done.
  - by rewrite <- Hi in Hu.
  - change (vq_used_idx (completed (vd k))) with (u16 (vq_used_idx (vd k) + 1)). by rewrite <- Hi.
  - change (used_idx (completed (vd k))) with (used_idx (vd k)). rewrite Hi.
    change (vq_used (completed (vd k))) with (<[Z.to_nat (vq_used_idx (vd k) mod NUM) := 0]> (vq_used (vd k))).
    apply list_lookup_insert_eq. rewrite Hlen. unfold NUM. pose proof (Z.mod_pos_bound (vq_used_idx (vd k)) 8). lia.
  - change (vq_info (completed (vd k))) with (alter (fun f => f <| in_status := 0 |>) 0%nat (vq_info (vd k))).
    by rewrite list_lookup_alter_eq, Hst.
  - exists st. rewrite E. destruct (intr_T_wake p b t Hr) as [W1 W2]. cbn [thr own].
    rewrite bool_decide_true by exact W1. by rewrite W2.
Qed.

(** ** The driver *)

Definition set_vd (f : virtio -> virtio) (k : kern) : kern := k <| vd ::= f |>.

Lemma alloc3_idle n t k :
  vq_free (vd k) = replicate 8 1 ->
  alloc3_desc n (MkK t k) = Ret (Some [0; 1; 2]) (MkK t (set_vd (fun v => v <| vq_free := [0; 0; 0; 1; 1; 1; 1; 1] |>) k)).
Proof. intros H. destruct k, vd as [de av ai us ui fr ux inf ops]. cbn in H. subst fr. reflexivity. Qed.

(** The rings after the chain [0, 1, 2] was filled in and made available. *)
Definition submit_v (b : nat) (write : bool) (sector : Z) (v : virtio) : virtio :=
  v <| vq_ops ::= <[0%nat := MkReq (if write then VIRTIO_BLK_T_OUT else VIRTIO_BLK_T_IN) 0 sector]> |>
    <| vq_desc ::= fun l =>
         alter (fun _ => MkDesc (DmaStatus 0) 1 VRING_DESC_F_WRITE 0) 2%nat
           (alter (fun _ => MkDesc (DmaData b) BSIZE (Z.lor (if write then 0 else VRING_DESC_F_WRITE) VRING_DESC_F_NEXT) 2) 1%nat
              (alter (fun _ => MkDesc (DmaReq 0) 16 VRING_DESC_F_NEXT 1) 0%nat l)) |>
    <| vq_info ::= fun l => alter (fun f => f <| in_b := Some b |>) 0%nat (alter (fun f => f <| in_status := 0xff |>) 0%nat l) |>
    <| vq_avail ::= <[Z.to_nat (vq_avail_idx v mod NUM) := 0]> |>
    <| vq_avail_idx := u16 (vq_avail_idx v + 1) |>.

Definition submit (b : nat) (write : bool) (sector : Z) (k : kern) : kern :=
  k <| vd ::= submit_v b write sector |> <| bufs ::= alter (fun x => x <| b_disk := 1 |>) b |>
    <| io_wr ::= fun l => l ++ [(R VIRTIO_MMIO_QUEUE_NOTIFY, 0)] |>.

Lemma rw_submit_eq n t k b (write : bool) sector :
  rw_submit b write sector 0 1 2 n (MkK t k) = Ret tt (MkK t (submit b write sector k)).
Proof. reflexivity. Qed.

(** The buffer is forgotten and the chain freed. *)
Definition uninfo_v (v : virtio) : virtio := v <| vq_info ::= alter (fun f => f <| in_b := None |>) 0%nat |>.
Definition unchain_v (v : virtio) : virtio :=
  v <| vq_desc ::= fun l => alter (fun _ => desc0) 2%nat (alter (fun _ => desc0) 1%nat (alter (fun _ => desc0) 0%nat l)) |>
    <| vq_free := replicate 8 1 |>.

Lemma free_desc_spec p n t k i :
  calm p t -> 0 <= i < NUM -> vq_free (vd k) !! Z.to_nat i = Some 0 ->
  free_desc i n (MkK t k) = Ret tt (MkK t (set_vd (fun v => v <| vq_desc ::= alter (fun _ => desc0) (Z.to_nat i) |>
    <| vq_free ::= <[Z.to_nat i := 1]> |>) k)).
Proof.
  intros Hc Hi Hf. unfold free_desc. destruct (Z.geb_spec i NUM); [lia|].
  unfold is_free. rewrite getv_bind, Hf. change (negb (default 0 (Some 0) =? 0)) with false. cbn iota.
  unfold modd, set_free. rewrite !modv_bind. by rewrite (wakeup_quiet p) by done.
Qed.

Lemma free_chain_spec p n t k d0 d1 d2 :
  calm p t -> (2 < n)%nat -> vq_free (vd k) = [0; 0; 0; 1; 1; 1; 1; 1] ->
  vq_desc (vd k) !! 0%nat = Some d0 -> vq_desc (vd k) !! 1%nat = Some d1 -> vq_desc (vd k) !! 2%nat = Some d2 ->
  Z.land (d_flags d0) VRING_DESC_F_NEXT <> 0 -> d_next d0 = 1 ->
  Z.land (d_flags d1) VRING_DESC_F_NEXT <> 0 -> d_next d1 = 2 ->
  Z.land (d_flags d2) VRING_DESC_F_NEXT = 0 ->
  free_chain 0 n (MkK t k) = Ret tt (MkK t (set_vd unchain_v k)).
Proof.
  intros Hc Hn Hf H0 H1 H2 F0 N0 F1 N1 F2.
  assert (forall k' i d, vq_desc (vd k') !! Z.to_nat i = Some d -> 0 <= i < NUM -> vq_free (vd k') !! Z.to_nat i = Some 0 ->
    free_chain_body i n (MkK t k') = Ret (if negb (Z.land (d_flags d) VRING_DESC_F_NEXT =? 0) then inl (d_next d) else inr tt)
      (MkK t (set_vd (fun v => v <| vq_desc ::= alter (fun _ => desc0) (Z.to_nat i) |> <| vq_free ::= <[Z.to_nat i := 1]> |>) k'))) as Hbody.
  { intros k' i d Hd Hi Hfr. unfold free_chain_body, getd. rewrite getv_bind, Hd. change (default desc0 (Some d)) with d.
    rewrite (bind_ret _ _ _ _ _ _ (free_desc_spec p n t k' i Hc Hi Hfr)). by destruct (negb _). }
  destruct k, vd as [de av ai us ui fr ux inf ops]. cbn in Hf, H0, H1, H2. subst fr.
  unfold free_chain, mloop. assert (exists m, n = S (S (S m))) as [m E] by (exists (n - 3)%nat; lia). rewrite E at 1. clear E.
  match goal with |- mwhile _ _ _ _ (MkK t ?k') = _ => pose proof (Hbody k' 0 d0 H0 ltac:(done) eq_refl) as B end. rewrite (proj2 (Z.eqb_neq _ _) F0), N0 in B. cbn [negb] in B.
  rewrite (mwhile_inl _ _ _ _ _ _ _ B). clear B. match goal with |- mwhile _ _ _ _ (MkK t ?k') = _ => set (k1 := k') end.
  assert (vq_desc (Kern.vd k1) !! 1%nat = Some d1) as H1' by (change (alter (fun _ => desc0) 0%nat de !! 1%nat = Some d1); by rewrite list_lookup_alter_ne).
  pose proof (Hbody k1 1 d1 H1' ltac:(done) eq_refl) as B. rewrite (proj2 (Z.eqb_neq _ _) F1), N1 in B. cbn [negb] in B.
  rewrite (mwhile_inl _ _ _ _ _ _ _ B). clear B. match goal with |- mwhile _ _ _ _ (MkK t ?k') = _ => set (k2 := k') end.
  assert (vq_desc (Kern.vd k2) !! 2%nat = Some d2) as H2' by (change (alter (fun _ => desc0) 1%nat (alter (fun _ => desc0) 0%nat de) !! 2%nat = Some d2); by rewrite !list_lookup_alter_ne).
  pose proof (Hbody k2 2 d2 H2' ltac:(done) eq_refl) as B. rewrite F2 in B. cbn [negb Z.eqb] in B.
  by rewrite (mwhile_inr _ _ _ _ _ _ _ B).
Qed.

Definition taken (k : kern) : kern := set_vd (fun v => v <| vq_free := [0; 0; 0; 1; 1; 1; 1; 1] |>) k.

Lemma submit_desc b (write : bool) sector v :
  length (vq_desc v) = 8%nat ->
  let l := vq_desc (submit_v b write sector v) in
  l !! 0%nat = Some (MkDesc (DmaReq 0) 16 VRING_DESC_F_NEXT 1) /\
  l !! 1%nat = Some (MkDesc (DmaData b) BSIZE (Z.lor (if write then 0 else VRING_DESC_F_WRITE) VRING_DESC_F_NEXT) 2) /\
  l !! 2%nat = Some (MkDesc (DmaStatus 0) 1 VRING_DESC_F_WRITE 0).
Proof.
  destruct v as [de av ai us ui fr ux inf ops]. unfold submit_v. cbn. intros H.
  do 3 (destruct de as [|? de]; [done|]). done.
Qed.

Lemma submit_pending b (write : bool) bno k :
  disk_idle (vd k) -> pending b write bno (submit b write (2 * bno) (taken k)).
Proof.
  intros [D1 D2 D3 D4 D5 D6 D7 D8 D9].
  destruct (submit_desc b write (2 * bno) (vd (taken k)) D2) as (E0 & E1 & E2).
  split; try assumption.
  - change (u16 (vq_avail_idx (vd k) + 1) = u16 (vq_used_idx (vd k) + 1)). by rewrite D7.
  - change ((<[Z.to_nat (vq_avail_idx (vd k) mod NUM) := 0]> (vq_avail (vd k))) !! Z.to_nat (vq_used_idx (vd k) mod NUM) = Some 0).
    rewrite D7. apply list_lookup_insert_eq. rewrite D3. unfold NUM. pose proof (Z.mod_pos_bound (vq_used_idx (vd k)) 8). lia.
  - change ((<[0%nat := MkReq (if write then VIRTIO_BLK_T_OUT else VIRTIO_BLK_T_IN) 0 (2 * bno)]> (vq_ops (vd k))) !! 0%nat =
      Some (MkReq (if write then VIRTIO_BLK_T_OUT else VIRTIO_BLK_T_IN) 0 (2 * bno))).
    apply list_lookup_insert_eq. rewrite D6. lia.
Qed.

(** The state when [virtio_disk_rw] is done, apart from register traces. *)
Definition served (b : nat) (write : bool) (bno : Z) (d : list Z) (st : Z) (k : kern) : kern :=
  set_vd unchain_v (set_vd uninfo_v (intr_done b ((transferred b write bno d (submit b write (2 * bno) (taken k)))
    <| vd := completed (vd (submit b write (2 * bno) (taken k))) |>) st)).

Lemma served_idle b (write : bool) bno d st k :
  disk_idle (vd k) -> disk_idle (vd (served b write bno d st k)).
Proof.
  intros [D1 D2 D3 D4 D5 D6 D7 D8 D9]. unfold served.
  destruct k, vd as [de av ai us ui fr ux inf ops]. cbn [vd vq_desc vq_avail vq_avail_idx vq_used vq_used_idx vq_free used_idx vq_info vq_ops] in *.
  subst fr ai ux.
  assert (Hv : Kern.vd (served b write bno d st (MkKern km bufs (MkVirtio de av ui us ui (replicate 8 1) ui inf ops) lg sb itable
     ftable pipes devsw cons uart panicked pr_locking ticks fs_first kernel_pagetable started csr io_rd io_n io_wr dsk dtr)) =
    unchain_v (uninfo_v ((completed (submit_v b write (2 * bno) (MkVirtio de av ui us ui [0; 0; 0; 1; 1; 1; 1; 1] ui inf ops)))
      <| used_idx := u16 (ui + 1) |>))) by (by destruct write).
  unfold served in Hv. rewrite Hv. clear Hv.
  unfold unchain_v, uninfo_v, completed, submit_v. split; cbn; rewrite ?length_alter, ?length_insert; try done. apply u16_range.
Qed.

Lemma transferred_served b (write : bool) bno d st k x :
  bufs k !! b = Some x -> b_disk x = 0 ->
  same_but_driver (transferred b write bno d k) (served b write bno d st k).
Proof.
  intros Hb Hx.
  assert (forall f, (forall y, b_disk (f y) = b_disk y) -> (forall y c, f (y <| b_disk := c |>) = (f y) <| b_disk := c |>) ->
    alter (fun x => x <| b_disk := 0 |>) b (alter f b (alter (fun x => x <| b_disk := 1 |>) b (bufs k))) = alter f b (bufs k)) as E.
  { intros f F1 F2. apply list_eq. intros j. destruct (decide (b = j)) as [<-|]; [|by rewrite !list_lookup_alter_ne].
    rewrite !list_lookup_alter_eq, Hb. cbn [fmap option_fmap option_map]. rewrite F2.
    specialize (F1 x). destruct (f x). unfold upd. cbn in *. congruence. }
  destruct write; split; try reflexivity.
  - change (alter (fun x => x <| b_disk := 0 |>) b (alter (fun x => x <| b_disk := 1 |>) b (bufs k)) = bufs k).
    assert (forall l : list buf, alter id b l = l) as Hid by (intros l; by apply list_alter_id).
    specialize (E id ltac:(done) ltac:(done)). by rewrite !Hid in E.
  - apply (E (fun x => x <| b_data := d |>)); done.
Qed.

Lemma rw_alloc_idle n t k :
  disk_idle (vd k) -> n <> 0%nat ->
  mloop rw_alloc_body tt n (MkK t k) = Ret [0; 1; 2] (MkK t (taken k)).
Proof.
  intros Hd Hn. apply mloop_inr; [done|]. unfold rw_alloc_body.
  by rewrite (bind_ret _ _ _ _ _ _ (alloc3_idle n t k (di_free _ Hd))).
Qed.

(** Waiting for the request to complete. *)
Lemma rw_wait_runs device fuel n p t k b (write : bool) x d :
  Device device -> (1 < fuel)%nat -> (1 < n)%nat -> rest p t -> disk_idle (vd k) ->
  bufs k !! b = Some x -> dsk k !! b_blockno x = Some d ->
  let k2 := submit b write (2 * b_blockno x) (taken k) in
  exists st, runs (disk_env device fuel) (mloop (rw_wait_body b) tt n (MkK (t_acq LkVdisk t) k2))
    (fun _ s => s = MkK (t_acq LkVdisk t) (intr_done b
      ((transferred b write (b_blockno x) (if write then b_data x else d) k2) <| vd := completed (vd k2) |>) st)).
Proof.
  intros HD Hf Hn Hr Hi Hb Hdk k2. pose proof Hi as [D1 D2 D3 D4 D5 D6 D7 D8 D9].
  assert (bufs k2 !! b = Some (x <| b_disk := 1 |>)) as Hb2.
  { change (alter (fun x => x <| b_disk := 1 |>) b (bufs k) !! b = Some (x <| b_disk := 1 |>)). by rewrite list_lookup_alter_eq, Hb. }
  assert (exists i, vq_info (vd k2) !! 0%nat = Some (MkInfo (Some b) i)) as [i Hin].
  { change (exists i, alter (fun f => f <| in_b := Some b |>) 0%nat (alter (fun f => f <| in_status := 0xff |>) 0%nat (vq_info (vd k))) !! 0%nat
      = Some (MkInfo (Some b) i)). rewrite !list_lookup_alter_eq. destruct (lookup_lt_is_Some_2 (vq_info (vd k)) 0) as [? ->]; [lia|]. by eexists. }
  destruct (disk_env_serves device fuel p t k2 b write (b_blockno x) _ d i HD Hf Hr
    (submit_pending b write _ k Hi) Hb2 Hdk D9 D8 D4 Hin) as [st E].
  change (b_data (x <| b_disk := 1 |>)) with (b_data x) in E.
  exists st. set (k3 := intr_done b _ st) in *.
  assert (exists y, bufs k3 !! b = Some y /\ b_disk y = 0) as (y & Hy & Hy0).
  { destruct write; unfold k3;
      [change (exists y, alter (fun x => x <| b_disk := 0 |>) b (bufs k2) !! b = Some y /\ b_disk y = 0)
      |change (exists y, alter (fun x => x <| b_disk := 0 |>) b (alter (fun x => x <| b_data := d |>) b (bufs k2)) !! b = Some y /\ b_disk y = 0)];
      rewrite !list_lookup_alter_eq, Hb2; by eexists. }
  unfold mloop. assert (exists m, n = S (S m)) as [m En] by (exists (n - 2)%nat; lia). rewrite En at 1. clear En.
  apply runs_mwhile_inl. unfold rw_wait_body at 1. rewrite (getb_bind _ _ _ _ _ _ Hb2).
  change (b_disk (x <| b_disk := 1 |>) =? 1) with true. cbn iota. apply runs_bind. apply runs_some.
  eexists _, _. split; [apply (sleep_solo _ p); [done|done|exact E]|].
  eapply runs_ret; [reflexivity|]. cbn beta iota.
  apply runs_mwhile_inl. eapply runs_ret; [unfold rw_wait_body; rewrite (getb_bind _ _ _ _ _ _ Hy), Hy0; reflexivity|done].
Qed.

Lemma served_chain b (write : bool) bno d st k :
  disk_idle (vd k) ->
  let k2 := submit b write (2 * bno) (taken k) in
  let v := vd (set_vd uninfo_v (intr_done b ((transferred b write bno d k2) <| vd := completed (vd k2) |>) st)) in
  vq_free v = [0; 0; 0; 1; 1; 1; 1; 1] /\ vq_desc v = vq_desc (submit_v b write (2 * bno) (vd (taken k))).
Proof. intros Hi. destruct write; split; reflexivity. Qed.

(** [virtio_disk_rw] keeps the promise of the interface. *)
#[export] Instance disk_env_BlockDev device fuel :
  Device device -> (1 < fuel)%nat -> BlockDev (disk_env device fuel).
Proof.
  intros HD Hf. split. intros n p t k b write x d Hn Hr Hi Hb Hdisk Hbno Hdk.
  pose proof Hr as [Hc Hl _ _]. unfold virtio_disk_rw. rewrite (getb_bind _ _ _ _ _ _ Hb).
  replace (u32 (b_blockno x * (BSIZE / 512))) with (2 * b_blockno x)
    by (change (BSIZE / 512) with 2; rewrite u32_small; lia).
  rewrite acquire_bind by (by rewrite Hl).
  rewrite (bind_ret _ _ _ _ _ _ (rw_alloc_idle n _ k Hi ltac:(lia))). cbn iota.
  change (default 0 ([0; 1; 2] !! 0%nat)) with 0. change (default 0 ([0; 1; 2] !! 1%nat)) with 1.
  change (default 0 ([0; 1; 2] !! 2%nat)) with 2.
  rewrite (bind_ret _ _ _ _ _ _ (rw_submit_eq n _ (taken k) b write (2 * b_blockno x))).
  destruct (rw_wait_runs device fuel n p t k b write x d HD Hf ltac:(lia) Hr Hi Hb Hdk) as [st Hw].
  apply runs_bind. eapply runs_mono; [|exact Hw]. intros [] s ->. clear Hw.
  set (dd := if write then b_data x else d). set (k2 := submit _ _ _ _). set (k3 := intr_done _ _ _).
  unfold mod_info. rewrite modv_bind. change (k3 <| vd ::= _ |>) with (set_vd uninfo_v k3). set (k4 := set_vd uninfo_v k3).
  destruct (served_chain b write (b_blockno x) dd st k Hi) as [F1 F2].
  destruct (submit_desc b write (2 * b_blockno x) (vd (taken k)) (di_desc _ Hi)) as (E0 & E1 & E2).
  rewrite <- F2 in E0, E1, E2.
  assert (calm p (t_acq LkVdisk t)) as Hc' by (by apply calm_acq).
  pose proof (free_chain_spec p n _ k4 _ _ _ Hc' ltac:(lia) F1 E0 E1 E2 ltac:(done) eq_refl
    ltac:(by destruct write) eq_refl eq_refl) as Efree.
  rewrite (bind_ret _ _ _ _ _ _ Efree).
  eapply runs_ret; [apply release_spec; [apply Hc|by rewrite Hl]|]. cbn [thr own].
  change (set_vd _ k4) with (served b write (b_blockno x) dd st k).
  split_and!; [done|by apply served_idle|]. by eapply transferred_served.
Qed.

(** ** Theorem *)

(** C28: The disk driver turns a request into exactly one block transfer.  On
    an idle driver and for any device that serves requests as the virtio
    specification says, [virtio_disk_rw], with the completion interrupt it
    sleeps for, returns to the same thread state with the buffer holding the
    block's contents (read) or the block holding the buffer's (write), nothing
    else changed outside the driver, and every descriptor free again. *)
Theorem virtio_rw_correct device fuel n p t k b (write : bool) x d :
  Device device -> (1 < fuel)%nat -> (4 < n)%nat -> rest p t -> disk_idle (vd k) ->
  bufs k !! b = Some x -> b_disk x = 0 -> 0 <= b_blockno x < 2 ^ 31 -> dsk k !! b_blockno x = Some d ->
  runs (disk_env device fuel) (virtio_disk_rw b write n (MkK t k)) (fun _ s =>
    thr s = t /\ disk_idle (vd (own s)) /\
    same_but_driver (transferred b write (b_blockno x) (if write then b_data x else d) k) (own s)).
Proof. intros HD Hf. pose proof (disk_env_BlockDev device fuel HD Hf) as HB. exact (bd_rw n p t k b write x d). Qed.

(** A device: it serves the chain at the head of the available ring. *)
Definition demo_device (k : kern) : kern :=
  match vq_desc (vd k) !! 1%nat, vq_ops (vd k) !! 0%nat with
  | Some (MkDesc (DmaData b) _ _ _), Some r =>
      match bufs k !! b, dsk k !! (rq_sector r / 2) with
      | Some x, Some d =>
          let write := rq_type r =? VIRTIO_BLK_T_OUT in
          (transferred b write (rq_sector r / 2) (if write then b_data x else d) k) <| vd := completed (vd k) |>
      | _, _ => k
      end
  | _, _ => k
  end.

Lemma demo_device_ok : Device demo_device.
Proof.
  split. intros b write bno k x d [P1 P2 P3 P4 P5 P6] Hb Hd. unfold demo_device. rewrite P4, P6.
  cbn [rq_sector rq_type]. rewrite (Z.mul_comm 2), Z.div_mul, Hb, Hd by lia. by destruct write.
Qed.

Definition demo_virtio : virtio :=
  MkVirtio (replicate 8 desc0) (replicate 8 0) 0 (replicate 8 0) 0 (replicate 8 1) 0 (replicate 8 info0) (replicate 8 req0).
Lemma demo_virtio_idle : disk_idle demo_virtio.
Proof. by split. Qed.

(** The kernel's variables as the loader leaves them, with a disk attached. *)
Definition kern0 (d : gmap Z (list Z)) : kern :=
  MkKern (Kalloc.MkKmem ∅ 0) (replicate 31 buf0) demo_virtio (MkLog 0 0 0 0 0 0 (replicate 30 0))
    (MkSb 0 0 0 0 0 0 0 0) (replicate 50 inode0) (replicate 100 file0) ∅ (replicate 10 None)
    (MkCons (replicate 128 0) 0 0 0) (MkUart (replicate 32 0) 0 0) 0 0 0 1 0 0 (MkCsr 0 0 0 0 0 0 0)
    (fun _ _ => 0) 0 [] d [].

Lemma demo_rest : rest 0 Kalloc.demo_T.
Proof.
  split; [split; [done|by split_and!|by intros i|done|]|done|done|].
  - intros j q Hj Hq. destruct j as [|j]; [done|].
    change (procs Kalloc.demo_T !! S j) with (replicate 63 proc0 !! j) in Hq.
    apply lookup_replicate in Hq as [-> _]. done.
  - by eexists.
Qed.

Lemma virtio_rw_correct_witness :
  exists k, solo (disk_env demo_device 2) (virtio_disk_rw 3 false 5%nat (MkK Kalloc.demo_T (kern0 {[0 := [1; 2; 3]]}))) =
      Some (tt, MkK Kalloc.demo_T k) /\ b_data <$> bufs k !! 3%nat = Some [1; 2; 3].
Proof.
  pose proof (virtio_rw_correct demo_device 2 5%nat 0%nat Kalloc.demo_T (kern0 {[0 := [1; 2; 3]]}) 3 false buf0 [1; 2; 3]
    demo_device_ok ltac:(lia) ltac:(lia) demo_rest demo_virtio_idle eq_refl eq_refl ltac:(done) eq_refl) as H.
  destruct (proj1 (runs_some _ _ _) H) as (u & s & H1 & H2 & _ & H3). clear H.
  destruct u. destruct s as [t k]. change (t = Kalloc.demo_T) in H2. rewrite H2 in H1.
  exists k. split; [exact H1|]. change (own (MkK t k)) with k in H3. rewrite (sd_bufs _ _ H3). reflexivity.
Defined.
