(* ===== verification/Lru.v ===== *)
(** * The doubly linked list of the buffer cache

    A circular list through [next] and [prev] pointers, with a sentinel, and
    the effect of unlinking a node and of inserting one after the sentinel
    ([binit] and [brelse] of [kernel/bio.c]).  Pointers are functions from
    nodes to nodes. *)

From Stdlib Require Import ZArith Lia.
From S2P Require Import Prelude.

Definition fupd (f : nat -> nat) (i v : nat) : nat -> nat := fun j => if decide (j = i) then v else f j.

Lemma fupd_eq f i v : fupd f i v i = v.
Proof. unfold fupd. by rewrite decide_True. Qed.
Lemma fupd_ne f i v j : j <> i -> fupd f i v j = f j.
Proof. intros. unfold fupd. by rewrite decide_False. Qed.

(** Following [next] from [a] visits [l] and arrives at [e]; [prev] goes
    back. *)
Fixpoint chain (nx pv : nat -> nat) (a : nat) (l : list nat) (e : nat) : Prop :=
  match l with
  | [] => nx a = e /\ pv e = a
  | b :: l' => nx a = b /\ pv b = a /\ chain nx pv b l' e
  end.

Lemma chain_app nx pv l1 : forall a b l2 e,
  chain nx pv a (l1 ++ b :: l2) e <-> chain nx pv a l1 b /\ chain nx pv b l2 e.
Proof. induction l1 as [|c l1 IH]; intros a b l2 e; cbn; [tauto|]. rewrite IH. tauto. Qed.

Lemma chain_ext nx pv nx' pv' l : forall a e,
  (forall i, i = a \/ i ∈ l -> nx' i = nx i) -> (forall i, i = e \/ i ∈ l -> pv' i = pv i) ->
  chain nx pv a l e -> chain nx' pv' a l e.
Proof.
  induction l as [|b l IH]; intros a e Hn Hp; cbn.
  - intros [H1 H2]. rewrite Hn, Hp by auto. done.
  - intros (H1 & H2 & H3). split_and!; [rewrite Hn by auto; done|rewrite Hp by (right; set_solver); done|].
    apply IH; [intros i Hi; apply Hn; set_solver|intros i Hi; apply Hp; set_solver|done].
Qed.

(** The list seen from the other end. *)
Lemma chain_rev nx pv l : forall a e, chain nx pv a l e -> chain pv nx e (reverse l) a.
Proof.
  induction l as [|b l IH]; intros a e; cbn [chain]; [intros []; by split|].
  intros (H1 & H2 & H3). rewrite reverse_cons. apply (chain_app pv nx (reverse l) e b [] a). cbn. auto.
Qed.

(** The first and the last node. *)
Lemma chain_first nx pv a l e : chain nx pv a l e -> nx a = hd e l.
Proof. destruct l; cbn; tauto. Qed.
Lemma chain_last nx pv a l e : chain nx pv a l e -> pv e = hd a (reverse l).
Proof. intros H%chain_rev. by apply chain_first in H. Qed.

(** [b->next->prev = b->prev; b->prev->next = b->next;] *)
Lemma chain_unlink nx pv a l1 b l2 e :
  NoDup (l1 ++ b :: l2) -> a ∉ l1 ++ b :: l2 -> e ∉ l1 ++ b :: l2 ->
  chain nx pv a (l1 ++ b :: l2) e ->
  chain (fupd nx (pv b) (nx b)) (fupd pv (nx b) (pv b)) a (l1 ++ l2) e.
Proof.
  intros Hnd Ha He [H1 H2]%chain_app.
  pose proof (chain_last _ _ _ _ _ H1) as Hpv. pose proof (chain_first _ _ _ _ _ H2) as Hnx.
  assert (forall l1' c, l1 = l1' ++ [c] -> pv b = c) as Hc.
  { intros l1' c ->. by rewrite Hpv, reverse_snoc. }
  assert (l1 = [] /\ pv b = a \/ exists l1', l1 = l1' ++ [pv b]) as Hl1.
  { destruct l1 as [|c l1' _] using rev_ind; [left; split; [done|by rewrite Hpv]|right]. exists l1'. by rewrite (Hc l1' c). }
  destruct l2 as [|d l2]; cbn [hd] in Hnx; rewrite Hnx.
  - rewrite app_nil_r. destruct Hl1 as [[-> Hp]|[l1' E]].
    + rewrite Hp. cbn. by rewrite !fupd_eq.
    + rewrite E in H1 |- *. rewrite E in Hnd, Ha, He. apply chain_app in H1 as [H1 _].
      set (c := pv b) in *. apply chain_app. split.
      * apply (chain_ext nx pv); [| |exact H1]; intros i Hi; apply fupd_ne; intros ->.
        -- destruct Hi as [->|Hi]; [set_solver|]. rewrite !NoDup_app in Hnd. set_solver.
        -- destruct Hi as [->|Hi]; set_solver.
      * cbn. by rewrite !fupd_eq.
  - destruct H2 as (_ & Hd & H2).
    assert (chain (fupd nx (pv b) d) (fupd pv d (pv b)) d l2 e) as H2'.
    { apply (chain_ext nx pv); [| |exact H2]; intros i Hi; apply fupd_ne; intros ->.
      - destruct Hl1 as [[-> Hp]|[l1' E]].
        + rewrite Hp in Hi. destruct Hi as [->|Hi]; set_solver.
        + set (c := pv b) in *. rewrite E in Hnd. rewrite !NoDup_app in Hnd. destruct Hi as [->|Hi]; set_solver.
      - destruct Hi as [->|Hi]; [set_solver|]. rewrite NoDup_app in Hnd. destruct Hnd as (_ & _ & Hnd).
        rewrite !NoDup_cons in Hnd. set_solver. }
    apply chain_app. split; [|exact H2']. destruct Hl1 as [[-> Hp]|[l1' E]].
    + rewrite Hp. cbn. by rewrite !fupd_eq.
    + rewrite E in H1 |- *. rewrite E in Hnd, Ha, He. apply chain_app in H1 as [H1 _].
      set (c := pv b) in *. apply chain_app. split.
      * apply (chain_ext nx pv); [| |exact H1]; intros i Hi; apply fupd_ne; intros ->.
        -- destruct Hi as [->|Hi]; [set_solver|]. rewrite !NoDup_app in Hnd. set_solver.
        -- rewrite !NoDup_app in Hnd. destruct Hi as [->|Hi]; set_solver.
      * cbn. by rewrite !fupd_eq.
Qed.

(** [b->next = head.next; b->prev = &head; head.next->prev = b; head.next = b;] *)
Lemma chain_push nx pv h b l :
  b ∉ l -> h ∉ l -> b <> h -> NoDup l -> chain nx pv h l h ->
  chain (fupd (fupd nx b (nx h)) h b) (fupd (fupd pv b h) (nx h) b) h (b :: l) h.
Proof.
  intros Hb Hh Hne Hnd Hc. pose proof (chain_first _ _ _ _ _ Hc) as Hf. cbn [chain].
  rewrite fupd_eq. split; [done|]. split.
  { rewrite fupd_ne; [apply fupd_eq|]. rewrite Hf. destruct l; cbn; set_solver. }
  destruct l as [|d l]; cbn [hd] in Hf; rewrite Hf; cbn [chain].
  - rewrite fupd_ne, !fupd_eq by done. done.
  - rewrite fupd_ne, !fupd_eq by done. split_and!; [done|done|]. destruct Hc as (_ & _ & Hc).
    apply (chain_ext nx pv); [| |exact Hc]; intros i Hi.
    + rewrite !fupd_ne; [done|set_solver..].
    + rewrite NoDup_cons in Hnd. rewrite !fupd_ne; [done|destruct Hi; set_solver..].
Qed.
