(* ===== verification/Bio.v ===== *)
(** * The buffer cache: [kernel/bio.c]

    Buffers are indices [0 .. NBUF-1] of [bufs]; index [NBUF] is
    [bcache.head]. *)

From Stdlib Require Import ZArith Lia.
From S2P Require Import Prelude Riscv KString Thread Proc Sleeplock Kern Virtio.

Definition nbuf : nat := Z.to_nat NBUF.

Definition binit_body (i : Z) : KK () :=
  let b := Z.to_nat i in
  h ← getb nbuf;
  modb b (fun x => x <| b_next := b_next h |>) ;;
  modb b (fun x => x <| b_prev := nbuf |>) ;;
  initsleeplock (SLBuf b) ;;
  modb (b_next h) (fun x => x <| b_prev := b |>) ;;
  modb nbuf (fun x => x <| b_next := b |>).

Definition binit : KK () :=
  initlock LkBcache ;;
  modb nbuf (fun x => x <| b_prev := nbuf |>) ;;
  modb nbuf (fun x => x <| b_next := nbuf |>) ;;
  meach nbuf 0 binit_body.

(** The first loop of [bget]: is the block cached? *)
Definition bget_find (dev blockno : Z) (b : nat) : KK (nat + option nat) :=
  if (b =? nbuf)%nat then mret (inr None) else
  x ← getb b;
  if (b_dev x =? dev) && (b_blockno x =? blockno) then
    modb b (fun x => x <| b_refcnt := u32 (b_refcnt x + 1) |>) ;;
    release LkBcache ;;
    acquiresleep (SLBuf b) ;;
    mret (inr (Some b))
  else mret (inl (b_next x)).

(** The second loop: recycle the least recently used unused buffer. *)
Definition bget_recycle (dev blockno : Z) (b : nat) : KK (nat + option nat) :=
  if (b =? nbuf)%nat then mret (inr None) else
  x ← getb b;
  if b_refcnt x =? 0 then
    modb b (fun x => x <| b_dev := dev |> <| b_blockno := blockno |> <| b_valid := 0 |> <| b_refcnt := 1 |>) ;;
    release LkBcache ;;
    acquiresleep (SLBuf b) ;;
    mret (inr (Some b))
  else mret (inl (b_prev x)).

Definition bget (dev blockno : Z) : KK nat :=
  acquire LkBcache ;;
  h ← getb nbuf;
  r ← mloop (bget_find dev blockno) (b_next h);
  match r with
  | Some b => mret b
  | None =>
      h ← getb nbuf;
      r ← mloop (bget_recycle dev blockno) (b_prev h);
      match r with
      | Some b => mret b
      | None => panic "bget: no buffers"
      end
  end.

Definition bread (dev blockno : Z) : KK nat :=
  b ← bget dev blockno;
  x ← getb b;
  mwhen (b_valid x =? 0)
    (virtio_disk_rw b false ;;
     modb b (fun x => x <| b_valid := 1 |>)) ;;
  mret b.

Definition bwrite (b : nat) : KK () :=
  h ← holdingsleep (SLBuf b);
  if negb h then panic "bwrite" else
  virtio_disk_rw b true.

(** Unlinking a buffer and relinking it at the front. *)
Definition bmove (b : nat) : KK () :=
  x ← getb b;
  modb (b_next x) (fun y => y <| b_prev := b_prev x |>) ;;
  x ← getb b;
  modb (b_prev x) (fun y => y <| b_next := b_next x |>) ;;
  h ← getb nbuf;
  modb b (fun y => y <| b_next := b_next h |>) ;;
  modb b (fun y => y <| b_prev := nbuf |>) ;;
  h ← getb nbuf;
  modb (b_next h) (fun y => y <| b_prev := b |>) ;;
  modb nbuf (fun y => y <| b_next := b |>).

Definition brelse (b : nat) : KK () :=
  h ← holdingsleep (SLBuf b);
  if negb h then panic "brelse" else
  releasesleep (SLBuf b) ;;
  acquire LkBcache ;;
  modb b (fun x => x <| b_refcnt := u32 (b_refcnt x - 1) |>) ;;
  x ← getb b;
  mwhen (b_refcnt x =? 0) (bmove b) ;;
  release LkBcache.

Definition bpin (b : nat) : KK () :=
  acquire LkBcache ;;
  modb b (fun x => x <| b_refcnt := u32 (b_refcnt x + 1) |>) ;;
  release LkBcache.

Definition bunpin (b : nat) : KK () :=
  acquire LkBcache ;;
  modb b (fun x => x <| b_refcnt := u32 (b_refcnt x - 1) |>) ;;
  release LkBcache.
