(* ===== verification/BioSpec.v ===== *)
(** * What the buffer cache promises

    The cache as the file system sees it: a logical disk [V], blocks that the
    caller holds ([H], buffers whose sleep lock the process has) and blocks
    that are pinned ([P]).  The invariant [bcache] ties it to the buffers, the
    LRU list and the disk; each operation of bio.c is specified by its effect
    on [V], [H] and [P].  The specifications hold for any environment that
    keeps the block device's promise ([BlockDev]). *)

From Stdlib Require Import ZArith Lia.
From S2P Require Import Prelude Riscv KString Thread Proc Sleeplock Kern Virtio VirtioSpec Lru Bio.

Lemma nbuf_eq : nbuf = 30%nat.
Proof. reflexivity. Qed.

Definition nxt (bs : list buf) (i : nat) : nat := b_next (default buf0 (bs !! i)).
Definition prv (bs : list buf) (i : nat) : nat := b_prev (default buf0 (bs !! i)).

(** The buffer holds block [bno]. *)
Definition caches (bno : Z) (x : buf) : Prop := b_dev x = ROOTDEV /\ b_blockno x = bno.
#[export] Instance caches_dec bno x : Decision (caches bno x).
Proof. unfold caches. apply _. Defined.

Definition cnt (Q : Prop) `{Decision Q} : Z := if decide Q then 1 else 0.

(** What is true of buffer [i]. *)
Record buf_ok (H : gset nat) (P : gset Z) (V : gmap Z (list Z)) (i : nat) (x : buf) : Prop := {
  bo_disk : b_disk x = 0;
  bo_dev : b_dev x = 0 /\ b_valid x = 0 \/ b_dev x = ROOTDEV /\ is_Some (V !! b_blockno x);
  bo_data : b_valid x <> 0 -> V !! b_blockno x = Some (b_data x);
  bo_ref : b_refcnt x = cnt (i ∈ H) + cnt (b_dev x = ROOTDEV /\ b_blockno x ∈ P);
  bo_held : i ∈ H -> b_dev x = ROOTDEV /\ b_valid x <> 0;
  bo_pin : b_dev x = ROOTDEV -> b_blockno x ∈ P -> b_valid x <> 0
}.

Record bcache (p : nat) (H : gset nat) (P : gset Z) (V : gmap Z (list Z)) (order : list nat)
    (t : T) (k : kern) : Prop := {
  bc_len : length (bufs k) = S nbuf;
  bc_perm : order ≡ₚ seq 0 nbuf;
  bc_ring : chain (nxt (bufs k)) (prv (bufs k)) nbuf order nbuf;
  bc_idle : disk_idle (vd k);
  bc_buf : forall i x, (i < nbuf)%nat -> bufs k !! i = Some x -> buf_ok H P V i x;
  bc_uniq : forall i j x y bno, (i < nbuf)%nat -> (j < nbuf)%nat ->
    bufs k !! i = Some x -> bufs k !! j = Some y -> caches bno x -> caches bno y -> i = j;
  bc_pinned : forall bno, bno ∈ P -> exists i x, (i < nbuf)%nat /\ bufs k !! i = Some x /\ caches bno x;
  bc_clean : forall bno, bno ∉ P ->
    (forall i x, i ∈ H -> bufs k !! i = Some x -> b_blockno x <> bno) -> V !! bno = dsk k !! bno;
  bc_dom : forall bno, is_Some (V !! bno) <-> is_Some (dsk k !! bno);
  bc_rng : forall bno d, V !! bno = Some d -> 0 <= bno < 2 ^ 31 /\ length d = Z.to_nat BSIZE;
  bc_slk : forall i, slks t !! SLBuf i = if decide (i ∈ H) then Some (my_pid p t) else None;
  bc_H : forall i, i ∈ H -> (i < nbuf)%nat
}.

Arguments bo_disk {_ _ _ _ _} _.
Arguments bo_dev {_ _ _ _ _} _.
Arguments bo_data {_ _ _ _ _} _.
Arguments bo_ref {_ _ _ _ _} _.
Arguments bo_held {_ _ _ _ _} _.
Arguments bo_pin {_ _ _ _ _} _.
Arguments bc_len {_ _ _ _ _ _ _} _.
Arguments bc_perm {_ _ _ _ _ _ _} _.
Arguments bc_ring {_ _ _ _ _ _ _} _.
Arguments bc_idle {_ _ _ _ _ _ _} _.
Arguments bc_buf {_ _ _ _ _ _ _} _.
Arguments bc_uniq {_ _ _ _ _ _ _} _.
Arguments bc_pinned {_ _ _ _ _ _ _} _.
Arguments bc_clean {_ _ _ _ _ _ _} _.
Arguments bc_dom {_ _ _ _ _ _ _} _.
Arguments bc_rng {_ _ _ _ _ _ _} _.
Arguments bc_slk {_ _ _ _ _ _ _} _.
Arguments bc_H {_ _ _ _ _ _ _} _.

(** No buffer the process holds is block [bno]'s: reading it cannot wait for
    the process itself. *)
Definition not_held (H : gset nat) (bno : Z) (k : kern) : Prop :=
  forall i x, i ∈ H -> bufs k !! i = Some x -> b_blockno x <> bno.

(** The kernel's data outside buffers, disk and log. *)
Record same_fs (k k' : kern) : Prop := {
  sf_km : km k' = km k; sf_sb : sb k' = sb k; sf_itable : itable k' = itable k; sf_ftable : ftable k' = ftable k;
  sf_pipes : pipes k' = pipes k; sf_devsw : devsw k' = devsw k; sf_cons : cons k' = cons k; sf_uart : uart k' = uart k;
  sf_panicked : panicked k' = panicked k; sf_pr : pr_locking k' = pr_locking k; sf_ticks : ticks k' = ticks k;
  sf_first : fs_first k' = fs_first k; sf_kpt : kernel_pagetable k' = kernel_pagetable k;
  sf_started : started k' = started k; sf_csr : csr k' = csr k; sf_io : io_rd k' = io_rd k
}.
#[export] Instance same_fs_preorder : PreOrder same_fs.
Proof.
  split; [by split|]. intros k1 k2 k3 [] []. split; congruence.
Qed.

(** In addition log, disk and write history are the same: only buffers may
    have changed. *)
Record same_disk (k k' : kern) : Prop := {
  sk_fs : same_fs k k'; sk_lg : lg k' = lg k; sk_dsk : dsk k' = dsk k; sk_dtr : dtr k' = dtr k
}.
#[export] Instance same_disk_preorder : PreOrder same_disk.
Proof.
  split; [by split|]. intros k1 k2 k3 [] []. split; [by etransitivity|congruence..].
Qed.

Lemma driver_same k k' : same_but_driver k k' -> same_disk k k'.
Proof. intros []. split; [by split|done..]. Qed.
Lemma bufs_same k f : same_disk k (k <| bufs ::= f |>).
Proof. by split; [split|..]. Qed.
#[export] Hint Resolve bufs_same driver_same : xv6.

(** ** Walking the list *)

Lemma walk_list {R} (body : nat -> KK (nat + R)) n s nx pv r s' : forall l a e fuel,
  chain nx pv a l e -> (forall j, j ∈ l -> body j n s = Ret (inl (nx j)) s) ->
  body e n s = Ret (inr r) s' -> (length l < fuel)%nat ->
  mwhile fuel body (nx a) n s = Ret r s'.
Proof.
  induction l as [|b l IH]; intros a e fuel Hc Hl He Hf; (destruct fuel as [|fuel]; [cbn in Hf; lia|]); cbn in Hc.
  - destruct Hc as [-> _]. by apply mwhile_inr.
  - destruct Hc as (-> & _ & Hc). rewrite (mwhile_inl _ _ _ _ _ _ _ (Hl b ltac:(left))).
    apply (IH b e); [done|intros j Hj; apply Hl; by right|done|cbn in Hf; lia].
Qed.

(** The first element of a list with a decidable property. *)
Lemma first_split {A} (Q : A -> Prop) `{forall x, Decision (Q x)} (l : list A) :
  (exists l1 b l2, l = l1 ++ b :: l2 /\ Q b /\ forall x, x ∈ l1 -> ~ Q x) \/ (forall x, x ∈ l -> ~ Q x).
Proof.
  induction l as [|a l IH]; [right; intros x Hx; by apply not_elem_of_nil in Hx|].
  destruct (decide (Q a)) as [Ha|Ha].
  - left. exists [], a, l. split_and!; [done|done|]. intros x Hx. by apply not_elem_of_nil in Hx.
  - destruct IH as [(l1 & b & l2 & -> & Hb & Hl)|IH]; [left|right].
    + exists (a :: l1), b, l2. split_and!; [done|done|]. intros x [->|Hx]%elem_of_cons; [done|by apply Hl].
    + intros x [->|Hx]%elem_of_cons; [done|by apply IH].
Qed.

Section bio.
Context (env : kst kern -> option (kst kern)) {BD : BlockDev env}.
Context (n p : nat).

Section inv.
Context {H : gset nat} {P : gset Z} {V : gmap Z (list Z)} {order : list nat} {t : T} {k : kern}.
Context (HB : bcache p H P V order t k).

Lemma bc_lookup i : (i < nbuf)%nat -> exists x, bufs k !! i = Some x.
Proof. intros Hi. apply lookup_lt_is_Some_2. rewrite (bc_len HB). lia. Qed.

Lemma bc_head : exists h, bufs k !! nbuf = Some h.
Proof. apply lookup_lt_is_Some_2. rewrite (bc_len HB). lia. Qed.

Lemma bc_order i : i ∈ order <-> (i < nbuf)%nat.
Proof. rewrite (bc_perm HB), elem_of_seq. lia. Qed.

Lemma bc_nodup : NoDup order.
Proof. rewrite (bc_perm HB). apply NoDup_seq. Qed.

Lemma bc_order_len : length order = nbuf.
Proof. by rewrite (bc_perm HB), length_seq. Qed.

(** Counting: as long as fewer than [NBUF] buffers are held or pinned, one
    is unused. *)
Lemma unused_buffer :
  (size H + size P < nbuf)%nat -> exists i x, (i < nbuf)%nat /\ bufs k !! i = Some x /\ b_refcnt x = 0.
Proof.
  intros Hs. destruct (first_split (fun i => b_refcnt (default buf0 (bufs k !! i)) = 0) (seq 0 nbuf))
    as [(l1 & i & l2 & E & Hi & _)|Hall].
  { assert (i < nbuf)%nat as Hlt by (apply (elem_of_seq 0 nbuf i); rewrite E; set_solver).
    destruct (bc_lookup i Hlt) as [x Hx]. exists i, x. rewrite Hx in Hi. done. }
  exfalso. set (f := fun i => b_blockno (default buf0 (bufs k !! i))).
  set (L := filter (fun i => i ∉ H) (seq 0 nbuf)).
  assert (forall i, i ∈ L -> exists x, (i < nbuf)%nat /\ bufs k !! i = Some x /\ caches (f i) x /\ f i ∈ P) as HL.
  { intros i [Hn Hi]%list_elem_of_filter. pose proof Hi as Hlt. apply elem_of_seq in Hlt.
    destruct (bc_lookup i ltac:(lia)) as [x Hx]. exists x. specialize (Hall i Hi). unfold f. rewrite Hx in *.
    cbn in *. destruct (bc_buf HB i x ltac:(lia) Hx) as [_ _ _ Hr _ _]. unfold cnt in Hr.
    rewrite decide_False in Hr by done. destruct (decide _) as [[D1 D2]|]; [|lia]. split_and!; lia || done. }
  assert (NoDup (f <$> L)) as Hnd.
  { apply NoDup_fmap_2_strong; [|apply NoDup_filter, NoDup_seq]. intros i j Hi Hj E.
    destruct (HL i Hi) as (x & Hi1 & Hx & Cx & _), (HL j Hj) as (y & Hj1 & Hy & Cy & _).
    rewrite <- E in Cy. by eapply (bc_uniq HB i j x y). }
  assert (length L <= size P)%nat as H1.
  { rewrite <- (length_fmap f), <- (size_list_to_set (C := gset Z)) by done. apply subseteq_size.
    intros bno [i [-> Hi]]%elem_of_list_to_set%list_elem_of_fmap. by destruct (HL i Hi) as (x & _ & _ & _ & ?). }
  assert (length (filter (fun i => i ∈ H) (seq 0 nbuf)) <= size H)%nat as H2.
  { rewrite <- (size_list_to_set (C := gset nat)) by (apply NoDup_filter, NoDup_seq). apply subseteq_size.
    intros i [Hi _]%elem_of_list_to_set%list_elem_of_filter. done. }
  assert (length (filter (fun i => i ∈ H) (seq 0 nbuf)) + length L = nbuf)%nat as H3.
  { unfold L. clear. generalize (seq 0 nbuf) as l, (length_seq nbuf 0). intros l <-.
    induction l as [|a l IH]; [done|]. rewrite !filter_cons. destruct (decide (a ∈ H)), (decide (a ∉ H)); cbn; try lia; done. }
  lia.
Qed.

(** ** bget *)

Lemma lookup_nxt i x : bufs k !! i = Some x -> nxt (bufs k) i = b_next x.
Proof. intros E. unfold nxt. by rewrite E. Qed.
Lemma lookup_prv i x : bufs k !! i = Some x -> prv (bufs k) i = b_prev x.
Proof. intros E. unfold prv. by rewrite E. Qed.

(** Giving up the cache lock and taking the buffer's. *)
Lemma bget_take b f (Hr : rest p t) (Hb : b ∉ H) (Hn : n <> 0%nat) :
  (modb b f ;; release LkBcache ;; acquiresleep (SLBuf b) ;; mret (@inr nat (option nat) (Some b))) n
    (MkK (t_acq LkBcache t) k) = Ret (inr (Some b)) (MkK (hold (SLBuf b) p t) (k <| bufs ::= alter f b |>)).
Proof.
  pose proof Hr as [Hc Hl _ _]. rewrite modb_bind, release_bind by (exact (ca_ok _ _ Hc) || by rewrite Hl).
  erewrite bind_ret; [done|]. apply acquiresleep_spec; [done|by rewrite Hl| |done].
  by rewrite (bc_slk HB), decide_False.
Qed.

Lemma bget_find_skip bno j (Hj : (j < nbuf)%nat) x :
  bufs k !! j = Some x -> ~ caches bno x ->
  bget_find ROOTDEV bno j n (MkK (t_acq LkBcache t) k) = Ret (inl (nxt (bufs k) j)) (MkK (t_acq LkBcache t) k).
Proof.
  intros Hx Hc. unfold bget_find. rewrite (proj2 (Nat.eqb_neq j nbuf)) by lia.
  rewrite (getb_bind _ _ _ _ _ _ Hx), (lookup_nxt j x Hx). unfold caches in Hc.
  destruct (Z.eqb_spec (b_dev x) ROOTDEV), (Z.eqb_spec (b_blockno x) bno); cbn [andb]; tauto.
Qed.

Lemma bget_recycle_skip bno j (Hj : (j < nbuf)%nat) x :
  bufs k !! j = Some x -> b_refcnt x <> 0 ->
  bget_recycle ROOTDEV bno j n (MkK (t_acq LkBcache t) k) = Ret (inl (prv (bufs k) j)) (MkK (t_acq LkBcache t) k).
Proof.
  intros Hx Hc. unfold bget_recycle. rewrite (proj2 (Nat.eqb_neq j nbuf)) by lia.
  rewrite (getb_bind _ _ _ _ _ _ Hx), (lookup_prv j x Hx). by rewrite (proj2 (Z.eqb_neq _ _) Hc).
Qed.

(** The result of [bget]: the buffer that caches the block, or else the least
    recently used one that is not in use. *)
Inductive got (bno : Z) (b : nat) : (buf -> buf) -> Prop :=
| got_hit x : bufs k !! b = Some x -> caches bno x ->
    got bno b (fun x => x <| b_refcnt := u32 (b_refcnt x + 1) |>)
| got_lru x l1 l2 : bufs k !! b = Some x -> order = l1 ++ b :: l2 -> b_refcnt x = 0 ->
    (forall j y, j ∈ l2 -> bufs k !! j = Some y -> b_refcnt y <> 0) ->
    (forall j y, (j < nbuf)%nat -> bufs k !! j = Some y -> ~ caches bno y) ->
    got bno b (fun x => x <| b_dev := ROOTDEV |> <| b_blockno := bno |> <| b_valid := 0 |> <| b_refcnt := 1 |>).

Lemma bget_find_spec bno :
  rest p t -> (nbuf < n)%nat -> not_held H bno k ->
  (exists b x, (b < nbuf)%nat /\ b ∉ H /\ bufs k !! b = Some x /\ caches bno x /\
     mloop (bget_find ROOTDEV bno) (nxt (bufs k) nbuf) n (MkK (t_acq LkBcache t) k) =
     Ret (Some b) (MkK (hold (SLBuf b) p t) (k <| bufs ::= alter (fun x => x <| b_refcnt := u32 (b_refcnt x + 1) |>) b |>))) \/
  ((forall j y, (j < nbuf)%nat -> bufs k !! j = Some y -> ~ caches bno y) /\
   mloop (bget_find ROOTDEV bno) (nxt (bufs k) nbuf) n (MkK (t_acq LkBcache t) k) = Ret None (MkK (t_acq LkBcache t) k)).
Proof.
  intros Hr Hn Hnh. pose proof (bc_ring HB) as Hring. unfold mloop.
  destruct (first_split (fun i => caches bno (default buf0 (bufs k !! i))) order) as [(l1 & b & l2 & E & Hb & Hl)|Hall].
  - left. assert (forall j, j ∈ l1 ++ b :: l2 -> (j < nbuf)%nat) as Hlt by (intros j; rewrite <- E; apply bc_order).
    destruct (bc_lookup b) as [x Hx]; [apply Hlt; set_solver|]. rewrite Hx in Hb. change (caches bno x) in Hb. exists b, x.
    assert (b ∉ H) as HbH. { intros Hin. apply (Hnh b x Hin Hx), Hb. }
    split_and!; [apply Hlt; set_solver|done|done|done|]. rewrite E in Hring. apply chain_app in Hring as [Hring _].
    eapply walk_list; [exact Hring| | |].
    + intros j Hj. destruct (bc_lookup j) as [y Hy]; [apply Hlt; set_solver|]. eapply bget_find_skip; [apply Hlt; set_solver|done|].
      specialize (Hl j Hj). by rewrite Hy in Hl.
    + unfold bget_find. rewrite (proj2 (Nat.eqb_neq b nbuf)) by (assert (b < nbuf)%nat by (apply Hlt; set_solver); lia).
      rewrite (getb_bind _ _ _ _ _ _ Hx). destruct Hb as [-> ->]. rewrite !Z.eqb_refl. cbn [andb].
      apply bget_take; [done|done|lia].
    + assert (length order = nbuf) as Ho by apply bc_order_len. rewrite E, length_app in Ho. cbn in Ho. lia.
  - right. assert (forall j y, (j < nbuf)%nat -> bufs k !! j = Some y -> ~ caches bno y) as Hno.
    { intros j y Hj Hy. specialize (Hall j). rewrite bc_order, Hy in Hall. by apply Hall. }
    split; [done|]. eapply walk_list; [exact Hring| | |rewrite bc_order_len; lia].
    + intros j Hj. rewrite bc_order in Hj. destruct (bc_lookup j Hj) as [y Hy]. eapply bget_find_skip; [done|done|]. by eapply Hno.
    + unfold bget_find. by rewrite Nat.eqb_refl.
Qed.

Lemma bget_recycle_spec bno :
  rest p t -> (nbuf < n)%nat -> (size H + size P < nbuf)%nat ->
  exists b x l1 l2, (b < nbuf)%nat /\ b ∉ H /\ bufs k !! b = Some x /\ order = l1 ++ b :: l2 /\ b_refcnt x = 0 /\
    (forall j y, j ∈ l2 -> bufs k !! j = Some y -> b_refcnt y <> 0) /\
    mloop (bget_recycle ROOTDEV bno) (prv (bufs k) nbuf) n (MkK (t_acq LkBcache t) k) =
    Ret (Some b) (MkK (hold (SLBuf b) p t)
      (k <| bufs ::= alter (fun x => x <| b_dev := ROOTDEV |> <| b_blockno := bno |> <| b_valid := 0 |> <| b_refcnt := 1 |>) b |>)).
Proof.
  intros Hr Hn Hs. pose proof (chain_rev _ _ _ _ _ (bc_ring HB)) as Hring. unfold mloop.
  destruct (first_split (fun i => b_refcnt (default buf0 (bufs k !! i)) = 0) (reverse order)) as [(l1 & b & l2 & E & Hb & Hl)|Hall].
  - assert (order = reverse l2 ++ b :: reverse l1) as E'.
    { rewrite <- (reverse_involutive order), E, reverse_app, reverse_cons, <- app_assoc. done. }
    assert (forall j, j ∈ l1 ++ b :: l2 -> (j < nbuf)%nat) as Hlt.
    { intros j. rewrite <- E, elem_of_reverse. apply bc_order. }
    destruct (bc_lookup b) as [x Hx]; [apply Hlt; set_solver|]. rewrite Hx in Hb. change (b_refcnt x = 0) in Hb.
    assert (b < nbuf)%nat as Hbn by (apply Hlt; set_solver).
    assert (b ∉ H) as HbH.
    { intros Hin. destruct (bc_buf HB b x Hbn Hx) as [_ _ _ Hrc _ _]. unfold cnt in Hrc.
      rewrite decide_True in Hrc by done. destruct (decide _) in Hrc; lia. }
    exists b, x, (reverse l2), (reverse l1). split_and!; [done|done|done|done|done| |].
    { intros j y Hj Hy. rewrite elem_of_reverse in Hj. specialize (Hl j Hj). by rewrite Hy in Hl. }
    rewrite E in Hring. apply chain_app in Hring as [Hring _].
    eapply walk_list; [exact Hring| | |].
    + intros j Hj. destruct (bc_lookup j) as [y Hy]; [apply Hlt; set_solver|]. eapply bget_recycle_skip; [apply Hlt; set_solver|done|].
      specialize (Hl j Hj). by rewrite Hy in Hl.
    + unfold bget_recycle. rewrite (proj2 (Nat.eqb_neq b nbuf)) by lia.
      rewrite (getb_bind _ _ _ _ _ _ Hx), Hb, Z.eqb_refl. apply bget_take; [done|done|lia].
    + assert (length (reverse order) = nbuf) as Ho by (rewrite length_reverse; apply bc_order_len).
      rewrite E, length_app in Ho. cbn in Ho. lia.
  - exfalso. destruct (unused_buffer Hs) as (i & x & Hi & Hx & Hz). apply (Hall i); [by rewrite elem_of_reverse, bc_order|].
    by rewrite Hx.
Qed.

Lemma bget_spec bno :
  rest p t -> (nbuf < n)%nat -> not_held H bno k -> bno ∈ P \/ (size H + size P < nbuf)%nat ->
  exists b f, (b < nbuf)%nat /\ b ∉ H /\ got bno b f /\
    bget ROOTDEV bno n (MkK t k) = Ret b (MkK (hold (SLBuf b) p t) (k <| bufs ::= alter f b |>)).
Proof.
  intros Hr Hn Hnh Hs. pose proof Hr as [Hc Hl _ _]. destruct bc_head as [h Hh].
  assert (forall {B} (f : buf -> KK B), (acquire LkBcache ;; h ← getb nbuf; f h) n (MkK t k) = f h n (MkK (t_acq LkBcache t) k)) as Hacq.
  { intros B f. rewrite acquire_bind by (by rewrite Hl). by rewrite (getb_bind _ _ _ _ _ _ Hh). }
  unfold bget. rewrite Hacq, <- (lookup_nxt nbuf h Hh).
  destruct (bget_find_spec bno Hr Hn Hnh) as [(b & x & H1 & H2 & H3 & H4 & H5)|[H1 H2]].
  - exists b. eexists. split_and!; [done|done|by eapply got_hit|]. by rewrite (bind_ret _ _ _ _ _ _ H5).
  - rewrite (bind_ret _ _ _ _ _ _ H2), (getb_bind _ _ _ _ _ _ Hh), <- (lookup_prv nbuf h Hh).
    destruct Hs as [(i & x & Hi & Hx & Cx)%(bc_pinned HB)|Hs]; [by destruct (H1 i x Hi Hx)|].
    destruct (bget_recycle_spec bno Hr Hn Hs) as (b & x & l1 & l2 & G1 & G2 & G3 & G4 & G5 & G6 & G7).
    exists b. eexists. split_and!; [done|done|by eapply got_lru|]. by rewrite (bind_ret _ _ _ _ _ _ G7).
Qed.

(** ** Changing one buffer *)

Lemma ptr_same (bs bs' : list buf) l a e :
  (forall i, nxt bs' i = nxt bs i) -> (forall i, prv bs' i = prv bs i) ->
  chain (nxt bs) (prv bs) a l e -> chain (nxt bs') (prv bs') a l e.
Proof. intros H1 H2. apply chain_ext; auto. Qed.

Lemma insert_ptr b x x' :
  bufs k !! b = Some x -> b_next x' = b_next x -> b_prev x' = b_prev x ->
  chain (nxt (<[b := x']> (bufs k))) (prv (<[b := x']> (bufs k))) nbuf order nbuf.
Proof.
  intros Hx H1 H2. pose proof (lookup_lt_Some _ _ _ Hx) as Hlt.
  apply (ptr_same (bufs k)); [| |apply (bc_ring HB)]; intros i; unfold nxt, prv;
    (destruct (decide (i = b)) as [->|]; [rewrite list_lookup_insert_eq by done; by rewrite Hx|by rewrite list_lookup_insert_ne]).
Qed.

Lemma hold_my_pid lk : my_pid p (hold lk p t) = my_pid p t.
Proof. by destruct t. Qed.
Lemma hold_slks lk : slks (hold lk p t) = <[lk := my_pid p t]> (slks t).
Proof. by destruct t. Qed.

(** The state once buffer [b] has been claimed for block [bno]. *)
Lemma bcache_claim b x x' k' bno d :
  (b < nbuf)%nat -> b ∉ H -> bufs k !! b = Some x ->
  (caches bno x \/ b_refcnt x = 0 /\ forall j y, (j < nbuf)%nat -> bufs k !! j = Some y -> ~ caches bno y) ->
  caches bno x' -> b_valid x' <> 0 -> b_data x' = d -> V !! bno = Some d -> b_disk x' = 0 ->
  b_refcnt x' = 1 + cnt (bno ∈ P) -> b_next x' = b_next x -> b_prev x' = b_prev x ->
  bufs k' = <[b := x']> (bufs k) -> dsk k' = dsk k -> disk_idle (vd k') ->
  bcache p ({[b]} ∪ H) P V order (hold (SLBuf b) p t) k'.
Proof.
  intros Hb HbH Hx Hwas Hc Hv Hd HV Hdisk Href Hnx Hpv Ebufs Edsk Hidle.
  pose proof (lookup_lt_Some _ _ _ Hx) as Hlt. destruct Hc as [Hc1 Hc2].
  assert (forall j y, (j < nbuf)%nat -> j <> b -> bufs k !! j = Some y -> ~ caches bno y) as Hother.
  { intros j y Hj Hne Hy Hcy. destruct Hwas as [Hwas|[_ Hwas]]; [|by eapply Hwas]. apply Hne.
    by eapply (bc_uniq HB j b y x bno). }
  split.
  - by rewrite Ebufs, length_insert, (bc_len HB).
  - apply (bc_perm HB).
  - rewrite Ebufs. by eapply insert_ptr.
  - done.
  - intros i y Hi. rewrite Ebufs. destruct (decide (i = b)) as [->|Hne].
    + rewrite list_lookup_insert_eq by done. intros [= <-]. split; try done; rewrite ?Hc2.
      * right. by rewrite HV.
      * intros _. by rewrite HV, Hd.
      * rewrite Href. unfold cnt at 2. rewrite decide_True by set_solver. f_equal. unfold cnt.
        destruct (decide (bno ∈ P)), (decide (b_dev x' = ROOTDEV /\ bno ∈ P)); tauto.
    + rewrite list_lookup_insert_ne by done. intros Hy. destruct (bc_buf HB i y Hi Hy) as [O1 O2 O3 O4 O5 O6].
      split; try done; [|intros Hin; apply O5; set_solver]. rewrite O4. f_equal. unfold cnt.
      destruct (decide (i ∈ H)), (decide (i ∈ {[b]} ∪ H)); set_solver.
  - intros i j y z bno' Hi Hj. rewrite Ebufs. intros Hy Hz Cy Cz.
    destruct (decide (i = b)) as [->|Hi'], (decide (j = b)) as [->|Hj']; [done| | |].
    + rewrite list_lookup_insert_eq in Hy by done. injection Hy as <-. rewrite list_lookup_insert_ne in Hz by done.
      destruct Cy as [_ Cy]. rewrite Hc2 in Cy. subst bno'. by destruct (Hother j z).
    + rewrite list_lookup_insert_eq in Hz by done. injection Hz as <-. rewrite list_lookup_insert_ne in Hy by done.
      destruct Cz as [_ Cz]. rewrite Hc2 in Cz. subst bno'. by destruct (Hother i y).
    + rewrite list_lookup_insert_ne in Hy, Hz by done. by eapply (bc_uniq HB i j y z bno').
  - intros bno' Hin. destruct (bc_pinned HB bno' Hin) as (i & y & Hi & Hy & Cy). rewrite Ebufs.
    destruct (decide (i = b)) as [->|Hne].
    + exists b, x'. rewrite list_lookup_insert_eq by done. split_and!; [done|done|]. rewrite Hx in Hy. injection Hy as <-.
      destruct Hwas as [[_ <-]|[Hz _]]; [destruct Cy as [_ <-]; by split|]. exfalso.
      destruct (bc_buf HB b x Hb Hx) as [_ _ _ Hr _ _]. destruct Cy as [Cy1 Cy2]. unfold cnt in Hr.
      rewrite (decide_True (P := b_dev x = ROOTDEV /\ _)) in Hr by (split; [done|by rewrite Cy2]). destruct (decide (b ∈ H)) in Hr; lia.
    + exists i, y. by rewrite list_lookup_insert_ne.
  - intros bno' Hin Hnh. rewrite Edsk. apply (bc_clean HB); [done|]. intros i y Hi Hy.
    apply (Hnh i); [set_solver|]. rewrite Ebufs, list_lookup_insert_ne; [done|]. by intros ->.
  - intros bno'. rewrite Edsk. apply (bc_dom HB).
  - apply (bc_rng HB).
  - intros i. rewrite hold_slks, hold_my_pid. destruct (decide (i = b)) as [->|Hne].
    + rewrite lookup_insert_eq, decide_True by set_solver. done.
    + rewrite lookup_insert_ne by congruence. rewrite (bc_slk HB).
      destruct (decide (i ∈ H)), (decide (i ∈ {[b]} ∪ H)); set_solver.
  - intros i [->%elem_of_singleton|Hi]%elem_of_union; [done|]. by apply (bc_H HB).
Qed.

(** A block that is not cached in a valid buffer is on disk. *)
Lemma uncached_clean bno b x :
  not_held H bno k -> bufs k !! b = Some x -> (b < nbuf)%nat -> b_valid x = 0 ->
  (caches bno x \/ forall j y, (j < nbuf)%nat -> bufs k !! j = Some y -> ~ caches bno y) ->
  V !! bno = dsk k !! bno.
Proof.
  intros Hnh Hx Hb Hv Hwas. apply (bc_clean HB); [|exact Hnh]. intros Hin.
  destruct (bc_pinned HB bno Hin) as (i & y & Hi & Hy & Cy). destruct Hwas as [Hwas|Hno]; [|by apply (Hno i y)].
  assert (i = b) as -> by (by eapply (bc_uniq HB i b y x bno)). rewrite Hx in Hy. injection Hy as <-.
  destruct (bc_buf HB b x Hb Hx) as [_ _ _ _ _ Hp]. destruct Cy as [C1 C2]. rewrite C2 in Hp. by apply Hp.
Qed.

Lemma ref_not_held b x : (b < nbuf)%nat -> b ∉ H -> bufs k !! b = Some x -> caches (b_blockno x) x ->
  b_refcnt x = cnt (b_blockno x ∈ P).
Proof.
  intros Hb HbH Hx [C1 _]. destruct (bc_buf HB b x Hb Hx) as [_ _ _ Hr _ _]. rewrite Hr. unfold cnt.
  rewrite (decide_False (P := b ∈ H)) by done.
  destruct (decide (b_blockno x ∈ P)), (decide (b_dev x = ROOTDEV /\ b_blockno x ∈ P)); tauto.
Qed.
(** What [bget] did to the buffer it returns. *)
Lemma got_facts bno b f d :
  not_held H bno k -> (b < nbuf)%nat -> b ∉ H -> V !! bno = Some d -> got bno b f ->
  exists x, bufs k !! b = Some x /\ caches bno (f x) /\ b_disk (f x) = 0 /\ b_refcnt (f x) = 1 + cnt (bno ∈ P) /\
    b_next (f x) = b_next x /\ b_prev (f x) = b_prev x /\
    (caches bno x \/ b_refcnt x = 0 /\ forall j y, (j < nbuf)%nat -> bufs k !! j = Some y -> ~ caches bno y) /\
    (b_valid (f x) = 0 -> V !! bno = dsk k !! bno) /\ (b_valid (f x) <> 0 -> b_data (f x) = d).
Proof.
  intros Hnh Hb HbH HV Hg.
  destruct Hg as [x Hx Hc|x l1 l2 Hx Ho Hz Hlru Hno]; exists x; pose proof (bc_buf HB b x Hb Hx) as [O1 O2 O3 O4 O5 O6].
  - destruct Hc as [C1 C2]. split_and!; try done; [| by left| |].
    + cbn [b_refcnt]. pose proof (ref_not_held b x Hb HbH Hx ltac:(by split)) as Hrc. rewrite C2 in Hrc. cbn. rewrite Hrc.
      unfold cnt. destruct (decide (bno ∈ P)); reflexivity.
    + cbn. intros Hv. eapply (uncached_clean bno b x); try done. by left.
    + cbn. intros Hv. rewrite C2 in O3. specialize (O3 Hv). congruence.
  - split_and!; try done; [|by right|].
    + cbn. assert (bno ∉ P) as Hnp.
      { intros Hin. destruct (bc_pinned HB bno Hin) as (i & y & Hi & Hy & Cy). by apply (Hno i y). }
      unfold cnt. rewrite decide_False by done. done.
    + intros _. destruct (decide (b_valid x = 0)) as [Hv|Hv].
      * eapply (uncached_clean bno b x); try done. by right.
      * apply (bc_clean HB); [|exact Hnh].
        intros Hin. destruct (bc_pinned HB bno Hin) as (i & y & Hi & Hy & Cy). by apply (Hno i y).
Qed.
End inv.

(** What a buffer obtained by [bread] is. *)
Definition reads (b : nat) (bno : Z) (d : list Z) (k : kern) : Prop :=
  exists x, bufs k !! b = Some x /\ caches bno x /\ b_data x = d.

Lemma bread_spec H P V order t k bno d :
  bcache p H P V order t k -> rest p t -> (nbuf < n)%nat -> not_held H bno k -> bno ∈ P \/ (size H + size P < nbuf)%nat ->
  V !! bno = Some d ->
  runs env (bread ROOTDEV bno n (MkK t k)) (fun b s =>
    b ∉ H /\ (b < nbuf)%nat /\ thr s = hold (SLBuf b) p t /\ bcache p ({[b]} ∪ H) P V order (thr s) (own s) /\
    reads b bno d (own s) /\ same_disk k (own s) /\ (forall i, i <> b -> bufs (own s) !! i = bufs k !! i) /\
    exists f, @got order k bno b f).
Proof.
  intros HB Hr Hn Hnh Hs HV. destruct (bget_spec HB bno Hr Hn Hnh Hs) as (b & f & Hb & HbH & Hg & E).
  unfold bread. rewrite (bind_ret _ _ _ _ _ _ E). clear E.
  destruct (got_facts HB bno b f d Hnh Hb HbH HV Hg) as (x & Hx & F1 & F2 & F3 & F4 & F5 & F6 & F7 & F8).
  assert (exists f, @got order k bno b f) as Hgot by (by exists f). clear Hg. set (k1 := k <| bufs ::= alter f b |>).
  assert (bufs k1 = <[b := f x]> (bufs k)) as Eb1 by (by apply alter_insert).
  assert (bufs k1 !! b = Some (f x)) as Hx1 by (rewrite Eb1; apply list_lookup_insert_eq; by eapply lookup_lt_Some).
  rewrite (getb_bind _ _ _ _ _ _ Hx1). destruct (Z.eqb_spec (b_valid (f x)) 0) as [Hv|Hv]; cbn [mwhen].
  - rewrite (F7 Hv) in HV. apply runs_bind, runs_bind. destruct F1 as [F1 F1'].
    eapply runs_mono; [|eapply (bd_rw n p _ k1 b false (f x) d)]; try done; [|rewrite nbuf_eq in Hn; lia|by apply rest_slks|apply (bc_idle HB)| |by rewrite F1'].
    2: { rewrite F1'. apply (bc_rng HB bno d). by rewrite (F7 Hv). }
    intros [] [t2 k2] (T2 & I2 & S2). cbn [thr own] in *. subst t2.
    set (x2 := (f x) <| b_data := d |> <| b_valid := 1 |>).
    set (k3 := k2 <| bufs ::= alter (fun x => x <| b_valid := 1 |>) b |>).
    apply (runs_ret _ _ _ _ tt (MkK (hold (SLBuf b) p t) k3)); [reflexivity|]. eapply runs_ret; [reflexivity|].
    assert (bufs k3 = <[b := x2]> (bufs k)) as Eb3.
    { change (bufs k3) with (alter (fun x => x <| b_valid := 1 |>) b (bufs k2)). rewrite (sd_bufs _ _ S2).
      change (bufs (transferred _ _ _ _ _)) with (alter (fun x => x <| b_data := d |>) b (bufs k1)).
      rewrite (alter_insert _ b (bufs k1) (f x)) by done.
      rewrite (alter_insert _ b _ ((f x) <| b_data := d |>)) by (apply list_lookup_insert_eq; by eapply lookup_lt_Some).
      by rewrite Eb1, !list_insert_insert_eq. }
    cbn [thr own]. split_and!; [done|done|done| | | | |done].
    + eapply (bcache_claim HB b x x2 k3 bno d); try done.
      * by rewrite (F7 Hv).
      * change (dsk k3) with (dsk k2). by rewrite (sd_dsk _ _ S2).
    + exists x2. rewrite Eb3. split_and!; [|by split|done]. apply list_lookup_insert_eq. by eapply lookup_lt_Some.
    + etransitivity; [apply (bufs_same k (alter f b))|]. etransitivity; [|apply bufs_same].
      etransitivity; [|apply (driver_same _ _ S2)]. apply bufs_same.
    + intros i Hi. rewrite Eb3. by apply list_lookup_insert_ne.
  - eapply runs_ret; [reflexivity|]. cbn [thr own]. split_and!; [done|done|done| | | | |done].
    + eapply (bcache_claim HB b x (f x) k1 bno d); try done; [by apply F8|apply (bc_idle HB)].
    + exists (f x). split_and!; [done|done|by apply F8].
    + apply bufs_same.
    + intros i Hi. by apply list_lookup_alter_ne.
Qed.
End bio.
