(* ===== verification/BioOps.v ===== *)
(** * Writing, releasing and pinning buffers

    The remaining operations of bio.c on the abstract cache of BioSpec.v, all
    derived from one lemma about a change of one held buffer, and the
    theorems about the buffer cache. *)

From Stdlib Require Import ZArith Lia.
From S2P Require Import Prelude Riscv KString Thread Proc Sleeplock Kalloc Kern Virtio VirtioSpec Lru Bio BioSpec.

(** A held buffer [b] of block [bno] changes to [x'] and with it what is held,
    pinned, logically stored and on disk at that one place. *)
Record change (p : nat) (b : nat) (bno : Z) (x x' : buf) (H H' : gset nat) (P P' : gset Z)
    (V V' : gmap Z (list Z)) (t' : T) (k k' : kern) : Prop := {
  ch_b : b ∈ H;
  ch_x : bufs k !! b = Some x;
  ch_bno : b_blockno x = bno;
  ch_bufs : bufs k' = <[b := x']> (bufs k);
  ch_dev : b_dev x' = b_dev x;
  ch_blk : b_blockno x' = b_blockno x;
  ch_disk : b_disk x' = 0;
  ch_valid : b_valid x' <> 0;
  ch_next : b_next x' = b_next x;
  ch_prev : b_prev x' = b_prev x;
  ch_V : forall c, c <> bno -> V' !! c = V !! c;
  ch_Vb : V' !! bno = Some (b_data x');
  ch_len : length (b_data x') = Z.to_nat BSIZE;
  ch_H : forall i, i <> b -> (i ∈ H' <-> i ∈ H);
  ch_P : forall c, c <> bno -> (c ∈ P' <-> c ∈ P);
  ch_ref : b_refcnt x' = cnt (b ∈ H') + cnt (bno ∈ P');
  ch_clean : bno ∉ P' -> b ∉ H' -> dsk k' !! bno = Some (b_data x');
  ch_dsk : forall c, c <> bno -> dsk k' !! c = dsk k !! c;
  ch_dskb : is_Some (dsk k' !! bno);
  ch_idle : disk_idle (vd k');
  ch_slk : forall i, slks t' !! SLBuf i = if decide (i ∈ H') then Some (my_pid p t') else None
}.

Arguments ch_b {_ _ _ _ _ _ _ _ _ _ _ _ _ _} _.
Arguments ch_x {_ _ _ _ _ _ _ _ _ _ _ _ _ _} _.
Arguments ch_bno {_ _ _ _ _ _ _ _ _ _ _ _ _ _} _.
Arguments ch_bufs {_ _ _ _ _ _ _ _ _ _ _ _ _ _} _.
Arguments ch_dev {_ _ _ _ _ _ _ _ _ _ _ _ _ _} _.
Arguments ch_blk {_ _ _ _ _ _ _ _ _ _ _ _ _ _} _.
Arguments ch_disk {_ _ _ _ _ _ _ _ _ _ _ _ _ _} _.
Arguments ch_valid {_ _ _ _ _ _ _ _ _ _ _ _ _ _} _.
Arguments ch_next {_ _ _ _ _ _ _ _ _ _ _ _ _ _} _.
Arguments ch_prev {_ _ _ _ _ _ _ _ _ _ _ _ _ _} _.
Arguments ch_V {_ _ _ _ _ _ _ _ _ _ _ _ _ _} _.
Arguments ch_Vb {_ _ _ _ _ _ _ _ _ _ _ _ _ _} _.
Arguments ch_len {_ _ _ _ _ _ _ _ _ _ _ _ _ _} _.
Arguments ch_H {_ _ _ _ _ _ _ _ _ _ _ _ _ _} _.
Arguments ch_P {_ _ _ _ _ _ _ _ _ _ _ _ _ _} _.
Arguments ch_ref {_ _ _ _ _ _ _ _ _ _ _ _ _ _} _.
Arguments ch_clean {_ _ _ _ _ _ _ _ _ _ _ _ _ _} _.
Arguments ch_dsk {_ _ _ _ _ _ _ _ _ _ _ _ _ _} _.
Arguments ch_dskb {_ _ _ _ _ _ _ _ _ _ _ _ _ _} _.
Arguments ch_idle {_ _ _ _ _ _ _ _ _ _ _ _ _ _} _.
Arguments ch_slk {_ _ _ _ _ _ _ _ _ _ _ _ _ _} _.

Section change.
Context {p b : nat} {bno : Z} {x x' : buf} {H H' : gset nat} {P P' : gset Z} {V V' : gmap Z (list Z)}.
Context {order : list nat} {t t' : T} {k k' : kern}.
Context (HB : bcache p H P V order t k) (HC : change p b bno x x' H H' P P' V V' t' k k').

Lemma change_lt : (b < nbuf)%nat.
Proof. apply (bc_H HB), HC. Qed.

Lemma change_ok : buf_ok H P V b x.
Proof. apply (bc_buf HB); [apply change_lt|apply HC]. Qed.

Lemma change_caches : caches bno x.
Proof. split; [apply (bo_held change_ok), HC|apply HC]. Qed.

(** The other buffers are of other blocks. *)
Lemma change_other i y : (i < nbuf)%nat -> i <> b -> bufs k !! i = Some y -> b_dev y = ROOTDEV -> b_blockno y <> bno.
Proof.
  intros Hi Hne Hy Hd E. apply Hne, (bc_uniq HB i b y x bno); try done; [apply change_lt|apply HC|apply change_caches].
Qed.

Lemma change_lookup i y :
  bufs k' !! i = Some y -> i = b /\ y = x' \/ i <> b /\ bufs k !! i = Some y.
Proof.
  rewrite (ch_bufs HC). destruct (decide (i = b)) as [->|Hne].
  - rewrite list_lookup_insert_eq by (eapply lookup_lt_Some, HC). intros [= <-]. by left.
  - rewrite list_lookup_insert_ne by done. by right.
Qed.

Lemma change_at : bufs k' !! b = Some x'.
Proof. rewrite (ch_bufs HC). apply list_lookup_insert_eq. eapply lookup_lt_Some, HC. Qed.
Lemma change_ne i : i <> b -> bufs k' !! i = bufs k !! i.
Proof. intros Hne. rewrite (ch_bufs HC). by apply list_lookup_insert_ne. Qed.

Lemma change_buf i y : (i < nbuf)%nat -> bufs k' !! i = Some y -> buf_ok H' P' V' i y.
Proof.
  intros Hi [[-> ->]|[Hne Hy]]%change_lookup; destruct HC.
  - destruct change_caches as [C1 C2]. split; try done; rewrite ?ch_dev0, ?ch_blk0, ?ch_bno0; try done.
    + right. by rewrite ch_Vb0.
    + rewrite ch_ref0. f_equal. unfold cnt. destruct (decide (bno ∈ P')), (decide (b_dev x = ROOTDEV /\ bno ∈ P')); tauto.
  - destruct (bc_buf HB i y Hi Hy) as [O1 O2 O3 O4 O5 O6].
    assert (b_dev y = ROOTDEV -> b_blockno y <> bno) as Hno by (by apply (change_other i)).
    assert (b_valid y <> 0 -> b_dev y = ROOTDEV) as Hvd by (intros Hv; destruct O2 as [[_ O2]|[O2 _]]; done).
    split; try done.
    + destruct O2 as [O2|[O2 O2']]; [by left|right]. rewrite ch_V0 by (by apply Hno). done.
    + intros Hv. rewrite ch_V0 by (by apply Hno, Hvd). by apply O3.
    + rewrite O4. specialize (ch_H0 i Hne). unfold cnt.
      destruct (decide (i ∈ H)), (decide (i ∈ H')); try tauto; f_equal;
      destruct (decide (b_dev y = ROOTDEV /\ b_blockno y ∈ P)) as [[D1 D2]|D], (decide (b_dev y = ROOTDEV /\ b_blockno y ∈ P')) as [[E1 E2]|E]; try done;
      exfalso; [apply E|apply D|apply E|apply D]; (split; [done|apply (ch_P0 (b_blockno y)); [by apply Hno|done]]).
    + intros Hin. apply O5. by apply (ch_H0 i Hne).
    + intros D1 D2. apply O6; [done|]. apply (ch_P0 (b_blockno y)); [by apply Hno|done].
Qed.

Lemma change_clean c :
  c ∉ P' -> (forall i y, i ∈ H' -> bufs k' !! i = Some y -> b_blockno y <> c) -> V' !! c = dsk k' !! c.
Proof.
  intros Hc Hnh. destruct (decide (c = bno)) as [->|Hne].
  - rewrite (ch_Vb HC). symmetry. apply (ch_clean HC); [done|].
    intros Hb. apply (Hnh b x' Hb change_at). rewrite (ch_blk HC). apply HC.
  - rewrite (ch_V HC), (ch_dsk HC) by done.
    apply (bc_clean HB).
    + intros Hin. apply Hc, (ch_P HC); done.
    + intros i y Hi Hy. destruct (decide (i = b)) as [->|Hib].
      * rewrite (ch_x HC) in Hy. injection Hy as <-. rewrite (ch_bno HC). done.
      * apply (Hnh i); [by apply (ch_H HC)|]. by rewrite change_ne.
Qed.

Lemma change_uniq i j y z c : (i < nbuf)%nat -> (j < nbuf)%nat ->
  bufs k' !! i = Some y -> bufs k' !! j = Some z -> caches c y -> caches c z -> i = j.
Proof.
  assert (caches c x' -> caches c x) as Hcx.
  { unfold caches. by rewrite (ch_dev HC), (ch_blk HC). }
  pose proof (ch_x HC) as Hx.
  intros Hi Hj [[-> ->]|[Hin Hy]]%change_lookup [[-> ->]|[Hjn Hz]]%change_lookup Cy Cz; [done|..].
  - eapply (bc_uniq HB b j x z c); auto.
  - eapply (bc_uniq HB i b y x c); auto.
  - eapply (bc_uniq HB i j y z c); auto.
Qed.

Lemma bcache_change : bcache p H' P' V' order t' k'.
Proof.
  pose proof change_lt as Hlt. split.
  - rewrite (ch_bufs HC), length_insert. apply (bc_len HB).
  - apply (bc_perm HB).
  - rewrite (ch_bufs HC). eapply (insert_ptr p HB); apply HC.
  - apply HC.
  - apply change_buf.
  - apply change_uniq.
  - intros c Hc. destruct (decide (c = bno)) as [->|Hne].
    + exists b, x'. split_and!; [done|apply change_at|]. destruct change_caches as [C1 C2].
      split; [rewrite (ch_dev HC)|rewrite (ch_blk HC)]; done.
    + destruct (bc_pinned HB c) as (i & y & Hi & Hy & Cy); [by apply (ch_P HC)|].
      exists i, y. split_and!; [done| |done]. rewrite change_ne; [done|]. intros ->.
      rewrite (ch_x HC) in Hy. injection Hy as <-. destruct Cy as [_ Cy].
      rewrite (ch_bno HC) in Cy. done.
  - apply change_clean.
  - intros c. destruct (decide (c = bno)) as [->|Hne].
    + rewrite (ch_Vb HC). split; [intros _; apply HC|done].
    + rewrite (ch_V HC), (ch_dsk HC) by done. apply (bc_dom HB).
  - intros c d Hd. destruct (decide (c = bno)) as [->|Hne].
    + rewrite (ch_Vb HC) in Hd. injection Hd as <-. split; [|apply HC].
      apply (bc_rng HB bno (b_data x)). rewrite <- (ch_bno HC).
      apply (bo_data change_ok). apply (bo_held change_ok), HC.
    + rewrite (ch_V HC) in Hd by done. by apply (bc_rng HB).
  - apply HC.
  - intros i Hi. destruct (decide (i = b)) as [->|Hne]; [done|]. apply (bc_H HB).
    by apply (ch_H HC).
Qed.
End change.

(** ** Moving a buffer to the front of the list *)

Definition set_next (i v : nat) (bs : list buf) : list buf := alter (fun y => y <| b_next := v |>) i bs.
Definition set_prev (i v : nat) (bs : list buf) : list buf := alter (fun y => y <| b_prev := v |>) i bs.

Definition bmoved (b : nat) (bs : list buf) : list buf :=
  let bs := set_prev (nxt bs b) (prv bs b) bs in
  let bs := set_next (prv bs b) (nxt bs b) bs in
  let bs := set_prev b nbuf (set_next b (nxt bs nbuf) bs) in
  set_next nbuf b (set_prev (nxt bs nbuf) b bs).

Lemma bmove_eq b n t k : bmove b n (MkK t k) = Ret tt (MkK t (k <| bufs ::= bmoved b |>)).
Proof. reflexivity. Qed.

Lemma nxt_set_next bs i v j : (i < length bs)%nat -> nxt (set_next i v bs) j = fupd (nxt bs) i v j.
Proof.
  intros Hi. unfold nxt, set_next, fupd. destruct (decide (j = i)) as [->|Hne].
  - rewrite list_lookup_alter_eq. by destruct (lookup_lt_is_Some_2 bs i Hi) as [x ->].
  - by rewrite list_lookup_alter_ne.
Qed.
Lemma prv_set_prev bs i v j : (i < length bs)%nat -> prv (set_prev i v bs) j = fupd (prv bs) i v j.
Proof.
  intros Hi. unfold prv, set_prev, fupd. destruct (decide (j = i)) as [->|Hne].
  - rewrite list_lookup_alter_eq. by destruct (lookup_lt_is_Some_2 bs i Hi) as [x ->].
  - by rewrite list_lookup_alter_ne.
Qed.
Lemma nxt_set_prev bs i v j : nxt (set_prev i v bs) j = nxt bs j.
Proof.
  unfold nxt, set_prev. destruct (decide (j = i)) as [->|Hne]; [|by rewrite list_lookup_alter_ne].
  rewrite list_lookup_alter_eq. by destruct (bs !! i).
Qed.
Lemma prv_set_next bs i v j : prv (set_next i v bs) j = prv bs j.
Proof.
  unfold prv, set_next. destruct (decide (j = i)) as [->|Hne]; [|by rewrite list_lookup_alter_ne].
  rewrite list_lookup_alter_eq. by destruct (bs !! i).
Qed.
Lemma set_next_length i v bs : length (set_next i v bs) = length bs.
Proof. apply length_alter. Qed.
Lemma set_prev_length i v bs : length (set_prev i v bs) = length bs.
Proof. apply length_alter. Qed.

(** Everything but the pointers. *)
Definition core (x : buf) : Z * Z * Z * Z * Z * list Z :=
  (b_valid x, b_disk x, b_dev x, b_blockno x, b_refcnt x, b_data x).

Lemma core_alter f i (bs : list buf) j :
  (forall x, core (f x) = core x) -> core <$> alter f i bs !! j = core <$> bs !! j.
Proof.
  intros Hf. destruct (decide (i = j)) as [<-|]; [|by rewrite list_lookup_alter_ne].
  rewrite list_lookup_alter_eq. destruct (bs !! i); cbn; [by rewrite Hf|done].
Qed.
Lemma core_bmoved b bs j : core <$> bmoved b bs !! j = core <$> bs !! j.
Proof. unfold bmoved, set_next, set_prev. by rewrite !core_alter. Qed.
Lemma bmoved_length b bs : length (bmoved b bs) = length bs.
Proof. unfold bmoved, set_next, set_prev. by rewrite !length_alter. Qed.

Lemma chain_fun_ext nx pv nx' pv' a l e :
  (forall i, nx' i = nx i) -> (forall i, pv' i = pv i) -> chain nx pv a l e -> chain nx' pv' a l e.
Proof. intros H1 H2. apply chain_ext; auto. Qed.

Lemma bmoved_chain b bs l1 l2 :
  length bs = S nbuf -> l1 ++ b :: l2 ≡ₚ seq 0 nbuf ->
  chain (nxt bs) (prv bs) nbuf (l1 ++ b :: l2) nbuf ->
  chain (nxt (bmoved b bs)) (prv (bmoved b bs)) nbuf (b :: l1 ++ l2) nbuf.
Proof.
  intros Hlen Hp Hc.
  assert (NoDup (l1 ++ b :: l2)) as Hnd by (rewrite Hp; apply NoDup_seq).
  assert (forall i, i ∈ l1 ++ b :: l2 -> (i < nbuf)%nat) as Hlt by (intros i; rewrite Hp, elem_of_seq; lia).
  assert (nbuf ∉ l1 ++ b :: l2) as Hnb by (intros Hi%Hlt; lia).
  assert (b < nbuf)%nat as Hb by (apply Hlt; set_solver).
  assert (b ∉ l1 ++ l2) as Hbl.
  { rewrite <- Permutation_middle in Hnd. by apply NoDup_cons in Hnd as [? _]. }
  assert (NoDup (l1 ++ l2)) as Hnd'.
  { rewrite <- Permutation_middle in Hnd. by apply NoDup_cons in Hnd as [_ ?]. }
  assert (forall i, nxt bs i = nbuf \/ nxt bs i ∈ l1 ++ b :: l2 -> (nxt bs i < length bs)%nat) as Hle.
  { intros i [->|Hi%Hlt]; lia. }
  pose proof (proj1 (chain_app _ _ _ _ _ _ _) Hc) as [Hc1 Hc2].
  assert (nxt bs b < length bs)%nat as Hnx.
  { apply Hle. rewrite (chain_first _ _ _ _ _ Hc2). destruct l2; cbn; set_solver. }
  assert (prv bs b < length bs)%nat as Hpv.
  { rewrite (chain_last _ _ _ _ _ Hc1). destruct l1 as [|c l1 _] using rev_ind; [cbn; lia|].
    rewrite reverse_snoc. cbn. assert (c < nbuf)%nat by (apply Hlt; set_solver). lia. }
  pose proof (chain_unlink _ _ _ _ _ _ _ Hnd Hnb Hnb Hc) as Hu.
  unfold bmoved. set (bs1 := set_prev (nxt bs b) (prv bs b) bs).
  set (bs2 := set_next (prv bs1 b) (nxt bs1 b) bs1).
  assert (prv bs1 b = prv bs b) as Ep.
  { unfold bs1. rewrite prv_set_prev by done. apply fupd_ne. rewrite (chain_first _ _ _ _ _ Hc2). destruct l2; cbn; [lia|].
    intros ->. set_solver. }
  assert (nxt bs1 b = nxt bs b) as En by (unfold bs1; by rewrite nxt_set_prev).
  assert (length bs2 = S nbuf) as Hlen2 by (unfold bs2, bs1; by rewrite set_next_length, set_prev_length).
  assert (chain (nxt bs2) (prv bs2) nbuf (l1 ++ l2) nbuf) as Hu2.
  { eapply chain_fun_ext; [| |exact Hu]; intros i; unfold bs2.
    - assert (length bs1 = length bs) as L1 by apply set_prev_length.
      rewrite nxt_set_next by (by rewrite Ep, L1). rewrite Ep, En. unfold fupd, bs1. by rewrite nxt_set_prev.
    - rewrite prv_set_next. unfold bs1. by rewrite prv_set_prev. }
  pose proof (chain_push _ _ nbuf b _ Hbl ltac:(set_solver) ltac:(lia) Hnd' Hu2) as Hpush.
  set (bs3 := set_prev b nbuf (set_next b (nxt bs2 nbuf) bs2)).
  assert (length bs3 = S nbuf) as Hlen3 by (unfold bs3; by rewrite set_prev_length, set_next_length).
  assert (nxt bs3 nbuf = nxt bs2 nbuf) as E3.
  { unfold bs3. rewrite nxt_set_prev, nxt_set_next by lia. apply fupd_ne. lia. }
  assert (nxt bs2 nbuf < S nbuf)%nat as H2.
  { rewrite (chain_first _ _ _ _ _ Hu2). destruct (l1 ++ l2) as [|c l] eqn:El; cbn; [lia|].
    assert (c < nbuf)%nat; [|lia]. apply Hlt. assert (c ∈ l1 ++ l2) by (rewrite El; left). set_solver. }
  eapply chain_fun_ext; [| |exact Hpush]; intros i.
  - rewrite nxt_set_next by (rewrite set_prev_length; lia). unfold fupd at 1 2. rewrite nxt_set_prev. unfold bs3.
    rewrite nxt_set_prev, nxt_set_next by lia. done.
  - rewrite prv_set_next, prv_set_prev by (rewrite E3, Hlen3; lia). rewrite E3. unfold fupd at 1 3. unfold bs3.
    rewrite prv_set_prev by (rewrite set_next_length; lia). unfold fupd. by rewrite prv_set_next.
Qed.

(** ** The operations *)

(** A state that differs in the list order only. *)
Lemma bcache_core p H P V order order' t k k' :
  bcache p H P V order t k -> length (bufs k') = length (bufs k) ->
  (forall i, core <$> bufs k' !! i = core <$> bufs k !! i) ->
  chain (nxt (bufs k')) (prv (bufs k')) nbuf order' nbuf -> order' ≡ₚ order ->
  vd k' = vd k -> dsk k' = dsk k -> bcache p H P V order' t k'.
Proof.
  intros HB Hlen Hcore Hch Hp Hvd Hdsk.
  assert (forall i y, bufs k' !! i = Some y -> exists x, bufs k !! i = Some x /\ core y = core x) as Hback.
  { intros i y Hy. specialize (Hcore i). rewrite Hy in Hcore. destruct (bufs k !! i) as [x|]; [|done].
    exists x. split; [done|]. by apply (inj Some). }
  assert (forall i x, bufs k !! i = Some x -> exists y, bufs k' !! i = Some y /\ core y = core x) as Hforth.
  { intros i x Hx. specialize (Hcore i). rewrite Hx in Hcore. destruct (bufs k' !! i) as [y|]; [|done].
    exists y. split; [done|]. by apply (inj Some). }
  assert (forall x y c, core y = core x -> caches c y <-> caches c x) as Hcc.
  { intros x y c [= _ _ E1 E2 _ _]. unfold caches. by rewrite E1, E2. }
  split; try (by destruct HB); rewrite ?Hvd, ?Hdsk; try apply HB.
  - by rewrite Hlen, (bc_len HB).
  - by rewrite Hp, (bc_perm HB).
  - intros i y Hi (x & Hx & E)%Hback. destruct (bc_buf HB i x Hi Hx). injection E as E1 E2 E3 E4 E5 E6.
    split; rewrite ?E1, ?E2, ?E3, ?E4, ?E5, ?E6; done.
  - intros i j y z c Hi Hj (x & Hx & E)%Hback (w & Hw & F)%Hback Cy Cz.
    apply (bc_uniq HB i j x w c); try done; by eapply Hcc.
  - intros c Hc. destruct (bc_pinned HB c Hc) as (i & x & Hi & Hx & Cx). destruct (Hforth i x Hx) as (y & Hy & E).
    exists i, y. split_and!; [done|done|by eapply Hcc].
  - intros c Hc Hnh. apply (bc_clean HB); [done|]. intros i x Hi Hx. destruct (Hforth i x Hx) as (y & Hy & E).
    injection E as _ _ _ E _ _. rewrite <- E. by apply (Hnh i).
Qed.

Lemma reads_core b bno d k k' :
  core <$> bufs k' !! b = core <$> bufs k !! b -> reads b bno d k -> reads b bno d k'.
Proof.
  intros E (x & Hx & [C1 C2] & Hd). rewrite Hx in E. destruct (bufs k' !! b) as [y|] eqn:Hy; [|done].
  injection E as E1 E2 E3 E4 E5 E6. exists y. split_and!; [done|split; congruence|congruence].
Qed.

Lemma filter_without (i : nat) (l : list nat) : i ∉ l -> filter (fun j => j <> i) l = l.
Proof.
  induction l as [|j l IH]; [done|]. intros [Hj Hl]%not_elem_of_cons. rewrite filter_cons_True by done. by rewrite IH.
Qed.

(** After [brelse] the buffer is no longer held; when nobody else refers to
    it, it becomes the most recently used one. *)
Definition to_front (b : nat) (order : list nat) : list nat := b :: filter (fun i => i <> b) order.

(** Changing the reference count of a buffer under the cache lock. *)
Lemma bref_step n p b g (t : T) k :
  calm p t -> lks t !! LkBcache = None ->
  (acquire LkBcache ;; modb b (fun x => x <| b_refcnt := u32 (b_refcnt x + g) |>) ;; release LkBcache) n (MkK t k) =
  Ret tt (MkK t (k <| bufs ::= alter (fun x => x <| b_refcnt := u32 (b_refcnt x + g) |>) b |>)).
Proof.
  intros Hc Hl. rewrite acquire_bind, modb_bind by done. apply release_spec; [exact (ca_ok _ _ Hc)|done].
Qed.

Section ops.
Context (n p : nat) {H : gset nat} {P : gset Z} {V : gmap Z (list Z)} {order : list nat} {t : T} {k : kern}.
Context (HB : bcache p H P V order t k) (Hr : rest p t).

Section held.
Context {b : nat} {bno : Z} {d : list Z} (Hb : b ∈ H) (Hrd : reads b bno d k).

Lemma held_facts : exists x, bufs k !! b = Some x /\ caches bno x /\ b_data x = d /\ b_valid x <> 0 /\ b_disk x = 0 /\
  V !! bno = Some d /\ b_refcnt x = 1 + cnt (bno ∈ P) /\ (b < nbuf)%nat /\ is_Some (dsk k !! bno) /\
  0 <= bno < 2 ^ 31 /\ length d = Z.to_nat BSIZE.
Proof.
  destruct Hrd as (x & Hx & [C1 C2] & Hd). exists x. pose proof (bc_H HB b Hb) as Hlt.
  destruct (bc_buf HB b x Hlt Hx) as [O1 O2 O3 O4 O5 O6]. destruct (O5 Hb) as [_ Hv]. specialize (O3 Hv).
  rewrite C2, Hd in O3. destruct (bc_rng HB _ _ O3) as [R1 R2].
  split_and!; try done; [|apply (bc_dom HB); by rewrite O3|lia|lia].
  rewrite O4, C2. unfold cnt. rewrite (decide_True (P := b ∈ H)) by done. f_equal.
  destruct (decide (bno ∈ P)), (decide (b_dev x = ROOTDEV /\ bno ∈ P)); tauto.
Qed.

(** Changing the data of a held buffer. *)
Lemma set_data_ok d' k' :
  length d' = Z.to_nat BSIZE -> bufs k' = alter (fun x => x <| b_data := d' |>) b (bufs k) ->
  vd k' = vd k -> dsk k' = dsk k ->
  bcache p H P (<[bno := d']> V) order t k' /\ reads b bno d' k'.
Proof.
  intros Hlen Ebufs Hvd Hdsk. destruct held_facts as (x & Hx & [C1 C2] & Hd & Hv & Hdk & HV & Href & Hlt & Hds & Hrng & _).
  rewrite (alter_insert _ _ _ _ Hx) in Ebufs.
  split; [|exists (x <| b_data := d' |>); split_and!; [|by split|done]; rewrite Ebufs; apply list_lookup_insert_eq; by eapply lookup_lt_Some].
  eapply (bcache_change HB (x := x) (x' := x <| b_data := d' |>) (b := b) (bno := bno)). split; try done.
  - intros c Hc. by rewrite lookup_insert_ne.
  - by rewrite lookup_insert_eq.
  - transitivity (b_refcnt x); [done|]. rewrite Href. f_equal. unfold cnt. by rewrite decide_True.
  - by rewrite Hdsk.
  - by rewrite Hdsk.
  - rewrite Hvd. apply (bc_idle HB).
  - apply (bc_slk HB).
Qed.

Lemma bwrite_spec env (BD : BlockDev env) :
  (4 < n)%nat ->
  runs env (bwrite b n (MkK t k)) (fun _ s =>
    thr s = t /\ bcache p H P V order t (own s) /\ reads b bno d (own s) /\ bufs (own s) = bufs k /\
    same_fs k (own s) /\ lg (own s) = lg k /\ dsk (own s) = <[bno := d]> (dsk k) /\ dtr (own s) = dtr k ++ [(bno, d)]).
Proof.
  intros Hn. destruct held_facts as (x & Hx & [C1 C2] & Hd & Hv & Hdk & HV & Href & Hlt & [d0 Hds] & Hrng & Hlen).
  pose proof Hr as [Hc Hl _ _]. unfold bwrite.
  rewrite (bind_ret _ _ _ _ _ _ (holdingsleep_spec p (SLBuf b) n t k Hc ltac:(by rewrite Hl))).
  rewrite (bc_slk HB), decide_True, Z.eqb_refl by done. cbn [negb].
  eapply runs_mono; [|eapply (bd_rw n p t k b true x d0)]; try done; [|apply (bc_idle HB)|by rewrite C2|by rewrite C2].
  intros [] [t2 k2] (T2 & I2 & S2). cbn [thr own] in *. subst t2. rewrite C2, Hd in S2.
  assert (bufs k2 = bufs k) as Ebufs by apply (sd_bufs _ _ S2).
  assert (dsk k2 = <[bno := d]> (dsk k)) as Edsk by apply (sd_dsk _ _ S2).
  split_and!; [done| |by exists x; rewrite Ebufs|done|by destruct S2|apply (sd_lg _ _ S2)|done|apply (sd_dtr _ _ S2)].
  eapply (bcache_change HB (x := x) (x' := x) (b := b) (bno := bno)). split; try done.
  - rewrite Ebufs. symmetry. by apply list_insert_id.
  - by rewrite HV, Hd.
  - by rewrite Hd.
  - rewrite Href. f_equal. unfold cnt. by rewrite decide_True.
  - intros c Hcb. by rewrite Edsk, lookup_insert_ne.
  - rewrite Edsk, lookup_insert_eq. done.
  - apply (bc_slk HB).
Qed.

Lemma bref_change g P' :
  0 <= g + 1 + cnt (bno ∈ P) <= 10 -> g + cnt (bno ∈ P) = cnt (bno ∈ P') -> (forall c, c <> bno -> (c ∈ P' <-> c ∈ P)) ->
  let k' := k <| bufs ::= alter (fun x => x <| b_refcnt := u32 (b_refcnt x + g) |>) b |> in
  bcache p H P' V order t k' /\ reads b bno d k'.
Proof.
  intros Hg Hcnt HP k'. destruct held_facts as (x & Hx & [C1 C2] & Hd & Hv & Hdk & HV & Href & Hlt & Hds & Hrng & Hlen).
  set (x' := x <| b_refcnt := u32 (b_refcnt x + g) |>).
  assert (bufs k' = <[b := x']> (bufs k)) as Ebufs by exact (alter_insert _ _ _ _ Hx).
  split; [|exists x'; split_and!; [|by split|done]; rewrite Ebufs; apply list_lookup_insert_eq; by eapply lookup_lt_Some].
  eapply (bcache_change HB (x := x) (x' := x') (b := b) (bno := bno)). split; try done.
  - by rewrite HV, <- Hd.
  - by rewrite <- Hd in Hlen.
  - cbn [x' b_refcnt]. change (b_refcnt x') with (u32 (b_refcnt x + g)). rewrite Href, u32_small by lia.
    unfold cnt at 2. rewrite decide_True by done. lia.
  - apply (bc_idle HB).
  - apply (bc_slk HB).
Qed.

Lemma bpin_spec t' :
  calm p t' -> lks t' !! LkBcache = None -> bno ∉ P -> exists k', bpin b n (MkK t' k) = Ret tt (MkK t' k') /\ same_disk k k' /\
    bcache p H ({[bno]} ∪ P) V order t k' /\ reads b bno d k' /\ forall i, i <> b -> bufs k' !! i = bufs k !! i.
Proof.
  clear Hr. intros Hc Hl Hp. eexists. split; [exact (bref_step n p b 1 t' k Hc Hl)|]. split; [apply bufs_same|].
  destruct (bref_change 1 ({[bno]} ∪ P)) as [R1 R2]; [unfold cnt; rewrite decide_False by done; lia| |set_solver|].
  - unfold cnt. rewrite decide_False, decide_True by set_solver. done.
  - split_and!; [done|done|]. intros i Hi. by apply list_lookup_alter_ne.
Qed.

Lemma bunpin_spec :
  bno ∈ P -> exists k', bunpin b n (MkK t k) = Ret tt (MkK t k') /\ same_disk k k' /\
    bcache p H (P ∖ {[bno]}) V order t k' /\ reads b bno d k' /\ forall i, i <> b -> bufs k' !! i = bufs k !! i.
Proof.
  intros Hp. pose proof Hr as [Hc Hl _ _]. eexists. split; [exact (bref_step n p b (-1) t k Hc ltac:(by rewrite Hl))|]. split; [apply bufs_same|].
  destruct (bref_change (-1) (P ∖ {[bno]})) as [R1 R2]; [unfold cnt; rewrite decide_True by done; lia| |set_solver|].
  - unfold cnt. rewrite decide_True, decide_False by set_solver. done.
  - split_and!; [done|done|]. intros i Hi. by apply list_lookup_alter_ne.
Qed.

Lemma brelse_run x :
  bufs k !! b = Some x ->
  let k1 := k <| bufs := <[b := x <| b_refcnt := u32 (b_refcnt x - 1) |>]> (bufs k) |> in
  brelse b n (MkK t k) =
  Ret tt (MkK (drop_sl (SLBuf b) t) (if u32 (b_refcnt x - 1) =? 0 then k1 <| bufs ::= bmoved b |> else k1)).
Proof.
  intros Hx k1. pose proof Hr as [Hc Hl _ _]. unfold brelse.
  rewrite (bind_ret _ _ _ _ _ _ (holdingsleep_spec p (SLBuf b) n t k Hc ltac:(by rewrite Hl))).
  rewrite (bc_slk HB), decide_True, Z.eqb_refl by done. cbn [negb].
  rewrite (bind_ret _ _ _ _ _ _ (releasesleep_spec p (SLBuf b) n t k Hc ltac:(by rewrite Hl))).
  assert (rest p (drop_sl (SLBuf b) t)) as Hr2 by (by apply rest_slks). set (t2 := drop_sl (SLBuf b) t) in *.
  pose proof Hr2 as [Hc2 Hl2 _ _].
  rewrite acquire_bind, modb_bind by (by rewrite Hl2).
  assert (k <| bufs ::= alter (fun x => x <| b_refcnt := u32 (b_refcnt x - 1) |>) b |> = k1) as ->.
  { unfold k1, upd. f_equal. exact (alter_insert _ _ _ _ Hx). }
  assert (bufs k1 !! b = Some (x <| b_refcnt := u32 (b_refcnt x - 1) |>)) as Hx1
    by (apply list_lookup_insert_eq; by eapply lookup_lt_Some).
  rewrite (getb_bind _ _ _ _ _ _ Hx1). change (b_refcnt (x <| b_refcnt := u32 (b_refcnt x - 1) |>)) with (u32 (b_refcnt x - 1)).
  destruct (u32 (b_refcnt x - 1) =? 0); cbn [mwhen].
  - rewrite (bind_ret _ _ _ _ _ _ (bmove_eq b n _ k1)). apply release_spec; [exact (ca_ok _ _ Hc2)|by rewrite Hl2].
  - rewrite ret_bind. apply release_spec; [exact (ca_ok _ _ Hc2)|by rewrite Hl2].
Qed.

Lemma drop_slks (H0 : gset nat) i :
  (forall i, slks t !! SLBuf i = if decide (i ∈ H0) then Some (my_pid p t) else None) ->
  slks (drop_sl (SLBuf b) t) !! SLBuf i = if decide (i ∈ H0 ∖ {[b]}) then Some (my_pid p (drop_sl (SLBuf b) t)) else None.
Proof.
  intros Hs. change (slks (drop_sl (SLBuf b) t)) with (delete (SLBuf b) (slks t)).
  change (my_pid p (drop_sl (SLBuf b) t)) with (my_pid p t).
  destruct (decide (i = b)) as [->|Hne].
  - by rewrite lookup_delete_eq, decide_False by set_solver.
  - rewrite lookup_delete_ne, Hs by congruence. destruct (decide (i ∈ H0)), (decide (i ∈ H0 ∖ {[b]})); set_solver.
Qed.

Lemma brelse_spec :
  bno ∈ P \/ dsk k !! bno = Some d ->
  exists k', brelse b n (MkK t k) = Ret tt (MkK (drop_sl (SLBuf b) t) k') /\ same_disk k k' /\
    bcache p (H ∖ {[b]}) P V (if decide (bno ∈ P) then order else to_front b order) (drop_sl (SLBuf b) t) k' /\
    forall i, i <> b -> core <$> bufs k' !! i = core <$> bufs k !! i.
Proof.
  intros Hcl. destruct held_facts as (x & Hx & [C1 C2] & Hd & Hv & Hdk & HV & Href & Hlt & Hds & Hrng & Hlen).
  eexists. split; [exact (brelse_run x Hx)|]. set (x' := x <| b_refcnt := u32 (b_refcnt x - 1) |>).
  set (k1 := k <| bufs := <[b := x']> (bufs k) |>).
  assert (u32 (b_refcnt x - 1) = cnt (bno ∈ P)) as Eref.
  { rewrite Href, u32_small; [lia|]. unfold cnt. destruct (decide _); lia. }
  assert (bcache p (H ∖ {[b]}) P V order (drop_sl (SLBuf b) t) k1) as HB1.
  { eapply (bcache_change HB (x := x) (x' := x') (b := b) (bno := bno)). split; try done.
    - by rewrite HV, <- Hd.
    - by rewrite <- Hd in Hlen.
    - set_solver.
    - change (b_refcnt x') with (u32 (b_refcnt x - 1)). rewrite Eref. unfold cnt at 2. by rewrite decide_False by set_solver.
    - intros Hnp _. destruct Hcl as [Hp|Hp]; [done|]. change (dsk k !! bno = Some (b_data x)). by rewrite Hp, Hd.
    - apply (bc_idle HB).
    - intros i. apply drop_slks, (bc_slk HB). }
  assert (forall i, i <> b -> bufs k1 !! i = bufs k !! i) as Hne by (intros i Hi; by apply list_lookup_insert_ne).
  rewrite Eref. unfold cnt. destruct (decide (bno ∈ P)) as [Hp|Hp]; cbn [Z.eqb].
  - split_and!; [apply bufs_same|done|]. intros i Hi. by rewrite Hne.
  - split_and!; [exact (bufs_same k (fun _ => bmoved b (<[b:=x']> (bufs k))))| |intros i Hi; rewrite <- (Hne i Hi); apply core_bmoved].
    destruct (list_elem_of_split order b) as (l1 & l2 & ->); [rewrite (bc_perm HB); apply elem_of_seq; lia|].
    assert (to_front b (l1 ++ b :: l2) = b :: l1 ++ l2) as ->.
    { assert (b ∉ l1 ++ l2) as Hn.
      { assert (NoDup (l1 ++ b :: l2)) as Hnd by (rewrite (bc_perm HB); apply NoDup_seq).
        rewrite <- Permutation_middle in Hnd. by apply NoDup_cons in Hnd as [? _]. }
      unfold to_front. rewrite filter_app, filter_cons_False by tauto.
      by rewrite !filter_without by set_solver. }
    eapply (bcache_core _ _ _ _ _ _ _ k1); [exact HB1|apply bmoved_length|intros i; apply core_bmoved| | |done|done].
    + apply bmoved_chain; apply HB1.
    + apply Permutation_middle.
Qed.
End held.
End ops.

(** ** The cache as its clients see it

    The list order is hidden; a buffer the process holds shows a block
    ([reads]), and an operation on one buffer keeps what the others show. *)

Definition cached (p : nat) (H : gset nat) (P : gset Z) (V : gmap Z (list Z)) (t : T) (k : kern) : Prop :=
  exists order, bcache p H P V order t k.

Definition keep (b : nat) (k k' : kern) : Prop :=
  forall c bno d, c <> b -> reads c bno d k -> reads c bno d k'.

Lemma core_keep b k k' : (forall i, i <> b -> core <$> bufs k' !! i = core <$> bufs k !! i) -> keep b k k'.
Proof. intros Hi c bno d Hc. apply reads_core. by apply Hi. Qed.

Lemma lookup_keep b k k' : (forall i, i <> b -> bufs k' !! i = bufs k !! i) -> keep b k k'.
Proof. intros Hi. apply core_keep. intros i Hne. by rewrite Hi. Qed.

Lemma keep_trans b k1 k2 k3 : keep b k1 k2 -> keep b k2 k3 -> keep b k1 k3.
Proof. intros H1 H2 c bno d Hc Hrd. by apply H2, H1. Qed.

Lemma reads_not_held H bno k :
  (forall c, c ∈ H -> exists bno' d, reads c bno' d k /\ bno' <> bno) -> not_held H bno k.
Proof.
  intros Hc i x Hi Hx E. destruct (Hc i Hi) as (bno' & d & (y & Hy & [_ C] & _) & Hne).
  rewrite Hx in Hy. injection Hy as <-. congruence.
Qed.

Lemma held_first (b : nat) (H : gset nat) : b ∈ {[b]} ∪ H.
Proof. set_solver. Qed.
Lemma unheld (b : nat) (H : gset nat) : b ∉ H -> ({[b]} ∪ H) ∖ {[b]} = H.
Proof. set_solver. Qed.

Lemma drop_hold_ne (b c : slock) p t : b <> c -> drop_sl b (hold c p t) = hold c p (drop_sl b t).
Proof. intros Hne. destruct t. unfold drop_sl, hold, upd. cbn. f_equal. by apply delete_insert_ne. Qed.

Section client.
Context (env : kst kern -> option (kst kern)) {BD : BlockDev env}.
Context (n p : nat) (Hn : (nbuf < n)%nat).

Lemma bread_runs {H P V t k} bno d :
  cached p H P V t k -> rest p t -> not_held H bno k -> bno ∈ P \/ (size H + size P < nbuf)%nat -> V !! bno = Some d ->
  runs env (bread ROOTDEV bno n (MkK t k)) (fun b s => exists k',
    s = MkK (hold (SLBuf b) p t) k' /\ b ∉ H /\ cached p ({[b]} ∪ H) P V (hold (SLBuf b) p t) k' /\
    reads b bno d k' /\ same_disk k k' /\ keep b k k').
Proof.
  intros [order HB] Hr Hnh Hs HV. eapply runs_mono; [|by eapply bread_spec].
  intros b [t' k'] (Hb & Hlt & Ht & HB' & Hrd & Hsd & Hk & _). cbn [thr own] in *. subst t'. exists k'.
  split_and!; [done|done|by exists order|done|done|by apply lookup_keep].
Qed.

Lemma bwrite_runs {H P V t k} b bno d :
  cached p H P V t k -> rest p t -> b ∈ H -> reads b bno d k ->
  runs env (bwrite b n (MkK t k)) (fun _ s => exists k',
    s = MkK t k' /\ cached p H P V t k' /\ bufs k' = bufs k /\ same_fs k k' /\ lg k' = lg k /\
    dsk k' = <[bno := d]> (dsk k) /\ dtr k' = dtr k ++ [(bno, d)]).
Proof.
  intros [order HB] Hr Hb Hrd. eapply runs_mono; [|by eapply (bwrite_spec n p HB); [..|rewrite nbuf_eq in Hn; lia]].
  intros [] [t' k'] (Ht & HB' & Hrd' & Hbufs & Hfs & Hlg & Hdsk & Hdtr). cbn [thr own] in *. subst t'. exists k'.
  split_and!; try done. by exists order.
Qed.

Lemma brelse_runs {H P V t k} b bno d :
  cached p H P V t k -> rest p t -> b ∈ H -> reads b bno d k -> bno ∈ P \/ dsk k !! bno = Some d ->
  runs env (brelse b n (MkK t k)) (fun _ s => exists k',
    s = MkK (drop_sl (SLBuf b) t) k' /\ cached p (H ∖ {[b]}) P V (drop_sl (SLBuf b) t) k' /\ same_disk k k' /\ keep b k k').
Proof.
  intros [order HB] Hr Hb Hrd Hcl. destruct (brelse_spec n p HB Hr Hb Hrd Hcl) as (k' & E & Hsd & HB' & Hk).
  eapply runs_ret; [exact E|]. exists k'. split_and!; [done|by eexists|done|by apply core_keep].
Qed.

Lemma bpin_runs {H P V t k} t' b bno d :
  cached p H P V t k -> calm p t' -> lks t' !! LkBcache = None -> b ∈ H -> reads b bno d k -> bno ∉ P ->
  exists k', bpin b n (MkK t' k) = Ret tt (MkK t' k') /\ cached p H ({[bno]} ∪ P) V t k' /\ reads b bno d k' /\
    same_disk k k' /\ keep b k k'.
Proof.
  intros [order HB] Hc Hl Hb Hrd Hp. destruct (bpin_spec n p HB Hb Hrd t' Hc Hl Hp) as (k' & E & Hsd & HB' & Hrd' & Hk).
  exists k'. split_and!; [done|by eexists|done|done|by apply lookup_keep].
Qed.

Lemma bunpin_runs {H P V t k} b bno d :
  cached p H P V t k -> rest p t -> b ∈ H -> reads b bno d k -> bno ∈ P ->
  exists k', bunpin b n (MkK t k) = Ret tt (MkK t k') /\ cached p H (P ∖ {[bno]}) V t k' /\ reads b bno d k' /\
    same_disk k k' /\ keep b k k'.
Proof.
  intros [order HB] Hr Hb Hrd Hp. destruct (bunpin_spec n p HB Hr Hb Hrd Hp) as (k' & E & Hsd & HB' & Hrd' & Hk).
  exists k'. split_and!; [done|by eexists|done|done|by apply lookup_keep].
Qed.

(** A C assignment to the data of a held buffer. *)
Lemma set_data_runs {H P V t k} b bno d d' :
  cached p H P V t k -> b ∈ H -> reads b bno d k -> length d' = Z.to_nat BSIZE ->
  let k' := k <| bufs ::= alter (fun x => x <| b_data := d' |>) b |> in
  cached p H P (<[bno := d']> V) t k' /\ reads b bno d' k' /\ same_disk k k' /\ keep b k k'.
Proof.
  intros [order HB] Hb Hrd Hlen k'. destruct (set_data_ok p HB Hb Hrd d' k' Hlen eq_refl eq_refl eq_refl) as [HB' Hrd'].
  split_and!; [by exists order|done|apply bufs_same|]. apply lookup_keep. intros i Hi. by apply list_lookup_alter_ne.
Qed.
End client.

(** ** [binit] *)

(** The disk: block numbers are in range and blocks have their size. *)
Definition disk_wf (D : gmap Z (list Z)) : Prop := forall b d, D !! b = Some d -> 0 <= b < 2 ^ 31 /\ length d = Z.to_nat BSIZE.

(** The buffers linked in a ring, last one first. *)
Definition binit_bufs : list buf :=
  (fun i => buf0 <| b_next := match i with O => nbuf | S j => j end |> <| b_prev := if decide (i = nbuf) then 0%nat else S i |>) <$> seq 0 (S nbuf).

Lemma binit_run n t k :
  lks t = ∅ -> slks t = ∅ -> bufs k = replicate (S nbuf) buf0 ->
  binit n (MkK t k) = Ret tt (MkK t (k <| bufs := binit_bufs |>)).
Proof. intros H1 H2 H3. destruct t, k. cbn in *. subst. vm_compute. reflexivity. Qed.

Lemma binit_ring : chain (nxt binit_bufs) (prv binit_bufs) nbuf (reverse (seq 0 nbuf)) nbuf.
Proof. vm_compute. repeat split. Qed.

Lemma binit_lookup i x : binit_bufs !! i = Some x -> core x = core buf0.
Proof. unfold binit_bufs. rewrite list_lookup_fmap. intros (j & _ & ->)%fmap_Some_1. done. Qed.

Lemma binit_bcache p t k :
  slks t = ∅ -> disk_idle (vd k) -> disk_wf (dsk k) -> bufs k = binit_bufs ->
  bcache p ∅ ∅ (dsk k) (reverse (seq 0 nbuf)) t k.
Proof.
  intros Hs Hi Hd Hb. split; rewrite ?Hb; try done.
  - by rewrite reverse_Permutation.
  - intros i x Hi' Hx. injection (binit_lookup i x Hx) as E1 E2 E3 E4 E5 E6.
    split; rewrite ?E1, ?E2, ?E3, ?E5; try done.
    by left.
  - intros i j x y bno _ _ Hx _ [C1 _] _. injection (binit_lookup i x Hx) as _ _ E _ _ _. rewrite E in C1. discriminate C1.
  - intros i. by rewrite Hs, lookup_empty, decide_False by set_solver.
Qed.

(** ** The theorems *)

(** A block of equal bytes. *)
Definition fill (v : Z) : list Z := replicate (Z.to_nat BSIZE) v.
Lemma fill_length v : length (fill v) = Z.to_nat BSIZE.
Proof. apply length_replicate. Qed.

(** A small disk: blocks 2 to 31 are the log, block 50 is a data block. *)
Definition demo_disk : gmap Z (list Z) :=
  list_to_map ((fun b => (b, fill 0)) <$> (50 :: seqZ 2 30)).

Lemma demo_disk_lookup b d : demo_disk !! b = Some d <-> (b = 50 \/ 2 <= b < 32) /\ d = fill 0.
Proof.
  assert (b ∈ 50 :: seqZ 2 30 <-> b = 50 \/ 2 <= b < 32) as E by (rewrite elem_of_cons, elem_of_seqZ; lia).
  unfold demo_disk. rewrite <- E. rewrite <- elem_of_list_to_map.
  - rewrite list_elem_of_fmap. split; [intros (c & [= -> ->] & Hc); done|intros [Hc ->]; eauto].
  - rewrite <- list_fmap_compose, list_fmap_id. apply NoDup_cons. split; [rewrite elem_of_seqZ; lia|apply NoDup_seqZ].
Qed.

Lemma demo_disk_wf : disk_wf demo_disk.
Proof.
  intros b d [Hb ->]%demo_disk_lookup. rewrite fill_length. split; [|done]. lia.
Qed.

(** C22: reading a block through the cache.  If no buffer the process already
    holds caches block [bno], and it is pinned or fewer than [NBUF] buffers
    are in use, [bread] returns a buffer that was not held; the process then
    holds its sleep-lock, it shows the logical contents of the block, the
    cache invariant holds, and disk and other buffers are unchanged.  The
    buffer is the one that caches the block or, when there is none, the least
    recently used buffer with no references. *)
Theorem bread_correct env (BD : BlockDev env) n p H P V order t k bno d :
  (nbuf < n)%nat -> bcache p H P V order t k -> rest p t -> not_held H bno k ->
  bno ∈ P \/ (size H + size P < nbuf)%nat -> V !! bno = Some d ->
  runs env (bread ROOTDEV bno n (MkK t k)) (fun b s =>
    b ∉ H /\ thr s = hold (SLBuf b) p t /\ bcache p ({[b]} ∪ H) P V order (thr s) (own s) /\ reads b bno d (own s) /\
    dsk (own s) = dsk k /\ (forall i, i <> b -> bufs (own s) !! i = bufs k !! i) /\
    ((exists x, bufs k !! b = Some x /\ caches bno x) \/
     (forall j y, (j < nbuf)%nat -> bufs k !! j = Some y -> ~ caches bno y) /\
     exists x l1 l2, bufs k !! b = Some x /\ b_refcnt x = 0 /\ order = l1 ++ b :: l2 /\
       forall j y, j ∈ l2 -> bufs k !! j = Some y -> b_refcnt y <> 0)).
Proof.
  intros Hn HB Hr Hnh Hroom HV. eapply runs_mono; [|exact (bread_spec env n p H P V order t k bno d HB Hr Hn Hnh Hroom HV)].
  intros b s (H1 & _ & H2 & H3 & H4 & H5 & H6 & f & Hg). split_and!; try done; [apply H5|].
  destruct Hg as [x Hx Hc|x l1 l2 Hx Ho Hz Hl Hno]; [left; eauto|right]. split; [done|]. exists x, l1, l2. done.
Qed.

Lemma demo_bcache : bcache 0 ∅ ∅ demo_disk (reverse (seq 0 nbuf)) Kalloc.demo_T ((kern0 demo_disk) <| bufs := binit_bufs |>).
Proof.
  exact (binit_bcache 0 Kalloc.demo_T ((kern0 demo_disk) <| bufs := binit_bufs |>) eq_refl demo_virtio_idle demo_disk_wf eq_refl).
Qed.
Lemma demo_50 : demo_disk !! 50 = Some (fill 0).
Proof. apply demo_disk_lookup. by split; [left|]. Qed.
Lemma not_held_none bno k : not_held ∅ bno k.
Proof. intros i x Hi. set_solver. Qed.

Lemma bread_correct_witness : exists b s,
  solo (disk_env demo_device 2) (bread ROOTDEV 50 40%nat (MkK Kalloc.demo_T ((kern0 demo_disk) <| bufs := binit_bufs |>))) = Some (b, s) /\
  reads b 50 (fill 0) (own s).
Proof.
  pose proof (bread_correct _ (disk_env_BlockDev demo_device 2 demo_device_ok ltac:(lia)) 40 0 ∅ ∅ demo_disk _ _ _ 50 (fill 0)
    ltac:(rewrite nbuf_eq; lia) demo_bcache demo_rest (not_held_none _ _) ltac:(right; rewrite !size_empty, nbuf_eq; lia) demo_50) as HR.
  destruct (proj1 (runs_some _ _ _) HR) as (b & s & E & _ & _ & _ & Hrd & _). exists b, s. by split.
Defined.

(** C31: releasing a buffer.  The caller must hold it, and it must be clean
    or pinned.  [brelse] then gives up its lock and one reference and keeps
    the invariant; the contents of every block, the disk and the other
    buffers are unchanged.  A buffer that nobody refers to any more moves to
    the front of the list, so that it is recycled last. *)
Theorem brelse_correct n p H P V order t k b bno d :
  bcache p H P V order t k -> rest p t -> b ∈ H -> reads b bno d k -> bno ∈ P \/ dsk k !! bno = Some d ->
  exists k', brelse b n (MkK t k) = Ret tt (MkK (drop_sl (SLBuf b) t) k') /\
    bcache p (H ∖ {[b]}) P V (if decide (bno ∈ P) then order else b :: filter (fun i => i <> b) order) (drop_sl (SLBuf b) t) k' /\
    dsk k' = dsk k /\ keep b k k'.
Proof.
  intros HB Hr Hb Hrd Hcl. destruct (brelse_spec n p HB Hr Hb Hrd Hcl) as (k' & E & HS & HB' & Hk).
  exists k'. split_and!; [done|exact HB'|apply HS|by apply core_keep].
Qed.

Lemma brelse_correct_witness : exists b t k k' order,
  brelse b 40%nat (MkK t k) = Ret tt (MkK Kalloc.demo_T k') /\ bcache 0 ∅ ∅ demo_disk (b :: order) Kalloc.demo_T k'.
Proof.
  pose proof (bread_runs _ (BD := disk_env_BlockDev demo_device 2 demo_device_ok ltac:(lia)) 40 0 ltac:(rewrite nbuf_eq; lia) 50 (fill 0)
    (ex_intro _ _ demo_bcache) demo_rest (not_held_none _ _) ltac:(right; rewrite !size_empty, nbuf_eq; lia) demo_50) as HR.
  destruct (proj1 (runs_some _ _ _) HR) as (b & s & _ & k & _ & Hb & [order HB] & Hrd & HS & _).
  assert (rest 0 (hold (SLBuf b) 0 Kalloc.demo_T)) as Hr by (apply rest_slks, demo_rest).
  destruct (brelse_correct 40 0 _ _ _ _ _ k b 50 (fill 0) HB Hr (held_first b ∅) Hrd) as (k' & E & HB' & _ & _).
  { right. rewrite (sk_dsk _ _ HS). exact demo_50. }
  exists b, (hold (SLBuf b) 0 Kalloc.demo_T), k, k'. eexists. rewrite hold_drop in * by done. split; [exact E|].
  rewrite decide_False in HB' by apply not_elem_of_empty. rewrite unheld in HB' by apply not_elem_of_empty. exact HB'.
Defined.
