(* ===== verification/Log.v ===== *)
(** * The write-ahead log: [kernel/log.c]

    [begin_op]/[end_op] bracket a file system operation; [log_write] records
    a modified block; the last [end_op] commits: modified blocks go to the
    log area, then the header block, then the home locations, then an empty
    header. *)

From Stdlib Require Import ZArith Lia.
From S2P Require Import Prelude Riscv KString Thread Proc Sleeplock Kern Virtio Bio.

(** [memmove(dst->data, src->data, BSIZE)] *)
Definition copy_data (dst src : nat) : KK () :=
  x ← getb src;
  modb dst (fun y => y <| b_data := b_data x |>).

Definition install_body (recovering : bool) (tail : Z) : KK (Z + ()) :=
  l ← getl id;
  if tail <? lh_n l then
    lbuf ← bread (lg_dev l) (u32 (lg_start l + tail + 1));
    blk ← getl (fun l => default 0 (lh_block l !! Z.to_nat tail));
    dbuf ← bread (lg_dev l) (u32 blk);
    copy_data dbuf lbuf ;;
    bwrite dbuf ;;
    mwhen (negb recovering) (bunpin dbuf) ;;
    brelse lbuf ;;
    brelse dbuf ;;
    mret (inl (tail + 1))
  else mret (inr tt).

Definition install_trans (recovering : bool) : KK () := mloop (install_body recovering) 0.

(** The header block: [n] at offset 0, [block[i]] at offset [4 + 4 * i]. *)
Definition read_head_body (b : nat) (i : Z) : KK (Z + ()) :=
  n ← getl lh_n;
  if i <? n then
    if i >=? LOGSIZE then undef else
    x ← getb b;
    modl (fun l => l <| lh_block ::= <[Z.to_nat i := i32 (rd_u32 (b_data x) (4 + 4 * i))]> |>) ;;
    mret (inl (i + 1))
  else mret (inr tt).

Definition read_head : KK () :=
  l ← getl id;
  b ← bread (lg_dev l) (u32 (lg_start l));
  x ← getb b;
  modl (fun l => l <| lh_n := i32 (rd_u32 (b_data x) 0) |>) ;;
  mloop (read_head_body b) 0 ;;
  brelse b.

Definition write_head_body (b : nat) (i : Z) : KK (Z + ()) :=
  l ← getl id;
  if i <? lh_n l then
    if i >=? LOGSIZE then undef else
    modb b (fun x => x <| b_data := wr_u32 (b_data x) (4 + 4 * i) (default 0 (lh_block l !! Z.to_nat i)) |>) ;;
    mret (inl (i + 1))
  else mret (inr tt).

Definition write_head : KK () :=
  l ← getl id;
  b ← bread (lg_dev l) (u32 (lg_start l));
  modb b (fun x => x <| b_data := wr_u32 (b_data x) 0 (lh_n l) |>) ;;
  mloop (write_head_body b) 0 ;;
  bwrite b ;;
  brelse b.

Definition recover_from_log : KK () :=
  read_head ;;
  install_trans true ;;
  modl (fun l => l <| lh_n := 0 |>) ;;
  write_head.

(** [sizeof(struct logheader)] is [4 + 4 * LOGSIZE]. *)
Definition initlog (dev : Z) : KK () :=
  if 4 + 4 * LOGSIZE >=? BSIZE then panic "initlog: too big logheader" else
  initlock LkLog ;;
  s ← getX sb;
  modl (fun l => l <| lg_start := i32 (sb_logstart s) |> <| lg_size := i32 (sb_nlog s) |> <| lg_dev := dev |>) ;;
  recover_from_log.

Definition begin_op_body (_ : ()) : KK (() + ()) :=
  l ← getl id;
  if negb (lg_committing l =? 0) then sleep ChLog LkLog ;; mret (inl tt)
  else if lh_n l + (lg_outstanding l + 1) * MAXOPBLOCKS >? LOGSIZE then sleep ChLog LkLog ;; mret (inl tt)
  else
    modl (fun l => l <| lg_outstanding := lg_outstanding l + 1 |>) ;;
    release LkLog ;;
    mret (inr tt).

Definition begin_op : KK () :=
  acquire LkLog ;;
  mloop begin_op_body tt.

Definition write_log_body (tail : Z) : KK (Z + ()) :=
  l ← getl id;
  if tail <? lh_n l then
    to ← bread (lg_dev l) (u32 (lg_start l + tail + 1));
    blk ← getl (fun l => default 0 (lh_block l !! Z.to_nat tail));
    from ← bread (lg_dev l) (u32 blk);
    copy_data to from ;;
    bwrite to ;;
    brelse from ;;
    brelse to ;;
    mret (inl (tail + 1))
  else mret (inr tt).

Definition write_log : KK () := mloop write_log_body 0.

Definition commit : KK () :=
  n ← getl lh_n;
  mwhen (0 <? n)
    (write_log ;;
     write_head ;;
     install_trans false ;;
     modl (fun l => l <| lh_n := 0 |>) ;;
     write_head).

Definition end_op : KK () :=
  acquire LkLog ;;
  modl (fun l => l <| lg_outstanding := lg_outstanding l - 1 |>) ;;
  c ← getl lg_committing;
  if negb (c =? 0) then panic "log.committing" else
  o ← getl lg_outstanding;
  do_commit ← (if o =? 0 then modl (fun l => l <| lg_committing := 1 |>) ;; mret true
               else wakeup ChLog ;; mret false);
  release LkLog ;;
  mwhen do_commit
    (commit ;;
     acquire LkLog ;;
     modl (fun l => l <| lg_committing := 0 |>) ;;
     wakeup ChLog ;;
     release LkLog).

(** The search for the block in the log: the index found, or [lh.n]. *)
Fixpoint log_index (blocks : list Z) (blockno : Z) : nat :=
  match blocks with
  | [] => 0
  | x :: l => if u32 x =? blockno then 0%nat else S (log_index l blockno)
  end.

Definition log_write (b : nat) : KK () :=
  acquire LkLog ;;
  l ← getl id;
  if (lh_n l >=? LOGSIZE) || (lh_n l >=? lg_size l - 1) then panic "too big a transaction" else
  if lg_outstanding l <? 1 then panic "log_write outside of trans" else
  x ← getb b;
  let i := log_index (take (Z.to_nat (lh_n l)) (lh_block l)) (b_blockno x) in
  modl (fun l => l <| lh_block ::= <[i := i32 (b_blockno x)]> |>) ;;
  mwhen (Z.of_nat i =? lh_n l)
    (bpin b ;;
     modl (fun l => l <| lh_n := lh_n l + 1 |>)) ;;
  release LkLog.
