(* ===== verification/LogSpec.v ===== *)
(** * The write-ahead log is crash-safe

    What [commit] and [recover_from_log] of Log.v write to the disk, in which
    order, and what a crash between any two of those writes leaves: after
    recovery the disk shows either none or all of the transaction. *)

From Stdlib Require Import ZArith Lia.
From S2P Require Import Prelude Riscv KString Thread Proc Sleeplock Kalloc Kern Blocks Virtio VirtioSpec.
From S2P Require Import Lru Bio BioSpec BioOps Log.

(** ** Disk writes *)

Definition apply_writes (ws : list (Z * list Z)) (D : gmap Z (list Z)) : gmap Z (list Z) :=
  foldl (fun D w => <[w.1 := w.2]> D) D ws.

Lemma apply_writes_app ws1 ws2 D : apply_writes (ws1 ++ ws2) D = apply_writes ws2 (apply_writes ws1 D).
Proof. apply foldl_app. Qed.

Lemma apply_writes_cons b d ws D : apply_writes ((b, d) :: ws) D = apply_writes ws (<[b := d]> D).
Proof. done. Qed.

Lemma apply_writes_ne ws : forall D b, b ∉ ws.*1 -> apply_writes ws D !! b = D !! b.
Proof.
  induction ws as [|[c d] ws IH]; intros D b Hb; [done|]. apply not_elem_of_cons in Hb as [H1 H2].
  rewrite apply_writes_cons, IH by done. by apply lookup_insert_ne.
Qed.

Lemma apply_writes_some ws b : forall D, is_Some (D !! b) -> is_Some (apply_writes ws D !! b).
Proof.
  induction ws as [|[c d] ws IH]; intros D HD; [done|]. rewrite apply_writes_cons. apply IH.
  destruct (decide (c = b)) as [->|]; [rewrite lookup_insert_eq; eauto|by rewrite lookup_insert_ne].
Qed.

Lemma apply_writes_in ws b d : forall D, NoDup ws.*1 -> (b, d) ∈ ws -> apply_writes ws D !! b = Some d.
Proof.
  induction ws as [|[c e] ws IH]; intros D Hnd Hin; [by apply not_elem_of_nil in Hin|]. rewrite apply_writes_cons.
  apply NoDup_cons in Hnd as [H1 H2]. apply elem_of_cons in Hin as [[= <- <-]|Hin].
  - rewrite apply_writes_ne by done. by rewrite lookup_insert_eq.
  - by apply IH.
Qed.

(** Writing blocks that are already there. *)
Lemma apply_writes_id ws : forall D, (forall b d, (b, d) ∈ ws -> D !! b = Some d) -> apply_writes ws D = D.
Proof.
  induction ws as [|[c e] ws IH]; intros D Hin; [done|].
  rewrite apply_writes_cons, insert_id by (apply Hin; left). apply IH. intros b d Hb. apply Hin. by right.
Qed.

(** ** The header block *)

Ltac szs := unfold BSIZE, LOGSIZE, MAXOPBLOCKS in *; lia.

(** [write_head]'s assignments to the header block and what [read_head] makes
    of it. *)
Definition put_head (bl : list Z) (d : list Z) : list Z :=
  foldl (fun d '(i, x) => wr_u32 d (4 + 4 * Z.of_nat i) x) (wr_u32 d 0 (Z.of_nat (length bl))) (imap pair bl).
Definition head_blocks (d : list Z) : list Z :=
  (fun i => i32 (rd_u32 d (4 + 4 * Z.of_nat i))) <$> seq 0 (Z.to_nat (i32 (rd_u32 d 0))).

(** The same with the count given. *)
Definition put_blocks (bl : list Z) (d : list Z) : list Z :=
  foldl (fun d '(i, x) => wr_u32 d (4 + 4 * Z.of_nat i) x) d (imap pair bl).

Lemma put_blocks_snoc bl x d : put_blocks (bl ++ [x]) d = wr_u32 (put_blocks bl d) (4 + 4 * Z.of_nat (length bl)) x.
Proof. unfold put_blocks. rewrite imap_app, foldl_app. cbn. by rewrite Nat.add_0_r. Qed.

Lemma put_blocks_length bl : forall d, length d = Z.to_nat BSIZE -> (length bl <= Z.to_nat LOGSIZE)%nat ->
  length (put_blocks bl d) = length d.
Proof.
  induction bl as [|x bl IH] using rev_ind; intros d Hd Hl; [done|]. rewrite length_app in Hl. cbn [length] in Hl.
  rewrite put_blocks_snoc, wr_u32_length, IH; rewrite ?IH; szs.
Qed.

Lemma rd_put_blocks bl : forall d i, length d = Z.to_nat BSIZE -> (length bl <= Z.to_nat LOGSIZE)%nat ->
  Forall (fun x => 0 <= x < 2 ^ 31) bl ->
  rd_u32 (put_blocks bl d) 0 = rd_u32 d 0 /\
  ((i < length bl)%nat -> Some (rd_u32 (put_blocks bl d) (4 + 4 * Z.of_nat i)) = bl !! i).
Proof.
  induction bl as [|x bl IH] using rev_ind; intros d i Hd Hl Hf; [split; [done|cbn; lia]|].
  rewrite length_app in *. cbn [length] in Hl. apply Forall_app in Hf as [Hf Hx]. apply Forall_cons in Hx as [Hx _]. cbn beta in Hx.
  pose proof (put_blocks_length bl d Hd ltac:(szs)) as Hlen. rewrite put_blocks_snoc.
  destruct (IH d i Hd ltac:(szs) Hf) as [IH1 IH2]. split.
  - rewrite rd_wr_u32_ne; [done|szs..].
  - cbn [length]. intros Hi. destruct (decide (i = length bl)) as [->|Hne].
    + rewrite rd_wr_u32_eq by szs. by rewrite list_lookup_middle.
    + rewrite rd_wr_u32_ne by szs. rewrite IH2 by lia. by rewrite lookup_app_l by lia.
Qed.

Lemma put_head_length bl d : length d = Z.to_nat BSIZE -> (length bl <= Z.to_nat LOGSIZE)%nat ->
  length (put_head bl d) = Z.to_nat BSIZE.
Proof.
  intros Hd Hl. change (put_head bl d) with (put_blocks bl (wr_u32 d 0 (Z.of_nat (length bl)))).
  assert (length (wr_u32 d 0 (Z.of_nat (length bl))) = length d) as E by (apply wr_u32_length; szs).
  rewrite put_blocks_length; szs.
Qed.

Lemma head_put bl d : length d = Z.to_nat BSIZE -> (length bl <= Z.to_nat LOGSIZE)%nat ->
  Forall (fun x => 0 <= x < 2 ^ 31) bl -> i32 (rd_u32 (put_head bl d) 0) = Z.of_nat (length bl) /\ head_blocks (put_head bl d) = bl.
Proof.
  intros Hd Hl Hf. change (put_head bl d) with (put_blocks bl (wr_u32 d 0 (Z.of_nat (length bl)))).
  set (d' := wr_u32 d 0 _). assert (length d' = Z.to_nat BSIZE) as Hd'.
  { unfold d'. rewrite wr_u32_length; szs. }
  assert (i32 (rd_u32 (put_blocks bl d') 0) = Z.of_nat (length bl)) as E0.
  { destruct (rd_put_blocks bl d' 0 Hd' Hl Hf) as [-> _]. unfold d'. rewrite rd_wr_u32_eq by szs. apply i32_small. szs. }
  split; [done|]. unfold head_blocks. rewrite E0, Nat2Z.id. apply list_eq. intros i. rewrite list_lookup_fmap.
  destruct (decide (i < length bl)%nat) as [Hi|Hi].
  - rewrite lookup_seq_lt by done. cbn [fmap option_fmap option_map Nat.add].
    destruct (rd_put_blocks bl d' i Hd' Hl Hf) as [_ E]. rewrite <- (E Hi). f_equal. apply i32_small.
    specialize (E Hi). symmetry in E. rewrite Forall_lookup in Hf. specialize (Hf _ _ E). lia.
  - rewrite (proj2 (lookup_ge_None bl i)) by lia. by rewrite lookup_seq_ge by lia.
Qed.

(** ** The log area

    The log occupies the [LOGSIZE] blocks from [s] on; a transaction's home
    blocks [bl] lie outside. *)

Definition in_log (s b : Z) : Prop := s <= b < s + LOGSIZE.
Definition home_ok (s : Z) (bl : list Z) : Prop :=
  NoDup bl /\ Forall (fun b => 0 <= b < 2 ^ 31 /\ ~ in_log s b) bl /\ (length bl < Z.to_nat LOGSIZE)%nat.
Definition area (s : Z) (V : gmap Z (list Z)) : Prop :=
  0 <= s /\ s + LOGSIZE < 2 ^ 31 /\ forall b, in_log s b -> is_Some (V !! b).

(** The in-memory header. *)
Record log_at (s : Z) (bl : list Z) (l : logst) : Prop := {
  la_dev : lg_dev l = ROOTDEV;
  la_start : lg_start l = s;
  la_n : lh_n l = Z.of_nat (length bl);
  la_bl : take (length bl) (lh_block l) = bl;
  la_len : length (lh_block l) = Z.to_nat LOGSIZE
}.

(** The writes of [write_log] and of [install_trans]. *)
Definition logw (s : Z) (V : gmap Z (list Z)) (bl : list Z) : list (Z * list Z) :=
  imap (fun i b => (s + Z.of_nat i + 1, default [] (V !! b))) bl.
Definition instw (s : Z) (V : gmap Z (list Z)) (bl : list Z) : list (Z * list Z) :=
  imap (fun i b => (b, default [] (V !! (s + Z.of_nat i + 1)))) bl.

Lemma logw_snoc s V bl b : logw s V (bl ++ [b]) = logw s V bl ++ [(s + Z.of_nat (length bl) + 1, default [] (V !! b))].
Proof. unfold logw. rewrite imap_app. cbn. by rewrite Nat.add_0_r. Qed.
Lemma instw_snoc s V bl b : instw s V (bl ++ [b]) = instw s V bl ++ [(b, default [] (V !! (s + Z.of_nat (length bl) + 1)))].
Proof. unfold instw. rewrite imap_app. cbn. by rewrite Nat.add_0_r. Qed.

Lemma logw_elem s V bl a d :
  (a, d) ∈ logw s V bl <-> exists i b, bl !! i = Some b /\ a = s + Z.of_nat i + 1 /\ d = default [] (V !! b).
Proof.
  unfold logw. rewrite elem_of_lookup_imap. split.
  - intros (i & b & [= -> ->] & Hb). eauto.
  - intros (i & b & Hb & -> & ->). eauto.
Qed.
Lemma instw_fst s V bl : (instw s V bl).*1 = bl.
Proof. unfold instw. rewrite fmap_imap. apply list_eq. intros i. rewrite list_lookup_imap. by destruct (bl !! i). Qed.

Lemma logw_in_log s V bl a : (length bl < Z.to_nat LOGSIZE)%nat -> a ∈ (logw s V bl).*1 -> s < a <= s + Z.of_nat (length bl).
Proof.
  intros Hl [[a' d] [-> Hin]]%list_elem_of_fmap. apply logw_elem in Hin as (i & b & Hb & -> & _). cbn.
  apply lookup_lt_Some in Hb. lia.
Qed.

Lemma home_not_log s bl b : home_ok s bl -> b ∈ bl -> 0 <= b < 2 ^ 31 /\ ~ in_log s b.
Proof. intros (_ & Hf & _) Hb. rewrite Forall_forall in Hf. by apply Hf. Qed.

Lemma home_take s bl i b : home_ok s bl -> bl !! i = Some b -> b ∉ take i bl /\ take (S i) bl = take i bl ++ [b] /\ length (take i bl) = i.
Proof.
  intros (Hnd & _ & _) Hb. pose proof (lookup_lt_Some _ _ _ Hb). split_and!.
  - intros (j & Hj1 & Hj2)%elem_of_take. pose proof (NoDup_lookup _ _ _ _ Hnd Hb Hj1). lia.
  - by apply take_S_r.
  - rewrite length_take. lia.
Qed.

(** What the disk shows once the log has been written. *)
Lemma logged_lookup s bl V D i b :
  bl !! i = Some b -> apply_writes (logw s V bl) D !! (s + Z.of_nat i + 1) = Some (default [] (V !! b)).
Proof.
  intros Hb. apply apply_writes_in; [|apply logw_elem; eauto].
  apply NoDup_alt. intros j1 j2 a. rewrite !list_lookup_fmap. unfold logw. rewrite !list_lookup_imap.
  destruct (bl !! j1), (bl !! j2); cbn; intros [= E1] [= E2]. lia.
Qed.

Lemma instw_logged s bl V h :
  instw s (apply_writes (logw s V bl ++ [(s, h)]) V) bl = (fun b => (b, default [] (V !! b))) <$> bl.
Proof.
  apply list_eq. intros i. unfold instw. rewrite list_lookup_imap, list_lookup_fmap.
  destruct (bl !! i) as [b|] eqn:Hb; [|done]. cbn. do 2 f_equal. rewrite apply_writes_app. cbn.
  rewrite lookup_insert_ne by lia. by rewrite (logged_lookup s bl V V i b Hb).
Qed.

Lemma not_held_nil b k : not_held ∅ b k.
Proof. intros i x Hi. set_solver. Qed.

Lemma not_held_one c b bno d k : reads c bno d k -> bno <> b -> not_held ({[c]} ∪ ∅) b k.
Proof. intros Hrd Hne. apply reads_not_held. intros c' Hc'. exists bno, d. split; [|done]. set_solver. Qed.

Section log.
Context (env : kst kern -> option (kst kern)) {BD : BlockDev env}.
Context (n p : nat) (Hn : (nbuf < n)%nat).
Context {t : T} (Hr : rest p t).

(** From [k0] to [k] the blocks [ws] have been written through, in that
    order, and no buffer is held. *)
Record wrote (P : gset Z) (V : gmap Z (list Z)) (ws : list (Z * list Z)) (k0 k : kern) : Prop := {
  wr_cache : cached p ∅ P (apply_writes ws V) t k;
  wr_dsk : dsk k = apply_writes ws (dsk k0);
  wr_dtr : dtr k = dtr k0 ++ ws;
  wr_lg : lg k = lg k0;
  wr_fs : same_fs k0 k
}.

Lemma wrote_nil P V k : cached p ∅ P V t k -> wrote P V [] k k.
Proof. intros H. split; try done. by rewrite app_nil_r. Qed.

Lemma wrote_app P P' V ws ws' k0 k1 k2 :
  wrote P V ws k0 k1 -> wrote P' (apply_writes ws V) ws' k1 k2 -> wrote P' V (ws ++ ws') k0 k2.
Proof.
  intros [A1 A2 A3 A4 A5] [B1 B2 B3 B4 B5]. split.
  - by rewrite apply_writes_app.
  - by rewrite apply_writes_app, <- A2.
  - by rewrite B3, A3, app_assoc.
  - by rewrite B4.
  - by etransitivity.
Qed.

Lemma wrote_one P V k k3 k4 k6 a d :
  same_disk k k3 -> same_fs k3 k4 -> lg k4 = lg k3 -> dsk k4 = <[a := d]> (dsk k3) -> dtr k4 = dtr k3 ++ [(a, d)] ->
  same_disk k4 k6 -> cached p ∅ P (<[a := d]> V) t k6 -> wrote P V [(a, d)] k k6.
Proof.
  intros [A1 A2 A3 A4] B1 B2 B3 B4 [C1 C2 C3 C4] HC. split; [done|cbn; congruence|congruence|congruence|].
  etransitivity; [exact A1|]. by etransitivity.
Qed.

Lemma cached_lg H P V t' k f : cached p H P V t' k -> cached p H P V t' (k <| lg ::= f |>).
Proof. intros [order HB]. exists order. eapply bcache_core; try done. apply (bc_ring HB). Qed.

Lemma cached_free H P V t' k b : cached p H P V t' k -> b ∉ H -> slks t' !! SLBuf b = None.
Proof. intros [order HB] Hb. by rewrite (bc_slk HB), decide_False. Qed.

Lemma cached_len H P V t' k b d : cached p H P V t' k -> V !! b = Some d -> length d = Z.to_nat BSIZE.
Proof. intros [order HB] Hb. by apply (bc_rng HB b d). Qed.

Lemma cached_clean H P V t' k b : cached p H P V t' k -> b ∉ P -> not_held H b k -> V !! b = dsk k !! b.
Proof. intros [order HB]. apply (bc_clean HB). Qed.

Lemma copy_data_runs dst src bno d (t' : T) k :
  reads src bno d k -> copy_data dst src n (MkK t' k) = Ret tt (MkK t' (k <| bufs ::= alter (fun x => x <| b_data := d |>) dst |>)).
Proof. intros (x & Hx & _ & <-). unfold copy_data. by rewrite (getb_bind _ _ _ _ _ _ Hx). Qed.

(** Two blocks are read, the log block [a] and the home block [c] whose
    number is in the header, as the loops of log.c do. *)
Lemma read_two {B} P V k (g : logst -> Z) a da c dc (f : nat -> nat -> KK B) Q :
  cached p ∅ P V t k -> u32 (g (lg k)) = c -> a <> c -> V !! a = Some da -> V !! c = Some dc ->
  (size P < nbuf)%nat -> c ∈ P \/ (1 + size P < nbuf)%nat ->
  (forall b1 b2 k', let t2 := hold (SLBuf b2) p (hold (SLBuf b1) p t) in
     b1 <> b2 -> slks t !! SLBuf b1 = None -> slks t !! SLBuf b2 = None ->
     cached p ({[b2]} ∪ {[b1]}) P V t2 k' -> reads b1 a da k' -> reads b2 c dc k' -> same_disk k k' ->
     runs env (f b1 b2 n (MkK t2 k')) Q) ->
  runs env ((b1 ← bread ROOTDEV a; blk ← getl g; b2 ← bread ROOTDEV (u32 blk); f b1 b2) n (MkK t k)) Q.
Proof.
  intros HC Hg Hac Ha Hc Hs Hs2 Hf. apply runs_bind.
  eapply runs_mono; [|eapply (bread_runs env n p Hn a da HC Hr (not_held_nil _ _) ltac:(right; rewrite size_empty; lia) Ha)].
  intros b1 ? (k1 & -> & Hb1 & HC1 & R1 & S1 & K1). rewrite getl_bind, (sk_lg _ _ S1), Hg. apply runs_bind.
  eapply runs_mono; [|eapply (bread_runs env n p Hn c dc HC1); [by apply rest_slks|by eapply not_held_one| |done]].
  2: { rewrite union_empty_r_L, size_singleton. exact Hs2. }
  intros b2 ? (k2 & -> & Hb2 & HC2 & R2 & S2 & K2). rewrite union_empty_r_L in HC2, Hb2.
  assert (b1 <> b2) as Hne by set_solver.
  apply Hf; [done|by eapply cached_free| |done|by apply K2|done|by etransitivity].
  eapply cached_free; [exact HC|set_solver].
Qed.

(** A held buffer is given back and the locks are as before. *)
Lemma drop_two b1 b2 : b1 <> b2 -> slks t !! SLBuf b1 = None -> slks t !! SLBuf b2 = None ->
  drop_sl (SLBuf b2) (hold (SLBuf b2) p (hold (SLBuf b1) p t)) = hold (SLBuf b1) p t /\
  drop_sl (SLBuf b1) (hold (SLBuf b1) p t) = t /\
  drop_sl (SLBuf b1) (hold (SLBuf b2) p (hold (SLBuf b1) p t)) = hold (SLBuf b2) p t /\
  drop_sl (SLBuf b2) (hold (SLBuf b2) p t) = t.
Proof.
  intros Hne H1 H2. split_and!; try by apply hold_drop.
  - apply hold_drop. change (<[SLBuf b1 := my_pid p t]> (slks t) !! SLBuf b2 = None). by rewrite lookup_insert_ne by congruence.
  - rewrite drop_hold_ne by congruence. by rewrite hold_drop.
Qed.

(** One iteration of [write_log]. *)
Lemma write_log_step P V k i blk a dh dl :
  cached p ∅ P V t k -> lg_dev (lg k) = ROOTDEV -> i < lh_n (lg k) -> lh_block (lg k) !! Z.to_nat i = Some blk ->
  u32 blk = blk -> u32 (lg_start (lg k) + i + 1) = a -> a <> blk -> blk ∈ P -> a ∉ P ->
  (size P < nbuf)%nat -> V !! blk = Some dh -> V !! a = Some dl ->
  runs env (write_log_body i n (MkK t k)) (fun r s => r = inl (i + 1) /\ exists k', s = MkK t k' /\ wrote P V [(a, dh)] k k').
Proof.
  intros HC Hdev Hi Hblk Hu Ha Hne HP HaP Hs Hdh Hdl. unfold write_log_body. rewrite getl_bind. unfold id.
  rewrite (proj2 (Z.ltb_lt _ _) Hi), Hdev, Ha.
  apply (read_two P V k _ a dl blk dh); [done|by rewrite Hblk|done|done|done|done|by left|].
  intros to from k2 t2 Hb Hs1 Hs2 HC2 R1 R2 S2. destruct (drop_two to from Hb Hs1 Hs2) as (D1 & D2 & _ & _).
  assert (rest p t2) as Hr2 by (by apply rest_slks, rest_slks).
  rewrite (bind_ret _ _ _ _ _ _ (copy_data_runs to from blk dh t2 k2 R2)).
  destruct (set_data_runs p to a dl dh HC2 ltac:(set_solver) R1 ltac:(by eapply cached_len)) as (HC3 & R3 & S3 & K3).
  pose proof (K3 from blk dh ltac:(done) R2) as R4. set (k3 := k2 <| bufs ::= _ |>) in *. apply runs_bind.
  eapply runs_mono; [|eapply (bwrite_runs env n p Hn to a dh HC3 Hr2 ltac:(set_solver) R3)].
  intros [] ? (k4 & -> & HC4 & B4 & F4 & L4 & Dk4 & Dt4). apply runs_bind.
  assert (forall c bno d, reads c bno d k3 -> reads c bno d k4) as K4 by (intros c bno d; apply reads_core; by rewrite B4).
  eapply runs_mono; [|eapply (brelse_runs env n p from blk dh HC4 Hr2 ltac:(set_solver) (K4 _ _ _ R4) ltac:(by left))].
  intros [] ? (k5 & -> & HC5 & S5 & K5). unfold t2 in *. rewrite D1 in *. apply runs_bind.
  eapply runs_mono; [|eapply (brelse_runs env n p to a dh HC5); [by apply rest_slks|set_solver|by apply K5, K4|]].
  2: { right. by rewrite (sk_dsk _ _ S5), Dk4, lookup_insert_eq. }
  intros [] ? (k6 & -> & HC6 & S6 & K6). rewrite D2 in *. eapply runs_ret; [reflexivity|]. split; [done|].
  exists k6. split; [done|]. apply (wrote_one P V k k3 k4 k6); try done; [by etransitivity..|].
  by replace (∅ : gset nat) with (({[from]} ∪ {[to]}) ∖ {[from]} ∖ {[to]} : gset nat) by set_solver.
Qed.

(** One iteration of [install_trans]. *)
Definition unpinned (recovering : bool) (blk : Z) (P : gset Z) : gset Z := if recovering then P else P ∖ {[blk]}.

Lemma unpin_runs (recovering : bool) H P V t' k b blk d :
  cached p H P V t' k -> rest p t' -> b ∈ H -> reads b blk d k -> (recovering = false -> blk ∈ P) ->
  exists k', mwhen (negb recovering) (bunpin b) n (MkK t' k) = Ret tt (MkK t' k') /\
    cached p H (unpinned recovering blk P) V t' k' /\ reads b blk d k' /\ same_disk k k' /\ keep b k k'.
Proof.
  intros HC Hr' Hb Hrd Hp. destruct recovering; cbn [negb mwhen unpinned].
  - exists k. split_and!; try done. by intros c bno d' Hc.
  - exact (bunpin_runs n p b blk d HC Hr' Hb Hrd (Hp eq_refl)).
Qed.

Lemma install_step (recovering : bool) P V k i blk a dh dl :
  cached p ∅ P V t k -> lg_dev (lg k) = ROOTDEV -> i < lh_n (lg k) -> lh_block (lg k) !! Z.to_nat i = Some blk ->
  u32 blk = blk -> u32 (lg_start (lg k) + i + 1) = a -> a <> blk -> (if recovering then P = ∅ else blk ∈ P) -> a ∉ P ->
  (size P < nbuf)%nat -> V !! blk = Some dh -> V !! a = Some dl ->
  runs env (install_body recovering i n (MkK t k)) (fun r s => r = inl (i + 1) /\ exists k', s = MkK t k' /\
    wrote (unpinned recovering blk P) V [(blk, dl)] k k').
Proof.
  intros HC Hdev Hi Hblk Hu Ha Hne HP HaP Hs Hdh Hdl. unfold install_body. rewrite getl_bind. unfold id.
  rewrite (proj2 (Z.ltb_lt _ _) Hi), Hdev, Ha. pose proof (cached_clean _ _ _ _ _ a HC HaP (not_held_nil _ _)) as Hcl.
  apply (read_two P V k _ a dl blk dh); [done|by rewrite Hblk|done|done|done|done| |].
  { destruct recovering; [right; rewrite HP, size_empty, nbuf_eq; lia|by left]. }
  intros lb db k2 t2 Hb Hs1 Hs2 HC2 R1 R2 S2. destruct (drop_two lb db Hb Hs1 Hs2) as (_ & _ & D1 & D2).
  assert (rest p t2) as Hr2 by (by apply rest_slks, rest_slks).
  rewrite (bind_ret _ _ _ _ _ _ (copy_data_runs db lb a dl t2 k2 R1)).
  destruct (set_data_runs p db blk dh dl HC2 ltac:(set_solver) R2 ltac:(by eapply cached_len)) as (HC3 & R3 & S3 & K3).
  pose proof (K3 lb a dl ltac:(done) R1) as R4. set (k3 := k2 <| bufs ::= _ |>) in *. apply runs_bind.
  eapply runs_mono; [|eapply (bwrite_runs env n p Hn db blk dl HC3 Hr2 ltac:(set_solver) R3)].
  intros [] ? (k4 & -> & HC4 & B4 & F4 & L4 & Dk4 & Dt4).
  assert (forall c bno d, reads c bno d k3 -> reads c bno d k4) as K4 by (intros c bno d; apply reads_core; by rewrite B4).
  destruct (unpin_runs recovering _ P _ t2 k4 db blk dl HC4 Hr2 ltac:(set_solver) (K4 _ _ _ R3) ltac:(by intros ->))
    as (k5 & E5 & HC5 & R5 & S5 & K5). rewrite (bind_ret _ _ _ _ _ _ E5). clear E5.
  pose proof (K5 lb a dl Hb (K4 _ _ _ R4)) as R6. apply runs_bind.
  assert (dsk k5 = <[blk := dl]> (dsk k)) as Edsk.
  { rewrite (sk_dsk _ _ S5), Dk4, (sk_dsk _ _ S3), (sk_dsk _ _ S2). done. }
  eapply runs_mono; [|eapply (brelse_runs env n p lb a dl HC5 Hr2 ltac:(set_solver) R6)].
  2: { right. by rewrite Edsk, lookup_insert_ne, <- Hcl. }
  intros [] ? (k6 & -> & HC6 & S6 & K6). unfold t2 in *. rewrite D1 in *. apply runs_bind.
  eapply runs_mono; [|eapply (brelse_runs env n p db blk dl HC6); [by apply rest_slks|set_solver|by apply K6|]].
  2: { right. by rewrite (sk_dsk _ _ S6), Edsk, lookup_insert_eq. }
  intros [] ? (k7 & -> & HC7 & S7 & K7). rewrite D2 in *. eapply runs_ret; [reflexivity|]. split; [done|].
  exists k7. split; [done|]. apply (wrote_one _ V k k3 k4 k7); try done; [by etransitivity|by etransitivity; [|etransitivity]|].
  by replace (∅ : gset nat) with (({[db]} ∪ {[lb]}) ∖ {[lb]} ∖ {[db]} : gset nat) by set_solver.
Qed.

(** ** The loops *)

Section loops.
Context {s : Z} {bl : list Z} (Hbl : home_ok s bl).

Lemma log_at_lookup l i b : log_at s bl l -> bl !! i = Some b -> lh_block l !! i = Some b.
Proof.
  intros [_ _ _ Ht _] Hb. rewrite <- Ht in Hb. pose proof (lookup_lt_Some _ _ _ Hb). rewrite length_take in *.
  by rewrite lookup_take_lt in Hb by lia.
Qed.

Lemma home_size : (size (list_to_set bl : gset Z) < nbuf)%nat.
Proof. destruct Hbl as (Hnd & _ & Hl). rewrite size_list_to_set by done. rewrite nbuf_eq. szs. Qed.

Lemma write_log_runs V k :
  cached p ∅ (list_to_set bl) V t k -> log_at s bl (lg k) -> area s V -> (forall b, b ∈ bl -> is_Some (V !! b)) ->
  runs env (write_log n (MkK t k)) (fun _ s' => exists k', s' = MkK t k' /\ wrote (list_to_set bl) V (logw s V bl) k k').
Proof.
  intros HC Hla (Ha1 & Ha2 & Ha3) Hin. pose proof Hbl as (Hnd & _ & Hl). unfold write_log, mloop.
  set (I := fun i s' => exists k', s' = MkK t k' /\ wrote (list_to_set bl) V (logw s V (take i bl)) k k').
  eapply runs_mono; [|apply (runs_count env write_log_body n (length bl) I) with (m := length bl) (i := 0%nat)].
  - intros [] s' H. unfold I in H. by rewrite firstn_all in H.
  - intros i ? Hi (k' & -> & W). destruct (lookup_lt_is_Some_2 bl i Hi) as [blk Hblk].
    destruct (home_take s bl i blk Hbl Hblk) as (_ & Et & Lt).
    assert (blk ∈ bl) as Hblkin by (by eapply list_elem_of_lookup_2).
    destruct (home_not_log s bl blk Hbl Hblkin) as [B1 B2]. destruct (Hin blk Hblkin) as [dh Hdh].
    assert (in_log s (s + Z.of_nat i + 1)) as Hlog by (unfold in_log; szs).
    destruct (Ha3 _ Hlog) as [dl Hdl].
    eapply runs_mono; [|eapply (write_log_step _ _ k' (Z.of_nat i) blk (s + Z.of_nat i + 1) dh dl (wr_cache _ _ _ _ _ W))];
      rewrite ?(wr_lg _ _ _ _ _ W); try apply Hla.
    + intros r ? (-> & k2 & -> & W2). split; [done|]. exists k2. split; [done|]. rewrite Et, logw_snoc, Lt, Hdh.
      by eapply wrote_app.
    + rewrite (la_n _ _ _ Hla). lia.
    + rewrite Nat2Z.id. by apply log_at_lookup.
    + apply u32_small. lia.
    + rewrite (la_start _ _ _ Hla). apply u32_small. szs.
    + intros E. apply B2. by rewrite <- E.
    + by apply elem_of_list_to_set.
    + intros E%elem_of_list_to_set. by destruct (home_not_log s bl _ Hbl E).
    + apply home_size.
    + rewrite apply_writes_ne; [done|]. intros E%logw_in_log; [|rewrite length_take; lia]. apply B2. unfold in_log. rewrite Lt in E. szs.
    + rewrite apply_writes_ne; [done|]. intros E%logw_in_log; rewrite Lt in *; szs.
  - intros ? (k' & -> & W). eapply runs_ret; [|split; [reflexivity|by exists k']].
    unfold write_log_body. rewrite getl_bind. unfold id. rewrite (wr_lg _ _ _ _ _ W), (la_n _ _ _ Hla), Z.ltb_irrefl. done.
  - done.
  - rewrite nbuf_eq in Hn. szs.
  - exists k. split; [done|]. by apply wrote_nil.
Qed.

Definition pins (recovering : bool) (i : nat) : gset Z := if recovering then ∅ else list_to_set (drop i bl).

Lemma pins_step recovering i blk : bl !! i = Some blk -> unpinned recovering blk (pins recovering i) = pins recovering (S i).
Proof.
  intros Hb. destruct recovering; [done|]. cbn. rewrite (drop_S _ _ _ Hb). cbn. apply set_eq. intros x.
  destruct Hbl as (Hnd & _). rewrite <- (take_drop_middle _ _ _ Hb) in Hnd. apply NoDup_app in Hnd as (_ & _ & Hnd).
  apply NoDup_cons in Hnd as [Hnd _]. destruct (decide (x = blk)) as [->|]; [|set_solver].
  rewrite elem_of_difference, elem_of_list_to_set. set_solver.
Qed.

Lemma pins_in recovering i x : x ∈ pins recovering i -> x ∈ bl.
Proof. destruct recovering; [set_solver|]. cbn. rewrite elem_of_list_to_set. intros (j & Hj)%list_elem_of_lookup. rewrite lookup_drop in Hj. by eapply list_elem_of_lookup_2. Qed.

Lemma pins_size recovering i : (size (pins recovering i) < nbuf)%nat.
Proof. eapply Nat.le_lt_trans; [|apply home_size]. apply subseteq_size. intros x Hx%pins_in. by apply elem_of_list_to_set. Qed.

Lemma install_runs recovering V k :
  cached p ∅ (pins recovering 0) V t k -> log_at s bl (lg k) -> area s V -> (forall b, b ∈ bl -> is_Some (V !! b)) ->
  runs env (install_trans recovering n (MkK t k)) (fun _ s' => exists k', s' = MkK t k' /\ wrote ∅ V (instw s V bl) k k').
Proof.
  intros HC Hla (Ha1 & Ha2 & Ha3) Hin. pose proof Hbl as (Hnd & _ & Hl). unfold install_trans, mloop.
  set (I := fun i s' => exists k', s' = MkK t k' /\ wrote (pins recovering i) V (instw s V (take i bl)) k k').
  eapply runs_mono; [|apply (runs_count env (install_body recovering) n (length bl) I) with (m := length bl) (i := 0%nat)].
  - intros [] s' (k' & -> & W). exists k'. split; [done|]. rewrite firstn_all in W.
    replace (pins recovering (length bl)) with (∅ : gset Z) in W; [done|]. destruct recovering; [done|]. cbn. by rewrite drop_all.
  - intros i ? Hi (k' & -> & W). destruct (lookup_lt_is_Some_2 bl i Hi) as [blk Hblk].
    destruct (home_take s bl i blk Hbl Hblk) as (Hnin & Et & Lt).
    assert (blk ∈ bl) as Hblkin by (by eapply list_elem_of_lookup_2).
    destruct (home_not_log s bl blk Hbl Hblkin) as [B1 B2]. destruct (Hin blk Hblkin) as [dh Hdh].
    assert (in_log s (s + Z.of_nat i + 1)) as Hlog by (unfold in_log; szs).
    assert (s + Z.of_nat i + 1 ∉ bl) as Hnot by (intros E; by destruct (home_not_log s bl _ Hbl E)).
    destruct (Ha3 _ Hlog) as [dl Hdl].
    eapply runs_mono; [|eapply (install_step recovering _ _ k' (Z.of_nat i) blk (s + Z.of_nat i + 1) dh dl (wr_cache _ _ _ _ _ W))];
      rewrite ?(wr_lg _ _ _ _ _ W); try apply Hla.
    + intros r ? (-> & k2 & -> & W2). split; [done|]. exists k2. split; [done|]. rewrite Et, instw_snoc, Lt, Hdl, <- (pins_step _ _ _ Hblk).
      by eapply wrote_app.
    + rewrite (la_n _ _ _ Hla). lia.
    + rewrite Nat2Z.id. by apply log_at_lookup.
    + apply u32_small. lia.
    + rewrite (la_start _ _ _ Hla). apply u32_small. szs.
    + intros E. apply B2. by rewrite <- E.
    + destruct recovering; [done|]. cbn. rewrite (drop_S _ _ _ Hblk). set_solver.
    + by intros E%pins_in.
    + apply pins_size.
    + rewrite apply_writes_ne; [done|]. by rewrite instw_fst.
    + rewrite apply_writes_ne; [done|]. rewrite instw_fst. intros (j & Hj & _)%elem_of_take. by eapply Hnot, list_elem_of_lookup_2.
  - intros ? (k' & -> & W). eapply runs_ret; [|split; [reflexivity|by exists k']].
    unfold install_body. rewrite getl_bind. unfold id. rewrite (wr_lg _ _ _ _ _ W), (la_n _ _ _ Hla), Z.ltb_irrefl. done.
  - done.
  - rewrite nbuf_eq in Hn. szs.
  - exists k. split; [done|]. by apply wrote_nil.
Qed.
End loops.

(** ** The header *)

Lemma write_head_loop P V k b s bl h m (t' : T) :
  log_at s bl (lg k) -> (length bl <= Z.to_nat LOGSIZE)%nat ->
  cached p {[b]} P (<[s := h]> V) t' k -> reads b s h k -> length h = Z.to_nat BSIZE ->
  (length bl < m)%nat ->
  runs env (mwhile m (write_head_body b) 0 n (MkK t' k)) (fun _ s' => exists k', s' = MkK t' k' /\
    cached p {[b]} P (<[s := put_blocks bl h]> V) t' k' /\ reads b s (put_blocks bl h) k' /\ same_disk k k').
Proof.
  intros Hla Hl HC Hrd Hh Hm.
  set (I := fun i s' => exists k', s' = MkK t' k' /\ cached p {[b]} P (<[s := put_blocks (take i bl) h]> V) t' k' /\
    reads b s (put_blocks (take i bl) h) k' /\ same_disk k k').
  eapply runs_mono; [|apply (runs_count env (write_head_body b) n (length bl) I) with (m := length bl) (i := 0%nat)].
  - intros [] s' H. unfold I in H. by rewrite firstn_all in H.
  - intros i ? Hi (k' & -> & HC' & Hrd' & HS). destruct (lookup_lt_is_Some_2 bl i Hi) as [blk Hblk].
    assert (lh_block (lg k) !! i = Some blk) as Hlk.
    { pose proof Hblk as Hb. rewrite <- (la_bl _ _ _ Hla) in Hb. by rewrite lookup_take_lt in Hb. }
    assert (length (take i bl) = i) as Lt by (rewrite length_take; lia).
    assert (put_blocks (take (S i) bl) h = wr_u32 (put_blocks (take i bl) h) (4 + 4 * Z.of_nat i) blk) as Eput.
    { rewrite (take_S_r _ _ _ Hblk), put_blocks_snoc. by rewrite Lt. }
    assert (length (put_blocks (take (S i) bl) h) = Z.to_nat BSIZE) as Elen.
    { rewrite put_blocks_length; [done|done|]. rewrite length_take. lia. }
    destruct (set_data_runs p b s _ _ HC' ltac:(set_solver) Hrd' Elen) as (HC2 & R2 & S2 & K2).
    unfold write_head_body. rewrite getl_bind. unfold id. rewrite (sk_lg _ _ HS), (la_n _ _ _ Hla).
    rewrite (proj2 (Z.ltb_lt (Z.of_nat i) _)) by lia. rewrite Z.geb_leb, (proj2 (Z.leb_gt _ _)) by szs.
    rewrite Nat2Z.id, Hlk. rewrite modb_bind. eapply runs_ret; [reflexivity|]. split; [done|].
    exists (k' <| bufs ::= alter (fun x => x <| b_data := put_blocks (take (S i) bl) h |>) b |>).
    split_and!; [|by rewrite insert_insert_eq in HC2|done|by etransitivity].
    f_equal. unfold upd. f_equal. destruct Hrd' as (x & Hx & _ & Hd). rewrite !(alter_insert _ _ _ _ Hx). by rewrite Hd, Eput.
  - intros ? (k' & -> & HC' & Hrd' & HS). eapply runs_ret; [|split; [reflexivity|by exists k']].
    unfold write_head_body. rewrite getl_bind. unfold id. rewrite (sk_lg _ _ HS), (la_n _ _ _ Hla), Z.ltb_irrefl. done.
  - done.
  - done.
  - exists k. split_and!; done.
Qed.

Lemma write_head_runs P V k s bl h :
  cached p ∅ P V t k -> log_at s bl (lg k) -> (length bl <= Z.to_nat LOGSIZE)%nat -> 0 <= s < 2 ^ 31 ->
  V !! s = Some h -> s ∉ P -> (size P < nbuf)%nat ->
  runs env (write_head n (MkK t k)) (fun _ s' => exists k', s' = MkK t k' /\ wrote P V [(s, put_head bl h)] k k').
Proof.
  intros HC Hla Hl Hs Hh HsP HP. pose proof (cached_len _ _ _ _ _ _ _ HC Hh) as Hhl.
  unfold write_head. rewrite getl_bind. unfold id. rewrite (la_dev _ _ _ Hla), (la_start _ _ _ Hla), u32_small by lia.
  apply runs_bind. eapply runs_mono; [|eapply (bread_runs env n p Hn s h HC Hr (not_held_nil _ _) ltac:(right; rewrite size_empty; lia) Hh)].
  intros b ? (k1 & -> & Hb & HC1 & R1 & S1 & K1). rewrite union_empty_r_L in HC1. rewrite modb_bind.
  pose proof (cached_free _ _ _ _ _ b HC Hb) as Hfree.
  set (h0 := wr_u32 h 0 (Z.of_nat (length bl))).
  assert (length h0 = Z.to_nat BSIZE) as Hh0 by (unfold h0; rewrite wr_u32_length; szs).
  destruct (set_data_runs p b s h h0 HC1 ltac:(set_solver) R1 Hh0) as (HC2 & R2 & S2 & K2).
  set (k2 := k1 <| bufs ::= alter (fun x => x <| b_data := wr_u32 (b_data x) 0 (lh_n (lg k)) |>) b |>).
  assert (k2 = k1 <| bufs ::= alter (fun x => x <| b_data := h0 |>) b |>) as E2.
  { unfold k2, upd. f_equal. destruct R1 as (x & Hx & _ & Hd). rewrite !(alter_insert _ _ _ _ Hx).
    by rewrite Hd, (la_n _ _ _ Hla). }
  rewrite <- E2 in HC2, R2, S2. clearbody k2. apply runs_bind. unfold mloop.
  assert (log_at s bl (lg k2)) as Hla2 by (by rewrite (sk_lg _ _ S2), (sk_lg _ _ S1)).
  eapply runs_mono; [|eapply (write_head_loop P V k2 b s bl h0 n _ Hla2 Hl HC2 R2 Hh0)]; [|rewrite nbuf_eq in Hn; szs].
  intros [] ? (k3 & -> & HC3 & R3 & S3). change (put_blocks bl h0) with (put_head bl h) in *. apply runs_bind.
  eapply runs_mono; [|eapply (bwrite_runs env n p Hn b s (put_head bl h) HC3); [by apply rest_slks|set_solver|done]].
  intros [] ? (k4 & -> & HC4 & B4 & F4 & L4 & Dk4 & Dt4).
  eapply runs_mono; [|eapply (brelse_runs env n p b s (put_head bl h) HC4); [by apply rest_slks|set_solver| |]].
  2: { eapply reads_core; [|exact R3]. by rewrite B4. }
  2: { right. by rewrite Dk4, lookup_insert_eq. }
  intros [] ? (k5 & -> & HC5 & S5 & K5). rewrite hold_drop in * by done. exists k5. split; [done|].
  apply (wrote_one P V k k3 k4 k5); try done; [etransitivity; [exact S1|]; by etransitivity|].
  by replace (∅ : gset nat) with ({[b]} ∖ {[b]} : gset nat) by set_solver.
Qed.

(** ** Committing *)

Definition commit_writes (s : Z) (V : gmap Z (list Z)) (bl : list Z) (h : list Z) : list (Z * list Z) :=
  logw s V bl ++ [(s, put_head bl h)] ++ ((fun b => (b, default [] (V !! b))) <$> bl) ++ [(s, put_head [] (put_head bl h))].

Section commit.
Context {s : Z} {bl : list Z} (Hbl : home_ok s bl).

Lemma log_at_reset l : log_at s bl l -> log_at s [] (l <| lh_n := 0 |>).
Proof. intros [H1 H2 H3 H4 H5]. by split. Qed.


Lemma area_apply V ws : area s V -> area s (apply_writes ws V).
Proof. intros (H1 & H2 & H3). split_and!; [done|done|]. intros b Hb. by apply apply_writes_some, H3. Qed.

Lemma commit_runs V k h :
  bl <> [] -> cached p ∅ (list_to_set bl) V t k -> log_at s bl (lg k) -> area s V -> (forall b, b ∈ bl -> is_Some (V !! b)) ->
  V !! s = Some h ->
  let ws := commit_writes s V bl h in
  runs env (commit n (MkK t k)) (fun _ s' => exists k', s' = MkK t k' /\ cached p ∅ ∅ (apply_writes ws V) t k' /\
    dsk k' = apply_writes ws (dsk k) /\ dtr k' = dtr k ++ ws /\ lg k' = (lg k) <| lh_n := 0 |> /\ same_fs k k').
Proof.
  intros Hne HC Hla Ha Hin Hh ws. pose proof Hbl as (_ & _ & Hl). pose proof Ha as (Ha1 & Ha2 & Ha3).
  assert (in_log s s) as Hss by (unfold in_log; szs).
  assert (s ∉ (list_to_set bl : gset Z)) as HsP by (intros E%elem_of_list_to_set; by destruct (home_not_log s bl _ Hbl E)).
  unfold commit. rewrite getl_bind, (la_n _ _ _ Hla). rewrite (proj2 (Z.ltb_lt _ _)) by (destruct bl; [done|cbn; lia]). cbn [mwhen].
  apply runs_bind. eapply runs_mono; [|by eapply (write_log_runs Hbl)]. intros [] ? (k1 & -> & W1).
  apply runs_bind. eapply runs_mono; [|eapply (write_head_runs _ _ k1 s bl h (wr_cache _ _ _ _ _ W1)); rewrite ?(wr_lg _ _ _ _ _ W1)];
    [|done|lia|szs| |done|exact (home_size Hbl)].
  2: { rewrite apply_writes_ne; [done|]. intros E%logw_in_log; [|done]. lia. }
  intros [] ? (k2 & -> & W2). pose proof (wrote_app _ _ _ _ _ _ _ _ W1 W2) as W12.
  apply runs_bind. eapply runs_mono; [|eapply (install_runs Hbl false _ k2 (wr_cache _ _ _ _ _ W12)); rewrite ?(wr_lg _ _ _ _ _ W12)];
    [|done|by apply area_apply|intros b Hb; by apply apply_writes_some, Hin].
  rewrite instw_logged. intros [] ? (k3 & -> & W3). pose proof (wrote_app _ _ _ _ _ _ _ _ W12 W3) as W123.
  rewrite modl_bind. set (k4 := k3 <| lg ::= _ |>).
  eapply runs_mono; [|eapply (write_head_runs ∅ (apply_writes _ V) k4 s [] (put_head bl h) (cached_lg _ _ _ _ _ _ (wr_cache _ _ _ _ _ W123)))];
    [|change (log_at s [] ((lg k3) <| lh_n := 0 |>)); rewrite (wr_lg _ _ _ _ _ W123); by apply log_at_reset|cbn; lia|szs| |set_solver|
     rewrite size_empty, nbuf_eq; lia].
  2: { rewrite apply_writes_app, apply_writes_ne, apply_writes_app; [by apply lookup_insert_eq|].
    rewrite <- list_fmap_compose, list_fmap_id. by intros E%(elem_of_list_to_set (C := gset Z)). }
  intros [] ? (k5 & -> & W5). exists k5. split; [done|].
  assert (ws = ((logw s V bl ++ [(s, put_head bl h)]) ++ ((fun b => (b, default [] (V !! b))) <$> bl)) ++ [(s, put_head [] (put_head bl h))]) as Ews
    by (unfold ws, commit_writes; by rewrite <- !app_assoc).
  rewrite Ews. destruct W123, W5. split_and!.
  - by rewrite apply_writes_app.
  - rewrite wr_dsk1, (apply_writes_app _ [_]), <- wr_dsk0. done.
  - rewrite wr_dtr1, app_assoc, <- wr_dtr0. done.
  - rewrite wr_lg1, <- wr_lg0. done.
  - etransitivity; [exact wr_fs0|]. etransitivity; [|exact wr_fs1]. by split.
Qed.
End commit.

(** ** Recovery *)

(** The header on disk names the blocks [bl]. *)
Definition head_is (h : list Z) (bl : list Z) : Prop := i32 (rd_u32 h 0) = Z.of_nat (length bl) /\ head_blocks h = bl.

Lemma head_lookup h bl i : head_is h bl -> (i < length bl)%nat -> bl !! i = Some (i32 (rd_u32 h (4 + 4 * Z.of_nat i))).
Proof.
  intros [H1 H2] Hi. rewrite <- H2. unfold head_blocks. rewrite H1, Nat2Z.id, list_lookup_fmap, lookup_seq_lt by done. done.
Qed.

Lemma read_head_loop V k b s bl h m (t' : T) :
  reads b s h k -> head_is h bl -> (length bl <= Z.to_nat LOGSIZE)%nat -> cached p {[b]} ∅ V t' k ->
  lg_dev (lg k) = ROOTDEV -> lg_start (lg k) = s -> lh_n (lg k) = Z.of_nat (length bl) ->
  length (lh_block (lg k)) = Z.to_nat LOGSIZE -> (length bl < m)%nat ->
  runs env (mwhile m (read_head_body b) 0 n (MkK t' k)) (fun _ s' => exists l, s' = MkK t' (k <| lg := l |>) /\ log_at s bl l).
Proof.
  intros Hrd Hh Hl HC L1 L2 L3 L4 Hm.
  set (I := fun i s' => exists l, s' = MkK t' (k <| lg := l |>) /\ lg_dev l = ROOTDEV /\ lg_start l = s /\
    lh_n l = Z.of_nat (length bl) /\ take i (lh_block l) = take i bl /\ length (lh_block l) = Z.to_nat LOGSIZE).
  eapply runs_mono; [|apply (runs_count env (read_head_body b) n (length bl) I) with (m := length bl) (i := 0%nat)].
  - intros [] s' (l & -> & I1 & I2 & I3 & I4 & I5). exists l. split; [done|]. split; try done. by rewrite I4, firstn_all.
  - intros i ? Hi (l & -> & I1 & I2 & I3 & I4 & I5). destruct Hrd as (x & Hx & _ & Hd).
    unfold read_head_body. rewrite getl_bind. change (lg (k <| lg := l |>)) with l. rewrite I3.
    rewrite (proj2 (Z.ltb_lt (Z.of_nat i) _)) by lia. rewrite Z.geb_leb, (proj2 (Z.leb_gt _ _)) by szs.
    assert (bufs (k <| lg := l |>) !! b = Some x) as Hx' by exact Hx. rewrite (getb_bind _ _ _ _ _ _ Hx'), modl_bind. eapply runs_ret; [reflexivity|].
    split; [done|]. rewrite Hd, Nat2Z.id. exists (l <| lh_block ::= <[i := i32 (rd_u32 h (4 + 4 * Z.of_nat i))]> |>). split; [reflexivity|].
    split_and!; [done|done|done| |cbn; by rewrite length_insert].
    cbn. pose proof (head_lookup h bl i Hh Hi) as Hb. rewrite (take_S_r bl i _ Hb), (take_S_r _ i (i32 (rd_u32 h (4 + 4 * Z.of_nat i)))).
    + by rewrite take_insert_ge, I4 by lia.
    + apply list_lookup_insert_eq. szs.
  - intros ? (l & -> & I1 & I2 & I3 & I4 & I5). eapply runs_ret; [|split; [reflexivity|by exists l]].
    unfold read_head_body. rewrite getl_bind. change (lg (k <| lg := l |>)) with l. by rewrite I3, Z.ltb_irrefl.
  - done.
  - done.
  - exists (lg k). split_and!; try done. f_equal. by destruct k.
Qed.

Lemma read_head_runs V k s bl h :
  cached p ∅ ∅ V t k -> V !! s = Some h -> 0 <= s < 2 ^ 31 -> head_is h bl -> (length bl <= Z.to_nat LOGSIZE)%nat ->
  lg_dev (lg k) = ROOTDEV -> lg_start (lg k) = s -> length (lh_block (lg k)) = Z.to_nat LOGSIZE ->
  runs env (read_head n (MkK t k)) (fun _ s' => exists k', s' = MkK t k' /\ cached p ∅ ∅ V t k' /\ log_at s bl (lg k') /\
    dsk k' = dsk k /\ dtr k' = dtr k /\ same_fs k k').
Proof.
  intros HC Hh Hs Hhd Hl L1 L2 L3. pose proof (cached_clean _ _ _ _ _ s HC ltac:(set_solver) (not_held_nil _ _)) as Hcl.
  unfold read_head. rewrite getl_bind. unfold id. rewrite L1, L2, u32_small by lia.
  apply runs_bind. eapply runs_mono; [|eapply (bread_runs env n p Hn s h HC Hr (not_held_nil _ _) ltac:(right; rewrite !size_empty, nbuf_eq; lia) Hh)].
  intros b ? (k1 & -> & Hb & HC1 & R1 & S1 & K1). rewrite union_empty_r_L in HC1.
  pose proof R1 as (x & Hx & _ & Hd). rewrite (getb_bind _ _ _ _ _ _ Hx), Hd, modl_bind. set (k2 := k1 <| lg ::= _ |>).
  pose proof (cached_lg _ _ _ _ _ (fun l => l <| lh_n := i32 (rd_u32 h 0) |>) HC1) as HC2.
  apply runs_bind. unfold mloop.
  eapply runs_mono; [|eapply (read_head_loop V k2 b s bl h n _ R1 Hhd Hl HC2)];
    [|change (lg_dev (lg k1) = ROOTDEV)|change (lg_start (lg k1) = s)|exact (proj1 Hhd)|change (length (lh_block (lg k1)) = Z.to_nat LOGSIZE)|
      rewrite nbuf_eq in Hn; szs]; rewrite ?(sk_lg _ _ S1); try done.
  intros [] ? (l & -> & Hla).
  eapply runs_mono; [|eapply (brelse_runs env n p b s h (cached_lg _ _ _ _ _ (fun _ => l) HC2)); [by apply rest_slks|set_solver|exact R1|]].
  2: { right. change (dsk k1 !! s = Some h). by rewrite (sk_dsk _ _ S1), <- Hcl. }
  intros [] ? (k3 & -> & HC3 & S3 & K3). rewrite hold_drop in * by (by eapply cached_free). exists k3.
  split_and!; [done| |by rewrite (sk_lg _ _ S3)|by rewrite (sk_dsk _ _ S3); apply (sk_dsk _ _ S1)|by rewrite (sk_dtr _ _ S3); apply (sk_dtr _ _ S1)|].
  - by replace (∅ : gset nat) with ({[b]} ∖ {[b]} : gset nat) by set_solver.
  - etransitivity; [apply (sk_fs _ _ S1)|]. etransitivity; [|apply (sk_fs _ _ S3)]. by split.
Qed.

Definition recover_writes (s : Z) (V : gmap Z (list Z)) (bl h : list Z) : list (Z * list Z) :=
  instw s V bl ++ [(s, put_head [] h)].

Section recover.
Context {s : Z} {bl h : list Z} {V : gmap Z (list Z)}.
Context (Hbl : home_ok s bl) (Ha : area s V) (Hin : forall b, b ∈ bl -> is_Some (V !! b)).
Context (Hh : V !! s = Some h) (Hhd : head_is h bl).

Lemma recover_runs k :
  cached p ∅ ∅ V t k -> lg_dev (lg k) = ROOTDEV -> lg_start (lg k) = s -> length (lh_block (lg k)) = Z.to_nat LOGSIZE ->
  let ws := recover_writes s V bl h in
  runs env (recover_from_log n (MkK t k)) (fun _ s' => exists k', s' = MkK t k' /\ cached p ∅ ∅ (apply_writes ws V) t k' /\
    dsk k' = apply_writes ws (dsk k) /\ dtr k' = dtr k ++ ws /\ log_at s [] (lg k') /\ same_fs k k').
Proof.
  intros HC L1 L2 L3 ws. pose proof Hbl as (_ & _ & Hl). pose proof Ha as (Ha1 & Ha2 & Ha3). unfold recover_from_log.
  apply runs_bind. eapply runs_mono; [|eapply (read_head_runs V k s bl h)]; try done; [|szs|szs].
  intros [] ? (k1 & -> & HC1 & Hla & Dk1 & Dt1 & F1). apply runs_bind.
  eapply runs_mono; [|by eapply (install_runs Hbl true V k1)]. intros [] ? (k2 & -> & W2). rewrite modl_bind. set (k3 := k2 <| lg ::= _ |>).
  eapply runs_mono; [|eapply (write_head_runs ∅ (apply_writes _ V) k3 s [] h (cached_lg _ _ _ _ _ _ (wr_cache _ _ _ _ _ W2)))];
    [|change (log_at s [] ((lg k2) <| lh_n := 0 |>)); rewrite (wr_lg _ _ _ _ _ W2); by eapply log_at_reset|cbn; lia|szs| |set_solver|
     rewrite size_empty, nbuf_eq; lia].
  2: { rewrite apply_writes_ne; [done|]. rewrite instw_fst. intros E. destruct (home_not_log s bl s Hbl E) as [_ Hns]. apply Hns. unfold in_log. szs. }
  intros [] ? (k4 & -> & W4). exists k4. split; [done|]. destruct W2, W4. unfold ws, recover_writes. split_and!.
  - by rewrite apply_writes_app.
  - rewrite wr_dsk1, (apply_writes_app _ [_]), <- Dk1, <- wr_dsk0. done.
  - rewrite wr_dtr1, app_assoc, <- Dt1, <- wr_dtr0. done.
  - rewrite wr_lg1. change (log_at s [] ((lg k2) <| lh_n := 0 |>)). rewrite wr_lg0. by eapply log_at_reset.
  - etransitivity; [exact F1|]. etransitivity; [exact wr_fs0|]. etransitivity; [|exact wr_fs1]. by split.
Qed.

Lemma initlog_runs k :
  cached p ∅ ∅ V t k -> sb_logstart (sb k) = s -> length (lh_block (lg k)) = Z.to_nat LOGSIZE ->
  let ws := recover_writes s V bl h in
  runs env (initlog ROOTDEV n (MkK t k)) (fun _ s' => exists k', s' = MkK t k' /\ cached p ∅ ∅ (apply_writes ws V) t k' /\
    dsk k' = apply_writes ws (dsk k) /\ dtr k' = dtr k ++ ws /\ log_at s [] (lg k') /\ same_fs k k').
Proof.
  intros HC Hs HL ws. pose proof Ha as (Ha1 & Ha2 & _). unfold initlog. change (4 + 4 * LOGSIZE >=? BSIZE) with false. cbv iota.
  unfold initlock. rewrite modT_bind, getX_bind, modl_bind.
  assert (t <| lks ::= delete LkLog |> = t) as ->.
  { destruct Hr as [_ Hl _ _]. destruct t. unfold upd. cbn in *. subst. by rewrite delete_empty. }
  eapply runs_mono; [|eapply recover_runs].
  - intros [] ? (k' & -> & H1 & H2 & H3 & H4 & H5). exists k'. split_and!; try done. etransitivity; [|exact H5]. by split.
  - by apply cached_lg.
  - done.
  - change (i32 (sb_logstart (sb k)) = s). rewrite Hs. apply i32_small. szs.
  - done.
Qed.
End recover.
End log.
