(* ===== verification/Crash.v ===== *)
(** * Transactions and crashes

    [begin_op], [log_write] and [end_op] on the logical disk, what a crash
    during the commit leaves, and recovery from it. *)

From Stdlib Require Import ZArith Lia.
From S2P Require Import Prelude Riscv KString Thread Proc Sleeplock Kalloc Kern Blocks Virtio VirtioSpec.
From S2P Require Import Lru Bio BioSpec BioOps Log LogSpec.

(** ** The disk after a prefix of the commit's writes *)

Definition homew (V : gmap Z (list Z)) (bl : list Z) : list (Z * list Z) := (fun b => (b, default [] (V !! b))) <$> bl.

Lemma homew_fst V bl : (homew V bl).*1 = bl.
Proof. unfold homew. by rewrite <- list_fmap_compose, list_fmap_id. Qed.

Lemma homew_elem V bl b d : V !! b = Some d -> b ∈ bl -> (b, d) ∈ homew V bl.
Proof. intros Hd Hb. apply list_elem_of_fmap. exists b. by rewrite Hd. Qed.

(** The disk [D] can be recovered from: its header names [bl]. *)
Record bootable (s : Z) (D : gmap Z (list Z)) (bl h : list Z) : Prop := {
  bo_head : D !! s = Some h;
  bo_is : head_is h bl;
  bo_home : home_ok s bl;
  bo_area : area s D;
  bo_in : forall b, b ∈ bl -> is_Some (D !! b)
}.

Definition recovered (s : Z) (D : gmap Z (list Z)) (bl h : list Z) : gmap Z (list Z) := apply_writes (recover_writes s D bl h) D.

(** Equal outside the log. *)
Definition same_home (s : Z) (D D' : gmap Z (list Z)) : Prop := forall b, ~ in_log s b -> D !! b = D' !! b.
#[export] Instance same_home_equiv s : Equivalence (same_home s).
Proof.
  split; [by intros D b|by intros D D' H b Hb; rewrite H|]. intros D1 D2 D3 H1 H2 b Hb. by rewrite H1, H2.
Qed.

Lemma in_log_start s : in_log s s.
Proof. unfold in_log. szs. Qed.

Lemma recovered_home s D bl h : same_home s (recovered s D bl h) (apply_writes (instw s D bl) D).
Proof.
  intros b Hb. unfold recovered, recover_writes. rewrite apply_writes_app.
  apply lookup_insert_ne. cbn. intros <-. apply Hb, in_log_start.
Qed.

Lemma home_nil s : home_ok s [].
Proof. split_and!; [apply NoDup_nil_2|constructor|cbn; szs]. Qed.

Lemma recovered_nil s D h : same_home s (recovered s D [] h) D.
Proof. apply recovered_home. Qed.

Lemma area_writes s ws E : area s E -> area s (apply_writes ws E).
Proof. intros (H1 & H2 & H3). split_and!; [done|done|]. intros b Hb. by apply apply_writes_some, H3. Qed.

Lemma head_nil_put h' : length h' = Z.to_nat BSIZE -> head_is (put_head [] h') [].
Proof. intros Hl. apply head_put; [done|cbn; lia|constructor]. Qed.

Section crash.
Context {s : Z} {bl h : list Z} {D V : gmap Z (list Z)}.
Context (Hbl : home_ok s bl) (Hclean : forall b, b ∉ bl -> V !! b = D !! b) (Hin : forall b, b ∈ bl -> is_Some (V !! b)).
Context (Hold : bootable s D [] h) (Hlen : length h = Z.to_nat BSIZE) (HinD : forall b, b ∈ bl -> is_Some (D !! b)).

(** Before the header is written: nothing has happened. *)
Lemma crash_early ws1 ws2 : logw s V bl = ws1 ++ ws2 ->
  bootable s (apply_writes ws1 D) [] h /\ same_home s (apply_writes ws1 D) D.
Proof.
  intros E. pose proof Hbl as (_ & _ & Hl).
  assert (forall a, a ∈ ws1.*1 -> s < a /\ in_log s a) as Hk.
  { intros a Ha. assert (a ∈ (logw s V bl).*1) as Ha' by (rewrite E, fmap_app; set_solver).
    pose proof (logw_in_log s V bl a Hl Ha'). unfold in_log. szs. }
  destruct Hold as [O1 O2 O3 O4 O5]. split.
  - split; try done; [|by apply area_writes|intros b Hb; set_solver].
    rewrite apply_writes_ne; [done|]. intros Hs%Hk. lia.
  - intros b Hb. apply apply_writes_ne. intros Hs%Hk. tauto.
Qed.

Lemma home_key b : b ∈ bl -> b <> s /\ b ∉ (logw s V bl).*1.
Proof.
  intros Hb. destruct (home_not_log s bl b Hbl Hb) as [_ Hnl]. pose proof Hbl as (_ & _ & Hl). split.
  - intros ->. apply Hnl, in_log_start.
  - intros Hk%logw_in_log; [|done]. apply Hnl. unfold in_log. szs.
Qed.

(** Once the header is written the whole transaction is on disk. *)
Lemma crash_late (B1 B2 : list (Z * list Z)) : homew V bl = B1 ++ B2 ->
  let E := apply_writes (logw s V bl ++ [(s, put_head bl h)] ++ B1) D in
  bootable s E bl (put_head bl h) /\ same_home s (recovered s E bl (put_head bl h)) V.
Proof.
  intros HB E. pose proof Hbl as (Hnd & Hf & Hl). destruct Hold as [O1 O2 O3 O4 O5].
  assert (forall b, b ∈ B1.*1 -> b ∈ bl) as HB1.
  { intros b Hb. rewrite <- (homew_fst V bl), HB, fmap_app. set_solver. }
  assert (forall a, in_log s a -> E !! a = apply_writes (logw s V bl ++ [(s, put_head bl h)]) D !! a) as Elog.
  { intros a Ha. unfold E. rewrite app_assoc, (apply_writes_app _ B1). apply apply_writes_ne.
    intros Hb%HB1. by destruct (home_not_log s bl a Hbl Hb). }
  assert (Forall (fun x => 0 <= x < 2 ^ 31) bl) as Hf' by (eapply Forall_impl; [exact Hf|]; cbn; tauto).
  split.
  - split; [|by apply head_put; [..|lia|]|done|by apply area_writes|intros b Hb; by apply apply_writes_some, HinD].
    rewrite Elog by apply in_log_start. rewrite apply_writes_app. apply lookup_insert_eq.
  - intros b Hb. rewrite recovered_home by done. destruct (decide (b ∈ bl)) as [Hbb|Hbb].
    + destruct (Hin b Hbb) as [d Hd]. rewrite Hd. apply apply_writes_in; [by rewrite instw_fst|].
      assert (instw s E bl = homew V bl) as ->; [|by apply homew_elem].
      unfold homew. rewrite <- (instw_logged s bl V (put_head bl h)). unfold instw. apply imap_ext. intros i x Hx. f_equal.
      pose proof (lookup_lt_Some _ _ _ Hx). rewrite Elog by (unfold in_log; szs). rewrite !apply_writes_app. cbn.
      rewrite !lookup_insert_ne by lia. by rewrite !(logged_lookup _ _ _ _ _ _ Hx).
    + rewrite apply_writes_ne by (by rewrite instw_fst). unfold E.
      rewrite apply_writes_ne; [by symmetry; apply Hclean|]. rewrite !fmap_app. cbn.
      rewrite elem_of_app, elem_of_cons. intros [Hk|[->|Hk]].
      * apply logw_in_log in Hk; [|done]. apply Hb. unfold in_log. szs.
      * apply Hb, in_log_start.
      * by apply HB1 in Hk.
Qed.

(** At the end the log is empty again. *)
Lemma crash_done :
  let E := apply_writes (commit_writes s V bl h) D in
  bootable s E [] (put_head [] (put_head bl h)) /\ same_home s E V.
Proof.
  intros E. pose proof Hbl as (Hnd & Hf & Hl). destruct Hold as [O1 O2 O3 O4 O5].
  assert (length (put_head bl h) = Z.to_nat BSIZE) as Hl2 by (apply put_head_length; [done|lia]).
  change E with (apply_writes (logw s V bl ++ [(s, put_head bl h)] ++ homew V bl ++ [(s, put_head [] (put_head bl h))]) D).
  rewrite !app_assoc, apply_writes_app. split.
  - split; [by apply lookup_insert_eq|by apply head_nil_put|apply home_nil|by apply (area_writes _ [_]), area_writes|intros b Hb; set_solver].
  - intros b Hb. etransitivity; [apply lookup_insert_ne; cbn; intros <-; apply Hb, in_log_start|].
    rewrite apply_writes_app. destruct (decide (b ∈ bl)) as [Hbb|Hbb].
    + destruct (Hin b Hbb) as [d Hd]. rewrite Hd. apply apply_writes_in; [by rewrite homew_fst|by apply homew_elem].
    + rewrite apply_writes_ne by (by rewrite homew_fst). rewrite apply_writes_ne; [by symmetry; apply Hclean|].
      rewrite fmap_app. cbn. rewrite elem_of_app, list_elem_of_singleton. intros [Hk| ->]; [|apply Hb, in_log_start].
      apply logw_in_log in Hk; [|done]. apply Hb. unfold in_log. szs.
Qed.

Lemma crash_cases ws1 ws2 : commit_writes s V bl h = ws1 ++ ws2 ->
  let E := apply_writes ws1 D in
  exists bl' h', bootable s E bl' h' /\ (ws2 <> [] /\ same_home s (recovered s E bl' h') D \/ same_home s (recovered s E bl' h') V).
Proof.
  intros Hws E. change (commit_writes s V bl h) with (logw s V bl ++ [(s, put_head bl h)] ++ homew V bl ++ [(s, put_head [] (put_head bl h))]) in Hws.
  apply app_eq_app in Hws as (l & [[H1 H2]|[H1 H2]]).
  - destruct (crash_early ws1 l H1) as [B S]. exists [], h. split; [done|]. left. rewrite recovered_nil. split; [|done].
    rewrite H2. by destruct l.
  - destruct l as [|x l]; [rewrite app_nil_r in H1|].
    { destruct (crash_early ws1 []) as [B S]; [by rewrite H1, app_nil_r|]. exists [], h. split; [done|]. left.
      rewrite recovered_nil. split; [|done]. intros ->. discriminate H2. }
    injection H2 as <- H2. apply app_eq_app in H2 as (l2 & [[H3 H4]|[H3 H4]]).
    + destruct (crash_late l l2 H3) as [B S]. exists bl, (put_head bl h). unfold E. subst ws1. by split; [|right].
    + destruct l2 as [|y l2]; [rewrite app_nil_r in H3|].
      { destruct (crash_late l []) as [B S]; [by rewrite H3, app_nil_r|]. exists bl, (put_head bl h). unfold E. subst ws1. by split; [|right]. }
      injection H4 as <- H4. symmetry in H4. apply app_eq_nil in H4 as [-> ->].
      exists [], (put_head [] (put_head bl h)). destruct (crash_done) as [B S]. unfold E. subst ws1 l. split; [done|]. right.
      by rewrite recovered_nil.
Qed.
End crash.

(** Blocks keep their size. *)
Lemma apply_wf ws : forall E, disk_wf E -> (forall b d, (b, d) ∈ ws -> 0 <= b < 2 ^ 31 /\ length d = Z.to_nat BSIZE) ->
  disk_wf (apply_writes ws E).
Proof.
  induction ws as [|[c e] ws IH]; intros E HE Hws; [done|]. rewrite apply_writes_cons. apply IH; [|intros b d Hb; apply Hws; by right].
  intros b d Hb. destruct (decide (c = b)) as [->|]; [|rewrite lookup_insert_ne in Hb by done; by apply HE].
  rewrite lookup_insert_eq in Hb. injection Hb as ->. apply Hws. left.
Qed.

Lemma commit_writes_wf s V bl h b d :
  home_ok s bl -> area s V -> disk_wf V -> (forall c, c ∈ bl -> is_Some (V !! c)) -> length h = Z.to_nat BSIZE ->
  (b, d) ∈ commit_writes s V bl h -> 0 <= b < 2 ^ 31 /\ length d = Z.to_nat BSIZE.
Proof.
  intros Hbl (A1 & A2 & _) HV Hin Hh Hb. pose proof Hbl as (_ & _ & Hl).
  assert (length (put_head bl h) = Z.to_nat BSIZE) as Hp by (apply put_head_length; [done|lia]).
  change (commit_writes s V bl h) with (logw s V bl ++ [(s, put_head bl h)] ++ homew V bl ++ [(s, put_head [] (put_head bl h))]) in Hb.
  rewrite !elem_of_app, !list_elem_of_singleton in Hb. destruct Hb as [Hb|[[= -> ->]|[Hb|[= -> ->]]]].
  - apply logw_elem in Hb as (i & c & Hc & -> & ->). destruct (Hin c) as [e He]; [by eapply list_elem_of_lookup_2|].
    rewrite He. destruct (HV c e He) as [_ He']. apply lookup_lt_Some in Hc. split; [szs|done].
  - split; [szs|done].
  - apply list_elem_of_fmap in Hb as (c & [= -> ->] & Hc). destruct (Hin c Hc) as [e He]. rewrite He. by apply (HV c).
  - split; [szs|]. by apply put_head_length; [|cbn; lia].
Qed.

(** A crash during recovery: recovering again gives the same. *)
Lemma recover_crash s D bl h ws1 ws2 :
  bootable s D bl h -> length h = Z.to_nat BSIZE -> recover_writes s D bl h = ws1 ++ ws2 ->
  exists bl' h', bootable s (apply_writes ws1 D) bl' h' /\
    same_home s (recovered s (apply_writes ws1 D) bl' h') (recovered s D bl h).
Proof.
  intros [O1 O2 O3 O4 O5] Hlen Hws. unfold recover_writes in Hws. pose proof O3 as (Hnd & _ & Hl).
  assert (forall l, instw s D bl = ws1 ++ l -> exists bl' h', bootable s (apply_writes ws1 D) bl' h' /\
    same_home s (recovered s (apply_writes ws1 D) bl' h') (recovered s D bl h)) as Hpre.
  { intros l Hl1. assert (forall b, b ∈ ws1.*1 -> b ∈ bl) as Hsub.
    { intros b Hb. rewrite <- (instw_fst s D bl), Hl1, fmap_app. set_solver. }
    assert (forall a, in_log s a -> apply_writes ws1 D !! a = D !! a) as Elog.
    { intros a Ha. apply apply_writes_ne. intros Hb%Hsub. by destruct (home_not_log s bl a O3 Hb). }
    exists bl, h. split.
    - split; [by rewrite Elog by apply in_log_start|done|done|by apply area_writes|intros b Hb; by apply apply_writes_some, O5].
    - assert (instw s (apply_writes ws1 D) bl = instw s D bl) as Ei.
      { unfold instw. apply imap_ext. intros i x Hx. f_equal. pose proof (lookup_lt_Some _ _ _ Hx). rewrite Elog; [done|unfold in_log; szs]. }
      rewrite !recovered_home, Ei. intros b Hb. destruct (decide (b ∈ bl)) as [Hbb|Hbb].
      + rewrite <- (instw_fst s D bl) in Hbb. apply list_elem_of_fmap in Hbb as ([c d] & -> & Hin). cbn.
        rewrite !(apply_writes_in _ c d); by rewrite ?instw_fst.
      + rewrite !apply_writes_ne; rewrite ?instw_fst; try done. by intros Hk%Hsub. }
  apply app_eq_app in Hws as (l & [[H1 H2]|[H1 H2]]); [by eapply Hpre|].
  destruct l as [|x l]; [apply (Hpre []); by rewrite H1, !app_nil_r|].
  injection H2 as <- H2. symmetry in H2. apply app_eq_nil in H2 as [-> ->]. subst ws1.
  exists [], (put_head [] h). split; [|by rewrite recovered_nil].
  split; [rewrite apply_writes_app; apply lookup_insert_eq|by apply head_nil_put|apply home_nil|by apply area_writes|intros b Hb; set_solver].
Qed.

(** ** Transactions *)

(** A transaction of [o] operations is under way: the blocks [bl] are in the
    log, [V] is what the file system shows and [D] what is on disk. *)
Record txn (p : nat) (s o : Z) (H : gset nat) (bl : list Z) (V D : gmap Z (list Z)) (t : T) (k : kern) : Prop := {
  tx_cache : cached p H (list_to_set bl) V t k;
  tx_log : log_at s bl (lg k);
  tx_home : home_ok s bl;
  tx_area : area s V;
  tx_size : lg_size (lg k) = LOGSIZE;
  tx_out : lg_outstanding (lg k) = o;
  tx_com : lg_committing (lg k) = 0;
  tx_disk : dsk k = D;
  tx_wf : disk_wf D;
  tx_head : exists h, D !! s = Some h /\ head_is h []
}.
Arguments tx_cache {_ _ _ _ _ _ _ _ _} _.
Arguments tx_log {_ _ _ _ _ _ _ _ _} _.
Arguments tx_home {_ _ _ _ _ _ _ _ _} _.
Arguments tx_area {_ _ _ _ _ _ _ _ _} _.
Arguments tx_size {_ _ _ _ _ _ _ _ _} _.
Arguments tx_out {_ _ _ _ _ _ _ _ _} _.
Arguments tx_com {_ _ _ _ _ _ _ _ _} _.
Arguments tx_disk {_ _ _ _ _ _ _ _ _} _.
Arguments tx_wf {_ _ _ _ _ _ _ _ _} _.
Arguments tx_head {_ _ _ _ _ _ _ _ _} _.

Lemma log_index_in bl bno : Forall (fun b => 0 <= b < 2 ^ 31) bl -> bno ∈ bl ->
  exists i, log_index bl bno = i /\ bl !! i = Some bno.
Proof.
  induction bl as [|x bl IH]; intros Hf Hb; [by apply not_elem_of_nil in Hb|]. apply Forall_cons in Hf as [Hx Hf]. cbn.
  rewrite u32_small by lia. destruct (Z.eqb_spec x bno) as [->|Hne]; [by exists 0%nat|].
  apply elem_of_cons in Hb as [->|Hb]; [done|]. destruct (IH Hf Hb) as (i & Hi & Hl). exists (S i). by rewrite Hi.
Qed.

Lemma log_index_out bl bno : Forall (fun b => 0 <= b < 2 ^ 31) bl -> bno ∉ bl -> log_index bl bno = length bl.
Proof.
  induction bl as [|x bl IH]; intros Hf Hb; [done|]. apply Forall_cons in Hf as [Hx Hf]. apply not_elem_of_cons in Hb as [H1 H2]. cbn.
  rewrite u32_small by lia. destruct (Z.eqb_spec x bno) as [->|Hne]; [done|]. by rewrite IH.
Qed.

(** What [log_write] makes of the list of logged blocks. *)
Definition absorb (bno : Z) (bl : list Z) : list Z := if decide (bno ∈ bl) then bl else bl ++ [bno].

Section ops.
Context (n p : nat).
Context {s o : Z} {H : gset nat} {bl : list Z} {V D : gmap Z (list Z)} {t : T} {k : kern}.
Context (Hr : rest p t) (HT : txn p s o H bl V D t k).

Lemma txn_range : Forall (fun b => 0 <= b < 2 ^ 31) bl.
Proof. destruct (tx_home HT) as (_ & Hf & _). eapply Forall_impl; [exact Hf|]. cbn. tauto. Qed.

Lemma txn_lg f :
  log_at s bl (f (lg k)) -> lg_size (f (lg k)) = LOGSIZE -> lg_committing (f (lg k)) = 0 ->
  txn p s (lg_outstanding (f (lg k))) H bl V D t (k <| lg ::= f |>).
Proof. intros F1 F2 F3. destruct HT. split; try done. by apply cached_lg. Qed.

Lemma begin_op_spec :
  n <> 0%nat -> Z.of_nat (length bl) + (o + 1) * MAXOPBLOCKS <= LOGSIZE ->
  exists k', begin_op n (MkK t k) = Ret tt (MkK t k') /\ txn p s (o + 1) H bl V D t k' /\ same_fs k k' /\ bufs k' = bufs k.
Proof.
  intros Hn Hroom. pose proof Hr as [Hc Hl _ _]. exists (k <| lg ::= fun l => l <| lg_outstanding := lg_outstanding l + 1 |> |>).
  split_and!; [| |by split|done].
  - unfold begin_op, mloop. rewrite acquire_bind by (by rewrite Hl). destruct n as [|n']; [done|].
    apply mwhile_inr. unfold begin_op_body. rewrite getl_bind. unfold id. rewrite (tx_com HT), Z.eqb_refl. cbn [negb].
    rewrite (la_n _ _ _ (tx_log HT)), (tx_out HT). rewrite Z.gtb_ltb, (proj2 (Z.ltb_ge _ _)) by lia.
    rewrite modl_bind, release_bind; [reflexivity|exact (ca_ok _ _ Hc)|by rewrite Hl].
  - pose proof (txn_lg (fun l => l <| lg_outstanding := lg_outstanding l + 1 |>)) as HT'.
    replace (o + 1) with (lg_outstanding (lg k) + 1) by (by rewrite (tx_out HT)).
    apply HT'; [by destruct (tx_log HT); split|apply HT|apply HT].
Qed.

Lemma log_at_take l : log_at s bl l -> take (Z.to_nat (lh_n l)) (lh_block l) = bl.
Proof. intros [_ _ L3 L4 _]. by rewrite L3, Nat2Z.id. Qed.

Lemma log_at_snoc l bno : log_at s bl l -> (length bl < Z.to_nat LOGSIZE)%nat ->
  log_at s (bl ++ [bno]) (l <| lh_block ::= <[length bl := bno]> |> <| lh_n := lh_n l + 1 |>).
Proof.
  intros [L1 L2 L3 L4 L5] Hl. split; try done; cbn.
  - rewrite length_app, L3. cbn. lia.
  - rewrite length_app. cbn. rewrite Nat.add_1_r, (take_S_r _ _ bno) by (apply list_lookup_insert_eq; lia).
    by rewrite take_insert_ge, L4 by lia.
  - by rewrite length_insert.
Qed.

Lemma t_acq_free lk lk' : lks t = ∅ -> lk <> lk' -> lks (t_acq lk t) !! lk' = None.
Proof. intros Hl Hne. unfold t_acq. cbn. rewrite lookup_insert_ne, Hl by done. done. Qed.

(** The list grows by a block that is pinned in the cache. *)
Lemma log_write_new b bno d :
  b ∈ H -> reads b bno d k -> 1 <= o -> (length bl < Z.to_nat LOGSIZE - 1)%nat -> ~ in_log s bno -> bno ∉ bl ->
  0 <= bno < 2 ^ 31 ->
  exists k', log_write b n (MkK t k) = Ret tt (MkK t k') /\ txn p s o H (bl ++ [bno]) V D t k' /\ reads b bno d k' /\
    keep b k k' /\ same_fs k k'.
Proof.
  intros Hb Hrd Ho Hl Hnl Hnew Hrng. pose proof Hr as [Hc Hlk _ _]. pose proof (tx_log HT) as Hla. pose proof Hrd as (x & Hx & [_ C2] & _).
  set (kl := k <| lg ::= fun l => l <| lh_block ::= <[length bl := bno]> |> |>).
  destruct (bpin_runs n p (t_acq LkLog t) b bno d (k := kl) (cached_lg _ _ _ _ _ _ _ (tx_cache HT)) (calm_acq p LkLog t ltac:(done) Hc)
    (t_acq_free LkLog LkBcache Hlk ltac:(done)) Hb Hrd ltac:(by rewrite elem_of_list_to_set)) as (k2 & E2 & HC2 & R2 & S2 & K2).
  exists (k2 <| lg ::= fun l => l <| lh_n := lh_n l + 1 |> |>). split_and!.
  - unfold log_write. rewrite acquire_bind by (by rewrite Hlk). rewrite getl_bind. unfold id.
    rewrite (tx_size HT), (tx_out HT), (log_at_take _ Hla), (la_n _ _ _ Hla).
    rewrite !Z.geb_leb, !(proj2 (Z.leb_gt _ _)), (proj2 (Z.ltb_ge _ _)) by szs. cbn [orb].
    rewrite (getb_bind _ _ _ _ _ _ Hx), C2, (log_index_out bl bno txn_range Hnew). rewrite modl_bind, i32_small by lia. fold kl.
    rewrite Z.eqb_refl. cbn [mwhen]. erewrite bind_ret; [|erewrite bind_ret; [reflexivity|exact E2]].
    apply release_spec; [exact (ca_ok _ _ Hc)|by rewrite Hlk].
  - destruct HT. split; try done.
    + apply cached_lg. rewrite list_to_set_app_L. cbn. replace (list_to_set bl ∪ ({[bno]} ∪ ∅)) with ({[bno]} ∪ list_to_set bl : gset Z) by set_solver. exact HC2.
    + change (log_at s (bl ++ [bno]) ((lg k2) <| lh_n := lh_n (lg k2) + 1 |>)). rewrite (sk_lg _ _ S2). apply (log_at_snoc (lg k)); [done|lia].
    + destruct tx_home0 as (N1 & N2 & N3). split_and!; [apply NoDup_app; split_and!; [done|set_solver|apply NoDup_singleton]|by apply Forall_app; split; [|constructor]|].
      rewrite length_app. cbn. lia.
    + change (lg_size (lg k2) = LOGSIZE). by rewrite (sk_lg _ _ S2).
    + change (lg_outstanding (lg k2) = o). by rewrite (sk_lg _ _ S2).
    + change (lg_committing (lg k2) = 0). by rewrite (sk_lg _ _ S2).
    + change (dsk k2 = D). by rewrite (sk_dsk _ _ S2).
  - exact R2.
  - intros c bno' d' Hc' Hrd'. by apply (K2 c bno' d' Hc').
  - etransitivity; [|etransitivity; [apply (sk_fs _ _ S2)|]]; by split.
Qed.

(** A block that is already there is absorbed. *)
Lemma log_write_old b bno d :
  b ∈ H -> reads b bno d k -> 1 <= o -> (length bl < Z.to_nat LOGSIZE - 1)%nat -> bno ∈ bl ->
  log_write b n (MkK t k) = Ret tt (MkK t k).
Proof.
  intros Hb Hrd Ho Hl Hin. pose proof Hr as [Hc Hlk _ _]. pose proof (tx_log HT) as Hla. pose proof Hrd as (x & Hx & [_ C2] & _).
  unfold log_write. rewrite acquire_bind by (by rewrite Hlk). rewrite getl_bind. unfold id.
  rewrite (tx_size HT), (tx_out HT), (log_at_take _ Hla), (la_n _ _ _ Hla).
  rewrite !Z.geb_leb, !(proj2 (Z.leb_gt _ _)), (proj2 (Z.ltb_ge _ _)) by szs. cbn [orb].
  rewrite (getb_bind _ _ _ _ _ _ Hx), C2. destruct (log_index_in bl bno txn_range Hin) as (i & -> & Hi).
  pose proof (lookup_lt_Some _ _ _ Hi). rewrite (proj2 (Z.eqb_neq _ _)) by lia. rewrite modl_bind. cbn [mwhen]. rewrite ret_bind.
  assert (0 <= bno < 2 ^ 31) as Hrng by (pose proof txn_range as Hf; rewrite Forall_forall in Hf; by apply Hf).
  rewrite i32_small by lia.
  assert (k <| lg ::= fun l => l <| lh_block ::= <[i := bno]> |> |> = k) as ->.
  { unfold upd. replace (MkLog _ _ _ _ _ _ _) with (lg k); [by destruct k|]. rewrite list_insert_id; [by destruct (lg k)|].
    rewrite <- (la_bl _ _ _ Hla) in Hi. by rewrite lookup_take_lt in Hi. }
  apply release_spec; [exact (ca_ok _ _ Hc)|by rewrite Hlk].
Qed.

Lemma log_write_spec b bno d :
  b ∈ H -> reads b bno d k -> 1 <= o -> (length bl < Z.to_nat LOGSIZE - 1)%nat -> ~ in_log s bno ->
  exists k', log_write b n (MkK t k) = Ret tt (MkK t k') /\ txn p s o H (absorb bno bl) V D t k' /\ reads b bno d k' /\
    keep b k k' /\ same_fs k k'.
Proof.
  intros Hb Hrd Ho Hl Hnl. unfold absorb. destruct (decide (bno ∈ bl)) as [Hin|Hin].
  - exists k. split_and!; [by eapply log_write_old|done|done|by intros c bno' d' _|done].
  - eapply log_write_new; try done. destruct (tx_cache HT) as [order HB].
    by destruct (held_facts p HB Hb Hrd) as (x & _ & _ & _ & _ & _ & _ & _ & _ & _ & Hrng & _).
Qed.

Lemma txn_clean b : H = ∅ -> b ∉ bl -> V !! b = D !! b.
Proof.
  intros -> Hb. rewrite <- (tx_disk HT). eapply cached_clean; [apply HT|by rewrite elem_of_list_to_set|apply not_held_nil].
Qed.

Lemma txn_in b : b ∈ bl -> is_Some (V !! b) /\ is_Some (D !! b).
Proof.
  intros Hb. destruct (tx_cache HT) as [order HB]. destruct (bc_pinned HB b) as (i & x & Hi & Hx & [C1 C2]); [by apply elem_of_list_to_set|].
  assert (is_Some (V !! b)) as HV.
  { destruct (bc_buf HB i x Hi Hx) as [_ O2 _ _ _ O6]. rewrite C2 in *. destruct O2 as [[O2 O2']|[_ O2]]; [|done].
    rewrite C1 in O2. discriminate O2. }
  split; [done|]. rewrite <- (tx_disk HT). by apply (bc_dom HB).
Qed.

Lemma txn_area_disk : area s D.
Proof.
  destruct (tx_area HT) as (A1 & A2 & A3). split_and!; [done|done|]. intros b Hb%A3.
  destruct (tx_cache HT) as [order HB]. rewrite <- (tx_disk HT). by apply (bc_dom HB).
Qed.

Lemma txn_bootable h : D !! s = Some h -> head_is h [] -> bootable s D [] h.
Proof. intros H1 H2. split; [done|done|apply home_nil|apply txn_area_disk|by intros b Hb%not_elem_of_nil]. Qed.
End ops.

Section end_op.
Context (env : kst kern -> option (kst kern)) {BD : BlockDev env}.
Context (n p : nat) (Hn : (nbuf < n)%nat).
Context {s : Z} {bl : list Z} {V D : gmap Z (list Z)} {t : T} {k : kern}.
Context (Hr : rest p t) (HT : txn p s 1 ∅ bl V D t k).

(** [commit], also of an empty transaction. *)
Definition commit_ws (h : list Z) : list (Z * list Z) := if decide (bl = []) then [] else commit_writes s V bl h.

Lemma commit_any k0 h :
  D !! s = Some h -> cached p ∅ (list_to_set bl) V t k0 -> log_at s bl (lg k0) ->
  runs env (commit n (MkK t k0)) (fun _ s' => exists k', s' = MkK t k' /\ cached p ∅ ∅ (apply_writes (commit_ws h) V) t k' /\
    dsk k' = apply_writes (commit_ws h) (dsk k0) /\ dtr k' = dtr k0 ++ commit_ws h /\ lg k' = (lg k0) <| lh_n := 0 |> /\ same_fs k0 k').
Proof.
  intros Hh HC Hla. unfold commit_ws. destruct (decide (bl = [])) as [E|Hne].
  - eapply runs_ret; [|exists k0; split; [reflexivity|]].
    + unfold commit. rewrite getl_bind, (la_n _ _ _ Hla), E. reflexivity.
    + rewrite E in HC. split_and!; [done|done|by rewrite app_nil_r| |done].
      pose proof (la_n _ _ _ Hla) as Hn0. rewrite E in Hn0. destruct (lg k0). cbn in *. by rewrite Hn0.
  - eapply (commit_runs env n p Hn Hr (tx_home HT)); try done.
    + apply HT.
    + intros b Hb. by apply (txn_in p HT).
    + rewrite (txn_clean p HT s eq_refl); [done|]. intros Hs. destruct (home_not_log s bl s (tx_home HT) Hs) as [_ Hns]. apply Hns, in_log_start.
Qed.

Lemma cached_wf H P U t' k' : cached p H P U t' k' -> disk_wf U.
Proof. intros [order HB] b d Hb. by apply (bc_rng HB). Qed.

Lemma head_len h : D !! s = Some h -> length h = Z.to_nat BSIZE.
Proof. intros Hh. by apply (tx_wf HT s). Qed.

Lemma commit_ws_elem h b d : D !! s = Some h -> (b, d) ∈ commit_ws h -> 0 <= b < 2 ^ 31 /\ length d = Z.to_nat BSIZE.
Proof.
  intros Hh. unfold commit_ws. destruct (decide _); [by intros Hb%not_elem_of_nil|].
  apply commit_writes_wf; [apply HT|apply HT|eapply cached_wf, HT|intros c Hc; by apply (txn_in p HT)|by apply head_len].
Qed.

Lemma commit_ws_wf h : D !! s = Some h -> disk_wf (apply_writes (commit_ws h) D).
Proof. intros Hh. apply apply_wf; [apply HT|]. intros b d. by apply commit_ws_elem. Qed.

Lemma end_op_runs h :
  D !! s = Some h -> head_is h [] ->
  let ws := commit_ws h in
  runs env (end_op n (MkK t k)) (fun _ s' => exists k', s' = MkK t k' /\
    txn p s 0 ∅ [] (apply_writes ws V) (apply_writes ws D) t k' /\ dtr k' = dtr k ++ ws /\ same_fs k k').
Proof.
  intros Hh Hhd ws. pose proof Hr as [Hc Hl _ _]. pose proof (tx_log HT) as Hla.
  unfold end_op. rewrite acquire_bind by (by rewrite Hl). rewrite modl_bind, getl_bind.
  set (k1 := k <| lg ::= _ |>). change (lg_committing (lg k1)) with (lg_committing (lg k)). rewrite (tx_com HT), Z.eqb_refl. cbn [negb].
  rewrite getl_bind. change (lg_outstanding (lg k1)) with (lg_outstanding (lg k) - 1). rewrite (tx_out HT). change (1 - 1 =? 0) with true. cbv iota.
  set (k2 := k1 <| lg ::= fun l => l <| lg_committing := 1 |> |>).
  rewrite (bind_ret _ _ _ _ true (MkK (t_acq LkLog t) k2)) by reflexivity.
  rewrite release_bind by (exact (ca_ok _ _ Hc) || by rewrite Hl). cbn [mwhen]. apply runs_bind.
  eapply runs_mono; [|eapply (commit_any k2 h Hh)].
  2: { apply cached_lg, cached_lg, HT. }
  2: { destruct Hla. by split. }
  intros [] ? (k3 & -> & HC3 & Dk3 & Dt3 & L3 & F3). fold ws in HC3, Dk3, Dt3.
  rewrite acquire_bind, modl_bind by (by rewrite Hl).
  rewrite (bind_ret _ _ _ _ _ _ (wakeup_quiet p (t_acq LkLog t) ChLog n _ (calm_acq p LkLog t ltac:(done) Hc) eq_refl)).
  eapply runs_ret; [apply release_spec; [exact (ca_ok _ _ Hc)|by rewrite Hl]|].
  eexists. split; [reflexivity|]. split_and!; [|exact Dt3|etransitivity; [|etransitivity; [exact F3|]]; by split].
  assert (exists h', apply_writes ws D !! s = Some h' /\ head_is h' []) as Hhead.
  { unfold ws, commit_ws. destruct (decide (bl = [])); [by exists h|].
    destruct (crash_done (tx_home HT) (fun b => txn_clean p HT b eq_refl) (fun b Hb => proj1 (txn_in p HT b Hb)) (txn_bootable p HT h Hh Hhd)) as [[B1 B2 _ _ _] _]; [|intros b Hb; by apply (txn_in p HT)|eauto].
    by apply head_len. }
  split; [by apply cached_lg| | | | | | | |by apply commit_ws_wf|exact Hhead].
  - change (log_at s [] ((lg k3) <| lg_committing := 0 |>)). rewrite L3. destruct Hla. by split.
  - apply home_nil.
  - apply area_writes, HT.
  - change (lg_size ((lg k3) <| lg_committing := 0 |>) = LOGSIZE). rewrite L3. apply HT.
  - change (lg_outstanding ((lg k3) <| lg_committing := 0 |>) = 0). rewrite L3. change (lg_outstanding (lg k) - 1 = 0). by rewrite (tx_out HT).
  - done.
  - change (dsk k3 = apply_writes ws D). rewrite Dk3. change (dsk k2) with (dsk k). by rewrite (tx_disk HT).
Qed.
End end_op.
