(* ===== verification/Txn.v ===== *)
(** * Reading and updating blocks inside a transaction

    The pattern of fs.c (read a block, change it, log it, release it) on the
    logical disk, and the theorems about the log. *)

From Stdlib Require Import ZArith Lia.
From S2P Require Import Prelude Riscv KString Thread Proc Sleeplock Kalloc Kern Blocks Virtio VirtioSpec.
From S2P Require Import Lru Bio BioSpec BioOps Log LogSpec Crash.

Section blocks.
Context (env : kst kern -> option (kst kern)) {BD : BlockDev env}.
Context (n p : nat) (Hn : (nbuf < n)%nat).
Context {s o : Z} {H : gset nat} {bl : list Z} {V D : gmap Z (list Z)} {t : T} {k : kern}.
Context (Hr : rest p t) (HT : txn p s o H bl V D t k).

Lemma txn_same H' P' t' k' :
  cached p H' (list_to_set bl) P' t' k' -> area s P' -> lg k' = lg k -> dsk k' = dsk k -> txn p s o H' bl P' D t' k'.
Proof. intros HC HA E1 E2. destruct HT. split; rewrite ?E1, ?E2; done. Qed.

Definition room (bno : Z) : Prop := bno ∈ bl \/ (size H + length bl < nbuf)%nat.

Lemma room_cache bno : room bno -> bno ∈ (list_to_set bl : gset Z) \/ (size H + size (list_to_set bl : gset Z) < nbuf)%nat.
Proof.
  intros [Hin|Hs]; [left; by apply elem_of_list_to_set|right]. destruct (tx_home HT) as (Hnd & _). by rewrite size_list_to_set.
Qed.

Lemma tx_bread bno d :
  not_held H bno k -> room bno -> V !! bno = Some d ->
  runs env (bread ROOTDEV bno n (MkK t k)) (fun b s' => exists k', s' = MkK (hold (SLBuf b) p t) k' /\ b ∉ H /\
    slks t !! SLBuf b = None /\ txn p s o ({[b]} ∪ H) bl V D (hold (SLBuf b) p t) k' /\ reads b bno d k' /\ keep b k k' /\ same_fs k k' /\
    (bno ∈ bl \/ D !! bno = Some d)).
Proof.
  intros Hnh Hroom HV. eapply runs_mono; [|eapply (bread_runs env n p Hn bno d (tx_cache HT) Hr Hnh (room_cache bno Hroom) HV)].
  intros b ? (k' & -> & Hb & HC & R & S & K). exists k'.
  split_and!; [done|done|by eapply cached_free; [apply HT|]| |done|done|apply S|].
  - apply txn_same; [done|apply HT|apply S|apply S].
  - destruct (decide (bno ∈ bl)) as [|Hin]; [by left|right]. rewrite <- (tx_disk HT), <- HV. symmetry.
    eapply cached_clean; [apply HT|by rewrite elem_of_list_to_set|done].
Qed.

Lemma tx_brelse b bno d :
  b ∈ H -> reads b bno d k -> bno ∈ bl \/ D !! bno = Some d ->
  runs env (brelse b n (MkK t k)) (fun _ s' => exists k', s' = MkK (drop_sl (SLBuf b) t) k' /\
    txn p s o (H ∖ {[b]}) bl V D (drop_sl (SLBuf b) t) k' /\ keep b k k' /\ same_fs k k').
Proof.
  intros Hb Hrd Hcl. eapply runs_mono; [|eapply (brelse_runs env n p b bno d (tx_cache HT) Hr Hb Hrd)].
  - intros [] ? (k' & -> & HC & S & K). exists k'. split_and!; [done| |done|apply S]. apply txn_same; [done|apply HT|apply S|apply S].
  - destruct Hcl; [left; by apply elem_of_list_to_set|right; by rewrite (tx_disk HT)].
Qed.

Lemma tx_set b bno d d' :
  b ∈ H -> reads b bno d k -> length d' = Z.to_nat BSIZE ->
  let k' := k <| bufs ::= alter (fun x => x <| b_data := d' |>) b |> in
  txn p s o H bl (<[bno := d']> V) D t k' /\ reads b bno d' k' /\ keep b k k' /\ same_fs k k'.
Proof.
  intros Hb Hrd Hl k'. destruct (set_data_runs p b bno d d' (tx_cache HT) Hb Hrd Hl) as (HC & R & S & K).
  split_and!; [|done|done|apply S]. apply txn_same; [done| |done|done].
  destruct (tx_area HT) as (A1 & A2 & A3). split_and!; [done|done|]. intros c Hc.
  destruct (decide (bno = c)) as [->|]; [rewrite lookup_insert_eq; eauto|rewrite lookup_insert_ne by done; by apply A3].
Qed.
End blocks.

(** What the held buffers show is kept. *)
Definition keeps (H : gset nat) (k k' : kern) : Prop := forall c bno d, c ∈ H -> reads c bno d k -> reads c bno d k'.
#[export] Instance keeps_preorder H : PreOrder (keeps H).
Proof. split; [by intros k c bno d _|]. intros k1 k2 k3 H1 H2 c bno d Hc Hr. by apply H2, H1. Qed.

Lemma keep_keeps b H k k' : b ∉ H -> keep b k k' -> keeps H k k'.
Proof. intros Hb K c bno d Hc. apply K. by intros ->. Qed.

(** A block is read, changed, logged and released. *)
Definition update_block (bno : Z) (g : list Z -> list Z) : KK () :=
  b ← bread ROOTDEV bno;
  modb b (fun x => x <| b_data ::= g |>) ;;
  log_write b ;;
  brelse b.

Lemma update_runs env (BD : BlockDev env) n p s o H bl V D t k bno d g (body : nat -> KK ()) :
  (forall b k1, same_fs k k1 -> body b n (MkK (hold (SLBuf b) p t) k1) =
    (modb b (fun x => x <| b_data ::= g |>) ;; log_write b ;; brelse b) n (MkK (hold (SLBuf b) p t) k1)) ->
  (nbuf < n)%nat -> rest p t -> txn p s o H bl V D t k -> 1 <= o -> (length bl < Z.to_nat LOGSIZE - 1)%nat -> ~ in_log s bno ->
  not_held H bno k -> @room H bl bno -> V !! bno = Some d -> length (g d) = Z.to_nat BSIZE ->
  runs env ((b ← bread ROOTDEV bno; body b) n (MkK t k)) (fun _ s' => exists k', s' = MkK t k' /\
    txn p s o H (absorb bno bl) (<[bno := g d]> V) D t k' /\ same_fs k k' /\ keeps H k k').
Proof.
  intros Hbody Hn Hr HT Ho Hl Hnl Hnh Hroom HV Hg. apply runs_bind.
  eapply runs_mono; [|by eapply (tx_bread env n p Hn Hr HT bno d)].
  intros b ? (k1 & -> & Hb & Hfree & HT1 & R1 & K1 & F1 & _). rewrite (Hbody b k1 F1), modb_bind.
  assert (rest p (hold (SLBuf b) p t)) as Hr1 by (by apply rest_slks).
  destruct (tx_set p HT1 b bno d (g d) ltac:(set_solver) R1 Hg) as (HT2 & R2 & K2 & F2).
  replace (k1 <| bufs ::= alter (fun x => x <| b_data ::= g |>) b |>) with (k1 <| bufs ::= alter (fun x => x <| b_data := g d |>) b |>).
  2: { unfold upd. f_equal. destruct R1 as (x & Hx & _ & Hd). rewrite !(alter_insert _ _ _ _ Hx). by rewrite Hd. }
  destruct (log_write_spec n p Hr1 HT2 b bno (g d) ltac:(set_solver) R2 Ho Hl Hnl) as (k3 & E3 & HT3 & R3 & K3 & F3).
  rewrite (bind_ret _ _ _ _ _ _ E3).
  eapply runs_mono; [|eapply (tx_brelse env n p Hr1 HT3 b bno (g d) ltac:(set_solver) R3)].
  - intros [] ? (k4 & -> & HT4 & K4 & F4). rewrite hold_drop in * by done. exists k4. split; [done|].
    rewrite unheld in HT4 by done. split_and!; [done|by do 3 (etransitivity; [eassumption|])|].
    apply (keep_keeps b); [done|]. do 3 (eapply keep_trans; [eassumption|]). done.
  - left. unfold absorb. destruct (decide (bno ∈ bl)); set_solver.
Qed.

Lemma update_block_runs env (BD : BlockDev env) n p s o H bl V D t k bno d g :
  (nbuf < n)%nat -> rest p t -> txn p s o H bl V D t k -> 1 <= o -> (length bl < Z.to_nat LOGSIZE - 1)%nat -> ~ in_log s bno ->
  not_held H bno k -> @room H bl bno -> V !! bno = Some d -> length (g d) = Z.to_nat BSIZE ->
  runs env (update_block bno g n (MkK t k)) (fun _ s' => exists k', s' = MkK t k' /\
    txn p s o H (absorb bno bl) (<[bno := g d]> V) D t k' /\ same_fs k k' /\ keeps H k k').
Proof. by apply update_runs. Qed.

(** ** The theorems *)

Lemma cached_dsk p P V t k : cached p ∅ P V t k -> P = ∅ -> V = dsk k.
Proof. intros HC ->. apply map_eq. intros b. eapply cached_clean; [exact HC|set_solver|apply not_held_nil]. Qed.

(** The disk attached to a kernel that has just been loaded. *)
Record booting (s : Z) (D : gmap Z (list Z)) (k : kern) : Prop := {
  bt_bufs : bufs k = replicate (S nbuf) buf0;
  bt_idle : disk_idle (vd k);
  bt_dsk : dsk k = D;
  bt_sb : sb_logstart (sb k) = s;
  bt_lh : length (lh_block (lg k)) = Z.to_nat LOGSIZE
}.

Section boot.
Context (env : kst kern -> option (kst kern)) {BD : BlockDev env}.
Context (n p : nat) (Hn : (nbuf < n)%nat).

Lemma boot_runs s D bl h t k :
  bootable s D bl h -> disk_wf D -> rest p t -> slks t = ∅ -> booting s D k ->
  runs env ((binit ;; initlog ROOTDEV) n (MkK t k)) (fun _ s' => exists k', s' = MkK t k' /\
    cached p ∅ ∅ (recovered s D bl h) t k' /\ dsk k' = recovered s D bl h /\ dtr k' = dtr k ++ recover_writes s D bl h /\
    log_at s [] (lg k')).
Proof.
  intros [O1 O2 O3 O4 O5] Hwf Hr Hs [B1 B2 B3 B4 B5]. pose proof Hr as [_ Hl _ _].
  rewrite (bind_ret _ _ _ _ _ _ (binit_run n t k Hl Hs B1)). set (k1 := k <| bufs := binit_bufs |>).
  assert (cached p ∅ ∅ D t k1) as HC.
  { exists (reverse (seq 0 nbuf)). rewrite <- B3. apply (binit_bcache p t k1); try done. by rewrite <- B3 in Hwf. }
  eapply runs_mono; [|eapply (initlog_runs env n p Hn Hr O3 O4 O5 O1 O2 k1 HC B4 B5)].
  intros [] ? (k' & -> & H1 & H2 & H3 & H4 & _). exists k'. split_and!; try done. rewrite H2. change (dsk k1) with (dsk k). by rewrite B3.
Qed.
End boot.

(** C1: commit is atomic and durable across a crash.  When [end_op] ends the
    last operation of a transaction whose logical disk is [V], it writes a
    sequence [ws] of blocks and afterwards the home blocks on disk are those
    of [V].  If the machine stops after any prefix [ws1] of these writes and
    a freshly loaded kernel boots on what is on disk ([binit], then
    [initlog]), then recovery completes and the disk shows either all of the
    transaction or, only if some of the writes are missing, none of it. *)
Theorem end_op_crash_safe env (BD : BlockDev env) n p s bl V D t k :
  (nbuf < n)%nat -> rest p t -> txn p s 1 ∅ bl V D t k ->
  runs env (end_op n (MkK t k)) (fun _ s' => exists ws,
    thr s' = t /\ dtr (own s') = dtr k ++ ws /\ dsk (own s') = apply_writes ws D /\ same_home s (dsk (own s')) V /\
    forall ws1 ws2, ws = ws1 ++ ws2 ->
    forall pB tB kB, rest pB tB -> slks tB = ∅ -> booting s (apply_writes ws1 D) kB ->
    runs env ((binit ;; initlog ROOTDEV) n (MkK tB kB)) (fun _ sB => exists D',
      cached pB ∅ ∅ D' (thr sB) (own sB) /\ dsk (own sB) = D' /\
      (ws2 <> [] /\ same_home s D' D \/ same_home s D' V))).
Proof.
  intros Hn Hr HT. destruct (tx_head HT) as (h & Hh & Hhd). pose proof (txn_bootable p HT h Hh Hhd) as Hboot.
  eapply runs_mono; [|exact (end_op_runs env n p Hn Hr HT h Hh Hhd)]. intros [] ? (k' & -> & HT' & Hdt & _).
  set (ws := @commit_ws s bl V h) in *. exists ws. cbn [thr own]. rewrite (tx_disk HT').
  assert (forall ws1 ws2, ws = ws1 ++ ws2 -> exists bl' h', bootable s (apply_writes ws1 D) bl' h' /\
    (ws2 <> [] /\ same_home s (recovered s (apply_writes ws1 D) bl' h') D \/ same_home s (recovered s (apply_writes ws1 D) bl' h') V)) as Hcases.
  { intros ws1 ws2 E. unfold ws, commit_ws in E. destruct (decide (bl = [])) as [->|].
    - symmetry in E. apply app_eq_nil in E as [-> ->]. exists [], h. split; [done|]. right. rewrite recovered_nil.
      intros b _. symmetry. apply (txn_clean p HT b eq_refl). set_solver.
    - eapply (crash_cases (tx_home HT) (fun b => txn_clean p HT b eq_refl) (fun b Hb => proj1 (txn_in p HT b Hb)) Hboot (head_len p HT h Hh));
        [intros b Hb; by apply (txn_in p HT)|exact E]. }
  split_and!; [done|done|done| |].
  - destruct (Hcases ws []) as (bl' & h' & B & [[? _]|S]); [by rewrite app_nil_r|done|].
    pose proof (tx_head HT') as (h2 & Hh2 & Hhd2). destruct B as [B1 B2 _ _ _]. rewrite Hh2 in B1. injection B1 as <-.
    assert (bl' = []) as -> by (destruct B2 as [_ <-], Hhd2 as [_ Hhd2]; done). by rewrite recovered_nil in S.
  - intros ws1 ws2 E pB tB kB HrB HsB HbB. destruct (Hcases ws1 ws2 E) as (bl' & h' & B & HS).
    assert (disk_wf (apply_writes ws1 D)) as Hwf.
    { apply apply_wf; [apply HT|]. intros b d Hb. eapply (commit_ws_elem p HT h b d Hh). fold ws. rewrite E. apply elem_of_app. by left. }
    eapply runs_mono; [|exact (boot_runs env n pB Hn s _ bl' h' tB kB B Hwf HrB HsB HbB)].
    intros [] ? (kF & -> & F1 & F2 & _ & _). cbn [thr own]. eexists. split_and!; [exact F1|exact F2|exact HS].
Qed.

Lemma demo_head : head_is (fill 0) [].
Proof. by vm_compute. Qed.

Definition demo_kern (D : gmap Z (list Z)) : kern :=
  (kern0 D) <| lg := MkLog 2 LOGSIZE 0 0 ROOTDEV 0 (replicate 30 0) |> <| sb := MkSb 0 0 0 0 LOGSIZE 2 0 0 |>.

Lemma demo_idle : txn 0 2 0 ∅ [] demo_disk demo_disk Kalloc.demo_T ((demo_kern demo_disk) <| bufs := binit_bufs |>).
Proof.
  assert (forall b, in_log 2 b -> demo_disk !! b = Some (fill 0)) as Hlog.
  { intros b Hb. apply demo_disk_lookup. split; [right; unfold in_log in Hb; szs|done]. }
  split; try done.
  - exists (reverse (seq 0 nbuf)).
    pose proof (binit_bcache 0 Kalloc.demo_T ((demo_kern demo_disk) <| bufs := binit_bufs |>) eq_refl demo_virtio_idle demo_disk_wf eq_refl) as HB.
    exact HB.
  - apply home_nil.
  - split_and!; [done|done|]. intros b Hb%Hlog. by eexists.
  - apply demo_disk_wf.
  - eexists. split; [apply Hlog, in_log_start|apply demo_head].
Qed.

(** A transaction with one updated block. *)
Lemma demo_updated : exists k, txn 0 2 1 ∅ [50] (<[50 := fill 7]> demo_disk) demo_disk Kalloc.demo_T k.
Proof.
  pose proof (disk_env_BlockDev demo_device 2 demo_device_ok ltac:(lia)) as BD.
  destruct (begin_op_spec 40 0 demo_rest demo_idle ltac:(done)) as (k1 & _ & HT1 & _ & _); [cbn; szs|].
  assert (demo_disk !! 50 = Some (fill 0)) as H50 by (apply demo_disk_lookup; by split; [left|]).
  pose proof (update_block_runs _ BD 40 0 2 1 ∅ [] _ _ _ _ 50 _ (fun _ => fill 7) ltac:(rewrite nbuf_eq; lia) demo_rest HT1
    ltac:(lia) ltac:(cbn; szs) ltac:(unfold in_log; szs) (not_held_nil _ _) ltac:(right; rewrite size_empty, nbuf_eq; cbn; lia) H50
    ltac:(apply fill_length)) as HR.
  destruct (proj1 (runs_some _ _ _) HR) as (u & s' & _ & k' & _ & HT & _). exists k'. exact HT.
Qed.

Lemma end_op_crash_safe_witness :
  exists k s', solo (disk_env demo_device 2) (end_op 40%nat (MkK Kalloc.demo_T k)) = Some (tt, s') /\
    same_home 2 (dsk (own s')) (<[50 := fill 7]> demo_disk).
Proof.
  destruct demo_updated as [k HT]. exists k.
  pose proof (end_op_crash_safe _ (disk_env_BlockDev demo_device 2 demo_device_ok ltac:(lia)) 40 0 2 [50] _ _ Kalloc.demo_T k
    ltac:(rewrite nbuf_eq; lia) demo_rest HT) as HR.
  destruct (proj1 (runs_some _ _ _) HR) as (u & s' & E & ws & _ & _ & _ & HS & _). destruct u. by exists s'.
Defined.


(** A disk whose log holds a committed update of block 50. *)
Definition demo_committed : gmap Z (list Z) :=
  <[3 := fill 7]> (<[2 := put_head [50] (fill 0)]> demo_disk).

Lemma demo_committed_boot : bootable 2 demo_committed [50] (put_head [50] (fill 0)) /\ disk_wf demo_committed.
Proof.
  assert (Forall (fun x => 0 <= x < 2 ^ 31) [50]) as Hf by (constructor; [lia|constructor]).
  assert (length (put_head [50] (fill 0)) = Z.to_nat BSIZE) as Hl by (apply put_head_length; [apply fill_length|cbn; szs]).
  unfold demo_committed. split; [split|].
  - rewrite lookup_insert_ne, lookup_insert_eq by lia. done.
  - apply head_put; [apply fill_length|cbn; szs|done].
  - split_and!; [apply NoDup_singleton|constructor; [unfold in_log; szs|constructor]|cbn; szs].
  - apply (area_writes 2 [(2, _); (3, _)]). apply (tx_area demo_idle).
  - intros b ->%list_elem_of_singleton. rewrite !lookup_insert_ne by lia. eexists. apply demo_disk_lookup. by split; [left|].
  - apply (apply_wf [(2, _); (3, _)]); [apply demo_disk_wf|]. intros b d Hb. rewrite elem_of_cons, list_elem_of_singleton in Hb.
    destruct Hb as [[= -> ->]|[= -> ->]]; (split; [lia|]); [done|apply fill_length].
Qed.


Lemma log_write_full n p s o H bl V D t k b :
  rest p t -> txn p s o H bl V D t k -> Z.of_nat (length bl) >= LOGSIZE - 1 ->
  log_write b n (MkK t k) = Panic "too big a transaction".
Proof.
  intros Hr HT Hl. pose proof Hr as [_ Hlk _ _]. unfold log_write. rewrite acquire_bind by (by rewrite Hlk).
  rewrite getl_bind. unfold id. rewrite (tx_size HT), (la_n _ _ _ (tx_log HT)).
  rewrite (Z.geb_leb _ (LOGSIZE - 1)), (proj2 (Z.leb_le (LOGSIZE - 1) _)) by lia. by rewrite orb_true_r.
Qed.

(** C23: logging a modified block.  With room in the log and an operation
    outstanding, [log_write] of a held buffer leaves its block in the list of
    blocks to commit exactly once (a block already there is absorbed, a new
    one is appended and pinned in the cache) and changes neither logical disk
    nor disk.  A full log and a missing [begin_op] are caught. *)
Theorem log_write_correct n p s o H bl V D t k b bno d :
  rest p t -> txn p s o H bl V D t k -> b ∈ H -> reads b bno d k -> ~ in_log s bno ->
  (LOGSIZE - 1 <= Z.of_nat (length bl) -> log_write b n (MkK t k) = Panic "too big a transaction") /\
  (Z.of_nat (length bl) < LOGSIZE - 1 -> o < 1 -> log_write b n (MkK t k) = Panic "log_write outside of trans") /\
  (Z.of_nat (length bl) < LOGSIZE - 1 -> 1 <= o -> exists k', log_write b n (MkK t k) = Ret tt (MkK t k') /\
     txn p s o H (if decide (bno ∈ bl) then bl else bl ++ [bno]) V D t k' /\ reads b bno d k' /\ keep b k k').
Proof.
  intros Hr HT Hb Hrd Hnl. split_and!.
  - intros Hl. eapply log_write_full; [done|done|lia].
  - intros Hl Ho. pose proof Hr as [_ Hlk _ _]. unfold log_write. rewrite acquire_bind by (by rewrite Hlk).
    rewrite getl_bind. unfold id. rewrite (tx_size HT), (la_n _ _ _ (tx_log HT)), (tx_out HT).
    rewrite !Z.geb_leb, !(proj2 (Z.leb_gt _ _)) by szs. cbn [orb]. by rewrite (proj2 (Z.ltb_lt _ _)).
  - intros Hl Ho. destruct (log_write_spec n p Hr HT b bno d Hb Hrd Ho ltac:(szs) Hnl) as (k' & E & HT' & R & K & _).
    by exists k'.
Qed.

(** A process that has read block 50 inside an operation. *)
Lemma demo_reading : exists b k, txn 0 2 1 ({[b]} ∪ ∅) [] demo_disk demo_disk (hold (SLBuf b) 0 Kalloc.demo_T) k /\ reads b 50 (fill 0) k.
Proof.
  destruct (begin_op_spec 40 0 demo_rest demo_idle ltac:(done)) as (k1 & _ & HT1 & _ & _); [cbn; szs|].
  pose proof (tx_bread _ (BD := disk_env_BlockDev demo_device 2 demo_device_ok ltac:(lia)) 40 0 ltac:(rewrite nbuf_eq; lia) demo_rest HT1 50 (fill 0)
    (not_held_nil _ _) ltac:(right; rewrite size_empty, nbuf_eq; cbn; lia) demo_50) as HR.
  destruct (proj1 (runs_some _ _ _) HR) as (b & s & _ & k & _ & _ & _ & HT & Hrd & _). by exists b, k.
Qed.

Lemma log_write_correct_witness : exists b t k k',
  log_write b 40%nat (MkK t k) = Ret tt (MkK t k') /\ txn 0 2 1 ({[b]} ∪ ∅) [50] demo_disk demo_disk t k'.
Proof.
  destruct demo_reading as (b & k & HT & Hrd).
  assert (rest 0 (hold (SLBuf b) 0 Kalloc.demo_T)) as Hr by (apply rest_slks, demo_rest).
  destruct (log_write_correct 40 0 2 1 _ [] demo_disk demo_disk _ k b 50 (fill 0) Hr HT (held_first b ∅) Hrd) as (_ & _ & Hok).
  { unfold in_log. szs. }
  destruct Hok as (k' & E & HT' & _); [cbn; szs|lia|]. exists b, (hold (SLBuf b) 0 Kalloc.demo_T), k, k'. by split.
Defined.

(** C35: the reservation of [begin_op] is one block short.  With two
    operations outstanding and nothing logged yet, [begin_op] admits a third
    one, reserving [MAXOPBLOCKS] blocks of the log for each; but when the
    three have logged one block less than they reserved together, every
    further [log_write] panics, even one of a block that is in the log. *)
Theorem log_reservation_short n p s V D t k :
  n <> 0%nat -> rest p t -> txn p s 2 ∅ [] V D t k ->
  (exists k', begin_op n (MkK t k) = Ret tt (MkK t k') /\ txn p s 3 ∅ [] V D t k') /\
  (forall H bl V' t' k' b, rest p t' -> txn p s 3 H bl V' D t' k' -> Z.of_nat (length bl) = 3 * MAXOPBLOCKS - 1 ->
     log_write b n (MkK t' k') = Panic "too big a transaction").
Proof.
  intros Hn Hr HT. split.
  - destruct (begin_op_spec n p Hr HT Hn) as (k' & E & HT' & _); [cbn; szs|]. by exists k'.
  - intros H bl V' t' k' b Hr' HT' Hl. eapply log_write_full; [done|done|]. szs.
Qed.

Lemma log_reservation_short_witness : exists k k', begin_op 40%nat (MkK Kalloc.demo_T k) = Ret tt (MkK Kalloc.demo_T k') /\
  txn 0 2 3 ∅ [] demo_disk demo_disk Kalloc.demo_T k'.
Proof.
  destruct (begin_op_spec 40 0 demo_rest demo_idle ltac:(done)) as (k1 & _ & HT1 & _ & _); [cbn; szs|].
  destruct (begin_op_spec 40 0 demo_rest HT1 ltac:(done)) as (k2 & _ & HT2 & _ & _); [cbn; szs|].
  destruct (log_reservation_short 40 0 2 _ _ Kalloc.demo_T k2 ltac:(done) demo_rest HT2) as [(k' & E & HT') _]. by exists k2, k'.
Defined.
