(* ===== verification/ProcMem.v ===== *)
(** * Copying between the kernel and a process: [either_copyout] and
    [either_copyin] of [kernel/proc.c]

    The address argument of these functions is a user address, a kernel
    address, or the address of a local variable of the caller (a directory
    entry, an ELF header); a local variable is the list of its bytes. *)

From Stdlib Require Import ZArith Lia.
From S2P Require Import Prelude Riscv KString Thread Kalloc Vm Kern.

Inductive dest := DUser (va : Z) | DKern (pa : Z) | DLocal.
Inductive source := SUser (va : Z) | SKern (pa : Z) | SLocal (bytes : list Z).

(** [dst += m], [src += m] *)
Definition dest_add (d : dest) (m : Z) : dest :=
  match d with DUser va => DUser (u64 (va + m)) | DKern pa => DKern (u64 (pa + m)) | DLocal => DLocal end.
Definition source_add (s : source) (m : Z) : source :=
  match s with
  | SUser va => SUser (u64 (va + m)) | SKern pa => SKern (u64 (pa + m))
  | SLocal l => SLocal (drop (Z.to_nat m) l)
  end.

(** The page table of the running process. *)
Definition my_pagetable : KK Z :=
  p ← myproc;
  p ← deref p;
  q ← getp p;
  mret (p_pagetable q).

Definition either_copyout (dst : dest) (src : list Z) (len : Z) : KK Z :=
  match dst with
  | DUser va => pt ← my_pagetable; kmm (copyout pt va src len)
  | DKern pa => kmm (kmemwrite pa (take (Z.to_nat len) src)) ;; mret 0
  | DLocal => mret 0
  end.

(** The result and the bytes copied in; on failure these are the bytes of
    the pages before the one that is not mapped. *)
Definition either_copyin (src : source) (len : Z) : KK (Z * list Z) :=
  match src with
  | SUser va => pt ← my_pagetable; kmm (copyin pt va len)
  | SKern pa => b ← kmm (getX (fun k => mem_read (mem k) pa (Z.to_nat len))); mret (0, b)
  | SLocal l => mret (0, take (Z.to_nat len) l)
  end.
