(* ===== verification/Fs.v ===== *)
(** * The file system: [kernel/fs.c]

    Block allocation, inodes, file contents, directories and path names, on
    top of the buffer cache and the log.  In-memory inodes are indices into
    [itable]; a pointer that may be null is an [option]. *)

From Stdlib Require Import ZArith Lia.
From S2P Require Import Prelude Riscv KString Thread Proc Sleeplock Kern Virtio Bio Log ProcMem.

(** ** On-disk inodes and directory entries *)

Record dinode := MkDinode {
  di_type : Z; di_major : Z; di_minor : Z; di_nlink : Z; di_size : Z; di_addrs : list Z
}.

Definition enc_dinode (d : dinode) : list Z :=
  le_bytes 2 (u16 (di_type d)) ++ le_bytes 2 (u16 (di_major d)) ++ le_bytes 2 (u16 (di_minor d)) ++
  le_bytes 2 (u16 (di_nlink d)) ++ le_bytes 4 (di_size d) ++ mjoin (le_bytes 4 <$> di_addrs d).

Definition dec_dinode (l : list Z) : dinode :=
  MkDinode (i16 (rd_u16 l 0)) (i16 (rd_u16 l 2)) (i16 (rd_u16 l 4)) (i16 (rd_u16 l 6)) (rd_u32 l 8)
    ((fun i => rd_u32 l (12 + 4 * Z.of_nat i)) <$> seq 0 13).

Definition enc_dirent (inum : Z) (name : list Z) : list Z := le_bytes 2 inum ++ name.
Definition de_inum (de : list Z) : Z := rd_u16 de 0.
Definition de_name (de : list Z) : list Z := slice 2 DIRSIZ de.

Definition IBLOCK (i : Z) (s : superblock) : Z := u32 (i / IPB + sb_inodestart s).
Definition BBLOCK (b : Z) (s : superblock) : Z := u32 (b / BPB + sb_bmapstart s).

Definition dec_sb (l : list Z) : superblock :=
  MkSb (rd_u32 l 0) (rd_u32 l 4) (rd_u32 l 8) (rd_u32 l 12)
    (rd_u32 l 16) (rd_u32 l 20) (rd_u32 l 24) (rd_u32 l 28).

(** ** Super block and block allocator *)

Definition set_data (b : nat) (f : list Z -> list Z) : KK () := modb b (fun x => x <| b_data ::= f |>).

Definition readsb (dev : Z) : KK () :=
  bp ← bread dev 1;
  x ← getb bp;
  modX (fun k => k <| sb := dec_sb (take (Z.to_nat SB_SIZE) (b_data x)) |>) ;;
  brelse bp.

Definition fsinit (dev : Z) : KK () :=
  readsb dev ;;
  s ← getX sb;
  if negb (sb_magic s =? FSMAGIC) then panic "invalid file system" else
  initlog dev.

Definition bzero (dev bno : Z) : KK () :=
  bp ← bread dev bno;
  set_data bp (fun _ => replicate (Z.to_nat BSIZE) 0) ;;
  log_write bp ;;
  brelse bp.

Definition byte_at (l : list Z) (i : Z) : Z := default 0 (l !! Z.to_nat i).

(** The inner loop of [balloc] over the bits of one bitmap block. *)
Definition balloc_bit (dev b : Z) (bp : nat) (bi : Z) : KK (Z + option Z) :=
  s ← getX sb;
  if (bi <? BPB) && (u32 (b + bi) <? sb_size s) then
    let m := Z.shiftl 1 (bi mod 8) in
    x ← getb bp;
    if Z.land (byte_at (b_data x) (bi / 8)) m =? 0 then
      set_data bp (fun l => <[Z.to_nat (bi / 8) := Z.lor (byte_at l (bi / 8)) m]> l) ;;
      log_write bp ;;
      brelse bp ;;
      bzero dev (u32 (b + bi)) ;;
      mret (inr (Some (u32 (b + bi))))
    else mret (inl (bi + 1))
  else mret (inr None).

Definition balloc_body (dev b : Z) : KK (Z + Z) :=
  s ← getX sb;
  if b <? sb_size s then
    bp ← bread dev (BBLOCK b s);
    r ← mloop (balloc_bit dev b bp) 0;
    match r with
    | Some blk => mret (inr blk)
    | None => brelse bp ;; mret (inl (b + BPB))
    end
  else panic "balloc: out of blocks".

Definition balloc (dev : Z) : KK Z := mloop (balloc_body dev) 0.

Definition bfree (dev b : Z) : KK () :=
  s ← getX sb;
  bp ← bread dev (BBLOCK b s);
  let bi := b mod BPB in
  let m := Z.shiftl 1 (bi mod 8) in
  x ← getb bp;
  if Z.land (byte_at (b_data x) (bi / 8)) m =? 0 then panic "freeing free block" else
  set_data bp (fun l => <[Z.to_nat (bi / 8) := Z.land (byte_at l (bi / 8)) (Z.lnot m)]> l) ;;
  log_write bp ;;
  brelse bp.

(** ** Inodes *)

Definition iinit : KK () :=
  initlock LkItable ;;
  meach (Z.to_nat NINODE) 0 (fun i => initsleeplock (SLInode (Z.to_nat i))).

(** The scan of [iget]: the entry that holds the inode, or the first empty
    slot. *)
Definition iget_body (dev inum : Z) : Z * option nat -> KK ((Z * option nat) + (nat + option nat)) :=
  fun '(i, empty) =>
  if negb (i <? NINODE) then mret (inr (inr empty)) else
  x ← geti (Z.to_nat i);
  if (0 <? i_ref x) && (i_dev x =? dev) && (i_inum x =? inum) then
    modi (Z.to_nat i) (fun x => x <| i_ref := i_ref x + 1 |>) ;;
    release LkItable ;;
    mret (inr (inl (Z.to_nat i)))
  else
    let empty := match empty with
                 | Some _ => empty
                 | None => if i_ref x =? 0 then Some (Z.to_nat i) else None
                 end in
    mret (inl (i + 1, empty)).

Definition iget (dev inum : Z) : KK nat :=
  acquire LkItable ;;
  r ← mloop (iget_body dev inum) (0, None);
  match r with
  | inl ip => mret ip
  | inr None => panic "iget: no inodes"
  | inr (Some ip) =>
      modi ip (fun x => x <| i_dev := dev |> <| i_inum := inum |> <| i_ref := 1 |> <| i_valid := 0 |>) ;;
      release LkItable ;;
      mret ip
  end.

(** The bytes of the dinode [inum] in its block. *)
Definition dinode_off (inum : Z) : Z := (inum mod IPB) * DINODE_SIZE.

Definition ialloc_body (dev type inum : Z) : KK (Z + nat) :=
  s ← getX sb;
  if inum <? sb_ninodes s then
    bp ← bread dev (IBLOCK inum s);
    x ← getb bp;
    let d := dec_dinode (slice (dinode_off inum) DINODE_SIZE (b_data x)) in
    if di_type d =? 0 then
      set_data bp (splice (dinode_off inum) (enc_dinode (MkDinode type 0 0 0 0 (replicate 13 0)))) ;;
      log_write bp ;;
      brelse bp ;;
      ip ← iget dev inum;
      mret (inr ip)
    else brelse bp ;; mret (inl (inum + 1))
  else panic "ialloc: no inodes".

Definition ialloc (dev type : Z) : KK nat := mloop (ialloc_body dev type) 1.

Definition inode_disk (x : inode) : dinode :=
  MkDinode (i_type x) (i_major x) (i_minor x) (i_nlink x) (i_size x) (i_addrs x).

Definition iupdate (ip : nat) : KK () :=
  x ← geti ip;
  s ← getX sb;
  bp ← bread (i_dev x) (IBLOCK (i_inum x) s);
  x ← geti ip;
  set_data bp (splice (dinode_off (i_inum x)) (enc_dinode (inode_disk x))) ;;
  log_write bp ;;
  brelse bp.

Definition idup (ip : nat) : KK nat :=
  acquire LkItable ;;
  modi ip (fun x => x <| i_ref := i_ref x + 1 |>) ;;
  release LkItable ;;
  mret ip.

Definition ilock (o : option nat) : KK () :=
  match o with
  | None => panic "ilock"
  | Some ip =>
      x ← geti ip;
      if i_ref x <? 1 then panic "ilock" else
      acquiresleep (SLInode ip) ;;
      x ← geti ip;
      if i_valid x =? 0 then
        s ← getX sb;
        bp ← bread (i_dev x) (IBLOCK (i_inum x) s);
        y ← getb bp;
        let d := dec_dinode (slice (dinode_off (i_inum x)) DINODE_SIZE (b_data y)) in
        modi ip (fun x => x <| i_type := di_type d |> <| i_major := di_major d |> <| i_minor := di_minor d |>
                            <| i_nlink := di_nlink d |> <| i_size := di_size d |> <| i_addrs := di_addrs d |>) ;;
        brelse bp ;;
        modi ip (fun x => x <| i_valid := 1 |>) ;;
        if di_type d =? 0 then panic "ilock: no type" else mret tt
      else mret tt
  end.

Definition iunlock (o : option nat) : KK () :=
  match o with
  | None => panic "iunlock"
  | Some ip =>
      h ← holdingsleep (SLInode ip);
      x ← geti ip;
      if negb h || (i_ref x <? 1) then panic "iunlock" else
      releasesleep (SLInode ip)
  end.

(** ** Inode contents *)

Definition addr_of (x : inode) (i : Z) : Z := default 0 (i_addrs x !! Z.to_nat i).
Definition set_addr (ip : nat) (i a : Z) : KK () :=
  modi ip (fun x => x <| i_addrs ::= <[Z.to_nat i := a]> |>).

(** [if((addr = ip->addrs[i]) == 0) ip->addrs[i] = addr = balloc(ip->dev);] *)
Definition bmap_slot (ip : nat) (i : Z) : KK Z :=
  x ← geti ip;
  if addr_of x i =? 0 then
    a ← balloc (i_dev x);
    set_addr ip i a ;;
    mret a
  else mret (addr_of x i).

Definition bmap (ip : nat) (bn : Z) : KK Z :=
  if bn <? NDIRECT then bmap_slot ip bn else
  let bn := bn - NDIRECT in
  if bn <? NINDIRECT then
    addr ← bmap_slot ip NDIRECT;
    x ← geti ip;
    bp ← bread (i_dev x) addr;
    y ← getb bp;
    let addr := rd_u32 (b_data y) (4 * bn) in
    addr ← (if addr =? 0 then
              addr ← balloc (i_dev x);
              set_data bp (fun l => wr_u32 l (4 * bn) addr) ;;
              log_write bp ;;
              mret addr
            else mret addr);
    brelse bp ;;
    mret addr
  else panic "bmap: out of range".

Definition itrunc_direct (ip : nat) (i : Z) : KK () :=
  x ← geti ip;
  mwhen (negb (addr_of x i =? 0))
    (bfree (i_dev x) (addr_of x i) ;;
     set_addr ip i 0).

Definition itrunc_indirect (ip bp : nat) (j : Z) : KK () :=
  x ← geti ip;
  y ← getb bp;
  let a := rd_u32 (b_data y) (4 * j) in
  mwhen (negb (a =? 0)) (bfree (i_dev x) a).

Definition itrunc (ip : nat) : KK () :=
  meach (Z.to_nat NDIRECT) 0 (itrunc_direct ip) ;;
  x ← geti ip;
  mwhen (negb (addr_of x NDIRECT =? 0))
    (bp ← bread (i_dev x) (addr_of x NDIRECT);
     meach (Z.to_nat NINDIRECT) 0 (itrunc_indirect ip bp) ;;
     brelse bp ;;
     bfree (i_dev x) (addr_of x NDIRECT) ;;
     set_addr ip NDIRECT 0) ;;
  modi ip (fun x => x <| i_size := 0 |>) ;;
  iupdate ip.

Definition iput (ip : nat) : KK () :=
  acquire LkItable ;;
  x ← geti ip;
  mwhen ((i_ref x =? 1) && negb (i_valid x =? 0) && (i_nlink x =? 0))
    (acquiresleep (SLInode ip) ;;
     release LkItable ;;
     itrunc ip ;;
     modi ip (fun x => x <| i_type := 0 |>) ;;
     iupdate ip ;;
     modi ip (fun x => x <| i_valid := 0 |>) ;;
     releasesleep (SLInode ip) ;;
     acquire LkItable) ;;
  modi ip (fun x => x <| i_ref := i_ref x - 1 |>) ;;
  release LkItable.

Definition iunlockput (o : option nat) : KK () :=
  iunlock o ;;
  ip ← deref o;
  iput ip.

(** [struct stat] as it lies in memory: dev, ino, type, nlink, size (after
    four bytes of padding, 24 bytes). *)
Record stat := MkStat { st_dev : Z; st_ino : Z; st_type : Z; st_nlink : Z; st_size : Z }.

Definition stati (ip : nat) : KK stat :=
  x ← geti ip;
  mret (MkStat (i32 (i_dev x)) (i_inum x) (i_type x) (i_nlink x) (i_size x)).

(** Locals: [dst], [tot], [off] and, for a local destination, the bytes so
    far. *)
Definition readi_body (ip : nat) (n : Z) :
    dest * Z * Z * list Z -> KK ((dest * Z * Z * list Z) + (Z * list Z)) :=
  fun '(dst, tot, off, acc) =>
  if negb (tot <? n) then mret (inr (i32 tot, acc)) else
  bno ← bmap ip (off / BSIZE);
  x ← geti ip;
  bp ← bread (i_dev x) bno;
  y ← getb bp;
  let m := Z.min (n - tot) (BSIZE - off mod BSIZE) in
  let bytes := slice (off mod BSIZE) m (b_data y) in
  r ← either_copyout dst bytes m;
  if r =? -1 then brelse bp ;; mret (inr (-1, acc)) else
  brelse bp ;;
  mret (inl (dest_add dst m, u32 (tot + m), u32 (off + m), acc ++ bytes)).

Definition readi (ip : nat) (dst : dest) (off n : Z) : KK (Z * list Z) :=
  x ← geti ip;
  if (off >? i_size x) || (u32 (off + n) <? off) then mret (0, []) else
  let n := if u32 (off + n) >? i_size x then u32 (i_size x - off) else n in
  mloop (readi_body ip n) (dst, 0, off, []).

Definition writei_body (ip : nat) (n : Z) :
    source * Z * Z -> KK ((source * Z * Z) + (Z * Z)) :=
  fun '(src, tot, off) =>
  if negb (tot <? n) then mret (inr (tot, off)) else
  bno ← bmap ip (off / BSIZE);
  x ← geti ip;
  bp ← bread (i_dev x) bno;
  let m := Z.min (n - tot) (BSIZE - off mod BSIZE) in
  '(r, bytes) ← either_copyin src m;
  set_data bp (splice (off mod BSIZE) bytes) ;;
  if r =? -1 then brelse bp ;; mret (inr (tot, off)) else
  log_write bp ;;
  brelse bp ;;
  mret (inl (source_add src m, u32 (tot + m), u32 (off + m))).

Definition writei (ip : nat) (src : source) (off n : Z) : KK Z :=
  x ← geti ip;
  if (off >? i_size x) || (u32 (off + n) <? off) then mret (-1) else
  if u32 (off + n) >? MAXFILE * BSIZE then mret (-1) else
  '(tot, off) ← mloop (writei_body ip n) (src, 0, off);
  x ← geti ip;
  mwhen (off >? i_size x) (modi ip (fun x => x <| i_size := off |>)) ;;
  iupdate ip ;;
  mret (i32 tot).

(** ** Directories *)

Definition namecmp (s t : list Z) : Z := strncmp_l (Z.to_nat DIRSIZ) s t.

(** The result: the inode found and the offset of its entry. *)
Definition dirlookup_body (dp : nat) (name : list Z) (off : Z) : KK (Z + option (nat * Z)) :=
  x ← geti dp;
  if negb (off <? i_size x) then mret (inr None) else
  '(r, de) ← readi dp DLocal off DIRENT_SIZE;
  if negb (r =? DIRENT_SIZE) then panic "dirlookup read" else
  if de_inum de =? 0 then mret (inl (u32 (off + DIRENT_SIZE))) else
  if namecmp name (de_name de) =? 0 then
    ip ← iget (i_dev x) (de_inum de);
    mret (inr (Some (ip, off)))
  else mret (inl (u32 (off + DIRENT_SIZE))).

Definition dirlookup (dp : nat) (name : list Z) : KK (option (nat * Z)) :=
  x ← geti dp;
  if negb (i_type x =? T_DIR) then panic "dirlookup not DIR" else
  mloop (dirlookup_body dp name) 0.

(** The search for an empty entry: its offset, or the directory's size. *)
Definition dirlink_body (dp : nat) (off : Z) : KK (Z + Z) :=
  x ← geti dp;
  if negb (off <? i_size x) then mret (inr off) else
  '(r, de) ← readi dp DLocal off DIRENT_SIZE;
  if negb (r =? DIRENT_SIZE) then panic "dirlink read" else
  if de_inum de =? 0 then mret (inr off) else mret (inl (off + DIRENT_SIZE)).

Definition dirlink (dp : nat) (name : list Z) (inum : Z) : KK Z :=
  o ← dirlookup dp name;
  match o with
  | Some (ip, _) => iput ip ;; mret (-1)
  | None =>
      off ← mloop (dirlink_body dp) 0;
      let de := enc_dirent (u16 inum) (strncpy_l (Z.to_nat DIRSIZ) name) in
      r ← writei dp (SLocal de) off DIRENT_SIZE;
      if negb (r =? DIRENT_SIZE) then panic "dirlink" else
      mret 0
  end.

(** ** Paths *)

Definition slash : Z := 47.

(** Leading slashes: a path is the bytes up to its NUL. *)
Fixpoint skip_slashes (path : list Z) : list Z :=
  match path with
  | c :: rest => if c =? slash then skip_slashes rest else path
  | [] => []
  end.

(** Up to the next slash or NUL: the element and the rest. *)
Fixpoint take_elem (path : list Z) : list Z * list Z :=
  match path with
  | c :: rest => if (c =? slash) || (c =? 0) then ([], path)
                 else let '(s, r) := take_elem rest in (c :: s, r)
  | [] => ([], [])
  end.

(** The rest of the path and the new contents of [name[DIRSIZ]]. *)
Definition skipelem (path name : list Z) : option (list Z * list Z) :=
  let path := skip_slashes path in
  if hd 0 path =? 0 then None else
  let '(s, rest) := take_elem path in
  let name := if Z.of_nat (length s) >=? DIRSIZ then take (Z.to_nat DIRSIZ) s
              else s ++ [0] ++ drop (length s + 1) name in
  Some (skip_slashes rest, name).

Definition namex_body (nameiparent : bool) :
    nat * list Z * list Z -> KK ((nat * list Z * list Z) + option (nat * list Z)) :=
  fun '(ip, path, name) =>
  match skipelem path name with
  | None => if nameiparent then iput ip ;; mret (inr None) else mret (inr (Some (ip, name)))
  | Some (path, name) =>
      ilock (Some ip) ;;
      x ← geti ip;
      if negb (i_type x =? T_DIR) then iunlockput (Some ip) ;; mret (inr None) else
      if nameiparent && (hd 0 path =? 0) then iunlock (Some ip) ;; mret (inr (Some (ip, name))) else
      o ← dirlookup ip name;
      match o with
      | None => iunlockput (Some ip) ;; mret (inr None)
      | Some (next, _) => iunlockput (Some ip) ;; mret (inl (next, path, name))
      end
  end.

(** [name] starts out uninitialised; what it holds is never read before
    [skipelem] writes it. *)
Definition namex (path : list Z) (nameiparent : bool) : KK (option (nat * list Z)) :=
  ip ← (if hd 0 path =? slash then iget ROOTDEV ROOTINO
        else p ← myproc;
             p ← deref p;
             q ← getp p;
             cwd ← deref (p_cwd q);
             idup cwd);
  mloop (namex_body nameiparent) (ip, path, replicate (Z.to_nat DIRSIZ) 0).

Definition namei (path : list Z) : KK (option nat) :=
  o ← namex path false;
  mret (fst <$> o).

Definition nameiparent (path : list Z) : KK (option (nat * list Z)) := namex path true.
