(* ===== verification/Balloc.v ===== *)
(** * The block allocator

    [balloc] and [bfree] of fs.c on the logical disk: the bitmap, the first
    free block, and the layout of the file system they rely on. *)

From Stdlib Require Import ZArith Lia.
From S2P Require Import Prelude Riscv KString Thread Proc Sleeplock Kalloc Kern Blocks Virtio VirtioSpec.
From S2P Require Import Lru Bio BioSpec BioOps Log LogSpec Crash Txn ProcMem Fs.

(** ** Bits *)

Definition bit_at (d : list Z) (i : Z) : bool := Z.testbit (byte_at d (i / 8)) (i mod 8).
Definition set_bit (d : list Z) (i : Z) : list Z :=
  <[Z.to_nat (i / 8) := Z.lor (byte_at d (i / 8)) (Z.shiftl 1 (i mod 8))]> d.
Definition clear_bit (d : list Z) (i : Z) : list Z :=
  <[Z.to_nat (i / 8) := Z.land (byte_at d (i / 8)) (Z.lnot (Z.shiftl 1 (i mod 8)))]> d.

Lemma one_shift_bit j i : 0 <= j -> 0 <= i -> Z.testbit (Z.shiftl 1 j) i = (i =? j).
Proof.
  intros Hj Hi. rewrite Z.shiftl_spec by done. destruct (Z.eqb_spec i j) as [->|Hne].
  - by rewrite Z.sub_diag.
  - destruct (Z.ltb_spec i j); [apply Z.testbit_neg_r; lia|]. change 1 with (2 ^ 0). rewrite Z.pow2_bits_eqb by lia.
    apply Z.eqb_neq. lia.
Qed.

(** [x & (1 << j)] is zero exactly when bit [j] is clear. *)
Lemma land_bit x j : 0 <= j -> (Z.land x (Z.shiftl 1 j) =? 0) = negb (Z.testbit x j).
Proof.
  intros Hj. destruct (Z.testbit x j) eqn:E; cbn.
  - apply Z.eqb_neq. intros H0. assert (Z.testbit (Z.land x (Z.shiftl 1 j)) j = true) as H1.
    { rewrite Z.land_spec, E, one_shift_bit, Z.eqb_refl by lia. done. }
    by rewrite H0, Z.bits_0 in H1.
  - apply Z.eqb_eq, Z.bits_inj'. intros i Hi. rewrite Z.land_spec, one_shift_bit, Z.bits_0 by lia.
    destruct (Z.eqb_spec i j) as [->|]; [by rewrite E|by rewrite andb_false_r].
Qed.

Lemma byte_at_insert d i j v : 0 <= i -> 0 <= j -> i < Z.of_nat (length d) ->
  byte_at (<[Z.to_nat i := v]> d) j = if i =? j then v else byte_at d j.
Proof.
  intros Hi Hj Hl. unfold byte_at. destruct (Z.eqb_spec i j) as [->|].
  - by rewrite list_lookup_insert_eq by lia.
  - by rewrite list_lookup_insert_ne by lia.
Qed.

Lemma bit_pos i : 0 <= i < BPB -> 0 <= i / 8 < BSIZE /\ 0 <= i mod 8 < 8 /\ i = 8 * (i / 8) + i mod 8.
Proof. intros Hi. unfold BPB, BSIZE in *. pose proof (Z.div_mod i 8). pose proof (Z.mod_pos_bound i 8). split_and!; lia. Qed.

Lemma set_bit_at d i j : length d = Z.to_nat BSIZE -> 0 <= i < BPB -> 0 <= j < BPB ->
  bit_at (set_bit d i) j = (i =? j) || bit_at d j.
Proof.
  intros Hd Hi Hj. destruct (bit_pos i Hi) as (I1 & I2 & I3), (bit_pos j Hj) as (J1 & J2 & J3). unfold bit_at, set_bit.
  rewrite byte_at_insert by szs. destruct (Z.eqb_spec (i / 8) (j / 8)) as [E|E].
  - rewrite Z.lor_spec, one_shift_bit, E by lia. destruct (Z.eqb_spec (j mod 8) (i mod 8)), (Z.eqb_spec i j); try lia;
      by rewrite ?orb_true_r, ?orb_false_r.
  - destruct (Z.eqb_spec i j) as [->|]; done.
Qed.

Lemma clear_bit_at d i j : length d = Z.to_nat BSIZE -> 0 <= i < BPB -> 0 <= j < BPB ->
  bit_at (clear_bit d i) j = negb (i =? j) && bit_at d j.
Proof.
  intros Hd Hi Hj. destruct (bit_pos i Hi) as (I1 & I2 & I3), (bit_pos j Hj) as (J1 & J2 & J3). unfold bit_at, clear_bit.
  rewrite byte_at_insert by szs. destruct (Z.eqb_spec (i / 8) (j / 8)) as [E|E].
  - rewrite Z.land_spec, Z.lnot_spec, one_shift_bit, E by lia. destruct (Z.eqb_spec (j mod 8) (i mod 8)), (Z.eqb_spec i j); try lia;
      by rewrite ?andb_true_r, ?andb_false_r.
  - destruct (Z.eqb_spec i j) as [->|]; done.
Qed.

Lemma set_bit_length d i : length (set_bit d i) = length d.
Proof. apply length_insert. Qed.
Lemma clear_bit_length d i : length (clear_bit d i) = length d.
Proof. apply length_insert. Qed.

(** ** The layout of the disk *)

Definition used (S : superblock) (V : gmap Z (list Z)) (b : Z) : bool :=
  match V !! BBLOCK b S with Some d => bit_at d (b mod BPB) | None => false end.

(** The log at [s], then inode blocks and bitmap, data blocks from [ds] on. *)
Record layout (s ds : Z) (S : superblock) : Prop := {
  ly_log : 0 <= s;
  ly_data : s + LOGSIZE <= ds <= sb_size S;
  ly_size : sb_size S < 2 ^ 31;
  ly_bmap : forall b, 0 <= b < sb_size S -> s + LOGSIZE <= BBLOCK b S < ds;
  ly_inode : forall i, 0 <= i < sb_ninodes S -> s + LOGSIZE <= IBLOCK i S < ds;
  ly_apart : forall i b, 0 <= i < sb_ninodes S -> 0 <= b < sb_size S -> IBLOCK i S <> BBLOCK b S;
  ly_bno : forall b, 0 <= b < sb_size S -> BBLOCK b S = b / BPB + sb_bmapstart S;
  ly_ino : forall i, 0 <= i < sb_ninodes S -> IBLOCK i S = i / IPB + sb_inodestart S
}.

(** Every block is there and the blocks before the data blocks are in use. *)
Record fs_ok (s ds : Z) (S : superblock) (V : gmap Z (list Z)) : Prop := {
  fs_layout : layout s ds S;
  fs_dom : forall b, 0 <= b < sb_size S -> is_Some (V !! b);
  fs_meta : forall b, 0 <= b < ds -> used S V b = true
}.
Arguments ly_log {_ _ _} _.
Arguments ly_data {_ _ _} _.
Arguments ly_size {_ _ _} _.
Arguments ly_bmap {_ _ _} _.
Arguments ly_inode {_ _ _} _.
Arguments ly_apart {_ _ _} _.
Arguments ly_bno {_ _ _} _.
Arguments ly_ino {_ _ _} _.
Arguments fs_layout {_ _ _ _} _.
Arguments fs_dom {_ _ _ _} _.
Arguments fs_meta {_ _ _ _} _.

Definition bmap_set (S : superblock) (V : gmap Z (list Z)) (b : Z) : gmap Z (list Z) :=
  <[BBLOCK b S := set_bit (default [] (V !! BBLOCK b S)) (b mod BPB)]> V.
Definition bmap_clear (S : superblock) (V : gmap Z (list Z)) (b : Z) : gmap Z (list Z) :=
  <[BBLOCK b S := clear_bit (default [] (V !! BBLOCK b S)) (b mod BPB)]> V.

Section bitmap.
Context {s ds : Z} {S : superblock} {V : gmap Z (list Z)} (HL : layout s ds S) (Hwf : disk_wf V).

Lemma same_bit b c : 0 <= b < sb_size S -> 0 <= c < sb_size S ->
  BBLOCK b S = BBLOCK c S -> b mod BPB = c mod BPB -> b = c.
Proof.
  intros Hb Hc E1 E2. rewrite !(ly_bno HL) in E1 by done. pose proof (Z.div_mod b BPB) as D1. pose proof (Z.div_mod c BPB) as D2.
  unfold BPB, BSIZE in *. lia.
Qed.

Lemma mod_BPB b : 0 <= b mod BPB < BPB.
Proof. apply Z.mod_pos_bound. done. Qed.

Lemma used_set b c : 0 <= b < sb_size S -> 0 <= c < sb_size S -> is_Some (V !! BBLOCK b S) ->
  used S (bmap_set S V b) c = (b =? c) || used S V c.
Proof.
  intros Hb Hc [d Hd]. unfold used, bmap_set. rewrite Hd. cbn [default]. destruct (decide (BBLOCK b S = BBLOCK c S)) as [E|E].
  - rewrite E, lookup_insert_eq. rewrite E in Hd. rewrite Hd. rewrite set_bit_at by (apply mod_BPB || by eapply Hwf).
    f_equal. apply eq_bool_prop_intro. rewrite !Is_true_true, !Z.eqb_eq. split; [by apply same_bit|by intros ->].
  - rewrite lookup_insert_ne by done. destruct (Z.eqb_spec b c) as [->|]; done.
Qed.

Lemma used_clear b c : 0 <= b < sb_size S -> 0 <= c < sb_size S -> is_Some (V !! BBLOCK b S) ->
  used S (bmap_clear S V b) c = negb (b =? c) && used S V c.
Proof.
  intros Hb Hc [d Hd]. unfold used, bmap_clear. rewrite Hd. cbn [default]. destruct (decide (BBLOCK b S = BBLOCK c S)) as [E|E].
  - rewrite E, lookup_insert_eq. rewrite E in Hd. rewrite Hd. rewrite clear_bit_at by (apply mod_BPB || by eapply Hwf).
    f_equal. f_equal. apply eq_bool_prop_intro. rewrite !Is_true_true, !Z.eqb_eq. split; [by apply same_bit|by intros ->].
  - rewrite lookup_insert_ne by done. destruct (Z.eqb_spec b c) as [->|]; done.
Qed.

(** The bitmap does not depend on data blocks. *)
Lemma used_data b c d : 0 <= c < sb_size S -> ds <= b -> used S (<[b := d]> V) c = used S V c.
Proof. intros Hc Hb. unfold used. pose proof (ly_bmap HL c Hc). by rewrite lookup_insert_ne by lia. Qed.
End bitmap.

(** ** Searching the bitmap *)

Lemma mwhile_skip {St R} (body : Z -> M St (Z + R)) n s m : forall lo fuel,
  (forall i, lo <= i < lo + Z.of_nat m -> body i n s = Ret (inl (i + 1)) s) ->
  mwhile (m + fuel) body lo n s = mwhile fuel body (lo + Z.of_nat m) n s.
Proof.
  induction m as [|m IH]; intros lo fuel Hb; [by rewrite Z.add_0_r|].
  cbn [Nat.add]. rewrite (mwhile_inl _ _ _ _ _ _ _ (Hb lo ltac:(lia))), IH; [f_equal; lia|]. intros i Hi. apply Hb. lia.
Qed.

(** The held buffers are of data blocks in use. *)
Definition held_data (ds : Z) (S : superblock) (V : gmap Z (list Z)) (H : gset nat) (k : kern) : Prop :=
  forall c, c ∈ H -> exists bno d, reads c bno d k /\ ds <= bno < sb_size S /\ used S V bno = true.

Definition zeros : list Z := replicate (Z.to_nat BSIZE) 0.

Lemma absorb_length bno bl : (length (absorb bno bl) <= S (length bl))%nat.
Proof. unfold absorb. destruct (decide _); [lia|]. rewrite length_app. cbn. lia. Qed.
Lemma absorb_in bno bl : bno ∈ absorb bno bl.
Proof. unfold absorb. destruct (decide _); set_solver. Qed.

Lemma absorb_mono b c bl : c ∈ bl -> c ∈ absorb b bl.
Proof. unfold absorb. destruct (decide _); set_solver. Qed.

Section alloc.
Context (env : kst kern -> option (kst kern)) {BD : BlockDev env}.
Context (n p : nat) (Hn : (Z.to_nat BPB < n)%nat).
Context {s o ds : Z} {H : gset nat} {bl : list Z} {V D : gmap Z (list Z)} {t : T} {S : superblock}.
Context (Hr : rest p t) (Ho : 1 <= o) (Hfs : fs_ok s ds S V).

Lemma fuel_bufs : (nbuf < n)%nat.
Proof. rewrite nbuf_eq. unfold BPB, BSIZE in Hn. lia. Qed.

Lemma not_in_log b : s + LOGSIZE <= b -> ~ in_log s b.
Proof. unfold in_log. lia. Qed.

Lemma held_not_bitmap k b : held_data ds S V H k -> 0 <= b < sb_size S -> not_held H (BBLOCK b S) k.
Proof.
  intros Hh Hb. apply reads_not_held. intros c Hc. destruct (Hh c Hc) as (bno & d & R & B & _). exists bno, d. split; [done|].
  pose proof (ly_bmap (fs_layout Hfs) b Hb). lia.
Qed.
Lemma held_not_free k b : held_data ds S V H k -> used S V b = false -> not_held H b k.
Proof.
  intros Hh Hb. apply reads_not_held. intros c Hc. destruct (Hh c Hc) as (bno & d & R & B & U). exists bno, d. split; [done|].
  intros ->. by rewrite U in Hb.
Qed.

(** The bits of one bitmap block. *)
Section block.
Context {b : Z} {bp : nat} {d : list Z} {t1 : T} {k1 : kern}.
Context (Hb : b mod BPB = 0) (Hb0 : 0 <= b < sb_size S) (Hrd : reads bp (BBLOCK b S) d k1) (HV : V !! BBLOCK b S = Some d) (Hsb : sb k1 = S).

Lemma block_of i : 0 <= i < BPB -> b + i < sb_size S -> BBLOCK (b + i) S = BBLOCK b S /\ (b + i) mod BPB = i.
Proof.
  intros Hi Hs. pose proof (Z.div_mod b BPB) as Hdm. rewrite Hb in Hdm. split.
  - rewrite !(ly_bno (fs_layout Hfs)) by lia. f_equal. symmetry. apply (Z.div_unique _ _ _ i); unfold BPB, BSIZE in *; lia.
  - symmetry. apply (Z.mod_unique _ _ (b / BPB)); unfold BPB, BSIZE in *; lia.
Qed.

Lemma bit_used i : 0 <= i < BPB -> b + i < sb_size S -> used S V (b + i) = bit_at d i.
Proof. intros Hi Hs. destruct (block_of i Hi Hs) as [E1 E2]. unfold used. by rewrite E1, E2, HV. Qed.

Lemma balloc_bit_skip i : 0 <= i < BPB -> b + i < sb_size S -> used S V (b + i) = true ->
  balloc_bit ROOTDEV b bp i n (MkK t1 k1) = Ret (inl (i + 1)) (MkK t1 k1).
Proof.
  intros Hi Hs Hu. rewrite bit_used in Hu by done. destruct Hrd as (x & Hx & _ & Hd). unfold balloc_bit. rewrite getX_bind, Hsb.
  pose proof (ly_size (fs_layout Hfs)). rewrite (proj2 (Z.ltb_lt i BPB)), u32_small, (proj2 (Z.ltb_lt (b + i) _)) by lia. cbn [andb].
  rewrite (getb_bind _ _ _ _ _ _ Hx), Hd, land_bit by (apply Z.mod_pos_bound; lia). unfold bit_at in Hu. by rewrite Hu.
Qed.

Lemma balloc_bit_end i : 0 <= i <= BPB -> i = BPB \/ b + i = sb_size S ->
  balloc_bit ROOTDEV b bp i n (MkK t1 k1) = Ret (inr None) (MkK t1 k1).
Proof.
  intros Hi Hs. unfold balloc_bit. rewrite getX_bind, Hsb. pose proof (ly_size (fs_layout Hfs)).
  destruct (Z.ltb_spec i BPB) as [Hlt|]; [|done]. destruct Hs as [|Hs]; [lia|]. rewrite u32_small by lia.
  by rewrite (proj2 (Z.ltb_ge _ _)) by lia.
Qed.

Lemma balloc_bits_none : (forall c, b <= c < b + BPB -> c < sb_size S -> used S V c = true) ->
  mloop (balloc_bit ROOTDEV b bp) 0 n (MkK t1 k1) = Ret None (MkK t1 k1).
Proof.
  intros Hall. unfold mloop. set (m := Z.min BPB (sb_size S - b)).
  assert (0 <= m <= BPB) as Hm by (unfold m, BPB, BSIZE in *; lia).
  replace n with (Z.to_nat m + Datatypes.S (n - Datatypes.S (Z.to_nat m)))%nat at 1 by lia. rewrite mwhile_skip.
  - rewrite Z2Nat.id by lia. apply mwhile_inr. apply balloc_bit_end; [lia|]. unfold m. lia.
  - rewrite Z2Nat.id by lia. intros i Hi. apply balloc_bit_skip; [lia|lia|]. apply Hall; lia.
Qed.

Lemma balloc_bits_some i Q : 0 <= i < BPB -> b + i < sb_size S -> (forall c, b <= c < b + i -> used S V c = true) ->
  (forall fuel, runs env (mwhile (Datatypes.S fuel) (balloc_bit ROOTDEV b bp) i n (MkK t1 k1)) Q) ->
  runs env (mloop (balloc_bit ROOTDEV b bp) 0 n (MkK t1 k1)) Q.
Proof.
  intros Hi Hs Hall HQ. unfold mloop. replace n with (Z.to_nat i + Datatypes.S (n - Datatypes.S (Z.to_nat i)))%nat at 1 by lia.
  rewrite mwhile_skip; rewrite Z2Nat.id by lia; [apply HQ|]. intros j Hj. apply balloc_bit_skip; [lia|lia|]. apply Hall; lia.
Qed.

(** The bit is set and the block zeroed. *)
Lemma balloc_take i :
  0 <= i < BPB -> b + i < sb_size S -> ds <= b + i -> used S V (b + i) = false ->
  t1 = hold (SLBuf bp) p t -> bp ∉ H -> slks t !! SLBuf bp = None -> txn p s o ({[bp]} ∪ H) bl V D t1 k1 ->
  held_data ds S V H k1 -> (size H + length bl + 2 < nbuf)%nat ->
  runs env (balloc_bit ROOTDEV b bp i n (MkK t1 k1)) (fun r s' => r = inr (Some (b + i)) /\ exists k',
    s' = MkK t k' /\ txn p s o H (absorb (b + i) (absorb (BBLOCK (b + i) S) bl)) (<[b + i := zeros]> (bmap_set S V (b + i))) D t k' /\
    same_fs k1 k' /\ keeps H k1 k').
Proof.
  intros Hi Hs Hds Hu -> HbpH Hfree HT Hheld Hbud. destruct (block_of i Hi Hs) as [E1 E2]. pose proof (ly_size (fs_layout Hfs)) as Hsz.
  assert (rest p (hold (SLBuf bp) p t)) as Hr1 by (by apply rest_slks).
  pose proof (ly_bmap (fs_layout Hfs) b Hb0) as HBB. pose proof (cached_wf p _ _ _ _ _ (tx_cache HT)) as Hwf.
  assert (length (set_bit d i) = Z.to_nat BSIZE) as Hl by (rewrite set_bit_length; by eapply Hwf).
  destruct (tx_set p HT bp _ d (set_bit d i) (held_first bp H) Hrd Hl) as (HT2 & R2 & K2 & F2).
  unfold balloc_bit. rewrite getX_bind, Hsb. rewrite (proj2 (Z.ltb_lt i BPB)), u32_small, (proj2 (Z.ltb_lt (b + i) _)) by lia. cbn [andb].
  pose proof Hrd as (x & Hx & _ & Hd). rewrite (getb_bind _ _ _ _ _ _ Hx), Hd, land_bit by (apply Z.mod_pos_bound; lia).
  rewrite bit_used in Hu by done. unfold bit_at in Hu. rewrite Hu. cbn [negb]. unfold set_data. rewrite modb_bind.
  assert (k1 <| bufs ::= alter (fun x => x <| b_data ::= fun l => <[Z.to_nat (i / 8) := Z.lor (byte_at l (i / 8)) (Z.shiftl 1 (i mod 8))]> l |>) bp |>
    = k1 <| bufs ::= alter (fun x => x <| b_data := set_bit d i |>) bp |>) as ->.
  { unfold upd. f_equal. rewrite !(alter_insert _ _ _ _ Hx). by rewrite <- Hd. }
  set (k2 := k1 <| bufs ::= _ |>) in *.
  destruct (log_write_spec n p Hr1 HT2 bp _ _ (held_first bp H) R2 Ho) as (k3 & E3 & HT3 & R3 & K3 & F3);
    [rewrite nbuf_eq in Hbud; szs|apply not_in_log; lia|].
  rewrite (bind_ret _ _ _ _ _ _ E3). apply runs_bind.
  eapply runs_mono; [|eapply (tx_brelse env n p Hr1 HT3 bp _ _ (held_first bp H) R3); left; apply absorb_in].
  intros [] ? (k4 & -> & HT4 & K4 & F4). rewrite hold_drop in * by done. rewrite unheld in HT4 by done.
  assert (keeps H k1 k4) as K14 by (apply (keep_keeps bp); [done|]; do 2 (eapply keep_trans; [eassumption|]); done).
  assert (V !! (b + i) <> None) as Hsome. { destruct (fs_dom Hfs (b + i) ltac:(lia)) as [e ->]. done. }
  destruct (V !! (b + i)) as [e|] eqn:He; [|done]. apply runs_bind.
  eapply runs_mono; [|eapply (update_block_runs env BD n p s o H _ _ _ t k4 (b + i) e (fun _ => zeros) fuel_bufs Hr HT4 Ho)].
  - intros [] ? (k5 & -> & HT5 & F5 & K5). eapply runs_ret; [reflexivity|]. split; [done|]. exists k5. split; [done|].
    unfold bmap_set. rewrite E1, E2, HV. cbn [default]. split_and!; [exact HT5|do 3 (etransitivity; [eassumption|]); done|by etransitivity].
  - pose proof (absorb_length (BBLOCK b S) bl). rewrite nbuf_eq in Hbud. szs.
  - apply not_in_log. pose proof (ly_data (fs_layout Hfs)). lia.
  - apply reads_not_held. intros c Hc. destruct (Hheld c Hc) as (bno & dd & R & B & U). exists bno, dd. split; [by apply K14|].
    intros ->. rewrite bit_used in U by done. unfold bit_at in U. by rewrite Hu in U.
  - right. pose proof (absorb_length (BBLOCK b S) bl). lia.
  - by rewrite lookup_insert_ne by lia.
  - apply length_replicate.
Qed.
End block.

Section scan.
Context {k : kern} (HT : txn p s o H bl V D t k) (Hsb : sb k = S) (Hheld : held_data ds S V H k).
Context (Hbud : (size H + length bl + 2 < nbuf)%nat).

(** The bitmap block of [b] is read. *)
Lemma balloc_read {B} b d (f : nat -> KK B) Q :
  0 <= b < sb_size S -> V !! BBLOCK b S = Some d ->
  (forall bp k1, bp ∉ H -> slks t !! SLBuf bp = None -> txn p s o ({[bp]} ∪ H) bl V D (hold (SLBuf bp) p t) k1 ->
     reads bp (BBLOCK b S) d k1 -> same_fs k k1 -> keeps H k k1 -> (BBLOCK b S ∈ bl \/ D !! BBLOCK b S = Some d) ->
     runs env (f bp n (MkK (hold (SLBuf bp) p t) k1)) Q) ->
  runs env ((bp ← bread ROOTDEV (BBLOCK b S); f bp) n (MkK t k)) Q.
Proof.
  intros Hb HV Hf. apply runs_bind.
  eapply runs_mono; [|eapply (tx_bread env n p fuel_bufs Hr HT (BBLOCK b S) d (held_not_bitmap k b Hheld Hb) ltac:(right; lia) HV)].
  intros bp ? (k1 & -> & H1 & H2 & H3 & H4 & H5 & H6 & H7). apply Hf; try done. by apply (keep_keeps bp).
Qed.

Lemma held_keeps k' : keeps H k k' -> held_data ds S V H k'.
Proof. intros K c Hc. destruct (Hheld c Hc) as (bno & d & R & B). exists bno, d. split; [by apply K|done]. Qed.

Lemma balloc_body_next b :
  b mod BPB = 0 -> 0 <= b < sb_size S -> (forall c, b <= c < b + BPB -> c < sb_size S -> used S V c = true) ->
  runs env (balloc_body ROOTDEV b n (MkK t k)) (fun r s' => r = inl (b + BPB) /\ exists k', s' = MkK t k' /\
    txn p s o H bl V D t k' /\ same_fs k k' /\ keeps H k k').
Proof.
  intros Hm Hb Hall. unfold balloc_body. rewrite getX_bind, Hsb. rewrite (proj2 (Z.ltb_lt _ _)) by lia.
  destruct (fs_dom Hfs (BBLOCK b S)) as [d Hd]; [pose proof (ly_bmap (fs_layout Hfs) b Hb); pose proof (ly_data (fs_layout Hfs)); pose proof (ly_log (fs_layout Hfs)); szs|].
  apply (balloc_read b d); [done|done|]. intros bp k1 Hbp Hfree HT1 R1 F1 K1 Hcl.
  assert (sb k1 = S) as Hsb1 by (by rewrite (sf_sb _ _ F1)).
  rewrite (bind_ret _ _ _ _ _ _ (balloc_bits_none Hm Hb R1 Hd Hsb1 Hall)). apply runs_bind.
  eapply runs_mono; [|eapply (tx_brelse env n p (proj2 (rest_slks p t _) Hr) HT1 bp _ _ (held_first bp H) R1 Hcl)].
  intros [] ? (k2 & -> & HT2 & K2 & F2). eapply runs_ret; [reflexivity|]. split; [done|]. exists k2.
  fold (hold (SLBuf bp) p t) in *. rewrite hold_drop in * by done. rewrite unheld in HT2 by done.
  split_and!; [done|done|by etransitivity|]. etransitivity; [exact K1|]. by apply (keep_keeps bp).
Qed.

Lemma balloc_body_found b i :
  b mod BPB = 0 -> 0 <= b -> 0 <= i < BPB -> b + i < sb_size S -> ds <= b + i -> used S V (b + i) = false ->
  (forall c, b <= c < b + i -> used S V c = true) ->
  runs env (balloc_body ROOTDEV b n (MkK t k)) (fun r s' => r = inr (b + i) /\ exists k', s' = MkK t k' /\
    txn p s o H (absorb (b + i) (absorb (BBLOCK (b + i) S) bl)) (<[b + i := zeros]> (bmap_set S V (b + i))) D t k' /\
    same_fs k k' /\ keeps H k k').
Proof.
  intros Hm Hb Hi Hs Hds Hu Hall. unfold balloc_body. rewrite getX_bind, Hsb. rewrite (proj2 (Z.ltb_lt _ _)) by lia.
  assert (0 <= b < sb_size S) as Hb' by lia.
  destruct (fs_dom Hfs (BBLOCK b S)) as [d Hd]; [pose proof (ly_bmap (fs_layout Hfs) b Hb'); pose proof (ly_data (fs_layout Hfs)); pose proof (ly_log (fs_layout Hfs)); szs|].
  apply (balloc_read b d); [done|done|]. intros bp k1 Hbp Hfree HT1 R1 F1 K1 _.
  assert (sb k1 = S) as Hsb1 by (by rewrite (sf_sb _ _ F1)). apply runs_bind.
  apply (balloc_bits_some Hm Hb' R1 Hd Hsb1 i); [done|done|done|]. intros fuel. apply runs_mwhile_inl.
  eapply runs_mono; [|eapply (balloc_take Hm Hb' R1 Hd Hsb1 i); try done; by apply held_keeps].
  intros r ? (-> & k2 & -> & HT2 & F2 & K2). eapply runs_ret; [reflexivity|]. split; [done|]. exists k2.
  split_and!; [done|done|by etransitivity|by etransitivity].
Qed.
End scan.

(** [balloc] returns the first free block, marks it in the bitmap and zeroes
    it. *)
Lemma balloc_runs k b0 :
  txn p s o H bl V D t k -> sb k = S -> held_data ds S V H k -> (size H + length bl + 2 < nbuf)%nat ->
  0 <= b0 < sb_size S -> used S V b0 = false -> (forall c, 0 <= c < b0 -> used S V c = true) -> (Z.to_nat (b0 / BPB) < n)%nat ->
  runs env (balloc ROOTDEV n (MkK t k)) (fun r s' => r = b0 /\ exists k', s' = MkK t k' /\
    txn p s o H (absorb b0 (absorb (BBLOCK b0 S) bl)) (<[b0 := zeros]> (bmap_set S V b0)) D t k' /\ same_fs k k' /\ keeps H k k').
Proof.
  intros HT Hsb Hheld Hbud Hb0 Hu Hall Hfuel. unfold balloc, mloop.
  assert (ds <= b0) as Hds. { destruct (Z.le_gt_cases ds b0) as [|Hlt]; [done|]. rewrite (fs_meta Hfs b0) in Hu by lia. done. }
  assert (forall m j fuel k, 0 <= j -> j + Z.of_nat m = b0 / BPB -> (m < fuel)%nat -> txn p s o H bl V D t k -> sb k = S -> held_data ds S V H k ->
    runs env (mwhile fuel (balloc_body ROOTDEV) (j * BPB) n (MkK t k)) (fun r s' => r = b0 /\ exists k', s' = MkK t k' /\
      txn p s o H (absorb b0 (absorb (BBLOCK b0 S) bl)) (<[b0 := zeros]> (bmap_set S V b0)) D t k' /\ same_fs k k' /\ keeps H k k')) as Hloop.
  { clear k HT Hsb Hheld. pose proof (Z.div_mod b0 BPB ltac:(done)) as Hdm. pose proof (mod_BPB b0) as Hmod.
    induction m as [|m IH]; intros j fuel k Hj Hjm Hf HT Hsb Hheld; (destruct fuel as [|fuel]; [lia|]); apply runs_mwhile_inl.
    - eapply runs_mono; [|eapply (balloc_body_found HT Hsb Hheld Hbud (j * BPB) (b0 mod BPB)); try done].
      + replace (j * BPB + b0 mod BPB) with b0 by (unfold BPB, BSIZE in *; lia). intros r s' [-> HQ]. done.
      + apply Z_mod_mult.
      + unfold BPB, BSIZE in *. lia.
      + unfold BPB, BSIZE in *. lia.
      + unfold BPB, BSIZE in *. lia.
      + by replace (j * BPB + b0 mod BPB) with b0 by (unfold BPB, BSIZE in *; lia).
      + intros c Hc. apply Hall. unfold BPB, BSIZE in *. lia.
    - eapply runs_mono; [|eapply (balloc_body_next HT Hsb Hheld Hbud (j * BPB)); try done].
      + intros r ? (-> & k1 & -> & HT1 & F1 & K1). replace (j * BPB + BPB) with ((j + 1) * BPB) by lia.
        eapply runs_mono; [|eapply (IH (j + 1) fuel k1); [lia|lia|lia|done|by rewrite (sf_sb _ _ F1)|by eapply held_keeps]].
        intros r ? (-> & k2 & -> & HT2 & F2 & K2). split; [done|]. exists k2. split_and!; [done|done|by etransitivity|by etransitivity].
      + apply Z_mod_mult.
      + unfold BPB, BSIZE in *. lia.
      + intros c Hc Hc2. apply Hall. unfold BPB, BSIZE in *. lia. }
  assert (0 <= b0 / BPB) as Hq by (apply Z.div_pos; [lia|done]).
  change 0 with (0 * BPB). apply (Hloop (Z.to_nat (b0 / BPB)) 0 n k); [lia|rewrite Z2Nat.id; lia|done|done|done|done].
Qed.

(** ** Freeing *)

Section free.
Context {k : kern} (HT : txn p s o H bl V D t k) (Hsb : sb k = S) (Hheld : held_data ds S V H k).
Context (Hbud : (size H + length bl + 2 < nbuf)%nat).

Lemma bfree_bit b d : V !! BBLOCK b S = Some d -> used S V b = bit_at d (b mod BPB).
Proof. intros HV. unfold used. by rewrite HV. Qed.

Lemma bfree_runs b :
  0 <= b < sb_size S -> used S V b = true ->
  runs env (bfree ROOTDEV b n (MkK t k)) (fun _ s' => exists k', s' = MkK t k' /\
    txn p s o H (absorb (BBLOCK b S) bl) (bmap_clear S V b) D t k' /\ same_fs k k' /\ keeps H k k').
Proof.
  intros Hb Hu. pose proof (ly_bmap (fs_layout Hfs) b Hb) as HBB.
  destruct (fs_dom Hfs (BBLOCK b S)) as [d Hd]; [pose proof (ly_data (fs_layout Hfs)); pose proof (ly_log (fs_layout Hfs)); szs|].
  unfold bfree. rewrite getX_bind, Hsb. apply (balloc_read HT Hheld Hbud b d); [done|done|]. intros bp k1 Hbp Hfree HT1 R1 F1 K1 _.
  assert (rest p (hold (SLBuf bp) p t)) as Hr1 by (by apply rest_slks).
  pose proof R1 as (x & Hx & _ & Hdx). rewrite (getb_bind _ _ _ _ _ _ Hx), Hdx, land_bit by (apply Z.mod_pos_bound; lia).
  rewrite (bfree_bit b d Hd) in Hu. unfold bit_at in Hu. rewrite Hu. cbn [negb]. unfold set_data. rewrite modb_bind.
  assert (length (clear_bit d (b mod BPB)) = Z.to_nat BSIZE) as Hl.
  { rewrite clear_bit_length. by eapply (cached_wf p _ _ _ _ _ (tx_cache HT)). }
  destruct (tx_set p HT1 bp _ d (clear_bit d (b mod BPB)) (held_first bp H) R1 Hl) as (HT2 & R2 & K2 & F2).
  replace (k1 <| bufs ::= _ |>) with (k1 <| bufs ::= alter (fun x => x <| b_data := clear_bit d (b mod BPB) |>) bp |>).
  2: { unfold upd. f_equal. rewrite !(alter_insert _ _ _ _ Hx). by rewrite <- Hdx. }
  destruct (log_write_spec n p Hr1 HT2 bp _ _ (held_first bp H) R2 Ho) as (k3 & E3 & HT3 & R3 & K3 & F3);
    [rewrite nbuf_eq in Hbud; szs|apply not_in_log; lia|].
  rewrite (bind_ret _ _ _ _ _ _ E3).
  eapply runs_mono; [|eapply (tx_brelse env n p Hr1 HT3 bp _ _ (held_first bp H) R3); left; apply absorb_in].
  intros [] ? (k4 & -> & HT4 & K4 & F4). rewrite hold_drop in * by done. rewrite unheld in HT4 by done. exists k4.
  split_and!; [done|unfold bmap_clear; by rewrite Hd|do 3 (etransitivity; [eassumption|]); done|].
  etransitivity; [exact K1|]. apply (keep_keeps bp); [done|]. do 2 (eapply keep_trans; [eassumption|]). done.
Qed.

Lemma bfree_free b :
  0 <= b < sb_size S -> used S V b = false -> panics env (bfree ROOTDEV b n (MkK t k)) "freeing free block".
Proof.
  intros Hb Hu. pose proof (ly_bmap (fs_layout Hfs) b Hb) as HBB.
  destruct (fs_dom Hfs (BBLOCK b S)) as [d Hd]; [pose proof (ly_data (fs_layout Hfs)); pose proof (ly_log (fs_layout Hfs)); szs|].
  unfold bfree. rewrite getX_bind, Hsb. apply panics_bind.
  eapply runs_mono; [|eapply (tx_bread env n p fuel_bufs Hr HT (BBLOCK b S) d (held_not_bitmap k b Hheld Hb) ltac:(right; lia) Hd)].
  intros bp ? (k1 & -> & _ & _ & _ & R1 & _). pose proof R1 as (x & Hx & _ & Hdx).
  rewrite (getb_bind _ _ _ _ _ _ Hx), Hdx, land_bit by (apply Z.mod_pos_bound; lia).
  rewrite (bfree_bit b d Hd) in Hu. unfold bit_at in Hu. by rewrite Hu.
Qed.
End free.
End alloc.
