(* ===== verification/Files.v ===== *)
(** * File contents

    [bmap], [readi] and [writei] of fs.c refine operations on a file as a
    function from offsets to bytes.  The blocks of a file are its direct
    blocks and those its indirect block names; a block number 0 is a hole and
    reads as zeros. *)

From Stdlib Require Import ZArith Lia.
From S2P Require Import Prelude Riscv KString Thread Proc Sleeplock Kalloc Kern Blocks Virtio VirtioSpec.
From S2P Require Import Lru Bio BioSpec BioOps Log LogSpec Crash Txn ProcMem Fs Balloc.

Ltac fsz := change MAXFILE with 268 in *; change NINDIRECT with 256 in *; change NDIRECT with 12 in *; szs.

(** The rest of the kernel's state is the same, the inode table aside. *)
Definition same_os (k k' : kern) : Prop := same_fs (k <| itable := itable k' |>) k'.
#[export] Instance same_os_preorder : PreOrder same_os.
Proof. split; [by split|]. intros k1 k2 k3 [] []. unfold same_os. split; cbn in *; congruence. Qed.

Lemma same_fs_os k k' : same_fs k k' -> same_os k k'.
Proof. intros []. by split. Qed.

Lemma same_os_itable k f : same_os k (k <| itable ::= f |>).
Proof. by split. Qed.
Lemma same_os_sb k k' : same_os k k' -> sb k' = sb k.
Proof. by intros []. Qed.
Lemma same_os_km k k' : same_os k k' -> km k' = km k.
Proof. by intros []. Qed.

Lemma txn_itable p s o H bl V D t k f : txn p s o H bl V D t k -> txn p s o H bl V D t (k <| itable ::= f |>).
Proof.
  intros []. split; try done. destruct tx_cache as [order HB]. exists order. eapply bcache_core; try done. apply (bc_ring HB).
Qed.

(** ** The blocks of a file *)

Definition fblk (V : gmap Z (list Z)) (x : inode) (bn : Z) : Z :=
  if bn <? NDIRECT then addr_of x bn
  else if addr_of x NDIRECT =? 0 then 0
  else rd_u32 (default [] (V !! addr_of x NDIRECT)) (4 * (bn - NDIRECT)).

Definition fdata (V : gmap Z (list Z)) (x : inode) (bn : Z) : list Z :=
  if fblk V x bn =? 0 then zeros else default [] (V !! fblk V x bn).

Definition data_block (ds : Z) (S : superblock) (V : gmap Z (list Z)) (a : Z) : Prop :=
  ds <= a < sb_size S /\ used S V a = true.

(** The blocks of a file are data blocks in use, all different. *)
Record file_ok (ds : Z) (S : superblock) (V : gmap Z (list Z)) (x : inode) : Prop := {
  fo_dev : i_dev x = ROOTDEV;
  fo_len : length (i_addrs x) = 13%nat;
  fo_ind : addr_of x NDIRECT <> 0 -> data_block ds S V (addr_of x NDIRECT);
  fo_blk : forall bn, 0 <= bn < MAXFILE -> fblk V x bn <> 0 ->
    data_block ds S V (fblk V x bn) /\ fblk V x bn <> addr_of x NDIRECT;
  fo_inj : forall bn bn', 0 <= bn < MAXFILE -> 0 <= bn' < MAXFILE -> fblk V x bn <> 0 -> fblk V x bn = fblk V x bn' -> bn = bn'
}.
Arguments fo_dev {_ _ _ _} _.
Arguments fo_len {_ _ _ _} _.
Arguments fo_ind {_ _ _ _} _.
Arguments fo_blk {_ _ _ _} _.
Arguments fo_inj {_ _ _ _} _.

Definition with_addr (x : inode) (i a : Z) : inode := x <| i_addrs ::= <[Z.to_nat i := a]> |>.

Lemma addr_with_eq x i a : length (i_addrs x) = 13%nat -> 0 <= i <= NDIRECT -> addr_of (with_addr x i a) i = a.
Proof. intros Hl Hi. unfold addr_of, with_addr. cbn. rewrite list_lookup_insert_eq; [done|]. unfold NDIRECT in Hi. lia. Qed.
Lemma addr_with_ne x i j a : 0 <= i -> 0 <= j -> i <> j -> addr_of (with_addr x i a) j = addr_of x j.
Proof. intros Hi Hj Hne. unfold addr_of, with_addr. cbn. by rewrite list_lookup_insert_ne by lia. Qed.

(** ** Allocating a block *)

Section alloc.
Context {s ds : Z} {S : superblock} {V : gmap Z (list Z)} (Hfs : fs_ok s ds S V) (Hwf : disk_wf V).
Context {b0 : Z} (Hb0 : ds <= b0 < sb_size S) (Hfree : used S V b0 = false).

Definition allocated : gmap Z (list Z) := <[b0 := zeros]> (bmap_set S V b0).

Lemma b0_range : 0 <= b0 < sb_size S.
Proof. pose proof (ly_data (fs_layout Hfs)). pose proof (ly_log (fs_layout Hfs)). szs. Qed.

Lemma alloc_bitmap : is_Some (V !! BBLOCK b0 S).
Proof.
  apply (fs_dom Hfs). pose proof (ly_bmap (fs_layout Hfs) b0 b0_range). pose proof (ly_data (fs_layout Hfs)). pose proof (ly_log (fs_layout Hfs)). szs.
Qed.

Lemma alloc_used c : 0 <= c < sb_size S -> used S allocated c = (b0 =? c) || used S V c.
Proof.
  intros Hc. unfold allocated. rewrite (used_data (fs_layout Hfs)) by lia. apply (used_set (fs_layout Hfs) Hwf); [apply b0_range|done|apply alloc_bitmap].
Qed.

Lemma alloc_new : allocated !! b0 = Some zeros.
Proof. unfold allocated. by rewrite lookup_insert_eq. Qed.

Lemma alloc_other c : c <> b0 -> c <> BBLOCK b0 S -> allocated !! c = V !! c.
Proof. intros H1 H2. unfold allocated, bmap_set. by rewrite !lookup_insert_ne. Qed.

Lemma alloc_data c : ds <= c < sb_size S -> used S V c = true -> allocated !! c = V !! c.
Proof.
  intros Hc Hu. apply alloc_other; [intros ->; by rewrite Hu in Hfree|]. pose proof (ly_bmap (fs_layout Hfs) b0 b0_range). lia.
Qed.

Lemma alloc_block c : data_block ds S V c -> data_block ds S allocated c /\ allocated !! c = V !! c /\ c <> b0.
Proof.
  intros [Hc Hu]. assert (0 <= c < sb_size S) as Hc' by (pose proof b0_range; pose proof (ly_data (fs_layout Hfs)); pose proof (ly_log (fs_layout Hfs)); szs).
  split_and!; [split; [done|rewrite alloc_used, Hu, orb_true_r; done]|by apply alloc_data|intros ->; by rewrite Hu in Hfree].
Qed.

Lemma alloc_fresh : data_block ds S allocated b0 /\ b0 <> 0.
Proof.
  split; [split; [done|]; by rewrite alloc_used, Z.eqb_refl by apply b0_range|]. pose proof (ly_data (fs_layout Hfs)). pose proof (ly_log (fs_layout Hfs)). szs.
Qed.

Lemma alloc_wf : disk_wf allocated.
Proof.
  destruct alloc_bitmap as [d Hd]. intros c e. unfold allocated, bmap_set. rewrite Hd. cbn [default].
  destruct (decide (c = b0)) as [->|]; [rewrite lookup_insert_eq|rewrite lookup_insert_ne by done].
  - intros [= <-]. split; [pose proof b0_range; pose proof (ly_size (fs_layout Hfs)); lia|apply length_replicate].
  - destruct (decide (c = BBLOCK b0 S)) as [->|]; [rewrite lookup_insert_eq|rewrite lookup_insert_ne by done; by apply Hwf].
    intros [= <-]. destruct (Hwf _ _ Hd). by rewrite set_bit_length.
Qed.

Lemma alloc_fs_ok : fs_ok s ds S allocated.
Proof.
  split; [apply Hfs| |].
  - intros c Hc. unfold allocated, bmap_set. destruct (decide (b0 = c)) as [->|]; [rewrite lookup_insert_eq; eauto|rewrite lookup_insert_ne by done].
    destruct (decide (BBLOCK b0 S = c)) as [->|]; [rewrite lookup_insert_eq; eauto|rewrite lookup_insert_ne by done]. by apply (fs_dom Hfs).
  - intros c Hc. rewrite alloc_used by lia. rewrite (fs_meta Hfs) by done. apply orb_true_r.
Qed.
End alloc.
Arguments allocated : clear implicits.

Lemma le_val_zeros m : le_val (replicate m 0) = 0.
Proof. induction m as [|m IH]; [done|]. cbn. by rewrite IH. Qed.

Lemma rd_zeros off : rd_u32 zeros off = 0.
Proof. unfold rd_u32, slice, zeros. rewrite drop_replicate, take_replicate. apply le_val_zeros. Qed.

(** ** Mapping more of a file

    [mapped]: blocks have been added to the file; what it contains, the
    blocks it had, and all other data blocks are the same. *)
Record mapped (s ds : Z) (S : superblock) (V : gmap Z (list Z)) (x : inode) (V' : gmap Z (list Z)) (x' : inode) : Prop := {
  mp_fs : fs_ok s ds S V';
  mp_file : file_ok ds S V' x';
  mp_wf : disk_wf V';
  mp_x : exists l, x' = x <| i_addrs := l |>;
  mp_data : forall bn, 0 <= bn < MAXFILE -> fdata V' x' bn = fdata V x bn;
  mp_keep : forall bn, 0 <= bn < MAXFILE -> fblk V x bn <> 0 -> fblk V' x' bn = fblk V x bn;
  mp_other : forall c, data_block ds S V c -> c <> addr_of x NDIRECT -> V' !! c = V !! c /\ data_block ds S V' c;
  mp_fresh : data_block ds S V (addr_of x' NDIRECT) -> addr_of x' NDIRECT = addr_of x NDIRECT;
  mp_ind : addr_of x NDIRECT <> 0 -> addr_of x' NDIRECT = addr_of x NDIRECT;
  mp_new : forall bn, 0 <= bn < MAXFILE -> data_block ds S V (fblk V' x' bn) -> fblk V' x' bn = fblk V x bn;
  mp_meta : forall c, c < ds -> (forall b, 0 <= b < sb_size S -> c <> BBLOCK b S) -> V' !! c = V !! c
}.

Lemma mapped_refl s ds S V x : fs_ok s ds S V -> disk_wf V -> file_ok ds S V x -> mapped s ds S V x V x.
Proof. intros H1 H2 H3. split; try done. exists (i_addrs x). by destruct x. Qed.

Lemma mapped_trans s ds S V x V1 x1 V2 x2 : mapped s ds S V x V1 x1 -> mapped s ds S V1 x1 V2 x2 -> mapped s ds S V x V2 x2.
Proof.
  intros [A1 A2 A3 A4 A5 A6 A7 A8 AK AN A9] [B1 B2 B3 B4 B5 B6 B7 B8 BK BN B9]. split; try done.
  - destruct A4 as [l ->], B4 as [l' ->]. by exists l'.
  - intros bn Hbn. by rewrite B5, A5.
  - intros bn Hbn Hz. rewrite B6, A6; try done. by rewrite A6.
  - intros c Hc Hne. destruct (A7 c Hc Hne) as [E1 D1]. destruct (B7 c D1) as [E2 D2].
    { intros ->. apply Hne. by apply A8. }
    by rewrite E2.
  - intros Hc. destruct (decide (addr_of x2 NDIRECT = addr_of x NDIRECT)) as [|Hne]; [done|].
    destruct (A7 _ Hc Hne) as [_ D1]. rewrite (B8 D1) in *. by apply A8.
  - intros Hz. rewrite BK, AK; [done|done|by rewrite AK].
  - intros bn Hbn Hc. destruct (decide (fblk V2 x2 bn = addr_of x NDIRECT)) as [E|Hne].
    + assert (data_block ds S V1 (fblk V2 x2 bn)) as D1.
      { destruct (decide (addr_of x NDIRECT = 0)) as [Hz|Hz].
        - destruct Hc as [Hc _]. pose proof (ly_data (fs_layout A1)). pose proof (ly_log (fs_layout A1)). rewrite E, Hz in Hc. szs.
        - rewrite E, <- (AK Hz). by apply (fo_ind A2); rewrite (AK Hz). }
      rewrite (BN bn Hbn D1) in *. by apply AN.
    + destruct (A7 _ Hc Hne) as [_ D1]. rewrite (BN bn Hbn D1) in *. by apply AN.
  - intros c Hc Hb. by rewrite B9, A9.
Qed.

Section extend.
Context {s ds : Z} {S : superblock} {V : gmap Z (list Z)} {x : inode}.
Context (Hfs : fs_ok s ds S V) (Hwf : disk_wf V) (Hx : file_ok ds S V x).
Context {b0 : Z} (Hb0 : ds <= b0 < sb_size S) (Hfree : used S V b0 = false).
Local Notation V' := (allocated S V b0).

Lemma blk_not_new bn : 0 <= bn < MAXFILE -> fblk V x bn <> b0.
Proof.
  intros Hbn E. destruct (alloc_fresh Hfs Hwf Hb0 Hfree) as [_ Hz]. destruct (fo_blk Hx bn Hbn) as [[_ Hu] _]; [rewrite E; exact Hz|].
  by rewrite E, Hfree in Hu.
Qed.

Lemma ind_not_new : addr_of x NDIRECT <> b0.
Proof.
  intros E. destruct (alloc_fresh Hfs Hwf Hb0 Hfree) as [_ Hz]. destruct (fo_ind Hx) as [_ Hu]; [rewrite E; exact Hz|]. by rewrite E, Hfree in Hu.
Qed.

(** Allocation alone does not touch the file. *)
Lemma alloc_fblk bn : fblk V' x bn = fblk V x bn.
Proof.
  unfold fblk. destruct (bn <? NDIRECT); [done|]. destruct (Z.eqb_spec (addr_of x NDIRECT) 0) as [|Hne]; [done|].
  by destruct (alloc_block Hfs Hwf Hb0 Hfree _ (fo_ind Hx Hne)) as (_ & -> & _).
Qed.

Lemma alloc_meta c : c < ds -> (forall b, 0 <= b < sb_size S -> c <> BBLOCK b S) -> V' !! c = V !! c.
Proof. intros Hc Hb. apply alloc_other; [lia|]. apply Hb. by apply (b0_range Hfs). Qed.

Lemma alloc_fdata bn : 0 <= bn < MAXFILE -> fblk V x bn <> 0 -> V' !! fblk V x bn = V !! fblk V x bn.
Proof. intros Hbn Hz. destruct (fo_blk Hx bn Hbn Hz) as [Hd _]. apply (alloc_block Hfs Hwf Hb0 Hfree _ Hd). Qed.

(** A direct block. *)
Lemma extend_direct i : 0 <= i < NDIRECT -> addr_of x i = 0 ->
  mapped s ds S V x V' (with_addr x i b0) /\ fblk V' (with_addr x i b0) i = b0.
Proof.
  intros Hi Hz. pose proof (fo_len Hx) as Hl. destruct (alloc_fresh Hfs Hwf Hb0 Hfree) as [Hd0 Hn0].
  assert (addr_of (with_addr x i b0) NDIRECT = addr_of x NDIRECT) as Eind by (apply addr_with_ne; unfold NDIRECT in *; lia).
  assert (forall bn, 0 <= bn -> fblk V' (with_addr x i b0) bn = if bn =? i then b0 else fblk V x bn) as Eblk.
  { intros bn Hbn. destruct (Z.eqb_spec bn i) as [->|Hne].
    - unfold fblk. rewrite (proj2 (Z.ltb_lt _ _)) by lia. by apply addr_with_eq; [|unfold NDIRECT in *; lia].
    - rewrite <- alloc_fblk. unfold fblk. rewrite Eind. destruct (bn <? NDIRECT); [|done]. apply addr_with_ne; lia. }
  assert (fblk V x i = 0) as Ez by (unfold fblk; by rewrite (proj2 (Z.ltb_lt _ _)) by lia).
  split; [|by rewrite Eblk, Z.eqb_refl by lia]. split.
  - by apply (alloc_fs_ok Hfs Hwf Hb0 Hfree).
  - split.
    + apply Hx.
    + cbn. by rewrite length_insert.
    + rewrite Eind. intros Hne. by apply (alloc_block Hfs Hwf Hb0 Hfree), (fo_ind Hx).
    + intros bn Hbn. rewrite Eblk, Eind by lia. destruct (Z.eqb_spec bn i) as [->|Hne].
      * intros _. split; [done|]. intros E. by apply ind_not_new.
      * intros Hnz. destruct (fo_blk Hx bn Hbn Hnz) as [Hd Hni]. split; [|done]. by apply (alloc_block Hfs Hwf Hb0 Hfree).
    + intros bn bn' Hbn Hbn'. rewrite !Eblk by lia. destruct (Z.eqb_spec bn i) as [->|H1], (Z.eqb_spec bn' i) as [->|H2]; try done.
      * intros _ E. by destruct (blk_not_new bn' Hbn').
      * intros _ E. by destruct (blk_not_new bn Hbn).
      * by apply (fo_inj Hx).
  - by apply (alloc_wf Hfs Hwf Hb0 Hfree).
  - by eexists.
  - intros bn Hbn. unfold fdata. rewrite Eblk by lia. destruct (Z.eqb_spec bn i) as [->|Hne].
    + rewrite Ez, (proj2 (Z.eqb_neq b0 0) Hn0). cbn [Z.eqb]. by rewrite alloc_new.
    + destruct (Z.eqb_spec (fblk V x bn) 0); [done|]. by rewrite alloc_fdata.
  - intros bn Hbn Hnz. rewrite Eblk by lia. destruct (Z.eqb_spec bn i) as [->|]; [by rewrite Ez in Hnz|done].
  - intros c Hc _. by destruct (alloc_block Hfs Hwf Hb0 Hfree c Hc) as (? & ? & _).
  - by rewrite Eind.
  - by rewrite Eind.
  - intros bn Hbn. rewrite Eblk by lia. destruct (Z.eqb_spec bn i); [|done]. intros [_ Hu]. by rewrite Hfree in Hu.
  - apply alloc_meta.
Qed.

(** The indirect block. *)
Lemma extend_indirect : addr_of x NDIRECT = 0 ->
  mapped s ds S V x V' (with_addr x NDIRECT b0) /\ addr_of (with_addr x NDIRECT b0) NDIRECT = b0.
Proof.
  intros Hz. pose proof (fo_len Hx) as Hl. destruct (alloc_fresh Hfs Hwf Hb0 Hfree) as [Hd0 Hn0].
  assert (addr_of (with_addr x NDIRECT b0) NDIRECT = b0) as Eind by (apply addr_with_eq; unfold NDIRECT in *; lia || done).
  assert (forall bn, 0 <= bn -> fblk V' (with_addr x NDIRECT b0) bn = fblk V x bn) as Eblk.
  { intros bn Hbn. unfold fblk. rewrite Eind, Hz, (proj2 (Z.eqb_neq b0 0) Hn0). cbn [Z.eqb]. destruct (Z.ltb_spec bn NDIRECT).
    - apply addr_with_ne; unfold NDIRECT in *; lia.
    - rewrite alloc_new. apply rd_zeros. }
  split; [|done]. split.
  - by apply (alloc_fs_ok Hfs Hwf Hb0 Hfree).
  - split.
    + apply Hx.
    + cbn. by rewrite length_insert.
    + by rewrite Eind.
    + intros bn Hbn. rewrite Eblk, Eind by lia. intros Hnz. destruct (fo_blk Hx bn Hbn Hnz) as [Hd Hni].
      split; [by apply (alloc_block Hfs Hwf Hb0 Hfree)|by apply blk_not_new].
    + intros bn bn' Hbn Hbn'. rewrite !Eblk by lia. by apply (fo_inj Hx).
  - by apply (alloc_wf Hfs Hwf Hb0 Hfree).
  - by eexists.
  - intros bn Hbn. unfold fdata. rewrite Eblk by lia. destruct (Z.eqb_spec (fblk V x bn) 0); [done|]. by rewrite alloc_fdata.
  - intros bn Hbn _. apply Eblk. lia.
  - intros c Hc _. by destruct (alloc_block Hfs Hwf Hb0 Hfree c Hc) as (? & ? & _).
  - rewrite Eind. intros [_ Hu]. by rewrite Hfree in Hu.
  - done.
  - intros bn Hbn _. apply Eblk. lia.
  - apply alloc_meta.
Qed.
End extend.

(** ** Changing a data block *)

Section write.
Context {s ds : Z} {S : superblock} {V : gmap Z (list Z)} (Hfs : fs_ok s ds S V) (Hwf : disk_wf V).
Context {a : Z} {d : list Z} (Ha : ds <= a < sb_size S) (Hd : length d = Z.to_nat BSIZE).

Lemma write_used c : 0 <= c < sb_size S -> used S (<[a := d]> V) c = used S V c.
Proof. clear Hd. intros Hc. apply (used_data (fs_layout Hfs)); [done|lia]. Qed.

Lemma data_range c : ds <= c < sb_size S -> 0 <= c < sb_size S.
Proof. clear Ha Hd. intros Hc. pose proof (ly_data (fs_layout Hfs)). pose proof (ly_log (fs_layout Hfs)). szs. Qed.

Lemma write_fs_ok : fs_ok s ds S (<[a := d]> V).
Proof.
  split; [apply Hfs| |].
  - intros c Hc. destruct (decide (a = c)) as [->|]; [rewrite lookup_insert_eq; eauto|rewrite lookup_insert_ne by done]. by apply (fs_dom Hfs).
  - intros c Hc. pose proof (ly_data (fs_layout Hfs)). rewrite write_used by lia. by apply (fs_meta Hfs).
Qed.

Lemma write_wf : disk_wf (<[a := d]> V).
Proof.
  intros c e. destruct (decide (a = c)) as [->|]; [rewrite lookup_insert_eq|rewrite lookup_insert_ne by done; by apply Hwf].
  intros [= <-]. pose proof (ly_size (fs_layout Hfs)). pose proof (data_range c Ha). split; [lia|done].
Qed.

Lemma write_block c : data_block ds S (<[a := d]> V) c <-> data_block ds S V c.
Proof.
  unfold data_block. split; intros [Hc Hu]; (split; [done|]).
  - rewrite write_used in Hu by (by apply data_range). done.
  - rewrite write_used by (by apply data_range). done.
Qed.
End write.

Section entry.
Context {s ds : Z} {S : superblock} {V : gmap Z (list Z)} {x : inode}.
Context (Hfs : fs_ok s ds S V) (Hwf : disk_wf V) (Hx : file_ok ds S V x).
Context {b0 : Z} (Hb0 : ds <= b0 < sb_size S) (Hfree : used S V b0 = false).
Context {bn : Z} {d : list Z} (Hbn : NDIRECT <= bn < MAXFILE).
Local Notation a := (addr_of x NDIRECT).
Context (Hz : a <> 0) (Hd : V !! a = Some d) (He : fblk V x bn = 0).
Local Notation d' := (wr_u32 d (4 * (bn - NDIRECT)) b0).
Local Notation V' := (<[a := d']> (allocated S V b0)).

Lemma entry_len : length d' = Z.to_nat BSIZE /\ length d = Z.to_nat BSIZE.
Proof. clear Hfs Hx Hb0 Hfree Hz He. destruct (Hwf _ _ Hd) as [_ Hl]. split; [|done]. rewrite wr_u32_length; fsz. Qed.

Lemma entry_fblk c : 0 <= c < MAXFILE -> fblk V' x c = if c =? bn then b0 else fblk V x c.
Proof.
  intros Hc. destruct entry_len as [_ Hl]. pose proof (b0_range Hfs Hb0 Hfree) as Hr. pose proof (ly_size (fs_layout Hfs)) as Hsz. unfold fblk.
  destruct (Z.ltb_spec c NDIRECT) as [Hlt|Hge]; [destruct (Z.eqb_spec c bn); [lia|done]|].
  rewrite (proj2 (Z.eqb_neq a 0) Hz), lookup_insert_eq, Hd. change (default [] (Some d)) with d. cbn [default from_option id].
  destruct (Z.eqb_spec c bn) as [->|Hne].
  - apply rd_wr_u32_eq; fsz.
  - apply rd_wr_u32_ne; fsz.
Qed.

(** The entry of a new block in the indirect block. *)
Lemma extend_entry : mapped s ds S V x V' x /\ fblk V' x bn = b0.
Proof.
  destruct (alloc_fresh Hfs Hwf Hb0 Hfree) as [Hd0 Hn0]. destruct entry_len as [Hl _].
  destruct (fo_ind Hx Hz) as [Har Hau]. pose proof (alloc_fs_ok Hfs Hwf Hb0 Hfree) as Hfs1. pose proof (alloc_wf Hfs Hwf Hb0 Hfree) as Hwf1.
  assert (NDIRECT = 12) as E12 by done.
  assert (forall c, data_block ds S V c -> data_block ds S V' c) as Hdb.
  { intros c Hc. apply (write_block Hfs1 Har). by apply (alloc_block Hfs Hwf Hb0 Hfree). }
  assert (forall c, data_block ds S V c -> c <> a -> V' !! c = V !! c) as Hkeep.
  { intros c Hc Hne. rewrite lookup_insert_ne by done. by apply (alloc_block Hfs Hwf Hb0 Hfree). }
  split; [|by rewrite entry_fblk, Z.eqb_refl by lia]. split.
  - by apply write_fs_ok.
  - split; [apply Hx|apply Hx|intros _; by apply Hdb, (fo_ind Hx)| |].
    + intros c Hc. rewrite entry_fblk by done. destruct (Z.eqb_spec c bn) as [->|Hne].
      * intros _. split; [by apply (write_block Hfs1 Har)|]. intros E. by apply (ind_not_new Hfs Hwf Hx Hb0 Hfree).
      * intros Hnz. destruct (fo_blk Hx c Hc Hnz) as [Hdc Hni]. split; [by apply Hdb|done].
    + intros c c' Hc Hc'. rewrite !entry_fblk by done. destruct (Z.eqb_spec c bn) as [->|H1], (Z.eqb_spec c' bn) as [->|H2]; try done.
      * intros _ E. by destruct (blk_not_new Hfs Hwf Hx Hb0 Hfree c' Hc').
      * intros _ E. by destruct (blk_not_new Hfs Hwf Hx Hb0 Hfree c Hc).
      * by apply (fo_inj Hx).
  - by apply (write_wf Hfs1 Hwf1 Har Hl).
  - exists (i_addrs x). by destruct x.
  - intros c Hc. unfold fdata. rewrite entry_fblk by done. destruct (Z.eqb_spec c bn) as [->|Hne].
    + rewrite He, (proj2 (Z.eqb_neq b0 0) Hn0). cbn [Z.eqb]. rewrite lookup_insert_ne; [by rewrite alloc_new|].
      intros E. by apply (ind_not_new Hfs Hwf Hx Hb0 Hfree).
    + destruct (Z.eqb_spec (fblk V x c) 0) as [|Hnz]; [done|]. destruct (fo_blk Hx c Hc Hnz) as [Hdc Hni]. by rewrite Hkeep.
  - intros c Hc Hnz. rewrite entry_fblk by done. destruct (Z.eqb_spec c bn) as [->|]; [done|done].
  - intros c Hc Hne. split; [by apply Hkeep|by apply Hdb].
  - done.
  - done.
  - intros c Hc. rewrite entry_fblk by done. destruct (Z.eqb_spec c bn); [|done]. intros [_ Hu]. by rewrite Hfree in Hu.
  - intros c Hc Hb. rewrite lookup_insert_ne by lia. by apply (alloc_meta Hfs).
Qed.
End entry.

(** ** Free blocks *)

Definition nfree (S : superblock) (V : gmap Z (list Z)) (m : nat) : Prop :=
  exists l, NoDup l /\ (m <= length l)%nat /\ Forall (fun b => 0 <= b < sb_size S /\ used S V b = false) l.

Lemma nfree_le S V m m' : nfree S V m -> (m' <= m)%nat -> nfree S V m'.
Proof. intros (l & H1 & H2 & H3) Hm. exists l. split_and!; [done|lia|done]. Qed.

Lemma nfree_same S V V' m : (forall c, 0 <= c < sb_size S -> used S V' c = used S V c) -> nfree S V m -> nfree S V' m.
Proof. intros Hu (l & H1 & H2 & H3). exists l. split_and!; [done|done|]. eapply Forall_impl; [exact H3|]. cbn. intros b [Hb Hf]. by rewrite Hu. Qed.

Lemma first_free S V : nfree S V 1 -> exists b0, 0 <= b0 < sb_size S /\ used S V b0 = false /\ forall c, 0 <= c < b0 -> used S V c = true.
Proof.
  intros (l & _ & Hl & Hf). destruct l as [|b l]; [cbn in Hl; lia|]. apply Forall_cons in Hf as [[Hb Hu] _]. clear Hl l.
  assert (forall m c, (Z.to_nat c < m)%nat -> 0 <= c < sb_size S -> used S V c = false ->
    exists b0, 0 <= b0 < sb_size S /\ used S V b0 = false /\ forall c, 0 <= c < b0 -> used S V c = true) as Hmin.
  { induction m as [|m IH]; intros c Hm Hc Hcf; [lia|].
    destruct (decide (Exists (fun e => used S V (Z.of_nat e) = false) (seq 0 (Z.to_nat c)))) as [He|He].
    - apply Exists_exists in He as (e & He & Hef). apply elem_of_seq in He. apply (IH (Z.of_nat e)); [lia|lia|done].
    - exists c. split_and!; [lia|lia|done|]. intros e He'. destruct (used S V e) eqn:Eu; [done|]. destruct He.
      apply Exists_exists. exists (Z.to_nat e). rewrite Z2Nat.id by lia. split; [apply elem_of_seq; lia|done]. }
  by apply (Hmin (Datatypes.S (Z.to_nat b)) b); [lia|..].
Qed.

Lemma nfree_alloc s ds S V b0 m : fs_ok s ds S V -> disk_wf V -> ds <= b0 < sb_size S -> used S V b0 = false ->
  nfree S V (Datatypes.S m) -> nfree S (allocated S V b0) m.
Proof.
  intros Hfs Hwf Hb0 Hfree (l & H1 & H2 & H3). exists (filter (fun b => b <> b0) l). split_and!.
  - by apply NoDup_filter.
  - assert (length l <= Datatypes.S (length (filter (fun b => b <> b0) l)))%nat; [|lia]. clear -H1. induction l as [|b l IH]; [cbn; lia|].
    apply NoDup_cons in H1 as [Hb Hl]. destruct (decide (b = b0)) as [->|Hne].
    + rewrite filter_cons_False by tauto. cbn. assert (filter (fun b => b <> b0) l = l) as ->; [|lia].
      clear -Hb. induction l as [|c l IH]; [done|]. apply not_elem_of_cons in Hb as [Hc Hb]. rewrite filter_cons_True by done. by rewrite IH.
    + rewrite filter_cons_True by done. cbn. specialize (IH Hl). lia.
  - apply Forall_forall. intros b [Hne Hb]%list_elem_of_filter. rewrite Forall_forall in H3. destruct (H3 b Hb) as [Hr Hu]. split; [done|].
    rewrite (alloc_used Hfs Hwf Hb0 Hfree) by done. by rewrite Hu, (proj2 (Z.eqb_neq b0 b)) by done.
Qed.

(** ** bmap *)

(** A transaction with the inode [x] in slot [ip] of the table. *)
Record fstate (p : nat) (s o : Z) (H : gset nat) (bl : list Z) (V D : gmap Z (list Z)) (t : T) (S : superblock) (ip : nat) (x : inode) (k : kern) : Prop := {
  ft_txn : txn p s o H bl V D t k;
  ft_sb : sb k = S;
  ft_ip : itable k !! ip = Some x
}.
Arguments ft_txn {_ _ _ _ _ _ _ _ _ _ _ _} _.
Arguments ft_sb {_ _ _ _ _ _ _ _ _ _ _ _} _.
Arguments ft_ip {_ _ _ _ _ _ _ _ _ _ _ _} _.

(** From [k] to [k'] only the inode [ip] and the file system have changed. *)
Record moved (ip : nat) (k k' : kern) : Prop := {
  mv_os : same_os k k';
  mv_ip : forall j, j <> ip -> itable k' !! j = itable k !! j
}.
#[export] Instance moved_preorder ip : PreOrder (moved ip).
Proof.
  split; [intros k; by split|]. intros k1 k2 k3 [A1 A2] [B1 B2]. split; [by etransitivity|]. intros j Hj. by rewrite B2, A2.
Qed.
Lemma same_fs_moved ip k k' : same_fs k k' -> moved ip k k'.
Proof. intros F. split; [by apply same_fs_os|]. intros j _. by rewrite (sf_itable _ _ F). Qed.

Lemma fstate_fs p s o H H' bl bl' V V' D t t' S ip x k k' :
  fstate p s o H bl V D t S ip x k -> txn p s o H' bl' V' D t' k' -> same_fs k k' -> fstate p s o H' bl' V' D t' S ip x k'.
Proof. intros [F1 F2 F3] HT F. split; [done|by rewrite (sf_sb _ _ F)|by rewrite (sf_itable _ _ F)]. Qed.

Lemma set_addr_state p s o H bl V D t S ip x k i a (n : nat) :
  fstate p s o H bl V D t S ip x k -> exists k', set_addr ip i a n (MkK t k) = Ret tt (MkK t k') /\
    fstate p s o H bl V D t S ip (with_addr x i a) k' /\ moved ip k k' /\ bufs k' = bufs k.
Proof.
  intros [F1 F2 F3]. exists (k <| itable ::= alter (fun x => x <| i_addrs ::= <[Z.to_nat i := a]> |>) ip |>). split_and!; [done| | |done].
  - split; [by apply txn_itable|done|]. cbn. by rewrite list_lookup_alter_eq, F3.
  - split; [by split|]. intros j Hj. by apply list_lookup_alter_ne.
Qed.

Lemma held_none ds S V k : held_data ds S V ∅ k.
Proof. intros c Hc. set_solver. Qed.

Section bmap.
Context (env : kst kern -> option (kst kern)) {BD : BlockDev env}.
Context (n p : nat) (Hn : (Z.to_nat BPB < n)%nat).
Context {s o ds : Z} {D : gmap Z (list Z)} {t : T} {S : superblock} {ip : nat}.
Context (Hr : rest p t) (Ho : 1 <= o) (HnS : (Z.to_nat (sb_size S / BPB) < n)%nat).

(** The outcome of adding at most [m] logged blocks and [f] data blocks. *)
Definition grown (m f : nat) (H : gset nat) (bl : list Z) (V : gmap Z (list Z)) (x : inode) (k : kern) (bl' : list Z) (V' : gmap Z (list Z)) (x' : inode) (k' : kern) : Prop :=
  fstate p s o H bl' V' D t S ip x' k' /\ mapped s ds S V x V' x' /\ moved ip k k' /\
  (length bl' <= length bl + m)%nat /\ (forall j, nfree S V (f + j) -> nfree S V' j).

Lemma grown_trans m f m' f' H bl V x k bl1 V1 x1 k1 bl2 V2 x2 k2 :
  grown m f H bl V x k bl1 V1 x1 k1 -> grown m' f' H bl1 V1 x1 k1 bl2 V2 x2 k2 -> grown (m + m') (f + f') H bl V x k bl2 V2 x2 k2.
Proof.
  intros (A1 & A2 & A3 & A4 & A5) (B1 & B2 & B3 & B4 & B5). split_and!; [done|by eapply mapped_trans|by etransitivity|lia|].
  intros j Hj. apply B5, A5. by rewrite Nat.add_assoc.
Qed.

Lemma grown_le m f m' f' H bl V x k bl' V' x' k' :
  grown m f H bl V x k bl' V' x' k' -> (m <= m')%nat -> (f <= f')%nat -> grown m' f' H bl V x k bl' V' x' k'.
Proof. intros (A1 & A2 & A3 & A4 & A5) Hm Hf. split_and!; try done; [lia|]. intros j Hj. apply A5. eapply nfree_le; [exact Hj|lia]. Qed.

Section step.
Context {bl : list Z} {V : gmap Z (list Z)} {x : inode} {k : kern}.
Context (HT : fstate p s o ∅ bl V D t S ip x k) (Hfs : fs_ok s ds S V) (Hx : file_ok ds S V x).

Lemma st_wf : disk_wf V.
Proof. eapply cached_wf, (tx_cache (ft_txn HT)). Qed.

Lemma grown_refl m f : grown m f ∅ bl V x k bl V x k.
Proof. split_and!; [done|by apply mapped_refl; [|apply st_wf|]|done|lia|]. intros j Hj. eapply nfree_le; [exact Hj|lia]. Qed.

Lemma bmap_slot_runs i :
  0 <= i <= NDIRECT -> (length bl + 2 < nbuf)%nat -> nfree S V 1 ->
  runs env (bmap_slot ip i n (MkK t k)) (fun a s' => exists k' x' V' bl', s' = MkK t k' /\
    grown 2 1 ∅ bl V x k bl' V' x' k' /\ addr_of x' i = a /\ a <> 0).
Proof.
  intros Hi Hbud Hfree. unfold bmap_slot. rewrite (geti_bind _ _ _ _ _ _ (ft_ip HT)). pose proof st_wf as Hwf.
  destruct (Z.eqb_spec (addr_of x i) 0) as [Hz|Hz].
  - destruct (first_free S V Hfree) as (b0 & Hb0 & Hu & Hall). rewrite (fo_dev Hx).
    assert (ds <= b0 < sb_size S) as Hds.
    { destruct (Z.le_gt_cases ds b0) as [|Hlt]; [lia|]. rewrite (fs_meta Hfs b0) in Hu by lia. done. }
    apply runs_bind. eapply runs_mono; [|eapply (balloc_runs env n p Hn Hr Ho Hfs k b0 (ft_txn HT) (ft_sb HT) (held_none ds S V k) ltac:(by rewrite size_empty) Hb0 Hu Hall)].
    2: { assert (b0 / BPB <= sb_size S / BPB) by (apply Z.div_le_mono; [done|lia]). assert (0 <= b0 / BPB) by (apply Z.div_pos; [lia|done]). lia. }
    intros r ? (-> & k1 & -> & HT1 & F1 & _). change (<[b0 := zeros]> (bmap_set S V b0)) with (allocated S V b0) in HT1.
    pose proof (fstate_fs _ _ _ _ _ _ _ _ _ _ _ _ _ _ _ _ _ HT HT1 F1) as HS1.
    destruct (set_addr_state _ _ _ _ _ _ _ _ _ _ _ _ i b0 n HS1) as (k2 & E2 & HS2 & M2 & _). rewrite (bind_ret _ _ _ _ _ _ E2).
    eapply runs_ret; [reflexivity|]. exists k2, (with_addr x i b0), (allocated S V b0). eexists. split; [done|].
    destruct (alloc_fresh Hfs Hwf Hds Hu) as [_ Hn0].
    split_and!; [split_and!|by apply addr_with_eq; [apply Hx|]|done].
    + exact HS2.
    + destruct (decide (i = NDIRECT)) as [->|]; [by apply extend_indirect|]. apply extend_direct; try done. unfold NDIRECT in *. lia.
    + etransitivity; [by apply same_fs_moved|done].
    + pose proof (absorb_length b0 (absorb (BBLOCK b0 S) bl)). pose proof (absorb_length (BBLOCK b0 S) bl). lia.
    + intros j Hj. by apply (nfree_alloc s ds).
  - eapply runs_ret; [reflexivity|]. exists k, x, V, bl. split; [done|]. split_and!; [apply grown_refl|done|done].
Qed.

(** The part of [bmap] that works on the indirect block. *)
Definition bmap_entry (ip : nat) (addr bn : Z) : KK Z :=
  x ← geti ip;
  bp ← bread (i_dev x) addr;
  y ← getb bp;
  let addr := rd_u32 (b_data y) (4 * bn) in
  addr ← (if addr =? 0 then
            addr ← balloc (i_dev x);
            set_data bp (fun l => wr_u32 l (4 * bn) addr) ;;
            log_write bp ;;
            mret addr
          else mret addr);
  brelse bp ;;
  mret addr.

Lemma bmap_eq bn : bmap ip bn =
  if bn <? NDIRECT then bmap_slot ip bn
  else if bn - NDIRECT <? NINDIRECT then addr ← bmap_slot ip NDIRECT; bmap_entry ip addr (bn - NDIRECT)
  else panic "bmap: out of range".
Proof. reflexivity. Qed.

(** Reading the entry of the indirect block. *)
Lemma bmap_entry_read {B} bn d (f : nat -> KK B) Q :
  addr_of x NDIRECT <> 0 -> (length bl < nbuf)%nat -> V !! addr_of x NDIRECT = Some d ->
  (forall bp k1, slks t !! SLBuf bp = None -> rest p (hold (SLBuf bp) p t) -> txn p s o {[bp]} bl V D (hold (SLBuf bp) p t) k1 ->
     reads bp (addr_of x NDIRECT) d k1 -> same_fs k k1 -> addr_of x NDIRECT ∈ bl \/ D !! addr_of x NDIRECT = Some d ->
     runs env (f bp n (MkK (hold (SLBuf bp) p t) k1)) Q) ->
  NDIRECT <= bn ->
  fblk V x bn = rd_u32 d (4 * (bn - NDIRECT)) /\ runs env ((bp ← bread ROOTDEV (addr_of x NDIRECT); f bp) n (MkK t k)) Q.
Proof.
  intros Hz Hbud Hd Hf Hbn. split.
  - unfold fblk. rewrite (proj2 (Z.ltb_ge _ _)) by lia. by rewrite (proj2 (Z.eqb_neq _ 0) Hz), Hd.
  - apply runs_bind.
    eapply runs_mono; [|eapply (tx_bread env n p (fuel_bufs n Hn) Hr (ft_txn HT) _ d (not_held_nil _ _) ltac:(right; rewrite size_empty; lia) Hd)].
    intros bp ? (k1 & -> & Hbp & Hfr & HT1 & R1 & K1 & F1 & Hcl). rewrite union_empty_r_L in HT1. apply Hf; try done. by apply rest_slks.
Qed.

Lemma bmap_entry_hit bn :
  NDIRECT <= bn < MAXFILE -> addr_of x NDIRECT <> 0 -> (length bl < nbuf)%nat -> fblk V x bn <> 0 ->
  runs env (bmap_entry ip (addr_of x NDIRECT) (bn - NDIRECT) n (MkK t k)) (fun a s' => a = fblk V x bn /\ exists k', s' = MkK t k' /\
    fstate p s o ∅ bl V D t S ip x k' /\ same_fs k k').
Proof.
  intros Hbn Hz Hbud He. destruct (fo_ind Hx Hz) as [Har Hau]. destruct (fs_dom Hfs _ (data_range Hfs _ Har)) as [d Hd].
  unfold bmap_entry. rewrite (geti_bind _ _ _ _ _ _ (ft_ip HT)), (fo_dev Hx).
  eapply (bmap_entry_read bn d); [done|done|done| |lia]. intros bp k1 Hfr Hr1 HT1 R1 F1 Hcl.
  pose proof R1 as (y & Hy & _ & Hdy). rewrite (getb_bind _ _ _ _ _ _ Hy), Hdy.
  assert (fblk V x bn = rd_u32 d (4 * (bn - NDIRECT))) as Eblk.
  { unfold fblk. rewrite (proj2 (Z.ltb_ge _ _)) by lia. by rewrite (proj2 (Z.eqb_neq _ 0) Hz), Hd. }
  rewrite <- Eblk, (proj2 (Z.eqb_neq _ 0) He), ret_bind. apply runs_bind.
  eapply runs_mono; [|eapply (tx_brelse env n p Hr1 HT1 bp _ d ltac:(by apply elem_of_singleton) R1 Hcl)].
  intros [] ? (k5 & -> & HT5 & K5 & F5). rewrite hold_drop in * by done. rewrite difference_diag_L in HT5.
  eapply runs_ret; [reflexivity|]. assert (same_fs k k5) as F by (by etransitivity). split; [done|]. exists k5. split_and!; [done|by eapply fstate_fs|done].
Qed.

Lemma bmap_entry_runs bn :
  NDIRECT <= bn < MAXFILE -> addr_of x NDIRECT <> 0 -> (length bl + 4 < nbuf)%nat -> nfree S V 1 ->
  runs env (bmap_entry ip (addr_of x NDIRECT) (bn - NDIRECT) n (MkK t k)) (fun a s' => exists k' V' bl', s' = MkK t k' /\
    grown 3 1 ∅ bl V x k bl' V' x k' /\ fblk V' x bn = a /\ a <> 0).
Proof.
  intros Hbn Hz Hbud Hfree. destruct (decide (fblk V x bn = 0)) as [He|He].
  2: { eapply runs_mono; [|eapply bmap_entry_hit; [done|done|lia|done]]. intros r ? (-> & k' & -> & HS & F). exists k', V, bl.
    split; [done|]. split_and!; [|done|done]. split_and!; [done|by apply mapped_refl; [|apply st_wf|]|by apply same_fs_moved|lia|].
    intros j Hj. eapply nfree_le; [exact Hj|lia]. }
  pose proof st_wf as Hwf. destruct (fo_ind Hx Hz) as [Har Hau]. set (a := addr_of x NDIRECT) in *.
  destruct (fs_dom Hfs a (data_range Hfs a Har)) as [d Hd]. pose proof (ly_data (fs_layout Hfs)) as Hlyd.
  unfold bmap_entry. rewrite (geti_bind _ _ _ _ _ _ (ft_ip HT)), (fo_dev Hx).
  eapply (bmap_entry_read bn d); [done|lia|done| |lia]. fold a. intros bp k1 Hfr Hr1 HT1 R1 F1 Hcl.
  assert (fblk V x bn = rd_u32 d (4 * (bn - NDIRECT))) as Eblk.
  { unfold fblk. rewrite (proj2 (Z.ltb_ge _ _)) by lia. fold a. by rewrite (proj2 (Z.eqb_neq a 0) Hz), Hd. }
  pose proof R1 as (y & Hy & _ & Hdy). rewrite (getb_bind _ _ _ _ _ _ Hy), Hdy, <- Eblk, He. change (0 =? 0) with true. cbv iota.
  destruct (first_free S V Hfree) as (b0 & Hb0 & Hu & Hall).
  assert (ds <= b0 < sb_size S) as Hds.
  { destruct (Z.le_gt_cases ds b0) as [|Hlt]; [lia|]. rewrite (fs_meta Hfs b0) in Hu by lia. done. }
  assert (sb k1 = S) as Hsb1 by (rewrite (sf_sb _ _ F1); apply HT).
  assert (held_data ds S V {[bp]} k1) as Hheld by (intros c ->%elem_of_singleton; by exists a, d).
  apply runs_bind, runs_bind.
  eapply runs_mono; [|eapply (balloc_runs env n p Hn Hr1 Ho Hfs k1 b0 HT1 Hsb1 Hheld ltac:(rewrite size_singleton; lia) Hb0 Hu Hall)].
  2: { assert (b0 / BPB <= sb_size S / BPB) by (apply Z.div_le_mono; [done|lia]). assert (0 <= b0 / BPB) by (apply Z.div_pos; [lia|done]). lia. }
  intros r ? (-> & k2 & -> & HT2 & F2 & K2). change (<[b0 := zeros]> (bmap_set S V b0)) with (allocated S V b0) in HT2.
  set (bl2 := absorb b0 (absorb (BBLOCK b0 S) bl)) in *.
  pose proof (absorb_length b0 (absorb (BBLOCK b0 S) bl)) as L1. pose proof (absorb_length (BBLOCK b0 S) bl) as L2. fold bl2 in L1.
  pose proof (K2 bp a d ltac:(by apply elem_of_singleton) R1) as R2. set (d' := wr_u32 d (4 * (bn - NDIRECT)) b0).
  assert (length d' = Z.to_nat BSIZE) as Hl by (apply (entry_len Hwf Hbn Hd)).
  destruct (tx_set p HT2 bp a d d' ltac:(by apply elem_of_singleton) R2 Hl) as (HT3 & R3 & K3 & F3).
  unfold set_data. rewrite modb_bind. replace (k2 <| bufs ::= _ |>) with (k2 <| bufs ::= alter (fun x => x <| b_data := d' |>) bp |>).
  2: { pose proof R2 as (z & Hz2 & _ & Hdz). unfold upd. f_equal. rewrite !(alter_insert _ _ _ _ Hz2). by rewrite Hdz. }
  destruct (log_write_spec n p Hr1 HT3 bp a d' ltac:(by apply elem_of_singleton) R3 Ho) as (k4 & E4 & HT4 & R4 & K4 & F4);
    [rewrite nbuf_eq in Hbud; szs|unfold in_log; lia|].
  rewrite (bind_ret _ _ _ _ _ _ E4). eapply runs_ret; [reflexivity|]. apply runs_bind.
  eapply runs_mono; [|eapply (tx_brelse env n p Hr1 HT4 bp a d' ltac:(by apply elem_of_singleton) R4); left; apply absorb_in].
  intros [] ? (k5 & -> & HT5 & K5 & F5). rewrite hold_drop in * by done. rewrite difference_diag_L in HT5.
  eapply runs_ret; [reflexivity|].
  assert (same_fs k k5) as F by (do 4 (etransitivity; [eassumption|]); done).
  destruct (extend_entry Hfs Hwf Hx Hds Hu Hbn Hz Hd He) as [Hmap Ef]. destruct (alloc_fresh Hfs Hwf Hds Hu) as [_ Hn0].
  exists k5, (<[a := d']> (allocated S V b0)), (absorb a bl2). split; [done|]. split_and!; [|done|done].
  split_and!; [by eapply fstate_fs|done|by apply same_fs_moved| |].
  - pose proof (absorb_length a bl2). lia.
  - intros j Hj. eapply nfree_same; [|by apply (nfree_alloc s ds S V b0)]. intros c Hc.
    by apply (write_used (alloc_fs_ok Hfs Hwf Hds Hu) Har).
Qed.

Lemma bmap_hit bn :
  0 <= bn < MAXFILE -> (length bl < nbuf)%nat -> fblk V x bn <> 0 ->
  runs env (bmap ip bn n (MkK t k)) (fun a s' => a = fblk V x bn /\ exists k', s' = MkK t k' /\
    fstate p s o ∅ bl V D t S ip x k' /\ same_fs k k').
Proof.
  intros Hbn Hbud He. rewrite bmap_eq. destruct (Z.ltb_spec bn NDIRECT) as [Hlt|Hge].
  - assert (fblk V x bn = addr_of x bn) as E by (unfold fblk; by rewrite (proj2 (Z.ltb_lt _ _))). rewrite E in *.
    unfold bmap_slot. rewrite (geti_bind _ _ _ _ _ _ (ft_ip HT)), (proj2 (Z.eqb_neq _ 0) He).
    eapply runs_ret; [reflexivity|]. split; [done|]. by exists k.
  - rewrite (proj2 (Z.ltb_lt _ _)) by (unfold MAXFILE in Hbn; lia).
    assert (addr_of x NDIRECT <> 0) as Hz.
    { intros Hz. apply He. unfold fblk. rewrite (proj2 (Z.ltb_ge _ _)) by lia. by rewrite Hz. }
    assert (bmap_slot ip NDIRECT n (MkK t k) = Ret (addr_of x NDIRECT) (MkK t k)) as E.
    { unfold bmap_slot. by rewrite (geti_bind _ _ _ _ _ _ (ft_ip HT)), (proj2 (Z.eqb_neq _ 0) Hz). }
    rewrite (bind_ret _ _ _ _ _ _ E). apply bmap_entry_hit; [lia|done..].
Qed.
End step.

(** [bmap] returns the file's block [bn], allocating it, and the indirect
    block, when it is not there. *)
Lemma bmap_runs bl V x k bn :
  fstate p s o ∅ bl V D t S ip x k -> fs_ok s ds S V -> file_ok ds S V x ->
  0 <= bn < MAXFILE -> (length bl + 6 < nbuf)%nat -> nfree S V 2 ->
  runs env (bmap ip bn n (MkK t k)) (fun a s' => exists k' x' V' bl', s' = MkK t k' /\
    grown 5 2 ∅ bl V x k bl' V' x' k' /\ fblk V' x' bn = a /\ a <> 0).
Proof.
  intros HT Hfs Hx Hbn Hbud Hfree. rewrite bmap_eq. destruct (Z.ltb_spec bn NDIRECT) as [Hlt|Hge].
  - eapply runs_mono; [|eapply (bmap_slot_runs HT Hfs Hx bn); [unfold NDIRECT in *; lia|lia|eapply nfree_le; [exact Hfree|lia]]].
    intros a ? (k' & x' & V' & bl' & -> & G & E & Hz). exists k', x', V', bl'. split_and!; [done|eapply grown_le; [exact G|lia|lia]| |done].
    unfold fblk. by rewrite (proj2 (Z.ltb_lt _ _)).
  - rewrite (proj2 (Z.ltb_lt _ _)) by (unfold MAXFILE in Hbn; lia). apply runs_bind.
    eapply runs_mono; [|eapply (bmap_slot_runs HT Hfs Hx NDIRECT); [unfold NDIRECT in *; lia|lia|eapply nfree_le; [exact Hfree|lia]]].
    intros a ? (k1 & x1 & V1 & bl1 & -> & G1 & E & Hz). pose proof G1 as (HT1 & M1 & _ & L1 & N1). rewrite <- E in Hz |- *.
    eapply runs_mono; [|eapply (bmap_entry_runs HT1 (mp_fs _ _ _ _ _ _ _ M1) (mp_file _ _ _ _ _ _ _ M1) bn); [lia|done|lia|by apply (N1 1%nat)]].
    intros a' ? (k2 & V2 & bl2 & -> & G2 & E2 & Hz2). exists k2, x1, V2, bl2. split_and!; [done| |done|done].
    exact (grown_trans _ _ _ _ _ _ _ _ _ _ _ _ _ _ _ _ _ G1 G2).
Qed.
End bmap.
