(* ===== verification/ReadWrite.v ===== *)
(** * Reading and writing files

    The on-disk inode, [iupdate], [writei] and [readi] of fs.c on the file as
    a function from offsets to bytes. *)

From Stdlib Require Import ZArith Lia.
From S2P Require Import Prelude Riscv KString Thread Proc Sleeplock Kalloc Kern Blocks Virtio VirtioSpec.
From S2P Require Import Lru Bio BioSpec BioOps Log LogSpec Crash Txn ProcMem Fs Balloc Files.

(** ** On-disk inodes *)

Lemma slice_app_mid (a b c : list Z) off n : off = Z.of_nat (length a) -> n = Z.of_nat (length b) -> slice off n (a ++ b ++ c) = b.
Proof. intros -> ->. unfold slice. rewrite !Nat2Z.id, drop_app_length, take_app_length. done. Qed.

Lemma mjoin_bytes_length l : length (mjoin (le_bytes 4 <$> l) : list Z) = (4 * length l)%nat.
Proof. induction l as [|x l IH]; [done|]. change (length (le_bytes 4 x ++ mjoin (le_bytes 4 <$> l)) = (4 * length (x :: l))%nat).
  rewrite length_app, le_bytes_length, IH. cbn. lia. Qed.

Record dinode_wf (d : dinode) : Prop := {
  dw_type : - 2 ^ 15 <= di_type d < 2 ^ 15;
  dw_major : - 2 ^ 15 <= di_major d < 2 ^ 15;
  dw_minor : - 2 ^ 15 <= di_minor d < 2 ^ 15;
  dw_nlink : - 2 ^ 15 <= di_nlink d < 2 ^ 15;
  dw_size : 0 <= di_size d < 2 ^ 32;
  dw_addrs : Forall (fun a => 0 <= a < 2 ^ 32) (di_addrs d);
  dw_len : length (di_addrs d) = 13%nat
}.

Lemma enc_dinode_length d : dinode_wf d -> length (enc_dinode d) = Z.to_nat DINODE_SIZE.
Proof. intros W. unfold enc_dinode. rewrite !length_app, !le_bytes_length, mjoin_bytes_length, (dw_len _ W). done. Qed.

Lemma i16_u16 x : - 2 ^ 15 <= x < 2 ^ 15 -> i16 (u16 x) = x.
Proof. intros Hx. unfold i16, u16. rewrite Z.mod_mod by lia. destruct (Z.ltb_spec (x mod 2 ^ 16) (2 ^ 15)); lia. Qed.

Lemma rd_short (a b : list Z) x off : off = Z.of_nat (length a) -> - 2 ^ 15 <= x < 2 ^ 15 -> i16 (rd_u16 (a ++ le_bytes 2 (u16 x) ++ b) off) = x.
Proof.
  intros -> Hx. unfold rd_u16. rewrite slice_app_mid by (rewrite ?le_bytes_length; lia). rewrite le_val_bytes; [by apply i16_u16|].
  pose proof (u16_range x). cbn. lia.
Qed.

Lemma rd_word (a b : list Z) x off : off = Z.of_nat (length a) -> 0 <= x < 2 ^ 32 -> rd_u32 (a ++ le_bytes 4 x ++ b) off = x.
Proof.
  intros -> Hx. unfold rd_u32. rewrite slice_app_mid by (rewrite ?le_bytes_length; lia). apply le_val_bytes. cbn. lia.
Qed.

Lemma rd_addr (a : list Z) l i x : l !! i = Some x -> 0 <= x < 2 ^ 32 ->
  rd_u32 (a ++ mjoin (le_bytes 4 <$> l)) (Z.of_nat (length a) + 4 * Z.of_nat i) = x.
Proof.
  intros Hi Hx. rewrite <- (take_drop_middle l i x Hi), fmap_app, fmap_cons, join_app. cbn [mjoin list_join]. rewrite app_assoc.
  apply rd_word; [|done]. rewrite length_app, mjoin_bytes_length, length_take. pose proof (lookup_lt_Some _ _ _ Hi). lia.
Qed.

Lemma dec_enc_dinode d : dinode_wf d -> dec_dinode (enc_dinode d) = d.
Proof.
  intros [W1 W2 W3 W4 W5 W6 W7]. unfold dec_dinode. destruct d as [ty mj mi nl sz ad]. cbn [di_type di_major di_minor di_nlink di_size di_addrs] in *.
  unfold enc_dinode. cbn [di_type di_major di_minor di_nlink di_size di_addrs]. f_equal.
  - by apply (rd_short []).
  - by apply (rd_short (le_bytes 2 (u16 ty))).
  - rewrite app_assoc. by apply rd_short.
  - pose proof (rd_short (le_bytes 2 (u16 ty) ++ le_bytes 2 (u16 mj) ++ le_bytes 2 (u16 mi)) (le_bytes 4 sz ++ mjoin (le_bytes 4 <$> ad)) nl 6 eq_refl W4) as E.
    by rewrite <- !app_assoc in E.
  - pose proof (rd_word (le_bytes 2 (u16 ty) ++ le_bytes 2 (u16 mj) ++ le_bytes 2 (u16 mi) ++ le_bytes 2 (u16 nl)) (mjoin (le_bytes 4 <$> ad)) sz 8 eq_refl W5) as E.
    by rewrite <- !app_assoc in E.
  - apply list_eq. intros i. rewrite list_lookup_fmap. destruct (decide (i < 13)%nat) as [Hi|Hi].
    + rewrite lookup_seq_lt by done. destruct (lookup_lt_is_Some_2 ad i ltac:(lia)) as [a Ha]. rewrite Ha. cbn [fmap option_fmap option_map Nat.add].
      f_equal. rewrite Forall_lookup in W6.
      pose proof (rd_addr (le_bytes 2 (u16 ty) ++ le_bytes 2 (u16 mj) ++ le_bytes 2 (u16 mi) ++ le_bytes 2 (u16 nl) ++ le_bytes 4 sz) ad i a Ha (W6 i a Ha)) as E.
      by rewrite <- !app_assoc in E.
    + rewrite lookup_seq_ge by lia. by rewrite (proj2 (lookup_ge_None ad i)) by lia.
Qed.

(** ** The inode on disk *)

(** Inode [i] of the disk [V]. *)
Definition disk_inode (S : superblock) (V : gmap Z (list Z)) (i : Z) : dinode :=
  dec_dinode (slice (dinode_off i) DINODE_SIZE (default [] (V !! IBLOCK i S))).

Definition put_inode (S : superblock) (V : gmap Z (list Z)) (i : Z) (d : dinode) : gmap Z (list Z) :=
  <[IBLOCK i S := splice (dinode_off i) (enc_dinode d) (default [] (V !! IBLOCK i S))]> V.

Lemma dinode_off_range i : 0 <= dinode_off i /\ dinode_off i + DINODE_SIZE <= BSIZE.
Proof. unfold dinode_off. change IPB with 16. pose proof (Z.mod_pos_bound i 16). unfold DINODE_SIZE, BSIZE. lia. Qed.

Section disk_inode.
Context {s ds : Z} {S : superblock} {V : gmap Z (list Z)} (Hfs : fs_ok s ds S V) (Hwf : disk_wf V).
Context {i : Z} {d : dinode} (Hi : 0 <= i < sb_ninodes S) (Hd : dinode_wf d).

Lemma inode_block : exists l, V !! IBLOCK i S = Some l /\ length l = Z.to_nat BSIZE.
Proof.
  destruct (fs_dom Hfs (IBLOCK i S)) as [l Hl]; [|exists l; split; [done|by eapply Hwf]].
  pose proof (ly_inode (fs_layout Hfs) i Hi). pose proof (ly_data (fs_layout Hfs)). pose proof (ly_log (fs_layout Hfs)). szs.
Qed.

Lemma put_inode_eq : disk_inode S (put_inode S V i d) i = d.
Proof.
  destruct inode_block as (l & Hl & Hll). unfold disk_inode, put_inode. rewrite lookup_insert_eq, Hl. cbn [default from_option id].
  pose proof (dinode_off_range i). pose proof (enc_dinode_length d Hd) as He. change (default [] (Some l)) with l.
  rewrite slice_splice_eq; [by apply dec_enc_dinode|lia|unfold DINODE_SIZE in *; szs|rewrite He; unfold DINODE_SIZE; lia].
Qed.

Lemma put_inode_ne j : 0 <= j < sb_ninodes S -> j <> i ->
  disk_inode S (put_inode S V i d) j = disk_inode S V j.
Proof.
  intros Hj Hne. pose proof (ly_ino (fs_layout Hfs) i Hi) as Ei. pose proof (ly_ino (fs_layout Hfs) j Hj) as Ej.
  destruct inode_block as (l & Hl & Hll). unfold disk_inode, put_inode.
  destruct (decide (IBLOCK i S = IBLOCK j S)) as [E|E]; [|by rewrite lookup_insert_ne].
  rewrite E, lookup_insert_eq, <- E, Hl. f_equal. change (default [] (Some l)) with l. cbn [default from_option id]. change (id l) with l.
  pose proof (dinode_off_range i). pose proof (dinode_off_range j). pose proof (enc_dinode_length d Hd) as He.
  apply slice_splice_ne; [lia|lia|rewrite He; unfold DINODE_SIZE in *; szs|].
  rewrite He. unfold dinode_off, DINODE_SIZE in *. change IPB with 16 in *. pose proof (Z.div_mod i 16). pose proof (Z.div_mod j 16). lia.
Qed.

Lemma put_inode_len : length (splice (dinode_off i) (enc_dinode d) (default [] (V !! IBLOCK i S))) = Z.to_nat BSIZE.
Proof.
  destruct inode_block as (l & Hl & Hll). rewrite Hl. change (default [] (Some l)) with l. pose proof (dinode_off_range i).
  pose proof (enc_dinode_length d Hd) as He. rewrite splice_length; [done|lia|rewrite He; unfold DINODE_SIZE in *; szs].
Qed.

(** The other blocks, and the bitmap, are the same. *)
Lemma put_inode_data c : ds <= c -> put_inode S V i d !! c = V !! c.
Proof. intros Hc. unfold put_inode. pose proof (ly_inode (fs_layout Hfs) i Hi). by rewrite lookup_insert_ne by lia. Qed.

Lemma put_inode_used c : 0 <= c < sb_size S -> used S (put_inode S V i d) c = used S V c.
Proof. intros Hc. unfold used, put_inode. rewrite lookup_insert_ne; [done|]. by apply (ly_apart (fs_layout Hfs)). Qed.

Lemma put_inode_fs_ok : fs_ok s ds S (put_inode S V i d).
Proof.
  split; [apply Hfs| |].
  - intros c Hc. unfold put_inode. destruct (decide (IBLOCK i S = c)) as [->|]; [rewrite lookup_insert_eq; eauto|rewrite lookup_insert_ne by done]. by apply (fs_dom Hfs).
  - intros c Hc. pose proof (ly_data (fs_layout Hfs)). rewrite put_inode_used by lia. by apply (fs_meta Hfs).
Qed.

Lemma put_inode_file x : file_ok ds S V x -> file_ok ds S (put_inode S V i d) x /\ forall bn, 0 <= bn < MAXFILE ->
  fblk (put_inode S V i d) x bn = fblk V x bn /\ fdata (put_inode S V i d) x bn = fdata V x bn.
Proof.
  intros Hx. assert (forall c, data_block ds S V c -> data_block ds S (put_inode S V i d) c) as Hdb.
  { intros c [Hc Hu]. split; [done|]. rewrite put_inode_used; [done|]. by apply (data_range Hfs). }
  assert (forall bn, fblk (put_inode S V i d) x bn = fblk V x bn) as Hb.
  { intros bn. unfold fblk. destruct (bn <? NDIRECT); [done|]. destruct (Z.eqb_spec (addr_of x NDIRECT) 0) as [|Hz]; [done|].
    destruct (fo_ind Hx Hz) as [Hr _]. by rewrite put_inode_data by lia. }
  split.
  - split; [apply Hx|apply Hx|intros Hz; by apply Hdb, Hx| |].
    + intros bn Hbn. rewrite Hb. intros Hz. destruct (fo_blk Hx bn Hbn Hz). split; [by apply Hdb|done].
    + intros bn bn' H1 H2. rewrite !Hb. by apply (fo_inj Hx).
  - intros bn Hbn. split; [done|]. unfold fdata. rewrite Hb. destruct (Z.eqb_spec (fblk V x bn) 0) as [|Hz]; [done|].
    destruct (fo_blk Hx bn Hbn Hz) as [[Hr _] _]. by rewrite put_inode_data by lia.
Qed.
End disk_inode.

Lemma log_room (bl : list Z) m : (length bl + m < nbuf)%nat -> (0 < m)%nat -> (length bl < Z.to_nat LOGSIZE - 1)%nat.
Proof. rewrite nbuf_eq. intros. szs. Qed.

Section inode_ops.
Context (env : kst kern -> option (kst kern)) {BD : BlockDev env}.
Context (n p : nat) (Hn : (Z.to_nat BPB < n)%nat).
Context {s o ds : Z} {D : gmap Z (list Z)} {t : T} {S : superblock} {ip : nat}.
Context (Hr : rest p t) (Ho : 1 <= o) (HnS : (Z.to_nat (sb_size S / BPB) < n)%nat).

Lemma iupdate_runs bl V x k :
  fstate p s o ∅ bl V D t S ip x k -> fs_ok s ds S V -> i_dev x = ROOTDEV -> dinode_wf (inode_disk x) -> 0 <= i_inum x < sb_ninodes S ->
  (length bl + 1 < nbuf)%nat ->
  runs env (iupdate ip n (MkK t k)) (fun _ s' => exists k', s' = MkK t k' /\
    fstate p s o ∅ (absorb (IBLOCK (i_inum x) S) bl) (put_inode S V (i_inum x) (inode_disk x)) D t S ip x k' /\ same_fs k k').
Proof.
  intros HT Hfs Hdev Hd Hi Hbud. pose proof (cached_wf p _ _ _ _ _ (tx_cache (ft_txn HT))) as Hwf.
  destruct (inode_block Hfs Hwf Hi) as (l & Hl & Hll). pose proof (ly_inode (fs_layout Hfs) _ Hi) as Hib.
  unfold iupdate. rewrite (geti_bind _ _ _ _ _ _ (ft_ip HT)), getX_bind, (ft_sb HT), Hdev.
  eapply runs_mono; [|eapply (update_runs env BD n p s o ∅ bl V D t k (IBLOCK (i_inum x) S) l (splice (dinode_off (i_inum x)) (enc_dinode (inode_disk x))))].
  - intros [] ? (k' & -> & HT' & F & _). exists k'. split_and!; [done| |done]. eapply fstate_fs; [exact HT| |done].
    unfold put_inode. rewrite Hl. exact HT'.
  - intros b k1 F. assert (itable k1 !! ip = Some x) as Hx1 by (rewrite (sf_itable _ _ F); apply HT).
    by rewrite (geti_bind _ _ _ _ _ _ Hx1).
  - by apply fuel_bufs.
  - done.
  - apply HT.
  - done.
  - by eapply (log_room bl 1); [|lia].
  - unfold in_log. lia.
  - apply not_held_nil.
  - right. rewrite size_empty. lia.
  - done.
  - pose proof (put_inode_len Hfs Hwf Hi Hd) as HL. by rewrite Hl in HL.
Qed.
End inode_ops.

(** ** Files as functions from offsets to bytes *)

Definition fbyte (V : gmap Z (list Z)) (x : inode) (i : Z) : Z := byte_at (fdata V x (i / BSIZE)) (i mod BSIZE).

Definition in_file (i : Z) : Prop := 0 <= i < MAXFILE * BSIZE.

Lemma in_file_blk i : in_file i -> 0 <= i / BSIZE < MAXFILE.
Proof. unfold in_file. change MAXFILE with 268. unfold BSIZE. lia. Qed.

(** [bytes] have been written to the file at [off]. *)
Record fwrote (s ds : Z) (S : superblock) (V : gmap Z (list Z)) (x : inode) (off : Z) (bytes : list Z) (V' : gmap Z (list Z)) (x' : inode) : Prop := {
  fw_fs : fs_ok s ds S V';
  fw_file : file_ok ds S V' x';
  fw_wf : disk_wf V';
  fw_x : exists l, x' = x <| i_addrs := l |>;
  fw_byte : forall i, in_file i -> fbyte V' x' i = if decide (off <= i < off + Z.of_nat (length bytes)) then byte_at bytes (i - off) else fbyte V x i;
  fw_keep : forall bn, 0 <= bn < MAXFILE -> fblk V x bn <> 0 -> fblk V' x' bn = fblk V x bn;
  fw_there : forall i, in_file i -> off <= i < off + Z.of_nat (length bytes) -> fblk V' x' (i / BSIZE) <> 0;
  fw_other : forall c, data_block ds S V c -> c <> addr_of x NDIRECT -> (forall bn, 0 <= bn < MAXFILE -> fblk V x bn <> c) ->
    V' !! c = V !! c /\ data_block ds S V' c;
  fw_ind : addr_of x NDIRECT <> 0 -> addr_of x' NDIRECT = addr_of x NDIRECT;
  fw_fresh : data_block ds S V (addr_of x' NDIRECT) -> addr_of x' NDIRECT = addr_of x NDIRECT;
  fw_new : forall bn, 0 <= bn < MAXFILE -> data_block ds S V (fblk V' x' bn) -> fblk V' x' bn = fblk V x bn;
  fw_meta : forall c, c < ds -> (forall b, 0 <= b < sb_size S -> c <> BBLOCK b S) -> V' !! c = V !! c
}.

Arguments fw_fs {_ _ _ _ _ _ _ _ _} _.
Arguments fw_file {_ _ _ _ _ _ _ _ _} _.
Arguments fw_wf {_ _ _ _ _ _ _ _ _} _.
Arguments fw_x {_ _ _ _ _ _ _ _ _} _.
Arguments fw_byte {_ _ _ _ _ _ _ _ _} _.
Arguments fw_keep {_ _ _ _ _ _ _ _ _} _.
Arguments fw_there {_ _ _ _ _ _ _ _ _} _.
Arguments fw_other {_ _ _ _ _ _ _ _ _} _.
Arguments fw_ind {_ _ _ _ _ _ _ _ _} _.
Arguments fw_fresh {_ _ _ _ _ _ _ _ _} _.
Arguments fw_new {_ _ _ _ _ _ _ _ _} _.
Arguments fw_meta {_ _ _ _ _ _ _ _ _} _.

Lemma fwrote_mapped s ds S V x off V' x' : mapped s ds S V x V' x' -> fwrote s ds S V x off [] V' x'.
Proof.
  intros []. split; try done.
  - intros i Hi. rewrite decide_False by (cbn; lia). unfold fbyte. by rewrite mp_data by (by apply in_file_blk).
  - intros i _ Hi. cbn in Hi. lia.
  - intros c Hc Hne _. by apply mp_other.
Qed.

(** No data block is given up. *)
Lemma fwrote_block {s ds S V x off bytes V' x' c} : fwrote s ds S V x off bytes V' x' -> data_block ds S V c -> data_block ds S V' c.
Proof.
  intros A Hc. assert (c <> 0) as Hz.
  { destruct Hc as [Hr _]. pose proof (ly_data (fs_layout (fw_fs A))). pose proof (ly_log (fs_layout (fw_fs A))). szs. }
  destruct (decide (c = addr_of x NDIRECT)) as [->|Hne].
  { rewrite <- (fw_ind A Hz). apply (fo_ind (fw_file A)). by rewrite (fw_ind A Hz). }
  destruct (decide (Exists (fun bn => fblk V x (Z.of_nat bn) = c) (seq 0 (Z.to_nat MAXFILE)))) as [He|He].
  - apply Exists_exists in He as (bn & Hbn & <-). apply elem_of_seq in Hbn. assert (0 <= Z.of_nat bn < MAXFILE) as Hb by lia.
    rewrite <- (fw_keep A _ Hb Hz). apply (fo_blk (fw_file A)); [done|].
    by rewrite (fw_keep A _ Hb Hz).
  - apply (fw_other A); [done|done|]. intros bn Hbn E. apply He, Exists_exists. exists (Z.to_nat bn).
    split; [apply elem_of_seq; lia|]. by rewrite Z2Nat.id by lia.
Qed.

Lemma fwrote_trans s ds S V x off b1 V1 x1 b2 V2 x2 :
  fwrote s ds S V x off b1 V1 x1 -> fwrote s ds S V1 x1 (off + Z.of_nat (length b1)) b2 V2 x2 -> fwrote s ds S V x off (b1 ++ b2) V2 x2.
Proof.
  intros A B. split; try apply B.
  - destruct (fw_x A) as [l ->], (fw_x B) as [l' ->]. by exists l'.
  - intros i Hi. rewrite (fw_byte B i Hi), (fw_byte A i Hi), length_app. unfold byte_at.
    destruct (decide (off + _ <= i < _)) as [H1|H1].
    + rewrite decide_True by lia. rewrite lookup_app_r by lia. do 2 f_equal. lia.
    + destruct (decide (off <= i < off + Z.of_nat (length b1))) as [H2|H2].
      * rewrite decide_True by lia. by rewrite lookup_app_l by lia.
      * by rewrite decide_False by lia.
  - intros bn Hbn Hz. rewrite (fw_keep B) by (done || by rewrite (fw_keep A)). by apply (fw_keep A).
  - intros i Hi Hr. rewrite length_app in Hr. destruct (decide (i < off + Z.of_nat (length b1))) as [H1|H1].
    + rewrite (fw_keep B); [apply (fw_there A); [done|lia]|by apply in_file_blk|apply (fw_there A); [done|lia]].
    + apply (fw_there B); [done|lia].
  - intros c Hc Hne Hno. destruct (fw_other A c Hc Hne Hno) as [E1 D1].
    destruct (fw_other B c D1) as [E2 D2]; [| |by rewrite E2].
    + intros ->. apply Hne. by apply (fw_fresh A).
    + intros bn Hbn E. apply (Hno bn Hbn). rewrite <- E in Hc |- *. symmetry. by apply (fw_new A).
  - intros Hz. rewrite (fw_ind B), (fw_ind A); [done|done|by rewrite (fw_ind A)].
  - intros Hc. assert (data_block ds S V1 (addr_of x2 NDIRECT)) as D1 by (by apply (fwrote_block A)).
    rewrite (fw_fresh B D1) in *. by apply (fw_fresh A).
  - intros bn Hbn Hc. assert (data_block ds S V1 (fblk V2 x2 bn)) as D1 by (by apply (fwrote_block A)).
    rewrite (fw_new B bn Hbn D1) in *. by apply (fw_new A).
  - intros c Hc Hb. by rewrite (fw_meta B), (fw_meta A).
Qed.

(** Writing inside one block that is there. *)
Section piece.
Context {s ds : Z} {S : superblock} {V : gmap Z (list Z)} {x : inode}.
Context (Hfs : fs_ok s ds S V) (Hwf : disk_wf V) (Hx : file_ok ds S V x).
Context {off : Z} {bytes d : list Z} (Hoff : in_file off).
Local Notation bn := (off / BSIZE).
Local Notation a := (fblk V x bn).
Context (Hz : a <> 0) (Hd : V !! a = Some d) (Hlen : off mod BSIZE + Z.of_nat (length bytes) <= BSIZE).
Local Notation d' := (splice (off mod BSIZE) bytes d).
Local Notation V' := (<[a := d']> V).

Lemma piece_len : length d = Z.to_nat BSIZE /\ length d' = Z.to_nat BSIZE /\ 0 <= off mod BSIZE.
Proof.
  clear Hx Hfs Hz. destruct (Hwf _ _ Hd) as [_ Hl]. pose proof (Z.mod_pos_bound off BSIZE ltac:(done)). split_and!; [done| |lia].
  rewrite splice_length; szs.
Qed.

Lemma piece_fblk c : 0 <= c < MAXFILE -> fblk V' x c = fblk V x c.
Proof.
  intros Hc. unfold fblk at 1 3. destruct (c <? NDIRECT); [done|]. destruct (Z.eqb_spec (addr_of x NDIRECT) 0); [done|].
  destruct (fo_blk Hx bn (in_file_blk off Hoff) Hz) as [_ Hne]. by rewrite lookup_insert_ne.
Qed.

Lemma piece_fdata c : 0 <= c < MAXFILE -> fdata V' x c = if c =? bn then d' else fdata V x c.
Proof.
  intros Hc. unfold fdata at 1. rewrite piece_fblk by done. destruct (Z.eqb_spec c bn) as [->|Hne].
  - by rewrite (proj2 (Z.eqb_neq a 0) Hz), lookup_insert_eq.
  - unfold fdata. destruct (Z.eqb_spec (fblk V x c) 0) as [|Hcz]; [done|]. rewrite lookup_insert_ne; [done|].
    intros E. apply Hne. symmetry. by apply (fo_inj Hx); [apply in_file_blk| |..].
Qed.

Lemma fwrote_piece : fwrote s ds S V x off bytes V' x.
Proof.
  destruct piece_len as (L1 & L2 & L3). destruct (fo_blk Hx bn (in_file_blk off Hoff) Hz) as [[Hr Hu] Hni].
  assert (forall c, data_block ds S V c -> data_block ds S V' c) as Hdb by (intros c; by apply (write_block Hfs Hr)).
  pose proof (Z.div_mod off BSIZE ltac:(done)) as Hdm. split.
  - by apply write_fs_ok.
  - split; [apply Hx|apply Hx|intros Hnz; by apply Hdb, (fo_ind Hx)| |].
    + intros c Hc. rewrite piece_fblk by done. intros Hcz. destruct (fo_blk Hx c Hc Hcz). split; [by apply Hdb|done].
    + intros c c' Hc Hc'. rewrite !piece_fblk by done. by apply (fo_inj Hx).
  - by apply (write_wf Hfs Hwf).
  - exists (i_addrs x). by destruct x.
  - intros i Hi. unfold fbyte. rewrite piece_fdata by (by apply in_file_blk). pose proof (Z.div_mod i BSIZE ltac:(done)) as Him.
    pose proof (Z.mod_pos_bound i BSIZE ltac:(done)) as Hib.
    destruct (Z.eqb_spec (i / BSIZE) bn) as [E|Hne].
    + assert (fdata V x (i / BSIZE) = d) as ->. { unfold fdata. by rewrite E, (proj2 (Z.eqb_neq a 0) Hz), Hd. }
      unfold byte_at. rewrite splice_lookup by szs. rewrite E in Him.
      destruct (decide (off <= i < off + Z.of_nat (length bytes))) as [H1|H1].
      * rewrite decide_True by szs. do 2 f_equal. szs.
      * by rewrite decide_False by szs.
    + rewrite decide_False; [done|]. intros H1. apply Hne. symmetry. apply (Z.div_unique _ _ _ (i - BSIZE * bn)); unfold BSIZE in *; lia.
  - intros c Hc Hcz. by apply piece_fblk.
  - intros i Hi H1. rewrite piece_fblk by (by apply in_file_blk).
    replace (i / BSIZE) with bn; [done|]. apply (Z.div_unique _ _ _ (i - BSIZE * bn)); unfold BSIZE in *; lia.
  - intros c Hc _ Hno. split; [|by apply Hdb]. rewrite lookup_insert_ne; [done|]. apply Hno. by apply in_file_blk.
  - done.
  - done.
  - intros c Hc _. by apply piece_fblk.
  - intros c Hc _. by rewrite lookup_insert_ne by lia.
Qed.
End piece.

(** ** Sources of bytes

    What [writei] needs of [either_copyin]: from a source that holds [bytes]
    it delivers them piece by piece, in any state of the file system. *)
Class Feed (n : nat) (R : source -> list Z -> Prop) (C : T -> kern -> Prop) : Prop := {
  fd_step : forall src bytes m t k, R src bytes -> C t k -> 0 <= m <= Z.of_nat (length bytes) ->
    either_copyin src m n (MkK t k) = Ret (0, take (Z.to_nat m) bytes) (MkK t k) /\ R (source_add src m) (drop (Z.to_nat m) bytes);
  fd_os : forall t k k', C t k -> same_os k k' -> C t k';
  fd_slks : forall t k f, C t k -> C (t <| slks ::= f |>) k
}.

(** A local variable of the caller. *)
#[export] Instance local_feed n : Feed n (fun src bytes => src = SLocal bytes) (fun _ _ => True).
Proof. split; [|done|done]. intros src bytes m t k -> _ _. done. Qed.

(** The blocks a write of [len] bytes at [off] touches. *)
Definition span (off len : Z) : nat := Z.to_nat ((off mod BSIZE + len + BSIZE - 1) / BSIZE).

Lemma span_enough off len : 0 <= off -> 0 <= len -> off mod BSIZE + len <= BSIZE * Z.of_nat (span off len).
Proof.
  intros H1 H2. unfold span. pose proof (Z.mod_pos_bound off BSIZE ltac:(done)). unfold BSIZE in *. lia.
Qed.

Section writei.
Context (env : kst kern -> option (kst kern)) {BD : BlockDev env}.
Context (n p : nat) (Hn : (Z.to_nat BPB < n)%nat).
Context {s o ds : Z} {D : gmap Z (list Z)} {t : T} {S : superblock} {ip : nat}.
Context (Hr : rest p t) (Ho : 1 <= o) (HnS : (Z.to_nat (sb_size S / BPB) < n)%nat).
Context {R : source -> list Z -> Prop} {C : T -> kern -> Prop} {HF : Feed n R C}.

(** The outcome of writing [bytes] at [off]. *)
Definition written (m f : nat) (off : Z) (bytes bl : list Z) (V : gmap Z (list Z)) (x : inode) (k : kern) (bl' : list Z) (V' : gmap Z (list Z)) (x' : inode) (k' : kern) : Prop :=
  fstate p s o ∅ bl' V' D t S ip x' k' /\ fwrote s ds S V x off bytes V' x' /\ moved ip k k' /\
  (length bl' <= length bl + m)%nat /\ (forall j, nfree S V (f + j) -> nfree S V' j).

Lemma written_trans m f m' f' off b1 b2 bl V x k bl1 V1 x1 k1 bl2 V2 x2 k2 :
  written m f off b1 bl V x k bl1 V1 x1 k1 -> written m' f' (off + Z.of_nat (length b1)) b2 bl1 V1 x1 k1 bl2 V2 x2 k2 ->
  written (m + m') (f + f') off (b1 ++ b2) bl V x k bl2 V2 x2 k2.
Proof.
  intros (A1 & A2 & A3 & A4 & A5) (B1 & B2 & B3 & B4 & B5). split_and!; [done|by eapply fwrote_trans|by etransitivity|lia|].
  intros j Hj. apply B5, A5. by rewrite Nat.add_assoc.
Qed.

Lemma writei_step bl V x k src rem tot off :
  fstate p s o ∅ bl V D t S ip x k -> fs_ok s ds S V -> file_ok ds S V x -> R src rem -> C t k ->
  rem <> [] -> 0 <= off -> off + Z.of_nat (length rem) <= MAXFILE * BSIZE -> 0 <= tot -> tot + Z.of_nat (length rem) < 2 ^ 31 ->
  (length bl + 7 < nbuf)%nat -> nfree S V 2 ->
  let m := Z.min (Z.of_nat (length rem)) (BSIZE - off mod BSIZE) in
  runs env (writei_body ip (tot + Z.of_nat (length rem)) (src, tot, off) n (MkK t k)) (fun r s' => exists k' x' V' bl', s' = MkK t k' /\
    r = inl (source_add src m, tot + m, off + m) /\ R (source_add src m) (drop (Z.to_nat m) rem) /\
    written 6 2 off (take (Z.to_nat m) rem) bl V x k bl' V' x' k').
Proof.
  intros HT Hfs Hx HR HC Hrem Hoff Hend Htot Htn Hbud Hfree m.
  assert (0 < Z.of_nat (length rem)) as Hpos by (destruct rem; [done|cbn; lia]).
  pose proof (Z.mod_pos_bound off BSIZE ltac:(done)) as Hmod. assert (0 < m <= Z.of_nat (length rem)) as Hm by (unfold m; lia).
  assert (in_file off) as Hin by (unfold in_file; lia). pose proof (in_file_blk off Hin) as Hbn.
  unfold writei_body. rewrite (proj2 (Z.ltb_lt _ _)) by lia. cbn [negb]. apply runs_bind.
  eapply runs_mono; [|eapply (bmap_runs env n p Hn Hr Ho HnS bl V x k (off / BSIZE) HT Hfs Hx Hbn ltac:(lia) Hfree)].
  intros a ? (k1 & x1 & V1 & bl1 & -> & (HT1 & M1 & Mv1 & L1 & N1) & Ea & Hz). rewrite <- Ea in Hz.
  pose proof (mp_fs _ _ _ _ _ _ _ M1) as Hfs1. pose proof (mp_file _ _ _ _ _ _ _ M1) as Hx1. pose proof (mp_wf _ _ _ _ _ _ _ M1) as Hwf1.
  destruct (fo_blk Hx1 _ Hbn Hz) as [[Har Hau] _]. destruct (fs_dom Hfs1 _ (data_range Hfs1 _ Har)) as [d Hd].
  rewrite (geti_bind _ _ _ _ _ _ (ft_ip HT1)), (fo_dev Hx1), <- Ea. set (a' := fblk V1 x1 (off / BSIZE)) in *.
  assert (forall t' k', C t' k' -> either_copyin src m n (MkK t' k') = Ret (0, take (Z.to_nat m) rem) (MkK t' k')) as Hcopy.
  { intros t' k' HC'. apply (fd_step src rem m t' k' HR HC'). lia. }
  apply runs_bind.
  eapply runs_mono; [|eapply (tx_bread env n p (fuel_bufs n Hn) Hr (ft_txn HT1) a' d (not_held_nil _ _) ltac:(right; rewrite size_empty; lia) Hd)].
  intros bp ? (k2 & -> & Hbp & Hfr & HT2 & R2 & K2 & F2 & _). rewrite union_empty_r_L in HT2.
  assert (rest p (hold (SLBuf bp) p t)) as Hr2 by (by apply rest_slks).
  assert (C (hold (SLBuf bp) p t) k2) as HC2.
  { apply (fd_slks t k2). eapply fd_os; [exact HC|]. etransitivity; [apply Mv1|by apply same_fs_os]. }
  replace (Z.min (tot + Z.of_nat (length rem) - tot) (BSIZE - off mod BSIZE)) with m by (unfold m; lia).
  rewrite (bind_ret _ _ _ _ _ _ (Hcopy _ _ HC2)).
  set (bytes := take (Z.to_nat m) rem) in *. set (d' := splice (off mod BSIZE) bytes d).
  assert (Z.of_nat (length bytes) = m) as Hlb by (unfold bytes; rewrite length_take; lia).
  assert (off mod BSIZE + Z.of_nat (length bytes) <= BSIZE) as Hfit by (rewrite Hlb; unfold m; lia).
  destruct (piece_len Hwf1 Hd Hfit) as (_ & Hl & _).
  destruct (tx_set p HT2 bp a' d d' ltac:(by apply elem_of_singleton) R2 Hl) as (HT3 & R3 & K3 & F3).
  unfold set_data. rewrite modb_bind. replace (k2 <| bufs ::= _ |>) with (k2 <| bufs ::= alter (fun x => x <| b_data := d' |>) bp |>).
  2: { pose proof R2 as (z & Hz2 & _ & Hdz). unfold upd. f_equal. rewrite !(alter_insert _ _ _ _ Hz2). by rewrite Hdz. }
  change (0 =? -1) with false. cbv iota.
  destruct (log_write_spec n p Hr2 HT3 bp a' d' ltac:(by apply elem_of_singleton) R3 Ho) as (k4 & E4 & HT4 & R4 & K4 & F4).
  { rewrite nbuf_eq in Hbud. szs. } { pose proof (ly_data (fs_layout Hfs)). unfold in_log. lia. }
  rewrite (bind_ret _ _ _ _ _ _ E4). apply runs_bind.
  eapply runs_mono; [|eapply (tx_brelse env n p Hr2 HT4 bp a' d' ltac:(by apply elem_of_singleton) R4); left; apply absorb_in].
  intros [] ? (k5 & -> & HT5 & K5 & F5). rewrite hold_drop in * by done. rewrite difference_diag_L in HT5.
  eapply runs_ret; [reflexivity|].
  assert (same_fs k1 k5) as F by (do 3 (etransitivity; [eassumption|]); done).
  exists k5, x1, (<[a' := d']> V1), (absorb a' bl1). split_and!; [done| |by apply (fd_step src rem m t k HR HC ltac:(lia))|].
  - assert (MAXFILE * BSIZE < 2 ^ 32) by done. by rewrite !u32_small by lia.
  - split_and!; [by eapply fstate_fs| |etransitivity; [exact Mv1|by apply same_fs_moved]|pose proof (absorb_length a' bl1); lia|].
    + apply (fwrote_trans s ds S V x off [] V1 x1); [by apply fwrote_mapped|]. cbn [length]. rewrite Z.add_0_r. by apply fwrote_piece.
    + intros j Hj. eapply nfree_same; [|by apply N1]. intros c Hc. by apply (write_used Hfs1 Har).
Qed.

Lemma written_nil off bl V x k : fstate p s o ∅ bl V D t S ip x k -> fs_ok s ds S V -> file_ok ds S V x -> written 0 0 off [] bl V x k bl V x k.
Proof.
  intros HT Hfs Hx. split_and!; [done|apply fwrote_mapped, mapped_refl; [done|eapply cached_wf, (tx_cache (ft_txn HT))|done]|done|lia|done].
Qed.

Lemma written_le m f m' f' off bytes bl V x k bl' V' x' k' :
  written m f off bytes bl V x k bl' V' x' k' -> (m <= m')%nat -> (f <= f')%nat -> written m' f' off bytes bl V x k bl' V' x' k'.
Proof. intros (A1 & A2 & A3 & A4 & A5) Hm Hf. split_and!; try done; [lia|]. intros j Hj. apply A5. eapply nfree_le; [exact Hj|lia]. Qed.

(** The rest of the bytes spans at most [c] blocks. *)
Lemma writei_loop c : forall fuel bl V x k src rem tot off,
  fstate p s o ∅ bl V D t S ip x k -> fs_ok s ds S V -> file_ok ds S V x -> R src rem -> C t k ->
  0 <= off -> off + Z.of_nat (length rem) <= MAXFILE * BSIZE -> 0 <= tot -> tot + Z.of_nat (length rem) < 2 ^ 31 ->
  off mod BSIZE + Z.of_nat (length rem) <= BSIZE * Z.of_nat c \/ rem = [] -> (c < fuel)%nat ->
  (length bl + 6 * c + 1 < nbuf)%nat -> nfree S V (2 * c) ->
  runs env (mwhile fuel (writei_body ip (tot + Z.of_nat (length rem))) (src, tot, off) n (MkK t k)) (fun r s' => exists k' x' V' bl', s' = MkK t k' /\
    r = (tot + Z.of_nat (length rem), off + Z.of_nat (length rem)) /\ written (6 * c) (2 * c) off rem bl V x k bl' V' x' k').
Proof.
  induction c as [|c IH]; intros fuel bl V x k src rem tot off HT Hfs Hx HR HC Hoff Hend Htot Htn Hc Hfuel Hbud Hfree;
    (destruct fuel as [|fuel]; [lia|]); apply runs_mwhile_inl; (destruct (decide (rem = [])) as [->|Hne];
    [eapply runs_ret; [unfold writei_body; rewrite Z.add_0_r, Z.ltb_irrefl; reflexivity|];
     exists k, x, V, bl; cbn [length]; rewrite !Z.add_0_r; split_and!; [done|done|]; eapply written_le; [by apply written_nil|lia|lia]|]).
  { destruct Hc as [Hc|]; [|done]. pose proof (Z.mod_pos_bound off BSIZE ltac:(done)). destruct rem; [done|cbn in Hc; lia]. }
  destruct Hc as [Hc|]; [|done]. pose proof (Z.mod_pos_bound off BSIZE ltac:(done)) as Hmod. pose proof (Z.div_mod off BSIZE ltac:(done)) as Hdm.
  eapply runs_mono; [|eapply (writei_step bl V x k src rem tot off); try done; [lia|eapply nfree_le; [exact Hfree|lia]]].
  intros r ? (k1 & x1 & V1 & bl1 & -> & -> & HR1 & W1). set (m := Z.min _ _) in *.
  assert (0 < Z.of_nat (length rem)) as Hpos by (destruct rem; [done|cbn; lia]).
  assert (0 < m <= Z.of_nat (length rem)) as Hm by (unfold m; lia).
  assert (Z.of_nat (length (drop (Z.to_nat m) rem)) = Z.of_nat (length rem) - m) as Hld by (rewrite length_drop; lia).
  assert (Z.of_nat (length (take (Z.to_nat m) rem)) = m) as Hlt by (rewrite length_take; lia).
  replace (tot + Z.of_nat (length rem)) with (tot + m + Z.of_nat (length (drop (Z.to_nat m) rem))) by lia.
  pose proof W1 as (HT1 & FW1 & Mv1 & L1 & N1).
  eapply runs_mono; [|eapply (IH fuel bl1 V1 x1 k1 (source_add src m) (drop (Z.to_nat m) rem) (tot + m) (off + m))]; try done; try lia.
  - intros r ? (k2 & x2 & V2 & bl2 & -> & -> & W2). exists k2, x2, V2, bl2. split_and!; [done|f_equal; lia|].
    rewrite <- (take_drop (Z.to_nat m) rem) at 1. eapply written_le; [eapply written_trans; [exact W1|rewrite Hlt; exact W2]|lia|lia].
  - apply FW1.
  - apply FW1.
  - eapply fd_os; [exact HC|apply Mv1].
  - destruct (decide (m = Z.of_nat (length rem))) as [E|Hnm]; [right; apply nil_length_inv; lia|left].
    assert (m = BSIZE - off mod BSIZE) as E by (unfold m in *; lia).
    replace ((off + m) mod BSIZE) with 0; [lia|]. apply (Z.mod_unique _ _ (off / BSIZE + 1)); [left; done|]. unfold BSIZE in *. lia.
  - apply N1. eapply nfree_le; [exact Hfree|lia].
Qed.

(** The fields of an inode that are not block numbers. *)
Record inode_wf (S : superblock) (x : inode) : Prop := {
  iw_inum : 0 <= i_inum x < sb_ninodes S;
  iw_type : - 2 ^ 15 <= i_type x < 2 ^ 15;
  iw_major : - 2 ^ 15 <= i_major x < 2 ^ 15;
  iw_minor : - 2 ^ 15 <= i_minor x < 2 ^ 15;
  iw_nlink : - 2 ^ 15 <= i_nlink x < 2 ^ 15;
  iw_size : 0 <= i_size x <= MAXFILE * BSIZE
}.

Lemma file_dinode V x : fs_ok s ds S V -> file_ok ds S V x -> inode_wf S x -> dinode_wf (inode_disk x).
Proof.
  clear -V x. intros Hfs Hx [W0 W1 W2 W3 W4 W5]. assert (MAXFILE * BSIZE < 2 ^ 32) by done. split; cbn; try done; [lia| |apply Hx].
  apply Forall_lookup. intros i a Ha. pose proof (lookup_lt_Some _ _ _ Ha) as Hi. rewrite (fo_len Hx) in Hi.
  assert (addr_of x (Z.of_nat i) = a) as E by (unfold addr_of; by rewrite Nat2Z.id, Ha).
  assert (forall c, data_block ds S V c -> 0 <= c < 2 ^ 32) as Hdb.
  { intros c [Hc _]. pose proof (data_range Hfs c Hc). pose proof (ly_size (fs_layout Hfs)). lia. }
  destruct (decide (a = 0)) as [->|Hz]; [lia|]. destruct (decide (i = 12%nat)) as [->|Hne].
  - apply Hdb. rewrite <- E. apply (fo_ind Hx). change NDIRECT with (Z.of_nat 12). by rewrite E.
  - assert (fblk V x (Z.of_nat i) = a) as E2 by (unfold fblk; rewrite (proj2 (Z.ltb_lt _ _)) by fsz; done).
    apply Hdb. rewrite <- E2. apply (fo_blk Hx); [fsz|by rewrite E2].
Qed.

Lemma file_ok_size V x z : file_ok ds S V x -> file_ok ds S V (x <| i_size := z |>).
Proof. intros []. by split. Qed.

Lemma size_state H bl V x k z : fstate p s o H bl V D t S ip x k ->
  fstate p s o H bl V D t S ip (x <| i_size := z |>) (k <| itable ::= alter (fun x => x <| i_size := z |>) ip |>) /\
  moved ip k (k <| itable ::= alter (fun x => x <| i_size := z |>) ip |>).
Proof.
  intros [F1 F2 F3]. split.
  - split; [by apply txn_itable|done|]. cbn. by rewrite list_lookup_alter_eq, F3.
  - split; [by split|]. intros j Hj. by apply list_lookup_alter_ne.
Qed.

Lemma writei_runs bl V x k src bytes off :
  let len := Z.of_nat (length bytes) in
  fstate p s o ∅ bl V D t S ip x k -> fs_ok s ds S V -> file_ok ds S V x -> inode_wf S x -> R src bytes -> C t k ->
  0 <= off <= i_size x -> off + len <= MAXFILE * BSIZE -> (length bl + 6 * span off len + 2 < nbuf)%nat -> nfree S V (2 * span off len) ->
  runs env (writei ip src off len n (MkK t k)) (fun r s' => r = len /\ exists k' x1 V1 bl',
    let x' := x1 <| i_size := Z.max (i_size x) (off + len) |> in s' = MkK t k' /\
    fwrote s ds S V x off bytes V1 x1 /\ fstate p s o ∅ bl' (put_inode S V1 (i_inum x) (inode_disk x')) D t S ip x' k' /\
    moved ip k k' /\ (length bl' <= length bl + 6 * span off len + 1)%nat /\ (forall j, nfree S V (2 * span off len + j) -> nfree S V1 j)).
Proof.
  intros len HT Hfs Hx Hwx HR HC Hoff Hend Hbud Hfree. assert (MAXFILE * BSIZE < 2 ^ 31) as Hmax by done.
  unfold writei. rewrite (geti_bind _ _ _ _ _ _ (ft_ip HT)). rewrite u32_small by lia.
  rewrite !Z.gtb_ltb, !(proj2 (Z.ltb_ge _ _)) by lia. cbn [orb]. apply runs_bind. unfold mloop.
  assert (span off len <= 4)%nat as Hspan by (rewrite nbuf_eq in Hbud; lia).
  pose proof (writei_loop (span off len) n bl V x k src bytes 0 off) as HL. rewrite Z.add_0_l in HL. fold len in HL.
  eapply runs_mono; [|eapply HL]; try done; try lia; [|left; apply span_enough; lia|unfold BPB, BSIZE in Hn; lia].
  intros r ? (k1 & x1 & V1 & bl1 & -> & -> & (HT1 & FW & Mv1 & L1 & N1)). cbv beta iota.
  rewrite (geti_bind _ _ _ _ _ _ (ft_ip HT1)).
  assert (i_size x1 = i_size x /\ i_inum x1 = i_inum x /\ inode_wf S x1) as (Es & Ei & Hwx1).
  { destruct (fw_x FW) as [l ->]. split_and!; [done|done|]. by destruct Hwx. }
  set (x' := x1 <| i_size := Z.max (i_size x) (off + len) |>).
  set (k2 := if off + len >? i_size x1 then k1 <| itable ::= alter (fun x => x <| i_size := off + len |>) ip |> else k1).
  assert (mwhen (off + len >? i_size x1) (modi ip (fun x => x <| i_size := off + len |>)) n (MkK t k1) = Ret tt (MkK t k2)) as E2.
  { unfold k2. by destruct (off + len >? i_size x1). }
  assert (fstate p s o ∅ bl1 V1 D t S ip x' k2 /\ moved ip k1 k2) as [HT2 Mv2].
  { unfold k2, x'. rewrite Z.gtb_ltb. destruct (Z.ltb_spec (i_size x1) (off + len)).
    - rewrite Z.max_r by lia. by apply size_state.
    - rewrite Z.max_l, <- Es by lia. split; [|done]. replace (x1 <| i_size := i_size x1 |>) with x1 by (by destruct x1). done. }
  rewrite (bind_ret _ _ _ _ _ _ E2). apply runs_bind.
  assert (inode_wf S x') as Hwx' by (destruct Hwx1; split; try done; cbn; lia).
  eapply runs_mono; [|eapply (iupdate_runs env n p Hn Hr Ho HnS bl1 V1 x' k2 HT2 (fw_fs FW))].
  - intros [] ? (k3 & -> & HT3 & F3). eapply runs_ret; [reflexivity|]. split; [apply i32_small; lia|].
    exists k3, x1, V1. eexists. change (i_inum x') with (i_inum x1) in HT3. rewrite Ei in HT3.
    split_and!; [done|done|exact HT3|etransitivity; [exact Mv1|]; etransitivity; [exact Mv2|by apply same_fs_moved]| |exact N1].
    pose proof (absorb_length (IBLOCK (i_inum x) S) bl1). lia.
  - apply (fw_file FW).
  - eapply file_dinode; [apply FW|by apply file_ok_size, FW|done].
  - apply Hwx'.
  - lia.
Qed.
End writei.
