(* ===== verification/FileTheorems.v ===== *)
(** * The theorems about files

    [readi], and the theorems about the block allocator, file contents and
    on-disk inodes. *)

From Stdlib Require Import ZArith Lia.
From S2P Require Import Prelude Riscv KString Thread Proc Sleeplock Kalloc Kern Blocks Virtio VirtioSpec.
From S2P Require Import Lru Bio BioSpec BioOps Log LogSpec Crash Txn ProcMem Fs Balloc Files ReadWrite.

(** The [len] bytes of the file from [off] on. *)
Definition fread (V : gmap Z (list Z)) (x : inode) (off : Z) (len : nat) : list Z :=
  (fun j => fbyte V x (off + Z.of_nat j)) <$> seq 0 len.

Lemma fread_length V x off len : length (fread V x off len) = len.
Proof. unfold fread. by rewrite length_fmap, length_seq. Qed.

Lemma fread_lookup V x off len j : (j < len)%nat -> fread V x off len !! j = Some (fbyte V x (off + Z.of_nat j)).
Proof. intros Hj. unfold fread. by rewrite list_lookup_fmap, lookup_seq_lt. Qed.

Lemma fread_app V x off a b : fread V x off (a + b) = fread V x off a ++ fread V x (off + Z.of_nat a) b.
Proof.
  apply list_eq. intros j. destruct (decide (j < a + b)%nat) as [Hj|Hj].
  - rewrite fread_lookup by done. destruct (decide (j < a)%nat).
    + by rewrite lookup_app_l, fread_lookup by (rewrite ?fread_length; lia).
    + rewrite lookup_app_r, fread_length, fread_lookup by (rewrite ?fread_length; lia). do 2 f_equal. lia.
  - rewrite !(proj2 (lookup_ge_None _ _)); [done|rewrite length_app, !fread_length; lia|rewrite fread_length; lia].
Qed.

(** A piece of one block. *)
Lemma slice_fread V x off m :
  0 <= off -> 0 <= m -> off mod BSIZE + m <= BSIZE -> length (fdata V x (off / BSIZE)) = Z.to_nat BSIZE ->
  slice (off mod BSIZE) m (fdata V x (off / BSIZE)) = fread V x off (Z.to_nat m).
Proof.
  intros H1 H2 H3 H4. pose proof (Z.mod_pos_bound off BSIZE ltac:(done)) as Hb. pose proof (Z.div_mod off BSIZE ltac:(done)) as Hd.
  apply list_eq. intros j. rewrite slice_lookup. destruct (decide (j < Z.to_nat m)%nat) as [Hj|Hj].
  - rewrite fread_lookup by done. unfold fbyte.
    assert ((off + Z.of_nat j) / BSIZE = off / BSIZE) as E1 by (symmetry; apply (Z.div_unique _ _ _ (off mod BSIZE + Z.of_nat j)); unfold BSIZE in *; lia).
    assert ((off + Z.of_nat j) mod BSIZE = off mod BSIZE + Z.of_nat j) as E2 by (symmetry; apply (Z.mod_unique _ _ (off / BSIZE)); unfold BSIZE in *; lia).
    rewrite E1, E2. unfold byte_at. replace (Z.to_nat (off mod BSIZE + Z.of_nat j)) with (Z.to_nat (off mod BSIZE) + j)%nat by lia.
    destruct (lookup_lt_is_Some_2 (fdata V x (off / BSIZE)) (Z.to_nat (off mod BSIZE) + j)) as [v ->]; [szs|done].
  - symmetry. apply lookup_ge_None. rewrite fread_length. lia.
Qed.

Lemma fdata_length s ds S V x bn : fs_ok s ds S V -> disk_wf V -> file_ok ds S V x -> 0 <= bn < MAXFILE -> length (fdata V x bn) = Z.to_nat BSIZE.
Proof.
  intros Hfs Hwf Hx Hbn. unfold fdata. destruct (Z.eqb_spec (fblk V x bn) 0) as [|Hz]; [apply length_replicate|].
  destruct (fo_blk Hx bn Hbn Hz) as [[Hr _] _]. destruct (fs_dom Hfs _ (data_range Hfs _ Hr)) as [d Hd]. rewrite Hd. by apply (Hwf _ _ Hd).
Qed.

(** Every block up to the file's size is there. *)
Definition dense (V : gmap Z (list Z)) (x : inode) : Prop := forall i, 0 <= i < i_size x -> fblk V x (i / BSIZE) <> 0.

(** ** Reading into a local variable or into kernel memory *)

Definition dest_put (dst : dest) (bytes : list Z) (k : kern) : kern :=
  match dst with DKern pa => k <| km ::= fun m => m <| mem := mem_write (mem m) pa bytes |> |> | _ => k end.
(** [len] bytes fit there. *)
Definition dest_fits (dst : dest) (len : Z) : Prop :=
  match dst with DUser _ => False | DKern pa => 0 <= pa /\ pa + len < 2 ^ 64 | DLocal => True end.

Lemma mem_write_app l1 l2 : forall m a, mem_write m a (l1 ++ l2) = mem_write (mem_write m a l1) (a + Z.of_nat (length l1)) l2.
Proof.
  induction l1 as [|b l1 IH]; intros m a; cbn [app mem_write length]; [by rewrite Z.add_0_r|]. rewrite IH. f_equal. lia.
Qed.

Lemma dest_copyout dst bytes m n t k : dest_fits dst m -> m = Z.of_nat (length bytes) -> either_copyout dst bytes m n (MkK t k) = Ret 0 (MkK t (dest_put dst bytes k)).
Proof. intros Hd ->. destruct dst as [|pa|]; [done| |done]. cbn [either_copyout dest_put]. rewrite Nat2Z.id, firstn_all. by destruct k. Qed.

Lemma dest_put_app dst b1 b2 k len : dest_fits dst len -> Z.of_nat (length b1) <= len ->
  dest_put (dest_add dst (Z.of_nat (length b1))) b2 (dest_put dst b1 k) = dest_put dst (b1 ++ b2) k.
Proof.
  intros Hd Hl. destruct dst as [|pa|]; [done| |done]. destruct Hd as [H1 H2]. cbn [dest_add dest_put]. rewrite u64_small by lia. unfold upd. cbn. by rewrite mem_write_app.
Qed.
Lemma dest_put_nil dst k : dest_put dst [] k = k.
Proof. destruct dst; try done. destruct k as [[] ? ? ? ? ? ? ? ? ? ? ? ? ? ? ? ? ? ? ?]. reflexivity. Qed.
Lemma dest_fits_add dst len m : dest_fits dst len -> 0 <= m <= len -> dest_fits (dest_add dst m) (len - m) /\ dest_fits dst m.
Proof. destruct dst; cbn; [done| |done]. intros ? ?. rewrite u64_small by lia. lia. Qed.

Lemma same_fs_put dst bytes k k' : same_fs k k' -> same_fs (dest_put dst bytes k) (dest_put dst bytes k').
Proof. intros F. destruct dst as [|pa|]; [done| |done]. destruct F as [F0]. split; try done. change (km (dest_put (DKern pa) bytes k')) with ((km k') <| mem := mem_write (mem (km k')) pa bytes |>). by rewrite F0. Qed.
Lemma txn_put p s o H bl V D t k dst bytes : txn p s o H bl V D t k -> txn p s o H bl V D t (dest_put dst bytes k).
Proof.
  intros HT. destruct dst; [done| |done]. destruct HT. split; try done. destruct tx_cache as [order HB]. exists order. eapply bcache_core; try done. apply (bc_ring HB).
Qed.
Section readi.
Context (env : kst kern -> option (kst kern)) {BD : BlockDev env}.
Context (n p : nat) (Hn : (Z.to_nat BPB < n)%nat).
Context {s o ds : Z} {D : gmap Z (list Z)} {t : T} {S : superblock} {ip : nat} {bl : list Z} {V : gmap Z (list Z)} {x : inode}.
Context (Hr : rest p t) (HnS : (Z.to_nat (sb_size S / BPB) < n)%nat).
Context (Hfs : fs_ok s ds S V) (Hx : file_ok ds S V x) (Hwx : inode_wf S x) (Hdense : dense V x) (Hbl : (length bl < nbuf)%nat).

Lemma readi_step k dst tot off N acc :
  fstate p s o ∅ bl V D t S ip x k -> dest_fits dst (N - tot) -> 0 <= tot < N -> N < 2 ^ 31 -> 0 <= off -> off + (N - tot) <= i_size x ->
  let m := Z.min (N - tot) (BSIZE - off mod BSIZE) in let bytes := fread V x off (Z.to_nat m) in
  runs env (readi_body ip N (dst, tot, off, acc) n (MkK t k)) (fun r s' => r = inl (dest_add dst m, tot + m, off + m, acc ++ bytes) /\
    exists k', s' = MkK t k' /\ fstate p s o ∅ bl V D t S ip x k' /\ same_fs (dest_put dst bytes k) k').
Proof.
  intros HT Hfit Htot HN Hoff Hend m bytes. pose proof (cached_wf p _ _ _ _ _ (tx_cache (ft_txn HT))) as Hwf.
  pose proof (iw_size _ _ Hwx) as Hsz. assert (MAXFILE * BSIZE < 2 ^ 31) as Hmax by done.
  pose proof (Z.mod_pos_bound off BSIZE ltac:(done)) as Hmod. assert (0 < m <= N - tot) as Hm by (unfold m; lia).
  assert (in_file off) as Hin by (unfold in_file; lia). pose proof (in_file_blk off Hin) as Hbn.
  assert (fblk V x (off / BSIZE) <> 0) as Hz by (apply Hdense; lia).
  destruct (fo_blk Hx _ Hbn Hz) as [[Har _] _]. destruct (fs_dom Hfs _ (data_range Hfs _ Har)) as [d Hd].
  assert (fdata V x (off / BSIZE) = d) as Ed by (unfold fdata; by rewrite (proj2 (Z.eqb_neq _ 0) Hz), Hd).
  assert (slice (off mod BSIZE) m d = bytes) as Eb by (rewrite <- Ed, slice_fread; [done|lia|lia|unfold m; lia|exact (fdata_length s ds S V x _ Hfs Hwf Hx Hbn)]).
  unfold readi_body. rewrite (proj2 (Z.ltb_lt _ _)) by lia. cbn [negb]. apply runs_bind.
  eapply runs_mono; [|eapply (bmap_hit env n p Hn Hr HnS HT Hfs Hx (off / BSIZE) Hbn Hbl Hz)].
  intros a ? (-> & k1 & -> & HT1 & F1). rewrite (geti_bind _ _ _ _ _ _ (ft_ip HT1)), (fo_dev Hx). apply runs_bind.
  eapply runs_mono; [|eapply (tx_bread env n p (fuel_bufs n Hn) Hr (ft_txn HT1) _ d (not_held_nil _ _) ltac:(right; rewrite size_empty; lia) Hd)].
  intros bp ? (k2 & -> & Hbp & Hfr & HT2 & R2 & K2 & F2 & Hcl). rewrite union_empty_r_L in HT2.
  assert (rest p (hold (SLBuf bp) p t)) as Hr2 by (by apply rest_slks).
  pose proof R2 as (y & Hy & _ & Hdy). rewrite (getb_bind _ _ _ _ _ _ Hy), Hdy. fold m. rewrite Eb.
  assert (m = Z.of_nat (length bytes)) as Hlb by (unfold bytes; rewrite fread_length; lia).
  rewrite (bind_ret _ _ _ _ _ _ (dest_copyout dst bytes m n _ k2 (proj2 (dest_fits_add _ _ m Hfit ltac:(lia))) Hlb)).
  change (0 =? -1) with false. cbv iota. apply runs_bind.
  assert (reads bp (fblk V x (off / BSIZE)) d (dest_put dst bytes k2)) as R3 by (by destruct dst).
  eapply runs_mono; [|eapply (tx_brelse env n p Hr2 (txn_put _ _ _ _ _ _ _ _ _ dst bytes HT2) bp _ d ltac:(by apply elem_of_singleton) R3 Hcl)].
  intros [] ? (k3 & -> & HT3 & K3 & F3). rewrite hold_drop in * by done. rewrite difference_diag_L in HT3.
  eapply runs_ret; [reflexivity|]. split; [by rewrite !u32_small by lia|].
  assert (same_fs (dest_put dst bytes k) k3) as F by (transitivity (dest_put dst bytes k2); [apply same_fs_put; by transitivity k1|done]).
  exists k3. split_and!; [done| |done]. destruct HT as [? G2 G3]. split; [done|rewrite (sf_sb _ _ F); by destruct dst|rewrite (sf_itable _ _ F); by destruct dst].
Qed.

Lemma readi_loop c : forall fuel k dst tot off N acc,
  fstate p s o ∅ bl V D t S ip x k -> dest_fits dst (N - tot) -> 0 <= tot <= N -> N < 2 ^ 31 -> 0 <= off -> off + (N - tot) <= i_size x ->
  off mod BSIZE + (N - tot) <= BSIZE * Z.of_nat c \/ tot = N -> (c < fuel)%nat -> let bytes := fread V x off (Z.to_nat (N - tot)) in
  runs env (mwhile fuel (readi_body ip N) (dst, tot, off, acc) n (MkK t k)) (fun r s' => r = (N, acc ++ bytes) /\
    exists k', s' = MkK t k' /\ fstate p s o ∅ bl V D t S ip x k' /\ same_fs (dest_put dst bytes k) k').
Proof.
  pose proof (iw_size _ _ Hwx) as Hsz. assert (MAXFILE * BSIZE < 2 ^ 31) as Hmax by done.
  induction c as [|c IH]; intros fuel k dst tot off N acc HT Hfit Htot HN Hoff Hend Hc Hfuel bytes;
    (destruct fuel as [|fuel]; [lia|]); apply runs_mwhile_inl; pose proof (Z.mod_pos_bound off BSIZE ltac:(done)) as Hmod;
    (destruct (decide (tot = N)) as [->|Hne];
    [eapply runs_ret; [unfold readi_body; rewrite Z.ltb_irrefl; reflexivity|]; unfold bytes; rewrite Z.sub_diag, app_nil_r, i32_small by lia; split; [done|]; exists k; change (fread V x off (Z.to_nat 0)) with (@nil Z); by rewrite dest_put_nil|]);
    destruct Hc as [Hc|]; try done; [lia|].
  pose proof (Z.div_mod off BSIZE ltac:(done)) as Hdm.
  eapply runs_mono; [|eapply (readi_step k dst tot off N acc HT); (done || lia)].
  intros r ? (-> & k1 & -> & HT1 & F1). set (m := Z.min _ _) in *. assert (0 < m <= N - tot) as Hm by (unfold m; lia).
  assert (bytes = fread V x off (Z.to_nat m) ++ fread V x (off + m) (Z.to_nat (N - (tot + m)))) as Eb.
  { unfold bytes. replace (Z.to_nat (N - tot)) with (Z.to_nat m + Z.to_nat (N - (tot + m)))%nat by lia. rewrite fread_app. by replace (Z.of_nat (Z.to_nat m)) with m by lia. }
  eapply runs_mono; [|eapply (IH fuel k1 (dest_add dst m) (tot + m) (off + m) N); [done| |lia|lia|lia|lia| |lia]].
  - intros r ? (-> & k2 & -> & HT2 & F2). split; [by rewrite Eb, <- app_assoc|]. exists k2. split_and!; [done|done|]. rewrite Eb.
    rewrite <- (dest_put_app dst _ _ k (N - tot) Hfit) by (rewrite fread_length; lia). rewrite fread_length. replace (Z.of_nat (Z.to_nat m)) with m by lia.
    etransitivity; [|exact F2]. by apply same_fs_put.
  - replace (N - (tot + m)) with (N - tot - m) by lia. apply dest_fits_add; [done|lia].
  - destruct (decide (m = N - tot)) as [E|Hnm]; [right; lia|left]. assert (m = BSIZE - off mod BSIZE) as E by (unfold m in *; lia).
    replace ((off + m) mod BSIZE) with 0; [lia|]. apply (Z.mod_unique _ _ (off / BSIZE + 1)); [left; done|]. unfold BSIZE in *. lia.
Qed.

Lemma readi_into k dst off len :
  fstate p s o ∅ bl V D t S ip x k -> dest_fits dst len -> 0 <= off <= i_size x -> 0 <= len < 2 ^ 31 ->
  let m := Z.min len (i_size x - off) in let bytes := fread V x off (Z.to_nat m) in
  runs env (readi ip dst off len n (MkK t k)) (fun r s' => r = (m, bytes) /\
    exists k', s' = MkK t k' /\ fstate p s o ∅ bl V D t S ip x k' /\ same_fs (dest_put dst bytes k) k').
Proof.
  intros HT Hfit Hoff Hlen m bytes. pose proof (iw_size _ _ Hwx) as Hsz. assert (MAXFILE * BSIZE < 2 ^ 31) as Hmax by done.
  unfold readi. rewrite (geti_bind _ _ _ _ _ _ (ft_ip HT)). rewrite u32_small by lia.
  rewrite !Z.gtb_ltb, !(proj2 (Z.ltb_ge (i_size x) off)), (proj2 (Z.ltb_ge (off + len) off)) by lia. cbn [orb].
  assert ((if i_size x <? off + len then u32 (i_size x - off) else len) = m) as ->.
  { unfold m. destruct (Z.ltb_spec (i_size x) (off + len)); [rewrite u32_small; lia|lia]. }
  unfold mloop. pose proof (span_enough off m ltac:(lia) ltac:(unfold m; lia)) as Hsp.
  eapply runs_mono; [|eapply (readi_loop (span off m) n k dst 0 off m []); [done|rewrite Z.sub_0_r; apply (dest_fits_add dst len m Hfit); unfold m; lia|unfold m; lia|unfold m; lia|lia|unfold m; lia|left; rewrite Z.sub_0_r; exact Hsp|]].
  - intros r ? (-> & HQ). rewrite Z.sub_0_r in *. done.
  - assert (m <= MAXFILE * BSIZE) by (unfold m; lia). pose proof (Z.mod_pos_bound off BSIZE ltac:(done)). unfold span. unfold BPB in Hn. change MAXFILE with 268 in *. unfold BSIZE in *. lia.
Qed.

Lemma readi_runs k off len :
  fstate p s o ∅ bl V D t S ip x k -> 0 <= off <= i_size x -> 0 <= len < 2 ^ 31 ->
  let m := Z.min len (i_size x - off) in
  runs env (readi ip DLocal off len n (MkK t k)) (fun r s' => r = (m, fread V x off (Z.to_nat m)) /\
    exists k', s' = MkK t k' /\ fstate p s o ∅ bl V D t S ip x k' /\ same_fs k k').
Proof. intros HT. by apply readi_into. Qed.
End readi.

(** ** Other files *)

(** The files [x] and [y] share no block. *)
Record apart (V : gmap Z (list Z)) (x y : inode) : Prop := {
  ap_blk : forall bn, 0 <= bn < MAXFILE -> fblk V y bn <> 0 ->
    fblk V y bn <> addr_of x NDIRECT /\ forall bn', 0 <= bn' < MAXFILE -> fblk V x bn' <> fblk V y bn;
  ap_ind : addr_of y NDIRECT <> 0 ->
    addr_of y NDIRECT <> addr_of x NDIRECT /\ forall bn', 0 <= bn' < MAXFILE -> fblk V x bn' <> addr_of y NDIRECT
}.

Lemma fwrote_apart s ds S V x off bytes V' x' y bn :
  fwrote s ds S V x off bytes V' x' -> file_ok ds S V y -> apart V x y -> 0 <= bn < MAXFILE ->
  fblk V' y bn = fblk V y bn /\ fdata V' y bn = fdata V y bn.
Proof.
  intros FW Hy [A1 A2] Hbn. assert (fblk V' y bn = fblk V y bn) as E.
  { unfold fblk. destruct (bn <? NDIRECT); [done|]. destruct (Z.eqb_spec (addr_of y NDIRECT) 0) as [|Hz]; [done|].
    destruct (A2 Hz) as [H1 H2]. by destruct (fw_other FW _ (fo_ind Hy Hz) H1 H2) as [-> _]. }
  split; [done|]. unfold fdata. rewrite E. destruct (Z.eqb_spec (fblk V y bn) 0) as [|Hz]; [done|].
  destruct (A1 bn Hbn Hz) as [H1 H2]. destruct (fo_blk Hy bn Hbn Hz) as [Hd _]. by destruct (fw_other FW _ Hd H1 H2) as [-> _].
Qed.

Lemma put_inode_fbyte s ds S V i d x j : fs_ok s ds S V -> 0 <= i < sb_ninodes S -> file_ok ds S V x -> in_file j ->
  fbyte (put_inode S V i d) x j = fbyte V x j.
Proof.
  intros Hfs Hi Hx Hj. unfold fbyte. destruct (put_inode_file (d := d) Hfs Hi x Hx) as [_ E]. by destruct (E _ (in_file_blk j Hj)) as [_ ->].
Qed.

Lemma disk_inode_meta s ds S V V' j : fs_ok s ds S V -> 0 <= j < sb_ninodes S ->
  (forall c, c < ds -> (forall b, 0 <= b < sb_size S -> c <> BBLOCK b S) -> V' !! c = V !! c) -> disk_inode S V' j = disk_inode S V j.
Proof.
  intros Hfs Hj Hm. unfold disk_inode. rewrite Hm; [done| |].
  - apply (ly_inode (fs_layout Hfs) j Hj).
  - intros b Hb. by apply (ly_apart (fs_layout Hfs)).
Qed.

(** A write at or before the end leaves no hole. *)
Lemma fwrote_dense s ds S V x off bytes V' x' z :
  fwrote s ds S V x off bytes V' x' -> dense V x -> 0 <= off <= i_size x -> z <= MAXFILE * BSIZE ->
  z = Z.max (i_size x) (off + Z.of_nat (length bytes)) -> dense V' (x' <| i_size := z |>).
Proof.
  intros FW Hd Hoff Hz -> i Hi. cbn in Hi. change (fblk V' x' (i / BSIZE) <> 0). assert (in_file i) as Hin by (unfold in_file; lia).
  destruct (decide (i < i_size x)) as [H1|H1].
  - rewrite (fw_keep FW); [apply Hd; lia|by apply in_file_blk|apply Hd; lia].
  - apply (fw_there FW); [done|lia].
Qed.

Lemma writei_spec env (BD : BlockDev env) n p s o ds S D t ip (R : source -> list Z -> Prop) (C : T -> kern -> Prop) (HF : Feed n R C)
    bl V x k src bytes off :
  let len := Z.of_nat (length bytes) in
  (Z.to_nat BPB < n)%nat -> (Z.to_nat (sb_size S / BPB) < n)%nat -> rest p t -> 1 <= o ->
  fstate p s o ∅ bl V D t S ip x k -> fs_ok s ds S V -> file_ok ds S V x -> inode_wf S x -> R src bytes -> C t k ->
  0 <= off <= i_size x -> off + len <= MAXFILE * BSIZE -> (length bl + 6 * span off len + 2 < nbuf)%nat -> nfree S V (2 * span off len) ->
  runs env (writei ip src off len n (MkK t k)) (fun r s' => r = len /\ exists k' x' V' bl', s' = MkK t k' /\
    (inode_wf S x' /\ (length bl' < nbuf)%nat /\ i_type x' = i_type x) /\ fstate p s o ∅ bl' V' D t S ip x' k' /\ fs_ok s ds S V' /\ file_ok ds S V' x' /\
    i_size x' = Z.max (i_size x) (off + len) /\ disk_inode S V' (i_inum x) = inode_disk x' /\
    (forall i, in_file i -> fbyte V' x' i = if decide (off <= i < off + len) then byte_at bytes (i - off) else fbyte V x i) /\
    (dense V x -> dense V' x') /\
    (forall y, file_ok ds S V y -> apart V x y -> forall i, in_file i -> fbyte V' y i = fbyte V y i) /\
    (forall j, 0 <= j < sb_ninodes S -> j <> i_inum x -> disk_inode S V' j = disk_inode S V j)).
Proof.
  intros len Hn HnS Hr Ho HT Hfs Hx Hwx HR HC Hoff Hend Hbud Hfree.
  eapply runs_mono; [|exact (writei_runs env n p Hn Hr Ho HnS bl V x k src bytes off HT Hfs Hx Hwx HR HC Hoff Hend Hbud Hfree)].
  intros r ? (-> & k' & x1 & V1 & bl' & -> & FW & HT' & _ & Lb & _). split; [done|]. fold len in HT', Lb.
  set (x' := x1 <| i_size := Z.max (i_size x) (off + len) |>) in *.
  pose proof (fw_fs FW) as Hfs1. pose proof (fw_wf FW) as Hwf1. pose proof (iw_inum _ _ Hwx) as Hi. pose proof (iw_size _ _ Hwx) as Hsz.
  assert (file_ok ds S V1 x') as Hx' by (by apply file_ok_size, FW).
  assert (inode_wf S x') as Hwx'. { unfold x'. destruct (fw_x FW) as [l ->]. destruct Hwx. split; try done. cbn. lia. }
  assert (dinode_wf (inode_disk x')) as Hdw by (by eapply file_dinode).
  exists k', x', (put_inode S V1 (i_inum x) (inode_disk x')), bl'. split_and!; [done|done|lia|unfold x'; by destruct (fw_x FW) as [l ->]|done| | |done| | | | |].
  - by apply put_inode_fs_ok.
  - by apply (put_inode_file Hfs1 Hi).
  - by apply (put_inode_eq Hfs1 Hwf1).
  - intros i Hin. rewrite (put_inode_fbyte s ds) by done. exact (fw_byte FW i Hin).
  - intros Hd i Hlt. destruct (put_inode_file (d := inode_disk x') Hfs1 Hi x' Hx') as [_ E].
    assert (in_file i) as Hin by (cbn in Hlt; unfold in_file; lia). destruct (E _ (in_file_blk i Hin)) as [-> _].
    eapply (fwrote_dense s ds S V x off bytes V1 x1); [done|done|done| |reflexivity|exact Hlt]. lia.
  - intros y Hy Hap i Hin. pose proof (in_file_blk i Hin) as Hbn. unfold fbyte.
    destruct (fwrote_apart s ds S V x off bytes V1 x1 y (i / BSIZE) FW Hy Hap Hbn) as [E1 E2]. rewrite <- E2. f_equal. unfold fdata.
    assert (forall c, data_block ds S V c -> put_inode S V1 (i_inum x) (inode_disk x') !! c = V1 !! c) as Hkeep.
    { intros c [Hc _]. apply (put_inode_data Hfs1 Hi). lia. }
    assert (fblk (put_inode S V1 (i_inum x) (inode_disk x')) y (i / BSIZE) = fblk V1 y (i / BSIZE)) as E3.
    { unfold fblk. destruct (_ <? NDIRECT); [done|]. destruct (Z.eqb_spec (addr_of y NDIRECT) 0) as [|Hz]; [done|]. rewrite Hkeep; [done|]. by apply (fo_ind Hy). }
    rewrite E3. destruct (Z.eqb_spec (fblk V1 y (i / BSIZE)) 0) as [|Hz]; [done|]. rewrite Hkeep; [done|]. rewrite E1 in *. by apply (fo_blk Hy).
  - intros j Hj Hne. rewrite (put_inode_ne Hfs1 Hwf1 Hi Hdw j Hj Hne). apply (disk_inode_meta s ds); [done|done|]. apply (fw_meta FW).
Qed.

(** C5: writing a file.  Inside a transaction with enough room in the log and
    enough free blocks, [writei] of [bytes] at an offset not after the end
    returns their number; then the file, as a function from offsets to bytes,
    is the old one overwritten with [bytes], its size is extended if needed,
    a file without holes stays one, the inode on disk is the one in memory,
    the invariants of bitmap and block numbers hold, and no other file and no
    other inode has changed.  The source can be any that delivers its bytes
    piece by piece. *)
Theorem writei_correct env (BD : BlockDev env) n p s o ds S D t ip (R : source -> list Z -> Prop) (C : T -> kern -> Prop) (HF : Feed n R C)
    bl V x k src bytes off :
  let len := Z.of_nat (length bytes) in
  (Z.to_nat BPB < n)%nat -> (Z.to_nat (sb_size S / BPB) < n)%nat -> rest p t -> 1 <= o ->
  fstate p s o ∅ bl V D t S ip x k -> fs_ok s ds S V -> file_ok ds S V x -> inode_wf S x -> R src bytes -> C t k ->
  0 <= off <= i_size x -> off + len <= MAXFILE * BSIZE -> (length bl + 6 * span off len + 2 < nbuf)%nat -> nfree S V (2 * span off len) ->
  runs env (writei ip src off len n (MkK t k)) (fun r s' => r = len /\ exists k' x' V' bl', s' = MkK t k' /\
    fstate p s o ∅ bl' V' D t S ip x' k' /\ fs_ok s ds S V' /\ file_ok ds S V' x' /\
    i_size x' = Z.max (i_size x) (off + len) /\ disk_inode S V' (i_inum x) = inode_disk x' /\
    (forall i, in_file i -> fbyte V' x' i = if decide (off <= i < off + len) then byte_at bytes (i - off) else fbyte V x i) /\
    (dense V x -> dense V' x') /\
    (forall y, file_ok ds S V y -> apart V x y -> forall i, in_file i -> fbyte V' y i = fbyte V y i) /\
    (forall j, 0 <= j < sb_ninodes S -> j <> i_inum x -> disk_inode S V' j = disk_inode S V j)).
Proof.
  intros len. intros. eapply runs_mono; [|eapply writei_spec; eassumption].
  intros r ? (-> & k' & x' & V' & bl' & -> & _ & HQ). split; [done|]. exists k', x', V', bl'. by split.
Qed.

(** A small file system: the log in blocks 2 to 31, inodes in block 32, the
    bitmap in block 33, data blocks from 34 on; inode 1 is an empty file and
    inode 2 a directory in block 34, of two entries called "hi" of which the
    second is in use. *)
Definition dir_block : list Z := [0; 0; 104; 105] ++ replicate 12 0 ++ [2; 0; 104; 105] ++ replicate (Z.to_nat BSIZE - 20) 0.
Definition fs_sb : superblock := MkSb FSMAGIC 45 11 10 LOGSIZE 2 32 33.
Definition fs_bitmap : list Z := [255; 255; 255; 255; 7] ++ replicate (Z.to_nat BSIZE - 5) 0.
Definition fs_disk : gmap Z (list Z) :=
  <[34 := dir_block]> (<[33 := fs_bitmap]> (list_to_map ((fun b => (b, fill 0)) <$> seqZ 0 45))).
Definition fs_inode : inode := MkInode ROOTDEV 1 1 1 T_FILE 0 0 1 0 (replicate 13 0).
Definition fs_inode2 : inode := MkInode ROOTDEV 2 1 1 T_DIR 0 0 1 32 (34 :: replicate 12 0).
Definition fs_kern : kern :=
  (kern0 fs_disk) <| bufs := binit_bufs |> <| lg := MkLog 2 LOGSIZE 1 0 ROOTDEV 0 (replicate 30 0) |> <| sb := fs_sb |>
    <| itable := fs_inode :: fs_inode2 :: replicate 48 inode0 |>.

Lemma fs_disk_lookup b : b <> 33 -> b <> 34 -> 0 <= b < 45 -> fs_disk !! b = Some (fill 0).
Proof.
  intros Hb Hb' Hr. unfold fs_disk. rewrite !lookup_insert_ne by done. apply elem_of_list_to_map.
  - rewrite <- list_fmap_compose, list_fmap_id. apply NoDup_seqZ.
  - apply list_elem_of_fmap. exists b. split; [done|]. by apply elem_of_seqZ.
Qed.
Lemma fs_disk_wf : disk_wf fs_disk.
Proof.
  intros b d. unfold fs_disk. rewrite lookup_insert. case_decide as E; [subst; intros [= <-]; by split|].
  rewrite lookup_insert. case_decide as E'; [subst; intros [= <-]; by split|].
  intros Hb%elem_of_list_to_map_2. apply list_elem_of_fmap in Hb as (c & [= -> ->] & Hc%elem_of_seqZ). split; [|apply fill_length]. lia.
Qed.

Lemma fs_used b : 0 <= b < 45 -> used fs_sb fs_disk b = (b <? 35).
Proof.
  intros Hb. assert (forallb (fun b => Bool.eqb (used fs_sb fs_disk b) (b <? 35)) (seqZ 0 45) = true) as H by (by vm_compute).
  rewrite forallb_forall in H. apply Bool.eqb_prop, H, list_elem_of_In, elem_of_seqZ. lia.
Qed.

Lemma fs_bblock b : 0 <= b < 45 -> BBLOCK b fs_sb = 33.
Proof. intros Hb. unfold BBLOCK. rewrite Z.div_small by (unfold BPB, BSIZE; lia). done. Qed.
Lemma fs_iblock i : 0 <= i < 10 -> IBLOCK i fs_sb = 32.
Proof. intros Hb. unfold IBLOCK. rewrite Z.div_small; [done|]. change IPB with 16. lia. Qed.

Lemma fs_demo_ok : fs_ok 2 34 fs_sb fs_disk.
Proof.
  split.
  - split; cbn [sb_size sb_ninodes fs_sb sb_bmapstart sb_inodestart]; try (szs; done); try (unfold LOGSIZE, MAXOPBLOCKS; lia).
    + intros b Hb. rewrite fs_bblock by done. szs.
    + intros i Hi. rewrite fs_iblock by done. szs.
    + intros i b Hi Hb. by rewrite fs_bblock, fs_iblock.
    + intros b Hb. rewrite fs_bblock by done. rewrite Z.div_small by (unfold BPB, BSIZE; lia). done.
    + intros i Hi. rewrite fs_iblock by done. rewrite Z.div_small; [done|]. change IPB with 16. lia.
  - intros b Hb. destruct (decide (b = 33)) as [->|]; [by eexists|]. destruct (decide (b = 34)) as [->|]; [by eexists|]. eexists. by apply fs_disk_lookup.
  - intros b Hb. rewrite fs_used by lia. apply Z.ltb_lt. lia.
Qed.

Lemma fs_txn : txn 0 2 1 ∅ [] fs_disk fs_disk Kalloc.demo_T fs_kern.
Proof.
  split; try done.
  - exists (reverse (seq 0 nbuf)). exact (binit_bcache 0 Kalloc.demo_T fs_kern eq_refl demo_virtio_idle fs_disk_wf eq_refl).
  - apply home_nil.
  - split_and!; [done|done|]. intros b Hb. unfold in_log in Hb. eexists. apply fs_disk_lookup; szs.
  - apply fs_disk_wf.
  - eexists. split; [apply fs_disk_lookup; lia|apply demo_head].
Qed.

Lemma fs_state : fstate 0 2 1 ∅ [] fs_disk fs_disk Kalloc.demo_T fs_sb 0 fs_inode fs_kern.
Proof. split; [apply fs_txn|done|done]. Qed.

Lemma fs_state2 : fstate 0 2 1 ∅ [] fs_disk fs_disk Kalloc.demo_T fs_sb 1 fs_inode2 fs_kern.
Proof. split; [apply fs_txn|done|done]. Qed.
Lemma fs_no_bufs : (length (@nil Z) < nbuf)%nat.
Proof. rewrite nbuf_eq. cbn. lia. Qed.

Lemma fs_blk bn : 0 <= bn < MAXFILE -> fblk fs_disk fs_inode bn = 0.
Proof.
  intros Hbn. unfold fblk. destruct (Z.ltb_spec bn NDIRECT); [|done].
  unfold addr_of. cbn [fs_inode i_addrs]. rewrite lookup_replicate_2; [done|]. change NDIRECT with 12 in *. lia.
Qed.

Lemma fs_file : file_ok 34 fs_sb fs_disk fs_inode /\ inode_wf fs_sb fs_inode.
Proof.
  split; split; try done; intros bn; rewrite ?fs_blk by done; try done.
  - intros Hbn. by rewrite fs_blk.
  - intros bn' Hb Hb'. by rewrite !fs_blk.
Qed.

Lemma fs_blk2 bn : 0 <= bn < MAXFILE -> fblk fs_disk fs_inode2 bn = if decide (bn = 0) then 34 else 0.
Proof.
  intros Hbn. unfold fblk. destruct (Z.ltb_spec bn NDIRECT); [|rewrite decide_False by (change NDIRECT with 12 in *; lia); done].
  unfold addr_of. cbn [fs_inode2 i_addrs]. case_decide as E; [by subst|]. destruct (Z.to_nat bn) as [|j] eqn:Ej; [lia|].
  cbn [lookup list_lookup]. change NDIRECT with 12 in *. change (default 0 (replicate 12 0 !! j) = 0). rewrite lookup_replicate_2; [done|]. lia.
Qed.

Lemma fs_file2 : file_ok 34 fs_sb fs_disk fs_inode2 /\ inode_wf fs_sb fs_inode2 /\ dense fs_disk fs_inode2.
Proof.
  split_and!; [split|split|]; try done.
  - intros bn Hbn. rewrite fs_blk2 by done. case_decide; [|done]. intros _. split; [|done]. split; [cbn; lia|]. rewrite fs_used by lia. done.
  - intros bn bn' Hb Hb'. rewrite !fs_blk2 by done. do 2 case_decide; lia.
  - intros i Hi. cbn in Hi. rewrite Z.div_small by (unfold BSIZE; lia). rewrite fs_blk2; [done|]. by vm_compute.
Qed.

Lemma fs_nfree : nfree fs_sb fs_disk 10.
Proof.
  exists (seqZ 35 10). split_and!; [apply NoDup_seqZ|by rewrite length_seqZ|]. apply Forall_forall. intros b Hb%elem_of_seqZ.
  split; [cbn; lia|]. rewrite fs_used by lia. apply Z.ltb_ge. lia.
Qed.

Definition fs_fuel : nat := Datatypes.S (Z.to_nat BPB).
Lemma fs_fuel_ok : (Z.to_nat BPB < fs_fuel)%nat /\ (Z.to_nat (sb_size fs_sb / BPB) < fs_fuel)%nat.
Proof. unfold fs_fuel. split; [lia|]. change (Z.to_nat (sb_size fs_sb / BPB)) with 0%nat. lia. Qed.

Definition fs_dev : BlockDev (disk_env demo_device 2) := disk_env_BlockDev demo_device 2 demo_device_ok ltac:(lia).

Definition fs_text : list Z := [104; 105].
Definition fs_len : Z := Z.of_nat (length fs_text).
Lemma fs_span : span 0 fs_len = 1%nat.
Proof. by vm_compute. Qed.
Lemma fs_room : (length (@nil Z) + 6 * span 0 fs_len + 2 < nbuf)%nat /\ nfree fs_sb fs_disk (2 * span 0 fs_len).
Proof. rewrite fs_span, nbuf_eq. split; [cbn; lia|]. eapply nfree_le; [apply fs_nfree|]. lia. Qed.
Lemma fs_bounds : 0 <= 0 <= i_size fs_inode /\ 0 + fs_len <= MAXFILE * BSIZE.
Proof. by vm_compute. Qed.

Lemma writei_correct_witness : exists s', solo (disk_env demo_device 2) (writei 0 (SLocal fs_text) 0 fs_len fs_fuel (MkK Kalloc.demo_T fs_kern)) = Some (fs_len, s') /\
  exists x', itable (own s') !! 0%nat = Some x' /\ i_size x' = 2.
Proof.
  destruct fs_fuel_ok as [F1 F2]. destruct fs_file as [G1 G2]. destruct fs_room as [R1 R2]. destruct fs_bounds as [B1 B2].
  pose proof (writei_correct _ fs_dev fs_fuel 0 2 1 34 fs_sb fs_disk Kalloc.demo_T 0 _ _ (local_feed fs_fuel) [] fs_disk fs_inode fs_kern
    (SLocal fs_text) fs_text 0 F1 F2 demo_rest (Z.le_refl 1) fs_state fs_demo_ok G1 G2 eq_refl I B1 B2 R1 R2) as HR. cbv zeta in HR.
  destruct (proj1 (runs_some _ _ _) HR) as (r & s' & E & -> & k' & x' & V' & bl' & -> & HT & _ & _ & Hs & _). exists (MkK Kalloc.demo_T k').
  split; [exact E|]. exists x'. split; [apply HT|exact Hs].
Defined.


Lemma fs_two (l : list Z) a b : length l = 2%nat -> l !! 0%nat = Some a -> l !! 1%nat = Some b -> l = [a; b].
Proof. destruct l as [|? [|? [|]]]; try done. by intros _ [= ->] [= ->]. Qed.


(** Bounds of [writei].  A write that starts after the end of the file,
    whose end wraps around 32 bits, or that would make the file longer than
    [MAXFILE] blocks returns -1 and changes nothing at all. *)
Theorem writei_bounds n t k ip x src off len :
  itable k !! ip = Some x -> i_size x < off \/ u32 (off + len) < off \/ MAXFILE * BSIZE < u32 (off + len) ->
  writei ip src off len n (MkK t k) = Ret (-1) (MkK t k).
Proof.
  intros Hx Hbad. unfold writei. rewrite (geti_bind _ _ _ _ _ _ Hx), !Z.gtb_ltb.
  destruct (Z.ltb_spec (i_size x) off); [done|]. destruct (Z.ltb_spec (u32 (off + len)) off); [done|]. cbn [orb].
  rewrite (proj2 (Z.ltb_lt (MAXFILE * BSIZE) _)) by lia. done.
Qed.

Lemma writei_bounds_witness : writei 1 (SLocal fs_text) 33 2 fs_fuel (MkK Kalloc.demo_T fs_kern) = Ret (-1) (MkK Kalloc.demo_T fs_kern).
Proof. apply (writei_bounds fs_fuel Kalloc.demo_T fs_kern 1 fs_inode2 (SLocal fs_text) 33 2); [done|]. by left. Defined.

(** C15: what is written is what is read.  Under the conditions of a write,
    [writei] followed by [readi] at the same offset returns the bytes. *)
Theorem write_read_roundtrip env (BD : BlockDev env) n p s o ds S D t ip (R : source -> list Z -> Prop) (C : T -> kern -> Prop) (HF : Feed n R C)
    bl V x k src bytes off :
  let len := Z.of_nat (length bytes) in
  (Z.to_nat BPB < n)%nat -> (Z.to_nat (sb_size S / BPB) < n)%nat -> rest p t -> 1 <= o ->
  fstate p s o ∅ bl V D t S ip x k -> fs_ok s ds S V -> file_ok ds S V x -> inode_wf S x -> dense V x -> R src bytes -> C t k ->
  0 <= off <= i_size x -> off + len <= MAXFILE * BSIZE -> (length bl + 6 * span off len + 2 < nbuf)%nat -> nfree S V (2 * span off len) ->
  runs env ((_ ← writei ip src off len; readi ip DLocal off len) n (MkK t k)) (fun r _ => r = (len, bytes)).
Proof.
  intros len Hn HnS Hr Ho HT Hfs Hx Hwx Hd HR HC Hoff Hend Hbud Hfree. assert (MAXFILE * BSIZE < 2 ^ 31) as Hmax by done. apply runs_bind.
  eapply runs_mono; [|eapply (writei_spec env BD n p s o ds S D t ip R C HF bl V x k src bytes off); eassumption].
  intros r ? (-> & k' & x' & V' & bl' & -> & (Hw' & Hb' & _) & HT' & Hfs' & Hx' & Hsz & _ & Hby & Hde & _). specialize (Hde Hd).
  eapply runs_mono; [|eapply (readi_runs env n p Hn Hr HnS Hfs' Hx' Hw' Hde Hb' k' off len HT'); lia].
  intros r s' [-> _]. rewrite Hsz. replace (Z.min _ _) with len by lia. f_equal. apply list_eq. intros i.
  destruct (decide (i < length bytes)%nat) as [Hi|Hi].
  - rewrite fread_lookup by lia. rewrite Hby by (unfold in_file; lia).
    rewrite decide_True by lia. unfold byte_at. replace (Z.to_nat (off + Z.of_nat i - off)) with i by lia.
    apply lookup_lt_is_Some in Hi as [v ->]. done.
  - rewrite !lookup_ge_None_2; [done|lia|]. rewrite fread_length. lia.
Qed.

Lemma write_read_roundtrip_witness : exists s',
  solo (disk_env demo_device 2) ((_ ← writei 0 (SLocal fs_text) 0 fs_len; readi 0 DLocal 0 fs_len) fs_fuel (MkK Kalloc.demo_T fs_kern)) = Some ((fs_len, fs_text), s').
Proof.
  assert (dense fs_disk fs_inode) as G3 by (intros i Hi; cbn in Hi; lia).
  destruct fs_fuel_ok as [F1 F2]. destruct fs_file as [G1 G2]. destruct fs_room as [R1 R2]. destruct fs_bounds as [B1 B2].
  pose proof (write_read_roundtrip _ fs_dev fs_fuel 0 2 1 34 fs_sb fs_disk Kalloc.demo_T 0 _ _ (local_feed fs_fuel) [] fs_disk fs_inode fs_kern
    (SLocal fs_text) fs_text 0 F1 F2 demo_rest (Z.le_refl 1) fs_state fs_demo_ok G1 G2 G3 eq_refl I B1 B2 R1 R2) as HR. cbv zeta in HR.
  destruct (proj1 (runs_some _ _ _) HR) as (r & s' & E & ->). exists s'. exact E.
Defined.

(** ** Blocks and inodes *)

Lemma bitmap_there s ds S V b : fs_ok s ds S V -> 0 <= b < sb_size S -> is_Some (V !! BBLOCK b S).
Proof. intros Hfs Hb. apply (fs_dom Hfs). pose proof (ly_bmap (fs_layout Hfs) b Hb). pose proof (ly_data (fs_layout Hfs)). pose proof (ly_log (fs_layout Hfs)). szs. Qed.

(** C33: allocating a block.  [balloc] returns the first block whose bit in
    the bitmap is clear; afterwards exactly that bit has changed, the block
    reads as zeros, every other data block is as it was, and both changes are
    part of the running transaction. *)
Theorem balloc_correct env (BD : BlockDev env) n p s o H bl V D t S ds k b0 :
  (Z.to_nat BPB < n)%nat -> rest p t -> 1 <= o -> fs_ok s ds S V ->
  txn p s o H bl V D t k -> sb k = S -> held_data ds S V H k -> (size H + length bl + 2 < nbuf)%nat ->
  0 <= b0 < sb_size S -> used S V b0 = false -> (forall c, 0 <= c < b0 -> used S V c = true) -> (Z.to_nat (b0 / BPB) < n)%nat ->
  runs env (balloc ROOTDEV n (MkK t k)) (fun r s' => r = b0 /\ ds <= b0 /\ exists k' bl' V', s' = MkK t k' /\
    txn p s o H bl' V' D t k' /\ b0 ∈ bl' /\ BBLOCK b0 S ∈ bl' /\ V' !! b0 = Some zeros /\
    (forall c, 0 <= c < sb_size S -> used S V' c = (c =? b0) || used S V c) /\
    (forall c, c <> b0 -> c <> BBLOCK b0 S -> V' !! c = V !! c)).
Proof.
  intros Hn Hr Ho Hfs HT Hsb Hheld Hbud Hb0 Hu Hall Hf. pose proof (cached_wf p _ _ _ _ _ (tx_cache HT)) as Hwf.
  assert (ds <= b0) as Hds. { destruct (Z.le_gt_cases ds b0) as [|Hlt]; [done|]. rewrite (fs_meta Hfs b0) in Hu by lia. done. }
  eapply runs_mono; [|eapply (balloc_runs env n p Hn Hr Ho Hfs k b0); eassumption].
  intros r ? (-> & k' & -> & HT' & _). split_and!; [done|done|]. do 3 eexists. split_and!; [done|exact HT'|apply absorb_in|apply absorb_mono, absorb_in| | |].
  - by rewrite lookup_insert_eq.
  - intros c Hc. rewrite (used_data (fs_layout Hfs)), (used_set (fs_layout Hfs) Hwf), (Z.eqb_sym c); try done. by eapply bitmap_there.
  - intros c H1 H2. unfold bmap_set. by rewrite !lookup_insert_ne by done.
Qed.

Lemma balloc_correct_witness : exists s', solo (disk_env demo_device 2) (balloc ROOTDEV fs_fuel (MkK Kalloc.demo_T fs_kern)) = Some (35, s').
Proof.
  assert (forall c, 0 <= c < 35 -> used fs_sb fs_disk c = true) as Hall by (intros c Hc; rewrite fs_used by lia; apply Z.ltb_lt; lia).
  assert (Z.to_nat (35 / BPB) < fs_fuel)%nat as Hf by (unfold fs_fuel; change (Z.to_nat (35 / BPB)) with 0%nat; lia).
  assert (size (∅ : gset nat) + length (@nil Z) + 2 < nbuf)%nat as Hb by (rewrite nbuf_eq, size_empty; cbn; lia).
  assert (held_data 34 fs_sb fs_disk ∅ fs_kern) as Hh by (intros c Hc; by apply elem_of_empty in Hc).
  destruct fs_fuel_ok as [F1 F2].
  pose proof (balloc_correct _ fs_dev fs_fuel 0 2 1 ∅ [] fs_disk fs_disk Kalloc.demo_T fs_sb 34 fs_kern 35 F1 demo_rest (Z.le_refl 1) fs_demo_ok fs_txn eq_refl
    Hh Hb ltac:(done) ltac:(by vm_compute) Hall Hf) as HR.
  destruct (proj1 (runs_some _ _ _) HR) as (r & s' & E & -> & _). exists s'. exact E.
Defined.

(** Freeing a block.  Freeing a block that is in use clears its bit and
    no other and changes nothing else; freeing one that is not panics. *)
Theorem bfree_correct env (BD : BlockDev env) n p s o H bl V D t S ds k b :
  (Z.to_nat BPB < n)%nat -> rest p t -> 1 <= o -> fs_ok s ds S V ->
  txn p s o H bl V D t k -> sb k = S -> held_data ds S V H k -> (size H + length bl + 2 < nbuf)%nat -> 0 <= b < sb_size S ->
  (used S V b = true -> runs env (bfree ROOTDEV b n (MkK t k)) (fun _ s' => exists k' bl' V', s' = MkK t k' /\
     txn p s o H bl' V' D t k' /\ (forall c, 0 <= c < sb_size S -> used S V' c = negb (c =? b) && used S V c) /\
     (forall c, c <> BBLOCK b S -> V' !! c = V !! c))) /\
  (used S V b = false -> panics env (bfree ROOTDEV b n (MkK t k)) "freeing free block").
Proof.
  intros Hn Hr Ho Hfs HT Hsb Hheld Hbud Hb. pose proof (cached_wf p _ _ _ _ _ (tx_cache HT)) as Hwf. split; intros Hu.
  - eapply runs_mono; [|eapply (bfree_runs env n p Hn Hr Ho Hfs HT Hsb Hheld Hbud b); done].
    intros [] ? (k' & -> & HT' & _). do 3 eexists. split_and!; [done|exact HT'| |].
    + intros c Hc. rewrite (used_clear (fs_layout Hfs) Hwf), (Z.eqb_sym c); try done. by eapply bitmap_there.
    + intros c Hc. unfold bmap_clear. by rewrite lookup_insert_ne.
  - by eapply bfree_free.
Qed.

Lemma bfree_correct_witness :
  (exists s', solo (disk_env demo_device 2) (bfree ROOTDEV 34 fs_fuel (MkK Kalloc.demo_T fs_kern)) = Some (tt, s')) /\
  panics (disk_env demo_device 2) (bfree ROOTDEV 40 fs_fuel (MkK Kalloc.demo_T fs_kern)) "freeing free block".
Proof.
  assert (size (∅ : gset nat) + length (@nil Z) + 2 < nbuf)%nat as Hb by (rewrite nbuf_eq, size_empty; cbn; lia).
  assert (held_data 34 fs_sb fs_disk ∅ fs_kern) as Hh by (intros c Hc; by apply elem_of_empty in Hc).
  destruct fs_fuel_ok as [F1 F2].
  pose proof (fun b => bfree_correct _ fs_dev fs_fuel 0 2 1 ∅ [] fs_disk fs_disk Kalloc.demo_T fs_sb 34 fs_kern b F1 demo_rest (Z.le_refl 1) fs_demo_ok fs_txn eq_refl
    Hh Hb) as HR. split.
  - destruct (HR 34 ltac:(done)) as [HR1 _]. specialize (HR1 ltac:(by vm_compute)).
    destruct (proj1 (runs_some _ _ _) HR1) as ([] & s' & E & _). exists s'. exact E.
  - destruct (HR 40 ltac:(done)) as [_ HR2]. apply HR2. by vm_compute.
Defined.
