(* ===== verification/Inodes.v ===== *)
(** * The inode table: [iget], [idup], [ilock], [iunlock], [iput]

    The table has at most one entry in use per inode ([iget] shares it), its
    reference counts count the pointers handed out, and [ilock] brings the
    contents of the inode from the disk.  [iget_scan] is what the loop of
    [iget] computes. *)

From Stdlib Require Import ZArith Lia.
From S2P Require Import Prelude Riscv Thread Proc Sleeplock Kern Blocks Virtio VirtioSpec.
From S2P Require Import Bio BioSpec BioOps Log LogSpec Crash Txn Fs Balloc Files ReadWrite FileTheorems.

(** ** [iget] *)

Definition is_inode (dev inum : Z) (x : inode) : bool := (0 <? i_ref x) && (i_dev x =? dev) && (i_inum x =? inum).

(** At most one entry in use per inode. *)
Record itable_ok (l : list inode) : Prop := {
  it_len : length l = Z.to_nat NINODE;
  it_ref : Forall (fun x => 0 <= i_ref x) l;
  it_uniq : forall i j x y, l !! i = Some x -> l !! j = Some y -> 0 < i_ref x -> 0 < i_ref y ->
    i_dev x = i_dev y -> i_inum x = i_inum y -> i = j
}.

Fixpoint iget_scan (dev inum : Z) (l : list inode) (i : nat) (e : option nat) : nat + option nat :=
  match l with
  | [] => inr e
  | x :: l =>
      if is_inode dev inum x then inl i else
      iget_scan dev inum l (S i) (match e with Some _ => e | None => if i_ref x =? 0 then Some i else None end)
  end.

Definition ref_up (x : inode) : inode := x <| i_ref := i_ref x + 1 |>.
Definition fresh (dev inum : Z) (x : inode) : inode :=
  x <| i_dev := dev |> <| i_inum := inum |> <| i_ref := 1 |> <| i_valid := 0 |>.

Lemma iget_loop dev inum n t k : cpu_ok t -> lks t !! LkItable = None -> length (itable k) = Z.to_nat NINODE ->
  forall l i e fuel, drop i (itable k) = l -> (i <= length (itable k))%nat -> (length l < fuel)%nat ->
  mwhile fuel (iget_body dev inum) (Z.of_nat i, e) n (MkK (t_acq LkItable t) k) =
  match iget_scan dev inum l i e with
  | inl j => Ret (inl j) (MkK t (k <| itable ::= alter ref_up j |>))
  | inr e' => Ret (inr e') (MkK (t_acq LkItable t) k)
  end.
Proof.
  intros Hok Hl Hlen. induction l as [|x l IH]; intros i e fuel Hd Hi Hf; (destruct fuel as [|fuel]; [cbn in Hf; lia|]).
  - assert (i = Z.to_nat NINODE) as -> by (apply (f_equal length) in Hd; rewrite length_drop in Hd; cbn in Hd; lia). done.
  - assert (itable k !! i = Some x) as Hx by (by rewrite <- (Nat.add_0_r i), <- lookup_drop, Hd).
    assert (i < length (itable k))%nat as Hlt by (by eapply lookup_lt_Some).
    assert (Z.of_nat i <? NINODE = true) as Hlt' by (apply Z.ltb_lt; lia).
    cbn [iget_scan]. destruct (is_inode dev inum x) eqn:E.
    + apply mwhile_inr. unfold iget_body. rewrite Hlt'. cbn [negb]. rewrite Nat2Z.id, (geti_bind _ _ _ _ _ _ Hx).
      unfold is_inode in E. rewrite E, modi_bind. by rewrite release_bind.
    + rewrite (mwhile_inl fuel _ _ n _ (Z.of_nat (S i), match e with Some _ => e | None => if i_ref x =? 0 then Some i else None end) (MkK (t_acq LkItable t) k)).
      * apply IH; [|lia|cbn in Hf; lia]. by rewrite <- Nat.add_1_r, <- drop_drop, Hd.
      * unfold iget_body. rewrite Hlt'. cbn [negb]. rewrite Nat2Z.id, (geti_bind _ _ _ _ _ _ Hx).
        unfold is_inode in E. rewrite E. rewrite Nat2Z.inj_succ, <- Z.add_1_r. done.
Qed.

(** The three outcomes of the search: an entry of the inode, no entry of it
    but a free one, neither. *)
Lemma iget_scan_hit dev inum l i e j : iget_scan dev inum l i e = inl j ->
  exists x, (i <= j)%nat /\ l !! (j - i)%nat = Some x /\ is_inode dev inum x = true.
Proof.
  revert i e. induction l as [|x l IH]; intros i e; [done|]. cbn [iget_scan]. destruct (is_inode dev inum x) eqn:E.
  - intros [= ->]. exists x. by rewrite Nat.sub_diag.
  - intros (y & Hle & Hy & Hi)%IH. exists y. replace (j - i)%nat with (S (j - S i)) by lia. split_and!; [lia|done|done].
Qed.

Lemma iget_scan_miss dev inum l i e r : iget_scan dev inum l i e = inr r ->
  Forall (fun x => is_inode dev inum x = false) l /\
  match r with
  | Some j => e = Some j \/ e = None /\ exists x, (i <= j)%nat /\ l !! (j - i)%nat = Some x /\ i_ref x = 0 /\
      forall j' y, (i <= j' < j)%nat -> l !! (j' - i)%nat = Some y -> i_ref y <> 0
  | None => e = None /\ Forall (fun x => i_ref x <> 0) l
  end.
Proof.
  revert i e. induction l as [|x l IH]; intros i e; [intros [= <-]; split; [done|]; by destruct e; [left|]|].
  cbn [iget_scan]. destruct (is_inode dev inum x) eqn:E; [done|]. intros [H1 H2]%IH. split; [by constructor|].
  destruct e as [e|], r as [j|]; [left; by destruct H2 as [->|[? _]]|by destruct H2| |].
  - right. split; [done|]. destruct H2 as [H2|(H2 & y & Hle & Hy & Hz & Hmin)]; destruct (Z.eqb_spec (i_ref x) 0) as [Ez|Ez]; try done.
    + injection H2 as ->. exists x. rewrite Nat.sub_diag. split_and!; [done|done|done|]. intros; lia.
    + exists y. replace (j - i)%nat with (S (j - S i)) by lia. split_and!; [lia|done|done|]. intros j' z Hj Hz'.
      destruct (decide (j' = i)) as [->|]; [rewrite Nat.sub_diag in Hz'; by injection Hz' as ->|].
      apply (Hmin j'); [lia|]. by replace (j' - i)%nat with (S (j' - S i)) in Hz' by lia.
  - destruct (Z.eqb_spec (i_ref x) 0) as [Ez|Ez]; [by destruct H2|]. split; [done|]. destruct H2. by constructor.
Qed.

Lemma is_inode_true dev inum x : is_inode dev inum x = true <-> 0 < i_ref x /\ i_dev x = dev /\ i_inum x = inum.
Proof. unfold is_inode. rewrite !andb_true_iff, Z.ltb_lt, !Z.eqb_eq. tauto. Qed.

(** Taking a further reference, or a free entry for an inode that has none,
    keeps the table well formed. *)
Lemma itable_up l j x : itable_ok l -> l !! j = Some x -> 0 < i_ref x -> itable_ok (alter ref_up j l).
Proof.
  intros [H1 H2 H3] Hx Hp. split; [by rewrite length_alter|by apply Forall_alter; [|intros y _ Hy; cbn; lia]|].
  intros a b y z Hy Hz Py Pz Ed Ei.
  assert (forall a y, alter ref_up j l !! a = Some y -> 0 < i_ref y -> exists y', l !! a = Some y' /\ 0 < i_ref y' /\ i_dev y' = i_dev y /\ i_inum y' = i_inum y) as Hback.
  { clear -Hx Hp. intros a y. rewrite list_lookup_alter. case_decide as E; [|eauto]. subst. rewrite Hx. intros [= <-] _. by exists x. }
  destruct (Hback a y Hy Py) as (y' & Ay & By & Cy & Dy). destruct (Hback b z Hz Pz) as (z' & Az & Bz & Cz & Dz).
  apply (H3 a b y' z'); congruence.
Qed.

Lemma itable_fresh dev inum l j : itable_ok l -> Forall (fun x => is_inode dev inum x = false) l -> itable_ok (alter (fresh dev inum) j l).
Proof.
  intros [H1 H2 H3] Hno. split; [by rewrite length_alter|by apply Forall_alter; [|intros y _ Hy; cbn; lia]|].
  intros a b y z. rewrite !list_lookup_alter. do 2 case_decide; subst; try done.
  - rewrite fmap_Some. intros (y' & _ & ->) Hz _ Pz Ed Ei. cbn in Ed, Ei. rewrite Forall_lookup in Hno. apply Hno in Hz as Hz'.
    by rewrite (proj2 (is_inode_true dev inum z)) in Hz'.
  - rewrite fmap_Some. intros Hy (z' & _ & ->) Py _ Ed Ei. cbn in Ed, Ei. rewrite Forall_lookup in Hno. apply Hno in Hy as Hy'.
    by rewrite (proj2 (is_inode_true dev inum y)) in Hy'.
  - apply H3.
Qed.

(** What [iget] does to the table: the entry it returns and the new table. *)
Lemma iget_eval n t k dev inum : (Z.to_nat NINODE < n)%nat -> cpu_ok t -> lks t !! LkItable = None -> length (itable k) = Z.to_nat NINODE ->
  iget dev inum n (MkK t k) = match iget_scan dev inum (itable k) 0 None with
    | inl j => Ret j (MkK t (k <| itable ::= alter ref_up j |>))
    | inr None => Panic "iget: no inodes"
    | inr (Some j) => Ret j (MkK t (k <| itable ::= alter (fresh dev inum) j |>)) end.
Proof.
  intros Hn Hok Hl Hlen. unfold iget. rewrite acquire_bind by done.
  pose proof (iget_loop dev inum n t k Hok Hl Hlen (itable k) 0 None n eq_refl (Nat.le_0_l _) ltac:(by rewrite Hlen)) as E.
  change (mloop (iget_body dev inum) (0, None) n (MkK (t_acq LkItable t) k) = match iget_scan dev inum (itable k) 0 None with
    inl j => Ret (inl j) (MkK t (k <| itable ::= alter ref_up j |>)) | inr e' => Ret (inr e') (MkK (t_acq LkItable t) k) end) in E.
  destruct (iget_scan _ _ _ _ _) as [j|[j|]]; rewrite (bind_ret _ _ _ _ _ _ E); [done| |done].
  rewrite modi_bind. by rewrite release_bind.
Qed.

(** C21: one table entry per inode.  When an entry holds the inode, [iget]
    returns that entry with one more reference; otherwise it takes the first
    entry without references, for this inode, with its contents not yet read;
    with no such entry it panics.  Either way no inode has two entries in use
    and the table lock is free again. *)
Theorem iget_correct n t k dev inum :
  (Z.to_nat NINODE < n)%nat -> cpu_ok t -> lks t !! LkItable = None -> itable_ok (itable k) ->
  (forall j x, itable k !! j = Some x -> is_inode dev inum x = true ->
    iget dev inum n (MkK t k) = Ret j (MkK t (k <| itable ::= alter ref_up j |>)) /\ itable_ok (alter ref_up j (itable k))) /\
  (Forall (fun x => is_inode dev inum x = false) (itable k) ->
    (forall j x, itable k !! j = Some x -> i_ref x = 0 -> (forall i y, (i < j)%nat -> itable k !! i = Some y -> i_ref y <> 0) ->
      iget dev inum n (MkK t k) = Ret j (MkK t (k <| itable ::= alter (fresh dev inum) j |>)) /\ itable_ok (alter (fresh dev inum) j (itable k))) /\
    (Forall (fun x => i_ref x <> 0) (itable k) -> iget dev inum n (MkK t k) = Panic "iget: no inodes")).
Proof.
  intros Hn Hok Hl HI.
  rewrite (iget_eval n t k dev inum Hn Hok Hl (it_len _ HI)).
  destruct (iget_scan dev inum (itable k) 0 None) as [j'|r] eqn:E.
  - apply iget_scan_hit in E as (x' & _ & Hx' & Hi'). rewrite Nat.sub_0_r in Hx'. pose proof Hi' as (P1 & P2 & P3)%is_inode_true. split.
    + intros j x Hx (Q1 & Q2 & Q3)%is_inode_true. assert (j' = j) as -> by (apply (it_uniq _ HI j' j x' x); congruence).
      split; [done|]. by eapply itable_up.
    + intros Hno. rewrite Forall_lookup in Hno. by rewrite (Hno _ _ Hx') in Hi'.
  - apply iget_scan_miss in E as [Hno Hr]. split.
    { intros j x Hx Hi. rewrite Forall_lookup in Hno. by rewrite (Hno _ _ Hx) in Hi. }
    intros _. destruct r as [j'|]; [destruct Hr as [|(_ & x' & _ & Hx' & Hz & Hmin)]; [done|]; rewrite Nat.sub_0_r in Hx'|destruct Hr as [_ Hr]].
    + split; [|intros Hall; rewrite Forall_lookup in Hall; by apply Hall in Hx']. intros j x Hx Hzx Hfirst.
      assert (j' = j) as ->; [|split; [done|by apply itable_fresh]].
      destruct (Nat.lt_trichotomy j j') as [Hlt|[->|Hlt]]; [|done|by destruct (Hfirst j' x')].
      exfalso. apply (Hmin j x); [lia|by rewrite Nat.sub_0_r|done].
    + split; [|done]. intros j x Hx Hzx _. rewrite Forall_lookup in Hr. by apply Hr in Hx.
Qed.

Lemma iget_correct_witness : iget ROOTDEV 2 100%nat (MkK Kalloc.demo_T fs_kern) = Ret 1%nat (MkK Kalloc.demo_T (fs_kern <| itable ::= alter ref_up 1%nat |>)).
Proof.
  assert (itable_ok (itable fs_kern)) as HI.
  { split; [done|by repeat constructor|]. intros i j x y Hx Hy Px Py Ed Ei.
    assert (forall i x, itable fs_kern !! i = Some x -> 0 < i_ref x -> Z.of_nat i = i_inum x - 1) as Hpos.
    { intros a z Hz Pz. do 2 (destruct a as [|a]; [by injection Hz as <-|]). change (replicate 48 inode0 !! a = Some z) in Hz.
      apply lookup_replicate in Hz as [-> _]. done. }
    pose proof (Hpos i x Hx Px). pose proof (Hpos j y Hy Py). lia. }
  destruct (iget_correct 100%nat Kalloc.demo_T fs_kern ROOTDEV 2 ltac:(vm_compute; lia) (ca_ok _ _ (re_calm _ _ demo_rest)) eq_refl HI) as [H _].
  by apply (H 1%nat fs_inode2).
Defined.

(** ** [ilock] *)

(** Holding an inode's lock does not concern the buffers. *)
Lemma txn_hold p s o H bl V D t k ip : txn p s o H bl V D t k -> txn p s o H bl V D (hold (SLInode ip) p t) k.
Proof.
  intros HT. destruct (tx_cache HT) as [order HB]. apply (txn_same p HT); [|apply HT|done|done]. exists order. destruct HB. split; try done.
  intros i. specialize (bc_slk i). unfold hold. destruct t. cbn in *. by rewrite lookup_insert_ne.
Qed.

(** What [ilock] copies from the disk. *)
Definition load (d : dinode) (x : inode) : inode :=
  x <| i_type := di_type d |> <| i_major := di_major d |> <| i_minor := di_minor d |>
    <| i_nlink := di_nlink d |> <| i_size := di_size d |> <| i_addrs := di_addrs d |> <| i_valid := 1 |>.

Section ilock.
Context (env : kst kern -> option (kst kern)) {BD : BlockDev env} (n p : nat) (Hn : (nbuf < n)%nat).
Context {s o ds : Z} {bl : list Z} {V D : gmap Z (list Z)} {t : T} {S : superblock} {ip : nat} {x : inode} {k : kern}.
Context (Hr : rest p t) (HT : txn p s o ∅ bl V D t k) (Hfs : fs_ok s ds S V) (Hsb : sb k = S) (Hx : itable k !! ip = Some x).
Context (Href : 1 <= i_ref x) (Hdev : i_dev x = ROOTDEV) (Hi : 0 <= i_inum x < sb_ninodes S) (Hlk : slks t !! SLInode ip = None).
Context (Hbud : (length bl < nbuf)%nat).

(** The common start: the lock is taken. *)
Lemma ilock_start : ilock (Some ip) n (MkK t k) =
  (x ← geti ip;
   if i_valid x =? 0 then
     s ← getX sb;
     bp ← bread (i_dev x) (IBLOCK (i_inum x) s);
     y ← getb bp;
     let d := dec_dinode (slice (dinode_off (i_inum x)) DINODE_SIZE (b_data y)) in
     modi ip (fun x => x <| i_type := di_type d |> <| i_major := di_major d |> <| i_minor := di_minor d |>
                         <| i_nlink := di_nlink d |> <| i_size := di_size d |> <| i_addrs := di_addrs d |>) ;;
     brelse bp ;;
     modi ip (fun x => x <| i_valid := 1 |>) ;;
     if di_type d =? 0 then panic "ilock: no type" else mret tt
   else mret tt) n (MkK (hold (SLInode ip) p t) k).
Proof.
  unfold ilock. rewrite (geti_bind _ _ _ _ _ _ Hx), (proj2 (Z.ltb_ge _ _)) by lia.
  rewrite (bind_ret _ _ _ _ _ _ (acquiresleep_spec p (SLInode ip) n t k (re_calm _ _ Hr) ltac:(by rewrite (re_lks _ _ Hr)) Hlk ltac:(lia))). done.
Qed.

Lemma ilock_valid : i_valid x <> 0 -> ilock (Some ip) n (MkK t k) = Ret tt (MkK (hold (SLInode ip) p t) k).
Proof. intros Hv. rewrite ilock_start, (geti_bind _ _ _ _ _ _ Hx), (proj2 (Z.eqb_neq _ 0)) by done. done. Qed.

(** Reading the inode, for any claim [P] about the outcome that passes
    through sequencing. *)
Lemma ilock_read (P : res (kst kern) () -> Prop) :
  (forall A (m : KK A) g s0, runs env (m n s0) (fun a s' => P (g a n s')) -> P ((m ≫= g) n s0)) ->
  i_valid x = 0 ->
  (forall k', txn p s o ∅ bl V D (hold (SLInode ip) p t) k' -> same_os k k' -> itable k' = alter (load (disk_inode S V (i_inum x))) ip (itable k) ->
     P ((if di_type (disk_inode S V (i_inum x)) =? 0 then panic "ilock: no type" else mret tt) n (MkK (hold (SLInode ip) p t) k'))) ->
  P (ilock (Some ip) n (MkK t k)).
Proof.
  intros HP Hv Hk. rewrite ilock_start, (geti_bind _ _ _ _ _ _ Hx), Hv, Z.eqb_refl, getX_bind, Hsb, Hdev.
  destruct (inode_block Hfs (cached_wf p _ _ _ _ _ (tx_cache HT)) Hi) as (l & Hl & _).
  assert (rest p (hold (SLInode ip) p t)) as Hr1 by (by apply rest_slks). pose proof (txn_hold p s o ∅ bl V D t k ip HT) as HT1. apply HP.
  eapply runs_mono; [|eapply (tx_bread env n p Hn Hr1 HT1 _ l (not_held_nil _ _) ltac:(right; rewrite size_empty; lia) Hl)].
  intros bp ? (k2 & -> & Hbp & Hfr & HT2 & R2 & K2 & F2 & Hcl). rewrite union_empty_r_L in HT2.
  assert (rest p (hold (SLBuf bp) p (hold (SLInode ip) p t))) as Hr2 by (by apply rest_slks).
  pose proof R2 as (y & Hy & _ & Hdy). rewrite (getb_bind _ _ _ _ _ _ Hy), Hdy, modi_bind.
  assert (dec_dinode (slice (dinode_off (i_inum x)) DINODE_SIZE l) = disk_inode S V (i_inum x)) as -> by (unfold disk_inode; by rewrite Hl).
  apply HP. eapply runs_mono; [|eapply (tx_brelse env n p Hr2 (txn_itable p s o _ bl V D _ k2 _ HT2) bp _ l ltac:(by apply elem_of_singleton) R2 Hcl)].
  intros [] ? (k3 & -> & HT3 & _ & F3). rewrite hold_drop in * by done. rewrite difference_diag_L in HT3.
  rewrite modi_bind. apply Hk; [by apply txn_itable|transitivity k2; [by apply same_fs_os|]; etransitivity; [apply same_os_itable|]; transitivity k3; [by apply same_fs_os, F3|apply same_os_itable]|]. cbn [itable upd]. change (itable (k3 <| itable ::= ?f |>)) with (f (itable k3)).
  rewrite (sf_itable _ _ F3). change (itable (k2 <| itable ::= ?f |>)) with (f (itable k2)). rewrite (sf_itable _ _ F2).
  by rewrite alter_alter.
Qed.
End ilock.

(** C34: locking an inode.  With the lock free, [ilock] takes it; if the entry
    is not valid yet its contents become those of the inode on disk (as the
    running transaction sees it), else it is left alone; a free inode on disk
    and an entry without references are refused with a panic. *)
Theorem ilock_correct env (BD : BlockDev env) n p s o ds bl V D t S ip x k :
  (nbuf < n)%nat -> rest p t -> txn p s o ∅ bl V D t k -> fs_ok s ds S V -> sb k = S -> itable k !! ip = Some x ->
  i_dev x = ROOTDEV -> 0 <= i_inum x < sb_ninodes S -> slks t !! SLInode ip = None -> (length bl < nbuf)%nat ->
  let t' := hold (SLInode ip) p t in let d := disk_inode S V (i_inum x) in
  (i_ref x < 1 -> ilock (Some ip) n (MkK t k) = Panic "ilock") /\
  (1 <= i_ref x -> i_valid x <> 0 -> ilock (Some ip) n (MkK t k) = Ret tt (MkK t' k)) /\
  (1 <= i_ref x -> i_valid x = 0 -> di_type d <> 0 -> runs env (ilock (Some ip) n (MkK t k)) (fun _ s' => exists k', s' = MkK t' k' /\
     txn p s o ∅ bl V D t' k' /\ same_os k k' /\ itable k' = alter (load d) ip (itable k) /\ inode_disk (load d x) = d)) /\
  (1 <= i_ref x -> i_valid x = 0 -> di_type d = 0 -> panics env (ilock (Some ip) n (MkK t k)) "ilock: no type").
Proof.
  intros Hn Hr HT Hfs Hsb Hx Hdev Hi Hlk Hbud t' d. split_and!.
  - intros H. unfold ilock. by rewrite (geti_bind _ _ _ _ _ _ Hx), (proj2 (Z.ltb_lt _ _)).
  - intros Href. by eapply ilock_valid.
  - intros Href Hv Hd. apply (ilock_read env n p Hn Hr HT Hfs Hsb Hx Href Hdev Hi Hlk Hbud (fun r => runs env r _)); [intros; by apply runs_bind|done|].
    intros k' HT' F Hit. fold d. rewrite (proj2 (Z.eqb_neq _ 0) Hd). eapply runs_ret; [reflexivity|]. exists k'. split_and!; [done|done|done|done|]. by destruct d.
  - intros Href Hv Hd. apply (ilock_read env n p Hn Hr HT Hfs Hsb Hx Href Hdev Hi Hlk Hbud (fun r => panics env r _)); [intros; by apply panics_bind|done|].
    intros k' HT' _ Hit. fold d. by rewrite Hd.
Qed.

Lemma ilock_correct_witness :
  ilock (Some 1%nat) 40%nat (MkK Kalloc.demo_T fs_kern) = Ret tt (MkK (hold (SLInode 1) 0 Kalloc.demo_T) fs_kern) /\
  panics (disk_env demo_device 2) (ilock (Some 1%nat) 40%nat (MkK Kalloc.demo_T (fs_kern <| itable ::= alter (fresh ROOTDEV 2) 1%nat |>))) "ilock: no type".
Proof.
  assert (nbuf < 40)%nat as Hn by (rewrite nbuf_eq; lia).
  pose proof (fun k x HT Hsb Hx Hdev Hi => ilock_correct _ fs_dev 40%nat 0 2 1 34 [] fs_disk fs_disk Kalloc.demo_T fs_sb 1 x k Hn demo_rest HT fs_demo_ok
    Hsb Hx Hdev Hi eq_refl fs_no_bufs) as HR. split.
  - destruct (HR fs_kern fs_inode2 fs_txn eq_refl eq_refl eq_refl ltac:(done)) as (_ & H & _). by apply H.
  - assert (alter (fresh ROOTDEV 2) 1%nat (itable fs_kern) !! 1%nat = Some (fresh ROOTDEV 2 fs_inode2)) as Hx by (by rewrite list_lookup_alter_eq).
    destruct (HR (fs_kern <| itable ::= alter (fresh ROOTDEV 2) 1%nat |>) (fresh ROOTDEV 2 fs_inode2) (txn_itable _ _ _ _ _ _ _ _ _ _ fs_txn)
      eq_refl Hx eq_refl ltac:(done)) as (_ & _ & _ & H). apply H; [done|done|]. by vm_compute.
Defined.
