(* ===== verification/Trunc.v ===== *)
(** * Truncation: [itrunc] and the last [iput]

    [itrunc] frees every block of a file, indirect ones and the indirect
    block included, and no other; [iput] of the last reference to a file
    without links truncates it, marks the inode free on disk and gives up the
    table entry.  The file system has at most [BPB] blocks, so that its bitmap
    is one block (mkfs builds file systems of [FSSIZE] = 1000). *)

From Stdlib Require Import ZArith Lia.
From S2P Require Import Prelude Riscv Thread Proc Sleeplock Kern Blocks Virtio VirtioSpec.
From S2P Require Import Bio BioSpec BioOps Log LogSpec Crash Txn Fs Balloc Files ReadWrite FileTheorems Inodes.

Lemma runs_meach {S} env (body : Z -> M S ()) n (I : nat -> S -> Prop) N :
  (forall i s, (i < N)%nat -> I i s -> runs env (body (Z.of_nat i) n s) (fun _ => I (Datatypes.S i))) ->
  forall m i s, (i + m = N)%nat -> I i s -> runs env (meach m (Z.of_nat i) body n s) (fun _ => I N).
Proof.
  intros Hstep. induction m as [|m IH]; intros i s Hi Hs; [replace N with i by lia; eapply runs_ret; [reflexivity|done]|].
  cbn [meach]. apply runs_bind. eapply runs_mono; [|apply Hstep; [lia|exact Hs]]. intros [] s' Hs'.
  replace (Z.of_nat i + 1) with (Z.of_nat (Datatypes.S i)) by lia. apply IH; [lia|done].
Qed.

(** ** A bitmap with blocks freed *)

Definition freed (S : superblock) (V : gmap Z (list Z)) (L : list Z) : gmap Z (list Z) := foldl (bmap_clear S) V L.
Definition nz (l : list Z) : list Z := base.filter (fun a => a <> 0) l.

Section freed.
Context {s ds : Z} {S : superblock} {V : gmap Z (list Z)}.

Lemma freed_snoc L b : freed S V (L ++ [b]) = bmap_clear S (freed S V L) b.
Proof. unfold freed. by rewrite foldl_app. Qed.

Lemma freed_ne L c : (forall b, b ∈ L -> c <> BBLOCK b S) -> freed S V L !! c = V !! c.
Proof.
  induction L as [|b L IH] using rev_ind; [done|]. intros H. rewrite freed_snoc. unfold bmap_clear.
  rewrite lookup_insert_ne by (symmetry; apply H; set_solver). apply IH. intros a Ha. apply H. set_solver.
Qed.

Context (Hfs : fs_ok s ds S V) (Hwf : disk_wf V).

Lemma freed_facts L : Forall (data_block ds S V) L ->
  disk_wf (freed S V L) /\ (forall c, is_Some (V !! c) -> is_Some (freed S V L !! c)) /\
  forall c, 0 <= c < sb_size S -> used S (freed S V L) c = used S V c && bool_decide (c ∉ L).
Proof.
  induction L as [|b L IH] using rev_ind.
  - intros _. split_and!; [done|done|]. intros c _. rewrite bool_decide_true by set_solver. by rewrite andb_true_r.
  - intros [HL [[Hb _] _]%Forall_cons]%Forall_app. destruct (IH HL) as (H1 & H2 & H3). rewrite freed_snoc.
    pose proof (data_range Hfs _ Hb) as Hb'. destruct (H2 _ (bitmap_there s ds S V b Hfs Hb')) as [d Hd]. split_and!.
    + intros c e. unfold bmap_clear. rewrite lookup_insert. case_decide as E; [|apply H1]. intros [= <-]. subst c.
      rewrite clear_bit_length, Hd. by apply H1.
    + intros c Hc. unfold bmap_clear. rewrite lookup_insert. case_decide; [by eexists|by apply H2].
    + intros c Hc. rewrite (used_clear (fs_layout Hfs) H1) by (done || by eexists). rewrite H3 by done.
      destruct (Z.eqb_spec b c) as [->|Hne]; cbn [negb andb]; [rewrite bool_decide_false by set_solver; by rewrite andb_false_r|].
      destruct (used S V c); [|done]. cbn [andb]. apply bool_decide_ext. set_solver.
Qed.

Lemma freed_fs_ok L : Forall (data_block ds S V) L -> fs_ok s ds S (freed S V L).
Proof.
  intros HL. destruct (freed_facts L HL) as (H1 & H2 & H3). split; [apply Hfs|intros b Hb; by apply H2, Hfs|].
  intros b Hb. pose proof (ly_data (fs_layout Hfs)). rewrite H3, (fs_meta Hfs) by lia. cbn [andb]. apply bool_decide_eq_true_2.
  intros Hin. rewrite Forall_forall in HL. destruct (HL b Hin) as [? _]. lia.
Qed.

Lemma freed_data L c : Forall (data_block ds S V) L -> ds <= c -> freed S V L !! c = V !! c.
Proof.
  intros HL Hc. apply freed_ne. intros b Hb. rewrite Forall_forall in HL. destruct (HL b Hb) as [Hr _].
  pose proof (ly_bmap (fs_layout Hfs) b (data_range Hfs _ Hr)). lia.
Qed.
End freed.

(** ** The blocks of a file, in order *)

Definition upto (V : gmap Z (list Z)) (x : inode) (i : nat) : list Z := nz (fblk V x <$> seqZ 0 (Z.of_nat i)).
Definition fblocks (V : gmap Z (list Z)) (x : inode) : list Z := upto V x (Z.to_nat MAXFILE) ++ nz [addr_of x NDIRECT].

Section blocks.
Context {ds : Z} {S : superblock} {V : gmap Z (list Z)} {x : inode} (Hx : file_ok ds S V x).

Lemma elem_of_upto i c : c ∈ upto V x i <-> c <> 0 /\ exists bn, 0 <= bn < Z.of_nat i /\ c = fblk V x bn.
Proof.
  unfold upto, nz. rewrite list_elem_of_filter, list_elem_of_fmap. setoid_rewrite elem_of_seqZ. split; [intros (H & bn & -> & Hb)|intros (H & bn & Hb & ->)].
  - split; [done|]. exists bn. split; [lia|done].
  - split; [done|]. exists bn. split; [done|lia].
Qed.

Lemma upto_S i : upto V x (Datatypes.S i) = upto V x i ++ nz [fblk V x (Z.of_nat i)].
Proof.
  unfold upto, nz. replace (Z.of_nat (Datatypes.S i)) with (Z.of_nat i + 1) by lia. rewrite seqZ_app by lia.
  rewrite fmap_app, filter_app. done.
Qed.

Lemma upto_data i : (i <= Z.to_nat MAXFILE)%nat -> Forall (data_block ds S V) (upto V x i).
Proof. intros Hi. apply Forall_forall. intros c (Hc & bn & Hb & ->)%elem_of_upto. apply (fo_blk Hx bn); [lia|done]. Qed.

Lemma upto_new i : (i < Z.to_nat MAXFILE)%nat -> fblk V x (Z.of_nat i) <> 0 -> fblk V x (Z.of_nat i) ∉ upto V x i.
Proof. intros Hi Hz (_ & bn & Hb & E)%elem_of_upto. pose proof (fo_inj Hx (Z.of_nat i) bn ltac:(lia) ltac:(lia) Hz E). lia. Qed.

Lemma ind_new i : (i <= Z.to_nat MAXFILE)%nat -> addr_of x NDIRECT ∉ upto V x i.
Proof. intros Hi (Hz & bn & Hb & E)%elem_of_upto. rewrite E in Hz. by destruct (fo_blk Hx bn ltac:(lia) Hz) as [_ ?]. Qed.

Lemma upto_noind : addr_of x NDIRECT = 0 -> upto V x (Z.to_nat MAXFILE) = upto V x (Z.to_nat NDIRECT).
Proof.
  intros Hz. change MAXFILE with 268. change NDIRECT with 12. unfold upto, nz. change (Z.of_nat (Z.to_nat 268)) with (12 + 256). rewrite seqZ_app by lia.
  rewrite fmap_app, filter_app. assert (base.filter (fun a => a <> 0) (fblk V x <$> seqZ (0 + 12) 256) = []) as ->; [|by rewrite app_nil_r].
  apply elem_of_nil_inv. intros c [Hc (bn & -> & Hb%elem_of_seqZ)%list_elem_of_fmap]%list_elem_of_filter. apply Hc. unfold fblk.
  rewrite (proj2 (Z.ltb_ge bn NDIRECT)) by (change NDIRECT with 12; lia). by rewrite Hz, Z.eqb_refl.
Qed.
End blocks.

(** ** [itrunc] *)

Definition zeroed (x : inode) (i : nat) : inode := x <| i_addrs := replicate i 0 ++ drop i (i_addrs x) |>.

Lemma zeroed_addr x i j : (i <= j)%nat -> addr_of (zeroed x i) (Z.of_nat j) = addr_of x (Z.of_nat j).
Proof.
  intros Hij. unfold addr_of, zeroed. cbn [i_addrs]. rewrite !Nat2Z.id. change (i_addrs (x <| i_addrs := ?l |>)) with l.
  rewrite lookup_app_r by (rewrite length_replicate; lia). rewrite length_replicate, lookup_drop. do 2 f_equal. lia.
Qed.

Lemma zeroed_S x i : (i < length (i_addrs x))%nat ->
  with_addr (zeroed x i) (Z.of_nat i) 0 = zeroed x (S i) /\ (addr_of x (Z.of_nat i) = 0 -> zeroed x i = zeroed x (S i)).
Proof.
  intros Hi. apply lookup_lt_is_Some in Hi as [a Ha]. unfold zeroed, with_addr, addr_of. rewrite Nat2Z.id, Ha. cbn [default].
  assert (replicate (S i) 0 ++ drop (S i) (i_addrs x) = replicate i 0 ++ 0 :: drop (S i) (i_addrs x)) as E.
  { rewrite replicate_S_end, <- app_assoc. done. }
  rewrite E, (drop_S _ a i) by done. split.
  - destruct x. unfold upd. cbn in *. f_equal. rewrite insert_app_r_alt by (rewrite length_replicate; lia). rewrite length_replicate, Nat.sub_diag. done.
  - unfold id. by intros ->.
Qed.

Section trunc.
Context (env : kst kern -> option (kst kern)) {BD : BlockDev env} (n p : nat) (Hn : (Z.to_nat BPB < n)%nat).
Context {s o ds : Z} {bl : list Z} {V D : gmap Z (list Z)} {S : superblock} {ip : nat} {x : inode}.
Context (Ho : 1 <= o) (Hfs : fs_ok s ds S V) (Hwf : disk_wf V) (Hx : file_ok ds S V x) (Hone : sb_size S <= BPB) (Hbud : (length bl + 4 < nbuf)%nat).

Lemma one_bitmap b : 0 <= b < sb_size S -> BBLOCK b S = BBLOCK 0 S.
Proof. intros Hb. unfold BBLOCK. by rewrite !Z.div_small by (unfold BPB, BSIZE in *; lia). Qed.

(** The blocks [L] have been freed: the bitmap is the only block in the log
    on top of [bl]. *)
Definition freeing (H : gset nat) (t : T) (L : list Z) (x' : inode) (k : kern) : Prop :=
  exists bl', (bl' = bl \/ bl' = absorb (BBLOCK 0 S) bl) /\ fstate p s o H bl' (freed S V L) D t S ip x' k.

Lemma free_one H t L x' k b :
  rest p t -> (size H <= 1)%nat -> Forall (data_block ds S V) L -> data_block ds S V b -> b ∉ L -> held_data ds S (freed S V L) H k ->
  freeing H t L x' k ->
  runs env (bfree ROOTDEV b n (MkK t k)) (fun _ s' => exists k', s' = MkK t k' /\ freeing H t (L ++ [b]) x' k' /\ same_fs k k' /\ keeps H k k').
Proof.
  intros Hr HH HL [Hb Hu] Hnew Hheld (bl' & Hbl' & HT). pose proof (data_range Hfs _ Hb) as Hb'.
  assert (length bl' <= length bl + 1)%nat as Hlen by (pose proof (absorb_length (BBLOCK 0 S) bl); destruct Hbl' as [->| ->]; lia).
  destruct (freed_facts Hfs Hwf L HL) as (_ & _ & Hus).
  eapply runs_mono; [|eapply (bfree_runs env n p Hn Hr Ho (freed_fs_ok Hfs Hwf L HL) (ft_txn HT) (ft_sb HT) Hheld ltac:(lia) b Hb')].
  - intros [] ? (k' & -> & HT' & F & K). exists k'. split_and!; [done| |done|done]. exists (absorb (BBLOCK b S) bl'). rewrite (one_bitmap b Hb') in *. split.
    + right. destruct Hbl' as [->| ->]; [done|]. unfold absorb at 1. by rewrite decide_True by apply absorb_in.
    + rewrite freed_snoc. eapply fstate_fs; [exact HT|exact HT'|exact F].
  - rewrite Hus, Hu by done. cbn [andb]. by apply bool_decide_eq_true_2.
Qed.

Lemma trunc_direct t k :
  rest p t -> fstate p s o ∅ bl V D t S ip x k ->
  runs env (meach (Z.to_nat NDIRECT) 0 (itrunc_direct ip) n (MkK t k)) (fun _ s' => exists k', s' = MkK t k' /\
    freeing ∅ t (upto V x (Z.to_nat NDIRECT)) (zeroed x (Z.to_nat NDIRECT)) k' /\ moved ip k k').
Proof.
  intros Hr HT. eapply runs_mono; [|eapply (runs_meach env (itrunc_direct ip) n (fun i s' => exists k', s' = MkK t k' /\ freeing ∅ t (upto V x i) (zeroed x i) k' /\ moved ip k k')
    (Z.to_nat NDIRECT)) with (i := 0%nat); [|lia|]].
  - intros [] s' H. exact H.
  - intros i s' Hi (k1 & -> & HF & Mv). destruct HF as (bl' & Hbl' & HT1). change (Z.to_nat NDIRECT) with 12%nat in Hi.
    assert (i < length (i_addrs x))%nat as Hi' by (rewrite (fo_len Hx); lia). destruct (zeroed_S x i Hi') as [Z1 Z2].
    unfold itrunc_direct. rewrite (geti_bind _ _ _ _ _ _ (ft_ip HT1)), zeroed_addr by done.
    assert (fblk V x (Z.of_nat i) = addr_of x (Z.of_nat i)) as Ef by (unfold fblk; rewrite (proj2 (Z.ltb_lt _ _)); [done|change NDIRECT with 12; lia]).
    rewrite upto_S, Ef. destruct (Z.eqb_spec (addr_of x (Z.of_nat i)) 0) as [Ez|Ez]; cbn [negb mwhen].
    + eapply runs_ret; [reflexivity|]. exists k1. rewrite <- Z2 by done. rewrite Ez, app_nil_r. split_and!; [done|by exists bl'|done].
    + change (i_dev (zeroed x i)) with (i_dev x). rewrite (fo_dev Hx). apply runs_bind.
      assert (0 <= Z.of_nat i < MAXFILE) as Hbn by (change MAXFILE with 268; lia).
      assert (data_block ds S V (addr_of x (Z.of_nat i))) as Hdb by (rewrite <- Ef; apply (fo_blk Hx); by rewrite ?Ef).
      eapply runs_mono; [|eapply (free_one ∅ t (upto V x i) (zeroed x i) k1 _ Hr ltac:(rewrite size_empty; lia) (upto_data Hx i ltac:(change MAXFILE with 268; lia)) Hdb);
        [rewrite <- Ef; apply (upto_new Hx); [change MAXFILE with 268; lia|by rewrite Ef]|apply held_none|by exists bl']].
      intros [] ? (k2 & -> & (bl2 & Hbl2 & HT2) & F2 & _).
      destruct (set_addr_state p s o ∅ bl2 _ D t S ip _ k2 (Z.of_nat i) 0 n HT2) as (k3 & E & HT3 & Mv3 & _). rewrite Z1 in HT3.
      eapply runs_ret; [exact E|]. exists k3. unfold nz. rewrite filter_cons_True by done. split_and!; [done|by exists bl2|].
      etransitivity; [exact Mv|]. etransitivity; [apply same_fs_moved, F2|done].
  - exists k. split_and!; [done| |done]. exists bl. split; [by left|]. assert (zeroed x 0 = x) as -> by (by destruct x). exact HT.
Qed.

(** The indirect blocks, with the indirect block's buffer held. *)
Lemma trunc_indirect t k bp l x' :
  rest p t -> x' = zeroed x (Z.to_nat NDIRECT) -> addr_of x NDIRECT <> 0 -> V !! addr_of x NDIRECT = Some l ->
  freeing {[bp]} t (upto V x (Z.to_nat NDIRECT)) x' k -> reads bp (addr_of x NDIRECT) l k ->
  runs env (meach (Z.to_nat NINDIRECT) 0 (itrunc_indirect ip bp) n (MkK t k)) (fun _ s' => exists k', s' = MkK t k' /\
    freeing {[bp]} t (upto V x (Z.to_nat MAXFILE)) x' k' /\ reads bp (addr_of x NDIRECT) l k' /\ same_fs k k').
Proof.
  intros Hr Hx' Hz Hl HF HR. change (Z.to_nat NINDIRECT) with 256%nat. change (Z.to_nat NDIRECT) with 12%nat in *.
  eapply runs_mono; [|eapply (runs_meach env (itrunc_indirect ip bp) n (fun i s' => exists k', s' = MkK t k' /\ freeing {[bp]} t (upto V x (12 + i)) x' k' /\
    reads bp (addr_of x NDIRECT) l k' /\ same_fs k k') 256%nat) with (i := 0%nat); [|lia|by exists k]].
  - intros [] s' H. exact H.
  - intros i s' Hi (k1 & -> & (bl' & Hbl' & HT1) & R1 & F1).
    unfold itrunc_indirect. rewrite (geti_bind _ _ _ _ _ _ (ft_ip HT1)). pose proof R1 as (y & Hy & _ & Hdy). rewrite (getb_bind _ _ _ _ _ _ Hy), Hdy.
    assert (rd_u32 l (4 * Z.of_nat i) = fblk V x (Z.of_nat (12 + i))) as Ef.
    { unfold fblk. rewrite (proj2 (Z.ltb_ge _ _)) by (change NDIRECT with 12; lia). rewrite (proj2 (Z.eqb_neq _ 0) Hz), Hl. cbn [default]. unfold id.
      f_equal. change NDIRECT with 12. lia. }
    rewrite Ef. replace (12 + Datatypes.S i)%nat with (Datatypes.S (12 + i)) by lia. rewrite upto_S.
    assert (12 + i < Z.to_nat MAXFILE)%nat as Hlt by (change (Z.to_nat MAXFILE) with 268%nat; lia).
    destruct (Z.eqb_spec (fblk V x (Z.of_nat (12 + i))) 0) as [Ez|Ez]; cbn [negb mwhen].
    + eapply runs_ret; [reflexivity|]. exists k1. rewrite Ez, app_nil_r. split_and!; [done|by exists bl'|done|done].
    + rewrite Hx'. change (i_dev (zeroed x 12)) with (i_dev x). rewrite (fo_dev Hx). rewrite <- Hx'.
      destruct (freed_facts Hfs Hwf _ (upto_data Hx (12 + i) ltac:(lia))) as (_ & _ & Hus). destruct (fo_ind Hx Hz) as [Hir Hiu].
      eapply runs_mono; [|eapply (free_one {[bp]} t (upto V x (12 + i)) x' k1 _ Hr ltac:(rewrite size_singleton; lia) (upto_data Hx (12 + i) ltac:(lia)) (proj1 (fo_blk Hx (Z.of_nat (12 + i)) ltac:(lia) Ez)));
        [by apply (upto_new Hx)| |by exists bl']].
      * intros [] ? (k2 & -> & HF2 & F2 & K2). exists k2. unfold nz. rewrite filter_cons_True by done.
        split_and!; [done|done|apply K2; [by apply elem_of_singleton|done]|by etransitivity].
      * intros c ->%elem_of_singleton. exists (addr_of x NDIRECT), l. split_and!; [done|lia|lia|]. rewrite Hus, Hiu by (by apply (data_range Hfs)).
        cbn [andb]. apply bool_decide_eq_true_2, (ind_new Hx). lia.
Qed.

Definition emptied (x : inode) : inode := x <| i_addrs := replicate 13 0 |> <| i_size := 0 |>.

Lemma zeroed_all : zeroed x 13 = x <| i_addrs := replicate 13 0 |>.
Proof. unfold zeroed. rewrite drop_ge by (rewrite (fo_len Hx); lia). by rewrite app_nil_r. Qed.

Lemma ind_data l : addr_of x NDIRECT <> 0 -> V !! addr_of x NDIRECT = Some l -> freed S V (upto V x (Z.to_nat NDIRECT)) !! addr_of x NDIRECT = Some l.
Proof.
  intros Hz Hl. destruct (fo_ind Hx Hz) as [Hir _]. rewrite (freed_data Hfs); [done|apply (upto_data Hx), Nat.leb_le; reflexivity|lia].
Qed.

Lemma in_log_blocks bl1 bl2 c : bl1 = bl \/ bl1 = absorb (BBLOCK 0 S) bl -> bl2 = bl \/ bl2 = absorb (BBLOCK 0 S) bl ->
  c <> BBLOCK 0 S -> c ∈ bl1 -> c ∈ bl2.
Proof.
  intros H1 H2 Hc Hin. assert (c ∈ bl) as Hb. { destruct H1 as [->| ->]; [done|]. unfold absorb in Hin. destruct (decide _); [done|]. set_solver. }
  destruct H2 as [->| ->]; [done|by apply absorb_mono].
Qed.

Lemma trunc_second t k x1 :
  rest p t -> x1 = zeroed x (Z.to_nat NDIRECT) -> addr_of x NDIRECT <> 0 -> freeing ∅ t (upto V x (Z.to_nat NDIRECT)) x1 k ->
  runs env ((bp ← bread (i_dev x1) (addr_of x1 NDIRECT);
    meach (Z.to_nat NINDIRECT) 0 (itrunc_indirect ip bp) ;;
    brelse bp ;;
    bfree (i_dev x1) (addr_of x1 NDIRECT) ;;
    set_addr ip NDIRECT 0) n (MkK t k)) (fun _ s' => exists k', s' = MkK t k' /\ freeing ∅ t (fblocks V x) (zeroed x 13) k' /\ moved ip k k').
Proof.
  intros Hr Hx1 Hz (bl1 & Hbl1 & HT1). destruct (fo_ind Hx Hz) as [Hir Hiu]. destruct (fs_dom Hfs _ (data_range Hfs _ Hir)) as [l Hl].
  assert (length bl1 <= length bl + 1)%nat as Hlen by (pose proof (absorb_length (BBLOCK 0 S) bl); destruct Hbl1 as [->| ->]; lia).
  assert (i_dev x1 = ROOTDEV) as -> by (rewrite Hx1; apply (fo_dev Hx)).
  assert (addr_of x1 NDIRECT = addr_of x NDIRECT) as -> by (rewrite Hx1; apply (zeroed_addr x 12 12); lia). apply runs_bind.
  eapply runs_mono; [|eapply (tx_bread env n p (fuel_bufs n Hn) Hr (ft_txn HT1) _ l (not_held_nil _ _) ltac:(right; rewrite size_empty; lia) (ind_data l Hz Hl))].
  intros bp ? (k2 & -> & Hbp & Hfr & HT2 & R2 & K2 & F2 & Hcl). rewrite union_empty_r_L in HT2.
  assert (rest p (hold (SLBuf bp) p t)) as Hr2 by (by apply rest_slks). apply runs_bind.
  eapply runs_mono; [|eapply (trunc_indirect _ k2 bp l x1 Hr2 Hx1 Hz Hl); [|done]]; [|exists bl1; split; [done|by eapply fstate_fs]].
  intros [] ? (k3 & -> & (bl3 & Hbl3 & HT3) & R3 & F3). apply runs_bind.
  assert (addr_of x NDIRECT <> BBLOCK 0 S) as Hnb. { pose proof (ly_bmap (fs_layout Hfs) 0 ltac:(pose proof (data_range Hfs _ Hir); lia)). lia. }
  assert (addr_of x NDIRECT ∈ bl3 \/ D !! addr_of x NDIRECT = Some l) as Hcl3 by (destruct Hcl; [left; by apply (in_log_blocks bl1 bl3)|by right]).
  eapply runs_mono; [|eapply (tx_brelse env n p Hr2 (ft_txn HT3) bp _ l ltac:(by apply elem_of_singleton) R3 Hcl3)].
  intros [] ? (k4 & -> & HT4 & _ & F4). rewrite hold_drop in * by done. rewrite difference_diag_L in HT4. apply runs_bind.
  eapply runs_mono; [|eapply (free_one ∅ t (upto V x (Z.to_nat MAXFILE)) x1 k4 (addr_of x NDIRECT) Hr ltac:(rewrite size_empty; lia) (upto_data Hx (Z.to_nat MAXFILE) (Nat.le_refl _)) (fo_ind Hx Hz));
    [by apply (ind_new Hx), Nat.le_refl|apply held_none|exists bl3; split; [done|eapply fstate_fs; [exact HT3|exact HT4|exact F4]]]].
  intros [] ? (k5 & -> & (bl5 & Hbl5 & HT5) & F5 & _).
  destruct (set_addr_state p s o ∅ bl5 _ D t S ip _ k5 NDIRECT 0 n HT5) as (k6 & E & HT6 & Mv6 & _).
  eapply runs_ret; [exact E|]. exists k6. split_and!; [done| |].
  - exists bl5. split; [done|]. unfold fblocks, nz. rewrite filter_cons_True by done. rewrite Hx1 in HT6.
    assert (with_addr (zeroed x (Z.to_nat NDIRECT)) NDIRECT 0 = zeroed x 13) as <- by (apply (zeroed_S x 12); rewrite (fo_len Hx); lia). exact HT6.
  - assert (same_fs k k5) as F by (do 4 (etransitivity; [eassumption|]); done). etransitivity; [apply same_fs_moved, F|done].
Qed.

Lemma one_fuel : (Z.to_nat (sb_size S / BPB) < n)%nat.
Proof.
  assert (0 <= sb_size S) by (pose proof (ly_data (fs_layout Hfs)); pose proof (ly_log (fs_layout Hfs)); szs). unfold BPB, BSIZE in *. lia.
Qed.

Lemma itrunc_runs t k :
  rest p t -> inode_wf S x -> fstate p s o ∅ bl V D t S ip x k ->
  runs env (itrunc ip n (MkK t k)) (fun _ s' => exists k' bl', s' = MkK t k' /\ (length bl' <= length bl + 2)%nat /\ moved ip k k' /\
    fstate p s o ∅ bl' (put_inode S (freed S V (fblocks V x)) (i_inum x) (inode_disk (emptied x))) D t S ip (emptied x) k').
Proof.
  intros Hr Hwx HT. unfold itrunc. apply runs_bind. eapply runs_mono; [|by apply trunc_direct].
  intros [] ? (k1 & -> & HF1 & Mv1). pose proof HF1 as (bl1 & Hbl1 & HT1). rewrite (geti_bind _ _ _ _ _ _ (ft_ip HT1)).
  assert (addr_of (zeroed x (Z.to_nat NDIRECT)) NDIRECT = addr_of x NDIRECT) as Ea by (apply (zeroed_addr x 12 12); lia). apply runs_bind.
  apply (runs_mono _ _ (fun _ s' => exists k', s' = MkK t k' /\ freeing ∅ t (fblocks V x) (zeroed x 13) k' /\ moved ip k k')).
  - intros [] ? (k2 & -> & (bl2 & Hbl2 & HT2) & Mv2). rewrite modi_bind.
    assert (length bl2 <= length bl + 1)%nat as Hlen by (pose proof (absorb_length (BBLOCK 0 S) bl); destruct Hbl2 as [->| ->]; lia).
    assert (Forall (data_block ds S V) (fblocks V x)) as HL.
    { apply Forall_app. split; [by apply (upto_data Hx), Nat.le_refl|]. apply Forall_forall. intros c [Hc ->%list_elem_of_singleton]%list_elem_of_filter. by apply (fo_ind Hx). }
    rewrite zeroed_all in HT2. set (k3 := k2 <| itable ::= alter (fun x => x <| i_size := 0 |>) ip |>).
    assert (fstate p s o ∅ bl2 (freed S V (fblocks V x)) D t S ip (emptied x) k3) as HT3.
    { destruct HT2 as [A1 A2 A3]. split; [by apply txn_itable|done|]. unfold k3. cbn. by rewrite list_lookup_alter_eq, A3. }
    assert (dinode_wf (inode_disk (emptied x))) as Hdw by (destruct Hwx; split; try done; cbn; by repeat constructor).
    eapply runs_mono; [|eapply (iupdate_runs env n p Hn Hr Ho one_fuel bl2 _ (emptied x) k3 HT3 (freed_fs_ok Hfs Hwf _ HL) (fo_dev Hx) Hdw (iw_inum _ _ Hwx)); lia].
    intros [] ? (k4 & -> & HT4 & F4). exists k4. eexists. split_and!; [done| | |exact HT4].
    + pose proof (absorb_length (IBLOCK (i_inum x) S) bl2). cbn. lia.
    + etransitivity; [exact Mv2|]. etransitivity; [|apply same_fs_moved, F4]. split; [by split|]. intros j Hj. by apply list_lookup_alter_ne.
  - rewrite Ea. destruct (Z.eqb_spec (addr_of x NDIRECT) 0) as [Ez|Ez]; cbn [negb mwhen].
    + eapply runs_ret; [reflexivity|]. exists k1. split_and!; [done| |done]. unfold fblocks. rewrite Ez, app_nil_r, (upto_noind Ez).
      rewrite <- (proj2 (zeroed_S x 12 ltac:(rewrite (fo_len Hx); lia)) Ez). done.
    + rewrite <- Ea. eapply runs_mono; [|by eapply trunc_second]. intros [] s' (k' & -> & H1 & H2). exists k'. split_and!; [done|done|by etransitivity].
Qed.
End trunc.

(** ** [iput] *)

Definition ref_down (x : inode) : inode := x <| i_ref := i_ref x - 1 |>.

Lemma hold_acq ip p t : hold (SLInode ip) p (t_acq LkItable t) = t_acq LkItable (hold (SLInode ip) p t).
Proof. by destruct t. Qed.

Section iput.
Context (n p : nat) {t : T} {k : kern} {ip : nat} {x : inode}.
Context (Hr : rest p t) (Hx : itable k !! ip = Some x).

Lemma iput_plain : (i_ref x =? 1) && negb (i_valid x =? 0) && (i_nlink x =? 0) = false ->
  iput ip n (MkK t k) = Ret tt (MkK t (k <| itable ::= alter ref_down ip |>)).
Proof.
  intros E. pose proof Hr as [Hc Hl _ _]. unfold iput. rewrite acquire_bind by (by rewrite Hl). rewrite (geti_bind _ _ _ _ _ _ Hx), E. cbn [mwhen].
  rewrite (bind_ret (mret tt) _ _ _ _ _ eq_refl), modi_bind. apply release_spec; [apply Hc|by rewrite Hl].
Qed.
End iput.

Lemma txn_unhold p s o H bl V D t k ip : txn p s o H bl V D (hold (SLInode ip) p t) k -> txn p s o H bl V D t k.
Proof.
  intros HT. destruct (tx_cache HT) as [order HB]. apply (txn_same p HT); [|apply HT|done|done]. exists order. destruct HB. split; try done.
  intros i. specialize (bc_slk i). unfold hold in bc_slk. destruct t. cbn in *. by rewrite lookup_insert_ne in bc_slk.
Qed.

Section last.
Context (env : kst kern -> option (kst kern)) {BD : BlockDev env} (n p : nat) (Hn : (Z.to_nat BPB < n)%nat).
Context {s o ds : Z} {bl : list Z} {V D : gmap Z (list Z)} {S : superblock} {ip : nat} {x : inode} {t : T} {k : kern}.
Context (Ho : 1 <= o) (Hfs : fs_ok s ds S V) (Hx : file_ok ds S V x) (Hwx : inode_wf S x) (Hone : sb_size S <= BPB) (Hbud : (length bl + 4 < nbuf)%nat).
Context (Hr : rest p t) (HT : fstate p s o ∅ bl V D t S ip x k) (Hlk : slks t !! SLInode ip = None).

Definition dead (x : inode) : inode := (emptied x) <| i_type := 0 |>.

Lemma fblocks_data : Forall (data_block ds S V) (fblocks V x).
Proof.
  clear n Hn Hbud. apply Forall_app. split; [by apply (upto_data Hx), Nat.le_refl|]. apply Forall_forall. intros c [Hc ->%list_elem_of_singleton]%list_elem_of_filter.
  by apply (fo_ind Hx).
Qed.

(** The entry after the last [iput], up to its reference count; the disk. *)
Definition gone (x : inode) : inode := (dead x) <| i_valid := 0 |>.
Definition gone_disk : gmap Z (list Z) :=
  put_inode S (put_inode S (freed S V (fblocks V x)) (i_inum x) (inode_disk (emptied x))) (i_inum x) (inode_disk (dead x)).

Lemma iput_last_runs (f : () -> KK ()) Q : let t1 := hold (SLInode ip) p t in
  (forall k' bl', txn p s o ∅ bl' gone_disk D t1 k' -> itable k' !! ip = Some (gone x) -> moved ip k k' -> runs env (f tt n (MkK t1 k')) Q) ->
  runs env ((itrunc ip ;; modi ip (fun x => x <| i_type := 0 |>) ;; iupdate ip ;; (modi ip (fun x => x <| i_valid := 0 |>) ≫= f)) n (MkK t1 k)) Q.
Proof.
  intros t1 Hf. pose proof (cached_wf p _ _ _ _ _ (tx_cache (ft_txn HT))) as Hwf. assert (rest p t1) as Hr1 by (by apply rest_slks).
  assert (fstate p s o ∅ bl V D t1 S ip x k) as HT1 by (destruct HT; split; [by apply txn_hold|done|done]).
  apply runs_bind.
  eapply runs_mono; [|eapply (itrunc_runs env n p Hn Ho Hfs Hwf Hx Hone Hbud t1 k Hr1 Hwx HT1)].
  intros [] ? (k2 & bl2 & -> & Hb2 & Mv2 & HT2). rewrite modi_bind. apply runs_bind.
  set (k3 := k2 <| itable ::= alter (fun x => x <| i_type := 0 |>) ip |>).
  assert (fstate p s o ∅ bl2 (put_inode S (freed S V (fblocks V x)) (i_inum x) (inode_disk (emptied x))) D t1 S ip (dead x) k3) as HT3.
  { destruct HT2 as [A1 A2 A3]. split; [by apply txn_itable|done|]. unfold k3. cbn. by rewrite list_lookup_alter_eq, A3. }
  assert (dinode_wf (inode_disk (dead x))) as Hdw by (destruct Hwx; split; try done; cbn; by repeat constructor).
  eapply runs_mono; [|eapply (iupdate_runs env n p Hn Hr1 Ho (one_fuel n Hn Hfs Hone Hbud) bl2 _ (dead x) k3 HT3
    (put_inode_fs_ok (freed_fs_ok Hfs Hwf _ fblocks_data) (iw_inum _ _ Hwx)) (fo_dev Hx) Hdw (iw_inum _ _ Hwx)); lia].
  intros [] ? (k4 & -> & HT4 & F4). rewrite modi_bind. eapply Hf; [apply txn_itable, HT4| |].
  - cbn. by rewrite list_lookup_alter_eq, (ft_ip HT4).
  - etransitivity; [exact Mv2|]. etransitivity; [|etransitivity; [apply same_fs_moved, F4|]]; (split; [by split|]; intros j Hj; by apply list_lookup_alter_ne).
Qed.

Lemma iput_frees_runs : i_ref x = 1 -> i_valid x <> 0 -> i_nlink x = 0 ->
  runs env (iput ip n (MkK t k)) (fun _ s' => exists k' bl', s' = MkK t k' /\ txn p s o ∅ bl' gone_disk D t k' /\
    itable k' !! ip = Some (ref_down (gone x)) /\ moved ip k k').
Proof.
  intros H1 H2 H3. pose proof Hr as [Hc Hl _ _]. unfold iput. rewrite acquire_bind by (by rewrite Hl).
  rewrite (geti_bind _ _ _ _ _ _ (ft_ip HT)), H1, H3, (proj2 (Z.eqb_neq _ 0) H2), !Z.eqb_refl. cbn [negb andb mwhen]. apply runs_bind.
  set (Q := fun (_ : ()) s' => exists k' bl', s' = MkK (t_acq LkItable t) k' /\ txn p s o ∅ bl' gone_disk D t k' /\ itable k' !! ip = Some (gone x) /\ moved ip k k').
  apply (runs_mono _ _ Q).
  - intros [] ? (k' & bl' & -> & HT' & Hx' & Mv). rewrite modi_bind. eapply runs_ret; [apply release_spec; [apply Hc|by rewrite Hl]|].
    exists (k' <| itable ::= alter ref_down ip |>), bl'. split_and!; [done|by apply txn_itable| |].
    + cbn. by rewrite list_lookup_alter_eq, Hx'.
    + etransitivity; [exact Mv|]. split; [by split|]. intros j Hj. by apply list_lookup_alter_ne.
  - assert (lks (t_acq LkItable t) !! LkSleep (SLInode ip) = None) as Hls.
    { change (lks (t_acq LkItable t)) with (<[LkItable := hart t]> (lks t)). rewrite lookup_insert_ne, Hl; done. }
    rewrite (bind_ret _ _ _ _ _ _ (acquiresleep_spec p (SLInode ip) n (t_acq LkItable t) k (calm_acq p LkItable t ltac:(done) Hc) Hls Hlk ltac:(lia))).
    rewrite hold_acq, release_bind by ((by apply cpu_ok_slks, Hc) || (by destruct t; cbn in *; rewrite Hl)).
    apply iput_last_runs. intros k' bl' HT' Hx' Mv.
    assert (calm p (hold (SLInode ip) p t)) as Hc1 by (by apply calm_slks).
    rewrite (bind_ret _ _ _ _ _ _ (releasesleep_spec p (SLInode ip) n (hold (SLInode ip) p t) k' Hc1 ltac:(by destruct t; cbn in *; rewrite Hl))).
    rewrite hold_drop by done. eapply runs_ret; [apply acquire_spec; by rewrite Hl|]. exists k', bl'. split_and!; [done| |done|done].
    apply (txn_unhold p s o ∅ bl' _ D t k' ip HT').
Qed.
End last.

Lemma put_inode_wf s ds S V i d : fs_ok s ds S V -> disk_wf V -> 0 <= i < sb_ninodes S -> dinode_wf d -> disk_wf (put_inode S V i d).
Proof.
  intros Hfs Hwf Hi Hd b l. unfold put_inode. rewrite lookup_insert. case_decide as E; [|apply Hwf]. intros [= <-]. subst b.
  destruct (inode_block Hfs Hwf Hi) as (l & Hl & _). split; [by eapply Hwf|]. apply (put_inode_len Hfs Hwf Hi Hd).
Qed.

Lemma elem_of_fblocks V x c : c ∈ fblocks V x <-> c <> 0 /\ (c = addr_of x NDIRECT \/ exists bn, 0 <= bn < MAXFILE /\ c = fblk V x bn).
Proof.
  unfold fblocks, nz. rewrite elem_of_app, elem_of_upto, list_elem_of_filter, list_elem_of_singleton. rewrite Z2Nat.id by done.
  clear. firstorder (subst; auto).
Qed.

(** C10: giving up an inode.  [iput] drops one reference and, if it is the
    last one to a valid inode without links, first frees on disk exactly the
    blocks of the file (direct, indirect and the indirect block itself) and
    the inode; other blocks, bits of the bitmap, inodes and table entries are
    as before. *)
Theorem iput_correct env (BD : BlockDev env) n p s o ds bl V D t S ip x k :
  (Z.to_nat BPB < n)%nat -> rest p t -> 1 <= o -> fstate p s o ∅ bl V D t S ip x k -> fs_ok s ds S V -> file_ok ds S V x -> inode_wf S x ->
  sb_size S <= BPB -> (length bl + 4 < nbuf)%nat -> slks t !! SLInode ip = None ->
  (i_ref x <> 1 \/ i_valid x = 0 \/ i_nlink x <> 0 -> iput ip n (MkK t k) = Ret tt (MkK t (k <| itable ::= alter ref_down ip |>))) /\
  (i_ref x = 1 -> i_valid x <> 0 -> i_nlink x = 0 -> runs env (iput ip n (MkK t k)) (fun _ s' => exists k' bl' V' x', s' = MkK t k' /\
     fstate p s o ∅ bl' V' D t S ip x' k' /\ fs_ok s ds S V' /\ i_ref x' = 0 /\ (forall j, j <> ip -> itable k' !! j = itable k !! j) /\
     di_type (disk_inode S V' (i_inum x)) = 0 /\ di_size (disk_inode S V' (i_inum x)) = 0 /\
     (forall c, 0 <= c < sb_size S -> used S V' c = true <-> used S V c = true /\
        ~ (c <> 0 /\ (c = addr_of x NDIRECT \/ exists bn, 0 <= bn < MAXFILE /\ c = fblk V x bn))) /\
     (forall c, ds <= c -> V' !! c = V !! c) /\
     (forall j, 0 <= j < sb_ninodes S -> j <> i_inum x -> disk_inode S V' j = disk_inode S V j))).
Proof.
  intros Hn Hr Ho HT Hfs Hx Hwx Hone Hbud Hlk. split.
  - intros Hno. apply (iput_plain n p Hr (ft_ip HT)). destruct (Z.eqb_spec (i_ref x) 1), (Z.eqb_spec (i_valid x) 0), (Z.eqb_spec (i_nlink x) 0); try done. lia.
  - intros H1 H2 H3. eapply runs_mono; [|eapply (iput_frees_runs env n p Hn Ho Hfs Hx Hwx Hone Hbud Hr HT Hlk H1 H2 H3)].
    intros [] ? (k' & bl' & -> & HT' & Hx' & Mv). pose proof (cached_wf p _ _ _ _ _ (tx_cache (ft_txn HT))) as Hwf. pose proof (iw_inum _ _ Hwx) as Hi.
    pose proof (fblocks_data Hx) as HL. destruct (freed_facts Hfs Hwf _ HL) as (Hwf1 & _ & Hus). pose proof (freed_fs_ok Hfs Hwf _ HL) as Hfs1.
    assert (dinode_wf (inode_disk (dead x)) /\ dinode_wf (inode_disk (emptied x))) as [Hdw Hdw'] by (destruct Hwx; split; split; try done; cbn; by repeat constructor).
    pose proof (put_inode_fs_ok (d := inode_disk (emptied x)) Hfs1 Hi) as Hfs2. pose proof (put_inode_wf _ _ _ _ _ _ Hfs1 Hwf1 Hi Hdw') as Hwf2.
    assert (disk_inode S (gone_disk (V := V) (S := S) (x := x)) (i_inum x) = inode_disk (dead x)) as Hdi by (by apply (put_inode_eq Hfs2 Hwf2)).
    eexists k', bl', _, _. split_and!; [done|split; [exact HT'| |exact Hx']|by apply (put_inode_fs_ok Hfs2)|cbn; lia|apply Mv|by rewrite Hdi|by rewrite Hdi| | |].
    + rewrite (sf_sb _ _ (mv_os _ _ _ Mv)). apply HT.
    + intros c Hc. unfold gone_disk. rewrite (put_inode_used Hfs2), (put_inode_used Hfs1), Hus by done.
      rewrite andb_true_iff, bool_decide_eq_true, elem_of_fblocks. done.
    + intros c Hc. unfold gone_disk. rewrite (put_inode_data Hfs2), (put_inode_data Hfs1) by done. by apply (freed_data Hfs).
    + intros j Hj Hne. unfold gone_disk. rewrite (put_inode_ne Hfs2 Hwf2 Hi Hdw j Hj Hne), (put_inode_ne Hfs1 Hwf1 Hi Hdw' j Hj Hne).
      apply (disk_inode_meta s ds); [done|done|]. intros c _ Hc. apply freed_ne. intros b Hb. apply Hc. rewrite Forall_forall in HL. destruct (HL b Hb) as [Hb' _].
      by apply (data_range Hfs).
Qed.

Lemma iput_correct_witness : exists s', solo (disk_env demo_device 2) (iput 1 fs_fuel
    (MkK Kalloc.demo_T (fs_kern <| itable ::= alter (fun x => x <| i_nlink := 0 |>) 1%nat |>))) = Some (tt, s') /\
  exists x', itable (own s') !! 1%nat = Some x' /\ i_ref x' = 0.
Proof.
  assert (alter (fun x => x <| i_nlink := 0 |>) 1%nat (itable fs_kern) !! 1%nat = Some (fs_inode2 <| i_nlink := 0 |>)) as Hx by (by rewrite list_lookup_alter_eq).
  assert (length (@nil Z) + 4 < nbuf)%nat as Hb by (rewrite nbuf_eq; cbn; lia).
  assert (sb_size fs_sb <= BPB) as Hone by (by vm_compute).
  destruct fs_fuel_ok as [F1 _]. destruct fs_file2 as (G1 & G2 & _).
  destruct (iput_correct _ fs_dev fs_fuel 0 2 1 34 [] fs_disk fs_disk Kalloc.demo_T fs_sb 1 (fs_inode2 <| i_nlink := 0 |>)
    (fs_kern <| itable ::= alter (fun x => x <| i_nlink := 0 |>) 1%nat |>) F1 demo_rest (Z.le_refl 1)) as [_ HR].
  - split; [apply txn_itable, fs_txn|done|exact Hx].
  - exact fs_demo_ok.
  - destruct G1. by split.
  - destruct G2. by split.
  - exact Hone.
  - exact Hb.
  - done.
  - specialize (HR eq_refl ltac:(done) eq_refl).
    destruct (proj1 (runs_some _ _ _) HR) as ([] & s' & E & k' & bl' & V' & x' & -> & HT & _ & Href & _). eexists. split; [exact E|].
    exists x'. split; [apply HT|exact Href].
Defined.
