(* ===== verification/Dirs.v ===== *)
(** * Directories and paths: [dirlookup], [skipelem]

    A directory is a file of 16-byte entries; its abstract contents are
    [dirent V x i].  [dirlookup] finds the first entry in use with the name,
    and [skipelem] splits off the first element of a path. *)

From Stdlib Require Import ZArith Lia.
From S2P Require Import Prelude Riscv KString Thread Proc Sleeplock Kern Blocks Virtio VirtioSpec.
From S2P Require Import Bio BioSpec BioOps Log LogSpec Crash Txn ProcMem Fs Balloc Files ReadWrite FileTheorems Inodes.

(** Entry [i] of the directory. *)
Definition dirent (V : gmap Z (list Z)) (x : inode) (i : nat) : list Z := fread V x (DIRENT_SIZE * Z.of_nat i) (Z.to_nat DIRENT_SIZE).
Definition named (V : gmap Z (list Z)) (x : inode) (name : list Z) (i : nat) : bool :=
  negb (de_inum (dirent V x i) =? 0) && (namecmp name (de_name (dirent V x i)) =? 0).

(** A directory of [N] entries. *)
Record dir_ok (V : gmap Z (list Z)) (x : inode) (N : nat) : Prop := {
  dk_type : i_type x = T_DIR;
  dk_size : i_size x = DIRENT_SIZE * Z.of_nat N;
  dk_dense : dense V x
}.

(** The entry [iget] returns and the table it leaves. *)
Definition iget_to (dev inum : Z) (l : list inode) : option (nat * list inode) :=
  match iget_scan dev inum l 0 None with
  | inl j => Some (j, alter ref_up j l)
  | inr (Some j) => Some (j, alter (fresh dev inum) j l)
  | inr None => None
  end.

Lemma iget_to_eval n t k dev inum j l : (Z.to_nat NINODE < n)%nat -> cpu_ok t -> lks t !! LkItable = None -> length (itable k) = Z.to_nat NINODE ->
  iget_to dev inum (itable k) = Some (j, l) -> exists f, l = f (itable k) /\ iget dev inum n (MkK t k) = Ret j (MkK t (k <| itable ::= f |>)).
Proof.
  intros Hn Hok Hl Hlen E. rewrite (iget_eval n t k dev inum Hn Hok Hl Hlen). unfold iget_to in E.
  destruct (iget_scan _ _ _ _ _) as [j'|[j'|]]; simplify_eq; by eexists.
Qed.

Section dir.
Context (env : kst kern -> option (kst kern)) {BD : BlockDev env}.
Context (n p : nat) (Hn : (Z.to_nat BPB < n)%nat).
Context {s o ds : Z} {D : gmap Z (list Z)} {t : T} {S : superblock} {dp : nat} {bl : list Z} {V : gmap Z (list Z)} {x : inode} {N : nat}.
Context (Hr : rest p t) (HnS : (Z.to_nat (sb_size S / BPB) < n)%nat).
Context (Hfs : fs_ok s ds S V) (Hx : file_ok ds S V x) (Hwx : inode_wf S x) (Hbl : (length bl < nbuf)%nat) (Hdir : dir_ok V x N).

Lemma dir_read k i : (i < N)%nat -> fstate p s o ∅ bl V D t S dp x k ->
  runs env (readi dp DLocal (DIRENT_SIZE * Z.of_nat i) DIRENT_SIZE n (MkK t k)) (fun r s' => r = (DIRENT_SIZE, dirent V x i) /\
    exists k', s' = MkK t k' /\ fstate p s o ∅ bl V D t S dp x k' /\ same_fs k k').
Proof.
  intros Hi HT. pose proof (dk_size _ _ _ Hdir) as Hsz. unfold DIRENT_SIZE in *.
  eapply runs_mono; [|eapply (readi_runs env n p Hn Hr HnS Hfs Hx Hwx (dk_dense _ _ _ Hdir) Hbl k (16 * Z.of_nat i) 16 HT); lia].
  intros r s' [-> HQ]. replace (Z.min 16 _) with 16 by lia. done.
Qed.

Lemma dir_off i : (i < N)%nat -> 0 <= DIRENT_SIZE * Z.of_nat i < i_size x /\ u32 (DIRENT_SIZE * Z.of_nat i + DIRENT_SIZE) = DIRENT_SIZE * Z.of_nat (Datatypes.S i).
Proof.
  clear -Hwx Hdir. intros Hi. pose proof (dk_size _ _ _ Hdir) as Hsz. pose proof (iw_size _ _ Hwx) as Hmax. assert (MAXFILE * BSIZE < 2 ^ 31) by done.
  unfold DIRENT_SIZE in *. rewrite u32_small; lia.
Qed.

Lemma dirlookup_step name k i : (i < N)%nat -> fstate p s o ∅ bl V D t S dp x k -> named V x name i = false ->
  runs env (dirlookup_body dp name (DIRENT_SIZE * Z.of_nat i) n (MkK t k)) (fun r s' => r = inl (DIRENT_SIZE * Z.of_nat (Datatypes.S i)) /\
    exists k', s' = MkK t k' /\ fstate p s o ∅ bl V D t S dp x k' /\ same_fs k k').
Proof.
  intros Hi HT Hno. destruct (dir_off i Hi) as [Ho1 Ho2]. unfold dirlookup_body. rewrite (geti_bind _ _ _ _ _ _ (ft_ip HT)), (proj2 (Z.ltb_lt _ _)) by lia.
  cbn [negb]. apply runs_bind. eapply runs_mono; [|by apply dir_read]. intros r ? (-> & k1 & -> & HT1 & F1). cbv beta iota. rewrite Z.eqb_refl. cbn [negb].
  unfold named in Hno. rewrite Ho2. destruct (de_inum (dirent V x i) =? 0); cbn [negb andb] in Hno; [|rewrite Hno];
    (eapply runs_ret; [reflexivity|]; split; [done|]; by exists k1).
Qed.

Lemma dirlookup_skip name d : forall i fuel k Q, (i + d <= N)%nat -> fstate p s o ∅ bl V D t S dp x k ->
  (forall j, (i <= j < i + d)%nat -> named V x name j = false) ->
  (forall k', fstate p s o ∅ bl V D t S dp x k' -> same_fs k k' ->
     runs env (mwhile fuel (dirlookup_body dp name) (DIRENT_SIZE * Z.of_nat (i + d)) n (MkK t k')) Q) ->
  runs env (mwhile (d + fuel) (dirlookup_body dp name) (DIRENT_SIZE * Z.of_nat i) n (MkK t k)) Q.
Proof.
  induction d as [|d IH]; intros i fuel k Q Hd HT Hno HQ; [rewrite Nat.add_0_r in HQ; by apply HQ|].
  cbn [Nat.add]. apply runs_mwhile_inl. eapply runs_mono; [|apply (dirlookup_step name k i); [lia|done|apply Hno; lia]].
  intros r ? (-> & k1 & -> & HT1 & F1). apply IH; [lia|done|intros j Hj; apply Hno; lia|]. intros k' HT' F'.
  replace (Datatypes.S i + d)%nat with (i + Datatypes.S d)%nat by lia. apply HQ; [done|by etransitivity].
Qed.

(** The first entry with the name is at [m], or there is none. *)
Lemma dirlookup_runs name k Q m : (N < n)%nat -> (m <= N)%nat -> fstate p s o ∅ bl V D t S dp x k -> (forall j, (j < m)%nat -> named V x name j = false) ->
  (forall k' fuel, fstate p s o ∅ bl V D t S dp x k' -> same_fs k k' ->
     runs env (mwhile (Datatypes.S fuel) (dirlookup_body dp name) (DIRENT_SIZE * Z.of_nat m) n (MkK t k')) Q) ->
  runs env (dirlookup dp name n (MkK t k)) Q.
Proof.
  intros HN Hm HT Hno HQ. unfold dirlookup. rewrite (geti_bind _ _ _ _ _ _ (ft_ip HT)), (dk_type _ _ _ Hdir). cbn [negb Z.eqb]. rewrite Z.eqb_refl. cbn [negb].
  unfold mloop. replace n with (m + Datatypes.S (n - m - 1))%nat at 1 by lia. change 0 with (DIRENT_SIZE * Z.of_nat 0).
  apply dirlookup_skip; [lia|done|intros j Hj; apply Hno; lia|]. intros k' HT' F. by apply HQ.
Qed.

Lemma dirlookup_none name k : (N < n)%nat -> fstate p s o ∅ bl V D t S dp x k -> (forall j, (j < N)%nat -> named V x name j = false) ->
  runs env (dirlookup dp name n (MkK t k)) (fun r s' => r = None /\ exists k', s' = MkK t k' /\ fstate p s o ∅ bl V D t S dp x k' /\ same_fs k k').
Proof.
  intros HN HT Hno. eapply (dirlookup_runs name k _ N HN (le_n N) HT Hno). intros k' fuel HT' F. apply runs_mwhile_inl. unfold dirlookup_body.
  rewrite (geti_bind _ _ _ _ _ _ (ft_ip HT')), (dk_size _ _ _ Hdir), Z.ltb_irrefl. eapply runs_ret; [reflexivity|]. split; [done|by exists k'].
Qed.

Lemma dirlookup_found name k m ip l : (N < n)%nat -> fstate p s o ∅ bl V D t S dp x k -> length (itable k) = Z.to_nat NINODE ->
  (m < N)%nat -> named V x name m = true -> (forall j, (j < m)%nat -> named V x name j = false) -> iget_to ROOTDEV (de_inum (dirent V x m)) (itable k) = Some (ip, l) ->
  runs env (dirlookup dp name n (MkK t k)) (fun r s' => r = Some (ip, DIRENT_SIZE * Z.of_nat m) /\ exists k', s' = MkK t k' /\
    txn p s o ∅ bl V D t k' /\ same_os k k' /\ itable k' = l).
Proof.
  intros HN HT Hlen Hm Hnm Hno Hto. eapply (dirlookup_runs name k _ m HN ltac:(lia) HT Hno).
  intros k' fuel HT' F. apply runs_mwhile_inl. unfold dirlookup_body. destruct (dir_off m Hm) as [Ho _].
  rewrite (geti_bind _ _ _ _ _ _ (ft_ip HT')), (proj2 (Z.ltb_lt _ (i_size x)) (proj2 Ho)). cbn [negb]. apply runs_bind.
  eapply runs_mono; [|eapply (dir_read k' m Hm HT')]. intros r ? (-> & k2 & -> & HT2 & F2). cbv beta iota. rewrite Z.eqb_refl. cbn [negb].
  unfold named in Hnm. apply andb_true_iff in Hnm as [E1 E2]. destruct (de_inum (dirent V x m) =? 0); [done|]. rewrite E2.
  assert (itable k2 = itable k) as Ei by (rewrite (sf_itable _ _ F2); apply F).
  destruct (iget_to_eval n t k2 ROOTDEV (de_inum (dirent V x m)) ip l) as (f & -> & E);
    [change (Z.to_nat NINODE) with 50%nat; unfold BPB, BSIZE in Hn; lia|apply Hr|by rewrite (re_lks _ _ Hr)|by rewrite Ei|by rewrite Ei|].
  rewrite (fo_dev Hx), (bind_ret _ _ _ _ _ _ E). eapply runs_ret; [reflexivity|]. split; [done|]. eexists. split_and!; [done|apply txn_itable, HT2| |done].
  etransitivity; [|apply same_os_itable]. apply same_fs_os. by transitivity k'.
Qed.
End dir.

(** C18: looking up a name.  In a directory, [dirlookup] returns the first
    entry in use with the name: the table entry of its inode, with a
    reference taken, and the entry's offset; when there is none it returns
    nothing and only the buffer cache has changed. *)
Theorem dirlookup_correct env (BD : BlockDev env) n p s o ds D t S dp bl V x N name k :
  (Z.to_nat BPB < n)%nat -> (Z.to_nat (sb_size S / BPB) < n)%nat -> (N < n)%nat -> rest p t -> fs_ok s ds S V -> file_ok ds S V x -> inode_wf S x ->
  (length bl < nbuf)%nat -> dir_ok V x N -> fstate p s o ∅ bl V D t S dp x k -> length (itable k) = Z.to_nat NINODE ->
  ((forall j, (j < N)%nat -> named V x name j = false) ->
    runs env (dirlookup dp name n (MkK t k)) (fun r s' => r = None /\ exists k', s' = MkK t k' /\ fstate p s o ∅ bl V D t S dp x k' /\ same_fs k k')) /\
  (forall m ip l, (m < N)%nat -> named V x name m = true -> (forall j, (j < m)%nat -> named V x name j = false) ->
    iget_to ROOTDEV (de_inum (dirent V x m)) (itable k) = Some (ip, l) ->
    runs env (dirlookup dp name n (MkK t k)) (fun r s' => r = Some (ip, DIRENT_SIZE * Z.of_nat m) /\ exists k', s' = MkK t k' /\
      txn p s o ∅ bl V D t k' /\ same_os k k' /\ itable k' = l)).
Proof.
  intros Hn HnS HN Hr Hfs Hx Hwx Hbl Hdir HT Hlen. split.
  - intros Hno. by apply (dirlookup_none env n p Hn Hr HnS Hfs Hx Hwx Hbl Hdir).
  - intros m ip l Hm Hnm Hno Hto. by apply (dirlookup_found env n p Hn Hr HnS Hfs Hx Hwx Hbl Hdir).
Qed.

Lemma fs_dir : dir_ok fs_disk fs_inode2 2.
Proof. split; [done|done|apply fs_file2]. Qed.

Lemma dirlookup_correct_witness : exists s', solo (disk_env demo_device 2) (dirlookup 1 [104; 105; 0] fs_fuel (MkK Kalloc.demo_T fs_kern)) = Some (Some (1%nat, 16), s').
Proof.
  assert (2 < fs_fuel)%nat as HN by (unfold fs_fuel, BPB, BSIZE; lia).
  assert (forall j, (j < 1)%nat -> named fs_disk fs_inode2 [104; 105; 0] j = false) as Hno by (intros j Hj; replace j with 0%nat by lia; by vm_compute).
  destruct fs_fuel_ok as [F1 F2]. destruct fs_file2 as (G1 & G2 & _).
  destruct (dirlookup_correct _ fs_dev fs_fuel 0 2 1 34 fs_disk Kalloc.demo_T fs_sb 1 [] fs_disk fs_inode2 2 [104; 105; 0] fs_kern F1 F2 HN demo_rest
    fs_demo_ok G1 G2 fs_no_bufs fs_dir fs_state2 eq_refl) as [_ HR].
  specialize (HR 1%nat 1%nat (alter ref_up 1%nat (itable fs_kern)) (le_n 2) ltac:(by vm_compute) Hno ltac:(by vm_compute)).
  destruct (proj1 (runs_some _ _ _) HR) as (r & s' & E & -> & _). exists s'. exact E.
Defined.

(** ** Paths *)

Lemma skip_slashes_spec path : exists a, path = a ++ skip_slashes path /\ Forall (fun c => c = slash) a /\ head (skip_slashes path) <> Some slash.
Proof.
  induction path as [|c path (a & E & Ha & Hh)]; [by exists []|]. cbn [skip_slashes]. destruct (Z.eqb_spec c slash) as [->|Hc].
  - exists (slash :: a). cbn. rewrite <- E. split_and!; [done|by constructor|done].
  - exists []. split_and!; [done|done|]. cbn. congruence.
Qed.

Lemma take_elem_spec path e r : Forall (fun c => c <> 0) path -> take_elem path = (e, r) ->
  path = e ++ r /\ slash ∉ e /\ (r = [] \/ head r = Some slash).
Proof.
  revert e r. induction path as [|c path IH]; intros e r Hp; cbn [take_elem]; [intros [= <- <-]; split_and!; [done|set_solver|by left]|].
  apply Forall_cons in Hp as [Hc Hp]. destruct (Z.eqb_spec c slash) as [->|Hs]; cbn [orb]; [intros [= <- <-]; split_and!; [done|set_solver|by right]|].
  rewrite (proj2 (Z.eqb_neq c 0) Hc). destruct (take_elem path) as [e' r']. destruct (IH e' r' Hp eq_refl) as (E & H1 & H2).
  intros [= <- <-]. split_and!; [by rewrite E|set_solver|done].
Qed.

Lemma strcut_nul e b : Forall (fun c => c <> 0) e -> strcut (e ++ 0 :: b) = e.
Proof. induction 1 as [|c e Hc He IH]; [done|]. cbn. rewrite (proj2 (Z.eqb_neq c 0) Hc). by f_equal. Qed.
Lemma strcut_full e : Forall (fun c => c <> 0) e -> strcut e = e.
Proof. induction 1 as [|c e Hc He IH]; [done|]. cbn. rewrite (proj2 (Z.eqb_neq c 0) Hc). by f_equal. Qed.

Lemma skipelem_spec path name :
  Forall (fun c => c <> 0) path -> length name = Z.to_nat DIRSIZ ->
  (skipelem path name = None <-> Forall (fun c => c = slash) path) /\
  forall rest name', skipelem path name = Some (rest, name') -> exists a e b, path = a ++ e ++ b ++ rest /\
    Forall (fun c => c = slash) (a ++ b) /\ e <> [] /\ slash ∉ e /\ head rest <> Some slash /\ (rest <> [] -> b <> []) /\
    length name' = Z.to_nat DIRSIZ /\ strcut name' = take (Z.to_nat DIRSIZ) e /\ (length rest < length path)%nat.
Proof.
  intros Hp Hn. destruct (skip_slashes_spec path) as (a & E & Ha & Hh). unfold skipelem. remember (skip_slashes path) as q eqn:Eq.
  assert (Forall (fun c => c <> 0) q) as Hq by (rewrite E in Hp; by apply Forall_app in Hp as [_ Hp]).
  destruct q as [|c q].
  { rewrite Z.eqb_refl. split; [|done]. split; [intros _; by rewrite E, app_nil_r|done]. }
  cbn [hd]. pose proof Hq as [Hc Hq']%Forall_cons. rewrite (proj2 (Z.eqb_neq c 0) Hc).
  destruct (take_elem (c :: q)) as [e r] eqn:Et. destruct (take_elem_spec _ _ _ Hq Et) as (Er & Hs & Hr).
  assert (c <> slash) as Hcs by (cbn in Hh; congruence). assert (e <> []) as He. { intros ->. cbn in Er. subst r. destruct Hr as [|[= ?]]; done. }
  split.
  { split; [done|]. rewrite E. intros [_ [? _]%Forall_cons]%Forall_app. done. }
  intros rest name' [= <- <-]. destruct (skip_slashes_spec r) as (b & Eb & Hb & Hhb). exists a, e, b.
  assert (Forall (fun c => c <> 0) e) as Hez by (rewrite Er in Hq; by apply Forall_app in Hq as [? _]).
  split_and!; [by rewrite E, Er, <- Eb|by apply Forall_app|done|done|done| | | |].
  - intros Hne ->. cbn in Eb. rewrite <- Eb in Hhb, Hne. destruct Hr as [->|Hr]; done.
  - rewrite Z.geb_leb. destruct (Z.leb_spec DIRSIZ (Z.of_nat (length e))); [rewrite length_take; lia|].
    rewrite length_app. cbn [app length]. rewrite length_drop, Hn. unfold DIRSIZ in *. lia.
  - rewrite Z.geb_leb. destruct (Z.leb_spec DIRSIZ (Z.of_nat (length e))).
    + apply strcut_full. by apply Forall_take.
    + cbn [app]. rewrite strcut_nul by done. rewrite take_ge; [done|lia].
  - rewrite E, length_app, Er, length_app. rewrite Eb at 2. rewrite length_app. destruct e; [done|]. cbn [length]. lia.
Qed.

(** Taking a path apart.  [skipelem] fails exactly on a path of nothing
    but slashes; otherwise the path is slashes, one element without slashes,
    slashes and the rest returned, which is shorter and does not start with a
    slash, and [name] holds the first [DIRSIZ] bytes of the element, with a
    NUL after them if there is room. *)
Theorem skipelem_correct path name :
  Forall (fun c => c <> 0) path -> length name = Z.to_nat DIRSIZ ->
  (skipelem path name = None <-> Forall (fun c => c = slash) path) /\
  forall rest name', skipelem path name = Some (rest, name') -> exists a e b, path = a ++ e ++ b ++ rest /\
    Forall (fun c => c = slash) (a ++ b) /\ e <> [] /\ slash ∉ e /\ head rest <> Some slash /\ (rest <> [] -> b <> []) /\
    length name' = Z.to_nat DIRSIZ /\ strcut name' = take (Z.to_nat DIRSIZ) e /\ (length rest < length path)%nat.
Proof. apply skipelem_spec. Qed.

Lemma skipelem_correct_witness : exists a e b, [47; 97; 47; 47; 98] = a ++ e ++ b ++ [98] /\ Forall (fun c => c = slash) (a ++ b) /\ e <> [].
Proof.
  destruct (skipelem_correct [47; 97; 47; 47; 98] (replicate 14 0) ltac:(by repeat constructor) eq_refl) as [_ H].
  destruct (H [98] (97 :: replicate 13 0) eq_refl) as (a & e & b & H1 & H2 & H3 & _). by exists a, e, b.
Defined.
