(* ===== verification/DirLink.v ===== *)
(** * Adding to a directory: [dirlink]

    [dirlink] refuses a name that is there, and otherwise puts the new entry
    in the first free slot or at the end of the directory. *)

From Stdlib Require Import ZArith Lia.
From S2P Require Import Prelude Riscv KString Thread Proc Sleeplock Kalloc Kern Blocks Virtio VirtioSpec.
From S2P Require Import Bio BioSpec BioOps Log LogSpec Crash Txn ProcMem Fs Balloc Files ReadWrite FileTheorems Inodes Trunc Dirs.

(** ** Entries *)

Lemma enc_dirent_dec i nm : 0 <= i < 2 ^ 16 -> length nm = Z.to_nat DIRSIZ -> de_inum (enc_dirent i nm) = i /\ de_name (enc_dirent i nm) = nm.
Proof.
  intros Hi Hl. unfold enc_dirent, de_inum, de_name, rd_u16. split.
  - rewrite <- (app_nil_l (_ ++ _)). rewrite slice_app_mid by done. by apply le_val_bytes.
  - rewrite <- (app_nil_r (le_bytes 2 i ++ _)), <- app_assoc. apply slice_app_mid; [done|]. by rewrite Hl.
Qed.

(** A name is found under the bytes [strncpy] stores for it. *)
Lemma namecmp_stored name : namecmp name (strncpy_l (Z.to_nat DIRSIZ) name) = 0.
Proof.
  apply strncmp_l_zero. rewrite (take_ge (strncpy_l _ _)) by (rewrite strncpy_l_length; lia). by rewrite strncpy_l_strcut, strcut_take.
Qed.

Definition new_entry (name : list Z) (inum : Z) : list Z := enc_dirent (u16 inum) (strncpy_l (Z.to_nat DIRSIZ) name).
Lemma new_entry_length name inum : length (new_entry name inum) = Z.to_nat DIRENT_SIZE.
Proof. unfold new_entry, enc_dirent. by rewrite length_app, strncpy_l_length, le_bytes_length. Qed.

(** A write of one entry, seen entry by entry. *)
Lemma dirent_write V V' x x' m e : length e = Z.to_nat DIRENT_SIZE -> DIRENT_SIZE * (Z.of_nat m + 1) <= MAXFILE * BSIZE ->
  (forall i, in_file i -> fbyte V' x' i = if decide (DIRENT_SIZE * Z.of_nat m <= i < DIRENT_SIZE * Z.of_nat m + DIRENT_SIZE) then byte_at e (i - DIRENT_SIZE * Z.of_nat m) else fbyte V x i) ->
  forall j, DIRENT_SIZE * (Z.of_nat j + 1) <= MAXFILE * BSIZE -> dirent V' x' j = if decide (j = m) then e else dirent V x j.
Proof.
  intros He Hm Hb j Hj. unfold DIRENT_SIZE in *. assert (forall i, (i < 16)%nat -> in_file (16 * Z.of_nat j + Z.of_nat i)) as Hin by (intros i Hi; unfold in_file; lia).
  apply list_eq. intros i. destruct (decide (i < 16)%nat) as [Hi|Hi].
  - unfold dirent, DIRENT_SIZE. rewrite fread_lookup, Hb by (done || by apply Hin). destruct (decide (j = m)) as [->|Hne].
    + rewrite decide_True by lia. replace (16 * Z.of_nat m + Z.of_nat i - 16 * Z.of_nat m) with (Z.of_nat i) by lia. unfold byte_at. rewrite Nat2Z.id.
      destruct (lookup_lt_is_Some_2 e i) as [v ->]; [rewrite He; exact Hi|done].
    + rewrite decide_False by lia. by rewrite fread_lookup.
  - rewrite !lookup_ge_None_2; [done| |unfold dirent; rewrite fread_length; change (16 <= i)%nat; lia].
    case_decide; [rewrite He|unfold dirent; rewrite fread_length]; change (16 <= i)%nat; lia.
Qed.

(** ** The search for a slot *)

(** [m] is the first free slot of the [N] entries, or [N]. *)
Definition first_slot (V : gmap Z (list Z)) (x : inode) (N m : nat) : Prop :=
  (m <= N)%nat /\ (forall j, (j < m)%nat -> de_inum (dirent V x j) <> 0) /\ (m = N \/ de_inum (dirent V x m) = 0).

Section link.
Context (env : kst kern -> option (kst kern)) {BD : BlockDev env}.
Context (n p : nat) (Hn : (Z.to_nat BPB < n)%nat).
Context {s o ds : Z} {D : gmap Z (list Z)} {t : T} {S : superblock} {dp : nat} {bl : list Z} {V : gmap Z (list Z)} {x : inode} {N : nat}.
Context (Hr : rest p t) (HnS : (Z.to_nat (sb_size S / BPB) < n)%nat).
Context (Hfs : fs_ok s ds S V) (Hx : file_ok ds S V x) (Hwx : inode_wf S x) (Hbl : (length bl < nbuf)%nat) (Hdir : dir_ok V x N).

Lemma dirlink_search m d : first_slot V x N m -> forall i fuel k, (i + d = m)%nat -> (d < fuel)%nat -> fstate p s o ∅ bl V D t S dp x k ->
  runs env (mwhile fuel (dirlink_body dp) (DIRENT_SIZE * Z.of_nat i) n (MkK t k)) (fun r s' => r = DIRENT_SIZE * Z.of_nat m /\
    exists k', s' = MkK t k' /\ fstate p s o ∅ bl V D t S dp x k' /\ same_fs k k').
Proof.
  intros (Hm & Hno & Hfree). induction d as [|d IH]; intros i [|fuel] k Hi Hf HT; try lia; apply runs_mwhile_inl; unfold dirlink_body; rewrite (geti_bind _ _ _ _ _ _ (ft_ip HT)).
  - rewrite Nat.add_0_r in Hi. subst i. destruct (decide (m = N)) as [->|Hne].
    + rewrite (dk_size _ _ _ Hdir), Z.ltb_irrefl. cbn [negb]. eapply runs_ret; [reflexivity|]. split; [done|]. by exists k.
    + destruct (dir_off Hwx Hdir m ltac:(lia)) as [Ho _]. rewrite (proj2 (Z.ltb_lt _ (i_size x)) (proj2 Ho)). cbn [negb]. apply runs_bind.
      eapply runs_mono; [|eapply (dir_read env n p Hn Hr HnS Hfs Hx Hwx Hbl Hdir k m ltac:(lia) HT)]. intros r ? (-> & k1 & -> & HT1 & F1). cbv beta iota. rewrite Z.eqb_refl. cbn [negb].
      destruct Hfree as [|Hz]; [done|]. rewrite Hz. eapply runs_ret; [reflexivity|]. split; [done|]. by exists k1.
  - destruct (dir_off Hwx Hdir i ltac:(lia)) as [Ho _]. rewrite (proj2 (Z.ltb_lt _ (i_size x)) (proj2 Ho)). cbn [negb]. apply runs_bind.
    eapply runs_mono; [|eapply (dir_read env n p Hn Hr HnS Hfs Hx Hwx Hbl Hdir k i ltac:(lia) HT)]. intros r ? (-> & k1 & -> & HT1 & F1). cbv beta iota. rewrite Z.eqb_refl. cbn [negb].
    rewrite (proj2 (Z.eqb_neq _ 0) (Hno i ltac:(lia))). eapply runs_ret; [reflexivity|]. cbv beta iota.
    replace (DIRENT_SIZE * Z.of_nat i + DIRENT_SIZE) with (DIRENT_SIZE * Z.of_nat (Datatypes.S i)) by lia.
    eapply runs_mono; [|apply (IH (Datatypes.S i) fuel k1); [lia|lia|done]]. intros r ? (-> & k2 & -> & HT2 & F2). split; [done|]. exists k2. split_and!; [done|done|by etransitivity].
Qed.
End link.

(** The reference [dirlookup] took is never the last one to a valid inode. *)
Lemma iget_to_plain dev inum l ip l' : iget_to dev inum l = Some (ip, l') ->
  exists y, l' !! ip = Some y /\ (i_ref y =? 1) && negb (i_valid y =? 0) && (i_nlink y =? 0) = false.
Proof.
  unfold iget_to. destruct (iget_scan dev inum l 0 None) as [j|[j|]] eqn:E; intros H; simplify_eq.
  - apply iget_scan_hit in E as (y & _ & Hy & Hi). rewrite Nat.sub_0_r in Hy. exists (ref_up y). split; [by rewrite list_lookup_alter_eq, Hy|].
    unfold is_inode in Hi. cbn. rewrite (proj2 (Z.eqb_neq _ 1)); [done|lia].
  - apply iget_scan_miss in E as (_ & [|(_ & y & _ & Hy & _)]); [done|]. rewrite Nat.sub_0_r in Hy. exists (fresh dev inum y). by rewrite list_lookup_alter_eq, Hy.
Qed.

Lemma span_entry m : span (DIRENT_SIZE * Z.of_nat m) DIRENT_SIZE = 1%nat.
Proof. unfold span, DIRENT_SIZE, BSIZE. assert (((16 * Z.of_nat m) mod 1024 + 16 + 1024 - 1) / 1024 = 1) as -> by lia. done. Qed.

(** The directory with the new entry in slot [m]. *)
Record linked (V : gmap Z (list Z)) (x : inode) (N : nat) (name : list Z) (inum : Z) (m : nat) (V' : gmap Z (list Z)) (x' : inode) : Prop := {
  li_dir : dir_ok V' x' (Nat.max N (m + 1));
  li_new : de_inum (dirent V' x' m) = inum /\ de_name (dirent V' x' m) = strncpy_l (Z.to_nat DIRSIZ) name;
  li_old : forall j, (j < N)%nat -> j <> m -> dirent V' x' j = dirent V x j;
  li_named : forall j, (j < Nat.max N (m + 1))%nat -> named V' x' name j = bool_decide (j = m);
  li_other : forall name2, namecmp name2 (strncpy_l (Z.to_nat DIRSIZ) name) <> 0 ->
    forall j, (j < Nat.max N (m + 1))%nat -> named V' x' name2 j = bool_decide (j < N)%nat && named V x name2 j
}.

Lemma linked_intro V x N name inum m V' x' : dir_ok V x N -> first_slot V x N m -> 0 < inum < 2 ^ 16 -> (forall j, (j < N)%nat -> named V x name j = false) ->
  i_size x <= MAXFILE * BSIZE -> DIRENT_SIZE * (Z.of_nat m + 1) <= MAXFILE * BSIZE ->
  i_type x' = i_type x -> i_size x' = Z.max (i_size x) (DIRENT_SIZE * Z.of_nat m + DIRENT_SIZE) -> dense V' x' ->
  (forall j, DIRENT_SIZE * (Z.of_nat j + 1) <= MAXFILE * BSIZE -> dirent V' x' j = if decide (j = m) then new_entry name inum else dirent V x j) ->
  linked V x N name inum m V' x'.
Proof.
  intros [Ht Hs Hd] (Hm & _ & Hfree) Hi Hno Hmax Hroom Ht' Hs' Hd' He.
  assert (forall j, (j < Nat.max N (m + 1))%nat -> dirent V' x' j = if decide (j = m) then new_entry name inum else dirent V x j) as He'.
  { intros j Hj. apply He. unfold DIRENT_SIZE in *. lia. }
  destruct (enc_dirent_dec (u16 inum) (strncpy_l (Z.to_nat DIRSIZ) name)) as [E1 E2]; [unfold u16; lia|by rewrite strncpy_l_length|].
  pose proof (u16_small inum ltac:(lia)) as Eu. rewrite Eu in E1, E2. split.
  - split; [by rewrite Ht'|rewrite Hs', Hs; unfold DIRENT_SIZE in *; lia|done].
  - rewrite He', decide_True by (done || lia). unfold new_entry. rewrite Eu. by split.
  - intros j Hj Hne. by rewrite He', decide_False by (done || lia).
  - intros j Hj. unfold named. rewrite He' by done. case_decide as Hjm.
    + unfold new_entry. rewrite Eu, E1, E2, namecmp_stored, (proj2 (Z.eqb_neq inum 0)), bool_decide_true by (done || lia). done.
    + rewrite bool_decide_false by done. apply Hno. lia.
  - intros name2 H2 j Hj. unfold named. rewrite He' by done. case_decide as Hjm.
    + subst j. unfold new_entry. rewrite Eu, E2, (proj2 (Z.eqb_neq _ 0) H2), andb_false_r.
      case_bool_decide; [|done]. destruct Hfree as [|Hz]; [lia|]. by rewrite Hz.
    + by rewrite bool_decide_true by lia.
Qed.

(** C19: adding a name.  In a directory, [dirlink] of a name that is there
    returns -1 and gives back the reference it took, with the disk as before.
    Otherwise, with room in the log and enough free blocks, it returns 0 and
    writes the entry to the first free slot or behind the last entry: looking
    the name up finds that slot and no other, lookups of other names find
    what they found, other files and inodes are as before, and the
    directory's inode on disk is the one in memory. *)
Theorem dirlink_correct env (BD : BlockDev env) n p s o ds D t S dp bl V x N name inum k :
  (Z.to_nat BPB < n)%nat -> (Z.to_nat (sb_size S / BPB) < n)%nat -> (N < n)%nat -> rest p t -> 1 <= o -> fs_ok s ds S V -> file_ok ds S V x -> inode_wf S x ->
  (length bl + 8 < nbuf)%nat -> dir_ok V x N -> fstate p s o ∅ bl V D t S dp x k -> length (itable k) = Z.to_nat NINODE -> 0 < inum < 2 ^ 16 ->
  (forall m ip l, (m < N)%nat -> named V x name m = true -> (forall j, (j < m)%nat -> named V x name j = false) ->
    iget_to ROOTDEV (de_inum (dirent V x m)) (itable k) = Some (ip, l) ->
    runs env (dirlink dp name inum n (MkK t k)) (fun r s' => r = -1 /\ exists k', s' = MkK t k' /\
      txn p s o ∅ bl V D t k' /\ itable k' = alter ref_down ip l)) /\
  (forall m, (forall j, (j < N)%nat -> named V x name j = false) -> first_slot V x N m -> DIRENT_SIZE * (Z.of_nat m + 1) <= MAXFILE * BSIZE -> nfree S V 2 ->
    runs env (dirlink dp name inum n (MkK t k)) (fun r s' => r = 0 /\ exists k' x' V' bl', s' = MkK t k' /\
      fstate p s o ∅ bl' V' D t S dp x' k' /\ fs_ok s ds S V' /\ file_ok ds S V' x' /\ linked V x N name inum m V' x' /\
      disk_inode S V' (i_inum x) = inode_disk x' /\
      (forall y, file_ok ds S V y -> apart V x y -> forall i, in_file i -> fbyte V' y i = fbyte V y i) /\
      (forall j, 0 <= j < sb_ninodes S -> j <> i_inum x -> disk_inode S V' j = disk_inode S V j))).
Proof.
  intros Hn HnS HN Hr Ho Hfs Hx Hwx Hbl Hdir HT Hlen Hi. assert (length bl < nbuf)%nat as Hb by lia. unfold dirlink. split.
  - intros m ip l Hm Hnm Hno Hto. apply runs_bind.
    eapply runs_mono; [|exact (dirlookup_found env n p Hn Hr HnS Hfs Hx Hwx Hb Hdir name k m ip l HN HT Hlen Hm Hnm Hno Hto)]. intros r ? (-> & k1 & -> & HT1 & _ & El). cbv beta iota.
    destruct (iget_to_plain _ _ _ _ _ Hto) as (y & Hy & Hpl). rewrite <- El in Hy. rewrite (bind_ret _ _ _ _ _ _ (iput_plain n p Hr Hy Hpl)).
    eapply runs_ret; [reflexivity|]. split; [done|]. eexists. split_and!; [done|by apply txn_itable|cbn; by rewrite El].
  - intros m Hno Hslot Hroom Hfree. apply runs_bind.
    eapply runs_mono; [|exact (dirlookup_none env n p Hn Hr HnS Hfs Hx Hwx Hb Hdir name k HN HT Hno)]. intros r ? (-> & k1 & -> & HT1 & F1). cbv beta iota. apply runs_bind.
    eapply runs_mono; [|refine (dirlink_search env n p Hn Hr HnS Hfs Hx Hwx Hb Hdir m m Hslot 0 n k1 _ _ HT1); [done|destruct Hslot; lia]].
    intros r ? (-> & k2 & -> & HT2 & F2). cbv zeta. fold (new_entry name inum). apply runs_bind. pose proof (iw_size _ _ Hwx) as Hmax.
    assert (Z.of_nat (length (new_entry name inum)) = DIRENT_SIZE) as Hle by (by rewrite new_entry_length).
    pose proof (writei_spec env BD n p s o ds S D t dp _ _ (local_feed n) bl V x k2 (SLocal (new_entry name inum)) (new_entry name inum) (DIRENT_SIZE * Z.of_nat m)) as HW.
    cbv zeta in HW. rewrite Hle, span_entry in HW. eapply runs_mono; [|apply HW; try done; try lia].
    + intros r ? (-> & k3 & x' & V' & bl' & -> & (_ & _ & Hty) & HT3 & Hfs3 & Hx3 & Hsz & Hdi & Hby & Hde & Hap & Hot). rewrite Z.eqb_refl. cbn [negb].
      eapply runs_ret; [reflexivity|]. split; [done|]. exists k3, x', V', bl'. split_and!; try done.
      apply linked_intro; try done; [lia|by apply Hde, Hdir|]. apply dirent_write; [apply new_entry_length|done|exact Hby].
    + destruct Hslot as [Hm _]. rewrite (dk_size _ _ _ Hdir). unfold DIRENT_SIZE. lia.
Qed.

(** In the demonstration directory the first slot is free. *)
Lemma dirlink_correct_witness : exists s', solo (disk_env demo_device 2) (dirlink 1 [97; 98; 0] 1 fs_fuel (MkK Kalloc.demo_T fs_kern)) = Some (0, s').
Proof.
  assert (2 < fs_fuel)%nat as HN by (unfold fs_fuel, BPB, BSIZE; lia).
  assert (forall j, (j < 2)%nat -> named fs_disk fs_inode2 [97; 98; 0] j = false) as Hno.
  { intros j Hj. destruct j as [|[|j]]; [by vm_compute|by vm_compute|lia]. }
  assert (first_slot fs_disk fs_inode2 2 0) as Hsl by (split_and!; [lia|intros j Hj; lia|right; by vm_compute]).
  assert (length (@nil Z) + 8 < nbuf)%nat as Hb by (rewrite nbuf_eq; cbn; lia).
  destruct fs_fuel_ok as [F1 F2]. destruct fs_file2 as (G1 & G2 & _).
  destruct (dirlink_correct _ fs_dev fs_fuel 0 2 1 34 fs_disk Kalloc.demo_T fs_sb 1 [] fs_disk fs_inode2 2 [97; 98; 0] 1 fs_kern F1 F2 HN demo_rest (Z.le_refl 1)
    fs_demo_ok G1 G2 Hb fs_dir fs_state2 eq_refl ltac:(lia)) as [_ HR].
  specialize (HR 0%nat Hno Hsl ltac:(by vm_compute) (nfree_le _ _ 10 2 fs_nfree ltac:(lia))).
  destruct (proj1 (runs_some _ _ _) HR) as (r & s' & E & -> & _). exists s'. exact E.
Defined.
