(* ===== verification/Paths.v ===== *)
(** * Path names: [namex]

    [namex] of [kernel/fs.c] walks from a directory along the elements of a
    path.  The specification is a walk over inode numbers on the disk: a path
    is the list of its elements, and an element is looked up among the entries
    of the directory.  [refs_ok] says that the inode table counts the
    references held; the walk leaves none behind. *)

From Stdlib Require Import ZArith Lia.
From stdpp Require Import gmultiset.
From S2P Require Import Prelude Riscv KString Thread Proc Sleeplock Kern Blocks Virtio VirtioSpec.
From S2P Require Import Bio BioSpec BioOps Log LogSpec Crash Txn ProcMem Fs Balloc Files ReadWrite FileTheorems Inodes Trunc Dirs.

(** ** The elements of a path *)

(** What is between slashes. *)
Fixpoint pieces (cur path : list Z) : list (list Z) :=
  match path with
  | [] => [cur]
  | c :: path => if c =? slash then cur :: pieces [] path else pieces (cur ++ [c]) path
  end.
(** The elements: the pieces that are not empty, up to [DIRSIZ] bytes of each. *)
Definition elements (path : list Z) : list (list Z) := take (Z.to_nat DIRSIZ) <$> filter (fun e => e <> []) (pieces [] path).

Lemma pieces_elem e : slash ∉ e -> forall cur path, pieces cur (e ++ path) = pieces (cur ++ e) path.
Proof.
  induction e as [|c e IH]; intros He cur path; [by rewrite app_nil_r|]. apply not_elem_of_cons in He as [Hc He]. cbn [pieces app].
  rewrite (proj2 (Z.eqb_neq c slash)) by done. rewrite IH by done. by rewrite <- app_assoc.
Qed.

Lemma elements_slashes a path : Forall (fun c => c = slash) a -> elements (a ++ path) = elements path.
Proof. induction 1 as [|c a -> Ha IH]; [done|]. exact IH. Qed.

Lemma elements_cons a e b path : Forall (fun c => c = slash) (a ++ b) -> e <> [] -> slash ∉ e -> (path <> [] -> b <> []) ->
  elements (a ++ e ++ b ++ path) = take (Z.to_nat DIRSIZ) e :: elements path.
Proof.
  intros [Ha Hb]%Forall_app Hne He Hp. rewrite elements_slashes by done. unfold elements at 1. rewrite pieces_elem by done. cbn [app].
  destruct b as [|c b].
  - destruct path as [|c path]; [|by destruct Hp]. cbn [app pieces]. rewrite filter_cons_True by done. done.
  - apply Forall_cons in Hb as [-> Hb]. cbn [app pieces]. rewrite Z.eqb_refl, filter_cons_True by done. cbn [fmap list_fmap].
    change (take (Z.to_nat DIRSIZ) e :: elements (b ++ path) = take (Z.to_nat DIRSIZ) e :: elements path). by rewrite elements_slashes.
Qed.

(** [skipelem] is the head of the list of elements. *)
Lemma skipelem_elements path name : Forall (fun c => c <> 0) path -> length name = Z.to_nat DIRSIZ ->
  match skipelem path name with
  | None => elements path = []
  | Some (path', name') => elements path = strcut name' :: elements path' /\ Forall (fun c => c <> 0) path' /\ length name' = Z.to_nat DIRSIZ /\
      (length path' < length path)%nat /\ (hd 0 path' = 0 <-> elements path' = [])
  end.
Proof.
  intros Hp Hn. destruct (skipelem_spec path name Hp Hn) as [H1 H2]. destruct (skipelem path name) as [[path' name']|].
  - destruct (H2 _ _ eq_refl) as (a & e & b & -> & Hab & He & Hs & Hh & Hb & Hl & Hc & Hlt). rewrite (elements_cons a e b path') by done. rewrite Hc.
    assert (Forall (fun c => c <> 0) path') as Hp' by (rewrite !Forall_app in Hp; tauto). split_and!; try done. split; intros H0.
    + destruct path' as [|c path']; [done|]. apply Forall_cons in Hp' as [Hc' _]. done.
    + destruct path' as [|c path']; [done|]. cbn in Hh. unfold elements in H0. cbn [pieces] in H0. rewrite (proj2 (Z.eqb_neq c slash)) in H0 by congruence. cbn [app] in H0.
      assert (forall path cur, cur <> [] -> filter (fun e : list Z => e <> []) (pieces cur path) <> []) as Hne.
      { clear. induction path as [|d path IH]; intros cur Hc; cbn [pieces]; [by rewrite filter_cons_True|]. destruct (d =? slash); [by rewrite filter_cons_True|]. apply IH. by destruct cur. }
      apply fmap_nil_inv in H0. by destruct (Hne path' [c]).
  - assert (Forall (fun c => c = slash) path) as Ha by (by apply H1). rewrite <- (app_nil_r path), elements_slashes by done. done.
Qed.

(** ** Directories on disk *)

(** Comparing names: equal up to the NUL. *)
Lemma strncmp_eq k : forall p q, strncmp_l k p q = 0 <-> strcut (take k p) = strcut (take k q).
Proof.
  induction k as [|k IH]; intros p q; [done|]. cbn [strncmp_l].
  destruct p as [|a p], q as [|b q]; cbn [hd tl take strcut Z.eqb negb andb]; [done| | |].
  - destruct (Z.eqb_spec b 0) as [->|Hb]; [done|]. split; [lia|done].
  - destruct (Z.eqb_spec a 0) as [->|Ha]; cbn [negb andb]; [done|]. split; [lia|done].
  - destruct (Z.eqb_spec a 0) as [->|Ha]; cbn [negb andb].
    + destruct (Z.eqb_spec b 0) as [->|Hb]; [done|]. split; [lia|done].
    + destruct (Z.eqb_spec a b) as [->|Hab].
      * rewrite IH, (proj2 (Z.eqb_neq b 0) Ha). split; congruence.
      * destruct (Z.eqb_spec b 0); split; try lia; congruence.
Qed.

(** The inode of number [i], as [ilock] reads it. *)
Definition inode_of (S : superblock) (V : gmap Z (list Z)) (i : Z) : inode := load (disk_inode S V i) (fresh ROOTDEV i inode0).
Definition dir_len (x : inode) : nat := Z.to_nat (i_size x / DIRENT_SIZE).

(** Entry [j] is in use and has name [e]. *)
Definition is_entry (V : gmap Z (list Z)) (x : inode) (e : list Z) (j : nat) : bool :=
  negb (de_inum (dirent V x j) =? 0) && bool_decide (strcut (de_name (dirent V x j)) = e).
Definition dir_find (V : gmap Z (list Z)) (x : inode) (e : list Z) : option nat :=
  fst <$> list_find (fun j => is_entry V x e j = true) (seq 0 (dir_len x)).

(** The walk from inode [i]. *)
Fixpoint walk_path (S : superblock) (V : gmap Z (list Z)) (i : Z) (es : list (list Z)) : option Z :=
  match es with
  | [] => Some i
  | e :: es =>
      if di_type (disk_inode S V i) =? T_DIR then
        match dir_find V (inode_of S V i) e with
        | Some j => walk_path S V (de_inum (dirent V (inode_of S V i) j)) es
        | None => None
        end
      else None
  end.
(** ... to the directory of the last element, and that element. *)
Fixpoint walk_parent (S : superblock) (V : gmap Z (list Z)) (i : Z) (es : list (list Z)) : option (Z * list Z) :=
  match es with
  | [] => None
  | [e] => if di_type (disk_inode S V i) =? T_DIR then Some (i, e) else None
  | e :: es =>
      if di_type (disk_inode S V i) =? T_DIR then
        match dir_find V (inode_of S V i) e with
        | Some j => walk_parent S V (de_inum (dirent V (inode_of S V i) j)) es
        | None => None
        end
      else None
  end.

(** What [namex] finds: the inode, and for the parent the last element. *)
Definition target (parent : bool) (S : superblock) (V : gmap Z (list Z)) (i : Z) (es : list (list Z)) : option (Z * list Z) :=
  if parent then walk_parent S V i es else (fun i => (i, [])) <$> walk_path S V i es.

Lemma target_cons parent S V i e es : di_type (disk_inode S V i) = T_DIR -> parent && bool_decide (es = []) = false ->
  target parent S V i (e :: es) = match dir_find V (inode_of S V i) e with
    | Some m => target parent S V (de_inum (dirent V (inode_of S V i) m)) es
    | None => None end.
Proof.
  intros Hd Hp. unfold target. destruct parent; cbn [andb] in Hp.
  - destruct es; [done|]. cbn [walk_parent]. rewrite Hd, Z.eqb_refl. done.
  - cbn [walk_path]. rewrite Hd, Z.eqb_refl. by destruct (dir_find _ _ _).
Qed.
Lemma target_other parent S V i e es : di_type (disk_inode S V i) <> T_DIR -> target parent S V i (e :: es) = None.
Proof. intros Hd. unfold target. destruct parent, es; cbn [walk_path walk_parent]; by rewrite (proj2 (Z.eqb_neq _ _) Hd). Qed.

Lemma named_entry V x name j : length name = Z.to_nat DIRSIZ -> named V x name j = is_entry V x (strcut name) j.
Proof.
  intros Hn. unfold named, is_entry. f_equal. apply eq_true_iff_eq. rewrite Z.eqb_eq, bool_decide_eq_true. unfold namecmp. rewrite strncmp_eq.
  assert (length (de_name (dirent V x j)) <= Z.to_nat DIRSIZ)%nat as Hd by (unfold de_name, slice; rewrite length_take; lia).
  rewrite !take_ge by lia. done.
Qed.

Lemma dir_find_some V x e m : dir_find V x e = Some m -> (m < dir_len x)%nat /\ is_entry V x e m = true /\ forall j, (j < m)%nat -> is_entry V x e j = false.
Proof.
  unfold dir_find. intros ([i j] & Hf & ->)%fmap_Some. apply list_find_Some in Hf as (Hi & HP & Hno). apply lookup_seq in Hi as [-> Hlt]. cbn [fst]. split_and!; [lia|done|].
  intros j Hj. apply not_true_is_false. apply (Hno j j); [|done]. apply lookup_seq. lia.
Qed.
Lemma dir_find_first V x e m : (m < dir_len x)%nat -> is_entry V x e m = true -> (forall j, (j < m)%nat -> is_entry V x e j = false) -> dir_find V x e = Some m.
Proof.
  intros Hm Hy Hno. unfold dir_find. assert (list_find (fun j => is_entry V x e j = true) (seq 0 (dir_len x)) = Some (m, m)) as ->; [|done].
  apply list_find_Some. split_and!; [apply lookup_seq; lia|done|]. intros j y [-> _]%lookup_seq Hj. cbn [Nat.add]. by rewrite Hno.
Qed.
Lemma dir_find_none V x e : dir_find V x e = None -> forall j, (j < dir_len x)%nat -> is_entry V x e j = false.
Proof.
  unfold dir_find. intros Hf%fmap_None j Hj. apply list_find_None in Hf. rewrite Forall_lookup in Hf. apply not_true_is_false. apply (Hf j j). apply lookup_seq. lia.
Qed.

(** ** References to inodes *)

(** [R] is the inode numbers the rest of the kernel refers to. *)
Record refs_ok (S : superblock) (V : gmap Z (list Z)) (it : list inode) (R : gmultiset Z) : Prop := {
  ro_len : length it = Z.to_nat NINODE;
  ro_ref : forall j x, it !! j = Some x -> 0 <= i_ref x;
  ro_use : forall j x, it !! j = Some x -> 0 < i_ref x -> i_dev x = ROOTDEV /\ i_ref x = Z.of_nat (multiplicity (i_inum x) R) /\
    (i_valid x <> 0 -> inode_disk x = disk_inode S V (i_inum x));
  ro_uniq : forall i j x y, it !! i = Some x -> it !! j = Some y -> 0 < i_ref x -> 0 < i_ref y -> i_inum x = i_inum y -> i = j;
  ro_all : forall i, i ∈ R -> exists j x, it !! j = Some x /\ 0 < i_ref x /\ i_inum x = i
}.

(** Entry [j] is the one of inode [i]. *)
Definition at_inode (it : list inode) (j : nat) (i : Z) : Prop := exists x, it !! j = Some x /\ 0 < i_ref x /\ i_inum x = i.

Section refs.
Context {S : superblock} {V : gmap Z (list Z)}.

(** A change of entry [j] of inode [i], before or after. *)
Lemma refs_alter it R R' j i g : refs_ok S V it R -> (j < Z.to_nat NINODE)%nat -> (forall i', i' <> i -> multiplicity i' R' = multiplicity i' R) ->
  (forall x, it !! j = Some x -> i_inum (g x) = i /\ i_ref (g x) = Z.of_nat (multiplicity i R') /\ i_dev (g x) = ROOTDEV /\
    (0 < i_ref x -> i_inum x = i) /\ (i_valid (g x) <> 0 -> inode_disk (g x) = disk_inode S V i)) ->
  (forall j' x, it !! j' = Some x -> 0 < i_ref x -> i_inum x = i -> j' = j) -> refs_ok S V (alter g j it) R'.
Proof.
  intros [H1 H2 H3 H4 H5] Hj Hm Hg Hone. destruct (lookup_lt_is_Some_2 it j) as [x Hx]; [lia|]. destruct (Hg x Hx) as (G1 & G2 & G3 & G4 & G5).
  assert (forall a y, alter g j it !! a = Some y -> a = j /\ y = g x \/ a <> j /\ it !! a = Some y) as Hback.
  { intros a y. destruct (decide (a = j)) as [->|Hne]; [rewrite list_lookup_alter_eq, Hx; intros [= <-]; by left|rewrite list_lookup_alter_ne by done; auto]. }
  split.
  - by rewrite length_alter.
  - intros a y [[-> ->]|[_ Hy]]%Hback; [lia|by eapply H2].
  - intros a y [[-> ->]|[Ha Hy]]%Hback Hp; [rewrite G1; auto|]. destruct (H3 a y Hy Hp) as (P1 & P2 & P3). split_and!; [done| |done]. rewrite Hm; [done|].
    intros E. apply Ha. by eapply Hone.
  - intros a b y z [[-> ->]|[Ha Hy]]%Hback [[-> ->]|[Hb Hz]]%Hback Py Pz E; [done| | |by eapply H4].
    + symmetry. eapply Hone; [done|done|congruence].
    + eapply Hone; [done|done|congruence].
  - intros i' Hi'. destruct (decide (i' = i)) as [->|Hne].
    + exists j, (g x). rewrite list_lookup_alter_eq, Hx. rewrite elem_of_multiplicity in Hi'. split_and!; [done|lia|done].
    + destruct (H5 i') as (a & y & Hy & Py & Ey); [rewrite elem_of_multiplicity in *; rewrite <- Hm by done; done|].
      exists a, y. split_and!; [|done|done]. rewrite list_lookup_alter_ne; [done|]. intros <-. rewrite Hx in Hy. injection Hy as <-. apply Hne. rewrite <- Ey. by apply G4.
Qed.

Lemma mult_more (i i' : Z) (R : gmultiset Z) : i' <> i -> multiplicity i' ({[+ i +]} ⊎ R) = multiplicity i' R.
Proof. intros H. by rewrite multiplicity_disj_union, multiplicity_singleton_ne. Qed.
Lemma in_more (i : Z) (R : gmultiset Z) : i ∈ {[+ i +]} ⊎ R.
Proof. multiset_solver. Qed.
Lemma mult_one (i : Z) (R : gmultiset Z) : multiplicity i ({[+ i +]} ⊎ R) = Datatypes.S (multiplicity i R).
Proof. by rewrite multiplicity_disj_union, multiplicity_singleton_eq. Qed.

Lemma at_one it R j i : refs_ok S V it R -> at_inode it j i -> forall j' x, it !! j' = Some x -> 0 < i_ref x -> i_inum x = i -> j' = j.
Proof. intros HR (y & Hy & Py & Ey) j' x Hx Px Ex. eapply (ro_uniq _ _ _ _ HR); [done|done|done|done|congruence]. Qed.
Lemma at_lt it R j i : refs_ok S V it R -> at_inode it j i -> (j < Z.to_nat NINODE)%nat.
Proof. intros HR (y & Hy & _). rewrite <- (ro_len _ _ _ _ HR). by eapply lookup_lt_Some. Qed.

Lemma refs_up it R j i : refs_ok S V it R -> at_inode it j i -> refs_ok S V (alter ref_up j it) ({[+ i +]} ⊎ R) /\ at_inode (alter ref_up j it) j i.
Proof.
  intros HR Hat. pose proof (at_one _ _ _ _ HR Hat) as Hone. pose proof (at_lt _ _ _ _ HR Hat) as Hlt. destruct Hat as (y & Hy & Py & Ey). split.
  - apply (refs_alter it R _ j i); [done|done|intros; by apply mult_more| |done]. intros x Hx. rewrite Hy in Hx. injection Hx as <-. destruct (ro_use _ _ _ _ HR _ _ Hy Py) as (P1 & P2 & P3).
    subst i. rewrite mult_one. split_and!; [done|cbn; lia|done|done|done].
  - exists (ref_up y). rewrite list_lookup_alter_eq, Hy. split_and!; [done|cbn; lia|done].
Qed.

Lemma refs_down it R j i : refs_ok S V it ({[+ i +]} ⊎ R) -> at_inode it j i -> refs_ok S V (alter ref_down j it) R.
Proof.
  intros HR Hat. pose proof (at_one _ _ _ _ HR Hat) as Hone. pose proof (at_lt _ _ _ _ HR Hat) as Hlt. destruct Hat as (y & Hy & Py & Ey).
  apply (refs_alter it _ R j i ref_down HR Hlt); [intros; symmetry; by apply mult_more| |done]. intros x Hx. rewrite Hy in Hx. injection Hx as <-. destruct (ro_use _ _ _ _ HR _ _ Hy Py) as (P1 & P2 & P3).
  subst i. rewrite mult_one in P2. split_and!; [done|cbn; lia|done|done|done].
Qed.

Lemma refs_load it R j i : refs_ok S V it R -> at_inode it j i -> refs_ok S V (alter (load (disk_inode S V i)) j it) R /\ at_inode (alter (load (disk_inode S V i)) j it) j i.
Proof.
  intros HR Hat. pose proof (at_one _ _ _ _ HR Hat) as Hone. pose proof (at_lt _ _ _ _ HR Hat) as Hlt. destruct Hat as (y & Hy & Py & Ey). split.
  - apply (refs_alter it R R j i _ HR Hlt); [done| |done]. intros x Hx. rewrite Hy in Hx. injection Hx as <-. destruct (ro_use _ _ _ _ HR _ _ Hy Py) as (P1 & P2 & P3).
    rewrite <- Ey. by split_and!.
  - exists (load (disk_inode S V i) y). rewrite list_lookup_alter_eq, Hy. split_and!; done.
Qed.

(** A free entry for another inode. *)
Lemma refs_fresh it R j i x : refs_ok S V it R -> it !! j = Some x -> i_ref x = 0 -> i ∉ R ->
  refs_ok S V (alter (fresh ROOTDEV i) j it) ({[+ i +]} ⊎ R) /\ at_inode (alter (fresh ROOTDEV i) j it) j i.
Proof.
  intros HR Hx Hz Hi. rewrite not_elem_of_multiplicity in Hi. split.
  - apply (refs_alter it R _ j i); [done|rewrite <- (ro_len _ _ _ _ HR); by eapply lookup_lt_Some|intros; by apply mult_more| |].
    + intros y Hy. rewrite Hx in Hy. injection Hy as <-. rewrite mult_one, Hi. split_and!; try done. lia.
    + intros j' y Hy Py Ey. destruct (ro_use _ _ _ _ HR _ _ Hy Py) as (_ & E & _). rewrite Ey in E. lia.
  - exists (fresh ROOTDEV i x). rewrite list_lookup_alter_eq, Hx. by split_and!.
Qed.

(** If every entry is in use there are [NINODE] inodes. *)
Lemma refs_full it R : refs_ok S V it R -> Forall (fun x => i_ref x <> 0) it -> (Z.to_nat NINODE <= size (dom R))%nat.
Proof.
  intros HR Hall. rewrite Forall_lookup in Hall. assert (forall j x, it !! j = Some x -> 0 < i_ref x) as Hp by (intros j x Hx; pose proof (ro_ref _ _ _ _ HR j x Hx); pose proof (Hall j x Hx); lia).
  assert (NoDup (i_inum <$> it)) as Hnd.
  { apply NoDup_alt. intros a b i Ha Hb. rewrite list_lookup_fmap in Ha, Hb. apply fmap_Some in Ha as (x & Hx & Ex). apply fmap_Some in Hb as (y & Hy & Ey).
    eapply (ro_uniq _ _ _ _ HR a b x y); [done|done|by eapply Hp|by eapply Hp|congruence]. }
  rewrite <- (ro_len _ _ _ _ HR), <- (length_fmap i_inum), <- (size_list_to_set (C := gset Z)) by done. apply subseteq_size. intros i.
  rewrite elem_of_list_to_set, list_elem_of_fmap. intros (x & -> & Hx). apply list_elem_of_lookup in Hx as [j Hx]. apply gmultiset_elem_of_dom, elem_of_multiplicity.
  destruct (ro_use _ _ _ _ HR _ _ Hx (Hp j x Hx)) as (_ & E & _). pose proof (Hp j x Hx). lia.
Qed.

(** [iget] adds a reference. *)
Lemma refs_iget it R i : refs_ok S V it R -> (size (dom R) < Z.to_nat NINODE)%nat ->
  exists j it', iget_to ROOTDEV i it = Some (j, it') /\ (refs_ok S V it' ({[+ i +]} ⊎ R) /\ at_inode it' j i) /\
    forall a y, it !! a = Some y -> 0 < i_ref y -> it' !! a = Some y \/ it' !! a = Some (ref_up y).
Proof.
  intros HR Hcap. unfold iget_to. destruct (iget_scan ROOTDEV i it 0 None) as [j|[j|]] eqn:E.
  - apply iget_scan_hit in E as (x & _ & Hx & (P1 & P2 & P3)%is_inode_true). rewrite Nat.sub_0_r in Hx. exists j, (alter ref_up j it). split; [done|]. split; [by apply refs_up; [|exists x]|].
    intros a y Hy _. rewrite list_lookup_alter. case_decide; [subst; rewrite Hy; by right|by left].
  - apply iget_scan_miss in E as [Hno [?|(_ & x & _ & Hx & Hz & _)]]; [done|]. rewrite Nat.sub_0_r in Hx. exists j, (alter (fresh ROOTDEV i) j it).
    split; [done|]. split; [apply (refs_fresh _ _ _ _ x); [done..|]|intros a y Hy Py; left; rewrite list_lookup_alter_ne; [done|]; intros ->; rewrite Hx in Hy; injection Hy as ->; lia]. intros Hi. destruct (ro_all _ _ _ _ HR i Hi) as (a & y & Hy & Py & Ey). rewrite Forall_lookup in Hno. specialize (Hno a y Hy).
    destruct (ro_use _ _ _ _ HR _ _ Hy Py) as (Ed & _). by rewrite (proj2 (is_inode_true ROOTDEV i y)) in Hno.
  - apply iget_scan_miss in E as [_ [_ Hall]]. pose proof (refs_full _ _ HR Hall). lia.
Qed.
End refs.

(** ** The tree *)

(** An inode in use, with links to it. *)
Definition live (S : superblock) (V : gmap Z (list Z)) (i : Z) : Prop :=
  0 < i < sb_ninodes S /\ di_type (disk_inode S V i) <> 0 /\ di_nlink (disk_inode S V i) <> 0.

(** The directories are files of entries, and entries in use name inodes in
    use. *)
Record tree_ok (ds : Z) (S : superblock) (V : gmap Z (list Z)) : Prop := {
  tk_file : forall i, live S V i -> di_type (disk_inode S V i) = T_DIR -> file_ok ds S V (inode_of S V i) /\ inode_wf S (inode_of S V i);
  tk_dir : forall i, live S V i -> di_type (disk_inode S V i) = T_DIR -> dir_ok V (inode_of S V i) (dir_len (inode_of S V i));
  tk_live : forall i j, live S V i -> di_type (disk_inode S V i) = T_DIR -> (j < dir_len (inode_of S V i))%nat ->
    de_inum (dirent V (inode_of S V i) j) <> 0 -> live S V (de_inum (dirent V (inode_of S V i) j))
}.

(** A table entry with the contents of inode [i]. *)
Definition loaded (S : superblock) (V : gmap Z (list Z)) (i : Z) (x : inode) : Prop :=
  i_dev x = ROOTDEV /\ i_inum x = i /\ 0 < i_ref x /\ i_valid x <> 0 /\ inode_disk x = disk_inode S V i.

Lemma loaded_eq S V i x : loaded S V i x -> x = (inode_of S V i) <| i_ref := i_ref x |> <| i_valid := i_valid x |>.
Proof.
  intros (H1 & H2 & _ & _ & H5). unfold inode_of. rewrite <- H5. destruct x. cbn in *. by subst.
Qed.

(** The reference count and the valid flag do not matter for the contents. *)
Definition handle (r v : Z) (y : inode) : inode := y <| i_ref := r |> <| i_valid := v |>.
Lemma handle_file ds S V y r v : file_ok ds S V y -> file_ok ds S V (handle r v y).
Proof. intros [F1 F2 F3 F4 F5]. split; [exact F1|exact F2|exact F3|exact F4|exact F5]. Qed.
Lemma handle_wf S y r v : inode_wf S y -> inode_wf S (handle r v y).
Proof. intros [F1 F2 F3 F4 F5 F6]. split; [exact F1|exact F2|exact F3|exact F4|exact F5|exact F6]. Qed.
Lemma handle_dir V y r v N : dir_ok V y N -> dir_ok V (handle r v y) N.
Proof. intros [F1 F2 F3]. split; [exact F1|exact F2|exact F3]. Qed.
Lemma handle_dirent V y r v j : dirent V (handle r v y) j = dirent V y j.
Proof. reflexivity. Qed.

Lemma loaded_dir ds S V i x : tree_ok ds S V -> live S V i -> loaded S V i x -> di_type (disk_inode S V i) = T_DIR ->
  file_ok ds S V x /\ inode_wf S x /\ dir_ok V x (dir_len (inode_of S V i)) /\ forall j, dirent V x j = dirent V (inode_of S V i) j.
Proof.
  intros HT Hl Hx Hd. rewrite (loaded_eq _ _ _ _ Hx). fold (handle (i_ref x) (i_valid x) (inode_of S V i)). destruct (tk_file _ _ _ HT i Hl Hd) as [F W].
  split_and!; [by apply handle_file|by apply handle_wf|by apply handle_dir, (tk_dir _ _ _ HT)|intros j; apply handle_dirent].
Qed.

(** ** The walk *)

Section walk.
Context (env : kst kern -> option (kst kern)) {BD : BlockDev env} (n p : nat) (Hn : (Z.to_nat BPB < n)%nat).
Context {s o ds : Z} {bl : list Z} {V D : gmap Z (list Z)} {S : superblock} {t : T}.
Context (HnS : (Z.to_nat (sb_size S / BPB) < n)%nat) (HnD : (Z.to_nat (MAXFILE * BSIZE / DIRENT_SIZE) < n)%nat).
Context (Hr : rest p t) (Hfs : fs_ok s ds S V) (Htree : tree_ok ds S V) (Hbl : (length bl < nbuf)%nat) (Hlk : forall ip, slks t !! SLInode ip = None).

Record wstate (t : T) (R : gmultiset Z) (k : kern) : Prop := {
  wt_txn : txn p s o ∅ bl V D t k;
  wt_sb : sb k = S;
  wt_tab : refs_ok S V (itable k) R
}.

Lemma ilock_walk R k ip i : wstate t R k -> at_inode (itable k) ip i -> live S V i ->
  runs env (ilock (Some ip) n (MkK t k)) (fun _ s' => exists k' x, s' = MkK (hold (SLInode ip) p t) k' /\ wstate (hold (SLInode ip) p t) R k' /\
    itable k' !! ip = Some x /\ loaded S V i x /\ same_os k k').
Proof.
  intros [HT Hsb HR] Hat (Hi' & Hty & _). assert (0 <= i < sb_ninodes S) as Hi by lia. pose proof Hat as (x & Hx & Px & Ex). destruct (ro_use _ _ _ _ HR _ _ Hx Px) as (Hdev & Href & Hval). subst i.
  destruct (decide (i_valid x = 0)) as [Hv|Hv].
  - apply (ilock_read env n p (fuel_bufs n Hn) Hr HT Hfs Hsb Hx ltac:(lia) Hdev Hi (Hlk ip) Hbl (fun r => runs env r _)); [intros; by apply runs_bind|done|].
    intros k' HT' F Hit. rewrite (proj2 (Z.eqb_neq _ 0) Hty). eapply runs_ret; [reflexivity|]. destruct (refs_load _ _ _ _ HR Hat) as [HR' _].
    exists k', (load (disk_inode S V (i_inum x)) x). split_and!; [done|split; [done|by rewrite (same_os_sb _ _ F)|by rewrite Hit]|by rewrite Hit, list_lookup_alter_eq, Hx|by split_and!|done].
  - eapply runs_ret; [apply (ilock_valid n p (fuel_bufs n Hn) Hr Hx ltac:(lia) Hi (Hlk ip) Hbl Hv)|]. exists k, x. split_and!; [done|split; [by apply txn_hold|done|done]|done| |reflexivity]. split_and!; auto.
Qed.

Lemma iunlock_held k ip x : itable k !! ip = Some x -> 0 < i_ref x -> iunlock (Some ip) n (MkK (hold (SLInode ip) p t) k) = Ret tt (MkK t k).
Proof.
  intros Hx Px. assert (calm p (hold (SLInode ip) p t)) as Hc by (apply calm_slks, Hr). unfold iunlock.
  assert (lks (hold (SLInode ip) p t) !! LkSleep (SLInode ip) = None) as Hl by (change (lks (hold (SLInode ip) p t)) with (lks t); by rewrite (re_lks _ _ Hr)).
  rewrite (bind_ret _ _ _ _ _ _ (holdingsleep_spec p (SLInode ip) n _ k Hc Hl)), (geti_bind _ _ _ _ _ _ Hx).
  change (slks (hold (SLInode ip) p t)) with (<[SLInode ip := my_pid p t]> (slks t)). change (my_pid p (hold (SLInode ip) p t)) with (my_pid p t). rewrite lookup_insert_eq, Z.eqb_refl. cbn [negb orb].
  rewrite (proj2 (Z.ltb_ge (i_ref x) 1)) by lia. rewrite (releasesleep_spec p (SLInode ip) n _ k Hc Hl). by rewrite hold_drop.
Qed.

Lemma wstate_rest ip : rest p (hold (SLInode ip) p t).
Proof. by apply rest_slks. Qed.

(** Giving up an inode on the way. *)
Lemma iput_walk R k ip i : wstate t ({[+ i +]} ⊎ R) k -> at_inode (itable k) ip i -> live S V i ->
  iput ip n (MkK t k) = Ret tt (MkK t (k <| itable ::= alter ref_down ip |>)) /\ wstate t R (k <| itable ::= alter ref_down ip |>) /\
  forall nx i', i' ∈ R -> at_inode (itable k) nx i' -> at_inode (itable (k <| itable ::= alter ref_down ip |>)) nx i'.
Proof.
  intros [HT Hsb HR] Hat (_ & _ & Hnl). pose proof Hat as (x & Hx & Px & Ex). destruct (ro_use _ _ _ _ HR _ _ Hx Px) as (_ & Href & Hval). subst i. split_and!.
  - apply (iput_plain n p Hr Hx). destruct (Z.eqb_spec (i_valid x) 0) as [|Hv]; [by rewrite andb_false_r|]. rewrite (proj2 (Z.eqb_neq (i_nlink x) 0)); [by rewrite andb_false_r|].
    change (i_nlink x) with (di_nlink (inode_disk x)). by rewrite Hval.
  - split; [by apply txn_itable|done|]. by apply (refs_down _ _ _ (i_inum x)).
  - intros nx i' Hi' (y & Hy & Py & Ey). change (itable (k <| itable ::= alter ref_down ip |>)) with (alter ref_down ip (itable k)). destruct (decide (nx = ip)) as [->|Hne].
    + rewrite Hx in Hy. injection Hy as <-. exists (ref_down x). rewrite list_lookup_alter_eq, Hx. split_and!; [done| |done]. cbn. rewrite <- Ey, elem_of_multiplicity in Hi'. rewrite Href, mult_one. lia.
    + exists y. rewrite list_lookup_alter_ne by done. done.
Qed.

Lemma iunlockput_walk R k ip i x : wstate (hold (SLInode ip) p t) ({[+ i +]} ⊎ R) k -> itable k !! ip = Some x -> loaded S V i x -> live S V i ->
  exists k', iunlockput (Some ip) n (MkK (hold (SLInode ip) p t) k) = Ret tt (MkK t k') /\ wstate t R k' /\ same_os k k' /\
    forall nx i', i' ∈ R -> at_inode (itable k) nx i' -> at_inode (itable k') nx i'.
Proof.
  intros [HT Hsb HR] Hx Hl Hi. pose proof Hl as (_ & Ei & Px & _). unfold iunlockput. rewrite (bind_ret _ _ _ _ _ _ (iunlock_held k ip x Hx Px)). cbn [deref]. rewrite ret_bind.
  destruct (iput_walk R k ip i) as (E & HW & Hnx); [split; [by eapply txn_unhold|done|done]|by exists x|done|]. eexists. split_and!; [exact E|exact HW|apply same_os_itable|exact Hnx].
Qed.

Lemma dom_more (i : Z) (R : gmultiset Z) : (size (dom ({[+ i +]} ⊎ R)) <= Datatypes.S (size (dom R)))%nat.
Proof.
  assert (dom ({[+ i +]} ⊎ R) ⊆ {[ i ]} ∪ dom R) as Hs by (intros z; rewrite elem_of_union, elem_of_singleton, !gmultiset_elem_of_dom; multiset_solver).
  apply subseteq_size in Hs. pose proof (size_union_alt ({[ i ]} : gset Z) (dom R)) as E. rewrite size_singleton in E.
  pose proof (subseteq_size (dom R ∖ {[ i ]}) (dom R) ltac:(set_solver)). lia.
Qed.

(** Looking up an element in the locked directory. *)
Lemma dirlookup_walk R k ip i x name : wstate (hold (SLInode ip) p t) ({[+ i +]} ⊎ R) k -> itable k !! ip = Some x -> loaded S V i x -> live S V i ->
  di_type (disk_inode S V i) = T_DIR -> length name = Z.to_nat DIRSIZ -> (size (dom R) + 1 < Z.to_nat NINODE)%nat ->
  runs env (dirlookup ip name n (MkK (hold (SLInode ip) p t) k)) (fun r s' => exists k' x', s' = MkK (hold (SLInode ip) p t) k' /\ itable k' !! ip = Some x' /\ loaded S V i x' /\ same_os k k' /\
    match dir_find V (inode_of S V i) (strcut name) with
    | None => r = None /\ wstate (hold (SLInode ip) p t) ({[+ i +]} ⊎ R) k'
    | Some m => let i' := de_inum (dirent V (inode_of S V i) m) in exists nx off, r = Some (nx, off) /\ wstate (hold (SLInode ip) p t) ({[+ i' +]} ⊎ ({[+ i +]} ⊎ R)) k' /\ at_inode (itable k') nx i'
    end).
Proof.
  intros [HT Hsb HR] Hx Hl Hi Hd Hnm Hcap. destruct (loaded_dir ds S V i x Htree Hi Hl Hd) as (Hf & Hw & Hdir & Hde). pose proof (wstate_rest ip) as Hr1.
  assert (fstate p s o ∅ bl V D (hold (SLInode ip) p t) S ip x k) as HF by (by split).
  assert (dir_len (inode_of S V i) < n)%nat as HN. { pose proof (iw_size _ _ Hw) as Hsz. rewrite (dk_size _ _ _ Hdir) in Hsz. revert Hsz HnD. unfold DIRENT_SIZE, MAXFILE, BSIZE, NINDIRECT, NDIRECT. lia. }
  assert (forall j, named V x name j = is_entry V (inode_of S V i) (strcut name) j) as Hnamed by (intros j; rewrite named_entry by done; unfold is_entry; by rewrite Hde).
  destruct (dir_find V (inode_of S V i) (strcut name)) as [m|] eqn:Ef.
  - apply dir_find_some in Ef as (Hm & Hy & Hno). destruct (refs_iget (itable k) _ (de_inum (dirent V (inode_of S V i) m)) HR) as (nx & it' & Eg & [HR' Hat] & Hkeep); [pose proof (dom_more i R); lia|].
    eapply runs_mono; [|apply (dirlookup_found env n p Hn Hr1 HnS Hfs Hf Hw Hbl Hdir name k m nx it' HN HF (ro_len _ _ _ _ HR) Hm); [by rewrite Hnamed|intros j Hj; rewrite Hnamed; by apply Hno|by rewrite Hde]].
    intros r ? (-> & k' & -> & HT' & F & Eit). pose proof (same_os_sb _ _ F) as Hsb'. rewrite Hsb in Hsb'. pose proof Hl as (L1 & L2 & L3 & L4 & L5).
    destruct (Hkeep ip x Hx L3) as [Hx'|Hx']; [exists k', x|exists k', (ref_up x)]; (split_and!; [done|by rewrite Eit| |done|]).
    2, 4: (exists nx, (DIRENT_SIZE * Z.of_nat m); split_and!; [done|split; [done|done|by rewrite Eit]|by rewrite Eit]).
    + done.
    + split_and!; try done. cbn. lia.
  - eapply runs_mono; [|apply (dirlookup_none env n p Hn Hr1 HnS Hfs Hf Hw Hbl Hdir name k HN HF); intros j Hj; rewrite Hnamed; by apply (dir_find_none _ _ _ Ef)].
    intros r ? (-> & k' & -> & HT' & F). exists k', x. split_and!; [done|apply HT'|done|by apply same_fs_os|done|]. split; [apply HT'|apply HT'|by rewrite (sf_itable _ _ F)].
Qed.

(** The outcome of [namex] from inode [i]: one more reference, to the inode
    found, or none. *)
Definition walked (parent : bool) (k : kern) (i : Z) (es : list (list Z)) (R : gmultiset Z) (r : option (nat * list Z)) (s' : kst kern) : Prop :=
  exists k', s' = MkK t k' /\ same_os k k' /\
    match target parent S V i es with
    | Some (i', e) => exists ip name, r = Some (ip, name) /\ wstate t ({[+ i' +]} ⊎ R) k' /\ at_inode (itable k') ip i' /\ (parent = true -> strcut name = e)
    | None => r = None /\ wstate t R k'
    end.

Lemma walked_from parent k1 k i es R r s' : same_os k k1 -> walked parent k1 i es R r s' -> walked parent k i es R r s'.
Proof. intros F (k' & -> & F' & H). exists k'. split_and!; [done|by transitivity k1|done]. Qed.

Lemma namex_loop parent R : (size (dom R) + 1 < Z.to_nat NINODE)%nat -> forall m path name ip i k fuel, (length path < m)%nat -> (m <= fuel)%nat ->
  wstate t ({[+ i +]} ⊎ R) k -> at_inode (itable k) ip i -> live S V i -> Forall (fun c => c <> 0) path -> length name = Z.to_nat DIRSIZ ->
  runs env (mwhile fuel (namex_body parent) (ip, path, name) n (MkK t k)) (walked parent k i (elements path) R).
Proof.
  intros Hcap. induction m as [|m IH]; intros path name ip i k fuel Hlen Hfu HW Hat Hi Hp Hnm; [lia|]. destruct fuel as [|fuel]; [lia|]. apply runs_mwhile_inl. unfold namex_body.
  pose proof (skipelem_elements path name Hp Hnm) as Hsk. destruct (skipelem path name) as [[path' name']|].
  2: { rewrite Hsk. destruct parent.
    - destruct (iput_walk R k ip i HW Hat Hi) as (E & HW' & _). rewrite (bind_ret _ _ _ _ _ _ E). eapply runs_ret; [reflexivity|]. eexists. split; [done|]. split; [apply same_os_itable|by split].
    - eapply runs_ret; [reflexivity|]. exists k. split; [done|]. split; [reflexivity|]. cbn. by exists ip, name. }
  destruct Hsk as (He & Hp' & Hnm' & Hlt & Hlast). rewrite He. apply runs_bind. eapply runs_mono; [|by apply ilock_walk]. intros [] ? (k1 & x & -> & HW1 & Hx & Hl & F1).
  rewrite (geti_bind _ _ _ _ _ _ Hx). pose proof Hl as (_ & _ & Px & _ & Hdisk). change (i_type x) with (di_type (inode_disk x)). rewrite Hdisk.
  destruct (Z.eqb_spec (di_type (disk_inode S V i)) T_DIR) as [Hd|Hd]; cbn [negb].
  2: { destruct (iunlockput_walk R k1 ip i x HW1 Hx Hl Hi) as (k2 & E & HW2 & F2 & _). rewrite (bind_ret _ _ _ _ _ _ E). eapply runs_ret; [reflexivity|]. exists k2. rewrite target_other by done. split_and!; [done|by transitivity k1|done|done]. }
  destruct (parent && (hd 0 path' =? 0)) eqn:Epar.
  { apply andb_true_iff in Epar as [-> Hh]. apply Z.eqb_eq in Hh. apply Hlast in Hh. rewrite (bind_ret _ _ _ _ _ _ (iunlock_held k1 ip x Hx Px)). eapply runs_ret; [reflexivity|]. exists k1. do 2 (split; [done|]).
    rewrite Hh. cbn [target walk_parent]. rewrite Hd, Z.eqb_refl. exists ip, name'. destruct HW1 as [HT1 Hsb1 HR1]. split_and!; [done|split; [by eapply txn_unhold|done|done]| |done]. exists x. by destruct Hl as (_ & ? & _). }
  unfold walked. rewrite target_cons; [|done|]. 2: { destruct parent; [|done]. cbn [andb] in *. apply Z.eqb_neq in Epar. apply bool_decide_eq_false. by rewrite <- Hlast. }
  apply runs_bind. eapply runs_mono; [|by apply (dirlookup_walk R k1 ip i x)]. intros r ? (k2 & x' & -> & Hx' & Hl' & F2 & Hf). assert (same_os k k2) as F by (by transitivity k1).
  destruct (dir_find V (inode_of S V i) (strcut name')) as [j|] eqn:Ef.
  - destruct Hf as (nx & off & -> & HW2 & Hat2). set (i' := de_inum (dirent V (inode_of S V i) j)) in *. cbv beta iota.
    rewrite (assoc (⊎)), (comm (⊎) {[+ i' +]}), <- (assoc (⊎)) in HW2. destruct (iunlockput_walk _ k2 ip i x' HW2 Hx' Hl' Hi) as (k3 & E & HW3 & F3 & Hnx). rewrite (bind_ret _ _ _ _ _ _ E). eapply runs_ret; [reflexivity|].
    eapply runs_mono; [intros r s'; apply (walked_from _ k3); by transitivity k2|].
    apply IH; [lia|lia|done|apply Hnx; [apply in_more|done]| |done|done]. apply dir_find_some in Ef as (Hj & Hu & _). apply (tk_live _ _ _ Htree i j Hi Hd Hj).
    unfold is_entry in Hu. fold i' in Hu |- *. by destruct (Z.eqb_spec i' 0).
  - destruct Hf as [-> HW2]. destruct (iunlockput_walk R k2 ip i x' HW2 Hx' Hl' Hi) as (k3 & E & HW3 & F3 & _). cbv beta iota. rewrite (bind_ret _ _ _ _ _ _ E). eapply runs_ret; [reflexivity|]. exists k3. split_and!; [done|by transitivity k2|done|done].
Qed.
End walk.

Lemma namex_spec env (BD : BlockDev env) n p s o ds bl V D S t R k path parent i :
  (Z.to_nat BPB < n)%nat -> (Z.to_nat (sb_size S / BPB) < n)%nat -> (Z.to_nat (MAXFILE * BSIZE / DIRENT_SIZE) < n)%nat -> (length path < n)%nat ->
  rest p t -> fs_ok s ds S V -> tree_ok ds S V -> (length bl < nbuf)%nat -> (forall ip, slks t !! SLInode ip = None) ->
  wstate (s := s) (o := o) (bl := bl) (V := V) (D := D) (S := S) p t R k -> (size (dom R) + 1 < Z.to_nat NINODE)%nat -> Forall (fun c => c <> 0) path ->
  live S V i -> (if hd 0 path =? slash then i = ROOTINO else exists q c, procs t !! p = Some q /\ p_cwd q = Some c /\ at_inode (itable k) c i) ->
  runs env (namex path parent n (MkK t k)) (walked (s := s) (o := o) (bl := bl) (V := V) (D := D) (S := S) (t := t) p parent k i (elements path) R).
Proof.
  intros Hn HnS HnD Hlen Hr Hfs Htree Hbl Hlk HW Hcap Hp Hi Hst. pose proof HW as [HT Hsb HR]. unfold namex.
  assert (exists ip f, (if hd 0 path =? slash then iget ROOTDEV ROOTINO else p ← myproc; p ← deref p; q ← getp p; cwd ← deref (p_cwd q); idup cwd) n (MkK t k) = Ret ip (MkK t (k <| itable ::= f |>)) /\
    refs_ok S V (f (itable k)) ({[+ i +]} ⊎ R) /\ at_inode (f (itable k)) ip i) as (ip & f & E & HR' & Hat).
  { pose proof (ca_ok _ _ (re_calm _ _ Hr)) as Hc. pose proof (re_lks _ _ Hr) as Hl. destruct (hd 0 path =? slash).
    - subst i. destruct (refs_iget (itable k) R ROOTINO HR ltac:(lia)) as (j & it' & Eg & [HR' Hat] & _).
      destruct (iget_to_eval n t k ROOTDEV ROOTINO j it') as (f & -> & E); [change (Z.to_nat NINODE) with 50%nat; unfold BPB, BSIZE in Hn; lia|done|by rewrite Hl|apply HR|done|]. by exists j, f.
    - destruct Hst as (q & c & Hq & Hcw & Hat). exists c, (alter ref_up c). split; [|by apply refs_up]. rewrite myproc_bind, (ca_proc _ _ (re_calm _ _ Hr)) by done. cbn [deref]. rewrite ret_bind, getp_bind, Hq. cbn [default]. unfold id.
      rewrite Hcw. cbn [deref]. rewrite ret_bind. unfold idup. rewrite acquire_bind by (by rewrite Hl). unfold modi. rewrite modX_bind. by rewrite release_bind by (done || by rewrite Hl). }
  rewrite (bind_ret _ _ _ _ _ _ E). set (kk := k <| itable ::= f |>).
  eapply runs_mono; [intros r s'; apply walked_from with (k1 := kk); apply same_os_itable|].
  apply (namex_loop env n p Hn HnS HnD Hr Hfs Htree Hbl Hlk parent R Hcap n path _ ip i kk n); [done|done|split; [by apply txn_itable|done|done]|done|done|done|done].
Qed.

(** C4: path resolution.  On a disk whose directories are well formed and name
    inodes in use, [namex] walks exactly as the specification: from the root
    for an absolute path and from the current directory for a relative one,
    along the path's elements (the non-empty pieces between slashes, up to 14
    bytes each), each looked up among the entries of an inode that must be a
    directory.  It ends, and returns the table entry of the inode reached with one
    more reference, for [nameiparent] the directory of the last element and
    that element; or nothing, if an element is missing or not in a directory.
    All other references are as before, no inode is freed, the disk and the rest
    of the kernel's state are not changed and every lock is free again. *)
Theorem namex_correct env (BD : BlockDev env) n p s o ds bl V D S t R k path parent i :
  (Z.to_nat BPB < n)%nat -> (Z.to_nat (sb_size S / BPB) < n)%nat -> (Z.to_nat (MAXFILE * BSIZE / DIRENT_SIZE) < n)%nat -> (length path < n)%nat ->
  rest p t -> fs_ok s ds S V -> tree_ok ds S V -> (length bl < nbuf)%nat -> (forall ip, slks t !! SLInode ip = None) ->
  wstate (s := s) (o := o) (bl := bl) (V := V) (D := D) (S := S) p t R k -> (size (dom R) + 1 < Z.to_nat NINODE)%nat -> Forall (fun c => c <> 0) path ->
  live S V i -> (if hd 0 path =? slash then i = ROOTINO else exists q c, procs t !! p = Some q /\ p_cwd q = Some c /\ at_inode (itable k) c i) ->
  runs env (namex path parent n (MkK t k)) (walked (s := s) (o := o) (bl := bl) (V := V) (D := D) (S := S) (t := t) p parent k i (elements path) R).
Proof. intros. by eapply namex_spec. Qed.

(** A kernel that has just started a transaction on the disk [V]: nothing is
    cached, the log is empty and no inode is in use. *)
Definition fresh_kern (S : superblock) (V : gmap Z (list Z)) : kern :=
  (kern0 V) <| bufs := binit_bufs |> <| lg := MkLog 2 LOGSIZE 1 0 ROOTDEV 0 (replicate 30 0) |> <| sb := S |> <| itable := replicate 50 inode0 |>.

Lemma fresh_wstate ds S V : fs_ok 2 ds S V -> disk_wf V -> V !! 2 = Some (fill 0) ->
  wstate (s := 2) (o := 1) (bl := []) (V := V) (D := V) (S := S) 0 Kalloc.demo_T ∅ (fresh_kern S V).
Proof.
  intros Hfs Hwf Hlog. split; [|done|].
  - split; try done.
    + exists (reverse (seq 0 nbuf)). exact (binit_bcache 0 Kalloc.demo_T (fresh_kern S V) eq_refl demo_virtio_idle Hwf eq_refl).
    + apply home_nil.
    + pose proof (ly_data (fs_layout Hfs)). split_and!; [done|done|]. intros b Hb. unfold in_log in Hb. apply (fs_dom Hfs). lia.
    + eexists. split; [exact Hlog|apply demo_head].
  - assert (forall j x, itable (fresh_kern S V) !! j = Some x -> x = inode0) as Hz by (intros j x Hx; change (replicate 50 inode0 !! j = Some x) in Hx; by apply lookup_replicate in Hx as [-> _]).
    split; [done| | | |].
    + intros j x ->%Hz. done.
    + intros j x ->%Hz. done.
    + intros i j x y ->%Hz _ ?. done.
    + intros i Hi. by apply gmultiset_elem_of_empty in Hi.
Qed.

(** A tree: inode 1 is the root with the entry "hi" for the empty file 2. *)
Definition tree_root : dinode := MkDinode T_DIR 0 0 1 32 (34 :: replicate 12 0).
Definition tree_file : dinode := MkDinode T_FILE 0 0 1 0 (replicate 13 0).
Definition tree_disk : gmap Z (list Z) := put_inode fs_sb (put_inode fs_sb fs_disk 1 tree_root) 2 tree_file.
Lemma tree_facts : fs_ok 2 34 fs_sb tree_disk /\ disk_wf tree_disk /\ (forall b, b <> 32 -> tree_disk !! b = fs_disk !! b).
Proof.
  assert (dinode_wf tree_root /\ dinode_wf tree_file) as [W1 W2] by (split; split; cbn; try lia; try (apply (bool_decide_unpack _); by vm_compute); done).
  assert (0 <= 1 < sb_ninodes fs_sb /\ 0 <= 2 < sb_ninodes fs_sb) as [B1 B2] by (cbn; lia).
  pose proof (put_inode_fs_ok (d := tree_root) fs_demo_ok B1) as F1. pose proof (put_inode_wf _ _ _ _ _ _ fs_demo_ok fs_disk_wf B1 W1) as D1. split_and!.
  - apply (put_inode_fs_ok F1 B2).
  - by apply (put_inode_wf _ _ _ _ _ _ F1 D1).
  - intros b Hb. unfold tree_disk, put_inode. rewrite !fs_iblock, !lookup_insert_ne by (done || lia). done.
Qed.

Lemma tree_live i : live fs_sb tree_disk i -> i = 1 \/ i = 2.
Proof.
  intros (Hi & Ht & _). cbn in Hi. assert (forallb (fun i => (di_type (disk_inode fs_sb tree_disk i) =? 0) || (i =? 1) || (i =? 2)) (seqZ 0 10) = true) as H by (by vm_compute).
  rewrite forallb_forall in H. specialize (H i ltac:(apply list_elem_of_In, elem_of_seqZ; lia)). rewrite !orb_true_iff, !Z.eqb_eq in H. tauto.
Qed.

Lemma tree_inode1 : inode_of fs_sb tree_disk 1 = handle 1 1 (fs_inode2 <| i_inum := 1 |>) /\ di_type (disk_inode fs_sb tree_disk 2) = T_FILE.
Proof. split; vm_compute; reflexivity. Qed.

Lemma tree_blk bn : 0 <= bn < MAXFILE -> fblk tree_disk fs_inode2 bn = if decide (bn = 0) then 34 else 0.
Proof. apply fs_blk2. Qed.

Lemma tree_root_file : file_ok 34 fs_sb tree_disk fs_inode2 /\ inode_wf fs_sb (fs_inode2 <| i_inum := 1 |>) /\ dense tree_disk fs_inode2.
Proof.
  destruct tree_facts as (_ & _ & Hsame). destruct fs_file2 as (F & W & Hd). split_and!.
  - split; [done|done|done| |].
    + intros bn Hbn. rewrite tree_blk by done. case_decide; [|done]. intros _. split; [|done]. split; [cbn; lia|]. unfold used. rewrite fs_bblock, Hsame by lia. rewrite <- (fs_bblock 34) by lia. fold (used fs_sb fs_disk 34). by rewrite fs_used by lia.
    + apply (fo_inj F).
  - destruct W. by split.
  - exact Hd.
Qed.

Lemma tree_demo_ok : tree_ok 34 fs_sb tree_disk.
Proof.
  destruct tree_inode1 as [E1 E2]. destruct tree_root_file as (F & W & Hd).
  assert (forall i, live fs_sb tree_disk i -> di_type (disk_inode fs_sb tree_disk i) = T_DIR -> i = 1) as Hone.
  { intros i [->| ->]%tree_live; [done|]. by rewrite E2. }
  split.
  - intros i Hi Ht. rewrite (Hone i Hi Ht), E1. split; [|by apply handle_wf]. apply handle_file. destruct F as [F1 F2 F3 F4 F5]. split; [exact F1|exact F2|exact F3|exact F4|exact F5].
  - intros i Hi Ht. rewrite (Hone i Hi Ht), E1. apply handle_dir. split; [done|done|exact Hd].
  - intros i j Hi Ht. rewrite (Hone i Hi Ht). clear. rewrite (proj1 tree_inode1). intros Hj. change (dir_len (handle 1 1 (fs_inode2 <| i_inum := 1 |>))) with 2%nat in Hj. destruct j as [|[|j]]; [by vm_compute| |lia].
    intros _. vm_compute. by split_and!.
Qed.

(** [namei("/hi")]. *)
Definition path_fuel : nat := Z.to_nat 20000.
Lemma path_fuel_ok : (Z.to_nat BPB < path_fuel)%nat /\ (Z.to_nat (sb_size fs_sb / BPB) < path_fuel)%nat /\ (Z.to_nat (MAXFILE * BSIZE / DIRENT_SIZE) < path_fuel)%nat /\ (length [47; 104; 105] < path_fuel)%nat.
Proof. unfold path_fuel. change (MAXFILE * BSIZE / DIRENT_SIZE) with 17152. change (sb_size fs_sb / BPB) with 0. change BPB with 8192. cbn [length]. lia. Qed.
Lemma tree_target : target false fs_sb tree_disk 1 (elements [47; 104; 105]) = Some (2, []) /\ live fs_sb tree_disk 1 /\ Forall (fun c => c <> 0) [47; 104; 105].
Proof. split; [vm_compute; reflexivity|split; [|by repeat constructor]]. vm_compute. by split_and!. Qed.
Lemma tree_room : (size (dom (∅ : gmultiset Z)) + 1 < Z.to_nat NINODE)%nat /\ forall ip, slks Kalloc.demo_T !! SLInode ip = None.
Proof. split; [vm_compute; lia|done]. Qed.

Lemma namex_correct_witness : exists ip name k', solo (disk_env demo_device 2) (namex [47; 104; 105] false path_fuel (MkK Kalloc.demo_T (fresh_kern fs_sb tree_disk))) = Some (Some (ip, name), MkK Kalloc.demo_T k') /\
  at_inode (itable k') ip 2.
Proof.
  destruct tree_facts as (Hfs & Hwf & Hsame). assert (tree_disk !! 2 = Some (fill 0)) as Hlog by (rewrite Hsame by done; apply fs_disk_lookup; lia). destruct path_fuel_ok as (F1 & F2 & F3 & F4). destruct tree_target as (HT & Hl & Hp).
  destruct tree_room as [Hc Hs].
  pose proof (namex_correct _ fs_dev path_fuel 0 2 1 34 [] tree_disk tree_disk fs_sb Kalloc.demo_T ∅ (fresh_kern fs_sb tree_disk) [47; 104; 105] false 1 F1 F2 F3 F4 demo_rest Hfs tree_demo_ok fs_no_bufs Hs (fresh_wstate 34 fs_sb tree_disk Hfs Hwf Hlog) Hc Hp Hl eq_refl) as HR.
  destruct (proj1 (runs_some _ _ _) HR) as (r & s' & E & k' & -> & _ & HW). rewrite HT in HW. destruct HW as (ip & name & -> & _ & Hat & _). exists ip, name, k'. split; [exact E|exact Hat].
Defined.
