(* ===== verification/Uart.v ===== *)
(** * The serial port: [kernel/uart.c], and [consputc] of [kernel/console.c]

    Output from [write] goes through a ring of 32 characters that the
    transmit interrupt drains; kernel messages and echoed input are sent
    synchronously.  [uartintr] is in Console.v, with the console it feeds. *)

From Stdlib Require Import ZArith Lia.
From S2P Require Import Prelude Riscv Thread Proc Kern.

Definition RHR : Z := 0.
Definition THR : Z := 0.
Definition IER : Z := 1.
Definition IER_RX_ENABLE : Z := Z.shiftl 1 0.
Definition IER_TX_ENABLE : Z := Z.shiftl 1 1.
Definition FCR : Z := 2.
Definition FCR_FIFO_ENABLE : Z := Z.shiftl 1 0.
Definition FCR_FIFO_CLEAR : Z := Z.shiftl 3 1.
Definition LCR : Z := 3.
Definition LCR_EIGHT_BITS : Z := Z.shiftl 3 0.
Definition LCR_BAUD_LATCH : Z := Z.shiftl 1 7.
Definition LSR : Z := 5.
Definition LSR_RX_READY : Z := Z.shiftl 1 0.
Definition LSR_TX_IDLE : Z := Z.shiftl 1 5.

(** Registers are unsigned bytes. *)
Definition ReadReg (reg : Z) : KK Z := v ← mmio_read (UART0 + reg); mret (u8 v).
Definition WriteReg (reg v : Z) : KK () := mmio_write (UART0 + reg) (u8 v).

Definition UART_TX_BUF_SIZE : Z := 32.

Definition getu {A} (f : uarts -> A) : KK A := getX (fun k => f (uart k)).
Definition modu (f : uarts -> uarts) : KK () := modX (fun k => k <| uart ::= f |>).

Definition uartinit : KK () :=
  WriteReg IER 0x00 ;;
  WriteReg LCR LCR_BAUD_LATCH ;;
  WriteReg 0 0x03 ;;
  WriteReg 1 0x00 ;;
  WriteReg LCR LCR_EIGHT_BITS ;;
  WriteReg FCR (Z.lor FCR_FIFO_ENABLE FCR_FIFO_CLEAR) ;;
  WriteReg IER (Z.lor IER_TX_ENABLE IER_RX_ENABLE) ;;
  initlock LkUart.

Definition uartstart_body (_ : ()) : KK (() + ()) :=
  u ← getu id;
  if tx_w u =? tx_r u then mret (inr tt) else
  l ← ReadReg LSR;
  if Z.land l LSR_TX_IDLE =? 0 then mret (inr tt) else
  u ← getu id;
  let c := default 0 (tx_buf u !! Z.to_nat (tx_r u mod UART_TX_BUF_SIZE)) in
  modu (fun u => u <| tx_r := u64 (tx_r u + 1) |>) ;;
  wakeup ChUartTx ;;
  WriteReg THR c ;;
  mret (inl tt).

Definition uartstart : KK () := mloop uartstart_body tt.

Definition uartputc_body (c : Z) (_ : ()) : KK (() + ()) :=
  u ← getu id;
  if tx_w u =? u64 (tx_r u + UART_TX_BUF_SIZE) then
    sleep ChUartTx LkUart ;;
    mret (inl tt)
  else
    modu (fun u => u <| tx_buf ::= <[Z.to_nat (tx_w u mod UART_TX_BUF_SIZE) := u8 c]> |>) ;;
    modu (fun u => u <| tx_w := u64 (tx_w u + 1) |>) ;;
    uartstart ;;
    release LkUart ;;
    mret (inr tt).

Definition uartputc (c : Z) : KK () :=
  acquire LkUart ;;
  p ← getX panicked;
  if negb (p =? 0) then spin else
  mloop (uartputc_body c) tt.

(** [while((ReadReg(LSR) & LSR_TX_IDLE) == 0) ;] *)
Definition tx_wait_body (_ : ()) : KK (() + ()) :=
  l ← ReadReg LSR;
  if Z.land l LSR_TX_IDLE =? 0 then mret (inl tt) else mret (inr tt).

Definition uartputc_sync (c : Z) : KK () :=
  push_off ;;
  p ← getX panicked;
  if negb (p =? 0) then spin else
  mloop tx_wait_body tt ;;
  WriteReg THR c ;;
  pop_off.

Definition uartgetc : KK Z :=
  l ← ReadReg LSR;
  if negb (Z.land l 0x01 =? 0) then ReadReg RHR else mret (-1).

(** console.c *)
Definition BACKSPACE : Z := 0x100.

Definition consputc (c : Z) : KK () :=
  if c =? BACKSPACE then
    uartputc_sync 8 ;;
    uartputc_sync 32 ;;
    uartputc_sync 8
  else uartputc_sync c.

(** ** Sending a character

    [uartputc_sync] polls the line status until the transmitter is idle and
    then stores the character.  On a port that drains it ends, with exactly
    the character sent and the interrupt state as it was. *)

(** Among any [n] reads of the line status, one finds the transmitter idle. *)
Definition drains (n : nat) (k : kern) : Prop :=
  forall i, exists j, (j < n)%nat /\ Z.land (u8 (io_rd k (i + j)%nat (UART0 + LSR))) LSR_TX_IDLE <> 0.

(** The kernel's data after [cs] were sent, with [j] reads of the status. *)
Definition sent (j : nat) (cs : list Z) (k : kern) : kern :=
  k <| io_n ::= fun i => (i + j)%nat |> <| io_wr ::= fun l => l ++ ((fun c => (UART0 + THR, c)) <$> cs) |>.

Lemma sent_sent j cs j' cs' k : sent j' cs' (sent j cs k) = sent (j + j') (cs ++ cs') k.
Proof. destruct k. unfold sent, upd. cbn. by rewrite fmap_app, Nat.add_assoc, app_assoc. Qed.
Lemma sent_nil k : sent 0 [] k = k.
Proof. destruct k. unfold sent, upd. cbn. by rewrite Nat.add_0_r, app_nil_r. Qed.
Lemma drains_sent n j cs k : drains n k -> drains n (sent j cs k).
Proof. done. Qed.

Section uart.
Context (n : nat).

Definition idle (k : kern) : bool := negb (Z.land (u8 (io_rd k (io_n k) (UART0 + LSR))) LSR_TX_IDLE =? 0).

Lemma tx_poll t k : tx_wait_body tt n (MkK t k) = Ret (if idle k then inr tt else inl tt) (MkK t (sent 1 [] k)).
Proof.
  unfold tx_wait_body, ReadReg, idle. erewrite bind_ret; [|by rewrite mmio_read_bind].
  destruct (Z.land _ _ =? 0), k; unfold sent, upd; cbn; by rewrite app_nil_r, Nat.add_1_r.
Qed.

Lemma tx_wait t : forall m fuel k, (m < fuel)%nat -> idle (sent m [] k) = true ->
  exists j, mwhile fuel tx_wait_body tt n (MkK t k) = Ret tt (MkK t (sent j [] k)).
Proof.
  induction m as [|m IH]; intros [|fuel] k Hf Hm; try lia; pose proof (tx_poll t k) as E.
  - rewrite sent_nil in Hm. rewrite Hm in E. exists 1%nat. by apply mwhile_inr.
  - destruct (idle k); [exists 1%nat; by apply mwhile_inr|]. destruct (IH fuel (sent 1 [] k)) as [j Hj]; [lia|by rewrite sent_sent|].
    rewrite sent_sent in Hj. exists (1 + j)%nat. rewrite (mwhile_inl _ _ _ _ _ _ _ E). exact Hj.
Qed.

Context (t : T) (Ht : cpu_ok t).

(** The kernel can send: it did not panic and the port drains. *)
Definition sends (k : kern) : Prop := panicked k = 0 /\ drains n k.

Lemma uartputc_sync_spec c k : sends k -> exists j, uartputc_sync c n (MkK t k) = Ret tt (MkK t (sent j [u8 c] k)).
Proof.
  intros [Hp Hd]. destruct (Hd (io_n k)) as (m & Hm & Hz). destruct (tx_wait (t_off t) m n k Hm) as [j Hj]; [by apply negb_true_iff, Z.eqb_neq|]. exists j.
  unfold uartputc_sync. rewrite (bind_ret _ _ _ _ _ _ (push_off_spec n t k)), getX_bind, Hp. cbn [Z.eqb negb].
  rewrite (bind_ret (mloop tx_wait_body tt) _ _ _ _ _ Hj). unfold WriteReg. rewrite mmio_write_bind, pop_off_spec by done.
  do 2 f_equal. destruct k. unfold sent, upd. cbn. by rewrite app_nil_r.
Qed.

Lemma sends_sent j cs k : sends k -> sends (sent j cs k).
Proof. done. Qed.

(** Backspace, space, backspace. *)
Definition rubout : list Z := [8; 32; 8].
Definition put (c : Z) : list Z := if c =? BACKSPACE then rubout else [u8 c].

Lemma consputc_spec c k : sends k -> exists j, consputc c n (MkK t k) = Ret tt (MkK t (sent j (put c) k)).
Proof.
  intros Hs. unfold consputc, put. destruct (c =? BACKSPACE); [|by apply uartputc_sync_spec].
  destruct (uartputc_sync_spec 8 k Hs) as [j1 E1]. destruct (uartputc_sync_spec 32 _ (sends_sent j1 [u8 8] k Hs)) as [j2 E2]. rewrite sent_sent in E2.
  destruct (uartputc_sync_spec 8 _ (sends_sent (j1 + j2) ([u8 8] ++ [u8 32]) k Hs)) as [j3 E3]. rewrite sent_sent in E3.
  exists (j1 + j2 + j3)%nat. rewrite (bind_ret _ _ _ _ _ _ E1), (bind_ret _ _ _ _ _ _ E2). exact E3.
Qed.
End uart.
