(* ===== verification/Printf.v ===== *)
(** * Kernel messages: [kernel/printf.c], and [procdump] and [procinfo] of
    [kernel/proc.c]

    Strings are lists of character codes; the variable arguments of [printf]
    are a list of [parg].  An argument that is missing or has the wrong type
    for its conversion is undefined behaviour. *)

From Stdlib Require Import ZArith Lia Ascii String.
From S2P Require Import Prelude Riscv KString Thread Proc Kalloc Vm Kern Uart.

Definition digits : list Z := chars "0123456789abcdef".
Definition digit (i : Z) : Z := default 0 (digits !! Z.to_nat i).

(** The do-while loop of [printint]: least significant digit first. *)
Fixpoint digit_loop (fuel : nat) (x base : Z) : list Z :=
  match fuel with
  | O => []
  | S f => digit (x mod base) :: (if x / base =? 0 then [] else digit_loop f (x / base) base)
  end.

(** [buf] after the loops of [printint]; 32 rounds are enough for every
    32-bit value. *)
Definition printint_buf (xx base sign : Z) : list Z :=
  let neg := negb (sign =? 0) && (xx <? 0) in
  let x := if neg then u32 (- xx) else u32 xx in
  digit_loop 32 x base ++ (if neg then chars "-" else []).

Definition puts (l : list Z) : KK () :=
  meach (length l) 0 (fun i => consputc (default 0 (l !! Z.to_nat i))).

Definition printint (xx base sign : Z) : KK () := puts (reverse (printint_buf xx base sign)).

(** [for (i = 0; i < 16; i++, x <<= 4) consputc(digits[x >> 60])] *)
Fixpoint printptr_loop (k : nat) (x : Z) : KK () :=
  match k with
  | O => mret tt
  | S k' => consputc (digit (Z.shiftr x 60)) ;; printptr_loop k' (u64 (Z.shiftl x 4))
  end.

Definition printptr (x : Z) : KK () :=
  consputc 48 ;;
  consputc 120 ;;
  printptr_loop 16 x.

Inductive parg := AInt (x : Z) | APtr (x : Z) | AStr (s : option (list Z)).

Definition percent : Z := 37.

Fixpoint printf_loop (fmt : list Z) (args : list parg) : KK () :=
  match fmt with
  | [] => mret tt
  | c :: fmt' =>
      if c =? 0 then mret tt else
      if negb (c =? percent) then consputc c ;; printf_loop fmt' args else
      match fmt' with
      | [] => mret tt
      | c :: fmt'' =>
          if c =? 0 then mret tt else
          if c =? 100 (* d *) then
            match args with AInt x :: a => printint x 10 1 ;; printf_loop fmt'' a | _ => undef end
          else if c =? 120 (* x *) then
            match args with AInt x :: a => printint x 16 1 ;; printf_loop fmt'' a | _ => undef end
          else if c =? 112 (* p *) then
            match args with APtr x :: a => printptr x ;; printf_loop fmt'' a | _ => undef end
          else if c =? 115 (* s *) then
            match args with
            | AStr s :: a => puts (strcut (default (chars "(null)") s)) ;; printf_loop fmt'' a
            | _ => undef
            end
          else if c =? percent then consputc percent ;; printf_loop fmt'' args
          else consputc percent ;; consputc c ;; printf_loop fmt'' args
      end
  end.

Definition printf (fmt : list Z) (args : list parg) : KK () :=
  locking ← getX pr_locking;
  mwhen (negb (locking =? 0)) (acquire LkPr) ;;
  printf_loop fmt args ;;
  mwhen (negb (locking =? 0)) (release LkPr).

Definition newline : list Z := [10].

(** [panic] as a function: it prints and never returns.  Everywhere else a
    call of it is the result [Panic]. *)
Definition panic_c (s : list Z) : KK () :=
  modX (fun k => k <| pr_locking := 0 |>) ;;
  printf (chars "panic: ") [] ;;
  printf s [] ;;
  printf newline [] ;;
  modX (fun k => k <| panicked := 1 |>) ;;
  spin.

Definition printfinit : KK () :=
  initlock LkPr ;;
  modX (fun k => k <| pr_locking := 1 |>).

(** ** proc.c *)

(** [states[]] of [procdump] and [procinfo]: no name for USED. *)
Definition state_name (s : procstate) : option (list Z) :=
  match s with
  | UNUSED => Some (chars "unused") | USED => None | SLEEPING => Some (chars "sleep ")
  | RUNNABLE => Some (chars "runble") | RUNNING => Some (chars "run   ") | ZOMBIE => Some (chars "zombie")
  end.

Definition procdump_body (p : Z) : KK () :=
  q ← getp (Z.to_nat p);
  if bool_decide (p_state q = UNUSED) then mret tt else
  let state := default (chars "???") (state_name (p_state q)) in
  printf (chars "%d %s %s") [AInt (p_pid q); AStr (Some state); AStr (Some (p_name q))] ;;
  printf newline [].

Definition procdump : KK () :=
  printf newline [] ;;
  meach (Z.to_nat NPROC) 0 procdump_body.

(** [&it] is the address of a variable on the kernel stack; the last
    argument of [copyout] is the comparison [sizeof(tempproc) < 0], which is
    0, so the contents of [tempproc] are never looked at. *)
Definition procinfo_body (it_addr : Z) (scproc : option nat) : Z * Z -> KK ((Z * Z) + Z) :=
  fun '(p, counter) =>
  if negb (p <? NPROC) then mret (inr counter) else
  q ← getp (Z.to_nat p);
  match state_name (p_state q) with
  | None => mret (inl (p + 1, counter))
  | Some _ =>
      if bool_decide (p_state q = UNUSED) then mret (inl (p + 1, counter)) else
      printf (chars "Start assignment") [] ;;
      mwhen (negb (counter =? 0)) (parent ← deref (p_parent q); _ ← getp parent; mret tt) ;;
      printf (chars "Assignment done") [] ;;
      me ← deref scproc;
      mq ← getp me;
      r ← kmm (copyout (p_pagetable mq) it_addr [] 0);
      if negb (r =? 0) then
        printf (chars "PID failed" ++ newline) [] ;;
        mret (inr (-1))
      else mret (inl (p + 1, counter + 1))
  end.

Definition procinfo (it_addr : Z) : KK Z :=
  scproc ← myproc;
  mloop (procinfo_body it_addr scproc) (0, 0).
