(* ===== verification/ProcInfo.v ===== *)
(** * What [getprocs] delivers

    [procinfo] of [kernel/proc.c] walks the process table for [sys_getprocs].
    It returns the number of processes and prints two messages for each one,
    but the length it passes to [copyout] is the value of a comparison that is
    false: the caller's table stays as it was. *)

From Stdlib Require Import ZArith Lia Ascii String.
From S2P Require Import Prelude Riscv KString Thread Proc Kalloc Vm Kern VirtioSpec Uart Printf.

(** ** Messages *)

(** A character [printf] copies. *)
Definition plain (c : Z) : Prop := 0 < c < 256 /\ c <> percent.
#[export] Instance plain_dec c : Decision (plain c).
Proof. unfold plain. apply _. Defined.

Section printf.
Context (n : nat) (t : T) (Ht : cpu_ok t).

Lemma printf_loop_plain fmt args k : Forall plain fmt -> sends n k -> exists j, printf_loop fmt args n (MkK t k) = Ret tt (MkK t (sent j fmt k)).
Proof.
  intros Hf. revert k. induction Hf as [|c fmt [Hc Hp] Hf IH]; intros k Hs.
  - exists 0%nat. by rewrite sent_nil.
  - destruct (consputc_spec n t Ht c k Hs) as [j E]. destruct (IH (sent j (put c) k) Hs) as [j' E'].
    exists (j + j')%nat. cbn [printf_loop]. rewrite (proj2 (Z.eqb_neq c 0)), (proj2 (Z.eqb_neq c percent) Hp) by lia. cbn [negb].
    rewrite (bind_ret _ _ _ _ _ _ E), E', sent_sent. unfold put, BACKSPACE. rewrite (proj2 (Z.eqb_neq c 256)), u8_small by lia. done.
Qed.
End printf.

Lemma printf_plain n t k fmt args : cpu_ok t -> lks t !! LkPr = None -> Forall plain fmt -> sends n k ->
  exists j, printf fmt args n (MkK t k) = Ret tt (MkK t (sent j fmt k)).
Proof.
  intros Ht Hl Hf Hs. unfold printf. destruct (printf_loop_plain n t Ht fmt args k Hf Hs) as [j E].
  destruct (printf_loop_plain n (t_acq LkPr t) (cpu_ok_acq LkPr t Ht) fmt args k Hf Hs) as [j' E'].
  rewrite getX_bind. destruct (negb (pr_locking k =? 0)); cbn [mwhen].
  - exists j'. rewrite acquire_bind by done. rewrite (bind_ret _ _ _ _ _ _ E'). by apply release_spec.
  - exists j. rewrite ret_bind. by rewrite (bind_ret _ _ _ _ _ _ E).
Qed.

(** ** The table *)

(** The processes [procinfo] reports: those with a name for their state. *)
Definition live (q : proc) : Prop := p_state q <> UNUSED /\ p_state q <> USED.
#[export] Instance live_dec q : Decision (live q).
Proof. unfold live. apply _. Defined.

Definition report : list Z := chars "Start assignmentAssignment done".

Section procinfo.
Context {L : Layout} (n : nat) (t : T) (me : nat) (it_addr : Z).
Context (Ht : cpu_ok t) (Hl : lks t !! LkPr = None).

Lemma report_plain : Forall plain (chars "Start assignment") /\ Forall plain (chars "Assignment done").
Proof. split; apply (bool_decide_eq_true_1 _); by vm_compute. Qed.

(** [copyout] of no bytes does nothing. *)
Lemma copyout_none root va k : n <> 0%nat -> kmm (copyout root va [] 0) n (MkK t k) = Ret 0 (MkK t k).
Proof.
  intros Hn. unfold kmm. rewrite (kzoom_ret km (fun k' k => k <| km := k' |>) (copyout root va [] 0) n t k 0 t (km k)); [by destruct k|]. by apply mloop_inr.
Qed.

Definition parented (q : proc) : Prop := is_Some (p_parent q).

Lemma procinfo_step i c q k : n <> 0%nat -> sends n k -> procs t !! i = Some q -> Z.of_nat i < NPROC -> 0 <= c -> (live q -> c <> 0 -> parented q) ->
  exists j, procinfo_body it_addr (Some me) (Z.of_nat i, c) n (MkK t k) =
    Ret (inl (Z.of_nat i + 1, if decide (live q) then c + 1 else c)) (MkK t (sent j (if decide (live q) then report else []) k)).
Proof.
  intros Hn Hs Hq Hi Hc Hpar. unfold procinfo_body. rewrite (proj2 (Z.ltb_lt _ _) Hi). cbn [negb]. rewrite getp_bind, Nat2Z.id, Hq. cbn [default].
  unfold id. case_decide as Hlive.
  2: { exists 0%nat. rewrite sent_nil. unfold live in Hlive. destruct (p_state q) eqn:Es; cbn; try done; exfalso; apply Hlive; done. }
  destruct report_plain as [Hp1 Hp2]. destruct (printf_plain n t k _ [] Ht Hl Hp1 Hs) as [j1 E1].
  destruct (printf_plain n t (sent j1 (chars "Start assignment") k) _ [] Ht Hl Hp2 Hs) as [j2 E2]. rewrite sent_sent in E2.
  exists (j1 + j2)%nat. assert (exists nm, state_name (p_state q) = Some nm) as [nm Enm] by (destruct Hlive as [H1 H2]; destruct (p_state q); try done; by eexists).
  rewrite Enm, bool_decide_false by apply Hlive. rewrite (bind_ret _ _ _ _ _ _ E1).
  assert (mwhen (negb (c =? 0)) (parent ← deref (p_parent q); _ ← getp parent; mret tt) n (MkK t (sent j1 (chars "Start assignment") k)) = Ret tt (MkK t (sent j1 (chars "Start assignment") k))) as Ew.
  { destruct (Z.eqb_spec c 0); [done|]. cbn [negb mwhen]. destruct (Hpar Hlive) as [pp Hpp]; [done|]. rewrite Hpp, deref_bind, getp_bind. done. }
  rewrite (bind_ret _ _ _ _ _ _ Ew), (bind_ret _ _ _ _ _ _ E2), deref_bind, getp_bind, (bind_ret _ _ _ _ _ _ (copyout_none _ _ _ Hn)). done.
Qed.

Lemma procinfo_loop suf : forall pre fuel c k, (length suf < fuel)%nat -> n <> 0%nat -> sends n k -> procs t = pre ++ suf -> Z.of_nat (length (procs t)) = NPROC -> 0 <= c ->
  Forall parented (drop (if decide (c = 0) then 1 else 0) (filter live suf)) ->
  exists j, mwhile fuel (procinfo_body it_addr (Some me)) (Z.of_nat (length pre), c) n (MkK t k) =
    Ret (c + Z.of_nat (length (filter live suf))) (MkK t (sent j (mjoin (replicate (length (filter live suf)) report)) k)).
Proof.
  induction suf as [|q suf IH]; intros pre [|fuel] c k Hf Hn Hs Hp Hlen Hc Hpar; try (cbn in Hf; lia).
  - exists 0%nat. rewrite app_nil_r in Hp. apply mwhile_inr. unfold procinfo_body. rewrite <- Hp, Hlen. cbn. rewrite sent_nil. by rewrite Z.add_0_r.
  - assert (procs t !! length pre = Some q) as Hq by (rewrite Hp, lookup_app_r, Nat.sub_diag by lia; done).
    assert (Z.of_nat (length pre) < NPROC) as Hi by (apply lookup_lt_Some in Hq; lia).
    assert (procs t = (pre ++ [q]) ++ suf) as Hp' by (by rewrite <- app_assoc).
    rewrite filter_cons in Hpar |- *. cbn [length] in Hf.
    destruct (procinfo_step (length pre) c q k Hn Hs Hq Hi Hc) as [j E].
    { intros Hlive Hc0. destruct (decide (c = 0)); [done|]. destruct (decide (live q)); [by inversion Hpar|done]. }
    specialize (IH (pre ++ [q]) fuel (if decide (live q) then c + 1 else c) (sent j (if decide (live q) then report else []) k)).
    rewrite length_app in IH. cbn [length] in IH. replace (Z.of_nat (length pre + 1)) with (Z.of_nat (length pre) + 1) in IH by lia.
    destruct IH as [j' E']; [lia|done|done|done|done|case_decide; lia| |].
    { destruct (decide (live q)); [|done]. rewrite decide_False by lia. destruct (decide (c = 0)); [done|]. by inversion Hpar. }
    exists (j + j')%nat. rewrite (mwhile_inl _ _ _ _ _ _ _ E), E', sent_sent. destruct (decide (live q)); cbn [length app]; [|done].
    replace (c + 1 + Z.of_nat (length (filter live suf))) with (c + Z.of_nat (S (length (filter live suf)))) by lia. done.
Qed.
End procinfo.

(** C29: [getprocs] reports nothing.  Called with any address, [procinfo]
    returns the number of processes that are neither unused nor being set up
    and prints its two messages for each of them, and all of memory, the
    caller's table included, is what it was: not one byte is copied out. *)
Theorem procinfo_copies_nothing {L : Layout} n t k me it_addr :
  (Z.to_nat NPROC < n)%nat -> cpu_ok t -> cpu_proc t = Some me -> lks t !! LkPr = None -> length (procs t) = Z.to_nat NPROC -> sends n k ->
  Forall parented (drop 1 (filter live (procs t))) ->
  exists j, procinfo it_addr n (MkK t k) =
    Ret (Z.of_nat (length (filter live (procs t)))) (MkK t (sent j (mjoin (replicate (length (filter live (procs t))) report)) k)).
Proof.
  intros Hn Ht Hme Hl Hlen Hs Hpar. unfold procinfo. rewrite myproc_bind, Hme by done.
  apply (procinfo_loop n t me it_addr Ht Hl (procs t) [] n 0 k); try done; [lia|lia|by rewrite Hlen].
Qed.

(** Two processes, the second a child of the first. *)
Definition family : T := Kalloc.demo_T <| procs := proc0 <| p_state := RUNNING |> <| p_pid := 1 |> :: proc0 <| p_state := SLEEPING |> <| p_pid := 2 |> <| p_parent := Some 0%nat |> :: replicate 62 proc0 |>.

Lemma procinfo_copies_nothing_witness : exists j,
  procinfo 0x4000 100%nat (MkK family ((kern0 ∅) <| io_rd := fun _ _ => 32 |>)) =
  Ret 2 (MkK family (sent j (report ++ report) ((kern0 ∅) <| io_rd := fun _ _ => 32 |>))).
Proof.
  destruct (procinfo_copies_nothing (L := demo_layout) 100%nat family ((kern0 ∅) <| io_rd := fun _ _ => 32 |>) 0 0x4000) as [j E].
  - change (Z.to_nat NPROC) with 64%nat. lia.
  - by split_and!.
  - reflexivity.
  - reflexivity.
  - reflexivity.
  - split; [reflexivity|]. intros i. exists 0%nat. split; [lia|]. by vm_compute.
  - apply Forall_singleton. by exists 0%nat.
  - exists j. exact E.
Defined.
