(* ===== verification/Console.v ===== *)
(** * The console: [kernel/console.c], and [uartintr] of [kernel/uart.c]

    Input is edited in a ring of 128 characters: [r] is the next character a
    reader takes, [w] the end of the last complete line, [e] where the next
    typed character goes. *)

From Stdlib Require Import ZArith Lia.
From S2P Require Import Prelude Riscv KString Thread Proc Kalloc Vm Kern ProcMem Uart Printf.

Definition INPUT_BUF : Z := 128.
(** [C(x)], the code of Control-x *)
Definition C (x : Z) : Z := x - 64.

Definition getc {A} (f : conss -> A) : KK A := getX (fun k => f (cons k)).
Definition modc (f : conss -> conss) : KK () := modX (fun k => k <| cons ::= f |>).
Definition c_at (c : conss) (i : Z) : Z := default 0 (c_buf c !! Z.to_nat (u32 i mod INPUT_BUF)).

Definition consolewrite_body (src : source) (n i : Z) : KK (Z + Z) :=
  if negb (i <? n) then mret (inr i) else
  '(r, c) ← either_copyin (source_add src i) 1;
  if r =? -1 then mret (inr i) else
  uartputc (hd 0 c) ;;
  mret (inl (i + 1)).

Definition consolewrite (src : source) (n : Z) : KK Z := mloop (consolewrite_body src n) 0.

(** [while(cons.r == cons.w)]: [None] once there is input, [Some (-1)] if the
    process is killed. *)
Definition consoleread_wait (_ : ()) : KK (() + option Z) :=
  c ← getc id;
  if c_r c =? c_w c then
    p ← myproc;
    p ← deref p;
    q ← getp p;
    if negb (p_killed q =? 0) then release LkCons ;; mret (inr (Some (-1))) else
    sleep ChCons LkCons ;;
    mret (inl tt)
  else mret (inr None).

(** [Some v] for a return inside the loop, [None] for leaving it with [n]. *)
Definition consoleread_body (target : Z) : dest * Z -> KK ((dest * Z) + (option Z * Z)) :=
  fun '(dst, n) =>
  if negb (0 <? n) then mret (inr (None, n)) else
  w ← mloop consoleread_wait tt;
  match w with
  | Some v => mret (inr (Some v, n))
  | None =>
      s ← getc id;
      let c := c_at s (c_r s) in
      modc (fun s => s <| c_r := u32 (c_r s + 1) |>) ;;
      if c =? C 68 then
        mwhen (u32 n <? target) (modc (fun s => s <| c_r := u32 (c_r s - 1) |>)) ;;
        mret (inr (None, n))
      else
        r ← either_copyout dst [c] 1;
        if r =? -1 then mret (inr (None, n)) else
        if c =? 10 then mret (inr (None, n - 1)) else mret (inl (dest_add dst 1, n - 1))
  end.

Definition consoleread (dst : dest) (n : Z) : KK Z :=
  let target := u32 n in
  acquire LkCons ;;
  '(r, n) ← mloop (consoleread_body target) (dst, n);
  match r with
  | Some v => mret v
  | None => release LkCons ;; mret (i32 (target - n))
  end.

(** Erasing one character. *)
Definition cons_erase : KK () :=
  modc (fun s => s <| c_e := u32 (c_e s - 1) |>) ;;
  consputc BACKSPACE.

Definition kill_line_body (_ : ()) : KK (() + ()) :=
  s ← getc id;
  if negb (c_e s =? c_w s) && negb (c_at s (c_e s - 1) =? 10) then
    cons_erase ;;
    mret (inl tt)
  else mret (inr tt).

Definition cons_default (c : Z) : KK () :=
  s ← getc id;
  mwhen (negb (c =? 0) && (u32 (c_e s - c_r s) <? INPUT_BUF))
    (let c := if c =? 13 then 10 else c in
     consputc c ;;
     modc (fun s => s <| c_buf ::= <[Z.to_nat (c_e s mod INPUT_BUF) := u8 c]> |>) ;;
     modc (fun s => s <| c_e := u32 (c_e s + 1) |>) ;;
     s ← getc id;
     mwhen ((c =? 10) || (c =? C 68) || (c_e s =? u32 (c_r s + INPUT_BUF)))
       (modc (fun s => s <| c_w := c_e s |>) ;;
        wakeup ChCons)).

Definition consoleintr (c : Z) : KK () :=
  acquire LkCons ;;
  (if c =? C 80 then procdump
   else if c =? C 85 then mloop kill_line_body tt
   else if (c =? C 72) || (c =? 0x7f) then
     s ← getc id;
     mwhen (negb (c_e s =? c_w s)) cons_erase
   else cons_default c) ;;
  release LkCons.

Definition consoleinit : KK () :=
  initlock LkCons ;;
  uartinit ;;
  modX (fun k => k <| devsw ::= <[Z.to_nat CONSOLE := Some ConsoleFns]> |>).

(** uart.c *)
Definition uartintr_body (_ : ()) : KK (() + ()) :=
  c ← uartgetc;
  if c =? -1 then mret (inr tt) else
  consoleintr c ;;
  mret (inl tt).

Definition uartintr : KK () :=
  mloop uartintr_body tt ;;
  acquire LkUart ;;
  uartstart ;;
  release LkUart.
