(* ===== verification/ConsoleSpec.v ===== *)
(** * The console is a line editor

    What the ring of the console holds is a queue of characters ready for the
    readers and the line being typed.  [consoleintr] edits the line, echoes,
    and moves it to the queue when it is complete. *)

From Stdlib Require Import ZArith Lia.
From S2P Require Import Prelude Riscv KString Thread Proc Sleeplock Kalloc Vm Kern VirtioSpec ProcMem Uart Printf Console.

(** ** The editor *)

(** The queue [q] and the line [l] after the character [c]. *)
Definition edit (c : Z) (q l : list Z) : list Z * list Z :=
  if c =? 21 then (q, [])
  else if (c =? 8) || (c =? 127) then (q, take (length l - 1) l)
  else if negb (c =? 0) && (Z.of_nat (length q + length l) <? INPUT_BUF) then
    let c := if c =? 13 then 10 else c in
    if (c =? 10) || (c =? 4) || (Z.of_nat (length q + length l) + 1 =? INPUT_BUF) then (q ++ l ++ [c], []) else (q, l ++ [c])
  else (q, l).

(** What is sent to the terminal. *)
Definition echo (c : Z) (q l : list Z) : list Z :=
  if c =? 21 then mjoin (replicate (length l) rubout)
  else if (c =? 8) || (c =? 127) then (match l with [] => [] | _ => rubout end)
  else if negb (c =? 0) && (Z.of_nat (length q + length l) <? INPUT_BUF) then [if c =? 13 then 10 else c]
  else [].

(** A reader is woken when the queue grows. *)
Definition completes (c : Z) (q l : list Z) : bool := negb (length (edit c q l).1 =? length q)%nat.

(** The ring holds the queue and the line. *)
Record held (s : conss) (q l : list Z) : Prop := {
  he_len : length (c_buf s) = Z.to_nat INPUT_BUF;
  he_r : 0 <= c_r s < 2 ^ 32;
  he_w : c_w s = u32 (c_r s + Z.of_nat (length q));
  he_e : c_e s = u32 (c_r s + Z.of_nat (length q + length l));
  he_room : Z.of_nat (length q + length l) <= INPUT_BUF;
  he_at : forall i x, (q ++ l) !! i = Some x -> c_buf s !! Z.to_nat ((c_r s + Z.of_nat i) mod INPUT_BUF) = Some x
}.
Definition typed (s : conss) (q l : list Z) : Prop := held s q l /\ 10 ∉ l.

Lemma held_empty s q l : held s q l -> (c_e s =? c_w s) = (length l =? 0)%nat.
Proof. intros [H1 H2 H3 H4 H5 _]. rewrite H3, H4. unfold INPUT_BUF, u32 in *. apply eq_true_iff_eq. rewrite Z.eqb_eq, Nat.eqb_eq. lia. Qed.

Lemma held_count s q l : held s q l -> u32 (c_e s - c_r s) = Z.of_nat (length q + length l).
Proof. intros [H1 H2 H3 H4 H5 _]. rewrite H4. unfold INPUT_BUF, u32 in *. lia. Qed.

Lemma held_full s q l : held s q l -> (c_e s =? u32 (c_r s + INPUT_BUF)) = (Z.of_nat (length q + length l) =? INPUT_BUF).
Proof. intros [H1 H2 H3 H4 H5 _]. rewrite H4. unfold INPUT_BUF, u32 in *. apply eq_true_iff_eq. rewrite !Z.eqb_eq. lia. Qed.

Lemma held_last s q l x : held s q (l ++ [x]) -> c_at s (c_e s - 1) = x.
Proof.
  intros [H1 H2 H3 H4 H5 H6]. unfold c_at. rewrite length_app in *. cbn [length] in *. specialize (H6 (length q + length l)%nat x).
  rewrite lookup_app_r in H6 by lia. replace (length q + length l - length q)%nat with (length l) in H6 by lia. rewrite lookup_app_r, Nat.sub_diag in H6 by lia. specialize (H6 eq_refl).
  replace (u32 (c_e s - 1) mod INPUT_BUF) with ((c_r s + Z.of_nat (length q + length l)) mod INPUT_BUF); [by rewrite H6|]. rewrite H4. unfold INPUT_BUF, u32 in *. lia.
Qed.

Definition c_erase (s : conss) : conss := s <| c_e := u32 (c_e s - 1) |>.
Definition c_add (x : Z) (s : conss) : conss := s <| c_buf ::= <[Z.to_nat (c_e s mod INPUT_BUF) := x]> |> <| c_e := u32 (c_e s + 1) |>.

Lemma held_erase s q l x : held s q (l ++ [x]) -> held (c_erase s) q l.
Proof.
  intros [H1 H2 H3 H4 H5 H6]. rewrite length_app in *. cbn [length] in *. split; cbn; try done.
  - rewrite H4. unfold u32, INPUT_BUF in *. lia.
  - lia.
  - intros i y Hi. apply H6. rewrite app_assoc. by apply lookup_app_l_Some.
Qed.

Lemma held_add s q l x : held s q l -> Z.of_nat (length q + length l) < INPUT_BUF -> held (c_add x s) q (l ++ [x]).
Proof.
  intros [H1 H2 H3 H4 H5 H6] Hr. split; cbn; try done.
  - by rewrite length_insert.
  - rewrite length_app. cbn. rewrite H4. unfold u32. lia.
  - rewrite length_app. cbn [length]. lia.
  - intros i y Hi. rewrite app_assoc in Hi. assert (c_e s mod INPUT_BUF = (c_r s + Z.of_nat (length q + length l)) mod INPUT_BUF) as Ee by (rewrite H4; unfold u32, INPUT_BUF; lia).
    apply lookup_app_Some in Hi as [Hi|[Hi Hy]].
    + pose proof (lookup_lt_Some _ _ _ Hi) as Hlt'. rewrite length_app in Hlt'. rewrite list_lookup_insert_ne; [by apply H6|]. rewrite Ee. unfold INPUT_BUF in *. lia.
    + apply list_lookup_singleton_Some in Hy as [Hz <-]. rewrite length_app in Hi, Hz. replace i with (length q + length l)%nat by lia. rewrite Ee. apply list_lookup_insert_eq.
      rewrite H1. unfold INPUT_BUF. lia.
Qed.

(** Completing the line. *)
Lemma held_commit s q l : held s q l -> held (s <| c_w := c_e s |>) (q ++ l) [].
Proof. intros [H1 H2 H3 H4 H5 H6]. split; cbn; try done; rewrite ?app_nil_r, ?length_app, ?Nat.add_0_r; done. Qed.

(** ** Erasing *)

Lemma sent_cons j cs f k : (sent j cs k) <| cons ::= f |> = sent j cs (k <| cons ::= f |>).
Proof. by destruct k. Qed.
Lemma cons_twice f s (k : kern) : (k <| cons ::= f |>) <| cons := s |> = k <| cons := s |>.
Proof. by destruct k. Qed.

Section console.
Context (n : nat).

Lemma getc_bind {A B} t k (g : conss -> A) (f : A -> KK B) : (getc g ≫= f) n (MkK t k) = f (g (cons k)) n (MkK t k).
Proof. done. Qed.
Lemma modc_bind {B} t k g (f : () -> KK B) : (modc g ≫= f) n (MkK t k) = f tt n (MkK t (k <| cons ::= g |>)).
Proof. done. Qed.

Context (t : T) (Ht : cpu_ok t).

Lemma cons_erase_spec k : sends n k -> exists j, cons_erase n (MkK t k) = Ret tt (MkK t (sent j rubout (k <| cons ::= c_erase |>))).
Proof. intros Hs. apply (consputc_spec n t Ht BACKSPACE (k <| cons ::= c_erase |>)). exact Hs. Qed.

Lemma kill_line_loop q l : forall fuel k, (length l < fuel)%nat -> sends n k -> typed (cons k) q l ->
  exists j s, mwhile fuel kill_line_body tt n (MkK t k) = Ret tt (MkK t (sent j (mjoin (replicate (length l) rubout)) (k <| cons := s |>))) /\ typed s q [].
Proof.
  induction l as [|x l IH] using rev_ind; intros [|fuel] k Hf Hs [Hh Hl]; try (cbn in Hf; lia).
  - exists 0%nat, (cons k). split; [|done]. apply mwhile_inr. unfold kill_line_body. rewrite getc_bind. unfold id. rewrite (held_empty _ _ _ Hh). cbn. rewrite sent_nil. by destruct k.
  - rewrite length_app in *. cbn [length] in *. destruct (cons_erase_spec k Hs) as [j E].
    assert (x <> 10) as Hx by (intros ->; apply Hl, elem_of_app; right; by apply list_elem_of_singleton).
    destruct (IH fuel (sent j rubout (k <| cons ::= c_erase |>))) as (j' & s & E' & Hs'); [lia|done|split; [by apply (held_erase _ _ _ x)|]|].
    { intros Hy. apply Hl, elem_of_app. by left. }
    exists (j + j')%nat, s. split; [|done].
    assert (kill_line_body tt n (MkK t k) = Ret (inl tt) (MkK t (sent j rubout (k <| cons ::= c_erase |>)))) as Eb.
    { unfold kill_line_body. rewrite getc_bind. unfold id. rewrite (held_empty _ _ _ Hh), (held_last _ _ _ _ Hh), length_app. cbn [length].
      rewrite (proj2 (Nat.eqb_neq _ 0)), (proj2 (Z.eqb_neq x 10) Hx) by lia. cbn [negb andb]. by rewrite (bind_ret _ _ _ _ _ _ E). }
    rewrite (mwhile_inl _ _ _ _ _ _ _ Eb), E'. do 2 f_equal. rewrite sent_cons, sent_sent, cons_twice. f_equal.
    by replace (length l + 1)%nat with (S (length l)) by lia.
Qed.

(** ** Typing *)

Lemma cons_default_spec q l c k : 0 <= c < 256 -> sends n k -> typed (cons k) q l -> locks_free t -> length (procs t) = Z.to_nat NPROC ->
  c <> 21 -> c <> 8 -> c <> 127 ->
  exists j s, cons_default c n (MkK t k) = Ret tt (MkK (if completes c q l then woke ChCons t else t) (sent j (echo c q l) (k <| cons := s |>))) /\
    typed s (edit c q l).1 (edit c q l).2.
Proof.
  intros Hc Hs [Hh Hl] Hf Hp H1 H2 H3. unfold completes, edit, echo. rewrite (proj2 (Z.eqb_neq c 21) H1), (proj2 (Z.eqb_neq c 8) H2), (proj2 (Z.eqb_neq c 127) H3). cbn [orb].
  unfold cons_default. rewrite getc_bind. unfold id. rewrite (held_count _ _ _ Hh).
  destruct (negb (c =? 0) && (Z.of_nat (length q + length l) <? INPUT_BUF)) eqn:Ec; cbn [mwhen].
  2: { exists 0%nat, (cons k). cbn [fst snd]. rewrite Nat.eqb_refl, sent_nil. split; [by destruct k|done]. }
  apply andb_true_iff in Ec as [_ Hroom%Z.ltb_lt].
  set (x := if c =? 13 then 10 else c). assert (0 <= x < 256) as Hx by (unfold x; destruct (c =? 13); lia).
  destruct (consputc_spec n t Ht x k Hs) as [j E]. assert (put x = [x]) as Epx by (unfold put, BACKSPACE; rewrite (proj2 (Z.eqb_neq x 256)), u8_small by lia; done).
  rewrite (bind_ret _ _ _ _ _ _ E), Epx, !modc_bind, getc_bind. unfold id. rewrite u8_small by lia.
  pose proof (held_add _ _ _ x Hh Hroom) as Ha. rewrite !sent_cons. set (k1 := (k <| cons ::= _ |>) <| cons ::= _ |>).
  assert (k1 = k <| cons := c_add x (cons k) |>) as -> by (by destruct k).
  change (cons (sent j [x] (k <| cons := c_add x (cons k) |>))) with (c_add x (cons k)).
  rewrite (held_full _ _ _ Ha), length_app. cbn [length]. replace (Z.of_nat (length q + (length l + 1))) with (Z.of_nat (length q + length l) + 1) by lia. change (C 68) with 4.
  destruct ((x =? 10) || (x =? 4) || (Z.of_nat (length q + length l) + 1 =? INPUT_BUF)) eqn:Ed; cbn [mwhen fst snd].
  - rewrite modc_bind, (wakeup_spec ChCons n t _ Ht Hf Hp). exists j, ((c_add x (cons k)) <| c_w := c_e (c_add x (cons k)) |>). split.
    + rewrite !length_app, (proj2 (Nat.eqb_neq _ _)) by (cbn; lia). cbn [negb]. rewrite sent_cons. by destruct k.
    + split; [by apply held_commit|apply not_elem_of_nil].
  - exists j, (c_add x (cons k)). rewrite Nat.eqb_refl. split; [done|]. split; [done|].
    intros [Hy|Hy%list_elem_of_singleton]%elem_of_app; [done|]. by rewrite <- Hy in Ed.
Qed.

Lemma erase_spec q l k : sends n k -> typed (cons k) q l ->
  exists j s, (s ← getc id; mwhen (negb (c_e s =? c_w s)) cons_erase) n (MkK t k) =
    Ret tt (MkK t (sent j (match l with [] => [] | _ => rubout end) (k <| cons := s |>))) /\ typed s q (take (length l - 1) l).
Proof.
  intros Hs [Hh Hl]. rewrite getc_bind. unfold id. rewrite (held_empty _ _ _ Hh). destruct l as [|x l _] using rev_ind.
  - exists 0%nat, (cons k). rewrite sent_nil. split; [by destruct k|done].
  - rewrite length_app. cbn [length]. rewrite (proj2 (Nat.eqb_neq _ 0)) by lia. cbn [negb mwhen]. destruct (cons_erase_spec k Hs) as [j E]. exists j, (c_erase (cons k)).
    replace (length l + 1 - 1)%nat with (length l) by lia. rewrite take_app_length. split.
    + rewrite E. destruct l, k; done.
    + split; [by apply (held_erase _ _ _ x)|]. intros Hy. apply Hl, elem_of_app. by left.
Qed.
End console.

(** C14: the console's input is a line editor.  With a queue of completed input
    and a line being typed in the ring, an input character changes them as
    the editor does: Control-U erases the line, Control-H and delete its last
    character, a carriage return is a newline, and a newline, a Control-D or a
    full ring completes the line, which wakes the readers and nobody else;
    characters that do not fit are dropped.  What is echoed is what the
    editor shows, the queue is never edited, and the ring's invariant is kept
    also where the counters wrap around. *)
Theorem console_line_editor n t k c q l :
  (Z.to_nat INPUT_BUF < n)%nat -> cpu_ok t -> lks t !! LkCons = None -> locks_free t -> length (procs t) = Z.to_nat NPROC ->
  sends n k -> typed (cons k) q l -> 0 <= c < 256 -> c <> 16 ->
  exists j s, consoleintr c n (MkK t k) = Ret tt (MkK (if completes c q l then woke ChCons t else t) (sent j (echo c q l) (k <| cons := s |>))) /\
    typed s (edit c q l).1 (edit c q l).2 /\ q `prefix_of` (edit c q l).1.
Proof.
  intros Hn Ht Hlk Hf Hp Hs Hty Hc H16. pose proof (cpu_ok_acq LkCons t Ht) as Ht'. assert (locks_free (t_acq LkCons t)) as Hf'.
  { intros i. cbn. by rewrite lookup_insert_ne. }
  assert (exists j s, (if c =? C 80 then procdump else if c =? C 85 then mloop kill_line_body tt
      else if (c =? C 72) || (c =? 0x7f) then s ← getc id; mwhen (negb (c_e s =? c_w s)) cons_erase else cons_default c) n (MkK (t_acq LkCons t) k) =
      Ret tt (MkK (t_acq LkCons (if completes c q l then woke ChCons t else t)) (sent j (echo c q l) (k <| cons := s |>))) /\
      typed s (edit c q l).1 (edit c q l).2) as (j & s & E & Hty').
  { change (C 80) with 16. change (C 85) with 21. change (C 72) with 8. rewrite (proj2 (Z.eqb_neq c 16) H16).
    destruct (Z.eqb_spec c 21) as [->|H21]; [|destruct (Z.eqb_spec c 8) as [->|H8]; [|destruct (Z.eqb_spec c 127) as [->|H127]]]; cbn [orb].
    1: unfold completes; cbn; rewrite Nat.eqb_refl; apply kill_line_loop; try done; destruct Hty as [Hh _]; apply he_room in Hh; unfold INPUT_BUF in *; lia.
    1,2: unfold completes; cbn -[take]; rewrite Nat.eqb_refl; by apply erase_spec.
    destruct (cons_default_spec n (t_acq LkCons t) Ht' q l c k) as (j & s & E & Hty'); try done. exists j, s. split; [|done]. rewrite E. by destruct (completes c q l), t. }
  exists j, s. split_and!; [|done|].
  - unfold consoleintr. rewrite acquire_bind by done. rewrite (bind_ret _ _ _ _ _ _ E). apply release_spec; by destruct (completes c q l).
  - clear E Hty'. unfold edit. repeat case_match; cbn; (reflexivity || by apply prefix_app_r).
Qed.

(** A ring whose counters wrap around inside the line, on a port that is
    always idle. *)
Definition console_kern : kern :=
  (kern0 ∅) <| cons := MkCons (<[127%nat := 104]> (<[0%nat := 105]> (replicate 128 0))) (2 ^ 32 - 1) (2 ^ 32 - 1) 1 |> <| io_rd := fun _ _ => 32 |>.

Lemma console_line_editor_witness : exists j s,
  consoleintr 13 200%nat (MkK Kalloc.demo_T console_kern) = Ret tt (MkK (woke ChCons Kalloc.demo_T) (sent j [10] (console_kern <| cons := s |>))) /\
  typed s [104; 105; 10] [].
Proof.
  assert (typed (cons console_kern) [] [104; 105]) as Hty.
  { split; [split; [reflexivity|by vm_compute|reflexivity|reflexivity|by vm_compute|]|set_solver].
    intros [|[|i]] x Hx; [injection Hx as <-; by vm_compute|injection Hx as <-; by vm_compute|done]. }
  assert (Z.to_nat INPUT_BUF < 200)%nat as Hn by (change (Z.to_nat INPUT_BUF) with 128%nat; lia).
  assert (sends 200%nat console_kern) as Hs.
  { split; [reflexivity|]. intros i. exists 0%nat. split; [lia|]. by vm_compute. }
  destruct (console_line_editor 200%nat Kalloc.demo_T console_kern 13 [] [104; 105] Hn demo_T_ok eq_refl (fun _ => eq_refl) eq_refl Hs Hty ltac:(lia) ltac:(lia))
    as (j & s & E & Hs' & _).
  exists j, s. split; [exact E|exact Hs'].
Defined.
