(* ===== verification/Pipe.v ===== *)
(** * Pipes: [kernel/pipe.c] without [pipealloc]

    A pipe is a ring of 512 bytes in a page of its own, named by the page's
    address; [nread] and [nwrite] count bytes since the pipe was made, modulo
    2^32. *)

From Stdlib Require Import ZArith Lia.
From S2P Require Import Prelude Riscv KString Thread Proc Kalloc Vm Kern.

Definition PIPESIZE : Z := 512.

Section pipe_c.
Context {L : Layout}.

Definition pipeclose (pi : Z) (writable : bool) : KK () :=
  acquire (LkPipe pi) ;;
  (if writable then
     modpi pi (fun p => p <| pi_writeopen := 0 |>) ;;
     wakeup (ChPipeR pi)
   else
     modpi pi (fun p => p <| pi_readopen := 0 |>) ;;
     wakeup (ChPipeW pi)) ;;
  p ← getpi pi;
  if (pi_readopen p =? 0) && (pi_writeopen p =? 0) then
    release (LkPipe pi) ;;
    modX (fun k => k <| pipes ::= delete pi |>) ;;
    kmm (kfree pi)
  else release (LkPipe pi).

(** [inr (Some v)]: return inside the loop; [inr None]: the loop is over and
    [i] bytes are written. *)
Definition pipewrite_body (pi addr n : Z) (pr : nat) (i : Z) : KK (Z + (Z * bool)) :=
  if negb (i <? n) then mret (inr (i, false)) else
  p ← getpi pi;
  q ← getp pr;
  if (pi_readopen p =? 0) || negb (p_killed q =? 0) then
    release (LkPipe pi) ;;
    mret (inr (-1, true))
  else if pi_nwrite p =? u32 (pi_nread p + PIPESIZE) then
    wakeup (ChPipeR pi) ;;
    sleep (ChPipeW pi) (LkPipe pi) ;;
    mret (inl i)
  else
    '(r, ch) ← kmm (copyin (p_pagetable q) (u64 (addr + i)) 1);
    if r =? -1 then mret (inr (i, false)) else
    modpi pi (fun p => p <| pi_data ::= <[Z.to_nat (pi_nwrite p mod PIPESIZE) := hd 0 ch]> |>) ;;
    modpi pi (fun p => p <| pi_nwrite := u32 (pi_nwrite p + 1) |>) ;;
    mret (inl (i + 1)).

Definition pipewrite (pi addr n : Z) : KK Z :=
  pr ← myproc;
  acquire (LkPipe pi) ;;
  pr ← deref pr;
  '(i, returned) ← mloop (pipewrite_body pi addr n pr) 0;
  if returned : bool then mret i else
  wakeup (ChPipeR pi) ;;
  release (LkPipe pi) ;;
  mret i.

Definition piperead_wait (pi : Z) (pr : nat) (_ : ()) : KK (() + option Z) :=
  p ← getpi pi;
  if (pi_nread p =? pi_nwrite p) && negb (pi_writeopen p =? 0) then
    q ← getp pr;
    if negb (p_killed q =? 0) then release (LkPipe pi) ;; mret (inr (Some (-1))) else
    sleep (ChPipeR pi) (LkPipe pi) ;;
    mret (inl tt)
  else mret (inr None).

Definition piperead_body (pi addr n : Z) (pr : nat) (i : Z) : KK (Z + Z) :=
  if negb (i <? n) then mret (inr i) else
  p ← getpi pi;
  if pi_nread p =? pi_nwrite p then mret (inr i) else
  let ch := default 0 (pi_data p !! Z.to_nat (pi_nread p mod PIPESIZE)) in
  modpi pi (fun p => p <| pi_nread := u32 (pi_nread p + 1) |>) ;;
  q ← getp pr;
  r ← kmm (copyout (p_pagetable q) (u64 (addr + i)) [ch] 1);
  if r =? -1 then mret (inr i) else mret (inl (i + 1)).

Definition piperead (pi addr n : Z) : KK Z :=
  pr ← myproc;
  acquire (LkPipe pi) ;;
  pr ← deref pr;
  w ← mloop (piperead_wait pi pr) tt;
  match w with
  | Some v => mret v
  | None =>
      i ← mloop (piperead_body pi addr n pr) 0;
      wakeup (ChPipeW pi) ;;
      release (LkPipe pi) ;;
      mret i
  end.
End pipe_c.
