(* ===== verification/PipeSpec.v ===== *)
(** * Pipes are first-in first-out queues

    [pq p] is the queue a pipe's ring holds.  The counters wrap around at
    2^32, a multiple of [PIPESIZE], so that the ring stays a ring across the
    wrap.  [pipewrite] of bytes that fit appends them to the queue and
    [piperead] takes bytes from its front to the user's memory. *)

From Stdlib Require Import ZArith Lia.
From S2P Require Import Prelude Riscv KString Thread Proc Sleeplock Kalloc Vm AddrSpace UvmSpec CopySpec VmTheorems Kern.
From S2P Require Import Virtio VirtioSpec Pipe.

(** ** The ring *)

Definition count (p : pipe) : Z := u32 (pi_nwrite p - pi_nread p).
Definition slot (p : pipe) (i : Z) : Z := default 0 (pi_data p !! Z.to_nat (u32 (pi_nread p + i) mod PIPESIZE)).
Definition pq (p : pipe) : list Z := (fun i => slot p (Z.of_nat i)) <$> seq 0 (Z.to_nat (count p)).

Record ring_ok (p : pipe) : Prop := {
  rg_len : length (pi_data p) = Z.to_nat PIPESIZE;
  rg_nread : 0 <= pi_nread p < 2 ^ 32;
  rg_nwrite : 0 <= pi_nwrite p < 2 ^ 32;
  rg_count : count p <= PIPESIZE
}.

Definition push (c : Z) (p : pipe) : pipe :=
  p <| pi_data ::= <[Z.to_nat (pi_nwrite p mod PIPESIZE) := c]> |> <| pi_nwrite := u32 (pi_nwrite p + 1) |>.
Definition pop (p : pipe) : pipe := p <| pi_nread := u32 (pi_nread p + 1) |>.

Lemma count_range p : 0 <= count p < 2 ^ 32.
Proof. apply u32_range. Qed.

Lemma pq_length p : length (pq p) = Z.to_nat (count p).
Proof. unfold pq. by rewrite length_fmap, length_seq. Qed.

Lemma pq_lookup p i : (i < Z.to_nat (count p))%nat -> pq p !! i = Some (slot p (Z.of_nat i)).
Proof. intros Hi. unfold pq. by rewrite list_lookup_fmap, lookup_seq_lt. Qed.

(** The test for a full ring, and for an empty one. *)
Lemma full_iff p : ring_ok p -> (pi_nwrite p =? u32 (pi_nread p + PIPESIZE)) = (count p =? PIPESIZE).
Proof.
  intros [_ H1 H2 H3]. unfold count, u32, PIPESIZE in *. apply eq_true_iff_eq. rewrite !Z.eqb_eq. lia.
Qed.
Lemma empty_iff p : ring_ok p -> (pi_nread p =? pi_nwrite p) = (count p =? 0).
Proof. intros [_ H1 H2 H3]. unfold count, u32 in *. apply eq_true_iff_eq. rewrite !Z.eqb_eq. lia. Qed.

Lemma push_ok p c : ring_ok p -> count p < PIPESIZE -> ring_ok (push c p) /\ pq (push c p) = pq p ++ [c].
Proof.
  intros [H1 H2 H3 H4] Hc. pose proof (count_range p) as Hr.
  assert (count (push c p) = count p + 1) as Ec by (unfold count, push, u32, PIPESIZE in *; cbn; lia).
  split.
  { split; [cbn; by rewrite length_insert|done|apply u32_range|lia]. }
  assert (forall i, 0 <= i < count p -> slot (push c p) i = slot p i) as Hold.
  { intros i Hi. unfold slot. cbn. rewrite list_lookup_insert_ne; [done|]. unfold count, u32, PIPESIZE in *. lia. }
  assert (slot (push c p) (count p) = c) as Hnew.
  { unfold slot. cbn. replace (u32 (pi_nread p + count p)) with (pi_nwrite p) by (unfold count, u32 in *; lia).
    rewrite list_lookup_insert_eq; [done|]. rewrite H1. unfold PIPESIZE. lia. }
  apply list_eq. intros i. destruct (decide (i < Z.to_nat (count p))%nat) as [Hi|Hi].
  - rewrite lookup_app_l by (by rewrite pq_length). rewrite !pq_lookup by lia. f_equal. apply Hold. lia.
  - rewrite lookup_app_r by (rewrite pq_length; lia). rewrite pq_length. destruct (decide (i = Z.to_nat (count p))) as [->|Hne].
    + rewrite Nat.sub_diag, pq_lookup by lia. cbn. f_equal. by rewrite Z2Nat.id by lia.
    + rewrite !lookup_ge_None_2; [done|cbn; lia|rewrite pq_length; lia].
Qed.

Lemma pop_ok p : ring_ok p -> count p <> 0 -> ring_ok (pop p) /\ pq p = slot p 0 :: pq (pop p).
Proof.
  intros [H1 H2 H3 H4] Hc. pose proof (count_range p) as Hr.
  assert (count (pop p) = count p - 1) as Ec by (unfold count, pop, u32, PIPESIZE in *; cbn; lia).
  split; [split; [done|apply u32_range|done|lia]|].
  apply list_eq. intros [|i]; [by rewrite pq_lookup by lia|].
  destruct (decide (S i < Z.to_nat (count p))%nat) as [Hi|Hi].
  - change ((slot p 0 :: pq (pop p)) !! S i) with (pq (pop p) !! i). rewrite !pq_lookup by lia. f_equal. unfold slot. cbn. do 4 f_equal. unfold u32. lia.
  - change ((slot p 0 :: pq (pop p)) !! S i) with (pq (pop p) !! i). rewrite !lookup_ge_None_2; [done|rewrite pq_length; lia|rewrite pq_length; lia].
Qed.

(** ** The process's memory *)

(** Process [p] runs, with the pages [pgs] mapped by its page table. *)
Record running {L : Layout} (p : nat) (root : Z) (l : list Z) (tr : gmap (list Z) Z) (pgs : gmap Z upage) (t : T) (k : kern) : Prop := {
  ru_proc : cpu_proc t = Some p;
  ru_root : exists q, procs t !! p = Some q /\ p_pagetable q = root /\ p_killed q = 0;
  ru_as : as_inv (km k) l tr root pgs;
  ru_user : user_owned pgs
}.

Lemma km_id (k : kern) : k <| km := km k |> = k.
Proof. by destruct k. Qed.

Section pipe.
Context {L : Layout} {LO : LayoutOk L} (n p : nat) {root : Z} {l : list Z} {tr : gmap (list Z) Z} {pgs : gmap Z upage}.
Context (Hn : (2 < n)%nat).

Lemma copyin_byte t k va b : running p root l tr pgs t k -> 0 <= va -> ubyte (mem (km k)) pgs va = Some b ->
  kmm (copyin root va 1) n (MkK t k) = Ret (0, [b]) (MkK t k).
Proof.
  intros [_ _ HA HU] Hva Hb. destruct (copyin_loop n t l tr root pgs HU (km k) n HA va [] 1 Hva ltac:(lia) ltac:(lia)) as (r & bs & E & Hbs & Hr).
  assert (r = 0 /\ bs = [b]) as [-> ->].
  { destruct Hr as [[-> Hl]|(_ & Hl & Hr)].
    - destruct bs as [|c [|]]; cbn in Hl; try lia. specialize (Hbs 0%nat ltac:(cbn; lia)). rewrite Z.add_0_r, Hb in Hbs. by injection Hbs as ->.
    - destruct bs; [|cbn in Hl; lia]. by rewrite Z.add_0_r, Hb in Hr. }
  unfold kmm. rewrite (kzoom_ret km (fun k' k => k <| km := k' |>) (copyin root va 1) n t k (0, [b]) t (km k)); [by rewrite km_id|exact E].
Qed.

(** Storing one byte at a user address. *)
Lemma copyout_byte t k va b : running p root l tr pgs t k -> 0 <= va -> 0 <= b < 256 -> is_Some (ubyte (mem (km k)) pgs va) ->
  exists m, kmm (copyout root va [b] 1) n (MkK t k) = Ret 0 (MkK t (k <| km := m |>)) /\ as_inv m l tr root pgs /\
    forall va', 0 <= va' -> ubyte (mem m) pgs va' = if decide (va' = va) then Some b else ubyte (mem (km k)) pgs va'.
Proof.
  intros [_ _ HA HU] Hva Hb [c Hc]. assert (Forall (fun b => 0 <= b < 256) [b]) as Hf by (by constructor).
  destruct (copyout_loop n t l tr root pgs HU n (km k) va [b] HA Hva ltac:(cbn; lia) Hf) as (r & m & c' & E & HA' & Hc' & _ & Hub & Hr).
  cbn [length] in *. destruct Hr as [[-> ->]|(_ & Hlt & Hr)]; [|replace c' with 0 in Hr by lia; by rewrite Z.add_0_r, Hc in Hr].
  exists m. split_and!; [|done|].
  - unfold kmm. by apply (kzoom_ret km (fun k' k => k <| km := k' |>)).
  - intros va' Hva'. rewrite Hub by done. case_decide as Ed.
    + subst va'. rewrite Z.leb_refl, (proj2 (Z.ltb_lt _ _)) by lia. by rewrite Z.sub_diag.
    + destruct (Z.leb_spec va va'), (Z.ltb_spec va' (va + Z.of_nat 1)); cbn; try done. lia.
Qed.

Lemma getpi_bind {B} t k pi pp (f : pipe -> KK B) : pipes k !! pi = Some pp -> (getpi pi ≫= f) n (MkK t k) = f pp n (MkK t k).
Proof. intros H. unfold getpi. erewrite bind_ret; [done|]. rewrite getX_bind. by rewrite H. Qed.

(** A run of bytes at a user address. *)
Definition ubytes (m : gmap Z Z) (va : Z) (bs : list Z) : Prop :=
  forall i b, bs !! i = Some b -> ubyte m pgs (va + Z.of_nat i) = Some b.

Definition mod_pipe (pi : Z) (g : pipe -> pipe) (k : kern) : kern := k <| pipes ::= alter g pi |>.

Lemma pipewrite_loop pi addr len t bs : 0 <= addr -> addr + len < 2 ^ 64 -> forall fuel k pp i,
  running p root l tr pgs t k -> pipes k !! pi = Some pp -> ring_ok pp -> pi_readopen pp <> 0 -> 0 <= i ->
  i + Z.of_nat (length bs) = len -> count pp + Z.of_nat (length bs) <= PIPESIZE -> ubytes (mem (km k)) (addr + i) bs -> (length bs < fuel)%nat ->
  exists pp', mwhile fuel (pipewrite_body pi addr len p) i n (MkK t k) = Ret (len, false) (MkK t (k <| pipes ::= <[pi := pp']> |>)) /\
    ring_ok pp' /\ pq pp' = pq pp ++ bs /\ pi_readopen pp' = pi_readopen pp /\ pi_writeopen pp' = pi_writeopen pp.
Proof.
  intros Ha Hal. induction bs as [|b bs IH]; intros fuel k pp i HR Hpp Hok Hopen Hi Hlen Hroom Hby Hf; (destruct fuel as [|fuel]; [cbn in Hf; lia|]).
  - exists pp. cbn in Hlen. rewrite app_nil_r. split_and!; try done.
    assert (k <| pipes ::= <[pi := pp]> |> = k) as -> by (destruct k; unfold upd; cbn in *; f_equal; by apply insert_id).
    apply mwhile_inr. unfold pipewrite_body. rewrite (proj2 (Z.ltb_ge i len)) by lia. cbn [negb]. by replace i with len by lia.
  - cbn [length] in *. destruct (ru_root _ _ _ _ _ _ _ HR) as (q & Hq & Hroot & Hkill).
    destruct (push_ok pp b Hok ltac:(lia)) as [Hok' Hpq']. pose proof (count_range pp) as Hcr.
    assert (ubyte (mem (km k)) pgs (addr + i) = Some b) as Hb by (specialize (Hby 0%nat b eq_refl); by rewrite Z.add_0_r in Hby).
    set (k' := k <| pipes ::= <[pi := push b pp]> |>).
    assert (pipewrite_body pi addr len p i n (MkK t k) = Ret (inl (i + 1)) (MkK t k')) as E.
    { unfold pipewrite_body. rewrite (proj2 (Z.ltb_lt i len)) by lia. cbn [negb]. rewrite (getpi_bind _ _ _ _ _ Hpp), getp_bind, Hq. cbn [default].
      unfold id. rewrite Hkill, Hroot, (proj2 (Z.eqb_neq _ 0) Hopen). cbn [negb orb Z.eqb].
      rewrite (full_iff pp Hok), (proj2 (Z.eqb_neq (count pp) PIPESIZE)) by lia. rewrite u64_small by lia.
      rewrite (bind_ret _ _ _ _ _ _ (copyin_byte t k (addr + i) b HR ltac:(lia) Hb)). cbn [Z.eqb hd]. unfold modpi. rewrite !modX_bind. unfold k'. do 2 f_equal.
      destruct k. unfold upd. cbn in *. f_equal. f_equal. apply map_eq. intros a. destruct (decide (a = pi)) as [->|Hne].
      - rewrite !lookup_alter_eq, lookup_insert_eq, Hpp. done.
      - by rewrite !lookup_alter_ne, lookup_insert_ne by done. }
    rewrite (mwhile_inl _ _ _ _ _ _ _ E).
    destruct (IH fuel k' (push b pp) (i + 1)) as (pp' & E' & H1 & H2 & H3 & H4); try done; [destruct HR; by split|by apply lookup_insert_eq|lia|lia| | |lia|].
    + assert (count (push b pp) = count pp + 1) as -> by (unfold count, push, u32, PIPESIZE in *; cbn; destruct Hok; unfold count, u32 in *; lia). lia.
    + intros j c Hj. specialize (Hby (S j) c Hj). rewrite <- Hby. f_equal. lia.
    + exists pp'. split_and!; [|done|by rewrite H2, Hpq', <- app_assoc|done|done]. rewrite E'. unfold k'. do 2 f_equal.
      destruct k. unfold upd. cbn. f_equal. by rewrite insert_insert_eq.
Qed.

Lemma piperead_loop pi addr len t bs : 0 <= addr -> addr + len < 2 ^ 64 -> forall fuel k pp i rest,
  running p root l tr pgs t k -> pipes k !! pi = Some pp -> ring_ok pp -> 0 <= i -> pq pp = bs ++ rest ->
  i + Z.of_nat (length bs) = len \/ i + Z.of_nat (length bs) < len /\ rest = [] ->
  Forall (fun b => 0 <= b < 256) bs -> (forall j, (j < length bs)%nat -> is_Some (ubyte (mem (km k)) pgs (addr + i + Z.of_nat j))) -> (length bs < fuel)%nat ->
  exists m pp', mwhile fuel (piperead_body pi addr len p) i n (MkK t k) =
      Ret (i + Z.of_nat (length bs)) (MkK t (k <| km := m |> <| pipes ::= <[pi := pp']> |>)) /\
    as_inv m l tr root pgs /\ ring_ok pp' /\ pq pp' = rest /\
    forall va, 0 <= va -> ubyte (mem m) pgs va = if decide (addr + i <= va < addr + i + Z.of_nat (length bs)) then bs !! Z.to_nat (va - (addr + i)) else ubyte (mem (km k)) pgs va.
Proof.
  intros Ha Hal. induction bs as [|b bs IH]; intros fuel k pp i rest HR Hpp Hok Hi Hq Hstop Hby Hw Hf; (destruct fuel as [|fuel]; [cbn in Hf; lia|]).
  - exists (km k), pp. cbn [length] in *. rewrite Z.add_0_r in *. split_and!; [|apply HR|done|done|intros va _; rewrite decide_False by lia; done].
    assert (k <| km := km k |> <| pipes ::= <[pi := pp]> |> = k) as -> by (destruct k; unfold upd; cbn in *; f_equal; by apply insert_id).
    apply mwhile_inr. unfold piperead_body. destruct Hstop as [->|[Hlt ->]]; [by rewrite Z.ltb_irrefl|].
    rewrite (proj2 (Z.ltb_lt _ _)) by done. cbn [negb]. rewrite (getpi_bind _ _ _ _ _ Hpp), (empty_iff pp Hok).
    assert (count pp = 0) as ->; [|done]. pose proof (pq_length pp) as Hl. rewrite Hq in Hl. pose proof (count_range pp). cbn in Hl. lia.
  - destruct (ru_root _ _ _ _ _ _ _ HR) as (q & Hqp & Hroot & Hkill). apply Forall_cons in Hby as [Hb Hby].
    pose proof (pq_length pp) as Hl. rewrite Hq in Hl. pose proof (count_range pp) as Hcr. cbn [app length] in *.
    destruct (pop_ok pp Hok ltac:(lia)) as [Hok' Hpop]. rewrite Hq in Hpop. cbn [app] in Hpop. injection Hpop as Hslot Hrest.
    assert (slot pp 0 = default 0 (pi_data pp !! Z.to_nat (pi_nread pp mod PIPESIZE))) as Es.
    { unfold slot. rewrite Z.add_0_r, u32_small by apply Hok. done. }
    set (k1 := k <| pipes ::= <[pi := pop pp]> |>).
    destruct (copyout_byte t k1 (addr + i) b) as (m1 & E1 & HA1 & Hub1); [destruct HR; by split|lia|done| |].
    { specialize (Hw 0%nat ltac:(lia)). by rewrite Z.add_0_r in Hw. }
    set (k2 := k1 <| km := m1 |>) in *.
    assert (piperead_body pi addr len p i n (MkK t k) = Ret (inl (i + 1)) (MkK t k2)) as E.
    { unfold piperead_body. rewrite (proj2 (Z.ltb_lt i len)) by lia. cbn [negb]. rewrite (getpi_bind _ _ _ _ _ Hpp), (empty_iff pp Hok).
      rewrite (proj2 (Z.eqb_neq (count pp) 0)) by lia. unfold modpi. rewrite modX_bind.
      assert (k <| pipes ::= alter (fun p => p <| pi_nread := u32 (pi_nread p + 1) |>) pi |> = k1) as ->.
      { unfold k1. destruct k. unfold upd. cbn in *. f_equal. apply map_eq. intros a. destruct (decide (a = pi)) as [->|Hne].
        - by rewrite lookup_alter_eq, lookup_insert_eq, Hpp.
        - by rewrite lookup_alter_ne, lookup_insert_ne by done. }
      rewrite getp_bind, Hqp. change (default proc0 (Some q)) with q. rewrite Hroot, <- Es, <- Hslot, u64_small by lia.
      rewrite (bind_ret _ _ _ _ _ _ E1). done. }
    rewrite (mwhile_inl _ _ _ _ _ _ _ E).
    destruct (IH fuel k2 (pop pp) (i + 1) rest) as (m & pp' & E' & H1 & H2 & H3 & H4); try done; [destruct HR; by split|by apply lookup_insert_eq|lia|destruct Hstop as [|[? ->]]; [left|right; split; [|done]]; lia| |lia|].
    { intros j Hj. change (km k2) with m1. rewrite Hub1 by lia. case_decide; [by eexists|]. specialize (Hw (S j) ltac:(lia)).
      by replace (addr + (i + 1) + Z.of_nat j) with (addr + i + Z.of_nat (S j)) by lia. }
    exists m, pp'. split_and!; try done.
    + rewrite E'. replace (i + 1 + Z.of_nat (length bs)) with (i + Z.of_nat (S (length bs))) by lia. do 2 f_equal.
      unfold k2, k1. destruct k. unfold upd. cbn. f_equal. by rewrite insert_insert_eq.
    + intros va Hva. rewrite H4 by done. change (km k2) with m1. rewrite Hub1 by done. change (km k1) with (km k).
      destruct (decide (va = addr + i)) as [->|Hne].
      * rewrite decide_False by lia. rewrite decide_True by lia. by rewrite Z.sub_diag.
      * case_decide; [rewrite decide_True by lia|rewrite decide_False by lia; done].
        replace (Z.to_nat (va - (addr + i))) with (S (Z.to_nat (va - (addr + (i + 1))))) by lia. done.
Qed.

Lemma wake_release {B} ch pi t k (f : KK B) : calm p t -> lks t !! LkPipe pi = None ->
  (wakeup ch ;; release (LkPipe pi) ;; f) n (MkK (t_acq (LkPipe pi) t) k) = f n (MkK (woke ch t) k).
Proof.
  clear Hn. intros Hc Hl. pose proof (calm_acq p (LkPipe pi) t ltac:(done) Hc) as Hc'.
  rewrite (bind_ret _ _ _ _ _ _ (wakeup_spec ch n (t_acq (LkPipe pi) t) k (ca_ok _ _ Hc') (ca_free _ _ Hc') (ca_len _ _ Hc'))).
  assert ((t_acq (LkPipe pi) t) <| procs := imap (woken ch (cpu_proc (t_acq (LkPipe pi) t))) (procs (t_acq (LkPipe pi) t)) |> = t_acq (LkPipe pi) (woke ch t)) as -> by (by destruct t).
  apply release_bind; [by destruct t; apply Hc|by destruct t].
Qed.

Lemma running_acq lk t k : running p root l tr pgs t k -> running p root l tr pgs (t_acq lk t) k.
Proof. clear Hn. intros []. by split. Qed.
End pipe.


(** Process 0 with a page at address 0, and a pipe that holds two bytes at the
    point where its counters wrap around. *)
Definition pipe_T (root : Z) : T := Kalloc.demo_T <| procs ::= alter (fun q => q <| p_pagetable := root |>) 0%nat |>.
Definition wrapped : pipe := MkPipe (<[511%nat := 104]> (<[0%nat := 105]> (replicate 512 0))) (2 ^ 32 - 1) 1 1 1.
Definition pipe_kern (m : kmem) : kern := (kern0 ∅) <| km := m |> <| pipes := {[ 7 := wrapped ]} |>.

Lemma pipe_T_rest root : rest 0 (pipe_T root).
Proof.
  split; [split; [done|by split_and!|by intros i|done|]|done|done|].
  - intros j q Hj Hq. destruct j as [|j]; [done|].
    change (procs (pipe_T root) !! S j) with (replicate 63 proc0 !! j) in Hq. apply lookup_replicate in Hq as [-> _]. done.
  - by eexists.
Qed.

Lemma wrapped_ok : ring_ok wrapped /\ pq wrapped = [104; 105].
Proof. split; [split; by vm_compute|by vm_compute]. Qed.

