(* ===== verification/UserIO.v ===== *)
(** * Writing files from user memory

    The theorems about [writei] hold for any source that delivers its bytes
    piece by piece ([Feed]); the memory of the running process is one, by the
    theorem about [copyin]. *)

From Stdlib Require Import ZArith Lia.
From S2P Require Import Prelude Riscv KString Thread Proc Sleeplock Kalloc Vm AddrSpace UvmSpec CopySpec Kern.
From S2P Require Import Bio BioSpec ProcMem Fs Files ReadWrite PipeSpec.

Section user_feed.
Context {L : Layout} {LO : LayoutOk L} (n p : nat) (root : Z) (l : list Z) (tr : gmap (list Z) Z) (pgs : gmap Z upage) (m0 : gmap Z Z).

(** The bytes at a user address of memory [m0]. *)
Definition user_src (src : source) (bytes : list Z) : Prop :=
  exists va, src = SUser va /\ 0 <= va /\ va + Z.of_nat (length bytes) < 2 ^ 64 /\ (length bytes < n)%nat /\ ubytes (pgs := pgs) m0 va bytes.
Definition user_ctx (t : T) (k : kern) : Prop := running p root l tr pgs t k /\ mem (km k) = m0 /\ cpu_ok t.

Lemma copyin_bytes t k va bs : running p root l tr pgs t k -> 0 <= va -> (length bs < n)%nat -> ubytes (pgs := pgs) (mem (km k)) va bs ->
  kmm (copyin root va (Z.of_nat (length bs))) n (MkK t k) = Ret (0, bs) (MkK t k).
Proof.
  intros [_ _ HA HU] Hva Hn Hby. destruct (copyin_loop n t l tr root pgs HU (km k) n HA va [] (Z.of_nat (length bs)) Hva ltac:(lia) ltac:(lia)) as (r & cs & E & Hcs & Hr).
  assert (forall i, (i < length bs)%nat -> bs !! i = ubyte (mem (km k)) pgs (va + Z.of_nat i)) as Hbs.
  { intros i Hi. apply lookup_lt_is_Some in Hi as [b Hb]. rewrite Hb. symmetry. by apply Hby. }
  assert (r = 0 /\ cs = bs) as [-> ->].
  { destruct Hr as [[-> Hl]|(_ & Hl & Hr)].
    - split; [done|]. apply list_eq_same_length with (length bs); [done|lia|]. intros i b c Hi Hb Hc. rewrite Hcs in Hb by lia. rewrite Hbs in Hc by lia. congruence.
    - rewrite <- Hbs in Hr by lia. apply lookup_ge_None in Hr. lia. }
  unfold kmm. rewrite (kzoom_ret km (fun k' k => k <| km := k' |>) (copyin root va (Z.of_nat (length bs))) n t k (0, bs) t (km k)); [by rewrite km_id|exact E].
Qed.

#[export] Instance user_feed : Feed n user_src user_ctx.
Proof.
  split.
  - intros src bytes m t k (va & -> & Hva & Hend & Hn & Hby) (HR & Hm & Hok) Hlen. split.
    + cbn [either_copyin]. destruct (ru_root _ _ _ _ _ _ _ HR) as (q & Hq & Hroot & _).
      assert (my_pagetable n (MkK t k) = Ret root (MkK t k)) as E.
      { unfold my_pagetable. rewrite myproc_bind, (ru_proc _ _ _ _ _ _ _ HR) by done. cbn [deref]. rewrite ret_bind, getp_bind, Hq. by rewrite <- Hroot. }
      rewrite (bind_ret _ _ _ _ _ _ E).
      replace m with (Z.of_nat (length (take (Z.to_nat m) bytes))) at 1 by (rewrite length_take; lia).
      apply copyin_bytes; [done|done|rewrite length_take; lia|]. rewrite Hm. intros i b Hb. apply Hby. by apply lookup_take_Some in Hb as [? _].
    + exists (va + m). cbn [source_add]. rewrite u64_small, length_drop by lia. split_and!; [done|lia|lia|lia|].
      intros i b Hb. rewrite lookup_drop in Hb. apply Hby in Hb. rewrite <- Hb. f_equal. lia.
  - intros t k k' (HR & Hm & Hok) Hos. assert (km k' = km k) as E by (apply Hos). split_and!; [|by rewrite E|done].
    destruct HR. split; try done. by rewrite E.
  - intros t k f (HR & Hm & Hok). split_and!; [|done|by apply cpu_ok_slks]. destruct HR. by split.
Qed.
End user_feed.
