(* ===== verification/File.v ===== *)
(** * Open files: [kernel/file.c], and [pipealloc] of [kernel/pipe.c]

    Files are indices into [ftable]. *)

From Stdlib Require Import ZArith Lia.
From S2P Require Import Prelude Riscv KString Thread Proc Sleeplock Kalloc Vm Kern Virtio Bio Log.
From S2P Require Import ProcMem Fs Uart Printf Console Pipe.

Section file_c.
Context {L : Layout}.

Definition fileinit : KK () := initlock LkFtable.

Definition filealloc_body (f : Z) : KK (option nat) :=
  x ← getf (Z.to_nat f);
  if f_ref x =? 0 then
    modf (Z.to_nat f) (fun x => x <| f_ref := 1 |>) ;;
    release LkFtable ;;
    mret (Some (Z.to_nat f))
  else mret None.

Definition filealloc : KK (option nat) :=
  acquire LkFtable ;;
  r ← mfor (Z.to_nat NFILE) 0 filealloc_body;
  match r with
  | Some f => mret (Some f)
  | None => release LkFtable ;; mret None
  end.

Definition filedup (f : nat) : KK nat :=
  acquire LkFtable ;;
  x ← getf f;
  if f_ref x <? 1 then panic "filedup" else
  modf f (fun x => x <| f_ref := f_ref x + 1 |>) ;;
  release LkFtable ;;
  mret f.

(** What the last reference held: a pipe end or an inode. *)
Definition file_release (ff : file) : KK () :=
  match f_type ff with
  | FD_PIPE => pipeclose (f_pipe ff) (negb (f_writable ff =? 0))
  | FD_INODE | FD_DEVICE =>
      begin_op ;;
      ip ← deref (f_ip ff);
      iput ip ;;
      end_op
  | FD_NONE => mret tt
  end.

Definition fileclose (f : nat) : KK () :=
  acquire LkFtable ;;
  x ← getf f;
  if f_ref x <? 1 then panic "fileclose" else
  modf f (fun x => x <| f_ref := f_ref x - 1 |>) ;;
  ff ← getf f;
  if 0 <? f_ref ff then release LkFtable else
  modf f (fun x => x <| f_ref := 0 |> <| f_type := FD_NONE |>) ;;
  release LkFtable ;;
  file_release ff.

(** [struct stat] in memory; the four bytes before [size] are padding. *)
Definition enc_stat (st : stat) : list Z :=
  le_bytes 4 (u32 (st_dev st)) ++ le_bytes 4 (st_ino st) ++ le_bytes 2 (u16 (st_type st)) ++
  le_bytes 2 (u16 (st_nlink st)) ++ replicate 4 0 ++ le_bytes 8 (st_size st).

Definition filestat (f : nat) (addr : Z) : KK Z :=
  pt ← my_pagetable;
  x ← getf f;
  if bool_decide (f_type x = FD_INODE) || bool_decide (f_type x = FD_DEVICE) then
    ilock (f_ip x) ;;
    ip ← deref (f_ip x);
    st ← stati ip;
    iunlock (f_ip x) ;;
    r ← kmm (copyout pt addr (enc_stat st) 24);
    mret (if r <? 0 then -1 else 0)
  else mret (-1).

(** The driver of a device file, if there is one. *)
Definition dev_lookup (major : Z) : KK (option devfns) :=
  if (major <? 0) || (major >=? NDEV) then mret None
  else getX (fun k => match devsw k !! Z.to_nat major with Some d => d | None => None end).

Definition fileread (f : nat) (addr n : Z) : KK Z :=
  x ← getf f;
  if f_readable x =? 0 then mret (-1) else
  match f_type x with
  | FD_PIPE => piperead (f_pipe x) addr n
  | FD_DEVICE =>
      d ← dev_lookup (f_major x);
      match d with
      | None => mret (-1)
      | Some ConsoleFns => consoleread (DUser addr) n
      end
  | FD_INODE =>
      ilock (f_ip x) ;;
      ip ← deref (f_ip x);
      x ← getf f;
      '(r, _) ← readi ip (DUser addr) (f_off x) (u32 n);
      mwhen (0 <? r) (modf f (fun x => x <| f_off := u32 (f_off x + r) |>)) ;;
      iunlock (f_ip x) ;;
      mret r
  | FD_NONE => panic "fileread"
  end.

(** [((MAXOPBLOCKS-1-1-2) / 2) * BSIZE] *)
Definition write_max : Z := ((MAXOPBLOCKS - 1 - 1 - 2) / 2) * BSIZE.

Definition filewrite_body (f : nat) (addr n i : Z) : KK (Z + Z) :=
  if negb (i <? n) then mret (inr i) else
  let n1 := if n - i >? write_max then write_max else n - i in
  begin_op ;;
  x ← getf f;
  ilock (f_ip x) ;;
  ip ← deref (f_ip x);
  x ← getf f;
  r ← writei ip (SUser (u64 (addr + i))) (f_off x) n1;
  mwhen (0 <? r) (modf f (fun x => x <| f_off := u32 (f_off x + r) |>)) ;;
  iunlock (f_ip x) ;;
  end_op ;;
  if negb (r =? n1) then mret (inr i) else mret (inl (i + r)).

Definition filewrite (f : nat) (addr n : Z) : KK Z :=
  x ← getf f;
  if f_writable x =? 0 then mret (-1) else
  match f_type x with
  | FD_PIPE => pipewrite (f_pipe x) addr n
  | FD_DEVICE =>
      d ← dev_lookup (f_major x);
      match d with
      | None => mret (-1)
      | Some ConsoleFns => consolewrite (SUser addr) n
      end
  | FD_INODE =>
      i ← mloop (filewrite_body f addr n) 0;
      mret (if i =? n then n else -1)
  | FD_NONE => panic "filewrite"
  end.

(** pipe.c: the two files, or [None] for -1.  [kalloc] fills the page with
    5s, which is what [data] holds. *)
Definition pipealloc : KK (option (nat * nat)) :=
  f0 ← filealloc;
  match f0 with
  | None => mret None
  | Some f0 =>
      f1 ← filealloc;
      match f1 with
      | None => fileclose f0 ;; mret None
      | Some f1 =>
          pi ← kmm kalloc;
          if pi =? 0 then fileclose f0 ;; fileclose f1 ;; mret None else
          modX (fun k => k <| pipes ::= <[pi := MkPipe (replicate (Z.to_nat PIPESIZE) 5) 0 0 1 1]> |>) ;;
          initlock (LkPipe pi) ;;
          modf f0 (fun x => x <| f_type := FD_PIPE |> <| f_readable := 1 |> <| f_writable := 0 |> <| f_pipe := pi |>) ;;
          modf f1 (fun x => x <| f_type := FD_PIPE |> <| f_readable := 0 |> <| f_writable := 1 |> <| f_pipe := pi |>) ;;
          mret (Some (f0, f1))
      end
  end.
End file_c.
