(* ===== verification/FileRefs.v ===== *)
(** * References to open files

    The file table counts the references the rest of the kernel holds: a
    multiset of table entries.  [filealloc], [filedup] and [fileclose] of
    [kernel/file.c] keep the counts equal to it, and an entry nobody refers to
    has no type. *)

From Stdlib Require Import ZArith Lia.
From stdpp Require Import gmultiset.
From S2P Require Import Prelude Riscv KString Thread Proc Sleeplock Kalloc Vm Kern VirtioSpec ProcMem Fs Pipe File.

Definition NFILES : nat := Z.to_nat NFILE.

(** [H] is what is referred to. *)
Record files_ok (ft : list file) (H : gmultiset nat) : Prop := {
  fi_len : length ft = NFILES;
  fi_ref : forall f x, ft !! f = Some x -> f_ref x = Z.of_nat (multiplicity f H);
  fi_in : forall f, f ∈ H -> (f < NFILES)%nat;
  fi_free : forall f x, ft !! f = Some x -> f ∉ H -> f_type x = FD_NONE
}.

Definition ref_inc (x : file) : file := x <| f_ref := f_ref x + 1 |>.
Definition ref_dec (x : file) : file := x <| f_ref := f_ref x - 1 |>.
Definition ref_none (x : file) : file := x <| f_ref := 0 |> <| f_type := FD_NONE |>.

Lemma files_lookup ft H f : files_ok ft H -> (f < NFILES)%nat -> exists x, ft !! f = Some x /\ f_ref x = Z.of_nat (multiplicity f H).
Proof. intros HK Hf. destruct (lookup_lt_is_Some_2 ft f) as [x Hx]; [by rewrite (fi_len _ _ HK)|]. exists x. split; [done|by apply HK]. Qed.

Lemma in_added (f : nat) (H : gmultiset nat) : f ∈ {[+ f +]} ⊎ H.
Proof. multiset_solver. Qed.

(** A change of one entry. *)
Lemma files_alter ft H H' f g : files_ok ft H -> (f < NFILES)%nat -> (forall j, j <> f -> multiplicity j H' = multiplicity j H) ->
  (forall x, ft !! f = Some x -> f_ref (g x) = Z.of_nat (multiplicity f H') /\ (f ∉ H' -> f_type (g x) = FD_NONE)) -> files_ok (alter g f ft) H'.
Proof.
  intros [H1 H2 H3 H4] Hf Hm Hg. split.
  - by rewrite length_alter.
  - intros j x. destruct (decide (j = f)) as [->|Hne].
    + rewrite list_lookup_alter_eq. intros (y & Hy & ->)%fmap_Some. by apply Hg.
    + rewrite list_lookup_alter_ne by done. intros Hx. rewrite Hm by done. by apply H2.
  - intros j Hj. destruct (decide (j = f)) as [->|Hne]; [done|]. apply H3. apply elem_of_multiplicity. rewrite <- Hm by done. by apply elem_of_multiplicity.
  - intros j x. destruct (decide (j = f)) as [->|Hne].
    + rewrite list_lookup_alter_eq. intros (y & Hy & ->)%fmap_Some. by apply Hg.
    + rewrite list_lookup_alter_ne by done. intros Hx Hj. apply (H4 j x Hx). intros Hin. apply Hj. apply elem_of_multiplicity. rewrite Hm by done. by apply elem_of_multiplicity.
Qed.

Section refs.
Context {L : Layout} (n : nat) (t : T) (k : kern).
Context (Ht : cpu_ok t) (Hl : lks t !! LkFtable = None).

Lemma getf_bind {B} t' k' f x (g : file -> KK B) : ftable k' !! f = Some x -> (getf f ≫= g) n (MkK t' k') = g x n (MkK t' k').
Proof. intros E. unfold getf. by rewrite getX_bind, E. Qed.
Lemma modf_bind {B} t' k' f h (g : () -> KK B) : (modf f h ≫= g) n (MkK t' k') = g tt n (MkK t' (k' <| ftable ::= alter h f |>)).
Proof. done. Qed.

Lemma filedup_spec f x : ftable k !! f = Some x -> filedup f n (MkK t k) = if f_ref x <? 1 then Panic "filedup" else Ret f (MkK t (k <| ftable ::= alter ref_inc f |>)).
Proof.
  intros Hx. unfold filedup. rewrite acquire_bind, (getf_bind _ _ _ _ _ Hx) by done. destruct (f_ref x <? 1); [done|]. by rewrite modf_bind, release_bind.
Qed.

(** ... one more reference to a file in use. *)
Lemma filedup_counts H f : files_ok (ftable k) H -> f ∈ H -> exists ft, filedup f n (MkK t k) = Ret f (MkK t (k <| ftable := ft |>)) /\ files_ok ft ({[+ f +]} ⊎ H).
Proof.
  intros HK Hf. destruct (files_lookup _ _ f HK (fi_in _ _ HK f Hf)) as (x & Hx & Hr). pose proof (proj1 (elem_of_multiplicity _ _) Hf) as Hpos. pose proof (fi_in _ _ HK f Hf) as Hlt.
  rewrite (filedup_spec f x Hx), (proj2 (Z.ltb_ge (f_ref x) 1)) by lia. eexists. split; [reflexivity|].
  apply (files_alter _ H); [done|done|intros j Hj; rewrite multiplicity_disj_union, multiplicity_singleton_ne by done; done|].
  intros y Hy. rewrite multiplicity_disj_union, multiplicity_singleton_eq. simplify_eq. split; [cbn; lia|]. intros Hin. by destruct (Hin (in_added f H)).
Qed.

Lemma fileclose_spec f x : ftable k !! f = Some x -> fileclose f n (MkK t k) =
  if f_ref x <? 1 then Panic "fileclose" else
  if 1 <? f_ref x then Ret tt (MkK t (k <| ftable ::= alter ref_dec f |>))
  else file_release x n (MkK t (k <| ftable ::= alter ref_none f |>)).
Proof.
  intros Hx. unfold fileclose. rewrite acquire_bind, (getf_bind _ _ _ _ _ Hx) by done. destruct (f_ref x <? 1) eqn:E1; [done|].
  rewrite modf_bind, (getf_bind _ _ _ (ref_dec x)) by (cbn; by rewrite list_lookup_alter_eq, Hx). change (f_ref (ref_dec x)) with (f_ref x - 1).
  replace (0 <? f_ref x - 1) with (1 <? f_ref x) by (apply eq_true_iff_eq; rewrite !Z.ltb_lt; lia).
  destruct (1 <? f_ref x) eqn:E2; [by rewrite release_spec|]. rewrite modf_bind, release_bind by done. unfold file_release. cbn [f_type f_pipe f_writable f_ip ref_dec].
  replace ((k <| ftable ::= alter (fun x => x <| f_ref := f_ref x - 1 |>) f |>) <| ftable ::= alter (fun x => x <| f_ref := 0 |> <| f_type := FD_NONE |>) f |>)
    with (k <| ftable ::= alter ref_none f |>); [done|]. destruct k. unfold upd. cbn in *. f_equal. by rewrite alter_alter.
Qed.

(** The first entry without references from [i] on. *)
Lemma filealloc_scan H : files_ok (ftable k) H -> forall m i, (i + m = NFILES)%nat -> (forall j, (j < i)%nat -> j ∈ H) ->
  (exists f, (i <= f < NFILES)%nat /\ f ∉ H /\ (forall j, (j < f)%nat -> j ∈ H) /\
    mfor m (Z.of_nat i) filealloc_body n (MkK (t_acq LkFtable t) k) = Ret (Some f) (MkK t (k <| ftable ::= alter (fun x => x <| f_ref := 1 |>) f |>))) \/
  ((forall j, (j < NFILES)%nat -> j ∈ H) /\ mfor m (Z.of_nat i) filealloc_body n (MkK (t_acq LkFtable t) k) = Ret None (MkK (t_acq LkFtable t) k)).
Proof.
  intros HK. induction m as [|m IH]; intros i Hi Hin.
  { right. split; [|done]. intros j Hj. apply Hin. lia. }
  destruct (files_lookup _ _ i HK ltac:(lia)) as (x & Hx & Hr).
  assert (filealloc_body (Z.of_nat i) n (MkK (t_acq LkFtable t) k) = if f_ref x =? 0 then Ret (Some i) (MkK t (k <| ftable ::= alter (fun x => x <| f_ref := 1 |>) i |>)) else Ret None (MkK (t_acq LkFtable t) k)) as E.
  { unfold filealloc_body. rewrite Nat2Z.id, (getf_bind _ _ _ _ _ Hx). destruct (f_ref x =? 0); [|done]. by rewrite modf_bind, release_bind. }
  destruct (Z.eqb_spec (f_ref x) 0) as [Hz|Hz].
  - left. exists i. split_and!; [lia|lia| |done|by rewrite (mfor_exit _ _ _ _ _ _ _ E)]. intros Hin'. rewrite elem_of_multiplicity in Hin'. lia.
  - rewrite (mfor_next _ _ _ _ _ _ E). replace (Z.of_nat i + 1) with (Z.of_nat (S i)) by lia.
    destruct (IH (S i)) as [(f & H1 & H2 & H3 & H4)|[H1 H2]]; [lia| |left|right].
    + intros j Hj. destruct (decide (j = i)) as [->|]; [rewrite elem_of_multiplicity; lia|apply Hin; lia].
    + exists f. split_and!; try done; lia.
    + done.
Qed.
End refs.

(** C17: the file table's reference counts are right.  In a table that counts
    the references [H], [filealloc] gives the first entry without references,
    typeless, or nothing if there is none; [filedup] of a file in use adds a
    reference; [fileclose] drops one, and the pipe end or inode of the file is
    given up exactly with the last.  The table counts the references that
    are left, and its free entries have no type.  Duplicating or closing a
    file nobody refers to panics. *)
Theorem file_refs_correct {L : Layout} n t k H : cpu_ok t -> lks t !! LkFtable = None -> files_ok (ftable k) H ->
  ((exists f, (f < NFILES)%nat /\ f ∉ H /\ (forall j, (j < f)%nat -> j ∈ H) /\ exists ft, filealloc n (MkK t k) = Ret (Some f) (MkK t (k <| ftable := ft |>)) /\
      files_ok ft ({[+ f +]} ⊎ H) /\ f_type <$> ft !! f = Some FD_NONE) \/
   (forall j, (j < NFILES)%nat -> j ∈ H) /\ filealloc n (MkK t k) = Ret None (MkK t k)) /\
  (forall f, f ∈ H -> exists x ft ft', ftable k !! f = Some x /\ filedup f n (MkK t k) = Ret f (MkK t (k <| ftable := ft |>)) /\ files_ok ft ({[+ f +]} ⊎ H) /\
     fileclose f n (MkK t k) = (if decide (multiplicity f H = 1%nat) then file_release x else mret tt) n (MkK t (k <| ftable := ft' |>)) /\ files_ok ft' (H ∖ {[+ f +]})) /\
  (forall f, (f < NFILES)%nat -> f ∉ H -> filedup f n (MkK t k) = Panic "filedup" /\ fileclose f n (MkK t k) = Panic "fileclose").
Proof.
  intros Ht Hl HK. split_and!.
  - unfold filealloc. rewrite acquire_bind by done. destruct (filealloc_scan n t k Ht Hl H HK NFILES 0 eq_refl) as [(f & H1 & H2 & H3 & E)|[H1 E]]; [lia|left|right].
    + assert (multiplicity f H = 0%nat) as Hz by (rewrite not_elem_of_multiplicity in H2; lia).
      exists f. split_and!; [lia|done|done|]. eexists. rewrite (bind_ret _ _ _ _ _ _ E). split_and!; [reflexivity| |].
      * apply (files_alter _ H); [done|lia|intros j Hj; rewrite multiplicity_disj_union, multiplicity_singleton_ne by done; done|].
        intros x Hx. rewrite multiplicity_disj_union, multiplicity_singleton_eq, Hz. split; [reflexivity|]. intros Hin. by destruct (Hin (in_added f H)).
      * destruct (files_lookup _ _ f HK) as (x & Hx & _); [lia|]. rewrite list_lookup_alter_eq, Hx. cbn. f_equal. by apply (fi_free _ _ HK f).
    + split; [done|]. rewrite (bind_ret _ _ _ _ _ _ E). by rewrite release_bind.
  - intros f Hf. destruct (files_lookup _ _ f HK (fi_in _ _ HK f Hf)) as (x & Hx & Hr). pose proof (proj1 (elem_of_multiplicity _ _) Hf) as Hpos. pose proof (fi_in _ _ HK f Hf) as Hlt.
    destruct (filedup_counts n t k Ht Hl H f HK Hf) as (ft & Ed & HKd). exists x, ft. rewrite (fileclose_spec n t k Ht Hl f x Hx), (proj2 (Z.ltb_ge (f_ref x) 1)) by lia.
    assert (forall m, m = multiplicity f H -> files_ok (alter (if decide (m = 1%nat) then ref_none else ref_dec) f (ftable k)) (H ∖ {[+ f +]})) as Hdec.
    { intros m ->. apply (files_alter _ H); [done|done|intros j Hj; rewrite multiplicity_difference, multiplicity_singleton_ne by done; lia|].
      intros y Hy. rewrite multiplicity_difference, multiplicity_singleton_eq. simplify_eq. case_decide as Hone; [by rewrite Hone|]. split; [cbn; lia|].
      intros Hno. rewrite not_elem_of_multiplicity in Hno. rewrite multiplicity_difference, multiplicity_singleton_eq in Hno. lia. }
    specialize (Hdec _ eq_refl). eexists. split_and!; [done|done|done| |exact Hdec].
    case_decide as Hone; [by rewrite (proj2 (Z.ltb_ge 1 _)) by lia|by rewrite (proj2 (Z.ltb_lt 1 _)) by lia].
  - intros f Hf Hno. destruct (files_lookup _ _ f HK Hf) as (x & Hx & Hr). rewrite not_elem_of_multiplicity in Hno.
    rewrite (filedup_spec n t k Ht Hl f x Hx), (fileclose_spec n t k Ht Hl f x Hx), (proj2 (Z.ltb_lt (f_ref x) 1)) by lia. done.
Qed.

(** A table with two references to file 0. *)
Definition two_refs : kern := (kern0 ∅) <| ftable := file0 <| f_ref := 2 |> :: replicate 99 file0 |>.

Lemma two_refs_ok : files_ok (ftable two_refs) {[+ 0%nat; 0%nat +]}.
Proof.
  assert (forall f x, ftable two_refs !! f = Some x -> f_type x = FD_NONE /\ f_ref x = if decide (f = 0%nat) then 2 else 0) as Hx.
  { intros [|f] x Hx; [by injection Hx as <-|]. change (replicate 99 file0 !! f = Some x) in Hx. apply lookup_replicate in Hx as [-> _]. done. }
  split.
  - reflexivity.
  - intros f x H. destruct (Hx f x H) as [_ ->]. rewrite multiplicity_disj_union. case_decide as E; [by subst|]. by rewrite !multiplicity_singleton_ne.
  - intros f Hf. assert (f = 0%nat) as -> by multiset_solver. unfold NFILES, NFILE. lia.
  - intros f x H _. by apply (Hx f).
Qed.

Lemma file_refs_correct_witness : exists ft, filedup 0 1%nat (MkK Kalloc.demo_T two_refs) = Ret 0%nat (MkK Kalloc.demo_T (two_refs <| ftable := ft |>)) /\
  files_ok ft ({[+ 0%nat +]} ⊎ {[+ 0%nat; 0%nat +]}).
Proof.
  destruct (file_refs_correct (L := demo_layout) 1%nat Kalloc.demo_T two_refs {[+ 0%nat; 0%nat +]} demo_T_ok eq_refl two_refs_ok) as (_ & H & _).
  destruct (H 0%nat) as (x & ft & ft' & _ & E & HK & _); [multiset_solver|]. exists ft. split; [exact E|exact HK].
Defined.
