(* ===== verification/ProcOps.v ===== *)
(** * Processes: the rest of [kernel/proc.c]

    [allocproc], [freeproc], [userinit], [growproc], [fork], [exit] and
    [wait], which touch memory, files and inodes as well as the process
    table.  (proc_pagetable and proc_freepagetable are in Vm.v; scheduling is
    in Proc.v.) *)

From Stdlib Require Import ZArith Lia.
From S2P Require Import Prelude Riscv KString Thread Proc Sleeplock Kalloc Vm Kern Virtio Bio Log.
From S2P Require Import ProcMem Fs Uart Printf Console Pipe File.

(** Addresses of code the C sources take. *)
Class Symbols := {
  forkret_addr : Z;    (* forkret *)
  usertrap_addr : Z;   (* usertrap *)
  kernelvec_addr : Z;  (* kernelvec.S *)
  uservec_off : Z;     (* uservec - trampoline *)
  userret_off : Z      (* userret - trampoline *)
}.

(** ** The trap frame (struct trapframe of proc.h), a page of memory *)

Definition TF_kernel_satp : Z := 0.
Definition TF_kernel_sp : Z := 8.
Definition TF_kernel_trap : Z := 16.
Definition TF_epc : Z := 24.
Definition TF_kernel_hartid : Z := 32.
Definition TF_sp : Z := 48.
(** [a0] to [a7] *)
Definition TF_a (n : Z) : Z := 112 + 8 * n.
Definition TF_SIZE : Z := 288.

Definition tf_get (p : nat) (off : Z) : KK Z :=
  q ← getp p;
  kmm (load64 (p_trapframe q + off)).
Definition tf_set (p : nat) (off v : Z) : KK () :=
  q ← getp p;
  kmm (store64 (p_trapframe q + off) v).

Section proc_ops.
Context {L : Layout} {SY : Symbols}.

Definition freeproc (p : nat) : KK () :=
  q ← getp p;
  mwhen (negb (p_trapframe q =? 0)) (kmm (kfree (p_trapframe q))) ;;
  modp p (fun q => q <| p_trapframe := 0 |>) ;;
  q ← getp p;
  mwhen (negb (p_pagetable q =? 0)) (kmm (proc_freepagetable (p_pagetable q) (p_sz q))) ;;
  modp p (fun q => q <| p_pagetable := 0 |> <| p_sz := 0 |> <| p_pid := 0 |> <| p_parent := None |>
                     <| p_name ::= <[0%nat := 0]> |> <| p_chan := ChNone |> <| p_killed := 0 |>
                     <| p_xstate := 0 |> <| p_state := UNUSED |>).

Definition allocproc_body (p : Z) : KK (option nat) :=
  acquire (LkProc (Z.to_nat p)) ;;
  q ← getp (Z.to_nat p);
  if bool_decide (p_state q = UNUSED) then mret (Some (Z.to_nat p))
  else release (LkProc (Z.to_nat p)) ;; mret None.

Definition allocproc : KK (option nat) :=
  r ← mfor (Z.to_nat NPROC) 0 allocproc_body;
  match r with
  | None => mret None
  | Some p =>
      pid ← allocpid;
      modp p (fun q => q <| p_pid := pid |> <| p_state := USED |>) ;;
      tf ← kmm kalloc;
      modp p (fun q => q <| p_trapframe := tf |>) ;;
      if tf =? 0 then
        freeproc p ;;
        release (LkProc p) ;;
        mret None
      else
        pt ← kmm (proc_pagetable tf);
        modp p (fun q => q <| p_pagetable := pt |>) ;;
        if pt =? 0 then
          freeproc p ;;
          release (LkProc p) ;;
          mret None
        else
          modp p (fun q => q <| p_context := MkContext forkret_addr (p_kstack q + PGSIZE) (replicate 12 0) |>) ;;
          mret (Some p)
  end.

Definition initcode : list Z := [
  0x17; 0x05; 0x00; 0x00; 0x13; 0x05; 0x45; 0x02;
  0x97; 0x05; 0x00; 0x00; 0x93; 0x85; 0x35; 0x02;
  0x93; 0x08; 0x70; 0x00; 0x73; 0x00; 0x00; 0x00;
  0x93; 0x08; 0x20; 0x00; 0x73; 0x00; 0x00; 0x00;
  0xef; 0xf0; 0x9f; 0xff; 0x2f; 0x69; 0x6e; 0x69;
  0x74; 0x00; 0x00; 0x24; 0x00; 0x00; 0x00; 0x00;
  0x00; 0x00; 0x00; 0x00].

Definition userinit : KK () :=
  o ← allocproc;
  modT (fun t => t <| initproc := o |>) ;;
  p ← deref o;
  q ← getp p;
  kmm (uvminit (p_pagetable q) initcode 52) ;;
  modp p (fun q => q <| p_sz := PGSIZE |>) ;;
  tf_set p TF_epc 0 ;;
  tf_set p TF_sp PGSIZE ;;
  modp p (fun q => q <| p_name := safestrcpy_l 16 (chars "initcode") (p_name q) |>) ;;
  cwd ← namei [slash];
  modp p (fun q => q <| p_cwd := cwd |>) ;;
  modp p (fun q => q <| p_state := RUNNABLE |>) ;;
  release (LkProc p).

(** [sz] is a 32-bit variable. *)
Definition growproc (n : Z) : KK Z :=
  p ← myproc;
  p ← deref p;
  q ← getp p;
  let sz := u32 (p_sz q) in
  if 0 <? n then
    r ← kmm (uvmalloc (p_pagetable q) sz (u32 (sz + n)));
    let sz := u32 r in
    if sz =? 0 then mret (-1) else
    modp p (fun q => q <| p_sz := sz |>) ;;
    mret 0
  else if n <? 0 then
    r ← kmm (uvmdealloc (p_pagetable q) sz (u32 (sz + n)));
    modp p (fun q => q <| p_sz := u32 r |>) ;;
    mret 0
  else
    modp p (fun q => q <| p_sz := sz |>) ;;
    mret 0.

(** Duplicating the open files of [p] into [np]. *)
Definition fork_ofile (p np : nat) (i : Z) : KK () :=
  q ← getp p;
  match p_ofile q !! Z.to_nat i with
  | Some (Some f) =>
      f ← filedup f;
      modp np (fun q => q <| p_ofile ::= <[Z.to_nat i := Some f]> |>)
  | _ => mret tt
  end.

Definition fork : KK Z :=
  o ← myproc;
  p ← deref o;
  np ← allocproc;
  match np with
  | None => mret (-1)
  | Some np =>
      q ← getp p;
      nq ← getp np;
      r ← kmm (uvmcopy (p_pagetable q) (p_pagetable nq) (p_sz q));
      if r <? 0 then
        freeproc np ;;
        release (LkProc np) ;;
        mret (-1)
      else
        modp np (fun nq => nq <| p_sz := p_sz q |>) ;;
        kmm (kmemmove (p_trapframe nq) (p_trapframe q) TF_SIZE) ;;
        tf_set np (TF_a 0) 0 ;;
        meach (Z.to_nat NOFILE) 0 (fork_ofile p np) ;;
        cwd ← deref (p_cwd q);
        cwd ← idup cwd;
        modp np (fun nq => nq <| p_cwd := Some cwd |>) ;;
        modp np (fun nq => nq <| p_name := safestrcpy_l 16 (p_name q) (p_name nq) |>) ;;
        nq ← getp np;
        let pid := p_pid nq in
        release (LkProc np) ;;
        acquire LkWait ;;
        modp np (fun nq => nq <| p_parent := Some p |>) ;;
        release LkWait ;;
        acquire (LkProc np) ;;
        modp np (fun nq => nq <| p_state := RUNNABLE |>) ;;
        release (LkProc np) ;;
        mret pid
  end.

Definition exit_close (p : nat) (fd : Z) : KK () :=
  q ← getp p;
  match p_ofile q !! Z.to_nat fd with
  | Some (Some f) =>
      fileclose f ;;
      modp p (fun q => q <| p_ofile ::= <[Z.to_nat fd := None]> |>)
  | _ => mret tt
  end.

(** The channel named by a process pointer. *)
Definition proc_chan (o : option nat) : chan := match o with Some i => ChProc i | None => ChNone end.

Definition exit {A} (status : Z) : KK A :=
  o ← myproc;
  ip ← getT initproc;
  if bool_decide (o = ip) then panic "init exiting" else
  p ← deref o;
  meach (Z.to_nat NOFILE) 0 (exit_close p) ;;
  begin_op ;;
  q ← getp p;
  cwd ← deref (p_cwd q);
  iput cwd ;;
  end_op ;;
  modp p (fun q => q <| p_cwd := None |>) ;;
  acquire LkWait ;;
  reparent p ;;
  q ← getp p;
  wakeup (proc_chan (p_parent q)) ;;
  acquire (LkProc p) ;;
  modp p (fun q => q <| p_xstate := status |>) ;;
  modp p (fun q => q <| p_state := ZOMBIE |>) ;;
  release LkWait ;;
  sched ;;
  panic "zombie exit".

(** One scan of the table: [inl havekids] if no exited child was found,
    [inr v] if [wait] returns [v]. *)
Definition wait_scan (p : nat) (addr : Z) : Z * bool -> KK ((Z * bool) + (bool + Z)) :=
  fun '(np, havekids) =>
  if negb (np <? NPROC) then mret (inr (inl havekids)) else
  nq ← getp (Z.to_nat np);
  if negb (bool_decide (p_parent nq = Some p)) then mret (inl (np + 1, havekids)) else
  acquire (LkProc (Z.to_nat np)) ;;
  nq ← getp (Z.to_nat np);
  if bool_decide (p_state nq = ZOMBIE) then
    let pid := p_pid nq in
    q ← getp p;
    r ← (if negb (addr =? 0) then kmm (copyout (p_pagetable q) addr (le_bytes 4 (u32 (p_xstate nq))) 4) else mret 0);
    if r <? 0 then
      release (LkProc (Z.to_nat np)) ;;
      release LkWait ;;
      mret (inr (inr (-1)))
    else
      freeproc (Z.to_nat np) ;;
      release (LkProc (Z.to_nat np)) ;;
      release LkWait ;;
      mret (inr (inr pid))
  else
    release (LkProc (Z.to_nat np)) ;;
    mret (inl (np + 1, true)).

Definition wait_body (p : nat) (addr : Z) (_ : ()) : KK (() + Z) :=
  r ← mloop (wait_scan p addr) (0, false);
  match r with
  | inr v => mret (inr v)
  | inl havekids =>
      q ← getp p;
      if negb havekids || negb (p_killed q =? 0) then
        release LkWait ;;
        mret (inr (-1))
      else
        sleep (ChProc p) LkWait ;;
        mret (inl tt)
  end.

Definition wait (addr : Z) : KK Z :=
  p ← myproc;
  acquire LkWait ;;
  p ← deref p;
  mloop (wait_body p addr) tt.
End proc_ops.
