(* ===== verification/UserSpace.v ===== *)
(** * The memory of a process

    [user_space] is what holds of a process's memory between system calls: its
    page table maps [p_sz] bytes of pages of its own from address 0, the trap
    frame and the trampoline. *)

From Stdlib Require Import ZArith Lia.
From S2P Require Import Prelude Riscv KString Thread Kalloc Vm VmSpec AddrSpace UvmSpec GrowSpec FreeSpec VmTheorems.

Record user_space {L : Layout} (k : kmem) (l : list Z) (tr : gmap (list Z) Z) (pgs : gmap Z upage) (q : proc) : Prop := {
  us_as : as_inv k l tr (p_pagetable q) pgs;
  us_sz : 0 <= p_sz q <= TRAPFRAME;
  us_heap : range_owned pgs 0 (Z.to_nat (npages (p_sz q))) true;
  us_out : forall v, v < 0 \/ npages (p_sz q) <= v -> pgs !! v = sys_pages (p_trapframe q) !! v;
  us_tf : valid_page (p_trapframe q) /\ ~ accounted l tr pgs (p_trapframe q)
}.

(** The pages of a process. *)
Definition us_pages (tr : gmap (list Z) Z) (pgs : gmap Z upage) (q : proc) (a : Z) : Prop := pt_owns tr a \/ own_in pgs a \/ a = p_trapframe q.

(** Pages that are mapped alike have the same bytes. *)
Lemma ubyte_page m (pgs pgs' : gmap Z upage) va : pgs' !! (va / PGSIZE) = pgs !! (va / PGSIZE) -> ubyte m pgs' va = ubyte m pgs va.
Proof. unfold ubyte. by intros ->. Qed.
Lemma page_out va a b : ~ (a * PGSIZE <= va < b * PGSIZE) -> va / PGSIZE < a \/ b <= va / PGSIZE.
Proof. unfold PGSIZE. lia. Qed.

Section space.
Context {L : Layout} {LO : LayoutOk L}.

Lemma sys_pages_low tf v : 0 <= v < NPG - 2 -> sys_pages tf !! v = None.
Proof. intros Hv. unfold sys_pages. by rewrite !lookup_insert_ne by lia. Qed.

Lemma us_is_heap k l tr pgs q : user_space k l tr pgs q -> heap pgs (p_sz q).
Proof.
  intros U. destruct (npages_bound (p_sz q) (us_sz _ _ _ _ _ U)) as [B _]. split; [apply U|].
  change (TRAPFRAME / PGSIZE) with (NPG - 2). intros v Hv. rewrite (us_out _ _ _ _ _ U) by lia. apply sys_pages_low. lia.
Qed.

Lemma us_owned k l tr pgs q : user_space k l tr pgs q -> user_owned pgs.
Proof.
  intros U v u Hv HU. destruct (decide (0 <= v < npages (p_sz q))) as [Hr|Hr].
  - destruct (us_heap _ _ _ _ _ U v) as (u' & Hu' & Ho); [lia|]. by simplify_eq.
  - rewrite (us_out _ _ _ _ _ U) in Hv by lia. unfold sys_pages in Hv. rewrite !lookup_insert_Some, lookup_empty in Hv.
    destruct Hv as [[_ <-]|[_ [[_ <-]|[_ ?]]]]; done.
Qed.

(** The same pages, in another state of memory. *)
Lemma us_keep k l tr pgs q k' l' : user_space k l tr pgs q -> kmem_inv k' l' ->
  (forall p, us_pages tr pgs q p -> p ∉ l') -> (forall p, pt_owns tr p -> page_same p (mem k) (mem k')) -> user_space k' l' tr pgs q.
Proof.
  intros [A1 A2 A3 A4 [A5 A6]] HK Hl Hp. split; try done.
  - apply (as_keep k l); [done|done| |done]. intros p Ho. apply Hl. unfold us_pages. tauto.
  - split; [done|]. unfold accounted, us_pages in *. pose proof (Hl (p_trapframe q)). tauto.
Qed.

Lemma us_page k l tr pgs q p : user_space k l tr pgs q -> us_pages tr pgs q p -> valid_page p.
Proof.
  intros [A _ _ _ [Hv _]] [[π Hπ]|[Ho| ->]]; [|by apply (as_own _ _ _ _ _ A)|done].
  apply (pr_valid _ _ _ (vi_rep _ _ _ _ (as_vm _ _ _ _ _ A)) _ _ Hπ).
Qed.

(** A process without user memory. *)
Lemma us_empty k l tr q : as_inv k l tr (p_pagetable q) (sys_pages (p_trapframe q)) -> p_sz q = 0 -> valid_page (p_trapframe q) ->
  ~ accounted l tr (sys_pages (p_trapframe q)) (p_trapframe q) -> user_space k l tr (sys_pages (p_trapframe q)) q.
Proof. intros A Hsz Hv Hna. split; rewrite ?Hsz; [done|done| |done|done]. intros v Hv'. change (Z.to_nat (npages 0)) with 0%nat in Hv'. lia. Qed.

Lemma us_used k l tr pgs q a : user_space k l tr pgs q -> us_pages tr pgs q a -> a ∉ l.
Proof.
  intros U. pose proof (us_tf _ _ _ _ _ U) as [_ Hna]. unfold accounted in Hna. pose proof (us_as _ _ _ _ _ U) as A.
  intros [Ha|[Ha| ->]]; [by apply (vi_sep _ _ _ _ (as_vm _ _ _ _ _ A))|by apply (as_own _ _ _ _ _ A)|tauto].
Qed.

(** A process is unaffected by what only uses the free pages. *)
Lemma parent_kept k l tr pgs q k' l' : user_space k l tr pgs q -> kmem_inv k' l' -> (forall a, a ∈ l' -> a ∈ l) ->
  (forall a, valid_page a -> a ∉ l -> page_same a (mem k) (mem k')) -> user_space k' l' tr pgs q.
Proof.
  intros U HK Hl Hs. apply (us_keep k l); [done|done| |].
  - intros a Ha Hl'. by apply (us_used _ _ _ _ _ a U), Hl.
  - intros a Ha. apply Hs; [apply (us_page _ _ _ _ _ _ U)|apply (us_used _ _ _ _ _ _ U)]; by left.
Qed.

(** [proc_freepagetable] on a process's page table. *)
Lemma free_pagetable n th k l tr root pgs sz tf : cpu_ok th -> lks th !! LkKmem = None -> (3 <= n)%nat -> npages sz < Z.of_nat n ->
  as_inv k l tr root pgs -> 0 <= sz <= TRAPFRAME -> range_owned pgs 0 (Z.to_nat (npages sz)) true -> (forall v, v < 0 \/ npages sz <= v -> pgs !! v = sys_pages tf !! v) ->
  exists k' l', proc_freepagetable root sz n (MkK th k) = Ret tt (MkK th k') /\ kmem_inv k' l' /\ (forall a, a ∈ l' <-> accounted l tr pgs a) /\
    (forall a, valid_page a -> ~ accounted l tr pgs a -> page_same a (mem k) (mem k')).
Proof.
  intros Hc Hl Hn Hf A Hsz Hr Hout. destruct (npages_bound sz Hsz) as [Hb _].
  apply (proc_freepagetable_spec n th Hc Hl k l tr root pgs sz (MkUp trampoline (Z.lor PTE_R PTE_X) false) (MkUp tf (Z.lor PTE_R PTE_W) false)); try done.
  - rewrite Hout by lia. done.
  - rewrite Hout by lia. done.
  - intros v [w Hw]. destruct (decide (0 <= v < npages sz)); [by left|right]. rewrite Hout in Hw by lia. unfold sys_pages in Hw. rewrite !lookup_insert_Some, lookup_empty in Hw. naive_solver.
Qed.
End space.
