(* ===== verification/AllocProc.v ===== *)
(** * Process slots: [allocproc] and [freeproc]

    [allocproc] takes the first unused entry of the process table, gives it a
    pid, a trap frame and a page table, and returns with the entry's lock
    held, or leaves the entry unused and all memory free as it was. *)

From Stdlib Require Import ZArith Lia.
From S2P Require Import Prelude Riscv KString Thread Proc Sleeplock Kalloc Vm VmSpec AddrSpace UvmSpec GrowSpec FreeSpec VmTheorems UserSpace Kern ProcMem File ProcOps.

(** ** One entry of the table *)

Definition set_proc (i : nat) (c : proc) (t : T) : T := t <| procs ::= <[i := c]> |>.
(** ... while a lock is held. *)
Definition under (lk : lockid) (i : nat) (c : proc) (t : T) : T := t_acq lk (set_proc i c t).
Definition next_pid (t : T) : T := t <| nextpid ::= fun n => i32 (n + 1) |>.

(** An entry nobody uses. *)
Record unused (q : proc) : Prop := {
  un_state : p_state q = UNUSED;
  un_tf : p_trapframe q = 0;
  un_pt : p_pagetable q = 0;
  un_sz : p_sz q = 0;
  un_ofile : p_ofile q = replicate (Z.to_nat NOFILE) None
}.

(** [np] is the first of the entries. *)
Definition first_unused (t : T) (np : nat) (q : proc) : Prop :=
  procs t !! np = Some q /\ unused q /\ forall j q', (j < np)%nat -> procs t !! j = Some q' -> p_state q' <> UNUSED.

Section slot.
Context {X : Type} (n : nat) (t : T) (i : nat) (x : X).
Context (Hc : cpu_ok t) (Hl : lks t = ∅) (Hi : (i < length (procs t))%nat).

Lemma set_proc_ok c : cpu_ok (set_proc i c t).
Proof. exact Hc. Qed.
Lemma under_ok lk c : cpu_ok (under lk i c t).
Proof. apply cpu_ok_acq, set_proc_ok. Qed.
Lemma under_none lk c lk' : lks t !! lk' = None -> lk' <> lk -> lks (under lk i c t) !! lk' = None.
Proof. intros H Hne. cbn. by rewrite lookup_insert_ne by done. Qed.
Lemma under_free lk c lk' : lk' <> lk -> lks (under lk i c t) !! lk' = None.
Proof. apply under_none. by rewrite Hl. Qed.

Lemma under_getp {B} lk c (f : proc -> KM X B) : (getp i ≫= f) n (MkK (under lk i c t) x) = f c n (MkK (under lk i c t) x).
Proof. rewrite getp_bind. cbn. by rewrite list_lookup_insert_eq. Qed.
Lemma under_getp_ne {B} lk c j q (f : proc -> KM X B) : j <> i -> procs t !! j = Some q ->
  (getp j ≫= f) n (MkK (under lk i c t) x) = f q n (MkK (under lk i c t) x).
Proof. intros Hne Hq. rewrite getp_bind. cbn. by rewrite list_lookup_insert_ne, Hq. Qed.
Lemma under_modp_ret lk c g : modp i g n (MkK (under lk i c t) x) = Ret tt (MkK (under lk i (g c) t) x).
Proof.
  change (modp i g n (MkK (under lk i c t) x)) with (Ret tt (MkK ((under lk i c t) <| procs ::= alter g i |>) x)). do 2 f_equal.
  unfold under. rewrite <- t_acq_procs. f_equal. clear Hc Hl. destruct t. unfold set_proc, upd. cbn in *. f_equal.
  rewrite (alter_insert _ _ _ c); [by rewrite list_insert_insert_eq|by apply list_lookup_insert_eq].
Qed.
Lemma under_modp {B} lk c g (f : () -> KM X B) : (modp i g ≫= f) n (MkK (under lk i c t) x) = f tt n (MkK (under lk i (g c) t) x).
Proof. by rewrite (bind_ret _ _ _ _ _ _ (under_modp_ret lk c g)). Qed.
Lemma under_release_at {B} lk c (f : () -> KM X B) : lks t !! lk = None -> (release lk ≫= f) n (MkK (under lk i c t) x) = f tt n (MkK (set_proc i c t) x).
Proof. intros H. apply release_bind; [apply set_proc_ok|done]. Qed.
Lemma under_release {B} lk c (f : () -> KM X B) : (release lk ≫= f) n (MkK (under lk i c t) x) = f tt n (MkK (set_proc i c t) x).
Proof. apply under_release_at. by rewrite Hl. Qed.
Lemma set_acquire {B} lk c (f : () -> KM X B) : (acquire lk ≫= f) n (MkK (set_proc i c t) x) = f tt n (MkK (under lk i c t) x).
Proof. apply acquire_bind. cbn. by rewrite Hl. Qed.
End slot.

Lemma set_proc_same t i q : procs t !! i = Some q -> set_proc i q t = t.
Proof. intros H. destruct t. unfold set_proc, upd. cbn in *. f_equal. by apply list_insert_id. Qed.

(** ** The search *)

Section alloc.
Context {L : Layout} {SY : Symbols} (n : nat) (t : T) (k : kern).
Context (Hc : cpu_ok t) (Hl : lks t = ∅) (Hlen : length (procs t) = Z.to_nat NPROC).

Lemma allocproc_look i q : procs t !! i = Some q -> allocproc_body (Z.of_nat i) n (MkK t k) =
  if bool_decide (p_state q = UNUSED) then Ret (Some i) (MkK (t_acq (LkProc i) t) k) else Ret None (MkK t k).
Proof.
  intros Hq. unfold allocproc_body. rewrite Nat2Z.id, acquire_bind by (by rewrite Hl). rewrite getp_bind.
  change (procs (t_acq (LkProc i) t)) with (procs t). rewrite Hq. cbn [default]. unfold id. case_bool_decide; [done|]. by rewrite release_bind by (done || by rewrite Hl).
Qed.

Lemma allocproc_skip m i : (forall j q, (j < i + m)%nat -> procs t !! j = Some q -> p_state q <> UNUSED) -> forall r, (i + m + r = length (procs t))%nat ->
  mfor (m + r) (Z.of_nat i) allocproc_body n (MkK t k) = mfor r (Z.of_nat (i + m)) allocproc_body n (MkK t k).
Proof.
  revert i. induction m as [|m IH]; intros i Hno r Hr; [by rewrite Nat.add_0_r|].
  destruct (lookup_lt_is_Some_2 (procs t) i) as [q Hq]; [lia|]. pose proof (allocproc_look i q Hq) as E.
  rewrite bool_decide_false in E by (apply (Hno i); [lia|done]). cbn [Nat.add]. rewrite (mfor_next _ _ _ _ _ _ E).
  replace (Z.of_nat i + 1) with (Z.of_nat (S i)) by lia. replace (i + S m)%nat with (S i + m)%nat by lia. apply IH; [|lia]. intros j q' Hj. apply Hno. lia.
Qed.

Lemma allocproc_scan np q : first_unused t np q ->
  mfor (Z.to_nat NPROC) 0 allocproc_body n (MkK t k) = Ret (Some np) (MkK (under (LkProc np) np q t) k).
Proof.
  intros (Hq & Hu & Hno). pose proof (lookup_lt_Some _ _ _ Hq) as Hlt. rewrite <- Hlen. replace (length (procs t)) with (np + S (length (procs t) - np - 1))%nat at 1 by lia.
  rewrite (allocproc_skip np 0); [|intros j q' Hj; apply Hno; lia|lia]. apply mfor_exit. pose proof (allocproc_look np q Hq) as E.
  rewrite bool_decide_true in E by apply Hu. unfold under. by rewrite set_proc_same.
Qed.

(** No entry is unused. *)
Lemma allocproc_full : (forall j q, procs t !! j = Some q -> p_state q <> UNUSED) -> allocproc n (MkK t k) = Ret None (MkK t k).
Proof.
  intros Hno. assert (mfor (Z.to_nat NPROC) 0 allocproc_body n (MkK t k) = Ret None (MkK t k)) as E; [|unfold allocproc; by rewrite (bind_ret _ _ _ _ _ _ E)].
  rewrite <- Hlen. replace (length (procs t)) with (length (procs t) + 0)%nat by lia. apply (allocproc_skip (length (procs t)) 0); [|lia]. intros j q _. apply Hno.
Qed.

Lemma allocpid_bind {B} i q (f : Z -> KK B) : (i < length (procs t))%nat ->
  (allocpid ≫= f) n (MkK (under (LkProc i) i q t) k) = f (nextpid t) n (MkK (under (LkProc i) i q (next_pid t)) k).
Proof.
  intros Hi. assert (allocpid n (MkK (under (LkProc i) i q t) k) = Ret (nextpid t) (MkK (under (LkProc i) i q (next_pid t)) k)) as E; [|by rewrite (bind_ret _ _ _ _ _ _ E)].
  unfold allocpid. rewrite acquire_bind by (by apply under_free). rewrite getT_bind, modT_bind.
  change ((t_acq LkPid (under (LkProc i) i q t)) <| nextpid ::= fun n => i32 (n + 1) |>) with (t_acq LkPid (under (LkProc i) i q (next_pid t))).
  by rewrite release_bind; [|apply under_ok|apply under_free].
Qed.
End alloc.

Lemma kmm_ret {A} (m : KM kmem A) n t k a m' : m n (MkK t (km k)) = Ret a (MkK t m') -> kmm m n (MkK t k) = Ret a (MkK t (k <| km := m' |>)).
Proof. apply (kzoom_ret km (fun k' k => k <| km := k' |>)). Qed.
Lemma kmm_bind {A B} (m : KM kmem A) (f : A -> KK B) n t k a m' : m n (MkK t (km k)) = Ret a (MkK t m') ->
  (kmm m ≫= f) n (MkK t k) = f a n (MkK t (k <| km := m' |>)).
Proof. intros E. by rewrite (bind_ret _ _ _ _ _ _ (kmm_ret m n t k a m' E)). Qed.

Lemma km_set (k : kern) m m' : (k <| km := m |>) <| km := m' |> = k <| km := m' |>.
Proof. by destruct k. Qed.
Lemma km_same (k : kern) : k <| km := km k |> = k.
Proof. by destruct k. Qed.

(** ** [freeproc] *)

(** The entry [freeproc] leaves. *)
Definition freed (q : proc) : proc :=
  q <| p_trapframe := 0 |> <| p_pagetable := 0 |> <| p_sz := 0 |> <| p_pid := 0 |> <| p_parent := None |>
    <| p_name ::= <[0%nat := 0]> |> <| p_chan := ChNone |> <| p_killed := 0 |> <| p_xstate := 0 |> <| p_state := UNUSED |>.

Lemma freed_unused q : p_ofile q = replicate (Z.to_nat NOFILE) None -> unused (freed q).
Proof. by split. Qed.

(** What is left of memory when the pages of [P] are given back. *)
Record returned {L : Layout} (l : list Z) (m : gmap Z Z) (P : Z -> Prop) (k' : kmem) (l' : list Z) : Prop := {
  rt_inv : kmem_inv k' l';
  rt_free : forall p, p ∈ l' <-> p ∈ l \/ P p;
  rt_same : forall p, valid_page p -> p ∉ l -> ~ P p -> page_same p m (mem k')
}.

Section free.
Context {L : Layout} {LO : LayoutOk L} {SY : Symbols} (n : nat) (t : T) (k : kern) (i : nat).
Context (Hc : cpu_ok t) (Hl : lks t !! LkKmem = None) (Hi : (i < length (procs t))%nat) (Hn : (3 <= n)%nat).

(** The trap frame alone. *)
Lemma freeproc_tf l c : kmem_inv (km k) l -> p_pagetable c = 0 -> p_trapframe c = 0 \/ valid_page (p_trapframe c) /\ p_trapframe c ∉ l ->
  exists k' l', freeproc i n (MkK (under (LkProc i) i c t) k) = Ret tt (MkK (under (LkProc i) i (freed c) t) (k <| km := k' |>)) /\
    returned l (mem (km k)) (fun p => p <> 0 /\ p = p_trapframe c) k' l'.
Proof.
  intros HK Hpt Htf. unfold freeproc. rewrite under_getp by done.
  assert (exists k' l', (mwhen (negb (p_trapframe c =? 0)) (kmm (kfree (p_trapframe c)))) n (MkK (under (LkProc i) i c t) k) = Ret tt (MkK (under (LkProc i) i c t) (k <| km := k' |>)) /\
    returned l (mem (km k)) (fun p => p <> 0 /\ p = p_trapframe c) k' l') as (k' & l' & E & HR).
  { destruct Htf as [Hz|[Hv Hnl]].
    - exists (km k), l. rewrite Hz, km_same. split; [done|]. split; [done|intros p; intuition lia|done].
    - destruct (valid_page_pte _ Hv) as (_ & _ & Hnz). rewrite (proj2 (Z.eqb_neq _ 0) Hnz). cbn [negb mwhen].
      destruct (kfree_spec n (under (LkProc i) i c t) (km k) l (p_trapframe c)) as (k' & E & HK' & Hs); try done; [by apply under_ok|by apply under_none|].
      exists k', (p_trapframe c :: l). split; [by apply kmm_ret|]. split; [done| |].
      + intros p. rewrite elem_of_cons. split; [intros [->|]; auto|intros [|[_ ->]]; auto].
      + intros p Hp Hpl Hne. apply (same_outside_page p (p_trapframe c)); try done. intros ->. by apply Hne. }
  exists k', l'. split; [|done]. rewrite (bind_ret _ _ _ _ _ _ E), under_modp, under_getp by done. change (p_pagetable (c <| p_trapframe := 0 |>)) with (p_pagetable c). rewrite Hpt. cbn [Z.eqb negb mwhen].
  rewrite ret_bind. by rewrite under_modp_ret.
Qed.

(** The trap frame and an address space. *)
Lemma freeproc_us l tr pgs c : user_space (km k) l tr pgs c -> p_pagetable c <> 0 -> npages (p_sz c) < Z.of_nat n ->
  exists k' l', freeproc i n (MkK (under (LkProc i) i c t) k) = Ret tt (MkK (under (LkProc i) i (freed c) t) (k <| km := k' |>)) /\
    returned l (mem (km k)) (us_pages tr pgs c) k' l'.
Proof.
  intros U Hpt Hsz. pose proof (us_as _ _ _ _ _ U) as HA. pose proof (us_tf _ _ _ _ _ U) as [Hv Hna]. set (tf := p_trapframe c) in *. set (u := under (LkProc i) i).
  assert (forall c', cpu_ok (u c' t) /\ lks (u c' t) !! LkKmem = None) as Hu by (intros c'; split; [by apply under_ok|by apply under_none]).
  pose proof (vi_free _ _ _ _ (as_vm _ _ _ _ _ HA)) as HK. destruct (valid_page_pte tf Hv) as (_ & _ & Hnz).
  destruct (kfree_spec n (u c t) (km k) l tf (proj1 (Hu c)) (proj2 (Hu c)) HK Hv) as (k1 & E1 & HK1 & S1); [unfold accounted in Hna; tauto|].
  assert (forall p, pt_owns tr p \/ own_in pgs p -> p ∉ l /\ p <> tf /\ valid_page p) as Hpt'.
  { intros p Hp. split_and!; [|intros ->; unfold accounted in Hna; tauto|apply (us_page _ _ _ _ _ p U); unfold us_pages; tauto].
    destruct Hp as [Hp|Hp]; [by apply (vi_sep _ _ _ _ (as_vm _ _ _ _ _ HA))|by apply (as_own _ _ _ _ _ HA)]. }
  assert (as_inv k1 (tf :: l) tr (p_pagetable c) pgs) as HA1.
  { apply (as_keep _ _ _ _ _ _ _ HA HK1).
    - intros p Hp. apply Hpt' in Hp as (? & ? & _). set_solver.
    - intros p Hp. destruct (Hpt' p (or_introl Hp)) as (_ & ? & ?). by apply (same_outside_page p tf). }
  set (c1 := c <| p_trapframe := 0 |>). destruct (npages_bound (p_sz c) (us_sz _ _ _ _ _ U)) as [Hb _].
  destruct (free_pagetable n (u c1 t) k1 (tf :: l) tr (p_pagetable c) pgs (p_sz c) tf (proj1 (Hu c1)) (proj2 (Hu c1)) Hn Hsz HA1 (us_sz _ _ _ _ _ U) (us_heap _ _ _ _ _ U)) as (k2 & l2 & E2 & HK2 & Hl2 & S2).
  { apply U. }
  assert (forall p, accounted (tf :: l) tr pgs p <-> p ∈ l \/ us_pages tr pgs c p) as Hacc by (intros p; unfold accounted, us_pages; rewrite elem_of_cons; fold tf; tauto).
  exists k2, l2. subst u. split.
  - unfold freeproc. rewrite under_getp by done. fold tf. rewrite (proj2 (Z.eqb_neq tf 0) Hnz). cbn [negb mwhen].
    rewrite (kmm_bind _ _ _ _ _ _ _ E1), under_modp, under_getp by done. fold c1. change (p_pagetable c1) with (p_pagetable c). change (p_sz c1) with (p_sz c).
    rewrite (proj2 (Z.eqb_neq _ 0) Hpt). cbn [negb mwhen]. set (kk := k <| km := k1 |>). rewrite (kmm_bind _ _ _ _ kk _ _ E2). unfold kk. rewrite km_set. by rewrite under_modp_ret.
  - split; [done|intros p; by rewrite Hl2, Hacc|]. intros p Hp Hpl HP. eapply page_same_trans.
    + apply (same_outside_page p tf); [done|done|done|]. intros ->. apply HP. unfold us_pages. auto.
    + apply S2; [done|]. rewrite Hacc. tauto.
Qed.
End free.

(** ** [allocproc] *)

(** The entry [allocproc] returns. *)
Definition new_proc {SY : Symbols} (q : proc) (pid tf root : Z) : proc :=
  q <| p_pid := pid |> <| p_state := USED |> <| p_trapframe := tf |> <| p_pagetable := root |>
    <| p_context := MkContext forkret_addr (p_kstack q + PGSIZE) (replicate 12 0) |>.

(** ... and its memory: the trap frame [tf] and the page table [tr] are from
    the free pages. *)
Record slot_memory {L : Layout} (l : list Z) (m : gmap Z Z) (tf root : Z) (tr : gmap (list Z) Z) (k' : kmem) (l' : list Z) : Prop := {
  sm_as : as_inv k' l' tr root (sys_pages tf);
  sm_root : root <> 0;
  sm_tf : valid_page tf /\ tf ∉ l' /\ ~ pt_owns tr tf;
  sm_acc : forall p, p ∈ l <-> p ∈ l' \/ p = tf \/ pt_owns tr p;
  sm_same : forall p, valid_page p -> p ∉ l -> page_same p m (mem k');
  sm_len : (length l <= length l' + 6)%nat
}.

Lemma returned_trans {L : Layout} l m k1 l1 P k2 l2 : (forall p, p ∈ l <-> p ∈ l1 \/ P p) -> (forall p, valid_page p -> p ∉ l -> page_same p m (mem k1)) ->
  returned l1 (mem k1) P k2 l2 -> returned l m (fun _ => False) k2 l2.
Proof.
  intros Hp Hs [R1 R2 R3]. split; [done|intros p; rewrite R2, Hp; tauto|]. intros p Hv Hpl _. eapply page_same_trans; [by apply Hs|].
  apply R3; [done|intros H; apply Hpl, Hp; by left|intros H; apply Hpl, Hp; by right].
Qed.

Section allocproc.
Context {L : Layout} {LO : LayoutOk L} {SY : Symbols} (n : nat) (t : T) (k : kern) (np : nat) (q : proc).
Context (Hc : cpu_ok t) (Hl : lks t = ∅) (Hlen : length (procs t) = Z.to_nat NPROC) (Hn : (3 <= n)%nat).
Context (Hq : first_unused t np q).

Lemma allocproc_spec l : kmem_inv (km k) l ->
  (exists k' l' c, allocproc n (MkK t k) = Ret None (MkK (set_proc np c (next_pid t)) (k <| km := k' |>)) /\ unused c /\
     returned l (mem (km k)) (fun _ => False) k' l' /\ (length l <= 6)%nat) \/
  (exists k' l' tf root tr, allocproc n (MkK t k) = Ret (Some np) (MkK (under (LkProc np) np (new_proc q (nextpid t) tf root) (next_pid t)) (k <| km := k' |>)) /\
     slot_memory l (mem (km k)) tf root tr k' l').
Proof.
  intros HK. pose proof Hq as (Hnp & Hun & _). pose proof (lookup_lt_Some _ _ _ Hnp) as Hi.
  remember (next_pid t) as t1 eqn:Et1. assert (cpu_ok t1 /\ lks t1 = ∅ /\ (np < length (procs t1))%nat) as (Hc1 & Hl1 & Hi1) by (subst t1; by split_and!). assert (lks t1 !! LkKmem = None) as Hk1 by (by rewrite Hl1).
  assert (forall c, cpu_ok (under (LkProc np) np c t1) /\ lks (under (LkProc np) np c t1) !! LkKmem = None) as Hu by (intros c; split; [by apply under_ok|by apply under_free]).
  set (c1 := q <| p_pid := nextpid t |> <| p_state := USED |>). set (c2 := fun tf => c1 <| p_trapframe := tf |>).
  assert (forall tf root, unused (freed (c2 tf)) /\ unused (freed ((c2 tf) <| p_pagetable := root |>))) as Hfr by (intros tf root; split; apply freed_unused, Hun).
  assert (allocproc n (MkK t k) = (tf ← kmm kalloc; modp np (fun q => q <| p_trapframe := tf |>) ;;
      if tf =? 0 then freeproc np ;; release (LkProc np) ;; mret None
      else pt ← kmm (proc_pagetable tf); modp np (fun q => q <| p_pagetable := pt |>) ;;
        if pt =? 0 then freeproc np ;; release (LkProc np) ;; mret None
        else modp np (fun q => q <| p_context := MkContext forkret_addr (p_kstack q + PGSIZE) (replicate 12 0) |>) ;; mret (Some np)) n (MkK (under (LkProc np) np c1 t1) k)) as ->.
  { unfold allocproc. rewrite (bind_ret _ _ _ _ _ _ (allocproc_scan n t k Hc Hl Hlen np q Hq)), (allocpid_bind n t k Hc Hl np q _ Hi), <- Et1. by rewrite under_modp. }
  pose proof (kalloc_spec n (under (LkProc np) np c1 t1) (km k) l (proj1 (Hu c1)) (proj2 (Hu c1)) HK) as EA. destruct l as [|tf l1].
  { left. destruct (freeproc_tf n t1 k np Hc1 Hk1 Hi1 [] (c2 0) HK) as (k' & l' & E & HR); [apply Hun|by left|].
    exists k', l', (freed (c2 0)). split_and!; [|by apply Hfr| |cbn; lia].
    - rewrite (kmm_bind _ _ _ _ _ _ _ EA), km_same, under_modp by done. cbn [Z.eqb]. rewrite (bind_ret _ _ _ _ _ _ E). by rewrite under_release.
    - eapply (returned_trans [] _ (km k) []); [|done|exact HR]. intros p. cbn. split; [auto|intros [?|[? ?]]; done]. }
  destruct EA as (k1 & E1 & HK1 & S1 & _). rewrite (kmm_bind _ _ _ _ _ _ _ E1), under_modp by done. fold (c2 tf).
  assert (valid_page tf) as Hv by (destruct HK as [_ _ ?%Forall_cons_1]; naive_solver).
  assert (tf ∉ l1) as Htf by (destruct HK as [_ ?%NoDup_cons_1_1 _]; done).
  destruct (valid_page_pte tf Hv) as (Hr1 & Hr2 & Hr0). rewrite (proj2 (Z.eqb_neq tf 0) Hr0).
  destruct (proc_pagetable_spec n (under (LkProc np) np (c2 tf) t1) (proj1 (Hu _)) (proj2 (Hu _)) k1 l1 tf HK1) as (root & k2 & l2 & E2 & S2 & HR2); try done.
  set (kk := k <| km := k1 |>). rewrite (kmm_bind _ _ _ _ kk _ _ E2), under_modp by done. unfold kk. rewrite km_set.
  assert (forall p, valid_page p -> p ∉ tf :: l1 -> page_same p (mem (km k)) (mem k2)) as S3.
  { intros p Hp Hpl. eapply page_same_trans; [apply (same_outside_page p tf); [done..|set_solver]|apply S2; [done|set_solver]]. }
  destruct HR2 as [(-> & HK2 & Hl2 & Hfew)|(Hrz & Hfew & tr & HA & Hacc)].
  - left. set (kk2 := k <| km := k2 |>). set (c3 := (c2 tf) <| p_pagetable := 0 |>).
    destruct (freeproc_tf n t1 kk2 np Hc1 Hk1 Hi1 l2 c3 HK2) as (k' & l' & E & HR); [done|right; split; [done|by rewrite Hl2]|].
    exists k', l', (freed c3). split_and!; [|by apply Hfr| |cbn; lia].
    + cbn [Z.eqb]. rewrite (bind_ret _ _ _ _ _ _ E). unfold kk2. rewrite km_set. by rewrite under_release.
    + eapply (returned_trans _ _ k2 l2); [|done|exact HR]. intros p. change (p_trapframe c3) with tf. rewrite elem_of_cons, Hl2. naive_solver.
  - right. exists k2, l2, tf, root, tr. rewrite (proj2 (Z.eqb_neq root 0) Hrz). split; [by rewrite under_modp|].
    assert (forall p, p ∈ l1 <-> p ∈ l2 \/ pt_owns tr p) as Hacc' by (intros p; rewrite <- Hacc; unfold accounted; pose proof (own_in_sys tf p); tauto).
    split; [done|done| | |done|cbn; lia].
    + split_and!; [done|set_solver|]. intros Ho. apply Htf, Hacc'. by right.
    + intros p. rewrite elem_of_cons, Hacc'. tauto.
Qed.
End allocproc.
