(* ===== verification/Exec.v ===== *)
(** * Loading a program: [kernel/exec.c] and [kernel/elf.h] *)

From Stdlib Require Import ZArith Lia.
From S2P Require Import Prelude Riscv KString Thread Proc Sleeplock Kalloc Vm Kern Virtio Bio Log.
From S2P Require Import ProcMem Fs Uart Printf Console Pipe File ProcOps.

Definition ELF_MAGIC : Z := 0x464C457F.
Definition ELF_PROG_LOAD : Z := 1.
Definition ELFHDR_SIZE : Z := 64.
Definition PROGHDR_SIZE : Z := 56.

Definition rd_u64 (l : list Z) (off : Z) : Z := le_val (slice off 8 l).

(** The fields of the headers the code looks at. *)
Record elfhdr := MkElf { e_magic : Z; e_entry : Z; e_phoff : Z; e_phnum : Z }.
Definition dec_elfhdr (l : list Z) : elfhdr := MkElf (rd_u32 l 0) (rd_u64 l 24) (rd_u64 l 32) (rd_u16 l 56).
Record proghdr := MkPh { ph_type : Z; ph_off : Z; ph_vaddr : Z; ph_filesz : Z; ph_memsz : Z }.
Definition dec_proghdr (l : list Z) : proghdr :=
  MkPh (rd_u32 l 0) (rd_u64 l 8) (rd_u64 l 16) (rd_u64 l 32) (rd_u64 l 40).

Section exec_c.
Context {L : Layout} {SY : Symbols}.

(** [offset], [sz], [i], [n] are 32-bit. *)
Definition loadseg_body (pagetable va : Z) (ip : nat) (offset sz i : Z) : KK (Z + Z) :=
  if negb (i <? sz) then mret (inr 0) else
  pa ← kmm (walkaddr pagetable (u64 (va + i)));
  if pa =? 0 then panic "loadseg: address should exist" else
  let n := if sz - i <? PGSIZE then sz - i else PGSIZE in
  '(r, _) ← readi ip (DKern pa) (u32 (offset + i)) n;
  if negb (u32 r =? n) then mret (inr (-1)) else mret (inl (u32 (i + PGSIZE))).

Definition loadseg (pagetable va : Z) (ip : nat) (offset sz : Z) : KK Z :=
  mloop (loadseg_body pagetable va ip (u32 offset) (u32 sz)) 0.

(** The program headers; locals [i], [off], [sz].  The result says whether
    to go on, and the size reached. *)
Definition exec_load (pagetable : Z) (ip : nat) (phnum : Z) :
    Z * Z * Z -> KK ((Z * Z * Z) + (bool * Z)) :=
  fun '(i, off, sz) =>
  if negb (i <? phnum) then mret (inr (true, sz)) else
  '(r, b) ← readi ip DLocal (u32 off) PROGHDR_SIZE;
  if negb (r =? PROGHDR_SIZE) then mret (inr (false, sz)) else
  let ph := dec_proghdr b in
  let next := (i + 1, i32 (off + PROGHDR_SIZE)) in
  if negb (ph_type ph =? ELF_PROG_LOAD) then mret (inl (next, sz)) else
  if ph_memsz ph <? ph_filesz ph then mret (inr (false, sz)) else
  if u64 (ph_vaddr ph + ph_memsz ph) <? ph_vaddr ph then mret (inr (false, sz)) else
  sz1 ← kmm (uvmalloc pagetable sz (u64 (ph_vaddr ph + ph_memsz ph)));
  if sz1 =? 0 then mret (inr (false, sz)) else
  if negb (ph_vaddr ph mod PGSIZE =? 0) then mret (inr (false, sz1)) else
  r ← loadseg pagetable (ph_vaddr ph) ip (ph_off ph) (ph_filesz ph);
  if r <? 0 then mret (inr (false, sz1)) else mret (inl (next, sz1)).

(** [strlen] of a string in kernel memory. *)
Definition kstrlen (a : Z) : KM kmem Z := fun n s =>
  match strlen n (mem (own s)) a with Some len => Ret len s | None => NoFuel end.

(** Pushing the argument strings; locals [argc], [sp], [ustack].  [None] is
    [goto bad]. *)
Definition exec_args (pagetable stackbase : Z) (argv : list Z) :
    Z * Z * list Z -> KK ((Z * Z * list Z) + option (Z * Z * list Z)) :=
  fun '(argc, sp, ustack) =>
  let a := default 0 (argv !! Z.to_nat argc) in
  if a =? 0 then mret (inr (Some (argc, sp, ustack))) else
  if argc >=? MAXARG then mret (inr None) else
  len ← kmm (kstrlen a);
  let sp := u64 (sp - (len + 1)) in
  let sp := u64 (sp - sp mod 16) in
  if sp <? stackbase then mret (inr None) else
  src ← kmm (getX (fun k => mem_read (mem k) a (Z.to_nat (len + 1))));
  r ← kmm (copyout pagetable sp src (len + 1));
  if r <? 0 then mret (inr None) else mret (inl (argc + 1, sp, ustack ++ [sp])).

(** The bytes after the last slash of the path. *)
Fixpoint basename (last path : list Z) : list Z :=
  match path with
  | [] => last
  | c :: rest => if c =? slash then basename rest rest else basename last rest
  end.

(** [bad:] with the inode still locked, and after it was released. *)
Definition exec_bad (pagetable sz : Z) (ip : option nat) : KK Z :=
  mwhen (negb (pagetable =? 0)) (kmm (proc_freepagetable pagetable sz)) ;;
  match ip with
  | Some _ => iunlockput ip ;; end_op
  | None => mret tt
  end ;;
  mret (-1).

(** The argument, the name, and the commit to the user image. *)
Definition exec_commit (p : nat) (path : list Z) (pagetable sz oldsz entry sp : Z) : KK () :=
  tf_set p (TF_a 1) sp ;;
  modp p (fun q => q <| p_name := safestrcpy_l 16 (basename path path) (p_name q) |>) ;;
  q ← getp p;
  let oldpagetable := p_pagetable q in
  modp p (fun q => q <| p_pagetable := pagetable |> <| p_sz := sz |>) ;;
  tf_set p TF_epc entry ;;
  tf_set p TF_sp sp ;;
  kmm (proc_freepagetable oldpagetable oldsz).

(** From the user stack on: [argv] is an array of kernel addresses.
    [ustack] has [MAXARG] entries, the one for the final 0 included. *)
Definition exec_stack (path : list Z) (argv : list Z) (pagetable sz entry : Z) : KK Z :=
  o ← myproc;
  p ← deref o;
  q ← getp p;
  let oldsz := p_sz q in
  let sz := PGROUNDUP sz in
  sz1 ← kmm (uvmalloc pagetable sz (u64 (sz + 2 * PGSIZE)));
  if sz1 =? 0 then exec_bad pagetable sz None else
  let sz := sz1 in
  kmm (uvmclear pagetable (u64 (sz - 2 * PGSIZE))) ;;
  let stackbase := u64 (sz - PGSIZE) in
  o ← mloop (exec_args pagetable stackbase argv) (0, sz, []);
  match o with
  | None => exec_bad pagetable sz None
  | Some (argc, sp, ustack) =>
      if argc >=? MAXARG then undef else
      let ustack := ustack ++ [0] in
      let sp := u64 (sp - (argc + 1) * 8) in
      let sp := u64 (sp - sp mod 16) in
      if sp <? stackbase then exec_bad pagetable sz None else
      r ← kmm (copyout pagetable sp (mjoin (le_bytes 8 <$> ustack)) ((argc + 1) * 8));
      if r <? 0 then exec_bad pagetable sz None else
      exec_commit p path pagetable sz oldsz entry sp ;;
      mret argc
  end.

Definition exec (path : list Z) (argv : list Z) : KK Z :=
  o ← myproc;
  p ← deref o;
  begin_op ;;
  ip ← namei path;
  match ip with
  | None => end_op ;; mret (-1)
  | Some i =>
      ilock ip ;;
      '(r, b) ← readi i DLocal 0 ELFHDR_SIZE;
      if negb (r =? ELFHDR_SIZE) then exec_bad 0 0 ip else
      let elf := dec_elfhdr b in
      if negb (e_magic elf =? ELF_MAGIC) then exec_bad 0 0 ip else
      q ← getp p;
      pagetable ← kmm (proc_pagetable (p_trapframe q));
      if pagetable =? 0 then exec_bad 0 0 ip else
      '(ok, sz) ← mloop (exec_load pagetable i (e_phnum elf)) (0, i32 (e_phoff elf), 0);
      if negb ok then exec_bad pagetable sz ip else
      iunlockput ip ;;
      end_op ;;
      exec_stack path argv pagetable sz (e_entry elf)
  end.
End exec_c.
