(* ===== verification/Syscall.v ===== *)
(** * System calls: [kernel/syscall.c], [kernel/sysproc.c] and
    [kernel/sysfile.c]

    Arguments come from the trap frame; strings are copied in from user
    memory.  A system call returns the value for the user's [a0]. *)

From Stdlib Require Import ZArith Lia.
From S2P Require Import Prelude Riscv KString Thread Proc Sleeplock Kalloc Vm Kern Virtio Bio Log.
From S2P Require Import ProcMem Fs Uart Printf Console Pipe File ProcOps Exec.

(** ** syscall.c: fetching arguments *)

(** The running process. *)
Definition me : KK nat := o ← myproc; deref o.

(** [None] for -1. *)
Definition fetchaddr (addr : Z) : KK (option Z) :=
  p ← me;
  q ← getp p;
  if (addr >=? p_sz q) || (u64 (addr + 8) >? p_sz q) then mret None else
  '(r, b) ← kmm (copyin (p_pagetable q) addr 8);
  mret (if negb (r =? 0) then None else Some (le_val b)).

(** The return value and what [buf] holds afterwards. *)
Definition fetchstr (addr max : Z) : KK (Z * list Z) :=
  p ← me;
  q ← getp p;
  '(err, buf) ← kmm (copyinstr (p_pagetable q) addr max);
  mret (if err <? 0 then (err, buf) else (Z.of_nat (length (strcut buf)), buf)).

Definition argraw (n : Z) : KK Z :=
  p ← me;
  if (0 <=? n) && (n <=? 5) then tf_get p (TF_a n) else panic "argraw".

Definition argint (n : Z) : KK Z := v ← argraw n; mret (i32 v).
Definition argaddr (n : Z) : KK Z := argraw n.
Definition argstr (n max : Z) : KK (Z * list Z) :=
  addr ← argaddr n;
  fetchstr addr max.

Section syscalls.
Context {L : Layout} {SY : Symbols}.

(** ** sysproc.c *)

Definition sys_exit : KK Z :=
  n ← argint 0;
  exit n.

Definition sys_getpid : KK Z :=
  p ← me;
  q ← getp p;
  mret (p_pid q).

Definition sys_fork : KK Z := fork.

Definition sys_wait : KK Z :=
  p ← argaddr 0;
  wait p.

Definition sys_sbrk : KK Z :=
  n ← argint 0;
  p ← me;
  q ← getp p;
  let addr := i32 (p_sz q) in
  r ← growproc n;
  mret (if r <? 0 then -1 else addr).

(** [ticks - ticks0 < n] compares unsigned values. *)
Definition sys_sleep_body (n ticks0 : Z) (_ : ()) : KK (() + Z) :=
  tk ← getX ticks;
  if u32 (tk - ticks0) <? u32 n then
    p ← me;
    q ← getp p;
    if negb (p_killed q =? 0) then release LkTicks ;; mret (inr (-1)) else
    sleep ChTicks LkTicks ;;
    mret (inl tt)
  else release LkTicks ;; mret (inr 0).

Definition sys_sleep : KK Z :=
  n ← argint 0;
  acquire LkTicks ;;
  ticks0 ← getX ticks;
  mloop (sys_sleep_body n ticks0) tt.

Definition sys_kill : KK Z :=
  pid ← argint 0;
  kill pid.

Definition sys_uptime : KK Z :=
  acquire LkTicks ;;
  xticks ← getX ticks;
  release LkTicks ;;
  mret xticks.

(** The C function has a parameter its caller does not pass; [procinfo] does
    not use it.  [it_addr] is the address of a variable of [procinfo]. *)
Definition sys_getprocs (it_addr : Z) : KK Z := procinfo it_addr.

(** ** sysfile.c *)

(** The descriptor and the file, or [None] for -1. *)
Definition argfd (n : Z) : KK (option (Z * nat)) :=
  fd ← argint n;
  if (fd <? 0) || (fd >=? NOFILE) then mret None else
  p ← me;
  q ← getp p;
  mret (match p_ofile q !! Z.to_nat fd with
        | Some (Some f) => Some (fd, f)
        | _ => None
        end).

Definition fdalloc_body (p f : nat) (fd : Z) : KK (option Z) :=
  q ← getp p;
  match p_ofile q !! Z.to_nat fd with
  | Some None =>
      modp p (fun q => q <| p_ofile ::= <[Z.to_nat fd := Some f]> |>) ;;
      mret (Some fd)
  | _ => mret None
  end.

Definition fdalloc (f : nat) : KK Z :=
  p ← me;
  r ← mfor (Z.to_nat NOFILE) 0 (fdalloc_body p f);
  mret (default (-1) r).

Definition set_ofile (fd : Z) (o : option nat) : KK () :=
  p ← me;
  modp p (fun q => q <| p_ofile ::= <[Z.to_nat fd := o]> |>).

Definition sys_dup : KK Z :=
  o ← argfd 0;
  match o with
  | None => mret (-1)
  | Some (_, f) =>
      fd ← fdalloc f;
      if fd <? 0 then mret (-1) else
      _ ← filedup f;
      mret fd
  end.

Definition sys_read : KK Z :=
  o ← argfd 0;
  match o with
  | None => mret (-1)
  | Some (_, f) =>
      n ← argint 2;
      p ← argaddr 1;
      fileread f p n
  end.

Definition sys_write : KK Z :=
  o ← argfd 0;
  match o with
  | None => mret (-1)
  | Some (_, f) =>
      n ← argint 2;
      p ← argaddr 1;
      filewrite f p n
  end.

Definition sys_close : KK Z :=
  o ← argfd 0;
  match o with
  | None => mret (-1)
  | Some (fd, f) =>
      set_ofile fd None ;;
      fileclose f ;;
      mret 0
  end.

Definition sys_fstat : KK Z :=
  o ← argfd 0;
  match o with
  | None => mret (-1)
  | Some (_, f) =>
      st ← argaddr 1;
      filestat f st
  end.

(** [bad:] of [sys_link]. *)
Definition link_bad (ip : nat) : KK Z :=
  ilock (Some ip) ;;
  modi ip (fun x => x <| i_nlink := i16 (i_nlink x - 1) |>) ;;
  iupdate ip ;;
  iunlockput (Some ip) ;;
  end_op ;;
  mret (-1).

Definition sys_link : KK Z :=
  '(r, old) ← argstr 0 MAXPATH;
  if r <? 0 then mret (-1) else
  '(r, new) ← argstr 1 MAXPATH;
  if r <? 0 then mret (-1) else
  begin_op ;;
  o ← namei (strcut old);
  match o with
  | None => end_op ;; mret (-1)
  | Some ip =>
      ilock (Some ip) ;;
      x ← geti ip;
      if i_type x =? T_DIR then iunlockput (Some ip) ;; end_op ;; mret (-1) else
      modi ip (fun x => x <| i_nlink := i16 (i_nlink x + 1) |>) ;;
      iupdate ip ;;
      iunlock (Some ip) ;;
      o ← nameiparent (strcut new);
      match o with
      | None => link_bad ip
      | Some (dp, name) =>
          ilock (Some dp) ;;
          d ← geti dp;
          x ← geti ip;
          r ← (if negb (i_dev d =? i_dev x) then mret (-1) else dirlink dp name (i_inum x));
          if r <? 0 then iunlockput (Some dp) ;; link_bad ip else
          iunlockput (Some dp) ;;
          iput ip ;;
          end_op ;;
          mret 0
      end
  end.

Definition isdirempty_body (dp : nat) (off : Z) : KK (Z + bool) :=
  x ← geti dp;
  if negb (off <? i_size x) then mret (inr true) else
  '(r, de) ← readi dp DLocal off DIRENT_SIZE;
  if negb (r =? DIRENT_SIZE) then panic "isdirempty: readi" else
  if negb (de_inum de =? 0) then mret (inr false) else
  mret (inl (off + DIRENT_SIZE)).

Definition isdirempty (dp : nat) : KK bool := mloop (isdirempty_body dp) (2 * DIRENT_SIZE).

(** [bad:] of [sys_unlink]. *)
Definition unlink_bad (dp : nat) : KK Z :=
  iunlockput (Some dp) ;;
  end_op ;;
  mret (-1).

Definition sys_unlink : KK Z :=
  '(r, path) ← argstr 0 MAXPATH;
  if r <? 0 then mret (-1) else
  begin_op ;;
  o ← nameiparent (strcut path);
  match o with
  | None => end_op ;; mret (-1)
  | Some (dp, name) =>
      ilock (Some dp) ;;
      if (namecmp name (chars ".") =? 0) || (namecmp name (chars "..") =? 0) then unlink_bad dp else
      o ← dirlookup dp name;
      match o with
      | None => unlink_bad dp
      | Some (ip, off) =>
          ilock (Some ip) ;;
          x ← geti ip;
          if i_nlink x <? 1 then panic "unlink: nlink < 1" else
          e ← (if i_type x =? T_DIR then isdirempty ip else mret true);
          if (i_type x =? T_DIR) && negb e then iunlockput (Some ip) ;; unlink_bad dp else
          r ← writei dp (SLocal (replicate (Z.to_nat DIRENT_SIZE) 0)) off DIRENT_SIZE;
          if negb (r =? DIRENT_SIZE) then panic "unlink: writei" else
          mwhen (i_type x =? T_DIR)
            (modi dp (fun d => d <| i_nlink := i16 (i_nlink d - 1) |>) ;;
             iupdate dp) ;;
          iunlockput (Some dp) ;;
          modi ip (fun x => x <| i_nlink := i16 (i_nlink x - 1) |>) ;;
          iupdate ip ;;
          iunlockput (Some ip) ;;
          end_op ;;
          mret 0
      end
  end.

(** [create]: the inode, locked, or [None]. *)
Definition create (path : list Z) (type major minor : Z) : KK (option nat) :=
  o ← nameiparent path;
  match o with
  | None => mret None
  | Some (dp, name) =>
      ilock (Some dp) ;;
      o ← dirlookup dp name;
      match o with
      | Some (ip, _) =>
          iunlockput (Some dp) ;;
          ilock (Some ip) ;;
          x ← geti ip;
          if (type =? T_FILE) && ((i_type x =? T_FILE) || (i_type x =? T_DEVICE)) then mret (Some ip) else
          iunlockput (Some ip) ;;
          mret None
      | None =>
          d ← geti dp;
          ip ← ialloc (i_dev d) type;
          ilock (Some ip) ;;
          modi ip (fun x => x <| i_major := major |> <| i_minor := minor |> <| i_nlink := 1 |>) ;;
          iupdate ip ;;
          mwhen (type =? T_DIR)
            (modi dp (fun d => d <| i_nlink := i16 (i_nlink d + 1) |>) ;;
             iupdate dp ;;
             x ← geti ip;
             d ← geti dp;
             r ← dirlink ip (chars ".") (i_inum x);
             if r <? 0 then panic "create dots" else
             r ← dirlink ip (chars "..") (i_inum d);
             if r <? 0 then panic "create dots" else mret tt) ;;
          x ← geti ip;
          r ← dirlink dp name (i_inum x);
          if r <? 0 then panic "create: dirlink" else
          iunlockput (Some dp) ;;
          mret (Some ip)
      end
  end.

Definition omode_has (omode flag : Z) : bool := negb (Z.land omode flag =? 0).

(** The part of [sys_open] after the inode is found and locked. *)
Definition open_file (ip : nat) (omode : Z) : KK Z :=
  x ← geti ip;
  if (i_type x =? T_DEVICE) && ((i_major x <? 0) || (i_major x >=? NDEV)) then
    iunlockput (Some ip) ;; end_op ;; mret (-1)
  else
    o ← filealloc;
    match o with
    | None => iunlockput (Some ip) ;; end_op ;; mret (-1)
    | Some f =>
        fd ← fdalloc f;
        if fd <? 0 then fileclose f ;; iunlockput (Some ip) ;; end_op ;; mret (-1) else
        (if i_type x =? T_DEVICE then modf f (fun y => y <| f_type := FD_DEVICE |> <| f_major := i_major x |>)
         else modf f (fun y => y <| f_type := FD_INODE |> <| f_off := 0 |>)) ;;
        modf f (fun y => y <| f_ip := Some ip |>
          <| f_readable := if omode_has omode O_WRONLY then 0 else 1 |>
          <| f_writable := if omode_has omode O_WRONLY || omode_has omode O_RDWR then 1 else 0 |>) ;;
        mwhen (omode_has omode O_TRUNC && (i_type x =? T_FILE)) (itrunc ip) ;;
        iunlock (Some ip) ;;
        end_op ;;
        mret fd
    end.

Definition sys_open : KK Z :=
  '(n, path) ← argstr 0 MAXPATH;
  if n <? 0 then mret (-1) else
  omode ← argint 1;
  begin_op ;;
  if omode_has omode O_CREATE then
    o ← create (strcut path) T_FILE 0 0;
    match o with
    | None => end_op ;; mret (-1)
    | Some ip => open_file ip omode
    end
  else
    o ← namei (strcut path);
    match o with
    | None => end_op ;; mret (-1)
    | Some ip =>
        ilock (Some ip) ;;
        x ← geti ip;
        if (i_type x =? T_DIR) && negb (omode =? O_RDONLY) then
          iunlockput (Some ip) ;; end_op ;; mret (-1)
        else open_file ip omode
    end.

(** The common end of [sys_mkdir] and [sys_mknod]. *)
Definition made (o : option nat) : KK Z :=
  match o with
  | None => end_op ;; mret (-1)
  | Some ip => iunlockput (Some ip) ;; end_op ;; mret 0
  end.

Definition sys_mkdir : KK Z :=
  begin_op ;;
  '(r, path) ← argstr 0 MAXPATH;
  if r <? 0 then made None else
  o ← create (strcut path) T_DIR 0 0;
  made o.

Definition sys_mknod : KK Z :=
  begin_op ;;
  '(r, path) ← argstr 0 MAXPATH;
  if r <? 0 then made None else
  major ← argint 1;
  minor ← argint 2;
  o ← create (strcut path) T_DEVICE (i16 major) (i16 minor);
  made o.

Definition sys_chdir : KK Z :=
  p ← me;
  begin_op ;;
  '(r, path) ← argstr 0 MAXPATH;
  if r <? 0 then end_op ;; mret (-1) else
  o ← namei (strcut path);
  match o with
  | None => end_op ;; mret (-1)
  | Some ip =>
      ilock (Some ip) ;;
      x ← geti ip;
      if negb (i_type x =? T_DIR) then iunlockput (Some ip) ;; end_op ;; mret (-1) else
      iunlock (Some ip) ;;
      q ← getp p;
      cwd ← deref (p_cwd q);
      iput cwd ;;
      end_op ;;
      modp p (fun q => q <| p_cwd := Some ip |>) ;;
      mret 0
  end.

(** [for(i = 0; i < NELEM(argv) && argv[i] != 0; i++) kfree(argv[i]);] *)
Definition exec_free_body (argv : list Z) (i : Z) : KK (option ()) :=
  let a := default 0 (argv !! Z.to_nat i) in
  if a =? 0 then mret (Some tt) else
  kmm (kfree a) ;;
  mret None.

Definition exec_free (argv : list Z) : KK () :=
  _ ← mfor (Z.to_nat MAXARG) 0 (exec_free_body argv);
  mret tt.

(** Copying in the argument vector; [false] is [goto bad]. *)
Definition exec_argv (uargv : Z) : Z * list Z -> KK ((Z * list Z) + (bool * list Z)) :=
  fun '(i, argv) =>
  if i >=? MAXARG then mret (inr (false, argv)) else
  o ← fetchaddr (u64 (uargv + 8 * i));
  match o with
  | None => mret (inr (false, argv))
  | Some uarg =>
      if uarg =? 0 then mret (inr (true, argv)) else
      a ← kmm kalloc;
      let argv := <[Z.to_nat i := a]> argv in
      if a =? 0 then mret (inr (false, argv)) else
      '(r, b) ← fetchstr uarg PGSIZE;
      kmm (kmemwrite a b) ;;
      if r <? 0 then mret (inr (false, argv)) else
      mret (inl (i + 1, argv))
  end.

Definition sys_exec : KK Z :=
  '(r, path) ← argstr 0 MAXPATH;
  if r <? 0 then mret (-1) else
  uargv ← argaddr 1;
  '(ok, argv) ← mloop (exec_argv uargv) (0, replicate (Z.to_nat MAXARG) 0);
  if (ok : bool) then
    ret ← exec (strcut path) argv;
    exec_free argv ;;
    mret ret
  else
    exec_free argv ;;
    mret (-1).

(** Giving up the two files of a pipe. *)
Definition pipe_bad (rf wf : nat) : KK Z :=
  fileclose rf ;;
  fileclose wf ;;
  mret (-1).

Definition sys_pipe : KK Z :=
  p ← me;
  fdarray ← argaddr 0;
  o ← pipealloc;
  match o with
  | None => mret (-1)
  | Some (rf, wf) =>
      fd0 ← fdalloc rf;
      if fd0 <? 0 then pipe_bad rf wf else
      fd1 ← fdalloc wf;
      if fd1 <? 0 then set_ofile fd0 None ;; pipe_bad rf wf else
      q ← getp p;
      r ← kmm (copyout (p_pagetable q) fdarray (le_bytes 4 fd0) 4);
      r ← (if r <? 0 then mret r
           else kmm (copyout (p_pagetable q) (u64 (fdarray + 4)) (le_bytes 4 fd1) 4));
      if r <? 0 then
        set_ofile fd0 None ;;
        set_ofile fd1 None ;;
        pipe_bad rf wf
      else mret 0
  end.

(** ** syscall.c: dispatch *)

(** The table [syscalls], by the numbers of syscall.h. *)
Definition syscalls (it_addr num : Z) : option (KK Z) :=
  match num with
  | 1 => Some sys_fork | 2 => Some sys_exit | 3 => Some sys_wait | 4 => Some sys_pipe
  | 5 => Some sys_read | 6 => Some sys_kill | 7 => Some sys_exec | 8 => Some sys_fstat
  | 9 => Some sys_chdir | 10 => Some sys_dup | 11 => Some sys_getpid | 12 => Some sys_sbrk
  | 13 => Some sys_sleep | 14 => Some sys_uptime | 15 => Some sys_open | 16 => Some sys_write
  | 17 => Some sys_mknod | 18 => Some sys_unlink | 19 => Some sys_link | 20 => Some sys_mkdir
  | 21 => Some sys_close | 22 => Some (sys_getprocs it_addr)
  | _ => None
  end.

Definition syscall (it_addr : Z) : KK () :=
  p ← me;
  v ← tf_get p (TF_a 7);
  let num := i32 v in
  match syscalls it_addr num with
  | Some f => r ← f; tf_set p (TF_a 0) (u64 r)
  | None =>
      q ← getp p;
      printf (chars "%d %s: unknown sys call %d" ++ newline)
        [AInt (p_pid q); AStr (Some (p_name q)); AInt num] ;;
      tf_set p (TF_a 0) (u64 (-1))
  end.
End syscalls.
