(* ===== verification/GrowProc.v ===== *)
(** * The memory of a process: [growproc] and [sys_sbrk]

    [growproc] of [kernel/proc.c], and [sys_sbrk], keep a process's memory in
    order for every 32-bit increment, the ones that wrap around included. *)

From Stdlib Require Import ZArith Lia.
From S2P Require Import Prelude Riscv KString Thread Proc Sleeplock Kalloc Vm VmSpec AddrSpace UvmSpec GrowSpec FreeSpec VmTheorems UserSpace Kern VirtioSpec ProcMem File ProcOps AllocProc Syscall.

(** What [growproc] by [d] leaves: nothing changes if the new size does not
    fit in the 32-bit variable, or is below 0. *)
Definition grow_size (sz d : Z) : Z := if (0 <=? sz + d) && (sz + d <? 2 ^ 32) then sz + d else sz.

(** The byte at [va] after the size goes from [sz] to [sz']. *)
Definition grow_byte (sz sz' va : Z) (b : option Z) : option Z :=
  if (npages sz * PGSIZE <=? va) && (va <? npages sz' * PGSIZE) then Some 0
  else if (npages sz' * PGSIZE <=? va) && (va <? npages sz * PGSIZE) then None else b.

Lemma grow_byte_up sz sz' va b : npages sz <= npages sz' -> grow_byte sz sz' va b = if decide (npages sz * PGSIZE <= va < npages sz' * PGSIZE) then Some 0 else b.
Proof.
  intros H. unfold grow_byte. assert (npages sz * PGSIZE <= npages sz' * PGSIZE) by (unfold PGSIZE; lia).
  destruct (Z.leb_spec (npages sz * PGSIZE) va), (Z.ltb_spec va (npages sz' * PGSIZE)), (Z.leb_spec (npages sz' * PGSIZE) va), (Z.ltb_spec va (npages sz * PGSIZE)), (decide _); cbn; done || lia.
Qed.
Lemma grow_byte_down sz sz' va b : npages sz' <= npages sz -> grow_byte sz sz' va b = if decide (npages sz' * PGSIZE <= va < npages sz * PGSIZE) then None else b.
Proof.
  intros H. unfold grow_byte. assert (npages sz' * PGSIZE <= npages sz * PGSIZE) by (unfold PGSIZE; lia).
  destruct (Z.leb_spec (npages sz * PGSIZE) va), (Z.ltb_spec va (npages sz' * PGSIZE)), (Z.leb_spec (npages sz' * PGSIZE) va), (Z.ltb_spec va (npages sz * PGSIZE)), (decide _); cbn; done || lia.
Qed.
Lemma grow_byte_same sz va b : grow_byte sz sz va b = b.
Proof. rewrite grow_byte_up by lia. by destruct (decide _); [lia|]. Qed.

Lemma below_trapframe : 2 ^ 32 < TRAPFRAME.
Proof. reflexivity. Qed.

Lemma sz_of (q : proc) s : p_sz (q <| p_sz := s |>) = s.
Proof. done. Qed.
Lemma sz_set (q : proc) : q <| p_sz := p_sz q |> = q.
Proof. by destruct q. Qed.

Section growproc.
Context {L : Layout} {LO : LayoutOk L} (n : nat) (t : T) (k : kern) (p : nat) (q : proc).
Context (Hc : cpu_ok t) (Hl : lks t !! LkKmem = None) (Hp : cpu_proc t = Some p) (Hq : procs t !! p = Some q).

(** The size is set, and memory is in order. *)
Definition grown_to (l : list Z) (tr : gmap (list Z) Z) (pgs : gmap Z upage) (sz' r : Z) (res : res (kst kern) Z) : Prop :=
  exists k' l' tr' pgs', res = Ret r (MkK (set_proc p (q <| p_sz := sz' |>) t) (k <| km := k' |>)) /\
    user_space k' l' tr' pgs' (q <| p_sz := sz' |>) /\
    (forall a, accounted l' tr' pgs' a <-> accounted l tr pgs a) /\
    (forall va, ubyte (mem k') pgs' va = grow_byte (p_sz q) sz' va (ubyte (mem (km k)) pgs va)) /\
    (forall a, valid_page a -> ~ accounted l tr pgs a -> page_same a (mem (km k)) (mem k')).

Lemma set_sz_ret sz' (kk : kern) (r : Z) : (modp p (fun q => q <| p_sz := sz' |>) ;; mret r : KK Z) n (MkK t kk) = Ret r (MkK (set_proc p (q <| p_sz := sz' |>) t) kk).
Proof.
  change (Ret r (MkK (t <| procs ::= alter (fun q => q <| p_sz := sz' |>) p |>) kk) = Ret r (MkK (set_proc p (q <| p_sz := sz' |>) t) kk)).
  unfold set_proc, upd. by rewrite (alter_insert _ _ _ q Hq).
Qed.

Lemma grown_same l tr pgs : user_space (km k) l tr pgs q -> grown_to l tr pgs (p_sz q) 0 (Ret 0 (MkK (set_proc p (q <| p_sz := p_sz q |>) t) k)).
Proof.
  intros U. exists (km k), l, tr, pgs. rewrite km_same, sz_set. split_and!; try done. intros va. by rewrite grow_byte_same.
Qed.
Lemma grown_failed l tr pgs k' l' tr' : user_space (km k) l tr pgs q -> as_inv k' l' tr' (p_pagetable q) pgs ->
  (forall a, accounted l' tr' pgs a <-> accounted l tr pgs a) -> data_kept l tr (mem (km k)) (mem k') ->
  grown_to l tr pgs (p_sz q) (-1) (Ret (-1) (MkK t (k <| km := k' |>))).
Proof.
  intros U A Hac Hk. exists k', l', tr', pgs. rewrite sz_set, set_proc_same by done. split_and!; [done| |done| |].
  - destruct U as [U1 U2 U3 U4 [U5 U6]]. split; try done. split; [done|]. by rewrite Hac.
  - intros va. rewrite grow_byte_same. apply ubyte_same; [by eapply us_owned|]. intros a Ha. destruct (as_own _ _ _ _ _ (us_as _ _ _ _ _ U) a Ha) as (? & ? & ?). by apply Hk.
  - intros a Ha Hna. unfold accounted in Hna. apply Hk; tauto.
Qed.

(** More memory. *)
Lemma grow_up l tr pgs d : user_space (km k) l tr pgs q -> 0 < d -> p_sz q + d < 2 ^ 32 -> npages (p_sz q + d) < Z.of_nat n ->
  grown_to l tr pgs (p_sz q + d) 0 (growproc d n (MkK t k)) \/
  grown_to l tr pgs (p_sz q) (-1) (growproc d n (MkK t k)) /\ Z.of_nat (length l) <= 3 * (npages (p_sz q + d) - npages (p_sz q)).
Proof.
  intros U Hd Hb Hf. pose proof (us_sz _ _ _ _ _ U) as Hsz. set (s := p_sz q) in *. unfold growproc. rewrite myproc_bind, Hp by done. cbn [deref]. rewrite ret_bind, getp_bind, Hq. cbn [default]. unfold id.
  fold s. rewrite !(u32_small s), (u32_small (s + d)), (proj2 (Z.ltb_lt 0 d)) by lia.
  destruct (uvmalloc_spec n t (km k) l tr (p_pagetable q) pgs s (s + d) Hc Hl (us_as _ _ _ _ _ U) (us_is_heap _ _ _ _ _ U)) as (r & k' & E & l' & tr' & pgs' & A & Hac & Hk & Hr); [lia|pose proof below_trapframe; lia|done|].
  rewrite (kmm_bind _ _ _ _ _ _ _ E). destruct Hr as [(-> & _ & Hh & Hout & Hz & _)|(-> & -> & Hfew)]; [left|right; split; [by eapply grown_failed|apply Hfew; pose proof below_trapframe; lia]].
  rewrite u32_small, (proj2 (Z.eqb_neq (s + d) 0)) by lia. rewrite set_sz_ret.
  pose proof (npages_mono s (s + d) ltac:(lia) ltac:(pose proof below_trapframe; lia)) as Hm.
  pose proof (npages_bound s Hsz) as [Hb0 _].
  assert (user_space k' l' tr' pgs' (q <| p_sz := s + d |>)) as U'.
  { destruct U as [U1 U2 U3 U4 [U5 U6]]. split; [done|rewrite sz_of; pose proof below_trapframe; lia|apply Hh| |split; [done|by rewrite Hac]].
    rewrite sz_of. intros v Hv. rewrite Hout by lia. apply U4. fold s. lia. }
  exists k', l', tr', pgs'. split_and!; [done|done|done| |].
  - intros va. fold s. rewrite grow_byte_up by done. destruct (decide _) as [Hv|Hv]; [by apply Hz|].
    rewrite (ubyte_page _ pgs) by (by apply Hout, page_out). apply ubyte_same; [by eapply us_owned|].
    intros a Ha. destruct (as_own _ _ _ _ _ (us_as _ _ _ _ _ U) a Ha) as (? & ? & ?). by apply Hk.
  - intros a Ha Hna. unfold accounted in Hna. apply Hk; tauto.
Qed.

(** Less memory. *)
Lemma grow_down l tr pgs d : user_space (km k) l tr pgs q -> d < 0 -> 0 <= p_sz q + d -> p_sz q < 2 ^ 32 -> npages (p_sz q) < Z.of_nat n ->
  grown_to l tr pgs (p_sz q + d) 0 (growproc d n (MkK t k)).
Proof.
  intros U Hd Hb Hlt Hf. pose proof (us_sz _ _ _ _ _ U) as Hsz. set (s := p_sz q) in *. unfold growproc. rewrite myproc_bind, Hp by done. cbn [deref]. rewrite ret_bind, getp_bind, Hq. cbn [default]. unfold id.
  fold s. rewrite !(u32_small s), (u32_small (s + d)), (proj2 (Z.ltb_ge 0 d)), (proj2 (Z.ltb_lt d 0)) by lia.
  pose proof (npages_mono (s + d) s ltac:(lia) ltac:(lia)) as Hm. pose proof (npages_bound (s + d) ltac:(lia)) as [Hb1 _].
  destruct (uvmdealloc_spec n t Hc Hl (km k) l tr (p_pagetable q) pgs s (s + d) (us_as _ _ _ _ _ U)) as (k' & l' & E & A & Hac & Hk); [lia|lia| |lia|].
  { intros v Hv. apply (us_heap _ _ _ _ _ U). fold s. lia. }
  rewrite (kmm_bind _ _ _ _ _ _ _ E), u32_small, set_sz_ret by lia.
  set (pgs' := unmap_range (Z.to_nat (npages s - npages (s + d))) (npages (s + d)) pgs) in *.
  assert (forall v, pgs' !! v = if decide (npages (s + d) <= v < npages s) then None else pgs !! v) as Hpg.
  { intros v. unfold pgs'. rewrite unmap_range_lookup, Z2Nat.id by lia. destruct (Z.leb_spec (npages (s + d)) v), (Z.ltb_spec v (npages (s + d) + (npages s - npages (s + d)))), (decide _); cbn; done || lia. }
  assert (user_space k' l' tr pgs' (q <| p_sz := s + d |>)) as U'.
  { destruct U as [U1 U2 U3 U4 [U5 U6]]. fold s in U2, U3, U4. split; [done|rewrite sz_of; lia| | |split; [done|by rewrite Hac]].
    - rewrite sz_of. intros v Hv. rewrite Hpg, decide_False by lia. apply U3. lia.
    - rewrite sz_of. intros v Hv. rewrite Hpg. pose proof (npages_bound s Hsz) as [Hb2 _]. destruct (decide _); [by rewrite sys_pages_low by lia|]. apply U4. lia. }
  exists k', l', tr, pgs'. split_and!; [done|done|done| |].
  - intros va. fold s. rewrite grow_byte_down by done. transitivity (ubyte (mem (km k)) pgs' va).
    + apply ubyte_same; [by eapply us_owned|]. intros a Ha. destruct (as_own _ _ _ _ _ A a Ha) as (? & ? & ?). by apply Hk.
    + unfold ubyte. rewrite Hpg. destruct (decide (npages (s + d) * PGSIZE <= _ < _)), (decide (npages (s + d) <= _ < _)); try done; unfold PGSIZE in *; lia.
  - intros a Ha Hna. apply Hk; [done| |]; intros H; apply Hna, Hac; unfold accounted; tauto.
Qed.

(** No change: the size would be below 0 or above 32 bits. *)
Lemma grow_wrap l tr pgs d : user_space (km k) l tr pgs q -> p_sz q < 2 ^ 32 -> - 2 ^ 31 <= d < 2 ^ 31 -> d = 0 \/ p_sz q + d < 0 \/ 2 ^ 32 <= p_sz q + d ->
  grown_to l tr pgs (p_sz q) 0 (growproc d n (MkK t k)).
Proof.
  intros U Hlt Hd Hw. pose proof (us_sz _ _ _ _ _ U) as Hsz. pose proof (grown_same l tr pgs U) as G. set (s := p_sz q) in *. unfold growproc. rewrite myproc_bind, Hp by done. cbn [deref]. rewrite ret_bind, getp_bind, Hq. cbn [default]. unfold id.
  fold s. rewrite !(u32_small s) by lia. destruct (Z.ltb_spec 0 d) as [H1|H1]; [|destruct (Z.ltb_spec d 0) as [H2|H2]].
  - assert (u32 (s + d) = s + d - 2 ^ 32) as -> by (unfold u32; symmetry; apply (Z.mod_unique_pos _ _ 1); lia).
    assert (uvmalloc (p_pagetable q) s (s + d - 2 ^ 32) n (MkK t (km k)) = Ret s (MkK t (km k))) as E by (unfold uvmalloc; by rewrite (proj2 (Z.ltb_lt _ s)) by lia).
    rewrite (kmm_bind _ _ _ _ _ _ _ E), km_same, u32_small, (proj2 (Z.eqb_neq s 0)) by lia. by rewrite set_sz_ret.
  - assert (u32 (s + d) = s + d + 2 ^ 32) as -> by (unfold u32; symmetry; apply (Z.mod_unique_pos _ _ (-1)); lia).
    assert (uvmdealloc (p_pagetable q) s (s + d + 2 ^ 32) n (MkK t (km k)) = Ret s (MkK t (km k))) as E by (unfold uvmdealloc; rewrite Z.geb_leb; by rewrite (proj2 (Z.leb_le s _)) by lia).
    rewrite (kmm_bind _ _ _ _ _ _ _ E), km_same, u32_small by lia. by rewrite set_sz_ret.
  - by rewrite set_sz_ret.
Qed.
End growproc.

Lemma grow_size_npages sz d n : npages sz < n -> npages (sz + d) < n -> npages (grow_size sz d) < n.
Proof. unfold grow_size. by case_match. Qed.

(** [growproc] on every increment. *)
Lemma growproc_spec {L : Layout} {LO : LayoutOk L} n t k p q l tr pgs d :
  cpu_ok t -> lks t !! LkKmem = None -> cpu_proc t = Some p -> procs t !! p = Some q -> user_space (km k) l tr pgs q -> p_sz q < 2 ^ 32 ->
  - 2 ^ 31 <= d < 2 ^ 31 -> npages (p_sz q) < Z.of_nat n -> npages (grow_size (p_sz q) d) < Z.of_nat n ->
  grown_to t k p q l tr pgs (grow_size (p_sz q) d) 0 (growproc d n (MkK t k)) \/
  (p_sz q < grow_size (p_sz q) d /\ Z.of_nat (length l) <= 3 * (npages (grow_size (p_sz q) d) - npages (p_sz q))) /\
    grown_to t k p q l tr pgs (p_sz q) (-1) (growproc d n (MkK t k)).
Proof.
  intros Hc Hl Hp Hq U Hlt Hd Hf Hf'. pose proof (us_sz _ _ _ _ _ U) as Hsz. unfold grow_size in *.
  destruct (Z.leb_spec 0 (p_sz q + d)) as [H1|H1], (Z.ltb_spec (p_sz q + d) (2 ^ 32)) as [H2|H2]; cbn [andb] in *;
    try (left; apply grow_wrap; (done || lia)).
  destruct (Z.lt_trichotomy d 0) as [H3|[->|H3]].
  - left. by apply grow_down.
  - left. rewrite Z.add_0_r. apply grow_wrap; done || lia.
  - destruct (grow_up n t k p q Hc Hl Hp Hq l tr pgs d U H3 H2 Hf') as [G|[G Hfew]]; [by left|right; split; [split; [lia|done]|done]].
Qed.

(** C16: [sbrk] changes the size of a process's memory exactly, for every
    32-bit increment [d] in the trap frame's [a0].  It returns the old size
    (as an [int]) and the memory has [d] bytes more or fewer: user memory
    below both sizes keeps its bytes, pages that are added read as zero, the
    pages given up are free again.  A size below 0 or above 32 bits leaves the
    process as it is, and [sbrk] returns the old size all the same.  Only
    growing can fail, with -1 and the process as it was, and not if there are
    more than three free pages for each page to add.  In every case no page is lost
    and no page of anybody else, the trap frame included, is written. *)
Theorem sbrk_correct {L : Layout} {LO : LayoutOk L} {SY : Symbols} n t k p q l tr pgs d :
  cpu_ok t -> lks t !! LkKmem = None -> cpu_proc t = Some p -> procs t !! p = Some q -> user_space (km k) l tr pgs q -> p_sz q < 2 ^ 32 ->
  d = i32 (ld64 (mem (km k)) (p_trapframe q + TF_a 0)) -> npages (p_sz q) < Z.of_nat n -> npages (grow_size (p_sz q) d) < Z.of_nat n ->
  grown_to t k p q l tr pgs (grow_size (p_sz q) d) (i32 (p_sz q)) (sys_sbrk n (MkK t k)) \/
  (p_sz q < grow_size (p_sz q) d /\ Z.of_nat (length l) <= 3 * (npages (grow_size (p_sz q) d) - npages (p_sz q))) /\
    grown_to t k p q l tr pgs (p_sz q) (-1) (sys_sbrk n (MkK t k)).
Proof.
  intros Hc Hl Hp Hq U Hlt Hd Hf Hf'.
  assert (sys_sbrk n (MkK t k) = (r ← growproc d; mret (if r <? 0 then -1 else i32 (p_sz q))) n (MkK t k)) as ->.
  { assert (me n (MkK t k) = Ret p (MkK t k)) as Em by (unfold me; by rewrite myproc_bind, Hp by done).
    assert (argint 0 n (MkK t k) = Ret d (MkK t k)) as Ea.
    { unfold argint, argraw. subst d. set (a := TF_a 0). cbn [Z.leb Z.compare andb]. unfold tf_get. erewrite bind_ret; [reflexivity|]. rewrite (bind_ret _ _ _ _ _ _ Em), getp_bind, Hq. by destruct k. }
    unfold sys_sbrk. rewrite (bind_ret _ _ _ _ _ _ Ea), (bind_ret _ _ _ _ _ _ Em), getp_bind, Hq. done. }
  destruct (growproc_spec n t k p q l tr pgs d Hc Hl Hp Hq U Hlt) as [(k' & l' & tr' & pgs' & E & G)|[Hg (k' & l' & tr' & pgs' & E & G)]]; try done.
  - rewrite Hd. pose proof (i32_range (ld64 (mem (km k)) (p_trapframe q + TF_a 0))). lia.
  - left. exists k', l', tr', pgs'. by rewrite (bind_ret _ _ _ _ _ _ E).
  - right. split; [done|]. exists k', l', tr', pgs'. by rewrite (bind_ret _ _ _ _ _ _ E).
Qed.

(** ** A concrete process *)

(** Fourteen free pages; [demo_pg 0] is a trap frame with 5000 in [a0]. *)
Definition proc_free : list Z := demo_pg <$> [1; 2; 3; 4; 5; 6; 7; 8; 9; 10; 11; 12; 13; 14].
Definition proc_k : kmem :=
  MkKmem (fold_left (fun m i => st64 m (demo_pg i) (demo_pg (i + 1))) [1; 2; 3; 4; 5; 6; 7; 8; 9; 10; 11; 12; 13] (st64 ∅ (demo_pg 0 + TF_a 0) 5000)) (demo_pg 1).

Lemma proc_kmem : @kmem_inv demo_layout proc_k proc_free.
Proof.
  split.
  - vm_compute. repeat split.
  - apply (bool_decide_unpack _). vm_compute. exact I.
  - repeat constructor; vm_compute; done.
Qed.

(** A process with one page of user memory in it. *)
Definition proc_make {L : Layout} (tf : Z) : KM kmem (Z * Z) :=
  root ← proc_pagetable tf;
  if root =? 0 then mret (0, 0) else
  r ← uvmalloc root 0 4096;
  mret (root, r).

Lemma proc_make_spec {L : Layout} {LO : LayoutOk L} n t k l tf : cpu_ok t -> lks t !! LkKmem = None -> kmem_inv k l -> valid_page tf -> tf ∉ l -> (3 <= n)%nat ->
  exists root r k', proc_make tf n (MkK t k) = Ret (root, r) (MkK t k') /\ (forall a, valid_page a -> a ∉ l -> page_same a (mem k) (mem k')) /\
    (r = 4096 -> exists l' tr pgs, kmem_inv k' l' /\ (forall a, accounted l' tr pgs a <-> a ∈ l) /\ forall q, p_pagetable q = root -> p_trapframe q = tf -> p_sz q = 4096 -> user_space k' l' tr pgs q).
Proof.
  intros Hc Hl HK Hv Hnf Hn. destruct (valid_page_pte _ Hv) as (Hr1 & Hr2 & _).
  destruct (proc_pagetable_spec n t Hc Hl k l tf HK Hr1 Hr2 Hn) as (root & k1 & l1 & E1 & S1 & HR1).
  unfold proc_make. rewrite (bind_ret _ _ _ _ _ _ E1). destruct HR1 as [(-> & _)|(Hr & _ & tr & A1 & Ac1)].
  { exists 0, 0, k1. by split_and!. }
  rewrite (proj2 (Z.eqb_neq root 0) Hr). change (Z.to_nat (npages 4096)) with 1%nat.
  assert (heap (sys_pages tf) 0) as Hh.
  { split; [intros v Hv'; change (Z.to_nat (npages 0)) with 0%nat in Hv'; lia|]. intros v Hv'. change (npages 0) with 0 in Hv'. by apply sys_pages_low. }
  destruct (uvmalloc_spec n t k1 l1 tr root (sys_pages tf) 0 4096 Hc Hl A1 Hh) as (r & k2 & E2 & l2 & tr2 & pgs & A2 & Ac2 & D2 & HR2); [lia|done|change (npages 4096) with 1; lia|].
  rewrite (bind_ret _ _ _ _ _ _ E2). exists root, r, k2. split_and!; [done| |].
  - intros a Ha Hal. eapply page_same_trans; [by apply S1|]. apply D2; [done|..]; intros H; apply Hal, Ac1; unfold accounted; auto.
  - intros ->. destruct HR2 as [(_ & _ & [Hh1 Hh2] & Hout & _)|[? _]]; [|done]. exists l2, tr2, pgs. split_and!; [apply (as_vm _ _ _ _ _ A2)|intros a; by rewrite Ac2, Ac1|].
    intros q Hpt Htf Hsz. split; rewrite ?Hpt, ?Hsz, ?Htf; [done|done|done| |by rewrite Ac2, Ac1].
    intros v Hv'. apply Hout. change (npages 0) with 0. change (npages 4096) with 1 in *. lia.
Qed.

Definition demo_proc (root : Z) : proc :=
  proc0 <| p_state := RUNNING |> <| p_pid := 1 |> <| p_trapframe := demo_pg 0 |> <| p_pagetable := root |> <| p_sz := 4096 |> <| p_ofile := Some 0%nat :: Some 0%nat :: replicate 14 None |> <| p_cwd := Some 0%nat |> <| p_name := chars "init" ++ replicate 12 0 |>.

Lemma proc_make_runs : exists r, ret_val (proc_make (L := demo_layout) (demo_pg 0) 10%nat (MkK demo_T proc_k)) = Some (r, 4096).
Proof. eexists. vm_compute. reflexivity. Qed.

Lemma demo_user : exists root k l tr pgs, @user_space demo_layout k l tr pgs (demo_proc root) /\ page_same (demo_pg 0) (mem proc_k) (mem k).
Proof.
  assert (@valid_page demo_layout (demo_pg 0)) as Hv by (by vm_compute). assert (demo_pg 0 ∉ proc_free) as Hnf by (apply (bool_decide_unpack _); vm_compute; exact I). assert (3 <= 10)%nat as Hn by lia.
  destruct proc_make_runs as (root & Hrun).
  destruct (@proc_make_spec demo_layout demo_layout_ok 10%nat demo_T proc_k proc_free (demo_pg 0) demo_T_ok eq_refl proc_kmem Hv Hnf Hn) as (root' & r & k & E & S & HU).
  rewrite E in Hrun. injection Hrun as -> ->. destruct (HU eq_refl) as (l & tr & pgs & _ & _ & U). exists root, k, l, tr, pgs. split; [apply U; reflexivity|apply S; [exact Hv|exact Hnf]].
Qed.

Definition demo_symbols : Symbols :=
  {| forkret_addr := KERNBASE + 4096; usertrap_addr := KERNBASE + 5000; kernelvec_addr := KERNBASE + 6000; uservec_off := 0; userret_off := 144 |}.

(** [sbrk(5000)]. *)
Lemma sbrk_correct_witness : exists k t r k' t', sys_sbrk (L := demo_layout) 10%nat (MkK t k) = Ret r (MkK t' k') /\ p_sz <$> procs t !! 0%nat = Some 4096 /\
  (r = 4096 /\ p_sz <$> procs t' !! 0%nat = Some 9096 \/ r = -1 /\ p_sz <$> procs t' !! 0%nat = Some 4096).
Proof.
  destruct demo_user as (root & k & l & tr & pgs & U & S). set (t := set_proc 0 (demo_proc root) demo_T). set (kk := (kern0 ∅) <| km := k |>). exists kk, t.
  assert (i32 (ld64 (mem k) (demo_pg 0 + TF_a 0)) = 5000) as Hd by (rewrite (ld64_ext (mem proc_k)); [vm_compute; reflexivity|intros b Hb; apply S; revert Hb; unfold TF_a, PGSIZE; lia]).
  destruct (sbrk_correct (LO := demo_layout_ok) (SY := demo_symbols) 10%nat t kk 0 (demo_proc root) l tr pgs 5000 demo_T_ok eq_refl eq_refl eq_refl U) as [G|[_ G]];
    [reflexivity|symmetry; exact Hd|reflexivity|reflexivity| |]; destruct G as (k' & l' & tr' & pgs' & E & _); do 3 eexists; (split; [exact E|]); (split; [reflexivity|]); [left|right]; split; reflexivity.
Defined.
