(* ===== verification/ForkSpec.v ===== *)
(** * [fork]

    The child [fork] of [kernel/proc.c] makes is the parent's copy: registers,
    user memory, open files and current directory. *)

From Stdlib Require Import ZArith Lia.
From stdpp Require Import gmultiset.
From S2P Require Import Prelude Riscv KString Thread Proc Sleeplock Kalloc Vm VmSpec AddrSpace UvmSpec GrowSpec FreeSpec VmTheorems UserSpace Kern VirtioSpec ProcMem Fs Inodes File FileRefs ProcOps AllocProc GrowProc.

(** ** The trap frame *)

(** [*(np->trapframe) = *(p->trapframe); np->trapframe->a0 = 0] *)
Definition tf_copied (k : kmem) (dst src : Z) : kmem := k <| mem := st64 (memmove (mem k) dst src TF_SIZE) (dst + TF_a 0) 0 |>.

Lemma ld_byte0 m a b : a <= b < a + 8 -> ld (st64 m a 0) b = 0.
Proof.
  intros H. unfold st64. rewrite mem_write_ld, le_bytes_length. rewrite (proj2 (Z.leb_le a b)), (proj2 (Z.ltb_lt b (a + Z.of_nat 8))) by lia. cbn [andb].
  change (le_bytes 8 0) with (replicate 8 0). rewrite nth_lookup, lookup_replicate_2 by lia. done.
Qed.

Lemma tf_copied_ld k dst src off : 0 <= off < TF_SIZE ->
  ld (mem (tf_copied k dst src)) (dst + off) = if decide (TF_a 0 <= off < TF_a 1) then 0 else ld (mem k) (src + off).
Proof.
  intros H. unfold tf_copied, TF_SIZE, TF_a in *. cbn [mem]. destruct (decide _) as [Hd|Hd].
  - apply ld_byte0. lia.
  - change (mem (k <| mem := ?m |>)) with m. rewrite st64_ld, memmove_ld by lia. rewrite (proj2 (Z.leb_le dst (dst + off))), (proj2 (Z.ltb_lt (dst + off) _)) by lia. cbn [andb]. f_equal. lia.
Qed.

Lemma tf_copied_outside k dst src : same_outside dst (mem k) (mem (tf_copied k dst src)).
Proof.
  intros a Ha. unfold tf_copied, TF_SIZE, TF_a, PGSIZE in *. change (mem (k <| mem := ?m |>)) with m. rewrite st64_ld, memmove_ld by lia.
  destruct (Z.leb_spec dst a), (Z.ltb_spec a (dst + 288)); cbn [andb]; done || lia.
Qed.

(** ** Open files and the current directory *)

Lemma ftable_set (k : kern) a b : (k <| ftable := a |>) <| ftable := b |> = k <| ftable := b |>.
Proof. by destruct k. Qed.
Lemma ftable_same (k : kern) : k <| ftable := ftable k |> = k.
Proof. by destruct k. Qed.
Lemma ofile_set (q : proc) a b : (q <| p_ofile := a |>) <| p_ofile := b |> = q <| p_ofile := b |>.
Proof. by destruct q. Qed.

Definition open_files (o : list (option nat)) : gmultiset nat := list_to_set_disj (omap id o).

Lemma open_files_one f : open_files [Some f] = {[+ f +]}.
Proof. change (open_files [Some f]) with ({[+ f +]} ⊎ (∅ : gmultiset nat)). apply gmultiset_disj_union_right_id. Qed.
Lemma open_files_none : open_files [None] = ∅.
Proof. done. Qed.
Lemma open_files_app o1 o2 : open_files (o1 ++ o2) = open_files o1 ⊎ open_files o2.
Proof. unfold open_files. by rewrite omap_app, list_to_set_disj_app. Qed.

Section files.
Context {L : Layout} (n : nat) (t : T) (p np : nat) (q : proc).
Context (Hc : cpu_ok t) (Hl : lks t = ∅) (Hnp : (np < length (procs t))%nat) (Hne : p <> np) (Hq : procs t !! p = Some q).

Lemma fork_ofile_ret k H c i : files_ok (ftable k) H -> (forall f, Some f ∈ p_ofile q -> f ∈ H) -> p_ofile c !! i = Some None -> (i < length (p_ofile q))%nat ->
  exists ft o, p_ofile q !! i = Some o /\ fork_ofile p np (Z.of_nat i) n (MkK (under (LkProc np) np c t) k) = Ret tt (MkK (under (LkProc np) np (c <| p_ofile ::= <[i := o]> |>) t) (k <| ftable := ft |>)) /\
    files_ok ft (open_files [o] ⊎ H).
Proof.
  intros HK Hin Hci Hi. destruct (lookup_lt_is_Some_2 _ _ Hi) as [o Ho]. unfold fork_ofile. rewrite (under_getp_ne n t np k _ c p q _ Hne Hq). rewrite Nat2Z.id, Ho. destruct o as [f|].
  - destruct (filedup_counts n (under (LkProc np) np c t) k (under_ok t np Hc (LkProc np) c) (under_free t np Hl (LkProc np) c LkFtable ltac:(done)) H f HK) as (ft & E & HK').
    { apply Hin. by eapply list_elem_of_lookup_2. }
    exists ft, (Some f). split_and!; [done| |].
    + rewrite (bind_ret _ _ _ _ _ _ E). by rewrite under_modp_ret.
    + by rewrite open_files_one.
  - exists (ftable k), None. rewrite ftable_same. split_and!; [done| |].
    + replace (c <| p_ofile ::= <[i := None]> |>) with c; [done|]. destruct c. unfold upd. cbn in *. f_equal. by rewrite list_insert_id.
    + by rewrite open_files_none, gmultiset_disj_union_left_id.
Qed.

Lemma fork_ofiles_loop k H : (forall f, Some f ∈ p_ofile q -> f ∈ H) -> forall m i c ft, files_ok ft (open_files (take i (p_ofile q)) ⊎ H) ->
  p_ofile c = take i (p_ofile q) ++ replicate m None -> length (p_ofile q) = (i + m)%nat ->
  exists ft', meach m (Z.of_nat i) (fork_ofile p np) n (MkK (under (LkProc np) np c t) (k <| ftable := ft |>)) =
      Ret tt (MkK (under (LkProc np) np (c <| p_ofile := p_ofile q |>) t) (k <| ftable := ft' |>)) /\ files_ok ft' (open_files (p_ofile q) ⊎ H).
Proof.
  intros Hin. induction m as [|m IH]; intros i c ft HK Hof Hlen.
  { exists ft. cbn [replicate] in Hof. rewrite app_nil_r, take_ge in Hof by lia. rewrite take_ge in HK by lia. split; [|done]. rewrite <- Hof. by destruct c. }
  assert (length (take i (p_ofile q)) = i) as Hti by (rewrite length_take; lia).
  set (kk := k <| ftable := ft |>). destruct (fork_ofile_ret kk (open_files (take i (p_ofile q)) ⊎ H) c i HK) as (ft1 & o & Ho & E & HK1).
  { intros f Hf. apply Hin in Hf. multiset_solver. }
  { rewrite Hof, lookup_app_r, Hti, Nat.sub_diag by lia. done. } { lia. }
  rewrite (meach_next _ _ _ _ _ _ E). unfold kk. rewrite ftable_set. replace (Z.of_nat i + 1) with (Z.of_nat (S i)) by lia.
  set (c1 := c <| p_ofile ::= <[i := o]> |>). destruct (IH (S i) c1 ft1) as (ft' & E' & HK').
  - rewrite (take_S_r _ _ _ Ho). rewrite open_files_app, (comm (⊎) (open_files (take i _))), <- (assoc (⊎)). done.
  - rewrite (take_S_r _ _ _ Ho). change (p_ofile c1) with (<[i := o]> (p_ofile c)). rewrite Hof.
    rewrite insert_app_r_alt, Hti, Nat.sub_diag by lia. cbn. by rewrite <- app_assoc.
  - lia.
  - exists ft'. split; [|done]. rewrite E'. by destruct c.
Qed.

Lemma idup_bind {B} lk c ip k (f : nat -> KK B) : lk <> LkItable -> (idup ip ≫= f) n (MkK (under lk np c t) k) = f ip n (MkK (under lk np c t) (k <| itable ::= alter ref_up ip |>)).
Proof.
  intros Hlk. assert (idup ip n (MkK (under lk np c t) k) = Ret ip (MkK (under lk np c t) (k <| itable ::= alter ref_up ip |>))) as E; [|by rewrite (bind_ret _ _ _ _ _ _ E)].
  pose proof (under_free t np Hl lk c LkItable ltac:(done)) as Hf. unfold idup. rewrite acquire_bind by done. unfold modi. rewrite modX_bind. by rewrite release_bind by (done || by apply under_ok).
Qed.
End files.

(** ** User memory *)

Section memory.
Context {L : Layout} {LO : LayoutOk L}.

(** [uvmcopy] into a new process's page table. *)
Lemma fork_copy n th k l tr pgs q tf root tr0 k1 l1 :
  cpu_ok th -> lks th !! LkKmem = None -> user_space k l tr pgs q -> slot_memory l (mem k) tf root tr0 k1 l1 -> npages (p_sz q) < Z.of_nat n ->
  exists r k2 l2 tr' pgs', uvmcopy (p_pagetable q) root (p_sz q) n (MkK th k1) = Ret r (MkK th k2) /\ as_inv k2 l2 tr' root pgs' /\
    (forall a, a ∈ l <-> a = tf \/ accounted l2 tr' pgs' a) /\ ~ accounted l2 tr' pgs' tf /\ (forall a, valid_page a -> a ∉ l -> page_same a (mem k) (mem k2)) /\
    (r = 0 /\ range_owned pgs' 0 (Z.to_nat (npages (p_sz q))) true /\ (forall va, 0 <= va < npages (p_sz q) * PGSIZE -> ubyte (mem k2) pgs' va = ubyte (mem k) pgs va) /\
       (forall v, v < 0 \/ npages (p_sz q) <= v -> pgs' !! v = sys_pages tf !! v)
     \/ r = -1 /\ pgs' = sys_pages tf /\ Z.of_nat (length l) <= 3 * npages (p_sz q) + 6).
Proof.
  intros Hc Hl U SM Hf. destruct SM as [A1 Hrz (Htv & Htl & Hto) Hacc Hs Hlen].
  pose proof (vi_free _ _ _ _ (as_vm _ _ _ _ _ A1)) as HK1.
  assert (user_space k1 l1 tr pgs q) as U1 by (apply (parent_kept k l); [done|done|intros a Ha; apply Hacc; by left|done]).
  pose proof (us_as _ _ _ _ _ U) as A. pose proof (npages_bound (p_sz q) (us_sz _ _ _ _ _ U)) as [Hb _].
  destruct (uvmcopy_spec n th k1 l1 (p_pagetable q) root tr tr0 pgs (sys_pages tf) (p_sz q) Hc Hl (us_as _ _ _ _ _ U1) A1) as (r & k2 & l2 & tr' & pgs' & E & A2 & A3 & Ac & D & Hub & Hr); try done.
  { intros a Ha Ha'. assert (a ∈ l) as Hin by (apply Hacc; auto).
    destruct Ha as [Ha|Ha]; [by apply (vi_sep _ _ _ _ (as_vm _ _ _ _ _ A) a)|by destruct (as_own _ _ _ _ _ A a Ha) as (_ & Hn & _)]. }
  { by eapply us_owned. } { by eapply us_is_heap. } { intros v Hv. apply sys_pages_low. lia. } { apply U. }
  assert (forall a, accounted l1 tr0 (sys_pages tf) a <-> a ∈ l1 \/ pt_owns tr0 a) as Hac1 by (intros a; unfold accounted; pose proof (own_in_sys tf a); tauto).
  assert (forall va, ubyte (mem k1) pgs va = ubyte (mem k) pgs va) as Hu1.
  { apply ubyte_same; [by eapply us_owned|]. intros a Ha. destruct (as_own _ _ _ _ _ A a Ha) as (? & ? & _). by apply Hs. }
  exists r, k2, l2, tr', pgs'. split_and!; [done|done| | | |].
  - intros a. rewrite Ac, Hac1, Hacc. tauto.
  - rewrite Ac, Hac1. tauto.
  - intros a Ha Hal. eapply page_same_trans; [by apply Hs|]. apply D; [done| |]; intros H; apply Hal, Hacc; auto.
  - destruct Hr as [(-> & Hro & Hby & Hout & _)|(-> & -> & Hfew)]; [left|right; split_and!; [done|done|lia]]. split_and!; try done. intros va Hva. by rewrite Hby, Hu1.
Qed.

(** The child's memory is the parent's, but for [a0]; it is made of free pages,
    and no page that was in use is written. *)
Record forked (l : list Z) (k : kmem) (tr : gmap (list Z) Z) (pgs : gmap Z upage) (q c : proc) (k' : kmem) (l' : list Z) (tr' : gmap (list Z) Z) (pgs' : gmap Z upage) : Prop := {
  fo_parent : user_space k' l' tr pgs q;
  fo_child : user_space k' l' tr' pgs' c;
  fo_pages : forall a, a ∈ l <-> a = p_trapframe c \/ accounted l' tr' pgs' a;
  fo_mem : forall va, 0 <= va < npages (p_sz q) * PGSIZE -> ubyte (mem k') pgs' va = ubyte (mem k) pgs va;
  fo_regs : forall off, 0 <= off < TF_SIZE -> ld (mem k') (p_trapframe c + off) = if decide (TF_a 0 <= off < TF_a 1) then 0 else ld (mem k) (p_trapframe q + off);
  fo_same : forall a, valid_page a -> a ∉ l -> page_same a (mem k) (mem k')
}.

Lemma fork_tf k l tr pgs q c k2 l2 tr' pgs' : user_space k l tr pgs q -> valid_page (p_trapframe c) -> as_inv k2 l2 tr' (p_pagetable c) pgs' -> p_sz c = p_sz q ->
  (forall a, a ∈ l <-> a = p_trapframe c \/ accounted l2 tr' pgs' a) -> ~ accounted l2 tr' pgs' (p_trapframe c) -> (forall a, valid_page a -> a ∉ l -> page_same a (mem k) (mem k2)) ->
  range_owned pgs' 0 (Z.to_nat (npages (p_sz q))) true -> (forall va, 0 <= va < npages (p_sz q) * PGSIZE -> ubyte (mem k2) pgs' va = ubyte (mem k) pgs va) ->
  (forall v, v < 0 \/ npages (p_sz q) <= v -> pgs' !! v = sys_pages (p_trapframe c) !! v) ->
  forked l k tr pgs q c (tf_copied k2 (p_trapframe c) (p_trapframe q)) l2 tr' pgs'.
Proof.
  intros U Hv A2 Hsz Hacc Hna Hs Hro Hub Hout. set (tf := p_trapframe c) in *. set (k3 := tf_copied k2 tf (p_trapframe q)).
  pose proof (tf_copied_outside k2 tf (p_trapframe q) : same_outside tf (mem k2) (mem k3)) as Ho.
  assert (kmem_inv k3 l2) as HK3 by (apply (kmem_inv_outside k2 _ l2 tf); [done|unfold accounted in Hna; tauto|done|apply (as_vm _ _ _ _ _ A2)]).
  assert (user_space k2 l2 tr' pgs' c) as U2.
  { split; rewrite ?Hsz; [done|apply U|done|done|done]. }
  assert (forall a, valid_page a -> a ∉ l -> page_same a (mem k) (mem k3)) as Hs3.
  { intros a Ha Hal. eapply page_same_trans; [by apply Hs|]. apply (same_outside_page a tf); [done|done|done|]. intros ->. apply Hal, Hacc. by left. }
  assert (user_space k3 l2 tr' pgs' c) as U3.
  { apply (us_keep k2 l2); [done|done| |].
    - intros a. apply (us_used _ _ _ _ _ _ U2).
    - intros a Ha. apply (same_outside_page a tf); [done|by apply (us_page _ _ _ _ _ _ U2); left|done|]. intros ->. apply Hna. unfold accounted. tauto. }
  split; [|done|done| | |done].
  - apply (parent_kept k l); [done|done| |done]. intros a Ha. apply Hacc. unfold accounted. auto.
  - intros va Hva. rewrite <- Hub by done. apply ubyte_same; [by eapply us_owned|]. intros a Ha. apply (same_outside_page a tf); [done|by apply (as_own _ _ _ _ _ A2)|done|].
    intros ->. apply Hna. unfold accounted. tauto.
  - intros off Hoff. fold tf. unfold k3. rewrite tf_copied_ld by done. destruct (decide _); [done|]. pose proof (us_tf _ _ _ _ _ U) as [Hv' Hn].
    assert (p_trapframe q ∉ l) as Hl by (intros Hin; apply Hn; unfold accounted; auto). apply (Hs _ Hv' Hl). unfold TF_SIZE, PGSIZE in *. lia.
Qed.
End memory.

(** ** [fork] *)

(** The child, from the entry [allocproc] returned. *)
Definition forked_proc (p : nat) (q c : proc) : proc :=
  c <| p_sz := p_sz q |> <| p_ofile := p_ofile q |> <| p_cwd := p_cwd q |> <| p_name := safestrcpy_l 16 (p_name q) (p_name c) |>
    <| p_parent := Some p |> <| p_state := RUNNABLE |>.

Section fork.
Context {L : Layout} {LO : LayoutOk L} {SY : Symbols} (n : nat) (t : T) (k : kern) (p np : nat) (q nq : proc).
Context (Ht : rest p t) (Hq : procs t !! p = Some q) (Hnp : first_unused t np nq).
Context (l : list Z) (tr : gmap (list Z) Z) (pgs : gmap Z upage) (U : user_space (km k) l tr pgs q) (Hf : npages (p_sz q) < Z.of_nat n) (Hn : (3 <= n)%nat).
Context (cwd : nat) (H : gmultiset nat) (Hcwd : p_cwd q = Some cwd) (Hof : length (p_ofile q) = Z.to_nat NOFILE) (HF : files_ok (ftable k) H) (HH : forall f, Some f ∈ p_ofile q -> f ∈ H).

(** What is left when there is not enough memory. *)
Definition fork_failed (res : res (kst kern) Z) : Prop :=
  exists k' l' c, res = Ret (-1) (MkK (set_proc np c (next_pid t)) (k <| km := k' |>)) /\ unused c /\ returned l (mem (km k)) (fun _ => False) k' l' /\
    Z.of_nat (length l) <= 3 * npages (p_sz q) + 6.

(** ... and when there is. *)
Definition fork_made (res : res (kst kern) Z) : Prop :=
  exists k' l' tr' pgs' tf root ft, let c := forked_proc p q (new_proc nq (nextpid t) tf root) in
    res = Ret (nextpid t) (MkK (set_proc np c (next_pid t)) (((k <| km := k' |>) <| ftable := ft |>) <| itable ::= alter ref_up cwd |>)) /\
    forked l (km k) tr pgs q c k' l' tr' pgs' /\ files_ok ft (open_files (p_ofile q) ⊎ H).

Lemma fork_spec : fork_failed (fork n (MkK t k)) \/ fork_made (fork n (MkK t k)).
Proof.
  pose proof (ca_ok _ _ (re_calm _ _ Ht)) as Hc. pose proof (re_lks _ _ Ht) as Hl. pose proof (ca_len _ _ (re_calm _ _ Ht)) as Hlen.
  pose proof Hnp as (Hnq & Hun & _). pose proof (lookup_lt_Some _ _ _ Hnq) as Hi.
  assert (p <> np) as Hne. { intros ->. destruct (re_run _ _ Ht) as (q' & Hq' & Hr & _). pose proof (un_state _ Hun). congruence. }
  pose proof (vi_free _ _ _ _ (as_vm _ _ _ _ _ (us_as _ _ _ _ _ U))) as HK. unfold fork. rewrite myproc_bind, (ca_proc _ _ (re_calm _ _ Ht)) by done. cbn [deref]. rewrite ret_bind.
  destruct (allocproc_spec n t k np nq Hc Hl Hlen Hn Hnp l HK) as [(k' & l' & c & E & Hc' & HR & Hfew)|(k1 & l1 & tf & root & tr0 & E & SM)].
  { left. rewrite (bind_ret _ _ _ _ _ _ E). exists k', l', c. pose proof (npages_bound (p_sz q) (us_sz _ _ _ _ _ U)). split_and!; [done|done|done|lia]. }
  rewrite (bind_ret _ _ _ _ _ _ E). clear E. remember (next_pid t) as t1 eqn:Et1.
  assert (cpu_ok t1 /\ lks t1 = ∅ /\ (np < length (procs t1))%nat /\ procs t1 !! p = Some q) as (Hc1 & Hl1 & Hi1 & Hq1) by (subst t1; by split_and!).
  set (c := new_proc nq (nextpid t) tf root). rewrite (under_getp_ne n t1 np _ _ c p q _ Hne Hq1), under_getp by done. change (p_pagetable c) with root.
  destruct (fork_copy n (under (LkProc np) np c t1) (km k) l tr pgs q tf root tr0 k1 l1 (under_ok _ _ Hc1 _ _) (under_free _ _ Hl1 (LkProc np) c LkKmem ltac:(done)) U SM Hf)
    as (r & k2 & l2 & tr' & pgs' & E & A2 & Hacc & Hna & Hs & Hr).
  set (kk := k <| km := k1 |>). rewrite (kmm_bind _ _ _ _ kk _ _ E). unfold kk. rewrite km_set. clear E kk.
  pose proof (sm_tf _ _ _ _ _ _ _ SM) as (Hv & _ & _). set (kk := k <| km := k2 |>). destruct Hr as [(-> & Hro & Hub & Hout)|(-> & -> & Hfew)]; cbn [Z.ltb Z.compare].
  - right. set (c1 := c <| p_sz := p_sz q |>). rewrite under_modp by done. fold c1.
    pose proof (fork_tf (km k) l tr pgs q (forked_proc p q c) k2 l2 tr' pgs' U Hv A2 eq_refl Hacc Hna Hs Hro Hub Hout) as HFK.
    destruct (fork_ofiles_loop n t1 p np q Hc1 Hl1 Hi1 Hne Hq1 (k <| km := tf_copied k2 tf (p_trapframe q) |>) H HH (Z.to_nat NOFILE) 0 c1 (ftable k)) as (ft & EF & HFT).
    { change (open_files (take 0 (p_ofile q))) with (∅ : gmultiset nat). by rewrite gmultiset_disj_union_left_id. } { apply Hun. } { done. }
    exists (tf_copied k2 tf (p_trapframe q)), l2, tr', pgs', tf, root, ft. cbn zeta. fold c. split_and!; [|exact HFK|done].
    assert (kmm (kmemmove tf (p_trapframe q) TF_SIZE) n (MkK (under (LkProc np) np c1 t1) kk) = Ret tt (MkK (under (LkProc np) np c1 t1) (k <| km := k2 <| mem := memmove (mem k2) tf (p_trapframe q) TF_SIZE |> |>))) as E1 by done.
    assert (tf_set np (TF_a 0) 0 n (MkK (under (LkProc np) np c1 t1) (k <| km := k2 <| mem := memmove (mem k2) tf (p_trapframe q) TF_SIZE |> |>)) = Ret tt (MkK (under (LkProc np) np c1 t1) ((k <| km := tf_copied k2 tf (p_trapframe q) |>) <| ftable := ftable k |>))) as E2.
    { unfold tf_set. rewrite under_getp by done. by destruct k, k2. }
    change (p_trapframe c) with tf. rewrite (bind_ret _ _ _ _ _ _ E1), (bind_ret _ _ _ _ _ _ E2), (bind_ret _ _ _ _ _ _ EF), Hcwd. cbn [deref]. rewrite ret_bind, (idup_bind n t1 np Hc1 Hl1) by done.
    rewrite !under_modp, under_getp, under_release, set_acquire, under_modp, under_release, set_acquire, under_modp, under_release by done.
    subst t1. unfold forked_proc. by rewrite Hcwd.
  - left. assert (user_space k2 l2 tr' (sys_pages tf) c) as U2 by (apply (us_empty k2 l2 tr' c); [done|apply Hun|done..]).
    destruct (freeproc_us n t1 kk np Hc1 ltac:(by rewrite Hl1) Hi1 Hn l2 tr' (sys_pages tf) c U2) as (k' & l' & E & HR).
    { apply SM. } { change (p_sz c) with (p_sz nq). rewrite (un_sz _ Hun). change (npages 0) with 0. lia. }
    exists k', l', (freed c). split_and!; [|apply freed_unused, Hun| |done].
    + rewrite (bind_ret _ _ _ _ _ _ E), under_release by done. unfold kk. by rewrite km_set, Et1.
    + eapply (returned_trans l _ k2 l2); [|exact Hs|exact HR]. intros a. rewrite Hacc. unfold accounted, us_pages. change (p_trapframe c) with tf. tauto.
Qed.
End fork.

(** C3: [fork] makes a copy of the running process, or changes nothing that
    matters.  Without an unused entry in the process table it returns -1 and
    the state is as it was.  Otherwise it returns the child's pid, which is the
    next one, and the first unused entry is the child: runnable, with the
    running process as parent, its size, name, open files and current
    directory.  Every byte of user memory and every saved register reads in the child
    as in the parent, but [a0], which is 0.  The child's pages were all free,
    so the two share none, and every page that was in use, the parent's among
    them, keeps its content.  Each open file has one more reference per descriptor, the
    directory one more.  If memory runs out, it returns -1, the entry is unused
    again, exactly the pages that were free are free, and nothing else has changed;
    that cannot happen with more than three free pages for each page of the
    process and six for the entry. *)
Theorem fork_correct {L : Layout} {LO : LayoutOk L} {SY : Symbols} n t k p q l tr pgs cwd H :
  rest p t -> procs t !! p = Some q -> user_space (km k) l tr pgs q -> npages (p_sz q) < Z.of_nat n -> (3 <= n)%nat ->
  p_cwd q = Some cwd -> length (p_ofile q) = Z.to_nat NOFILE -> files_ok (ftable k) H -> (forall f, Some f ∈ p_ofile q -> f ∈ H) ->
  ((forall j q', procs t !! j = Some q' -> p_state q' <> UNUSED) -> fork n (MkK t k) = Ret (-1) (MkK t k)) /\
  (forall np nq, first_unused t np nq ->
     fork_failed t k np q l (fork n (MkK t k)) \/ fork_made t k p np q nq l tr pgs cwd H (fork n (MkK t k))).
Proof.
  intros Ht Hq U Hf Hn Hcwd Hof HF HH. split.
  - intros Hno. pose proof (re_calm _ _ Ht) as [Hp Hc _ Hlen _]. unfold fork. rewrite myproc_bind, Hp by done. cbn [deref]. rewrite ret_bind.
    by rewrite (bind_ret _ _ _ _ _ _ (allocproc_full n t k Hc (re_lks _ _ Ht) Hlen Hno)).
  - intros np nq Hnp. by apply fork_spec.
Qed.

(** [init] forks. *)
Lemma init_rest root : rest 0 (set_proc 0 (demo_proc root) demo_T).
Proof.
  split; [split; [done|exact demo_T_ok|done|reflexivity|]|done|done|by eexists].
  intros j q' Hj Hq Hs. exfalso. change (procs (set_proc 0 (demo_proc root) demo_T)) with (demo_proc root :: replicate 63 proc0) in Hq.
  destruct j as [|j]; [done|]. apply lookup_replicate in Hq as [-> _]. done.
Qed.

Lemma fork_correct_witness : exists k t r k' t', fork (L := demo_layout) (SY := demo_symbols) 10%nat (MkK t k) = Ret r (MkK t' k') /\
  (r = -1 \/ r = 2 /\ p_state <$> procs t' !! 1%nat = Some RUNNABLE /\ p_ofile <$> procs t' !! 1%nat = p_ofile <$> procs t !! 0%nat).
Proof.
  destruct demo_user as (root & k & l & tr & pgs & U & _). set (t := set_proc 0 (demo_proc root) demo_T). set (kk := two_refs <| km := k |>). exists kk, t.
  destruct (fork_correct (L := demo_layout) (LO := demo_layout_ok) (SY := demo_symbols) 10%nat t kk 0 (demo_proc root) l tr pgs 0%nat {[+ 0%nat; 0%nat +]} (init_rest root) eq_refl U) as [_ G];
    [reflexivity|lia|reflexivity|reflexivity|exact two_refs_ok| |].
  { intros f Hf. change (Some f ∈ Some 0%nat :: Some 0%nat :: replicate 14 None) in Hf. rewrite !elem_of_cons, elem_of_replicate in Hf.
    assert (f = 0%nat) as -> by (destruct Hf as [Hf|[Hf|[Hf _]]]; [by injection Hf|by injection Hf|discriminate Hf]). multiset_solver. }
  destruct (G 1%nat proc0) as [F|F].
  { split_and!; [reflexivity|by split|]. intros [|j] q' Hj Hq; [injection Hq as <-; discriminate|lia]. }
  - destruct F as (k' & l' & c & E & _). do 3 eexists. split; [exact E|left; reflexivity].
  - destruct F as (k' & l' & tr' & pgs' & tf & rt & ft & E & _). do 3 eexists. split; [exact E|right; split_and!; reflexivity].
Defined.
