(* ===== verification/WaitSpec.v ===== *)
(** * [wait]

    [wait] of [kernel/proc.c] collects the first exited child, gives all its
    memory back and stores its status, or sleeps until there is one. *)

From Stdlib Require Import ZArith Lia.
From S2P Require Import Prelude Riscv KString Thread Proc Sched Sleeplock Kalloc Vm VmSpec AddrSpace UvmSpec GrowSpec CopySpec FreeSpec VmTheorems UserSpace Kern VirtioSpec ProcMem File ProcOps AllocProc GrowProc.

Definition kid (p : nat) (c : proc) : bool := bool_decide (p_parent c = Some p).
Definition zombie (c : proc) : bool := bool_decide (p_state c = ZOMBIE).

(** [m] rounds of [wait]'s outer loop. *)
Definition waits {L : Layout} (m : nat) (p : nat) (addr : Z) : KK Z := fun n s => mwhile m (wait_body p addr) tt n s.

(** [c], at [np], is the first child of [p] that has exited. *)
Definition first_zombie (t : T) (p np : nat) (c : proc) : Prop :=
  procs t !! np = Some c /\ kid p c = true /\ zombie c = true /\ forall j c', (j < np)%nat -> procs t !! j = Some c' -> kid p c' && zombie c' = false.

Section scan.
Context {L : Layout} (n : nat) (t : T) (k : kern) (p : nat) (addr : Z).
Context (Hc : cpu_ok t) (Hl : lks t = ∅) (Hlen : length (procs t) = Z.to_nat NPROC).

Lemma wait_free lk : lk <> LkWait -> lks (t_acq LkWait t) !! lk = None.
Proof. intros Hne. by rewrite lks_acq, Hl, lookup_insert_ne by done. Qed.

Lemma scan_next i c h : procs t !! i = Some c -> kid p c && zombie c = false ->
  wait_scan p addr (Z.of_nat i, h) n (MkK (t_acq LkWait t) k) = Ret (inl (Z.of_nat (S i), h || kid p c)) (MkK (t_acq LkWait t) k).
Proof.
  intros Hi Hz. pose proof (lookup_lt_Some _ _ _ Hi) as Hlt. unfold wait_scan. rewrite (proj2 (Z.ltb_lt _ NPROC)) by lia. cbn [negb].
  rewrite getp_bind, Nat2Z.id. change (procs (t_acq LkWait t)) with (procs t). rewrite Hi. cbn [default]. unfold id. replace (Z.of_nat i + 1) with (Z.of_nat (S i)) by lia.
  fold (kid p c). destruct (kid p c); cbn [negb]; [|by rewrite orb_false_r]. cbn [andb] in Hz. rewrite orb_true_r.
  rewrite acquire_bind by (by apply wait_free). rewrite getp_bind. change (procs (t_acq (LkProc i) (t_acq LkWait t))) with (procs t). rewrite Hi. cbn [default]. unfold id. fold (zombie c). rewrite Hz.
  by rewrite release_bind by (by apply cpu_ok_acq || by apply wait_free).
Qed.

Lemma scan_skip m : forall i h r, (forall j c, (i <= j < i + m)%nat -> procs t !! j = Some c -> kid p c && zombie c = false) -> (i + m <= length (procs t))%nat ->
  mwhile (m + r) (wait_scan p addr) (Z.of_nat i, h) n (MkK (t_acq LkWait t) k) =
  mwhile r (wait_scan p addr) (Z.of_nat (i + m), h || existsb (kid p) (take m (drop i (procs t)))) n (MkK (t_acq LkWait t) k).
Proof.
  induction m as [|m IH]; intros i h r Hno Hlt; [by rewrite Nat.add_0_r, orb_false_r|].
  destruct (lookup_lt_is_Some_2 (procs t) i) as [c Hi]; [lia|]. cbn [Nat.add]. rewrite (mwhile_inl _ _ _ _ _ _ _ (scan_next i c h Hi (Hno i c ltac:(lia) Hi))).
  rewrite IH; [|intros j c' Hj; apply Hno; lia|lia]. replace (S i + m)%nat with (i + S m)%nat by lia. rewrite (drop_S _ _ _ Hi). cbn [take existsb]. by rewrite orb_assoc.
Qed.

(** No exited child. *)
Lemma scan_none : (forall j c, procs t !! j = Some c -> kid p c && zombie c = false) -> (Z.to_nat NPROC < n)%nat ->
  mloop (wait_scan p addr) (0, false) n (MkK (t_acq LkWait t) k) = Ret (inl (existsb (kid p) (procs t))) (MkK (t_acq LkWait t) k).
Proof.
  intros Hno Hn. unfold mloop. replace n with (Z.to_nat NPROC + S (n - Z.to_nat NPROC - 1))%nat at 1 by lia. change 0 with (Z.of_nat 0).
  rewrite (scan_skip _ 0 false); [|intros j c _; apply Hno|lia]. rewrite drop_0, take_ge by lia. cbn [orb]. by apply mwhile_inr.
Qed.

(** [havekids] does not matter at a child. *)
Lemma scan_kid i c h : procs t !! i = Some c -> kid p c = true ->
  wait_scan p addr (Z.of_nat i, h) n (MkK (t_acq LkWait t) k) = wait_scan p addr (Z.of_nat i, false) n (MkK (t_acq LkWait t) k).
Proof.
  intros Hi Hk. pose proof (lookup_lt_Some _ _ _ Hi). unfold wait_scan. rewrite (proj2 (Z.ltb_lt _ NPROC)) by lia. cbn [negb]. rewrite !getp_bind, Nat2Z.id. change (procs (t_acq LkWait t)) with (procs t). rewrite Hi. cbn [default]. unfold id. fold (kid p c). by rewrite Hk.
Qed.

Lemma scan_found np c r s : first_zombie t p np c -> (Z.to_nat NPROC < n)%nat -> (forall h, wait_scan p addr (Z.of_nat np, h) n (MkK (t_acq LkWait t) k) = Ret (inr r) s) ->
  mloop (wait_scan p addr) (0, false) n (MkK (t_acq LkWait t) k) = Ret r s.
Proof.
  intros (Hnp & _ & _ & Hno) Hn E. pose proof (lookup_lt_Some _ _ _ Hnp) as Hlt. unfold mloop. replace n with (np + S (n - np - 1))%nat at 1 by lia. change 0 with (Z.of_nat 0).
  rewrite (scan_skip _ 0 false); [|intros j c' Hj; apply Hno; lia|lia]. by apply mwhile_inr.
Qed.
End scan.

(** The first [w] bytes of [bs] are stored at [addr] and nothing else. *)
Definition stored (pgs : gmap Z upage) (addr : Z) (bs : list Z) (w : Z) (m m' : gmap Z Z) : Prop :=
  forall va, 0 <= va -> ubyte m' pgs va = if (addr <=? va) && (va <? addr + w) then bs !! Z.to_nat (va - addr) else ubyte m pgs va.
Definition status (c : proc) : list Z := le_bytes 4 (u32 (p_xstate c)).

Section reap.
Context {L : Layout} {LO : LayoutOk L} (n : nat) (t : T) (k : kern) (p np : nat) (addr : Z) (q c : proc).
Context (Hc : cpu_ok t) (Hl : lks t = ∅) (Hn : (4 < n)%nat) (Haddr : 0 <= addr).
Context (Hq : procs t !! p = Some q) (Hnp : procs t !! np = Some c) (Hne : p <> np).
Context (l : list Z) (tr trc : gmap (list Z) Z) (pgs pgc : gmap Z upage).
Context (U : user_space (km k) l tr pgs q) (UC : user_space (km k) l trc pgc c) (Hdis : forall a, us_pages tr pgs q a -> ~ us_pages trc pgc c a).

(** The status is stored, unless it goes beyond the memory of the parent. *)
Lemma put_status th : exists r k1 w, (if negb (addr =? 0) then kmm (copyout (p_pagetable q) addr (status c) 4) else mret 0) n (MkK th k) = Ret r (MkK th (k <| km := k1 |>)) /\
  user_space k1 l tr pgs q /\ user_space k1 l trc pgc c /\ stored pgs addr (status c) w (mem (km k)) (mem k1) /\ (forall a, valid_page a -> ~ own_in pgs a -> page_same a (mem (km k)) (mem k1)) /\
  (r = 0 /\ w = (if addr =? 0 then 0 else 4) \/ r = -1 /\ addr <> 0 /\ 0 <= w < 4 /\ ubyte (mem (km k)) pgs (addr + w) = None).
Proof.
  destruct (Z.eqb_spec addr 0) as [Hz|Hz]; cbn [negb].
  { exists 0, (km k), 0. rewrite km_same. split_and!; try done; [|by left]. intros va Hva. by rewrite (proj2 (andb_false_iff _ _)) by (destruct (Z.leb_spec addr va); [right; apply Z.ltb_ge; lia|by left]). }
  destruct (copyout_loop n th l tr (p_pagetable q) pgs (us_owned _ _ _ _ _ U) n (km k) addr (status c) (us_as _ _ _ _ _ U) Haddr Hn) as (r & k1 & w & E & A & Hw & Hs & Hst & Hr).
  { apply le_bytes_bytes. }
  exists r, k1, w. change (Z.of_nat (length (status c))) with 4 in *. pose proof (vi_free _ _ _ _ (as_vm _ _ _ _ _ A)) as HK1.
  assert (forall tr' pgs' q', user_space (km k) l tr' pgs' q' -> (forall a, pt_owns tr' a -> ~ own_in pgs a) -> user_space k1 l tr' pgs' q') as Hkeep.
  { intros tr' pgs' q' U' Hd. apply (us_keep (km k) l); [done|done|intros a; apply (us_used _ _ _ _ _ _ U')|]. intros a Ha. apply Hs; [apply (us_page _ _ _ _ _ _ U'); by left|by apply Hd]. }
  split_and!; [by apply kmm_ret| | |done|done|].
  - apply Hkeep; [done|]. intros a Ha Ho. by destruct (as_own _ _ _ _ _ (us_as _ _ _ _ _ U) a Ho) as (_ & _ & ?).
  - apply Hkeep; [done|]. intros a Ha Ho. apply (Hdis a); [right; by left|by left].
  - destruct Hr as [[-> ->]|(-> & Hlt & Hnone)]; [by left|right]. split_and!; [done|done|lia|lia|done].
Qed.

(** What [wait] leaves when it returns [r] for the exited child [c]. *)
Definition collected (r : Z) (t' : T) (k' : kmem) : Prop :=
  exists l' w, user_space k' l' tr pgs q /\ stored pgs addr (status c) w (mem (km k)) (mem k') /\
    (forall a, valid_page a -> a ∉ l -> ~ us_pages tr pgs q a -> ~ us_pages trc pgc c a -> page_same a (mem (km k)) (mem k')) /\
    (r = p_pid c /\ t' = set_proc np (freed c) t /\ w = (if addr =? 0 then 0 else 4) /\ (forall a, a ∈ l' <-> a ∈ l \/ us_pages trc pgc c a) \/
     r = -1 /\ t' = t /\ addr <> 0 /\ 0 <= w < 4 /\ ubyte (mem (km k)) pgs (addr + w) = None /\ l' = l /\ user_space k' l trc pgc c).

Lemma wait_reap h : kid p c = true -> zombie c = true -> (np < Z.to_nat NPROC)%nat -> p_pagetable c <> 0 -> npages (p_sz c) < Z.of_nat n ->
  exists r t' k', wait_scan p addr (Z.of_nat np, h) n (MkK (t_acq LkWait t) k) = Ret (inr (inr r)) (MkK t' (k <| km := k' |>)) /\ collected r t' k'.
Proof.
  intros Hk Hz Hlt Hpt Hf. pose proof (lookup_lt_Some _ _ _ Hnp) as Hi. unfold wait_scan. rewrite (proj2 (Z.ltb_lt _ NPROC)) by lia. cbn [negb].
  rewrite getp_bind, Nat2Z.id. change (procs (t_acq LkWait t)) with (procs t). rewrite Hnp. cbn [default]. unfold id. fold (kid p c). rewrite Hk. cbn [negb].
  remember (t_acq LkWait t) as tw eqn:Etw. assert (cpu_ok tw /\ procs tw = procs t) as [Hcw Hpw] by (subst tw; split; [by apply cpu_ok_acq|done]).
  assert (forall lk, lk <> LkWait -> lks tw !! lk = None) as Hlw by (subst tw; by apply wait_free).
  assert (t_acq (LkProc np) tw = under (LkProc np) np c tw) as Hun by (unfold under; by rewrite set_proc_same by (by rewrite Hpw)). rewrite acquire_bind by (by apply Hlw). rewrite Hun.
  rewrite under_getp by (by rewrite Hpw). fold (zombie c). rewrite Hz, (under_getp_ne n tw np _ _ c p q _ Hne) by (by rewrite Hpw). fold (status c).
  destruct (put_status (under (LkProc np) np c tw)) as (r & k1 & w & E & U1 & UC1 & Hst & Hs & Hr). rewrite (bind_ret _ _ _ _ _ _ E).
  destruct Hr as [[-> Hw]|(-> & Ha & Hw & Hnone)]; cbn [Z.ltb Z.compare].
  - set (kk := k <| km := k1 |>). destruct (freeproc_us n tw kk np Hcw (Hlw LkKmem ltac:(done)) ltac:(by rewrite Hpw) ltac:(lia) l trc pgc c UC1 Hpt Hf) as (k2 & l2 & E2 & [HK2 Hl2 Hs2]).
    exists (p_pid c), (set_proc np (freed c) t), k2. split.
    + rewrite (bind_ret _ _ _ _ _ _ E2), under_release_at by (done || by apply Hlw). subst tw. change (set_proc np (freed c) (t_acq LkWait t)) with (under LkWait np (freed c) t). rewrite under_release by done. unfold kk. by rewrite km_set.
    + exists l2, w. split_and!; [| | |by left].
      * apply (us_keep k1 l); [done|done| |].
        -- intros a Ha. rewrite Hl2. intros [Hin|Hin]; [by apply (us_used _ _ _ _ _ _ U1 Ha)|by apply (Hdis a)].
        -- intros a Ha. assert (us_pages tr pgs q a) as Ha' by (by left). apply Hs2; [apply (us_page _ _ _ _ _ _ U1 Ha')|apply (us_used _ _ _ _ _ _ U1 Ha')|by apply Hdis].
      * intros va Hva. rewrite <- (Hst va Hva). apply ubyte_same; [by eapply us_owned|]. intros a Ha. assert (us_pages tr pgs q a) as Ha' by (right; by left).
        apply Hs2; [apply (us_page _ _ _ _ _ _ U1 Ha')|apply (us_used _ _ _ _ _ _ U1 Ha')|by apply Hdis].
      * intros a Hv Hal Hp Hcp. eapply page_same_trans; [apply Hs; [done|]; intros Ho; apply Hp; right; by left|by apply Hs2].
  - exists (-1), t, k1. split.
    + rewrite under_release_at by (done || by apply Hlw). rewrite set_proc_same by (by rewrite Hpw). subst tw. by rewrite release_bind by (done || by rewrite Hl).
    + exists l, w. split_and!; [done|done| |by right]. intros a Hv _ Hp _. apply Hs; [done|]. intros Ho. apply Hp. right. by left.
Qed.
End reap.

Section rounds.
Context {L : Layout} {LO : LayoutOk L} (n m : nat) (t : T) (k : kern) (p : nat) (q : proc) (addr : Z).
Context (Ht : rest p t) (Hq : procs t !! p = Some q) (Hn : (Z.to_nat NPROC < n)%nat).

(** A round in which no child has exited. *)
Lemma waits_none : (forall j c, procs t !! j = Some c -> kid p c && zombie c = false) ->
  if negb (existsb (kid p) (procs t)) || negb (p_killed q =? 0) then waits (S m) p addr n (MkK (t_acq LkWait t) k) = Ret (-1) (MkK t k)
  else exists K, waits (S m) p addr n (MkK (t_acq LkWait t) k) = Yield (MkK (asleep p (ChProc p) t) k) K /\
    forall t' k', rest p t' -> sie t' = sie t -> K (MkK (awake p (ChProc p) t') k') = waits m p addr n (MkK (t_acq LkWait t') k').
Proof.
  intros Hno. pose proof (re_calm _ _ Ht) as [_ Hc _ Hlen _]. pose proof (re_lks _ _ Ht) as Hl.
  assert (wait_body p addr tt n (MkK (t_acq LkWait t) k) = if negb (existsb (kid p) (procs t)) || negb (p_killed q =? 0) then Ret (inr (-1)) (MkK t k) else (sleep (ChProc p) LkWait ;; mret (inl tt)) n (MkK (t_acq LkWait t) k)) as E.
  { unfold wait_body. rewrite (bind_ret _ _ _ _ _ _ (scan_none n t k p addr Hc Hl Hlen Hno Hn)), getp_bind. change (procs (t_acq LkWait t)) with (procs t). rewrite Hq. cbn [default]. unfold id.
    destruct (_ || _); [by rewrite release_bind by (done || by rewrite Hl)|done]. }
  destruct (negb _ || _); [by apply mwhile_inr|].
  destruct (sleep_yields p t LkWait (ChProc p) n k Ht ltac:(done)) as (K & EK & HK). rewrite (bind_yield _ _ _ _ _ _ EK) in E.
  unfold waits. cbn [mwhile]. rewrite (bind_yield _ _ _ _ _ _ E). eexists. split; [reflexivity|]. intros t' k' Hr Hs. cbv beta. by rewrite (HK t' k' Hr Hs).
Qed.

(** A round that finds one. *)
Lemma waits_found l tr pgs np c trc pgc : 0 <= addr -> user_space (km k) l tr pgs q -> first_zombie t p np c -> user_space (km k) l trc pgc c ->
  (forall a, us_pages tr pgs q a -> ~ us_pages trc pgc c a) -> p_pagetable c <> 0 -> npages (p_sz c) < Z.of_nat n ->
  exists r t' k', waits (S m) p addr n (MkK (t_acq LkWait t) k) = Ret r (MkK t' (k <| km := k' |>)) /\ collected t k np addr q c l tr trc pgs pgc r t' k'.
Proof.
  intros Ha U Hz UC Hdis Hpt Hf. pose proof (re_calm _ _ Ht) as [_ Hc _ Hlen _]. pose proof (re_lks _ _ Ht) as Hl. pose proof Hz as (Hnp & Hk & Hzo & _). pose proof (lookup_lt_Some _ _ _ Hnp) as Hi.
  assert (p <> np) as Hne. { intros ->. destruct (re_run _ _ Ht) as (q' & Hq' & Hr & _). unfold zombie in Hzo. apply bool_decide_eq_true in Hzo. congruence. }
  destruct (wait_reap n t k p np addr q c Hc Hl ltac:(unfold NPROC in *; lia) Ha Hq Hnp Hne l tr trc pgs pgc U UC Hdis false Hk Hzo ltac:(lia) Hpt Hf) as (r & t' & k' & E & HC).
  exists r, t', k'. split; [|done]. unfold waits. apply mwhile_inr. unfold wait_body.
  erewrite bind_ret; [|apply (scan_found n t k p addr Hc Hl Hlen np c _ _ Hz Hn); intros h; rewrite (scan_kid n t k p addr Hlen np c h Hnp Hk); exact E]. done.
Qed.
End rounds.

(** C11: [wait] collects an exited child, or waits for one.  It takes
    [wait_lock] and goes through rounds ([waits]).  A round that finds no
    exited child returns -1 with nothing changed if the process has no child
    or is killed; otherwise the process sleeps on its own address, without the
    lock, and whatever has happened when it is resumed, it takes the lock
    again and the next round starts.  A round that finds an exited child
    stores its status at [addr], if that is not 0, and nothing else in the
    parent's memory, makes the child's entry unused, gives exactly the
    child's pages (user memory, page table and trap frame) back, and returns
    the child's pid; no page of anybody else is written.  If the status does not fit in
    the parent's memory, it returns -1 and the child is there as before. *)
Theorem wait_correct {L : Layout} {LO : LayoutOk L} n m t k p q addr l tr pgs :
  rest p t -> procs t !! p = Some q -> (Z.to_nat NPROC < n)%nat -> 0 <= addr -> user_space (km k) l tr pgs q ->
  wait addr n (MkK t k) = waits n p addr n (MkK (t_acq LkWait t) k) /\
  ((forall j c, procs t !! j = Some c -> kid p c && zombie c = false) ->
   if negb (existsb (kid p) (procs t)) || negb (p_killed q =? 0) then waits (S m) p addr n (MkK (t_acq LkWait t) k) = Ret (-1) (MkK t k)
   else exists K, waits (S m) p addr n (MkK (t_acq LkWait t) k) = Yield (MkK (asleep p (ChProc p) t) k) K /\
     forall t' k', rest p t' -> sie t' = sie t -> K (MkK (awake p (ChProc p) t') k') = waits m p addr n (MkK (t_acq LkWait t') k')) /\
  (forall np c trc pgc, first_zombie t p np c -> user_space (km k) l trc pgc c -> (forall a, us_pages tr pgs q a -> ~ us_pages trc pgc c a) -> p_pagetable c <> 0 -> npages (p_sz c) < Z.of_nat n ->
   exists r t' k', waits (S m) p addr n (MkK (t_acq LkWait t) k) = Ret r (MkK t' (k <| km := k' |>)) /\ collected t k np addr q c l tr trc pgs pgc r t' k').
Proof.
  intros Ht Hq Hn Ha U. split_and!.
  - unfold wait. rewrite myproc_bind by apply (re_calm _ _ Ht). rewrite (ca_proc _ _ (re_calm _ _ Ht)), acquire_bind by (by rewrite (re_lks _ _ Ht)). done.
  - by apply waits_none.
  - intros. by apply waits_found.
Qed.

(** A process and its exited child. *)
Definition demo_zombie (root : Z) : proc :=
  (demo_proc root) <| p_trapframe := demo_pg 15 |> <| p_state := ZOMBIE |> <| p_parent := Some 0%nat |> <| p_pid := 2 |> <| p_xstate := 7 |> <| p_ofile := replicate 16 None |> <| p_cwd := None |>.
Definition demo_family (r1 r2 : Z) : T := set_proc 1 (demo_zombie r2) (set_proc 0 (demo_proc r1) demo_T).

Definition two_make {L : Layout} (tf1 tf2 : Z) : KM kmem ((Z * Z) * (Z * Z)) :=
  a ← proc_make tf1;
  b ← (if snd a =? 4096 then proc_make tf2 else mret (0, 0));
  mret (a, b).

Lemma two_make_spec {L : Layout} {LO : LayoutOk L} n t k l tf1 tf2 (q1 q2 : proc) : cpu_ok t -> lks t !! LkKmem = None -> kmem_inv k l -> (3 <= n)%nat ->
  valid_page tf1 -> tf1 ∉ l -> valid_page tf2 -> tf2 ∉ l -> tf2 <> tf1 -> p_trapframe q1 = tf1 -> p_sz q1 = 4096 -> p_trapframe q2 = tf2 -> p_sz q2 = 4096 ->
  exists r k', two_make tf1 tf2 n (MkK t k) = Ret r (MkK t k') /\
    (r = ((p_pagetable q1, 4096), (p_pagetable q2, 4096)) -> exists l' tr pgs trc pgc, user_space k' l' tr pgs q1 /\ user_space k' l' trc pgc q2 /\
      forall a, us_pages tr pgs q1 a -> ~ us_pages trc pgc q2 a).
Proof.
  intros Hc Hl HK Hn Hv Hnf Hv2 Hnf2 Hne T1 Z1 T2 Z2. unfold two_make.
  destruct (proc_make_spec n t k l tf1 Hc Hl HK Hv Hnf Hn) as (r1 & v1 & k1 & E1 & _ & HU1). rewrite (bind_ret _ _ _ _ _ _ E1). cbn [snd].
  destruct (Z.eqb_spec v1 4096) as [->|Hv1]; [|exists (r1, v1, (0, 0)), k1; split; [done|intros [=]; done]].
  destruct (HU1 eq_refl) as (l1 & tr & pgs & HK1 & Hacc1 & U1).
  assert (tf2 ∉ l1) as Hnf3 by (intros Hin; apply Hnf2, Hacc1; by left).
  destruct (proc_make_spec n t k1 l1 tf2 Hc Hl HK1 Hv2 Hnf3 Hn) as (r2 & v2 & k2 & E2 & S2 & HU2).
  rewrite (bind_ret _ _ _ _ _ _ E2). exists (r1, 4096, (r2, v2)), k2. split; [done|]. intros [=]. subst. destruct HU2 as (l2 & trc & pgc & _ & Hacc2 & U2); [done|]. specialize (U1 q1 eq_refl eq_refl Z1). specialize (U2 q2 eq_refl eq_refl Z2).
  exists l2, tr, pgs, trc, pgc. split_and!; [|exact U2|].
  - apply (parent_kept k1 l1); [exact U1|apply (as_vm _ _ _ _ _ (us_as _ _ _ _ _ U2))| |exact S2]. intros a Ha. apply Hacc2. by left.
  - intros a Ha Ha2. pose proof (us_used _ _ _ _ _ _ U1 Ha) as Hn1. destruct Ha2 as [Ha2|[Ha2| ->]]; [apply Hn1, Hacc2; right; by left|apply Hn1, Hacc2; right; by right|].
    destruct Ha as [Ha|[Ha|Ha]]; [apply Hnf2, Hacc1; right; by left|apply Hnf2, Hacc1; right; by right|done].
Qed.

Lemma two_make_runs : exists r1 r2, ret_val (two_make (L := demo_layout) (demo_pg 0) (demo_pg 15) 10%nat (MkK demo_T proc_k)) = Some ((r1, 4096), (r2, 4096)) /\ r2 <> 0.
Proof. do 2 eexists. split; [vm_compute; reflexivity|discriminate]. Qed.

Lemma two_procs : exists r1 r2 k l tr pgs trc pgc, @user_space demo_layout k l tr pgs (demo_proc r1) /\ @user_space demo_layout k l trc pgc (demo_zombie r2) /\
  (forall a, us_pages tr pgs (demo_proc r1) a -> ~ us_pages trc pgc (demo_zombie r2) a) /\ r2 <> 0.
Proof.
  assert (@valid_page demo_layout (demo_pg 0) /\ @valid_page demo_layout (demo_pg 15)) as [Hv Hv2] by (by split; vm_compute).
  assert (demo_pg 0 ∉ proc_free /\ demo_pg 15 ∉ proc_free /\ demo_pg 15 <> demo_pg 0) as (Hnf & Hnf2 & Hne) by (split_and!; [apply (bool_decide_unpack _); vm_compute; exact I..|discriminate]). assert (3 <= 10)%nat as Hn by lia.
  destruct two_make_runs as (r1 & r2 & Hrun & Hr2).
  destruct (@two_make_spec demo_layout demo_layout_ok 10%nat demo_T proc_k proc_free (demo_pg 0) (demo_pg 15) (demo_proc r1) (demo_zombie r2) demo_T_ok eq_refl proc_kmem Hn Hv Hnf Hv2 Hnf2 Hne eq_refl eq_refl eq_refl eq_refl) as (r & k & E & HU).
  rewrite E in Hrun. injection Hrun as ->. destruct (HU eq_refl) as (l & tr & pgs & trc & pgc & U & UC & Hd). exists r1, r2, k, l, tr, pgs, trc, pgc. split_and!; [exact U|exact UC|exact Hd|exact Hr2].
Qed.

Lemma wait_correct_witness : exists t k r t' k', wait (L := demo_layout) 0 100%nat (MkK t k) = Ret r (MkK t' k') /\ r = 2 /\ p_state <$> procs t !! 1%nat = Some ZOMBIE /\ p_state <$> procs t' !! 1%nat = Some UNUSED.
Proof.
  destruct two_procs as (r1 & r2 & k & l & tr & pgs & trc & pgc & U & UC & Hdis & Hr2). set (t := demo_family r1 r2). set (kk := (kern0 ∅) <| km := k |>).
  assert (rest 0 t) as Ht.
  { split; [split; [done|exact demo_T_ok|done|reflexivity|]|done|done|by eexists]. intros j q' Hj Hq Hs. exfalso.
    change (procs t) with (demo_proc r1 :: demo_zombie r2 :: replicate 62 proc0) in Hq. destruct j as [|[|j]]; [done|injection Hq as <-; done|]. apply lookup_replicate in Hq as [-> _]. done. }
  destruct (wait_correct (LO := demo_layout_ok) 100%nat 99%nat t kk 0 (demo_proc r1) 0 l tr pgs Ht eq_refl) as (E & _ & Hz); [unfold NPROC; lia|lia|exact U|].
  destruct (Hz 1%nat (demo_zombie r2) trc pgc) as (r & t' & k' & E2 & l' & w & _ & _ & _ & Hr); [|exact UC|exact Hdis|exact Hr2|reflexivity|].
  { split_and!; [reflexivity|reflexivity|reflexivity|]. intros [|j] c' Hj Hq; [injection Hq as <-; reflexivity|lia]. }
  exists t, kk, r, t', (kk <| km := k' |>). split; [exact (eq_trans E E2)|]. clear - Hr. destruct Hr as [(-> & -> & _)|(_ & _ & [] & _)]; [split_and!; reflexivity|reflexivity].
Defined.
