(* ===== verification/ExecMem.v ===== *)
(** * The memory image of a new program

    What [exec] of [kernel/exec.c] does to memory, on an image: a size and the
    byte a user program reads at each address.  Growing the new address space,
    writing into its pages, taking a page from the user and freeing it all. *)

From Stdlib Require Import ZArith Lia.
From S2P Require Import Prelude Riscv KString Thread Kalloc Vm VmSpec AddrSpace UvmSpec GrowSpec CopySpec FreeSpec VmTheorems UserSpace.

(** ** Images *)

Record image := MkImage { im_sz : Z; im_at : Z -> option Z }.

(** [bs] stored at [a]. *)
Definition put (a : Z) (bs : list Z) (f : Z -> option Z) (va : Z) : option Z :=
  if (a <=? va) && (va <? a + Z.of_nat (length bs)) then bs !! Z.to_nat (va - a) else f va.
Definition im_put (a : Z) (bs : list Z) (I : image) : image := MkImage (im_sz I) (put a bs (im_at I)).
(** At least [newsz] bytes, the new pages zero. *)
Definition im_grow (newsz : Z) (I : image) : image :=
  if newsz <? im_sz I then I else
  MkImage newsz (fun va => if (npages (im_sz I) * PGSIZE <=? va) && (va <? npages newsz * PGSIZE) then Some 0 else im_at I va).
(** The page at [a] is not for the user. *)
Definition im_hide (a : Z) (I : image) : image := MkImage (im_sz I) (fun va => if (a <=? va) && (va <? a + PGSIZE) then None else im_at I va).
(** The user can read every page. *)
Definition im_full (I : image) : Prop := forall va, 0 <= va < npages (im_sz I) * PGSIZE -> is_Some (im_at I va).

Lemma in_range a b x : (a <=? x) && (x <? b) = true <-> a <= x < b.
Proof. rewrite andb_true_iff, Z.leb_le, Z.ltb_lt. done. Qed.
Lemma not_range a b x : (a <=? x) && (x <? b) = false <-> ~ (a <= x < b).
Proof. rewrite <- in_range. by destruct (_ && _). Qed.

Lemma put_some a bs f va : is_Some (f va) -> is_Some (put a bs f va).
Proof. intros H. unfold put. destruct (_ && _) eqn:E; [|done]. apply in_range in E. apply lookup_lt_is_Some. lia. Qed.
Lemma put_app a b1 b2 f va : put (a + Z.of_nat (length b1)) b2 (put a b1 f) va = put a (b1 ++ b2) f va.
Proof.
  unfold put. rewrite length_app. destruct (_ && _) eqn:E1.
  - apply in_range in E1. rewrite (proj2 (in_range a _ va)) by lia. rewrite lookup_app_r by lia. f_equal. lia.
  - apply not_range in E1. destruct (_ && _) eqn:E2; destruct ((a <=? va) && (va <? a + Z.of_nat (length b1 + length b2))) eqn:E3; rewrite ?in_range, ?not_range in *; try lia; [|done].
    rewrite lookup_app_l by lia. done.
Qed.
Lemma put_nil a f va : put a [] f va = f va.
Proof. unfold put. rewrite (proj2 (not_range _ _ _)); [done|]. cbn. lia. Qed.

Lemma im_grow_full newsz I : 0 <= im_sz I -> im_sz I <= TRAPFRAME -> im_full I -> newsz <= TRAPFRAME -> im_full (im_grow newsz I).
Proof.
  intros H0 H1 HI H2. unfold im_grow. destruct (Z.ltb_spec newsz (im_sz I)) as [|Hge]; [done|]. intros va Hva. cbn [im_sz im_at] in *.
  destruct (_ && _) eqn:E; [done|]. apply not_range in E. apply HI. lia.
Qed.
Lemma im_grow_sz newsz I : im_sz (im_grow newsz I) = Z.max newsz (im_sz I).
Proof. unfold im_grow. destruct (Z.ltb_spec newsz (im_sz I)); cbn; lia. Qed.

(** ** The address space of an image *)

(** The process with another address space. *)
Definition with_space (root sz : Z) (q : proc) : proc := q <| p_pagetable := root |> <| p_sz := sz |>.

(** An address space of [sz] bytes made of the pages [l0] that were free in
    memory [m0]; the pages [l] are still free. *)
Record built {L : Layout} (l0 : list Z) (m0 : gmap Z Z) (q : proc) (root sz : Z) (k : kmem) (l : list Z) (tr : gmap (list Z) Z) (pgs : gmap Z upage) : Prop := {
  bu_us : user_space k l tr pgs (with_space root sz q);
  bu_acc : forall a, accounted l tr pgs a <-> a ∈ l0;
  bu_same : forall a, valid_page a -> a ∉ l0 -> page_same a m0 (mem k)
}.
(** It took three pages for a page of memory, and five to start with. *)
Definition cost (l0 l : list Z) (sz : Z) : Prop := Z.of_nat (length l0) <= Z.of_nat (length l) + 3 * npages sz + 5.
(** It shows the user the image. *)
Definition shows (I : image) (m : gmap Z Z) (pgs : gmap Z upage) : Prop := forall va, 0 <= va -> ubyte m pgs va = im_at I va.

Section built.
Context {L : Layout} {LO : LayoutOk L} (l0 : list Z) (m0 : gmap Z Z) (q : proc) (root : Z).
Notation B := (built l0 m0 q root).

Lemma built_as sz k l tr pgs : B sz k l tr pgs -> as_inv k l tr root pgs.
Proof. intros HB. apply (us_as _ _ _ _ _ (bu_us _ _ _ _ _ _ _ _ _ HB)). Qed.
Lemma built_sz sz k l tr pgs : B sz k l tr pgs -> 0 <= sz <= TRAPFRAME.
Proof. intros HB. apply (us_sz _ _ _ _ _ (bu_us _ _ _ _ _ _ _ _ _ HB)). Qed.
(** The size counts in pages. *)
Lemma built_round sz k l tr pgs : B sz k l tr pgs -> npages (PGROUNDUP sz) = npages sz /\ B (PGROUNDUP sz) k l tr pgs.
Proof.
  intros HB. pose proof (built_sz _ _ _ _ _ HB) as Hsz. destruct (npages_bound sz Hsz) as [Hb _].
  assert (npages (PGROUNDUP sz) = npages sz) as E by (rewrite round_npages by done; apply npages_pages; lia). split; [done|].
  assert (0 <= PGROUNDUP sz <= TRAPFRAME) as Hr.
  { rewrite round_npages by done. unfold TRAPFRAME, TRAMPOLINE. rewrite MAXVA_NPG. unfold PGSIZE in *. lia. }
  destruct HB as [[U1 U2 U3 U4 U5] B2 B3]. split; [|done|done]. cbn [with_space] in *.
  split; [exact U1|exact Hr| | |exact U5].
  - change (range_owned pgs 0 (Z.to_nat (npages (PGROUNDUP sz))) true). by rewrite E.
  - intros v. change (v < 0 \/ npages (PGROUNDUP sz) <= v -> pgs !! v = sys_pages (p_trapframe q) !! v). rewrite E. apply U4.
Qed.

(** Memory changes in the pages of the image only. *)
Lemma built_change sz k l tr pgs k' : B sz k l tr pgs -> kmem_inv k' l -> (forall a, valid_page a -> ~ own_in pgs a -> page_same a (mem k) (mem k')) -> B sz k' l tr pgs.
Proof.
  intros HB HK Hs. pose proof (built_as _ _ _ _ _ HB) as A. destruct HB as [U B2 B3]. split; [|done|].
  - apply (us_keep k l); [done|done|intros a; apply (us_used _ _ _ _ _ _ U)|]. intros a Ha. apply Hs; [apply (us_page _ _ _ _ _ _ U); by left|].
    intros Ho. by destruct (as_own _ _ _ _ _ A a Ho) as (_ & _ & ?).
  - intros a Ha Hal. eapply page_same_trans; [by apply B3|]. apply Hs; [done|]. intros Ho. apply Hal, B2. unfold accounted. auto.
Qed.

(** Writing into a page through the kernel's address of it. *)
Lemma built_write sz I k l tr pgs va bs : B sz k l tr pgs -> shows I (mem k) pgs -> 0 <= va -> is_Some (im_at I va) -> va mod PGSIZE + Z.of_nat (length bs) <= PGSIZE ->
  let k' := MkKmem (mem_write (mem k) (uaddr pgs va + va mod PGSIZE) bs) (freelist k) in
  uaddr pgs va <> 0 /\ B sz k' l tr pgs /\ (Forall (fun b => 0 <= b < 256) bs -> shows (im_put va bs I) (mem k') pgs).
Proof.
  intros HB HI Hva Hs Hlen k'. pose proof (built_as _ _ _ _ _ HB) as A. pose proof (us_owned _ _ _ _ _ (bu_us _ _ _ _ _ _ _ _ _ HB)) as HU.
  assert (uaddr pgs va <> 0) as Hu0 by (rewrite (uaddr_none l tr root pgs HU k va A), HI by done; intros E; rewrite E in Hs; by destruct Hs).
  destruct (uaddr_user l tr root pgs HU k va A Hu0) as (u & Hu & HUu & Eu & Ho).
  destruct (write_user l tr root pgs HU k va u bs A Hva Hu HUu Hlen) as (A' & So & Hb). rewrite <- Eu in A', So, Hb. fold k' in A', So, Hb.
  destruct (as_own _ _ _ _ _ A _ Ho) as (Hv & _ & _). split_and!; [done| |].
  - apply (built_change sz k); [done|apply (as_vm _ _ _ _ _ A')|]. intros a Ha Hna. apply (same_outside_page a (up_pa u)); [by rewrite <- Eu|done|done|]. by intros ->.
  - intros Hby vb Hvb. rewrite Hb by done. cbn [im_put im_at]. unfold put. destruct (_ && _) eqn:E; [|by apply HI]. apply in_range in E.
    rewrite <- (take_byte bs (length bs)) by (done || lia). by rewrite firstn_all.
Qed.

Context (n : nat) (th : T) (Hc : cpu_ok th) (Hl : lks th !! LkKmem = None) (Hn : PHYS_PAGES + 1 < Z.of_nat n).

Lemma built_pages sz k l tr pgs : B sz k l tr pgs -> npages sz < Z.of_nat n.
Proof.
  intros HB. pose proof (heap_fits k l tr root pgs sz (built_as _ _ _ _ _ HB) (us_heap _ _ _ _ _ (bu_us _ _ _ _ _ _ _ _ _ HB)) (built_sz _ _ _ _ _ HB)). lia.
Qed.

(** [uvmalloc]: the image grows, or memory has run out. *)
Lemma built_grow newsz I k l tr pgs : B (im_sz I) k l tr pgs -> shows I (mem k) pgs -> cost l0 l (im_sz I) -> 0 <= newsz ->
  exists r k' l' tr' pgs', uvmalloc root (im_sz I) newsz n (MkK th k) = Ret r (MkK th k') /\
    (r = im_sz (im_grow newsz I) /\ B r k' l' tr' pgs' /\ shows (im_grow newsz I) (mem k') pgs' /\ cost l0 l' r /\
       (forall v, npages (im_sz I) <= v < npages newsz -> up_perm <$> pgs' !! v = Some UPERM) \/
     r = 0 /\ B (im_sz I) k' l' tr' pgs' /\ im_sz (im_grow newsz I) = newsz /\ (newsz <= TRAPFRAME -> Z.of_nat (length l0) <= 3 * npages newsz + 5)).
Proof.
  intros HB HI Hcost Hnew. pose proof (built_sz _ _ _ _ _ HB) as Hsz. pose proof (built_as _ _ _ _ _ HB) as A. unfold im_grow.
  destruct (Z.ltb_spec newsz (im_sz I)) as [Hlt|Hge].
  { exists (im_sz I), k, l, tr, pgs. split; [|left; split_and!; try done; intros v Hv; pose proof (npages_mono newsz (im_sz I) ltac:(lia) ltac:(lia)); lia]. unfold uvmalloc. by rewrite (proj2 (Z.ltb_lt newsz (im_sz I))) by lia. }
  destruct (uvmalloc_any n th k l tr root pgs (im_sz I) newsz Hc Hl A) as (r & k' & E & l' & tr' & pgs' & A' & Hac & Hk & Hr); [|lia|lia|lia|].
  { by apply (us_is_heap k l tr pgs (with_space root (im_sz I) q)), HB. }
  assert (forall a, valid_page a -> a ∉ l0 -> page_same a m0 (mem k')) as Hs.
  { intros a Ha Hal. eapply page_same_trans; [by apply HB|]. apply Hk; [done|..]; intros H; apply Hal, (bu_acc _ _ _ _ _ _ _ _ _ HB); unfold accounted; auto. }
  pose proof HB as [U B2 B3]. destruct (npages_bound (im_sz I) Hsz) as [Hb0 _]. exists r, k', l', tr', pgs'. split; [done|].
  destruct Hr as [(-> & Ht & Hh & Hout & Hz & Hsp & Hperm)|(-> & -> & Hfew)]; [left|right].
  - pose proof (npages_mono (im_sz I) newsz ltac:(lia) Ht) as Hm. split_and!; [done| | |unfold cost, spent in *; lia|done].
    + split; [|intros a; by rewrite Hac|done]. destruct U as [U1 U2 U3 U4 [U5 U6]].
      split; [exact A'|change (0 <= newsz <= TRAPFRAME); lia|apply Hh| |split; [done|by rewrite Hac]].
      change (forall v, v < 0 \/ npages newsz <= v -> pgs' !! v = sys_pages (p_trapframe q) !! v). intros v Hv. rewrite Hout by lia. apply U4. change (v < 0 \/ npages (im_sz I) <= v). lia.
    + intros va Hva. cbn [im_at]. destruct (_ && _) eqn:Er; [apply in_range in Er; by apply Hz|]. apply not_range in Er. rewrite <- HI by done.
      rewrite (ubyte_page _ pgs) by (by apply Hout, page_out). apply ubyte_same; [by eapply us_owned|].
      intros a Ha. destruct (as_own _ _ _ _ _ A a Ha) as (? & ? & ?). by apply Hk.
  - split_and!; [done| |done|unfold cost in Hcost; intros Ht; specialize (Hfew Ht); lia].
    destruct U as [U1 U2 U3 U4 [U5 U6]]. split; [split; try done; split; [done|by rewrite Hac]|intros a; by rewrite Hac|done].
Qed.

(** A page is taken from the user. *)
Lemma built_hide sz I k l tr pgs vpn : B sz k l tr pgs -> shows I (mem k) pgs -> 0 <= vpn < npages sz -> up_perm <$> pgs !! vpn = Some UPERM ->
  exists k' pgs', uvmclear root (vpn * PGSIZE) n (MkK th k) = Ret tt (MkK th k') /\ B sz k' l tr pgs' /\ shows (im_hide (vpn * PGSIZE) I) (mem k') pgs'.
Proof.
  intros HB HI Hv Hperm. pose proof (built_as _ _ _ _ _ HB) as A. pose proof (npages_bound sz (built_sz _ _ _ _ _ HB)) as [Hb _].
  pose proof (us_owned _ _ _ _ _ (bu_us _ _ _ _ _ _ _ _ _ HB)) as HU.
  destruct (pgs !! vpn) as [u|] eqn:Hu; [|done]. cbn in Hperm. injection Hperm as Hperm.
  destruct (uvmclear_spec n th k l tr root pgs vpn u A ltac:(lia) Hu) as (k' & E & A' & D); [rewrite Hperm; split; by vm_compute|].
  set (u' := MkUp (up_pa u) _ (up_own u)) in A'. exists k', (<[vpn := u']> pgs). destruct HB as [[U1 U2 U3 U4 [U5 U6]] B2 B3].
  change (p_sz (with_space root sz q)) with sz in *. change (p_trapframe (with_space root sz q)) with (p_trapframe q) in *.
  assert (forall a, own_in (<[vpn := u']> pgs) a <-> own_in pgs a) as Hown.
  { intros a. rewrite <- (insert_id pgs vpn u Hu) at 2. rewrite <- !(insert_delete_eq pgs vpn). rewrite !own_in_insert by apply lookup_delete_eq. done. }
  assert (forall a, accounted l tr (<[vpn := u']> pgs) a <-> accounted l tr pgs a) as Hac by (intros a; unfold accounted; by rewrite Hown).
  split_and!; [done| |].
  - split; [|intros a; by rewrite Hac|].
    + split; [exact A'|exact U2| | |split; [done|by rewrite Hac]].
      * intros v Hv'. destruct (U3 v Hv') as (w & Hw & Ho). destruct (decide (v = vpn)) as [->|Hne]; [|exists w; by rewrite lookup_insert_ne].
        exists u'. rewrite lookup_insert_eq. split; [done|]. cbn. congruence.
      * intros v Hv'. change (p_sz (with_space root sz q)) with sz in Hv'. rewrite lookup_insert_ne by lia. by apply U4.
    + intros a Ha Hal. eapply page_same_trans; [by apply B3|]. intros b Hb'. apply (D a Ha); [..|done]; intros H; apply Hal, B2; unfold accounted; auto.
  - intros va Hva. cbn [im_hide im_at]. unfold ubyte. destruct (_ && _) eqn:Er; rewrite ?in_range, ?not_range in Er.
    + replace (va / PGSIZE) with vpn by (unfold PGSIZE in *; lia). rewrite lookup_insert_eq. cbn [up_perm u']. by rewrite Hperm.
    + rewrite lookup_insert_ne by (unfold PGSIZE in *; lia). fold (ubyte (mem k') pgs va). rewrite <- HI by done. apply ubyte_same; [done|].
      intros a Ha b Hb'. destruct (as_own _ _ _ _ _ A a Ha) as (? & ? & ?). by apply (D a).
Qed.

(** [copyout] into it. *)
Lemma built_copyout sz I k l tr pgs va bs : B sz k l tr pgs -> shows I (mem k) pgs -> 0 <= va -> (length bs < n)%nat -> Forall (fun b => 0 <= b < 256) bs ->
  (forall va', va <= va' < va + Z.of_nat (length bs) -> is_Some (im_at I va')) ->
  exists k', copyout root va bs (Z.of_nat (length bs)) n (MkK th k) = Ret 0 (MkK th k') /\ B sz k' l tr pgs /\ shows (im_put va bs I) (mem k') pgs.
Proof.
  intros HB HI Hva Hlen Hby Hin. pose proof (built_as _ _ _ _ _ HB) as A. pose proof (us_owned _ _ _ _ _ (bu_us _ _ _ _ _ _ _ _ _ HB)) as HU.
  destruct (copyout_loop n th l tr root pgs HU n k va bs A Hva Hlen Hby) as (r & k' & c & E & A' & Hcb & Hs & Hb & Hr).
  destruct Hr as [[-> ->]|(-> & Hlt & Hnone)].
  - exists k'. split_and!; [exact E| |].
    + apply (built_change sz k); [done|apply (as_vm _ _ _ _ _ A')|done].
    + intros vb Hvb. rewrite Hb by done. cbn [im_put im_at]. unfold put. by rewrite HI.
  - exfalso. rewrite HI in Hnone by lia. destruct (Hin (va + c) ltac:(lia)) as [b Hb']. congruence.
Qed.

(** The image is given up. *)
Lemma built_free sz k l tr pgs : B sz k l tr pgs -> exists k' l', proc_freepagetable root sz n (MkK th k) = Ret tt (MkK th k') /\ kmem_inv k' l' /\
  (forall a, a ∈ l' <-> a ∈ l0) /\ (forall a, valid_page a -> a ∉ l0 -> page_same a m0 (mem k')).
Proof.
  intros HB. pose proof HB as [[U1 U2 U3 U4 U5] B2 B3]. assert (3 <= n)%nat as Hn3 by (unfold PHYS_PAGES in Hn; lia).
  destruct (free_pagetable n th k l tr root pgs sz (p_trapframe q) Hc Hl Hn3 (built_pages _ _ _ _ _ HB) U1 U2 U3 U4) as (k' & l' & E & HK & Hl' & Hs).
  exists k', l'. split_and!; [done|done|intros a; by rewrite Hl'|]. intros a Ha Hal. eapply page_same_trans; [by apply B3|]. apply Hs; [done|]. by rewrite B2.
Qed.
End built.
