(* ===== verification/ExecLoad.v ===== *)
(** * Loading the segments of a program

    [loadseg] and the loop over the program headers in [exec] of
    [kernel/exec.c] refine a loader on the bytes of the file ([load_segs]),
    which says what image an ELF file stands for. *)

From Stdlib Require Import ZArith Lia.
From S2P Require Import Prelude Riscv KString Thread Proc Sleeplock Kalloc Vm VmSpec AddrSpace UvmSpec GrowSpec CopySpec FreeSpec VmTheorems UserSpace.
From S2P Require Import Kern Blocks Virtio VirtioSpec Bio BioSpec BioOps Log LogSpec Crash Txn ProcMem Fs Balloc Files ReadWrite FileTheorems.
From S2P Require Import Uart Printf Console Pipe File ProcOps AllocProc Exec ExecMem.

(** ** The loader *)

(** [len] bytes at [off], if the file has them. *)
Definition read_at (F : list Z) (off len : Z) : option (list Z) :=
  if (len =? 0) || (off + len <=? Z.of_nat (length F)) then Some (slice off len F) else None.

(** One segment: memory up to its end, and its bytes of the file in place.
    [exec] also refuses an image that is still empty. *)
Definition load_seg (F : list Z) (I : image) (ph : proghdr) : option image :=
  if negb (ph_type ph =? ELF_PROG_LOAD) then Some I else
  if ph_memsz ph <? ph_filesz ph then None else
  if 2 ^ 64 <=? ph_vaddr ph + ph_memsz ph then None else
  let J := im_grow (ph_vaddr ph + ph_memsz ph) I in
  if im_sz J =? 0 then None else
  if negb (ph_vaddr ph mod PGSIZE =? 0) then None else
  bs ← read_at F (u32 (ph_off ph)) (u32 (ph_filesz ph));
  Some (im_put (ph_vaddr ph) bs J).

(** [c] program headers from [off] on. *)
Fixpoint load_segs (F : list Z) (c : nat) (off : Z) (I : image) : option image :=
  match c with
  | O => Some I
  | S c => h ← read_at F (u32 off) PROGHDR_SIZE;
           J ← load_seg F I (dec_proghdr h);
           load_segs F c (i32 (off + PROGHDR_SIZE)) J
  end.

(** Not enough memory for [sz] bytes. *)
Definition short (l : list Z) (sz : Z) : Prop := TRAPFRAME < sz \/ Z.of_nat (length l) <= 3 * npages sz + 5.

Lemma short_mono l a b : 0 <= a <= b -> short l a -> short l b.
Proof.
  intros Hab Hs. destruct (decide (TRAPFRAME < b)) as [|Hb]; [by left|right]. destruct Hs as [|Hs]; [lia|]. pose proof (npages_mono a b Hab ltac:(lia)). lia.
Qed.

Lemma load_seg_sz F I ph J : load_seg F I ph = Some J -> im_sz I <= im_sz J.
Proof.
  unfold load_seg. repeat (case_match; [try done|]); try done; intros H'; try (by simplify_eq).
  - apply bind_Some in H' as (bs & _ & [= <-]). cbn. rewrite im_grow_sz. lia.
Qed.
Lemma load_segs_sz F c : forall off I J, load_segs F c off I = Some J -> im_sz I <= im_sz J.
Proof.
  induction c as [|c IH]; intros off I J; cbn [load_segs]; [by intros [= ->]|]. intros (h & _ & (J1 & H1%load_seg_sz & H2%IH)%bind_Some)%bind_Some. lia.
Qed.

(** The segment of the first header, then the others. *)
Lemma load_segs_next F c off I h : read_at F (u32 off) PROGHDR_SIZE = Some h -> forall J, load_segs F (S c) off I = Some J ->
  exists J1, load_seg F I (dec_proghdr h) = Some J1 /\ load_segs F c (i32 (off + PROGHDR_SIZE)) J1 = Some J.
Proof. intros Hh J. cbn [load_segs]. rewrite Hh. cbn. by intros (J1 & ? & ?)%bind_Some; exists J1. Qed.

(** ** Bytes *)

(** [a + b < a] detects the overflow. *)
Lemma u64_wraps a b : 0 <= a < 2 ^ 64 -> 0 <= b < 2 ^ 64 -> (u64 (a + b) <? a) = (2 ^ 64 <=? a + b).
Proof.
  intros Ha Hb. unfold u64. destruct (Z.leb_spec (2 ^ 64) (a + b)) as [Hbig|Hsm]; [apply Z.ltb_lt|apply Z.ltb_ge].
  - replace ((a + b) mod 2 ^ 64) with (a + b - 2 ^ 64) by (apply (Z.mod_unique _ _ 1); lia). lia.
  - rewrite Z.mod_small; lia.
Qed.

Definition is_bytes (l : list Z) : Prop := Forall (fun b => 0 <= b < 256) l.

Lemma le_val_range l : is_bytes l -> 0 <= le_val l < 256 ^ Z.of_nat (length l).
Proof.
  induction 1 as [|b l Hb _ IH]; [done|]. cbn [le_val length]. rewrite Nat2Z.inj_succ, Z.pow_succ_r by lia. lia.
Qed.
Lemma slice_bytes off len l : is_bytes l -> is_bytes (slice off len l).
Proof. intros H. by apply Forall_take, Forall_drop. Qed.
Lemma rd_u64_range l off : is_bytes l -> 0 <= rd_u64 l off < 2 ^ 64.
Proof.
  intros H. unfold rd_u64. pose proof (le_val_range _ (slice_bytes off 8 l H)) as [H1 H2]. split; [done|]. eapply Z.lt_le_trans; [exact H2|].
  change (2 ^ 64) with (256 ^ 8). apply Z.pow_le_mono_r; [lia|]. unfold slice. rewrite length_take. lia.
Qed.
Lemma rd_u16_range l off : is_bytes l -> 0 <= rd_u16 l off < 2 ^ 16.
Proof.
  intros H. unfold rd_u16. pose proof (le_val_range _ (slice_bytes off 2 l H)) as [H1 H2]. split; [done|]. eapply Z.lt_le_trans; [exact H2|].
  change (2 ^ 16) with (256 ^ 2). apply Z.pow_le_mono_r; [lia|]. unfold slice. rewrite length_take. lia.
Qed.
Lemma read_at_bytes F off len bs : is_bytes F -> read_at F off len = Some bs -> is_bytes bs.
Proof. intros H. unfold read_at. destruct (_ || _); [|done]. intros [= <-]. by apply slice_bytes. Qed.
Lemma slice_app off a b (F : list Z) : 0 <= off -> 0 <= a -> 0 <= b -> slice off a F ++ slice (off + a) b F = slice off (a + b) F.
Proof. intros H1 H2 H3. unfold slice. rewrite !Z2Nat.inj_add by lia. rewrite <- drop_drop. apply take_take_drop. Qed.
Lemma slice_len off len (F : list Z) : 0 <= off -> 0 <= len -> off + len <= Z.of_nat (length F) -> Z.of_nat (length (slice off len F)) = len.
Proof. intros H1 H2 H3. unfold slice. rewrite length_take, length_drop. lia. Qed.

(** ** The rest of the kernel *)

(** Only memory, buffers and the log have changed. *)
Definition same_but_km (k k' : kern) : Prop := same_fs (k <| km := km k' |>) k'.
#[export] Instance same_but_km_preorder : PreOrder same_but_km.
Proof.
  split; [intros k; by split|]. intros k1 k2 k3 [] []. unfold same_but_km. split; cbn in *; congruence.
Qed.
Lemma same_fs_km k k' : same_fs k k' -> same_but_km k k'.
Proof. intros []. by split. Qed.
Lemma same_set_km k m : same_but_km k (k <| km := m |>).
Proof. by split. Qed.
Lemma same_put_km dst bs k k' : same_fs (dest_put dst bs k) k' -> same_but_km k k'.
Proof. intros H. destruct dst; [by apply same_fs_km| |by apply same_fs_km]. destruct H. by split. Qed.
Lemma txn_km p s o H bl V D t k m : txn p s o H bl V D t k -> txn p s o H bl V D t (k <| km := m |>).
Proof.
  intros HT. destruct HT. split; try done. destruct tx_cache as [order HB]. exists order. eapply bcache_core; try done. apply (bc_ring HB).
Qed.
Lemma fstate_km p s o H bl V D t S ip x k m : fstate p s o H bl V D t S ip x k -> fstate p s o H bl V D t S ip x (k <| km := m |>).
Proof. intros [F1 F2 F3]. split; [by apply txn_km|done|done]. Qed.

Lemma fread_slice V x off len (N : nat) : 0 <= off -> 0 <= len -> off + len <= Z.of_nat N -> fread V x off (Z.to_nat len) = slice off len (fread V x 0 N).
Proof.
  intros H1 H2 H3. apply list_eq. intros j. rewrite slice_lookup. destruct (decide (j < Z.to_nat len)%nat) as [Hj|Hj].
  - rewrite !fread_lookup by lia. do 2 f_equal. lia.
  - apply lookup_ge_None. rewrite fread_length. lia.
Qed.

(** Enough fuel for any number of program headers is enough for the rest. *)
Lemma fuel_blocks n : (Z.to_nat 65536 < n)%nat -> (Z.to_nat BPB < n)%nat.
Proof. change BPB with 8192. lia. Qed.
Lemma fuel_pages n : (Z.to_nat 65536 < n)%nat -> PHYS_PAGES + 1 < Z.of_nat n.
Proof. unfold PHYS_PAGES. lia. Qed.

Section load.
Context (env : kst kern -> option (kst kern)) {BD : BlockDev env} {L : Layout} {LO : LayoutOk L} {SY : Symbols}.
Context (n p : nat) (Hn : (Z.to_nat 65536 < n)%nat).
Context {s o ds : Z} {bl : list Z} {V D : gmap Z (list Z)} {S : superblock} {th : T} {ip : nat} {x : inode}.
Context (HnS : (Z.to_nat (sb_size S / BPB) < n)%nat).
Context (Hr : rest p th) (Hfs : fs_ok s ds S V) (Hx : file_ok ds S V x) (Hwx : inode_wf S x) (Hdense : dense V x) (Hbl : (length bl < nbuf)%nat).

(** The bytes of the file. *)
Definition file_bytes : list Z := fread V x 0 (Z.to_nat (i_size x)).
Notation F := file_bytes.
Context (HF : is_bytes F).
Notation FS := (fstate p s o ∅ bl V D th S ip x).

Lemma file_len : Z.of_nat (length F) = i_size x /\ 0 <= i_size x <= MAXFILE * BSIZE.
Proof. pose proof (iw_size _ _ Hwx). unfold file_bytes. rewrite fread_length. lia. Qed.

(** [readi] delivers the bytes, or less than asked for. *)
Lemma read_file k dst off len : FS k -> dest_fits dst len -> 0 <= off < 2 ^ 32 -> 0 < len < 2 ^ 31 ->
  runs env (readi ip dst off len n (MkK th k)) (fun r s' => exists k' bs, s' = MkK th k' /\ FS k' /\ same_fs (dest_put dst bs k) k' /\ Z.of_nat (length bs) <= len /\
    match read_at F off len with Some b => r = (len, b) /\ bs = b | None => 0 <= fst r < len end).
Proof.
  intros HT Hd Hoff Hlen. destruct file_len as [Hl Hsz]. unfold read_at. rewrite Hl, (proj2 (Z.eqb_neq len 0)) by lia. cbn [orb].
  destruct (decide (off <= i_size x)) as [Hin|Hout].
  - eapply runs_mono; [|eapply (readi_into env n p (fuel_blocks n Hn) Hr HnS Hfs Hx Hwx Hdense Hbl k dst off len HT Hd); lia].
    intros r ? (-> & k' & -> & HT' & HS). eexists k', _. split_and!; [done|done|exact HS|rewrite fread_length; lia|].
    destruct (Z.leb_spec (off + len) (i_size x)) as [Hle|Hgt]; [|cbn; lia]. rewrite Z.min_l by lia.
    by rewrite (fread_slice V x off len (Z.to_nat (i_size x))) by lia.
  - eapply runs_ret.
    + unfold readi. rewrite (geti_bind _ _ _ _ _ _ (ft_ip HT)), Z.gtb_ltb, (proj2 (Z.ltb_lt (i_size x) off)) by lia. reflexivity.
    + exists k, []. rewrite dest_put_nil, (proj2 (Z.leb_gt _ _)) by lia. cbn. split_and!; try done; lia.
Qed.

(** ** [loadseg] *)

Context (l0 : list Z) (m0 : gmap Z Z) (q : proc) (root : Z).
Notation B := (built l0 m0 q root).

Lemma shows_ext I J m pgs : (forall va, im_at I va = im_at J va) -> shows I m pgs -> shows J m pgs.
Proof. intros H HI va Hva. by rewrite <- H, HI. Qed.

(** At a page boundary. *)
Definition aligned (a : Z) : Prop := a mod PGSIZE = 0.
Lemma aligned_add a b : aligned a -> aligned b -> aligned (a + b).
Proof. unfold aligned. intros Ha Hb. by rewrite Z.add_mod, Ha, Hb. Qed.

Section segment.
Context (I : image) (l : list Z) (tr : gmap (list Z) Z) (pgs : gmap Z upage) (va off sz : Z).
Context (Hfull : im_full I) (Hva : 0 <= va) (Hal : aligned va) (Hend : va + sz <= im_sz I) (Hoff : 0 <= off < 2 ^ 32).

(** One page, at offset [i] of the segment. *)
Lemma loadseg_step k i : FS k -> B (im_sz I) (km k) l tr pgs -> shows (im_put va (slice off i F) I) (mem (km k)) pgs ->
  0 <= i < sz -> aligned i -> i = 0 \/ off + i <= i_size x ->
  let m := Z.min (sz - i) PGSIZE in
  runs env (loadseg_body root va ip off sz i n (MkK th k)) (fun r s' => exists k', s' = MkK th k' /\ FS k' /\ same_but_km k k' /\ B (im_sz I) (km k') l tr pgs /\
    if off + i + m <=? i_size x then r = inl (i + PGSIZE) /\ shows (im_put va (slice off (i + m) F) I) (mem (km k')) pgs else r = inr (-1)).
Proof.
  intros HT HB HI Hi Hia Hpos m. destruct file_len as [Hlen Hmax]. change (MAXFILE * BSIZE) with 274432 in Hmax.
  pose proof (built_sz _ _ _ _ _ _ _ _ _ HB) as Hbs. pose proof (built_as _ _ _ _ _ _ _ _ _ HB) as A. pose proof (npages_bound (im_sz I) Hbs) as [_ Hnp].
  change TRAPFRAME with 274877898752 in Hbs. assert (0 < m <= PGSIZE /\ m <= sz - i) as Hm by (unfold m, PGSIZE; lia).
  set (J := im_put va (slice off i F) I) in *. assert (is_Some (im_at J (va + i))) as Hat by (apply put_some, Hfull; lia).
  pose proof (aligned_add va i Hal Hia) as Hmod.
  unfold loadseg_body. rewrite (proj2 (Z.ltb_lt i sz)) by lia. cbn [negb]. rewrite (u64_small (va + i)) by lia.
  assert (kmm (walkaddr root (va + i)) n (MkK th k) = Ret (uaddr pgs (va + i)) (MkK th k)) as EW.
  { rewrite (kmm_ret _ _ _ _ _ _ (walkaddr_as n th (km k) l tr root pgs (va + i) A ltac:(lia))). by rewrite km_same. }
  assert (forall bs, Z.of_nat (length bs) <= m -> uaddr pgs (va + i) <> 0 /\ B (im_sz I) (MkKmem (mem_write (mem (km k)) (uaddr pgs (va + i)) bs) (freelist (km k))) l tr pgs /\
    (is_bytes bs -> shows (im_put (va + i) bs J) (mem_write (mem (km k)) (uaddr pgs (va + i)) bs) pgs)) as HW.
  { intros bs Hbs'. pose proof (built_write l0 m0 q root (im_sz I) J (km k) l tr pgs (va + i) bs HB HI ltac:(lia) Hat) as Hw. unfold aligned in Hmod. rewrite Hmod, Z.add_0_r, Z.add_0_l in Hw. apply Hw. clear Hmod. lia. }
  destruct (HW [] ltac:(cbn; lia)) as (Hu0 & _). destruct (uaddr_user _ _ _ _ (us_owned _ _ _ _ _ (bu_us _ _ _ _ _ _ _ _ _ HB)) (km k) (va + i) A Hu0) as (u & Hu & _ & Eu & _).
  destruct (as_wf _ _ _ _ _ A _ _ Hu) as (_ & Hpa & _). rewrite <- Eu in Hpa. clear Hu.
  rewrite (bind_ret _ _ _ _ _ _ EW), (proj2 (Z.eqb_neq _ 0) Hu0). replace (if sz - i <? PGSIZE then sz - i else PGSIZE) with m by (unfold m; destruct (Z.ltb_spec (sz - i) PGSIZE); lia).
  apply runs_bind. unfold PGSIZE in *. assert (0 <= off + i < 2 ^ 32) as Ho by lia. rewrite (u32_small (off + i)) by done.
  eapply runs_mono; [|eapply (read_file k (DKern (uaddr pgs (va + i))) (off + i) m HT); [cbn; lia|done|lia]].
  intros [r b] ? (k' & bs & -> & HT' & HS & Hlb & Hread). pose proof (sf_km _ _ HS) as Ekm. change (km k' = MkKmem (mem_write (mem (km k)) (uaddr pgs (va + i)) bs) (freelist (km k))) in Ekm.
  destruct (HW bs Hlb) as (_ & HB' & HI'). unfold read_at in Hread. rewrite Hlen, (proj2 (Z.eqb_neq m 0)) in Hread by lia. cbn [orb] in Hread.
  destruct (off + i + m <=? i_size x) eqn:Ele.
  - apply Z.leb_le in Ele. destruct Hread as [[= -> ->] ->]. rewrite u32_small, Z.eqb_refl by lia. cbn [negb]. eapply runs_ret; [reflexivity|]. exists k'.
    rewrite Ekm. split_and!; [done|done|by eapply same_put_km|done|by rewrite u32_small by lia|].
    eapply shows_ext; [|apply HI', slice_bytes, HF]. intros v. unfold J. cbn [im_put im_at]. rewrite <- (slice_app off i m F) by lia. rewrite <- put_app. by rewrite slice_len by lia.
  - cbn [fst] in Hread. rewrite u32_small, (proj2 (Z.eqb_neq r m)) by lia. eapply runs_ret; [reflexivity|]. exists k'. rewrite Ekm. split_and!; [done|done|by eapply same_put_km|done|done].
Qed.

Lemma loadseg_loop (Hsz : 0 <= sz < 2 ^ 32) : forall fuel k i, FS k -> B (im_sz I) (km k) l tr pgs -> shows (im_put va (slice off (Z.min i sz) F) I) (mem (km k)) pgs ->
  0 <= i -> aligned i -> i = 0 \/ off + Z.min i sz <= i_size x -> (1 <= fuel)%nat -> (i < sz -> i_size x - i + PGSIZE < Z.of_nat fuel * PGSIZE) ->
  runs env (mwhile fuel (loadseg_body root va ip off sz) i n (MkK th k)) (fun r s' => exists k', s' = MkK th k' /\ FS k' /\ same_but_km k k' /\ B (im_sz I) (km k') l tr pgs /\
    match read_at F off sz with Some bs => r = 0 /\ shows (im_put va bs I) (mem (km k')) pgs | None => r = -1 end).
Proof.
  destruct file_len as [Hlen Hmax]. unfold read_at. rewrite Hlen.
  induction fuel as [|fuel IH]; intros k i HT HB HI Hi Hia Hpos Hf1 Hf2; [lia|]. apply runs_mwhile_inl. destruct (decide (i < sz)) as [Hlt|Hge].
  2: { rewrite Z.min_r in HI, Hpos by lia. eapply runs_ret; [unfold loadseg_body; rewrite (proj2 (Z.ltb_ge i sz)) by lia; reflexivity|]. exists k. split_and!; try done.
       destruct (Z.eqb_spec sz 0) as [|Hnz]; cbn [orb]; [done|]. by rewrite (proj2 (Z.leb_le _ _)) by lia. }
  rewrite Z.min_l in HI, Hpos by lia. specialize (Hf2 Hlt). eapply runs_mono; [|apply (loadseg_step k i HT HB HI ltac:(lia) Hia Hpos)].
  intros r ? (k' & -> & HT' & HS & HB' & Hres). set (m := Z.min (sz - i) PGSIZE) in *. rewrite (proj2 (Z.eqb_neq sz 0)) by lia. cbn [orb].
  destruct (Z.leb_spec (off + i + m) (i_size x)) as [Hle|Hgt].
  2: { subst r. exists k'. split_and!; try done. rewrite (proj2 (Z.leb_gt _ _)) by lia. done. }
  destruct Hres as [-> HI']. assert (Z.min (i + PGSIZE) sz = i + m) as Emin by (unfold m; lia).
  eapply runs_mono; [|eapply (IH k' (i + PGSIZE) HT' HB')].
  - intros r ? (k2 & -> & HT2 & HS2 & HB2 & Hr2). exists k2. split_and!; try done; [by transitivity k'|]. rewrite (proj2 (Z.eqb_neq sz 0)) in Hr2 by lia. exact Hr2.
  - by rewrite Emin.
  - unfold PGSIZE. lia.
  - apply aligned_add; [done|]. by unfold aligned.
  - right. rewrite Emin. lia.
  - unfold m, PGSIZE in *. lia.
  - unfold m, PGSIZE in *. lia.
Qed.
End segment.

(** The bytes of a segment go to their place, if the file has them. *)
Lemma loadseg_runs I l tr pgs va off sz k : im_full I -> 0 <= va -> va mod PGSIZE = 0 -> va + u32 sz <= im_sz I -> FS k -> B (im_sz I) (km k) l tr pgs -> shows I (mem (km k)) pgs ->
  runs env (loadseg root va ip off sz n (MkK th k)) (fun r s' => exists k', s' = MkK th k' /\ FS k' /\ same_but_km k k' /\ B (im_sz I) (km k') l tr pgs /\
    match read_at F (u32 off) (u32 sz) with Some bs => r = 0 /\ shows (im_put va bs I) (mem (km k')) pgs | None => r = -1 end).
Proof.
  intros Hfull Hva Hal Hend HT HB HI. destruct file_len as [Hlen Hmax]. change (MAXFILE * BSIZE) with 274432 in Hmax. pose proof (u32_range off). pose proof (u32_range sz).
  unfold loadseg, mloop. apply (loadseg_loop I l tr pgs va (u32 off) (u32 sz)); try done; [|by left|lia|unfold PGSIZE; lia].
  rewrite Z.min_l by lia. eapply shows_ext; [|exact HI]. intros v. cbn [im_put im_at]. by rewrite (put_nil va).
Qed.

(** ** The program headers *)

(** What is left of the loop over [c] more headers, from image [I]. *)
Definition loaded_segs (c : nat) (off : Z) (I : image) (k : kern) (res : bool * Z) (s' : kst kern) : Prop :=
  exists k' l tr pgs, s' = MkK th k' /\ FS k' /\ same_but_km k k' /\ B (snd res) (km k') l tr pgs /\
    match load_segs F c off I with
    | Some J => res = (true, im_sz J) /\ shows J (mem (km k')) pgs /\ im_full J /\ cost l0 l (im_sz J) \/ fst res = false /\ short l0 (im_sz J)
    | None => fst res = false
    end.

(** A header that cannot be loaded. *)
Lemma segs_bad c off I k sz k' l tr pgs : FS k' -> same_but_km k k' -> B sz (km k') l tr pgs ->
  (forall J, load_segs F c off I = Some J -> short l0 (im_sz J)) -> loaded_segs c off I k (false, sz) (MkK th k').
Proof.
  intros H1 H2 H3 H4. exists k', l, tr, pgs. split_and!; try done. destruct (load_segs F c off I) as [J|]; [right|done]. split; [done|]. by apply H4.
Qed.

Lemma segs_next c off I k h k1 J res s' : read_at F (u32 off) PROGHDR_SIZE = Some h -> load_seg F I (dec_proghdr h) = Some J -> same_but_km k k1 ->
  loaded_segs c (i32 (off + PROGHDR_SIZE)) J k1 res s' -> loaded_segs (Datatypes.S c) off I k res s'.
Proof.
  intros Hh HJ HS (k' & l & tr & pgs & -> & H1 & H2 & H3 & H4). exists k', l, tr, pgs. split_and!; [done|done|by transitivity k1|done|]. cbn [load_segs]. rewrite Hh. cbn. rewrite HJ. exact H4.
Qed.

Lemma segs_from c off I k k1 res s' : same_but_km k k1 -> loaded_segs c off I k1 res s' -> loaded_segs c off I k res s'.
Proof. intros HS (k' & l & tr & pgs & -> & H1 & H2 & H). exists k', l, tr, pgs. split_and!; [done|done|by transitivity k1|apply H..]. Qed.

Context (Hl : lks th !! LkKmem = None).

Lemma load_one c off I k l tr pgs h : FS k -> B (im_sz I) (km k) l tr pgs -> shows I (mem (km k)) pgs -> im_full I -> cost l0 l (im_sz I) ->
  read_at F (u32 off) PROGHDR_SIZE = Some h -> forall (next : Z * Z) (K : Z * Z * Z -> KK (bool * Z)),
  (forall J k' l' tr' pgs', load_seg F I (dec_proghdr h) = Some J -> FS k' -> same_but_km k k' -> B (im_sz J) (km k') l' tr' pgs' -> shows J (mem (km k')) pgs' -> im_full J -> cost l0 l' (im_sz J) ->
     runs env (K (next, im_sz J) n (MkK th k')) (loaded_segs c (i32 (off + PROGHDR_SIZE)) J k')) ->
  let ph := dec_proghdr h in
  runs env (((if negb (ph_type ph =? ELF_PROG_LOAD) then mret (inl (next, im_sz I)) else
    if ph_memsz ph <? ph_filesz ph then mret (inr (false, im_sz I)) else
    if u64 (ph_vaddr ph + ph_memsz ph) <? ph_vaddr ph then mret (inr (false, im_sz I)) else
    sz1 ← kmm (uvmalloc root (im_sz I) (u64 (ph_vaddr ph + ph_memsz ph)));
    if sz1 =? 0 then mret (inr (false, im_sz I)) else
    if negb (ph_vaddr ph mod PGSIZE =? 0) then mret (inr (false, sz1)) else
    r ← loadseg root (ph_vaddr ph) ip (ph_off ph) (ph_filesz ph);
    if r <? 0 then mret (inr (false, sz1)) else mret (inl (next, sz1))) : KK ((Z * Z * Z) + (bool * Z))) n (MkK th k))
    (fun r s' => match r with inl st => runs env (K st n s') (loaded_segs (Datatypes.S c) off I k) | inr res => loaded_segs (Datatypes.S c) off I k res s' end).
Proof.
  intros HT HB HI Hfull Hcost Hh next K HK ph. pose proof (read_at_bytes _ _ _ _ HF Hh) as Hhb.
  pose proof (load_segs_next F c off I h Hh) as Hnext. fold ph in Hnext.
  pose proof (rd_u64_range h 16 Hhb : 0 <= ph_vaddr ph < 2 ^ 64) as Hv. pose proof (rd_u64_range h 40 Hhb : 0 <= ph_memsz ph < 2 ^ 64) as Hm.
  destruct (ph_type ph =? ELF_PROG_LOAD) eqn:Ety; cbn [negb].
  2: { eapply runs_ret; [reflexivity|]. eapply runs_mono; [intros r s'; apply (segs_next c off I k h k I r s' Hh); [by unfold load_seg; fold ph; rewrite Ety|done]|].
       apply (HK I k l tr pgs); try done. by unfold load_seg; fold ph; rewrite Ety. }
  destruct (ph_memsz ph <? ph_filesz ph) eqn:Efs.
  { eapply runs_ret; [reflexivity|]. eapply segs_bad; [done|done|done|]. intros J (J1 & H1 & _)%Hnext. unfold load_seg in H1. by rewrite Ety, Efs in H1. }
  apply Z.ltb_ge in Efs as Hfs'. set (top := ph_vaddr ph + ph_memsz ph) in *.
  rewrite (u64_wraps _ _ Hv Hm : (u64 top <? ph_vaddr ph) = (2 ^ 64 <=? top)). destruct (2 ^ 64 <=? top) eqn:Etop.
  { eapply runs_ret; [reflexivity|]. eapply segs_bad; [done|done|done|]. intros J (J1 & H1 & _)%Hnext. unfold load_seg in H1. fold top in H1. by rewrite Ety, Efs, Etop in H1. }
  apply Z.leb_gt in Etop as Htop. rewrite (u64_small top) by lia. pose proof (built_sz _ _ _ _ _ _ _ _ _ HB) as Hsz.
  destruct (built_grow l0 m0 q root n th (ca_ok _ _ (re_calm _ _ Hr)) Hl (fuel_pages n Hn) top I (km k) l tr pgs HB HI Hcost ltac:(lia)) as (r & k1 & l1 & tr1 & pgs1 & E & Hres).
  rewrite (kmm_bind _ _ _ _ _ _ _ E). set (k2 := k <| km := k1 |>). pose proof (fstate_km _ _ _ _ _ _ _ _ _ _ _ _ k1 HT : FS k2) as HT2. pose proof (same_set_km k k1 : same_but_km k k2) as HS2.
  assert (forall J1, load_seg F I ph = Some J1 -> im_sz J1 = im_sz (im_grow top I)) as Hj1.
  { intros J1. unfold load_seg. fold top. rewrite Ety, Efs, Etop. cbn [negb]. repeat (case_match; [done|]). by intros (bs & _ & [= <-])%bind_Some. }
  destruct Hres as [(-> & HB1 & HI1 & Hc1 & _)|(-> & HB1 & Hgrow & Hfew)].
  2: { cbn [Z.eqb]. eapply runs_ret; [reflexivity|]. eapply segs_bad; [exact HT2|exact HS2|exact HB1|]. intros J (J1 & H1 & H2)%Hnext.
       eapply short_mono; [|unfold short; destruct (decide (top <= TRAPFRAME)) as [Hle|]; [right; exact (Hfew Hle)|left; lia]].
       apply load_segs_sz in H2. rewrite (Hj1 _ H1), Hgrow in H2. lia. }
  set (J := im_grow top I) in *. assert (im_sz J = Z.max top (im_sz I)) as EJ by apply im_grow_sz. pose proof (built_sz _ _ _ _ _ _ _ _ _ HB1) as HszJ.
  destruct (Z.eqb_spec (im_sz J) 0) as [Hz|Hz].
  { eapply runs_ret; [reflexivity|]. replace (im_sz I) with (im_sz J) by lia. eapply segs_bad; [exact HT2|exact HS2|exact HB1|]. intros J' (J1 & H1 & _)%Hnext.
    unfold load_seg in H1. fold top J in H1. by rewrite Ety, Efs, Etop, Hz in H1. }
  destruct (ph_vaddr ph mod PGSIZE =? 0) eqn:Eal; cbn [negb].
  2: { eapply runs_ret; [reflexivity|]. eapply segs_bad; [exact HT2|exact HS2|exact HB1|]. intros J' (J1 & H1 & _)%Hnext.
       unfold load_seg in H1. fold top J in H1. by rewrite Ety, Efs, Etop, (proj2 (Z.eqb_neq _ 0) Hz), Eal in H1. }
  pose proof (rd_u64_range h 32 Hhb : 0 <= ph_filesz ph < 2 ^ 64) as Hfz. assert (u32 (ph_filesz ph) <= ph_filesz ph) as Hu32 by (unfold u32; apply Z.mod_le; lia).
  assert (im_full J) as HfJ by (apply im_grow_full; lia || done).
  assert (forall bs, read_at F (u32 (ph_off ph)) (u32 (ph_filesz ph)) = bs -> load_seg F I ph = bs ≫= fun bs => Some (im_put (ph_vaddr ph) bs J)) as Hls.
  { intros bs <-. unfold load_seg. fold top J. by rewrite Ety, Efs, Etop, (proj2 (Z.eqb_neq _ 0) Hz), Eal. }
  apply runs_bind. eapply runs_mono; [|apply (loadseg_runs J l1 tr1 pgs1 (ph_vaddr ph) (ph_off ph) (ph_filesz ph) k2 HfJ (proj1 Hv) (proj1 (Z.eqb_eq _ _) Eal)); [lia|exact HT2|exact HB1|exact HI1]].
  intros r ? (k3 & -> & HT3 & HS3 & HB3 & Hread). assert (same_but_km k k3) as HS by (by transitivity k2).
  destruct (read_at F (u32 (ph_off ph)) (u32 (ph_filesz ph))) as [bs|] eqn:Er; specialize (Hls _ eq_refl); cbn in Hls.
  - destruct Hread as [-> HI3]. cbn [Z.ltb Z.compare]. eapply runs_ret; [reflexivity|]. set (J' := im_put (ph_vaddr ph) bs J) in *.
    eapply runs_mono; [intros r s'; apply (segs_next c off I k h k3 J' r s' Hh Hls HS)|].
    apply (HK J' k3 l1 tr1 pgs1); try done. intros va Hva. apply put_some, HfJ. exact Hva.
  - subst r. cbn [Z.ltb Z.compare]. eapply runs_ret; [reflexivity|]. eapply segs_bad; [exact HT3|exact HS|exact HB3|]. intros J' (J1 & H1 & _)%Hnext. congruence.
Qed.

Lemma exec_load_runs phnum c : forall fuel k i off I l tr pgs, FS k -> B (im_sz I) (km k) l tr pgs -> shows I (mem (km k)) pgs -> im_full I -> cost l0 l (im_sz I) ->
  phnum = i + Z.of_nat c -> (c < fuel)%nat ->
  runs env (mwhile fuel (exec_load root ip phnum) (i, off, im_sz I) n (MkK th k)) (loaded_segs c off I k).
Proof.
  induction c as [|c IH]; intros fuel k i off I l tr pgs HT HB HI Hfull Hcost Hc Hf; (destruct fuel as [|fuel]; [lia|]); apply runs_mwhile_inl; unfold exec_load.
  - rewrite (proj2 (Z.ltb_ge i phnum)) by lia. eapply runs_ret; [reflexivity|]. exists k, l, tr, pgs. split_and!; try done. by left.
  - rewrite (proj2 (Z.ltb_lt i phnum)) by lia. cbn [negb]. apply runs_bind. pose proof (u32_range off) as Hu.
    eapply runs_mono; [|eapply (read_file k DLocal (u32 off) PROGHDR_SIZE HT); [done|done|done]].
    intros [r b] ? (k1 & bs & -> & HT1 & HS1 & _ & Hread). assert (same_but_km k k1) as HS by (by apply same_fs_km). pose proof (sf_km _ _ HS1) as Ekm. change (km k1 = km k) in Ekm.
    destruct (read_at F (u32 off) PROGHDR_SIZE) as [h|] eqn:Eh.
    + destruct Hread as [[= -> ->] _]. rewrite Z.eqb_refl. cbn [negb].
      eapply runs_mono; [|eapply (load_one c off I k1 l tr pgs h HT1); [by rewrite Ekm|by rewrite Ekm|done|done|done|]].
      * intros [st|res] s' Hs; [eapply runs_mono; [|exact Hs]; intros r' s2 Hs2; exact (segs_from _ _ _ k k1 _ _ HS Hs2)|exact (segs_from _ _ _ k k1 _ _ HS Hs)].
      * intros J k' l' tr' pgs' _ HT' _ HB' HI' Hf' Hc'. apply (IH fuel k' (i + 1) _ J l' tr' pgs'); try done; lia.
    + cbn [fst] in Hread. rewrite (proj2 (Z.eqb_neq r PROGHDR_SIZE)) by lia. cbn [negb]. eapply runs_ret; [reflexivity|].
      eapply segs_bad; [exact HT1|exact HS|by rewrite Ekm|]. intros J. cbn [load_segs]. by rewrite Eh.
Qed.
End load.
