(* ===== verification/ExecStack.v ===== *)
(** * The stack of a new program, and the switch to its image

    The second half of [exec] of [kernel/exec.c] ([exec_stack] of Exec.v): two
    pages for the stack, the lower one not for the user, the argument strings
    and the array of pointers to them on it, then the registers and the new
    page table for the process.  [push_argv] is the reference. *)

From Stdlib Require Import ZArith Lia.
From S2P Require Import Prelude Riscv KString Thread Proc Sleeplock Kalloc Vm VmSpec AddrSpace UvmSpec GrowSpec CopySpec FreeSpec VmTheorems UserSpace.
From S2P Require Import Kern Virtio Bio Log ProcMem Fs Uart Printf Console Pipe File ProcOps AllocProc Exec ExecMem ExecLoad.

(** ** The stack *)

(** Two more pages; the first is not for the user. *)
Definition im_stack (I : image) : image :=
  let base := PGROUNDUP (im_sz I) in im_hide base (im_grow (base + 2 * PGSIZE) (MkImage base (im_at I))).

(** The strings from [sp] downwards, each at a multiple of 16 and not below
    [base]: their addresses, and what is left. *)
Fixpoint push_args (base sp : Z) (args : list (list Z)) (I : image) : option (list Z * Z * image) :=
  match args with
  | [] => Some ([], sp, I)
  | a :: args =>
      let sp := sp - (Z.of_nat (length a) + 1) in
      let sp := sp - sp mod 16 in
      if sp <? base then None else
      '(us, sp', J) ← push_args base sp args (im_put sp (a ++ [0]) I);
      Some (sp :: us, sp', J)
  end.
(** ... and below them the array of the addresses, ended by 0. *)
Definition push_argv (base : Z) (args : list (list Z)) (I : image) : option (Z * image) :=
  '(us, sp, J) ← push_args base (im_sz I) args I;
  let sp := sp - (Z.of_nat (length args) + 1) * 8 in
  let sp := sp - sp mod 16 in
  if sp <? base then None else Some (sp, im_put sp (mjoin (le_bytes 8 <$> us ++ [0])) J).

Lemma push_args_facts base args : forall sp I us sp' J, push_args base sp args I = Some (us, sp', J) -> base <= sp ->
  length us = length args /\ base <= sp' <= sp /\ im_sz J = im_sz I /\ (forall va, is_Some (im_at I va) -> is_Some (im_at J va)).
Proof.
  induction args as [|a args IH]; intros sp I us sp' J; cbn [push_args].
  { intros [= <- <- <-]. auto with lia. }
  set (sp1 := _ - _ mod 16). destruct (Z.ltb_spec sp1 base) as [|Hge]; [done|]. intros H Hb. apply bind_Some in H as ([[us1 sp2] J1] & H1 & [= <- <- <-]).
  destruct (IH _ _ _ _ _ H1 Hge) as (E1 & E2 & E3 & E4). assert (sp1 <= sp) as Hle by (unfold sp1; pose proof (Z.mod_pos_bound (sp - (Z.of_nat (length a) + 1)) 16); lia).
  split_and!; [cbn; lia|lia|lia|done|]. intros va Hva. apply E4, put_some, Hva.
Qed.

(** ** Strings of the kernel *)

(** The string [s] at [a], in a page that is not free. *)
Record kstring {L : Layout} (l : list Z) (m : gmap Z Z) (a : Z) (s : list Z) : Prop := {
  ks_nz : a <> 0;
  ks_mem : mem_read m a (length s + 1) = s ++ [0];
  ks_str : Forall (fun b => b <> 0) s;
  ks_page : exists pg, valid_page pg /\ pg ∉ l /\ pg <= a /\ a + Z.of_nat (length s) + 1 <= pg + PGSIZE
}.

Lemma kstring_keep {L : Layout} l m a s m' : kstring l m a s -> (forall pg, valid_page pg -> pg ∉ l -> page_same pg m m') -> kstring l m' a s.
Proof.
  intros [H1 H2 H3 (pg & P1 & P2 & P3 & P4)] Hs. split; [done| |done|by exists pg]. rewrite <- H2. apply mem_read_ext. intros b Hb. apply (Hs pg P1 P2). lia.
Qed.

Lemma kstring_byte {L : Layout} l m a s i b : kstring l m a s -> (s ++ [0]) !! i = Some b -> ld m (a + Z.of_nat i) = b.
Proof.
  intros [_ H2 _ _] Hi. rewrite <- H2 in Hi. pose proof (lookup_lt_Some _ _ _ Hi) as Hlt. rewrite mem_read_length in Hlt.
  apply (nth_lookup_Some _ _ 0) in Hi. by rewrite mem_read_nth in Hi.
Qed.

Lemma kstring_len {L : Layout} n m l a s : kstring l m a s -> (length s < n)%nat -> strlen n m a = Some (Z.of_nat (length s)).
Proof.
  intros HK Hn. assert (ld m (a + Z.of_nat (length s)) = 0) as Hz by (apply (kstring_byte _ _ _ _ _ _ HK); by rewrite lookup_app_r, Nat.sub_diag by lia).
  destruct (strlen_loop_total n m a 0 (Z.of_nat (length s)) ltac:(lia) Hz ltac:(lia)) as (r & E & Hr). unfold strlen. rewrite E. f_equal.
  destruct (strlen_loop_spec _ _ _ _ _ E) as (H0 & H1 & _). destruct (decide (r < Z.of_nat (length s))) as [Hlt|]; [|lia]. exfalso.
  destruct (lookup_lt_is_Some_2 s (Z.to_nat r)) as [b Hb]; [lia|].
  assert (ld m (a + r) = b) as E2 by (replace r with (Z.of_nat (Z.to_nat r)) by lia; apply (kstring_byte _ _ _ _ _ _ HK); by apply lookup_app_l_Some).
  pose proof (Forall_lookup_1 _ _ _ _ (ks_str _ _ _ _ HK) Hb). congruence.
Qed.
Lemma kstring_bytes {L : Layout} l m a s : kstring l m a s -> is_bytes (s ++ [0]).
Proof. intros HK. rewrite <- (ks_mem _ _ _ _ HK). unfold is_bytes, mem_read. apply Forall_fmap, Forall_forall. intros i _. apply ld_range. Qed.

Lemma stack_sp sp len base : PGSIZE <= base <= sp -> sp < 2 ^ 64 -> 0 <= len < PGSIZE -> let x := sp - (len + 1) in u64 (u64 x - u64 x mod 16) = x - x mod 16 /\ 0 <= x - x mod 16 /\ x - x mod 16 + (len + 1) <= sp.
Proof.
  intros H1 H2 H3 x. unfold PGSIZE in *. assert (0 <= x) by (unfold x; lia). rewrite (u64_small x) by (unfold x in *; lia). pose proof (Z.mod_pos_bound x 16 ltac:(lia)).
  pose proof (Z.mod_le x 16 ltac:(lia) ltac:(lia)). rewrite u64_small by (unfold x in *; lia). unfold x in *. lia.
Qed.

Section stack.
Context {L : Layout} {LO : LayoutOk L} {SY : Symbols} (n : nat) (t : T) (Hn : PHYS_PAGES + 1 < Z.of_nat n).
Context (l0 : list Z) (m0 : gmap Z Z) (q : proc) (root : Z).
Notation B := (built l0 m0 q root).

(** One argument. *)
Lemma exec_args_step sz l tr pgs base top argv i ad a k sp us I : PGSIZE <= base -> top < 2 ^ 64 -> argv !! i = Some ad -> Z.of_nat i < MAXARG ->
  kstring l0 m0 ad a -> base <= sp <= top -> B sz (km k) l tr pgs -> shows I (mem (km k)) pgs -> (forall va, base <= va < top -> is_Some (im_at I va)) ->
  let sp1 := sp - (Z.of_nat (length a) + 1) in let sp1 := sp1 - sp1 mod 16 in
  exists m', exec_args root base argv (Z.of_nat i, sp, us) n (MkK t k) = Ret (if sp1 <? base then inr None else inl (Z.of_nat i + 1, sp1, us ++ [sp1])) (MkK t (k <| km := m' |>)) /\
    B sz m' l tr pgs /\ sp1 <= sp /\ (base <= sp1 -> shows (im_put sp1 (a ++ [0]) I) (mem m') pgs).
Proof.
  intros Hbase Htop Hi Hmax Hk Hsp HB HI Hst. assert (kstring l0 (mem (km k)) ad a) as Hk' by (apply (kstring_keep _ m0); [done|]; intros pg; apply HB).
  assert (Z.of_nat (length a) < PGSIZE) as Hla by (destruct (ks_page _ _ _ _ Hk) as (pg & _ & _ & ? & ?); lia).
  destruct (stack_sp sp (Z.of_nat (length a)) base) as (Esp & Hsp0 & Hsp1); [lia|lia|lia|]. cbn zeta. set (sp1 := sp - (Z.of_nat (length a) + 1) - _) in *.
  assert (kmm (kstrlen ad) n (MkK t k) = Ret (Z.of_nat (length a)) (MkK t k)) as Elen.
  { rewrite (kmm_ret _ _ _ _ (Z.of_nat (length a)) (km k)); [by rewrite km_same|]. unfold kstrlen. cbn [own]. rewrite (kstring_len n _ _ _ _ Hk'); [done|]. unfold PHYS_PAGES, PGSIZE in *. lia. }
  assert (kmm (getX (fun k => mem_read (mem k) ad (length a + 1))) n (MkK t k) = Ret (a ++ [0]) (MkK t k)) as Erd.
  { rewrite (kmm_ret _ _ _ _ (a ++ [0]) (km k)); [by rewrite km_same|]. change (Ret (mem_read (mem (km k)) ad (length a + 1)) (MkK t (km k)) = Ret (a ++ [0]) (MkK t (km k))). by rewrite (ks_mem _ _ _ _ Hk'). }
  unfold exec_args. rewrite Nat2Z.id, Hi. cbn [default]. unfold id. rewrite (proj2 (Z.eqb_neq ad 0) (ks_nz _ _ _ _ Hk)), Z.geb_leb, (proj2 (Z.leb_gt MAXARG _)) by lia.
  rewrite (bind_ret _ _ _ _ _ _ Elen), Esp. destruct (Z.ltb_spec sp1 base) as [Hlow|Hok].
  { exists (km k). rewrite km_same. split_and!; [done|done|lia|lia]. }
  replace (Z.to_nat (Z.of_nat (length a) + 1)) with (length a + 1)%nat by lia. rewrite (bind_ret _ _ _ _ _ _ Erd).
  assert (Z.of_nat (length (a ++ [0])) = Z.of_nat (length a) + 1) as Elb by (rewrite length_app; cbn; lia). rewrite <- Elb.
  destruct (built_copyout l0 m0 q root n t sz I (km k) l tr pgs sp1 (a ++ [0]) HB HI Hsp0) as (m' & E & HB' & HI').
  { unfold PHYS_PAGES, PGSIZE in *. lia. } { by eapply kstring_bytes. } { intros va Hva. apply Hst. lia. }
  exists m'. rewrite (kmm_bind _ _ _ _ _ _ _ E). split_and!; [done|done|lia|done].
Qed.

(** The argument loop. *)
Lemma exec_args_loop sz l tr pgs base top argv : PGSIZE <= base -> top < 2 ^ 64 ->
  forall args addrs i fuel k sp us I, (forall j ad, addrs !! j = Some ad -> argv !! (i + j)%nat = Some ad) -> argv !! (i + length args)%nat = Some 0 -> Z.of_nat (i + length args) < MAXARG ->
  Forall2 (kstring l0 m0) addrs args -> base <= sp <= top -> B sz (km k) l tr pgs -> shows I (mem (km k)) pgs -> (forall va, base <= va < top -> is_Some (im_at I va)) -> (length args < fuel)%nat ->
  exists m', mwhile fuel (exec_args root base argv) (Z.of_nat i, sp, us) n (MkK t k) =
      Ret (match push_args base sp args I with Some (us', sp', _) => Some (Z.of_nat (i + length args), sp', us ++ us') | None => None end) (MkK t (k <| km := m' |>)) /\
    B sz m' l tr pgs /\ match push_args base sp args I with Some (_, _, J) => shows J (mem m') pgs | None => True end.
Proof.
  intros Hbase Htop. induction args as [|a args IH]; intros addrs i fuel k sp us I Haddr Hend Hmax Hargs Hsp HB HI Hst Hf; (destruct fuel as [|fuel]; [cbn in Hf; lia|]).
  - cbn [length] in *. rewrite Nat.add_0_r in *. exists (km k). rewrite km_same. split_and!; [|done|done]. cbn [push_args]. rewrite app_nil_r.
    apply mwhile_inr. unfold exec_args. by rewrite Nat2Z.id, Hend.
  - apply Forall2_cons_inv_r in Hargs as (ad & addrs' & Hk & Hargs & ->). cbn [length] in *.
    destruct (exec_args_step sz l tr pgs base top argv i ad a k sp us I Hbase Htop) as (m1 & E & HB1 & Hle & HI1); [|lia|done..|].
    { rewrite <- (Nat.add_0_r i). by apply Haddr. }
    cbn [push_args]. cbn zeta in E, Hle, HI1. set (sp1 := sp - (Z.of_nat (length a) + 1) - _) in *. destruct (Z.ltb_spec sp1 base) as [Hlow|Hok].
    { exists m1. split_and!; [by apply mwhile_inr|done|done]. }
    rewrite (mwhile_inl _ _ _ _ _ _ _ E). replace (Z.of_nat i + 1) with (Z.of_nat (Datatypes.S i)) by lia.
    destruct (IH addrs' (Datatypes.S i) fuel (k <| km := m1 |>) sp1 (us ++ [sp1]) (im_put sp1 (a ++ [0]) I)) as (m2 & E2 & HB2 & HI2); [|by rewrite <- plus_n_Sm in Hend|lia|done|lia|done|by apply HI1| |lia|].
    { intros j ad' Hj. replace (Datatypes.S i + j)%nat with (i + Datatypes.S j)%nat by lia. by apply Haddr. }
    { intros va Hva. apply put_some, Hst, Hva. }
    exists m2. rewrite E2, km_set. destruct (push_args base sp1 args _) as [[[us' sp'] J]|]; cbn; [|done]. split_and!; [|done|done].
    rewrite <- app_assoc. do 3 f_equal. f_equal. lia.
Qed.
End stack.

(** ** The switch *)

(** The registers of a program that starts: [pc], [sp] and [a1]. *)
Definition exec_regs (tf entry sp : Z) (m : gmap Z Z) : gmap Z Z :=
  st64 (st64 (st64 m (tf + TF_a 1) sp) (tf + TF_epc) entry) (tf + TF_sp) sp.

Lemma st64_page_same p m m' a v : page_same p m m' -> page_same p (st64 m a v) (st64 m' a v).
Proof.
  intros H b Hb. unfold st64. rewrite !mem_write_ld, le_bytes_length. destruct (_ && _); [done|]. by apply H.
Qed.
Lemma exec_regs_outside tf entry sp m : same_outside tf m (exec_regs tf entry sp m).
Proof. unfold exec_regs. repeat (eapply same_outside_trans; [|by apply st64_same_outside]). done. Qed.

(** The process after a successful [exec]. *)
Definition exec_proc (path : list Z) (root sz : Z) (q : proc) : proc := with_space root sz (q <| p_name := safestrcpy_l 16 (basename path path) (p_name q) |>).

(** Its memory shows [I] and is made of the pages it had and free pages. *)
Record execed {L : Layout} (k : kmem) (l : list Z) (tr : gmap (list Z) Z) (pgs : gmap Z upage) (q : proc) (I : image) (entry sp : Z)
    (q' : proc) (k' : kmem) (l' : list Z) (tr' : gmap (list Z) Z) (pgs' : gmap Z upage) : Prop := {
  ex_us : user_space k' l' tr' pgs' q';
  ex_mem : shows I (mem k') pgs';
  ex_pages : forall a, accounted l' tr' pgs' a <-> accounted l tr pgs a;
  ex_regs : page_same (p_trapframe q) (exec_regs (p_trapframe q) entry sp (mem k)) (mem k');
  ex_same : forall a, valid_page a -> ~ accounted l tr pgs a -> a <> p_trapframe q -> page_same a (mem k) (mem k')
}.

Section switch.
Context {L : Layout} {LO : LayoutOk L} (n : nat) (Hn : PHYS_PAGES + 1 < Z.of_nat n).
Context (k0 : kmem) (l0 : list Z) (tr0 : gmap (list Z) Z) (pgs0 : gmap Z upage) (q : proc) (U : user_space k0 l0 tr0 pgs0 q) (root : Z).

(** Between the two page tables. *)
Lemma both_kept sz k l tr pgs : built l0 (mem k0) q root sz k l tr pgs -> user_space k l tr0 pgs0 q.
Proof.
  intros [HU HA HS]. apply (parent_kept k0 l0); [done| | |done]; [apply (as_vm _ _ _ _ _ (us_as _ _ _ _ _ HU))|]. intros a Ha. apply HA. by left.
Qed.

Lemma exec_switch th sz k l tr pgs I path entry sp : cpu_ok th -> lks th !! LkKmem = None -> built l0 (mem k0) q root sz k l tr pgs -> shows I (mem k) pgs ->
  exists k' l', proc_freepagetable (p_pagetable q) (p_sz q) n (MkK th (k <| mem := exec_regs (p_trapframe q) entry sp (mem k) |>)) = Ret tt (MkK th k') /\
    execed k0 l0 tr0 pgs0 q I entry sp (exec_proc path root sz q) k' l' tr pgs.
Proof.
  intros Hc Hl HB HI. pose proof (both_kept _ _ _ _ _ HB) as UO. set (tf := p_trapframe q) in *. destruct (us_tf _ _ _ _ _ U) as [Htf Hna]. fold tf in Htf, Hna.
  pose proof (exec_regs_outside tf entry sp (mem k)) as Ho. set (k1 := k <| mem := exec_regs tf entry sp (mem k) |>).
  assert (tf ∉ l0) as Htl by (intros H; apply Hna; by left).
  assert (forall a, us_pages tr0 pgs0 q a -> a ∉ l0) as Hold by (intros a; apply (us_used _ _ _ _ _ a U)). unfold us_pages in Hold. fold tf in Hold.
  pose proof (bu_acc _ _ _ _ _ _ _ _ _ HB) as HA. pose proof (bu_us _ _ _ _ _ _ _ _ _ HB) as UN.
  assert (forall a, valid_page a -> a <> tf -> page_same a (mem k) (mem k1)) as Hs1 by (intros a Ha Hne; by apply (same_outside_page a tf)).
  assert (kmem_inv k1 l) as HK1.
  { apply kmem_inv_outside with (p := tf); [done| |done|apply (as_vm _ _ _ _ _ (us_as _ _ _ _ _ UN))]. intros H. apply Htl, HA. by left. }
  assert (user_space k1 l tr0 pgs0 q) as U1.
  { apply (us_keep k l); [done|done|intros a; apply (us_used _ _ _ _ _ _ UO)|]. intros a Ha. apply Hs1; [apply (us_page _ _ _ _ _ _ U); by left|]. intros ->. apply Hna. unfold accounted. auto. }
  pose proof (heap_fits _ _ _ _ _ _ (us_as _ _ _ _ _ U1) (us_heap _ _ _ _ _ U1) (us_sz _ _ _ _ _ U1)) as Hf.
  destruct (free_pagetable n th k1 l tr0 (p_pagetable q) pgs0 (p_sz q) tf Hc Hl) as (k2 & l2 & E & HK2 & Hl2 & Hs2); [unfold PHYS_PAGES in Hn; lia|lia|apply U1..|].
  assert (forall a, pt_owns tr a \/ own_in pgs a -> a <> tf /\ a ∉ l2 /\ ~ accounted l tr0 pgs0 a) as Hnew.
  { intros a Ha. assert (a ∈ l0) as Ha0 by (apply HA; unfold accounted; tauto). assert (a ∉ l) as Hal by (apply (us_used _ _ _ _ _ a UN); unfold us_pages; tauto).
    split; [by intros ->|]. rewrite Hl2. unfold accounted. pose proof (Hold a). tauto. }
  assert (forall a, valid_page a -> pt_owns tr a \/ own_in pgs a -> page_same a (mem k) (mem k2)) as Hkeep.
  { intros a Ha Hn'. destruct (Hnew a Hn') as (H1 & _ & H2). eapply page_same_trans; [by apply Hs1|by apply Hs2]. }
  exists k2, l2. split; [done|]. assert (forall a, accounted l2 tr pgs a <-> accounted l0 tr0 pgs0 a) as Hac.
  { intros a. unfold accounted in *. rewrite Hl2. pose proof (HA a). tauto. }
  assert (user_space k2 l2 tr pgs (with_space root sz q)) as U2.
  { apply (us_keep k l); [done|done| |].
    - intros a [H|[H| ->]]; [apply Hnew; auto..|]. rewrite Hl2. unfold accounted. pose proof (Hold tf). unfold accounted in Hna. specialize (HA tf). unfold accounted in HA. fold tf. tauto.
    - intros a Ha. apply Hkeep; [apply (us_page _ _ _ _ _ _ UN); by left|by left]. }
  split; [by destruct U2| |done| |].
  - intros va Hva. rewrite <- HI by done. apply ubyte_same; [by eapply us_owned|]. intros a Ha. apply Hkeep; [by apply (as_own _ _ _ _ _ (us_as _ _ _ _ _ UN))|by right].
  - fold tf. apply (page_same_trans _ _ (mem k1)).
    + unfold k1, exec_regs. do 3 apply st64_page_same. by apply (bu_same _ _ _ _ _ _ _ _ _ HB).
    + apply Hs2; [done|]. unfold accounted in *. specialize (HA tf). unfold accounted in HA. tauto.
  - intros a Ha Hnacc Hne. unfold accounted in *. eapply page_same_trans; [apply (bu_same _ _ _ _ _ _ _ _ _ HB a Ha); tauto|]. eapply page_same_trans; [by apply Hs1|].
    apply Hs2; [done|]. specialize (HA a). unfold accounted in HA. tauto.
Qed.
End switch.

(** ** The second half of [exec] *)

Section running.
Context {n p : nat} {t : T} {q : proc} (k : kern) (Hq : procs t !! p = Some q).

Lemma tf_set_ret off v : tf_set p off v n (MkK t k) = Ret tt (MkK t (k <| km := (km k) <| mem := st64 (mem (km k)) (p_trapframe q + off) v |> |>)).
Proof. unfold tf_set. rewrite getp_bind, Hq. by destruct k. Qed.
Lemma modp_ret f : (modp p f : KK ()) n (MkK t k) = Ret tt (MkK (set_proc p (f q) t) k).
Proof.
  change (Ret tt (MkK (t <| procs ::= alter f p |>) k) = Ret tt (MkK (set_proc p (f q) t) k)). unfold set_proc, upd. by rewrite (alter_insert _ _ _ q Hq).
Qed.
Lemma set_proc_at c : procs (set_proc p c t) !! p = Some c.
Proof. cbn. apply list_lookup_insert_eq. by eapply lookup_lt_Some. Qed.
End running.
Lemma set_proc_twice p a b t : set_proc p b (set_proc p a t) = set_proc p b t.
Proof. destruct t. unfold set_proc, upd. cbn. f_equal. apply list_insert_insert_eq. Qed.

Section second.
Context {L : Layout} {LO : LayoutOk L} {SY : Symbols} (n p : nat) (t : T) (Hn : PHYS_PAGES + 1 < Z.of_nat n).
Context (Hr : rest p t) (q : proc) (Hq : procs t !! p = Some q).
Context (k0 : kmem) (l0 : list Z) (tr0 : gmap (list Z) Z) (pgs0 : gmap Z upage) (U : user_space k0 l0 tr0 pgs0 q) (root : Z) (Hroot : root <> 0).
Notation B := (built l0 (mem k0) q root).

Lemma exec_commit_ret path sz k l tr pgs I entry sp : B sz (km k) l tr pgs -> shows I (mem (km k)) pgs ->
  exists k' l', exec_commit p path root sz (p_sz q) entry sp n (MkK t k) = Ret tt (MkK (set_proc p (exec_proc path root sz q) t) (k <| km := k' |>)) /\
    execed k0 l0 tr0 pgs0 q I entry sp (exec_proc path root sz q) k' l' tr pgs.
Proof.
  intros HB HI. set (q1 := q <| p_name := safestrcpy_l 16 (basename path path) (p_name q) |>). change (exec_proc path root sz q) with (with_space root sz q1).
  assert (cpu_ok (set_proc p (with_space root sz q1) t)) as Hc by (apply set_proc_ok, Hr).
  destruct (exec_switch n Hn k0 l0 tr0 pgs0 q U root _ sz (km k) l tr pgs I path entry sp Hc) as (k' & l' & E & HE); [change (lks t !! LkKmem = None); by rewrite (re_lks _ _ Hr)|done|done|].
  exists k', l'. split; [|exact HE]. unfold exec_commit. rewrite (bind_ret _ _ _ _ _ _ (tf_set_ret k Hq _ _)). set (k1 := k <| km := _ |>).
  rewrite (bind_ret _ _ _ _ _ _ (modp_ret k1 Hq _)). fold q1. rewrite getp_bind, (set_proc_at Hq). cbn [default]. unfold id.
  rewrite (bind_ret _ _ _ _ _ _ (modp_ret k1 (set_proc_at Hq q1) _)), set_proc_twice. fold (with_space root sz q1).
  rewrite (bind_ret _ _ _ _ _ _ (tf_set_ret k1 (set_proc_at Hq (with_space root sz q1)) _ _)). set (k2 := k1 <| km := _ |>).
  rewrite (bind_ret _ _ _ _ _ _ (tf_set_ret k2 (set_proc_at Hq (with_space root sz q1)) _ _)). set (k3 := k2 <| km := _ |>).
  assert (km k3 = (km k) <| mem := exec_regs (p_trapframe q) entry sp (mem (km k)) |>) as E3 by (unfold k3, k2, k1; by destruct k as [? [] ? ? ?]).
  change (p_pagetable q1) with (p_pagetable q). rewrite (kmm_ret _ _ _ _ _ _ (eq_trans (f_equal (fun m => proc_freepagetable _ _ n (MkK _ m)) E3) E)). unfold k3, k2, k1. by rewrite !km_set.
Qed.

(** [exec] gives up: all pages it took are free. *)
Definition gave_up (k : kern) (res : res (kst kern) Z) : Prop :=
  exists k' l', res = Ret (-1) (MkK t (k <| km := k' |>)) /\ returned l0 (mem k0) (fun _ => False) k' l'.

Lemma stack_bad k m sz l tr pgs : B sz m l tr pgs -> gave_up k (exec_bad root sz None n (MkK t (k <| km := m |>))).
Proof.
  intros HB. destruct (built_free l0 (mem k0) q root n t (ca_ok _ _ (re_calm _ _ Hr)) ltac:(by rewrite (re_lks _ _ Hr)) Hn sz m l tr pgs HB) as (k' & l' & E & HK & Hl' & Hs).
  exists k', l'. split; [|split; [done|intros a; rewrite Hl'; tauto|intros a Ha Hal _; by apply Hs]].
  unfold exec_bad. rewrite (proj2 (Z.eqb_neq root 0) Hroot). cbn [negb mwhen]. set (kk := k <| km := m |>). rewrite (kmm_bind _ _ _ _ kk _ _ E). unfold kk. by rewrite km_set.
Qed.

(** ** [exec_stack] *)

(** The stack has been made. *)
Lemma stack_pages k I l tr pgs : B (im_sz I) (km k) l tr pgs -> shows I (mem (km k)) pgs -> cost l0 l (im_sz I) ->
  let base := PGROUNDUP (im_sz I) in let J := im_stack I in im_sz J = base + 2 * PGSIZE /\ 0 <= base < 2 ^ 40 /\
  (forall va, base + PGSIZE <= va < im_sz J -> is_Some (im_at J va)) /\
  exists r m l' tr' pgs', kmm (uvmalloc root base (im_sz J)) n (MkK t k) = Ret r (MkK t (k <| km := m |>)) /\
    (r = im_sz J /\ (exists m' pgs'', kmm (uvmclear root base) n (MkK t (k <| km := m |>)) = Ret tt (MkK t (k <| km := m' |>)) /\ B r m' l' tr' pgs'' /\ shows J (mem m') pgs'') \/
     r = 0 /\ B base m l' tr' pgs' /\ short l0 (im_sz J)).
Proof.
  intros HB HI Hcost base J. pose proof (built_sz _ _ _ _ _ _ _ _ _ HB) as Hsz. destruct (built_round _ _ _ _ _ _ _ _ _ HB) as [En HB0]. fold base in En, HB0.
  pose proof (npages_bound (im_sz I) Hsz) as [Hb _]. assert (base = npages (im_sz I) * PGSIZE) as Eb by (by apply round_npages).
  assert (im_sz J = base + 2 * PGSIZE) as EJ by (unfold J, im_stack; cbn [im_hide im_sz]; fold base; rewrite im_grow_sz; cbn [im_sz]; unfold PGSIZE; lia).
  assert (0 <= base < 2 ^ 40) as Hbase by (unfold NPG, PGSIZE in *; lia). set (top := base + 2 * PGSIZE) in *.
  assert (npages top = npages (im_sz I) + 2) as Ent by (unfold top; rewrite Eb; replace (npages (im_sz I) * PGSIZE + 2 * PGSIZE) with ((npages (im_sz I) + 2) * PGSIZE) by lia; apply npages_pages; lia).
  set (I1 := MkImage base (im_at I)) in *. set (J1 := im_grow top I1).
  assert (forall va, im_at J1 va = if (base <=? va) && (va <? top) then Some 0 else im_at I va) as EJ1.
  { intros va. unfold J1, im_grow. cbn [I1 im_sz]. rewrite (proj2 (Z.ltb_ge top base)) by (unfold top, PGSIZE; lia). cbn [im_at]. rewrite En, Ent, <- Eb.
    by replace ((npages (im_sz I) + 2) * PGSIZE) with top by (unfold top; lia). }
  split_and!; [done|lia|lia| |].
  { intros va Hva. rewrite EJ in Hva. unfold J, im_stack. cbn [im_hide im_at]. fold base I1 top J1. unfold top, PGSIZE in *. rewrite (proj2 (not_range _ _ va)), EJ1, (proj2 (in_range _ _ va)) by lia. done. }
  rewrite EJ. pose proof (ca_ok _ _ (re_calm _ _ Hr)) as Hc. assert (lks t !! LkKmem = None) as Hl by (by rewrite (re_lks _ _ Hr)).
  destruct (built_grow l0 (mem k0) q root n t Hc Hl Hn top I1 (km k) l tr pgs HB0 HI) as (r & m & l' & tr' & pgs' & E & Hres); [unfold cost in *; cbn [I1 im_sz]; by rewrite En|unfold top, PGSIZE; lia|].
  exists r, m, l', tr', pgs'. split; [by apply kmm_ret|]. destruct Hres as [(-> & HB1 & HI1 & _ & Hperm)|(-> & HB1 & Hg & Hfew)]; [left|right].
  - assert (im_sz (im_grow top I1) = top) as Et by exact EJ. fold J1 in Et, HB1, HI1 |- *. rewrite Et in *. cbn [I1 im_sz] in Hperm. rewrite En, Ent in Hperm.
    destruct (built_hide l0 (mem k0) q root n t top J1 m l' tr' pgs' (npages (im_sz I)) HB1 HI1) as (m' & pgs'' & E2 & HB2 & HI2); [lia|apply Hperm; lia|].
    split; [done|]. exists m', pgs''. rewrite <- Eb in E2, HI2. set (kk := k <| km := m |>). rewrite (kmm_ret _ _ _ kk _ _ E2). unfold kk. rewrite km_set. by split_and!.
  - split_and!; [done|done|]. unfold short. destruct (decide (top <= TRAPFRAME)) as [Hle|]; [right; by apply Hfew|left; lia].
Qed.

Lemma le_bytes_join (us : list Z) : Z.of_nat (length (mjoin (le_bytes 8 <$> us))) = Z.of_nat (length us) * 8 /\ is_bytes (mjoin (le_bytes 8 <$> us)).
Proof.
  induction us as [|u us [IH1 IH2]]; [by split; [|constructor]|]. change (mjoin (le_bytes 8 <$> u :: us)) with (le_bytes 8 u ++ mjoin (le_bytes 8 <$> us)). rewrite length_app, le_bytes_length. cbn [length].
  split; [lia|]. apply Forall_app. split; [apply le_bytes_bytes|exact IH2].
Qed.

(** The stack with the arguments, the process, and what is left of the old one. *)
Lemma exec_stack_spec path argv addrs args k l tr pgs I entry : B (im_sz I) (km k) l tr pgs -> shows I (mem (km k)) pgs -> cost l0 l (im_sz I) ->
  (forall j ad, addrs !! j = Some ad -> argv !! j = Some ad) -> argv !! length args = Some 0 -> Z.of_nat (length args) < MAXARG -> Forall2 (kstring l0 (mem k0)) addrs args ->
  let J := im_stack I in let res := exec_stack path argv root (im_sz I) entry n (MkK t k) in
  match push_argv (im_sz J - PGSIZE) args J with
  | Some (sp, J') =>
      (exists k' l' tr' pgs', let q' := exec_proc path root (im_sz J) q in
         res = Ret (Z.of_nat (length args)) (MkK (set_proc p q' t) (k <| km := k' |>)) /\ execed k0 l0 tr0 pgs0 q J' entry sp q' k' l' tr' pgs')
      \/ gave_up k res /\ short l0 (im_sz J)
  | None => gave_up k res
  end.
Proof.
  intros HB HI Hcost Haddr Hend Hmax Hargs J res. pose proof (ca_ok _ _ (re_calm _ _ Hr)) as Hc. unfold MAXARG, PHYS_PAGES in Hmax, Hn.
  destruct (stack_pages k I l tr pgs HB HI Hcost) as (EJ & Hbase & Hst & r & m & l1 & tr1 & pgs1 & E1 & Hres). fold J in EJ, Hst, E1, Hres. set (base := PGROUNDUP (im_sz I)) in *.
  eassert (res = _) as Eres.
  { unfold res, exec_stack. rewrite myproc_bind, (ca_proc _ _ (re_calm _ _ Hr)) by done. cbn [deref]. rewrite ret_bind, getp_bind, Hq. cbn [default]. unfold id. fold base.
    rewrite (u64_small (base + 2 * PGSIZE)), <- EJ by (unfold PGSIZE; lia). reflexivity. }
  clearbody res. subst res. rewrite (bind_ret _ _ _ _ _ _ E1). clear E1. unfold PGSIZE in *.
  destruct Hres as [(-> & m2 & pgs2 & E2 & HB2 & HI2)|(-> & HB1 & Hshort)].
  2: { pose proof (stack_bad k m base l1 tr1 pgs1 HB1). destruct (push_argv _ _ _) as [[sp J']|]; [by right|done]. }
  rewrite (proj2 (Z.eqb_neq (im_sz J) 0)), (u64_small (im_sz J - 2 * 4096)), (u64_small (im_sz J - 4096)) by lia.
  replace (im_sz J - 2 * 4096) with base by lia. rewrite (bind_ret _ _ _ _ _ _ E2). clear E2. set (k2 := k <| km := m2 |>).
  destruct (exec_args_loop n t ltac:(unfold PHYS_PAGES; lia) l0 (mem k0) q root (im_sz J) l1 tr1 pgs2 (im_sz J - 4096) (im_sz J) argv ltac:(unfold PGSIZE; lia) ltac:(lia)
    args addrs 0%nat n k2 (im_sz J) [] J) as (m3 & E3 & HB3 & HI3); [exact Haddr|exact Hend|unfold MAXARG; cbn; lia|done|lia|done|done| |lia|].
  { intros va Hva. apply Hst. lia. }
  unfold k2 in E3. rewrite km_set in E3. change (Z.of_nat 0) with 0 in E3. change (mwhile n ?b ?x n ?y) with (mloop b x n y) in E3. rewrite (bind_ret _ _ _ _ _ _ E3). clear E3. unfold push_argv.
  destruct (push_args (im_sz J - 4096) (im_sz J) args J) as [[[us sp] J3]|] eqn:Epush; cbn [mbind option_bind]; [|by eapply stack_bad].
  destruct (push_args_facts _ _ _ _ _ _ _ Epush ltac:(lia)) as (Elu & Hsp & _ & Hst3). cbn [app Nat.add]. rewrite Z.geb_leb, (proj2 (Z.leb_gt MAXARG _)) by (unfold MAXARG; lia).
  set (c := Z.of_nat (length args)) in *. destruct (stack_sp sp ((c + 1) * 8 - 1) (im_sz J - 4096)) as (Esp & Hsp0 & Hsp1); [unfold PGSIZE; lia|lia|unfold PGSIZE; lia|].
  replace ((c + 1) * 8 - 1 + 1) with ((c + 1) * 8) in * by lia. rewrite Esp. set (sp1 := sp - (c + 1) * 8 - _) in *.
  destruct (Z.ltb_spec sp1 (im_sz J - 4096)) as [Hlow|Hok]; [by eapply stack_bad|].
  destruct (le_bytes_join (us ++ [0])) as [Elb Hby]. set (bs := mjoin _) in *. replace ((c + 1) * 8) with (Z.of_nat (length bs)) by (rewrite Elb, length_app, Elu; cbn; lia).
  destruct (built_copyout l0 (mem k0) q root n t (im_sz J) J3 m3 l1 tr1 pgs2 sp1 bs HB3 HI3 Hsp0) as (m4 & E4 & HB4 & HI4); [rewrite length_app in Elb; cbn in Elb; lia|done| |].
  { intros va Hva. apply Hst3, Hst. rewrite length_app in Elb. cbn in Elb. lia. }
  set (k3 := k <| km := m3 |>). rewrite (kmm_bind _ _ _ _ k3 _ _ E4). cbn [Z.ltb Z.compare]. unfold k3. rewrite km_set. left. set (k4 := k <| km := m4 |>).
  destruct (exec_commit_ret path (im_sz J) k4 l1 tr1 pgs2 (im_put sp1 bs J3) entry sp1 HB4 HI4) as (k' & l' & E5 & HE).
  exists k', l', tr1, pgs2. cbn zeta. split; [|exact HE]. rewrite (bind_ret _ _ _ _ _ _ E5). unfold k4. by rewrite km_set.
Qed.
End second.
