(* ===== verification/ExecSpec.v ===== *)
(** * [exec]

    [exec] of [kernel/exec.c] replaces the memory of the running process by the
    image of an ELF file, with the arguments on its stack, or fails and leaves
    no trace.  [exec_image] says what image the bytes of a file stand for. *)

From Stdlib Require Import ZArith Lia.
From stdpp Require Import gmultiset.
From S2P Require Import Prelude Riscv KString Thread Proc Sleeplock Kalloc Vm VmSpec AddrSpace UvmSpec GrowSpec CopySpec FreeSpec VmTheorems UserSpace.
From S2P Require Import Kern Blocks Virtio VirtioSpec Bio BioSpec BioOps Log LogSpec Crash Txn ProcMem Fs Balloc Files ReadWrite FileTheorems Inodes Trunc Dirs Paths.
From S2P Require Import Uart Printf Console Pipe File ProcOps AllocProc Exec ExecMem ExecLoad ExecStack.

(** ** What a file stands for *)

(** The stack above the segments, with the arguments on it. *)
Definition add_stack (I : image) (args : list (list Z)) : option (Z * image) :=
  if TRAPFRAME <? im_sz I then None else push_argv (im_sz (im_stack I) - PGSIZE) args (im_stack I).

(** Entry point, stack pointer and image of the program in [F] when it is given
    the arguments [args]; [None] if it is not a program, it does not fit below
    the trap frame, or the arguments do not fit on a page. *)
Definition exec_image (F : list Z) (args : list (list Z)) : option (Z * Z * image) :=
  h ← read_at F 0 ELFHDR_SIZE;
  let elf := dec_elfhdr h in
  if negb (e_magic elf =? ELF_MAGIC) then None else
  I ← load_segs F (Z.to_nat (e_phnum elf)) (i32 (e_phoff elf)) (MkImage 0 (fun _ => None));
  '(sp, J) ← add_stack I args;
  Some (e_entry elf, sp, J).

(** The contents of inode [j]. *)
Definition inode_bytes (S : superblock) (V : gmap Z (list Z)) (j : Z) : list Z := file_bytes (V := V) (x := inode_of S V j).

(** A file that can be read. *)
Record readable (ds : Z) (S : superblock) (V : gmap Z (list Z)) (j : Z) : Prop := {
  rd_file : file_ok ds S V (inode_of S V j);
  rd_wf : inode_wf S (inode_of S V j);
  rd_dense : dense V (inode_of S V j);
  rd_bytes : is_bytes (inode_bytes S V j)
}.

Lemma loaded_readable ds S V j x : loaded S V j x -> readable ds S V j ->
  file_ok ds S V x /\ inode_wf S x /\ dense V x /\ file_bytes (V := V) (x := x) = inode_bytes S V j.
Proof.
  intros Hx [R1 R2 R3 _]. rewrite (loaded_eq _ _ _ _ Hx). fold (handle (i_ref x) (i_valid x) (inode_of S V j)). unfold inode_bytes. generalize dependent (inode_of S V j). intros y R1 R2 R3.
  split_and!; [by apply handle_file|by apply handle_wf|exact R3|exact eq_refl].
Qed.

(** The inode a path leads to is in use. *)
Lemma walk_live ds S V es : tree_ok ds S V -> forall i j, live S V i -> walk_path S V i es = Some j -> live S V j.
Proof.
  intros HT. induction es as [|e es IH]; intros i j Hi; cbn [walk_path]; [by intros [= <-]|]. destruct (Z.eqb_spec (di_type (disk_inode S V i)) T_DIR) as [Hd|]; [|done].
  destruct (dir_find V (inode_of S V i) e) as [m|] eqn:Ef; [|done]. apply dir_find_some in Ef as (Hm & Hy & _). intros Hw. eapply IH; [|exact Hw].
  apply (tk_live _ _ _ HT); [done|done|done|]. unfold is_entry in Hy. apply andb_true_iff in Hy as [Hy _]. by apply negb_true_iff, Z.eqb_neq in Hy.
Qed.

Lemma push_argv_sz base args I sp J : push_argv base args I = Some (sp, J) -> base <= im_sz I -> im_sz J = im_sz I.
Proof.
  unfold push_argv. intros ([[us sp1] J1] & H1 & H2)%bind_Some Hb. destruct (push_args_facts _ _ _ _ _ _ _ H1 Hb) as (_ & _ & E & _). case_match; [done|]. by injection H2 as _ <-.
Qed.

Lemma im_stack_le I : 0 <= im_sz I <= TRAPFRAME -> im_sz I <= im_sz (im_stack I).
Proof.
  intros H. unfold im_stack. cbn [im_hide im_sz]. rewrite im_grow_sz. cbn [im_sz]. rewrite round_npages by done. pose proof (npages_bound _ H). unfold PGSIZE in *. lia.
Qed.

(** ** An address space without user memory *)

Lemma npages_pos sz : 0 <= npages sz.
Proof. apply Z.div_pos; [|done]. apply Z.land_nonneg. left. apply u64_range. Qed.
Lemma sys_shows {L : Layout} m tf : shows (MkImage 0 (fun _ => None)) m (sys_pages tf).
Proof.
  intros va _. unfold ubyte, sys_pages. destruct (decide (va / PGSIZE = NPG - 1)) as [->|H1]; [done|]. destruct (decide (va / PGSIZE = NPG - 2)) as [->|H2]; [done|].
  by rewrite !lookup_insert_ne by done.
Qed.
Lemma full_empty f : im_full (MkImage 0 f).
Proof. intros va. change (npages (im_sz (MkImage 0 f))) with 0. lia. Qed.
Lemma cost_start l0 l : (length l0 <= length l + 5)%nat -> cost l0 l 0.
Proof. unfold cost. change (npages 0) with 0. lia. Qed.

(** ** The rest of the kernel *)

(** All but memory, the inode table, buffers and the log. *)
Definition same_rest (k k' : kern) : Prop := same_fs (k <| itable := itable k' |> <| km := km k' |>) k'.
#[export] Instance same_rest_preorder : PreOrder same_rest.
Proof. split; [by split|]. intros k1 k2 k3 [] []. unfold same_rest. split; cbn in *; congruence. Qed.
Lemma same_os_rest k k' : same_os k k' -> same_rest k k'.
Proof. intros []. by split. Qed.
Lemma same_km_rest k k' : same_but_km k k' -> same_rest k k'.
Proof. intros []. by split. Qed.

Lemma fuel_dirs n : (Z.to_nat 65536 < n)%nat -> (Z.to_nat (MAXFILE * BSIZE / DIRENT_SIZE) < n)%nat.
Proof. change (MAXFILE * BSIZE / DIRENT_SIZE) with 17152. lia. Qed.

(** ** [exec] *)

Section exec.
Context (env : kst kern -> option (kst kern)) {BD : BlockDev env} {L : Layout} {LO : LayoutOk L}.
Context (n p : nat) (Hn : (Z.to_nat 65536 < n)%nat).
Context {s ds : Z} {V D : gmap Z (list Z)} {S : superblock} {t : T} {R : gmultiset Z}.
Context (HnS : (Z.to_nat (sb_size S / BPB) < n)%nat).
Context (Hr : rest p t) (Hfs : fs_ok s ds S V) (Htree : tree_ok ds S V) (Hlk : forall ip, slks t !! SLInode ip = None).
Notation WS o := (wstate (s := s) (o := o) (bl := []) (V := V) (D := D) (S := S) p).

(** The process and its memory. *)
Context (k0 : kern) (q : proc) (Hq : procs t !! p = Some q).
Context (l : list Z) (tr : gmap (list Z) Z) (pgs : gmap Z upage) (U : user_space (km k0) l tr pgs q).

(** [exec] has failed: no page is lost, no page in use is written, no
    reference to an inode is left. *)
Definition exec_failed (r : Z) (s' : kst kern) : Prop :=
  exists k' l', r = -1 /\ s' = MkK t k' /\ WS 0 t R k' /\ same_rest k0 k' /\ returned l (mem (km k0)) (fun _ => False) (km k') l'.

(** [exec] has replaced the process. *)
Definition exec_done (path : list Z) (argc entry sp : Z) (J : image) (r : Z) (s' : kst kern) : Prop :=
  exists k' l' tr' pgs' root, let q' := exec_proc path root (im_sz J) q in
    r = argc /\ s' = MkK (set_proc p q' t) k' /\ WS 0 (set_proc p q' t) R k' /\ same_rest k0 k' /\ execed (km k0) l tr pgs q J entry sp q' (km k') l' tr' pgs'.

(** What [exec] of the program [prog] may do: it only fails if there is no
    program, or no memory for it. *)
Definition exec_outcome (path : list Z) (args : list (list Z)) (prog : option (Z * Z * image)) (r : Z) (s' : kst kern) : Prop :=
  match prog with
  | Some (entry, sp, J) => exec_done path (Z.of_nat (length args)) entry sp J r s' \/ exec_failed r s' /\ short l (im_sz J)
  | None => exec_failed r s'
  end.

Lemma end_op_idle k : WS 1 t R k -> runs env (end_op n (MkK t k)) (fun _ s' => exists k', s' = MkK t k' /\ WS 0 t R k' /\ same_fs k k').
Proof.
  intros [HT Hsb HR]. destruct (tx_head HT) as (h & Hh & Hhd). pose proof (fuel_bufs n (fuel_blocks n Hn)) as Hb.
  eapply runs_mono; [|apply (end_op_runs env n p Hb Hr HT h Hh Hhd)]. intros _ ? (k' & -> & HT' & _ & F). exists k'. split_and!; [done| |done].
  split; [exact HT'|by rewrite (sf_sb _ _ F)|by rewrite (sf_itable _ _ F)].
Qed.

Lemma wstate_km o k m : WS o t R k -> WS o t R (k <| km := m |>).
Proof. intros [H1 H2 H3]. split; [by apply txn_km|done|done]. Qed.

Lemma wstate_proc o k c : WS o t R k -> WS o (set_proc p c t) R k.
Proof.
  intros [HT H2 H3]. split; [|done|done]. destruct (tx_cache HT) as [order HB]. apply (txn_same p HT); [|apply HT|done|done]. exists order. destruct HB. by split.
Qed.

Section open.
Context (ip : nat) (j : Z) (x : inode) (Hj : live S V j) (Hx : loaded S V j x).
Notation th := (hold (SLInode ip) p t).

(** The inode is locked. *)
Record opened (k : kern) : Prop := {
  op_ws : WS 1 th ({[+ j +]} ⊎ R) k;
  op_ip : itable k !! ip = Some x;
  op_rest : same_rest k0 k
}.

Lemma opened_fstate k k' : opened k -> fstate p s 1 ∅ [] V D th S ip x k' -> same_but_km k k' -> opened k'.
Proof.
  intros [[_ _ HR] O2 O3] [F1 F2 F3] HS. split; [split; [done|done|]|done|etransitivity; [done|by apply same_km_rest]]. pose proof (sf_itable _ _ HS) as E. cbn in E. by rewrite E.
Qed.
Lemma opened_km k m : opened k -> opened (k <| km := m |>).
Proof.
  intros HO. apply (opened_fstate k); [done| |apply same_set_km]. destruct HO as [[H1 H2 _] H3 _]. apply fstate_km. by split.
Qed.

(** [iunlockput] and [end_op]. *)
Lemma close_inode k : opened k -> exists k1, iunlockput (Some ip) n (MkK th k) = Ret tt (MkK t k1) /\
  runs env (end_op n (MkK t k1)) (fun _ s' => exists k', s' = MkK t k' /\ WS 0 t R k' /\ same_rest k0 k' /\ km k' = km k).
Proof.
  intros [HW Hip HS]. destruct (iunlockput_walk n p (fuel_blocks n Hn) HnS (fuel_dirs n Hn) Hr fs_no_bufs Hlk R k ip j x HW Hip Hx Hj) as (k1 & E & HW1 & F1 & _). exists k1. split; [done|].
  eapply runs_mono; [|by apply end_op_idle]. intros _ ? (k' & -> & HW' & F'). exists k'. split_and!; [done|done| |rewrite (sf_km _ _ F'); by apply same_os_km].
  etransitivity; [done|]. etransitivity; [by apply same_os_rest|]. by apply same_os_rest, same_fs_os.
Qed.

(** Leaving with an error. *)
Lemma exec_leave k l' : opened k -> returned l (mem (km k0)) (fun _ => False) (km k) l' -> runs env (exec_bad 0 0 (Some ip) n (MkK th k)) exec_failed.
Proof.
  intros HO HR. destruct (close_inode k HO) as (k1 & E & Hend). unfold exec_bad. cbn [Z.eqb negb mwhen]. rewrite ret_bind. apply runs_bind. rewrite (bind_ret _ _ _ _ _ _ E).
  eapply runs_mono; [|exact Hend]. intros _ ? (k' & -> & HW & HS & Hkm). eapply runs_ret; [reflexivity|]. exists k', l'. rewrite Hkm. by split_and!.
Qed.

(** ... and with a page table. *)
Lemma exec_undo k root sz l' tr' pgs' : opened k -> root <> 0 -> built l (mem (km k0)) q root sz (km k) l' tr' pgs' ->
  runs env (exec_bad root sz (Some ip) n (MkK th k)) exec_failed.
Proof.
  intros HO Hroot HB. pose proof (wstate_rest p Hr ip) as Hr'.
  destruct (built_free l (mem (km k0)) q root n th (ca_ok _ _ (re_calm _ _ Hr')) ltac:(by rewrite (re_lks _ _ Hr')) (fuel_pages n Hn) sz (km k) l' tr' pgs' HB) as (k' & l2 & E & HK & Hl2 & Hs).
  pose proof (exec_leave (k <| km := k' |>) l2 (opened_km k k' HO)) as Hlv. unfold exec_bad in *. rewrite (proj2 (Z.eqb_neq root 0) Hroot). cbn [Z.eqb negb mwhen] in *.
  rewrite (kmm_bind _ _ _ _ _ _ _ E). rewrite ret_bind in Hlv. apply Hlv. split; [done|intros a; rewrite Hl2; tauto|intros a Ha Hal _; by apply Hs].
Qed.

(** The segments, the stack, the switch. *)
Lemma exec_segments k root l1 tr1 F path argv addrs args elf :
  opened k -> root <> 0 -> built l (mem (km k0)) q root 0 (km k) l1 tr1 (sys_pages (p_trapframe q)) -> (length l <= length l1 + 5)%nat -> readable ds S V j -> F = inode_bytes S V j ->
  0 <= e_phnum elf < 65536 -> (forall j ad, addrs !! j = Some ad -> argv !! j = Some ad) -> argv !! length args = Some 0 -> Z.of_nat (length args) < MAXARG -> Forall2 (kstring l (mem (km k0))) addrs args ->
  runs env (('(ok, sz) ← mloop (exec_load root ip (e_phnum elf)) (0, i32 (e_phoff elf), 0);
      if negb ok then exec_bad root sz (Some ip) else
      iunlockput (Some ip) ;;
      end_op ;;
      exec_stack path argv root sz (e_entry elf)) n (MkK th k))
    (fun r s' => match (I ← load_segs F (Z.to_nat (e_phnum elf)) (i32 (e_phoff elf)) (MkImage 0 (fun _ => None)); add_stack I args) with
      | Some (sp, J) => exec_done path (Z.of_nat (length args)) (e_entry elf) sp J r s' \/ exec_failed r s' /\ short l (im_sz J)
      | None => exec_failed r s'
      end).
Proof.
  intros HO Hroot HB Hcost HRd -> Hph Haddr Hend Hmax Hargs. pose proof (wstate_rest p Hr ip) as Hr'. pose proof HO as [[O1 O2 _] O3 _].
  destruct (loaded_readable ds S V j x Hx HRd) as (X1 & X2 & X3 & EF). pose proof (rd_bytes _ _ _ _ HRd) as HF. rewrite <- EF in HF.
  set (I0 := MkImage 0 (fun _ => None)). set (c := Z.to_nat (e_phnum elf)).
  pose proof (exec_load_runs env n p Hn HnS Hr' Hfs X1 X2 X3 fs_no_bufs HF l (mem (km k0)) q root ltac:(by rewrite (re_lks _ _ Hr')) (e_phnum elf) c n k 0 (i32 (e_phoff elf)) I0 l1 tr1 (sys_pages (p_trapframe q))
    ltac:(by split) HB (sys_shows _ _) (full_empty _) ltac:(by apply cost_start) ltac:(lia) ltac:(lia)) as HL.
  apply runs_bind. eapply runs_mono; [|exact HL]. intros [ok sz] ? (k1 & l2 & tr2 & pgs2 & -> & HT1 & HS1 & HB1 & Hres). rewrite EF in Hres. clear EF HF HL. cbn [fst snd] in *. pose proof (opened_fstate _ _ HO HT1 HS1) as HO1.
  assert (ok = false -> runs env (exec_bad root sz (Some ip) n (MkK th k1)) exec_failed) as Hbad by (intros _; by eapply exec_undo).
  destruct (load_segs (inode_bytes S V j) c (i32 (e_phoff elf)) I0) as [I|] eqn:El; cbn [mbind option_bind]; [|subst ok; by apply Hbad].
  destruct Hres as [([= -> ->] & HI & _ & Hc1)|[-> Hsh]].
  2: { eapply runs_mono; [|by apply Hbad]. intros r s' Hf. unfold add_stack. destruct (Z.ltb_spec TRAPFRAME (im_sz I)); [done|].
       destruct (push_argv _ _ _) as [[sp J]|] eqn:Ep; [right; split; [done|]|done]. eapply short_mono; [|exact Hsh].
       apply load_segs_sz in El. change (im_sz I0) with 0 in El. apply push_argv_sz in Ep; [|unfold PGSIZE; lia]. pose proof (im_stack_le I). lia. }
  clear Hbad. cbn [negb]. destruct (close_inode k1 HO1) as (k2 & E2 & Hrun). rewrite (bind_ret _ _ _ _ _ _ E2). apply runs_bind. eapply runs_mono; [|exact Hrun].
  intros _ ? (k3 & -> & HW3 & HS3 & Hkm). rewrite <- Hkm in HB1, HI.
  pose proof (exec_stack_spec n p t (fuel_pages n Hn) Hr q Hq (km k0) l tr pgs U root Hroot path argv addrs args k3 l2 tr2 pgs2 I (e_entry elf) HB1 HI Hc1 Haddr Hend Hmax Hargs) as Hst. cbn zeta in Hst.
  assert (gave_up t (km k0) l k3 (exec_stack path argv root (im_sz I) (e_entry elf) n (MkK t k3)) -> runs env (exec_stack path argv root (im_sz I) (e_entry elf) n (MkK t k3)) exec_failed) as Hgive.
  { intros (k' & l' & E & HR). eapply runs_ret; [exact E|]. exists (k3 <| km := k' |>), l'. split_and!; [done|done|by apply wstate_km|etransitivity; [exact HS3|by apply same_km_rest, same_set_km]|exact HR]. }
  unfold add_stack. rewrite (proj2 (Z.ltb_ge TRAPFRAME (im_sz I))) by apply (built_sz _ _ _ _ _ _ _ _ _ HB1).
  destruct (push_argv _ _ _) as [[sp J]|] eqn:Ep; [|by apply Hgive]. apply push_argv_sz in Ep; [|unfold PGSIZE; lia]. rewrite <- Ep in Hst. destruct Hst as [(k' & l' & tr' & pgs' & E & HE)|[Hg Hsh]].
  - eapply runs_ret; [exact E|]. left. exists (k3 <| km := k' |>), l', tr', pgs', root. split_and!; [done|done|by apply wstate_proc, wstate_km|etransitivity; [exact HS3|by apply same_km_rest, same_set_km]|exact HE].
  - eapply runs_mono; [|by apply Hgive]. intros r s' Hf. by right.
Qed.

(** From the locked inode on. *)
Lemma exec_opened k path argv addrs args : opened k -> km k = km k0 -> readable ds S V j ->
  (forall j ad, addrs !! j = Some ad -> argv !! j = Some ad) -> argv !! length args = Some 0 -> Z.of_nat (length args) < MAXARG -> Forall2 (kstring l (mem (km k0))) addrs args ->
  runs env (('(r, b) ← readi ip DLocal 0 ELFHDR_SIZE;
      if negb (r =? ELFHDR_SIZE) then exec_bad 0 0 (Some ip) else
      let elf := dec_elfhdr b in
      if negb (e_magic elf =? ELF_MAGIC) then exec_bad 0 0 (Some ip) else
      q ← getp p;
      pagetable ← kmm (proc_pagetable (p_trapframe q));
      if pagetable =? 0 then exec_bad 0 0 (Some ip) else
      '(ok, sz) ← mloop (exec_load pagetable ip (e_phnum elf)) (0, i32 (e_phoff elf), 0);
      if negb ok then exec_bad pagetable sz (Some ip) else
      iunlockput (Some ip) ;;
      end_op ;;
      exec_stack path argv pagetable sz (e_entry elf)) n (MkK th k))
    (fun r s' => exec_outcome path args (exec_image (inode_bytes S V j) args) r s').
Proof.
  intros HO Hkm HRd Haddr Hend Hmax Hargs. pose proof (wstate_rest p Hr ip) as Hr'. pose proof HO as [[O1 O2 _] O3 _].
  destruct (loaded_readable ds S V j x Hx HRd) as (X1 & X2 & X3 & EF). pose proof (rd_bytes _ _ _ _ HRd) as HF.
  assert (returned l (mem (km k0)) (fun _ => False) (km k0) l) as Hret by (split; [apply (as_vm _ _ _ _ _ (us_as _ _ _ _ _ U))|tauto|done]).
  pose proof (read_file env n p Hn HnS Hr' Hfs X1 X2 X3 fs_no_bufs k DLocal 0 ELFHDR_SIZE ltac:(by split) ltac:(done) ltac:(done) ltac:(done)) as HL. rewrite EF in HL.
  apply runs_bind. eapply runs_mono; [|exact HL]. intros [r b] ? (k1 & bs & -> & HT1 & HS1 & _ & Hread). pose proof (sf_km _ _ HS1) as Ekm. change (km k1 = km k) in Ekm.
  pose proof (opened_fstate _ _ HO HT1 (same_fs_km _ _ HS1)) as HO1. rewrite Hkm in Ekm. clear HL HT1 HS1. unfold exec_image.
  destruct (read_at (inode_bytes S V j) 0 ELFHDR_SIZE) as [h|] eqn:Eh; cbn [mbind option_bind].
  2: { cbn [fst] in Hread. rewrite (proj2 (Z.eqb_neq r ELFHDR_SIZE)) by lia. apply (exec_leave k1 l HO1). by rewrite Ekm. }
  destruct Hread as [[= -> ->] _]. rewrite Z.eqb_refl. cbn [negb]. set (elf := dec_elfhdr h). destruct (e_magic elf =? ELF_MAGIC); cbn [negb].
  2: { apply (exec_leave k1 l HO1). by rewrite Ekm. }
  rewrite getp_bind. change (procs th) with (procs t). rewrite Hq. cbn [default]. unfold id. destruct (us_tf _ _ _ _ _ U) as [Htf Hna]. destruct (valid_page_pte _ Htf) as (Hp1 & Hp2 & _).
  destruct (proc_pagetable_spec n th (ca_ok _ _ (re_calm _ _ Hr')) ltac:(by rewrite (re_lks _ _ Hr')) (km k0) l (p_trapframe q) (rt_inv _ _ _ _ _ Hret) Hp1 Hp2 ltac:(lia)) as (root & m & l1 & E & Hs & Hres).
  rewrite <- Ekm in E at 1. rewrite (kmm_bind _ _ _ _ _ _ _ E). destruct Hres as [(-> & HK & Hl1 & Hfew)|(Hroot & Hlen & tr1 & A & Hac)].
  - cbn [Z.eqb]. eapply runs_mono; [|apply (exec_leave _ l1 (opened_km k1 m HO1)); split; [exact HK|intros a; rewrite Hl1; tauto|intros a Ha Hal _; by apply Hs]].
    intros r s' Hf. unfold exec_outcome. destruct (_ ≫= _) as [[[e sp] J]|]; [right|done]. split; [done|]. unfold short. destruct (decide (TRAPFRAME < im_sz J)); [by left|right].
    pose proof (npages_pos (im_sz J)). lia.
  - rewrite (proj2 (Z.eqb_neq root 0) Hroot). set (k2 := k1 <| km := m |>). pose proof (read_at_bytes _ _ _ _ HF Eh) as Hhb.
    assert (built l (mem (km k0)) q root 0 (km k2) l1 tr1 (sys_pages (p_trapframe q))) as HB.
    { split; [apply (us_empty m l1 tr1 (with_space root 0 q)); [exact A|done|exact Htf|]|exact Hac|exact Hs]. rewrite Hac. intros H. apply Hna. by left. }
    eapply runs_mono; [|apply (exec_segments k2 root l1 tr1 _ path argv addrs args elf (opened_km k1 m HO1) Hroot HB ltac:(lia) HRd eq_refl (rd_u16_range h 56 Hhb : 0 <= e_phnum elf < 65536) Haddr Hend Hmax Hargs)].
    intros r s' H. unfold exec_outcome. destruct (load_segs _ _ _ _) as [I|]; cbn [mbind option_bind] in *; [|done]. by destruct (add_stack I args) as [[sp J]|].
Qed.
End open.

(** The whole of [exec]. *)
Lemma exec_runs path argv addrs args i : (length path < n)%nat -> WS 0 t R k0 -> (size (dom R) + 1 < Z.to_nat NINODE)%nat -> Forall (fun c => c <> 0) path -> live S V i ->
  (if hd 0 path =? slash then i = ROOTINO else exists c, p_cwd q = Some c /\ at_inode (itable k0) c i) ->
  (forall j, walk_path S V i (elements path) = Some j -> readable ds S V j) ->
  (forall j ad, addrs !! j = Some ad -> argv !! j = Some ad) -> argv !! length args = Some 0 -> Z.of_nat (length args) < MAXARG -> Forall2 (kstring l (mem (km k0))) addrs args ->
  runs env (exec path argv n (MkK t k0)) (exec_outcome path args (j ← walk_path S V i (elements path); exec_image (inode_bytes S V j) args)).
Proof.
  intros Hlen HW Hcap Hpath Hi Hstart Hread Haddr Hend Hmax Hargs. pose proof HW as [HT Hsb HR]. unfold exec. rewrite myproc_bind, (ca_proc _ _ (re_calm _ _ Hr)) by apply Hr. cbn [deref]. rewrite ret_bind.
  destruct (begin_op_spec n p Hr HT ltac:(lia) ltac:(done)) as (k1 & E & HT1 & F1 & _). rewrite (bind_ret _ _ _ _ _ _ E). change (0 + 1) with 1 in HT1.
  assert (WS 1 t R k1) as HW1 by (split; [done|by rewrite (sf_sb _ _ F1)|by rewrite (sf_itable _ _ F1)]).
  apply runs_bind. unfold namei. apply runs_bind.
  eapply runs_mono; [|apply (namex_spec env BD n p s 1 ds [] V D S t R k1 path false i (fuel_blocks n Hn) HnS (fuel_dirs n Hn) Hlen Hr Hfs Htree fs_no_bufs Hlk HW1 Hcap Hpath Hi)].
  2: { destruct (hd 0 path =? slash); [done|]. destruct Hstart as (c & H1 & H2). exists q, c. by rewrite (sf_itable _ _ F1). }
  intros r ? (k2 & -> & F2 & Htgt). assert (same_rest k0 k2) as HS2 by (etransitivity; [by apply same_os_rest, same_fs_os|by apply same_os_rest]).
  assert (km k2 = km k0) as Hkm by (by rewrite (same_os_km _ _ F2), (sf_km _ _ F1)). eapply runs_ret; [reflexivity|]. cbn [target] in Htgt. unfold target in Htgt.
  destruct (walk_path S V i (elements path)) as [j|] eqn:Ew; cbn [fmap option_fmap option_map mbind option_bind] in *.
  - destruct Htgt as (ip & name & -> & HW2 & Hat & _). cbn [fmap option_fmap option_map fst]. pose proof (walk_live ds S V _ Htree i j Hi Ew) as Hj.
    apply runs_bind. eapply runs_mono; [|apply (ilock_walk env n p (fuel_blocks n Hn) HnS (fuel_dirs n Hn) Hr Hfs fs_no_bufs Hlk _ k2 ip j HW2 Hat Hj)].
    intros _ ? (k3 & x & -> & HW3 & Hx3 & Hl3 & F3). apply (exec_opened ip j x Hj Hl3 k3 path argv addrs args); [|by rewrite (same_os_km _ _ F3)|by apply Hread|done..].
    split; [done|done|]. etransitivity; [exact HS2|by apply same_os_rest].
  - destruct Htgt as [-> HW2]. cbn [fmap option_fmap option_map]. apply runs_bind. eapply runs_mono; [|by apply end_op_idle]. intros _ ? (k' & -> & HW' & F'). eapply runs_ret; [reflexivity|].
    exists k', l. split_and!; [done|done|done|etransitivity; [exact HS2|by apply same_os_rest, same_fs_os]|]. rewrite (sf_km _ _ F'), Hkm. split; [apply (as_vm _ _ _ _ _ (us_as _ _ _ _ _ U))|tauto|done].
Qed.
End exec.

(** C2: [exec] replaces the program of a process.  If the path leads to a file
    whose bytes are a program ([exec_image]: an ELF header, and program headers
    whose segments are in the file), it returns the number of
    arguments and the process's memory is exactly the program's image: at every
    address the segment's byte of the file, or zero, then a page that is not for
    the user, and a page of stack with the argument strings and the array of
    pointers to them.  The saved [pc] is the entry point, [sp] and [a1] point to
    that array, the other registers are as before; the old page table and memory
    are free.  Otherwise it returns -1 and the process is as it was.  It only
    fails if there is no such file, the file is no such program, the arguments do
    not fit, the image does not fit below the trap frame, or there are not more
    than 3 free pages for each page of the image and 5 more.  In every case no page is lost, no page of anybody else is
    written, no reference to an inode is left, the transaction has ended, the
    disk has not changed and every lock is free. *)
Theorem exec_correct env (BD : BlockDev env) {L : Layout} {LO : LayoutOk L} n p s ds V D S t R k q l tr pgs path argv addrs args i :
  (Z.to_nat 65536 < n)%nat -> (Z.to_nat (sb_size S / BPB) < n)%nat -> (length path < n)%nat ->
  rest p t -> procs t !! p = Some q -> user_space (km k) l tr pgs q -> fs_ok s ds S V -> tree_ok ds S V -> (forall ip, slks t !! SLInode ip = None) ->
  wstate (s := s) (o := 0) (bl := []) (V := V) (D := D) (S := S) p t R k -> (size (dom R) + 1 < Z.to_nat NINODE)%nat -> Forall (fun c => c <> 0) path -> live S V i ->
  (if hd 0 path =? slash then i = ROOTINO else exists c, p_cwd q = Some c /\ at_inode (itable k) c i) ->
  (forall j, walk_path S V i (elements path) = Some j -> readable ds S V j) ->
  (forall j ad, addrs !! j = Some ad -> argv !! j = Some ad) -> argv !! length args = Some 0 -> Z.of_nat (length args) < MAXARG -> Forall2 (kstring l (mem (km k))) addrs args ->
  runs env (exec path argv n (MkK t k))
    (exec_outcome (s := s) (V := V) (D := D) (S := S) (t := t) (R := R) p k q l tr pgs path args (j ← walk_path S V i (elements path); exec_image (inode_bytes S V j) args)).
Proof. intros. by eapply exec_runs. Qed.

(** ** A program on a disk *)

(** A file of at most one block. *)
Lemma one_block ds S V x a : i_dev x = ROOTDEV -> i_addrs x = a :: replicate 12 0 -> data_block ds S V a -> 0 < a -> i_size x <= BSIZE -> file_ok ds S V x /\ dense V x.
Proof.
  intros H1 H2 H3 H4 H5. assert (forall bn, 0 <= bn < MAXFILE -> fblk V x bn = if decide (bn = 0) then a else 0) as Hb.
  { intros bn Hbn. unfold fblk, addr_of. rewrite H2. change NDIRECT with 12. destruct (Z.ltb_spec bn 12); [|rewrite decide_False by lia; done].
    case_decide as E; [by subst|]. destruct (Z.to_nat bn) as [|m] eqn:Em; [lia|]. cbn [lookup list_lookup]. change (default 0 (replicate 12 0 !! m) = 0). rewrite lookup_replicate_2; [done|lia]. }
  assert (addr_of x NDIRECT = 0) as Hz by (unfold addr_of; by rewrite H2). split.
  - split; [done|by rewrite H2|by rewrite Hz| |].
    + intros bn Hbn. rewrite Hb, Hz by done. case_decide; [|done]. split; [done|lia].
    + intros bn bn' Hbn Hbn'. rewrite !Hb by done. repeat case_decide; [by subst|lia|done|done].
  - intros b Hb'. change BSIZE with 1024 in *. rewrite Hb by (replace (b / 1024) with 0 by lia; done). rewrite decide_True by lia. lia.
Qed.

(** "/hi" is a program of one segment of 4 bytes at address 0. *)
Definition hi_elf : list Z :=
  le_bytes 8 0x464C457F ++ replicate 16 0 ++ le_bytes 8 0 ++ le_bytes 8 64 ++ replicate 16 0 ++ le_bytes 8 1 ++
  le_bytes 8 1 ++ le_bytes 8 120 ++ le_bytes 8 0 ++ le_bytes 8 0 ++ le_bytes 8 4 ++ le_bytes 8 4 ++ le_bytes 8 4096 ++ [115; 0; 0; 0].
Definition hi_inode : dinode := MkDinode T_FILE 0 0 1 124 (35 :: replicate 12 0).
Definition hi_disk : gmap Z (list Z) :=
  <[35 := hi_elf ++ replicate 900 0]> (<[33 := [255; 255; 255; 255; 15] ++ replicate (Z.to_nat BSIZE - 5) 0]> (put_inode fs_sb (put_inode fs_sb fs_disk 1 tree_root) 2 hi_inode)).

Lemma hi_facts : fs_ok 2 34 fs_sb hi_disk /\ disk_wf hi_disk /\ hi_disk !! 2 = Some (fill 0) /\ used fs_sb hi_disk 34 = true /\ used fs_sb hi_disk 35 = true.
Proof.
  assert (forallb (fun b => bool_decide (is_Some (hi_disk !! b)) && (used fs_sb hi_disk b || (34 <=? b))) (seqZ 0 45) = true) as H by (by vm_compute). rewrite forallb_forall in H.
  assert (forall b, 0 <= b < 45 -> is_Some (hi_disk !! b) /\ (b < 34 -> used fs_sb hi_disk b = true)) as H'.
  { intros b Hb. specialize (H b ltac:(apply list_elem_of_In, elem_of_seqZ; lia)). apply andb_true_iff in H as [H1 H2]. apply bool_decide_eq_true in H1. split; [done|].
    intros Hlt. apply orb_true_iff in H2 as [H2|H2]; [done|]. apply Z.leb_le in H2. lia. }
  split_and!; [| |by vm_compute|by vm_compute|by vm_compute].
  - split; [apply (fs_layout fs_demo_ok)|intros b Hb; by apply H'|intros b Hb; apply H'; lia].
  - intros b d Hb. assert (map_Forall (fun b d => 0 <= b < 2 ^ 31 /\ length d = Z.to_nat BSIZE) hi_disk) as HF by (apply (bool_decide_unpack _); vm_compute; exact I). exact (HF b d Hb).
Qed.

Definition hi_dir : inode := MkInode ROOTDEV 1 1 1 T_DIR 0 0 1 32 (34 :: replicate 12 0).
Definition hi_file : inode := MkInode ROOTDEV 2 1 1 T_FILE 0 0 1 124 (35 :: replicate 12 0).
Lemma hi_wf : inode_wf fs_sb hi_dir /\ inode_wf fs_sb hi_file.
Proof. split; by split. Qed.
Lemma hi_inodes : inode_of fs_sb hi_disk 1 = hi_dir /\ inode_of fs_sb hi_disk 2 = hi_file.
Proof. split; vm_compute; reflexivity. Qed.
Lemma hi_ok : (file_ok 34 fs_sb hi_disk hi_dir /\ dense hi_disk hi_dir) /\ file_ok 34 fs_sb hi_disk hi_file /\ dense hi_disk hi_file.
Proof.
  destruct hi_facts as (_ & _ & _ & H34 & H35).
  split; [apply (one_block _ _ _ _ 34)|apply (one_block _ _ _ _ 35)]; (reflexivity || lia || (split; [cbn; lia|assumption]) || (change BSIZE with 1024; cbn; lia)).
Qed.

Lemma hi_live i : live fs_sb hi_disk i -> di_type (disk_inode fs_sb hi_disk i) = T_DIR -> i = 1.
Proof.
  intros (Hi & _) Ht. cbn in Hi. assert (forallb (fun i => negb (di_type (disk_inode fs_sb hi_disk i) =? T_DIR) || (i =? 1)) (seqZ 0 10) = true) as H by (by vm_compute).
  rewrite forallb_forall in H. specialize (H i ltac:(apply list_elem_of_In, elem_of_seqZ; lia)). rewrite Ht in H. by apply Z.eqb_eq in H.
Qed.

Lemma hi_tree : tree_ok 34 fs_sb hi_disk.
Proof.
  split; intros i; [intros Hi Ht; rewrite (hi_live i Hi Ht), (proj1 hi_inodes); clear Hi Ht..|].
  - split; [apply hi_ok|apply hi_wf].
  - split; [reflexivity|reflexivity|apply hi_ok].
  - intros j Hi Ht. rewrite (hi_live i Hi Ht), (proj1 hi_inodes). clear Hi Ht. change (dir_len hi_dir) with 2%nat. intros Hj. destruct j as [|[|j]]; [by vm_compute| |lia]. intros _. vm_compute. by split_and!.
Qed.

Lemma hi_walk : walk_path fs_sb hi_disk 1 (elements [47; 104; 105]) = Some 2 /\ live fs_sb hi_disk 1.
Proof. split; [vm_compute; reflexivity|]. vm_compute. by split_and!. Qed.

Lemma hi_readable : readable 34 fs_sb hi_disk 2.
Proof.
  split; [rewrite (proj2 hi_inodes); apply hi_ok|rewrite (proj2 hi_inodes); apply hi_wf|rewrite (proj2 hi_inodes); apply hi_ok|].
  apply (bool_decide_unpack _). vm_compute. exact I.
Qed.

Lemma hi_image : (fun '(entry, sp, J) => (entry, sp, im_sz J, im_at J 0, im_at J sp)) <$> exec_image (inode_bytes fs_sb hi_disk 2) [[104; 105]] = Some (0, 12256, 12288, Some 115, Some 240).
Proof. vm_compute. reflexivity. Qed.

(** A machine with 24 free pages, a trap frame in [demo_pg 0] and the string
    "hi" in [demo_pg 1]. *)
Definition hi_layout : Layout := {| kend := PHYSTOP - 64 * PGSIZE - 100; etext := KERNBASE + 8 * PGSIZE; trampoline := KERNBASE + 7 * PGSIZE |}.
Lemma hi_layout_ok : LayoutOk hi_layout.
Proof. by split; vm_compute. Qed.
Definition hi_free : list Z := demo_pg <$> seqZ 2 24.
Definition hi_k : kmem := MkKmem (fold_left (fun m i => st64 m (demo_pg i) (demo_pg (i + 1))) (seqZ 2 23) (mem_write ∅ (demo_pg 1) [104; 105; 0])) (demo_pg 2).

Lemma hi_kmem : @kmem_inv hi_layout hi_k hi_free.
Proof.
  split.
  - vm_compute. repeat split.
  - apply (bool_decide_unpack _). vm_compute. exact I.
  - repeat constructor; vm_compute; done.
Qed.
Lemma hi_pages : (@valid_page hi_layout (demo_pg 0) /\ demo_pg 0 ∉ hi_free) /\ @valid_page hi_layout (demo_pg 1) /\ demo_pg 1 ∉ hi_free.
Proof. split; (split; [by vm_compute|]); apply (bool_decide_unpack _); vm_compute; exact I. Qed.

(** The process has no memory yet. *)
Definition hi_proc (root : Z) : proc := proc0 <| p_state := RUNNING |> <| p_pid := 1 |> <| p_trapframe := demo_pg 0 |> <| p_pagetable := root |> <| p_name := replicate 16 0 |>.

Lemma hi_user : exists root k l tr pgs, @user_space hi_layout k l tr pgs (hi_proc root) /\ (19 <= length l)%nat /\ @kstring hi_layout l (mem k) (demo_pg 1) [104; 105].
Proof.
  destruct hi_pages as [[V0 N0] [V1 N1]]. destruct (@valid_page_pte hi_layout hi_layout_ok _ V0) as (P1 & P2 & _).
  destruct (@proc_pagetable_spec hi_layout hi_layout_ok 10%nat demo_T demo_T_ok eq_refl hi_k hi_free (demo_pg 0) hi_kmem P1 P2 ltac:(lia)) as (root & k & l & _ & Hs & [(_ & _ & _ & Hf)|(_ & Hf & tr & A & Hac)]).
  { change (length hi_free) with 24%nat in Hf. lia. }
  change (length hi_free) with 24%nat in Hf. exists root, k, l, tr, (sys_pages (L := hi_layout) (demo_pg 0)). split_and!; [|lia|].
  - apply (us_empty (L := hi_layout) k l tr (hi_proc root)); [exact A|reflexivity|exact V0|]. by rewrite Hac.
  - assert (mem_read (mem hi_k) (demo_pg 1) 3 = [104; 105; 0]) as Hrd by (vm_compute; reflexivity).
    split; [by vm_compute| |by repeat constructor|].
    + transitivity (mem_read (mem hi_k) (demo_pg 1) 3); [|exact Hrd]. apply mem_read_ext. intros b Hb. apply (Hs _ V1 N1). cbn [length Nat.add] in Hb. unfold PGSIZE. lia.
    + exists (demo_pg 1). split_and!; [exact V1| |lia|cbn [length]; unfold PGSIZE; lia]. intros H. apply N1, Hac. by left.
Qed.

Lemma hi_rest root : rest 0 (set_proc 0 (hi_proc root) demo_T).
Proof.
  split; [split; [done|exact demo_T_ok|done|reflexivity|]|done|done|by eexists].
  intros j q' Hj Hq Hs. exfalso. change (procs (set_proc 0 (hi_proc root) demo_T)) with (hi_proc root :: replicate 63 proc0) in Hq.
  destruct j as [|j]; [done|]. apply lookup_replicate in Hq as [-> _]. done.
Qed.

(** Between transactions. *)
Definition hi_kern (k : kmem) : kern := (fresh_kern fs_sb hi_disk) <| lg ::= fun l => l <| lg_outstanding := 0 |> |> <| km := k |>.
Lemma hi_km k : km (hi_kern k) = k.
Proof. reflexivity. Qed.
Lemma idle_log {p s V D S t R k} : wstate (s := s) (o := 1) (bl := []) (V := V) (D := D) (S := S) p t R k ->
  wstate (s := s) (o := 0) (bl := []) (V := V) (D := D) (S := S) p t R (k <| lg ::= fun l => l <| lg_outstanding := 0 |> |>).
Proof.
  intros [HT Hsb HR]. split; [|done|done]. pose proof (txn_lg p HT (fun l => l <| lg_outstanding := 0 |>)) as HT'. apply HT'; [|apply HT|apply HT]. destruct (tx_log HT). by split.
Qed.
Lemma hi_idle root k : wstate (s := 2) (o := 0) (bl := []) (V := hi_disk) (D := hi_disk) (S := fs_sb) 0 (set_proc 0 (hi_proc root) demo_T) ∅ (hi_kern k).
Proof. destruct hi_facts as (Hfs & Hwf & Hlog & _). apply wstate_proc, wstate_km, idle_log, (fresh_wstate 34); assumption. Qed.

Definition exec_fuel : nat := Z.to_nat 70000.
Lemma exec_fuel_ok : (Z.to_nat 65536 < exec_fuel)%nat /\ (Z.to_nat (sb_size fs_sb / BPB) < exec_fuel)%nat /\ (length [47; 104; 105] < exec_fuel)%nat.
Proof. unfold exec_fuel. change (sb_size fs_sb / BPB) with 0. cbn [length]. lia. Qed.

Lemma hi_readable_at : walk_path fs_sb hi_disk 1 (elements [47; 104; 105]) = Some 2 -> forall j, walk_path fs_sb hi_disk 1 (elements [47; 104; 105]) = Some j -> readable 34 fs_sb hi_disk j.
Proof. intros -> j [= <-]. apply hi_readable. Qed.
Lemma hi_argv j ad : [demo_pg 1] !! j = Some ad -> [demo_pg 1; 0] !! j = Some ad.
Proof. destruct j as [|j]; [|done]. by intros [= <-]. Qed.

Lemma bind_some {A B} (o : option A) x (f : A -> option B) : o = Some x -> (o ≫= f) = f x.
Proof. by intros ->. Qed.
Lemma exec_regs_sp tf entry sp m m' : (0 <=? sp) = true /\ (sp <? 2 ^ 64) = true -> page_same tf (exec_regs tf entry sp m) m' -> ld64 m' (tf + TF_sp) = sp.
Proof.
  intros [H1%Z.leb_le H2%Z.ltb_lt] Hs. rewrite (ld64_ext (exec_regs tf entry sp m)); [unfold exec_regs; by rewrite ld64_st64_eq|].
  intros b Hb. apply Hs. unfold TF_sp, PGSIZE in *. lia.
Qed.
Lemma hi_room (l : list Z) : (19 <= length l)%nat -> ~ short l 12288.
Proof. intros Hl [H|H]; [by vm_compute in H|]. change (3 * npages 12288 + 5) with 14 in H. lia. Qed.

(** [exec("/hi", ["hi"])] succeeds. *)
Lemma exec_correct_witness : exists k t k' t', solo (disk_env demo_device 2) (exec (L := hi_layout) [47; 104; 105] [demo_pg 1; 0] exec_fuel (MkK t k)) = Some (1, MkK t' k') /\
  p_sz <$> procs t' !! 0%nat = Some 12288 /\ ld64 (mem (km k')) (demo_pg 0 + TF_sp) = 12256.
Proof.
  destruct hi_user as (root & k & l & tr & pgs & U & Hlen & Hstr). destruct hi_facts as (Hfs & _). destruct exec_fuel_ok as (F1 & F2 & F3). destruct hi_walk as [Ew Hlive].
  set (t := set_proc 0 (hi_proc root) demo_T). pose proof (hi_idle root k) as HW. fold t in HW. pose proof (eq_sym (hi_km k)) as Ek. set (kk := hi_kern k) in *. clearbody kk. rewrite Ek in U, Hstr. exists kk, t.
  assert (procs t !! 0%nat = Some (hi_proc root) /\ forall ip, slks t !! SLInode ip = None) as [Hq Hlk] by (split; reflexivity).
  pose proof (exec_correct _ fs_dev (LO := hi_layout_ok) exec_fuel 0 2 34 hi_disk hi_disk fs_sb t ∅ kk (hi_proc root) l tr pgs [47; 104; 105] [demo_pg 1; 0] [demo_pg 1] [[104; 105]] 1
    F1 F2 F3 (hi_rest root) Hq U Hfs hi_tree Hlk HW (proj1 tree_room)) as HR.
  specialize (HR (proj2 (proj2 tree_target)) Hlive eq_refl (hi_readable_at Ew) hi_argv eq_refl eq_refl (proj2 (Forall2_cons _ _ _ _ _) (conj Hstr (List.Forall2_nil _)))).
  destruct (proj1 (runs_some _ _ _) HR) as (r & s' & E & Hout). rewrite (bind_some _ _ _ Ew) in Hout. pose proof hi_image as HI.
  destruct (exec_image (inode_bytes fs_sb hi_disk 2) [[104; 105]]) as [[[e sp] J]|]; [|discriminate HI]. injection HI as -> -> Hsz _ _. destruct Hout as [Hd|[_ Hsh]].
  - destruct Hd as (k' & l' & tr' & pgs' & root' & -> & -> & _ & _ & HE). rewrite Hsz in *. do 2 eexists. split; [exact E|]. split; [reflexivity|].
    exact (exec_regs_sp (demo_pg 0) 0 12256 (mem (km kk)) _ (conj eq_refl eq_refl) (ex_regs _ _ _ _ _ _ _ _ _ _ _ _ _ HE)).
  - rewrite Hsz in Hsh. exact (False_ind _ (hi_room l Hlen Hsh)).
Defined.
