(* ===== verification/Trap.v ===== *)
(** * Traps: [kernel/trap.c] and [kernel/plic.c], and [forkret] of
    [kernel/proc.c]

    [usertrap] and [kerneltrap] are entered with the trap's cause in the
    supervisor registers.  [usertrapret] ends with the jump to the trampoline,
    where the kernel code stops. *)

From Stdlib Require Import ZArith Lia.
From S2P Require Import Prelude Riscv KString Thread Proc Sleeplock Kalloc Vm Kern Virtio Bio Log.
From S2P Require Import ProcMem Fs Uart Printf Console Pipe File ProcOps Exec Syscall.

(** ** riscv.h: supervisor registers *)

Definition SSTATUS_SPP : Z := Z.shiftl 1 8.
Definition SSTATUS_SPIE : Z := Z.shiftl 1 5.
Definition SSTATUS_SIE : Z := Z.shiftl 1 1.

Definition r_csr {A} (f : csrs -> A) : KK A := getX (fun k => f (csr k)).
Definition w_csr (f : csrs -> csrs) : KK () := modX (fun k => k <| csr ::= f |>).
Definition r_sstatus : KK Z :=
  x ← r_csr sstatus;
  i ← intr_get;
  mret (if i : bool then Z.lor x SSTATUS_SIE else Z.land x (Z.lnot SSTATUS_SIE)).
Definition w_sstatus (x : Z) : KK () :=
  w_csr (fun c => c <| sstatus := x |>) ;;
  modT (fun t => t <| sie := negb (Z.land x SSTATUS_SIE =? 0) |>).

Definition r_sip : KK Z := r_csr sip.
Definition w_sip (x : Z) : KK () := w_csr (fun c => c <| sip := x |>).
Definition w_sepc (x : Z) : KK () := w_csr (fun c => c <| sepc := x |>).
Definition r_sepc : KK Z := r_csr sepc.
Definition w_stvec (x : Z) : KK () := w_csr (fun c => c <| stvec := x |>).
Definition w_satp (x : Z) : KK () := w_csr (fun c => c <| satp := x |>).
Definition r_satp : KK Z := r_csr satp.
Definition r_scause : KK Z := r_csr scause.
Definition r_stval : KK Z := r_csr stval.

(** ** plic.c *)

Definition plicinit : KK () :=
  mmio_write (PLIC + UART0_IRQ * 4) 1 ;;
  mmio_write (PLIC + VIRTIO0_IRQ * 4) 1.

Definition plicinithart : KK () :=
  hart ← cpuid;
  mmio_write (PLIC_SENABLE hart) (Z.lor (Z.shiftl 1 UART0_IRQ) (Z.shiftl 1 VIRTIO0_IRQ)) ;;
  mmio_write (PLIC_SPRIORITY hart) 0.

Definition plic_claim : KK Z :=
  hart ← cpuid;
  irq ← mmio_read (PLIC_SCLAIM hart);
  mret (i32 irq).

Definition plic_complete (irq : Z) : KK () :=
  hart ← cpuid;
  mmio_write (PLIC_SCLAIM hart) (u32 irq).

(** ** trap.c *)

Definition trapinit : KK () := initlock LkTicks.

Definition clockintr : KK () :=
  acquire LkTicks ;;
  modX (fun k => k <| ticks ::= fun n => u32 (n + 1) |>) ;;
  wakeup ChTicks ;;
  release LkTicks.

Definition devintr : KK Z :=
  sc ← r_scause;
  if negb (Z.land sc 0x8000000000000000 =? 0) && (Z.land sc 0xff =? 9) then
    irq ← plic_claim;
    (if irq =? UART0_IRQ then uartintr
     else if irq =? VIRTIO0_IRQ then virtio_disk_intr
     else mwhen (negb (irq =? 0)) (printf (chars "unexpected interrupt irq=%d" ++ newline) [AInt irq])) ;;
    mwhen (negb (irq =? 0)) (plic_complete irq) ;;
    mret 1
  else if sc =? 0x8000000000000001 then
    c ← cpuid;
    mwhen (c =? 0) clockintr ;;
    s ← r_sip;
    w_sip (Z.land s (Z.lnot 2)) ;;
    mret 2
  else mret 0.

Section trap_c.
Context {L : Layout} {SY : Symbols}.

Definition trapinithart : KK () := w_stvec kernelvec_addr.

Definition usertrapret : KK () :=
  p ← me;
  intr_off ;;
  w_stvec (TRAMPOLINE + uservec_off) ;;
  ksatp ← r_satp;
  tf_set p TF_kernel_satp ksatp ;;
  q ← getp p;
  tf_set p TF_kernel_sp (u64 (p_kstack q + PGSIZE)) ;;
  tf_set p TF_kernel_trap usertrap_addr ;;
  h ← cpuid;
  tf_set p TF_kernel_hartid h ;;
  x ← r_sstatus;
  w_sstatus (Z.lor (Z.land x (Z.lnot SSTATUS_SPP)) SSTATUS_SPIE) ;;
  e ← tf_get p TF_epc;
  w_sepc e.

Definition usertrap (it_addr : Z) : KK () :=
  x ← r_sstatus;
  if negb (Z.land x SSTATUS_SPP =? 0) then panic "usertrap: not from user mode" else
  w_stvec kernelvec_addr ;;
  p ← me;
  e ← r_sepc;
  tf_set p TF_epc e ;;
  sc ← r_scause;
  which_dev ←
    (if sc =? 8 then
       q ← getp p;
       mwhen (negb (p_killed q =? 0)) (exit (-1)) ;;
       e ← tf_get p TF_epc;
       tf_set p TF_epc (u64 (e + 4)) ;;
       intr_on ;;
       syscall it_addr ;;
       mret 0
     else
       d ← devintr;
       if negb (d =? 0) then mret d else
       q ← getp p;
       sc ← r_scause;
       printf (chars "usertrap(): unexpected scause %p pid=%d" ++ newline) [APtr sc; AInt (p_pid q)] ;;
       e ← r_sepc;
       v ← r_stval;
       printf (chars "            sepc=%p stval=%p" ++ newline) [APtr e; APtr v] ;;
       modp p (fun q => q <| p_killed := 1 |>) ;;
       mret 0);
  q ← getp p;
  mwhen (negb (p_killed q =? 0)) (exit (-1)) ;;
  mwhen (which_dev =? 2) yield ;;
  usertrapret.

Definition kerneltrap : KK () :=
  e ← r_sepc;
  x ← r_sstatus;
  sc ← r_scause;
  if Z.land x SSTATUS_SPP =? 0 then panic "kerneltrap: not from supervisor mode" else
  i ← intr_get;
  if i : bool then panic "kerneltrap: interrupts enabled" else
  d ← devintr;
  if d =? 0 then
    printf (chars "scause %p" ++ newline) [APtr sc] ;;
    e ← r_sepc;
    v ← r_stval;
    printf (chars "sepc=%p stval=%p" ++ newline) [APtr e; APtr v] ;;
    panic "kerneltrap"
  else
  mwhen (d =? 2)
    (o ← myproc;
     match o with
     | Some p => q ← getp p; mwhen (bool_decide (p_state q = RUNNING)) yield
     | None => mret tt
     end) ;;
  w_sepc e ;;
  w_sstatus x.

(** proc.c *)
Definition forkret : KK () :=
  p ← me;
  release (LkProc p) ;;
  first ← getX fs_first;
  mwhen (negb (first =? 0))
    (modX (fun k => k <| fs_first := 0 |>) ;;
     fsinit ROOTDEV) ;;
  usertrapret.
End trap_c.
