(* ===== verification/Main.v ===== *)
(** * Booting: [kernel/main.c] and [kernel/start.c]

    [start] runs in machine mode on the registers of Module [Machine];
    [main] is the kernel's entry in supervisor mode. *)

From Stdlib Require Import ZArith Lia.
From S2P Require Import Prelude Riscv KString Thread Proc Sleeplock Kalloc Vm Kern Virtio Bio Log.
From S2P Require Import ProcMem Fs Uart Printf Console Pipe File ProcOps Exec Syscall Trap.

Module Machine.

(** Registers [start.c] uses, and memory-mapped [MTIME]/[MTIMECMP]. *)
Record mach := MkMach {
  mhartid : Z; mstatus : Z; mepc : Z; m_satp : Z; medeleg : Z; mideleg : Z; m_sie : Z;
  pmpaddr0 : Z; pmpcfg0 : Z; mscratch : Z; mtvec : Z; mie : Z; tp : Z;
  mtime : Z; mtimecmp : gmap Z Z; timer_scratch : gmap Z (Z * Z)
}.
#[export] Instance eta_mach : Eta mach := fun m =>
  MkMach (mhartid m) (mstatus m) (mepc m) (m_satp m) (medeleg m) (mideleg m) (m_sie m) (pmpaddr0 m)
    (pmpcfg0 m) (mscratch m) (mtvec m) (mie m) (tp m) (mtime m) (mtimecmp m) (timer_scratch m).

Definition MSTATUS_MPP_MASK : Z := Z.shiftl 3 11.
Definition MSTATUS_MPP_S : Z := Z.shiftl 1 11.
Definition MSTATUS_MIE : Z := Z.shiftl 1 3.
Definition SIE_SEIE : Z := Z.shiftl 1 9.
Definition SIE_STIE : Z := Z.shiftl 1 5.
Definition SIE_SSIE : Z := Z.shiftl 1 1.
Definition MIE_MTIE : Z := Z.shiftl 1 7.

Definition r_mhartid (m : mach) : Z := mhartid m.
Definition r_mstatus (m : mach) : Z := mstatus m.
Definition w_mstatus (x : Z) (m : mach) : mach := m <| mstatus := x |>.
Definition w_mepc (x : Z) (m : mach) : mach := m <| mepc := x |>.
Definition m_w_satp (x : Z) (m : mach) : mach := m <| m_satp := x |>.
Definition w_medeleg (x : Z) (m : mach) : mach := m <| medeleg := x |>.
Definition w_mideleg (x : Z) (m : mach) : mach := m <| mideleg := x |>.
Definition r_sie (m : mach) : Z := m_sie m.
Definition w_sie (x : Z) (m : mach) : mach := m <| m_sie := x |>.
Definition w_pmpaddr0 (x : Z) (m : mach) : mach := m <| pmpaddr0 := x |>.
Definition w_pmpcfg0 (x : Z) (m : mach) : mach := m <| pmpcfg0 := x |>.
Definition w_mscratch (x : Z) (m : mach) : mach := m <| mscratch := x |>.
Definition w_mtvec (x : Z) (m : mach) : mach := m <| mtvec := x |>.
Definition r_mie (m : mach) : Z := mie m.
Definition w_mie (x : Z) (m : mach) : mach := m <| mie := x |>.
Definition w_tp (x : Z) (m : mach) : mach := m <| tp := x |>.

Section start_c.
(** The addresses of [main], [timervec] and [timer_scratch]. *)
Variables main_addr timervec_addr scratch_addr : Z.

(** [scratch[3]] and [scratch[4]] are the pair stored for the hart. *)
Definition timerinit (m : mach) : mach :=
  let id := i32 (r_mhartid m) in
  let interval := 1000000 in
  let m := m <| mtimecmp ::= <[id := u64 (mtime m + interval)]> |> in
  let m := m <| timer_scratch ::= <[id := (CLINT_MTIMECMP id, interval)]> |> in
  let m := w_mscratch (scratch_addr + id * 40) m in
  let m := w_mtvec timervec_addr m in
  let m := w_mstatus (Z.lor (r_mstatus m) MSTATUS_MIE) m in
  w_mie (Z.lor (r_mie m) MIE_MTIE) m.

Definition start (m : mach) : mach :=
  let x := r_mstatus m in
  let x := Z.land x (Z.lnot MSTATUS_MPP_MASK) in
  let x := Z.lor x MSTATUS_MPP_S in
  let m := w_mstatus x m in
  let m := w_mepc main_addr m in
  let m := m_w_satp 0 m in
  let m := w_medeleg 0xffff m in
  let m := w_mideleg 0xffff m in
  let m := w_sie (Z.lor (Z.lor (Z.lor (r_sie m) SIE_SEIE) SIE_STIE) SIE_SSIE) m in
  let m := w_pmpaddr0 0x3fffffffffffff m in
  let m := w_pmpcfg0 0xf m in
  let m := timerinit m in
  let id := i32 (r_mhartid m) in
  w_tp id m.
End start_c.
End Machine.

Section main_c.
Context {L : Layout} {SY : Symbols}.

(** vm.c *)
Definition kvminit : KK () :=
  pt ← kmm kvmmake;
  modX (fun k => k <| kernel_pagetable := pt |>).
Definition kvminithart : KK () :=
  pt ← getX kernel_pagetable;
  w_satp (MAKE_SATP pt).

(** [while(started == 0) ;] never ends if the flag is not set: no other hart
    runs while this one is modelled. *)
Definition main_wait_body (_ : ()) : KK (() + ()) :=
  s ← getX started;
  mret (if s =? 0 then inl tt else inr tt).

(** [disk_pages] is the address of [disk.pages] in virtio_disk.c. *)
Definition main (disk_pages : Z) : KK () :=
  h ← cpuid;
  (if h =? 0 then
     consoleinit ;;
     printfinit ;;
     printf newline [] ;;
     printf (chars "xv6 kernel is booting" ++ newline) [] ;;
     printf newline [] ;;
     kmm kinit ;;
     kvminit ;;
     kvminithart ;;
     procinit ;;
     trapinit ;;
     trapinithart ;;
     plicinit ;;
     plicinithart ;;
     binit ;;
     iinit ;;
     fileinit ;;
     virtio_disk_init disk_pages ;;
     userinit ;;
     modX (fun k => k <| started := 1 |>)
   else
     mloop main_wait_body tt ;;
     h ← cpuid;
     printf (chars "hart %d starting" ++ newline) [AInt h] ;;
     kvminithart ;;
     trapinithart ;;
     plicinithart) ;;
  scheduler.
End main_c.
