(* ===== verification/Mkfs.v ===== *)
(** * The file system builder: [mkfs/mkfs.c]

    The image is a map from sector numbers to their bytes.  The host's files
    are regular files, so reads and writes inside them are complete and a read
    past the end of the image fails; a failed assertion and [die] are
    [panic].  The host is little-endian, as the build machines are: [xint] and
    [xshort] then do not change the value. *)

From Stdlib Require Import ZArith Lia Ascii String.
From S2P Require Import Prelude Riscv KString Kern Fs Printf.

Definition NINODES : Z := 200.
Definition FSSIZE : Z := 1000.
Definition nbitmap : Z := FSSIZE / (BSIZE * 8) + 1.
Definition ninodeblocks : Z := NINODES / IPB + 1.
Definition nlog : Z := LOGSIZE.
Definition nmeta : Z := 2 + nlog + ninodeblocks + nbitmap.
Definition nblocks : Z := FSSIZE - nmeta.

(** The global variables; [sb] is [mk_sb] below. *)
Record mk := MkMk { img : gmap Z (list Z); freeinode : Z; freeblock : Z }.
#[export] Instance eta_mk : Eta mk := fun s => MkMk (img s) (freeinode s) (freeblock s).

Definition xshort (x : Z) : Z := le_val [u8 x; u8 (Z.shiftr x 8)].
Definition xint (x : Z) : Z := le_val [u8 x; u8 (Z.shiftr x 8); u8 (Z.shiftr x 16); u8 (Z.shiftr x 24)].

Definition mk_sb : superblock :=
  MkSb FSMAGIC (xint FSSIZE) (xint nblocks) (xint NINODES) (xint nlog) (xint 2) (xint (2 + nlog)) (xint (2 + nlog + ninodeblocks)).

Definition enc_sb (s : superblock) : list Z :=
  mjoin (le_bytes 4 <$> [sb_magic s; sb_size s; sb_nblocks s; sb_ninodes s; sb_nlog s; sb_logstart s; sb_inodestart s; sb_bmapstart s]).

Definition zeroes : list Z := replicate (Z.to_nat BSIZE) 0.

(** The sector at byte offset [sec * BSIZE], a 32-bit product. *)
Definition sector (sec : Z) : Z := u32 (sec * BSIZE) / BSIZE.

Definition wsect (sec : Z) (buf : list Z) : M mk () := modify (fun s => s <| img ::= <[sector sec := buf]> |>).

Definition rsect (sec : Z) : M mk (list Z) :=
  o ← gets (fun s => img s !! sector sec);
  match o with Some buf => mret buf | None => panic "read" end.

Definition winode (inum : Z) (ip : dinode) : M mk () :=
  buf ← rsect (IBLOCK inum mk_sb);
  wsect (IBLOCK inum mk_sb) (splice (dinode_off inum) (enc_dinode ip) buf).

Definition rinode (inum : Z) : M mk dinode :=
  buf ← rsect (IBLOCK inum mk_sb);
  mret (dec_dinode (slice (dinode_off inum) DINODE_SIZE buf)).

Definition ialloc (type : Z) : M mk Z :=
  inum ← gets freeinode;
  modify (fun s => s <| freeinode := u32 (inum + 1) |>) ;;
  winode inum (MkDinode (xshort type) 0 0 (xshort 1) (xint 0) (replicate 13 0)) ;;
  mret inum.

(** [for(i = 0; i < used; i++) buf[i/8] = buf[i/8] | (0x1 << (i%8));] *)
Fixpoint mark (k : nat) (buf : list Z) : list Z :=
  match k with
  | O => buf
  | S k' => let buf := mark k' buf in let i := Z.of_nat k' in
            <[Z.to_nat (i / 8) := u8 (Z.lor (byte_at buf (i / 8)) (Z.shiftl 1 (i mod 8)))]> buf
  end.

Definition balloc (used : Z) : M mk () :=
  if negb (used <? BSIZE * 8) then panic "assert" else
  wsect (sb_bmapstart mk_sb) (mark (Z.to_nat used) zeroes).

(** [xint(freeblock++)] *)
Definition new_block : M mk Z :=
  b ← gets freeblock;
  modify (fun s => s <| freeblock := u32 (b + 1) |>) ;;
  mret (xint b).

Definition din_addr (din : dinode) (i : Z) : Z := default 0 (di_addrs din !! Z.to_nat i).
Definition set_din_addr (i a : Z) (din : dinode) : dinode :=
  MkDinode (di_type din) (di_major din) (di_minor din) (di_nlink din) (di_size din) (<[Z.to_nat i := a]> (di_addrs din)).

(** The block for file block [fbn], allocated if need be. *)
Definition iappend_block (fbn : Z) (din : dinode) : M mk (Z * dinode) :=
  if fbn <? NDIRECT then
    din ← (if xint (din_addr din fbn) =? 0 then b ← new_block; mret (set_din_addr fbn b din) else mret din);
    mret (xint (din_addr din fbn), din)
  else
    din ← (if xint (din_addr din NDIRECT) =? 0 then b ← new_block; mret (set_din_addr NDIRECT b din) else mret din);
    indirect ← rsect (xint (din_addr din NDIRECT));
    indirect ← (if rd_u32 indirect (4 * (fbn - NDIRECT)) =? 0 then
                  b ← new_block;
                  let indirect := wr_u32 indirect (4 * (fbn - NDIRECT)) b in
                  wsect (xint (din_addr din NDIRECT)) indirect ;;
                  mret indirect
                else mret indirect);
    mret (xint (rd_u32 indirect (4 * (fbn - NDIRECT))), din).

(** [p] is what is left of the bytes, [n] its length. *)
Definition iappend_body : list Z * Z * dinode -> M mk ((list Z * Z * dinode) + (Z * dinode)) :=
  fun '(p, off, din) =>
  let n := Z.of_nat (length p) in
  if negb (0 <? n) then mret (inr (off, din)) else
  let fbn := off / BSIZE in
  if negb (fbn <? MAXFILE) then panic "assert" else
  '(x, din) ← iappend_block fbn din;
  let n1 := Z.min n ((fbn + 1) * BSIZE - off) in
  buf ← rsect x;
  wsect x (splice (off - fbn * BSIZE) (take (Z.to_nat n1) p) buf) ;;
  mret (inl (drop (Z.to_nat n1) p, u32 (off + n1), din)).

Definition iappend (inum : Z) (xp : list Z) : M mk () :=
  din ← rinode inum;
  '(off, din) ← mloop iappend_body (xp, xint (di_size din), din);
  winode inum (MkDinode (di_type din) (di_major din) (di_minor din) (di_nlink din) (xint off) (di_addrs din)).

(** [bzero(&de); de.inum = xshort(inum); str[n]cpy(de.name, name)] *)
Definition mk_dirent (inum : Z) (name : list Z) : list Z := enc_dirent (xshort inum) (strncpy_l (Z.to_nat DIRSIZ) name).

(** [argv[i]] without its directory. *)
Definition shortname (path : list Z) : list Z :=
  if strncmp_l 5 path (chars "user/") =? 0 then drop 5 path else path.
(** ... and without the underscore. *)
Definition no_underscore (name : list Z) : list Z := if hd 0 name =? 95 then drop 1 name else name.

(** [while((cc = read(fd, buf, sizeof(buf))) > 0) iappend(inum, buf, cc);] *)
Definition copy_body (inum : Z) (rest : list Z) : M mk (list Z + ()) :=
  let cc := take (Z.to_nat BSIZE) rest in
  if negb (0 <? Z.of_nat (length cc)) then mret (inr tt) else
  iappend inum cc ;;
  mret (inl (drop (Z.to_nat BSIZE) rest)).

(** One round of the loop over the arguments: a path and the contents of the
    file, if it can be opened. *)
Definition add_file (rootino : Z) (file : list Z * option (list Z)) : M mk () :=
  let '(path, contents) := file in
  let name := strcut (shortname path) in
  if bool_decide (slash ∈ name) then panic "assert" else
  match contents with
  | None => panic "die"
  | Some bytes =>
      inum ← ialloc T_FILE;
      iappend rootino (mk_dirent inum (no_underscore name)) ;;
      mloop (copy_body inum) bytes
  end.

Fixpoint add_files (rootino : Z) (files : list (list Z * option (list Z))) : M mk () :=
  match files with
  | [] => mret tt
  | f :: files => add_file rootino f ;; add_files rootino files
  end.

(** [fsfd] is what opening the image returned. *)
Definition main (argc fsfd : Z) (files : list (list Z * option (list Z))) : M mk () :=
  if argc <? 2 then panic "usage" else
  if fsfd <? 0 then panic "die" else
  modify (fun s => s <| freeblock := nmeta |>) ;;
  meach (Z.to_nat FSSIZE) 0 (fun i => wsect i zeroes) ;;
  wsect 1 (splice 0 (enc_sb mk_sb) zeroes) ;;
  rootino ← ialloc T_DIR;
  (if negb (rootino =? ROOTINO) then panic "assert" else mret tt) ;;
  iappend rootino (mk_dirent rootino (chars ".")) ;;
  iappend rootino (mk_dirent rootino (chars "..")) ;;
  add_files rootino files ;;
  din ← rinode rootino;
  (let off := (xint (di_size din) / BSIZE + 1) * BSIZE in
   winode rootino (MkDinode (di_type din) (di_major din) (di_minor din) (di_nlink din) (xint (u32 off)) (di_addrs din))) ;;
  b ← gets freeblock;
  balloc (i32 b).

(** The program starts with an empty image and inode 1 free. *)
Definition mk0 : mk := MkMk ∅ 1 0.
