(* ===== verification/MkfsSpec.v ===== *)
(** * mkfs builds a consistent file system

    The proofs reuse the kernel's view of a file system: [view I fb] is the
    image with the bitmap mkfs will write at the end, in which the blocks
    below [fb] are in use; taking the next block is then the kernel's
    allocation of it, and [iappend] is a write in the kernel's sense
    ([appended]). *)

From Stdlib Require Import ZArith Lia.
From S2P Require Import Prelude Riscv KString Kern Blocks Bio BioSpec BioOps Log LogSpec Crash Txn Fs Balloc Files ReadWrite FileTheorems Printf Mkfs.

Local Notation S := mk_sb.
Local Notation ds := nmeta.

Lemma xint_id x : 0 <= x < 2 ^ 32 -> xint x = x.
Proof. intros Hx. unfold xint. cbn [le_val]. unfold u8. rewrite !Z.shiftr_div_pow2 by lia. lia. Qed.
Lemma xshort_id x : 0 <= x < 2 ^ 16 -> xshort x = x.
Proof. intros Hx. unfold xshort. cbn [le_val]. unfold u8. rewrite !Z.shiftr_div_pow2 by lia. lia. Qed.

Lemma sector_id b : 0 <= b < FSSIZE -> sector b = b.
Proof. intros Hb. unfold sector, FSSIZE, BSIZE in *. rewrite u32_small by lia. lia. Qed.

(** ** The layout *)

Lemma mk_bblock b : 0 <= b < FSSIZE -> BBLOCK b S = 45.
Proof. intros Hb. unfold BBLOCK. rewrite Z.div_small by (unfold BPB, BSIZE, FSSIZE in *; lia). by vm_compute. Qed.
Lemma mk_iblock i : 0 <= i < NINODES -> IBLOCK i S = i / 16 + 32 /\ 32 <= IBLOCK i S < 45.
Proof.
  intros Hi. unfold IBLOCK. change IPB with 16. change (sb_inodestart S) with 32. unfold NINODES in Hi. rewrite u32_small by lia. lia.
Qed.

Lemma mk_layout : layout 2 ds S.
Proof.
  change ds with 46. split; change (sb_size S) with 1000; change (sb_ninodes S) with 200; try (szs; done).
  - intros b Hb. rewrite mk_bblock by done. szs.
  - intros i Hi. destruct (mk_iblock i Hi). szs.
  - intros i b Hi Hb. rewrite mk_bblock by done. destruct (mk_iblock i Hi). lia.
  - intros b Hb. rewrite mk_bblock by done. rewrite Z.div_small by (unfold BPB, BSIZE; lia). by vm_compute.
  - intros i Hi. change IPB with 16. change (sb_inodestart S) with 32. by apply mk_iblock.
Qed.

(** ** The bitmap *)

Definition view (I : gmap Z (list Z)) (fb : Z) : gmap Z (list Z) := <[45 := mark (Z.to_nat fb) zeroes]> I.

Lemma mark_length k : length (mark k zeroes) = Z.to_nat BSIZE.
Proof. induction k as [|k IH]; [apply length_replicate|]. cbn [mark]. by rewrite length_insert. Qed.

Lemma mark_bytes k : Forall (fun b => 0 <= b < 256) (mark k zeroes).
Proof.
  induction k as [|k IH]; [apply Forall_replicate; lia|]. cbn [mark]. apply Forall_insert; [done|]. apply u8_range.
Qed.

Lemma mark_S k : mark (Datatypes.S k) zeroes = set_bit (mark k zeroes) (Z.of_nat k).
Proof.
  cbn [mark]. unfold set_bit. f_equal. apply u8_small. assert (0 <= byte_at (mark k zeroes) (Z.of_nat k / 8) < 2 ^ 8) as Hb.
  { unfold byte_at. destruct (mark k zeroes !! _) as [b|] eqn:E; [|done]. cbn. pose proof (mark_bytes k) as H. rewrite Forall_lookup in H. by apply H in E. }
  assert (0 <= Z.shiftl 1 (Z.of_nat k mod 8) < 2 ^ 8) as Hs. { rewrite Z.shiftl_1_l. split; [by apply Z.pow_nonneg|]. apply Z.pow_lt_mono_r; lia. }
  revert Hb Hs. generalize (byte_at (mark k zeroes) (Z.of_nat k / 8)), (Z.shiftl 1 (Z.of_nat k mod 8)). intros a b Ha Hb.
  split; [apply Z.lor_nonneg; lia|]. apply Z.log2_lt_cancel. rewrite Z.log2_lor by lia. change (Z.log2 (2 ^ 8)) with 8.
  assert (forall c, 0 <= c < 2 ^ 8 -> Z.log2 c < 8) as Hlog; [|by apply Z.max_lub_lt; apply Hlog].
  intros c Hc. destruct (decide (c = 0)) as [->|]; [done|]. apply Z.log2_lt_pow2; lia.
Qed.

Lemma view_insert I fb a d : a <> 45 -> view (<[a := d]> I) fb = <[a := d]> (view I fb).
Proof. intros Ha. unfold view. by rewrite insert_insert_ne. Qed.

Lemma view_lookup I fb a : a <> 45 -> view I fb !! a = I !! a.
Proof. intros Ha. unfold view. by rewrite lookup_insert_ne. Qed.

(** Taking the next block is the kernel's allocation of it. *)
Lemma view_alloc I fb : 46 <= fb < FSSIZE -> I !! fb = Some zeroes -> view I (fb + 1) = allocated S (view I fb) fb.
Proof.
  intros Hfb Hz. unfold allocated, bmap_set. rewrite mk_bblock by (unfold FSSIZE in *; lia).
  assert (view I fb !! 45 = Some (mark (Z.to_nat fb) zeroes)) as -> by apply lookup_insert_eq. change (default [] (Some ?l)) with l.
  rewrite Z.mod_small by (unfold BPB, BSIZE, FSSIZE in *; lia). unfold view. rewrite insert_insert_eq.
  replace (Z.to_nat (fb + 1)) with (Datatypes.S (Z.to_nat fb)) by lia. rewrite mark_S, Z2Nat.id by lia.
  rewrite insert_insert_ne by lia. f_equal. symmetry. apply insert_id. exact Hz.
Qed.

(** ** The image while it is being built *)

Record img_ok (I : gmap Z (list Z)) (fb : Z) : Prop := {
  io_fb : ds <= fb <= FSSIZE;
  io_dom : forall b, 0 <= b < FSSIZE -> exists d, I !! b = Some d /\ length d = Z.to_nat BSIZE;
  io_rng : forall b, is_Some (I !! b) -> 0 <= b < FSSIZE;
  io_zero : forall b, fb <= b < FSSIZE -> I !! b = Some zeroes
}.

Lemma bit_mark k c : Z.of_nat k <= BPB -> 0 <= c < BPB -> bit_at (mark k zeroes) c = (c <? Z.of_nat k).
Proof.
  intros Hk Hc. induction k as [|k IH].
  - rewrite (proj2 (Z.ltb_ge c (Z.of_nat 0))) by lia. unfold bit_at, byte_at. cbn [mark]. unfold zeroes.
    destruct (replicate _ 0 !! _) as [b|] eqn:E; [apply lookup_replicate in E as [-> _]|]; apply Z.bits_0.
  - rewrite mark_S, set_bit_at by (apply mark_length || done || lia). rewrite IH by lia.
    apply eq_true_iff_eq. rewrite orb_true_iff, Z.eqb_eq, !Z.ltb_lt. lia.
Qed.

Section img.
Context {I : gmap Z (list Z)} {fb : Z} (HI : img_ok I fb).

Lemma view_used c : 0 <= c < FSSIZE -> used S (view I fb) c = (c <? fb).
Proof.
  intros Hc. pose proof (io_fb _ _ HI) as Hf. unfold used. rewrite mk_bblock by done. unfold view. rewrite lookup_insert_eq.
  rewrite Z.mod_small, bit_mark by (unfold BPB, BSIZE, FSSIZE in *; lia). f_equal. change ds with 46 in Hf. lia.
Qed.

Lemma view_wf : disk_wf (view I fb).
Proof.
  intros b d. unfold view. rewrite lookup_insert. case_decide as E; [subst; intros [= <-]; split; [lia|apply mark_length]|].
  intros Hb. pose proof (io_rng _ _ HI b (mk_is_Some _ _ Hb)) as Hr. destruct (io_dom _ _ HI b Hr) as (d' & Hd & Hl). unfold FSSIZE in Hr. split; [lia|congruence].
Qed.

Lemma view_fs : fs_ok 2 ds S (view I fb).
Proof.
  split; [apply mk_layout| |]; change (sb_size S) with FSSIZE.
  - intros b Hb. unfold view. rewrite lookup_insert. case_decide; [by eexists|]. destruct (io_dom _ _ HI b Hb) as (d & -> & _). by eexists.
  - intros b Hb. pose proof (io_fb _ _ HI). rewrite view_used by lia. apply Z.ltb_lt. lia.
Qed.

Lemma view_data c : data_block ds S (view I fb) c <-> ds <= c < fb.
Proof.
  pose proof (io_fb _ _ HI). assert (0 <= ds) by done. unfold data_block. change (sb_size S) with FSSIZE. split.
  - intros [Hr Hu]. rewrite view_used in Hu by lia. apply Z.ltb_lt in Hu. lia.
  - intros Hr. split; [lia|]. rewrite view_used by lia. apply Z.ltb_lt. lia.
Qed.

Lemma img_alloc : fb < FSSIZE -> img_ok I (fb + 1) /\ I !! fb = Some zeroes /\ view I (fb + 1) = allocated S (view I fb) fb /\
  ds <= fb < sb_size S /\ used S (view I fb) fb = false.
Proof.
  intros Hlt. assert (0 <= ds) by done. destruct HI as [H1 H2 H3 H4]. assert (I !! fb = Some zeroes) as Hz by (apply H4; lia). split_and!; try done; try lia.
  - split; [lia|done|done|]. intros b Hb. apply H4. lia.
  - apply view_alloc; [change ds with 46 in H1; lia|done].
  - rewrite view_used by (change ds with 46 in *; lia). apply Z.ltb_ge. lia.
Qed.

Lemma img_write a d : ds <= a < fb -> length d = Z.to_nat BSIZE -> img_ok (<[a := d]> I) fb /\ view (<[a := d]> I) fb = <[a := d]> (view I fb).
Proof.
  intros Ha Hd. destruct HI as [H1 H2 H3 H4]. change ds with 46 in *. split; [split|apply view_insert; lia]; try done.
  - intros b Hb. rewrite lookup_insert. case_decide; [by exists d|by apply H2].
  - intros b. rewrite lookup_insert. case_decide as E; [intros _; subst b; lia|apply H3].
  - intros b Hb. rewrite lookup_insert_ne by lia. by apply H4.
Qed.

Lemma rsect_data n fi a : ds <= a < fb -> exists d, I !! a = Some d /\ length d = Z.to_nat BSIZE /\ view I fb !! a = Some d /\
  rsect a n (MkMk I fi fb) = Ret d (MkMk I fi fb).
Proof.
  intros Ha. pose proof (io_fb _ _ HI). assert (0 <= ds) by done. change ds with 46 in *. destruct (io_dom _ _ HI a ltac:(lia)) as (d & Hd & Hl). exists d.
  split_and!; [done|done|rewrite view_lookup by lia; done|]. unfold rsect, gets, mbind, M_bind. cbn. rewrite sector_id, Hd by lia. done.
Qed.
End img.

(** ** One block of [iappend] *)

(** The inode with the contents of [d]. *)
Definition ino (i : Z) (d : dinode) : inode :=
  MkInode ROOTDEV i 1 1 (di_type d) (di_major d) (di_minor d) (di_nlink d) (di_size d) (di_addrs d).

(** Exactly the blocks below size [sz] are there. *)
Definition full (V : gmap Z (list Z)) (x : inode) (sz : Z) : Prop :=
  (forall bn, 0 <= bn < MAXFILE -> fblk V x bn <> 0 <-> bn * BSIZE < sz) /\ (addr_of x NDIRECT <> 0 <-> NDIRECT * BSIZE < sz).

(** The blocks a file of that size takes. *)
Definition cost (sz : Z) : Z := (sz + BSIZE - 1) / BSIZE + (if NDIRECT * BSIZE <? sz then 1 else 0).

(** File block [bn] is at [a]; the blocks from [fb] to [fb'] are new. *)
Record placed (I : gmap Z (list Z)) (fb : Z) (x : inode) (bn a : Z) (I' : gmap Z (list Z)) (fb' : Z) (x' : inode) : Prop := {
  pl_img : img_ok I' fb';
  pl_map : mapped 2 ds S (view I fb) x (view I' fb') x';
  pl_at : fblk (view I' fb') x' bn = a;
  pl_some : a <> 0;
  pl_new : forall c, fb <= c < fb' -> c = a \/ c = addr_of x' NDIRECT;
  pl_le : fb <= fb';
  pl_ind : addr_of x' NDIRECT <> 0 <-> addr_of x NDIRECT <> 0 \/ NDIRECT <= bn
}.

Lemma placed_ne I fb x bn a I' fb' x' c : img_ok I fb -> placed I fb x bn a I' fb' x' -> 0 <= bn < MAXFILE -> 0 <= c < MAXFILE -> c <> bn ->
  fblk (view I' fb') x' c = fblk (view I fb) x c.
Proof.
  intros HI [P1 P2 P3 P4 P5 P6 _] Hbn Hc Hne. destruct (decide (fblk (view I fb) x c = 0)) as [Ez|Ez]; [|by apply (mp_keep _ _ _ _ _ _ _ P2)].
  rewrite Ez. destruct (decide (fblk (view I' fb') x' c = 0)) as [|Hnz]; [done|exfalso].
  destruct (fo_blk (mp_file _ _ _ _ _ _ _ P2) c Hc Hnz) as [Hd Hni]. pose proof (proj1 (view_data P1 _) Hd) as Hr.
  destruct (decide (fblk (view I' fb') x' c < fb)) as [Hlt|Hge].
  - apply Hnz. rewrite <- Ez. apply (mp_new _ _ _ _ _ _ _ P2); [done|]. apply (view_data HI). lia.
  - destruct (P5 (fblk (view I' fb') x' c) ltac:(lia)) as [E|E]; [|done]. apply Hne.
    apply (fo_inj (mp_file _ _ _ _ _ _ _ P2) c bn Hc Hbn Hnz). congruence.
Qed.

Lemma new_block_ok n I fi fb : img_ok I fb -> fb < FSSIZE -> new_block n (MkMk I fi fb) = Ret fb (MkMk I fi (fb + 1)).
Proof.
  intros HI Hlt. pose proof (io_fb _ _ HI). assert (0 <= ds) by done. unfold FSSIZE in *.
  change (new_block n (MkMk I fi fb)) with (@Ret mk Z (xint fb) (MkMk I fi (u32 (fb + 1)))). rewrite u32_small, xint_id by lia. done.
Qed.

Section block.
Context (n : nat) {I : gmap Z (list Z)} {fi fb i : Z} {din : dinode}.
Local Notation V := (view I fb).
Context (HI : img_ok I fb) (Hx : file_ok ds S V (ino i din)).

Lemma addr_small j : 0 <= j <= NDIRECT -> 0 <= din_addr din j < 2 ^ 32 /\ (din_addr din j <> 0 -> ds <= din_addr din j < fb).
Proof.
  intros Hj. pose proof (io_fb _ _ HI) as Hfb. assert (0 <= ds) by done. unfold FSSIZE in *.
  assert (din_addr din j <> 0 -> ds <= din_addr din j < fb) as Hr.
  { intros Hz. destruct (decide (j = NDIRECT)) as [->|Hne].
    - apply (view_data HI). exact (fo_ind Hx Hz).
    - assert (0 <= j < MAXFILE) as Hj' by (change MAXFILE with 268; change NDIRECT with 12 in *; lia).
      assert (fblk V (ino i din) j = din_addr din j) as E by (unfold fblk; rewrite (proj2 (Z.ltb_lt j NDIRECT)) by lia; done).
      apply (view_data HI). rewrite <- E. apply (fo_blk Hx j Hj'). by rewrite E. }
  split; [|done]. destruct (decide (din_addr din j = 0)) as [->|Hz]; [lia|]. specialize (Hr Hz). lia.
Qed.

Lemma xint_addr j : 0 <= j <= NDIRECT -> xint (din_addr din j) = din_addr din j.
Proof. intros Hj. apply xint_id. by apply addr_small. Qed.

(** A direct block. *)
Lemma block_direct bn : 0 <= bn < NDIRECT -> (fblk V (ino i din) bn = 0 -> fb < FSSIZE) ->
  let fb' := if fblk V (ino i din) bn =? 0 then fb + 1 else fb in
  exists a din', iappend_block bn din n (MkMk I fi fb) = Ret (a, din') (MkMk I fi fb') /\ placed I fb (ino i din) bn a I fb' (ino i din') /\
    (forall j, j <> bn -> 0 <= j -> din_addr din' j = din_addr din j) /\ length (di_addrs din') = 13%nat.
Proof.
  intros Hbn Hroom fb'. assert (fblk V (ino i din) bn = din_addr din bn) as E by (unfold fblk; rewrite (proj2 (Z.ltb_lt bn NDIRECT)) by lia; done).
  unfold fb' in *. rewrite E in *. unfold iappend_block. rewrite (proj2 (Z.ltb_lt bn NDIRECT)) by lia. rewrite xint_addr by lia.
  destruct (Z.eqb_spec (din_addr din bn) 0) as [Ez|Ez].
  - specialize (Hroom Ez). destruct (img_alloc HI Hroom) as (HI' & _ & Ev & Hr & Hfree). exists fb, (set_din_addr bn fb din).
    pose proof (io_fb _ _ HI) as Hfb. assert (0 < ds) by done. unfold FSSIZE in *.
    assert (din_addr (set_din_addr bn fb din) bn = fb) as Ea. { unfold din_addr, set_din_addr. cbn. rewrite list_lookup_insert_eq; [done|]. pose proof (fo_len Hx) as Hl. cbn in Hl. rewrite Hl. change NDIRECT with 12 in *. lia. }
    split_and!; [|split| |].
    + erewrite bind_ret; [|erewrite bind_ret; [|by apply new_block_ok]; reflexivity]. rewrite Ea, xint_id by lia. done.
    + done.
    + rewrite Ev. apply (extend_direct (x := ino i din) (view_fs HI) (view_wf HI) Hx Hr Hfree bn Hbn Ez).
    + rewrite Ev. apply (extend_direct (x := ino i din) (view_fs HI) (view_wf HI) Hx Hr Hfree bn Hbn Ez).
    + lia.
    + intros c Hc. left. lia.
    + lia.
    + change (addr_of (ino i (set_din_addr bn fb din)) NDIRECT) with (addr_of (with_addr (ino i din) bn fb) NDIRECT). rewrite addr_with_ne by lia. lia.
    + intros j Hj Hj0. unfold din_addr, set_din_addr. cbn. by rewrite list_lookup_insert_ne by lia.
    + cbn. rewrite length_insert. apply (fo_len Hx).
  - exists (din_addr din bn), din. split_and!; [| |done|apply (fo_len Hx)].
    + erewrite bind_ret; [|reflexivity]. by rewrite xint_addr by lia.
    + split; [done|apply mapped_refl; [apply (view_fs HI)|apply (view_wf HI)|done]|done|done|intros; lia|lia|lia].
Qed.

(** The entry of an indirect block, once the indirect block is there. *)
Definition iappend_entry (fbn : Z) (din : dinode) : M mk (Z * dinode) :=
  indirect ← rsect (xint (din_addr din NDIRECT));
  indirect ← (if rd_u32 indirect (4 * (fbn - NDIRECT)) =? 0 then
                b ← new_block;
                let indirect := wr_u32 indirect (4 * (fbn - NDIRECT)) b in
                wsect (xint (din_addr din NDIRECT)) indirect ;;
                mret indirect
              else mret indirect);
  mret (xint (rd_u32 indirect (4 * (fbn - NDIRECT))), din).

Lemma block_entry bn : NDIRECT <= bn < MAXFILE -> din_addr din NDIRECT <> 0 -> (fblk V (ino i din) bn = 0 -> fb < FSSIZE) ->
  let fb' := if fblk V (ino i din) bn =? 0 then fb + 1 else fb in
  exists a I', iappend_entry bn din n (MkMk I fi fb) = Ret (a, din) (MkMk I' fi fb') /\ placed I fb (ino i din) bn a I' fb' (ino i din) /\
    (forall c, c < ds -> I' !! c = I !! c).
Proof.
  intros Hbn Hz Hroom fb'. set (ia := din_addr din NDIRECT) in *. destruct (addr_small NDIRECT ltac:(done)) as [Hs Hir]. specialize (Hir Hz). fold ia in Hir, Hs.
  destruct (rsect_data HI n fi ia Hir) as (d & Hd & Hdl & Hdv & Erd). pose proof (io_fb _ _ HI) as Hfb. assert (0 < ds) by done.
  assert (fblk V (ino i din) bn = rd_u32 d (4 * (bn - NDIRECT))) as E.
  { unfold fblk. rewrite (proj2 (Z.ltb_ge bn NDIRECT)) by lia. change (addr_of (ino i din) NDIRECT) with ia. rewrite (proj2 (Z.eqb_neq ia 0) Hz), Hdv. done. }
  assert (0 <= bn < MAXFILE) as Hbn' by (change NDIRECT with 12 in *; lia).
  unfold iappend_entry. fold ia. rewrite xint_id by done. rewrite (bind_ret _ _ _ _ _ _ Erd). unfold fb' in *. rewrite E in *.
  destruct (Z.eqb_spec (rd_u32 d (4 * (bn - NDIRECT))) 0) as [Ez|Ez].
  - specialize (Hroom Ez). destruct (img_alloc HI Hroom) as (HI' & _ & Ev & Hr & Hfree).
    set (d' := wr_u32 d (4 * (bn - NDIRECT)) fb). assert (0 <= 4 * (bn - NDIRECT) /\ 4 * (bn - NDIRECT) + 4 <= BSIZE) as Hoff by (change MAXFILE with 268 in *; change NDIRECT with 12 in *; unfold BSIZE; lia).
    assert (length d' = Z.to_nat BSIZE) as Hdl' by (unfold d'; rewrite wr_u32_length; szs).
    destruct (img_write HI' ia d' ltac:(lia) Hdl') as [HI2 Ev2]. rewrite Ev in Ev2.
    pose proof (extend_entry (view_fs HI) (view_wf HI) Hx Hr Hfree Hbn Hz Hdv (eq_trans E Ez)) as [M1 M2]. unfold FSSIZE in *.
    exists fb, (<[ia := d']> I). split_and!; [|split; [done|by rewrite Ev2|by rewrite Ev2|lia|intros c Hc; left; lia|lia|split; [by left|done]]|intros c Hc; rewrite lookup_insert_ne; [done|lia]].
    erewrite bind_ret; [|erewrite bind_ret; [|by apply new_block_ok]; reflexivity]. cbn [img]. unfold sector. unfold u32 at 1.
    replace (rd_u32 (wr_u32 d (4 * (bn - NDIRECT)) fb) (4 * (bn - NDIRECT))) with fb by (symmetry; apply rd_wr_u32_eq; szs).
    rewrite xint_id by lia. unfold mret, M_ret, upd. cbn. rewrite Z.mod_small, Z.div_mul by (unfold BSIZE; lia). done.
  - exists (rd_u32 d (4 * (bn - NDIRECT))), I. assert (ds <= rd_u32 d (4 * (bn - NDIRECT)) < fb) as Hra.
    { apply (view_data HI). rewrite <- E. apply (fo_blk Hx bn Hbn'). by rewrite E. }
    unfold FSSIZE in *. split_and!; [| |done].
    + erewrite bind_ret; [|reflexivity]. by rewrite xint_id by lia.
    + split; [done|apply mapped_refl; [apply (view_fs HI)|apply (view_wf HI)|done]|done|done|intros; lia|lia|split; [by left|done]].
Qed.
End block.

(** The fields the allocation of blocks leaves alone. *)
Definition same_din (d d' : dinode) : Prop :=
  exists l, d' = MkDinode (di_type d) (di_major d) (di_minor d) (di_nlink d) (di_size d) l.

Lemma same_din_set d j a : same_din d (set_din_addr j a d).
Proof. by eexists. Qed.

Lemma cost_same off off' : 0 <= off -> off mod BSIZE <> 0 -> off < off' <= (off / BSIZE + 1) * BSIZE -> cost off' = cost off.
Proof.
  intros H1 H2 H3. unfold cost. change NDIRECT with 12. unfold BSIZE in *.
  destruct (Z.ltb_spec (12 * 1024) off), (Z.ltb_spec (12 * 1024) off'); lia.
Qed.

Lemma cost_next off off' : 0 <= off -> off mod BSIZE = 0 -> off < off' <= (off / BSIZE + 1) * BSIZE ->
  cost off' = cost off + 1 + (if off / BSIZE =? NDIRECT then 1 else 0).
Proof.
  intros H1 H2 H3. unfold cost. change NDIRECT with 12. unfold BSIZE in *.
  destruct (Z.ltb_spec (12 * 1024) off), (Z.ltb_spec (12 * 1024) off'), (Z.eqb_spec (off / 1024) 12); lia.
Qed.

Section place.
Context (n : nat) {I : gmap Z (list Z)} {fi fb i off off' : Z} {din : dinode}.
Local Notation V := (view I fb).
Local Notation bn := (off / BSIZE).
Context (HI : img_ok I fb) (Hx : file_ok ds S V (ino i din)) (Hfull : full V (ino i din) off).
Context (Hoff : 0 <= off < off') (Hoff' : off' <= (bn + 1) * BSIZE) (Hbn : bn < MAXFILE).
Context (Hroom : fb + cost off' - cost off <= FSSIZE).

Lemma bn_there : fblk V (ino i din) bn = 0 <-> off mod BSIZE = 0.
Proof.
  clear Hroom. destruct Hfull as [Hf _]. assert (0 <= bn < MAXFILE) as Hb by (unfold BSIZE in *; lia). specialize (Hf bn Hb). unfold BSIZE in *.
  destruct (decide (fblk V (ino i din) (off / 1024) = 0)); lia.
Qed.

(** Allocating the indirect block and then the block. *)
Lemma block_both : bn = NDIRECT -> din_addr din NDIRECT = 0 -> off mod BSIZE = 0 ->
  exists a din' I', iappend_block bn din n (MkMk I fi fb) = Ret (a, din') (MkMk I' fi (fb + 2)) /\
    placed I fb (ino i din) bn a I' (fb + 2) (ino i din') /\ (forall c, c < ds -> I' !! c = I !! c) /\ same_din din din'.
Proof.
  intros Eb Ez Em. pose proof (cost_next off off' ltac:(lia) Em ltac:(lia)) as Ec. rewrite (proj2 (Z.eqb_eq bn NDIRECT) Eb) in Ec.
  pose proof (io_fb _ _ HI) as Hfb. assert (0 < ds) by done. destruct (img_alloc HI ltac:(lia)) as (HI1 & Hz1 & Ev & Hr & Hfree).
  set (din1 := set_din_addr NDIRECT fb din).
  destruct (extend_indirect (view_fs HI) (view_wf HI) Hx Hr Hfree Ez) as [M1 Ea]. rewrite <- Ev in M1.
  change (with_addr (ino i din) NDIRECT fb) with (ino i din1) in *. change (addr_of (ino i din1) NDIRECT) with (din_addr din1 NDIRECT) in Ea.
  assert (fblk (view I (fb + 1)) (ino i din1) bn = 0) as Ef.
  { unfold fblk. rewrite Eb, Z.ltb_irrefl. change (addr_of (ino i din1) NDIRECT) with (din_addr din1 NDIRECT). rewrite Ea, (proj2 (Z.eqb_neq fb 0)) by lia.
    rewrite view_lookup by (change ds with 46 in *; lia). rewrite Hz1. apply rd_zeros. }
  destruct (block_entry n (fi := fi) HI1 (mp_file _ _ _ _ _ _ _ M1) bn ltac:(rewrite Eb; done) ltac:(rewrite Ea; lia) ltac:(lia)) as (a & I' & E & P & Hm).
  rewrite (proj2 (Z.eqb_eq _ 0) Ef) in E, P. replace (fb + 1 + 1) with (fb + 2) in * by lia.
  exists a, din1, I'. split_and!; [| |done|apply same_din_set].
  - unfold iappend_block. rewrite (proj2 (Z.ltb_ge bn NDIRECT)) by lia. rewrite Ez. change (xint 0 =? 0) with true. cbv iota.
    erewrite bind_ret; [|erewrite bind_ret; [|apply new_block_ok; [done|lia]]; reflexivity]. exact E.
  - destruct P as [P1 P2 P3 P4 P5 P6 P7]. split; [done|eapply mapped_trans; [exact M1|exact P2]|done|done| |lia|].
    + intros c Hc. destruct (decide (c = fb)) as [->|]; [right; by rewrite <- Ea|]. apply P5. lia.
    + change (addr_of (ino i din1) NDIRECT) with (din_addr din1 NDIRECT). rewrite Ea, Eb. split; [by right|lia].
Qed.

Lemma block_any : exists a din' I', iappend_block bn din n (MkMk I fi fb) = Ret (a, din') (MkMk I' fi (fb + cost off' - cost off)) /\
    placed I fb (ino i din) bn a I' (fb + cost off' - cost off) (ino i din') /\ (forall c, c < ds -> I' !! c = I !! c) /\ same_din din din'.
Proof.
  pose proof bn_there as Hth. assert (0 <= bn) as Hb0 by (unfold BSIZE; lia). pose proof (io_fb _ _ HI) as Hfb.
  assert (fblk V (ino i din) bn = 0 -> fb < FSSIZE) as Hlt.
  { intros Hz%Hth. pose proof (cost_next off off' ltac:(lia) Hz ltac:(lia)). destruct (bn =? NDIRECT); lia. }
  assert (bn <> NDIRECT \/ off mod BSIZE <> 0 -> (if fblk V (ino i din) bn =? 0 then fb + 1 else fb) = fb + cost off' - cost off) as Hfb'.
  { intros Hc. destruct (Z.eqb_spec (fblk V (ino i din) bn) 0) as [Ez|Ez].
    - apply Hth in Ez. rewrite (cost_next off off') by lia. destruct (Z.eqb_spec bn NDIRECT); lia.
    - rewrite (cost_same off off'); [lia|lia|tauto|lia]. }
  destruct (decide (bn < NDIRECT)) as [Hd|Hd].
  - destruct (block_direct n (fi := fi) HI Hx bn ltac:(lia) Hlt) as (a & din' & E & P & Hk & Hl). rewrite Hfb' in E, P by lia.
    exists a, din', I. split_and!; [done|done|done|].
    revert E. unfold iappend_block. rewrite (proj2 (Z.ltb_lt bn NDIRECT)) by lia. destruct (xint _ =? 0).
    + intros [= _ <- _]. apply same_din_set.
    + intros [= _ <- _]. exists (di_addrs din). by destruct din.
  - destruct (decide (din_addr din NDIRECT = 0)) as [Ez|Ez].
    + assert (bn = NDIRECT /\ off mod BSIZE = 0) as [Eb Em].
      { destruct Hfull as [_ Hi]. change (addr_of (ino i din) NDIRECT) with (din_addr din NDIRECT) in Hi. rewrite Ez in Hi. change NDIRECT with 12 in *. unfold BSIZE in *. lia. }
      destruct (block_both Eb Ez Em) as (a & din' & I' & E & P & Hm & Hs). exists a, din', I'.
      replace (fb + cost off' - cost off) with (fb + 2); [done|]. rewrite (cost_next off off') by lia. rewrite (proj2 (Z.eqb_eq bn NDIRECT) Eb). lia.
    + destruct (block_entry n (fi := fi) HI Hx bn ltac:(lia) Ez Hlt) as (a & I' & E & P & Hm).
      assert (bn <> NDIRECT \/ off mod BSIZE <> 0) as Hc.
      { destruct Hfull as [_ Hi]. change (addr_of (ino i din) NDIRECT) with (din_addr din NDIRECT) in Hi. change NDIRECT with 12 in *. unfold BSIZE in *. lia. }
      rewrite Hfb' in E, P by done. exists a, din, I'. split_and!; [|done|done|exists (di_addrs din); by destruct din].
      unfold iappend_block. rewrite (proj2 (Z.ltb_ge bn NDIRECT)) by lia. rewrite (xint_addr HI Hx), (proj2 (Z.eqb_neq _ 0) Ez) by done.
      rewrite (bind_ret (mret din) _ _ _ _ _ eq_refl). exact E.
Qed.

Lemma full_next a I' x' : placed I fb (ino i din) bn a I' (fb + cost off' - cost off) x' -> full (view I' (fb + cost off' - cost off)) x' off'.
Proof.
  intros P. destruct Hfull as [F1 F2]. pose proof P as [P1 P2 P3 P4 P5 P6 P7]. assert (0 <= bn < MAXFILE) as Hb by (unfold BSIZE in *; lia). split.
  - intros c Hc. destruct (decide (c = bn)) as [->|Hne]; [rewrite P3; unfold BSIZE in *; lia|].
    rewrite (placed_ne _ _ _ _ _ _ _ _ _ HI P Hb Hc Hne), F1 by done. unfold BSIZE in *. lia.
  - rewrite P7, F2. change NDIRECT with 12. unfold BSIZE in *. lia.
Qed.
End place.

(** ** [iappend] *)

(** The loop has written [bytes] to the file at [off]. *)
Record appended (I : gmap Z (list Z)) (fb i : Z) (din : dinode) (off : Z) (bytes : list Z) (I' : gmap Z (list Z)) (fb' : Z) (din' : dinode) : Prop := {
  pd_img : img_ok I' fb';
  pd_fb : fb' = fb + cost (off + Z.of_nat (length bytes)) - cost off;
  pd_wrote : fwrote 2 ds S (view I fb) (ino i din) off bytes (view I' fb') (ino i din');
  pd_full : full (view I' fb') (ino i din') (off + Z.of_nat (length bytes));
  pd_meta : forall c, c < ds -> I' !! c = I !! c;
  pd_din : same_din din din'
}.

Lemma same_din_trans d d' d'' : same_din d d' -> same_din d' d'' -> same_din d d''.
Proof. intros [l ->] [l' ->]. by exists l'. Qed.

Lemma appended_trans I fb i din off b1 I1 fb1 din1 b2 I2 fb2 din2 :
  appended I fb i din off b1 I1 fb1 din1 -> appended I1 fb1 i din1 (off + Z.of_nat (length b1)) b2 I2 fb2 din2 ->
  appended I fb i din off (b1 ++ b2) I2 fb2 din2.
Proof.
  intros [A1 A2 A3 A4 A5 A6] [B1 B2 B3 B4 B5 B6]. assert (off + Z.of_nat (length (b1 ++ b2)) = off + Z.of_nat (length b1) + Z.of_nat (length b2)) as E by (rewrite length_app; lia).
  split; [done|rewrite E; lia|by eapply fwrote_trans|by rewrite E|intros c Hc; by rewrite B5, A5|by eapply same_din_trans].
Qed.

Lemma wsect_ok n a d I fi fb : 0 <= a < FSSIZE -> wsect a d n (MkMk I fi fb) = Ret tt (MkMk (<[a := d]> I) fi fb).
Proof. intros Ha. unfold wsect, modify, upd. cbn [img]. by rewrite sector_id. Qed.

Lemma iappend_step n I fi fb i din off p : img_ok I fb -> file_ok ds S (view I fb) (ino i din) -> full (view I fb) (ino i din) off -> p <> [] ->
  0 <= off -> off + Z.of_nat (length p) <= MAXFILE * BSIZE ->
  let n1 := Z.min (Z.of_nat (length p)) ((off / BSIZE + 1) * BSIZE - off) in
  fb + cost (off + n1) - cost off <= FSSIZE ->
  exists I' fb' din', iappend_body (p, off, din) n (MkMk I fi fb) = Ret (inl (drop (Z.to_nat n1) p, off + n1, din')) (MkMk I' fi fb') /\
    appended I fb i din off (take (Z.to_nat n1) p) I' fb' din'.
Proof.
  intros HI Hx Hfull Hp Hoff Hend n1 Hroom. assert (0 < Z.of_nat (length p)) as Hlp by (destruct p; [done|cbn; lia]).
  assert (0 < n1 <= Z.of_nat (length p) /\ off + n1 <= (off / BSIZE + 1) * BSIZE) as Hn1 by (unfold n1, BSIZE in *; lia).
  assert (in_file off) as Hin by (unfold in_file; lia). pose proof (in_file_blk off Hin) as Hbn.
  destruct (block_any n (fi := fi) HI Hx Hfull (off' := off + n1) ltac:(lia) ltac:(lia) ltac:(lia) ltac:(lia)) as (a & din' & I1 & E & P & Hm & Hs).
  pose proof (full_next (off' := off + n1) HI Hfull ltac:(lia) ltac:(lia) ltac:(lia) a I1 (ino i din') P) as Hfull'.
  set (fb' := fb + cost (off + n1) - cost off) in *. pose proof P as [P1 P2 P3 P4 P5 P6 P7]. pose proof (io_fb _ _ P1) as Hfb'. assert (0 < ds) by done.
  pose proof (proj1 (view_data P1 _) (proj1 (fo_blk (mp_file _ _ _ _ _ _ _ P2) _ Hbn ltac:(by rewrite P3)))) as Har. rewrite P3 in Har.
  destruct (rsect_data P1 n fi a Har) as (d & Hd & Hdl & Hdv & Erd).
  assert (length (take (Z.to_nat n1) p) = Z.to_nat n1) as Hlt by (rewrite length_take; lia).
  assert (off mod BSIZE + Z.of_nat (length (take (Z.to_nat n1) p)) <= BSIZE) as Hfit by (rewrite Hlt; unfold BSIZE in *; lia).
  assert (off - off / BSIZE * BSIZE = off mod BSIZE) as Emod by (unfold BSIZE; lia).
  set (d' := splice (off mod BSIZE) (take (Z.to_nat n1) p) d).
  assert (length d' = Z.to_nat BSIZE) as Hdl' by (unfold d'; rewrite splice_length; [done|unfold BSIZE; lia|rewrite Hlt; unfold BSIZE in *; lia]).
  destruct (img_write P1 a d' Har Hdl') as [HI2 Ev2].
  exists (<[a := d']> I1), fb', din'. split.
  - unfold iappend_body. rewrite (proj2 (Z.ltb_lt 0 (Z.of_nat (length p)))) by lia. cbn [negb]. rewrite (proj2 (Z.ltb_lt (off / BSIZE) MAXFILE)) by lia. cbn [negb].
    rewrite (bind_ret _ _ _ _ _ _ E). cbv beta iota. rewrite (bind_ret _ _ _ _ _ _ Erd), Emod. fold n1 d'.
    rewrite (bind_ret _ _ _ _ _ _ (wsect_ok n a d' I1 fi fb' ltac:(lia))). rewrite u32_small by (assert (MAXFILE * BSIZE < 2 ^ 31) by done; lia). done.
  - assert (fwrote 2 ds S (view I1 fb') (ino i din') off (take (Z.to_nat n1) p) (view (<[a := d']> I1) fb') (ino i din')) as FW.
    { rewrite Ev2. pose proof (fwrote_piece (bytes := take (Z.to_nat n1) p) (d := d) (mp_fs _ _ _ _ _ _ _ P2) (mp_wf _ _ _ _ _ _ _ P2) (mp_file _ _ _ _ _ _ _ P2) Hin) as H0.
      rewrite P3 in H0. by apply H0. }
    assert (off + Z.of_nat (length (take (Z.to_nat n1) p)) = off + n1) as El by (rewrite Hlt; lia).
    split; [done|unfold fb'; by rewrite El| | |intros c Hc; rewrite lookup_insert_ne; [by apply Hm|lia]|done].
    + eapply (fwrote_trans _ _ _ _ _ off [] _ _ (take (Z.to_nat n1) p)); [by apply fwrote_mapped|]. cbn [length]. rewrite Z.add_0_r. exact FW.
    + rewrite El. destruct Hfull' as [F1 F2]. split; [|done]. intros c Hc. rewrite <- F1 by done. f_equiv.
      pose proof (piece_fblk (bytes := take (Z.to_nat n1) p) (d := d) (mp_file _ _ _ _ _ _ _ P2) Hin ltac:(by rewrite P3) c Hc) as H0. rewrite P3 in H0.
      rewrite Ev2. unfold d'. by rewrite H0.
Qed.

Lemma cost_mono a b : 0 <= a <= b -> cost a <= cost b.
Proof. intros H. unfold cost. change NDIRECT with 12. unfold BSIZE. destruct (Z.ltb_spec (12 * 1024) a), (Z.ltb_spec (12 * 1024) b); lia. Qed.

Lemma iappend_loop n i fi c : forall fuel I fb din off p, img_ok I fb -> file_ok ds S (view I fb) (ino i din) -> full (view I fb) (ino i din) off ->
  0 <= off -> off + Z.of_nat (length p) <= MAXFILE * BSIZE -> fb + cost (off + Z.of_nat (length p)) - cost off <= FSSIZE ->
  off mod BSIZE + Z.of_nat (length p) <= BSIZE * Z.of_nat c \/ p = [] -> (c < fuel)%nat ->
  exists I' fb' din', mwhile fuel iappend_body (p, off, din) n (MkMk I fi fb) = Ret (off + Z.of_nat (length p), din') (MkMk I' fi fb') /\
    appended I fb i din off p I' fb' din'.
Proof.
  induction c as [|c IH]; intros fuel I fb din off p HI Hx Hfull Hoff Hend Hroom Hc Hf; (destruct fuel as [|fuel]; [lia|]);
    pose proof (Z.mod_pos_bound off BSIZE ltac:(done)) as Hmod;
    (destruct (decide (p = [])) as [->|Hp];
    [exists I, fb, din; cbn [length] in *; rewrite Z.add_0_r in *; split; [by apply mwhile_inr|];
     split; cbn [length]; rewrite ?Z.add_0_r; [done|lia| |done|done|exists (di_addrs din); by destruct din];
     apply fwrote_mapped, mapped_refl; [apply (view_fs HI)|apply (view_wf HI)|done]|]); (destruct Hc as [Hc|]; [|done]).
  - exfalso. destruct p; [done|]. cbn in Hc. lia.
  - set (n1 := Z.min (Z.of_nat (length p)) ((off / BSIZE + 1) * BSIZE - off)). assert (0 < Z.of_nat (length p)) as Hlp by (destruct p; [done|cbn; lia]).
    assert (0 < n1 <= Z.of_nat (length p)) as Hn1 by (unfold n1, BSIZE in *; lia).
    destruct (iappend_step n I fi fb i din off p HI Hx Hfull Hp Hoff Hend) as (I1 & fb1 & din1 & E & A); fold n1.
    { pose proof (cost_mono (off + n1) (off + Z.of_nat (length p)) ltac:(lia)). lia. }
    fold n1 in E, A. assert (length (take (Z.to_nat n1) p) = Z.to_nat n1) as Hlt by (rewrite length_take; lia).
    pose proof A as [A1 A2 A3 A4 A5 A6]. rewrite Hlt in A2, A4. replace (off + Z.of_nat (Z.to_nat n1)) with (off + n1) in * by lia.
    destruct (IH fuel I1 fb1 din1 (off + n1) (drop (Z.to_nat n1) p)) as (I2 & fb2 & din2 & E2 & B); rewrite ?length_drop; try done; try lia; try apply A3.
    + replace (off + n1 + Z.of_nat (length p - Z.to_nat n1)) with (off + Z.of_nat (length p)) by lia. lia.
    + destruct (decide (n1 = Z.of_nat (length p))) as [En|En]; [right; apply drop_ge; lia|left]. assert (n1 = (off / BSIZE + 1) * BSIZE - off) as E1 by (unfold n1 in *; lia).
      replace ((off + n1) mod BSIZE) with 0; [unfold BSIZE in *; lia|]. rewrite E1. replace (off + ((off / BSIZE + 1) * BSIZE - off)) with ((off / BSIZE + 1) * BSIZE) by lia.
      symmetry. by apply Z.mod_mul.
    + exists I2, fb2, din2. rewrite (mwhile_inl _ _ _ _ _ _ _ E), E2. rewrite length_drop. split; [do 2 f_equal; lia|].
      rewrite <- (take_drop (Z.to_nat n1) p). eapply appended_trans; [exact A|]. rewrite Hlt. by replace (off + Z.of_nat (Z.to_nat n1)) with (off + n1) by lia.
Qed.
