(* ===== verification/MkfsTheorems.v ===== *)
(** * The file system mkfs leaves

    The invariant of the image under construction, its preservation by every
    step of mkfs, and the theorems about the finished image. *)

From Stdlib Require Import ZArith Lia.
From S2P Require Import Prelude Riscv KString Kern Blocks Bio BioSpec BioOps Log LogSpec Crash Txn Fs Balloc Files ReadWrite FileTheorems Printf Mkfs MkfsSpec.

Local Notation S := mk_sb.
Local Notation ds := nmeta.

(** ** Files that share no blocks *)

Lemma apart_same V V' x x' y y' :
  (forall bn, 0 <= bn < MAXFILE -> fblk V' x' bn = fblk V x bn) -> addr_of x' NDIRECT = addr_of x NDIRECT ->
  (forall bn, 0 <= bn < MAXFILE -> fblk V' y' bn = fblk V y bn) -> addr_of y' NDIRECT = addr_of y NDIRECT -> apart V x y -> apart V' x' y'.
Proof.
  intros X1 X2 Y1 Y2 [A1 A2]. split; rewrite ?X2, ?Y2.
  - intros bn Hbn. rewrite Y1 by done. intros Hz. destruct (A1 bn Hbn Hz) as [B1 B2]. split; [done|]. intros bn' Hbn'. rewrite X1 by done. by apply B2.
  - intros Hz. destruct (A2 Hz) as [B1 B2]. split; [done|]. intros bn' Hbn'. rewrite X1 by done. by apply B2.
Qed.

Section others.
Context {off : Z} {V V' : gmap Z (list Z)} {x x' y : inode} {bytes : list Z}.
Context (FW : fwrote 2 ds S V x off bytes V' x') (Hy : file_ok ds S V y) (Hap : apart V x y).

Lemma other_blk bn : 0 <= bn < MAXFILE -> fblk V' y bn = fblk V y bn /\ fdata V' y bn = fdata V y bn.
Proof. intros Hbn. by apply (fwrote_apart 2 ds S V x off bytes V' x' y bn FW Hy Hap). Qed.

Lemma other_file : file_ok ds S V' y.
Proof.
  split; [apply Hy|apply Hy| | |].
  - intros Hz. by apply (fwrote_block FW), (fo_ind Hy).
  - intros bn Hbn. destruct (other_blk bn Hbn) as [-> _]. intros Hz. destruct (fo_blk Hy bn Hbn Hz). split; [by apply (fwrote_block FW)|done].
  - intros bn bn' H1 H2. destruct (other_blk bn H1) as [-> _], (other_blk bn' H2) as [-> _]. by apply (fo_inj Hy).
Qed.

(** New blocks were nobody's. *)
Lemma not_others c : data_block ds S V c -> (c <> addr_of x NDIRECT /\ forall bn, 0 <= bn < MAXFILE -> fblk V x bn <> c) ->
  c <> addr_of x' NDIRECT /\ forall bn, 0 <= bn < MAXFILE -> fblk V' x' bn <> c.
Proof.
  intros Hc [H1 H2]. split.
  - intros ->. apply H1. by apply (fw_fresh FW).
  - intros bn Hbn E. apply (H2 bn Hbn). rewrite <- E in Hc |- *. symmetry. by apply (fw_new FW).
Qed.

Lemma other_apart : apart V' x' y /\ apart V' y x'.
Proof.
  destruct Hap as [A1 A2].
  assert (forall bn, 0 <= bn < MAXFILE -> fblk V y bn <> 0 -> fblk V y bn <> addr_of x' NDIRECT /\ forall bn', 0 <= bn' < MAXFILE -> fblk V' x' bn' <> fblk V y bn) as B1.
  { intros bn Hbn Hz. apply not_others; [by apply (fo_blk Hy)|by apply A1]. }
  assert (addr_of y NDIRECT <> 0 -> addr_of y NDIRECT <> addr_of x' NDIRECT /\ forall bn', 0 <= bn' < MAXFILE -> fblk V' x' bn' <> addr_of y NDIRECT) as B2.
  { intros Hz. apply not_others; [by apply (fo_ind Hy)|by apply A2]. }
  split; split.
  - intros bn Hbn. destruct (other_blk bn Hbn) as [-> _]. by apply B1.
  - exact B2.
  - intros bn Hbn Hz. split; [intros E; destruct B2 as [_ B2']; [congruence|by apply (B2' bn Hbn)]|].
    intros bn' Hbn'. destruct (other_blk bn' Hbn') as [-> _]. intros E. destruct (B1 bn' Hbn') as [_ B1']; [congruence|]. by apply (B1' bn Hbn).
  - intros Hz. split; [intros E; destruct B2 as [B2' _]; [congruence|done]|].
    intros bn' Hbn'. destruct (other_blk bn' Hbn') as [-> _]. intros E. destruct (B1 bn' Hbn') as [B1' _]; [congruence|done].
Qed.
End others.

(** ** The invariant *)

Definition fnode (V : gmap Z (list Z)) (i : Z) : inode := ino i (disk_inode S V i).

(** Inode [i] is a file of type [ty] with contents [l]. *)
Record holds (V : gmap Z (list Z)) (i ty : Z) (l : list Z) : Prop := {
  ho_file : file_ok ds S V (fnode V i);
  ho_full : full V (fnode V i) (Z.of_nat (length l));
  ho_size : di_size (disk_inode S V i) = Z.of_nat (length l);
  ho_type : di_type (disk_inode S V i) = ty;
  ho_nlink : di_nlink (disk_inode S V i) = 1;
  ho_wf : dinode_wf (disk_inode S V i);
  ho_byte : forall a, in_file a -> fbyte V (fnode V i) a = byte_at l a;
  ho_max : Z.of_nat (length l) <= MAXFILE * BSIZE
}.

Lemma holds_read V i ty l : holds V i ty l -> fread V (fnode V i) 0 (length l) = l.
Proof.
  intros H. apply list_eq. intros j. destruct (decide (j < length l)%nat) as [Hj|Hj]; [|rewrite !lookup_ge_None_2; [done|lia|rewrite fread_length; lia]].
  pose proof (ho_max _ _ _ _ H) as Hm. rewrite fread_lookup, (ho_byte _ _ _ _ H) by (done || unfold in_file; lia). unfold byte_at.
  replace (Z.to_nat (0 + Z.of_nat j)) with j by lia. by destruct (lookup_lt_is_Some_2 l j Hj) as [b ->].
Qed.

Definition total (F : list (Z * list Z)) : Z := foldr (fun f t => cost (Z.of_nat (length f.2)) + t) 0 F.

Record mk_ok (st : mk) (F : list (Z * list Z)) : Prop := {
  mo_img : img_ok (img st) (freeblock st);
  mo_fi : freeinode st = 1 + Z.of_nat (length F);
  mo_n : 1 + Z.of_nat (length F) <= NINODES;
  mo_fb : freeblock st = ds + total F;
  mo_file : forall j ty l, F !! j = Some (ty, l) -> holds (view (img st) (freeblock st)) (1 + Z.of_nat j) ty l;
  mo_apart : forall j j', (j < length F)%nat -> (j' < length F)%nat -> j <> j' ->
    apart (view (img st) (freeblock st)) (fnode (view (img st) (freeblock st)) (1 + Z.of_nat j)) (fnode (view (img st) (freeblock st)) (1 + Z.of_nat j'));
  mo_free : forall i, 1 + Z.of_nat (length F) <= i < NINODES -> di_type (disk_inode S (view (img st) (freeblock st)) i) = 0;
  mo_sb : img st !! 1 = Some (splice 0 (enc_sb mk_sb) zeroes);
  mo_log : img st !! 2 = Some zeroes
}.

Lemma total_insert F j ty l l' : F !! j = Some (ty, l) -> total (<[j := (ty, l')]> F) = total F + cost (Z.of_nat (length l')) - cost (Z.of_nat (length l)).
Proof.
  revert j. induction F as [|f F IH]; intros [|j] Hj; [done|done|by injection Hj as ->; cbn; lia|].
  change (cost (Z.of_nat (length f.2)) + total (<[j := (ty, l')]> F) = cost (Z.of_nat (length f.2)) + total F + cost (Z.of_nat (length l')) - cost (Z.of_nat (length l))).
  rewrite (IH j Hj). lia.
Qed.
Lemma total_snoc F ty : total (F ++ [(ty, [])]) = total F.
Proof. induction F as [|f F IH]; [done|]. change (cost (Z.of_nat (length f.2)) + total (F ++ [(ty, [])]) = cost (Z.of_nat (length f.2)) + total F). by rewrite IH. Qed.

(** ** Inode blocks *)

Section inode_block.
Context {I : gmap Z (list Z)} {fb : Z} (HI : img_ok I fb) (n : nat) {fi : Z}.

Lemma rsect_inode i : 0 <= i < NINODES -> exists l, I !! IBLOCK i S = Some l /\ view I fb !! IBLOCK i S = Some l /\ length l = Z.to_nat BSIZE /\
  rsect (IBLOCK i S) n (MkMk I fi fb) = Ret l (MkMk I fi fb).
Proof.
  intros Hi. destruct (mk_iblock i Hi) as [_ Hb]. destruct (io_dom _ _ HI (IBLOCK i S)) as (l & Hl & Hll); [unfold FSSIZE; lia|]. exists l.
  split_and!; [done|rewrite view_lookup by lia; done|done|]. unfold rsect, gets, mbind, M_bind. cbn [bind_res]. rewrite sector_id by (unfold FSSIZE; lia). cbn [img]. by rewrite Hl.
Qed.

Lemma rinode_ok i : 0 <= i < NINODES -> rinode i n (MkMk I fi fb) = Ret (disk_inode S (view I fb) i) (MkMk I fi fb).
Proof.
  intros Hi. destruct (rsect_inode i Hi) as (l & _ & Hv & _ & E). unfold rinode. rewrite (bind_ret _ _ _ _ _ _ E). unfold disk_inode. by rewrite Hv.
Qed.

Lemma winode_ok i d : 0 <= i < NINODES -> dinode_wf d -> exists I', winode i d n (MkMk I fi fb) = Ret tt (MkMk I' fi fb) /\
  img_ok I' fb /\ view I' fb = put_inode S (view I fb) i d /\ forall c, c < 32 -> I' !! c = I !! c.
Proof.
  intros Hi Hd. destruct (rsect_inode i Hi) as (l & Hl & Hv & Hll & E). destruct (mk_iblock i Hi) as [_ Hb].
  exists (<[IBLOCK i S := splice (dinode_off i) (enc_dinode d) l]> I). split_and!.
  - unfold winode. rewrite (bind_ret _ _ _ _ _ _ E). apply wsect_ok. unfold FSSIZE. lia.
  - pose proof (put_inode_len (view_fs HI) (view_wf HI) Hi Hd) as HL. rewrite Hv in HL. change (default [] (Some l)) with l in HL.
    destruct HI as [H1 H2 H3 H4]. change ds with 46 in *. split; try done.
    + intros b Hbb. rewrite lookup_insert. case_decide; [by eexists|by apply H2].
    + intros b. rewrite lookup_insert. case_decide as Eb; [intros _; subst b; unfold FSSIZE; lia|apply H3].
    + intros b Hbb. rewrite lookup_insert_ne by lia. by apply H4.
  - unfold put_inode. rewrite Hv. change (default [] (Some l)) with l. by rewrite view_insert by lia.
  - intros c Hc. by rewrite lookup_insert_ne by lia.
Qed.
End inode_block.

(** Writing inode [i] leaves the other files as they are. *)
Lemma put_holds V i d k ty l : fs_ok 2 ds S V -> disk_wf V -> 0 <= i < NINODES -> 0 <= k < NINODES -> dinode_wf d -> k <> i ->
  holds V k ty l -> holds (put_inode S V i d) k ty l.
Proof.
  intros Hfs Hwf Hi Hk Hd Hne [H1 H2 H3 H4 Hln H5 H6 H7]. pose proof (put_inode_ne Hfs Hwf Hi Hd k Hk Hne) as E.
  destruct (put_inode_file (d := d) Hfs Hi _ H1) as [F1 F2]. unfold fnode in *. split; unfold fnode; rewrite ?E; try done.
  - destruct H2 as [G1 G2]. split; [|done]. intros bn Hbn. destruct (F2 bn Hbn) as [-> _]. by apply G1.
  - intros a Ha. rewrite <- H6 by done. unfold fbyte. by destruct (F2 _ (in_file_blk _ Ha)) as [_ ->].
Qed.

Lemma put_apart V i d x y : fs_ok 2 ds S V -> 0 <= i < NINODES -> file_ok ds S V x -> file_ok ds S V y -> apart V x y -> apart (put_inode S V i d) x y.
Proof.
  intros Hfs Hi Hx Hy. apply apart_same; try done; intros bn Hbn.
  - by destruct (put_inode_file (d := d) Hfs Hi _ Hx) as [_ F2]; destruct (F2 bn Hbn).
  - by destruct (put_inode_file (d := d) Hfs Hi _ Hy) as [_ F2]; destruct (F2 bn Hbn).
Qed.

(** ** [iappend] *)

Definition with_size (d : dinode) (sz : Z) : dinode := MkDinode (di_type d) (di_major d) (di_minor d) (di_nlink d) sz (di_addrs d).

Section append.
Context {I : gmap Z (list Z)} {fb i ty : Z} {l bytes : list Z} {I' : gmap Z (list Z)} {fb' : Z} {din' : dinode}.
Local Notation V := (view I fb).
Local Notation V' := (view I' fb').
Local Notation sz := (Z.of_nat (length l) + Z.of_nat (length bytes)).
Context (Hi : 0 <= i < NINODES) (HI : img_ok I fb) (H : holds V i ty l) (Hmax : sz <= MAXFILE * BSIZE).
Context (A : appended I fb i (disk_inode S V i) (Z.of_nat (length l)) bytes I' fb' din').

Lemma append_wf : dinode_wf (with_size din' sz).
Proof.
  pose proof (pd_wrote _ _ _ _ _ _ _ _ _ A) as FW. destruct (pd_din _ _ _ _ _ _ _ _ _ A) as [la E]. destruct (ho_wf _ _ _ _ H) as [W1 W2 W3 W4 W5 W6 W7].
  change (with_size din' sz) with (inode_disk ((ino i din') <| i_size := sz |>)). eapply file_dinode; [apply FW|apply file_ok_size, FW|].
  subst din'. split; try done; cbn; lia.
Qed.

Lemma append_holds : holds (put_inode S V' i (with_size din' sz)) i ty (l ++ bytes).
Proof.
  pose proof (pd_wrote _ _ _ _ _ _ _ _ _ A) as FW. destruct (pd_din _ _ _ _ _ _ _ _ _ A) as [la E]. pose proof (pd_img _ _ _ _ _ _ _ _ _ A) as HI'.
  pose proof (put_inode_eq (view_fs HI') (view_wf HI') Hi append_wf) as Ed.
  destruct (put_inode_file (d := with_size din' sz) (view_fs HI') Hi _ (fw_file FW)) as [F1 F2].
  assert (Z.of_nat (length (l ++ bytes)) = sz) as El by (rewrite length_app; lia).
  split; unfold fnode; rewrite ?Ed, ?El; try done.
  - exact (file_ok_size _ _ sz F1).
  - destruct (pd_full _ _ _ _ _ _ _ _ _ A) as [G1 G2]. split; [|exact G2]. intros bn Hbn. rewrite <- G1 by done. destruct (F2 bn Hbn) as [<- _]. done.
  - rewrite E. exact (ho_type _ _ _ _ H).
  - rewrite E. exact (ho_nlink _ _ _ _ H).
  - apply append_wf.
  - intros a Ha. transitivity (fbyte V' (ino i din') a); [unfold fbyte; by destruct (F2 _ (in_file_blk _ Ha)) as [_ <-]|].
    rewrite (fw_byte FW _ Ha). unfold byte_at. pose proof (proj1 Ha) as Ha0. case_decide as Ec.
    + rewrite lookup_app_r by lia. by replace (Z.to_nat (a - Z.of_nat (length l))) with (Z.to_nat a - length l)%nat by lia.
    + transitivity (byte_at l a); [by apply (ho_byte _ _ _ _ H)|]. unfold byte_at. destruct (decide (a < Z.of_nat (length l))); [by rewrite lookup_app_l by lia|].
      rewrite !lookup_ge_None_2; [done|rewrite length_app; lia|lia].
Qed.
End append.

(** The other files are not affected by the loop of [iappend]. *)
Lemma append_others I fb i ty l bytes I' fb' din' k ty' l' : 0 <= i < NINODES -> 0 <= k < NINODES -> k <> i -> img_ok I fb ->
  holds (view I fb) i ty l -> appended I fb i (disk_inode S (view I fb) i) (Z.of_nat (length l)) bytes I' fb' din' ->
  holds (view I fb) k ty' l' -> apart (view I fb) (fnode (view I fb) i) (fnode (view I fb) k) -> holds (view I' fb') k ty' l' /\ fnode (view I' fb') k = fnode (view I fb) k.
Proof.
  intros Hi Hk Hne HI H A [H1 H2 H3 H4 Hln H5 H6 H7] Hap. pose proof (pd_wrote _ _ _ _ _ _ _ _ _ A) as FW.
  assert (disk_inode S (view I' fb') k = disk_inode S (view I fb) k) as E by (apply (disk_inode_meta 2 ds); [apply (view_fs HI)|done|apply (fw_meta FW)]).
  assert (fnode (view I' fb') k = fnode (view I fb) k) as En by (unfold fnode; by rewrite E). split; [|done]. split; rewrite ?En, ?E; try done.
  - by apply (other_file FW H1).
  - destruct H2 as [G1 G2]. split; [|done]. intros bn Hbn. destruct (other_blk FW H1 Hap bn Hbn) as [-> _]. by apply G1.
  - intros a Ha. rewrite <- H6 by done. unfold fbyte. by destruct (other_blk FW H1 Hap _ (in_file_blk _ Ha)) as [_ ->].
Qed.

Lemma mk_inum st F j : mk_ok st F -> (j < length F)%nat -> 0 <= 1 + Z.of_nat j < NINODES.
Proof. intros HK Hj. pose proof (mo_n _ _ HK). lia. Qed.

Lemma mk_holds st F j : mk_ok st F -> (j < length F)%nat -> exists ty l, F !! j = Some (ty, l) /\ holds (view (img st) (freeblock st)) (1 + Z.of_nat j) ty l.
Proof. intros HK Hj. apply lookup_lt_is_Some in Hj as [[ty l] Hj]. exists ty, l. split; [done|]. by apply (mo_file _ _ HK). Qed.

(** The state after the loop of [iappend] and the write of the inode. *)
Section append_mk.
Context {I : gmap Z (list Z)} {fi fb : Z} {F : list (Z * list Z)} (HK : mk_ok (MkMk I fi fb) F).
Context {j : nat} {ty : Z} {l bytes : list Z} (Hj : F !! j = Some (ty, l)).
Local Notation i := (1 + Z.of_nat j).
Local Notation V := (view I fb).
Local Notation sz := (Z.of_nat (length l) + Z.of_nat (length bytes)).
Context (Hmax : sz <= MAXFILE * BSIZE).
Context {I1 : gmap Z (list Z)} {fb1 : Z} {din1 : dinode} (A : appended I fb i (disk_inode S V i) (Z.of_nat (length l)) bytes I1 fb1 din1).
Local Notation V1 := (view I1 fb1).
Local Notation V2 := (put_inode S V1 i (with_size din1 sz)).

Let H : holds V i ty l := mo_file _ _ HK j ty l Hj.
Let Hi : 0 <= i < NINODES := mk_inum _ _ j HK (lookup_lt_Some _ _ _ Hj).
Let HI : img_ok I fb := mo_img _ _ HK.
Let HI1 : img_ok I1 fb1 := pd_img _ _ _ _ _ _ _ _ _ A.
Let FW := pd_wrote _ _ _ _ _ _ _ _ _ A.

Lemma append_other k ty' l' : F !! k = Some (ty', l') -> k <> j ->
  holds V1 (1 + Z.of_nat k) ty' l' /\ fnode V1 (1 + Z.of_nat k) = fnode V (1 + Z.of_nat k) /\
  holds V2 (1 + Z.of_nat k) ty' l' /\ fnode V2 (1 + Z.of_nat k) = fnode V (1 + Z.of_nat k).
Proof.
  intros Hk Hne. pose proof (lookup_lt_Some _ _ _ Hk) as Hlk. pose proof (lookup_lt_Some _ _ _ Hj) as Hlj. pose proof (mk_inum _ _ k HK Hlk) as Hik.
  destruct (append_others I fb i ty l bytes I1 fb1 din1 (1 + Z.of_nat k) ty' l') as [H1 E1]; try done;
    [lia|by apply (mo_file _ _ HK)|by apply (mo_apart _ _ HK)|]. split_and!; [done..| |].
  - apply put_holds; try done; [apply (view_fs HI1)|apply (view_wf HI1)|exact (append_wf Hi H Hmax A)|lia].
  - unfold fnode. rewrite (put_inode_ne (view_fs HI1) (view_wf HI1) Hi); [exact E1|exact (append_wf Hi H Hmax A)|done|lia].
Qed.

Lemma append_this : fnode V2 i = ino i (with_size din1 sz).
Proof. unfold fnode. by rewrite (put_inode_eq (view_fs HI1) (view_wf HI1) Hi (append_wf Hi H Hmax A)). Qed.

(** The changed file and another one. *)
Lemma append_apart1 k : (k < length F)%nat -> k <> j -> apart V2 (fnode V2 i) (fnode V2 (1 + Z.of_nat k)) /\ apart V2 (fnode V2 (1 + Z.of_nat k)) (fnode V2 i).
Proof.
  intros Hk Hne. pose proof (lookup_lt_Some _ _ _ Hj) as Hlj. destruct (mk_holds _ _ k HK Hk) as (ty' & l' & Hk' & Hh). cbn [img freeblock] in Hh.
  destruct (append_other k ty' l' Hk' Hne) as (H1 & E1 & _ & E2). rewrite append_this, E2.
  destruct (other_apart FW (ho_file _ _ _ _ Hh) (mo_apart _ _ HK j k Hlj Hk (not_eq_sym Hne))) as [A1 A2].
  assert (file_ok ds S V1 (fnode V (1 + Z.of_nat k))) as Hf by (rewrite <- E1; apply (ho_file _ _ _ _ H1)).
  pose proof (put_apart V1 i (with_size din1 sz) _ _ (view_fs HI1) Hi (fw_file FW) Hf A1) as B1.
  pose proof (put_apart V1 i (with_size din1 sz) _ _ (view_fs HI1) Hi Hf (fw_file FW) A2) as B2. split.
  - by apply (apart_same V2 V2 (ino i din1) _ (fnode V (1 + Z.of_nat k)) _).
  - by apply (apart_same V2 V2 (fnode V (1 + Z.of_nat k)) _ (ino i din1) _).
Qed.

(** Two other files. *)
Lemma append_apart2 k k' : (k < length F)%nat -> (k' < length F)%nat -> k <> k' -> k <> j -> k' <> j ->
  apart V2 (fnode V2 (1 + Z.of_nat k)) (fnode V2 (1 + Z.of_nat k')).
Proof.
  intros Hk Hk' Hkk Hne Hne'. pose proof (lookup_lt_Some _ _ _ Hj) as Hlj.
  destruct (mk_holds _ _ k HK Hk) as (t1 & l1 & L1 & Hh1), (mk_holds _ _ k' HK Hk') as (t2 & l2 & L2 & Hh2). cbn [img freeblock] in Hh1, Hh2.
  destruct (append_other k t1 l1 L1 Hne) as (P1 & E1 & _ & G1), (append_other k' t2 l2 L2 Hne') as (P2 & E2 & _ & G2). rewrite G1, G2.
  rewrite <- E1, <- E2. apply put_apart; [apply (view_fs HI1)|done|apply (ho_file _ _ _ _ P1)|apply (ho_file _ _ _ _ P2)|]. rewrite E1, E2.
  apply (apart_same V V1 (fnode V (1 + Z.of_nat k)) _ (fnode V (1 + Z.of_nat k')) _); try done.
  - intros bn Hbn. by apply (other_blk FW (ho_file _ _ _ _ Hh1) (mo_apart _ _ HK j k Hlj Hk (not_eq_sym Hne))).
  - intros bn Hbn. by apply (other_blk FW (ho_file _ _ _ _ Hh2) (mo_apart _ _ HK j k' Hlj Hk' (not_eq_sym Hne'))).
  - by apply (mo_apart _ _ HK).
Qed.

Lemma append_mk I2 : img_ok I2 fb1 -> view I2 fb1 = V2 -> (forall c, c < 32 -> I2 !! c = I1 !! c) -> mk_ok (MkMk I2 fi fb1) (<[j := (ty, l ++ bytes)]> F).
Proof.
  intros HI2 Ev Hm. pose proof (mo_fb _ _ HK) as Hfb. cbn [freeblock] in Hfb. pose proof (lookup_lt_Some _ _ _ Hj) as Hlj.
  split; cbn [img freeblock freeinode]; rewrite ?length_insert, ?Ev; try done; try apply HK.
  - rewrite (total_insert F j ty l) by done. pose proof (pd_fb _ _ _ _ _ _ _ _ _ A) as E. rewrite length_app. replace (Z.of_nat (length l + length bytes)) with sz by lia. lia.
  - intros k t' l' [(<- & E & _)|[Hne Hk]]%list_lookup_insert_Some; [injection E as <- <-; exact (append_holds Hi H Hmax A)|].
    by apply (append_other k t' l').
  - intros k k' Hk Hk' Hne. destruct (decide (k = j)) as [->|]; [by apply append_apart1|]. destruct (decide (k' = j)) as [->|]; [by apply append_apart1|].
    by apply append_apart2.
  - intros k Hk. assert (0 <= k < NINODES) as Hkn by lia. rewrite (put_inode_ne (view_fs HI1) (view_wf HI1) Hi (append_wf Hi H Hmax A) k Hkn) by lia.
    rewrite (disk_inode_meta 2 ds S V V1 k (view_fs HI) Hkn (fw_meta FW)). by apply (mo_free _ _ HK).
  - rewrite Hm, (pd_meta _ _ _ _ _ _ _ _ _ A) by done. apply (mo_sb _ _ HK).
  - rewrite Hm, (pd_meta _ _ _ _ _ _ _ _ _ A) by done. apply (mo_log _ _ HK).
Qed.
End append_mk.

(** Appending to file [j]. *)
Lemma iappend_mk n st F j ty l bytes : (300 < n)%nat -> mk_ok st F -> F !! j = Some (ty, l) ->
  Z.of_nat (length l) + Z.of_nat (length bytes) <= MAXFILE * BSIZE -> ds + total (<[j := (ty, l ++ bytes)]> F) <= FSSIZE ->
  exists st', iappend (1 + Z.of_nat j) bytes n st = Ret tt st' /\ mk_ok st' (<[j := (ty, l ++ bytes)]> F).
Proof.
  intros Hn HK Hj Hmax Hroom. destruct st as [I fi fb]. pose proof (mo_img _ _ HK) as HI. pose proof (mo_file _ _ HK j ty l Hj) as H. cbn [img freeblock] in HI, H.
  pose proof (lookup_lt_Some _ _ _ Hj) as Hlj. pose proof (mk_inum _ _ j HK Hlj) as Hi. set (i := 1 + Z.of_nat j) in *.
  assert (length (l ++ bytes) = length l + length bytes)%nat as Hla by apply length_app.
  rewrite (total_insert F j ty l) in Hroom by done. rewrite Hla in Hroom. pose proof (mo_fb _ _ HK) as Hfb. cbn [freeblock] in Hfb.
  assert (268 * 1024 = MAXFILE * BSIZE) as E268 by done. pose proof (Z.mod_pos_bound (Z.of_nat (length l)) BSIZE ltac:(done)) as Hmod.
  destruct (iappend_loop n i fi 269 n I fb (disk_inode S (view I fb) i) (Z.of_nat (length l)) bytes HI (ho_file _ _ _ _ H) (ho_full _ _ _ _ H))
    as (I1 & fb1 & din1 & E & A); [lia|lia|replace (Z.of_nat (length l) + Z.of_nat (length bytes)) with (Z.of_nat (length l + length bytes)) by lia; lia
    |left; unfold BSIZE in *; lia|lia|].
  set (sz := Z.of_nat (length l) + Z.of_nat (length bytes)) in *. pose proof (append_wf Hi H Hmax A) as Hdw.
  destruct (winode_ok (pd_img _ _ _ _ _ _ _ _ _ A) n (fi := fi) i (with_size din1 sz) Hi Hdw) as (I2 & E2 & HI2 & Ev & Hm2).
  pose proof (pd_img _ _ _ _ _ _ _ _ _ A) as HI1. pose proof (view_fs HI1) as Hfs1. pose proof (view_wf HI1) as Hwf1. pose proof (pd_wrote _ _ _ _ _ _ _ _ _ A) as FW.
  exists (MkMk I2 fi fb1). split.
  - unfold iappend. rewrite (bind_ret _ _ _ _ _ _ (rinode_ok HI n i Hi)), (ho_size _ _ _ _ H), xint_id by (unfold BSIZE in *; lia).
    unfold mloop. rewrite (bind_ret (fun n s => mwhile n iappend_body (bytes, Z.of_nat (length l), disk_inode S (view I fb) i) n s) _ _ _ _ _ E). cbv beta iota.
    rewrite xint_id by (unfold sz; lia). exact E2.
  - by apply (append_mk HK Hj Hmax A).
Qed.

(** ** [ialloc] *)

Definition empty_dinode (ty : Z) : dinode := MkDinode ty 0 0 1 0 (replicate 13 0).

Lemma empty_addr i ty a : addr_of (ino i (empty_dinode ty)) a = 0.
Proof. unfold addr_of, ino, empty_dinode. cbn [i_addrs di_addrs]. destruct (replicate 13 0 !! Z.to_nat a) eqn:E; [|done]. by apply lookup_replicate in E as [-> _]. Qed.

Lemma empty_blk V i ty bn : fblk V (ino i (empty_dinode ty)) bn = 0.
Proof. unfold fblk. rewrite !empty_addr. by destruct (bn <? NDIRECT). Qed.

Lemma empty_apart V i ty x : apart V x (ino i (empty_dinode ty)) /\ apart V (ino i (empty_dinode ty)) x.
Proof. split; split; intros *; rewrite ?empty_addr, ?empty_blk; try done; intros; (split; [done|]); intros; rewrite ?empty_blk; done. Qed.

Lemma empty_wf ty : 0 <= ty < 2 ^ 15 -> dinode_wf (empty_dinode ty).
Proof. intros Ht. split; cbn [empty_dinode di_type di_major di_minor di_nlink di_size di_addrs]; [lia..| |done]. apply Forall_replicate. lia. Qed.

Lemma empty_holds V i ty : 0 <= ty < 2 ^ 15 -> disk_inode S V i = empty_dinode ty -> holds V i ty [].
Proof.
  intros Ht E. split; unfold fnode; rewrite ?E; try done.
  - split; try done.
    + intros bn _ []. apply empty_blk.
    + intros bn bn' _ _ []. apply empty_blk.
  - split; [intros bn Hbn; rewrite empty_blk|rewrite empty_addr]; (split; [done|]); [change (Z.of_nat (length [])) with 0; unfold BSIZE; lia|done].
  - by apply empty_wf.
  - intros a Ha. unfold fbyte, fdata. rewrite empty_blk. cbn [Z.eqb]. unfold zeros, byte_at. destruct (replicate (Z.to_nat BSIZE) 0 !! Z.to_nat (a mod BSIZE)) eqn:Er; [|done].
    by apply lookup_replicate in Er as [-> _].
Qed.

Lemma ialloc_mk n st F ty : mk_ok st F -> 0 <= ty < 2 ^ 15 -> 1 + Z.of_nat (length F) < NINODES ->
  exists st', ialloc ty n st = Ret (1 + Z.of_nat (length F)) st' /\ mk_ok st' (F ++ [(ty, [])]).
Proof.
  intros HK Ht Hn. destruct st as [I fi fb]. pose proof (mo_img _ _ HK) as HI. pose proof (mo_fi _ _ HK) as Hfi. cbn [img freeblock freeinode] in HI, Hfi.
  remember (1 + Z.of_nat (length F)) as i eqn:Ei. assert (0 <= i < NINODES) as Hi by lia. unfold NINODES in Hn.
  destruct (winode_ok HI n (fi := i + 1) i (empty_dinode ty) Hi (empty_wf ty Ht)) as (I2 & E2 & HI2 & Ev & Hm2).
  pose proof (view_fs HI) as Hfs. pose proof (view_wf HI) as Hwf. pose proof (put_inode_eq Hfs Hwf Hi (empty_wf ty Ht)) as Eeq.
  pose proof (put_inode_ne Hfs Hwf Hi (empty_wf ty Ht)) as Ene. exists (MkMk I2 (i + 1) fb). split.
  - unfold ialloc. subst fi. unfold mbind, M_bind. cbn -[winode xshort u32 xint replicate]. rewrite xshort_id, u32_small by lia. change (MkDinode ty 0 0 (xshort 1) (xint 0) (replicate 13 0)) with (empty_dinode ty). change ((MkMk I i fb) <| freeinode := i + 1 |>) with (MkMk I (i + 1) fb). by rewrite E2.
  - assert (forall k, (k < length F)%nat -> fnode (view I2 fb) (1 + Z.of_nat k) = fnode (view I fb) (1 + Z.of_nat k)) as En.
    { intros k Hk. unfold fnode. rewrite Ev, (Ene _ (mk_inum _ _ k HK Hk)) by lia. done. }
    split; cbn [img freeblock freeinode]; rewrite ?length_app, ?total_snoc; cbn [length]; try apply HK; try done; try (unfold NINODES; lia).
    + intros k t' l' [Hk|(Hk & E)]%lookup_app_Some.
      * pose proof (lookup_lt_Some _ _ _ Hk). rewrite Ev. apply put_holds; try done; [lia|by apply empty_wf|lia|by apply (mo_file _ _ HK)].
      * apply list_lookup_singleton_Some in E as [Ek E]. injection E as <- <-. replace (1 + Z.of_nat k) with i by lia. rewrite Ev. by apply empty_holds.
    + intros k k' Hk Hk' Hne. destruct (decide (k = length F)) as [->|]; [|destruct (decide (k' = length F)) as [->|]].
      * rewrite <- Ei. unfold fnode at 1. rewrite Ev, Eeq. apply empty_apart.
      * rewrite <- Ei. unfold fnode at 2. rewrite Ev, Eeq. apply empty_apart.
      * rewrite !En by lia. rewrite Ev. apply put_apart; try done; [..|by apply (mo_apart _ _ HK); lia].
        -- destruct (mk_holds _ _ k HK) as (? & ? & _ & Hh); [lia|]. apply Hh.
        -- destruct (mk_holds _ _ k' HK) as (? & ? & _ & Hh); [lia|]. apply Hh.
    + intros k Hk. assert (0 <= k < NINODES) as Hkn by (unfold NINODES in *; lia). rewrite Ev, (Ene k Hkn) by lia. apply (mo_free _ _ HK). unfold NINODES in *; lia.
    + rewrite Hm2 by done. apply (mo_sb _ _ HK).
    + rewrite Hm2 by done. apply (mo_log _ _ HK).
Qed.
