(* ===== verification/MkfsImage.v ===== *)
(** * The image mkfs writes

    [main] from end to end: which files the image holds, where their
    directory entries are, and that the image is one the kernel can mount. *)

From Stdlib Require Import ZArith Lia Ascii String.
From S2P Require Import Prelude Riscv KString Kern Blocks Bio BioSpec BioOps Log LogSpec Crash Txn Fs Balloc Files ReadWrite FileTheorems Dirs DirLink Printf.
From S2P Require Import Mkfs MkfsSpec MkfsTheorems.

Local Notation S := mk_sb.
Local Notation ds := nmeta.

(** ** What is written *)

Definition fname (path : list Z) : list Z := no_underscore (strcut (shortname path)).

Definition entries (paths : list (list Z)) : list (list Z) :=
  [mk_dirent 1 (chars "."); mk_dirent 1 (chars "..")] ++ imap (fun k p => mk_dirent (2 + Z.of_nat k) (fname p)) paths.

Definition root_bytes (paths : list (list Z)) : list Z := mjoin (entries paths).

(** The contents of the inodes from 1 on. *)
Definition mk_files (files : list (list Z * list Z)) : list (Z * list Z) :=
  (T_DIR, root_bytes files.*1) :: ((fun f => (T_FILE, f.2)) <$> files).

Definition ok_file (f : list Z * list Z) : Prop :=
  Z.of_nat (length f.2) <= MAXFILE * BSIZE /\ slash ∉ strcut (shortname f.1).

Lemma mk_dirent_length i name : length (mk_dirent i name) = 16%nat.
Proof. unfold mk_dirent, enc_dirent. by rewrite length_app, le_bytes_length, strncpy_l_length. Qed.

Lemma join16 (ls : list (list Z)) : Forall (fun l => length l = 16%nat) ls -> length (mjoin ls) = (16 * length ls)%nat.
Proof. induction 1 as [|l ls Hl _ IH]; [done|]. change (mjoin (l :: ls)) with (l ++ mjoin ls). rewrite length_app, Hl, IH. cbn [length]. lia. Qed.

Lemma entries16 paths : Forall (fun l => length l = 16%nat) (entries paths).
Proof.
  apply Forall_app. split; [repeat constructor; apply mk_dirent_length|]. apply Forall_lookup. intros k e. rewrite list_lookup_imap.
  destruct (paths !! k) as [p|]; [|done]. intros [= <-]. apply mk_dirent_length.
Qed.

Lemma entries_length paths : length (entries paths) = (2 + length paths)%nat.
Proof. unfold entries. rewrite length_app, length_imap. done. Qed.

Lemma root_length paths : length (root_bytes paths) = (16 * (2 + length paths))%nat.
Proof. unfold root_bytes. by rewrite (join16 _ (entries16 paths)), entries_length. Qed.

Lemma root_snoc paths p : root_bytes (paths ++ [p]) = root_bytes paths ++ mk_dirent (2 + Z.of_nat (length paths)) (fname p).
Proof.
  unfold root_bytes, entries. rewrite imap_app, app_assoc, join_app. f_equal. cbn [imap]. unfold mjoin. cbn. by rewrite app_nil_r, Nat.add_0_r.
Qed.

(** ** Fewer files take less room *)

Definition sub (F F' : list (Z * list Z)) : Prop := forall j f, F !! j = Some f -> exists f', F' !! j = Some f' /\ (length f.2 <= length f'.2)%nat.

Lemma total_nonneg F : 0 <= total F.
Proof. induction F as [|f F IH]; [done|]. cbn [total foldr]. pose proof (cost_mono 0 (Z.of_nat (length f.2)) ltac:(lia)) as H. change (cost 0) with 0 in H. unfold total in IH. lia. Qed.

Lemma total_sub F F' : sub F F' -> total F <= total F'.
Proof.
  revert F'. induction F as [|f F IH]; intros F' H; [apply total_nonneg|]. destruct F' as [|f' F']; [by destruct (H 0%nat f eq_refl) as (? & ? & _)|].
  change (cost (Z.of_nat (length f.2)) + total F <= cost (Z.of_nat (length f'.2)) + total F').
  destruct (H 0%nat f eq_refl) as (g & [= <-] & Hl). pose proof (cost_mono (Z.of_nat (length f.2)) (Z.of_nat (length f'.2)) ltac:(lia)).
  specialize (IH F' (fun j g Hg => H (Datatypes.S j) g Hg)). lia.
Qed.

Lemma sub_trans F F' F'' : sub F F' -> sub F' F'' -> sub F F''.
Proof. intros H1 H2 j f Hf. destruct (H1 j f Hf) as (f' & Hf' & Hl). destruct (H2 j f' Hf') as (f'' & Hf'' & Hl'). exists f''. split; [done|lia]. Qed.

Lemma sub_insert F j ty ty' l l' : (length l <= length l')%nat -> sub (<[j := (ty, l)]> F) (<[j := (ty', l')]> F).
Proof.
  intros Hl k f. destruct (decide (k = j)) as [->|Hne].
  - intros [(_ & <- & Hj)|[Hk _]]%list_lookup_insert_Some; [|done]. exists (ty', l'). by rewrite list_lookup_insert_eq.
  - rewrite !list_lookup_insert_ne by done. intros Hf. by exists f.
Qed.

(** ** Copying a file *)

Lemma copy_mk n j ty G : (300 < n)%nat -> ds + total G <= FSSIZE -> forall c fuel rest l st F, mk_ok st F -> F !! j = Some (ty, l) ->
  Z.of_nat (length l) + Z.of_nat (length rest) <= MAXFILE * BSIZE -> (length rest <= 1024 * c)%nat -> (c < fuel)%nat -> sub (<[j := (ty, l ++ rest)]> F) G ->
  exists st', mwhile fuel (copy_body (1 + Z.of_nat j)) rest n st = Ret tt st' /\ mk_ok st' (<[j := (ty, l ++ rest)]> F).
Proof.
  intros Hn HG. induction c as [|c IH]; intros fuel rest l st F HK Hj Hmax Hc Hf Hs; (destruct fuel as [|fuel]; [lia|]); (destruct rest as [|b rest'];
    [exists st; rewrite app_nil_r in *; split; [by apply mwhile_inr|]; by rewrite list_insert_id|]); [cbn in Hc; lia|]. set (rest := b :: rest') in *.
  assert (0 < length rest)%nat as Hpos by (cbn; lia). clearbody rest. set (cc := take (Z.to_nat BSIZE) rest).
  assert (length cc <= length rest)%nat as Hcc by (unfold cc; rewrite length_take; lia). assert (length cc = 1024 `min` length rest)%nat as Hcl by (unfold cc; rewrite length_take; done).
  assert (rest = cc ++ drop (Z.to_nat BSIZE) rest) as Er by (symmetry; apply take_drop).
  destruct (iappend_mk n st F j ty l cc Hn HK Hj) as (st1 & E1 & HK1); [lia| |].
  { transitivity (ds + total G); [|done]. apply Z.add_le_mono_l, total_sub. eapply sub_trans; [|exact Hs]. apply sub_insert. rewrite !length_app. lia. }
  destruct (IH fuel (drop (Z.to_nat BSIZE) rest) (l ++ cc) st1 (<[j := (ty, l ++ cc)]> F)) as (st2 & E2 & HK2); try done.
  - apply list_lookup_insert_eq. by apply lookup_lt_Some in Hj.
  - rewrite length_app, length_drop. change (Z.to_nat BSIZE) with 1024%nat. lia.
  - rewrite length_drop. change (Z.to_nat BSIZE) with 1024%nat. lia.
  - lia.
  - by rewrite list_insert_insert_eq, <- app_assoc, <- Er.
  - rewrite list_insert_insert_eq, <- app_assoc, <- Er in HK2. exists st2. split; [|done]. erewrite mwhile_inl; [exact E2|].
    unfold copy_body. fold cc. rewrite (proj2 (Z.ltb_lt 0 (Z.of_nat (length cc)))) by lia. cbn [negb]. by rewrite (bind_ret _ _ _ _ _ _ E1).
Qed.

(** ** One argument *)

Lemma mk_files_snoc fs f : mk_files (fs ++ [f]) = (T_DIR, root_bytes fs.*1 ++ mk_dirent (2 + Z.of_nat (length fs)) (fname f.1)) :: ((fun f => (T_FILE, f.2)) <$> fs) ++ [(T_FILE, f.2)].
Proof. unfold mk_files. rewrite !fmap_app. cbn [fmap list_fmap]. by rewrite root_snoc, length_fmap. Qed.

Lemma mk_files_app fs gs : sub (mk_files fs) (mk_files (fs ++ gs)).
Proof.
  intros [|j] f; unfold mk_files; rewrite !fmap_app; cbn [lookup list_lookup].
  - intros [= <-]. eexists. split; [done|]. cbn [snd]. rewrite !root_length, length_app. lia.
  - intros Hf. exists f. split; [by apply lookup_app_l_Some|done].
Qed.

Lemma add_file_mk n st fs f : (300 < n)%nat -> mk_ok st (mk_files fs) -> ok_file f -> Z.of_nat (length fs) + 2 < NINODES -> ds + total (mk_files (fs ++ [f])) <= FSSIZE ->
  exists st', add_file 1 (f.1, Some f.2) n st = Ret tt st' /\ mk_ok st' (mk_files (fs ++ [f])).
Proof.
  intros Hn HK [Hlen Hsl] Hni Hroom. assert (length (mk_files fs) = 1 + length fs)%nat as Hlf by (unfold mk_files; cbn; by rewrite length_fmap).
  destruct (ialloc_mk n st _ T_FILE HK) as (st1 & E1 & HK1); [done|lia|]. rewrite Hlf in E1.
  set (e := mk_dirent (1 + Z.of_nat (1 + length fs)) (fname f.1)). assert (length e = 16%nat) as He by apply mk_dirent_length.
  assert (<[0%nat := (T_DIR, root_bytes fs.*1 ++ e)]> (mk_files fs ++ [(T_FILE, [])]) = (T_DIR, root_bytes fs.*1 ++ e) :: ((fun f => (T_FILE, f.2)) <$> fs) ++ [(T_FILE, [])]) as E2' by done.
  assert (2 + Z.of_nat (length fs) = 1 + Z.of_nat (1 + length fs)) as Ei by lia. pose proof (mk_files_snoc fs f) as EF. rewrite Ei in EF. fold e in EF.
  assert (sub (<[0%nat := (T_DIR, root_bytes fs.*1 ++ e)]> (mk_files fs ++ [(T_FILE, [])])) (mk_files (fs ++ [f]))) as Hs2.
  { rewrite EF, E2'. intros [|j] g; cbn [lookup list_lookup]; [intros [= <-]; by eexists|]. intros [Hg|[Hg Hg']]%lookup_app_Some.
    - exists g. split; [by apply lookup_app_l_Some|done].
    - apply list_lookup_singleton_Some in Hg' as [Hj <-]. exists (T_FILE, f.2). split; [|cbn; lia]. apply lookup_app_Some. right. split; [done|by rewrite Hj]. }
  destruct (iappend_mk n st1 (mk_files fs ++ [(T_FILE, [])]) 0 T_DIR (root_bytes fs.*1) e Hn HK1) as (st2 & E2 & HK2); [done| | |].
  { rewrite root_length, length_fmap, He. unfold NINODES in Hni. change (MAXFILE * BSIZE) with 274432. lia. }
  { pose proof (total_sub _ _ Hs2). lia. }
  rewrite E2' in HK2. assert (((T_DIR, root_bytes fs.*1 ++ e) :: ((fun f => (T_FILE, f.2)) <$> fs) ++ [(T_FILE, [])]) !! (1 + length fs)%nat = Some (T_FILE, [])) as Hj.
  { apply lookup_app_Some. right. rewrite length_fmap, Nat.sub_diag. done. }
  assert (<[(1 + length fs)%nat := (T_FILE, [] ++ f.2)]> ((T_DIR, root_bytes fs.*1 ++ e) :: ((fun f => (T_FILE, f.2)) <$> fs) ++ [(T_FILE, [])]) = mk_files (fs ++ [f])) as E3'.
  { rewrite EF. transitivity ((T_DIR, root_bytes fs.*1 ++ e) :: <[length fs := (T_FILE, f.2)]> (((fun f => (T_FILE, f.2)) <$> fs) ++ [(T_FILE, [])])); [done|]. f_equal. rewrite insert_app_r_alt by (by rewrite length_fmap). by rewrite length_fmap, Nat.sub_diag. }
  destruct (copy_mk n (1 + length fs) T_FILE (mk_files (fs ++ [f])) Hn Hroom 269 n f.2 [] st2 _ HK2 Hj) as (st3 & E3 & HK3);
    [change (MAXFILE * BSIZE) with 274432 in *; cbn [length]; lia|change (MAXFILE * BSIZE) with 274432 in *; lia|lia|rewrite E3'; intros j g Hg; by exists g|].
  rewrite E3' in HK3. exists st3. split; [|done]. unfold add_file. rewrite bool_decide_eq_false_2 by done. rewrite (bind_ret _ _ _ _ _ _ E1). cbv beta.
  change (1 + Z.of_nat 0) with 1 in E2. rewrite (bind_ret _ _ _ _ _ _ E2). exact E3.
Qed.

Lemma add_files_mk n : (300 < n)%nat -> forall gs st fs, mk_ok st (mk_files fs) -> Forall ok_file gs -> Z.of_nat (length (fs ++ gs)) + 1 < NINODES ->
  ds + total (mk_files (fs ++ gs)) <= FSSIZE -> exists st', add_files 1 ((fun f => (f.1, Some f.2)) <$> gs) n st = Ret tt st' /\ mk_ok st' (mk_files (fs ++ gs)).
Proof.
  intros Hn. induction gs as [|g gs IH]; intros st fs HK Hok Hni Hroom; [exists st; by rewrite app_nil_r|].
  apply Forall_cons in Hok as [Hg Hok]. assert (fs ++ g :: gs = (fs ++ [g]) ++ gs) as Ea by by rewrite <- app_assoc. rewrite Ea in *.
  pose proof (total_sub _ _ (mk_files_app (fs ++ [g]) gs)). rewrite !length_app in Hni. cbn [length] in Hni.
  destruct (add_file_mk n st fs g Hn HK Hg) as (st1 & E1 & HK1); [lia|lia|].
  destruct (IH st1 (fs ++ [g]) HK1 Hok) as (st2 & E2 & HK2); [rewrite !length_app; cbn [length]; lia|done|].
  exists st2. split; [|done]. cbn [fmap list_fmap add_files]. by rewrite (bind_ret _ _ _ _ _ _ E1).
Qed.

(** ** The empty file system *)

Lemma wipe_ok n fi fb k : forall i I, 0 <= i -> i + Z.of_nat k <= FSSIZE -> exists I', meach k i (fun i => wsect i zeroes) n (MkMk I fi fb) = Ret tt (MkMk I' fi fb) /\
  forall c, I' !! c = if decide (i <= c < i + Z.of_nat k) then Some zeroes else I !! c.
Proof.
  induction k as [|k IH]; intros i I Hi Hk; [exists I; split; [done|]; intros c; rewrite decide_False by lia; done|].
  destruct (IH (i + 1) (<[i := zeroes]> I)) as (I' & E & H); [lia|lia|]. exists I'. split; [rewrite <- E; apply meach_next, wsect_ok; lia|].
  intros c. rewrite H, lookup_insert. repeat case_decide; (done || lia).
Qed.

Lemma slice_zeroes a b : 0 <= a -> 0 <= b -> a + b <= BSIZE -> slice a b zeroes = replicate (Z.to_nat b) 0.
Proof. intros Ha Hb Hab. unfold slice, zeroes. rewrite drop_replicate, take_replicate. f_equal. lia. Qed.

Lemma zero_inode V i : V !! IBLOCK i S = Some zeroes -> di_type (disk_inode S V i) = 0.
Proof.
  intros E. unfold disk_inode. rewrite E. change (default [] (Some zeroes)) with zeroes. pose proof (Z.mod_pos_bound i 16 ltac:(done)).
  unfold dinode_off. change IPB with 16. rewrite slice_zeroes by (unfold DINODE_SIZE, BSIZE; lia). done.
Qed.

Lemma mk_start I : (forall c, I !! c = if decide (0 <= c < FSSIZE) then Some zeroes else None) -> mk_ok (MkMk (<[1 := splice 0 (enc_sb S) zeroes]> I) 1 ds) [].
Proof.
  intros H. assert (img_ok (<[1 := splice 0 (enc_sb S) zeroes]> I) ds) as HI.
  { change ds with 46. split.
    - done.
    - intros b Hb. rewrite lookup_insert. case_decide; [by eexists|]. rewrite H, decide_True by done. eexists. split; [done|]. apply length_replicate.
    - intros b. rewrite lookup_insert. case_decide; [subst; done|]. rewrite H. case_decide; [done|]. by intros [].
    - intros b Hb. rewrite lookup_insert_ne, H, decide_True by lia. done. }
  split; cbn [img freeblock freeinode length]; try done.
  - intros j j' Hj. lia.
  - intros i Hi. assert (0 <= i < NINODES) as Hi' by lia. destruct (mk_iblock i Hi') as [_ Hb]. apply zero_inode. rewrite view_lookup by lia.
    rewrite lookup_insert_ne by lia. rewrite H, decide_True by (unfold FSSIZE; lia). done.
  - apply lookup_insert_eq.
  - rewrite lookup_insert_ne, H by done. by rewrite decide_True.
Qed.

(** ** The finished image *)

Record made (D : gmap Z (list Z)) (files : list (list Z * list Z)) : Prop := {
  md_fs : fs_ok 2 ds S D;
  md_wf : disk_wf D;
  md_sb : dec_sb (take (Z.to_nat SB_SIZE) (default [] (D !! 1))) = S;
  md_log : D !! 2 = Some zeroes;
  md_used : forall c, 0 <= c < FSSIZE -> used S D c = (c <? ds + total (mk_files files));
  md_file : forall k path l, files !! k = Some (path, l) -> holds D (2 + Z.of_nat k) T_FILE l;
  md_root : file_ok ds S D (fnode D 1);
  md_root_type : di_type (disk_inode S D 1) = T_DIR;
  md_root_nlink : di_nlink (disk_inode S D 1) = 1;
  md_root_wf : dinode_wf (disk_inode S D 1);
  md_root_size : di_size (disk_inode S D 1) = (DIRENT_SIZE * (2 + Z.of_nat (length files)) / BSIZE + 1) * BSIZE;
  md_root_blk : forall bn, 0 <= bn < MAXFILE -> fblk D (fnode D 1) bn <> 0 <-> bn * BSIZE < DIRENT_SIZE * (2 + Z.of_nat (length files));
  md_root_byte : forall a, in_file a -> fbyte D (fnode D 1) a = byte_at (root_bytes files.*1) a;
  md_apart : forall i i', 1 <= i <= 1 + Z.of_nat (length files) -> 1 <= i' <= 1 + Z.of_nat (length files) -> i <> i' -> apart D (fnode D i) (fnode D i');
  md_free : forall i, 2 + Z.of_nat (length files) <= i < NINODES -> di_type (disk_inode S D i) = 0
}.

Lemma mk_files_lookup files k path l : files !! k = Some (path, l) -> mk_files files !! Datatypes.S k = Some (T_FILE, l).
Proof. intros Hk. unfold mk_files. change (((fun f => (T_FILE, f.2)) <$> files) !! k = Some (T_FILE, l)). by rewrite list_lookup_fmap, Hk. Qed.

(** Changing the size in the root's inode. *)
Section finish.
Context {I : gmap Z (list Z)} {fi fb : Z} {files : list (list Z * list Z)} (HK : mk_ok (MkMk I fi fb) (mk_files files)).
Local Notation V := (view I fb).
Local Notation sz := ((DIRENT_SIZE * (2 + Z.of_nat (length files)) / BSIZE + 1) * BSIZE).
Local Notation d := (with_size (disk_inode S V 1) sz).
Local Notation V2 := (put_inode S V 1 d).

Let HI : img_ok I fb := mo_img _ _ HK.
Let H : holds V 1 T_DIR (root_bytes files.*1) := mo_file _ _ HK 0%nat _ _ eq_refl.
Let H1 : 0 <= 1 < NINODES := conj (Z.le_0_1) eq_refl.

Lemma finish_count : Z.of_nat (length files) + 2 <= NINODES /\ di_size (disk_inode S V 1) = DIRENT_SIZE * (2 + Z.of_nat (length files)) /\ 0 <= sz < 2 ^ 32.
Proof.
  pose proof (mo_n _ _ HK) as Hn. unfold mk_files in Hn. cbn [length] in Hn. rewrite length_fmap in Hn. pose proof (ho_size _ _ _ _ H) as Hs.
  rewrite root_length, length_fmap in Hs. rewrite Hs. change DIRENT_SIZE with 16. unfold NINODES, BSIZE in *. split_and!; lia.
Qed.

Lemma finish_wf : dinode_wf d.
Proof. destruct (ho_wf _ _ _ _ H). destruct finish_count as (_ & _ & Hz). by split. Qed.

Lemma finish_ne k : (k < length files)%nat -> fnode V2 (2 + Z.of_nat k) = fnode V (2 + Z.of_nat k).
Proof.
  intros Hk. destruct finish_count as (Hc & _ & _). unfold fnode. assert (0 <= 2 + Z.of_nat k < NINODES) as Hr by lia.
  by rewrite (put_inode_ne (view_fs HI) (view_wf HI) H1 finish_wf _ Hr) by lia.
Qed.

Lemma finish_root : fnode V2 1 = ino 1 d.
Proof. unfold fnode. by rewrite (put_inode_eq (view_fs HI) (view_wf HI) H1 finish_wf). Qed.

Lemma finish_apart i i' : 1 <= i <= 1 + Z.of_nat (length files) -> 1 <= i' <= 1 + Z.of_nat (length files) -> i <> i' -> apart V2 (fnode V2 i) (fnode V2 i').
Proof.
  intros Hi Hi' Hne. assert (length (mk_files files) = 1 + length files)%nat as Hl by (unfold mk_files; cbn [length]; by rewrite length_fmap).
  pose proof (mo_apart _ _ HK (Z.to_nat (i - 1)) (Z.to_nat (i' - 1)) ltac:(lia) ltac:(lia) ltac:(lia)) as Ha. cbn [img freeblock] in Ha.
  destruct (mk_holds _ _ (Z.to_nat (i - 1)) HK ltac:(lia)) as (t1 & l1 & _ & Hh1), (mk_holds _ _ (Z.to_nat (i' - 1)) HK ltac:(lia)) as (t2 & l2 & _ & Hh2).
  cbn [img freeblock] in Hh1, Hh2. replace (1 + Z.of_nat (Z.to_nat (i - 1))) with i in * by lia. replace (1 + Z.of_nat (Z.to_nat (i' - 1))) with i' in * by lia.
  pose proof (put_apart V 1 d _ _ (view_fs HI) H1 (ho_file _ _ _ _ Hh1) (ho_file _ _ _ _ Hh2) Ha) as Hp.
  assert (forall k, 1 <= k <= 1 + Z.of_nat (length files) -> i_addrs (fnode V2 k) = i_addrs (fnode V k)) as Eb.
  { intros k Hk. destruct (decide (k = 1)) as [->|]; [by rewrite finish_root|]. replace k with (2 + Z.of_nat (Z.to_nat (k - 2))) by lia. by rewrite finish_ne by lia. }
  apply (apart_same V2 V2 (fnode V i) _ (fnode V i') _); unfold fblk, addr_of; rewrite ?Eb by done; done.
Qed.

Lemma finish_made I2 : img_ok I2 fb -> view I2 fb = V2 -> (forall c, c < 32 -> I2 !! c = I !! c) -> made (view I2 fb) files.
Proof.
  intros HI2 Ev Hm. destruct finish_count as (Hc & Hs & Hz). destruct (put_inode_file (d := d) (view_fs HI) H1 _ (ho_file _ _ _ _ H)) as [F1 F2].
  pose proof (put_inode_eq (view_fs HI) (view_wf HI) H1 finish_wf) as Eeq. split; rewrite ?Ev, ?finish_root, ?Eeq.
  - rewrite <- Ev. apply (view_fs HI2).
  - rewrite <- Ev. apply (view_wf HI2).
  - rewrite <- Ev, view_lookup, Hm by done. pose proof (mo_sb _ _ HK) as E. cbn [img] in E. rewrite E. vm_compute. done.
  - rewrite <- Ev, view_lookup, Hm by done. apply (mo_log _ _ HK).
  - intros c Hcc. rewrite <- Ev, (view_used HI2) by done. by rewrite <- (mo_fb _ _ HK).
  - intros k path l Hk. pose proof (lookup_lt_Some _ _ _ Hk). apply put_holds; [apply (view_fs HI)|apply (view_wf HI)|exact H1|lia|apply finish_wf|lia|].
    replace (2 + Z.of_nat k) with (1 + Z.of_nat (Datatypes.S k)) by lia. apply (mo_file _ _ HK). by apply (mk_files_lookup _ _ path).
  - exact (file_ok_size _ _ sz F1).
  - exact (ho_type _ _ _ _ H).
  - exact (ho_nlink _ _ _ _ H).
  - apply finish_wf.
  - done.
  - intros bn Hbn. destruct (ho_full _ _ _ _ H) as [G1 _]. transitivity (fblk V (fnode V 1) bn <> 0).
    + change (fblk V2 (ino 1 d) bn) with (fblk V2 (fnode V 1) bn). destruct (F2 bn Hbn) as [-> _]. reflexivity.
    + rewrite (G1 bn Hbn), <- (ho_size _ _ _ _ H), Hs. reflexivity.
  - intros a Ha. rewrite <- (ho_byte _ _ _ _ H a Ha). unfold fbyte. by destruct (F2 _ (in_file_blk _ Ha)) as [_ <-].
  - apply finish_apart.
  - intros i Hi. assert (0 <= i < NINODES) as Hr by lia. rewrite (put_inode_ne (view_fs HI) (view_wf HI) H1 finish_wf i Hr) by lia.
    apply (mo_free _ _ HK). unfold mk_files. cbn [length]. rewrite length_fmap. lia.
Qed.
End finish.

(** The size of the root directory is rounded up and the bitmap written. *)
Definition finish : M mk () :=
  din ← rinode 1;
  (let off := (xint (di_size din) / BSIZE + 1) * BSIZE in
   winode 1 (MkDinode (di_type din) (di_major din) (di_minor din) (di_nlink din) (xint (u32 off)) (di_addrs din))) ;;
  b ← gets freeblock;
  Mkfs.balloc (i32 b).

Lemma finish_mk n st files : mk_ok st (mk_files files) -> exists st', finish n st = Ret tt st' /\ made (img st') files.
Proof.
  intros HK. destruct st as [I fi fb]. pose proof (mo_img _ _ HK) as HI. cbn [img freeblock] in HI. assert (0 <= 1 < NINODES) as H1 by done.
  destruct (finish_count HK) as (Hc & Hs & Hz). destruct (winode_ok HI n (fi := fi) 1 _ H1 (finish_wf HK)) as (I2 & E2 & HI2 & Ev & Hm).
  pose proof (io_fb _ _ HI) as Hfb. unfold FSSIZE in Hfb. change ds with 46 in Hfb. exists (MkMk (view I2 fb) fi fb). split; [|by apply (finish_made HK)].
  unfold finish. rewrite (bind_ret _ _ _ _ _ _ (rinode_ok HI n 1 H1)). cbv beta zeta. rewrite Hs, (xint_id (DIRENT_SIZE * (2 + Z.of_nat (length files)))) by (change DIRENT_SIZE with 16; unfold NINODES in Hc; lia).
  rewrite u32_small, xint_id by exact Hz. rewrite (bind_ret _ _ _ _ _ _ E2). unfold gets, mbind, M_bind. cbn [bind_res freeblock].
  rewrite i32_small by lia. unfold Mkfs.balloc. rewrite (proj2 (Z.ltb_lt fb (BSIZE * 8))) by (unfold BSIZE; lia). cbn [negb]. by apply wsect_ok.
Qed.

(** ** The directory entries *)

Lemma join16_lookup (ls : list (list Z)) k l : Forall (fun l => length l = 16%nat) ls -> ls !! k = Some l -> slice (16 * Z.of_nat k) 16 (mjoin ls) = l.
Proof.
  intros H. revert k. induction H as [|l0 ls Hl H IH]; intros k Hk; [done|]. change (mjoin (l0 :: ls)) with (l0 ++ mjoin ls). destruct k as [|k].
  - injection Hk as ->. rewrite <- (app_nil_l (l ++ _)). apply slice_app_mid; [done|lia].
  - rewrite <- (IH k Hk). unfold slice. f_equal. replace (Z.to_nat (16 * Z.of_nat (Datatypes.S k))) with (length l0 + Z.to_nat (16 * Z.of_nat k))%nat by lia.
    apply drop_app_add.
Qed.

Lemma dirent_mk i name : 0 <= i < 2 ^ 16 -> de_inum (mk_dirent i name) = i /\ de_name (mk_dirent i name) = strncpy_l (Z.to_nat DIRSIZ) name.
Proof. intros Hi. unfold mk_dirent. rewrite xshort_id by done. apply enc_dirent_dec; [done|by rewrite strncpy_l_length]. Qed.

Lemma made_dirent D files k : made D files -> (k < Z.to_nat (MAXFILE * 64))%nat -> dirent D (fnode D 1) k = (fun j => byte_at (root_bytes files.*1) (16 * Z.of_nat k + Z.of_nat j)) <$> seq 0 16.
Proof.
  intros H Hk. unfold dirent, fread. change DIRENT_SIZE with 16. change (Z.to_nat 16) with 16%nat. apply list_fmap_ext. intros j x [-> Hj]%lookup_seq.
  apply (md_root_byte _ _ H). unfold in_file. change (MAXFILE * 64) with 17152 in Hk. change (MAXFILE * BSIZE) with 274432. lia.
Qed.

Lemma made_entry D files k e : made D files -> (k < Z.to_nat (MAXFILE * 64))%nat -> entries files.*1 !! k = Some e -> dirent D (fnode D 1) k = e.
Proof.
  intros H Hk He. rewrite (made_dirent D files k H Hk). pose proof (entries16 files.*1) as H16. rewrite <- (join16_lookup _ k e H16 He). fold (root_bytes files.*1).
  pose proof (lookup_lt_Some _ _ _ He) as Hlt. rewrite entries_length in Hlt.
  apply list_eq. intros j. unfold slice. destruct (decide (j < 16)%nat) as [Hj|Hj].
  - rewrite list_lookup_fmap, lookup_seq_lt by done. cbn [fmap option_fmap option_map]. rewrite lookup_take_lt, lookup_drop by (change (Z.to_nat 16) with 16%nat; done).
    unfold byte_at. replace (Z.to_nat (16 * Z.of_nat k + Z.of_nat (0 + j))) with (Z.to_nat (16 * Z.of_nat k) + j)%nat by lia.
    destruct (lookup_lt_is_Some_2 (root_bytes files.*1) (Z.to_nat (16 * Z.of_nat k) + j)) as [b Hb]; [rewrite root_length; lia|]. by rewrite Hb.
  - rewrite lookup_ge_None_2 by (rewrite length_fmap, length_seq; lia). symmetry. apply lookup_ge_None_2. rewrite length_take. change (Z.to_nat 16) with 16%nat. lia.
Qed.

Lemma made_blank D files k : made D files -> (k < Z.to_nat (MAXFILE * 64))%nat -> (2 + length files <= k)%nat -> de_inum (dirent D (fnode D 1) k) = 0.
Proof.
  intros H Hk Hb. rewrite (made_dirent D files k H Hk). transitivity (de_inum (replicate 16 0)); [|done]. f_equal. apply list_eq. intros j.
  destruct (decide (j < 16)%nat) as [Hj|Hj].
  - rewrite list_lookup_fmap, lookup_seq_lt, lookup_replicate_2 by done. cbn [fmap option_fmap option_map]. f_equal. unfold byte_at.
    rewrite lookup_ge_None_2; [done|]. rewrite root_length, length_fmap. lia.
  - rewrite !lookup_ge_None_2; [done|rewrite length_replicate; lia|rewrite length_fmap, length_seq; lia].
Qed.

(** ** The program *)

Lemma mk_files_nil : mk_files [] = [(T_DIR, mk_dirent 1 (chars ".") ++ mk_dirent 1 (chars ".."))].
Proof. unfold mk_files, root_bytes, entries. cbn. by rewrite app_nil_r. Qed.

Lemma iappend_root n st l e : (300 < n)%nat -> mk_ok st [(T_DIR, l)] -> (length l + length e <= 1024)%nat ->
  exists st', iappend 1 e n st = Ret tt st' /\ mk_ok st' [(T_DIR, l ++ e)].
Proof.
  intros Hn HK Hl. apply (iappend_mk n st [(T_DIR, l)] 0 T_DIR l e Hn HK eq_refl); [change (MAXFILE * BSIZE) with 274432; lia|].
  pose proof (total_sub [(T_DIR, l ++ e)] [(T_DIR, replicate 1024 0)]) as Ht. cbn [insert list_insert]. transitivity (ds + total [(T_DIR, replicate 1024 0)]); [|done].
  apply Z.add_le_mono_l, Ht. intros [|j] f Hf; [|done]. injection Hf as <-. eexists. split; [done|]. cbn [snd]. rewrite length_app, length_replicate. lia.
Qed.

Lemma main_made n argc fsfd files : (300 < n)%nat -> 2 <= argc -> 0 <= fsfd -> Forall ok_file files -> Z.of_nat (length files) + 1 < NINODES ->
  ds + total (mk_files files) <= FSSIZE -> exists st, Mkfs.main argc fsfd ((fun f => (f.1, Some f.2)) <$> files) n mk0 = Ret tt st /\ made (img st) files.
Proof.
  intros Hn Hargc Hfd Hok Hni Hroom. destruct (wipe_ok n 1 ds (Z.to_nat FSSIZE) 0 ∅) as (I & E0 & H0); [done|done|].
  pose proof (mk_start I H0) as HK0. destruct (ialloc_mk n _ [] T_DIR HK0) as (st1 & E1 & HK1); [done|done|].
  destruct (iappend_root n st1 [] (mk_dirent 1 (chars ".")) Hn HK1) as (st2 & E2 & HK2); [rewrite mk_dirent_length; cbn [length]; lia|].
  destruct (iappend_root n st2 _ (mk_dirent 1 (chars "..")) Hn HK2) as (st3 & E3 & HK3); [rewrite !length_app, !mk_dirent_length; cbn [length]; lia|].
  cbn [app] in HK3. rewrite <- mk_files_nil in HK3. destruct (add_files_mk n Hn files st3 [] HK3 Hok Hni Hroom) as (st4 & E4 & HK4).
  destruct (finish_mk n st4 files HK4) as (st5 & E5 & HM). exists st5. split; [|done].
  unfold Mkfs.main. rewrite (proj2 (Z.ltb_ge argc 2)), (proj2 (Z.ltb_ge fsfd 0)) by done. unfold mbind at 1, M_bind at 1, modify at 1. cbn [bind_res].
  change (mk0 <| freeblock := ds |>) with (MkMk ∅ 1 ds). rewrite (bind_ret _ _ _ _ _ _ E0). rewrite (bind_ret (wsect 1 _) _ _ _ _ _ (wsect_ok n 1 _ I 1 ds ltac:(done))).
  rewrite (bind_ret _ _ _ _ _ _ E1). change (1 + Z.of_nat (length [])) with 1. cbn [Z.eqb negb ROOTINO Pos.eqb]. unfold mbind at 1, M_bind at 1. cbn [bind_res mret M_ret].
  rewrite (bind_ret _ _ _ _ _ _ E2), (bind_ret _ _ _ _ _ _ E3), (bind_ret _ _ _ _ _ _ E4). exact E5.
Qed.

(** C6: run on files the image has room for (regular files of at most
    [MAXFILE] blocks, whose names hold no slash, no more of them than inodes, and
    no more blocks than [FSSIZE]), mkfs terminates without a failed assertion.
    The image it leaves is a file system of the layout the kernel expects:
    the superblock reads back as mkfs chose it, the log is empty, exactly the
    blocks before the first free one are marked, the unused inodes are free,
    no two files share a block; inode [2 + k] is a file with the bytes of the
    [k]-th argument, and the root directory has an entry for it, under its
    name without the directory and the underscore, and nothing after the last
    one. *)
Theorem mkfs_correct n argc fsfd files :
  (300 < n)%nat -> 2 <= argc -> 0 <= fsfd -> Forall ok_file files -> Z.of_nat (length files) + 1 < NINODES -> nmeta + total (mk_files files) <= FSSIZE ->
  exists st, let D := img st in
    Mkfs.main argc fsfd ((fun f => (f.1, Some f.2)) <$> files) n mk0 = Ret tt st /\ made D files /\
    (forall k path l, files !! k = Some (path, l) -> fread D (fnode D (2 + Z.of_nat k)) 0 (length l) = l /\
      named D (fnode D 1) (fname path) (2 + k) = true /\ de_inum (dirent D (fnode D 1) (2 + k)) = 2 + Z.of_nat k) /\
    (forall k, (2 + length files <= k)%nat -> DIRENT_SIZE * Z.of_nat k < i_size (fnode D 1) -> de_inum (dirent D (fnode D 1) k) = 0).
Proof.
  intros Hn Hargc Hfd Hok Hni Hroom. destruct (main_made n argc fsfd files) as (st & E & HM); try done. exists st. cbv zeta. split_and!; [done|done| |].
  - intros k path l Hk. pose proof (lookup_lt_Some _ _ _ Hk) as Hlt. pose proof (md_file _ _ HM k path l Hk) as Hh. unfold NINODES in Hni. split.
    + apply holds_read with T_FILE. exact Hh.
    + unfold named. rewrite (made_entry _ files _ (mk_dirent (2 + Z.of_nat k) (fname path)) HM); [|change (MAXFILE * 64) with 17152; lia|].
      * destruct (dirent_mk (2 + Z.of_nat k) (fname path)) as [-> ->]; [lia|]. rewrite namecmp_stored, (proj2 (Z.eqb_neq (2 + Z.of_nat k) 0)) by lia. done.
      * unfold entries. rewrite lookup_app_r by (cbn; lia). cbn [length]. replace (2 + k - 2)%nat with k by lia. rewrite list_lookup_imap, list_lookup_fmap, Hk. done.
  - intros k Hk Hs. apply (made_blank _ files _ HM); [|done]. unfold fnode in Hs. cbn [i_size ino] in Hs. rewrite (md_root_size _ _ HM) in Hs.
    change DIRENT_SIZE with 16 in Hs. unfold BSIZE, NINODES in *. change (MAXFILE * 64) with 17152. lia.
Qed.

Definition ok_fileb (f : list Z * list Z) : bool := (Z.of_nat (length f.2) <=? MAXFILE * BSIZE) && negb (existsb (Z.eqb slash) (strcut (shortname f.1))).

Lemma ok_files fs : forallb ok_fileb fs = true -> Forall ok_file fs.
Proof.
  intros H. apply Forall_forall. intros f Hf. apply list_elem_of_In in Hf. apply (proj1 (forallb_forall _ _) H) in Hf. apply andb_true_iff in Hf as [H1 H2]. split; [by apply Z.leb_le|].
  intros Hs. apply negb_true_iff in H2. assert (existsb (Z.eqb slash) (strcut (shortname f.1)) = true) as H3; [|congruence].
  apply existsb_exists. exists slash. split; [by apply list_elem_of_In|apply Z.eqb_refl].
Qed.

Definition demo_files : list (list Z * list Z) := [(chars "README", replicate 1500 65); (chars "user/_cat", [127; 69; 76; 70]); (chars "user/_sh", [])].

Lemma mkfs_correct_witness : exists st, let D := img st in
    Mkfs.main 5 3 ((fun f => (f.1, Some f.2)) <$> demo_files) 400%nat mk0 = Ret tt st /\
    fread D (fnode D 3) 0 4 = [127; 69; 76; 70] /\ named D (fnode D 1) (chars "cat") 3 = true /\ de_inum (dirent D (fnode D 1) 3) = 3.
Proof.
  destruct (mkfs_correct 400%nat 5 3 demo_files) as (st & E & _ & H & _).
  - apply Nat.ltb_lt. reflexivity.
  - lia.
  - lia.
  - apply ok_files. vm_compute. reflexivity.
  - reflexivity.
  - vm_compute. discriminate.
  - exists st. cbv zeta. split; [exact E|]. exact (H 1%nat (chars "user/_cat") [127; 69; 76; 70] eq_refl).
Defined.

Lemma made_dense D files : made D files -> Z.of_nat (length files) + 1 < NINODES -> dense D (fnode D 1) <-> (DIRENT_SIZE * (2 + Z.of_nat (length files))) mod BSIZE <> 0.
Proof.
  intros HM Hni. pose proof (md_root_blk _ _ HM) as Hb. unfold dense. change (i_size (fnode D 1)) with (di_size (disk_inode S D 1)). rewrite (md_root_size _ _ HM).
  change DIRENT_SIZE with 16 in *. unfold NINODES in Hni. change MAXFILE with 268 in Hb. unfold BSIZE in *. set (z := 16 * (2 + Z.of_nat (length files))) in *.
  assert (0 <= z < 3300) as Hz by lia. clearbody z. split.
  - intros Hd. specialize (Hd ((z / 1024 + 1) * 1024 - 1) ltac:(lia)). rewrite Hb in Hd by lia. lia.
  - intros Hm i Hi. apply Hb; lia.
Qed.

(** C36: mkfs rounds the size of the root directory up to one byte past the
    last block it wrote into, so the directory has a block for each byte of its
    size exactly when its entries do not end at a block boundary: with 62 files
    (64 entries, one block) the directory has a hole of a block. *)
Theorem mkfs_root_hole n argc fsfd files st :
  (300 < n)%nat -> 2 <= argc -> 0 <= fsfd -> Forall ok_file files -> Z.of_nat (length files) + 1 < NINODES -> nmeta + total (mk_files files) <= FSSIZE ->
  Mkfs.main argc fsfd ((fun f => (f.1, Some f.2)) <$> files) n mk0 = Ret tt st ->
  dense (img st) (fnode (img st) 1) <-> (DIRENT_SIZE * (2 + Z.of_nat (length files))) mod BSIZE <> 0.
Proof.
  intros Hn Hargc Hfd Hok Hni Hroom Hrun. destruct (main_made n argc fsfd files) as (st' & E & HM); try done. rewrite Hrun in E. injection E as ->. by apply made_dense.
Qed.

Definition many_files : list (list Z * list Z) := replicate 62 (chars "user/_a", []).

Lemma mkfs_root_hole_witness : exists st, Mkfs.main 64 3 ((fun f => (f.1, Some f.2)) <$> many_files) 400%nat mk0 = Ret tt st /\ ~ dense (img st) (fnode (img st) 1).
Proof.
  assert (Forall ok_file many_files) as Hok by (apply ok_files; vm_compute; reflexivity).
  assert (nmeta + total (mk_files many_files) <= FSSIZE) as Hroom by (vm_compute; discriminate).
  assert ((300 < 400)%nat) as Hn by (apply Nat.ltb_lt; reflexivity).
  destruct (main_made 400%nat 64 3 many_files Hn) as (st & E & _); [lia|lia|exact Hok|reflexivity|exact Hroom|]. exists st. split; [exact E|].
  intros Hd. apply (mkfs_root_hole 400%nat 64 3 many_files st Hn) in Hd; [|lia|lia|exact Hok|reflexivity|exact Hroom|exact E]. apply Hd. reflexivity.
Defined.
