(* ===== verification/MkfsTree.v ===== *)
(** * The kernel finds what mkfs wrote

    The image of [mkfs/mkfs.c] is a tree the kernel's [namex] can walk: the
    path of each file leads to its inode. *)

From Stdlib Require Import ZArith Lia.
From stdpp Require Import gmultiset.
From S2P Require Import Prelude Riscv KString Thread Proc Sleeplock Kern Blocks Virtio VirtioSpec.
From S2P Require Import Bio BioSpec BioOps Log LogSpec Crash Txn Fs Balloc Files ReadWrite FileTheorems Inodes Trunc Dirs DirLink Paths.
From S2P Require Import Mkfs MkfsSpec MkfsTheorems MkfsImage.

Local Notation S := mk_sb.
Local Notation ds := nmeta.

(** The names in the root directory, in the order of its entries. *)
Definition dir_names (files : list (list Z * list Z)) : list (list Z) := chars "." :: chars ".." :: (fname <$> files.*1).
Definition dir_inum (j : nat) : Z := if decide (j < 2)%nat then 1 else Z.of_nat j.

Lemma dir_entry files j nm : dir_names files !! j = Some nm -> entries files.*1 !! j = Some (mk_dirent (dir_inum j) nm).
Proof.
  destruct j as [|[|j]]; [by intros [= <-]|by intros [= <-]|]. unfold dir_names. cbn [lookup list_lookup]. intros Hj. apply list_lookup_fmap_Some in Hj as (q & -> & Hq).
  change (entries files.*1 !! Datatypes.S (Datatypes.S j)) with (imap (fun k p => mk_dirent (2 + Z.of_nat k) (fname p)) files.*1 !! j). rewrite list_lookup_imap, Hq. cbn [fmap option_fmap option_map]. do 2 f_equal. unfold dir_inum. rewrite decide_False by lia. lia.
Qed.

Lemma strcut_no0 l : Forall (fun c => c <> 0) (strcut l).
Proof. induction l as [|c l IH]; [done|]. cbn. destruct (Z.eqb_spec c 0); [done|]. by constructor. Qed.

Lemma fname_no0 path : Forall (fun c => c <> 0) (fname path).
Proof. unfold fname, no_underscore. destruct (_ =? _); [apply Forall_drop|]; apply strcut_no0. Qed.
Lemma fname_no_slash f : ok_file f -> slash ∉ fname f.1.
Proof.
  intros [_ Hs]. unfold fname, no_underscore. destruct (_ =? _); [|done]. intros H. apply Hs. apply list_elem_of_lookup in H as [i Hi]. rewrite lookup_drop in Hi. by eapply list_elem_of_lookup_2.
Qed.

Lemma stored_name nm : Forall (fun c => c <> 0) nm -> strcut (strncpy_l (Z.to_nat DIRSIZ) nm) = take (Z.to_nat DIRSIZ) nm.
Proof.
  intros H. unfold strncpy_l. rewrite (strcut_full nm H). remember (take (Z.to_nat DIRSIZ) nm) as e eqn:E. assert (Forall (fun c => c <> 0) e) as He by (subst e; by apply Forall_take).
  destruct (Z.to_nat DIRSIZ - length e)%nat; [by rewrite app_nil_r, strcut_full|]. cbn [replicate]. by apply strcut_nul.
Qed.

Lemma dir_names_no0 files j nm : dir_names files !! j = Some nm -> Forall (fun c => c <> 0) nm.
Proof. destruct j as [|[|j]]; [intros [= <-]; by repeat constructor..|]. unfold dir_names. cbn [lookup list_lookup]. intros Hj. apply list_lookup_fmap_Some in Hj as (q & -> & Hq). apply fname_no0. Qed.

Section tree.
Context {D : gmap Z (list Z)} {files : list (list Z * list Z)} (HM : made D files) (Hni : Z.of_nat (length files) + 1 < NINODES).

Lemma dir_names_length : length (dir_names files) = (2 + length files)%nat.
Proof. unfold dir_names. cbn. by rewrite !length_fmap. Qed.

(** Entry [j] of the root. *)
Lemma root_entry j nm : dir_names files !! j = Some nm -> de_inum (dirent D (fnode D 1) j) = dir_inum j /\ strcut (de_name (dirent D (fnode D 1) j)) = take (Z.to_nat DIRSIZ) nm.
Proof.
  intros Hj. pose proof (lookup_lt_Some _ _ _ Hj) as Hlt. rewrite dir_names_length in Hlt. unfold NINODES in Hni.
  rewrite (made_entry D files j _ HM) by ((change (MAXFILE * 64) with 17152; lia) || by apply dir_entry).
  assert (0 <= dir_inum j < 2 ^ 16) as Hd by (unfold dir_inum; case_decide; lia). destruct (dirent_mk (dir_inum j) nm Hd) as [-> ->]. split; [done|]. apply stored_name. by eapply dir_names_no0.
Qed.

Lemma inode_fnode i : inode_of S D i = fnode D i.
Proof. done. Qed.

Lemma live_root : live S D 1.
Proof. split_and!; [done|done|by rewrite (md_root_type _ _ HM)|by rewrite (md_root_nlink _ _ HM)]. Qed.

Lemma live_entry j : (j < 2 + length files)%nat -> live S D (dir_inum j).
Proof.
  intros Hj. unfold dir_inum. case_decide as Hd; [apply live_root|]. destruct (lookup_lt_is_Some_2 files (j - 2)) as [[path l] Hf]; [lia|].
  pose proof (md_file _ _ HM _ _ _ Hf) as Hh. replace (2 + Z.of_nat (j - 2)) with (Z.of_nat j) in Hh by lia. change (sb_ninodes S) with NINODES.
  split_and!; [lia|change (sb_ninodes S) with NINODES; lia|by rewrite (ho_type _ _ _ _ Hh)|by rewrite (ho_nlink _ _ _ _ Hh)].
Qed.

(** Only the root is a directory. *)
Lemma only_root i : live S D i -> di_type (disk_inode S D i) = T_DIR -> i = 1.
Proof.
  intros ((H1 & H2) & Hty & _) Ht. change (sb_ninodes S) with NINODES in H2. destruct (decide (i = 1)) as [|Hne]; [done|].
  destruct (decide (i < 2 + Z.of_nat (length files))) as [Hlt|Hge]; [|by rewrite (md_free _ _ HM) in Hty by lia].
  destruct (lookup_lt_is_Some_2 files (Z.to_nat (i - 2))) as [[path l] Hf]; [lia|]. pose proof (md_file _ _ HM _ _ _ Hf) as Hh. replace (2 + Z.of_nat (Z.to_nat (i - 2))) with i in Hh by lia.
  by rewrite (ho_type _ _ _ _ Hh) in Ht.
Qed.

Lemma root_size : i_size (fnode D 1) = (DIRENT_SIZE * (2 + Z.of_nat (length files)) / BSIZE + 1) * BSIZE.
Proof. apply (md_root_size _ _ HM). Qed.
Lemma root_len : i_size (fnode D 1) = DIRENT_SIZE * Z.of_nat (dir_len (fnode D 1)) /\ (2 + length files <= dir_len (fnode D 1) < 300)%nat.
Proof. unfold dir_len. rewrite root_size. change DIRENT_SIZE with 16. unfold BSIZE, NINODES in *. lia. Qed.

Lemma made_tree : (DIRENT_SIZE * (2 + Z.of_nat (length files))) mod BSIZE <> 0 -> tree_ok ds S D.
Proof.
  intros Hm. destruct root_len as [Hsz [Hl1 Hl2]]. split.
  - intros i Hi Ht. rewrite (only_root i Hi Ht), inode_fnode. split; [apply HM|]. destruct (md_root_wf _ _ HM) as [W1 W2 W3 W4 W5 _]. split; try done.
    rewrite Hsz. change DIRENT_SIZE with 16. change (MAXFILE * BSIZE) with 274432. lia.
  - intros i Hi Ht. rewrite (only_root i Hi Ht), inode_fnode. split; [exact (md_root_type _ _ HM)|exact Hsz|by apply (made_dense D files HM)].
  - intros i j Hi Ht. rewrite (only_root i Hi Ht), inode_fnode. intros Hj Hd. destruct (decide (j < 2 + length files)%nat) as [Hlt|Hge].
    + destruct (lookup_lt_is_Some_2 (dir_names files) j) as [nm Hnm]; [by rewrite dir_names_length|]. destruct (root_entry j nm Hnm) as [-> _]. by apply live_entry.
    + destruct Hd. apply (made_blank D files j HM); [change (MAXFILE * 64) with 17152; lia|lia].
Qed.

(** A name is found at its first entry. *)
Lemma root_find j nm : NoDup (take (Z.to_nat DIRSIZ) <$> dir_names files) -> dir_names files !! j = Some nm -> dir_find D (inode_of S D 1) (take (Z.to_nat DIRSIZ) nm) = Some j.
Proof.
  intros Hnd Hj. rewrite inode_fnode. destruct root_len as [_ [Hl1 Hl2]]. pose proof (lookup_lt_Some _ _ _ Hj) as Hlt. rewrite dir_names_length in Hlt.
  apply dir_find_first; [lia| |].
  - destruct (root_entry j nm Hj) as [E1 E2]. unfold is_entry. rewrite E1, E2, bool_decide_true by done. rewrite (proj2 (Z.eqb_neq _ 0)); [done|]. unfold dir_inum. case_decide; lia.
  - intros i Hi. destruct (lookup_lt_is_Some_2 (dir_names files) i) as [nm' Hnm']; [rewrite dir_names_length; lia|]. destruct (root_entry i nm' Hnm') as [_ E2].
    unfold is_entry. rewrite E2, bool_decide_false; [by rewrite andb_false_r|]. intros E. assert (i = j); [|lia].
    eapply (NoDup_lookup _ i j (take (Z.to_nat DIRSIZ) nm) Hnd); rewrite list_lookup_fmap; [by rewrite Hnm', <- E|by rewrite Hj].
Qed.

(** The path of the [j]-th file. *)
Lemma made_walk j path l : Forall ok_file files -> NoDup (take (Z.to_nat DIRSIZ) <$> dir_names files) -> fname path <> [] -> files !! j = Some (path, l) ->
  walk_path S D ROOTINO (elements (slash :: fname path)) = Some (2 + Z.of_nat j) /\ live S D (2 + Z.of_nat j).
Proof.
  intros Hok Hnd Hne Hj. assert (slash ∉ fname path) as Hs by (apply (fname_no_slash (path, l)); by eapply Forall_lookup_1).
  assert (dir_names files !! Datatypes.S (Datatypes.S j) = Some (fname path)) as Hn.
  { change (dir_names files !! Datatypes.S (Datatypes.S j)) with ((fname <$> files.*1) !! j). by rewrite !list_lookup_fmap, Hj. }
  pose proof (elements_cons [slash] (fname path) [] [] ltac:(by repeat constructor) Hne Hs ltac:(done)) as E. rewrite !app_nil_r in E. cbn [app] in E. change (elements []) with (@nil (list Z)) in E. rewrite E. clear E. pose proof (lookup_lt_Some _ _ _ Hj) as Hlt. split.
  - change ROOTINO with 1. cbn [walk_path]. rewrite (md_root_type _ _ HM), Z.eqb_refl, (root_find _ _ Hnd Hn). rewrite inode_fnode. destruct (root_entry _ _ Hn) as [-> _]. unfold dir_inum. rewrite decide_False by lia. f_equal. lia.
  - assert (dir_inum (Datatypes.S (Datatypes.S j)) = 2 + Z.of_nat j) as <- by (unfold dir_inum; case_decide; lia). apply live_entry. lia.
Qed.
End tree.

(** C9: the kernel finds the files mkfs was given.  When mkfs is run on files
    with different names (up to 14 bytes, without directory and underscore)
    that fit on the image and whose directory does not end at a block boundary, it succeeds, and on
    the image it leaves, in any state of the kernel in which no inode is
    locked, [namei] of "/" and the name of the [j]-th file ends and returns a
    table entry of inode [2 + j], with one reference more than before; the
    contents of that inode on disk are the bytes of the file. *)
Theorem mkfs_namei n argc fsfd files :
  (300 < n)%nat -> 2 <= argc -> 0 <= fsfd -> Forall ok_file files -> Z.of_nat (length files) + 1 < NINODES -> nmeta + total (mk_files files) <= FSSIZE ->
  (DIRENT_SIZE * (2 + Z.of_nat (length files))) mod BSIZE <> 0 -> NoDup (take (Z.to_nat DIRSIZ) <$> dir_names files) -> Forall (fun f => fname f.1 <> []) files ->
  exists st, Mkfs.main argc fsfd ((fun f => (f.1, Some f.2)) <$> files) n mk0 = Ret tt st /\
    forall j path l, files !! j = Some (path, l) -> fread (img st) (inode_of mk_sb (img st) (2 + Z.of_nat j)) 0 (length l) = l /\
    forall env (BD : BlockDev env) m p o bl D t R k, (Z.to_nat (MAXFILE * BSIZE / DIRENT_SIZE) < m)%nat -> (length (slash :: fname path) < m)%nat -> rest p t -> (length bl < nbuf)%nat ->
      (forall ip, slks t !! SLInode ip = None) -> (size (dom R) + 1 < Z.to_nat NINODE)%nat ->
      wstate (s := 2) (o := o) (bl := bl) (V := img st) (D := D) (S := mk_sb) p t R k ->
      runs env (namei (slash :: fname path) m (MkK t k)) (fun r s' => exists ip k', r = Some ip /\ s' = MkK t k' /\ at_inode (itable k') ip (2 + Z.of_nat j) /\
        wstate (s := 2) (o := o) (bl := bl) (V := img st) (D := D) (S := mk_sb) p t ({[+ 2 + Z.of_nat j +]} ⊎ R) k').
Proof.
  intros Hn Hargc Hfd Hok Hni Hroom Hmod Hnd Hne. destruct (main_made n argc fsfd files) as (st & E & HM); try done. exists st. split; [done|].
  intros j path l Hj. split; [rewrite inode_fnode; apply holds_read with T_FILE; by eapply md_file|]. intros env BD m p o bl D t R k HnD Hlen Hr Hbl Hlk Hcap HW.
  change (MAXFILE * BSIZE / DIRENT_SIZE) with 17152 in HnD. assert (fname path <> []) as Hnm by (by apply (Forall_lookup_1 _ _ _ _ Hne Hj)).
  destruct (made_walk HM Hni j path l Hok Hnd Hnm Hj) as [Hw _]. unfold namei. apply runs_bind.
  eapply runs_mono; [|eapply (namex_spec env BD m p 2 o nmeta bl (img st) D mk_sb t R k (slash :: fname path) false ROOTINO)]; try done.
  - intros r ? (k' & -> & _ & HT). unfold target in HT. rewrite Hw in HT. cbn [fmap option_fmap option_map] in HT. destruct HT as (ip & name & -> & HW' & Hat & _).
    eapply runs_ret; [reflexivity|]. by exists ip, k'.
  - change BPB with 8192. lia.
  - change (sb_size mk_sb / BPB) with 0. lia.
  - apply HM.
  - by apply (made_tree HM Hni).
  - constructor; [done|apply fname_no0].
  - apply (live_root HM).
Qed.

Lemma demo_names : NoDup (take (Z.to_nat DIRSIZ) <$> dir_names demo_files) /\ Forall (fun f => fname f.1 <> []) demo_files /\ (DIRENT_SIZE * (2 + Z.of_nat (length demo_files))) mod BSIZE <> 0.
Proof. split_and!; [apply (bool_decide_unpack _); vm_compute; exact I|apply (bool_decide_unpack _); vm_compute; exact I|vm_compute; discriminate]. Qed.
Lemma demo_room : Z.of_nat (length demo_files) + 1 < NINODES /\ nmeta + total (mk_files demo_files) <= FSSIZE.
Proof. split; vm_compute; [reflexivity|discriminate]. Qed.
Lemma cat_fuel : (Z.to_nat (MAXFILE * BSIZE / DIRENT_SIZE) < path_fuel)%nat /\ (length (slash :: fname (chars "user/_cat")) < path_fuel)%nat.
Proof. unfold path_fuel. change (MAXFILE * BSIZE / DIRENT_SIZE) with 17152. change (length (slash :: fname (chars "user/_cat"))) with 4%nat. lia. Qed.

(** [namei("/cat")] on an image with three files. *)
Lemma mkfs_namei_witness : exists st, Mkfs.main 5 3 ((fun f => (f.1, Some f.2)) <$> demo_files) 400%nat mk0 = Ret tt st /\ exists ip k',
  solo (disk_env demo_device 2) (namei (slash :: chars "cat") path_fuel (MkK Kalloc.demo_T (fresh_kern mk_sb (img st)))) = Some (Some ip, MkK Kalloc.demo_T k') /\ at_inode (itable k') ip 3.
Proof.
  destruct demo_names as (N1 & N2 & N3). destruct demo_room as [R1 R2]. destruct cat_fuel as [F1 F2]. destruct tree_room as [Hc Hs].
  assert (Forall ok_file demo_files) as Hok by (apply ok_files; vm_compute; reflexivity).
  assert (300 < 400)%nat as Hn by (apply Nat.ltb_lt; reflexivity).
  destruct (main_made 400%nat 5 3 demo_files Hn (Zle_bool_imp_le 2 5 eq_refl) (Zle_bool_imp_le 0 3 eq_refl) Hok R1 R2) as (st' & E' & HM).
  destruct (mkfs_namei 400%nat 5 3 demo_files Hn (Zle_bool_imp_le 2 5 eq_refl) (Zle_bool_imp_le 0 3 eq_refl) Hok R1 R2 N3 N1 N2) as (st & E & H). rewrite E' in E. injection E as ->. exists st. split; [exact E'|].
  destruct (H 1%nat (chars "user/_cat") [127; 69; 76; 70] eq_refl) as [_ HN].
  specialize (HN _ fs_dev path_fuel 0%nat 1 [] (img st) Kalloc.demo_T ∅ (fresh_kern mk_sb (img st)) F1 F2 demo_rest fs_no_bufs Hs Hc (fresh_wstate nmeta mk_sb (img st) (md_fs _ _ HM) (md_wf _ _ HM) (md_log _ _ HM))).
  destruct (proj1 (runs_some _ _ _) HN) as (r & s' & ER & ip & k' & -> & -> & Hat & _). exists ip, k'. split; [exact ER|exact Hat].
Defined.
