(* ===== verification/User.v ===== *)
(** * User programs and their system calls

    A user program is a tree of system calls: it computes on its own data,
    makes a call, and continues with the reply.  The calls are the stubs
    [usys.pl] generates, with the types of [user.h]; what the kernel copies out
    to the program's memory ([read], [fstat], ...) is part of the reply.  A
    child of [fork] is the continuation at 0.  A program may return, exit, use
    up the rounds its loops are given, or do what C gives no meaning to. *)

From Stdlib Require Import ZArith Lia.
From S2P Require Import Prelude.

(** [struct stat] of [kernel/stat.h], [struct uproc] of [user/uproc.h] *)
Record stat := MkStat { st_dev : Z; st_ino : Z; st_type : Z; st_nlink : Z; st_size : Z }.
Record uproc := MkUproc { up_pid : Z; up_state : Z; up_size : Z; up_ppid : Z; up_name : list Z }.

Inductive call : Set -> Set :=
| Fork : call Z
| Wait : call (Z * Z)
| Pipe : call (Z * (Z * Z))
| Write (fd : Z) (buf : list Z) : call Z
| Read (fd n : Z) : call (Z * list Z)
| Close (fd : Z) : call Z
| Kill (pid : Z) : call Z
| Exec (path : list Z) (argv : list (list Z)) : call Z
| Open (path : list Z) (mode : Z) : call Z
| Mknod (path : list Z) (major minor : Z) : call Z
| Unlink (path : list Z) : call Z
| Fstat (fd : Z) : call (Z * stat)
| Link (old new : list Z) : call Z
| Mkdir (path : list Z) : call Z
| Chdir (path : list Z) : call Z
| Dup (fd : Z) : call Z
| Getpid : call Z
| Sbrk (n : Z) : call Z
| Sleep (n : Z) : call Z
| Uptime : call Z
| Getprocs : call (Z * list uproc).

Inductive prog (A : Type) : Type :=
| PRet (a : A)
| PExit (status : Z)
| PSys (X : Set) (c : call X) (k : X -> prog A)
| PFuel
| PFault.
Arguments PRet {A} a.
Arguments PExit {A} status.
Arguments PSys {A X} c k.
Arguments PFuel {A}.
Arguments PFault {A}.

Fixpoint bind_prog {A B} (p : prog A) (f : A -> prog B) : prog B :=
  match p with
  | PRet a => f a
  | PExit n => PExit n
  | PSys c k => PSys c (fun x => bind_prog (k x) f)
  | PFuel => PFuel
  | PFault => PFault
  end.
#[export] Instance prog_ret : MRet prog := @PRet.
#[export] Instance prog_bind : MBind prog := fun A B f p => bind_prog p f.

(** The stubs. *)
Definition sys {X : Set} (c : call X) : prog X := PSys c PRet.
Definition fork : prog Z := sys Fork.
Definition exit {A} (status : Z) : prog A := PExit status.
Definition wait : prog (Z * Z) := sys Wait.
Definition pipe : prog (Z * (Z * Z)) := sys Pipe.
Definition read (fd n : Z) : prog (Z * list Z) := sys (Read fd n).
Definition write (fd : Z) (buf : list Z) : prog Z := sys (Write fd buf).
Definition close (fd : Z) : prog Z := sys (Close fd).
Definition kill (pid : Z) : prog Z := sys (Kill pid).
Definition exec (path : list Z) (argv : list (list Z)) : prog Z := sys (Exec path argv).
Definition open (path : list Z) (mode : Z) : prog Z := sys (Open path mode).
Definition mknod (path : list Z) (major minor : Z) : prog Z := sys (Mknod path major minor).
Definition unlink (path : list Z) : prog Z := sys (Unlink path).
Definition fstat (fd : Z) : prog (Z * stat) := sys (Fstat fd).
Definition link (old new : list Z) : prog Z := sys (Link old new).
Definition mkdir (path : list Z) : prog Z := sys (Mkdir path).
Definition chdir (path : list Z) : prog Z := sys (Chdir path).
Definition dup (fd : Z) : prog Z := sys (Dup fd).
Definition getpid : prog Z := sys Getpid.
Definition sbrk (n : Z) : prog Z := sys (Sbrk n).
Definition sleep (n : Z) : prog Z := sys (Sleep n).
Definition uptime : prog Z := sys Uptime.
Definition getprocs : prog (Z * list uproc) := sys Getprocs.

(** A loop of at most [k] rounds with local variables [L]. *)
Fixpoint ploop {L R} (k : nat) (body : L -> prog (L + R)) (l : L) : prog R :=
  match k with
  | O => PFuel
  | S k' => r ← body l;
            match r with inl l' => ploop k' body l' | inr x => mret x end
  end.

(** [for(i = ...; ...; i++)] over a range known on entry; [Some r] leaves it. *)
Fixpoint pfor {R} (k : nat) (i : Z) (body : Z -> prog (option R)) : prog (option R) :=
  match k with
  | O => mret None
  | S k' => r ← body i;
            match r with Some x => mret (Some x) | None => pfor k' (i + 1) body end
  end.

(** The same over the elements of a list, without early exit. *)
Fixpoint peach {X} (body : X -> prog ()) (l : list X) : prog () :=
  match l with
  | [] => mret tt
  | x :: l => body x ;; peach body l
  end.

(** ** What a program does under a kernel

    [K w c Q]: in a world [w], every reply to the call [c] the kernel may give
    and the world it leaves satisfy [Q].  [wp] is then the weakest condition
    for a program to end, whatever the kernel chooses, in a world of [Q] (on
    return) or [E] (on [exit]). *)

Definition kspec (W : Type) : Type := forall X : Set, W -> call X -> (X -> W -> Prop) -> Prop.

Class KMono {W} (K : kspec W) : Prop :=
  kmono : forall X w (c : call X) (Q Q' : X -> W -> Prop), (forall x w', Q x w' -> Q' x w') -> K X w c Q -> K X w c Q'.

Fixpoint wp {W A} (K : kspec W) (p : prog A) (w : W) (Q : A -> W -> Prop) (E : Z -> W -> Prop) : Prop :=
  match p with
  | PRet a => Q a w
  | PExit n => E n w
  | PSys c k => K _ w c (fun x w' => wp K (k x) w' Q E)
  | PFuel | PFault => False
  end.

Section wp.
Context {W : Type} {K : kspec W} {HK : KMono K}.

Lemma wp_mono {A} (p : prog A) w (Q Q' : A -> W -> Prop) (E E' : Z -> W -> Prop) :
  (forall a w', Q a w' -> Q' a w') -> (forall n w', E n w' -> E' n w') -> wp K p w Q E -> wp K p w Q' E'.
Proof.
  intros HQ HE. revert w. induction p as [a|n|X c k IH| |]; intros w; cbn [wp]; [apply HQ|apply HE| |done..].
  apply HK. intros x w'. apply IH.
Qed.

Lemma wp_bind {A B} (p : prog A) (f : A -> prog B) w Q E :
  wp K p w (fun a w' => wp K (f a) w' Q E) E -> wp K (p ≫= f) w Q E.
Proof.
  unfold mbind, prog_bind. revert w. induction p as [a|n|X c k IH| |]; intros w; cbn [wp bind_prog]; [done..| |done|done].
  apply HK. intros x w'. apply IH.
Qed.

(** A loop with a measure: each round either leaves or brings it down. *)
Lemma wp_ploop {L R} (body : L -> prog (L + R)) (Inv : L -> W -> nat -> Prop) (Q : R -> W -> Prop) E :
  (forall l w m, Inv l w m -> wp K (body l) w (fun r w' => match r with inl l' => exists m', (m' < m)%nat /\ Inv l' w' m' | inr x => Q x w' end) E) ->
  forall k l w m, Inv l w m -> (m < k)%nat -> wp K (ploop k body l) w Q E.
Proof.
  intros Hb. induction k as [|k IH]; intros l w m Hi Hk; [lia|]. cbn [ploop]. apply wp_bind. eapply wp_mono; [|done|by apply (Hb l w m)].
  intros [l'|x] w'; [|done]. intros (m' & Hm & Hi'). apply (IH l' w' m'); [done|lia].
Qed.
End wp.

(** ** A file and the standard output

    The world is what is left to read on [fd] and what has been written on
    descriptor 1.  A read returns some nonempty part of what is left, as much
    as the kernel likes, or 0 at the end of the file. *)
Definition stdio (fd : Z) : kspec (list Z * list Z) := fun X w c =>
  match c in call X return (X -> list Z * list Z -> Prop) -> Prop with
  | Read f n => fun Q => f = fd /\ (w.1 = [] \/ n <= 0 -> Q (0, []) w) /\
      forall d rest, w.1 = d ++ rest -> d <> [] -> Z.of_nat (length d) <= n -> Q (Z.of_nat (length d), d) (rest, w.2)
  | Write f buf => fun Q => f = 1 /\ Q (Z.of_nat (length buf)) (w.1, w.2 ++ buf)
  | _ => fun _ => False
  end.

#[export] Instance stdio_mono fd : KMono (stdio fd).
Proof.
  intros X w c Q Q' H. destruct c; cbn; try done.
  - intros [-> HQ]. auto.
  - intros (-> & H1 & H2). split_and!; [done|intros; apply H; auto|]. intros d rest E Hd Hl. apply H. by apply H2.
Qed.
