(* ===== verification/Ulib.v ===== *)
(** * [user/ulib.c]

    The string functions run on the byte memory of a process; the loops that
    look for a NUL take a bound on their rounds.  The second half relates them
    to functions on C strings (the list of the characters before the NUL), the
    form in which the programs of this library handle their strings. *)

From Stdlib Require Import ZArith Lia.
From S2P Require Import Prelude KString User.

(** Copies up to and including the NUL. *)
Fixpoint strcpy (fuel : nat) (m : gmap Z Z) (s t : Z) : option (gmap Z Z) :=
  match fuel with
  | O => None
  | S f => let m' := st m s (ld m t) in
           if ld m t =? 0 then Some m' else strcpy f m' (s + 1) (t + 1)
  end.

Fixpoint strcmp (fuel : nat) (m : gmap Z Z) (p q : Z) : option Z :=
  match fuel with
  | O => None
  | S f => if negb (ld m p =? 0) && (ld m p =? ld m q) then strcmp f m (p + 1) (q + 1)
           else Some (ld m p - ld m q)
  end.

Fixpoint strlen_from (fuel : nat) (m : gmap Z Z) (s n : Z) : option Z :=
  match fuel with
  | O => None
  | S f => if ld m (s + n) =? 0 then Some n else strlen_from f m s (n + 1)
  end.
Definition strlen (fuel : nat) (m : gmap Z Z) (s : Z) : option Z := strlen_from fuel m s 0.

Definition memset (m : gmap Z Z) (dst c n : Z) : gmap Z Z := memset_loop (Z.to_nat n) m dst 0 c.

(** The address of the character, or 0. *)
Fixpoint strchr (fuel : nat) (m : gmap Z Z) (s c : Z) : option Z :=
  match fuel with
  | O => None
  | S f => if ld m s =? 0 then Some 0 else if ld m s =? c then Some s else strchr f m (s + 1) c
  end.

(** [gets(buf, max)] returns the string it leaves in [buf]. *)
Fixpoint gets_loop (k : nat) (buf : list Z) : prog (list Z) :=
  match k with
  | O => mret buf
  | S k' =>
      '(cc, c) ← read 0 1;
      if cc <? 1 then mret buf else
      let c := hd 0 c in
      let buf := buf ++ [c] in
      if (c =? 10) || (c =? 13) then mret buf else gets_loop k' buf
  end.
Definition gets (max : Z) : prog (list Z) := gets_loop (Z.to_nat (max - 1)) [].

Definition stat (n : list Z) : prog (Z * User.stat) :=
  fd ← open n 0;
  if fd <? 0 then mret (-1, MkStat 0 0 0 0 0) else
  '(r, st) ← fstat fd;
  _ ← close fd;
  mret (r, st).

(** [n*10 + *s++ - '0'] in 32-bit arithmetic. *)
Fixpoint atoi_loop (s : list Z) (n : Z) : Z :=
  match s with
  | [] => n
  | c :: s' => if (48 <=? c) && (c <=? 57) then atoi_loop s' (i32 (n * 10 + c - 48)) else n
  end.
Definition atoi (s : list Z) : Z := atoi_loop s 0.

Definition memmove (m : gmap Z Z) (vdst vsrc n : Z) : gmap Z Z :=
  if vdst <? vsrc then move_up (Z.to_nat n) m vdst vsrc
  else move_down (Z.to_nat n) m (vdst + n) (vsrc + n).

Fixpoint memcmp_n (k : nat) (m : gmap Z Z) (p1 p2 : Z) : Z :=
  match k with
  | O => 0
  | S k' => if negb (ld m p1 =? ld m p2) then ld m p1 - ld m p2 else memcmp_n k' m (p1 + 1) (p2 + 1)
  end.
Definition memcmp (m : gmap Z Z) (s1 s2 n : Z) : Z := memcmp_n (Z.to_nat n) m s1 s2.

Definition memcpy (m : gmap Z Z) (dst src n : Z) : gmap Z Z := memmove m dst src n.

(** ** On C strings *)

Fixpoint strcmp_l (p q : list Z) : Z :=
  match p, q with
  | a :: p', b :: q' => if a =? b then strcmp_l p' q' else a - b
  | _, _ => hd 0 p - hd 0 q
  end.

(** [strchr(s, c)]: the string before the character and what follows it. *)
Fixpoint strchr_l (s : list Z) (c : Z) : option (list Z * list Z) :=
  match s with
  | [] => None
  | x :: s' => if x =? 0 then None else
               if x =? c then Some ([], s') else
               '(a, b) ← strchr_l s' c; Some (x :: a, b)
  end.

(** The string [s] is at [a]. *)
Fixpoint str_at (m : gmap Z Z) (a : Z) (s : list Z) : Prop :=
  match s with
  | [] => ld m a = 0
  | c :: s' => ld m a = c /\ c <> 0 /\ str_at m (a + 1) s'
  end.

Lemma str_at_nonzero m a s : str_at m a s -> Forall (fun c => c <> 0) s.
Proof. revert a. induction s as [|c s IH]; intros a; [constructor|]. intros (_ & Hc & H). constructor; [done|]. by apply (IH (a + 1)). Qed.

Lemma strchr_l_some p c a b : strchr_l p c = Some (a, b) -> p = a ++ c :: b /\ c ∉ a.
Proof.
  revert a. induction p as [|x p IH]; intros a; [done|]. cbn [strchr_l]. destruct (Z.eqb_spec x 0); [done|].
  destruct (Z.eqb_spec x c) as [->|Hx]; [intros [= <- <-]; split; [done|apply not_elem_of_nil]|].
  destruct (strchr_l p c) as [[a' b']|] eqn:E; [|done]. cbn. intros [= <- <-]. destruct (IH a' eq_refl) as [-> Hn]. split; [done|by apply not_elem_of_cons].
Qed.

Lemma strchr_l_none p c : 0 ∉ p -> strchr_l p c = None -> c ∉ p.
Proof.
  induction p as [|x p IH]; intros H0 H; [apply not_elem_of_nil|]. apply not_elem_of_cons in H0 as [Hx H0]. cbn [strchr_l] in H.
  rewrite (proj2 (Z.eqb_neq x 0)) in H by done. destruct (Z.eqb_spec x c) as [->|Hn]; [done|]. apply not_elem_of_cons. split; [done|].
  apply IH; [done|]. by destruct (strchr_l p c) as [[a b]|].
Qed.

Lemma str_at_frame m m' a s : (forall b, a <= b <= a + Z.of_nat (length s) -> ld m' b = ld m b) -> str_at m a s -> str_at m' a s.
Proof.
  revert a. induction s as [|c s IH]; intros a H; cbn [str_at length]; [by rewrite H by (cbn; lia)|]. intros (H1 & H2 & H3).
  split_and!; [rewrite H by (cbn; lia); done|done|]. apply IH; [|done]. intros b Hb. apply H. cbn [length]. lia.
Qed.

Lemma strlen_str f m a s : str_at m a s -> (length s < f)%nat -> strlen f m a = Some (Z.of_nat (length s)).
Proof.
  unfold strlen. enough (forall n b, str_at m (b + n) s -> (length s < f)%nat -> strlen_from f m b n = Some (n + Z.of_nat (length s))) as H.
  { intros H1 H2. specialize (H 0 a). rewrite Z.add_0_r in H. by rewrite H by done. }
  revert f. induction s as [|c s IH]; intros [|f] n b H Hf; cbn in Hf; try lia; cbn [strlen_from str_at] in *; [rewrite H; cbn; f_equal; lia|].
  destruct H as (-> & Hc & H). rewrite (proj2 (Z.eqb_neq c 0)) by done. rewrite (IH f) by (rewrite ?Z.add_assoc; done || lia). cbn [length]. f_equal. lia.
Qed.

Lemma strcmp_str f m a b p q : str_at m a p -> str_at m b q -> (length p < f)%nat -> strcmp f m a b = Some (strcmp_l p q).
Proof.
  revert f a b q. induction p as [|c p IH]; intros [|f] a b q Hp Hq Hf; cbn in Hf; try lia; cbn [strcmp str_at strcmp_l] in *.
  - rewrite Hp. cbn. by destruct q as [|d q]; [rewrite Hq|destruct Hq as (-> & _)].
  - destruct Hp as (-> & Hc & Hp). rewrite (proj2 (Z.eqb_neq c 0)) by done. cbn [negb andb]. destruct q as [|d q]; [cbn in Hq; rewrite Hq, (proj2 (Z.eqb_neq c 0)) by done; done|].
    destruct Hq as (-> & Hd & Hq). destruct (c =? d); [|done]. apply IH; (done || lia).
Qed.

Lemma strcmp_l_zero p q : Forall (fun c => c <> 0) p -> Forall (fun c => c <> 0) q -> strcmp_l p q = 0 <-> p = q.
Proof.
  intros Hp. revert q. induction Hp as [|c p Hc _ IH]; intros q Hq; destruct Hq as [|d q Hd Hq]; cbn [strcmp_l hd]; cbv beta in *; [done|split; (done || lia)..|].
  destruct (Z.eqb_spec c d) as [->|Hne]; [rewrite IH by done; split; congruence|]. split; [lia|congruence].
Qed.

Lemma strchr_str f m a s c : str_at m a s -> (length s < f)%nat ->
  strchr f m a c = Some (match strchr_l s c with Some (x, _) => a + Z.of_nat (length x) | None => 0 end).
Proof.
  revert f a. induction s as [|x s IH]; intros [|f] a Hs Hf; cbn in Hf; try lia; cbn [strchr strchr_l str_at] in *; [by rewrite Hs|].
  destruct Hs as (-> & Hx & Hs). rewrite (proj2 (Z.eqb_neq x 0)) by done. destruct (x =? c); [cbn; f_equal; lia|].
  rewrite IH by (done || lia). destruct (strchr_l s c) as [[u v]|]; [|done]. cbn [mbind option_bind length]. f_equal. lia.
Qed.

Lemma strcpy_str f m s t l : str_at m t l -> s + Z.of_nat (length l) < t \/ t + Z.of_nat (length l) < s -> (length l < f)%nat ->
  exists m', strcpy f m s t = Some m' /\ str_at m' s l /\ forall a, a < s \/ s + Z.of_nat (length l) < a -> ld m' a = ld m a.
Proof.
  revert f m s t. induction l as [|c l IH]; intros [|f] m s t Ht Hd Hf; cbn [length] in *; try lia; cbn [strcpy].
  - cbn in Ht. rewrite Ht. eexists. split; [done|]. split; [cbn; rewrite ld_st, Z.eqb_refl; done|]. intros a Ha. rewrite ld_st.
    by rewrite (proj2 (Z.eqb_neq a s)) by lia.
  - destruct Ht as (Hc & Hcz & Ht). rewrite Hc, (proj2 (Z.eqb_neq c 0)) by done.
    destruct (IH f (st m s c) (s + 1) (t + 1)) as (m' & E & Hs & Hfr); [|lia|lia|].
    { eapply str_at_frame; [|exact Ht]. intros b Hb. rewrite ld_st. by rewrite (proj2 (Z.eqb_neq b s)) by lia. }
    exists m'. split; [done|]. split.
    + split_and!; [|done|done]. rewrite Hfr by lia. rewrite ld_st, Z.eqb_refl. rewrite <- Hc. apply u8_ld.
    + intros a Ha. rewrite Hfr by lia. rewrite ld_st. by rewrite (proj2 (Z.eqb_neq a s)) by lia.
Qed.

Lemma umemmove_ld m dst src n a : 0 <= n ->
  ld (memmove m dst src n) a = if (dst <=? a) && (a <? dst + n) then ld m (src + (a - dst)) else ld m a.
Proof.
  intros Hn. unfold memmove. destruct (Z.ltb_spec dst src).
  - rewrite move_up_ld by lia. by rewrite Z2Nat.id by lia.
  - rewrite move_down_ld by lia. rewrite Z2Nat.id by lia. replace (dst + n - n) with dst by lia. by replace (src + n - (dst + n - a)) with (src + (a - dst)) by lia.
Qed.

Lemma memcmp_zero k m p q : memcmp_n k m p q = 0 <-> mem_read m p k = mem_read m q k.
Proof.
  revert p q. induction k as [|k IH]; intros p q; [done|]. cbn [memcmp_n]. rewrite !mem_read_S.
  destruct (Z.eqb_spec (ld m p) (ld m q)) as [E|E]; cbn [negb]; [rewrite IH, E; split; congruence|]. split; [lia|congruence].
Qed.

(** On NUL-terminated strings the functions of ulib.c end and compute the
    length, the order (zero exactly on equal strings) and the first occurrence
    of a character; [strcpy] to a separate buffer leaves a copy and writes
    nothing else; [memmove] copies as if through a temporary buffer whatever
    the overlap; [memcmp] is zero exactly on equal bytes. *)
Theorem ulib_correct f m a b p q : str_at m a p -> str_at m b q -> (length p < f)%nat -> (length q < f)%nat ->
  strlen f m a = Some (Z.of_nat (length p)) /\
  (exists r, strcmp f m a b = Some r /\ (r = 0 <-> p = q)) /\
  (forall c, c <> 0 -> exists r, strchr f m a c = Some r /\
    ((r = 0 /\ c ∉ p) \/ exists u v, p = u ++ c :: v /\ c ∉ u /\ r = a + Z.of_nat (length u))) /\
  (forall s, s + Z.of_nat (length p) < a \/ a + Z.of_nat (length p) < s -> exists m', strcpy f m s a = Some m' /\ str_at m' s p /\
    forall x, x < s \/ s + Z.of_nat (length p) < x -> ld m' x = ld m x) /\
  (forall dst src n x, 0 <= n -> ld (memmove m dst src n) x = if (dst <=? x) && (x <? dst + n) then ld m (src + (x - dst)) else ld m x) /\
  (forall n, memcmp m a b n = 0 <-> mem_read m a (Z.to_nat n) = mem_read m b (Z.to_nat n)).
Proof.
  intros Hp Hq Hfp Hfq. split_and!.
  - by apply strlen_str.
  - exists (strcmp_l p q). split; [by apply strcmp_str|]. apply strcmp_l_zero; by eapply str_at_nonzero.
  - intros c Hc. eexists. split; [by apply strchr_str|]. destruct (strchr_l p c) as [[u v]|] eqn:E.
    + right. exists u, v. apply strchr_l_some in E as [-> Hu]. done.
    + left. split; [done|]. apply strchr_l_none; [|done]. intros H0. apply (Forall_forall (fun c => c <> 0) p) in H0; [done|]. by eapply str_at_nonzero.
  - intros s Hs. by apply strcpy_str.
  - intros. by apply umemmove_ld.
  - intros n. apply memcmp_zero.
Qed.

Lemma ulib_correct_witness : let m := mem_write ∅ 100 [104; 105; 0; 104; 111; 0] in
  strlen 5 m 100 = Some 2 /\ (exists r, strcmp 5 m 100 103 = Some r /\ (r = 0 <-> [104; 105] = [104; 111])).
Proof.
  cbv zeta. destruct (ulib_correct 5 (mem_write ∅ 100 [104; 105; 0; 104; 111; 0]) 100 103 [104; 105] [104; 111]) as (H1 & H2 & _);
    [vm_compute; intuition discriminate|vm_compute; intuition discriminate|cbn; lia|cbn; lia|]. split; [exact H1|exact H2].
Defined.
