(* ===== verification/UPrintf.v ===== *)
(** * [user/printf.c]

    Every character is a [write] of its own.  The variable arguments are a list
    of words and strings; one that is missing, or a word where a string is
    expected (other than the null pointer), has no meaning. *)

From Stdlib Require Import ZArith Lia.
From S2P Require Import Prelude KString User Ulib.

Definition digits : list Z := chars "0123456789ABCDEF".
Definition digit (i : Z) : Z := default 0 (digits !! Z.to_nat i).

Definition putc (fd c : Z) : prog () := _ ← write fd [u8 c]; mret tt.

(** The [do] loop of [printint]: least significant digit first. *)
Fixpoint digit_loop (fuel : nat) (x base : Z) : list Z :=
  match fuel with
  | O => []
  | S f => digit (x mod base) :: (if x / base =? 0 then [] else digit_loop f (x / base) base)
  end.

(** [buf] after the loops; 32 rounds are enough for every 32-bit value. *)
Definition printint_buf (xx base sgn : Z) : list Z :=
  let neg := negb (sgn =? 0) && (xx <? 0) in
  let x := if neg then u32 (- xx) else u32 xx in
  digit_loop 32 x base ++ (if neg then chars "-" else []).

Definition printint (fd xx base sgn : Z) : prog () := peach (putc fd) (reverse (printint_buf xx base sgn)).

Fixpoint printptr_loop (k : nat) (fd x : Z) : prog () :=
  match k with
  | O => mret tt
  | S k' => putc fd (digit (Z.shiftr x 60)) ;; printptr_loop k' fd (u64 (Z.shiftl x 4))
  end.
Definition printptr (fd x : Z) : prog () := putc fd 48 ;; putc fd 120 ;; printptr_loop 16 fd x.

Inductive uarg := AWord (x : Z) | AStr (s : list Z).

(** [state] is 0 or the character [%]. *)
Fixpoint vprintf_loop (fd : Z) (fmt : list Z) (state : bool) (ap : list uarg) : prog () :=
  match fmt with
  | [] => mret tt
  | c :: fmt' =>
      if negb state then
        if c =? 37 then vprintf_loop fd fmt' true ap
        else putc fd c ;; vprintf_loop fd fmt' false ap
      else if c =? 100 then
        match ap with AWord x :: ap => printint fd (i32 x) 10 1 ;; vprintf_loop fd fmt' false ap | _ => PFault end
      else if c =? 108 then
        match ap with AWord x :: ap => printint fd (i32 x) 10 0 ;; vprintf_loop fd fmt' false ap | _ => PFault end
      else if c =? 120 then
        match ap with AWord x :: ap => printint fd (i32 x) 16 0 ;; vprintf_loop fd fmt' false ap | _ => PFault end
      else if c =? 112 then
        match ap with AWord x :: ap => printptr fd (u64 x) ;; vprintf_loop fd fmt' false ap | _ => PFault end
      else if c =? 115 then
        match ap with
        | AStr s :: ap => peach (putc fd) s ;; vprintf_loop fd fmt' false ap
        | AWord x :: ap => if x =? 0 then peach (putc fd) (chars "(null)") ;; vprintf_loop fd fmt' false ap else PFault
        | [] => PFault
        end
      else if c =? 99 then
        match ap with AWord x :: ap => putc fd x ;; vprintf_loop fd fmt' false ap | _ => PFault end
      else if c =? 37 then putc fd c ;; vprintf_loop fd fmt' false ap
      else putc fd 37 ;; putc fd c ;; vprintf_loop fd fmt' false ap
  end.
Definition vprintf (fd : Z) (fmt : list Z) (ap : list uarg) : prog () := vprintf_loop fd fmt false ap.
Definition fprintf (fd : Z) (fmt : list Z) (ap : list uarg) : prog () := vprintf fd fmt ap.
Definition printf (fmt : list Z) (ap : list uarg) : prog () := vprintf 1 fmt ap.

#[global] Arguments vprintf : simpl never.
#[global] Arguments fprintf : simpl never.
#[global] Arguments printf : simpl never.
#[global] Arguments printint : simpl never.

(** A format literal with the C escape for a newline. *)
Definition line (s : string) : list Z := chars s ++ [10].

(** ** What the program writes *)

Lemma wp_puts fd c l inp out Q E : Forall (fun x => 0 <= x < 256) l -> c = 1 -> Q tt (inp, out ++ l) -> wp (stdio fd) (peach (putc c) l) (inp, out) Q E.
Proof.
  intros Hl ->. revert out. induction Hl as [|x l Hx _ IH]; intros out HQ; [by rewrite app_nil_r in HQ|].
  cbn [peach]. cbn. split; [done|]. rewrite u8_small by lia. apply IH. by rewrite <- app_assoc.
Qed.

(** ** Numerals *)

Definition radix_val (base : Z) (l : list Z) : Z := foldr (fun d t => d + base * t) 0 l.

Fixpoint radix (fuel : nat) (x base : Z) : list Z :=
  match fuel with
  | O => []
  | S f => x mod base :: (if x / base =? 0 then [] else radix f (x / base) base)
  end.

Lemma digit_loop_radix f x base : digit_loop f x base = digit <$> radix f x base.
Proof. revert x. induction f as [|f IH]; intros x; [done|]. cbn [digit_loop radix fmap list_fmap]. f_equal. destruct (x / base =? 0); [done|apply IH]. Qed.

Lemma radix_correct f x base : 2 <= base -> 0 <= x < base ^ Z.of_nat f -> (0 < f)%nat ->
  radix_val base (radix f x base) = x /\ Forall (fun d => 0 <= d < base) (radix f x base) /\ (length (radix f x base) <= f)%nat.
Proof.
  intros Hb. revert x. induction f as [|f IH]; intros x Hx Hf; [lia|]. cbn [radix radix_val foldr length].
  pose proof (Z.mod_pos_bound x base ltac:(lia)) as Hm. pose proof (Z.div_mod x base ltac:(lia)) as Hd.
  destruct (Z.eqb_spec (x / base) 0) as [E|E].
  - rewrite E in Hd. cbn. split_and!; [lia|by apply Forall_singleton|lia].
  - assert (0 < x / base) by (pose proof (Z.div_pos x base ltac:(lia) ltac:(lia)); lia).
    assert (x / base < base ^ Z.of_nat f) as Hlt by (apply Z.div_lt_upper_bound; [lia|]; rewrite Nat2Z.inj_succ, Z.pow_succ_r in Hx by lia; lia).
    destruct f as [|f]; [cbn in Hlt; lia|]. destruct (IH (x / base)) as (H1 & H2 & H3); [lia|lia|].
    split_and!; [unfold radix_val in H1; rewrite H1; lia|by constructor|lia].
Qed.

Lemma radix_fuel f g x base : 2 <= base -> 0 <= x < base ^ Z.of_nat f -> (0 < f <= g)%nat -> radix g x base = radix f x base.
Proof.
  intros Hb. revert g x. induction f as [|f IH]; intros [|g] x Hx Hf; try lia. cbn [radix]. f_equal. destruct (Z.eqb_spec (x / base) 0); [done|].
  assert (0 < x / base) by (pose proof (Z.div_pos x base ltac:(lia) ltac:(lia)); lia).
  assert (x / base < base ^ Z.of_nat f) as Hlt by (apply Z.div_lt_upper_bound; [lia|]; rewrite Nat2Z.inj_succ, Z.pow_succ_r in Hx by lia; lia).
  destruct f as [|f]; [cbn in Hlt; lia|]. apply IH; lia.
Qed.

(** No leading zero, but for 0 itself. *)
Lemma radix_last f x base : 2 <= base -> 0 <= x < base ^ Z.of_nat f -> (0 < f)%nat -> exists l d, radix f x base = l ++ [d] /\ (d = 0 -> x = 0).
Proof.
  intros Hb. revert x. induction f as [|f IH]; intros x Hx Hf; [lia|]. cbn [radix]. pose proof (Z.div_mod x base ltac:(lia)) as Hd. destruct (Z.eqb_spec (x / base) 0) as [E|E].
  - exists [], (x mod base). split; [done|]. lia.
  - assert (0 < x / base) by (pose proof (Z.div_pos x base ltac:(lia) ltac:(lia)); lia).
    assert (x / base < base ^ Z.of_nat f) as Hlt by (apply Z.div_lt_upper_bound; [lia|]; rewrite Nat2Z.inj_succ, Z.pow_succ_r in Hx by lia; lia).
    destruct f as [|f]; [cbn in Hlt; lia|]. destruct (IH (x / base)) as (l & d & E' & Hz); [lia|lia|]. rewrite E'. exists (x mod base :: l), d. split; [done|]. lia.
Qed.

(** The number a string of digits stands for. *)
Definition numeral (s : list Z) : Z := foldl (fun n c => n * 10 + (c - 48)) 0 s.

Definition decimal (s : list Z) (x : Z) : Prop :=
  numeral s = x /\ Forall (fun c => 48 <= c <= 57) s /\ (exists c s', s = c :: s' /\ (c = 48 -> x = 0)).

Lemma digit_dec d : 0 <= d < 10 -> digit d = 48 + d.
Proof.
  intros H. assert (d = 0 \/ d = 1 \/ d = 2 \/ d = 3 \/ d = 4 \/ d = 5 \/ d = 6 \/ d = 7 \/ d = 8 \/ d = 9) as Hd by lia.
  repeat destruct Hd as [->|Hd]; try done. by subst.
Qed.

Lemma numeral_radix l : Forall (fun d => 0 <= d < 10) l -> numeral (reverse (digit <$> l)) = radix_val 10 l.
Proof.
  unfold numeral. induction 1 as [|d l Hd _ IH]; [done|]. rewrite fmap_cons, reverse_cons, foldl_app, IH. cbn [foldl radix_val foldr].
  rewrite digit_dec by done. unfold radix_val. lia.
Qed.

Lemma digits_decimal x : 0 <= x < 2 ^ 32 -> decimal (reverse (digit_loop 32 x 10)) x /\ (length (digit_loop 32 x 10) <= 10)%nat.
Proof.
  intros Hx. rewrite digit_loop_radix, (radix_fuel 10) by lia. destruct (radix_correct 10 x 10) as (H1 & H2 & H3); [lia|lia|lia|].
  destruct (radix_last 10 x 10) as (l & d & E & Hz); [lia|lia|lia|]. split; [|by rewrite length_fmap]. split_and!.
  - by rewrite numeral_radix, H1.
  - apply Forall_reverse, Forall_fmap. eapply Forall_impl; [exact H2|]. intros c Hc. cbv beta in Hc. change (48 <= digit c <= 57). rewrite digit_dec by done. lia.
  - rewrite E in H2 |- *. apply Forall_app in H2 as [_ [H2 _]%Forall_cons]. cbv beta in H2. rewrite fmap_app, reverse_app. exists (digit d), (reverse (digit <$> l)).
    split; [done|]. rewrite digit_dec by exact H2. intros Hd. apply Hz. lia.
Qed.

Lemma numeral_ge s n : Forall (fun c => 48 <= c <= 57) s -> 0 <= n -> n <= foldl (fun n c => n * 10 + (c - 48)) n s.
Proof. intros H. revert n. induction H as [|c s Hc _ IH]; intros n Hn; [done|]. cbn [foldl]. transitivity (n * 10 + (c - 48)); [lia|]. apply IH. lia. Qed.

Lemma atoi_numeral s n : Forall (fun c => 48 <= c <= 57) s -> 0 <= n -> foldl (fun n c => n * 10 + (c - 48)) n s < 2 ^ 31 ->
  atoi_loop s n = foldl (fun n c => n * 10 + (c - 48)) n s.
Proof.
  intros H. revert n. induction H as [|c s Hc Hs IH]; intros n Hn Hb; [done|]. cbn [foldl atoi_loop] in *.
  rewrite (proj2 (Z.leb_le 48 c)), (proj2 (Z.leb_le c 57)) by lia. cbn [andb]. pose proof (numeral_ge s (n * 10 + (c - 48)) Hs ltac:(lia)).
  replace (n * 10 + c - 48) with (n * 10 + (c - 48)) by lia. rewrite i32_small by lia. apply IH; lia.
Qed.

(** What [printint] writes for a nonnegative number. *)
Lemma wp_printint fd xx : 0 <= xx < 2 ^ 31 -> exists s, decimal s xx /\ (length s <= 10)%nat /\
  forall inp out (Q : () -> list Z * list Z -> Prop) E, Q tt (inp, out ++ s) -> wp (stdio fd) (printint 1 xx 10 1) (inp, out) Q E.
Proof.
  intros Hx. destruct (digits_decimal xx) as [Hd Hl]; [lia|]. exists (reverse (digit_loop 32 xx 10)). split_and!; [done|by rewrite length_reverse|].
  intros inp out Q E HQ. unfold printint, printint_buf. cbn [Z.eqb negb andb]. rewrite (proj2 (Z.ltb_ge xx 0)), u32_small, app_nil_r by lia.
  apply wp_puts; [|done|done]. destruct Hd as (_ & H & _). eapply Forall_impl; [exact H|]. intros c Hc. cbv beta in Hc. lia.
Qed.

(** [printint] in base 10 writes the decimal numeral of its argument, the
    most negative one included, in at most 11 of the 16 bytes of its buffer,
    and [atoi] reads a nonnegative one back. *)
Theorem printint_decimal fd xx inp out : - 2 ^ 31 <= xx < 2 ^ 31 -> exists s,
  wp (stdio fd) (printint 1 xx 10 1) (inp, out) (fun _ w => w = (inp, out ++ s)) (fun _ _ => False) /\ (length s <= 11)%nat /\
  (0 <= xx -> decimal s xx /\ atoi s = xx) /\ (xx < 0 -> exists s', s = 45 :: s' /\ decimal s' (- xx)).
Proof.
  intros Hx. unfold printint, printint_buf. cbn [Z.eqb negb andb]. set (x := if xx <? 0 then u32 (- xx) else u32 xx).
  assert (x = Z.abs xx) as Ex by (unfold x; destruct (Z.ltb_spec xx 0); rewrite u32_small by lia; lia).
  destruct (digits_decimal x) as [(H1 & H2 & H3) H4]; [lia|]. set (s := reverse (digit_loop 32 x 10)) in *. pose proof (length_reverse (digit_loop 32 x 10)) as Hl. fold s in Hl.
  exists (reverse (digit_loop 32 x 10 ++ (if xx <? 0 then chars "-" else []))). rewrite reverse_app, length_app. fold s. split_and!.
  - apply wp_puts; [|done|done]. apply Forall_app. split; [by destruct (xx <? 0); repeat constructor|]. eapply Forall_impl; [exact H2|]. intros c Hc. cbn in Hc. lia.
  - assert (length (if (xx <? 0)%Z then chars "-" else []) <= 1)%nat by (destruct (xx <? 0); cbn; lia). rewrite length_reverse. lia.
  - intros Hp. rewrite (proj2 (Z.ltb_ge xx 0)) by done. cbn [reverse app]. change (reverse [] ++ s) with s. rewrite Z.abs_eq in Ex by done. split; [by rewrite <- Ex|].
    unfold atoi. rewrite atoi_numeral; [rewrite <- Ex; exact H1|done|done|]. unfold numeral in H1. rewrite H1. lia.
  - intros Hn. rewrite (proj2 (Z.ltb_lt xx 0)) by done. exists s. split; [done|]. rewrite Z.abs_neq in Ex by lia. by rewrite <- Ex.
Qed.

Lemma printint_decimal_witness : exists s,
  wp (stdio 0) (printint 1 (-2147483648) 10 1) ([], []) (fun _ w => w = ([], [] ++ s)) (fun _ _ => False) /\ exists s', s = 45 :: s' /\ decimal s' 2147483648.
Proof. destruct (printint_decimal 0 (-2147483648) [] []) as (s & H1 & _ & _ & H2); [lia|]. exists s. split; [exact H1|]. apply H2. lia. Defined.
