(* ===== verification/Grep.v ===== *)
(** * [user/grep.c]

    The matcher of Kernighan and Pike against the language its patterns
    denote, and the program: whatever way the kernel splits the input into
    reads, the output is the lines that match.  A C string is the list of its
    characters before the NUL. *)

From Stdlib Require Import ZArith Lia.
From S2P Require Import Prelude KString User Ulib UPrintf.

Definition star : Z := 42.
Definition dot : Z := 46.
Definition dollar : Z := 36.
Definition caret : Z := 94.
Definition nl : Z := 10.

(** ** The matcher *)

(** [do { if(matchhere(re, text)) return 1; } while(...)], [here] being
    [matchhere(re, .)]. *)
Fixpoint matchstar_loop (here : list Z -> bool) (c : Z) (text : list Z) : bool :=
  if here text then true else
  match text with
  | [] => false
  | t :: text' => if (t =? c) || (c =? dot) then matchstar_loop here c text' else false
  end.

Fixpoint matchhere (re text : list Z) : bool :=
  match re with
  | [] => true
  | c :: re1 =>
      match re1 with
      | s :: re2 => if s =? star then matchstar_loop (matchhere re2) c text else
                    match text with
                    | [] => false
                    | t :: text' => if (c =? dot) || (c =? t) then matchhere re1 text' else false
                    end
      | [] => if c =? dollar then match text with [] => true | _ => false end else
              match text with
              | [] => false
              | t :: text' => if (c =? dot) || (c =? t) then matchhere re1 text' else false
              end
      end
  end.

Definition matchstar (c : Z) (re text : list Z) : bool := matchstar_loop (matchhere re) c text.

(** The [do] loop of [match], over the suffixes of the text. *)
Fixpoint match_loop (re text : list Z) : bool :=
  if matchhere re text then true else
  match text with [] => false | _ :: text' => match_loop re text' end.

Definition match_ (re text : list Z) : bool :=
  match re with
  | c :: re1 => if c =? caret then matchhere re1 text else match_loop re text
  | [] => match_loop re text
  end.

(** ** The program *)

(** [while((q = strchr(p, '\n')) != 0)]: what is left after the last newline. *)
Fixpoint grep_lines (k : nat) (pattern p : list Z) : prog (list Z) :=
  match k with
  | O => PFuel
  | S k' =>
      match strchr_l p nl with
      | None => mret p
      | Some (l, rest) =>
          (if match_ pattern l then _ ← write 1 (l ++ [nl]); mret tt else mret tt) ;;
          grep_lines k' pattern rest
      end
  end.

Definition GREPBUF : Z := 1024.

(** [rest] is [buf[0..m)]. *)
Definition grep_body (pattern : list Z) (fd : Z) (rest : list Z) : prog (list Z + ()) :=
  '(n, data) ← read fd (GREPBUF - Z.of_nat (length rest) - 1);
  if n <=? 0 then mret (inr tt) else
  let buf := rest ++ data in
  p ← grep_lines (S (length buf)) pattern buf;
  mret (inl p).

Definition grep (fuel : nat) (pattern : list Z) (fd : Z) : prog () := ploop fuel (grep_body pattern fd) [].

Definition grep_file (fuel : nat) (pattern file : list Z) : prog () :=
  fd ← open file 0;
  if fd <? 0 then
    printf (line "grep: cannot open %s") [AStr file] ;;
    exit 1
  else
    grep fuel pattern fd ;;
    _ ← close fd;
    mret tt.

(** [argv] without the program's name. *)
Definition main (fuel : nat) (args : list (list Z)) : prog () :=
  match args with
  | [] => fprintf 2 (line "usage: grep pattern [file ...]") [] ;; exit 1
  | [pattern] => grep fuel pattern 0 ;; exit 0
  | pattern :: files => peach (grep_file fuel pattern) files ;; exit 0
  end.

(** ** What a pattern means *)

(** A pattern is a sequence of characters, each plain or starred, and may end
    in [$]. *)
Fixpoint items (re : list Z) : list (Z * bool) * bool :=
  match re with
  | [] => ([], false)
  | c :: re1 =>
      match re1 with
      | s :: re2 => if s =? star then let '(l, e) := items re2 in ((c, true) :: l, e)
                    else let '(l, e) := items re1 in ((c, false) :: l, e)
      | [] => if c =? dollar then ([], true) else ([(c, false)], false)
      end
  end.

Definition fits (c x : Z) : Prop := c = dot \/ x = c.

Inductive lang : list (Z * bool) -> list Z -> Prop :=
| lang_nil : lang [] []
| lang_one c x l t : fits c x -> lang l t -> lang ((c, false) :: l) (x :: t)
| lang_star c xs l t : Forall (fits c) xs -> lang l t -> lang ((c, true) :: l) (xs ++ t).

(** A prefix of the text, or all of it if the pattern ends in [$]. *)
Definition matches_here (re text : list Z) : Prop :=
  exists t suf, text = t ++ suf /\ lang (items re).1 t /\ ((items re).2 = true -> suf = []).

Definition matches (re text : list Z) : Prop :=
  if decide (head re = Some caret) then matches_here (tail re) text
  else exists pre t, text = pre ++ t /\ matches_here re t.

Lemma fits_spec c x : (x =? c) || (c =? dot) = true <-> fits c x.
Proof. unfold fits. rewrite orb_true_iff, !Z.eqb_eq. tauto. Qed.
Lemma fits_spec' c x : (c =? dot) || (c =? x) = true <-> fits c x.
Proof. rewrite <- fits_spec, (Z.eqb_sym c x), orb_comm. done. Qed.

Lemma matchstar_loop_spec here c text :
  matchstar_loop here c text = true <-> exists xs t, text = xs ++ t /\ Forall (fits c) xs /\ here t = true.
Proof.
  induction text as [|x text IH]; cbn [matchstar_loop].
  - destruct (here []) eqn:E.
    + split; [|done]. intros _. by exists [], [].
    + split; [done|]. intros (xs & t & Ht & _ & Hh). symmetry in Ht. apply app_eq_nil in Ht as [_ ->]. congruence.
  - destruct (here (x :: text)) eqn:E; [split; [|done]; intros _; by exists [], (x :: text)|].
    transitivity (fits c x /\ matchstar_loop here c text = true).
    { rewrite <- fits_spec. by destruct ((x =? c) || (c =? dot)); intuition. }
    rewrite IH. split.
    + intros (Hx & xs & t & -> & Hxs & Hh). exists (x :: xs), t. split_and!; [done|by constructor|done].
    + intros (xs & t & Ht & Hxs & Hh). destruct xs as [|y xs]; [cbn in Ht; subst; congruence|]. injection Ht as -> ->.
      apply Forall_cons in Hxs as [Hy Hxs]. split; [done|]. by exists xs, t.
Qed.

(** [matches_here] follows the recursion of [matchhere]. *)
Lemma here_star c re text : matches_here (c :: star :: re) text <-> exists xs t, text = xs ++ t /\ Forall (fits c) xs /\ matches_here re t.
Proof.
  unfold matches_here. cbn [items]. rewrite Z.eqb_refl. destruct (items re) as [l e]. cbn [fst snd]. split.
  - intros (t & suf & -> & Hl & He). inversion Hl as [| |c' xs l' t' Hxs Ht]; subst. exists xs, (t' ++ suf). rewrite <- app_assoc. split_and!; [done|done|]. by exists t', suf.
  - intros (xs & t0 & -> & Hxs & t & suf & -> & Hl & He). exists (xs ++ t), suf. rewrite <- app_assoc. split_and!; [done|by constructor|done].
Qed.

Lemma here_one c re text : (head re <> Some star) -> (re = [] -> c <> dollar) ->
  matches_here (c :: re) text <-> exists x t, text = x :: t /\ fits c x /\ matches_here re t.
Proof.
  intros Hs Hd. assert (items (c :: re) = ((c, false) :: (items re).1, (items re).2)) as E.
  { cbn [items]. destruct re as [|s re2]; [rewrite (proj2 (Z.eqb_neq c dollar)) by auto; done|].
    destruct (Z.eqb_spec s star) as [->|]; [done|]. by destruct (items (s :: re2)). }
  unfold matches_here. rewrite E. cbn [fst snd]. split.
  - intros (t & suf & -> & Hl & He). inversion Hl as [|c' x l' t' Hx Ht|]; subst. exists x, (t' ++ suf). split_and!; [done|done|]. by exists t', suf.
  - intros (x & t0 & -> & Hx & t & suf & -> & Hl & He). exists (x :: t), suf. split_and!; [done|by constructor|done].
Qed.

Lemma here_dollar text : matches_here [dollar] text <-> text = [].
Proof.
  unfold matches_here. cbn. split.
  - intros (t & suf & -> & Hl & He). inversion Hl; subst. by rewrite He.
  - intros ->. exists [], []. split_and!; [done|constructor|done].
Qed.

Lemma matchhere_spec re text : matchhere re text = true <-> matches_here re text.
Proof.
  remember (length re) as k eqn:Ek. assert (length re <= k)%nat as Hk by lia. clear Ek. revert re text Hk. induction k as [|k IH]; intros re text Hk.
  { destruct re; [|cbn in Hk; lia]. split; [|done]. intros _. exists [], text. split_and!; [done|constructor|done]. }
  destruct re as [|c re1]; [split; [|done]; intros _; exists [], text; split_and!; [done|constructor|done]|]. cbn [length] in Hk.
  assert (forall re, re = re1 -> match text with [] => false | t :: text' => if (c =? dot) || (c =? t) then matchhere re text' else false end = true <->
    exists x t, text = x :: t /\ fits c x /\ matches_here re1 t) as Hone.
  { intros re ->. destruct text as [|t text']; [split; [done|by intros (? & ? & ? & _)]|].
    transitivity (fits c t /\ matchhere re1 text' = true); [rewrite <- fits_spec'; destruct ((c =? dot) || (c =? t)); intuition; done|].
    rewrite (IH re1 text') by lia. split; [intros [H1 H2]; by exists t, text'|intros (x & t' & [= <- <-] & H); done]. }
  destruct re1 as [|s re2].
  - cbn [matchhere]. destruct (Z.eqb_spec c dollar) as [->|Hc]; [rewrite here_dollar; by destruct text|]. rewrite here_one by (done || intros; done). exact (Hone [] eq_refl).
  - cbn [matchhere]. fold matchhere. destruct (Z.eqb_spec s star) as [->|Hs].
    + rewrite matchstar_loop_spec, here_star. cbn [length] in Hk. split; intros (xs & t & Ht & Hxs & Hh); exists xs, t; (split_and!; [done|done|]); apply (IH re2 t); (done || lia).
    + rewrite here_one by (cbn; congruence || done). exact (Hone (s :: re2) eq_refl).
Qed.

Lemma match_loop_spec re text : match_loop re text = true <-> exists pre t, text = pre ++ t /\ matches_here re t.
Proof.
  induction text as [|x text IH]; cbn [match_loop].
  - pose proof (matchhere_spec re []) as H. destruct (matchhere re []).
    + split; [|done]. intros _. exists [], []. split; [done|by apply H].
    + split; [done|]. intros (pre & t & Ht & Hm). symmetry in Ht. apply app_eq_nil in Ht as [_ ->]. by apply H.
  - pose proof (matchhere_spec re (x :: text)) as H. destruct (matchhere re (x :: text)).
    + split; [|done]. intros _. exists [], (x :: text). split; [done|by apply H].
    + rewrite IH. split.
      * intros (pre & t & -> & Hm). by exists (x :: pre), t.
      * intros (pre & t & Ht & Hm). destruct pre as [|y pre]; [cbn in Ht; subst t; apply H in Hm; done|]. injection Ht as -> ->. by exists pre, t.
Qed.

(** ** The output *)

(** The complete lines of a text, and what follows the last newline. *)
Fixpoint splitl (l : list Z) : list (list Z) * list Z :=
  match l with
  | [] => ([], [])
  | x :: l' => let '(ls, r) := splitl l' in
               if x =? nl then ([] :: ls, r)
               else match ls with [] => ([], x :: r) | a :: ls' => ((x :: a) :: ls', r) end
  end.

Definition selected (pattern : list Z) (ls : list (list Z)) : list Z :=
  mjoin ((fun l => l ++ [nl]) <$> filter (fun l => match_ pattern l = true) ls).

Lemma splitl_none a : nl ∉ a -> splitl a = ([], a).
Proof.
  induction a as [|x a IH]; [done|]. intros H. cbn [splitl]. rewrite IH by (intros Hx; apply H; by right).
  rewrite (proj2 (Z.eqb_neq x nl)); [done|]. intros ->. apply H. by left.
Qed.

Lemma splitl_line a b : nl ∉ a -> splitl (a ++ nl :: b) = (a :: (splitl b).1, (splitl b).2).
Proof.
  induction a as [|x a IH]; intros H; cbn [app splitl]; [destruct (splitl b); by rewrite Z.eqb_refl|].
  rewrite IH by (intros Hx; apply H; by right). rewrite (proj2 (Z.eqb_neq x nl)); [done|]. intros ->. apply H. by left.
Qed.

Lemma splitl_rest l : nl ∉ (splitl l).2.
Proof.
  induction l as [|x l IH]; [apply not_elem_of_nil|]. cbn [splitl]. destruct (splitl l) as [ls r]. cbn [snd] in IH.
  destruct (Z.eqb_spec x nl); [done|]. destruct ls as [|a ls]; [|done]. cbn [snd]. by apply not_elem_of_cons.
Qed.

Lemma splitl_sub l x : x ∈ (splitl l).2 -> x ∈ l.
Proof.
  induction l as [|y l IH]; [done|]. cbn [splitl]. destruct (splitl l) as [[|a ls] r]; cbn [fst snd] in *; destruct (y =? nl); cbn [snd]; rewrite !elem_of_cons; tauto.
Qed.

Lemma splitl_app p l : splitl (p ++ l) = ((splitl p).1 ++ (splitl ((splitl p).2 ++ l)).1, (splitl ((splitl p).2 ++ l)).2).
Proof.
  induction p as [|x p IH]; [cbn; by destruct (splitl l)|]. cbn [app splitl]. rewrite IH. destruct (splitl p) as [ls r]. cbn [fst snd].
  destruct (Z.eqb_spec x nl) as [->|Hx]; [done|]. destruct ls as [|a ls]; cbn [fst snd app]; [|done].
  cbn [splitl]. destruct (splitl (r ++ l)) as [ls' r']. cbn [fst snd]. rewrite (proj2 (Z.eqb_neq x nl)) by done. by destruct ls'.
Qed.

Lemma splitl_first r l c : nl ∉ r -> Forall (fun a => (length a <= c)%nat) (splitl (r ++ l)).1 -> (length (splitl (r ++ l)).2 <= c)%nat -> (length r <= c)%nat.
Proof.
  intros Hr. assert (exists a, default (splitl (r ++ l)).2 (head (splitl (r ++ l)).1) = r ++ a) as [a E].
  { induction r as [|x r IH]; [by eexists|]. apply not_elem_of_cons in Hr as [Hx Hr]. destruct (IH Hr) as [a E]. exists a. cbn [app splitl].
    destruct (splitl (r ++ l)) as [[|b ls] r']; cbn [fst snd head] in *; rewrite (proj2 (Z.eqb_neq x nl)) by done; cbn in *; by rewrite E. }
  assert (length r <= length (r ++ a))%nat as Hl by (rewrite length_app; lia). rewrite <- E in Hl. destruct (splitl (r ++ l)) as [[|b ls] r']; cbn in *; [lia|].
  intros [H1 _]%Forall_cons _. lia.
Qed.

Lemma selected_cons pattern a ls : selected pattern (a :: ls) = (if match_ pattern a then a ++ [nl] else []) ++ selected pattern ls.
Proof. unfold selected. rewrite filter_cons. by destruct (match_ pattern a). Qed.

Lemma selected_app pattern ls ls' : selected pattern (ls ++ ls') = selected pattern ls ++ selected pattern ls'.
Proof. induction ls as [|a ls IH]; [done|]. cbn [app]. by rewrite !selected_cons, IH, app_assoc. Qed.

Lemma grep_lines_wp fd pattern k : forall p inp out, 0 ∉ p -> (length p < k)%nat ->
  wp (stdio fd) (grep_lines k pattern p) (inp, out) (fun r w => r = (splitl p).2 /\ w = (inp, out ++ selected pattern (splitl p).1)) (fun _ _ => False).
Proof.
  induction k as [|k IH]; intros p inp out H0 Hk; [lia|]. cbn [grep_lines]. destruct (strchr_l p nl) as [[a b]|] eqn:E.
  - apply strchr_l_some in E as [-> Ha]. rewrite splitl_line by done. cbn [fst snd]. rewrite selected_cons, app_assoc. rewrite length_app in Hk. cbn [length] in Hk.
    assert (0 ∉ b) as Hb by (intros Hx; apply H0, elem_of_app; right; by right).
    destruct (match_ pattern a); cbn; [split; [done|]|rewrite app_nil_r]; (apply IH; [done|lia]).
  - apply strchr_l_none in E; [|done]. rewrite splitl_none by done. cbn. by rewrite app_nil_r.
Qed.

(** ** Theorems *)

(** C12: the matcher accepts a text exactly when the pattern, read as a
    regular expression over plain characters, [.], [*], and the anchors [^]
    and [$], matches a part of the text. *)
Theorem grep_match_correct re text : match_ re text = true <-> matches re text.
Proof.
unfold matches. destruct re as [|c re]; [rewrite decide_False by done; apply match_loop_spec|]. cbn [match_ head tail].
  destruct (Z.eqb_spec c caret) as [->|Hc]; [rewrite decide_True by done; apply matchhere_spec|]. rewrite decide_False by congruence. apply match_loop_spec.
Qed.

(** C30: on an input whose lines fit the buffer, and whatever way the kernel
    splits it into reads, [grep] ends, has read all of the input, and has
    written exactly the complete lines that the pattern matches, in order. *)
Theorem grep_correct fuel pattern fd inp out :
  0 ∉ inp -> Forall (fun l => (length l <= 1022)%nat) (splitl inp).1 -> (length (splitl inp).2 <= 1022)%nat -> (length inp < fuel)%nat ->
  wp (stdio fd) (grep fuel pattern fd) (inp, out)
    (fun _ w => w = ([], out ++ mjoin ((fun l => l ++ [nl]) <$> filter (fun l => match_ pattern l = true) (splitl inp).1))) (fun _ _ => False).
Proof.
  intros H0 Hls Hr Hf. fold (selected pattern (splitl inp).1).
  apply (wp_ploop (grep_body pattern fd) (fun rest w m => exists inp' out', w = (inp', out') /\ m = length inp' /\ 0 ∉ rest ++ inp' /\ nl ∉ rest /\
    Forall (fun l => (length l <= 1022)%nat) (splitl (rest ++ inp')).1 /\ (length (splitl (rest ++ inp')).2 <= 1022)%nat /\
    out' ++ selected pattern (splitl (rest ++ inp')).1 = out ++ selected pattern (splitl inp).1)) with (m := length inp); [|by exists inp, out; split_and!; try apply not_elem_of_nil|done].
  intros rest w m (inp' & out' & -> & -> & Hz & Hnl & Hl1 & Hl2 & Hout). unfold grep_body. apply wp_bind. cbn -[grep_lines].
  pose proof (splitl_first rest inp' 1022 Hnl Hl1 Hl2) as Hlen. unfold GREPBUF. split_and!; [done| |].
  - intros [->|Hn]; [|lia]. cbn. rewrite app_nil_r, splitl_none in Hout by done. cbn in Hout. rewrite app_nil_r in Hout. by subst.
  - intros d rest' -> Hd Hdl. assert (0 < length d)%nat by (destruct d; [done|cbn; lia]). rewrite (proj2 (Z.leb_gt (Z.of_nat (length d)) 0)) by lia.
    apply wp_bind. rewrite app_assoc in *. eapply wp_mono; [| |apply grep_lines_wp; [|lia]]; [|done|intros Hx; apply Hz, elem_of_app; by left].
    intros r w' [-> ->]. cbn. exists (length rest'). split; [rewrite length_app; lia|]. eexists _, _. rewrite splitl_app in Hl1, Hl2, Hout. cbn [fst snd] in *.
    rewrite selected_app, app_assoc in Hout. apply Forall_app in Hl1 as [_ Hl1]. split_and!; try done; [|apply splitl_rest].
    intros Hx. apply Hz. apply elem_of_app in Hx as [Hx|Hx]; apply elem_of_app; [left|by right]. by apply splitl_sub.
Qed.

Lemma grep_correct_witness : let t := chars "one" ++ [nl] ++ chars "two" ++ [nl] ++ chars "none" ++ [nl] in
  wp (stdio 3) (grep 30 (chars "^.*ne$") 3) (t, []) (fun _ w => w = ([], chars "one" ++ [nl] ++ chars "none" ++ [nl])) (fun _ _ => False).
Proof.
  cbv zeta. pose proof (grep_correct 30 (chars "^.*ne$") 3 (chars "one" ++ [nl] ++ chars "two" ++ [nl] ++ chars "none" ++ [nl]) []) as H.
  apply H; [|repeat constructor; vm_compute; lia|vm_compute; lia|vm_compute; lia].
  intros Hx. apply list_elem_of_In in Hx. vm_compute in Hx. intuition discriminate.
Defined.
