(* ===== verification/UProgs.v ===== *)
(** * The user programs of [user/]

    One module per program.  [args] is [argv] without the program's name, so
    [argc] is one more than its length; loops over input take a bound on their
    rounds. *)

From Stdlib Require Import ZArith Lia.
From S2P Require Import Prelude KString User Ulib UPrintf.

(** [kernel/fcntl.h], [kernel/stat.h], [kernel/param.h], [kernel/fs.h] *)
Definition O_RDONLY : Z := 0.
Definition O_WRONLY : Z := 1.
Definition O_RDWR : Z := 2.
Definition O_CREATE : Z := 512.
Definition O_TRUNC : Z := 1024.
Definition T_DIR : Z := 1.
Definition T_FILE : Z := 2.
Definition NPROC : Z := 64.
Definition DIRSIZ : Z := 14.
Definition CONSOLE : Z := 1.

(** [user/cat.c] *)
Module Cat.
Definition cat_body (fd : Z) (_ : ()) : prog (() + Z) :=
  '(n, buf) ← read fd 512;
  if negb (0 <? n) then mret (inr n) else
  w ← write 1 buf;
  if negb (w =? n) then
    fprintf 2 (line "cat: write error") [] ;;
    exit 1
  else mret (inl tt).

Definition cat (fuel : nat) (fd : Z) : prog () :=
  n ← ploop fuel (cat_body fd) tt;
  if n <? 0 then
    fprintf 2 (line "cat: read error") [] ;;
    exit 1
  else mret tt.

Definition cat_file (fuel : nat) (file : list Z) : prog () :=
  fd ← open file 0;
  if fd <? 0 then
    fprintf 2 (line "cat: cannot open %s") [AStr file] ;;
    exit 1
  else
    cat fuel fd ;;
    _ ← close fd;
    mret tt.

Definition main (fuel : nat) (args : list (list Z)) : prog () :=
  match args with
  | [] => cat fuel 0 ;; exit 0
  | _ => peach (cat_file fuel) args ;; exit 0
  end.
End Cat.

(** [user/echo.c] *)
Module Echo.
Fixpoint echo_args (args : list (list Z)) : prog () :=
  match args with
  | [] => mret tt
  | a :: args =>
      _ ← write 1 a;
      _ ← write 1 (match args with [] => [10] | _ => [32] end);
      echo_args args
  end.
Definition main (args : list (list Z)) : prog () := echo_args args ;; exit 0.
End Echo.

(** [user/wc.c] *)
Module Wc.
Definition blanks : list Z := [32; 13; 9; 10; 11].
Definition is_blank (c : Z) : bool := existsb (Z.eqb c) blanks.

(** One round of the inner loop on [(l, w, c, inword)]. *)
Definition count (s : Z * Z * Z * bool) (x : Z) : Z * Z * Z * bool :=
  let '(l, w, c, inword) := s in
  let c := i32 (c + 1) in
  let l := if x =? 10 then i32 (l + 1) else l in
  if is_blank x then (l, w, c, false)
  else if negb inword then (l, i32 (w + 1), c, true)
  else (l, w, c, inword).

Definition wc_body (fd : Z) (s : Z * Z * Z * bool) : prog ((Z * Z * Z * bool) + (Z * (Z * Z * Z * bool))) :=
  '(n, buf) ← read fd 512;
  if negb (0 <? n) then mret (inr (n, s)) else mret (inl (foldl count s buf)).

Definition wc (fuel : nat) (fd : Z) (name : list Z) : prog () :=
  '(n, (l, w, c, _)) ← ploop fuel (wc_body fd) (0, 0, 0, false);
  if n <? 0 then
    printf (line "wc: read error") [] ;;
    exit 1
  else
    printf (line "%d %d %d %s") [AWord l; AWord w; AWord c; AStr name].

Definition wc_file (fuel : nat) (file : list Z) : prog () :=
  fd ← open file 0;
  if fd <? 0 then
    printf (line "wc: cannot open %s") [AStr file] ;;
    exit 1
  else
    wc fuel fd file ;;
    _ ← close fd;
    mret tt.

Definition main (fuel : nat) (args : list (list Z)) : prog () :=
  match args with
  | [] => wc fuel 0 [] ;; exit 0
  | _ => peach (wc_file fuel) args ;; exit 0
  end.
End Wc.

(** [user/ls.c] *)
Module Ls.
(** The part of a path after the last slash. *)
Fixpoint last_elem (path : list Z) : list Z :=
  match path with
  | [] => []
  | c :: p => if existsb (Z.eqb 47) p then last_elem p else if c =? 47 then p else path
  end.

Definition fmtname (path : list Z) : list Z :=
  let p := last_elem path in
  if DIRSIZ <=? Z.of_nat (length p) then p
  else p ++ replicate (Z.to_nat (DIRSIZ - Z.of_nat (length p))) 32.

Definition dirent_body (fd : Z) (buf : list Z) (_ : ()) : prog (() + ()) :=
  '(n, de) ← read fd 16;
  if negb (n =? 16) then mret (inr tt) else
  if le_val (take 2 de) =? 0 then mret (inl tt) else
  let name := buf ++ strcut (take (Z.to_nat DIRSIZ) (drop 2 de)) in
  '(r, st) ← stat name;
  if r <? 0 then
    printf (line "ls: cannot stat %s") [AStr name] ;;
    mret (inl tt)
  else
    printf (line "%s %d %d %d") [AStr (fmtname name); AWord (st_type st); AWord (st_ino st); AWord (st_size st)] ;;
    mret (inl tt).

Definition ls (fuel : nat) (path : list Z) : prog () :=
  fd ← open path 0;
  if fd <? 0 then fprintf 2 (line "ls: cannot open %s") [AStr path] else
  '(r, st) ← fstat fd;
  if r <? 0 then
    fprintf 2 (line "ls: cannot stat %s") [AStr path] ;;
    _ ← close fd;
    mret tt
  else
    (if st_type st =? T_FILE then
       printf (line "%s %d %d %l") [AStr (fmtname path); AWord (st_type st); AWord (st_ino st); AWord (st_size st)]
     else if st_type st =? T_DIR then
       if 512 <? Z.of_nat (length path) + 1 + DIRSIZ + 1 then printf (line "ls: path too long") []
       else ploop fuel (dirent_body fd (path ++ [47])) tt
     else mret tt) ;;
    _ ← close fd;
    mret tt.

Definition main (fuel : nat) (args : list (list Z)) : prog () :=
  match args with
  | [] => ls fuel (chars ".") ;; exit 0
  | _ => peach (ls fuel) args ;; exit 0
  end.
End Ls.

(** [user/ps.c]: the table is what [getprocs] leaves in it. *)
Module Ps.
Definition ps_line (p : uproc) : prog () :=
  printf (chars "%d %d %s %s") [AWord (up_pid p); AWord (up_size p); AWord (up_state p); AStr (strcut (up_name p))] ;;
  printf [10] [].

Definition main : prog () :=
  '(nprocs, uprocs) ← getprocs;
  printf (chars "%d") [AWord nprocs] ;;
  if nprocs <? 0 then exit (-1) else
  peach ps_line (take (Z.to_nat NPROC) uprocs) ;;
  exit 0.
End Ps.

(** [user/pstree.c]: [pstree(p, ...)] runs over the [NPROC] entries from [p]
    on, past the end of the table when [p] is not its first entry. *)
Module Pstree.
Fixpoint pstree (fuel : nat) (table : list uproc) (uproc pid tab : Z) : prog () :=
  match fuel with
  | O => PFuel
  | S f =>
      if (pid <? 0) || (NPROC <? pid) then mret tt else
      peach (fun _ => printf (chars "    ") []) (replicate (Z.to_nat tab) tt) ;;
      printf (chars "%d ") [AWord pid] ;;
      _ ← pfor (R := ()) (Z.to_nat NPROC) uproc (fun p =>
        match table !! Z.to_nat p with
        | None => PFault
        | Some e => if up_ppid e =? pid then pstree f table p (up_pid e) (tab + 1) ;; mret None else mret None
        end);
      mret tt
  end.

Definition main (fuel : nat) : prog () :=
  '(nprocs, uprocs) ← getprocs;
  if nprocs <? 0 then exit (-1) else
  pstree fuel uprocs 0 0 0 ;;
  exit 0.
End Pstree.

(** [user/kill.c] *)
Module KillProg.
Definition main (args : list (list Z)) : prog () :=
  match args with
  | [] => fprintf 2 (line "usage: kill pid...") [] ;; exit 1
  | _ => peach (fun a => _ ← kill (atoi a); mret tt) args ;; exit 0
  end.
End KillProg.

(** [user/ln.c] *)
Module Ln.
Definition main (args : list (list Z)) : prog () :=
  match args with
  | [old; new] =>
      r ← link old new;
      (if r <? 0 then fprintf 2 (line "link %s %s: failed") [AStr old; AStr new] else mret tt) ;;
      exit 0
  | _ => fprintf 2 (line "Usage: ln old new") [] ;; exit 1
  end.
End Ln.

(** [user/mkdir.c] *)
Module MkdirProg.
Fixpoint mkdirs (args : list (list Z)) : prog () :=
  match args with
  | [] => mret tt
  | a :: args => r ← mkdir a; if r <? 0 then fprintf 2 (line "mkdir: %s failed to create") [AStr a] else mkdirs args
  end.
Definition main (args : list (list Z)) : prog () :=
  match args with
  | [] => fprintf 2 (line "Usage: mkdir files...") [] ;; exit 1
  | _ => mkdirs args ;; exit 0
  end.
End MkdirProg.

(** [user/rm.c] *)
Module Rm.
Fixpoint rms (args : list (list Z)) : prog () :=
  match args with
  | [] => mret tt
  | a :: args => r ← unlink a; if r <? 0 then fprintf 2 (line "rm: %s failed to delete") [AStr a] else rms args
  end.
Definition main (args : list (list Z)) : prog () :=
  match args with
  | [] => fprintf 2 (line "Usage: rm files...") [] ;; exit 1
  | _ => rms args ;; exit 0
  end.
End Rm.

(** [user/sleep.c]: without an argument [argv[1]] is the null pointer. *)
Module SleepProg.
Definition main (args : list (list Z)) : prog () :=
  (match args with [] => printf (line "Enter a valid amount for sleep.") [] | _ => mret tt end) ;;
  match args with
  | [] => PFault
  | a :: _ =>
      let time := atoi a in
      (if 0 <? time then _ ← sleep time; mret tt else printf (line "Enter a valid amount of time,") []) ;;
      exit 1
  end.
End SleepProg.

(** [user/zombie.c] *)
Module Zombie.
Definition main : prog () :=
  pid ← fork;
  (if 0 <? pid then _ ← sleep 5; mret tt else mret tt) ;;
  exit 0.
End Zombie.

(** [user/init.c] *)
Module Init.
Definition wait_body (pid : Z) (_ : ()) : prog (() + ()) :=
  '(wpid, _) ← wait;
  if wpid =? pid then mret (inr tt)
  else if wpid <? 0 then
    printf (line "init: wait returned an error") [] ;;
    exit 1
  else mret (inl tt).

Definition init_body (fuel : nat) (_ : ()) : prog (() + ()) :=
  printf (line "init: starting sh") [] ;;
  pid ← fork;
  if pid <? 0 then
    printf (line "init: fork failed") [] ;;
    exit 1
  else if pid =? 0 then
    _ ← exec (chars "sh") [chars "sh"];
    printf (line "init: exec sh failed") [] ;;
    exit 1
  else
    ploop fuel (wait_body pid) tt ;;
    mret (inl tt).

Definition main (fuel : nat) : prog () :=
  fd ← open (chars "console") O_RDWR;
  (if fd <? 0 then
     _ ← mknod (chars "console") CONSOLE 0;
     _ ← open (chars "console") O_RDWR;
     mret tt
   else mret tt) ;;
  _ ← dup 0;
  _ ← dup 0;
  ploop fuel (init_body fuel) tt.
End Init.

(** [user/forktest.c] *)
Module Forktest.
Definition N : Z := 1000.
Definition print (s : list Z) : prog () := _ ← write 1 s; mret tt.

(** How many forks succeeded. *)
Definition fork_body (n : Z) : prog (Z + Z) :=
  if negb (n <? N) then mret (inr n) else
  pid ← fork;
  if pid <? 0 then mret (inr n)
  else if pid =? 0 then exit 0
  else mret (inl (n + 1)).

Definition wait_each (_ : ()) : prog () :=
  '(pid, _) ← wait;
  if pid <? 0 then print (line "wait stopped early") ;; exit 1 else mret tt.

Definition forktest : prog () :=
  print (line "fork test") ;;
  n ← ploop (S (Z.to_nat N)) fork_body 0;
  (if n =? N then print (line "fork claimed to work N times!") ;; exit 1 else mret tt) ;;
  peach wait_each (replicate (Z.to_nat n) tt) ;;
  '(pid, _) ← wait;
  (if negb (pid =? -1) then print (line "wait got too many") ;; exit 1 else mret tt) ;;
  print (line "fork test OK").

Definition main : prog () := forktest ;; exit 0.
End Forktest.

(** [user/stressfs.c] *)
Module Stressfs.
(** [i] when the loop of forks is left. *)
Definition fork_body (i : Z) : prog (option Z) :=
  pid ← fork;
  mret (if 0 <? pid then Some i else None).

Definition main : prog () :=
  printf (line "stressfs starting") [] ;;
  let data := replicate 512 97 in
  o ← pfor 4 0 fork_body;
  let i := default 4 o in
  printf (line "write %d") [AWord i] ;;
  let path := chars "stressfs" ++ [u8 (48 + i)] in
  fd ← open path (Z.lor O_CREATE O_RDWR);
  peach (fun _ => _ ← write fd data; mret tt) (replicate 20 tt) ;;
  _ ← close fd;
  printf (line "read") [] ;;
  fd ← open path O_RDONLY;
  peach (fun _ => _ ← read fd 512; mret tt) (replicate 20 tt) ;;
  _ ← close fd;
  _ ← wait;
  exit 0.
End Stressfs.

(** ** Theorems *)

(** Whatever way the kernel splits the input into reads, [cat] ends with
    all of it written to the standard output, in order. *)
Theorem cat_correct fuel fd inp out : (length inp < fuel)%nat ->
  wp (stdio fd) (Cat.cat fuel fd) (inp, out) (fun _ w => w = ([], out ++ inp)) (fun _ _ => False).
Proof.
  intros Hf. unfold Cat.cat. apply wp_bind.
  apply (wp_ploop (Cat.cat_body fd) (fun _ w m => m = length w.1 /\ w.2 ++ w.1 = out ++ inp)) with (m := length inp); [|done|done].
  intros [] [inp' out'] m [-> Hw]. cbn in Hw |- *. split_and!; [done| |].
  - intros [->|]; [|lia]. cbn. rewrite app_nil_r in Hw. by subst.
  - intros d rest -> Hd Hl. rewrite (proj2 (Z.ltb_lt 0 _)) by (destruct d; [done|cbn; lia]). cbn. split; [done|]. rewrite Z.eqb_refl. cbn.
    exists (length rest). rewrite length_app, <- app_assoc. split; [destruct d; [done|cbn; lia]|done].
Qed.

Lemma cat_correct_witness : wp (stdio 3) (Cat.cat 10 3) (chars "hello", []) (fun _ w => w = ([], [] ++ chars "hello")) (fun _ _ => False).
Proof. apply (cat_correct 10 3 (chars "hello") []). cbn. lia. Defined.

(** The fields of a text between the blanks. *)
Fixpoint fields (l : list Z) : list (list Z) :=
  match l with
  | [] => [[]]
  | x :: l' => if Wc.is_blank x then [] :: fields l' else match fields l' with w :: ws => (x :: w) :: ws | [] => [[x]] end
  end.
Definition nonempty (w : list Z) : bool := match w with [] => false | _ => true end.
Definition nwords (l : list Z) : Z := Z.of_nat (length (List.filter nonempty (fields l))).
Definition nlines (l : list Z) : Z := Z.of_nat (length (List.filter (Z.eqb 10) l)).

(** Words begun in [l] when the text before it ended inside a word or not. *)
Definition begun (b : bool) (l : list Z) : Z := nwords l - (if b && nonempty (hd [] (fields l)) then 1 else 0).

Lemma fields_cons l : exists w ws, fields l = w :: ws.
Proof. destruct l as [|x l]; [by eexists _, _|]. cbn [fields]. destruct (Wc.is_blank x); [by eexists _, _|]. destruct (fields l); by eexists _, _. Qed.

Lemma begun_cons b x l : begun b (x :: l) = if Wc.is_blank x then begun false l else (if b then 0 else 1) + begun true l.
Proof.
  unfold begun, nwords. cbn [fields]. destruct (fields_cons l) as (w & ws & ->). destruct (Wc.is_blank x); [destruct b; done|].
  cbn [hd List.filter nonempty]. destruct w as [|y w]; destruct b; cbn [nonempty andb length]; lia.
Qed.

Lemma begun_range b l : 0 <= begun b l <= Z.of_nat (length l).
Proof.
  revert b. induction l as [|x l IH]; intros b; [by destruct b|]. rewrite begun_cons. pose proof (IH false). pose proof (IH true). cbn [length].
  destruct (Wc.is_blank x), b; lia.
Qed.

Lemma quad_eq (a b c a' b' c' : Z) (d : bool) : a = a' -> b = b' -> c = c' -> (a, b, c, d) = (a', b', c', d).
Proof. by intros -> -> ->. Qed.

Lemma count_spec l : forall L W C b, 0 <= L -> 0 <= W -> 0 <= C -> L + Z.of_nat (length l) < 2 ^ 31 -> W + Z.of_nat (length l) < 2 ^ 31 -> C + Z.of_nat (length l) < 2 ^ 31 ->
  exists b', foldl Wc.count (L, W, C, b) l = (L + nlines l, W + begun b l, C + Z.of_nat (length l), b') /\ forall l', begun b (l ++ l') = begun b l + begun b' l'.
Proof.
  induction l as [|x l IH]; intros L W C b HL HW HC BL BW BC.
  - exists b. split; [cbn; unfold begun, nwords; cbn; rewrite andb_false_r, !Z.add_0_r; done|]. intros l'. unfold begun at 2. cbn. rewrite andb_false_r. done.
  - cbn [length] in *. cbn [foldl]. unfold Wc.count at 2. unfold nlines. cbn [List.filter].
    replace (Z.eqb 10 x) with (x =? 10) by apply Z.eqb_sym. rewrite begun_cons, (i32_small (C + 1)) by lia.
    set (L' := if x =? 10 then i32 (L + 1) else L).
    assert (L' = L + (if x =? 10 then 1 else 0)) as EL by (unfold L'; destruct (x =? 10); [rewrite i32_small by lia|]; lia).
    assert (Z.of_nat (length (if x =? 10 then x :: List.filter (Z.eqb 10) l else List.filter (Z.eqb 10) l)) = (if x =? 10 then 1 else 0) + nlines l) as ->
      by (unfold nlines; destruct (x =? 10); cbn [length]; lia).
    assert (0 <= (if x =? 10 then 1 else 0) <= 1) as H01 by (destruct (x =? 10); lia).
    destruct (Wc.is_blank x) eqn:Eb; [|destruct b; cbn [negb]; [|rewrite i32_small by lia]].
    + destruct (IH L' W (C + 1) false) as (b' & E & H); [lia..|]. exists b'. rewrite E. split; [apply quad_eq; lia|]. intros l'. cbn [app]. by rewrite begun_cons, Eb, H.
    + destruct (IH L' W (C + 1) true) as (b' & E & H); [lia..|]. exists b'. rewrite E. split; [apply quad_eq; lia|]. intros l'. cbn [app]. rewrite begun_cons, Eb, H. lia.
    + destruct (IH L' (W + 1) (C + 1) true) as (b' & E & H); [lia..|]. exists b'. rewrite E. split; [apply quad_eq; lia|]. intros l'. cbn [app]. rewrite begun_cons, Eb, H. lia.
Qed.

Lemma wp_putc fd c inp out (Q : () -> list Z * list Z -> Prop) E : 0 <= c < 256 -> Q tt (inp, out ++ [c]) -> wp (stdio fd) (putc 1 c) (inp, out) Q E.
Proof. intros Hc HQ. cbn. split; [done|]. by rewrite u8_small by lia. Qed.

(** [printf("%d %d %d %s\n", ...)] *)
Lemma wp_report fd a b c name inp out Q E sa sb sc : 
  (forall inp out (Q : () -> list Z * list Z -> Prop) E, Q tt (inp, out ++ sa) -> wp (stdio fd) (printint 1 a 10 1) (inp, out) Q E) ->
  (forall inp out (Q : () -> list Z * list Z -> Prop) E, Q tt (inp, out ++ sb) -> wp (stdio fd) (printint 1 b 10 1) (inp, out) Q E) ->
  (forall inp out (Q : () -> list Z * list Z -> Prop) E, Q tt (inp, out ++ sc) -> wp (stdio fd) (printint 1 c 10 1) (inp, out) Q E) ->
  Forall (fun x => 0 <= x < 256) name -> - 2 ^ 31 <= a < 2 ^ 31 -> - 2 ^ 31 <= b < 2 ^ 31 -> - 2 ^ 31 <= c < 2 ^ 31 ->
  Q tt (inp, out ++ sa ++ [32] ++ sb ++ [32] ++ sc ++ [32] ++ name ++ [10]) ->
  wp (stdio fd) (printf (line "%d %d %d %s") [AWord a; AWord b; AWord c; AStr name]) (inp, out) Q E.
Proof.
  intros Ha Hb Hc Hn Ra Rb Rc HQ. unfold printf, vprintf. change (line "%d %d %d %s") with [37; 100; 32; 37; 100; 32; 37; 100; 32; 37; 115; 10].
  cbn [vprintf_loop negb Z.eqb Pos.eqb]. rewrite !i32_small by done.
  apply wp_bind, Ha. apply wp_bind, wp_putc; [lia|]. apply wp_bind, Hb. apply wp_bind, wp_putc; [lia|]. apply wp_bind, Hc. apply wp_bind, wp_putc; [lia|].
  apply wp_bind, wp_puts; [done|done|]. apply wp_bind, wp_putc; [lia|]. cbn [wp]. rewrite <- !app_assoc. exact HQ.
Qed.

Lemma nlines_range l : 0 <= nlines l <= Z.of_nat (length l).
Proof. unfold nlines. induction l as [|x l IH]; cbn [List.filter length]; [lia|]. destruct (10 =? x); cbn [length]; lia. Qed.

(** Whatever way the kernel splits the input into reads, [wc] ends having
    printed the number of newlines, of words (the nonempty fields between the
    blanks) and of bytes of the input, in decimal, and the name. *)
Theorem wc_correct fuel fd name inp out : (length inp < fuel)%nat -> Z.of_nat (length inp) < 2 ^ 31 -> Forall (fun x => 0 <= x < 256) name ->
  exists sl sw sc, decimal sl (nlines inp) /\ decimal sw (nwords inp) /\ decimal sc (Z.of_nat (length inp)) /\
    wp (stdio fd) (Wc.wc fuel fd name) (inp, out) (fun _ w => w = ([], out ++ sl ++ [32] ++ sw ++ [32] ++ sc ++ [32] ++ name ++ [10])) (fun _ _ => False).
Proof.
  intros Hf Hlen Hname. pose proof (nlines_range inp) as HL. pose proof (begun_range false inp) as HW. assert (begun false inp = nwords inp) as EW by (unfold begun; cbn [andb]; lia).
  rewrite EW in HW. destruct (wp_printint fd (nlines inp)) as (sl & Dl & _ & Pl); [lia|]. destruct (wp_printint fd (nwords inp)) as (sw & Dw & _ & Pw); [lia|].
  destruct (wp_printint fd (Z.of_nat (length inp))) as (sc & Dc & _ & Pc); [lia|]. exists sl, sw, sc. split_and!; [done..|].
  unfold Wc.wc. apply wp_bind.
  apply (wp_ploop (Wc.wc_body fd) (fun s w m => m = length w.1 /\ w.2 = out /\ exists pre, inp = pre ++ w.1 /\ s = foldl Wc.count (0, 0, 0, false) pre)) with (m := length inp);
    [|split_and!; [done|done|by exists []]|done].
  intros s [inp' out'] m (-> & Ho & pre & Ei & ->). cbn in Ho, Ei. subst out'. cbn -[foldl]. split_and!; [done| |].
  - intros [->|]; [|lia]. rewrite app_nil_r in Ei. subst pre. destruct (count_spec inp 0 0 0 false) as (b' & -> & _); [lia..|]. rewrite !Z.add_0_l, EW. cbn [negb wp].
    apply (wp_report fd _ _ _ _ _ _ _ _ sl sw sc); (done || lia).
  - intros d rest -> Hd Hl. rewrite (proj2 (Z.ltb_lt 0 _)) by (destruct d; [done|cbn; lia]). cbn -[foldl]. exists (length rest). rewrite length_app.
    split; [destruct d; [done|cbn; lia]|]. split_and!; [done|done|]. exists (pre ++ d). by rewrite foldl_app, <- app_assoc.
Qed.

Lemma wc_correct_witness : exists sl sw sc, decimal sl 1 /\ decimal sw 2 /\ decimal sc 7 /\
  wp (stdio 3) (Wc.wc 10 3 (chars "f")) (chars "ab cde" ++ [10], []) (fun _ w => w = ([], [] ++ sl ++ [32] ++ sw ++ [32] ++ sc ++ [32] ++ chars "f" ++ [10])) (fun _ _ => False).
Proof. apply (wc_correct 10 3 (chars "f") (chars "ab cde" ++ [10]) []); [cbn; lia|reflexivity|]. constructor; [cbn; lia|constructor]. Defined.
