(* ===== verification/Grind.v ===== *)
(** * [user/grind.c]

    The random number generator of FreeBSD and the program that makes random
    system calls.  [rand_next] and the local variables of [go] are threaded
    through the loop. *)

From Stdlib Require Import ZArith Lia.
From S2P Require Import Prelude KString User Ulib UPrintf UProgs.

(** The new [*ctx], which is also the result ([int], in range). *)
Definition do_rand (ctx : Z) : Z :=
  let x := ctx mod 2147483646 + 1 in
  let hi := Z.quot x 127773 in
  let lo := Z.rem x 127773 in
  let x := 16807 * lo - 2836 * hi in
  let x := if x <? 0 then x + 2147483647 else x in
  x - 1.

Record go_state := MkGo { go_fd : Z; go_buf : list Z; go_rand : Z; go_iters : Z }.

Definition CR : Z := Z.lor O_CREATE O_RDWR.
Definition create (path : string) : prog () := fd ← open (chars path) CR; _ ← close fd; mret tt.
Definition fail_with (msg : string) (status : Z) : prog () := printf (line msg) [] ;; exit status.

(** [pid = fork(); if(pid == 0){ child; } else if(pid < 0){ ... }] *)
Definition spawn (child : prog ()) : prog Z :=
  pid ← fork;
  if pid =? 0 then child ;; exit 0
  else if pid <? 0 then fail_with "grind: fork failed" 1 ;; mret pid
  else mret pid.

Definition pipe_child (fds : Z * Z) : prog () :=
  _ ← fork;
  _ ← fork;
  w ← write fds.2 (chars "x");
  (if negb (w =? 1) then printf (line "grind: pipe write failed") [] else mret tt) ;;
  '(r, _) ← read fds.1 1;
  (if negb (r =? 1) then printf (line "grind: pipe read failed") [] else mret tt).

Definition check_c : prog () :=
  _ ← unlink (chars "c");
  fd1 ← open (chars "c") CR;
  (if fd1 <? 0 then fail_with "grind: create c failed" 1 else mret tt) ;;
  w ← write fd1 (chars "x");
  (if negb (w =? 1) then fail_with "grind: write c failed" 1 else mret tt) ;;
  '(r, st) ← fstat fd1;
  (if negb (r =? 0) then fail_with "grind: fstat failed" 1 else mret tt) ;;
  (if negb (st_size st =? 1) then printf (line "grind: fstat reports wrong size %d") [AWord (i32 (st_size st))] ;; exit 1 else mret tt) ;;
  (if 200 <? st_ino st then printf (line "grind: fstat reports crazy i-number %d") [AWord (st_ino st)] ;; exit 1 else mret tt) ;;
  _ ← close fd1;
  _ ← unlink (chars "c");
  mret tt.

(** [close(...)] then [dup(from)], which must return [to]. *)
Definition dup_to (from to status : Z) : prog () :=
  _ ← close to;
  d ← dup from;
  if negb (d =? to) then fprintf 2 (line "grind: dup failed") [] ;; exit status else mret tt.

(** [echo hi | cat] *)
Definition pipeline : prog () :=
  '(r, aa) ← pipe;
  (if r <? 0 then fprintf 2 (line "grind: pipe failed") [] ;; exit 1 else mret tt) ;;
  '(r, bb) ← pipe;
  (if r <? 0 then fprintf 2 (line "grind: pipe failed") [] ;; exit 1 else mret tt) ;;
  pid1 ← fork;
  (if pid1 =? 0 then
     _ ← close bb.1;
     _ ← close bb.2;
     _ ← close aa.1;
     dup_to aa.2 1 1 ;;
     _ ← close aa.2;
     _ ← exec (chars "grindir/../echo") [chars "echo"; chars "hi"];
     fprintf 2 (line "grind: echo: not found") [] ;;
     exit 2
   else if pid1 <? 0 then fprintf 2 (line "grind: fork failed") [] ;; exit 3
   else mret tt) ;;
  pid2 ← fork;
  (if pid2 =? 0 then
     _ ← close aa.2;
     _ ← close bb.1;
     dup_to aa.1 0 4 ;;
     _ ← close aa.1;
     dup_to bb.2 1 5 ;;
     _ ← close bb.2;
     _ ← exec (chars "/cat") [chars "cat"];
     fprintf 2 (line "grind: cat: not found") [] ;;
     exit 6
   else if pid2 <? 0 then fprintf 2 (line "grind: fork failed") [] ;; exit 7
   else mret tt) ;;
  _ ← close aa.1;
  _ ← close aa.2;
  _ ← close bb.2;
  '(_, b0) ← read bb.1 1;
  '(_, b1) ← read bb.1 1;
  '(_, b2) ← read bb.1 1;
  _ ← close bb.1;
  '(_, st1) ← wait;
  '(_, st2) ← wait;
  let buf := strcut [hd 0 b0; hd 0 b1; hd 0 b2; 0] in
  if negb (st1 =? 0) || negb (st2 =? 0) || negb (strcmp_l buf (line "hi") =? 0) then
    printf (chars "grind: exec pipeline failed %d %d " ++ [34] ++ chars "%s" ++ [34; 10]) [AWord st1; AWord st2; AStr buf] ;;
    exit 1
  else mret tt.

(** One system call, or one small test; the new [fd] and [buf]. *)
Definition go_step (what fd break0 : Z) (buf : list Z) : prog (Z * list Z) :=
  if what =? 1 then create "grindir/../a" ;; mret (fd, buf)
  else if what =? 2 then create "grindir/../grindir/../b" ;; mret (fd, buf)
  else if what =? 3 then _ ← unlink (chars "grindir/../a"); mret (fd, buf)
  else if what =? 4 then
    r ← chdir (chars "grindir");
    (if negb (r =? 0) then fail_with "grind: chdir grindir failed" 1 else mret tt) ;;
    _ ← unlink (chars "../b");
    _ ← chdir (chars "/");
    mret (fd, buf)
  else if what =? 5 then _ ← close fd; fd ← open (chars "/grindir/../a") CR; mret (fd, buf)
  else if what =? 6 then _ ← close fd; fd ← open (chars "/./grindir/./../b") CR; mret (fd, buf)
  else if what =? 7 then _ ← write fd buf; mret (fd, buf)
  else if what =? 8 then '(_, d) ← read fd 999; mret (fd, d ++ drop (length d) buf)
  else if what =? 9 then
    _ ← mkdir (chars "grindir/../a");
    create "a/../a/./a" ;;
    _ ← unlink (chars "a/a");
    mret (fd, buf)
  else if what =? 10 then
    _ ← mkdir (chars "/../b");
    create "grindir/../b/b" ;;
    _ ← unlink (chars "b/b");
    mret (fd, buf)
  else if what =? 11 then _ ← unlink (chars "b"); _ ← link (chars "../grindir/./../a") (chars "../b"); mret (fd, buf)
  else if what =? 12 then _ ← unlink (chars "../grindir/../a"); _ ← link (chars ".././b") (chars "/grindir/../a"); mret (fd, buf)
  else if what =? 13 then _ ← spawn (mret tt); _ ← wait; mret (fd, buf)
  else if what =? 14 then _ ← spawn (_ ← fork; _ ← fork; mret tt); _ ← wait; mret (fd, buf)
  else if what =? 15 then _ ← sbrk 6011; mret (fd, buf)
  else if what =? 16 then
    b ← sbrk 0;
    (if break0 <? b then b ← sbrk 0; _ ← sbrk (i32 (- (b - break0))); mret tt else mret tt) ;;
    mret (fd, buf)
  else if what =? 17 then
    pid ← spawn (create "a");
    r ← chdir (chars "../grindir/..");
    (if negb (r =? 0) then fail_with "grind: chdir failed" 1 else mret tt) ;;
    _ ← kill pid;
    _ ← wait;
    mret (fd, buf)
  else if what =? 18 then _ ← spawn (pid ← getpid; _ ← kill pid; mret tt); _ ← wait; mret (fd, buf)
  else if what =? 19 then
    '(r, fds) ← pipe;
    (if r <? 0 then fail_with "grind: pipe failed" 1 else mret tt) ;;
    _ ← spawn (pipe_child fds);
    _ ← close fds.1;
    _ ← close fds.2;
    _ ← wait;
    mret (fd, buf)
  else if what =? 20 then
    _ ← spawn (_ ← unlink (chars "a"); _ ← mkdir (chars "a"); _ ← chdir (chars "a"); _ ← unlink (chars "../a");
               _ ← open (chars "x") CR; _ ← unlink (chars "x"); mret tt);
    _ ← wait;
    mret (fd, buf)
  else if what =? 21 then check_c ;; mret (fd, buf)
  else if what =? 22 then pipeline ;; mret (fd, buf)
  else mret (fd, buf).

Definition go_body (which_child break0 : Z) (s : go_state) : prog (go_state + ()) :=
  let iters := u64 (go_iters s + 1) in
  (if iters mod 500 =? 0 then _ ← write 1 (if negb (which_child =? 0) then chars "B" else chars "A"); mret tt else mret tt) ;;
  let r := do_rand (go_rand s) in
  '(fd, buf) ← go_step (Z.rem r 23) (go_fd s) break0 (go_buf s);
  mret (inl (MkGo fd buf r iters)).

(** [rand_next] is the argument [seed]. *)
Definition go (fuel : nat) (which_child seed : Z) : prog () :=
  break0 ← sbrk 0;
  _ ← mkdir (chars "grindir");
  r ← chdir (chars "grindir");
  (if negb (r =? 0) then fail_with "grind: chdir grindir failed" 1 else mret tt) ;;
  _ ← chdir (chars "/");
  ploop fuel (go_body which_child break0) (MkGo (-1) (replicate 999 0) seed 0).

Definition iter (fuel : nat) : prog () :=
  _ ← unlink (chars "a");
  _ ← unlink (chars "b");
  pid1 ← fork;
  (if pid1 <? 0 then fail_with "grind: fork failed" 1 else mret tt) ;;
  (if pid1 =? 0 then go fuel 0 31 ;; exit 0 else mret tt) ;;
  pid2 ← fork;
  (if pid2 <? 0 then fail_with "grind: fork failed" 1 else mret tt) ;;
  (if pid2 =? 0 then go fuel 1 7177 ;; exit 0 else mret tt) ;;
  '(w, st1) ← wait;
  (if negb ((if w <? 0 then -1 else st1) =? 0) then
     _ ← kill pid1;
     _ ← kill pid2;
     mret tt
   else mret tt) ;;
  _ ← wait;
  exit 0.

Definition main_body (fuel : nat) (_ : ()) : prog (() + ()) :=
  pid ← fork;
  (if pid =? 0 then iter fuel ;; exit 0 else mret tt) ;;
  (if 0 <? pid then _ ← wait; mret tt else mret tt) ;;
  _ ← sleep 20;
  mret (inl tt).
Definition main (fuel : nat) : prog () := ploop fuel (main_body fuel) tt.

(** ** The generator *)

(** The generator computes [16807 * x] modulo [2^31 - 1] on its state moved to
    the range 1 to [2^31 - 2]: no intermediate value leaves 32 bits, and the
    result is a nonnegative [int]. *)
Theorem do_rand_correct ctx : 0 <= ctx ->
  let x := ctx mod 2147483646 + 1 in
  do_rand ctx = (16807 * x) mod 2147483647 - 1 /\ 0 <= do_rand ctx <= 2147483645 /\
  - 2 ^ 31 <= 16807 * (x mod 127773) - 2836 * (x / 127773) < 2 ^ 31.
Proof.
  intros Hc x. assert (1 <= x <= 2147483646) as Hx by (unfold x; pose proof (Z.mod_pos_bound ctx 2147483646 ltac:(done)); lia).
  unfold do_rand. fold x. rewrite Z.quot_div_nonneg, Z.rem_mod_nonneg by lia. clearbody x. clear Hc ctx.
  pose proof (Z.mod_pos_bound x 127773 ltac:(done)) as Hlo. pose proof (Z.div_mod x 127773 ltac:(done)) as Hd.
  set (hi := x / 127773) in *. set (lo := x mod 127773) in *. assert (0 <= hi <= 16807) as Hhi by lia. clearbody hi lo.
  set (y := 16807 * lo - 2836 * hi). assert (16807 * x = y + hi * 2147483647) as E by (unfold y; lia).
  assert (y <> 0) as Hy0.
  { intros Hy. assert ((16807 * x) mod 2147483647 = 0) as H0 by (rewrite E, Hy; apply Z.mod_mul; done). 
    apply Z.mod_divide in H0; [|done]. apply Z.gauss in H0; [|reflexivity]. apply Z.divide_pos_le in H0; lia. }
  assert (- 2147483647 < y < 2147483647) as Hy by (unfold y; lia). rewrite E, Z.mod_add by done. split_and!.
  - destruct (Z.ltb_spec y 0); [|by rewrite Z.mod_small by lia]. f_equal. apply (Z.mod_unique _ _ (-1)); lia.
  - destruct (Z.ltb_spec y 0); lia.
  - destruct (Z.ltb_spec y 0); lia.
  - lia.
  - lia.
Qed.

Lemma do_rand_correct_witness : let x := 31 mod 2147483646 + 1 in do_rand 31 = (16807 * x) mod 2147483647 - 1.
Proof. apply (do_rand_correct 31). lia. Defined.
