(* ===== verification/Sh.v ===== *)
(** * The shell: [user/sh.c]

    The parser works on the buffer [b], the line and its NUL; a pointer into
    it is an offset.  The parser's state is the offset [*ps], [panic] ends it
    with its message.  A word is the pair of its ends [q] and [eq].  In
    [parseexec] the [execcmd] is filled while [ret] already points to the
    redirections around it, so the loop collects the arguments and the
    redirections and [wrap] puts the tree together. *)

From Stdlib Require Import ZArith Lia.
From S2P Require Import Prelude KString User Ulib UPrintf UProgs.

Definition MAXARGS : Z := 10.

Inductive cmd :=
| ExecCmd (argv : list (Z * Z))
| RedirCmd (c : cmd) (file efile mode fd : Z)
| PipeCmd (left right : cmd)
| ListCmd (left right : cmd)
| BackCmd (c : cmd).

Definition whitespace : list Z := [32; 9; 13; 10; 11].
Definition symbols : list Z := chars "<|>&;()".
Definition oneof (l : list Z) (c : Z) : bool := existsb (Z.eqb c) l.

(** ** The parser *)

Section parser.
Context (b : list Z) (es : Z).

Definition char_at (s : Z) : Z := default 0 (b !! Z.to_nat s).

(** [while(s < es && p( *s)) s++;] *)
Fixpoint skip (p : Z -> bool) (k : nat) (s : Z) : Z :=
  match k with
  | O => s
  | S k' => if p (char_at s) then skip p k' (s + 1) else s
  end.
Definition skip_to (p : Z -> bool) (s : Z) : Z := skip p (Z.to_nat (es - s)) s.
Definition skip_ws (s : Z) : Z := skip_to (oneof whitespace) s.
Definition wordchar (c : Z) : bool := negb (oneof whitespace c) && negb (oneof symbols c).

(** The [switch] of [gettoken]: the token and where it ends. *)
Definition token (s : Z) : Z * Z :=
  let c := char_at s in
  if c =? 0 then (0, s)
  else if oneof (chars "|();&<") c then (c, s + 1)
  else if c =? 62 then if char_at (s + 1) =? 62 then (43, s + 2) else (62, s + 1)
  else (97, skip_to wordchar s).

Definition gettoken : M Z (Z * (Z * Z)) :=
  s ← get;
  let q := skip_ws s in
  let '(ret, eq) := token q in
  modify (fun _ => skip_ws eq) ;;
  mret (ret, (q, eq)).

Definition peek (toks : list Z) : M Z bool :=
  s ← get;
  let s := skip_ws s in
  modify (fun _ => s) ;;
  mret (negb (char_at s =? 0) && oneof toks (char_at s)).

(** The redirections found, with the mode and descriptor of each. *)
Definition redir : Type := (Z * Z) * (Z * Z).

Definition redir_body (rs : list redir) : M Z (list redir + list redir) :=
  p ← peek (chars "<>");
  if negb p then mret (inr rs) else
  '(tok, _) ← gettoken;
  '(tok2, w) ← gettoken;
  if negb (tok2 =? 97) then panic "missing file for redirection" else
  mret (inl (if tok =? 60 then rs ++ [(w, (O_RDONLY, 0))]
             else if tok =? 62 then rs ++ [(w, (Z.lor (Z.lor O_WRONLY O_CREATE) O_TRUNC, 1))]
             else if tok =? 43 then rs ++ [(w, (Z.lor O_WRONLY O_CREATE, 1))]
             else rs)).
Definition parseredirs : M Z (list redir) := mloop redir_body [].

Definition wrap (c : cmd) (rs : list redir) : cmd :=
  foldl (fun c '((q, eq), (mode, fd)) => RedirCmd c q eq mode fd) c rs.

Definition exec_body : list (Z * Z) * list redir -> M Z ((list (Z * Z) * list redir) + (list (Z * Z) * list redir)) :=
  fun '(argv, rs) =>
  p ← peek (chars "|)&;");
  if (p : bool) then mret (inr (argv, rs)) else
  '(tok, w) ← gettoken;
  if tok =? 0 then mret (inr (argv, rs)) else
  if negb (tok =? 97) then panic "syntax" else
  let argv := argv ++ [w] in
  if MAXARGS <=? Z.of_nat (length argv) then panic "too many args" else
  rs' ← parseredirs;
  mret (inl (argv, rs ++ rs')).

Definition back_body (c : cmd) : M Z (cmd + cmd) :=
  p ← peek (chars "&");
  if negb p then mret (inr c) else
  _ ← gettoken;
  mret (inl (BackCmd c)).

(** The recursion of the parser, at most [f] calls deep. *)
Fixpoint parseline (f : nat) : M Z cmd :=
  match f with
  | O => spin
  | S f =>
      c ← parsepipe f;
      c ← mloop back_body c;
      p ← peek (chars ";");
      if negb p then mret c else
      _ ← gettoken;
      r ← parseline f;
      mret (ListCmd c r)
  end
with parsepipe (f : nat) : M Z cmd :=
  match f with
  | O => spin
  | S f =>
      c ← parseexec f;
      p ← peek (chars "|");
      if negb p then mret c else
      _ ← gettoken;
      r ← parsepipe f;
      mret (PipeCmd c r)
  end
with parseexec (f : nat) : M Z cmd :=
  match f with
  | O => spin
  | S f =>
      p ← peek (chars "(");
      if (p : bool) then parseblock f else
      rs ← parseredirs;
      '(argv, rs) ← mloop exec_body ([], rs);
      mret (wrap (ExecCmd argv) rs)
  end
with parseblock (f : nat) : M Z cmd :=
  match f with
  | O => spin
  | S f =>
      p ← peek (chars "(");
      if negb p then panic "parseblock" else
      _ ← gettoken;
      c ← parseline f;
      p ← peek (chars ")");
      if negb p then panic "syntax - missing )" else
      _ ← gettoken;
      rs ← parseredirs;
      mret (wrap c rs)
  end.

(** The parse of a whole line: the tree and the offset reached. *)
Definition parsecmd_pos (f : nat) : M Z cmd :=
  c ← parseline f;
  _ ← peek [];
  mret c.
End parser.

(** Writes a NUL at the end of each word. *)
Fixpoint nulterminate (c : cmd) (b : list Z) : list Z :=
  match c with
  | ExecCmd argv => foldl (fun b '(_, eq) => <[Z.to_nat eq := 0]> b) b argv
  | RedirCmd c _ efile _ _ => <[Z.to_nat efile := 0]> (nulterminate c b)
  | PipeCmd l r | ListCmd l r => nulterminate r (nulterminate l b)
  | BackCmd c => nulterminate c b
  end.

(** ** The program *)

Definition sh_panic {A} (s : string) : prog A := fprintf 2 (line "%s") [AStr (chars s)] ;; exit 1.

Definition fork1 : prog Z :=
  pid ← fork;
  if pid =? -1 then sh_panic "fork" else mret pid.

(** [s] is the line without its NUL. *)
Definition parsecmd (n : nat) (s : list Z) : prog (cmd * list Z) :=
  let b := s ++ [0] in
  let es := Z.of_nat (length s) in
  match parsecmd_pos b es n n 0 with
  | Ret c p =>
      if negb (p =? es) then
        fprintf 2 (line "leftovers: %s") [AStr (drop (Z.to_nat p) s)] ;;
        sh_panic "syntax"
      else mret (c, nulterminate c b)
  | Panic msg => sh_panic msg
  | _ => PFuel
  end.

(** The string at an offset of the buffer. *)
Definition word (b : list Z) (q : Z) : list Z := strcut (drop (Z.to_nat q) b).

Fixpoint runcmd (b : list Z) (c : cmd) : prog () :=
  match c with
  | ExecCmd argv =>
      match argv with
      | [] => exit 1
      | (q, _) :: _ =>
          _ ← exec (word b q) ((fun w => word b w.1) <$> argv);
          fprintf 2 (line "exec %s failed") [AStr (word b q)] ;;
          exit 0
      end
  | RedirCmd c file _ mode fd =>
      _ ← close fd;
      r ← open (word b file) mode;
      if r <? 0 then
        fprintf 2 (line "open %s failed") [AStr (word b file)] ;;
        exit 1
      else
        runcmd b c ;;
        exit 0
  | ListCmd l r =>
      pid ← fork1;
      (if pid =? 0 then runcmd b l else mret tt) ;;
      _ ← wait;
      runcmd b r ;;
      exit 0
  | PipeCmd l r =>
      '(x, p) ← pipe;
      (if x <? 0 then sh_panic "pipe" else mret tt) ;;
      pid ← fork1;
      (if pid =? 0 then
         _ ← close 1;
         _ ← dup p.2;
         _ ← close p.1;
         _ ← close p.2;
         runcmd b l
       else mret tt) ;;
      pid ← fork1;
      (if pid =? 0 then
         _ ← close 0;
         _ ← dup p.1;
         _ ← close p.1;
         _ ← close p.2;
         runcmd b r
       else mret tt) ;;
      _ ← close p.1;
      _ ← close p.2;
      _ ← wait;
      _ ← wait;
      exit 0
  | BackCmd c =>
      pid ← fork1;
      (if pid =? 0 then runcmd b c else mret tt) ;;
      exit 0
  end.

(** The line read, or nothing at the end of the input. *)
Definition getcmd : prog (option (list Z)) :=
  fprintf 2 (chars "$ ") [] ;;
  buf ← gets 100;
  mret (if hd 0 buf =? 0 then None else Some (strcut buf)).

(** The rest of a [cd] line. *)
Definition cd_arg (buf : list Z) : option (list Z) :=
  if (hd 0 buf =? 99) && (nth 1 buf 0 =? 100) && (nth 2 buf 0 =? 32)
  then Some (drop 3 (take (length buf - 1) buf)) else None.

Definition main_body (n : nat) (_ : ()) : prog (() + ()) :=
  o ← getcmd;
  match o with
  | None => mret (inr tt)
  | Some buf =>
      match cd_arg buf with
      | Some dir =>
          r ← chdir dir;
          (if r <? 0 then fprintf 2 (line "cannot cd %s") [AStr dir] else mret tt) ;;
          mret (inl tt)
      | None =>
          pid ← fork1;
          (if pid =? 0 then
             '(c, b) ← parsecmd n buf;
             runcmd b c
           else mret tt) ;;
          _ ← wait;
          mret (inl tt)
      end
  end.

Definition open_body (_ : ()) : prog (() + ()) :=
  fd ← open (chars "console") O_RDWR;
  if negb (0 <=? fd) then mret (inr tt)
  else if 3 <=? fd then _ ← close fd; mret (inr tt)
  else mret (inl tt).

Definition main (n : nat) : prog () :=
  ploop n open_body tt ;;
  ploop n (main_body n) tt ;;
  exit 0.
