(* ===== verification/ShSpec.v ===== *)
(** * The shell's parser ends and finds the words of the line

    Every line is parsed, or rejected with one of four messages, within
    recursion depth and rounds linear in its length; the words of the tree are
    maximal runs of word characters, and after [nulterminate] the program sees
    each of them as a C string. *)

From Stdlib Require Import ZArith Lia.
From S2P Require Import Prelude KString User Ulib UPrintf UProgs Sh.

#[local] Arguments skip_ws : simpl never.
#[local] Arguments token : simpl never.
#[local] Arguments oneof : simpl never.
#[local] Arguments char_at : simpl never.

(** ** Computations that end *)

Definition complaints : list string := ["syntax"; "missing file for redirection"; "syntax - missing )"; "too many args"]%string.

Definition fine {A} (r : res Z A) (P : A -> Z -> Prop) : Prop :=
  match r with
  | Ret a s => P a s
  | Panic m => m ∈ complaints
  | _ => False
  end.

Lemma fine_bind {A B} (m : M Z A) (k : A -> M Z B) n s P : fine (m n s) (fun a s' => fine (k a n s') P) -> fine ((m ≫= k) n s) P.
Proof. unfold mbind, M_bind. by destruct (m n s). Qed.

Lemma fine_mono {A} (r : res Z A) (P P' : A -> Z -> Prop) : (forall a s, P a s -> P' a s) -> fine r P -> fine r P'.
Proof. intros H. destruct r; cbn; auto. Qed.

(** Each round leaves the loop or goes on further in the line. *)
Lemma fine_mloop {L R} (body : L -> M Z (L + R)) es n (I : L -> Z -> Prop) (Q : R -> Z -> Prop) :
  (forall l s, I l s -> 0 <= s <= es -> fine (body l n s) (fun r s' => match r with inl l' => s < s' <= es /\ I l' s' | inr x => Q x s' end)) ->
  forall l s, I l s -> 0 <= s <= es -> es - s < Z.of_nat n -> fine (mloop body l n s) Q.
Proof.
  intros Hb l s HI Hs Hn. unfold mloop. enough (forall k l s, I l s -> 0 <= s <= es -> es - s < Z.of_nat k -> fine (mwhile k body l n s) Q) as H by by apply H.
  clear l s HI Hs Hn. induction k as [|k IH]; intros l s HI Hs Hk; [lia|]. cbn [mwhile]. apply fine_bind. eapply fine_mono; [|by apply Hb].
  intros [l'|x] s' H; [|exact H]. destruct H as [H1 H2]. apply IH; [done|lia|lia].
Qed.

Section line.
Context (b : list Z) (es : Z) (n : nat).
Context (Hes : Z.of_nat (length b) = es + 1) (Hnul : char_at b es = 0) (Hchars : forall i, 0 <= i < es -> char_at b i <> 0) (Hn : es < Z.of_nat n).
Local Notation at_ := (char_at b).

(** ** Tokens *)

Lemma skip_spec p k s : exists s', skip b p k s = s' /\ s <= s' <= s + Z.of_nat k /\ (forall i, s <= i < s' -> p (at_ i) = true) /\ (s' < s + Z.of_nat k -> p (at_ s') = false).
Proof.
  revert s. induction k as [|k IH]; intros s; [exists s; split_and!; [done|lia|lia|lia|lia]|]. cbn [skip]. destruct (p (at_ s)) eqn:E.
  - destruct (IH (s + 1)) as (s' & -> & H1 & H2 & H3). exists s'. split_and!; [done|lia|lia| |intros; apply H3; lia].
    intros i Hi. destruct (decide (i = s)) as [->|]; [done|]. apply H2. lia.
  - exists s. split_and!; [done|lia|lia|lia|done].
Qed.

Lemma skip_to_spec p s : 0 <= s <= es -> exists s', skip_to b es p s = s' /\ s <= s' <= es /\ (forall i, s <= i < s' -> p (at_ i) = true) /\ (s' < es -> p (at_ s') = false).
Proof.
  intros Hs. unfold skip_to. destruct (skip_spec p (Z.to_nat (es - s)) s) as (s' & E & H1 & H2 & H3). exists s'. split_and!; [done|lia|lia|done|].
  intros Hlt. apply H3. lia.
Qed.

Lemma skip_ws_spec s : 0 <= s <= es -> exists s', skip_ws b es s = s' /\ s <= s' <= es /\ (s' < es -> oneof whitespace (at_ s') = false).
Proof. intros Hs. destruct (skip_to_spec (oneof whitespace) s Hs) as (s' & E & H1 & _ & H2). by exists s'. Qed.

Lemma skip_ws_id s : 0 <= s <= es -> (s < es -> oneof whitespace (at_ s) = false) -> skip_ws b es s = s.
Proof.
  intros Hs H. unfold skip_ws, skip_to. destruct (decide (s = es)) as [->|]; [by rewrite Z.sub_diag|].
  destruct (Z.to_nat (es - s)) as [|k] eqn:E; [lia|]. cbn [skip]. rewrite H by lia. done.
Qed.

Lemma at_zero s : 0 <= s <= es -> at_ s = 0 -> s = es.
Proof. intros Hs Hz. destruct (decide (s = es)); [done|]. destruct (Hchars s); [lia|done]. Qed.

(** A word of the line. *)
Definition good_word (w : Z * Z) : Prop :=
  0 <= w.1 < w.2 /\ w.2 <= es /\ (forall i, w.1 <= i < w.2 -> wordchar (at_ i) = true) /\ (w.2 < es -> wordchar (at_ w.2) = false).

Lemma token_spec s : 0 <= s <= es -> (s < es -> oneof whitespace (at_ s) = false) ->
  exists ret eq, token b es s = (ret, eq) /\ s <= eq <= es /\ (s < es -> s < eq) /\ (ret = 97 -> good_word (s, eq)) /\ (ret = 0 -> s = es).
Proof.
  intros Hs Hws. unfold token. destruct (Z.eqb_spec (at_ s) 0) as [E0|E0].
  { pose proof (at_zero s Hs E0) as ->. exists 0, es. split_and!; (done || lia). }
  assert (s < es) as Hlt by (destruct (decide (s = es)) as [->|]; [congruence|lia]). specialize (Hws Hlt).
  destruct (oneof (chars "|();&<") (at_ s)) eqn:Es.
  { exists (at_ s), (s + 1). split_and!; [done|lia|lia|lia| |done]. intros E. by rewrite E in Es. }
  destruct (Z.eqb_spec (at_ s) 62) as [Eg|Eg].
  { assert (at_ (s + 1) = 62 -> s + 1 < es) as Hnx by (intros E; destruct (decide (s + 1 = es)) as [E'|]; [rewrite E', Hnul in E; done|lia]).
    destruct (Z.eqb_spec (at_ (s + 1)) 62) as [E1|E1]; eexists _, _; (split; [done|]); [specialize (Hnx E1)|]; split_and!; try lia; done. }
  assert (wordchar (at_ s) = true) as Hw.
  { unfold wordchar. rewrite Hws. cbn [negb andb]. unfold symbols, oneof in *. cbn [existsb chars] in Es |- *. cbn in Es |- *. repeat (rewrite orb_false_iff in Es; destruct Es as [? Es]).
    apply negb_true_iff. rewrite !orb_false_iff. repeat split; try done. by apply Z.eqb_neq. }
  destruct (skip_to_spec wordchar s Hs) as (s' & -> & H1 & H2 & H3). exists 97, s'. assert (s < s') as Hss.
  { destruct (decide (s = s')) as [<-|]; [|lia]. rewrite H3 in Hw by done. done. }
  split_and!; try done; try lia. intros _. unfold good_word. cbn [fst snd]. split_and!; (done || lia).
Qed.

Lemma peek_eq toks s : peek b es toks n s = Ret (negb (at_ (skip_ws b es s) =? 0) && oneof toks (at_ (skip_ws b es s))) (skip_ws b es s).
Proof. done. Qed.
Lemma gettoken_eq s : gettoken b es n s = Ret ((token b es (skip_ws b es s)).1, (skip_ws b es s, (token b es (skip_ws b es s)).2)) (skip_ws b es (token b es (skip_ws b es s)).2).
Proof. unfold gettoken, mbind, M_bind. cbn. by destruct (token b es (skip_ws b es s)). Qed.

Lemma peek_spec toks s : 0 <= s <= es -> fine (peek b es toks n s) (fun p s' => s <= s' <= es /\ (p = true -> s' < es) /\ (s' < es -> oneof whitespace (at_ s') = false)).
Proof.
  intros Hs. destruct (skip_ws_spec s Hs) as (s' & E & H1 & H2). rewrite peek_eq, E. cbn. split_and!; [lia|lia| |done].
  intros Hp. destruct (decide (s' = es)) as [->|]; [rewrite Hnul in Hp; done|lia].
Qed.

Lemma gettoken_spec s : 0 <= s <= es -> fine (gettoken b es n s) (fun t s' => s <= s' <= es /\ (t.1 = 97 -> good_word t.2) /\
  ((s < es -> oneof whitespace (at_ s) = false) -> s < es -> s < s') /\ (t.1 <> 0 -> s < s')).
Proof.
  intros Hs. destruct (skip_ws_spec s Hs) as (q & E & H1 & H2). destruct (token_spec q) as (ret & eq & Et & T1 & T2 & T3 & T4); [lia|done|].
  destruct (skip_ws_spec eq) as (s' & E' & H3 & H4); [lia|]. rewrite gettoken_eq, E, Et. cbn. rewrite E'. split_and!; [lia|lia|done| |].
  - intros Hw Hlt. assert (q = s) as -> by (rewrite <- E; by apply skip_ws_id). lia.
  - intros Hr. destruct (decide (q = es)) as [->|]; [|lia]. destruct Hr. unfold token in Et. rewrite Hnul in Et. cbn in Et. congruence.
Qed.

(** ** Commands *)

Fixpoint good (c : cmd) : Prop :=
  match c with
  | ExecCmd argv => Forall good_word argv /\ Z.of_nat (length argv) < MAXARGS
  | RedirCmd c file efile _ _ => good c /\ good_word (file, efile)
  | PipeCmd l r | ListCmd l r => good l /\ good r
  | BackCmd c => good c
  end.

Lemma wrap_good c rs : good c -> Forall (fun r => good_word r.1) rs -> good (wrap c rs).
Proof. intros Hc H. revert c Hc. induction H as [|[[q eq] [mode fd]] rs Hr _ IH]; intros c Hc; [done|]. cbn [wrap foldl]. apply IH. done. Qed.

Lemma parseredirs_spec s : 0 <= s <= es -> fine (parseredirs b es n s) (fun rs s' => s <= s' <= es /\ Forall (fun r => good_word r.1) rs).
Proof.
  intros Hs. unfold parseredirs. apply (fine_mloop (redir_body b es) es n (fun rs s' => s <= s' /\ Forall (fun r => good_word r.1) rs)); [|done|done|lia].
  intros rs s0 [Hs0 Hrs] Hr0. unfold redir_body. apply fine_bind. eapply fine_mono; [|by apply peek_spec]. intros p s1 (H1 & H2 & H3). destruct p; cbn [negb]; [|cbn; split; [lia|done]].
  apply fine_bind. eapply fine_mono; [|apply gettoken_spec; lia]. intros [tok w0] s2 (G1 & _ & G3 & _). specialize (G3 H3 (H2 eq_refl)).
  apply fine_bind. eapply fine_mono; [|apply gettoken_spec; lia]. intros [tok2 w] s3 (K1 & K2 & _ & _). cbn [fst snd] in K2.
  destruct (Z.eqb_spec tok2 97) as [->|]; cbn [negb]; [|cbn; unfold complaints; set_solver]. cbn. split; [lia|]. split; [lia|].
  specialize (K2 eq_refl). repeat case_match; try done; apply Forall_app; (split; [done|]); by apply Forall_singleton.
Qed.

Lemma exec_body_spec s0 argv rs s : Forall good_word argv -> Z.of_nat (length argv) < MAXARGS -> Forall (fun r => good_word r.1) rs -> s0 <= s -> 0 <= s <= es ->
  fine (exec_body b es (argv, rs) n s) (fun r s' => match r with
    | inl (argv', rs') => s < s' <= es /\ Forall good_word argv' /\ Z.of_nat (length argv') < MAXARGS /\ Forall (fun r => good_word r.1) rs' /\ s0 <= s'
    | inr (argv', rs') => s0 <= s' <= es /\ Forall good_word argv' /\ Z.of_nat (length argv') < MAXARGS /\ Forall (fun r => good_word r.1) rs' end).
Proof.
  intros Ha Hl Hr Hs0 Hs. unfold exec_body. apply fine_bind. eapply fine_mono; [|by apply peek_spec]. intros p s1 (H1 & _ & H3). destruct p; [cbn; split_and!; (done || lia)|].
  apply fine_bind. eapply fine_mono; [|apply gettoken_spec; lia]. intros [tok w] s2 (G1 & G2 & _ & G4). cbn [fst snd] in G2, G4.
  destruct (Z.eqb_spec tok 0) as [->|Ht]; [cbn; split_and!; (done || lia)|]. destruct (Z.eqb_spec tok 97) as [->|]; cbn [negb]; [|cbn; unfold complaints; set_solver].
  specialize (G2 eq_refl). specialize (G4 Ht). destruct (Z.leb_spec MAXARGS (Z.of_nat (length (argv ++ [w])))); [cbn; unfold complaints; set_solver|].
  apply fine_bind. eapply fine_mono; [|apply parseredirs_spec; lia]. intros rs' s3 [K1 K2]. cbn. split_and!; try lia; apply Forall_app; (split; [done|]); [by apply Forall_singleton|done].
Qed.

Definition parsed (s : Z) (c : cmd) (s' : Z) : Prop := s <= s' <= es /\ good c.

Lemma parse_spec f : (forall s, 0 <= s <= es -> 4 * (es - s) + 4 <= Z.of_nat f -> fine (parseline b es f n s) (parsed s)) /\
  (forall s, 0 <= s <= es -> 4 * (es - s) + 3 <= Z.of_nat f -> fine (parsepipe b es f n s) (parsed s)) /\
  (forall s, 0 <= s <= es -> 4 * (es - s) + 2 <= Z.of_nat f -> fine (parseexec b es f n s) (parsed s)) /\
  (forall s, 0 <= s < es -> oneof whitespace (at_ s) = false -> oneof (chars "(") (at_ s) = true -> 4 * (es - s) + 1 <= Z.of_nat f -> fine (parseblock b es f n s) (parsed s)).
Proof.
  induction f as [|f (IHl & IHp & IHe & IHb)]; [split_and!; intros; lia|]. split_and!.
  - intros s Hs Hf. cbn [parseline]. apply fine_bind. eapply fine_mono; [|apply IHp; lia]. intros c s1 [H1 G1]. apply fine_bind.
    eapply fine_mono; [|apply (fine_mloop (back_body b es) es n (fun c s2 => good c /\ s1 <= s2) (fun c s2 => good c /\ s1 <= s2 <= es)); [|done|lia|lia]].
    + intros c2 s2 [G2 H2]. apply fine_bind. eapply fine_mono; [|apply peek_spec; lia]. intros p s3 (H3 & K1 & K2). destruct p; cbn [negb]; [|cbn; split; [lia|done]].
      apply fine_bind. eapply fine_mono; [|apply gettoken_spec; lia]. intros t s4 (H4 & _ & H5 & _). specialize (H5 K2 (K1 eq_refl)).
      apply fine_bind. eapply fine_mono; [|apply IHl; lia]. intros r s5 [H6 G6]. cbn. split; [lia|done].
    + intros c2 s2 [G2 H2] Hs2. unfold back_body. apply fine_bind. eapply fine_mono; [|apply peek_spec; lia]. intros p s3 (H3 & K1 & K2).
      destruct p; cbn [negb]; [|cbn; split; [done|lia]]. apply fine_bind. eapply fine_mono; [|apply gettoken_spec; lia]. intros t s4 (H4 & _ & H5 & _).
      specialize (H5 K2 (K1 eq_refl)). cbn. split_and!; (done || lia).
  - intros s Hs Hf. cbn [parsepipe]. apply fine_bind. eapply fine_mono; [|apply IHe; lia]. intros c s1 [H1 G1]. apply fine_bind. eapply fine_mono; [|apply peek_spec; lia].
    intros p s3 (H3 & K1 & K2). destruct p; cbn [negb]; [|cbn; split; [lia|done]]. apply fine_bind. eapply fine_mono; [|apply gettoken_spec; lia]. intros t s4 (H4 & _ & H5 & _).
    specialize (H5 K2 (K1 eq_refl)). apply fine_bind. eapply fine_mono; [|apply IHp; lia]. intros r s5 [H6 G6]. cbn. split; [lia|done].
  - intros s Hs Hf. cbn [parseexec]. apply fine_bind. rewrite peek_eq. cbn [fine]. pose proof (peek_spec (chars "(") s Hs) as Hp. rewrite peek_eq in Hp. cbn [fine] in Hp.
    destruct (negb _ && _) eqn:Ep; destruct Hp as (H1 & H2 & H3).
    + apply andb_true_iff in Ep as [_ Ep]. eapply fine_mono; [|apply IHb; [split; [lia|by apply H2]|by apply H3, H2|done|lia]]. intros c s' [H4 H5]. split; [lia|done].
    + apply fine_bind. eapply fine_mono; [|apply parseredirs_spec; lia]. intros rs s2 [H4 H5]. apply fine_bind.
      eapply fine_mono; [|apply (fine_mloop (exec_body b es) es n
        (fun '(argv, rs) s3 => Forall good_word argv /\ Z.of_nat (length argv) < MAXARGS /\ Forall (fun r => good_word r.1) rs /\ s2 <= s3)
        (fun '(argv, rs) s3 => s2 <= s3 <= es /\ Forall good_word argv /\ Z.of_nat (length argv) < MAXARGS /\ Forall (fun r => good_word r.1) rs)); [|done|lia|lia]].
      * intros [argv rs2] s3 (K1 & K2 & K3 & K4). cbn. split; [lia|]. by apply wrap_good.
      * intros [argv rs2] s3 (K1 & K2 & K3 & K4) Hs3. eapply fine_mono; [|by apply (exec_body_spec s2)]. intros [[a r]|[a r]] s4; [|done]. intros (? & ? & ? & ? & ?). done.
  - intros s Hs Hw Ho Hf. cbn [parseblock]. apply fine_bind. rewrite peek_eq, skip_ws_id by (done || lia). cbn [fine].
    rewrite Ho, (proj2 (Z.eqb_neq (at_ s) 0)) by (apply Hchars; lia). cbn [negb andb]. apply fine_bind. eapply fine_mono; [|apply gettoken_spec; lia]. intros t s1 (H1 & _ & H2 & _).
    specialize (H2 (fun _ => Hw) ltac:(lia)). apply fine_bind. eapply fine_mono; [|apply IHl; lia]. intros c s2 [H3 H4].
    apply fine_bind. eapply fine_mono; [|apply peek_spec; lia]. intros p s3 (H5 & _ & _). destruct p; cbn [negb]; [|cbn; unfold complaints; set_solver].
    apply fine_bind. eapply fine_mono; [|apply gettoken_spec; lia]. intros t2 s4 (H6 & _). apply fine_bind. eapply fine_mono; [|apply parseredirs_spec; lia].
    intros rs s5 [H7 H8]. cbn. split; [lia|]. by apply wrap_good.
Qed.
End line.

(** ** The words after [nulterminate] *)

Fixpoint words (c : cmd) : list (Z * Z) :=
  match c with
  | ExecCmd argv => argv
  | RedirCmd c file efile _ _ => words c ++ [(file, efile)]
  | PipeCmd l r | ListCmd l r => words l ++ words r
  | BackCmd c => words c
  end.

Definition cut (b : list Z) (ws : list (Z * Z)) : list Z := foldl (fun b '(_, eq) => <[Z.to_nat eq := 0]> b) b ws.

Lemma nulterminate_cut c : forall b, nulterminate c b = cut b (words c).
Proof.
  unfold cut. induction c as [argv|c IH q eq mode fd|l IHl r IHr|l IHl r IHr|c IH]; intros b; cbn [nulterminate words]; rewrite ?foldl_app; [done|by rewrite IH|by rewrite IHl, IHr..|by rewrite IH].
Qed.

Definition ends (ws : list (Z * Z)) : list nat := (fun w => Z.to_nat w.2) <$> ws.

Lemma cut_lookup ws i : forall b, (i < length b)%nat -> cut b ws !! i = if decide (i ∈ ends ws) then Some 0 else b !! i.
Proof.
  unfold cut, ends. induction ws as [|[q eq] ws IH]; intros b Hi; cbn [foldl fmap list_fmap snd].
  - rewrite decide_False; [done|]. apply not_elem_of_nil.
  - rewrite IH by by rewrite length_insert. destruct (decide (i ∈ _)) as [Hw|Hn]; [rewrite decide_True; [done|by right]|].
    destruct (decide (Z.to_nat eq = i)) as [<-|Hne].
    + rewrite decide_True by left. by apply list_lookup_insert_eq.
    + rewrite list_lookup_insert_ne by done. rewrite decide_False; [done|]. intros [E|Hw]%elem_of_cons; congruence.
Qed.

Lemma good_words b es c : good b es c -> Forall (good_word b es) (words c).
Proof.
  induction c as [argv|c IH q eq mode fd|l IHl r IHr|l IHl r IHr|c IH]; cbn [good words]; [by intros [H _]| | | |done].
  - intros [H1 H2]. apply Forall_app. split; [by apply IH|]. by apply Forall_singleton.
  - intros [H1 H2]. apply Forall_app. auto.
  - intros [H1 H2]. apply Forall_app. auto.
Qed.

Lemma strcut_prefix l k : (forall i, (i < k)%nat -> exists c, l !! i = Some c /\ c <> 0) -> l !! k = Some 0 -> strcut l = take k l.
Proof.
  revert l. induction k as [|k IH]; intros l H Hk; (destruct l as [|c l]; [done|]); [by injection Hk as ->|]. destruct (H 0%nat) as (c' & [= <-] & Hc); [lia|].
  cbn [strcut take]. rewrite (proj2 (Z.eqb_neq c 0)) by done. f_equal. apply IH; [|done]. intros i Hi. apply (H (S i)). lia.
Qed.

Lemma cut_word s ws w : let b := s ++ [0] in let es := Z.of_nat (length s) in 0 ∉ s -> Forall (good_word b es) ws -> w ∈ ws ->
  word (cut b ws) w.1 = take (Z.to_nat (w.2 - w.1)) (drop (Z.to_nat w.1) s).
Proof.
  intros b es H0 Hall Hw. pose proof (proj1 (Forall_forall _ _) Hall w Hw) as (H1 & H2 & H3 & _).
  assert (length b = S (length s)) as Hlb by (unfold b; rewrite length_app; cbn; lia).
  assert (forall i, (Z.to_nat w.1 <= i < Z.to_nat w.2)%nat -> cut b ws !! i = s !! i) as Hin.
  { intros i Hi. rewrite cut_lookup by lia. rewrite decide_False; [unfold b; apply lookup_app_l; lia|]. intros (v & Ev & Hv)%list_elem_of_fmap.
    pose proof (proj1 (Forall_forall _ _) Hall v Hv) as (V1 & V2 & _ & V4). specialize (H3 (Z.of_nat i) ltac:(lia)). assert (v.2 = Z.of_nat i) as Ev' by lia.
    rewrite Ev' in V4. rewrite V4 in H3 by lia. done. }
  unfold word. rewrite (strcut_prefix _ (Z.to_nat (w.2 - w.1))).
  - apply list_eq. intros i. destruct (decide (i < Z.to_nat (w.2 - w.1))%nat) as [Hi|Hi]; [|rewrite !lookup_take_ge by lia; done].
    rewrite !lookup_take_lt, !lookup_drop by done. apply Hin. lia.
  - intros i Hi. rewrite lookup_drop, Hin by lia. destruct (lookup_lt_is_Some_2 s (Z.to_nat w.1 + i)) as [c Hc]; [lia|]. exists c. split; [done|]. intros ->.
    apply H0. by eapply list_elem_of_lookup_2.
  - rewrite lookup_drop, cut_lookup by lia. rewrite decide_True; [done|]. apply list_elem_of_fmap. exists w. split; [lia|done].
Qed.

(** A line and its NUL. *)
Lemma line_chars s : 0 ∉ s -> Z.of_nat (length (s ++ [0])) = Z.of_nat (length s) + 1 /\ char_at (s ++ [0]) (Z.of_nat (length s)) = 0 /\
  forall i, 0 <= i < Z.of_nat (length s) -> char_at (s ++ [0]) i <> 0.
Proof.
  intros H0. split_and!.
  - rewrite length_app. cbn. lia.
  - unfold char_at. rewrite lookup_app_r by lia. by rewrite Nat2Z.id, Nat.sub_diag.
  - intros i Hi. unfold char_at. rewrite lookup_app_l by lia. destruct (lookup_lt_is_Some_2 s (Z.to_nat i)) as [c Hc]; [lia|]. rewrite Hc. cbn.
    intros ->. apply H0. by eapply list_elem_of_lookup_2.
Qed.

(** C24: the shell parses every line of [n] characters within recursion depth
    and rounds linear in [n].  It rejects it with one of four messages, or
    returns a tree of commands of at most 9 arguments each, whose words are the
    maximal runs of word characters found in the line; and after
    [nulterminate] each of them is the C string at its start. *)
Theorem sh_parse_total s n : 0 ∉ s -> (4 * length s + 4 <= n)%nat ->
  let b := s ++ [0] in let es := Z.of_nat (length s) in
  match parsecmd_pos b es n n 0 with
  | Ret c p => 0 <= p <= es /\ good b es c /\ forall w, w ∈ words c -> word (nulterminate c b) w.1 = take (Z.to_nat (w.2 - w.1)) (drop (Z.to_nat w.1) s)
  | Panic msg => msg ∈ complaints
  | _ => False
  end.
Proof.
  intros H0 Hn b es. pose proof (line_chars s H0) as (E1 & E2 & E3).
  assert (fine (parsecmd_pos b es n n 0) (fun c p => 0 <= p <= es /\ good b es c)) as H.
  { unfold parsecmd_pos. apply fine_bind. eapply fine_mono; [|apply (parse_spec b es n E1 E2 E3 ltac:(unfold es; lia) n); [unfold es; lia|unfold es; lia]].
    intros c s1 [H1 H2]. apply fine_bind. eapply fine_mono; [|apply (peek_spec b es n E2); lia]. intros p s2 (H3 & _). cbn. split; [lia|done]. }
  destruct (parsecmd_pos b es n n 0) as [c p|msg| |]; try done. destruct H as [Hp Hg]. split_and!; [lia|lia|done|]. intros w Hw.
  rewrite nulterminate_cut. apply cut_word; [done|by apply good_words|done].
Qed.

Lemma sh_parse_total_witness : let s := chars "cat <in | (grep x; wc) >out &" in
  match parsecmd_pos (s ++ [0]) (Z.of_nat (length s)) 200 200%nat 0 with Ret c p => good (s ++ [0]) (Z.of_nat (length s)) c | _ => False end.
Proof.
  cbv zeta. pose proof (sh_parse_total (chars "cat <in | (grep x; wc) >out &") 200) as H.
  assert (exists c p, parsecmd_pos (chars "cat <in | (grep x; wc) >out &" ++ [0]) (Z.of_nat (length (chars "cat <in | (grep x; wc) >out &"))) 200 200%nat 0 = Ret c p) as (c & p & E)
    by (eexists _, _; vm_compute; reflexivity).
  cbv zeta in H. rewrite E in H |- *. apply H; [intros Hx; apply list_elem_of_In in Hx; vm_compute in Hx; intuition discriminate|apply Nat.leb_le; vm_compute; reflexivity].
Defined.
