(* ===== verification/ShPrint.v ===== *)
(** * Every command tree can be typed

    A printer for command trees, and the proof that the shell's parser reads
    back what it prints: precedence, parentheses, redirections and words. *)

From Stdlib Require Import ZArith Lia.
From S2P Require Import Prelude KString User Ulib UPrintf UProgs Sh ShSpec.

#[local] Arguments skip_ws : simpl never.
#[local] Arguments token : simpl never.
#[local] Arguments oneof : simpl never.
#[local] Arguments char_at : simpl never.

(** ** Trees with their strings *)

Inductive ast :=
| AExec (argv : list (list Z))
| ARedir (a : ast) (file : list Z) (mode fd : Z)
| APipe (left right : ast)
| AList (left right : ast)
| ABack (a : ast).

(** What [runcmd] sees of a parsed command. *)
Fixpoint tree (b : list Z) (c : cmd) : ast :=
  match c with
  | ExecCmd argv => AExec ((fun w => word b w.1) <$> argv)
  | RedirCmd c file _ mode fd => ARedir (tree b c) (word b file) mode fd
  | PipeCmd l r => APipe (tree b l) (tree b r)
  | ListCmd l r => AList (tree b l) (tree b r)
  | BackCmd c => ABack (tree b c)
  end.

(** ** The printer *)

Inductive tok := TSym (c : Z) | TApp | TWord (w : list Z).

Definition text (t : tok) : list Z := match t with TSym c => [c] | TApp => [62; 62] | TWord w => w end.
Definition render (ts : list tok) : list Z := mjoin ((fun t => text t ++ [32]) <$> ts).

Definition redir_op (mode fd : Z) : tok := if fd =? 0 then TSym 60 else if mode =? 1537 then TSym 62 else TApp.

Definition paren (ts : list tok) : list tok := TSym 40 :: ts ++ [TSym 41].

(** Levels: 0 a line, 1 a list of [&], 2 a pipe, 3 a command. *)
Fixpoint pr (lvl : nat) (a : ast) : list tok :=
  match a with
  | AExec argv => TWord <$> argv
  | ARedir a file mode fd => pr 3 a ++ [redir_op mode fd; TWord file]
  | APipe l r => let ts := pr 3 l ++ TSym 124 :: pr 2 r in if (lvl <=? 2)%nat then ts else paren ts
  | ABack a => let ts := pr 1 a ++ [TSym 38] in if (lvl <=? 1)%nat then ts else paren ts
  | AList l r => let ts := pr 1 l ++ TSym 59 :: pr 0 r in if (lvl =? 0)%nat then ts else paren ts
  end.
Definition print (a : ast) : list Z := render (pr 0 a).

(** Trees whose words can be typed, of at most 9 arguments, with the three
    kinds of redirections. *)
Definition typable (w : list Z) : Prop := w <> [] /\ Forall (fun c => wordchar c = true /\ c <> 0) w.

Fixpoint wf (a : ast) : Prop :=
  match a with
  | AExec argv => Forall typable argv /\ (length argv < 10)%nat
  | ARedir a file mode fd => wf a /\ typable file /\ ((mode, fd) = (0, 0) \/ (mode, fd) = (1537, 1) \/ (mode, fd) = (513, 1))
  | APipe l r | AList l r => wf l /\ wf r
  | ABack a => wf a
  end.

Fixpoint size (a : ast) : nat :=
  match a with
  | AExec _ => 1
  | ARedir a _ _ _ | ABack a => S (size a)
  | APipe l r | AList l r => S (size l + size r)
  end.

Lemma render_cons t ts : render (t :: ts) = text t ++ 32 :: render ts.
Proof. unfold render. rewrite fmap_cons. change (mjoin (?x :: ?l)) with (x ++ mjoin l). by rewrite <- app_assoc. Qed.

Definition tok_ok (t : tok) : Prop :=
  match t with
  | TSym c => oneof (chars "|();&<>") c = true
  | TApp => True
  | TWord w => typable w
  end.

Lemma pr_ok lvl a : wf a -> Forall tok_ok (pr lvl a).
Proof.
  assert (forall ts, Forall tok_ok ts -> Forall tok_ok (paren ts)) as Hp.
  { intros ts H. constructor; [done|]. apply Forall_app. split; [done|]. by apply Forall_singleton. }
  revert lvl. induction a as [argv|a IH f m fd|l IHl r IHr|l IHl r IHr|a IH]; intros lvl; cbn [wf pr].
  - intros [H _]. apply Forall_fmap. eapply Forall_impl; [exact H|]. done.
  - intros (H1 & H2 & H3). apply Forall_app. split; [by apply IH|]. constructor; [|by apply Forall_singleton]. unfold redir_op. by destruct (fd =? 0), (m =? 1537).
  - intros [H1 H2]. assert (Forall tok_ok (pr 3 l ++ TSym 124 :: pr 2 r)) as H by (apply Forall_app; split; [by apply IHl|]; constructor; [done|by apply IHr]).
    destruct (lvl <=? 2)%nat; auto.
  - intros [H1 H2]. assert (Forall tok_ok (pr 1 l ++ TSym 59 :: pr 0 r)) as H by (apply Forall_app; split; [by apply IHl|]; constructor; [done|by apply IHr]).
    destruct (lvl =? 0)%nat; auto.
  - intros H1. assert (Forall tok_ok (pr 1 a ++ [TSym 38])) as H by (apply Forall_app; split; [by apply IH|]; by apply Forall_singleton). destruct (lvl <=? 1)%nat; auto.
Qed.

Lemma sym_cases c : oneof (chars "|();&<>") c = true -> c = 124 \/ c = 40 \/ c = 41 \/ c = 59 \/ c = 38 \/ c = 60 \/ c = 62.
Proof. unfold oneof. cbn. rewrite !orb_true_iff, !Z.eqb_eq. naive_solver. Qed.

(** Two steps that return, before a third. *)
Lemma bind_ret2 {S A B C} (m : M S A) (f : A -> M S B) (g : B -> M S C) n s a s' : (m ≫= f) n s = Ret a s' -> (m ≫= (fun x => f x ≫= g)) n s = g a n s'.
Proof. unfold mbind, M_bind. destruct (m n s) as [x s1| | |]; cbn [bind_res]; [|done..]. by intros ->. Qed.

(** ** Reading tokens *)

Section read.
Context (T : list tok).
Local Notation b := (render T ++ [0]).
Local Notation es := (Z.of_nat (length (render T))).

(** At offset [s] the tokens [ts] are left. *)
Definition look (s : Z) (ts : list tok) : Prop :=
  0 <= s /\ Forall tok_ok ts /\ exists w, Forall (fun c => oneof whitespace c = true) w /\ drop (Z.to_nat s) b = w ++ render ts ++ [0].

Lemma look_start : Forall tok_ok T -> look 0 T.
Proof. intros HT. split_and!; [done|done|]. by exists []. Qed.

Lemma drop_at s l c r : 0 <= s -> drop (Z.to_nat s) b = l ++ c :: r -> char_at b (s + Z.of_nat (length l)) = c.
Proof.
  intros Hs H. unfold char_at. replace (Z.to_nat (s + Z.of_nat (length l))) with (Z.to_nat s + length l)%nat by lia.
  rewrite <- lookup_drop, H, lookup_app_r, Nat.sub_diag by lia. done.
Qed.

Lemma drop_more s l r : 0 <= s -> drop (Z.to_nat s) b = l ++ r -> drop (Z.to_nat (s + Z.of_nat (length l))) b = r.
Proof.
  intros Hs H. replace (Z.to_nat (s + Z.of_nat (length l))) with (Z.to_nat s + length l)%nat by lia. rewrite <- drop_drop, H. apply drop_app_length.
Qed.

Lemma drop_len s l : 0 <= s -> drop (Z.to_nat s) b = l ++ [0] -> es - s = Z.of_nat (length l).
Proof.
  intros Hs H. apply (f_equal length) in H. rewrite length_drop, !length_app in H. cbn [length] in H. lia.
Qed.

Lemma skip_run p w : forall k s r, 0 <= s -> drop (Z.to_nat s) b = w ++ r -> Forall (fun c => p c = true) w -> (length w <= k)%nat ->
  (length w = k \/ exists c r', r = c :: r' /\ p c = false) -> skip b p k s = s + Z.of_nat (length w).
Proof.
  induction w as [|c w IH]; intros k s r Hs Hd Hw Hk Hend.
  - destruct k as [|k]; [cbn; lia|]. destruct Hend as [Hend|(c & r' & -> & Hc)]; [cbn in Hend; lia|]. cbn [skip]. pose proof (drop_at s [] c r' Hs Hd) as Ea. cbn [length] in *.
    rewrite Z.add_0_r in *. by rewrite Ea, Hc.
  - destruct k as [|k]; [cbn in Hk; lia|]. apply Forall_cons in Hw as [Hc Hw]. cbn [skip]. pose proof (drop_at s [] c (w ++ r) Hs Hd) as Ea. cbn [length] in *. rewrite Z.add_0_r in Ea.
    rewrite Ea, Hc. pose proof (drop_more s [c] (w ++ r) Hs Hd) as Hd'. cbn [length] in Hd'. rewrite (IH k (s + 1) r); [lia|lia|exact Hd'|done|lia|].
    destruct Hend as [Hend|Hend]; [left; lia|by right].
Qed.

Lemma text_head t : tok_ok t -> exists c l, text t = c :: l /\ c <> 0 /\ oneof whitespace c = false.
Proof.
  destruct t as [c| |w]; cbn [tok_ok text].
  - intros H%sym_cases. exists c, []. split; [done|]. destruct H as [->|[->|[->|[->|[->|[->| ->]]]]]]; done.
  - intros _. by exists 62, [62].
  - intros [Hw H]. destruct w as [|c w]; [done|]. apply Forall_cons in H as [[H1 H2] _]. exists c, w. split_and!; [done|done|]. unfold wordchar in H1. by destruct (oneof whitespace c).
Qed.

(** The blanks before the next token are skipped. *)
Lemma look_ws s ts : look s ts -> exists q, skip_ws b es s = q /\ 0 <= q /\ drop (Z.to_nat q) b = render ts ++ [0].
Proof.
  intros (Hs & Hts & w & Hw & Hd). exists (s + Z.of_nat (length w)). assert (es - s = Z.of_nat (length (w ++ render ts))) as He by (apply drop_len; [done|by rewrite <- app_assoc]).
  rewrite length_app in He. split_and!; [|lia|by apply drop_more]. unfold skip_ws, skip_to. apply (skip_run _ w _ _ (render ts ++ [0])); [done|done|done|lia|].
  destruct ts as [|t ts]; [left; cbn in He; lia|]. right. apply Forall_cons in Hts as [Ht _]. destruct (text_head t Ht) as (c & l & E & _ & Hc). rewrite render_cons, E. by eexists _, _.
Qed.

Lemma look_again q t ts : 0 <= q -> Forall tok_ok ts -> drop (Z.to_nat q) b = render (t :: ts) ++ [0] -> look (q + Z.of_nat (length (text t))) ts.
Proof.
  intros Hq Hts Hd. split_and!; [lia|done|]. exists [32]. split; [by apply Forall_singleton|]. rewrite render_cons in Hd. rewrite <- app_assoc in Hd. apply drop_more in Hd; [|done]. by rewrite Hd.
Qed.

(** What [peek] sees. *)
Definition next (toks : list Z) (ts : list tok) : bool :=
  match ts with
  | [] => false
  | t :: _ => oneof toks (hd 0 (text t))
  end.

Context (n : nat).

Lemma peek_look toks s ts : look s ts -> exists s', peek b es toks n s = Ret (next toks ts) s' /\ look s' ts.
Proof.
  intros HL. destruct (look_ws s ts HL) as (q & E & Hq & Hd). exists q. rewrite peek_eq, E. destruct HL as (_ & Hts & _). split.
  - f_equal. destruct ts as [|t ts]; [pose proof (drop_at q [] 0 [] Hq Hd) as Ea; cbn [length] in Ea; rewrite Z.add_0_r in Ea; by rewrite Ea|].
    apply Forall_cons in Hts as [Ht _]. destruct (text_head t Ht) as (c & l & Et & Hc & _). rewrite render_cons, Et in Hd.
    pose proof (drop_at q [] c _ Hq Hd) as Ea. cbn [length] in Ea. rewrite Z.add_0_r in Ea. cbn [next]. by rewrite Ea, Et, (proj2 (Z.eqb_neq c 0)).
  - split_and!; [done|done|]. exists []. done.
Qed.

Definition code (t : tok) : Z := match t with TSym c => c | TApp => 43 | TWord _ => 97 end.

Lemma token_look q t ts : 0 <= q -> tok_ok t -> drop (Z.to_nat q) b = render (t :: ts) ++ [0] -> token b es q = (code t, q + Z.of_nat (length (text t))).
Proof.
  intros Hq Ht Hd. assert (es - q = Z.of_nat (length (text t) + S (length (render ts)))) as He.
  { rewrite (drop_len q (render (t :: ts)) Hq Hd), render_cons, length_app. done. }
  rewrite render_cons, <- app_assoc in Hd. unfold token. destruct t as [c| |w]; cbn [tok_ok text code] in *.
  - pose proof (drop_at q [] c _ Hq Hd) as E0. pose proof (drop_at q [c] 32 _ Hq Hd) as E1. cbn [length] in *. rewrite Z.add_0_r in E0. rewrite E0. change (Z.of_nat 1) with 1 in *.
    destruct (sym_cases c Ht) as [->|[->|[->|[->|[->|[->| ->]]]]]]; try done. cbn. by rewrite E1.
  - pose proof (drop_at q [] 62 _ Hq Hd) as E0. pose proof (drop_at q [62] 62 _ Hq Hd) as E1. cbn [length] in *. rewrite Z.add_0_r in E0. rewrite E0. change (Z.of_nat 1) with 1 in *. cbn. by rewrite E1.
  - destruct Ht as [Hw Hall]. destruct w as [|c w]; [done|]. pose proof (drop_at q [] c _ Hq Hd) as E0. cbn [length] in E0. rewrite Z.add_0_r in E0. rewrite E0.
    pose proof (proj1 (proj1 (Forall_cons _ _ _) Hall)) as [Hc Hc0]. rewrite (proj2 (Z.eqb_neq c 0)) by done.
    assert (oneof (chars "|();&<") c = false /\ c <> 62) as [-> Hc62].
    { unfold wordchar, symbols, oneof in *. cbn in Hc |- *. apply andb_true_iff in Hc as [_ Hc]. apply negb_true_iff in Hc. rewrite !orb_false_iff, !Z.eqb_neq in *. naive_solver. }
    rewrite (proj2 (Z.eqb_neq c 62)) by done. f_equal. unfold skip_to. apply (skip_run _ (c :: w) _ _ (32 :: render ts ++ [0])); [done|done| |lia|right; by eexists _, _].
    eapply Forall_impl; [exact Hall|]. by intros x [Hx _].
Qed.

(** The word found is [w]. *)
Definition wread (x : Z * Z) (w : list Z) : Prop := 0 <= x.1 /\ x.2 = x.1 + Z.of_nat (length w) /\ take (length w) (drop (Z.to_nat x.1) b) = w.

Lemma gettoken_look s t ts : look s (t :: ts) -> exists s' x, gettoken b es n s = Ret (code t, x) s' /\ look s' ts /\ wread x (text t).
Proof.
  intros HL. destruct (look_ws s _ HL) as (q & E & Hq & Hd). destruct HL as (_ & Hts & _). apply Forall_cons in Hts as [Ht Hts].
  pose proof (look_again q t ts Hq Hts Hd) as HL'. pose proof (token_look q t ts Hq Ht Hd) as Et. destruct (look_ws _ _ HL') as (q' & E' & Hq' & Hd').
  exists q', (q, q + Z.of_nat (length (text t))). rewrite gettoken_eq, E, Et. cbn [fst snd]. rewrite E'. split_and!; [done| |].
  - split_and!; [done|done|]. by exists [].
  - split_and!; [done|done|]. cbn [fst]. rewrite Hd, render_cons, <- app_assoc. apply take_app_length.
Qed.

Lemma gettoken_end s : look s [] -> exists s' x, gettoken b es n s = Ret (0, x) s' /\ look s' [].
Proof.
  intros HL. destruct (look_ws s _ HL) as (q & E & Hq & Hd). pose proof (drop_at q [] 0 [] Hq Hd) as Ea. cbn [length] in Ea. rewrite Z.add_0_r in Ea.
  assert (token b es q = (0, q)) as Et by (unfold token; by rewrite Ea). assert (look q []) as HL' by (split_and!; [done|done|]; by exists []).
  destruct (look_ws _ _ HL') as (q' & E' & Hq' & Hd'). exists q', (q, q). rewrite gettoken_eq, E, Et. cbn [fst snd]. rewrite E'. split; [done|]. split_and!; [done|done|]. by exists [].
Qed.
(** ** Redirections and arguments *)

Context (Hn : (length (render T) < n)%nat).

Lemma look_len s ts : look s ts -> (length ts < n)%nat.
Proof.
  intros (Hs & _ & w & _ & Hd). pose proof (drop_len s (w ++ render ts) Hs ltac:(by rewrite <- app_assoc)) as He. rewrite length_app in He.
  enough (length ts <= length (render ts))%nat by lia. clear. induction ts as [|t ts IH]; [done|]. rewrite render_cons, length_app. cbn [length]. lia.
Qed.

Lemma look_app s ts us : look s (ts ++ us) -> Forall tok_ok ts /\ Forall tok_ok us.
Proof. intros (_ & H & _). by apply Forall_app in H. Qed.

Lemma next_word toks w ts : typable w -> Forall (fun x => oneof symbols x = true) toks -> next toks (TWord w :: ts) = false.
Proof.
  intros [Hw Hall] Ht. destruct w as [|c w]; [done|]. apply Forall_cons in Hall as [[Hc _] _]. cbn [next text hd]. unfold wordchar in Hc. apply andb_true_iff in Hc as [_ Hc].
  apply negb_true_iff in Hc. apply not_true_iff_false. intros H. apply existsb_exists in H as (x & Hx & E%Z.eqb_eq). subst x. apply list_elem_of_In in Hx.
  pose proof (proj1 (Forall_forall _ _) Ht c Hx) as Hc'. cbv beta in Hc'. congruence.
Qed.

(** What may follow a command. *)
Definition stop (ts : list tok) : Prop := ts = [] \/ exists c ts', ts = TSym c :: ts' /\ oneof (chars "|)&;") c = true.

Lemma stop_redir ts : stop ts -> next (chars "<>") ts = false.
Proof. intros [->|(c & ts' & -> & Hc)]; [done|]. cbn. unfold oneof in Hc. cbn in Hc. rewrite !orb_true_iff, !Z.eqb_eq in Hc. naive_solver. Qed.

Definition rkind (r : list Z * (Z * Z)) : Prop := r.2 = (0, 0) \/ r.2 = (1537, 1) \/ r.2 = (513, 1).
Definition rtoks (r : list Z * (Z * Z)) : list tok := [redir_op r.2.1 r.2.2; TWord r.1].
Definition flat (rs : list (list Z * (Z * Z))) : list tok := mjoin (rtoks <$> rs).
Definition rread (x : redir) (r : list Z * (Z * Z)) : Prop := wread x.1 r.1 /\ x.2 = r.2.

Lemma flat_cons r rs : flat (r :: rs) = redir_op r.2.1 r.2.2 :: TWord r.1 :: flat rs.
Proof. done. Qed.

Lemma redir_round acc r ts s : rkind r -> look s (rtoks r ++ ts) -> exists s' x, redir_body b es acc n s = Ret (inl (acc ++ [x])) s' /\ look s' ts /\ rread x r.
Proof.
  intros Hk HL. destruct (peek_look (chars "<>") s _ HL) as (s1 & E1 & L1). destruct (gettoken_look s1 _ _ L1) as (s2 & x2 & E2 & L2 & _). destruct (gettoken_look s2 _ _ L2) as (s3 & x3 & E3 & L3 & W3).
  exists s3, (x3, r.2). assert (next (chars "<>") (rtoks r ++ ts) = true) as Hnx by (destruct r as [w k]; unfold rkind in Hk; cbn [snd] in Hk; destruct Hk as [->|[->| ->]]; done). rewrite Hnx in E1.
  split_and!; [|done|done]. unfold redir_body. rewrite (bind_ret _ _ _ _ _ _ E1). cbn [negb]. rewrite (bind_ret _ _ _ _ _ _ E2), (bind_ret _ _ _ _ _ _ E3). cbn [code Z.eqb Pos.eqb negb].
  destruct r as [w k]; unfold rkind in Hk; cbn [snd fst] in Hk |- *. by destruct Hk as [->|[->| ->]].
Qed.

Lemma redir_loop rs : forall acc k s ts, Forall rkind rs -> look s (flat rs ++ ts) -> next (chars "<>") ts = false -> (length rs < k)%nat ->
  exists s' xs, mwhile k (redir_body b es) acc n s = Ret (acc ++ xs) s' /\ look s' ts /\ Forall2 rread xs rs.
Proof.
  induction rs as [|r rs IH]; intros acc k s ts Hk HL Hs Hl; (destruct k as [|k]; [cbn in Hl; lia|]).
  - destruct (peek_look (chars "<>") s _ HL) as (s1 & E1 & L1). change (flat [] ++ ts) with ts in *. rewrite Hs in E1. exists s1, []. rewrite app_nil_r. split_and!; [|done|constructor].
    apply mwhile_inr. unfold redir_body. by rewrite (bind_ret _ _ _ _ _ _ E1).
  - apply Forall_cons in Hk as [Hr Hk]. destruct (redir_round acc r (flat rs ++ ts) s Hr HL) as (s1 & x & E & L & R).
    destruct (IH (acc ++ [x]) k s1 ts Hk L Hs ltac:(cbn in Hl; lia)) as (s2 & xs & E2 & L2 & R2). exists s2, (x :: xs). rewrite (mwhile_inl _ _ _ _ _ _ _ E), E2.
    split_and!; [by rewrite <- app_assoc|done|by constructor].
Qed.

Lemma flat_length rs ts : (length rs <= length (flat rs ++ ts))%nat.
Proof. rewrite length_app. enough (length rs <= length (flat rs))%nat by lia. induction rs as [|r rs IH]; [done|]. rewrite flat_cons. cbn [length]. lia. Qed.

Lemma parseredirs_look rs s ts : Forall rkind rs -> look s (flat rs ++ ts) -> next (chars "<>") ts = false ->
  exists s' xs, parseredirs b es n s = Ret xs s' /\ look s' ts /\ Forall2 rread xs rs.
Proof.
  intros Hk HL Hs. pose proof (look_len _ _ HL) as Hl. pose proof (flat_length rs ts). destruct (redir_loop rs [] n s ts Hk HL Hs ltac:(lia)) as (s' & xs & E & L & R). by exists s', xs.
Qed.

(** The arguments, the redirections being read after the last one. *)
Lemma exec_loop ws rs : forall acc racc k s ts, Forall rkind rs -> look s ((TWord <$> ws) ++ flat (if ws is [] then [] else rs) ++ ts) -> stop ts ->
  (length acc + length ws < 10)%nat -> (length ws < k)%nat -> exists s' xs ys, mwhile k (exec_body b es) (acc, racc) n s = Ret (acc ++ xs, racc ++ ys) s' /\ look s' ts /\
    Forall2 wread xs ws /\ Forall2 rread ys (if ws is [] then [] else rs).
Proof.
  induction ws as [|w ws IH]; intros acc racc k s ts Hk HL Hs Hlen Hl; (destruct k as [|k]; [cbn in Hl; lia|]).
  - change (look s ts) in HL. destruct (peek_look (chars "|)&;") s _ HL) as (s1 & E1 & L1). destruct Hs as [->|(c & ts' & -> & Hc)].
    + destruct (gettoken_end s1 L1) as (s2 & x & E2 & L2). exists s2, [], []. rewrite !app_nil_r. split_and!; [|done|constructor|constructor].
      apply mwhile_inr. unfold exec_body. rewrite (bind_ret _ _ _ _ _ _ E1). cbn [next]. by rewrite (bind_ret _ _ _ _ _ _ E2).
    + exists s1, [], []. rewrite !app_nil_r. split_and!; [|done|constructor|constructor]. apply mwhile_inr. unfold exec_body. rewrite (bind_ret _ _ _ _ _ _ E1). cbn [next text hd]. by rewrite Hc.
  - rewrite fmap_cons in HL. cbn [app] in HL. destruct (peek_look (chars "|)&;") s _ HL) as (s1 & E1 & L1). destruct (gettoken_look s1 _ _ L1) as (s2 & x & E2 & L2 & W2).
    pose proof L1 as (_ & Hok & _). apply Forall_cons in Hok as [Hw Hok]. rewrite next_word in E1 by first [done | repeat constructor]. cbn [code] in E2. cbn [length] in *.
    assert (exists s3 ys, parseredirs b es n s2 = Ret ys s3 /\ look s3 ((TWord <$> ws) ++ flat (if ws is [] then [] else rs) ++ ts) /\ Forall2 rread ys (if ws is [] then rs else [])) as (s3 & ys & E3 & L3 & R3).
    { destruct ws as [|w2 ws]; [apply parseredirs_look; [done|done|by apply stop_redir]|]. apply (parseredirs_look []); [constructor|done|]. rewrite fmap_cons in Hok |- *. cbn [app] in Hok |- *.
      apply Forall_cons in Hok as [Hw2 _]. apply next_word; [done|]. repeat constructor. }
    destruct (IH (acc ++ [x]) (racc ++ ys) k s3 ts Hk L3 Hs ltac:(rewrite length_app; cbn; lia) ltac:(lia)) as (s4 & xs & zs & E4 & L4 & W4 & R4).
    exists s4, (x :: xs), (ys ++ zs). split_and!; [|done|by constructor|].
    + rewrite (mwhile_inl _ _ _ _ _ (acc ++ [x], racc ++ ys) s3), E4; [by rewrite <- !app_assoc|]. unfold exec_body. rewrite (bind_ret _ _ _ _ _ _ E1), (bind_ret _ _ _ _ _ _ E2).
      cbn [Z.eqb Pos.eqb negb]. rewrite (proj2 (Z.leb_gt MAXARGS _)) by (rewrite length_app; cbn [length]; unfold MAXARGS; lia). by rewrite (bind_ret _ _ _ _ _ _ E3).
    + destruct ws; [|by inversion R3]. inversion R4; subst. by rewrite app_nil_r.
Qed.
(** ** Commands *)

Fixpoint reads (c : cmd) (a : ast) : Prop :=
  match c, a with
  | ExecCmd argv, AExec ws => Forall2 wread argv ws
  | RedirCmd c q eq mode fd, ARedir a w mode' fd' => reads c a /\ wread (q, eq) w /\ mode = mode' /\ fd = fd'
  | PipeCmd l r, APipe l' r' | ListCmd l r, AList l' r' => reads l l' /\ reads r r'
  | BackCmd c, ABack a => reads c a
  | _, _ => False
  end.

Definition rewrap (a : ast) (rs : list (list Z * (Z * Z))) : ast := foldl (fun a r => ARedir a r.1 r.2.1 r.2.2) a rs.

Lemma reads_wrap xs rs : Forall2 rread xs rs -> forall c a, reads c a -> reads (wrap c xs) (rewrap a rs).
Proof.
  induction 1 as [|[[q eq] [m fd]] [w [m' fd']] xs rs [H1 H2] _ IH]; intros c a Hc; [done|]. cbn [wrap rewrap foldl]. apply IH. cbn [reads fst snd] in *. by injection H2 as -> ->.
Qed.

Lemma pr_rewrap a rs k : pr 3 (rewrap a rs) = pr 3 a ++ flat rs /\ (rs <> [] -> pr k (rewrap a rs) = pr 3 (rewrap a rs)).
Proof.
  unfold rewrap. induction rs as [|r rs [IH _]] using rev_ind; [by rewrite app_nil_r|]. rewrite foldl_app. cbn [foldl pr]. split; [|done]. rewrite IH. unfold flat. rewrite fmap_app, join_app.
  by rewrite <- app_assoc.
Qed.

Definition P3 (F : nat) (a : ast) : Prop := forall f s ts, (F <= f)%nat -> look s (pr 3 a ++ ts) -> stop ts ->
  exists s' c, parseexec b es f n s = Ret c s' /\ look s' ts /\ reads c a.
Definition P2 (F : nat) (a : ast) : Prop := forall f s ts, (F <= f)%nat -> look s (pr 2 a ++ ts) -> stop ts -> next (chars "|") ts = false ->
  exists s' c, parsepipe b es f n s = Ret c s' /\ look s' ts /\ reads c a.
(** The first part of [parseline]: some rounds of its loop are done. *)
Definition P1 (F : nat) (a : ast) : Prop := forall f s ts, (F <= f)%nat -> look s (pr 1 a ++ ts) -> stop ts -> next (chars "|") ts = false ->
  exists s0 c0 j s' c, parsepipe b es f n s = Ret c0 s0 /\ (j <= length (pr 1 a))%nat /\
    (forall k, mwhile (j + k) (back_body b es) c0 n s0 = mwhile k (back_body b es) c n s') /\ look s' ts /\ reads c a.
Definition P0 (F : nat) (a : ast) : Prop := forall f s ts, (F <= f)%nat -> look s (pr 0 a ++ ts) -> stop ts ->
  next (chars "|") ts = false -> next (chars "&") ts = false -> next (chars ";") ts = false -> exists s' c, parseline b es f n s = Ret c s' /\ look s' ts /\ reads c a.

Lemma parse_exec ws rs : Forall typable ws -> Forall rkind rs -> (length ws < 10)%nat -> P3 1 (rewrap (AExec ws) rs).
Proof.
  intros Hw Hk Hlen [|f] s ts Hf HL Hs; [lia|]. rewrite (proj1 (pr_rewrap _ rs 3)) in HL. cbn [pr] in HL. rewrite <- app_assoc in HL.
  destruct (peek_look (chars "(") s _ HL) as (s1 & E1 & L1). cbn [parseexec]. rewrite (bind_ret _ _ _ _ _ _ E1).
  assert (next (chars "(") ((TWord <$> ws) ++ flat rs ++ ts) = false) as ->.
  { destruct Hw as [|w ws Hw _]; [|apply next_word; [done|repeat constructor]]. destruct rs as [|[w [m fd]] rs].
    - destruct Hs as [->|(c & ts' & -> & Hc)]; [done|]. unfold oneof in Hc. cbn in Hc. rewrite !orb_true_iff, !Z.eqb_eq in Hc. cbn. naive_solver.
    - apply Forall_cons in Hk as [Hk _]. unfold rkind in Hk. cbn [snd] in Hk. by destruct Hk as [[= -> ->]|[[= -> ->]|[= -> ->]]]. }
  assert (exists s2 ys, parseredirs b es n s1 = Ret ys s2 /\ look s2 ((TWord <$> ws) ++ flat (if ws is [] then [] else rs) ++ ts) /\ Forall2 rread ys (if ws is [] then rs else [])) as (s2 & ys & E2 & L2 & R2).
  { destruct Hw as [|w ws Hw _]; [apply parseredirs_look; [done|done|by apply stop_redir]|]. apply (parseredirs_look []); [constructor|done|]. apply next_word; [done|repeat constructor]. }
  destruct (exec_loop ws rs [] ys n s2 ts Hk L2 Hs Hlen) as (s3 & xs & zs & E3 & L3 & W3 & R3).
  { pose proof (look_len _ _ L2) as Hl. rewrite length_app, length_fmap in Hl. lia. }
  exists s3, (wrap (ExecCmd xs) (ys ++ zs)). rewrite (bind_ret _ _ _ _ _ _ E2). rewrite (bind_ret (mloop _ _) _ _ _ _ _ E3). split_and!; [done|done|].
  apply reads_wrap; [|done]. destruct ws; [inversion R3; subst; by rewrite app_nil_r|]. by inversion R2; subst.
Qed.

Lemma parse_block F a rs : P0 F a -> pr 3 a = paren (pr 0 a) -> Forall rkind rs -> P3 (F + 2) (rewrap a rs).
Proof.
  intros H0 Hp Hk [|[|f]] s ts Hf HL Hs; [lia|lia|]. rewrite (proj1 (pr_rewrap _ rs 3)), Hp in HL. unfold paren in HL. cbn [app] in HL. rewrite <- !app_assoc in HL. cbn [app] in HL.
  destruct (peek_look (chars "(") s _ HL) as (s1 & E1 & L1). destruct (peek_look (chars "(") s1 _ L1) as (s2 & E2 & L2). destruct (gettoken_look s2 _ _ L2) as (s3 & x3 & E3 & L3 & _).
  destruct (H0 f s3 _ ltac:(lia) L3) as (s4 & c & E4 & L4 & R4); [right; by eexists _, _|done|done|done|].
  destruct (peek_look (chars ")") s4 _ L4) as (s5 & E5 & L5). destruct (gettoken_look s5 _ _ L5) as (s6 & x6 & E6 & L6 & _).
  destruct (parseredirs_look rs s6 ts Hk L6 (stop_redir _ Hs)) as (s7 & xs & E7 & L7 & R7). exists s7, (wrap c xs). split_and!; [|done|by apply reads_wrap].
  cbn [parseexec]. rewrite (bind_ret _ _ _ _ _ _ E1). cbn [next text hd]. change (oneof (chars "(") 40) with true. cbn [parseblock]. rewrite (bind_ret _ _ _ _ _ _ E2). cbn [next text hd].
  change (oneof (chars "(") 40) with true. cbn [negb]. rewrite (bind_ret _ _ _ _ _ _ E3), (bind_ret _ _ _ _ _ _ E4), (bind_ret _ _ _ _ _ _ E5). cbn [next text hd].
  change (oneof (chars ")") 41) with true. cbn [negb]. by rewrite (bind_ret _ _ _ _ _ _ E6), (bind_ret _ _ _ _ _ _ E7).
Qed.

Lemma P2_of_P3 F a : pr 2 a = pr 3 a -> P3 F a -> P2 (F + 1) a.
Proof.
  intros Hp H [|f] s ts Hf HL Hs Hnx; [lia|]. rewrite Hp in HL. destruct (H f s ts ltac:(lia) HL Hs) as (s1 & c & E1 & L1 & R1). destruct (peek_look (chars "|") s1 _ L1) as (s2 & E2 & L2).
  exists s2, c. split_and!; [|done|done]. cbn [parsepipe]. rewrite (bind_ret _ _ _ _ _ _ E1), (bind_ret _ _ _ _ _ _ E2). by rewrite Hnx.
Qed.

Lemma P1_of_P2 F a : pr 1 a = pr 2 a -> P2 F a -> P1 F a.
Proof.
  intros Hp H f s ts Hf HL Hs Hnx. rewrite Hp in HL. destruct (H f s ts Hf HL Hs Hnx) as (s1 & c & E1 & L1 & R1). exists s1, c, 0%nat, s1, c. split_and!; (done || lia).
Qed.

(** The rest of [parseline]. *)
Lemma line_of_P1 F a f s ts : P1 F a -> (F <= f)%nat -> look s (pr 1 a ++ ts) -> stop ts -> next (chars "|") ts = false -> next (chars "&") ts = false ->
  exists s' c, (c ← parsepipe b es f; mloop (back_body b es) c) n s = Ret c s' /\ look s' ts /\ reads c a.
Proof.
  intros H Hf HL Hs Hnx Hna. destruct (H f s ts Hf HL Hs Hnx) as (s0 & c0 & j & s1 & c & E0 & Hj & Hloop & L1 & R1). destruct (peek_look (chars "&") s1 _ L1) as (s2 & E2 & L2).
  exists s2, c. split_and!; [|done|done]. rewrite (bind_ret _ _ _ _ _ _ E0). unfold mloop. pose proof (look_len _ _ HL) as Hl. rewrite length_app in Hl.
  replace n with (j + S (n - j - 1))%nat at 1 by lia. rewrite Hloop. apply mwhile_inr. unfold back_body. rewrite (bind_ret _ _ _ _ _ _ E2). by rewrite Hna.
Qed.
Lemma P0_of_P1 F a : pr 0 a = pr 1 a -> P1 F a -> P0 (F + 1) a.
Proof.
  intros Hp H [|f] s ts Hf HL Hs Hnx Hna Hns; [lia|]. rewrite Hp in HL. destruct (line_of_P1 F a f s ts H ltac:(lia) HL Hs Hnx Hna) as (s1 & c & E1 & L1 & R1).
  destruct (peek_look (chars ";") s1 _ L1) as (s2 & E2 & L2). exists s2, c. split_and!; [|done|done]. cbn [parseline]. rewrite (bind_ret2 _ _ _ _ _ _ _ E1), (bind_ret _ _ _ _ _ _ E2). by rewrite Hns.
Qed.

Lemma parse_pipe F G l r : P3 F l -> P2 G r -> P2 (F `max` G + 1) (APipe l r).
Proof.
  intros Hl Hr [|f] s ts Hf HL Hs Hnx; [lia|]. cbn [pr Nat.leb] in HL. rewrite <- app_assoc in HL. cbn [app] in HL.
  destruct (Hl f s _ ltac:(lia) HL) as (s1 & c & E1 & L1 & R1); [right; by eexists _, _|]. destruct (peek_look (chars "|") s1 _ L1) as (s2 & E2 & L2).
  destruct (gettoken_look s2 _ _ L2) as (s3 & x3 & E3 & L3 & _). destruct (Hr f s3 ts ltac:(lia) L3 Hs Hnx) as (s4 & d & E4 & L4 & R4). exists s4, (PipeCmd c d). split_and!; [|done|done].
  cbn [parsepipe]. rewrite (bind_ret _ _ _ _ _ _ E1), (bind_ret _ _ _ _ _ _ E2). cbn [next text hd]. change (oneof (chars "|") 124) with true. cbn [negb].
  by rewrite (bind_ret _ _ _ _ _ _ E3), (bind_ret _ _ _ _ _ _ E4).
Qed.

Lemma parse_back F a : P1 F a -> P1 F (ABack a).
Proof.
  intros H f s ts Hf HL Hs Hnx. cbn [pr Nat.leb] in HL |- *. rewrite <- app_assoc in HL. cbn [app] in HL.
  destruct (H f s _ Hf HL) as (s0 & c0 & j & s1 & c & E0 & Hj & Hloop & L1 & R1); [right; by eexists _, _|done|].
  destruct (peek_look (chars "&") s1 _ L1) as (s2 & E2 & L2). destruct (gettoken_look s2 _ _ L2) as (s3 & x3 & E3 & L3 & _).
  exists s0, c0, (j + 1)%nat, s3, (BackCmd c). split_and!; [done|rewrite length_app; cbn; lia| |done|done]. intros k. rewrite <- Nat.add_assoc, Hloop. cbn [Nat.add]. apply mwhile_inl.
  unfold back_body. rewrite (bind_ret _ _ _ _ _ _ E2). cbn [next text hd]. change (oneof (chars "&") 38) with true. cbn [negb]. by rewrite (bind_ret _ _ _ _ _ _ E3).
Qed.

Lemma parse_list F G l r : P1 F l -> P0 G r -> P0 (F `max` G + 1) (AList l r).
Proof.
  intros Hl Hr [|f] s ts Hf HL Hs Hnx Hna Hns; [lia|]. cbn [pr Nat.eqb] in HL. rewrite <- app_assoc in HL. cbn [app] in HL.
  destruct (line_of_P1 F l f s _ Hl ltac:(lia) HL) as (s1 & c & E1 & L1 & R1); [right; by eexists _, _|done|done|]. destruct (peek_look (chars ";") s1 _ L1) as (s2 & E2 & L2).
  destruct (gettoken_look s2 _ _ L2) as (s3 & x3 & E3 & L3 & _). destruct (Hr f s3 ts ltac:(lia) L3 Hs Hnx Hna Hns) as (s4 & d & E4 & L4 & R4). exists s4, (ListCmd c d). split_and!; [|done|done].
  cbn [parseline]. rewrite (bind_ret2 _ _ _ _ _ _ _ E1), (bind_ret _ _ _ _ _ _ E2). cbn [next text hd]. change (oneof (chars ";") 59) with true. cbn [negb].
  by rewrite (bind_ret _ _ _ _ _ _ E3), (bind_ret _ _ _ _ _ _ E4).
Qed.

Lemma P3_mono F G a : (F <= G)%nat -> P3 F a -> P3 G a.
Proof. intros H HP f s ts Hf. apply HP. lia. Qed.
Lemma P2_mono F G a : (F <= G)%nat -> P2 F a -> P2 G a.
Proof. intros H HP f s ts Hf. apply HP. lia. Qed.
Lemma P1_mono F G a : (F <= G)%nat -> P1 F a -> P1 G a.
Proof. intros H HP f s ts Hf. apply HP. lia. Qed.
Lemma P0_mono F G a : (F <= G)%nat -> P0 F a -> P0 G a.
Proof. intros H HP f s ts Hf. apply HP. lia. Qed.

(** A tree is a sequence of redirections around something else. *)
Lemma unredir a : wf a -> exists a0 rs, a = rewrap a0 rs /\ wf a0 /\ Forall rkind rs /\ (forall a' w m fd, a0 <> ARedir a' w m fd) /\ (size a = size a0 + length rs)%nat.
Proof.
  induction a as [argv|a IH w m fd| | |]; intros Hwf; try (eexists _, []; by split_and!; [done|done|constructor|done|cbn; lia]).
  destruct Hwf as (H1 & H2 & H3). destruct (IH H1) as (a0 & rs & -> & W & K & N & E). exists a0, (rs ++ [(w, (m, fd))]). split_and!; [|done| |done|].
  - unfold rewrap. by rewrite foldl_app.
  - apply Forall_app. split; [done|]. by apply Forall_singleton.
  - rewrite length_app. cbn [size length]. lia.
Qed.

Definition all_levels (F : nat) (a : ast) : Prop := P3 F a /\ P2 F a /\ P1 F a /\ P0 F a.

Lemma levels_redir F a : (forall k, pr k a = pr 3 a) -> P3 F a -> all_levels (F + 3) a.
Proof.
  intros Hp H. assert (P2 (F + 1) a) as H2 by (apply P2_of_P3; [apply Hp|done]). assert (P1 (F + 1) a) as H1 by (apply P1_of_P2; [by rewrite !Hp|done]).
  assert (P0 (F + 1 + 1) a) as H0 by (apply P0_of_P1; [by rewrite !Hp|done]). split_and!; [by eapply P3_mono; [|exact H]; lia|by eapply P2_mono; [|exact H2]; lia|by eapply P1_mono; [|exact H1]; lia|by eapply P0_mono; [|exact H0]; lia].
Qed.

Lemma levels a : wf a -> all_levels (12 * size a) a.
Proof.
  remember (size a) as m eqn:Em. assert (size a <= m)%nat as Hm by lia. rewrite Em. clear Em. revert a Hm. induction m as [|m IH]; intros a Hm Hwf; [destruct a; cbn in Hm; lia|].
  assert (forall F, (F + 3 <= 12 * size a)%nat -> all_levels (F + 3) a -> all_levels (12 * size a) a) as Hup.
  { intros F HF (H3 & H2 & H1 & H0). split_and!; [by eapply P3_mono|by eapply P2_mono|by eapply P1_mono|by eapply P0_mono]. }
  destruct a as [argv|a w md fd|l r|l r|a].
  - apply (Hup 1%nat); [cbn; lia|]. apply levels_redir; [done|]. destruct Hwf as [H1 H2]. exact (parse_exec argv [] H1 ltac:(constructor) H2).
  - destruct (unredir _ Hwf) as (a0 & rs & E & W & K & N & Es). assert (rs <> []) as Hrs by (intros ->; by apply (N a w md fd)). rewrite E.
    assert (0 < length rs)%nat as Hl by (destruct rs; [done|cbn; lia]). rewrite E in Hup, Hm. pose proof (IH a0 ltac:(rewrite E in Es; lia) W) as (_ & _ & _ & H0).
    assert (forall k, pr k (rewrap a0 rs) = pr 3 (rewrap a0 rs)) as Hp by (intros k; by apply (pr_rewrap a0 rs k)). rewrite E in Es.
    assert (P3 (12 * size a0 + 2) (rewrap a0 rs)) as H3.
    { destruct a0 as [ws|a1 w1 m1 fd1| | |]; [|by destruct (N a1 w1 m1 fd1)|by apply parse_block..]. destruct W as [W1 W2]. eapply P3_mono; [|by apply parse_exec]. cbn. lia. }
    apply (Hup (12 * size a0 + 2)%nat); [lia|]. by apply levels_redir.
  - destruct Hwf as [W1 W2]. cbn [size] in *. destruct (IH l ltac:(lia) W1) as (L3 & _), (IH r ltac:(lia) W2) as (_ & R2 & _).
    pose proof (parse_pipe _ _ _ _ L3 R2) as H2. pose proof (P1_of_P2 _ (APipe l r) eq_refl H2) as H1. pose proof (P0_of_P1 _ (APipe l r) eq_refl H1) as H0.
    pose proof (parse_block _ _ [] H0 eq_refl ltac:(constructor)) as H3. split_and!; [by eapply P3_mono; [|exact H3]; lia|by eapply P2_mono; [|exact H2]; lia|by eapply P1_mono; [|exact H1]; lia|by eapply P0_mono; [|exact H0]; lia].
  - destruct Hwf as [W1 W2]. cbn [size] in *. destruct (IH l ltac:(lia) W1) as (_ & _ & L1 & _), (IH r ltac:(lia) W2) as (_ & _ & _ & R0).
    pose proof (parse_list _ _ _ _ L1 R0) as H0. pose proof (parse_block _ _ [] H0 eq_refl ltac:(constructor)) as H3. pose proof (P2_of_P3 _ (AList l r) eq_refl H3) as H2. pose proof (P1_of_P2 _ (AList l r) eq_refl H2) as H1.
    split_and!; [by eapply P3_mono; [|exact H3]; lia|by eapply P2_mono; [|exact H2]; lia|by eapply P1_mono; [|exact H1]; lia|by eapply P0_mono; [|exact H0]; lia].
  - cbn [size wf] in *. destruct (IH a ltac:(lia) Hwf) as (_ & _ & A1 & _). pose proof (parse_back _ _ A1) as H1. pose proof (P0_of_P1 _ (ABack a) eq_refl H1) as H0.
    pose proof (parse_block _ _ [] H0 eq_refl ltac:(constructor)) as H3. pose proof (P2_of_P3 _ (ABack a) eq_refl H3) as H2.
    split_and!; [by eapply P3_mono; [|exact H3]; lia|by eapply P2_mono; [|exact H2]; lia|by eapply P1_mono; [|exact H1]; lia|by eapply P0_mono; [|exact H0]; lia].
Qed.
End read.

(** ** The round trip *)

Lemma render_nonzero ts : Forall tok_ok ts -> 0 ∉ render ts.
Proof.
  induction 1 as [|t ts Ht _ IH]; [apply not_elem_of_nil|]. rewrite render_cons. intros [H|[H|H]%elem_of_cons]%elem_of_app; [|done|done].
  destruct t as [c| |w]; cbn [text tok_ok] in *.
  - apply list_elem_of_singleton in H as <-. done.
  - by apply list_elem_of_In in H as [|[|[]]].
  - destruct Ht as [_ Ht]. by apply (proj1 (Forall_forall _ _) Ht) in H as [_ H].
Qed.

Lemma tree_word T ws x w : Forall tok_ok T -> Forall (good_word (render T ++ [0]) (Z.of_nat (length (render T)))) ws -> x ∈ ws -> wread T x w -> word (cut (render T ++ [0]) ws) x.1 = w.
Proof.
  intros HT Hall Hx (H1 & H2 & H3). rewrite (cut_word (render T) ws x (render_nonzero T HT) Hall Hx). destruct (proj1 (Forall_forall _ _) Hall x Hx) as (_ & G & _).
  rewrite H2 in G |- *. replace (Z.to_nat (x.1 + Z.of_nat (length w) - x.1)) with (length w) by lia. rewrite <- H3 at 2. rewrite drop_app_le by lia. rewrite take_app_le; [done|]. rewrite length_drop. lia.
Qed.

Lemma tree_reads T ws : Forall tok_ok T -> Forall (good_word (render T ++ [0]) (Z.of_nat (length (render T)))) ws -> forall c a, words c ⊆ ws -> reads T c a -> tree (cut (render T ++ [0]) ws) c = a.
Proof.
  intros HT Hall. induction c as [argv|c IH q eq m fd|l IHl r IHr|l IHl r IHr|c IH]; intros a Hs HR; destruct a; cbn [reads words tree] in *; try done.
  - f_equal. revert Hs. induction HR as [|x w argv ws' Hx _ IH]; intros Hs; [done|]. cbn [fmap list_fmap]. f_equal; [apply (tree_word T ws); [done|done|apply Hs; left|done]|].
    apply IH. intros y Hy. apply Hs. by right.
  - destruct HR as (H1 & H2 & -> & ->). f_equal; [apply IH; [|done]; intros y Hy; apply Hs, elem_of_app; by left|].
    apply (tree_word T ws (q, eq)); [done|done| |done]. apply Hs, elem_of_app. right. by apply list_elem_of_singleton.
  - destruct HR as [H1 H2]. f_equal; [apply IHl|apply IHr]; try done; intros y Hy; apply Hs, elem_of_app; auto.
  - destruct HR as [H1 H2]. f_equal; [apply IHl|apply IHr]; try done; intros y Hy; apply Hs, elem_of_app; auto.
  - f_equal. by apply IH.
Qed.

(** C7: the parser reads back what the printer prints: for every command tree
    of words that can be typed, at most 9 arguments to a command and the three
    kinds of redirection, printed with parentheses only where the precedence of
    [;], [&] and [|] asks for them, the shell parses the whole line, and the
    tree it runs, with the strings [nulterminate] leaves in the line, is the
    one that was printed. *)
Theorem sh_print_parse a n : wf a -> (12 * size a <= n)%nat -> (4 * length (print a) + 4 <= n)%nat ->
  let b := print a ++ [0] in let es := Z.of_nat (length (print a)) in
  exists c, parsecmd_pos b es n n 0 = Ret c es /\ tree (nulterminate c b) c = a.
Proof.
  intros Hwf Hn1 Hn2 b es. pose proof (pr_ok 0 a Hwf) as HT. unfold print in *. set (T := pr 0 a) in *.
  assert (length (render T) < n)%nat as Hn by lia. destruct (levels T n Hn a Hwf) as (_ & _ & _ & H0).
  pose proof (look_start T HT) as HL. rewrite <- (app_nil_r T) in HL at 2. destruct (H0 n 0 [] Hn1 HL) as (s' & c & E & L & R); [by left|done|done|done|].
  destruct (look_ws T s' [] L) as (q & Eq & Hq & Hd).
  pose proof (drop_len T q [] Hq Hd) as Hqe. exists c. assert (q = es) as -> by (cbn in Hqe; unfold es; lia).
  assert (parsecmd_pos b es n n 0 = Ret c es) as Ep by (unfold parsecmd_pos; rewrite (bind_ret _ _ _ _ _ _ E); unfold mbind, M_bind; fold b es in Eq; by rewrite peek_eq, Eq).
  split; [done|]. destruct (line_chars (render T) (render_nonzero T HT)) as (L1 & L3 & L4).
  pose proof (proj1 (parse_spec b es n L1 L3 L4 ltac:(unfold es; lia) n) 0 ltac:(unfold es; lia) ltac:(unfold es; lia)) as Hg. fold b es in E. rewrite E in Hg. destruct Hg as [_ Hg].
  rewrite nulterminate_cut. apply tree_reads; [done|by apply good_words|done|done].
Qed.

Definition demo_ast : ast :=
  AList (ABack (APipe (ARedir (AExec [chars "cat"]) (chars "in") 0 0) (APipe (AExec [chars "grep"; chars "x"]) (ABack (AExec [chars "wc"])))))
    (ARedir (AList (AExec [chars "a"]) (AExec [])) (chars "log") 513 1).

Lemma sh_print_parse_witness : exists c, parsecmd_pos (print demo_ast ++ [0]) (Z.of_nat (length (print demo_ast))) 300 300%nat 0 = Ret c (Z.of_nat (length (print demo_ast))) /\
  tree (nulterminate c (print demo_ast ++ [0])) c = demo_ast.
Proof.
  apply (sh_print_parse demo_ast 300).
  - cbn [demo_ast wf]. repeat match goal with |- _ /\ _ => split | |- Forall _ (_ :: _) => constructor | |- Forall _ [] => constructor | |- typable _ => split end;
      try (cbn; lia); try discriminate; try (cbn; repeat constructor; (reflexivity || discriminate)); try (left; reflexivity); right; right; reflexivity.
  - apply Nat.leb_le. vm_compute. reflexivity.
  - apply Nat.leb_le. vm_compute. reflexivity.
Defined.
