(* ===== verification/Umalloc.v ===== *)
(** * The allocator of [user/umalloc.c]

    A header is 16 bytes: the [ptr] and [size] fields of the headers in memory
    are two maps over their addresses.  [BASE] is the address of the static
    header [base], below the heap; the break only moves by [sbrk]. *)

From Stdlib Require Import ZArith Lia.
From S2P Require Import Prelude User.

Record heap := MkHeap { hptr : gmap Z Z; hsize : gmap Z Z; freep : Z }.
#[export] Instance eta_heap : Eta heap := fun h => MkHeap (hptr h) (hsize h) (freep h).

Definition ptr (h : heap) (p : Z) : Z := default 0 (hptr h !! p).
Definition size (h : heap) (p : Z) : Z := default 0 (hsize h !! p).
Definition set_ptr (p v : Z) (h : heap) : heap := h <| hptr ::= <[p := v]> |>.
Definition set_size (p v : Z) (h : heap) : heap := h <| hsize ::= <[p := v]> |>.
Definition set_freep (p : Z) (h : heap) : heap := h <| freep := p |>.

(** [p + n] on [Header *]. *)
Definition plus (p n : Z) : Z := p + 16 * n.

Section base.
Context (BASE : Z).

(** The loop of [free]: the block after which [bp] goes. *)
Fixpoint free_pos (k : nat) (h : heap) (bp p : Z) : option Z :=
  match k with
  | O => None
  | S k' =>
      if (p <? bp) && (bp <? ptr h p) then Some p
      else if (ptr h p <=? p) && ((p <? bp) || (bp <? ptr h p)) then Some p
      else free_pos k' h bp (ptr h p)
  end.

Definition free (k : nat) (h : heap) (ap : Z) : option heap :=
  let bp := ap - 16 in
  p ← free_pos k h bp (freep h);
  let h := if plus bp (size h bp) =? ptr h p
           then set_ptr bp (ptr h (ptr h p)) (set_size bp (u32 (size h bp + size h (ptr h p))) h)
           else set_ptr bp (ptr h p) h in
  let h := if plus p (size h p) =? bp
           then set_ptr p (ptr h bp) (set_size p (u32 (size h p + size h bp)) h)
           else set_ptr p bp h in
  Some (set_freep p h).

(** The heap, and [freep] or 0. *)
Definition morecore (k : nat) (h : heap) (nu : Z) : prog (heap * Z) :=
  let nu := if nu <? 4096 then 4096 else nu in
  p ← sbrk (i32 (nu * 16));
  if p =? -1 then mret (h, 0) else
  let h := set_size p nu h in
  match free k h (p + 16) with
  | Some h => mret (h, freep h)
  | None => PFuel
  end.

Definition malloc_body (k : nat) (nunits : Z) : heap * Z * Z -> prog ((heap * Z * Z) + (heap * Z)) :=
  fun '(h, prevp, p) =>
  if nunits <=? size h p then
    if size h p =? nunits then
      mret (inr (set_freep prevp (set_ptr prevp (ptr h p) h), p + 16))
    else
      let h := set_size p (size h p - nunits) h in
      let p := plus p (size h p) in
      let h := set_size p nunits h in
      mret (inr (set_freep prevp h, p + 16))
  else if p =? freep h then
    '(h, p) ← morecore k h nunits;
    if p =? 0 then mret (inr (h, 0)) else mret (inl (h, p, ptr h p))
  else mret (inl (h, p, ptr h p)).

Definition malloc (k : nat) (h : heap) (nbytes : Z) : prog (heap * Z) :=
  let nunits := u32 ((nbytes + 16 - 1) / 16 + 1) in
  let h := if freep h =? 0 then set_size BASE 0 (set_freep BASE (set_ptr BASE BASE h)) else h in
  let prevp := freep h in
  ploop k (malloc_body k nunits) (h, prevp, ptr h prevp).

(** ** The invariant *)

(** From [p] the pointers run through the blocks [L] to [e]. *)
Fixpoint chain (h : heap) (p : Z) (L : list (Z * Z)) (e : Z) : Prop :=
  match L with
  | [] => ptr h p = e
  | (a, n) :: L' => ptr h p = a /\ size h a = n /\ chain h a L' e
  end.

(** Blocks in address order from [lo] to [hi], with room between them. *)
Fixpoint spread (lo : Z) (L : list (Z * Z)) (hi : Z) : Prop :=
  match L with
  | [] => lo <= hi
  | (a, n) :: L' => lo < a /\ 0 < n /\ spread (plus a n) L' hi
  end.

Definition disjoint (b c : Z * Z) : Prop := plus b.1 b.2 <= c.1 \/ plus c.1 c.2 <= b.1.
Definition covers (L : list (Z * Z)) (x : Z) : Prop := exists b, b ∈ L /\ b.1 <= x < plus b.1 b.2.

(** The free blocks [L] and the allocated blocks [A], below the break. *)
Record heap_ok (h : heap) (L A : list (Z * Z)) (brk : Z) : Prop := {
  hk_base : 0 < BASE /\ size h BASE = 0;
  hk_chain : chain h BASE L BASE;
  hk_spread : spread (BASE + 15) L brk;
  hk_freep : freep h = BASE \/ exists n, (freep h, n) ∈ L;
  hk_alloc : forall a n, (a, n) ∈ A -> 0 < n /\ BASE + 16 <= a /\ plus a n <= brk /\ size h a = n /\ forall b, b ∈ L -> disjoint (a, n) b;
  hk_apart : forall i j b c, A !! i = Some b -> A !! j = Some c -> i <> j -> disjoint b c;
  hk_brk : BASE + 16 <= brk < 2 ^ 36
}.
(** ** Chains and sorted blocks *)

Fixpoint lastp (p : Z) (L : list (Z * Z)) : Z := match L with [] => p | (a, _) :: L' => lastp a L' end.

Lemma lastp_in p L : lastp p L = p \/ exists n, (lastp p L, n) ∈ L.
Proof.
  revert p. induction L as [|[a n] L IH]; intros p; [by left|]. right. cbn [lastp]. destruct (IH a) as [->|[m Hm]]; [exists n; left|exists m; by right].
Qed.

Lemma hchain_app h p L a n M e : chain h p (L ++ (a, n) :: M) e <-> chain h p L a /\ size h a = n /\ chain h a M e.
Proof. revert p. induction L as [|[c m] L IH]; intros p; cbn [app chain]; [tauto|]. rewrite IH. tauto. Qed.

Lemma hchain_last h p L e : chain h p L e -> ptr h (lastp p L) = e.
Proof. revert p. induction L as [|[a n] L IH]; intros p; [done|]. intros (_ & _ & H). cbn [lastp]. by apply IH. Qed.

Lemma chain_frame h h' p L e : (forall y, y = p \/ y ∈ L.*1 -> ptr h' y = ptr h y) -> (forall y, y ∈ L.*1 -> size h' y = size h y) -> chain h p L e -> chain h' p L e.
Proof.
  revert p. induction L as [|[a n] L IH]; intros p Hp Hs; cbn [chain]; [rewrite Hp by auto; done|]. intros (H1 & H2 & H3). split_and!.
  - by rewrite Hp by auto.
  - by rewrite Hs by left.
  - apply IH; [intros y [->|Hy]; apply Hp; right; [left|by right]|intros y Hy; apply Hs; by right|done].
Qed.

(** Redirecting the last pointer. *)
Lemma chain_relink h h' p L e e' : (forall y, y = p \/ y ∈ L.*1 -> y <> lastp p L -> ptr h' y = ptr h y) -> (forall y, y ∈ L.*1 -> size h' y = size h y) -> NoDup (p :: L.*1) ->
  ptr h' (lastp p L) = e' -> chain h p L e -> chain h' p L e'.
Proof.
  revert p. induction L as [|[a n] L IH]; intros p Hp Hs Hnd Hl; cbn [chain]; [done|]. intros (H1 & H2 & H3). cbn [lastp fmap list_fmap fst] in *.
  apply NoDup_cons in Hnd as [Hn Hnd]. split_and!; [rewrite Hp; [done|by left|]|by rewrite Hs by left|].
  - intros ->. apply Hn. destruct (lastp_in a L) as [->|[m Hm]]; [left|right]. apply list_elem_of_fmap. by exists (lastp a L, m).
  - apply IH; [|intros y Hy; apply Hs; by right|done|done|done]. intros y [->|Hy] Hne; (apply Hp; [right|done]); [left|by right].
Qed.

Lemma spread_le lo L hi : spread lo L hi -> lo <= hi /\ forall a n, (a, n) ∈ L -> lo < a /\ 0 < n /\ plus a n <= hi.
Proof.
  revert lo. induction L as [|[c m] L IH]; intros lo; cbn [spread]; [intros H; split; [done|]; intros a n Hx; by apply not_elem_of_nil in Hx|].
  intros (H1 & H2 & H3). destruct (IH _ H3) as [H4 H5]. unfold plus in *. split; [lia|]. intros a n [[= -> ->]|Hx]%elem_of_cons; [lia|]. destruct (H5 a n Hx). lia.
Qed.

Lemma spread_nodup lo L hi : spread lo L hi -> NoDup L.*1 /\ forall y, y ∈ L.*1 -> lo < y.
Proof.
  revert lo. induction L as [|[c m] L IH]; intros lo; cbn [spread fmap list_fmap fst]; [split; [constructor|]; intros y Hy; by apply not_elem_of_nil in Hy|].
  intros (H1 & H2 & H3). destruct (IH _ H3) as [H4 H5]. unfold plus in *. split.
  - constructor; [|done]. intros Hc. apply H5 in Hc. lia.
  - intros y [->|Hy]%elem_of_cons; [done|]. apply H5 in Hy. lia.
Qed.

Lemma spread_app lo L a n M hi : spread lo (L ++ (a, n) :: M) hi <-> spread lo L (a - 1) /\ 0 < n /\ spread (plus a n) M hi.
Proof. revert lo. induction L as [|[c m] L IH]; intros lo; cbn [app spread]; [split; intros (? & ? & ?); split_and!; (done || lia)|]. rewrite IH. tauto. Qed.

Lemma spread_lo lo lo' L hi : lo' <= lo -> spread lo L hi -> spread lo' L hi.
Proof. destruct L as [|[a n] L]; cbn [spread]; [lia|]. intros Hl (H1 & H2 & H3). split_and!; (done || lia). Qed.

Lemma spread_hi lo L hi hi' : hi <= hi' -> spread lo L hi -> spread lo L hi'.
Proof. intros Hh. revert lo. induction L as [|[a n] L IH]; intros lo; cbn [spread]; [lia|]. intros (H1 & H2 & H3). split_and!; [done|done|by apply IH]. Qed.

(** The free blocks below and above a block that is none of them. *)
Lemma spread_split lo L hi bp n : spread lo L hi -> lo <= bp -> plus bp n <= hi -> 0 < n -> (forall b, b ∈ L -> disjoint (bp, n) b) ->
  exists L1 L2, L = L1 ++ L2 /\ spread lo L1 bp /\ spread (plus bp n - 1) L2 hi.
Proof.
  revert lo. induction L as [|[a m] L IH]; intros lo HS Hlo Hhi Hn Hd; [exists [], []; split_and!; [done|done|cbn; unfold plus in *; lia]|].
  destruct HS as (H1 & H2 & H3). destruct (Hd (a, m) ltac:(left)) as [Hx|Hx]; cbn [fst snd] in Hx.
  - exists [], ((a, m) :: L). split_and!; [done|done|]. cbn [spread]. split_and!; [lia|done|done].
  - destruct (IH (plus a m) H3 Hx Hhi Hn) as (L1 & L2 & -> & S1 & S2); [intros b Hb; apply Hd; by right|]. exists ((a, m) :: L1), L2. split_and!; [done|done|done].
Qed.
(** ** The search of [free] *)

Definition stops (h : heap) (bp p : Z) : bool := ((p <? bp) && (bp <? ptr h p)) || ((ptr h p <=? p) && ((p <? bp) || (bp <? ptr h p))).

Lemma free_pos_step k h bp p : free_pos (S k) h bp p = if stops h bp p then Some p else free_pos k h bp (ptr h p).
Proof. cbn [free_pos]. unfold stops. destruct ((p <? bp) && (bp <? ptr h p)); cbn [orb]; done. Qed.

Lemma walk k h bp M : forall x e, chain h x M e -> (forall y, y = x \/ y ∈ M.*1 -> stops h bp y = false) -> free_pos (S (length M) + k) h bp x = free_pos k h bp e.
Proof.
  induction M as [|[a n] M IH]; intros x e HC Hs; cbn [length Nat.add]; rewrite free_pos_step, Hs by auto; [by rewrite HC|].
  destruct HC as (-> & _ & HC). apply IH; [done|]. intros y [->|Hy]; apply Hs; right; [left|by right].
Qed.

Lemma walk_stop h bp M : forall k x e, chain h x M e -> (forall y, y = x \/ y ∈ M.*1 -> y <> lastp x M -> stops h bp y = false) -> stops h bp (lastp x M) = true ->
  NoDup (x :: M.*1) -> (length M < k)%nat -> free_pos k h bp x = Some (lastp x M).
Proof.
  induction M as [|[a n] M IH]; intros [|k] x e HC Hs Hl Hnd Hk; cbn [length] in Hk; try lia; rewrite free_pos_step; [cbn [lastp] in *; by rewrite Hl|].
  destruct HC as (HC1 & _ & HC). cbn [lastp fmap list_fmap fst] in *. apply NoDup_cons in Hnd as [Hx Hnd]. rewrite Hs; [|auto|].
  - rewrite HC1. apply (IH k a e); [done| |done|done|lia]. intros y [->|Hy] Hne; (apply Hs; [right|done]); [left|by right].
  - intros ->. apply Hx. destruct (lastp_in a M) as [->|[m Hm]]; [left|right]. apply list_elem_of_fmap. by exists (lastp a M, m).
Qed.

(** A pointer goes up, but for the last one. *)
Lemma chain_next h M : forall lo x e hi, chain h x M e -> spread lo M hi -> x <= lo -> forall y, y = x \/ y ∈ M.*1 -> (y = lastp x M /\ ptr h y = e) \/ (ptr h y ∈ M.*1 /\ y < ptr h y).
Proof.
  induction M as [|[a n] M IH]; intros lo x e hi HC HS Hx y Hy; cbn [chain spread lastp fmap list_fmap fst] in *.
  - destruct Hy as [->|Hy]; [by left|by apply not_elem_of_nil in Hy].
  - destruct HC as (H1 & _ & HC), HS as (S1 & S2 & S3). destruct Hy as [->|Hy]; [right; rewrite H1; split; [left|lia]|].
    destruct (IH (plus a n) a e hi HC S3 ltac:(unfold plus; lia) y) as [H|[H3 H4]]; [by apply elem_of_cons in Hy|by left|]. right. split; [by right|done].
Qed.

Section free.
Context {h : heap} {L1 L2 : list (Z * Z)} {bp n brk : Z}.
Context (HC : chain h BASE (L1 ++ L2) BASE) (S1 : spread (BASE + 15) L1 bp) (S2 : spread (plus bp n - 1) L2 brk) (Hn : 0 < n) (Hbase : 0 < BASE).
Local Notation p := (lastp BASE L1).
(** The block after [bp], or [BASE]. *)
Local Notation q := (match L2 with [] => BASE | (c, _) :: _ => c end).

Lemma free_chains : chain h BASE L1 q /\ match L2 with [] => True | (c, m) :: M => size h c = m /\ chain h c M BASE end.
Proof. clear -HC. destruct L2 as [|[c m] M]; [rewrite app_nil_r in HC; done|]. by apply hchain_app in HC as (H1 & H2 & H3). Qed.

Lemma free_below y : y = BASE \/ y ∈ L1.*1 -> BASE <= y < bp.
Proof.
  clear -S1 Hbase. destruct (spread_le _ _ _ S1) as [H1 H2]. intros [->|([a m] & -> & Hy)%list_elem_of_fmap]; [lia|]. destruct (H2 a m Hy) as (H3 & H4 & H5). unfold plus in H5. cbn. lia.
Qed.

Lemma free_above y : y ∈ L2.*1 -> bp < y.
Proof. clear -S2 Hn. destruct (spread_nodup _ _ _ S2) as [_ H]. intros Hy%H. unfold plus in Hy. lia. Qed.

Lemma free_nodup : NoDup (BASE :: L1.*1).
Proof. clear -S1. destruct (spread_nodup _ _ _ S1) as [H1 H2]. constructor; [|done]. intros Hb%H2. lia. Qed.

Lemma below_stops y : y = BASE \/ y ∈ L1.*1 -> y <> p -> stops h bp y = false.
Proof.
  intros Hy Hne. destruct free_chains as [HC1 _]. destruct (chain_next h L1 (BASE + 15) BASE _ bp HC1 S1 ltac:(lia) y Hy) as [[-> _]|[H1 H2]]; [done|].
  pose proof (free_below (ptr h y) ltac:(auto)) as H3. unfold stops. rewrite (proj2 (Z.ltb_ge bp (ptr h y))), (proj2 (Z.leb_gt (ptr h y) y)) by lia. by rewrite andb_false_r.
Qed.

Lemma last_stops : stops h bp p = true.
Proof.
  destruct free_chains as [HC1 _]. pose proof (hchain_last _ _ _ _ HC1) as E. unfold stops. rewrite E.
  assert (BASE <= p < bp) as Hp. { apply free_below. destruct (lastp_in BASE L1) as [->|[m Hm]]; [by left|right]. apply list_elem_of_fmap. by exists (p, m). }
  rewrite (proj2 (Z.ltb_lt p bp)) by lia. destruct L2 as [|[c m] M] eqn:E2; [rewrite (proj2 (Z.leb_le BASE p)) by lia; by rewrite orb_true_r|].
  rewrite (proj2 (Z.ltb_lt bp c)); [done|]. destruct S2 as (H1 & _). unfold plus in H1. lia.
Qed.

Lemma above_stops y : y ∈ L2.*1 -> stops h bp y = false.
Proof.
  intros Hy. pose proof (free_above y Hy) as Hlt. pose proof (free_below BASE ltac:(auto)) as Hb. destruct free_chains as [_ HC2]. destruct L2 as [|[c m] M] eqn:E2; [by apply not_elem_of_nil in Hy|].
  destruct HC2 as [_ HC2]. destruct S2 as (_ & Hm & S3). destruct (chain_next h M (plus c m) c BASE brk HC2 S3 ltac:(unfold plus; lia) y) as [[_ E]|[H1 H2]]; [by apply elem_of_cons in Hy| |];
    unfold stops; rewrite (proj2 (Z.ltb_ge y bp)) by lia; cbn [andb orb].
  - rewrite E, (proj2 (Z.ltb_ge bp BASE)) by lia. by rewrite andb_false_r.
  - by rewrite (proj2 (Z.leb_gt (ptr h y) y)) by lia.
Qed.

Lemma free_finds k : freep h = BASE \/ (exists m, (freep h, m) ∈ L1 ++ L2) -> (length L1 + length L2 + 1 < k)%nat -> free_pos k h bp (freep h) = Some p.
Proof.
  intros Hf Hk. destruct free_chains as [HC1 HC2]. assert (forall k, (length L1 < k)%nat -> free_pos k h bp BASE = Some p) as Hbase'.
  { intros k' Hk'. apply (walk_stop h bp L1 k' BASE q HC1); [apply below_stops|apply last_stops|apply free_nodup|done]. }
  destruct Hf as [->|[m [Hf|Hf]%elem_of_app]]; [apply Hbase'; lia| |].
  - apply list_elem_of_split in Hf as (M1 & M2 & E). pose proof free_nodup as Hnd. pose proof below_stops as Hb. pose proof last_stops as Hl. rewrite E in HC1, Hnd, Hb, Hl. apply hchain_app in HC1 as (C1 & C2 & C3).
    assert (lastp BASE (M1 ++ (freep h, m) :: M2) = lastp (freep h) M2) as El by (clear; generalize BASE; induction M1 as [|[c d] M1 IH]; intros b0; cbn [app lastp]; [done|apply IH]).
    rewrite E, El. rewrite El in Hb, Hl. rewrite fmap_app in Hnd, Hb. cbn [fmap list_fmap fst] in Hnd, Hb. apply (walk_stop h bp M2 k (freep h) q C3); [|done| |rewrite E, length_app in Hk; cbn in Hk; lia].
    + intros y Hy Hne. apply Hb; [|done]. right. apply elem_of_app. right. apply elem_of_cons. tauto.
    + apply NoDup_cons in Hnd as [_ Hnd]. by apply NoDup_app in Hnd as (_ & _ & Hnd).
  - apply list_elem_of_split in Hf as (M1 & M2 & E). pose proof above_stops as Ha. rewrite E in Ha. rewrite E in HC. rewrite app_assoc in HC. apply hchain_app in HC as (_ & _ & C3).
    replace k with (S (length M2) + (k - S (length M2)))%nat by (rewrite E, length_app in Hk; cbn in Hk; lia). rewrite (walk _ h bp M2 (freep h) BASE C3).
    + apply Hbase'. rewrite E, length_app in Hk. cbn in Hk. lia.
    + intros y Hy. apply Ha. rewrite fmap_app. cbn [fmap list_fmap fst]. apply elem_of_app. right. apply elem_of_cons. tauto.
Qed.
End free.
(** ** [free] *)

Lemma ptr_set p v h y : ptr (set_ptr p v h) y = if decide (y = p) then v else ptr h y.
Proof. unfold ptr, set_ptr. rsimpl. cbn. rewrite lookup_insert. by repeat case_decide; subst. Qed.
Lemma size_set p v h y : size (set_size p v h) y = if decide (y = p) then v else size h y.
Proof. unfold size, set_size. cbn. rewrite lookup_insert. by repeat case_decide; subst. Qed.
Lemma ptr_set_size p v h y : ptr (set_size p v h) y = ptr h y.
Proof. done. Qed.
Lemma size_set_ptr p v h y : size (set_ptr p v h) y = size h y.
Proof. done. Qed.

Lemma chain_start h h' c x M e : chain h c M e -> ptr h' x = ptr h c -> (forall y, y ∈ M.*1 -> ptr h' y = ptr h y /\ size h' y = size h y) -> chain h' x M e.
Proof.
  intros HC E HM. destruct M as [|[a n] M]; cbn [chain] in *; [congruence|]. destruct HC as (H1 & H2 & H3). destruct (HM a ltac:(left)) as [_ Es]. split_and!; [congruence|congruence|].
  apply (chain_frame h); [intros y [->|Hy]; apply HM; [left|by right]|intros y Hy; apply HM; by right|done].
Qed.

Lemma covers_cons b L x : covers (b :: L) x <-> b.1 <= x < plus b.1 b.2 \/ covers L x.
Proof.
  unfold covers. split.
  - intros (c & [->|Hc]%elem_of_cons & Hx); [by left|right; by exists c].
  - intros [Hx|(c & Hc & Hx)]; [exists b; split; [left|done]|exists c; split; [by right|done]].
Qed.
Lemma covers_app L M x : covers (L ++ M) x <-> covers L x \/ covers M x.
Proof. unfold covers. setoid_rewrite elem_of_app. naive_solver. Qed.
Lemma covers_nil x : covers [] x <-> False.
Proof. unfold covers. split; [|done]. intros (c & Hc & _). by apply not_elem_of_nil in Hc. Qed.

Section merge.
Context {h : heap} {L1 L2 : list (Z * Z)} {bp n brk : Z}.
Context (HC : chain h BASE (L1 ++ L2) BASE) (S1 : spread (BASE + 15) L1 bp) (S2 : spread (plus bp n - 1) L2 brk) (Hn : 0 < n) (Hbase : 0 < BASE /\ size h BASE = 0).
Context (Hsz : size h bp = n) (Hlow : BASE + 16 <= bp) (Hend : plus bp n <= brk) (Hbrk : brk < 2 ^ 36).
Local Notation p := (lastp BASE L1).

(** The block with the one above it, if they touch. *)
Definition upper : heap := if plus bp (size h bp) =? ptr h p
  then set_ptr bp (ptr h (ptr h p)) (set_size bp (u32 (size h bp + size h (ptr h p))) h) else set_ptr bp (ptr h p) h.

Lemma upper_ok : exists n1 M, size upper bp = n1 /\ chain upper bp M BASE /\ spread (plus bp n1) M brk /\ n <= n1 /\ (forall y, y <> bp -> ptr upper y = ptr h y /\ size upper y = size h y) /\
  (length M <= length L2)%nat /\ forall x, covers ((bp, n1) :: M) x <-> covers L2 x \/ bp <= x < plus bp n.
Proof.
  destruct (free_chains HC) as [HC1 HC2]. pose proof (hchain_last _ _ _ _ HC1) as Ep. pose proof (free_below S1 BASE ltac:(auto)) as Hb.
  assert (forall y, y ∈ L2.*1 -> y <> bp) as Hne by (intros y Hy ->; pose proof (free_above S2 Hn bp Hy); lia).
  unfold upper. rewrite Hsz, Ep. destruct L2 as [|[c m] M] eqn:E2.
  - rewrite (proj2 (Z.eqb_neq (plus bp n) BASE)) by (unfold plus; lia). exists n, []. split_and!; [by rewrite size_set_ptr|cbn; by rewrite ptr_set, decide_True|cbn in *; lia|lia| | |].
    + intros y Hy. by rewrite ptr_set, decide_False, size_set_ptr.
    + done.
    + intros x. rewrite covers_cons, covers_nil. cbn. tauto.
  - destruct HC2 as [Em HC2]. destruct S2 as (Q1 & Q2 & Q3). destruct (Z.eqb_spec (plus bp n) c) as [<-|Hc].
    + assert (forall y, y ∈ M.*1 -> y <> bp) as HneM by (intros y Hy; apply Hne; by right). destruct (spread_le _ _ _ Q3) as [R1 _]. pose proof (spread_le _ _ _ Q3) as [_ _].
      assert (u32 (n + size h (plus bp n)) = n + m) as Eu by (rewrite Em; apply u32_small; unfold plus in *; lia). rewrite Eu. exists (n + m), M. split_and!.
      * rewrite size_set_ptr, size_set. by rewrite decide_True.
      * apply (chain_start h _ (plus bp n)); [done|by rewrite ptr_set, decide_True|]. intros y Hy%HneM. rewrite ptr_set, decide_False, size_set_ptr, size_set, decide_False by done. done.
      * unfold plus in *. by replace (bp + 16 * (n + m)) with (bp + 16 * n + 16 * m) by lia.
      * lia.
      * intros y Hy. rewrite ptr_set, decide_False, size_set_ptr, size_set, decide_False by done. done.
      * cbn. lia.
      * intros x. rewrite !covers_cons. cbn [fst snd]. unfold plus. split; [intros [H|H]; [|tauto]|intros [[H|H]|H]; [|tauto|]]; lia.
    + exists n, ((c, m) :: M). split_and!; [by rewrite size_set_ptr| |cbn [spread]; split_and!; [lia|done|done]|lia| | |].
      * cbn [chain]. rewrite ptr_set, decide_True, size_set_ptr by done. split_and!; [done|done|]. apply (chain_frame h); [|done|done]. intros y Hy. rewrite ptr_set, decide_False; [done|]. apply Hne. cbn. apply elem_of_cons. tauto.
      * intros y Hy. by rewrite ptr_set, decide_False, size_set_ptr.
      * done.
      * intros x. rewrite !covers_cons. cbn [fst snd]. tauto.
Qed.

(** The result with the block below it, if they touch. *)
Definition lower (h1 : heap) : heap := if plus p (size h1 p) =? bp
  then set_ptr p (ptr h1 bp) (set_size p (u32 (size h1 p + size h1 bp)) h1) else set_ptr p bp h1.

Lemma last_split : (L1 = [] /\ p = BASE) \/ exists M r, L1 = M ++ [(p, r)].
Proof.
  clear. generalize BASE. induction L1 as [|[a m] L IH]; intros b0; [by left|right]. cbn [lastp]. destruct (IH a) as [[-> ->]|(M & r & E)]; [exists [], m; done|].
  exists ((a, m) :: M), r. by rewrite E at 1.
Qed.
Context {h1 : heap} {n1 : Z} {M : list (Z * Z)} (E1 : size h1 bp = n1) (C1 : chain h1 bp M BASE) (SM : spread (plus bp n1) M brk) (Hn1 : n <= n1).
Context (Hsame : forall y, y <> bp -> ptr h1 y = ptr h y /\ size h1 y = size h y).

Lemma above_M y : y ∈ M.*1 -> bp < y.
Proof. clear -SM Hn1 Hn. destruct (spread_nodup _ _ _ SM) as [_ H]. intros Hy%H. unfold plus in Hy. lia. Qed.

(** A heap in which the block stands for itself. *)
Lemma lower_apart : plus p (size h1 p) <> bp -> chain (set_ptr p bp h1) BASE (L1 ++ (bp, n1) :: M) BASE /\ spread (BASE + 15) (L1 ++ (bp, n1) :: M) brk.
Proof.
  intros Hne. destruct (free_chains HC) as [HC1 _]. pose proof (free_below S1) as Hb. pose proof above_M as Ha.
  assert (BASE <= p < bp) as Hp by (apply Hb; destruct (lastp_in BASE L1) as [->|[m Hm]]; [by left|right; apply list_elem_of_fmap; by exists (p, m)]). split.
  - apply hchain_app. split_and!.
    + eapply chain_relink; [| |by eapply free_nodup|by rewrite ptr_set, decide_True|exact HC1].
      * intros y Hy Hyp. rewrite ptr_set, decide_False by done. apply Hsame. specialize (Hb y Hy). lia.
      * intros y Hy. rewrite size_set_ptr. apply Hsame. specialize (Hb y ltac:(auto)). lia.
    + by rewrite size_set_ptr.
    + apply (chain_frame h1); [|done|done]. intros y Hy. rewrite ptr_set, decide_False; [done|]. intros ->. destruct Hy as [Hy|Hy]; [lia|]. specialize (Ha _ Hy). lia.
  - apply spread_app. split_and!; [|lia|done]. destruct last_split as [[EL Ep]|(M1 & r & EL)].
    + rewrite EL. cbn. destruct (spread_le _ _ _ S1) as [Hlt _]. rewrite Ep in Hne. destruct (Hsame BASE ltac:(lia)) as [_ Es]. rewrite Es, (proj2 Hbase) in Hne. unfold plus in Hne.
      rewrite EL in S1. cbn in S1. lia.
    + rewrite EL in S1, HC1 |- *. apply spread_app in S1 as (T1 & T2 & T3). apply hchain_app in HC1 as (_ & Er & _). destruct (Hsame p ltac:(lia)) as [_ Es]. rewrite Es, Er in Hne.
      apply spread_app. split_and!; [done|done|]. cbn in *. lia.
Qed.
(** A heap in which it is part of the block below. *)
Lemma lower_merged : plus p (size h1 p) = bp -> exists M1 r, L1 = M1 ++ [(p, r)] /\ size h1 p = r /\
  chain (set_ptr p (ptr h1 bp) (set_size p (u32 (size h1 p + size h1 bp)) h1)) BASE (M1 ++ (p, r + n1) :: M) BASE /\ spread (BASE + 15) (M1 ++ (p, r + n1) :: M) brk.
Proof.
  intros He. destruct (free_chains HC) as [HC1 _]. pose proof (free_below S1) as Hb. pose proof above_M as Ha. destruct last_split as [[EL Ep]|(M1 & r & EL)].
  { rewrite Ep in He. destruct (Hsame BASE ltac:(lia)) as [_ Es]. rewrite Es, (proj2 Hbase) in He. unfold plus in He. lia. }
  assert (BASE <= p < bp) as Hp by (apply Hb; destruct (lastp_in BASE L1) as [->|[m Hm]]; [by left|right; apply list_elem_of_fmap; by exists (p, m)]).
  destruct (Hsame p ltac:(lia)) as [_ Es]. pose proof (free_nodup S1) as Hnd. rewrite EL in HC1, Hnd, Hb, S1. apply hchain_app in HC1 as (D1 & Er & _). apply spread_app in S1 as (T1 & T2 & T3). cbn [spread] in T3.
  rewrite fmap_app in Hnd, Hb. cbn [fmap list_fmap fst] in Hnd, Hb.
  assert (forall y, y = BASE \/ y ∈ M1.*1 -> y <> p /\ y <> bp) as HM1.
  { intros y Hy. split; [|specialize (Hb y ltac:(destruct Hy as [->|Hy]; [by left|right; apply elem_of_app; by left])); lia]. intros ->. apply NoDup_cons in Hnd as [N1 N2]. apply NoDup_app in N2 as (_ & N2 & _).
    destruct Hy as [Hy|Hy]; [apply N1, elem_of_app; right; apply list_elem_of_singleton; congruence|]. apply (N2 p Hy). by apply list_elem_of_singleton. }
  exists M1, r. destruct (spread_le _ _ _ SM) as [Q _]. rewrite Es, Er in *. rewrite E1. assert (u32 (r + n1) = r + n1) as -> by (apply u32_small; unfold plus in *; lia). split_and!; [done|done| |].
  - apply hchain_app. split_and!.
    + apply (chain_frame h); [|intros y Hy; destruct (HM1 y ltac:(auto)) as [H1 H2]; rewrite size_set_ptr, size_set, decide_False by done; by apply Hsame|done].
      intros y Hy. destruct (HM1 y Hy) as [H1 H2]. rewrite ptr_set, decide_False by done. by apply Hsame.
    + rewrite size_set_ptr, size_set. by rewrite decide_True.
    + apply (chain_start h1 _ bp); [done|by rewrite ptr_set, decide_True|]. intros y Hy. specialize (Ha y Hy). rewrite ptr_set, decide_False, size_set_ptr, size_set, decide_False by lia. done.
  - apply spread_app. split_and!; [done|lia|]. unfold plus in *. by replace (p + 16 * (r + n1)) with (p + 16 * r + 16 * n1) by lia; rewrite He.
Qed.

Lemma lower_ok : exists L', chain (lower h1) BASE L' BASE /\ spread (BASE + 15) L' brk /\ (p = BASE \/ exists m, (p, m) ∈ L') /\ size (lower h1) BASE = 0 /\
  (forall x, covers L' x <-> covers L1 x \/ covers ((bp, n1) :: M) x) /\ (length L' <= S (length L1 + length M))%nat /\ (exists a m, (a, m) ∈ L' /\ n <= m) /\ (forall y, BASE + 16 <= y -> y <> bp -> y ∉ L1.*1 -> size (lower h1) y = size h1 y).
Proof.
  unfold lower. pose proof (free_below S1 BASE ltac:(auto)) as Hb. assert (size h1 BASE = 0) as Eb by (rewrite <- (proj2 Hbase); apply Hsame; lia).
  destruct (Z.eqb_spec (plus p (size h1 p)) bp) as [He|He].
  - destruct (lower_merged He) as (M1 & r & EL & Er & HC' & HS'). exists (M1 ++ (p, r + n1) :: M). rewrite Er in *. split_and!; try done.
    + right. exists (r + n1). apply elem_of_app. right. left.
    + rewrite size_set_ptr, size_set, decide_False; [done|]. intros E. rewrite <- E, Eb in Er. rewrite <- E, <- Er in He. unfold plus in He. lia.
    + intros x. pose proof (f_equal (fun l => covers l x) EL) as Ec. cbv beta in Ec. rewrite Ec, !covers_app, !covers_cons, covers_nil. cbn [fst snd]. unfold plus in *. assert (0 < r) as Hr by (rewrite EL in S1; by apply spread_app in S1 as (_ & T & _)).
      split; [intros [H|[H|H]]; [tauto| |tauto]|intros [[H|[H|[]]]|[H|H]]; [tauto| | |tauto]]; [destruct (decide (x < bp)); [left; right; left|right; left]; lia|right; left; lia|right; left; lia].
    + pose proof (f_equal length EL) as El. rewrite length_app in El |- *. cbn [length] in *. lia.
    + exists p, (r + n1). split; [apply elem_of_app; right; left|]. assert (0 < r) by (rewrite EL in S1; by apply spread_app in S1 as (_ & T & _)). lia.
    + intros y Hy Hyb Hyl. rewrite size_set_ptr, size_set, decide_False; [done|]. intros ->. apply Hyl. apply list_elem_of_fmap. exists (p, r). split; [done|]. pose proof (f_equal (fun l => (p, r) ∈ l) EL) as Ec. cbv beta in Ec. rewrite Ec. apply elem_of_app. right. by apply list_elem_of_singleton.
  - destruct (lower_apart He) as [HC' HS']. exists (L1 ++ (bp, n1) :: M). split_and!; try done.
    + destruct (lastp_in BASE L1) as [E|[m Hm]]; [by left|right]. exists m. apply elem_of_app. by left.
    + intros x. rewrite covers_app. done.
    + rewrite length_app. cbn. lia.
    + exists bp, n1. split; [apply elem_of_app; right; left|lia].
Qed.
End merge.
Lemma disjoint_points b c : 0 < b.2 -> 0 < c.2 -> (forall x, b.1 <= x < plus b.1 b.2 -> ~ (c.1 <= x < plus c.1 c.2)) -> disjoint b c.
Proof.
  intros Hb Hc H. unfold disjoint, plus in *. specialize (H (Z.max b.1 c.1)). lia.
Qed.

Lemma apart_members (A1 A2 : list (Z * Z)) (b : Z * Z) : (forall i j c d, (A1 ++ b :: A2) !! i = Some c -> (A1 ++ b :: A2) !! j = Some d -> i <> j -> disjoint c d) ->
  (forall c, c ∈ A1 ++ A2 -> disjoint c b) /\ (forall i j c d, (A1 ++ A2) !! i = Some c -> (A1 ++ A2) !! j = Some d -> i <> j -> disjoint c d).
Proof.
  intros H. set (sk := fun i => if (i <? length A1)%nat then i else S i). assert (forall i, (A1 ++ b :: A2) !! sk i = (A1 ++ A2) !! i) as Hsk.
  { intros i. unfold sk. destruct (Nat.ltb_spec i (length A1)); [by rewrite !lookup_app_l by lia|]. rewrite !lookup_app_r by lia. by replace (S i - length A1)%nat with (S (i - length A1)) by lia. }
  assert ((A1 ++ b :: A2) !! length A1 = Some b) as Hb by (rewrite lookup_app_r by lia; by rewrite Nat.sub_diag). split.
  - intros c [i Hi]%list_elem_of_lookup_1. rewrite <- Hsk in Hi. apply (H _ _ _ _ Hi Hb). unfold sk. destruct (Nat.ltb_spec i (length A1)); lia.
  - intros i j c d Hi Hj Hne. rewrite <- Hsk in Hi, Hj. apply (H _ _ _ _ Hi Hj). unfold sk. destruct (Nat.ltb_spec i (length A1)), (Nat.ltb_spec j (length A1)); lia.
Qed.

Lemma free_ok k h L A1 bp n A2 brk : heap_ok h L (A1 ++ (bp, n) :: A2) brk -> (length L + 1 < k)%nat -> exists h' L', free k h (bp + 16) = Some h' /\ heap_ok h' L' (A1 ++ A2) brk /\
  (forall x, covers L' x <-> covers L x \/ bp <= x < plus bp n) /\ (length L' <= S (length L))%nat /\ exists a m, (a, m) ∈ L' /\ n <= m.
Proof.
  intros HK Hk. destruct (hk_alloc _ _ _ _ HK bp n) as (Hn & Hlow & Hend & Hsz & Hdis); [apply elem_of_app; right; left|].
  pose proof (hk_base _ _ _ _ HK) as Hbase. pose proof (hk_brk _ _ _ _ HK) as Hbrk. destruct (apart_members _ _ _ (hk_apart _ _ _ _ HK)) as [Hfrom Hapart].
  destruct (spread_split _ _ _ bp n (hk_spread _ _ _ _ HK) ltac:(lia) Hend Hn Hdis) as (L1 & L2 & -> & S1 & S2). pose proof (hk_chain _ _ _ _ HK) as HC.
  pose proof (free_finds HC S1 S2 Hn k (hk_freep _ _ _ _ HK) ltac:(rewrite length_app in Hk; lia)) as Hpos. set (p := lastp BASE L1) in *.
  destruct (upper_ok HC S1 S2 Hn Hbase Hsz Hlow Hend ltac:(lia)) as (n1 & M & E1 & C1 & SM & Hn1 & Hsame & HlM & Hcov1).
  destruct (lower_ok HC S1 Hn Hbase Hlow (proj2 Hbrk) E1 C1 SM Hn1 Hsame) as (L' & HC' & HS' & Hp' & Hb' & Hcov2 & HlL & Hbig & Hsz').
  assert (forall x, covers L' x <-> covers (L1 ++ L2) x \/ bp <= x < plus bp n) as Hcov by (intros x; rewrite Hcov2, Hcov1, covers_app; tauto).
  exists (set_freep p (lower (L1 := L1) (bp := bp) (upper (L1 := L1) (h := h) (bp := bp)))), L'. split_and!; [|split|done|rewrite length_app; lia|done].
  - unfold free. replace (bp + 16 - 16) with bp by lia. rewrite Hpos. done.
  - split; [lia|exact Hb'].
  - apply (chain_frame (lower (L1 := L1) (bp := bp) (upper (L1 := L1) (h := h) (bp := bp)))); done.
  - done.
  - exact Hp'.
  - intros a m Ha. pose proof (Hfrom _ Ha) as Hd. destruct (hk_alloc _ _ _ _ HK a m) as (H1 & H2 & H3 & H4 & H5); [apply elem_of_app in Ha as [?|?]; apply elem_of_app; [by left|right; by right]|].
    unfold disjoint, plus in Hd. cbn [fst snd] in Hd. assert (a <> bp) as Hab by lia. split_and!; [done|done|done| |].
    + change (size (lower (L1 := L1) (bp := bp) (upper (L1 := L1) (h := h) (bp := bp))) a = m). rewrite Hsz'; [|done|done|].
      * rewrite <- H4. by apply Hsame.
      * intros ([a' r] & -> & Hr)%list_elem_of_fmap. specialize (H5 (a', r) ltac:(apply elem_of_app; by left)). destruct (spread_le _ _ _ S1) as [_ HS1]. destruct (HS1 a' r Hr). unfold disjoint, plus in H5. cbn in *. lia.
    + intros b Hb. destruct (spread_le _ _ _ HS') as [_ HS2]. destruct b as [b1 b2]. destruct (HS2 b1 b2 Hb) as (_ & Hb2 & _). apply disjoint_points; [done|done|]. cbn [fst snd]. intros x Hx Hxb.
      assert (covers L' x) as Hc by (by exists (b1, b2)). apply Hcov in Hc as [([c1 c2] & Hc & Hcx)|Hc]; [specialize (H5 _ Hc); unfold disjoint in H5; cbn [fst snd] in *; lia|unfold plus in *; lia].
  - exact Hapart.
  - done.
Qed.
(** ** The search of [malloc] *)

Lemma size_in h p L e a n : chain h p L e -> (a, n) ∈ L -> size h a = n.
Proof. revert p. induction L as [|[c m] L IH]; intros p; [intros _ H; by apply not_elem_of_nil in H|]. intros (_ & H1 & H2) [[= -> ->]|Hx]%elem_of_cons; [done|by apply (IH c)]. Qed.

Lemma skip_block k nu h prev p : size h p < nu -> p <> freep h -> malloc_body k nu (h, prev, p) = mret (inl (h, p, ptr h p)).
Proof. intros H1 H2. unfold malloc_body. by rewrite (proj2 (Z.leb_gt nu (size h p))), (proj2 (Z.eqb_neq p (freep h))). Qed.

(** Through blocks other than [freep]: to the first one that fits, or past
    all of them. *)
Lemma search k nu h M : forall x e, chain h x M e -> freep h ∉ M.*1 ->
  (exists M1 a n M2, M = M1 ++ (a, n) :: M2 /\ nu <= n /\ forall j, ploop (length M1 + j) (malloc_body k nu) (h, x, ptr h x) = ploop j (malloc_body k nu) (h, lastp x M1, a)) \/
  ((forall a n, (a, n) ∈ M -> n < nu) /\ forall j, ploop (length M + j) (malloc_body k nu) (h, x, ptr h x) = ploop j (malloc_body k nu) (h, lastp x M, e)).
Proof.
  induction M as [|[c m] M IH]; intros x e HC Hf.
  - right. split; [intros a n H; by apply not_elem_of_nil in H|]. intros j. by rewrite HC.
  - destruct HC as (H1 & H2 & HC). cbn [fmap list_fmap fst] in Hf. apply not_elem_of_cons in Hf as [Hfc Hf]. destruct (decide (nu <= m)) as [Hfit|Hfit].
    { left. exists [], c, m, M. split_and!; [done|done|]. intros j. by rewrite H1. }
    assert (forall j, ploop (S j) (malloc_body k nu) (h, x, ptr h x) = ploop j (malloc_body k nu) (h, c, ptr h c)) as Hstep.
    { intros j. cbn [ploop]. rewrite H1, skip_block by (congruence || lia). done. }
    destruct (IH c e HC Hf) as [(M1 & a & n & M2 & -> & Hn & Hl)|[Hall Hl]].
    + left. exists ((c, m) :: M1), a, n, M2. split_and!; [done|done|]. intros j. cbn [length Nat.add lastp]. by rewrite Hstep, Hl.
    + right. split; [intros a n [[= -> ->]|Hx]%elem_of_cons; [lia|by apply (Hall a)]|]. intros j. cbn [length Nat.add lastp]. by rewrite Hstep, Hl.
Qed.

Lemma lastp_app p L a n M : lastp p (L ++ (a, n) :: M) = lastp a M.
Proof. revert p. induction L as [|[c d] L IH]; intros b0; cbn [app lastp]; [done|apply IH]. Qed.

(** The whole ring: a block that fits and its predecessor, or [freep] again. *)
Lemma search_ring k nu h L A brk : heap_ok h L A brk -> 0 < nu ->
  (exists i L1 a n L2, L = L1 ++ (a, n) :: L2 /\ nu <= n /\ (i <= S (length L))%nat /\
    forall j, ploop (i + j) (malloc_body k nu) (h, freep h, ptr h (freep h)) = ploop j (malloc_body k nu) (h, lastp BASE L1, a)) \/
  ((forall a n, (a, n) ∈ L -> n < nu) /\ exists i prev, (i <= S (length L))%nat /\
    forall j, ploop (i + j) (malloc_body k nu) (h, freep h, ptr h (freep h)) = ploop j (malloc_body k nu) (h, prev, freep h)).
Proof.
  intros HK Hnu. pose proof (hk_chain _ _ _ _ HK) as HC. destruct (spread_nodup _ _ _ (hk_spread _ _ _ _ HK)) as [Hnd Hlo]. destruct (hk_base _ _ _ _ HK) as [Hb0 Hbs].
  destruct (decide (freep h = BASE)) as [Ef|Hfb].
  - rewrite Ef. destruct (search k nu h L BASE BASE HC) as [(M1 & a & n & M2 & -> & Hn & Hl)|[Hall Hl]]; [rewrite Ef; intros H%Hlo; lia| |].
    + left. exists (length M1), M1, a, n, M2. split_and!; [done|done|rewrite length_app; lia|done].
    + right. split; [done|]. exists (length L), (lastp BASE L). split; [lia|done].
  - destruct (hk_freep _ _ _ _ HK) as [|[m Hf]]; [done|]. apply list_elem_of_split in Hf as (M1 & M2 & ->). rewrite fmap_app in Hnd. cbn [fmap list_fmap fst] in Hnd.
    apply NoDup_app in Hnd as (_ & N1 & N2%NoDup_cons). destruct N2 as [N2 _]. apply hchain_app in HC as (C1 & C2 & C3).
    destruct (search k nu h M2 (freep h) BASE C3 N2) as [(P1 & a & n & P2 & -> & Hn & Hl)|[Hall2 Hl2]].
    { left. exists (length P1), (M1 ++ (freep h, m) :: P1), a, n, P2. rewrite lastp_app. split_and!; [by rewrite <- app_assoc|done|rewrite !length_app; cbn [length]; rewrite !length_app; lia|done]. }
    assert (forall j, ploop (S (length M2) + j) (malloc_body k nu) (h, freep h, ptr h (freep h)) = ploop j (malloc_body k nu) (h, BASE, ptr h BASE)) as Hl3.
    { intros j. replace (S (length M2) + j)%nat with (length M2 + S j)%nat by lia. rewrite Hl2. cbn [ploop]. rewrite skip_block by (congruence || lia). done. }
    destruct (search k nu h M1 BASE (freep h) C1) as [(P1 & a & n & P2 & -> & Hn & Hl)|[Hall1 Hl1]].
    { intros Hx. apply (N1 (freep h) Hx). left. }
    + left. exists (S (length M2) + length P1)%nat, P1, a, n, (P2 ++ (freep h, m) :: M2). split_and!; [by rewrite <- app_assoc|done|rewrite !length_app; cbn [length]; rewrite ?length_app; cbn [length]; lia|].
      intros j. by rewrite <- Nat.add_assoc, Hl3, Hl.
    + assert (forall j, ploop (S (length M2) + length M1 + j) (malloc_body k nu) (h, freep h, ptr h (freep h)) = ploop j (malloc_body k nu) (h, lastp BASE M1, freep h)) as Hl4.
      { intros j. by rewrite <- Nat.add_assoc, Hl3, Hl1. }
      destruct (decide (nu <= m)) as [Hfit|Hfit].
      * left. exists (S (length M2) + length M1)%nat, M1, (freep h), m, M2. split_and!; [done|done|rewrite length_app; cbn [length]; lia|done].
      * right. split; [intros a n [Hx|[[= -> ->]|Hx]%elem_of_cons]%elem_of_app; [by apply (Hall1 a)|lia|by apply (Hall2 a)]|].
        exists (S (length M2) + length M1)%nat, (lastp BASE M1). split; [rewrite length_app; cbn [length]; lia|done].
Qed.
(** ** Taking a block *)

Lemma spread_join lo L1 mid mid' L2 hi : spread lo L1 mid -> mid <= mid' -> spread mid' L2 hi -> spread lo (L1 ++ L2) hi.
Proof.
  intros H1 Hm H2. revert lo H1. induction L1 as [|[a n] L1 IH]; intros lo H1; cbn [app spread] in *; [by eapply spread_lo; [|exact H2]; lia|].
  destruct H1 as (Q1 & Q2 & Q3). split_and!; [done|done|by apply IH].
Qed.

Lemma apart_cons (A : list (Z * Z)) b : (forall i j c d, A !! i = Some c -> A !! j = Some d -> i <> j -> disjoint c d) -> (forall c, c ∈ A -> disjoint b c) ->
  forall i j c d, (b :: A) !! i = Some c -> (b :: A) !! j = Some d -> i <> j -> disjoint c d.
Proof.
  intros H1 H2 [|i] [|j] c d Hi Hj Hne; [done| | |].
  - injection Hi as <-. by apply H2, list_elem_of_lookup_2 with j.
  - injection Hj as <-. destruct (H2 c) as [H|H]; [by apply list_elem_of_lookup_2 with i|by right|by left].
  - by apply (H1 i j); [..|congruence].
Qed.

Section take.
Context {h : heap} {L1 : list (Z * Z)} {a n : Z} {L2 A : list (Z * Z)} {brk nu : Z}.
Context (HK : heap_ok h (L1 ++ (a, n) :: L2) A brk) (Hnu : 0 < nu <= n).
Local Notation prev := (lastp BASE L1).

Lemma take_facts : chain h BASE L1 a /\ size h a = n /\ chain h a L2 BASE /\ spread (BASE + 15) L1 (a - 1) /\ spread (plus a n) L2 brk /\ (forall y, y = BASE \/ y ∈ L1.*1 -> BASE <= y < a) /\
  (forall y, y ∈ L2.*1 -> plus a n < y) /\ BASE + 16 <= a /\ plus a n <= brk /\ (prev = BASE \/ exists m, (prev, m) ∈ L1).
Proof.
  pose proof (hk_chain _ _ _ _ HK) as HC. apply hchain_app in HC as (C1 & C2 & C3). pose proof (hk_spread _ _ _ _ HK) as HS. apply spread_app in HS as (S1 & S2 & S3).
  destruct (spread_le _ _ _ S1) as [Q1 _]. destruct (spread_le _ _ _ S3) as [Q3 _]. split_and!; try done.
  - intros y Hy. pose proof (free_below S1 y Hy). lia.
  - intros y Hy. by apply (spread_nodup _ _ _ S3).
  - lia.
  - apply lastp_in.
Qed.

(** Blocks in use do not change. *)
Lemma take_alloc (h' : heap) (L' : list (Z * Z)) (b : Z) : b = plus a (n - nu) -> (forall y, y <> a -> y <> b -> size h' y = size h y) -> size h' b = nu -> (forall c, c ∈ L' -> c ∈ L1 ++ L2 \/ (c = (a, n - nu) /\ nu < n)) ->
  (forall a0 m, (a0, m) ∈ (b, nu) :: A -> 0 < m /\ BASE + 16 <= a0 /\ plus a0 m <= brk /\ size h' a0 = m /\ forall c, c ∈ L' -> disjoint (a0, m) c) /\
  (forall c, c ∈ A -> disjoint (b, nu) c).
Proof.
  intros Eb Hsz Hszb HL'. destruct take_facts as (C1 & C2 & C3 & S1 & S3 & B1 & B2 & Q1 & Q2 & _).
  assert (forall a0 m, (a0, m) ∈ A -> 0 < m /\ BASE + 16 <= a0 /\ plus a0 m <= brk /\ size h a0 = m /\ disjoint (a0, m) (a, n) /\ forall c, c ∈ L1 ++ L2 -> disjoint (a0, m) c) as HA.
  { intros a0 m H0. destruct (hk_alloc _ _ _ _ HK a0 m H0) as (H1 & H2 & H3 & H4 & H5). split_and!; try done; [apply H5, elem_of_app; right; left|].
    intros c Hc. apply H5. apply elem_of_app in Hc as [Hc|Hc]; apply elem_of_app; [by left|right; by right]. }
  split.
  - intros a0 m [[= -> ->]|H0]%elem_of_cons.
    + subst b. unfold plus in *. split_and!; [lia|lia|lia|done|]. intros [c1 c2] Hc. apply HL' in Hc as [[Hc|Hc]%elem_of_app|[[= -> ->] Hlt]]; unfold disjoint, plus; cbn [fst snd]; [| |lia].
      * destruct (spread_le _ _ _ S1) as [_ H]. destruct (H c1 c2 Hc) as (_ & _ & H'). unfold plus in H'. lia.
      * assert (c1 ∈ L2.*1) as Hc' by (apply list_elem_of_fmap; by exists (c1, c2)). apply B2 in Hc'. lia.
    + destruct (HA a0 m H0) as (H1 & H2 & H3 & H4 & H5 & H6). unfold disjoint, plus in H5. cbn [fst snd] in H5. split_and!; [done|done|done| |].
      * rewrite Hsz; [done|lia|]. subst b. unfold plus. lia.
      * intros c Hc. apply HL' in Hc as [Hc|[-> Hlt]]; [by apply H6|]. unfold disjoint, plus. cbn [fst snd]. lia.
  - intros [c1 c2] Hc. destruct (HA c1 c2 Hc) as (H1 & _ & _ & _ & H5 & _). subst b. unfold disjoint, plus in *. cbn [fst snd] in *. lia.
Qed.

Lemma take_ok k : exists h' p' L', malloc_body k nu (h, prev, a) = mret (inr (h', p')) /\ heap_ok h' L' ((p' - 16, nu) :: A) brk /\ freep h' <> 0 /\ (length L' <= length (L1 ++ (a, n) :: L2))%nat.
Proof.
  destruct take_facts as (C1 & C2 & C3 & S1 & S3 & B1 & B2 & Q1 & Q2 & Hprev). destruct (hk_base _ _ _ _ HK) as [Hb0 Hbs]. pose proof (hk_brk _ _ _ _ HK) as Hbrk.
  assert (BASE <= prev < a) as Hp by (apply B1; destruct Hprev as [->|[m Hm]]; [by left|right; apply list_elem_of_fmap; by exists (prev, m)]).
  unfold malloc_body. rewrite C2, (proj2 (Z.leb_le nu n)) by lia. destruct (Z.eqb_spec n nu) as [En|Hne].
  - set (h' := set_freep prev (set_ptr prev (ptr h a) h)). exists h', (a + 16), (L1 ++ L2). split_and!; [done| |unfold h'; cbn; lia|rewrite !length_app; cbn; lia].
    replace (a + 16 - 16) with a by lia. destruct (take_alloc h' (L1 ++ L2) a) as [T1 T2]; [unfold plus; lia|done|by rewrite <- En|by left|].
    split; [done| |by eapply spread_join; [exact S1| |exact S3]; unfold plus; lia| |done|apply apart_cons; [apply (hk_apart _ _ _ _ HK)|exact T2]|done].
    + assert (forall e, ptr h a = e -> chain h' BASE L1 e) as Hre.
      { intros e He. eapply chain_relink; [| |eapply free_nodup; exact S1| |exact C1]; [|done|].
        - intros y _ Hy. unfold h'. change (ptr (set_ptr prev (ptr h a) h) y = ptr h y). by rewrite ptr_set, decide_False.
        - unfold h'. change (ptr (set_ptr prev (ptr h a) h) prev = e). by rewrite ptr_set, decide_True. }
      destruct L2 as [|[c m] M]; [rewrite app_nil_r; by apply Hre|]. destruct C3 as (D1 & D2 & D3). apply hchain_app. split_and!; [by apply Hre|done|].
      apply (chain_frame h); [|done|done]. intros y Hy. change (ptr (set_ptr prev (ptr h a) h) y = ptr h y). rewrite ptr_set, decide_False; [done|]. intros ->.
      specialize (B2 prev ltac:(cbn; apply elem_of_cons; tauto)). unfold plus in B2. lia.
    + destruct Hprev as [H|[m Hm]]; [by left|right]. exists m. apply elem_of_app. by left.
  - rewrite size_set, decide_True by done. set (b := plus a (n - nu)). set (h' := set_freep prev (set_size b nu (set_size a (n - nu) h))).
    assert (a < b < plus a n) as Hb by (unfold b, plus; lia).
    assert (forall y, y <> a -> y <> b -> size h' y = size h y) as Hsz by (intros y H1 H2; change (size (set_size b nu (set_size a (n - nu) h)) y = size h y); by rewrite !size_set, !decide_False).
    exists h', (b + 16), (L1 ++ (a, n - nu) :: L2). split_and!; [done| |unfold h'; cbn; lia|by rewrite !length_app]. replace (b + 16 - 16) with b by lia.
    destruct (take_alloc h' (L1 ++ (a, n - nu) :: L2) b eq_refl Hsz) as [T1 T2].
    { change (size (set_size b nu (set_size a (n - nu) h)) b = nu). by rewrite size_set, decide_True. }
    { intros c [Hc|[->|Hc]%elem_of_cons]%elem_of_app; [left; apply elem_of_app; by left|right; split; [done|lia]|left; apply elem_of_app; by right]. }
    split; [| | | |done|apply apart_cons; [apply (hk_apart _ _ _ _ HK)|exact T2]|done].
    + split; [done|]. rewrite Hsz; [done|lia|lia].
    + apply hchain_app. split_and!.
      * apply (chain_frame h); [done| |done]. intros y Hy. specialize (B1 y ltac:(auto)). apply Hsz; lia.
      * change (size (set_size b nu (set_size a (n - nu) h)) a = n - nu). rewrite size_set, decide_False, size_set, decide_True by lia. done.
      * apply (chain_frame h); [done| |done]. intros y Hy. specialize (B2 y Hy). apply Hsz; lia.
    + apply spread_app. split_and!; [done|lia|]. eapply spread_lo; [|exact S3]. unfold plus in *. lia.
    + destruct Hprev as [H|[m Hm]]; [by left|right]. exists m. apply elem_of_app. by left.
Qed.
End take.
(** ** [malloc] *)

(** [sbrk] fails or moves the break up and returns the old one. *)
Definition grow : kspec Z := fun X brk c =>
  match c in call X return (X -> Z -> Prop) -> Prop with
  | Sbrk n => fun Q => Q (-1) brk /\ (0 <= n -> brk + n < 2 ^ 36 -> Q brk (brk + n))
  | _ => fun _ => False
  end.
#[export] Instance grow_mono : KMono grow.
Proof. intros X w c Q Q' H. destruct c; cbn; try done. intros [H1 H2]. split; [by apply H|]. intros. by apply H, H2. Qed.

Lemma more_ok h L A brk nu : heap_ok h L A brk -> 0 < nu -> plus brk nu < 2 ^ 36 -> heap_ok (set_size brk nu h) L ([] ++ (brk, nu) :: A) (plus brk nu).
Proof.
  intros HK Hnu Hb. destruct (hk_base _ _ _ _ HK) as [B1 B2]. pose proof (hk_brk _ _ _ _ HK) as Hbrk. destruct (spread_le _ _ _ (hk_spread _ _ _ _ HK)) as [_ HS]. split; cbn [app].
  - split; [done|]. rewrite size_set, decide_False; [done|lia].
  - apply (chain_frame h); [done| |apply (hk_chain _ _ _ _ HK)]. intros y ([a m] & -> & Hy)%list_elem_of_fmap. destruct (HS a m Hy) as (_ & H2 & H3). unfold plus in H3. cbn.
    rewrite size_set, decide_False; [done|lia].
  - eapply spread_hi; [|apply (hk_spread _ _ _ _ HK)]. unfold plus. lia.
  - apply (hk_freep _ _ _ _ HK).
  - intros a m [[= -> ->]|Ha]%elem_of_cons.
    + split_and!; [done|lia|lia|by rewrite size_set, decide_True|]. intros [c1 c2] Hc. right. cbn. apply (HS c1 c2 Hc).
    + destruct (hk_alloc _ _ _ _ HK a m Ha) as (H1 & H2 & H3 & H4 & H5). unfold plus in *. split_and!; [done|done|lia| |done]. rewrite size_set, decide_False; [done|lia].
  - apply apart_cons; [apply (hk_apart _ _ _ _ HK)|]. intros [c1 c2] Hc. right. cbn. apply (hk_alloc _ _ _ _ HK c1 c2 Hc).
  - unfold plus in *. lia.
Qed.

Lemma freep_nonzero h L A brk : heap_ok h L A brk -> freep h <> 0.
Proof.
  intros HK. destruct (hk_base _ _ _ _ HK) as [B1 _]. destruct (hk_freep _ _ _ _ HK) as [->|[m Hm]]; [lia|]. destruct (spread_le _ _ _ (hk_spread _ _ _ _ HK)) as [_ HS]. destruct (HS _ _ Hm). lia.
Qed.

Lemma morecore_wp k h L A brk nu : heap_ok h L A brk -> 0 < nu < 2 ^ 27 -> (length L + 1 < k)%nat ->
  wp grow (morecore k h nu) brk (fun r brk' => brk <= brk' /\ ((r = (h, 0) /\ brk' = brk) \/ exists h' L', r = (h', freep h') /\ heap_ok h' L' A brk' /\ (length L' <= S (length L))%nat /\ exists a m, (a, m) ∈ L' /\ nu <= m))
    (fun _ _ => False).
Proof.
  intros HK Hnu Hk. unfold morecore. set (n := if nu <? 4096 then 4096 else nu). assert (nu <= n /\ 0 < n < 2 ^ 27) as [Hn1 Hn2] by (unfold n; destruct (Z.ltb_spec nu 4096); lia).
  pose proof (hk_brk _ _ _ _ HK) as Hbrk. destruct (hk_base _ _ _ _ HK) as [B1 _]. cbn. split; [cbn; split; [lia|by left]|]. rewrite i32_small by lia. intros _ Hroom.
  rewrite (proj2 (Z.eqb_neq brk (-1))) by lia. pose proof (more_ok h L A brk n HK ltac:(lia) ltac:(unfold plus; lia)) as HK'.
  destruct (free_ok k _ L [] brk n A _ HK' Hk) as (h' & L' & E & HK2 & _ & Hlen & a & m & Ha & Hm). rewrite E. cbn. unfold plus in HK2. rewrite (Z.mul_comm n 16). split; [lia|]. right. exists h', L'.
  split_and!; [done|done|done|]. exists a, m. split; [done|lia].
Qed.

(** A heap with a block that fits needs no more memory. *)
Lemma malloc_fit k nu h L A brk j : heap_ok h L A brk -> 0 < nu -> (exists a m, (a, m) ∈ L /\ nu <= m) -> (length L + 2 < j)%nat ->
  exists h' p L', ploop j (malloc_body k nu) (h, freep h, ptr h (freep h)) = mret (h', p) /\ heap_ok h' L' ((p - 16, nu) :: A) brk /\ (length L' <= length L)%nat.
Proof.
  intros HK Hnu (a & m & Ha & Hm) Hj. destruct (search_ring k nu h L A brk HK Hnu) as [(i & L1 & c & n & L2 & -> & Hn & Hi & Hl)|[Hall _]]; [|specialize (Hall a m Ha); lia].
  destruct (take_ok HK (conj Hnu Hn) k) as (h' & p & L' & E & HK' & _ & Hlen). exists h', p, L'. split_and!; [|done|done].
  replace j with (i + S (j - i - 1))%nat by lia. rewrite Hl. cbn [ploop]. by rewrite E.
Qed.

Lemma malloc_wp k h L A brk nu : heap_ok h L A brk -> 0 < nu < 2 ^ 27 -> (2 * length L + 10 < k)%nat ->
  wp grow (ploop k (malloc_body k nu) (h, freep h, ptr h (freep h))) brk (fun r brk' => brk <= brk' /\ exists L', (length L' <= S (length L))%nat /\
    ((r.2 = 0 /\ heap_ok r.1 L' A brk') \/ heap_ok r.1 L' ((r.2 - 16, nu) :: A) brk')) (fun _ _ => False).
Proof.
  intros HK Hnu Hk. destruct (search_ring k nu h L A brk HK ltac:(lia)) as [(i & L1 & c & n & L2 & E & Hn & Hi & _)|[Hall (i & prev & Hi & Hl)]].
  - destruct (malloc_fit k nu h L A brk k HK ltac:(lia)) as (h' & p & L' & Er & HK' & Hlen); [exists c, n; split; [|done]; rewrite E; apply elem_of_app; right; left|lia|].
    rewrite Er. cbn. split; [lia|]. exists L'. split; [lia|by right].
  - replace k with (i + S (k - i - 1))%nat at 1 by lia. rewrite Hl. cbn [ploop]. apply wp_bind. unfold malloc_body at 1.
    assert (size h (freep h) < nu) as Hf.
    { destruct (hk_freep _ _ _ _ HK) as [->|[m Hm]]; [rewrite (proj2 (hk_base _ _ _ _ HK)); lia|]. rewrite (size_in _ _ _ _ _ _ (hk_chain _ _ _ _ HK) Hm). by apply (Hall (freep h)). }
    rewrite (proj2 (Z.leb_gt nu (size h (freep h))) Hf), Z.eqb_refl. apply wp_bind. eapply wp_mono; [| |apply (morecore_wp k h L A brk nu HK Hnu); lia]; [|done].
    intros [h1 r] brk1 [Hle [[[= -> ->] ->]|(h' & L' & [= -> ->] & HK' & Hlen & Hbig)]].
    + cbn. split; [lia|]. exists L. split; [lia|by left].
    + rewrite (proj2 (Z.eqb_neq _ 0)) by (by eapply freep_nonzero). cbn [wp mret prog_ret].
      destruct (malloc_fit k nu h' L' A brk1 (k - i - 1) HK' ltac:(lia) Hbig ltac:(lia)) as (h2 & p & L2 & Er & HK2 & Hlen2). rewrite Er. cbn. split; [done|]. exists L2. split; [lia|by right].
Qed.
End base.

(** ** Theorems *)

(** A process that has not allocated yet, or one whose heap is in order. *)
Definition heap_or_new (BASE : Z) (h : heap) (L A : list (Z * Z)) (brk : Z) : Prop :=
  heap_ok BASE h L A brk \/ (freep h = 0 /\ L = [] /\ A = [] /\ 0 < BASE /\ BASE + 16 <= brk < 2 ^ 36).


Definition new_heap : heap := MkHeap ∅ ∅ 0.

